(* ===== verification/_CoqProject ===== *)
-Q . S2P
Prelude.v
Kstring.v
Fd.v
Ringbuf.v
Keyboard.v
Hashtable.v
FrameAlloc.v
FrameDecref.v
Kasan.v
Heap.v
Alloc.v
Timer.v
FsOps.v
Ramfs.v
RamfsProofs.v
RamfsData.v
RamfsSpec.v
RamfsSafe.v
Vfs.v
VfsPath.v
VfsFd.v
VfsProofs.v
VfsPathProofs.v
VfsSafe.v
VfsCalls.v
VfsPathCalls.v
VfsFork.v
VfsSpec.v
VfsRamfs.v
Block.v
Journal.v
JournalReplay.v
JournalProofs.v
JournalSpec.v
JournalIo.v
Ext2Disk.v
Ext2.v
Ext2Io.v
Ext2Inv.v
Ext2Table.v
Ext2Alloc.v
Ext2Data.v
Ext2Write.v
Ext2Dents.v
Ext2DirOps.v
Ext2Names.v
Ext2Spec.v
Ext2Example.v
Proc.v
Sched.v
SchedFrame.v
SchedProofs.v
SchedSpec.v
SchedSwitch.v
SchedRun.v
Signal.v
ProcCalls.v
LifeInv.v
LifeSignal.v
LifeEnd.v
LifeBuild.v
LifeFork.v
LifeCreate.v
LifeSpec.v
Pipe.v
Paging.v
PagingProofs.v
PagingOps.v
PagingBoot.v
PagingDestroy.v
ProcessMm.v
ProcessMmProofs.v
ProcessMmPurge.v
ProcessMmShare.v
ProcessMmClone.v
MmSpec.v
Uaccess.v
UaccessProofs.v
SysMem.v
