(* ===== verification/Prelude.v ===== *)
(** * UnixOS kernel: a shallow embedding and its correctness theorems

    UnixOS is a Unix-like operating system for i686, written in C.  This
    library models its kernel as Rocq functions and proves what the code
    promises.  File names below are relative to src/src/kernel, headers to
    src/include/kernel.

    ** How the code is modelled

    A C function is a program of the state and fault monad [ST] of this file:
    it gets the state of its component and returns a result and a new state,
    or a fault.  [Undef] is undefined behaviour in C (an access outside an
    object, signed overflow, NULL), [Panic] is kernel_panic, [NoFuel] never
    occurs in a theorem: where a loop of the code is not bounded, the lemma
    about it gives a number of rounds that is enough.  Integers are [Z] with
    the wrap-around of their width written out ([u8] to [u64], [s32]), arrays
    are lists with checked access ([rd], [wr], [copy_in], [copy_out]), a
    pointer is an address, 0 for NULL, and objects live in finite maps from
    addresses.  Error paths return the negative errno of uapi/errno.def.

    A spinlock or disabled preemption makes the code it covers one step.
    Where code sleeps in between (pipes, waitpid) it is cut at the call of
    schedule() and the pieces are steps that may interleave.  Hardware and
    code a component only calls enter as classes with laws ([Kmalloc],
    [BlockDevice], [FsSafe], [AddressSpaces], [Userland], [SpacesLaws],
    [KernelImage], [BoundedFifo]): clients are proved against the laws, and an
    instance shows that they can hold.

    Proofs go through the predicate transformer [wp] of this file: [wp m Q s]
    says that [m] returns from [s], without a fault, in a state that satisfies
    [Q].  So every theorem of the form [wp] or "exists r s', m s = Ok (r, s')"
    includes termination and the absence of undefined behaviour.

    ** The components

    - Strings and bytes.  [Kstring]: lib/kstring.c; the copy, length and order
      of the strings the buffers hold.
    - Data structures.  [Ringbuf] (ringbuf.h) refines a bounded queue and is
      the [BoundedFifo] of [Keyboard] (drivers/input/keyboard.c); [Hashtable]
      (lib/hashtable.c) refines a finite map.
    - Physical memory.  [FrameAlloc], [FrameDecref] (mm/frame_alloc.c): no frame
      is handed out twice, and counts are exact.
    - Kernel heap.  [Kasan] (lib/kasan.c) and [Heap] (mm/heap.c): allocations
      are fresh and disjoint, free coalesces, overruns are detected; [Alloc] is
      what kmalloc promises its callers, discharged by the heap.
    - Virtual memory.  [Paging], with its proofs in [PagingProofs], [PagingOps],
      [PagingBoot], [PagingDestroy] (mm/page_dir.c, mm/cow_temp.c), and
      [ProcessMm] with [ProcessMmProofs], [ProcessMmPurge], [ProcessMmShare],
      [ProcessMmClone] (mm/process_mm.c, mm/mmap_file.c): [MmSpec] shows that in
      every reachable state user pages map pool frames only, that clones share
      pages copy-on-write and that a fault isolates them.  [Uaccess],
      [UaccessProofs] (mm/uaccess.c): copies across the user boundary.
      [SysMem] (syscalls/sys_mem.c): the memory calls.
    - File systems.  [FsOps] is the vtable of fs_internal.h.  [Ramfs] with
      [RamfsProofs], [RamfsData], [RamfsSafe], [RamfsSpec] (fs/ramfs.c,
      fs/ramfs_ops.c) implements it.  [Fd], [Vfs], [VfsPath], [VfsFd] with
      [VfsProofs], [VfsPathProofs], [VfsSafe], [VfsCalls], [VfsPathCalls],
      [VfsFork] (fs/vfs_core.c, vfs_mount.c, vfs_path.c, vfs_fd.c) are proved
      against the interface in [VfsSpec]; [VfsRamfs] puts both together.
    - Disks.  [Block] (block.h, drivers/block/block.c) with a model of a
      volatile write cache; [Journal], [JournalReplay], [JournalProofs],
      [JournalSpec] (fs/journal.c): transactions are atomic whatever requests
      fail and whenever power is lost; [JournalIo]: on a device that does not
      fail the transaction of one block writes it or runs out of memory.
    - Clock.  [Timer] (core/timer.c, timer.h).
    - ext2.  [Ext2Disk] (fs/ext2_ondisk.h) has the structures, [Ext2] the driver
      and its operations (fs/ext2.c, fs/ext2_ops.c).  [Ext2Io] reads and writes
      blocks of a mounted file system, [Ext2Inv] is its consistency, [Ext2Table]
      inodes, [Ext2Alloc] bitmaps, [Ext2Data], [Ext2Write] files,
      [Ext2Dents], [Ext2DirOps], [Ext2Names] directories; [Ext2Spec]
      proves the operations against an abstract file system of files and
      directories, and [Ext2Example] mounts an image and runs them.
    - Pipes.  [Pipe] (ipc/pipe.c): a FIFO stream under every interleaving,
      without lost wakeups.
    - Processes.  [Proc] is the state, [Sched] the scheduler (core/sched.c) with
      [SchedFrame], [SchedProofs], [SchedSpec], [SchedSwitch], [SchedRun];
      [Signal] (core/waitq.c, signal.c, alarm.c and the end of a process) and
      [ProcCalls] (core/fork.c, cred.c, jobctl.c, priority.c, stack_canary.c,
      syscalls/sys_proc.c) are the calls; [LifeInv] is the invariant of the
      process table, kept by every call as [LifeSignal], [LifeEnd], [LifeBuild],
      [LifeFork], [LifeCreate] show; [LifeSpec] states the theorems.

    How they interact: processes use the heap through [Kmalloc], address
    spaces through [AddressSpaces] and open files and user memory through
    [Userland]; the VFS uses file systems through [FsOps]; ext2 writes its
    blocks through the journal and reads the clock; the journal uses the heap
    and a block device; paging uses the frame allocator itself and the
    heap through [Kmalloc].

    ** What the theorems show

    Invariants of all reachable states with progress (the VFS, address spaces,
    the scheduler, the process calls, ramfs), refinements (queue, map, journal,
    copy-on-write clones, ext2 against an abstract file system), round trips
    (write and read through the VFS and in ext2, map and translate, copies to
    user memory), the functional behaviour of single calls
    on every branch (fork, waitpid, schedule, lookups, path walk), and
    properties the code does not have, stated as theorems about what it does
    instead ([fork_gives_root], [schedule_idles], [unqueued_never_runs],
    [destroy_drops_foreign_counts], [copy_to_user_writes_kernel]).

    ** Bounds

    The scheduler and the process calls are proved on one CPU; the definitions
    take the CPU as an argument and include work stealing.  Pids are assumed
    below 2^31, since the code never reuses them.  The loop of sys_waitpid is
    given two passes, which is enough: between two calls of schedule() the
    second pass finds what ended the first.  ext2 is proved for block sizes of
    1024 to 4096 bytes on a device that does not fail, since a failed write of
    the superblock is not reported; every allocation of memory may fail.  Its
    loops over blocks and entries are given as many rounds as there are bytes
    or blocks.  The theorems start from a mounted file system; that ext2_mount
    leads to one is shown on the image of [Ext2Example].  They say nothing of a
    truncation that ends in -ENOMEM, nor of ext2_readdir_chunk, whose cursor the
    code does not check: PROJECT.json lists the errors there.

    ** Not modelled

    - boot/, arch/x86, irq, init/error_handler.c, mm/paging.asm: assembly,
      descriptor tables, interrupt controllers and ACPI.  They act on registers
      of the processor and of devices.
    - init/smp.c, smp_bringup.c, percpu.c, core/ipi.c, spinlock.h, lib/rcu.c: code
      whose point is that several processors run at once.
    - drivers/bus/pci.c, drivers/block/virtio_blk.c, drivers/tty, drivers/video,
      drivers/serial.c, drivers/timer/pit.c: ports and shared rings.  The class
      [BlockDevice] states what the kernel relies on.
    - core/exec.c, core/init_launch.c, fs/elf_loader.c: they load images that the
      build makes and enter user mode.  fs/initramfs.c, fs/cpio_parse.c,
      fs/userspace_bins.h, fs/libs_data.h: such images and their unpacking.
    - mm/slub.c, mm/memory.c: kmalloc is the class [Kmalloc] with the heap behind
      it, without the slabs in front of it.
    - lib/lockdep.c, lib/random.c, lib/kprintf.c: diagnostics, a seed, output.
    - syscalls/sys_fs.c, sys_time.c, sys_misc.c, syscall_table.c, core/limits.c:
      copies between user memory and operations that are modelled.
    - vfs_mount_ext2_at of fs/vfs_core.c, which mounts ext2 next to ramfs.
    - src/lib and src/userspace: the C library, the dynamic linker and the
      programs, behind the system calls. *)

From stdpp Require Import base tactics numbers list gmap.

#[global] Open Scope Z_scope.

(** ** Machine integers

    A w-bit unsigned integer is a [Z] in [0, 2^w); every C operation that can
    leave the range is followed by the wrap-around written out. *)

Definition u8 (x : Z) : Z := x mod 256.
Definition u16 (x : Z) : Z := x mod 65536.
Definition u32 (x : Z) : Z := x mod 4294967296.
Definition u64 (x : Z) : Z := x mod 18446744073709551616.

(** Reinterpretation of a 32-bit pattern as a two's complement [int32_t]. *)
Definition s32 (x : Z) : Z :=
  let y := u32 x in if y <? 2147483648 then y else y - 4294967296.

Definition is_u8 (x : Z) : Prop := 0 <= x < 256.
Definition is_u16 (x : Z) : Prop := 0 <= x < 65536.
Definition is_u32 (x : Z) : Prop := 0 <= x < 4294967296.

Lemma u32_range x : is_u32 (u32 x).
Proof. unfold is_u32, u32. apply Z.mod_pos_bound. lia. Qed.

Lemma u32_id x : is_u32 x -> u32 x = x.
Proof. unfold is_u32, u32. intros. by apply Z.mod_small. Qed.

Lemma u8_range x : is_u8 (u8 x).
Proof. unfold is_u8, u8. apply Z.mod_pos_bound. lia. Qed.

Lemma u8_id x : is_u8 x -> u8 x = x.
Proof. unfold is_u8, u8. intros. by apply Z.mod_small. Qed.

Lemma s32_small x : 0 <= x < 2147483648 -> s32 x = x.
Proof.
  intros H. unfold s32. rewrite u32_id by (unfold is_u32; lia).
  destruct (Z.ltb_spec x 2147483648); lia.
Qed.

Lemma s32_id x : -2147483648 <= x < 2147483648 -> s32 x = x.
Proof.
  intros Hx. destruct (decide (0 <= x)); [apply s32_small; lia|]. unfold s32.
  assert (u32 x = x + 4294967296) as -> by (unfold u32; rewrite <- (Z_mod_plus_full x 1), Z.mod_small; lia).
  destruct (Z.ltb_spec (x + 4294967296) 2147483648); lia.
Qed.

(** Masking with [2^k - 1] is reduction modulo [2^k]. *)
Lemma land_pow2_mask x k : 0 <= k -> Z.land x (2 ^ k - 1) = x mod 2 ^ k.
Proof.
  intros Hk. replace (2 ^ k - 1) with (Z.ones k).
  - by apply Z.land_ones.
  - rewrite Z.ones_equiv. lia.
Qed.

(** Clearing the [k] low bits rounds down to a multiple of [2^k]. *)
Lemma land_lnot_mask x k :
  is_u32 x -> 0 <= k <= 32 -> Z.land x (u32 (Z.lnot (2 ^ k - 1))) = x / 2 ^ k * 2 ^ k.
Proof.
  intros Hx Hk. assert (u32 (Z.lnot (2 ^ k - 1)) = Z.ldiff (Z.ones 32) (Z.ones k)) as ->.
  { unfold u32. change 4294967296 with (2 ^ 32). rewrite <- Z.land_ones, Z.land_comm by lia.
    rewrite Z.ldiff_land. do 2 f_equal. rewrite Z.ones_equiv. lia. }
  rewrite Z.ldiff_land, Z.land_assoc, Z.land_ones, <- Z.ldiff_land by lia.
  rewrite Z.mod_small by apply Hx. rewrite Z.ldiff_ones_r by lia.
  by rewrite Z.shiftl_mul_pow2, Z.shiftr_div_pow2 by lia.
Qed.

(** Low bits next to a multiple of [2^k]. *)
Lemma lor_low a b k : 0 <= k -> 0 <= b < 2 ^ k -> Z.lor (a * 2 ^ k) b = a * 2 ^ k + b.
Proof.
  intros Hk Hb. assert (Z.land (a * 2 ^ k) b = 0) as H0.
  { rewrite <- (Z.mod_small b (2 ^ k)) by done. rewrite <- Z.land_ones by done.
    rewrite (Z.land_comm b), Z.land_assoc, Z.land_ones, Z.mod_mul by lia. done. }
  rewrite <- Z.lxor_lor, Z.add_nocarry_lxor by done. done.
Qed.

(** A pattern with no bit at or above [m] is below [2^m]. *)
Lemma bits_bound x m : 0 <= m -> (forall n, m <= n -> Z.testbit x n = false) -> 0 <= x < 2 ^ m.
Proof.
  intros Hm H. replace x with (x mod 2 ^ m); [apply Z.mod_pos_bound; lia|].
  apply Z.bits_inj'. intros n Hn. destruct (decide (n < m)).
  - by apply Z.mod_pow2_bits_low.
  - rewrite Z.mod_pow2_bits_high by lia. symmetry. apply H. lia.
Qed.

Lemma u32_of_bits x : (forall n, 32 <= n -> Z.testbit x n = false) -> is_u32 x.
Proof. exact (bits_bound x 32 ltac:(lia)). Qed.

Lemma u32_high_bits x n : is_u32 x -> 32 <= n -> Z.testbit x n = false.
Proof.
  intros Hx Hn. rewrite <- (Z.mod_small x (2 ^ 32)) by apply Hx.
  apply Z.mod_pow2_bits_high. lia.
Qed.

(** ** Error numbers (uapi/errno.def) *)

Definition EPERM := 1.
Definition ENOENT := 2.
Definition ESRCH := 3.
Definition EINTR := 4.
Definition EIO := 5.
Definition ENOEXEC := 8.
Definition EBADF := 9.
Definition ECHILD := 10.
Definition EAGAIN := 11.
Definition ENOMEM := 12.
Definition EACCES := 13.
Definition EFAULT := 14.
Definition EBUSY := 16.
Definition EEXIST := 17.
Definition EXDEV := 18.
Definition ENODEV := 19.
Definition ENOTDIR := 20.
Definition EISDIR := 21.
Definition EINVAL := 22.
Definition ENFILE := 23.
Definition EMFILE := 24.
Definition ENOTTY := 25.
Definition EFBIG := 27.
Definition ENOSPC := 28.
Definition ESPIPE := 29.
Definition EROFS := 30.
Definition EPIPE := 32.
Definition ERANGE := 34.
Definition ENAMETOOLONG := 36.
Definition ENOSYS := 38.
Definition ENOTEMPTY := 39.
Definition ELOOP := 40.
Definition EOVERFLOW := 75.
Definition E2BIG := 7.

(** ** Record update

    [mkset eta f] is the setter of the field [f] of a record, from the
    eta-expansion [eta] of its values. *)

Ltac mkset eta f :=
  let t := eval cbv delta [eta] in eta in
  match eval pattern f in t with
  | ?g _ => exact (fun v => g (fun _ => v))
  end.

(** ** Boolean tests of the code, reflected *)

Create HintDb kernel discriminated.

Ltac bool_case :=
  repeat match goal with
  | H : (_ && _)%bool = true |- _ => apply andb_true_iff in H; destruct H
  | H : (_ || _)%bool = false |- _ => apply orb_false_iff in H; destruct H
  | H : negb _ = true |- _ => apply negb_true_iff in H
  | H : negb _ = false |- _ => apply negb_false_iff in H
  | H : (_ =? _) = true |- _ => apply Z.eqb_eq in H
  | H : (_ =? _) = false |- _ => apply Z.eqb_neq in H
  | H : (_ <? _) = true |- _ => apply Z.ltb_lt in H
  | H : (_ <? _) = false |- _ => apply Z.ltb_ge in H
  | H : (_ <=? _) = true |- _ => apply Z.leb_le in H
  | H : (_ <=? _) = false |- _ => apply Z.leb_gt in H
  end.

Lemma eqb_bool_decide a b : (a =? b) = bool_decide (a = b).
Proof. case_bool_decide; [by apply Z.eqb_eq|by apply Z.eqb_neq]. Qed.

(** ** Effects

    Stateful C code is a function from a state to a [result].  A [fault] is
    what the C abstract machine does not define ([Undef]: an access outside an
    object), what the kernel itself refuses to survive ([Panic]:
    [kernel_panic]), or a loop that used up the bound given to it ([NoFuel]).
    The theorems show that none of the three happens. *)

Inductive fault := Undef | Panic | NoFuel.

Inductive result (A : Type) :=
| Ok (a : A)
| Err (f : fault).
Arguments Ok {A} a.
Arguments Err {A} f.

Definition ST (S A : Type) : Type := S -> result (A * S).

Definition ret {S A} (a : A) : ST S A := fun s => Ok (a, s).

Definition bind {S A B} (m : ST S A) (k : A -> ST S B) : ST S B := fun s =>
  match m s with
  | Ok (a, s') => k a s'
  | Err e => Err e
  end.

Declare Scope st_scope.
Notation "x ← m ; k" := (bind m (fun x => k))
  (at level 20, m at level 100, k at level 200, only parsing) : st_scope.
Notation "' p ← m ; k" := (bind m (fun x => match x with p => k end))
  (at level 20, p pattern, m at level 100, k at level 200, only parsing) : st_scope.
Notation "m ;; k" := (bind m (fun _ => k))
  (at level 100, k at level 200, only parsing, right associativity) : st_scope.
#[global] Open Scope st_scope.

Definition fail {S A} (f : fault) : ST S A := fun _ => Err f.
Definition gets {S A} (f : S -> A) : ST S A := fun s => Ok (f s, s).
Definition modify {S} (f : S -> S) : ST S unit := fun s => Ok (tt, f s).

(** An operation of a component run on the part of a larger state that holds
    the component. *)
Definition zoom {S T A} (get : S -> T) (put : T -> S -> S) (m : ST T A) : ST S A :=
  fun s => match m (get s) with
           | Ok (a, t) => Ok (a, put t s)
           | Err e => Err e
           end.

(** Array accesses: outside the object the behaviour is undefined. *)
Definition in_bounds {A} (l : list A) (i : Z) : bool :=
  (0 <=? i) && (i <? Z.of_nat (length l)).

Definition rd {S A} (l : list A) (i : Z) : ST S A :=
  if in_bounds l i
  then match l !! Z.to_nat i with Some x => ret x | None => fail Undef end
  else fail Undef.

Definition wr {S A} (l : list A) (i : Z) (x : A) : ST S (list A) :=
  if in_bounds l i then ret (<[Z.to_nat i := x]> l) else fail Undef.

(** Equations that run a program one command at a time. *)
Lemma bind_ok {S A B} (m : ST S A) (k : A -> ST S B) s a s' :
  m s = Ok (a, s') -> bind m k s = k a s'.
Proof. intros E. unfold bind. by rewrite E. Qed.

Lemma bind_err {S A B} (m : ST S A) (k : A -> ST S B) s e :
  m s = Err e -> bind m k s = Err e.
Proof. intros E. unfold bind. by rewrite E. Qed.

Lemma bind_gets {S A B} (f : S -> A) (k : A -> ST S B) s :
  bind (gets f) k s = k (f s) s.
Proof. done. Qed.

Lemma bind_modify {S B} (f : S -> S) (k : unit -> ST S B) s :
  bind (modify f) k s = k tt (f s).
Proof. done. Qed.

Lemma bind_ret {S A B} (a : A) (k : A -> ST S B) s : bind (ret a) k s = k a s.
Proof. done. Qed.

Lemma bind_assoc {S A B C} (m : ST S A) (k : A -> ST S B) (h : B -> ST S C) s :
  bind (bind m k) h s = bind m (fun a => bind (k a) h) s.
Proof. unfold bind. by destruct (m s) as [[a s']|]. Qed.

Lemma if_app {A B} (b : bool) (f g : A -> B) x :
  (if b then f else g) x = if b then f x else g x.
Proof. by destruct b. Qed.

Create Rewrite HintDb st.
#[export] Hint Rewrite @bind_gets @bind_modify @bind_ret : st.

(** Runs the reads and writes at the front of a program. *)
Ltac run := autorewrite with st; cbv beta.

(** [wp m Q s]: running [m] from [s] terminates without a fault in a value and
    a state that satisfy [Q]. *)
Definition wp {S A} (m : ST S A) (Q : A -> S -> Prop) (s : S) : Prop :=
  match m s with
  | Ok (a, s') => Q a s'
  | Err _ => False
  end.

Lemma wp_ret {S A} (a : A) Q (s : S) : wp (ret a) Q s <-> Q a s.
Proof. done. Qed.

Lemma wp_bind {S A B} (m : ST S A) (k : A -> ST S B) Q (s : S) :
  wp (bind m k) Q s <-> wp m (fun a s' => wp (k a) Q s') s.
Proof. unfold wp, bind. by destruct (m s) as [[a s']|]. Qed.

Lemma wp_mono {S A} (m : ST S A) (Q Q' : A -> S -> Prop) (s : S) :
  wp m Q s -> (forall a s', Q a s' -> Q' a s') -> wp m Q' s.
Proof. unfold wp. destruct (m s) as [[a s']|]; auto. Qed.

Lemma wp_gets {S A} (f : S -> A) Q (s : S) : wp (gets f) Q s <-> Q (f s) s.
Proof. done. Qed.

Lemma wp_modify {S} (f : S -> S) Q (s : S) : wp (modify f) Q s <-> Q tt (f s).
Proof. done. Qed.

Lemma wp_zoom {S T A} (get : S -> T) (put : T -> S -> S) (m : ST T A) Q (s : S) :
  wp (zoom get put m) Q s <-> wp m (fun a t => Q a (put t s)) (get s).
Proof. unfold wp, zoom. by destruct (m (get s)) as [[a t]|]. Qed.

Lemma wp_elim {S A} (m : ST S A) (Q : A -> S -> Prop) (s : S) :
  wp m Q s <-> exists a s', m s = Ok (a, s') /\ Q a s'.
Proof.
  unfold wp. destruct (m s) as [[a s']|].
  - split; [eauto | intros (? & ? & [= -> ->] & ?); auto].
  - split; [done | by intros (? & ? & ? & ?)].
Qed.

Lemma in_bounds_spec {A} (l : list A) i :
  in_bounds l i = true <-> 0 <= i < Z.of_nat (length l).
Proof. unfold in_bounds. rewrite andb_true_iff, Z.leb_le, Z.ltb_lt. lia. Qed.

Lemma rd_ok {S A} (l : list A) i x (s : S) :
  0 <= i -> l !! Z.to_nat i = Some x -> rd l i s = Ok (x, s).
Proof.
  intros Hi Hx. unfold rd. pose proof (lookup_lt_Some _ _ _ Hx).
  rewrite (proj2 (in_bounds_spec l i)) by lia. by rewrite Hx.
Qed.

Lemma wr_ok {S A} (l : list A) i x (s : S) :
  0 <= i < Z.of_nat (length l) -> wr l i x s = Ok (<[Z.to_nat i := x]> l, s).
Proof. intros. unfold wr. by rewrite (proj2 (in_bounds_spec l i)). Qed.

(** ** Arrays of bytes and words *)

Definition nthZ (l : list Z) (i : Z) : Z := default 0 (l !! Z.to_nat i).

Lemma rd_nthZ {S} (l : list Z) i (s : S) :
  0 <= i < Z.of_nat (length l) -> rd l i s = Ok (nthZ l i, s).
Proof.
  intros Hi. destruct (lookup_lt_is_Some_2 l (Z.to_nat i)) as [x Hx]; [lia|].
  erewrite rd_ok by (done || lia). unfold nthZ. by rewrite Hx.
Qed.

Lemma nthZ_insert l i j x :
  0 <= i < Z.of_nat (length l) -> 0 <= j ->
  nthZ (<[Z.to_nat i := x]> l) j = if decide (i = j) then x else nthZ l j.
Proof.
  intros Hi Hj. unfold nthZ. case_decide as E.
  - subst. rewrite list_lookup_insert_eq by lia. done.
  - rewrite list_lookup_insert_ne by lia. done.
Qed.

(** The [n] elements that start at index [start] of an array used as a ring. *)
Definition ring_get (l : list Z) (start n : Z) : list Z :=
  (fun i => nthZ l ((start + i) mod Z.of_nat (length l))) <$> seqZ 0 n.

Lemma length_ring_get l start n : length (ring_get l start n) = Z.to_nat n.
Proof. unfold ring_get. by rewrite length_fmap, length_seqZ. Qed.

Lemma ring_get_app l start a b :
  0 <= a -> 0 <= b ->
  ring_get l start (a + b) =
  ring_get l start a ++ ring_get l ((start + a) mod Z.of_nat (length l)) b.
Proof.
  intros Ha Hb. unfold ring_get. rewrite seqZ_app by lia.
  rewrite fmap_app. f_equal. replace (0 + a) with (a + 0) by lia.
  rewrite <- (fmap_add_seqZ a 0 b), <- list_fmap_compose.
  apply list_fmap_ext. intros _ i _. simpl. f_equal.
  rewrite Zplus_mod_idemp_l. f_equal. lia.
Qed.

Lemma ring_get_one l start :
  ring_get l start 1 = [nthZ l (start mod Z.of_nat (length l))].
Proof. unfold ring_get. simpl. by rewrite Z.add_0_r. Qed.

Lemma ring_get_ext l l' start n :
  length l = length l' ->
  (forall i, 0 <= i < n ->
     nthZ l ((start + i) mod Z.of_nat (length l)) =
     nthZ l' ((start + i) mod Z.of_nat (length l))) ->
  ring_get l start n = ring_get l' start n.
Proof.
  intros Hl He. unfold ring_get. rewrite <- Hl.
  apply list_fmap_ext. intros k i Hk.
  apply He. apply lookup_seqZ in Hk. lia.
Qed.

(** Two ring positions less than a turn apart are different cells. *)
Lemma ring_pos_ne size start i j :
  0 < size -> 0 <= i -> i < j -> j < i + size ->
  (start + i) mod size <> (start + j) mod size.
Proof.
  intros Hs Hi Hij Hj E.
  assert ((j - i) mod size = 0) as Hz.
  { replace (j - i) with ((start + j) - (start + i)) by lia.
    rewrite Zminus_mod, E, Z.sub_diag. by apply Z.mod_0_l; lia. }
  rewrite Z.mod_small in Hz by lia. lia.
Qed.

(** ** Lists *)

Lemma filter_id {A} (P : A -> Prop) {Hdec : forall x, Decision (P x)} (l : list A) :
  (forall x, x ∈ l -> P x) -> filter P l = l.
Proof.
  induction l as [|x l IH]; intros Hall; [done|].
  rewrite filter_cons_True by (apply Hall; left). f_equal. apply IH.
  intros. apply Hall. by right.
Qed.

(** ** Copies between arrays *)

Lemma list_eq_nthZ (l l' : list Z) :
  length l = length l' ->
  (forall i, 0 <= i < Z.of_nat (length l) -> nthZ l i = nthZ l' i) -> l = l'.
Proof.
  intros Hl H. apply (list_eq_same_length _ _ (length l)); [done|done|].
  intros i x y Hi Hx Hy. specialize (H (Z.of_nat i) ltac:(lia)). unfold nthZ in H.
  rewrite Nat2Z.id, Hx, Hy in H. done.
Qed.

Lemma nthZ_app l l' i :
  0 <= i -> nthZ (l ++ l') i =
  if i <? Z.of_nat (length l) then nthZ l i else nthZ l' (i - Z.of_nat (length l)).
Proof.
  intros Hi. unfold nthZ. destruct (Z.ltb_spec i (Z.of_nat (length l))).
  - by rewrite lookup_app_l by lia.
  - rewrite lookup_app_r by lia. do 2 f_equal. lia.
Qed.

Lemma nthZ_take l n i : 0 <= i < n -> nthZ (take (Z.to_nat n) l) i = nthZ l i.
Proof. intros Hi. unfold nthZ. by rewrite lookup_take_lt by lia. Qed.

Lemma nthZ_drop l n i : 0 <= n -> 0 <= i -> nthZ (drop (Z.to_nat n) l) i = nthZ l (n + i).
Proof. intros Hn Hi. unfold nthZ. rewrite lookup_drop. do 2 f_equal. lia. Qed.

Lemma nthZ_ring_get l s n i :
  0 <= i < n -> nthZ (ring_get l s n) i = nthZ l ((s + i) mod Z.of_nat (length l)).
Proof.
  intros Hi. unfold nthZ at 1, ring_get. rewrite list_lookup_fmap, lookup_seqZ_lt by lia.
  simpl. do 3 f_equal. lia.
Qed.

(** [kmemcpy(&src[pos], n)] as a value: the [n] bytes at [pos]. *)
Definition copy_out {S} (src : list Z) (pos n : Z) : ST S (list Z) :=
  if (0 <=? pos) && (0 <=? n) && (pos + n <=? Z.of_nat (length src))
  then ret (take (Z.to_nat n) (drop (Z.to_nat pos) src)) else fail Undef.

(** [kmemcpy(&dst[pos], bs)]. *)
Definition splice (dst : list Z) (pos : Z) (bs : list Z) : list Z :=
  take (Z.to_nat pos) dst ++ bs ++ drop (Z.to_nat pos + length bs) dst.

Definition copy_in {S} (dst : list Z) (pos : Z) (bs : list Z) : ST S (list Z) :=
  if (0 <=? pos) && (pos + Z.of_nat (length bs) <=? Z.of_nat (length dst))
  then ret (splice dst pos bs) else fail Undef.

Lemma copy_out_ok {S} src pos n (s : S) :
  0 <= pos -> 0 <= n -> pos + n <= Z.of_nat (length src) ->
  copy_out src pos n s = Ok (take (Z.to_nat n) (drop (Z.to_nat pos) src), s).
Proof.
  intros. unfold copy_out. rewrite !(proj2 (Z.leb_le _ _)) by lia. done.
Qed.

Lemma copy_in_ok {S} dst pos bs (s : S) :
  0 <= pos -> pos + Z.of_nat (length bs) <= Z.of_nat (length dst) ->
  copy_in dst pos bs s = Ok (splice dst pos bs, s).
Proof. intros. unfold copy_in. rewrite !(proj2 (Z.leb_le _ _)) by lia. done. Qed.

Lemma splice_nil dst pos : splice dst pos [] = dst.
Proof. unfold splice. simpl. by rewrite Nat.add_0_r, take_drop. Qed.

Lemma length_splice dst pos bs :
  0 <= pos -> pos + Z.of_nat (length bs) <= Z.of_nat (length dst) ->
  length (splice dst pos bs) = length dst.
Proof.
  intros. unfold splice. rewrite !length_app, length_take, length_drop. lia.
Qed.

Lemma copy_in_len {S} dst pos bs (s : S) :
  0 <= pos -> pos + Z.of_nat (length bs) <= Z.of_nat (length dst) ->
  exists d, copy_in dst pos bs s = Ok (d, s) /\ length d = length dst.
Proof. intros. eexists. split; [by apply copy_in_ok|]. by apply length_splice. Qed.

Lemma lookup_splice dst pos bs i : 0 <= pos -> pos + Z.of_nat (length bs) <= Z.of_nat (length dst) ->
  splice dst pos bs !! i =
  if decide (pos <= Z.of_nat i < pos + Z.of_nat (length bs)) then bs !! (i - Z.to_nat pos)%nat else dst !! i.
Proof.
  intros Hp Hl. unfold splice. rewrite lookup_app. destruct (decide (Z.of_nat i < pos)).
  - rewrite decide_False by lia. rewrite lookup_take_lt by lia.
    destruct (lookup_lt_is_Some_2 dst i ltac:(lia)) as [x ->]. done.
  - rewrite lookup_take_ge by lia. rewrite length_take, lookup_app. replace (Z.to_nat pos `min` length dst)%nat with (Z.to_nat pos) by lia.
    case_decide.
    + destruct (lookup_lt_is_Some_2 bs (i - Z.to_nat pos) ltac:(lia)) as [x ->]. done.
    + rewrite (lookup_ge_None_2 bs) by lia. rewrite lookup_drop. f_equal. lia.
Qed.

Lemma take_splice dst pos bs n : 0 <= pos -> pos + Z.of_nat (length bs) <= Z.of_nat n -> (n <= length dst)%nat ->
  take n (splice dst pos bs) = splice (take n dst) pos bs.
Proof.
  intros Hp Hn Hl. apply list_eq. intros i. rewrite (lookup_splice (take n dst)) by (rewrite ?length_take; lia).
  destruct (decide (i < n)%nat).
  - rewrite !lookup_take_lt by lia. by rewrite lookup_splice by lia.
  - rewrite !lookup_take_ge by lia. by rewrite decide_False by lia.
Qed.

Lemma splice_same dst pos bs n : 0 <= pos -> pos + Z.of_nat (length bs) <= Z.of_nat (length dst) -> n = length bs ->
  take n (drop (Z.to_nat pos) (splice dst pos bs)) = bs.
Proof.
  intros Hp Hl ->. apply list_eq. intros i. destruct (decide (i < length bs)%nat).
  - rewrite lookup_take_lt, lookup_drop, lookup_splice, decide_True by lia. f_equal. lia.
  - rewrite lookup_take_ge, lookup_ge_None_2 by lia. done.
Qed.

Lemma splice_other dst pos bs o n : 0 <= pos -> pos + Z.of_nat (length bs) <= Z.of_nat (length dst) -> 0 <= o ->
  o + Z.of_nat n <= pos \/ pos + Z.of_nat (length bs) <= o ->
  take n (drop (Z.to_nat o) (splice dst pos bs)) = take n (drop (Z.to_nat o) dst).
Proof.
  intros Hp Hl Ho Hd. apply list_eq. intros i. destruct (decide (i < n)%nat).
  - rewrite !lookup_take_lt, !lookup_drop, lookup_splice, decide_False by lia. done.
  - by rewrite !lookup_take_ge by lia.
Qed.

Lemma splice_app_middle a b c pos bs : 0 <= pos -> pos + Z.of_nat (length bs) <= Z.of_nat (length b) ->
  splice (a ++ b ++ c) (Z.of_nat (length a) + pos) bs = a ++ splice b pos bs ++ c.
Proof.
  intros Hp Hl. apply list_eq. intros i. rewrite lookup_splice by (rewrite ?length_app; lia).
  destruct (decide (i < length a)%nat).
  - rewrite decide_False by lia. by rewrite !lookup_app_l by lia.
  - rewrite !(lookup_app_r a) by lia. destruct (decide (i - length a < length b)%nat).
    + rewrite (lookup_app_l b), (lookup_app_l (splice b pos bs)), lookup_splice by (rewrite ?length_splice; lia).
      repeat case_decide; try lia; f_equal; lia.
    + rewrite (lookup_app_r b), (lookup_app_r (splice b pos bs)), length_splice by (rewrite ?length_splice; lia).
      by rewrite decide_False by lia.
Qed.

Lemma nthZ_splice dst pos bs i :
  0 <= pos -> pos + Z.of_nat (length bs) <= Z.of_nat (length dst) -> 0 <= i ->
  nthZ (splice dst pos bs) i =
  if (pos <=? i) && (i <? pos + Z.of_nat (length bs)) then nthZ bs (i - pos) else nthZ dst i.
Proof.
  intros Hp Hl Hi. unfold splice.
  rewrite !nthZ_app by lia. rewrite length_take.
  replace (Z.of_nat (Z.to_nat pos `min` length dst)) with pos by lia.
  destruct (Z.ltb_spec i pos), (Z.leb_spec pos i); try lia; simpl.
  - unfold nthZ. by rewrite lookup_take_lt by lia.
  - rewrite nthZ_app by lia. destruct (Z.ltb_spec (i - pos) (Z.of_nat (length bs))) as [H1|H1],
      (Z.ltb_spec i (pos + Z.of_nat (length bs))) as [H2|H2]; try (exfalso; lia).
    + done.
    + unfold nthZ. rewrite lookup_drop. do 2 f_equal. lia.
Qed.

(** Reading a ring in two pieces. *)
Lemma ring_get_two l s n :
  0 <= s < Z.of_nat (length l) -> 0 <= n <= Z.of_nat (length l) ->
  let first := Z.min n (Z.of_nat (length l) - s) in
  take (Z.to_nat first) (drop (Z.to_nat s) l) ++ take (Z.to_nat (n - first)) l = ring_get l s n.
Proof.
  intros Hs Hn first. apply list_eq_nthZ.
  { rewrite length_app, !length_take, length_drop, length_ring_get. lia. }
  rewrite length_app, !length_take, length_drop. intros i Hi.
  rewrite nthZ_ring_get by lia. rewrite nthZ_app, length_take, length_drop by lia.
  destruct (Z.ltb_spec i (Z.of_nat (Z.to_nat first `min` (length l - Z.to_nat s)))).
  - rewrite nthZ_take, nthZ_drop by lia. rewrite Z.mod_small by lia. done.
  - rewrite nthZ_take by lia. f_equal.
    replace (s + i) with ((s + i - Z.of_nat (length l)) + 1 * Z.of_nat (length l)) by lia.
    rewrite Z.mod_add, Z.mod_small by lia. lia.
Qed.

(** Writing a ring in two pieces: position [(s + j) mod size] gets [bs[j]]. *)
Lemma splice_two l s bs j :
  0 <= s < Z.of_nat (length l) -> Z.of_nat (length bs) <= Z.of_nat (length l) ->
  0 <= j < Z.of_nat (length l) ->
  let first := Z.min (Z.of_nat (length bs)) (Z.of_nat (length l) - s) in
  nthZ (splice (splice l s (take (Z.to_nat first) bs)) 0 (drop (Z.to_nat first) bs))
       ((s + j) mod Z.of_nat (length l)) =
  if j <? Z.of_nat (length bs) then nthZ bs j else nthZ l ((s + j) mod Z.of_nat (length l)).
Proof.
  intros Hs Hb Hj first.
  assert (first = Z.min (Z.of_nat (length bs)) (Z.of_nat (length l) - s)) as Hf by done. clearbody first.
  assert (length (take (Z.to_nat first) bs) = Z.to_nat first) as L1 by (rewrite length_take; lia).
  assert (length (drop (Z.to_nat first) bs) = (length bs - Z.to_nat first)%nat) as L2 by apply length_drop.
  assert (0 <= (s + j) mod Z.of_nat (length l)) by (apply Z.mod_pos_bound; lia).
  assert (length (splice l s (take (Z.to_nat first) bs)) = length l) as L3 by (apply length_splice; lia).
  rewrite nthZ_splice by (rewrite ?L3; lia). rewrite nthZ_splice by lia. rewrite L1, L2.
  destruct (decide (s + j < Z.of_nat (length l))) as [Hlt|Hge].
  - rewrite Z.mod_small by lia.
    destruct (Z.leb_spec 0 (s + j)), (Z.ltb_spec (s + j) (0 + Z.of_nat (length bs - Z.to_nat first)));
      try lia; simpl.
    destruct (Z.leb_spec s (s + j)), (Z.ltb_spec (s + j) (s + Z.of_nat (Z.to_nat first))),
      (Z.ltb_spec j (Z.of_nat (length bs))); try lia; simpl; [|done].
    rewrite nthZ_take by lia. f_equal. lia.
  - replace (s + j) with ((s + j - Z.of_nat (length l)) + 1 * Z.of_nat (length l)) by lia.
    rewrite Z.mod_add, Z.mod_small by lia.
    set (k := s + j - Z.of_nat (length l)).
    destruct (Z.leb_spec 0 k), (Z.ltb_spec k (0 + Z.of_nat (length bs - Z.to_nat first))),
      (Z.ltb_spec j (Z.of_nat (length bs))); try lia; simpl.
    + rewrite nthZ_drop by lia. f_equal. lia.
    + destruct (Z.leb_spec s k), (Z.ltb_spec k (s + Z.of_nat (Z.to_nat first))); try lia; done.
Qed.

(** Stepping through a program by the equations of its parts. *)
Lemma wp_ok {S A} (m : ST S A) (Q : A -> S -> Prop) s a s' : m s = Ok (a, s') -> Q a s' -> wp m Q s.
Proof. unfold wp. by intros ->. Qed.

Lemma wp_bind_ok {S A B} (m : ST S A) (k : A -> ST S B) Q s a s' :
  m s = Ok (a, s') -> wp (k a) Q s' -> wp (bind m k) Q s.
Proof. intros E H. apply wp_bind. by eapply wp_ok. Qed.

(** Stepping through a program by the specifications of its parts. *)
Lemma wp_step {S A B} (m : ST S A) (k : A -> ST S B) (P : A -> S -> Prop) Q s :
  wp m P s -> (forall a s', P a s' -> wp (k a) Q s') -> wp (bind m k) Q s.
Proof. intros Hm Hk. apply wp_bind. by eapply wp_mono. Qed.

(** ** Loops

    [for (i = ...; n iterations; i++) body]; the second form stops at the first
    iteration that yields a value. *)
Fixpoint for_loop {S} (n : nat) (i : Z) (body : Z -> ST S unit) : ST S unit :=
  match n with
  | O => ret tt
  | Datatypes.S n' => body i;; for_loop n' (i + 1) body
  end.

Fixpoint for_until {S A} (n : nat) (i : Z) (body : Z -> ST S (option A)) : ST S (option A) :=
  match n with
  | O => ret None
  | Datatypes.S n' =>
      r ← body i;
      match r with
      | Some a => ret (Some a)
      | None => for_until n' (i + 1) body
      end
  end.

Lemma for_loop_wp {S} (I : Z -> S -> Prop) n i body s :
  I i s ->
  (forall k s, i <= k < i + Z.of_nat n -> I k s -> wp (body k) (fun _ s' => I (k + 1) s') s) ->
  wp (for_loop n i body) (fun _ s' => I (i + Z.of_nat n) s') s.
Proof.
  revert i s. induction n as [|n IH]; intros i s Hi Hb; cbn [for_loop].
  - apply wp_ret. by rewrite Z.add_0_r.
  - eapply wp_step; [apply Hb; [lia|done]|]. intros u s' Hs'. cbv beta in Hs'.
    replace (i + Z.of_nat (Datatypes.S n)) with (i + 1 + Z.of_nat n) by lia. apply IH; [done|].
    intros k s0 Hk. apply Hb. lia.
Qed.

Lemma for_until_wp {S A} (I : Z -> S -> Prop) (Q : A -> S -> Prop) n i body s :
  I i s ->
  (forall k s, i <= k < i + Z.of_nat n -> I k s ->
     wp (body k) (fun r s' => match r with Some a => Q a s' | None => I (k + 1) s' end) s) ->
  wp (for_until n i body)
    (fun r s' => match r with Some a => Q a s' | None => I (i + Z.of_nat n) s' end) s.
Proof.
  revert i s. induction n as [|n IH]; intros i s Hi Hb; cbn [for_until].
  - apply wp_ret. by rewrite Z.add_0_r.
  - eapply wp_step; [apply Hb; [lia|done]|]. intros [a|] s' Hs'; cbv beta iota in Hs'; [by apply wp_ret|].
    replace (i + Z.of_nat (Datatypes.S n)) with (i + 1 + Z.of_nat n) by lia. apply IH; [done|].
    intros k s0 Hk. apply Hb. lia.
Qed.

(** [for (p = a; p < b; p += step) body] on 32-bit counters, with an early exit. *)
Fixpoint range_loop {S A} (fuel : nat) (p b step : Z) (body : Z -> ST S (option A)) : ST S (option A) :=
  if p <? b then
    match fuel with
    | O => fail NoFuel
    | Datatypes.S fuel' =>
        r ← body p;
        match r with
        | Some x => ret (Some x)
        | None => range_loop fuel' (u32 (p + step)) b step body
        end
    end
  else ret None.

(** One more iteration than the range has steps. *)
Definition range_fuel (a b step : Z) : nat := Z.to_nat ((b - a) / step + 1).

Lemma range_loop_wp {S A} (I : Z -> S -> Prop) (Q : A -> S -> Prop) a n step body (s : S) :
  0 < step -> 0 <= a -> 0 <= n -> a + n * step < 4294967296 -> I 0 s ->
  (forall k s, 0 <= k < n -> I k s ->
     wp (body (a + k * step)) (fun r s' => match r with Some x => Q x s' | None => I (k + 1) s' end) s) ->
  wp (range_loop (range_fuel a (a + n * step) step) a (a + n * step) step body)
    (fun r s' => match r with Some x => Q x s' | None => I n s' end) s.
Proof.
  intros Hst Ha Hn Hb Hi Hbody.
  assert (forall fuel k s, 0 <= k <= n -> (Z.to_nat (n - k) <= fuel)%nat -> I k s ->
    wp (range_loop fuel (a + k * step) (a + n * step) step body)
      (fun r s' => match r with Some x => Q x s' | None => I n s' end) s) as H.
  { clear Hi s. induction fuel as [|fuel IH]; intros k s Hk Hf Hi; cbn [range_loop].
    - assert (k = n) as -> by lia. rewrite Z.ltb_irrefl. by apply wp_ret.
    - destruct (Z.ltb_spec (a + k * step) (a + n * step)) as [Hlt|Hge].
      + assert (k < n) by nia. eapply wp_step; [apply Hbody; [lia|done]|]. intros [x|] s' Hs'; cbv beta iota in Hs'; [by apply wp_ret|].
        rewrite u32_id by (unfold is_u32; nia). replace (a + k * step + step) with (a + (k + 1) * step) by lia.
        apply IH; [lia|lia|done].
      + assert (k = n) as -> by nia. by apply wp_ret. }
  specialize (H (range_fuel a (a + n * step) step) 0 s). rewrite Z.mul_0_l, Z.add_0_r in H. apply H; [lia| |done].
  unfold range_fuel. replace (a + n * step - a) with (n * step) by lia. rewrite Z.div_mul by lia. lia.
Qed.

(** ** What a program leaves alone

    [preserves R m]: whenever [m] returns, its first and last state are related
    by [R]; for a preorder this follows command by command. *)

Definition preserves {S A} (R : S -> S -> Prop) (m : ST S A) : Prop :=
  forall s a s', m s = Ok (a, s') -> R s s'.

Create HintDb pres.

Section Preserves.
Context {S : Type} (R : S -> S -> Prop) {HR : PreOrder R}.

Lemma pres_ret {A} (a : A) : preserves R (ret a).
Proof. intros s b s' [= _ <-]. reflexivity. Qed.

Lemma pres_gets {A} (f : S -> A) : preserves R (gets f).
Proof. intros s b s' [= _ <-]. reflexivity. Qed.

Lemma pres_fail {A} e : preserves R (fail e : ST S A).
Proof. done. Qed.

Lemma pres_bind {A B} (m : ST S A) (k : A -> ST S B) :
  preserves R m -> (forall a, preserves R (k a)) -> preserves R (bind m k).
Proof.
  intros Hm Hk s b s'' E. unfold bind in E. destruct (m s) as [[a s']|] eqn:E1; [|done].
  etransitivity; [by eapply Hm|by eapply Hk].
Qed.

Lemma pres_rd {A} (l : list A) i : preserves R (rd l i).
Proof. unfold rd. repeat case_match; [apply pres_ret|apply pres_fail|apply pres_fail]. Qed.

Lemma pres_wr {A} (l : list A) i x : preserves R (wr l i x).
Proof. unfold wr. case_match; [apply pres_ret|apply pres_fail]. Qed.

Lemma pres_for_until {A} n i (body : Z -> ST S (option A)) :
  (forall k, preserves R (body k)) -> preserves R (for_until n i body).
Proof.
  intros Hb. revert i. induction n as [|n IH]; intros i; cbn [for_until]; [apply pres_ret|].
  apply pres_bind; [done|]. intros [a|]; [apply pres_ret|apply IH].
Qed.

Lemma pres_for_loop n i (body : Z -> ST S unit) :
  (forall k, preserves R (body k)) -> preserves R (for_loop n i body).
Proof.
  intros Hb. revert i. induction n as [|n IH]; intros i; cbn [for_loop]; [apply pres_ret|]. by apply pres_bind.
Qed.

(** Together with [wp]: the relation holds in the final state. *)
Lemma pres_wp {A} (m : ST S A) Q s : preserves R m -> wp m Q s -> wp m (fun a s' => Q a s' /\ R s s') s.
Proof.
  intros Hp (a & s' & E & HQ)%wp_elim. apply wp_elim. exists a, s'. split; [done|]. split; [done|by eapply Hp].
Qed.

End Preserves.

Ltac pres := repeat
  match goal with
  | |- preserves _ (bind _ _) => apply (pres_bind _); [|intros ?]
  | |- preserves _ (ret _) => apply (pres_ret _)
  | |- preserves _ (gets _) => apply (pres_gets _)
  | |- preserves _ (fail _) => apply pres_fail
  | |- preserves _ (rd _ _) => apply (pres_rd _)
  | |- preserves _ (wr _ _ _) => apply (pres_wr _)
  | |- preserves _ (for_until _ _ _) => apply (pres_for_until _); intros ?
  | |- preserves _ (for_loop _ _ _) => apply (pres_for_loop _); intros ?
  | |- preserves _ (if ?b then _ else _) => destruct b
  | |- preserves _ (match ?x with _ => _ end) => destruct x
  | _ => solve [eauto with pres]
  end.
