(* ===== verification/Kstring.v ===== *)
(** * Kernel string and memory primitives

    Models lib/kstring.c.  A [char *] is the list of the bytes from the
    pointer to the end of the object it points into, [None] when it is NULL;
    reading or writing behind the last byte is undefined behaviour.  The
    theorems relate the routines to the string a buffer holds, the bytes in
    front of its first NUL. *)

From stdpp Require Import base tactics numbers list.
From S2P Require Import Prelude.

Section Strings.
Context {S : Type}.

(** ** Operations *)

Fixpoint strlen_from (s : list Z) (n : Z) : ST S Z :=
  match s with
  | [] => fail Undef
  | c :: s' => if c =? 0 then ret n else strlen_from s' (n + 1)
  end.

Definition kstrlen (s : option (list Z)) : ST S Z :=
  match s with
  | None => ret 0
  | Some b => strlen_from b 0
  end.

(** Copies up to the NUL: the bytes from [d] on after the copy. *)
Fixpoint strcpy_loop (d src : list Z) : ST S (list Z) :=
  match src, d with
  | [], _ | _, [] => fail Undef
  | c :: src', _ :: d' =>
      if c =? 0 then ret (0 :: d')
      else r ← strcpy_loop d' src'; ret (c :: r)
  end.

(** The buffer at [dst] after the call. *)
Definition kstrcpy (dst src : option (list Z)) : ST S (option (list Z)) :=
  match dst, src with
  | Some d, Some s => r ← strcpy_loop d s; ret (Some r)
  | _, _ => ret dst
  end.

(** [for (i = 0; i < n - 1 && src[i]; i++) dst[i] = src[i]; dst[i] = 0],
    with [k = n - 1 - i] iterations left. *)
Fixpoint strncpy_loop (k : nat) (i : Z) (dst src : list Z) : ST S (list Z) :=
  match k with
  | O => wr dst i 0
  | Datatypes.S k' =>
      c ← rd src i;
      if c =? 0 then wr dst i 0
      else d ← wr dst i c; strncpy_loop k' (i + 1) d src
  end.

Definition kstrncpy (dst src : option (list Z)) (n : Z) : ST S (option (list Z)) :=
  match dst, src with
  | Some d, Some s =>
      if n =? 0 then ret dst
      else r ← strncpy_loop (Z.to_nat (n - 1)) 0 d s; ret (Some r)
  | _, _ => ret dst
  end.

Fixpoint strcmp_loop (a b : list Z) : ST S Z :=
  match a, b with
  | x :: a', y :: b' => if negb (x =? 0) && (x =? y) then strcmp_loop a' b' else ret (x - y)
  | _, _ => fail Undef
  end.

(** [same] is the pointer comparison [a == b]. *)
Definition kstrcmp (same : bool) (a b : option (list Z)) : ST S Z :=
  if same then ret 0
  else match a, b with
       | None, _ => ret (-1)
       | _, None => ret 1
       | Some x, Some y => strcmp_loop x y
       end.

Fixpoint strncmp_loop (n : nat) (a b : list Z) : ST S Z :=
  match n with
  | O => ret 0
  | Datatypes.S n' =>
      match a, b with
      | x :: a', y :: b' =>
          if negb (x =? y) then ret (x - y)
          else if x =? 0 then ret 0
          else strncmp_loop n' a' b'
      | _, _ => fail Undef
      end
  end.

Definition kstrncmp (a b : option (list Z)) (n : Z) : ST S Z :=
  match a, b with
  | Some x, Some y => strncmp_loop (Z.to_nat n) x y
  | Some _, None => ret 1
  | None, Some _ => ret (-1)
  | None, None => ret 0
  end.

(** [for (i = 0; i < num; i++) p[i] = c], with [k = num - i]. *)
Fixpoint memset_loop (k : nat) (i c : Z) (p : list Z) : ST S (list Z) :=
  match k with
  | O => ret p
  | Datatypes.S k' => p' ← wr p i c; memset_loop k' (i + 1) c p'
  end.

Definition kmemset (p : list Z) (value num : Z) : ST S (list Z) :=
  memset_loop (Z.to_nat num) 0 (u8 value) p.

Fixpoint memcpy_loop (k : nat) (i : Z) (d s : list Z) : ST S (list Z) :=
  match k with
  | O => ret d
  | Datatypes.S k' => x ← rd s i; d' ← wr d i x; memcpy_loop k' (i + 1) d' s
  end.

Definition kmemcpy (d s : list Z) (num : Z) : ST S (list Z) :=
  memcpy_loop (Z.to_nat num) 0 d s.

End Strings.

(** ** The string in a buffer *)

(** [buf] holds the NUL-terminated string [s]. *)
Definition holds (buf s : list Z) : Prop :=
  Forall (fun c => c <> 0) s /\ exists rest, buf = s ++ 0 :: rest.

(** The bytes in front of the first NUL. *)
Fixpoint str_of (buf : list Z) : list Z :=
  match buf with
  | [] => []
  | c :: b => if c =? 0 then [] else c :: str_of b
  end.

Lemma holds_str_of buf s : holds buf s -> str_of buf = s.
Proof.
  intros [Hs (rest & ->)]. induction Hs as [|c s Hc Hs IH]; simpl; [done|].
  rewrite (proj2 (Z.eqb_neq _ _) Hc). by rewrite IH.
Qed.

Lemma holds_intro s rest : Forall (fun c => c <> 0) s -> holds (s ++ 0 :: rest) s.
Proof. intros Hs. split; [done|eauto]. Qed.

Lemma str_of_nonzero buf : Forall (fun c => c <> 0) (str_of buf).
Proof.
  induction buf as [|c b IH]; simpl; [done|]. destruct (Z.eqb_spec c 0); [done|by constructor].
Qed.

Lemma str_of_holds buf : 0 ∈ buf -> holds buf (str_of buf).
Proof.
  induction buf as [|c b IH]; intros H; [by apply not_elem_of_nil in H|]. simpl.
  destruct (Z.eqb_spec c 0) as [->|Hc]; [by apply (holds_intro [])|].
  apply elem_of_cons in H as [?|H]; [congruence|]. destruct (IH H) as [Hf (rest & Er)].
  split; [by constructor|]. exists rest. simpl. by rewrite <- Er.
Qed.

Lemma holds_cons c buf s : c <> 0 -> holds buf s -> holds (c :: buf) (c :: s).
Proof. intros Hc [Hs (r & ->)]. split; [by constructor|by exists r]. Qed.

Lemma holds_cons_inv x buf c s : holds (x :: buf) (c :: s) -> x = c /\ c <> 0 /\ holds buf s.
Proof.
  intros [Hs (r & [= -> ->])]. apply Forall_cons in Hs as [? ?]. split_and!; [done|done|].
  split; [done|by exists r].
Qed.

Lemma holds_nil_inv buf : holds buf [] -> exists r, buf = 0 :: r.
Proof. intros [_ (r & ->)]. by exists r. Qed.

(** ** Correctness *)

Lemma strlen_from_ok {S} buf s n (st : S) :
  holds buf s -> strlen_from buf n st = Ok (n + Z.of_nat (length s), st).
Proof.
  revert buf n. induction s as [|c s IH]; intros buf n H.
  - destruct (holds_nil_inv _ H) as [r ->]. simpl. unfold ret. do 2 f_equal. lia.
  - destruct buf as [|x buf]; [by destruct H as [_ (? & ?)]|].
    apply holds_cons_inv in H as (-> & Hc & H). simpl. rewrite (proj2 (Z.eqb_neq _ _) Hc).
    rewrite IH by done. do 2 f_equal. lia.
Qed.

Lemma kstrlen_ok {S} buf s (st : S) :
  holds buf s -> kstrlen (Some buf) st = Ok (Z.of_nat (length s), st).
Proof. intros H. simpl. by rewrite (strlen_from_ok buf s) by done. Qed.

Lemma nth_holds {S} buf s i (st : S) :
  holds buf s -> (i < length s)%nat ->
  exists c, c <> 0 /\ s !! i = Some c /\ rd buf (Z.of_nat i) st = Ok (c, st).
Proof.
  intros [Hs (r & ->)] Hi. destruct (lookup_lt_is_Some_2 s i Hi) as [c Hc].
  exists c. split; [by eapply (Forall_lookup_1 _ _ _ _ Hs Hc)|]. split; [done|].
  apply rd_ok; [lia|]. rewrite Nat2Z.id, lookup_app_l by done. done.
Qed.

Lemma nth_holds_end {S} buf s (st : S) :
  holds buf s -> rd buf (Z.of_nat (length s)) st = Ok (0, st).
Proof.
  intros [Hs (r & ->)]. apply rd_ok; [lia|].
  rewrite Nat2Z.id, lookup_app_r, Nat.sub_diag by lia. done.
Qed.

(** Reading a byte of the string or its terminator. *)
Lemma rd_holds {S} buf s i (st : S) :
  holds buf s -> 0 <= i <= Z.of_nat (length s) -> rd buf i st = Ok (nthZ s i, st).
Proof.
  intros [Hs (r & ->)] Hi. rewrite rd_nthZ by (rewrite length_app; simpl; lia).
  rewrite nthZ_app by lia. destruct (Z.ltb_spec i (Z.of_nat (length s))); [done|].
  replace i with (Z.of_nat (length s)) by lia. unfold nthZ at 2. rewrite lookup_ge_None_2 by lia.
  by rewrite Z.sub_diag.
Qed.

Lemma nthZ_end s : nthZ s (Z.of_nat (length s)) = 0.
Proof. unfold nthZ. by rewrite lookup_ge_None_2 by lia. Qed.

Lemma nthZ_nonzero buf s i : holds buf s -> 0 <= i < Z.of_nat (length s) -> nthZ s i <> 0.
Proof.
  intros [Hs _] Hi. unfold nthZ. destruct (lookup_lt_is_Some_2 s (Z.to_nat i)) as [c Hc]; [lia|].
  rewrite Hc. by apply (Forall_lookup_1 _ _ _ _ Hs Hc).
Qed.

Lemma holds_drop buf s k : holds buf s -> (k <= length s)%nat -> holds (drop k buf) (drop k s).
Proof.
  intros [Hs (r & ->)] Hk. split; [by apply Forall_drop|]. exists r. by rewrite drop_app_le by done.
Qed.

Lemma holds_length buf s : holds buf s -> (length s < length buf)%nat.
Proof. intros [_ (r & ->)]. rewrite length_app. simpl. lia. Qed.

(** The copy loop, with the first [i] bytes of [s] in place. *)
Lemma strncpy_loop_ok {S} k i dst src s (st : S) :
  holds src s -> (i <= length s)%nat -> (i + k < length dst)%nat ->
  take i dst = take i s ->
  let m := (length s `min` (i + k))%nat in
  strncpy_loop k (Z.of_nat i) dst src st = Ok (take m s ++ 0 :: drop (m + 1) dst, st).
Proof.
  intros Hs. revert i dst. induction k as [|k IH]; intros i dst Hi Hd Ht m.
  - subst m. simpl. rewrite wr_ok by lia. rewrite Nat2Z.id. repeat f_equal.
    replace (length s `min` (i + 0))%nat with i by lia.
    rewrite insert_take_drop by lia. rewrite Ht. repeat f_equal. lia.
  - simpl. destruct (decide (i = length s)) as [->|Hne].
    + erewrite bind_ok by (by apply nth_holds_end). cbn [Z.eqb]. rewrite wr_ok by lia.
      rewrite Nat2Z.id. subst m. replace (length s `min` (length s + Datatypes.S k))%nat with (length s) by lia.
      rewrite insert_take_drop by lia. rewrite Ht. repeat f_equal; lia.
    + destruct (nth_holds src s i st Hs ltac:(lia)) as (c & Hc & Hl & E).
      rewrite (bind_ok _ _ _ _ _ E). rewrite (proj2 (Z.eqb_neq _ _) Hc).
      rewrite (bind_ok _ _ _ _ _ (wr_ok dst (Z.of_nat i) c st ltac:(lia))). rewrite Nat2Z.id.
      replace (Z.of_nat i + 1) with (Z.of_nat (Datatypes.S i)) by lia. rewrite IH.
      * subst m. rewrite drop_insert_lt by lia. by replace (Datatypes.S i + k)%nat with (i + Datatypes.S k)%nat by lia.
      * lia.
      * rewrite length_insert. lia.
      * rewrite (take_S_r s i c) by done. rewrite (take_S_r _ i c), take_insert_ge, Ht by (rewrite ?list_lookup_insert_eq; done || lia).
        done.
Qed.

(** [kstrncpy] stores the string, cut to [n - 1] bytes, and a NUL, and leaves
    the rest of the buffer alone. *)
Lemma kstrncpy_ok {S} dst src s n (st : S) :
  holds src s -> 0 < n <= Z.of_nat (length dst) ->
  let m := (length s `min` Z.to_nat (n - 1))%nat in
  kstrncpy (Some dst) (Some src) n st = Ok (Some (take m s ++ 0 :: drop (m + 1) dst), st).
Proof.
  intros Hs Hn m. unfold kstrncpy. rewrite (proj2 (Z.eqb_neq n 0)) by lia.
  change 0 with (Z.of_nat 0) at 1.
  erewrite bind_ok by (apply (strncpy_loop_ok _ 0 dst src s); [done|lia|lia|done]). done.
Qed.

(** The string a buffer holds after [kstrncpy]. *)
Lemma kstrncpy_holds {S} dst src s n (st : S) :
  holds src s -> 0 < n <= Z.of_nat (length dst) ->
  exists d, kstrncpy (Some dst) (Some src) n st = Ok (Some d, st) /\ length d = length dst /\
    holds d (take (Z.to_nat (n - 1)) s).
Proof.
  intros Hs Hn. rewrite (kstrncpy_ok dst src s n st Hs Hn). eexists. split; [done|].
  split.
  - rewrite length_app, length_take. simpl. rewrite length_drop. lia.
  - assert (take (length s `min` Z.to_nat (n - 1)) s = take (Z.to_nat (n - 1)) s) as ->.
    { destruct (decide (length s <= Z.to_nat (n - 1))%nat).
      - rewrite Nat.min_l, !take_ge by lia. done.
      - by rewrite Nat.min_r by lia. }
    apply holds_intro, Forall_take, Hs.
Qed.

(** Lexicographic order of two strings, NUL being smaller than every byte. *)
Fixpoint str_compare (s t : list Z) : Z :=
  match s, t with
  | [], [] => 0
  | [], c :: _ => - c
  | c :: _, [] => c
  | c :: s', d :: t' => if c =? d then str_compare s' t' else c - d
  end.

Lemma str_compare_eq s t :
  Forall (fun c => c <> 0) s -> Forall (fun c => c <> 0) t -> str_compare s t = 0 <-> s = t.
Proof.
  revert t. induction s as [|c s IH]; intros [|d t] Hs Ht; simpl; try done.
  - apply Forall_cons in Ht as [? _]. split; [lia|done].
  - apply Forall_cons in Hs as [? _]. split; [lia|done].
  - apply Forall_cons in Hs as [? Hs], Ht as [? Ht]. destruct (Z.eqb_spec c d) as [->|].
    + rewrite IH by done. split; [by intros ->|by intros [= ->]].
    + split; [lia|congruence].
Qed.

Lemma strcmp_loop_ok {S} a b s t (st : S) :
  holds a s -> holds b t -> strcmp_loop a b st = Ok (str_compare s t, st).
Proof.
  revert a b t. induction s as [|c s IH]; intros a b t Ha Hb.
  - destruct (holds_nil_inv _ Ha) as [r ->]. destruct t as [|d t].
    + destruct (holds_nil_inv _ Hb) as [r' ->]. done.
    + destruct b as [|y b]; [by destruct Hb as [_ (? & ?)]|].
      apply holds_cons_inv in Hb as (-> & Hd & _). done.
  - destruct a as [|x a]; [by destruct Ha as [_ (? & ?)]|].
    apply holds_cons_inv in Ha as (-> & Hc & Ha). destruct t as [|d t].
    + destruct (holds_nil_inv _ Hb) as [r' ->]. simpl. rewrite (proj2 (Z.eqb_neq _ _) Hc). simpl.
      unfold ret. do 2 f_equal. lia.
    + destruct b as [|y b]; [by destruct Hb as [_ (? & ?)]|].
      apply holds_cons_inv in Hb as (-> & Hd & Hb). simpl. rewrite (proj2 (Z.eqb_neq _ _) Hc). simpl.
      destruct (c =? d); [by apply IH|done].
Qed.

Lemma kstrcmp_ok {S} a b s t (st : S) :
  holds a s -> holds b t -> kstrcmp false (Some a) (Some b) st = Ok (str_compare s t, st).
Proof. apply strcmp_loop_ok. Qed.

Lemma strncmp_loop_ok {S} n a b s t (st : S) :
  holds a s -> holds b t -> strncmp_loop n a b st = Ok (str_compare (take n s) (take n t), st).
Proof.
  revert a b s t. induction n as [|n IH]; intros a b s t Ha Hb; [done|].
  destruct s as [|c s], t as [|d t].
  - destruct (holds_nil_inv _ Ha) as [r ->], (holds_nil_inv _ Hb) as [r' ->]. done.
  - destruct (holds_nil_inv _ Ha) as [r ->], b as [|y b]; [by destruct Hb as [_ (? & ?)]|].
    apply holds_cons_inv in Hb as (-> & Hd & _). cbn [strncmp_loop].
    rewrite (proj2 (Z.eqb_neq 0 d)) by done. done.
  - destruct (holds_nil_inv _ Hb) as [r ->], a as [|x a]; [by destruct Ha as [_ (? & ?)]|].
    apply holds_cons_inv in Ha as (-> & Hc & _). cbn [strncmp_loop].
    rewrite (proj2 (Z.eqb_neq c 0)) by done. simpl. unfold ret. do 2 f_equal. lia.
  - destruct a as [|x a], b as [|y b]; try (by destruct Ha as [_ (? & ?)]); [by destruct Hb as [_ (? & ?)]|].
    apply holds_cons_inv in Ha as (-> & Hc & Ha). apply holds_cons_inv in Hb as (-> & Hd & Hb).
    simpl. destruct (Z.eqb_spec c d) as [<-|]; simpl; [|done].
    rewrite (proj2 (Z.eqb_neq _ _) Hc). by apply IH.
Qed.

Lemma memset_loop_ok {S} k i c p (st : S) :
  (i + k <= length p)%nat ->
  memset_loop k (Z.of_nat i) c p st = Ok (take i p ++ replicate k c ++ drop (i + k) p, st).
Proof.
  revert i p. induction k as [|k IH]; intros i p Hl; simpl.
  - rewrite Nat.add_0_r, take_drop. done.
  - rewrite (bind_ok _ _ _ _ _ (wr_ok p (Z.of_nat i) c st ltac:(lia))), Nat2Z.id.
    replace (Z.of_nat i + 1) with (Z.of_nat (Datatypes.S i)) by lia.
    rewrite IH by (rewrite length_insert; lia). do 2 f_equal.
    rewrite drop_insert_lt by lia.
    rewrite (take_S_r _ i c) by (rewrite list_lookup_insert_eq; done || lia).
    rewrite take_insert_ge, <- app_assoc by lia. simpl. by rewrite Nat.add_succ_r.
Qed.

Lemma kmemset_ok {S} p value n (st : S) :
  0 <= n <= Z.of_nat (length p) ->
  kmemset p value n st = Ok (replicate (Z.to_nat n) (u8 value) ++ drop (Z.to_nat n) p, st).
Proof.
  intros Hn. unfold kmemset. change 0 with (Z.of_nat 0) at 1. rewrite memset_loop_ok by lia. done.
Qed.

Lemma memcpy_loop_ok {S} k i d s (st : S) :
  (i + k <= length d)%nat -> (i + k <= length s)%nat ->
  memcpy_loop k (Z.of_nat i) d s st = Ok (take i d ++ take k (drop i s) ++ drop (i + k) d, st).
Proof.
  revert i d. induction k as [|k IH]; intros i d Hd Hs; simpl.
  - rewrite Nat.add_0_r, take_drop. done.
  - destruct (lookup_lt_is_Some_2 s i ltac:(lia)) as [x Hx].
    erewrite bind_ok by (apply rd_ok; [lia|by rewrite Nat2Z.id]).
    rewrite (bind_ok _ _ _ _ _ (wr_ok d (Z.of_nat i) x st ltac:(lia))), Nat2Z.id.
    replace (Z.of_nat i + 1) with (Z.of_nat (Datatypes.S i)) by lia.
    rewrite IH by (rewrite ?length_insert; lia). do 2 f_equal.
    rewrite drop_insert_lt by lia.
    rewrite (take_S_r _ i x) by (rewrite list_lookup_insert_eq; done || lia).
    rewrite take_insert_ge, <- app_assoc by lia. rewrite (drop_S s x i) by done.
    simpl. by rewrite Nat.add_succ_r.
Qed.

Lemma kmemcpy_ok {S} d s n (st : S) :
  0 <= n <= Z.of_nat (length d) -> n <= Z.of_nat (length s) ->
  kmemcpy d s n st = Ok (take (Z.to_nat n) s ++ drop (Z.to_nat n) d, st).
Proof.
  intros Hd Hs. unfold kmemcpy. change 0 with (Z.of_nat 0) at 1.
  rewrite memcpy_loop_ok by lia. done.
Qed.


