(* ===== verification/Fd.v ===== *)
(** * File descriptors

    The descriptor table entry [proc_fd_t] of include/kernel/process.h, the
    limits of include/kernel/constants.h and the open flags of
    uapi/syscalls.h, which the VFS, the pipes and the system calls share. *)

From stdpp Require Import base list.
From S2P Require Import Prelude.

Definition MAX_OPEN_FILES := 64.
Definition PIPE_FD_BASE := 1000.
Definition CONSOLE_INODE_MAGIC := 49344.

Definition O_RDONLY := 0.
Definition O_WRONLY := 1.
Definition O_RDWR := 2.
Definition O_ACCMODE := 3.
Definition O_CREAT := 64.
Definition O_EXCL := 128.
Definition O_NOCTTY := 256.
Definition O_TRUNC := 512.
Definition O_APPEND := 1024.
Definition O_NONBLOCK := 2048.
Definition O_DSYNC := 4096.
Definition O_DIRECTORY := 65536.
Definition O_NOFOLLOW := 131072.
Definition O_CLOEXEC := 524288.

Record proc_fd := ProcFd {
  of_idx : Z;
  fd_offset : Z;
  fd_flags : Z;
  fd_refcount : Z
}.

Definition fd_zero : proc_fd := ProcFd 0 0 0 0.

(** [of_idx_decode] of include/kernel/vfs.h. *)
Definition of_idx_decode (encoded : Z) : Z :=
  if encoded =? 0 then -1 else if 64 <? encoded then -1 else encoded - 1.
