(* ===== verification/Ringbuf.v ===== *)
(** * Ring buffer

    Models include/kernel/ringbuf.h: the single-producer single-consumer byte
    ring used by the keyboard driver.  [head] and [tail] are indices kept below
    a power-of-two [size] by masking; one cell stays empty so that [head =
    tail] means empty.  The theorems show that the ring is a bounded FIFO queue
    of capacity [size - 1] and that no access leaves the data array. *)

From stdpp Require Import base tactics numbers list gmap.
From S2P Require Import Prelude.

(** ** The interface a byte queue offers to a driver *)

Class BoundedFifo (Q : Type) := {
  fifo_inv : Q -> Prop;
  fifo_cap : Q -> Z;
  fifo_items : Q -> list Z;
  fifo_push : Z -> ST Q Z;
  fifo_pop : ST Q (option Z);
  fifo_empty : Q -> bool;
  fifo_push_ok : forall c q, fifo_inv q ->
    Z.of_nat (length (fifo_items q)) < fifo_cap q ->
    exists q', fifo_push c q = Ok (0, q') /\ fifo_inv q' /\
      fifo_cap q' = fifo_cap q /\ fifo_items q' = fifo_items q ++ [c];
  fifo_push_full : forall c q, fifo_inv q ->
    Z.of_nat (length (fifo_items q)) = fifo_cap q ->
    fifo_push c q = Ok (-1, q);
  fifo_pop_ok : forall c cs q, fifo_inv q -> fifo_items q = c :: cs ->
    exists q', fifo_pop q = Ok (Some c, q') /\ fifo_inv q' /\
      fifo_cap q' = fifo_cap q /\ fifo_items q' = cs;
  fifo_pop_empty : forall q, fifo_inv q -> fifo_items q = [] ->
    fifo_pop q = Ok (None, q);
  fifo_empty_spec : forall q, fifo_inv q ->
    fifo_empty q = bool_decide (fifo_items q = []);
  fifo_len_le : forall q, fifo_inv q ->
    Z.of_nat (length (fifo_items q)) <= fifo_cap q
}.

(** ** The structure and its operations *)

Record ringbuf := Ringbuf {
  rb_head : Z;
  rb_tail : Z;
  rb_size : Z;
  rb_mask : Z;
  rb_data : list Z
}.

Definition ringbuf_init (size : Z) (rb : ringbuf) : ringbuf :=
  Ringbuf 0 0 size (u32 (size - 1)) (rb_data rb).

Definition ringbuf_empty (rb : ringbuf) : bool := rb_head rb =? rb_tail rb.

Definition ringbuf_full (rb : ringbuf) : bool :=
  Z.land (u32 (rb_head rb + 1)) (rb_mask rb) =? rb_tail rb.

Definition ringbuf_readable (rb : ringbuf) : Z :=
  Z.land (u32 (rb_head rb - rb_tail rb)) (rb_mask rb).

Definition ringbuf_writable (rb : ringbuf) : Z :=
  Z.land (u32 (rb_tail rb - rb_head rb - 1)) (rb_mask rb).

Definition rb_set_head (h : Z) (rb : ringbuf) : ringbuf :=
  Ringbuf h (rb_tail rb) (rb_size rb) (rb_mask rb) (rb_data rb).
Definition rb_set_tail (t : Z) (rb : ringbuf) : ringbuf :=
  Ringbuf (rb_head rb) t (rb_size rb) (rb_mask rb) (rb_data rb).
Definition rb_set_data (d : list Z) (rb : ringbuf) : ringbuf :=
  Ringbuf (rb_head rb) (rb_tail rb) (rb_size rb) (rb_mask rb) d.

(** Returns 0, or -1 when the ring is full. *)
Definition ringbuf_push (c : Z) : ST ringbuf Z :=
  rb ← gets id;
  let head := rb_head rb in
  let next := Z.land (u32 (head + 1)) (rb_mask rb) in
  if next =? rb_tail rb then ret (-1)
  else
    d ← wr (rb_data rb) head c;
    modify (rb_set_data d);;
    modify (rb_set_head next);;
    ret 0.

(** [None] is the C result -1 (empty); [Some c] is 0 with [*c] stored. *)
Definition ringbuf_pop : ST ringbuf (option Z) :=
  rb ← gets id;
  let tail := rb_tail rb in
  if tail =? rb_head rb then ret None
  else
    c ← rd (rb_data rb) tail;
    modify (rb_set_tail (Z.land (u32 (tail + 1)) (rb_mask rb)));;
    ret (Some c).

(** The loop over [src[0 .. len)]; returns the number of bytes written. *)
Fixpoint ringbuf_write (src : list Z) : ST ringbuf Z :=
  match src with
  | [] => ret 0
  | c :: src' =>
      r ← ringbuf_push c;
      if r <? 0 then ret 0
      else n ← ringbuf_write src'; ret (n + 1)
  end.

(** The loop that fills at most [len] bytes of [dst]; returns them. *)
Fixpoint ringbuf_read (len : nat) : ST ringbuf (list Z) :=
  match len with
  | O => ret []
  | S len' =>
      r ← ringbuf_pop;
      match r with
      | None => ret []
      | Some c => cs ← ringbuf_read len'; ret (c :: cs)
      end
  end.

Definition ringbuf_peek : ST ringbuf (option Z) :=
  rb ← gets id;
  if rb_tail rb =? rb_head rb then ret None
  else c ← rd (rb_data rb) (rb_tail rb); ret (Some c).

Definition ringbuf_discard (n : Z) : ST ringbuf Z :=
  rb ← gets id;
  let avail := ringbuf_readable rb in
  let n := if avail <? n then avail else n in
  modify (rb_set_tail (Z.land (u32 (rb_tail rb + n)) (rb_mask rb)));;
  ret n.

Definition ringbuf_clear : ST ringbuf unit :=
  modify (fun rb => rb_set_tail (rb_head rb) rb).

(** ** Invariant and abstraction *)

Record ringbuf_wf (rb : ringbuf) : Prop := {
  wf_pow2 : exists k, 0 <= k <= 31 /\ rb_size rb = 2 ^ k;
  wf_mask : rb_mask rb = rb_size rb - 1;
  wf_head : 0 <= rb_head rb < rb_size rb;
  wf_tail : 0 <= rb_tail rb < rb_size rb;
  wf_data : Z.of_nat (length (rb_data rb)) = rb_size rb
}.

Definition rb_len (rb : ringbuf) : Z := (rb_head rb - rb_tail rb) mod rb_size rb.

Definition rb_contents (rb : ringbuf) : list Z :=
  ring_get (rb_data rb) (rb_tail rb) (rb_len rb).

Lemma size_bounds rb : ringbuf_wf rb -> 0 < rb_size rb <= 2147483648.
Proof.
  intros [(k & Hk & ->) _ _ _ _]. split; [apply Z.pow_pos_nonneg; lia|].
  change 2147483648 with (2 ^ 31). apply Z.pow_le_mono_r; lia.
Qed.

(** Masking an index, even one that wrapped at 32 bits, reduces it modulo the
    size, because the size divides [2^32]. *)
Lemma mask_mod rb x :
  ringbuf_wf rb -> Z.land (u32 x) (rb_mask rb) = x mod rb_size rb.
Proof.
  intros [(k & Hk & Hs) Hm _ _ _]. rewrite Hm, Hs, land_pow2_mask by lia.
  unfold u32. change 4294967296 with (2 ^ 32).
  replace (2 ^ 32) with (2 ^ k * 2 ^ (32 - k))
    by (rewrite <- Z.pow_add_r by lia; f_equal; lia).
  rewrite Z.rem_mul_r by (try apply Z.pow_nonzero; try apply Z.pow_pos_nonneg; lia).
  rewrite Z.mul_comm, Z.mod_add by (apply Z.pow_nonzero; lia).
  apply Z.mod_mod, Z.pow_nonzero; lia.
Qed.

Lemma rb_len_bounds rb : ringbuf_wf rb -> 0 <= rb_len rb < rb_size rb.
Proof. intros H. apply Z.mod_pos_bound. pose proof (size_bounds rb H). lia. Qed.

Lemma length_contents rb :
  ringbuf_wf rb -> Z.of_nat (length (rb_contents rb)) = rb_len rb.
Proof.
  intros H. unfold rb_contents. rewrite length_ring_get.
  pose proof (rb_len_bounds rb H). lia.
Qed.

(** The head sits [rb_len] cells after the tail. *)
Lemma head_pos rb :
  ringbuf_wf rb -> rb_head rb = (rb_tail rb + rb_len rb) mod rb_size rb.
Proof.
  intros H. unfold rb_len. rewrite Zplus_mod_idemp_r.
  replace (rb_tail rb + (rb_head rb - rb_tail rb)) with (rb_head rb) by lia.
  symmetry. apply Z.mod_small, H.
Qed.

Lemma mod_succ_mod a b n : 0 < n -> (a mod n + b) mod n = (a + b) mod n.
Proof. intros. by rewrite Zplus_mod_idemp_l. Qed.

(** ** Queue lemmas *)

Lemma contents_head_free rb j :
  ringbuf_wf rb -> 0 <= j < rb_len rb ->
  (rb_tail rb + j) mod rb_size rb <> rb_head rb.
Proof.
  intros H Hj. pose proof (rb_len_bounds rb H). rewrite (head_pos rb H).
  apply ring_pos_ne; lia.
Qed.

Lemma push_next_eq rb :
  ringbuf_wf rb ->
  (Z.land (u32 (rb_head rb + 1)) (rb_mask rb) =? rb_tail rb) =
  (rb_len rb =? rb_size rb - 1).
Proof.
  intros H. rewrite mask_mod by done.
  pose proof (rb_len_bounds rb H) as Hl. pose proof (size_bounds rb H).
  destruct H as [_ _ Hh Ht _].
  assert ((rb_head rb + 1) mod rb_size rb = rb_tail rb <-> rb_len rb = rb_size rb - 1).
  { unfold rb_len in *. split; intros E.
    - rewrite <- E. rewrite Zminus_mod_idemp_r.
      replace (rb_head rb - (rb_head rb + 1)) with (rb_size rb - 1 + (-1) * rb_size rb) by lia.
      rewrite Z.mod_add by lia. apply Z.mod_small. lia.
    - replace (rb_head rb + 1) with (rb_tail rb + ((rb_head rb - rb_tail rb) + 1)) by lia.
      rewrite <- Zplus_mod_idemp_r, <- (Zplus_mod_idemp_l (rb_head rb - rb_tail rb)), E.
      replace (rb_size rb - 1 + 1) with (rb_size rb) by lia.
      rewrite Z.mod_same, Z.add_0_r by lia. by apply Z.mod_small. }
  apply eq_bool_prop_intro. rewrite !Is_true_true, !Z.eqb_eq. done.
Qed.

Lemma push_full rb c :
  ringbuf_wf rb -> rb_len rb = rb_size rb - 1 ->
  ringbuf_push c rb = Ok (-1, rb).
Proof.
  intros H Hl. unfold ringbuf_push. unfold bind, gets, id.
  rewrite push_next_eq, (proj2 (Z.eqb_eq _ _)) by done. done.
Qed.

Lemma len_succ rb d :
  ringbuf_wf rb -> rb_len rb < rb_size rb - 1 ->
  rb_len (rb_set_head ((rb_head rb + 1) mod rb_size rb) (rb_set_data d rb))
  = rb_len rb + 1.
Proof.
  intros H Hl. pose proof (rb_len_bounds rb H). unfold rb_len. simpl.
  rewrite Zminus_mod_idemp_l.
  replace (rb_head rb + 1 - rb_tail rb) with ((rb_head rb - rb_tail rb) + 1) by lia.
  rewrite <- Zplus_mod_idemp_l. apply Z.mod_small. unfold rb_len in *. lia.
Qed.

Lemma push_ok rb c :
  ringbuf_wf rb -> rb_len rb < rb_size rb - 1 ->
  exists rb', ringbuf_push c rb = Ok (0, rb') /\ ringbuf_wf rb' /\
    rb_size rb' = rb_size rb /\ rb_contents rb' = rb_contents rb ++ [c].
Proof.
  intros H Hl. pose proof (size_bounds rb H) as Hs.
  pose proof (rb_len_bounds rb H) as Hb. pose proof (len_succ rb) as Hsucc.
  unfold ringbuf_push. unfold bind, gets, id, modify.
  rewrite push_next_eq, (proj2 (Z.eqb_neq _ _)) by (done || lia).
  rewrite wr_ok by (rewrite (wf_data rb H); apply H).
  eexists. split; [reflexivity|]. rewrite mask_mod by done.
  assert (Hdl : Z.of_nat (length (<[Z.to_nat (rb_head rb):=c]> (rb_data rb))) = rb_size rb)
    by (rewrite length_insert; apply H).
  split; [constructor; simpl; try apply H; try done; apply Z.mod_pos_bound; lia|].
  split; [done|]. unfold rb_contents. rewrite Hsucc by done. simpl.
  rewrite ring_get_app by lia. rewrite Hdl, ring_get_one, Hdl, <- head_pos by done. f_equal.
  - symmetry. apply ring_get_ext; [by rewrite length_insert|]. intros i Hi.
    rewrite (wf_data rb H). rewrite nthZ_insert;
      [|rewrite (wf_data rb H); apply H|apply Z.mod_pos_bound; lia].
    rewrite decide_False; [done|]. intros E. by apply (contents_head_free rb i H Hi).
  - rewrite Z.mod_small by apply H. rewrite nthZ_insert, decide_True; try done;
      [rewrite (wf_data rb H)|]; apply H.
Qed.

Lemma pop_empty rb :
  ringbuf_wf rb -> rb_contents rb = [] -> ringbuf_pop rb = Ok (None, rb).
Proof.
  intros H E. pose proof (length_contents rb H) as L. rewrite E in L. simpl in L.
  pose proof (head_pos rb H) as Hh. rewrite <- L, Z.add_0_r, Z.mod_small in Hh by apply H.
  unfold ringbuf_pop, bind, gets, id. by rewrite Hh, Z.eqb_refl.
Qed.

Lemma empty_spec rb :
  ringbuf_wf rb -> ringbuf_empty rb = bool_decide (rb_contents rb = []).
Proof.
  intros H. pose proof (length_contents rb H) as L. pose proof (size_bounds rb H) as Hs.
  unfold ringbuf_empty. case_bool_decide as E.
  - apply Z.eqb_eq. rewrite (head_pos rb H), <- L, E. simpl.
    rewrite Z.add_0_r. apply Z.mod_small, H.
  - apply Z.eqb_neq. intros Eq. apply E, nil_length_inv.
    assert (rb_len rb = 0); [|lia].
    unfold rb_len. by rewrite Eq, Z.sub_diag, Z.mod_0_l by lia.
Qed.

(** A nonempty ring split at its oldest byte. *)
Lemma contents_cons rb :
  ringbuf_wf rb -> 0 < rb_len rb ->
  rb_contents rb = nthZ (rb_data rb) (rb_tail rb) ::
    ring_get (rb_data rb) ((rb_tail rb + 1) mod rb_size rb) (rb_len rb - 1).
Proof.
  intros H Hl. unfold rb_contents. replace (rb_len rb) with (1 + (rb_len rb - 1)) at 1 by lia.
  rewrite ring_get_app, ring_get_one, (wf_data rb H) by lia.
  rewrite (Z.mod_small (rb_tail rb)) by apply H. done.
Qed.

(** Dropping the [n] oldest bytes is moving the tail. *)
Lemma set_tail_spec rb n :
  ringbuf_wf rb -> 0 <= n <= rb_len rb ->
  let rb' := rb_set_tail ((rb_tail rb + n) mod rb_size rb) rb in
  ringbuf_wf rb' /\ rb_len rb' = rb_len rb - n /\
  rb_contents rb' = drop (Z.to_nat n) (rb_contents rb).
Proof.
  intros H Hn rb'. pose proof (size_bounds rb H). pose proof (rb_len_bounds rb H).
  assert (rb_len rb' = rb_len rb - n) as Hl.
  { unfold rb_len at 1, rb'. simpl. rewrite Zminus_mod_idemp_r.
    replace (rb_head rb - (rb_tail rb + n)) with ((rb_head rb - rb_tail rb) - n) by lia.
    rewrite <- Zminus_mod_idemp_l. apply Z.mod_small. unfold rb_len in *. lia. }
  split; [constructor; simpl; try apply H; apply Z.mod_pos_bound; lia|].
  split; [done|]. unfold rb_contents. rewrite Hl. simpl.
  replace (rb_len rb) with (n + (rb_len rb - n)) at 2 by lia.
  rewrite ring_get_app, (wf_data rb H) by lia.
  rewrite drop_app_length'; [done|]. by rewrite length_ring_get.
Qed.

Lemma pop_ok rb c cs :
  ringbuf_wf rb -> rb_contents rb = c :: cs ->
  exists rb', ringbuf_pop rb = Ok (Some c, rb') /\ ringbuf_wf rb' /\
    rb_size rb' = rb_size rb /\ rb_contents rb' = cs.
Proof.
  intros H E. pose proof (length_contents rb H) as L. rewrite E in L. simpl in L.
  destruct (set_tail_spec rb 1 H ltac:(lia)) as (Hwf & _ & Hc).
  pose proof (contents_cons rb H ltac:(lia)) as Ec. rewrite E in Ec.
  injection Ec as Hx _. pose proof (head_pos rb H).
  unfold ringbuf_pop, bind, gets, id, modify.
  rewrite (proj2 (Z.eqb_neq _ _)).
  - rewrite rd_nthZ by (rewrite (wf_data rb H); apply H). rewrite <- Hx, mask_mod by done.
    eexists. split; [reflexivity|]. split; [done|]. split; [done|]. by rewrite Hc, E.
  - replace (rb_tail rb) with ((rb_tail rb + 0) mod rb_size rb)
      by (rewrite Z.add_0_r; apply Z.mod_small, H).
    apply contents_head_free; [done|lia].
Qed.

#[export] Instance ringbuf_fifo : BoundedFifo ringbuf.
Proof.
  refine {| fifo_inv := ringbuf_wf; fifo_cap rb := rb_size rb - 1;
            fifo_items := rb_contents; fifo_push := ringbuf_push;
            fifo_pop := ringbuf_pop; fifo_empty := ringbuf_empty |}.
  - intros c q H Hl. rewrite length_contents in Hl by done.
    destruct (push_ok q c H Hl) as (q' & ? & ? & Hs & ?). exists q'. by rewrite Hs.
  - intros c q H Hl. rewrite length_contents in Hl by done. by apply push_full.
  - intros c cs q H E. destruct (pop_ok q c cs H E) as (q' & ? & ? & Hs & ?).
    exists q'. by rewrite Hs.
  - apply pop_empty.
  - apply empty_spec.
  - intros q H. rewrite length_contents by done. pose proof (rb_len_bounds q H). lia.
Defined.

(** ** Bulk operations *)

Lemma write_spec src rb :
  ringbuf_wf rb ->
  let n := Z.min (Z.of_nat (length src)) (rb_size rb - 1 - rb_len rb) in
  exists rb', ringbuf_write src rb = Ok (n, rb') /\ ringbuf_wf rb' /\
    rb_size rb' = rb_size rb /\
    rb_contents rb' = rb_contents rb ++ take (Z.to_nat n) src.
Proof.
  revert rb. induction src as [|c src IH]; intros rb H n; pose proof (rb_len_bounds rb H).
  - exists rb. simpl in n. replace n with 0 by lia. by rewrite take_nil, app_nil_r.
  - simpl in n. simpl. unfold bind.
    destruct (decide (rb_len rb = rb_size rb - 1)) as [Hf|Hf].
    + exists rb. rewrite push_full by done. replace n with 0 by lia.
      by rewrite take_0, app_nil_r.
    + destruct (push_ok rb c H ltac:(lia)) as (rb1 & -> & H1 & Hs1 & Hc1).
      pose proof (length_contents rb1 H1) as L1.
      rewrite Hc1, length_app, Nat2Z.inj_add, length_contents in L1 by done. simpl in L1.
      destruct (IH rb1 H1) as (rb2 & E2 & H2 & Hs2 & Hc2). exists rb2. simpl.
      rewrite E2. unfold ret.
      replace (Z.min _ _) with (n - 1) in * by lia.
      split; [do 2 f_equal; lia|]. split; [done|].
      split; [congruence|]. rewrite Hc2, Hc1, <- (app_assoc _ [c]). f_equal. simpl.
      replace (Z.to_nat n) with (S (Z.to_nat (n - 1))) by lia. done.
Qed.

Lemma read_spec n rb :
  ringbuf_wf rb ->
  exists rb', ringbuf_read n rb = Ok (take n (rb_contents rb), rb') /\
    ringbuf_wf rb' /\ rb_size rb' = rb_size rb /\
    rb_contents rb' = drop n (rb_contents rb).
Proof.
  revert rb. induction n as [|n IH]; intros rb H; simpl.
  - exists rb. by rewrite take_0, drop_0.
  - unfold bind. destruct (rb_contents rb) as [|c cs] eqn:E.
    + exists rb. by rewrite pop_empty.
    + destruct (pop_ok rb c cs H E) as (rb1 & -> & H1 & Hs1 & Hc1).
      destruct (IH rb1 H1) as (rb2 & -> & H2 & Hs2 & Hc2).
      exists rb2. rewrite Hc1 in *. split_and!; [done|done|congruence|done].
Qed.

(** The operations a user of the ring performs. *)
Inductive rb_op :=
| RbWrite (src : list Z)
| RbRead (len : nat)
| RbDiscard (n : Z)
| RbClear.

(** What an operation hands back to its caller. *)
Definition run_rb_op (o : rb_op) : ST ringbuf (list Z) :=
  match o with
  | RbWrite src => n ← ringbuf_write src; ret (take (Z.to_nat n) src)
  | RbRead len => ringbuf_read len
  | RbDiscard n => r ← ringbuf_discard n; ret (replicate (Z.to_nat r) 0)
  | RbClear => ringbuf_clear;; ret []
  end.

(** The same operation on a bounded queue of capacity [cap]. *)
Definition queue_op (cap : nat) (o : rb_op) (q : list Z) : list Z * list Z :=
  match o with
  | RbWrite src => let w := take (cap - length q) src in (w, q ++ w)
  | RbRead len => (take len q, drop len q)
  | RbDiscard n => let k := Nat.min (Z.to_nat n) (length q) in
                   (replicate k 0, drop k q)
  | RbClear => ([], [])
  end.

Definition rb_op_ok (o : rb_op) : Prop :=
  match o with RbDiscard n => 0 <= n | _ => True end.

Fixpoint run_rb_ops (os : list rb_op) : ST ringbuf (list (list Z)) :=
  match os with
  | [] => ret []
  | o :: os' => r ← run_rb_op o; rs ← run_rb_ops os'; ret (r :: rs)
  end.

Fixpoint queue_ops (cap : nat) (os : list rb_op) (q : list Z) : list (list Z) * list Z :=
  match os with
  | [] => ([], q)
  | o :: os' => let '(r, q1) := queue_op cap o q in
                let '(rs, q2) := queue_ops cap os' q1 in (r :: rs, q2)
  end.

Lemma discard_spec rb n :
  ringbuf_wf rb -> 0 <= n ->
  let k := Z.min n (rb_len rb) in
  exists rb', ringbuf_discard n rb = Ok (k, rb') /\ ringbuf_wf rb' /\
    rb_size rb' = rb_size rb /\ rb_contents rb' = drop (Z.to_nat k) (rb_contents rb).
Proof.
  intros H Hn k. pose proof (rb_len_bounds rb H).
  unfold ringbuf_discard, bind, gets, id, modify, ringbuf_readable.
  rewrite !mask_mod by done. fold (rb_len rb).
  replace (if rb_len rb <? n then rb_len rb else n) with k
    by (destruct (Z.ltb_spec (rb_len rb) n); lia).
  destruct (set_tail_spec rb k H ltac:(lia)) as (? & ? & ?). eauto.
Qed.

Lemma clear_spec rb :
  ringbuf_wf rb ->
  exists rb', ringbuf_clear rb = Ok (tt, rb') /\ ringbuf_wf rb' /\
    rb_size rb' = rb_size rb /\ rb_contents rb' = [].
Proof.
  intros H. eexists. split; [reflexivity|].
  split; [constructor; simpl; apply H|]. split; [done|].
  unfold rb_contents, rb_len. simpl. rewrite Z.sub_diag, Z.mod_0_l; [done|].
  pose proof (size_bounds rb H). lia.
Qed.

Lemma run_rb_op_refines rb o :
  ringbuf_wf rb -> rb_op_ok o ->
  exists rb', run_rb_op o rb =
      Ok (fst (queue_op (Z.to_nat (rb_size rb - 1)) o (rb_contents rb)), rb') /\
    ringbuf_wf rb' /\ rb_size rb' = rb_size rb /\
    rb_contents rb' = snd (queue_op (Z.to_nat (rb_size rb - 1)) o (rb_contents rb)).
Proof.
  intros H Ho. pose proof (rb_len_bounds rb H). pose proof (length_contents rb H).
  destruct o as [src|len|n|]; simpl in *; unfold bind.
  - destruct (write_spec src rb H) as (rb' & -> & ? & ? & Hc). exists rb'.
    rewrite Hc. clear Hc.
    assert (forall m, Z.to_nat (Z.min (Z.of_nat (length src)) m) =
                      Nat.min (length src) (Z.to_nat m)) as -> by lia.
    replace (Z.to_nat (rb_size rb - 1) - length (rb_contents rb))%nat
      with (Z.to_nat (rb_size rb - 1 - rb_len rb)) by lia.
    rewrite (Nat.min_comm (length src)), <- take_take, firstn_all. done.
  - apply read_spec, H.
  - destruct (discard_spec rb n H Ho) as (rb' & -> & ? & ? & Hc). exists rb'.
    rewrite Hc. clear Hc.
    replace (Z.to_nat (Z.min n (rb_len rb)))
      with (Nat.min (Z.to_nat n) (length (rb_contents rb))) by lia. done.
  - destruct (clear_spec rb H) as (rb' & -> & ?). eauto.
Qed.

(** ** Properties *)

(** C38: The ring buffer refines a bounded FIFO queue.  Started by
    [ringbuf_init] on an array of [2^k] bytes, every sequence of bulk writes,
    bulk reads, discards and clears runs without leaving the array and gives
    the results of the same operations on a list of capacity [2^k - 1]: a write
    accepts exactly what fits, reads return the accepted bytes in order, none
    lost and none twice. *)
Theorem ringbuf_refines_queue k rb os :
  0 <= k <= 31 -> Z.of_nat (length (rb_data rb)) = 2 ^ k -> Forall rb_op_ok os ->
  exists rb', run_rb_ops os (ringbuf_init (2 ^ k) rb) =
      Ok (fst (queue_ops (Z.to_nat (2 ^ k - 1)) os []), rb') /\
    ringbuf_wf rb' /\
    rb_contents rb' = snd (queue_ops (Z.to_nat (2 ^ k - 1)) os []).
Proof.
  intros Hk Hd Hos.
  pose proof (Z.pow_pos_nonneg 2 k ltac:(lia) ltac:(lia)) as Hp.
  assert (2 ^ k <= 2 ^ 31) as Hp31 by (apply Z.pow_le_mono_r; lia).
  assert (ringbuf_wf (ringbuf_init (2 ^ k) rb)) as H.
  { constructor; simpl; eauto; try lia. apply u32_id. unfold is_u32. lia. }
  assert (rb_contents (ringbuf_init (2 ^ k) rb) = []) as E.
  { unfold rb_contents, rb_len. simpl. by rewrite Z.mod_0_l by lia. }
  assert (rb_size (ringbuf_init (2 ^ k) rb) = 2 ^ k) as Hs by done.
  rewrite <- E. clear E Hd. revert H Hs.
  generalize (ringbuf_init (2 ^ k) rb). clear rb.
  induction Hos as [|o os Ho Hos IH]; intros rb H Hs; simpl; [eauto|].
  destruct (run_rb_op_refines rb o H Ho) as (rb1 & E1 & H1 & Hs1 & Hc1).
  rewrite Hs in *. destruct (IH rb1 H1 Hs1) as (rb2 & E2 & H2 & Hc2).
  unfold bind. rewrite E1, E2. rewrite Hc1 in *. exists rb2.
  destruct (queue_op _ o _) as [r q1]. simpl in *.
  by destruct (queue_ops _ os q1) as [rs q2].
Qed.

Lemma ringbuf_refines_queue_witness :
  exists rb', run_rb_ops [RbWrite [1;2;3;4;5]; RbRead 2; RbWrite [6;7;8]; RbDiscard 1; RbRead 9]
      (ringbuf_init (2 ^ 3) (Ringbuf 0 0 0 0 (replicate 8 0))) =
      Ok (fst (queue_ops (Z.to_nat (2 ^ 3 - 1))
        [RbWrite [1;2;3;4;5]; RbRead 2; RbWrite [6;7;8]; RbDiscard 1; RbRead 9] []), rb') /\
    ringbuf_wf rb' /\
    rb_contents rb' = snd (queue_ops (Z.to_nat (2 ^ 3 - 1))
        [RbWrite [1;2;3;4;5]; RbRead 2; RbWrite [6;7;8]; RbDiscard 1; RbRead 9] []).
Proof.
  apply (ringbuf_refines_queue 3 (Ringbuf 0 0 0 0 (replicate 8 0))).
  - lia.
  - reflexivity.
  - repeat constructor; simpl; lia.
Defined.

(** The ring's queries agree with the queue it represents: [readable] is
    the queue's length, [writable] the free room, [empty] and [full] their
    extreme values, and [peek] returns the oldest byte without removing it. *)
Theorem ringbuf_queries rb :
  ringbuf_wf rb ->
  let q := rb_contents rb in
  let n := Z.of_nat (length q) in
  ringbuf_readable rb = n /\
  ringbuf_writable rb = rb_size rb - 1 - n /\
  ringbuf_empty rb = bool_decide (q = []) /\
  ringbuf_full rb = bool_decide (n = rb_size rb - 1) /\
  ringbuf_peek rb = Ok (head q, rb).
Proof.
  intros H q n. pose proof (length_contents rb H) as L. fold q n in L.
  pose proof (rb_len_bounds rb H) as Hb. pose proof (size_bounds rb H) as Hs.
  unfold ringbuf_readable, ringbuf_writable. rewrite !mask_mod by done.
  split; [done|]. split.
  { replace (rb_tail rb - rb_head rb - 1) with (-1 - (rb_head rb - rb_tail rb)) by lia.
    rewrite <- Zminus_mod_idemp_r. fold (rb_len rb).
    replace (-1 - rb_len rb) with (rb_size rb - 1 - rb_len rb + (-1) * rb_size rb) by lia.
    rewrite Z.mod_add by lia. rewrite Z.mod_small; lia. }
  pose proof (empty_spec rb H) as He. fold q in He.
  split; [done|]. split.
  { unfold ringbuf_full. rewrite push_next_eq, L by done. apply eqb_bool_decide. }
  unfold ringbuf_peek, bind, gets, id. rewrite Z.eqb_sym.
  fold (ringbuf_empty rb). rewrite He. case_bool_decide as E; [by rewrite E|].
  rewrite rd_nthZ by (rewrite (wf_data rb H); apply H).
  unfold q. rewrite contents_cons; [done|done|].
  destruct (decide (rb_len rb = 0)) as [E0|]; [|lia]. destruct E.
  apply nil_length_inv. lia.
Qed.

Lemma ringbuf_queries_witness :
  ringbuf_peek (Ringbuf 1 6 8 7 [10;11;12;13;14;15;16;17]) =
    Ok (Some 16, Ringbuf 1 6 8 7 [10;11;12;13;14;15;16;17]).
Proof.
  assert (ringbuf_wf (Ringbuf 1 6 8 7 [10;11;12;13;14;15;16;17])) as H.
  { constructor; simpl; try lia. exists 3. lia. }
  apply (ringbuf_queries _ H).
Defined.
