(* ===== verification/Keyboard.v ===== *)
(** * PS/2 keyboard driver

    Models drivers/input/keyboard.c: the IRQ handler decodes XT scancodes with
    its modifier state and feeds two byte queues, the ASCII stream read by the
    console and the (scancode, flags) event stream.  The driver is written
    against [BoundedFifo], the interface [Ringbuf] implements; the byte read
    from port 0x60 is an argument of the handler. *)

From stdpp Require Import base tactics numbers list gmap.
From S2P Require Import Prelude Ringbuf.

Definition scancode_to_ascii : list Z :=
  [0; 27; 49; 50; 51; 52; 53; 54; 55; 56; 57; 48; 45; 61; 8; 9;
   113; 119; 101; 114; 116; 121; 117; 105; 111; 112; 91; 93; 10; 0; 97; 115;
   100; 102; 103; 104; 106; 107; 108; 59; 39; 96; 0; 92; 122; 120; 99; 118;
   98; 110; 109; 44; 46; 47; 0; 42; 0; 32; 0; 0; 0; 0; 0; 0;
   0; 0; 0; 0; 0; 0; 0; 55; 56; 57; 45; 52; 53; 54; 43; 49;
   50; 51; 48; 46; 0; 0; 0; 0; 0; 0; 0; 0; 0; 0; 0; 0;
   0; 0; 0; 0; 0; 0; 0; 0; 0; 0; 0; 0; 0; 0; 0; 0;
   0; 0; 0; 0; 0; 0; 0; 0; 0; 0; 0; 0; 0; 0; 0; 0].

Definition scancode_to_ascii_shift : list Z :=
  [0; 27; 33; 64; 35; 36; 37; 94; 38; 42; 40; 41; 95; 43; 8; 9;
   81; 87; 69; 82; 84; 89; 85; 73; 79; 80; 123; 125; 10; 0; 65; 83;
   68; 70; 71; 72; 74; 75; 76; 58; 34; 126; 0; 124; 90; 88; 67; 86;
   66; 78; 77; 60; 62; 63; 0; 42; 0; 32; 0; 0; 0; 0; 0; 0;
   0; 0; 0; 0; 0; 0; 0; 55; 56; 57; 45; 52; 53; 54; 43; 49;
   50; 51; 48; 46; 0; 0; 0; 0; 0; 0; 0; 0; 0; 0; 0; 0;
   0; 0; 0; 0; 0; 0; 0; 0; 0; 0; 0; 0; 0; 0; 0; 0;
   0; 0; 0; 0; 0; 0; 0; 0; 0; 0; 0; 0; 0; 0; 0; 0].

Record kbd (Q : Type) := Kbd {
  kb_ring : Q;
  kb_event_ring : Q;
  extended_scancode : bool;
  shift_pressed : bool;
  ctrl_pressed : bool;
  caps_lock : bool;
  raw_mode : bool;
  kb_irq_registered : bool
}.
Arguments Kbd {Q}.
Arguments kb_ring {Q}.
Arguments kb_event_ring {Q}.
Arguments extended_scancode {Q}.
Arguments shift_pressed {Q}.
Arguments ctrl_pressed {Q}.
Arguments caps_lock {Q}.
Arguments raw_mode {Q}.
Arguments kb_irq_registered {Q}.

Definition KB_BUFFER_SIZE := 256.
Definition KB_EVENT_BUFFER_SIZE := 256.
Definition SCANCODE_EXTENDED := 224.
Definition SCANCODE_UP := 72.
Definition SCANCODE_DOWN := 80.
Definition SCANCODE_LEFT := 75.
Definition SCANCODE_RIGHT := 77.
Definition KEY_UP := 128.
Definition KEY_DOWN := 129.
Definition KEY_LEFT := 130.
Definition KEY_RIGHT := 131.
Definition KB_EVT_RELEASE := 1.
Definition KB_EVT_EXTENDED := 2.
Definition SCANCODE_LSHIFT := 42.
Definition SCANCODE_RSHIFT := 54.
Definition SCANCODE_CTRL := 29.
Definition SCANCODE_CAPSLOCK := 58.

Section driver.
Context {Q : Type} `{!BoundedFifo Q}.

Definition set_extended (b : bool) (k : kbd Q) : kbd Q :=
  Kbd (kb_ring k) (kb_event_ring k) b (shift_pressed k) (ctrl_pressed k)
      (caps_lock k) (raw_mode k) (kb_irq_registered k).
Definition set_shift (b : bool) (k : kbd Q) : kbd Q :=
  Kbd (kb_ring k) (kb_event_ring k) (extended_scancode k) b (ctrl_pressed k)
      (caps_lock k) (raw_mode k) (kb_irq_registered k).
Definition set_ctrl (b : bool) (k : kbd Q) : kbd Q :=
  Kbd (kb_ring k) (kb_event_ring k) (extended_scancode k) (shift_pressed k) b
      (caps_lock k) (raw_mode k) (kb_irq_registered k).
Definition set_caps (b : bool) (k : kbd Q) : kbd Q :=
  Kbd (kb_ring k) (kb_event_ring k) (extended_scancode k) (shift_pressed k)
      (ctrl_pressed k) b (raw_mode k) (kb_irq_registered k).
Definition set_ring (q : Q) (k : kbd Q) : kbd Q :=
  Kbd q (kb_event_ring k) (extended_scancode k) (shift_pressed k)
      (ctrl_pressed k) (caps_lock k) (raw_mode k) (kb_irq_registered k).
Definition set_event_ring (q : Q) (k : kbd Q) : kbd Q :=
  Kbd (kb_ring k) q (extended_scancode k) (shift_pressed k)
      (ctrl_pressed k) (caps_lock k) (raw_mode k) (kb_irq_registered k).

(** An operation on one of the two queues. *)
Definition on_ring {A} (m : ST Q A) : ST (kbd Q) A := zoom kb_ring set_ring m.
Definition on_event_ring {A} (m : ST Q A) : ST (kbd Q) A :=
  zoom kb_event_ring set_event_ring m.

(** The result of each push is ignored, as in the source. *)
Definition kb_event_push (scancode flags : Z) : ST (kbd Q) unit :=
  on_event_ring (fifo_push scancode);;
  on_event_ring (fifo_push flags);;
  ret tt.

(** The C result, then [*out_scancode] and [*out_flags] where they are stored. *)
Definition kb_event_pop : ST (kbd Q) (Z * option Z * option Z) :=
  sc ← on_event_ring fifo_pop;
  match sc with
  | None => ret (0, None, None)
  | Some s =>
      fl ← on_event_ring fifo_pop;
      match fl with
      | None => ret (0, Some s, Some 0)
      | Some f => ret (1, Some s, Some f)
      end
  end.

Definition kb_external_push (c : Z) : ST (kbd Q) unit :=
  on_ring (fifo_push (u8 c));; ret tt.

(** The character a press of [key_code] stands for, 0 for none. *)
Definition key_char (shift caps ctrl : bool) (key_code : Z) : ST (kbd Q) Z :=
  c ← (if shift then rd scancode_to_ascii_shift key_code
       else rd scancode_to_ascii key_code);
  let c := if caps then
             if (97 <=? c) && (c <=? 122) then c - 97 + 65
             else if (65 <=? c) && (c <=? 90) then c - 65 + 97 else c
           else c in
  ret (if ctrl && (((97 <=? c) && (c <=? 122)) || ((65 <=? c) && (c <=? 90)))
        then Z.land c 31 else c).

Definition keyboard_handle_irq (scancode : Z) : ST (kbd Q) unit :=
  k ← gets id;
  if raw_mode k then kb_external_push scancode
  else if scancode =? SCANCODE_EXTENDED then modify (set_extended true)
  else
    let key_released := negb (Z.land scancode 128 =? 0) in
    let key_code := Z.land scancode 127 in
    let flags := Z.lor (if key_released then KB_EVT_RELEASE else 0)
                       (if extended_scancode k then KB_EVT_EXTENDED else 0) in
    kb_event_push key_code flags;;
    if (key_code =? SCANCODE_LSHIFT) || (key_code =? SCANCODE_RSHIFT) then
      modify (set_shift (negb key_released))
    else if key_code =? SCANCODE_CTRL then
      modify (set_ctrl (negb key_released))
    else if (key_code =? SCANCODE_CAPSLOCK) && negb key_released then
      modify (set_caps (negb (caps_lock k)))
    else if extended_scancode k then
      modify (set_extended false);;
      if negb key_released then
        if key_code =? SCANCODE_UP then kb_external_push KEY_UP
        else if key_code =? SCANCODE_DOWN then kb_external_push KEY_DOWN
        else if key_code =? SCANCODE_LEFT then kb_external_push KEY_LEFT
        else if key_code =? SCANCODE_RIGHT then kb_external_push KEY_RIGHT
        else ret tt
      else ret tt
    else if negb key_released then
      c ← key_char (shift_pressed k) (caps_lock k) (ctrl_pressed k) key_code;
      if negb (c =? 0) then kb_external_push c else ret tt
    else ret tt.

(** [irqs] are the scancodes of the interrupts that arrive while the caller
    sleeps in [sti; hlt]; the loop leaves with the queue's oldest byte. *)
Fixpoint kb_get_char (irqs : list Z) : ST (kbd Q) Z :=
  k ← gets id;
  if fifo_empty (kb_ring k) then
    match irqs with
    | [] => fail NoFuel
    | sc :: irqs' => keyboard_handle_irq sc;; kb_get_char irqs'
    end
  else
    c ← on_ring fifo_pop;
    ret (default 0 c).

End driver.

Definition keyboard_init (k : kbd ringbuf) : kbd ringbuf :=
  Kbd (ringbuf_init KB_BUFFER_SIZE (kb_ring k))
      (ringbuf_init KB_EVENT_BUFFER_SIZE (kb_event_ring k))
      false false false false (raw_mode k) true.

(** ** Properties *)

Fixpoint handle_irqs {Q} `{!BoundedFifo Q} (scs : list Z) : ST (kbd Q) unit :=
  match scs with
  | [] => ret tt
  | sc :: scs' => keyboard_handle_irq sc;; handle_irqs scs'
  end.

(** Scancodes of the keys A to Z. *)
Definition letter_scancodes : list Z :=
  [30; 48; 46; 32; 18; 33; 34; 35; 23; 36; 37; 38; 50; 49; 24; 25; 16; 19; 31;
   20; 22; 47; 17; 45; 21; 44].

(** What the [i]-th letter key types: Ctrl wins over case; Shift and Caps Lock
    cancel each other. *)
Definition letter_char (shift caps ctrl : bool) (i : Z) : Z :=
  if ctrl then i + 1 else if xorb shift caps then 65 + i else 97 + i.

Section facts.
Context {Q : Type} `{!BoundedFifo Q}.

Definition kbd_inv (k : kbd Q) : Prop :=
  fifo_inv (kb_ring k) /\ fifo_inv (kb_event_ring k).

Definition kb_room (k : kbd Q) : Prop :=
  Z.of_nat (length (fifo_items (kb_ring k))) < fifo_cap (kb_ring k).

Lemma push_total (c : Z) (q : Q) :
  fifo_inv q -> exists r q', fifo_push c q = Ok (r, q') /\ fifo_inv q' /\
    fifo_cap q' = fifo_cap q /\ exists l, fifo_items q' = fifo_items q ++ l.
Proof.
  intros H. pose proof (fifo_len_le q H).
  destruct (decide (Z.of_nat (length (fifo_items q)) = fifo_cap q)) as [E|E].
  - exists (-1), q. rewrite fifo_push_full by done. split_and!; try done.
    exists []. by rewrite app_nil_r.
  - destruct (fifo_push_ok c q H ltac:(lia)) as (q' & ? & ? & ? & ?). eauto 8.
Qed.

Lemma event_push_frame sc fl (k : kbd Q) :
  kbd_inv k -> exists q, kb_event_push sc fl k = Ok (tt, set_event_ring q k) /\
    fifo_inv q.
Proof.
  intros [H1 H2]. unfold kb_event_push, on_event_ring, zoom, bind.
  destruct (push_total sc _ H2) as (r1 & q1 & -> & Hq1 & _). simpl.
  destruct (push_total fl _ Hq1) as (r2 & q2 & -> & Hq2 & _). simpl. eauto.
Qed.

Lemma external_push_room c (k : kbd Q) :
  kbd_inv k -> kb_room k -> exists q, kb_external_push c k = Ok (tt, set_ring q k) /\
    fifo_inv q /\ fifo_items q = fifo_items (kb_ring k) ++ [u8 c].
Proof.
  intros [H1 H2] Hr. unfold kb_external_push, on_ring, zoom, bind.
  destruct (fifo_push_ok (u8 c) _ H1 Hr) as (q & -> & ? & ? & ?). eauto.
Qed.

Lemma external_push_frame c (k : kbd Q) :
  kbd_inv k -> exists q, kb_external_push c k = Ok (tt, set_ring q k) /\
    fifo_inv q /\ exists l, fifo_items q = fifo_items (kb_ring k) ++ l.
Proof.
  intros [H1 H2]. unfold kb_external_push, on_ring, zoom, bind.
  destruct (push_total (u8 c) _ H1) as (r & q & -> & ? & ? & ?). eauto.
Qed.

Lemma key_char_total shift caps ctrl code (k : kbd Q) :
  0 <= code < 128 -> exists c, key_char shift caps ctrl code k = Ok (c, k).
Proof.
  intros H. unfold key_char, bind.
  destruct shift; rewrite rd_nthZ by done; eexists; reflexivity.
Qed.

Lemma key_code_range sc : 0 <= Z.land sc 127 < 128.
Proof. change 127 with (2 ^ 7 - 1). rewrite land_pow2_mask by lia. by apply Z.mod_pos_bound. Qed.

Lemma letter_key_char shift caps ctrl i sc (k : kbd Q) :
  letter_scancodes !! Z.to_nat i = Some sc -> 0 <= i ->
  Z.land sc 128 = 0 /\ Z.land sc 127 = sc /\
  forallb (fun x => negb (sc =? x)) [SCANCODE_EXTENDED; SCANCODE_LSHIFT; SCANCODE_RSHIFT;
                                   SCANCODE_CTRL; SCANCODE_CAPSLOCK] = true /\
  key_char shift caps ctrl sc k = Ok (letter_char shift caps ctrl i, k) /\
  0 < letter_char shift caps ctrl i < 128.
Proof.
  intros Hsc Hi. assert (0 <= i < 26) as Hlt.
  { apply lookup_lt_Some in Hsc. simpl in Hsc. lia. }
  assert (In i (seqZ 0 26)) as Hin.
  { apply list_elem_of_In, elem_of_seqZ. lia. }
  clear Hi Hlt. simpl in Hin.
  repeat (destruct Hin as [<-|Hin];
    [injection Hsc as <-; destruct shift, caps, ctrl; vm_compute; split_and!; reflexivity|]).
  done.
Qed.

Lemma irq_frame sc (k : kbd Q) :
  kbd_inv k -> exists k', keyboard_handle_irq sc k = Ok (tt, k') /\ kbd_inv k' /\
    exists l, fifo_items (kb_ring k') = fifo_items (kb_ring k) ++ l.
Proof.
  intros H. unfold keyboard_handle_irq. unfold bind at 1, gets, id.
  destruct (raw_mode k).
  { destruct (external_push_frame sc k H) as (q & -> & ? & ?). destruct H.
    by exists (set_ring q k). }
  destruct (sc =? SCANCODE_EXTENDED).
  { eexists. split; [reflexivity|]. split; [done|]. exists []. by rewrite app_nil_r. }
  destruct (event_push_frame (Z.land sc 127)
    (Z.lor (if negb (Z.land sc 128 =? 0) then KB_EVT_RELEASE else 0)
           (if extended_scancode k then KB_EVT_EXTENDED else 0)) k H) as (q & E & Hq).
  unfold bind at 1. rewrite E. clear E.
  assert (kbd_inv (set_event_ring q k)) as H1 by (split; [apply H|done]).
  change (kb_ring k) with (kb_ring (set_event_ring q k)).
  set (k1 := set_event_ring q k) in *. clearbody k1.
  assert (forall k2, kbd_inv k2 -> kb_ring k2 = kb_ring k1 ->
    exists k', ret tt k2 = Ok (tt, k') /\ kbd_inv k' /\
    exists l, fifo_items (kb_ring k') = fifo_items (kb_ring k1) ++ l) as Hret.
  { intros k2 ? E. exists k2. split; [done|]. split; [done|].
    exists []. by rewrite E, app_nil_r. }
  assert (forall c k2, kbd_inv k2 -> kb_ring k2 = kb_ring k1 ->
    exists k', kb_external_push c k2 = Ok (tt, k') /\ kbd_inv k' /\
    exists l, fifo_items (kb_ring k') = fifo_items (kb_ring k1) ++ l) as Hpush.
  { intros c k2 H2 E. destruct (external_push_frame c k2 H2) as (q2 & -> & ? & ?).
    exists (set_ring q2 k2). rewrite <- E. destruct H2. done. }
  destruct (_ || _); [by apply Hret|]. destruct (_ =? SCANCODE_CTRL); [by apply Hret|].
  destruct (_ && _); [by apply Hret|]. destruct (extended_scancode k).
  { unfold bind, modify. repeat case_match; auto. }
  destruct (negb _); [|by apply Hret]. unfold bind.
  edestruct key_char_total as [c ->]; [apply key_code_range|].
  destruct (negb (c =? 0)); [by apply Hpush|by apply Hret].
Qed.

(** The keyboard handler never faults whatever bytes the controller delivers;
    the ASCII queue only grows at its end. *)
Lemma irqs_frame scs (k : kbd Q) :
  kbd_inv k -> exists k', handle_irqs scs k = Ok (tt, k') /\ kbd_inv k' /\
    exists l, fifo_items (kb_ring k') = fifo_items (kb_ring k) ++ l.
Proof.
  revert k. induction scs as [|sc scs IH]; intros k H; simpl.
  - exists k. split; [done|]. split; [done|]. exists []. by rewrite app_nil_r.
  - destruct (irq_frame sc k H) as (k1 & E1 & H1 & l1 & El1).
    destruct (IH k1 H1) as (k2 & E2 & H2 & l2 & El2).
    unfold bind. rewrite E1, E2. exists k2. split; [done|]. split; [done|].
    exists (l1 ++ l2). by rewrite El2, El1, app_assoc.
Qed.

Lemma letter_irq (k : kbd Q) i sc :
  kbd_inv k -> kb_room k -> raw_mode k = false -> extended_scancode k = false ->
  0 <= i -> letter_scancodes !! Z.to_nat i = Some sc ->
  exists qe qr, keyboard_handle_irq sc k = Ok (tt, set_ring qr (set_event_ring qe k)) /\
    fifo_inv qe /\ fifo_inv qr /\
    fifo_items qr = fifo_items (kb_ring k) ++
      [letter_char (shift_pressed k) (caps_lock k) (ctrl_pressed k) i].
Proof.
  intros H Hr Hraw Hext Hi Hsc.
  unfold keyboard_handle_irq. unfold bind at 1, gets, id.
  destruct (letter_key_char (shift_pressed k) (caps_lock k) (ctrl_pressed k) i sc k Hsc Hi)
    as (E1 & E2 & Hne & _ & Hch). simpl in Hne. bool_case.
  rewrite Hraw, E1, E2, Hext. simpl.
  repeat match goal with H : sc <> _ |- _ => rewrite (proj2 (Z.eqb_neq _ _) H) end. simpl.
  unfold bind at 1.
  destruct (event_push_frame sc (Z.lor 0 0) k H) as (qe & -> & Hqe).
  unfold bind.
  destruct (letter_key_char (shift_pressed k) (caps_lock k) (ctrl_pressed k) i sc
    (set_event_ring qe k) Hsc Hi) as (_ & _ & _ & -> & _).
  rewrite (proj2 (Z.eqb_neq _ _)) by lia. simpl.
  edestruct (external_push_room (letter_char (shift_pressed k) (caps_lock k) (ctrl_pressed k) i)
    (set_event_ring qe k)) as (qr & -> & Hqr & Hit); [split; [apply H|done]|done|].
  exists qe, qr. split; [done|]. split; [done|]. split; [done|].
  rewrite Hit, u8_id; [done|]. unfold is_u8. lia.
Qed.

End facts.

(** C39: In cooked mode a press of the [i]-th letter key appends exactly the
    character the modifiers call for: the control code [i + 1] when Ctrl is
    held, otherwise the upper-case letter when exactly one of Shift and Caps
    Lock is active and the lower-case one else.  The modifiers stay as they
    are, and a reader blocked in [kb_get_char] on an empty queue is handed
    that character. *)
Theorem keyboard_letter_key (k : kbd ringbuf) (i sc : Z) :
  kbd_inv k -> kb_room k -> raw_mode k = false -> extended_scancode k = false ->
  0 <= i -> letter_scancodes !! Z.to_nat i = Some sc ->
  let c := letter_char (shift_pressed k) (caps_lock k) (ctrl_pressed k) i in
  exists k', keyboard_handle_irq sc k = Ok (tt, k') /\ kbd_inv k' /\
    rb_contents (kb_ring k') = rb_contents (kb_ring k) ++ [c] /\
    shift_pressed k' = shift_pressed k /\ caps_lock k' = caps_lock k /\
    ctrl_pressed k' = ctrl_pressed k /\ extended_scancode k' = false /\
    (rb_contents (kb_ring k) = [] -> exists k'', kb_get_char [sc] k = Ok (c, k'') /\
       rb_contents (kb_ring k'') = []).
Proof.
  intros H Hr Hraw Hext Hi Hsc c.
  destruct (letter_irq k i sc H Hr Hraw Hext Hi Hsc) as (qe & qr & E & Hqe & Hqr & Hit).
  eexists. split; [exact E|]. split; [done|]. split; [exact Hit|].
  split_and!; try done. intros Hemp.
  simpl in Hit. rewrite Hemp in Hit. simpl in Hit.
  cbn [kb_get_char]. run. unfold id.
  rewrite fifo_empty_spec, bool_decide_true by (apply H || done).
  rewrite (bind_ok _ _ _ _ _ E). run.
  rewrite fifo_empty_spec by apply Hqr. simpl. rewrite Hit. simpl.
  destruct (pop_ok qr c [] Hqr Hit) as (q' & Ep & _ & _ & Hc).
  erewrite bind_ok by (unfold on_ring, zoom; simpl; by rewrite Ep). eexists. split; [reflexivity|done].
Qed.

(** The driver right after [keyboard_init]. *)
Definition kbd_boot : kbd ringbuf :=
  keyboard_init (Kbd (Ringbuf 0 0 0 0 (replicate 256 0)) (Ringbuf 0 0 0 0 (replicate 256 0))
    true true true true false false).

Lemma kbd_boot_inv : kbd_inv kbd_boot.
Proof.
  split; (constructor; [exists 8; split; [lia|reflexivity]|reflexivity| | |reflexivity]);
    vm_compute; split; congruence.
Qed.

Lemma keyboard_letter_key_witness :
  exists k', keyboard_handle_irq 46 kbd_boot = Ok (tt, k') /\
    rb_contents (kb_ring k') = rb_contents (kb_ring kbd_boot) ++ [99].
Proof.
  destruct (keyboard_letter_key kbd_boot 2 46) as (k' & E & _ & Hc & _).
  - exact kbd_boot_inv.
  - vm_compute. reflexivity.
  - reflexivity.
  - reflexivity.
  - lia.
  - reflexivity.
  - exists k'. split; [exact E|exact Hc].
Defined.

(** A modifier key with the 0xE0 prefix (the right Ctrl key) returns before
    the prefix flag is cleared, so the letter pressed next is taken for an
    extended key and nothing is typed: right Ctrl followed by C types nothing. *)
Theorem right_ctrl_swallows_key :
  match handle_irqs [224; 29; 46] kbd_boot with
  | Ok (_, k) => rb_contents (kb_ring k) = []
  | Err _ => False
  end /\
  match handle_irqs [29; 46] kbd_boot with
  | Ok (_, k) => rb_contents (kb_ring k) = [3]
  | Err _ => False
  end.
Proof. split; vm_compute; reflexivity. Qed.

Fixpoint pop_events (n : nat) : ST (kbd ringbuf) (list (Z * option Z * option Z)) :=
  match n with
  | O => ret []
  | S n' => e ← kb_event_pop; es ← pop_events n'; ret (e :: es)
  end.

(** The event ring holds 255 bytes, an odd number, and an event is pushed as
    two independent bytes.  After 128 key presses that nobody reads, the last
    event is cut in half; when room appears the reader pairs bytes wrongly and
    reports scancode 30 with flags 48. *)
Theorem event_stream_misaligned :
  match (handle_irqs (replicate 128 30);; pop_events 1;; handle_irqs [48];;
         pop_events 126;; pop_events 1) kbd_boot with
  | Ok (es, _) => es = [(1, Some 30, Some 48)]
  | Err _ => False
  end.
Proof. vm_compute. reflexivity. Qed.
