(* ===== verification/Hashtable.v ===== *)
(** * Chained hash table

    Models lib/hashtable.c and include/kernel/hashtable.h.  Entries are owned
    by the caller and linked through their [next] field; pointers are [Z] with
    0 for NULL, and the entries live in a store from pointers to records.  The
    theorems show that the table refines a finite map. *)

From stdpp Require Import base tactics numbers list gmap.
From S2P Require Import Prelude.

Definition HASH_TABLE_SIZE := 1024.
Definition HASH_MASK := HASH_TABLE_SIZE - 1.

Record hash_entry := HashEntry {
  he_key : Z;
  he_value : Z;
  he_next : Z
}.

Record hash_table := HashTable {
  ht_buckets : list Z;
  ht_count : Z;
  ht_name : Z
}.

(** The table and the entries its callers own. *)
Record ht_state := HtState {
  hts_table : hash_table;
  hts_entries : gmap Z hash_entry
}.

Definition hash_function (key : Z) : Z :=
  let hash := key in
  let hash := u32 (hash + u32 (Z.shiftl hash 10)) in
  let hash := Z.lxor hash (Z.shiftr hash 6) in
  let hash := u32 (hash + u32 (Z.shiftl hash 3)) in
  let hash := Z.lxor hash (Z.shiftr hash 11) in
  let hash := u32 (hash + u32 (Z.shiftl hash 15)) in
  Z.land hash HASH_MASK.

Definition set_buckets (b : list Z) (s : ht_state) : ht_state :=
  HtState (HashTable b (ht_count (hts_table s)) (ht_name (hts_table s))) (hts_entries s).
Definition set_count (c : Z) (s : ht_state) : ht_state :=
  HtState (HashTable (ht_buckets (hts_table s)) c (ht_name (hts_table s))) (hts_entries s).

(** Dereferencing an entry pointer. *)
Definition load_entry (p : Z) : ST ht_state hash_entry :=
  s ← gets id;
  match hts_entries s !! p with
  | Some e => ret e
  | None => fail Undef
  end.
Definition store_entry (p : Z) (e : hash_entry) : ST ht_state unit :=
  s ← gets id;
  match hts_entries s !! p with
  | Some _ => modify (fun s => HtState (hts_table s) (<[p := e]> (hts_entries s)))
  | None => fail Undef
  end.
Definition load_bucket (b : Z) : ST ht_state Z :=
  s ← gets id; rd (ht_buckets (hts_table s)) b.
Definition store_bucket (b p : Z) : ST ht_state unit :=
  s ← gets id;
  bs ← wr (ht_buckets (hts_table s)) b p;
  modify (set_buckets bs).

(** A chain visits no entry twice, so the number of entries bounds a walk. *)
Definition walk_fuel (s : ht_state) : nat := S (size (hts_entries s)).

Fixpoint init_buckets (i : Z) (n : nat) : ST ht_state unit :=
  match n with
  | O => ret tt
  | S n' => store_bucket i 0;; init_buckets (i + 1) n'
  end.

Definition hash_table_init (table name : Z) : ST ht_state unit :=
  if table =? 0 then ret tt
  else
    init_buckets 0 (Z.to_nat HASH_TABLE_SIZE);;
    modify (fun s => HtState (HashTable (ht_buckets (hts_table s)) 0 name) (hts_entries s)).

(** The duplicate scan of an insertion: is [key] in the chain from [e]? *)
Fixpoint insert_scan (fuel : nat) (key e : Z) : ST ht_state bool :=
  match fuel with
  | O => fail NoFuel
  | S fuel' =>
      if e =? 0 then ret false
      else
        en ← load_entry e;
        if he_key en =? key then ret true else insert_scan fuel' key (he_next en)
  end.

Definition hash_table_insert (table key value entry : Z) : ST ht_state Z :=
  if (table =? 0) || (value =? 0) || (entry =? 0) then ret (- EINVAL)
  else
    let bucket := hash_function key in
    s ← gets id;
    e ← load_bucket bucket;
    dup ← insert_scan (walk_fuel s) key e;
    if dup then ret (- EEXIST)
    else
      head ← load_bucket bucket;
      store_entry entry (HashEntry key value head);;
      store_bucket bucket entry;;
      modify (fun s => set_count (u32 (ht_count (hts_table s) + 1)) s);;
      ret 0.

Fixpoint lookup_walk (fuel : nat) (key entry : Z) : ST ht_state Z :=
  match fuel with
  | O => fail NoFuel
  | S fuel' =>
      if entry =? 0 then ret 0
      else
        en ← load_entry entry;
        if he_key en =? key then ret (he_value en)
        else lookup_walk fuel' key (he_next en)
  end.

Definition hash_table_lookup (table key : Z) : ST ht_state Z :=
  if table =? 0 then ret 0
  else
    s ← gets id;
    entry ← load_bucket (hash_function key);
    lookup_walk (walk_fuel s) key entry.

(** [entry_ptr] points at a bucket or at the [next] field of an entry. *)
Inductive entry_slot :=
| SBucket (b : Z)
| SNext (p : Z).

Definition store_slot (sl : entry_slot) (v : Z) : ST ht_state unit :=
  match sl with
  | SBucket b => store_bucket b v
  | SNext p => e ← load_entry p; store_entry p (HashEntry (he_key e) (he_value e) v)
  end.

(** Result and [*out_entry]. *)
Fixpoint remove_walk (fuel : nat) (key : Z) (entry_ptr : entry_slot) (entry : Z)
    : ST ht_state (Z * Z) :=
  match fuel with
  | O => fail NoFuel
  | S fuel' =>
      if entry =? 0 then ret (0, 0)
      else
        en ← load_entry entry;
        if he_key en =? key then
          store_slot entry_ptr (he_next en);;
          modify (fun s => set_count (u32 (ht_count (hts_table s) - 1)) s);;
          ret (he_value en, entry)
        else remove_walk fuel' key (SNext entry) (he_next en)
  end.

Definition hash_table_remove (table key : Z) : ST ht_state (Z * Z) :=
  if table =? 0 then ret (0, 0)
  else
    let bucket := hash_function key in
    s ← gets id;
    entry ← load_bucket bucket;
    remove_walk (walk_fuel s) key (SBucket bucket) entry.

(** ** Abstraction: a finite map *)

(** [chain ents p l]: the [next] links from [p] visit exactly [l]. *)
Fixpoint chain (ents : gmap Z hash_entry) (p : Z) (l : list Z) : Prop :=
  match l with
  | [] => p = 0
  | q :: l' => p = q /\ q <> 0 /\
      exists e, ents !! q = Some e /\ chain ents (he_next e) l'
  end.

(** The table represents [m], which gives the entry and the value of a key. *)
Record ht_rep (s : ht_state) (m : gmap Z (Z * Z)) : Prop := {
  rep_len : length (ht_buckets (hts_table s)) = Z.to_nat HASH_TABLE_SIZE;
  rep_chains : exists chains : Z -> list Z,
    (forall b, 0 <= b < HASH_TABLE_SIZE ->
       chain (hts_entries s) (nthZ (ht_buckets (hts_table s)) b) (chains b) /\
       NoDup (chains b)) /\
    (forall b p, p ∈ chains b -> exists e, hts_entries s !! p = Some e /\
       hash_function (he_key e) = b /\ m !! he_key e = Some (p, he_value e)) /\
    (forall k p v, m !! k = Some (p, v) -> p ∈ chains (hash_function k) /\
       exists e, hts_entries s !! p = Some e /\ he_key e = k /\ he_value e = v);
  rep_vals : forall k p v, m !! k = Some (p, v) -> p <> 0 /\ v <> 0;
  rep_count : ht_count (hts_table s) = u32 (Z.of_nat (size m))
}.

Lemma hash_function_range k : 0 <= hash_function k < HASH_TABLE_SIZE.
Proof.
  unfold hash_function. change HASH_MASK with (2 ^ 10 - 1).
  rewrite land_pow2_mask by lia. by apply Z.mod_pos_bound.
Qed.

Lemma chain_ext ents ents' p l :
  (forall q, q ∈ l -> ents' !! q = ents !! q) -> chain ents p l -> chain ents' p l.
Proof.
  revert p. induction l as [|q l IH]; intros p He; simpl; [done|].
  intros (-> & Hq & e & Hl & Hc). split; [done|]. split; [done|].
  exists e. split; [rewrite He; [done|left]|]. apply IH; [|done].
  intros. apply He. by right.
Qed.

Lemma chain_length ents p l :
  chain ents p l -> NoDup l -> (length l <= size ents)%nat.
Proof.
  intros Hc Hnd. rewrite <- (size_dom ents), <- (size_list_to_set (C := gset Z) l) by done.
  apply subseteq_size. intros q. rewrite elem_of_list_to_set. clear Hnd.
  revert p Hc. induction l as [|x l IH]; intros p Hc Hq; [by apply not_elem_of_nil in Hq|].
  destruct Hc as (_ & _ & e & Hx & Hc). apply elem_of_cons in Hq as [->|Hq]; [|eauto].
  apply elem_of_dom. eauto.
Qed.

Lemma load_bucket_ok s b :
  length (ht_buckets (hts_table s)) = Z.to_nat HASH_TABLE_SIZE ->
  0 <= b < HASH_TABLE_SIZE ->
  load_bucket b s = Ok (nthZ (ht_buckets (hts_table s)) b, s).
Proof.
  intros Hl Hb. unfold load_bucket. run. apply rd_nthZ. rewrite Hl.
  unfold HASH_TABLE_SIZE in *. lia.
Qed.

Lemma store_bucket_ok s b p :
  length (ht_buckets (hts_table s)) = Z.to_nat HASH_TABLE_SIZE ->
  0 <= b < HASH_TABLE_SIZE ->
  store_bucket b p s = Ok (tt, set_buckets (<[Z.to_nat b := p]> (ht_buckets (hts_table s))) s).
Proof.
  intros Hl Hb. unfold store_bucket. run. erewrite bind_ok; [reflexivity|].
  apply wr_ok. unfold id. rewrite Hl. unfold HASH_TABLE_SIZE in *. lia.
Qed.

Lemma load_entry_ok s p e :
  hts_entries s !! p = Some e -> load_entry p s = Ok (e, s).
Proof. intros E. unfold load_entry. run. unfold id. by rewrite E. Qed.

Lemma store_entry_ok s p e e' :
  hts_entries s !! p = Some e ->
  store_entry p e' s = Ok (tt, HtState (hts_table s) (<[p := e']> (hts_entries s))).
Proof. intros E. unfold store_entry. run. unfold id. by rewrite E. Qed.

(** The walks over a chain find the entry that holds the key, if there is one. *)
Definition key_at (ents : gmap Z hash_entry) (key p : Z) : Prop :=
  exists e, ents !! p = Some e /\ he_key e = key.

Lemma insert_scan_ok s key fuel p l :
  chain (hts_entries s) p l -> (length l < fuel)%nat ->
  exists b, insert_scan fuel key p s = Ok (b, s) /\
    (b = true <-> exists q, q ∈ l /\ key_at (hts_entries s) key q).
Proof.
  revert p l. induction fuel as [|fuel IH]; intros p l Hc Hf; [lia|]. simpl.
  destruct l as [|q l]; simpl in Hc.
  - rewrite Hc. exists false. split; [done|]. split; [done|].
    intros (q & Hq & _). by apply not_elem_of_nil in Hq.
  - destruct Hc as (-> & Hq & e & He & Hc). rewrite (proj2 (Z.eqb_neq _ _) Hq).
    rewrite (bind_ok _ _ _ _ _ (load_entry_ok s q e He)).
    destruct (Z.eqb_spec (he_key e) key) as [E|E].
    + exists true. split; [done|]. split; [|done]. intros _. exists q.
      split; [left|]. exists e. done.
    + destruct (IH (he_next e) l Hc) as (b & -> & Hb); [simpl in Hf; lia|].
      exists b. split; [done|]. rewrite Hb. split.
      * intros (x & Hx & ?). exists x. split; [by right|done].
      * intros (x & Hx & Hk). apply elem_of_cons in Hx as [->|Hx]; [|eauto].
        destruct Hk as (e' & He' & ?). congruence.
Qed.

Lemma lookup_walk_ok s key fuel p l :
  chain (hts_entries s) p l -> (length l < fuel)%nat ->
  (exists q e, q ∈ l /\ hts_entries s !! q = Some e /\ he_key e = key /\
     lookup_walk fuel key p s = Ok (he_value e, s)) \/
  ((forall q, q ∈ l -> ~ key_at (hts_entries s) key q) /\
     lookup_walk fuel key p s = Ok (0, s)).
Proof.
  revert p l. induction fuel as [|fuel IH]; intros p l Hc Hf; [lia|]. simpl.
  destruct l as [|q l]; simpl in Hc.
  - rewrite Hc. right. split; [|done]. intros q Hq. by apply not_elem_of_nil in Hq.
  - destruct Hc as (-> & Hq & e & He & Hc). rewrite (proj2 (Z.eqb_neq _ _) Hq).
    rewrite (bind_ok _ _ _ _ _ (load_entry_ok s q e He)).
    destruct (Z.eqb_spec (he_key e) key) as [E|E].
    + left. exists q, e. split_and!; try done. left.
    + destruct (IH (he_next e) l Hc) as [(x & e' & ? & ? & ? & ->)|(Hn & ->)];
        [simpl in Hf; lia|left|right].
      * exists x, e'. split_and!; try done. by right.
      * split; [|done]. intros x Hx. apply elem_of_cons in Hx as [->|Hx]; [|auto].
        intros (e' & He' & ?). congruence.
Qed.

(** Unlinking changes no key and no value. *)
Definition same_kv (ents ents' : gmap Z hash_entry) : Prop :=
  forall r, (fun e => (he_key e, he_value e)) <$> ents' !! r =
            (fun e => (he_key e, he_value e)) <$> ents !! r.

Definition without (q : Z) (l : list Z) : list Z := filter (fun r => r <> q) l.

Lemma without_head q l : NoDup (q :: l) -> without q (q :: l) = l.
Proof.
  intros Hnd. apply NoDup_cons in Hnd as [Hq _]. unfold without.
  rewrite filter_cons_False by auto. apply filter_id.
  by intros r Hr ->.
Qed.

Lemma without_tail q x l : x <> q -> without q (x :: l) = x :: without q l.
Proof. intros. unfold without. by rewrite filter_cons_True. Qed.

Lemma same_kv_set_next ents x e n :
  ents !! x = Some e ->
  same_kv ents (<[x := HashEntry (he_key e) (he_value e) n]> ents).
Proof.
  intros He r. destruct (decide (x = r)) as [<-|].
  - by rewrite lookup_insert_eq, He.
  - by rewrite lookup_insert_ne.
Qed.

Definition bump_down (s : ht_state) : ht_state :=
  set_count (u32 (ht_count (hts_table s) - 1)) s.

(** The removal walk once it has passed an entry [x]: the chain behind [x]. *)
Lemma remove_walk_next s key fuel x ex l :
  hts_entries s !! x = Some ex -> x ∉ l -> NoDup l ->
  chain (hts_entries s) (he_next ex) l -> (length l < fuel)%nat ->
  (exists q e ents' ex', q ∈ l /\ hts_entries s !! q = Some e /\ he_key e = key /\
     remove_walk fuel key (SNext x) (he_next ex) s =
       Ok ((he_value e, q), bump_down (HtState (hts_table s) ents')) /\
     same_kv (hts_entries s) ents' /\
     (forall r, r ∉ x :: l -> ents' !! r = hts_entries s !! r) /\
     ents' !! x = Some ex' /\ chain ents' (he_next ex') (without q l)) \/
  ((forall q, q ∈ l -> ~ key_at (hts_entries s) key q) /\
     remove_walk fuel key (SNext x) (he_next ex) s = Ok ((0, 0), s)).
Proof.
  revert x ex l. induction fuel as [|fuel IH]; intros x ex l Hx Hxl Hnd Hc Hf; [lia|]. simpl.
  destruct l as [|q l]; simpl in Hc.
  - rewrite Hc. right. split; [|done]. intros q Hq. by apply not_elem_of_nil in Hq.
  - destruct Hc as (Hnx & Hq & e & He & Hc). rewrite Hnx, (proj2 (Z.eqb_neq _ _) Hq).
    rewrite (bind_ok _ _ _ _ _ (load_entry_ok s q e He)).
    pose proof Hnd as Hnd0. apply NoDup_cons in Hnd as [Hql Hnd].
    apply not_elem_of_cons in Hxl as [Hxq Hxl].
    destruct (Z.eqb_spec (he_key e) key) as [E|E].
    + left. exists q, e. simpl.
      rewrite bind_assoc, (bind_ok _ _ _ _ _ (load_entry_ok s x ex Hx)).
      rewrite (bind_ok _ _ _ _ _ (store_entry_ok s x ex _ Hx)). run.
      eexists _, _. split; [left|]. split; [done|]. split; [done|]. split; [reflexivity|].
      split; [by apply same_kv_set_next|].
      split; [intros r Hr; apply lookup_insert_ne; intros ->; apply Hr; left|].
      split; [apply lookup_insert_eq|]. simpl. rewrite without_head by done.
      eapply chain_ext; [|exact Hc]. intros r Hr. apply lookup_insert_ne. by intros ->.
    + destruct (IH q e l He Hql Hnd Hc) as
        [(y & e' & ents' & q' & Hy & Hye & Hk & -> & Hkv & Hfr & Hq' & Hc')|(Hn & ->)];
        [simpl in Hf; lia|left|right].
      * assert (q <> y) as Hqy by (intros ->; done).
        assert (ents' !! x = hts_entries s !! x) as Hx'.
        { apply Hfr. by apply not_elem_of_cons. }
        exists y, e', ents', ex. split_and!; try done; [by right| | |].
        -- intros r Hr. apply Hfr. apply not_elem_of_cons in Hr as [_ Hr]. done.
        -- by rewrite Hx'.
        -- rewrite without_tail, Hnx by done. simpl. eauto 8.
      * split; [|done]. intros y Hy. apply elem_of_cons in Hy as [->|Hy]; [|auto].
        intros (e' & He' & ?). congruence.
Qed.

(** ** One operation against the map *)

Lemma u32_step n d : u32 (u32 n + d) = u32 (n + d).
Proof. unfold u32. apply Zplus_mod_idemp_l. Qed.

Lemma rep_key_at s (m : gmap Z (Z * Z)) (chains : Z -> list Z) key :
  (forall b p, p ∈ chains b -> exists e, hts_entries s !! p = Some e /\
     hash_function (he_key e) = b /\ m !! he_key e = Some (p, he_value e)) ->
  (forall k p v, m !! k = Some (p, v) -> p ∈ chains (hash_function k) /\
     exists e, hts_entries s !! p = Some e /\ he_key e = k /\ he_value e = v) ->
  (exists q, q ∈ chains (hash_function key) /\ key_at (hts_entries s) key q) <->
  is_Some (m !! key).
Proof.
  intros H1 H2. split.
  - intros (q & Hq & e & He & Hk). destruct (H1 _ _ Hq) as (e' & He' & _ & Hm).
    rewrite He in He'. injection He' as <-. rewrite <- Hk. eauto.
  - intros [[p v] Hm]. destruct (H2 _ _ _ Hm) as (Hp & e & He & Hk & _).
    exists p. split; [done|]. exists e. done.
Qed.

Lemma lookup_refines s m table key :
  ht_rep s m -> table <> 0 ->
  hash_table_lookup table key s = Ok (default 0 (snd <$> m !! key), s).
Proof.
  intros [Hl (chains & Hc & H1 & H2) _ _] Ht. unfold hash_table_lookup.
  rewrite (proj2 (Z.eqb_neq _ _) Ht). run. unfold id.
  pose proof (hash_function_range key) as Hr.
  rewrite (bind_ok _ _ _ _ _ (load_bucket_ok s _ Hl Hr)).
  destruct (Hc _ Hr) as [Hch Hnd]. pose proof (chain_length _ _ _ Hch Hnd).
  destruct (lookup_walk_ok s key (walk_fuel s) _ _ Hch) as
    [(q & e & Hq & He & Hk & ->)|(Hn & ->)]; [unfold walk_fuel; lia| |].
  - destruct (H1 _ _ Hq) as (e' & He' & _ & Hm). rewrite He in He'. injection He' as <-.
    rewrite Hk in Hm. by rewrite Hm.
  - destruct (m !! key) as [[p v]|] eqn:E; [|done].
    destruct (H2 _ _ _ E) as (Hp & e & He & Hk & _).
    destruct (Hn p Hp). by exists e.
Qed.

(** An entry the caller may link: valid and not in the table. *)
Definition entry_free (s : ht_state) (m : gmap Z (Z * Z)) (entry : Z) : Prop :=
  is_Some (hts_entries s !! entry) /\
  forall k p v, m !! k = Some (p, v) -> p <> entry.

Lemma insert_refuses s m table key value entry :
  ht_rep s m -> table <> 0 -> value <> 0 -> entry <> 0 -> is_Some (m !! key) ->
  hash_table_insert table key value entry s = Ok (- EEXIST, s).
Proof.
  intros [Hl (chains & Hc & H1 & H2) _ _] Ht Hv He Hs. unfold hash_table_insert.
  rewrite !(proj2 (Z.eqb_neq _ _)) by done. simpl. run. unfold id.
  pose proof (hash_function_range key) as Hr.
  rewrite (bind_ok _ _ _ _ _ (load_bucket_ok s _ Hl Hr)).
  destruct (Hc _ Hr) as [Hch Hnd]. pose proof (chain_length _ _ _ Hch Hnd).
  destruct (insert_scan_ok s key (walk_fuel s) _ _ Hch) as (b & Eb & Hb);
    [unfold walk_fuel; lia|].
  rewrite (bind_ok _ _ _ _ _ Eb).
  rewrite (proj2 Hb); [done|]. by apply (rep_key_at s m chains key H1 H2).
Qed.

(** Linking a fresh entry at the front of its chain. *)
Lemma rep_link s (m : gmap Z (Z * Z)) key value entry :
  ht_rep s m -> value <> 0 -> entry <> 0 -> m !! key = None -> entry_free s m entry ->
  let b := hash_function key in
  let bs := ht_buckets (hts_table s) in
  ht_rep (HtState (HashTable (<[Z.to_nat b := entry]> bs)
                     (u32 (ht_count (hts_table s) + 1)) (ht_name (hts_table s)))
            (<[entry := HashEntry key value (nthZ bs b)]> (hts_entries s)))
         (<[key := (entry, value)]> m).
Proof.
  intros [Hl (chains & Hc & H1 & H2) Hv0 Hcnt] Hv He Hm [_ Hfree]. simpl.
  pose proof (hash_function_range key) as Hr.
  assert (forall b, entry ∉ chains b) as Hnin.
  { intros b Hin. destruct (H1 _ _ Hin) as (e & _ & _ & Hk). by apply (Hfree _ _ _ Hk). }
  constructor; simpl.
  - by rewrite length_insert.
  - exists (fun b => if decide (b = hash_function key) then entry :: chains b else chains b).
    split_and!.
    + intros b Hb. rewrite nthZ_insert by (try rewrite Hl; unfold HASH_TABLE_SIZE in *; lia).
      destruct (Hc b Hb) as [Hcb Hndb].
      assert (forall n, chain (<[entry := HashEntry key value n]> (hts_entries s))
        (nthZ (ht_buckets (hts_table s)) b) (chains b)) as Hfr.
      { intros n. eapply chain_ext; [|exact Hcb]. intros q Hq.
        apply lookup_insert_ne. intros ->. by apply (Hnin b). }
      destruct (decide (b = hash_function key)) as [->|Hne].
      * rewrite decide_True by done. split; [|by constructor].
        split; [done|]. split; [done|]. eexists. split; [apply lookup_insert_eq|apply Hfr].
      * rewrite decide_False by done. done.
    + intros b p Hp.
      assert (p ∈ chains b \/ p = entry /\ b = hash_function key) as [Hp'|[-> ->]].
      { case_decide; [apply elem_of_cons in Hp as [->|]|]; auto. }
      * destruct (H1 _ _ Hp') as (e & Hpe & Hh & Hk). exists e.
        rewrite lookup_insert_ne by (intros ->; by apply (Hnin b)).
        split; [done|]. split; [done|]. rewrite lookup_insert_ne; [done|]. congruence.
      * eexists. rewrite lookup_insert_eq. split; [done|]. split; [done|]. simpl.
        by rewrite lookup_insert_eq.
    + intros k p v Hk. destruct (decide (k = key)) as [->|Hne].
      * rewrite lookup_insert_eq in Hk. injection Hk as <- <-. rewrite decide_True by done.
        split; [left|]. eexists. by rewrite lookup_insert_eq.
      * rewrite lookup_insert_ne in Hk by done. destruct (H2 _ _ _ Hk) as (Hp & e & Hpe & ?).
        split; [case_decide; [by right|done]|]. exists e.
        rewrite lookup_insert_ne by (intros ->; by apply (Hfree _ _ _ Hk)). done.
  - intros k p v Hk. destruct (decide (k = key)) as [->|Hne].
    + rewrite lookup_insert_eq in Hk. by injection Hk as <- <-.
    + rewrite lookup_insert_ne in Hk by done. eauto.
  - rewrite Hcnt, u32_step, map_size_insert_None by done. f_equal. lia.
Qed.

Lemma insert_links s (m : gmap Z (Z * Z)) table key value entry :
  ht_rep s m -> table <> 0 -> value <> 0 -> entry <> 0 -> m !! key = None ->
  entry_free s m entry ->
  exists s', hash_table_insert table key value entry s = Ok (0, s') /\
    ht_rep s' (<[key := (entry, value)]> m) /\ dom (hts_entries s') = dom (hts_entries s).
Proof.
  intros Hrep Ht Hv He Hm Hfree. pose proof (rep_link s m key value entry Hrep Hv He Hm Hfree).
  destruct Hrep as [Hl (chains & Hc & H1 & H2) _ _]. destruct Hfree as [[e0 Hent] _].
  unfold hash_table_insert. rewrite !(proj2 (Z.eqb_neq _ _)) by done. simpl. run. unfold id.
  pose proof (hash_function_range key) as Hr.
  rewrite (bind_ok _ _ _ _ _ (load_bucket_ok s _ Hl Hr)).
  destruct (Hc _ Hr) as [Hch Hnd]. pose proof (chain_length _ _ _ Hch Hnd).
  destruct (insert_scan_ok s key (walk_fuel s) _ _ Hch) as (b & Eb & Hb);
    [unfold walk_fuel; lia|].
  rewrite (bind_ok _ _ _ _ _ Eb). rewrite (rep_key_at s m chains key H1 H2), Hm in Hb.
  destruct b; [destruct (proj1 Hb eq_refl); done|].
  rewrite (bind_ok _ _ _ _ _ (load_bucket_ok s _ Hl Hr)).
  rewrite (bind_ok _ _ _ _ _ (store_entry_ok s entry e0 _ Hent)).
  erewrite bind_ok by (apply store_bucket_ok; done). run.
  eexists. split; [reflexivity|]. split; [done|]. simpl. by rewrite dom_insert_lookup_L by eauto.
Qed.

Lemma elem_of_without q p l : p ∈ without q l <-> p ∈ l /\ p <> q.
Proof. unfold without. rewrite list_elem_of_filter. tauto. Qed.

(** Unlinking the entry of [key]: what the new store has to satisfy. *)
Lemma rep_unlink s (m : gmap Z (Z * Z)) (chains : Z -> list Z) key q v bs' ents' :
  ht_rep s m -> m !! key = Some (q, v) ->
  (forall b, 0 <= b < HASH_TABLE_SIZE ->
     chain (hts_entries s) (nthZ (ht_buckets (hts_table s)) b) (chains b) /\ NoDup (chains b)) ->
  (forall b p, p ∈ chains b -> exists e, hts_entries s !! p = Some e /\
     hash_function (he_key e) = b /\ m !! he_key e = Some (p, he_value e)) ->
  (forall k p v, m !! k = Some (p, v) -> p ∈ chains (hash_function k) /\
     exists e, hts_entries s !! p = Some e /\ he_key e = k /\ he_value e = v) ->
  length bs' = Z.to_nat HASH_TABLE_SIZE -> same_kv (hts_entries s) ents' ->
  (forall r, r ∉ chains (hash_function key) -> ents' !! r = hts_entries s !! r) ->
  (forall b, 0 <= b < HASH_TABLE_SIZE -> b <> hash_function key ->
     nthZ bs' b = nthZ (ht_buckets (hts_table s)) b) ->
  chain ents' (nthZ bs' (hash_function key)) (without q (chains (hash_function key))) ->
  ht_rep (bump_down (HtState (HashTable bs' (ht_count (hts_table s)) (ht_name (hts_table s))) ents'))
    (delete key m).
Proof.
  intros [_ _ Hv0 Hcnt] Hm Hc H1 H2 Hl Hkv Hfr Hbs Hch.
  assert (forall p e, hts_entries s !! p = Some e -> exists e', ents' !! p = Some e' /\
    he_key e' = he_key e /\ he_value e' = he_value e) as Hkv'.
  { intros p e Hp. specialize (Hkv p). rewrite Hp in Hkv. simpl in Hkv.
    destruct (ents' !! p) as [e'|]; [|done]. injection Hkv as Ek Ev. eauto. }
  constructor; simpl; [done| | |].
  - exists (fun b => without q (chains b)). split_and!.
    + intros b Hb. destruct (Hc b Hb) as [Hcb Hndb].
      split; [|by apply NoDup_filter]. destruct (decide (b = hash_function key)) as [->|Hne]; [done|].
      rewrite Hbs by done. assert (without q (chains b) = chains b) as ->.
      { apply filter_id. intros r Hin ->. destruct (H1 _ _ Hin) as (e & He & Hh & Hk).
        destruct (H2 _ _ _ Hm) as (_ & e' & He' & Hk' & _). congruence. }
      eapply chain_ext; [|exact Hcb]. intros r Hin. apply Hfr. intros Hin'.
      destruct (H1 _ _ Hin) as (e & He & Hh & _). destruct (H1 _ _ Hin') as (e' & He' & Hh' & _).
      congruence.
    + intros b p Hp. apply elem_of_without in Hp as [Hp Hpq].
      destruct (H1 _ _ Hp) as (e & He & Hh & Hk). destruct (Hkv' p e He) as (e' & He' & Ek & Ev).
      exists e'. rewrite Ek, Ev. split; [done|]. split; [done|]. rewrite lookup_delete_ne; [done|]. congruence.
    + intros k p v' Hk. apply lookup_delete_Some in Hk as [Hne Hk].
      destruct (H2 _ _ _ Hk) as (Hp & e & He & <- & <-).
      destruct (Hkv' p e He) as (e' & He' & Ek & Ev). split; [|eauto].
      apply elem_of_without. split; [done|]. intros ->.
      destruct (H2 _ _ _ Hm) as (_ & e'' & He'' & Hk'' & _). congruence.
  - intros k p v' Hk. apply lookup_delete_Some in Hk as [_ Hk]. eauto.
  - rewrite Hcnt, <- Z.add_opp_r, u32_step, map_size_delete, Hm. f_equal.
    assert (size m <> 0)%nat; [|lia]. intros E. apply map_size_empty_inv in E. by subst.
Qed.

(** The removal walk from a bucket. *)
Lemma remove_walk_bucket s key b l fuel :
  length (ht_buckets (hts_table s)) = Z.to_nat HASH_TABLE_SIZE ->
  0 <= b < HASH_TABLE_SIZE -> NoDup l ->
  chain (hts_entries s) (nthZ (ht_buckets (hts_table s)) b) l -> (length l < fuel)%nat ->
  (exists q e bs' ents', q ∈ l /\ hts_entries s !! q = Some e /\ he_key e = key /\
     remove_walk fuel key (SBucket b) (nthZ (ht_buckets (hts_table s)) b) s =
       Ok ((he_value e, q), bump_down (HtState (HashTable bs' (ht_count (hts_table s))
                                                 (ht_name (hts_table s))) ents')) /\
     length bs' = Z.to_nat HASH_TABLE_SIZE /\ same_kv (hts_entries s) ents' /\
     (forall r, r ∉ l -> ents' !! r = hts_entries s !! r) /\
     (forall b', 0 <= b' < HASH_TABLE_SIZE -> b' <> b ->
        nthZ bs' b' = nthZ (ht_buckets (hts_table s)) b') /\
     chain ents' (nthZ bs' b) (without q l)) \/
  ((forall q, q ∈ l -> ~ key_at (hts_entries s) key q) /\
     remove_walk fuel key (SBucket b) (nthZ (ht_buckets (hts_table s)) b) s = Ok ((0, 0), s)).
Proof.
  intros Hl Hb Hnd Hch Hf. destruct fuel as [|fuel]; [lia|]. cbn [remove_walk].
  destruct l as [|x l]; simpl in Hch.
  { rewrite Hch. right. split; [|done]. intros q Hq. by apply not_elem_of_nil in Hq. }
  destruct Hch as (Hx & Hx0 & e & He & Hch). rewrite Hx, (proj2 (Z.eqb_neq _ _) Hx0).
  rewrite (bind_ok _ _ _ _ _ (load_entry_ok s x e He)).
  pose proof Hnd as [Hxl Hndl]%NoDup_cons.
  assert (Hbl : 0 <= b < Z.of_nat (length (ht_buckets (hts_table s)))).
  { rewrite Hl. unfold HASH_TABLE_SIZE in *. lia. }
  destruct (Z.eqb_spec (he_key e) key) as [Ek|Ek].
  - left. unfold store_slot.
    rewrite (bind_ok _ _ _ _ _ (store_bucket_ok s _ (he_next e) Hl Hb)). run.
    eexists x, e, _, _. split; [left|]. split; [done|]. split; [done|].
    split; [reflexivity|]. split; [by rewrite length_insert|]. split; [done|].
    split; [done|]. split.
    + intros b' Hb' Hne. rewrite nthZ_insert by lia. by rewrite decide_False.
    + rewrite nthZ_insert, decide_True by lia. by rewrite without_head.
  - destruct (remove_walk_next s key fuel x e l He Hxl Hndl Hch) as
      [(q & eq & ents' & x' & Hq & Heq & Hk & -> & Hkv & Hfr & Hx' & Hch')|(Hn & ->)];
      [simpl in Hf; lia|left|right].
    + exists q, eq, (ht_buckets (hts_table s)), ents'.
      assert (x <> q) as Hxq by (intros ->; done).
      split_and!; try done; [by right|].
      rewrite without_tail by done. simpl. eauto 8.
    + split; [|done]. intros q Hq. apply elem_of_cons in Hq as [->|Hq]; [|auto].
      intros (e' & He' & ?). congruence.
Qed.

Lemma remove_refines s (m : gmap Z (Z * Z)) table key :
  ht_rep s m -> table <> 0 ->
  exists s', hash_table_remove table key s =
      Ok (match m !! key with Some (q, v) => (v, q) | None => (0, 0) end, s') /\
    ht_rep s' (delete key m) /\ dom (hts_entries s') = dom (hts_entries s).
Proof.
  intros Hrep Ht. pose proof Hrep as [Hl (chains & Hc & H1 & H2) _ _].
  unfold hash_table_remove. rewrite (proj2 (Z.eqb_neq _ _) Ht). run. unfold id.
  pose proof (hash_function_range key) as Hr.
  rewrite (bind_ok _ _ _ _ _ (load_bucket_ok s _ Hl Hr)).
  destruct (Hc _ Hr) as [Hch Hnd]. pose proof (chain_length _ _ _ Hch Hnd) as Hlen.
  destruct (remove_walk_bucket s key _ _ (walk_fuel s) Hl Hr Hnd Hch) as
    [(q & e & bs' & ents' & Hq & He & Hk & -> & Hl' & Hkv & Hfr & Hbs & Hch')|(Hn & ->)];
    [unfold walk_fuel; lia| |].
  - destruct (H1 _ _ Hq) as (e' & He' & _ & Hm).
    rewrite He in He'. injection He' as <-. rewrite Hk in Hm. rewrite Hm.
    eexists. split; [reflexivity|]. split; [by eapply (rep_unlink s m chains key q)|].
    simpl. apply set_eq. intros r. specialize (Hkv r). rewrite !elem_of_dom.
    destruct (ents' !! r), (hts_entries s !! r); simpl in Hkv; try done; by split; intros [? ?].
  - assert (m !! key = None) as Hm.
    { destruct (m !! key) as [[p v]|] eqn:E; [|done].
      destruct (H2 _ _ _ E) as (Hp & e & He & Hk & _). destruct (Hn p Hp). by exists e. }
    rewrite Hm, delete_id by done. eauto.
Qed.

(** ** Properties *)

Inductive ht_op :=
| HInsert (key value entry : Z)
| HLookup (key : Z)
| HRemove (key : Z).

Definition run_ht_op (table : Z) (o : ht_op) : ST ht_state (Z * Z) :=
  match o with
  | HInsert k v e => r ← hash_table_insert table k v e; ret (r, 0)
  | HLookup k => r ← hash_table_lookup table k; ret (r, 0)
  | HRemove k => hash_table_remove table k
  end.

(** The same operation on a finite map from keys to (entry, value). *)
Definition map_op (o : ht_op) (m : gmap Z (Z * Z)) : (Z * Z) * gmap Z (Z * Z) :=
  match o with
  | HInsert k v e =>
      if (v =? 0) || (e =? 0) then ((- EINVAL, 0), m)
      else match m !! k with
           | Some _ => ((- EEXIST, 0), m)
           | None => ((0, 0), <[k := (e, v)]> m)
           end
  | HLookup k => ((default 0 (snd <$> m !! k), 0), m)
  | HRemove k => (match m !! k with Some (q, v) => (v, q) | None => (0, 0) end, delete k m)
  end.

(** What callers owe: an entry they insert is one of the [owned] ones and not
    linked at that moment. *)
Definition ht_op_ok (owned : gset Z) (o : ht_op) (m : gmap Z (Z * Z)) : Prop :=
  match o with
  | HInsert k v e => e = 0 \/ e ∈ owned /\ map_Forall (fun _ pv => fst pv <> e) m
  | _ => True
  end.

Fixpoint run_ht_ops (table : Z) (os : list ht_op) : ST ht_state (list (Z * Z)) :=
  match os with
  | [] => ret []
  | o :: os' => r ← run_ht_op table o; rs ← run_ht_ops table os'; ret (r :: rs)
  end.

Fixpoint map_ops (os : list ht_op) (m : gmap Z (Z * Z)) : list (Z * Z) * gmap Z (Z * Z) :=
  match os with
  | [] => ([], m)
  | o :: os' => let '(r, m1) := map_op o m in
                let '(rs, m2) := map_ops os' m1 in (r :: rs, m2)
  end.

Fixpoint ht_ops_ok (owned : gset Z) (os : list ht_op) (m : gmap Z (Z * Z)) : Prop :=
  match os with
  | [] => True
  | o :: os' => ht_op_ok owned o m /\ ht_ops_ok owned os' (snd (map_op o m))
  end.

Lemma run_ht_op_refines table owned o s m :
  table <> 0 -> ht_rep s m -> dom (hts_entries s) = owned -> ht_op_ok owned o m ->
  exists s', run_ht_op table o s = Ok (fst (map_op o m), s') /\
    ht_rep s' (snd (map_op o m)) /\ dom (hts_entries s') = owned.
Proof.
  intros Ht Hrep Hdom Hok. destruct o as [k v e|k|k]; simpl in *.
  - destruct ((v =? 0) || (e =? 0)) eqn:Eb.
    { exists s. split; [|done]. unfold hash_table_insert.
      rewrite (proj2 (Z.eqb_neq _ _) Ht). simpl. by rewrite Eb. }
    bool_case. destruct Hok as [->|[Hin Hfree]]; [done|].
    destruct (m !! k) as [x|] eqn:E; simpl.
    + exists s. erewrite bind_ok by (eapply insert_refuses; eauto). done.
    + destruct (insert_links s m table k v e) as (s' & Es & Hrep' & Hd); try done.
      { split; [apply elem_of_dom; by rewrite Hdom|].
        intros k' p v' Hk. apply (Hfree k' (p, v') Hk). }
      exists s'. rewrite (bind_ok _ _ _ _ _ Es), Hd. done.
  - exists s. by rewrite (bind_ok _ _ _ _ _ (lookup_refines s m table k Hrep Ht)).
  - destruct (remove_refines s m table k Hrep Ht) as (s' & -> & Hrep' & Hd).
    exists s'. by rewrite Hd.
Qed.

Lemma init_buckets_ok n i s :
  0 <= i -> i + Z.of_nat n = HASH_TABLE_SIZE ->
  length (ht_buckets (hts_table s)) = Z.to_nat HASH_TABLE_SIZE ->
  (forall b, 0 <= b < i -> nthZ (ht_buckets (hts_table s)) b = 0) ->
  exists bs, init_buckets i n s = Ok (tt, set_buckets bs s) /\
    length bs = Z.to_nat HASH_TABLE_SIZE /\ forall b, 0 <= b < HASH_TABLE_SIZE -> nthZ bs b = 0.
Proof.
  revert i s. induction n as [|n IH]; intros i s Hi Hn Hl Hz; simpl.
  - exists (ht_buckets (hts_table s)). split; [by destruct s as [[] ?]|].
    split; [done|]. intros. apply Hz. lia.
  - rewrite (bind_ok _ _ _ _ _ (store_bucket_ok s i 0 Hl ltac:(lia))).
    edestruct (IH (i + 1)) as (bs & -> & ? & ?); [lia|lia|..].
    + simpl. by rewrite length_insert.
    + intros b Hb. simpl. rewrite nthZ_insert by (unfold HASH_TABLE_SIZE in *; lia).
      case_decide; [done|]. apply Hz. lia.
    + exists bs. split; [done|]. done.
Qed.

Lemma init_rep table name s :
  table <> 0 -> length (ht_buckets (hts_table s)) = Z.to_nat HASH_TABLE_SIZE ->
  exists s', hash_table_init table name s = Ok (tt, s') /\ ht_rep s' ∅ /\
    hts_entries s' = hts_entries s.
Proof.
  intros Ht Hl. unfold hash_table_init. rewrite (proj2 (Z.eqb_neq _ _) Ht).
  destruct (init_buckets_ok (Z.to_nat HASH_TABLE_SIZE) 0 s) as (bs & E & Hbs & Hz);
    [lia|done|done|intros; lia|].
  rewrite (bind_ok _ _ _ _ _ E). eexists. split; [reflexivity|]. split; [|done].
  constructor; simpl; try done.
  exists (fun _ => []). split_and!; [|intros b p Hp; by apply not_elem_of_nil in Hp|done].
  intros b Hb. split; [by apply Hz|constructor].
Qed.

(** C37: The hash table refines a finite map.  After [hash_table_init], every
    sequence of inserts, lookups and removals on caller-owned entries
    terminates without touching memory outside the entries and the buckets, and
    returns what the map returns: a duplicate key is refused with -EEXIST, a
    NULL value or entry with -EINVAL, a lookup finds exactly the keys inserted
    and not removed, a removal hands back the very entry that was linked, and
    the count is the size of the map. *)
Theorem hashtable_refines_map table name os s :
  table <> 0 -> length (ht_buckets (hts_table s)) = Z.to_nat HASH_TABLE_SIZE ->
  ht_ops_ok (dom (hts_entries s)) os ∅ ->
  exists s', (hash_table_init table name;; run_ht_ops table os) s =
      Ok (fst (map_ops os ∅), s') /\
    ht_rep s' (snd (map_ops os ∅)) /\
    ht_count (hts_table s') = u32 (Z.of_nat (size (snd (map_ops os ∅)))).
Proof.
  intros Ht Hl Hok. destruct (init_rep table name s Ht Hl) as (s0 & E0 & Hrep & Hd).
  rewrite (bind_ok _ _ _ _ _ E0).
  assert (dom (hts_entries s0) = dom (hts_entries s)) as Hdom by (by rewrite Hd).
  clear E0 Hl Hd. revert Hok s0 Hrep Hdom. generalize (dom (hts_entries s)) as owned.
  generalize (∅ : gmap Z (Z * Z)). induction os as [|o os IH]; intros m owned Hok s0 Hrep Hdom; simpl.
  - exists s0. split; [done|]. split; [done|]. apply Hrep.
  - destruct Hok as [Ho Hok].
    destruct (run_ht_op_refines table owned o s0 m Ht Hrep Hdom Ho) as (s1 & E1 & Hrep1 & Hd1).
    destruct (IH _ _ Hok s1 Hrep1 Hd1) as (s2 & E2 & H2).
    rewrite (bind_ok _ _ _ _ _ E1), (bind_ok _ _ _ _ _ E2). exists s2.
    destruct (map_op o m) as [r m1]. simpl in *. by destruct (map_ops os m1) as [rs m2].
Qed.

Definition ht_demo : ht_state :=
  HtState (HashTable (replicate 1024 7) 9 0)
    {[ 100 := HashEntry 0 0 0; 200 := HashEntry 0 0 0 ]}.

Definition ht_demo_ops : list ht_op :=
  [HInsert 5 11 100; HInsert 5 12 200; HInsert 6 13 200; HLookup 6; HRemove 5; HLookup 5].

Lemma hashtable_refines_map_witness :
  exists s', (hash_table_init 1 0;; run_ht_ops 1 ht_demo_ops) ht_demo =
      Ok ([(0, 0); (- 17, 0); (0, 0); (13, 0); (11, 100); (0, 0)], s') /\
    ht_count (hts_table s') = 1.
Proof.
  destruct (hashtable_refines_map 1 0 ht_demo_ops ht_demo) as (s' & E & _ & Hc).
  - lia.
  - reflexivity.
  - cbn [ht_ops_ok ht_demo_ops ht_op_ok].
    split_and!; try exact I; right; (split; [apply elem_of_dom; eexists; reflexivity|]);
      apply (bool_decide_eq_true_1 (map_Forall _ _)); vm_compute; reflexivity.
  - exists s'. split; [exact E|exact Hc].
Defined.
