(* ===== verification/FrameAlloc.v ===== *)
(** * Physical frame allocator

    Models mm/frame_alloc.c: a bitmap of 4 KiB frames, a reference count per
    frame and a magazine of spare frames per CPU.  [frame_lock] and
    [preempt_disable] make each operation atomic; an operation is a step that
    names the CPU it runs on.  The theorems show that the allocator refines a
    map from the frames in use to their reference counts. *)

From stdpp Require Import base tactics numbers list gmap.
From S2P Require Import Prelude.

Definition PAGE_SIZE_CONST := 4096.
Definition MB := 1024 * 1024.
Definition KERNEL_HEAP_SIZE_MB := 8.
Definition IDENTITY_MAP_SIZE_MB := 32.
Definition KERNEL_HEAP_START := 3145728.
Definition KERNEL_HEAP_END := KERNEL_HEAP_START + KERNEL_HEAP_SIZE_MB * MB.
Definition IDENTITY_MAP_END := IDENTITY_MAP_SIZE_MB * MB.
Definition MAX_PHYS_MEM := 67108864.
Definition FRAME_COUNT := MAX_PHYS_MEM / PAGE_SIZE_CONST.
Definition BITMAP_SIZE := FRAME_COUNT / 32.
Definition KERNEL_RESERVED_END := KERNEL_HEAP_END.
Definition FRAME_ALLOC_FIRST_BITMAP_IDX := KERNEL_HEAP_END / PAGE_SIZE_CONST / 32.
Definition FRAME_MAGAZINE_SIZE := 16.
Definition NO_FRAME := 4294967295.

(** The two fields of [cpu_t] that hold a CPU's magazine. *)
Record magazine := Magazine {
  frame_magazine : list Z;
  frame_magazine_count : Z
}.

Record frames := Frames {
  frame_bitmap : list Z;
  next_free : Z;
  frame_refcount : list Z;
  magazines : list magazine
}.

Definition set_bitmap (b : list Z) (s : frames) : frames :=
  Frames b (next_free s) (frame_refcount s) (magazines s).
Definition set_next_free (n : Z) (s : frames) : frames :=
  Frames (frame_bitmap s) n (frame_refcount s) (magazines s).
Definition set_refcounts (r : list Z) (s : frames) : frames :=
  Frames (frame_bitmap s) (next_free s) r (magazines s).
Definition set_magazines (m : list magazine) (s : frames) : frames :=
  Frames (frame_bitmap s) (next_free s) (frame_refcount s) m.

(** [frame_bitmap[i] = g (frame_bitmap[i])] and the like. *)
Definition update_word (i : Z) (g : Z -> Z) : ST frames unit :=
  s ← gets id;
  w ← rd (frame_bitmap s) i;
  b ← wr (frame_bitmap s) i (g w);
  modify (set_bitmap b).
Definition set_ref (fidx v : Z) : ST frames unit :=
  s ← gets id;
  r ← wr (frame_refcount s) fidx v;
  modify (set_refcounts r).
Definition get_ref (fidx : Z) : ST frames Z :=
  s ← gets id; rd (frame_refcount s) fidx.

Definition frame_alloc_mark_used (addr : Z) : ST frames unit :=
  let f := addr / PAGE_SIZE_CONST in
  update_word (f / 32) (fun w => Z.lor w (Z.shiftl 1 (f mod 32))).

(** [for (a = 0; a < end_phys; a += PAGE_SIZE)]. *)
Fixpoint reserve_low_loop (fuel : nat) (a end_phys : Z) : ST frames unit :=
  match fuel with
  | O => fail NoFuel
  | S fuel' =>
      if a <? end_phys then
        let f := a / PAGE_SIZE_CONST in
        update_word (f / 32) (fun w => Z.lor w (Z.shiftl 1 (f mod 32)));;
        reserve_low_loop fuel' (u32 (a + PAGE_SIZE_CONST)) end_phys
      else ret tt
  end.

Definition frame_alloc_reserve_low (end_phys : Z) : ST frames unit :=
  reserve_low_loop (S (S (Z.to_nat (end_phys / PAGE_SIZE_CONST)))) 0 end_phys.

Definition frame_clear (addr : Z) : ST frames unit :=
  let f := addr / PAGE_SIZE_CONST in
  update_word (f / 32) (fun w => Z.land w (Z.lnot (Z.shiftl 1 (f mod 32)))).

(** The inner loop over the bits [j ..] of word [i]: [n] iterations are left,
    [out] holds the frames handed out so far.  The boolean is [goto done]. *)
Fixpoint scan_word (n : nat) (i j want : Z) (out : list Z) : ST frames (list Z * bool) :=
  match n with
  | O => ret (out, false)
  | S n' =>
      if Z.of_nat (length out) <? want then
        s ← gets id;
        w ← rd (frame_bitmap s) i;
        if Z.land w (Z.shiftl 1 j) =? 0 then
          let addr := u32 ((i * 32 + j) * PAGE_SIZE_CONST) in
          if IDENTITY_MAP_END <=? addr then ret (out, true)
          else
            frame_alloc_mark_used addr;;
            modify (set_next_free i);;
            (let fidx := addr / PAGE_SIZE_CONST in
             if fidx <? FRAME_COUNT then set_ref fidx 1 else ret tt);;
            scan_word n' i (j + 1) want (out ++ [addr])
        else scan_word n' i (j + 1) want out
      else ret (out, false)
  end.

(** The outer loop: [n] words are left before [end_idx]. *)
Fixpoint scan_words (n : nat) (i want : Z) (out : list Z) : ST frames (list Z) :=
  match n with
  | O => ret out
  | S n' =>
      if Z.of_nat (length out) <? want then
        s ← gets id;
        w ← rd (frame_bitmap s) i;
        if w =? 4294967295 then scan_words n' (i + 1) want out
        else
          r ← scan_word 32 i 0 want out;
          let '(out, stop) := r in
          if (stop : bool) then ret out else scan_words n' (i + 1) want out
      else ret out
  end.

Definition alloc_frames_locked (want : Z) : ST frames (list Z) :=
  s ← gets id;
  let start := if next_free s <? FRAME_ALLOC_FIRST_BITMAP_IDX
               then FRAME_ALLOC_FIRST_BITMAP_IDX else next_free s in
  let end_idx := IDENTITY_MAP_END / PAGE_SIZE_CONST / 32 in
  let end_idx := if BITMAP_SIZE <? end_idx then BITMAP_SIZE else end_idx in
  scan_words (Z.to_nat (end_idx - start)) start want [].

(** The magazine of a CPU: push and pop at its count. *)
Definition get_mag (cpu : Z) : ST frames magazine :=
  s ← gets id; rd (magazines s) cpu.
Definition put_mag (cpu : Z) (m : magazine) : ST frames unit :=
  s ← gets id;
  ms ← wr (magazines s) cpu m;
  modify (set_magazines ms).
Definition mag_push (cpu a : Z) : ST frames unit :=
  m ← get_mag cpu;
  sl ← wr (frame_magazine m) (frame_magazine_count m) a;
  put_mag cpu (Magazine sl (frame_magazine_count m + 1)).
Definition mag_pop (cpu : Z) : ST frames Z :=
  m ← get_mag cpu;
  a ← rd (frame_magazine m) (frame_magazine_count m - 1);
  put_mag cpu (Magazine (frame_magazine m) (frame_magazine_count m - 1));;
  ret a.

Fixpoint mag_refill (cpu : Z) (batch : list Z) : ST frames unit :=
  match batch with
  | [] => ret tt
  | a :: batch' => mag_push cpu a;; mag_refill cpu batch'
  end.

Definition allocate_frame (cpu : Z) : ST frames Z :=
  me ← get_mag cpu;
  if 0 <? frame_magazine_count me then
    addr ← mag_pop cpu;
    (let fidx := addr / PAGE_SIZE_CONST in
     if fidx <? FRAME_COUNT then set_ref fidx 1 else ret tt);;
    ret addr
  else
    batch ← alloc_frames_locked FRAME_MAGAZINE_SIZE;
    match batch with
    | [] => ret NO_FRAME
    | addr :: rest => mag_refill cpu rest;; ret addr
    end.

(** Clears a frame's bit and pulls the search hint back. *)
Definition pool_return (a : Z) : ST frames unit :=
  frame_clear a;;
  s ← gets id;
  let fi := a / PAGE_SIZE_CONST / 32 in
  if (fi <? next_free s) && (FRAME_ALLOC_FIRST_BITMAP_IDX <=? fi)
  then modify (set_next_free fi) else ret tt.

Fixpoint drain_magazine (k : nat) (cpu : Z) : ST frames unit :=
  match k with
  | O => ret tt
  | S k' => a ← mag_pop cpu; pool_return a;; drain_magazine k' cpu
  end.

Definition release_frame_to_pool (cpu addr : Z) : ST frames unit :=
  me ← get_mag cpu;
  if frame_magazine_count me <? FRAME_MAGAZINE_SIZE then mag_push cpu addr
  else
    drain_magazine (Z.to_nat (FRAME_MAGAZINE_SIZE / 2)) cpu;;
    pool_return addr.

Definition frame_incref (addr : Z) : ST frames unit :=
  let fidx := addr / PAGE_SIZE_CONST in
  if FRAME_COUNT <=? fidx then ret tt
  else
    r ← get_ref fidx;
    if r <? 65535 then set_ref fidx (r + 1) else ret tt.

Definition frame_getref (addr : Z) : ST frames Z :=
  let fidx := addr / PAGE_SIZE_CONST in
  if FRAME_COUNT <=? fidx then ret 0 else get_ref fidx.

Definition frame_decref (cpu addr : Z) : ST frames unit :=
  let fidx := addr / PAGE_SIZE_CONST in
  if FRAME_COUNT <=? fidx then ret tt
  else if addr <? KERNEL_RESERVED_END then ret tt
  else
    r ← get_ref fidx;
    if r =? 0 then ret tt
    else if 1 <? r then set_ref fidx (r - 1)
    else
      set_ref fidx 0;;
      release_frame_to_pool cpu addr.

Definition free_frame (cpu addr : Z) : ST frames unit :=
  if (addr =? 0) || (addr =? NO_FRAME) then ret tt
  else if addr <? KERNEL_RESERVED_END then ret tt
  else frame_decref cpu addr.

(** ** Bits and words *)

Definition bit (s : frames) (f : Z) : bool :=
  Z.testbit (nthZ (frame_bitmap s) (f / 32)) (f mod 32).
Definition rc (s : frames) (f : Z) : Z := nthZ (frame_refcount s) f.

(** Frames the allocator hands out. *)
Definition pool (f : Z) : Prop :=
  KERNEL_HEAP_END / PAGE_SIZE_CONST <= f < IDENTITY_MAP_END / PAGE_SIZE_CONST.

Lemma pool_bounds f : pool f <-> 2816 <= f < 8192.
Proof. done. Qed.

Record fa_shape (s : frames) : Prop := {
  shape_bm : length (frame_bitmap s) = 512%nat;
  shape_words : forall i, 0 <= i < 512 -> is_u32 (nthZ (frame_bitmap s) i);
  shape_rc : Z.of_nat (length (frame_refcount s)) = 16384;
  shape_pos : Forall (fun n => 0 <= n) (frame_refcount s)
}.

Lemma land_bit_test w j :
  0 <= j -> (Z.land w (Z.shiftl 1 j) =? 0) = negb (Z.testbit w j).
Proof.
  intros Hj. rewrite Z.shiftl_1_l.
  assert (Z.testbit (Z.land w (2 ^ j)) j = Z.testbit w j) as Ht.
  { rewrite Z.land_spec, Z.pow2_bits_true by done. apply andb_true_r. }
  destruct (Z.testbit w j) eqn:E; simpl.
  - apply Z.eqb_neq. intros H0. rewrite H0, Z.bits_0 in Ht. done.
  - apply Z.eqb_eq, Z.bits_inj'. intros n Hn.
    rewrite Z.land_spec, Z.pow2_bits_eqb, Z.bits_0 by done.
    destruct (Z.eqb_spec j n) as [<-|]; [by rewrite E|apply andb_false_r].
Qed.

Lemma full_word w :
  is_u32 w -> w = 4294967295 <-> forall j, 0 <= j < 32 -> Z.testbit w j = true.
Proof.
  intros Hw. split.
  - intros -> j Hj. change 4294967295 with (Z.ones 32). by apply Z.ones_spec_low.
  - intros H. change 4294967295 with (Z.ones 32). apply Z.bits_inj'. intros n Hn.
    destruct (decide (n < 32)) as [Hlt|Hge].
    + rewrite Z.ones_spec_low by lia. apply H. lia.
    + rewrite Z.ones_spec_high by lia. apply u32_high_bits; [done|lia].
Qed.

Lemma setbit_u32 w j : is_u32 w -> 0 <= j < 32 -> is_u32 (Z.lor w (Z.shiftl 1 j)).
Proof.
  intros Hw Hj. apply u32_of_bits. intros n Hn.
  rewrite Z.lor_spec, u32_high_bits, Z.shiftl_1_l, Z.pow2_bits_false by (done || lia). done.
Qed.

Lemma clearbit_u32 w j : is_u32 w -> is_u32 (Z.land w (Z.lnot (Z.shiftl 1 j))).
Proof.
  intros Hw. apply u32_of_bits. intros n Hn. by rewrite Z.land_spec, u32_high_bits.
Qed.

Lemma update_word_ok i g s :
  fa_shape s -> 0 <= i < 512 ->
  update_word i g s =
    Ok (tt, set_bitmap (<[Z.to_nat i := g (nthZ (frame_bitmap s) i)]> (frame_bitmap s)) s).
Proof.
  intros [Hl _ _ _] Hi. unfold update_word. run. unfold id.
  erewrite bind_ok by (apply rd_nthZ; lia). erewrite bind_ok by (apply wr_ok; lia). done.
Qed.

(** The effect of writing one bit of the bitmap. *)
Definition bit_written (s s' : frames) (f : Z) (v : bool) : Prop :=
  fa_shape s' /\ next_free s' = next_free s /\ frame_refcount s' = frame_refcount s /\
  magazines s' = magazines s /\
  forall g, 0 <= g < 16384 -> bit s' g = if g =? f then v else bit s g.

Lemma bit_update s f v (g : Z -> Z) :
  fa_shape s -> 0 <= f < 16384 ->
  (forall w, is_u32 w -> is_u32 (g w)) ->
  (forall w j, 0 <= j < 32 -> Z.testbit (g w) j = if j =? f mod 32 then v else Z.testbit w j) ->
  exists s', update_word (f / 32) g s = Ok (tt, s') /\ bit_written s s' f v.
Proof.
  intros Hs Hf Hg Hb. assert (0 <= f / 32 < 512) as Hi.
  { split; [apply Z.div_pos; lia|apply Z.div_lt_upper_bound; lia]. }
  rewrite update_word_ok by done. eexists. split; [reflexivity|].
  destruct Hs as [Hl Hw Hr Hp]. split; [|split_and!; try done].
  - constructor; simpl; [by rewrite length_insert| |done|done]. intros i Hi'.
    rewrite nthZ_insert by lia. case_decide; auto.
  - intros h Hh. unfold bit. simpl.
    assert (0 <= h / 32 < 512) by (split; [apply Z.div_pos; lia|apply Z.div_lt_upper_bound; lia]).
    rewrite nthZ_insert by lia. pose proof (Z.mod_pos_bound h 32 ltac:(lia)).
    pose proof (Z.div_mod h 32 ltac:(lia)). pose proof (Z.div_mod f 32 ltac:(lia)).
    case_decide as E.
    + rewrite Hb, E by lia. destruct (Z.eqb_spec (h mod 32) (f mod 32)), (Z.eqb_spec h f); try done; lia.
    + destruct (Z.eqb_spec h f) as [->|]; done.
Qed.

Lemma mark_used_ok s f :
  fa_shape s -> 0 <= f < 16384 ->
  exists s', frame_alloc_mark_used (f * PAGE_SIZE_CONST) s = Ok (tt, s') /\
    bit_written s s' f true.
Proof.
  intros Hs Hf. unfold frame_alloc_mark_used. rewrite Z.div_mul by done.
  pose proof (Z.mod_pos_bound f 32 ltac:(lia)).
  apply bit_update; try done.
  - intros. by apply setbit_u32.
  - intros w j Hj. rewrite Z.lor_spec, Z.shiftl_1_l, Z.pow2_bits_eqb by lia.
    rewrite Z.eqb_sym. destruct (_ =? _); [apply orb_true_r|apply orb_false_r].
Qed.

Lemma frame_clear_ok s f :
  fa_shape s -> 0 <= f < 16384 ->
  exists s', frame_clear (f * PAGE_SIZE_CONST) s = Ok (tt, s') /\
    bit_written s s' f false.
Proof.
  intros Hs Hf. unfold frame_clear. rewrite Z.div_mul by done.
  pose proof (Z.mod_pos_bound f 32 ltac:(lia)).
  apply bit_update; try done.
  - intros. by apply clearbit_u32.
  - intros w j Hj. rewrite Z.land_spec, Z.lnot_spec, Z.shiftl_1_l, Z.pow2_bits_eqb by lia.
    rewrite Z.eqb_sym. destruct (_ =? _); [apply andb_false_r|apply andb_true_r].
Qed.

Lemma set_ref_ok s f v :
  fa_shape s -> 0 <= f < 16384 ->
  set_ref f v s = Ok (tt, set_refcounts (<[Z.to_nat f := v]> (frame_refcount s)) s).
Proof.
  intros Hs Hf. unfold set_ref. run. unfold id.
  erewrite bind_ok by (apply wr_ok; rewrite (shape_rc s Hs); lia). done.
Qed.

Lemma get_ref_ok s f : fa_shape s -> 0 <= f < 16384 -> get_ref f s = Ok (rc s f, s).
Proof.
  intros Hs Hf. unfold get_ref. run. apply rd_nthZ. unfold id. rewrite (shape_rc s Hs). lia.
Qed.

(** ** The bitmap search *)

Definition addr_of (f : Z) : Z := f * PAGE_SIZE_CONST.

(** The search took the frames [fs] between [s] and [s']. *)
Record grab (s s' : frames) (fs : list Z) : Prop := {
  grab_shape : fa_shape s';
  grab_mags : magazines s' = magazines s;
  grab_nodup : NoDup fs;
  grab_pool : forall f, f ∈ fs -> pool f /\ bit s f = false;
  grab_bit : forall g, 0 <= g < 16384 -> bit s' g = bit s g || bool_decide (g ∈ fs);
  grab_rc : forall g, 0 <= g < 16384 -> rc s' g = if bool_decide (g ∈ fs) then 1 else rc s g
}.

(** No frame of the pool below [n] is free. *)
Definition full_below (s : frames) (n : Z) : Prop :=
  forall g, pool g -> g < n -> bit s g = true.

(** The hint of the allocator: nothing is free below the word [next_free]. *)
Definition hint_ok (s : frames) : Prop :=
  0 <= next_free s < 256 /\ full_below s (32 * next_free s).

Lemma grab_nil s : fa_shape s -> grab s s [].
Proof.
  intros. constructor; try done.
  - constructor.
  - intros f Hf. by apply not_elem_of_nil in Hf.
  - intros. by rewrite bool_decide_false, orb_false_r by apply not_elem_of_nil.
Qed.

Lemma take_frame s f i :
  fa_shape s -> pool f -> i = f / 32 -> full_below s f ->
  exists s', (forall A (k : ST frames A),
      (frame_alloc_mark_used (addr_of f);; modify (set_next_free i);; set_ref f 1;; k) s = k s') /\
    fa_shape s' /\ magazines s' = magazines s /\ next_free s' = i /\
    (forall g, 0 <= g < 16384 -> bit s' g = bit s g || (g =? f)) /\
    (forall g, 0 <= g < 16384 -> rc s' g = if g =? f then 1 else rc s g).
Proof.
  intros Hs Hf -> Hfull. rewrite pool_bounds in Hf.
  destruct (mark_used_ok s f Hs ltac:(lia)) as (s1 & E1 & Hs1 & Hn1 & Hr1 & Hm1 & Hb1).
  assert (fa_shape (set_next_free (f / 32) s1)) as Hs2 by (destruct Hs1; by constructor).
  eexists. split.
  { intros A k. unfold addr_of. rewrite (bind_ok _ _ _ _ _ E1). run.
    erewrite bind_ok by (apply set_ref_ok; done || lia). reflexivity. }
  split; [destruct Hs2; constructor; simpl in *; rewrite ?length_insert; try done; by apply Forall_insert|].
  split; [done|]. split; [done|]. split.
  - intros g Hg. change (bit s1 g = bit s g || (g =? f)). rewrite Hb1 by done.
    destruct (g =? f); by rewrite ?orb_true_r, ?orb_false_r.
  - intros g Hg. unfold rc. simpl. rewrite Hr1.
    rewrite nthZ_insert by (rewrite ?(shape_rc s Hs); lia).
    destruct (Z.eqb_spec g f) as [->|]; [by rewrite decide_True|by rewrite decide_False].
Qed.

Lemma grab_snoc s0 s s' fs f :
  grab s0 s fs -> pool f -> bit s f = false ->
  fa_shape s' -> magazines s' = magazines s ->
  (forall g, 0 <= g < 16384 -> bit s' g = bit s g || (g =? f)) ->
  (forall g, 0 <= g < 16384 -> rc s' g = if g =? f then 1 else rc s g) ->
  grab s0 s' (fs ++ [f]).
Proof.
  intros [Hs Hm Hnd Hp Hb Hr] Hf Hbf Hs' Hm' Hb' Hr'.
  pose proof Hf as Hf'. rewrite pool_bounds in Hf'.
  assert (bit s0 f = false /\ f ∉ fs) as [Hf0 Hnin].
  { rewrite Hb in Hbf by lia. apply orb_false_iff in Hbf as [? H].
    split; [done|]. by apply bool_decide_eq_false in H. }
  assert (forall g, bool_decide (g ∈ fs ++ [f]) = bool_decide (g ∈ fs) || (g =? f)) as Hin.
  { intros g. rewrite eqb_bool_decide, <- bool_decide_or. apply bool_decide_ext.
    by rewrite elem_of_app, list_elem_of_singleton. }
  constructor; try done.
  - by rewrite Hm'.
  - apply NoDup_app. split; [done|]. split; [|apply NoDup_singleton].
    intros x Hx Hx'. apply list_elem_of_singleton in Hx'. congruence.
  - intros x Hx. apply elem_of_app in Hx as [Hx|Hx%list_elem_of_singleton]; [auto|by subst].
  - intros g Hg. rewrite Hb', Hb, Hin by done. by rewrite orb_assoc.
  - intros g Hg. rewrite Hr', Hr, Hin by done. by destruct (g =? f), (bool_decide (g ∈ fs)).
Qed.

Lemma full_below_mono s s' n :
  (forall g, 0 <= g < 16384 -> bit s g = true -> bit s' g = true) ->
  full_below s n -> full_below s' n.
Proof.
  intros Hm Hf g Hg Hn. pose proof Hg as Hg'. rewrite pool_bounds in Hg'.
  apply Hm; [lia|]. by apply Hf.
Qed.

(** What the search has established when it stops. *)
Definition scan_post (s0 : frames) (want lim : Z) (fs : list Z) (s : frames) : Prop :=
  grab s0 s fs /\ Z.of_nat (length fs) <= want /\ hint_ok s /\
  (Z.of_nat (length fs) < want -> full_below s lim).

Lemma scan_word_ok s0 n i j want fs s :
  scan_post s0 want (32 * i + j) fs s -> full_below s (32 * i + j) ->
  88 <= i < 256 -> 0 <= j -> j + Z.of_nat n = 32 ->
  exists fs' s', scan_word n i j want (addr_of <$> fs) s = Ok ((addr_of <$> fs', false), s') /\
    scan_post s0 want (32 * i + 32) fs' s'.
Proof.
  revert j fs s. induction n as [|n IH]; intros j fs s (Hg & Hlen & Hh & Hlt) Hfull Hi Hj Hn;
    cbn [scan_word].
  - exists fs, s. split; [done|]. split_and!; try done. replace 32 with j at 2 by lia. done.
  - rewrite length_fmap. destruct (Z.ltb_spec (Z.of_nat (length fs)) want) as [Hw|Hw].
    2: { exists fs, s. split; [done|]. split_and!; try done. lia. }
    pose proof (grab_shape _ _ _ Hg) as Hs. run. unfold id.
    erewrite bind_ok by (apply rd_nthZ; rewrite (shape_bm s Hs); lia).
    rewrite land_bit_test by lia.
    remember (i * 32 + j) as f eqn:Hf.
    assert (f / 32 = i /\ f mod 32 = j) as [Hd Hm].
    { rewrite Hf, Z.add_comm, Z.div_add, Z.mod_add by lia.
      rewrite Z.div_small, Z.mod_small by lia. lia. }
    assert (Z.testbit (nthZ (frame_bitmap s) i) j = bit s f) as Ebit by (unfold bit; by rewrite Hd, Hm).
    assert (pool f) as Hpf by (apply (proj2 (pool_bounds f)); lia).
    rewrite Ebit. destruct (bit s f) eqn:Eb; simpl.
    + apply IH; try lia.
      * split_and!; try done. intros _ g Hgp Hgl.
        destruct (decide (g = f)) as [->|]; [done|]. apply Hfull; [done|lia].
      * intros g Hgp Hgl. destruct (decide (g = f)) as [->|]; [done|]. apply Hfull; [done|lia].
    + assert (u32 (f * PAGE_SIZE_CONST) = addr_of f) as Ea.
      { apply u32_id. unfold is_u32, addr_of, PAGE_SIZE_CONST. lia. }
      rewrite Ea. rewrite (proj2 (Z.leb_gt _ _))
        by (unfold IDENTITY_MAP_END, IDENTITY_MAP_SIZE_MB, MB, addr_of, PAGE_SIZE_CONST; lia).
      destruct (take_frame s f i Hs Hpf) as (s' & E & Hs' & Hm' & Hn' & Hb' & Hr');
        [done|intros g ? ?; apply Hfull; [done|lia]|].
      assert (addr_of f / PAGE_SIZE_CONST = f) as Ediv by (apply Z.div_mul; done).
      rewrite Ediv. change (f <? FRAME_COUNT) with (f <? 16384).
      rewrite (proj2 (Z.ltb_lt _ _)) by lia.
      rewrite E. replace ((addr_of <$> fs) ++ [addr_of f]) with (addr_of <$> fs ++ [f])
        by (by rewrite fmap_app).
      assert (forall m, full_below s m -> full_below s' m) as Hmono.
      { intros m. apply full_below_mono. intros g Hg' Hbg. by rewrite Hb', Hbg. }
      assert (full_below s' (32 * i + (j + 1))) as Hfull'.
      { intros g Hgp Hgl. destruct (decide (g = f)) as [->|].
        - rewrite Hb', Z.eqb_refl by (rewrite pool_bounds in Hgp; lia). apply orb_true_r.
        - apply (Hmono _ Hfull); [done|lia]. }
      apply IH; try done; try lia. split_and!; try done.
      * by eapply grab_snoc.
      * rewrite length_app. simpl. lia.
      * split; rewrite Hn'; [lia|]. intros g Hgp Hgl. apply Hfull'; [done|lia].
Qed.

Lemma scan_words_ok s0 n i want fs s :
  scan_post s0 want (32 * i) fs s -> full_below s (32 * i) ->
  88 <= i -> i + Z.of_nat n = 256 ->
  exists fs' s', scan_words n i want (addr_of <$> fs) s = Ok (addr_of <$> fs', s') /\
    scan_post s0 want 8192 fs' s'.
Proof.
  revert i fs s. induction n as [|n IH]; intros i fs s Hp Hfull Hi Hn; cbn [scan_words].
  - exists fs, s. split; [done|]. replace 8192 with (32 * i) by lia. done.
  - pose proof Hp as (Hg & Hlen & Hh & _). rewrite length_fmap.
    destruct (Z.ltb_spec (Z.of_nat (length fs)) want) as [Hw|Hw].
    2: { exists fs, s. split; [done|]. split_and!; try apply Hh; try done. lia. }
    pose proof (grab_shape _ _ _ Hg) as Hs. run. unfold id.
    erewrite bind_ok by (apply rd_nthZ; rewrite (shape_bm s Hs); lia).
    destruct (Z.eqb_spec (nthZ (frame_bitmap s) i) 4294967295) as [Ew|Ew].
    + rewrite full_word in Ew by (apply Hs; lia).
      assert (full_below s (32 * (i + 1))) as Hfull'.
      { intros g Hgp Hgl. destruct (decide (g < 32 * i)); [by apply Hfull|].
        unfold bit. replace (g / 32) with i; [apply Ew, Z.mod_pos_bound; lia|].
        apply (Z.div_unique _ _ _ (g - 32 * i)); lia. }
      apply IH; try done; lia.
    + destruct (scan_word_ok s0 32 i 0 want fs s) as (fs1 & s1 & E1 & Hp1); try lia.
      { by rewrite Z.add_0_r. }
      { by rewrite Z.add_0_r. }
      rewrite (bind_ok _ _ _ _ _ E1).
      destruct (decide (Z.of_nat (length fs1) < want)) as [Hlt|Hge].
      * pose proof Hp1 as (Hg1 & Hl1 & Hh1 & Hf1). specialize (Hf1 Hlt).
        replace (32 * i + 32) with (32 * (i + 1)) in * by lia. apply IH; try done; lia.
      * exists fs1, s1. pose proof Hp1 as (Hg1 & Hl1 & Hh1 & Hf1).
        assert (scan_words n (i + 1) want (addr_of <$> fs1) s1 = Ok (addr_of <$> fs1, s1)) as ->.
        { destruct n; [done|]. cbn [scan_words]. rewrite length_fmap, (proj2 (Z.ltb_ge _ _)); [done|lia]. }
        split; [done|]. split_and!; try apply Hh1; try done; lia.
Qed.

Lemma alloc_frames_ok s want :
  fa_shape s -> hint_ok s -> 0 <= want ->
  exists fs s', alloc_frames_locked want s = Ok (addr_of <$> fs, s') /\
    scan_post s want 8192 fs s'.
Proof.
  intros Hs Hh Hw. unfold alloc_frames_locked. run. unfold id.
  change (IDENTITY_MAP_END / PAGE_SIZE_CONST / 32) with 256.
  change (BITMAP_SIZE <? 256) with false. change FRAME_ALLOC_FIRST_BITMAP_IDX with 88.
  set (start := if next_free s <? 88 then 88 else next_free s). cbv iota.
  assert (88 <= start < 256 /\ next_free s <= start) as [Hst Hns].
  { destruct Hh as [? _]. unfold start. destruct (Z.ltb_spec (next_free s) 88); lia. }
  assert (full_below s (32 * start)) as Hfull.
  { intros g Hgp Hgl. unfold start in *. destruct (Z.ltb_spec (next_free s) 88).
    - rewrite pool_bounds in Hgp. lia.
    - by apply Hh. }
  apply (scan_words_ok s _ start want [] s); try done; try lia.
  split; [by apply grab_nil|]. split; [simpl; lia|]. done.
Qed.

(** ** Invariant *)

Definition mag_items (m : magazine) : list Z :=
  take (Z.to_nat (frame_magazine_count m)) (frame_magazine m).
Definition mag_ok (m : magazine) : Prop :=
  length (frame_magazine m) = 16%nat /\ 0 <= frame_magazine_count m <= 16.

(** The frames that wait in some CPU's magazine. *)
Definition spare (s : frames) : list Z := concat (mag_items <$> magazines s).

(** The pool is split into free frames (bit clear), spare frames [sp] and the
    frames of [refs], whose counts the reference count array holds. *)
Record fa_sets (bits : Z -> bool) (rcs : Z -> Z) (refs : gmap Z Z) (sp : list Z) : Prop := {
  sets_nodup : NoDup sp;
  sets_spare : forall a, a ∈ sp ->
    exists f, a = addr_of f /\ pool f /\ bits f = true /\ refs !! f = None;
  sets_refs : forall f n, refs !! f = Some n ->
    pool f /\ bits f = true /\ rcs f = n /\ 1 <= n <= 65535;
  sets_noleak : forall f, pool f -> bits f = true -> is_Some (refs !! f) \/ addr_of f ∈ sp
}.

(** [extra] are frames an operation holds between two of its steps. *)
Record fa_inv (s : frames) (extra : list Z) (refs : gmap Z Z) : Prop := {
  inv_shape : fa_shape s;
  inv_hint : hint_ok s;
  inv_mags : Forall mag_ok (magazines s);
  inv_sets : fa_sets (bit s) (rc s) refs (extra ++ spare s)
}.

#[export] Instance fa_sets_perm bits rcs refs :
  Proper (Permutation ==> iff) (fa_sets bits rcs refs).
Proof.
  intros sp sp' Hp. split; intros [H1 H2 H3 H4]; constructor; try done.
  - by rewrite <- Hp.
  - intros a. rewrite <- Hp. auto.
  - intros f. rewrite <- Hp. auto.
  - by rewrite Hp.
  - intros a. rewrite Hp. auto.
  - intros f. rewrite Hp. auto.
Qed.

Lemma fa_sets_ext bits bits' rcs rcs' refs sp :
  (forall f, pool f -> bits' f = bits f) ->
  (forall f, is_Some (refs !! f) -> pool f -> rcs' f = rcs f) ->
  fa_sets bits rcs refs sp -> fa_sets bits' rcs' refs sp.
Proof.
  intros Hb Hr [H1 H2 H3 H4]. constructor; try done.
  - intros a Ha. destruct (H2 a Ha) as (f & -> & ? & ? & ?). exists f. by rewrite Hb.
  - intros f n Hn. destruct (H3 f n Hn) as (? & ? & ? & ?).
    rewrite Hb, Hr by (done || eauto). done.
  - intros f Hf. rewrite Hb by done. auto.
Qed.

Lemma addr_of_inj f g : addr_of f = addr_of g -> f = g.
Proof. unfold addr_of, PAGE_SIZE_CONST. lia. Qed.

(** Replacing one CPU's magazine. *)
Lemma spare_replace ms i m m' ex ex' :
  ms !! i = Some m -> ex ++ mag_items m ≡ₚ ex' ++ mag_items m' ->
  ex ++ concat (mag_items <$> ms) ≡ₚ ex' ++ concat (mag_items <$> <[i := m']> ms).
Proof.
  intros Hi Hp. apply list_elem_of_split_length in Hi as (l1 & l2 & -> & ->).
  rewrite <- (Nat.add_0_r (length l1)), insert_app_r. simpl.
  rewrite !fmap_app, !concat_app. simpl.
  rewrite (Permutation_app_swap_app (concat (mag_items <$> l1)) (mag_items m)).
  rewrite (Permutation_app_swap_app (concat (mag_items <$> l1)) (mag_items m')).
  by rewrite !(app_assoc ex), !(app_assoc ex'), Hp.
Qed.

Lemma get_mag_ok s cpu m :
  0 <= cpu -> magazines s !! Z.to_nat cpu = Some m -> get_mag cpu s = Ok (m, s).
Proof. intros Hc Hm. unfold get_mag. run. by apply rd_ok. Qed.

Lemma put_mag_ok s cpu m m' :
  0 <= cpu -> magazines s !! Z.to_nat cpu = Some m ->
  put_mag cpu m' s = Ok (tt, set_magazines (<[Z.to_nat cpu := m']> (magazines s)) s).
Proof.
  intros Hc Hm. unfold put_mag. run. apply lookup_lt_Some in Hm.
  erewrite bind_ok by (apply wr_ok; unfold id; lia). done.
Qed.

Lemma inv_set_mag s ex ex' refs cpu m m' :
  fa_inv s ex refs -> magazines s !! Z.to_nat cpu = Some m -> mag_ok m' ->
  ex ++ mag_items m ≡ₚ ex' ++ mag_items m' ->
  fa_inv (set_magazines (<[Z.to_nat cpu := m']> (magazines s)) s) ex' refs.
Proof.
  intros [[] Hh Hm Hs] Hcpu Hok Hp. constructor; simpl.
  - by constructor.
  - done.
  - by apply Forall_insert.
  - unfold spare in *. simpl. by rewrite <- (spare_replace _ _ m m' ex ex').
Qed.

(** [cpu]'s magazine holds [n] frames. *)
Definition mag_has (s : frames) (cpu n : Z) : Prop :=
  0 <= cpu /\ exists m, magazines s !! Z.to_nat cpu = Some m /\ frame_magazine_count m = n.

Lemma mag_pop_ok s ex refs cpu n :
  fa_inv s ex refs -> mag_has s cpu n -> 0 < n ->
  exists a s', mag_pop cpu s = Ok (a, s') /\ fa_inv s' (a :: ex) refs /\
    mag_has s' cpu (n - 1) /\ length (magazines s') = length (magazines s).
Proof.
  intros Hinv (Hc & m & Hm & <-) Hn. unfold mag_pop.
  rewrite (bind_ok _ _ _ _ _ (get_mag_ok s cpu m Hc Hm)).
  pose proof (Forall_lookup_1 _ _ _ _ (inv_mags _ _ _ Hinv) Hm) as [Hl Hcnt].
  destruct (lookup_lt_is_Some_2 (frame_magazine m) (Z.to_nat (frame_magazine_count m - 1)))
    as [a Ha]; [lia|].
  erewrite bind_ok by (apply rd_ok; [lia|exact Ha]).
  rewrite (bind_ok _ _ _ _ _ (put_mag_ok s cpu m _ Hc Hm)).
  eexists a, _. split; [reflexivity|]. split_and!.
  - eapply inv_set_mag; try done; [split; simpl; lia|].
    unfold mag_items. simpl.
    replace (Z.to_nat (frame_magazine_count m)) with (S (Z.to_nat (frame_magazine_count m - 1))) by lia.
    rewrite (take_S_r _ _ a) by done. rewrite app_assoc. symmetry. apply Permutation_cons_append.
  - split; [done|]. eexists. simpl. rewrite list_lookup_insert_eq; [done|].
    by eapply lookup_lt_Some.
  - simpl. apply length_insert.
Qed.

Lemma mag_push_ok s a ex refs cpu n :
  fa_inv s (a :: ex) refs -> mag_has s cpu n -> n < 16 ->
  exists s', mag_push cpu a s = Ok (tt, s') /\ fa_inv s' ex refs /\
    mag_has s' cpu (n + 1) /\ length (magazines s') = length (magazines s) /\ rc s' = rc s.
Proof.
  intros Hinv (Hc & m & Hm & <-) Hn. unfold mag_push.
  rewrite (bind_ok _ _ _ _ _ (get_mag_ok s cpu m Hc Hm)).
  pose proof (Forall_lookup_1 _ _ _ _ (inv_mags _ _ _ Hinv) Hm) as [Hl Hcnt].
  erewrite bind_ok by (apply wr_ok; lia).
  rewrite (put_mag_ok s cpu m _ Hc Hm).
  eexists. split; [reflexivity|]. split_and!.
  - eapply inv_set_mag; try done; [split; simpl; rewrite ?length_insert; lia|].
    unfold mag_items. simpl.
    replace (Z.to_nat (frame_magazine_count m + 1)) with (S (Z.to_nat (frame_magazine_count m))) by lia.
    rewrite (take_S_r _ _ a) by (apply list_lookup_insert_eq; lia).
    rewrite take_insert_ge by lia. rewrite app_assoc. apply Permutation_cons_append.
  - split; [done|]. eexists. simpl. rewrite list_lookup_insert_eq; [done|].
    by eapply lookup_lt_Some.
  - simpl. apply length_insert.
  - done.
Qed.

(** ** The steps of the operations *)

Lemma pool_return_ok s a ex refs :
  fa_inv s (a :: ex) refs ->
  exists s', pool_return a s = Ok (tt, s') /\ fa_inv s' ex refs /\ magazines s' = magazines s.
Proof.
  intros [Hs [Hn Hfull] Hm Hsets]. pose proof Hsets as [Hnd Hsp Hr Hnl].
  destruct (Hsp a ltac:(left)) as (f & -> & Hf & Hbf & Hrf).
  pose proof Hf as Hf'. rewrite pool_bounds in Hf'.
  destruct (frame_clear_ok s f Hs ltac:(lia)) as (s1 & E1 & Hs1 & Hn1 & Hr1 & Hm1 & Hb1).
  unfold pool_return, addr_of. rewrite (bind_ok _ _ _ _ _ E1). run. unfold id.
  rewrite Z.div_mul by done. change FRAME_ALLOC_FIRST_BITMAP_IDX with 88.
  assert (88 <= f / 32 < 256) as Hfi
    by (split; [apply Z.div_le_lower_bound|apply Z.div_lt_upper_bound]; lia).
  rewrite (proj2 (Z.leb_le 88 (f / 32))), andb_true_r by lia.
  assert (fa_sets (bit s1) (rc s1) refs (ex ++ spare s1)) as Hsets1.
  { unfold spare. rewrite Hm1. apply NoDup_cons in Hnd as [Hnin Hnd].
    constructor; try done.
    - intros a Ha. destruct (Hsp a ltac:(by right)) as (g & -> & Hg & Hbg & Hrg).
      exists g. rewrite Hb1 by (rewrite pool_bounds in Hg; lia).
      rewrite (proj2 (Z.eqb_neq g f)); [done|]. intros ->. by apply Hnin.
    - intros g n Hgn. destruct (Hr g n Hgn) as (Hg & Hbg & Hrc & ?).
      rewrite Hb1 by (rewrite pool_bounds in Hg; lia).
      rewrite (proj2 (Z.eqb_neq g f)) by congruence. unfold rc in *. by rewrite Hr1.
    - intros g Hg. rewrite Hb1 by (rewrite pool_bounds in Hg; lia).
      destruct (Z.eqb_spec g f) as [->|Hne]; [done|]. intros Hbg.
      destruct (Hnl g Hg Hbg) as [?|Hin]; [by left|]. right.
      apply elem_of_cons in Hin as [E|?]; [|done]. by apply addr_of_inj in E. }
  assert (forall lim, lim <= next_free s -> lim <= f / 32 -> full_below s1 (32 * lim)) as Hlim.
  { intros lim Hl1 Hl2 g Hg Hgl. pose proof (Z.div_mod f 32 ltac:(lia)).
    pose proof (Z.mod_pos_bound f 32 ltac:(lia)).
    rewrite Hb1 by (rewrite pool_bounds in Hg; lia).
    rewrite (proj2 (Z.eqb_neq g f)) by lia. apply Hfull; [done|lia]. }
  rewrite Hn1. destruct (Z.ltb_spec (f / 32) (next_free s)) as [Hlt|Hge];
    (eexists; split; [reflexivity|]; split; [|done]; constructor; simpl; rewrite ?Hm1; try done).
  - destruct Hs1; by constructor.
  - split; simpl; [lia|]. apply Hlim; lia.
  - split; rewrite Hn1; [lia|]. apply Hlim; lia.
Qed.

Lemma mag_has_eq s s' cpu n :
  magazines s' = magazines s -> mag_has s cpu n -> mag_has s' cpu n.
Proof. unfold mag_has. by intros ->. Qed.

Lemma drain_ok k s ex refs cpu n :
  fa_inv s ex refs -> mag_has s cpu n -> Z.of_nat k <= n ->
  exists s', drain_magazine k cpu s = Ok (tt, s') /\ fa_inv s' ex refs /\
    length (magazines s') = length (magazines s).
Proof.
  revert s n. induction k as [|k IH]; intros s n Hinv Hm Hk; cbn [drain_magazine]; [eauto|].
  destruct (mag_pop_ok s ex refs cpu n Hinv Hm ltac:(lia)) as (a & s1 & E1 & Hinv1 & Hm1 & Hl1).
  rewrite (bind_ok _ _ _ _ _ E1).
  destruct (pool_return_ok s1 a ex refs Hinv1) as (s2 & E2 & Hinv2 & Hms).
  rewrite (bind_ok _ _ _ _ _ E2).
  destruct (IH s2 (n - 1) Hinv2) as (s3 & -> & ? & Hl3); [by eapply mag_has_eq|lia|].
  exists s3. split; [done|]. split; [done|]. congruence.
Qed.

Lemma valid_mag s ex refs cpu :
  fa_inv s ex refs -> 0 <= cpu < Z.of_nat (length (magazines s)) ->
  exists n, mag_has s cpu n /\ 0 <= n <= 16.
Proof.
  intros Hinv Hc. destruct (lookup_lt_is_Some_2 (magazines s) (Z.to_nat cpu)) as [m Hm]; [lia|].
  exists (frame_magazine_count m). split; [split; [lia|eauto]|].
  apply (Forall_lookup_1 _ _ _ _ (inv_mags _ _ _ Hinv) Hm).
Qed.

Lemma release_ok s a ex refs cpu :
  fa_inv s (a :: ex) refs -> 0 <= cpu < Z.of_nat (length (magazines s)) ->
  exists s', release_frame_to_pool cpu a s = Ok (tt, s') /\ fa_inv s' ex refs /\
    length (magazines s') = length (magazines s).
Proof.
  intros Hinv Hc. destruct (valid_mag _ _ _ _ Hinv Hc) as (n & Hm & Hn).
  unfold release_frame_to_pool. pose proof Hm as (Hc0 & m & Hmm & Hcnt).
  rewrite (bind_ok _ _ _ _ _ (get_mag_ok s cpu m Hc0 Hmm)). rewrite Hcnt.
  change FRAME_MAGAZINE_SIZE with 16. destruct (Z.ltb_spec n 16).
  - destruct (mag_push_ok s a ex refs cpu n Hinv Hm) as (s' & -> & ? & _ & ? & _); [done|]. eauto.
  - destruct (drain_ok (Z.to_nat (16 / 2)) s (a :: ex) refs cpu n Hinv Hm) as (s1 & E1 & H1 & Hl1);
      [change (16 / 2) with 8; lia|].
    rewrite (bind_ok _ _ _ _ _ E1).
    destruct (pool_return_ok s1 a ex refs H1) as (s2 & -> & H2 & Hms). exists s2.
    split; [done|]. split; [done|]. congruence.
Qed.

Lemma rc_set_ref s f v g :
  fa_shape s -> 0 <= f < 16384 -> 0 <= g < 16384 ->
  rc (set_refcounts (<[Z.to_nat f := v]> (frame_refcount s)) s) g = if g =? f then v else rc s g.
Proof.
  intros Hs Hf Hg. unfold rc. simpl. rewrite nthZ_insert by (rewrite ?(shape_rc s Hs); lia).
  destruct (Z.eqb_spec g f) as [->|]; [by rewrite decide_True|by rewrite decide_False].
Qed.

(** A frame in hand becomes a live frame with one reference. *)
Lemma sets_take bits rcs refs sp f :
  fa_sets bits rcs refs (addr_of f :: sp) -> rcs f = 1 ->
  refs !! f = None /\ pool f /\ fa_sets bits rcs (<[f := 1]> refs) sp.
Proof.
  intros [Hnd Hsp Hr Hnl] Hrc. apply NoDup_cons in Hnd as [Hnin Hnd].
  destruct (Hsp (addr_of f) ltac:(left)) as (g & E & Hf & Hbf & Hrf).
  apply addr_of_inj in E as <-. split; [done|]. split; [done|]. constructor; try done.
  - intros a Ha. destruct (Hsp a ltac:(by right)) as (g & -> & ? & ? & ?). exists g.
    rewrite lookup_insert_ne; [done|]. intros ->. done.
  - intros g n Hg. destruct (decide (g = f)) as [->|].
    + rewrite lookup_insert_eq in Hg. injection Hg as <-. split_and!; try done; lia.
    + rewrite lookup_insert_ne in Hg by done. auto.
  - intros g Hg Hbg. destruct (decide (g = f)) as [->|]; [left; rewrite lookup_insert_eq; eauto|].
    rewrite lookup_insert_ne by done. destruct (Hnl g Hg Hbg) as [?|Hin]; [by left|].
    apply elem_of_cons in Hin as [E|?]; [|by right]. by apply addr_of_inj in E.
Qed.

(** A live frame dropped by its last holder is in hand again. *)
Lemma sets_drop bits rcs rcs' refs sp f n :
  fa_sets bits rcs refs sp -> refs !! f = Some n ->
  (forall g, g <> f -> pool g -> rcs' g = rcs g) ->
  fa_sets bits rcs' (delete f refs) (addr_of f :: sp).
Proof.
  intros [Hnd Hsp Hr Hnl] Hf Hrc. destruct (Hr f n Hf) as (Hpf & Hbf & _).
  constructor.
  - apply NoDup_cons. split; [|done]. intros Hin.
    destruct (Hsp _ Hin) as (g & E & _ & _ & Hg). apply addr_of_inj in E as <-. congruence.
  - intros a Ha. apply elem_of_cons in Ha as [->|Ha].
    + exists f. by rewrite lookup_delete_eq.
    + destruct (Hsp a Ha) as (g & -> & ? & ? & ?). exists g.
      rewrite lookup_delete_ne; [done|]. congruence.
  - intros g k Hg. apply lookup_delete_Some in Hg as [Hne Hg].
    destruct (Hr g k Hg) as (? & ? & ? & ?). by rewrite Hrc.
  - intros g Hg Hbg. destruct (decide (g = f)) as [->|]; [right; left|].
    rewrite lookup_delete_ne by done. destruct (Hnl g Hg Hbg); [by left|right; by right].
Qed.

Lemma alloc_batch_ok s refs :
  fa_inv s [] refs ->
  exists fs s', alloc_frames_locked FRAME_MAGAZINE_SIZE s = Ok (addr_of <$> fs, s') /\
    fa_inv s' (addr_of <$> fs) refs /\ magazines s' = magazines s /\
    (length fs <= 16)%nat /\ (forall f, f ∈ fs -> rc s' f = 1) /\
    (fs = [] -> forall f, pool f -> bit s f = true).
Proof.
  intros [Hs Hh Hm [Hnd Hsp Hr Hnl]]. simpl in *.
  destruct (alloc_frames_ok s FRAME_MAGAZINE_SIZE Hs Hh) as (fs & s' & E & Hg & Hlen & Hh' & Hfull);
    [done|]. change FRAME_MAGAZINE_SIZE with 16 in *. exists fs, s'.
  pose proof Hg as [Hs' Hm' Hnd' Hp Hb Hrc].
  assert (forall f, pool f -> bit s' f = bit s f || bool_decide (f ∈ fs)) as Hbp
    by (intros f Hf; apply Hb; rewrite pool_bounds in Hf; lia).
  split; [done|]. split; [|split_and!; try done; try lia].
  - constructor; try done; [by rewrite Hm'|]. unfold spare. rewrite Hm'. constructor.
    + apply NoDup_app. split_and!; [apply NoDup_fmap_2; [|done]; intros ? ?; apply addr_of_inj| |done].
      intros a Ha Ha'. apply list_elem_of_fmap in Ha as (f & -> & Hf).
      destruct (Hsp _ Ha') as (g & E' & _ & Hbg & _). apply addr_of_inj in E' as <-.
      destruct (Hp _ Hf). congruence.
    + intros a Ha. apply elem_of_app in Ha as [Ha|Ha].
      * apply list_elem_of_fmap in Ha as (f & -> & Hf). destruct (Hp f Hf) as [Hpf Hbf].
        exists f. rewrite Hbp, bool_decide_true, orb_true_r by done. split_and!; try done.
        destruct (refs !! f) as [n|] eqn:E'; [|done].
        destruct (Hr f n E') as (_ & ? & _). congruence.
      * destruct (Hsp a Ha) as (f & -> & Hpf & Hbf & ?). exists f. by rewrite Hbp, Hbf.
    + intros f n Hf. destruct (Hr f n Hf) as (Hpf & Hbf & Hrf & ?).
      rewrite Hbp, Hbf by done. rewrite Hrc by (rewrite pool_bounds in Hpf; lia).
      rewrite bool_decide_false; [done|]. intros Hin. destruct (Hp f Hin). congruence.
    + intros f Hpf. rewrite Hbp, orb_true_iff by done. rewrite bool_decide_eq_true, elem_of_app.
      intros [Hbf|Hin]; [destruct (Hnl f Hpf Hbf); auto|]. right. left. by apply list_elem_of_fmap_2.
  - intros f Hf. destruct (Hp f Hf) as [Hpf _]. rewrite pool_bounds in Hpf.
    rewrite Hrc by lia. by rewrite bool_decide_true.
  - intros -> f Hf. rewrite <- (orb_false_r (bit s f)).
    rewrite <- (bool_decide_false (f ∈ [])), <- Hbp by (done || apply not_elem_of_nil).
    apply Hfull; [simpl; lia|done|]. rewrite pool_bounds in Hf. lia.
Qed.

Lemma refill_ok batch s refs cpu n :
  fa_inv s batch refs -> mag_has s cpu n -> n + Z.of_nat (length batch) <= 16 ->
  exists s', mag_refill cpu batch s = Ok (tt, s') /\ fa_inv s' [] refs /\
    length (magazines s') = length (magazines s).
Proof.
  revert s n. induction batch as [|a batch IH]; intros s n Hinv Hm Hn; cbn [mag_refill]; [eauto|].
  simpl in Hn. destruct (mag_push_ok s a batch refs cpu n Hinv Hm) as (s1 & E1 & H1 & Hm1 & Hl1 & _);
    [lia|].
  rewrite (bind_ok _ _ _ _ _ E1). destruct (IH s1 (n + 1) H1 Hm1) as (s2 & -> & ? & ?); [lia|].
  exists s2. split; [done|]. split; [done|]. congruence.
Qed.

Lemma inv_take s f ex refs :
  fa_inv s (addr_of f :: ex) refs -> rc s f = 1 ->
  refs !! f = None /\ pool f /\ fa_inv s ex (<[f := 1]> refs).
Proof.
  intros [Hs Hh Hm Hsets] Hrc. destruct (sets_take _ _ _ _ f Hsets Hrc) as (? & ? & ?).
  split; [done|]. by split.
Qed.

Lemma inv_set_ref1 s f ex refs :
  fa_inv s (addr_of f :: ex) refs -> pool f ->
  let s' := set_refcounts (<[Z.to_nat f := 1]> (frame_refcount s)) s in
  fa_inv s' (addr_of f :: ex) refs /\ rc s' f = 1.
Proof.
  intros [Hs Hh Hm Hsets] Hf s'. pose proof Hf as Hf'. rewrite pool_bounds in Hf'.
  assert (rc s' f = 1) as Hrc. { unfold s'. rewrite rc_set_ref by (done || lia). by rewrite Z.eqb_refl. }
  split; [|done]. constructor; try done.
  - destruct Hs. constructor; simpl; rewrite ?length_insert; try done. apply Forall_insert; [done|lia].
  - eapply fa_sets_ext; [done| |exact Hsets]. intros g [n Hg] Hpg.
    unfold s'. rewrite rc_set_ref by (rewrite ?pool_bounds in Hpg; done || lia).
    destruct (Z.eqb_spec g f) as [->|]; [|done].
    destruct (sets_spare _ _ _ _ Hsets (addr_of f) ltac:(left)) as (h & E & _ & _ & Hn).
    apply addr_of_inj in E as <-. congruence.
Qed.

(** ** Each operation against the reference map *)

(** A pool with no free frame has almost all of its frames in use: the CPUs
    keep at most 128 of the 5376. *)
Lemma spare_length s : Forall mag_ok (magazines s) -> (length (spare s) <= 16 * length (magazines s))%nat.
Proof.
  unfold spare. induction 1 as [|m ms [Hl Hc] _ IH]; [done|]. cbn [fmap list_fmap concat length]. rewrite length_app.
  assert (length (mag_items m) <= 16)%nat; [|lia]. unfold mag_items. rewrite length_take. lia.
Qed.

Lemma pool_exhausted (refs : gmap Z Z) (sp : list Z) :
  (forall f, pool f -> is_Some (refs !! f) \/ addr_of f ∈ sp) -> 5376 <= Z.of_nat (size refs) + Z.of_nat (length sp).
Proof.
  intros H. assert (seqZ 2816 5376 ⊆+ elements (dom refs) ++ ((fun a => a / 4096) <$> sp)) as Hs.
  { apply NoDup_submseteq; [apply NoDup_seqZ|]. intros f Hf%elem_of_seqZ. rewrite elem_of_app, elem_of_elements, elem_of_dom.
    destruct (H f) as [?|Hsp]; [apply pool_bounds; lia|by left|right]. apply list_elem_of_fmap. exists (addr_of f).
    unfold addr_of, PAGE_SIZE_CONST. by rewrite Z.div_mul. }
  apply submseteq_length in Hs. rewrite length_seqZ, length_app, length_fmap in Hs.
  change (length (elements (dom refs))) with (size (dom refs)) in Hs. rewrite size_dom in Hs. lia.
Qed.

Lemma allocate_frame_ok s refs cpu :
  fa_inv s [] refs -> 0 <= cpu < Z.of_nat (length (magazines s)) ->
  exists r s', allocate_frame cpu s = Ok (r, s') /\
    length (magazines s') = length (magazines s) /\
    ((exists f, r = addr_of f /\ pool f /\ refs !! f = None /\ fa_inv s' [] (<[f := 1]> refs)) \/
     (r = NO_FRAME /\ fa_inv s' [] refs /\ mag_has s cpu 0 /\
        forall f, pool f -> is_Some (refs !! f) \/ addr_of f ∈ spare s)).
Proof.
  intros Hinv Hc. destruct (valid_mag _ _ _ _ Hinv Hc) as (n & Hm & Hn).
  unfold allocate_frame. pose proof Hm as (Hc0 & m & Hmm & Hcnt).
  rewrite (bind_ok _ _ _ _ _ (get_mag_ok s cpu m Hc0 Hmm)), Hcnt.
  destruct (Z.ltb_spec 0 n) as [Hpos|Hz].
  - destruct (mag_pop_ok s [] refs cpu n Hinv Hm Hpos) as (a & s1 & E1 & H1 & _ & Hl1).
    rewrite (bind_ok _ _ _ _ _ E1).
    destruct (sets_spare _ _ _ _ (inv_sets _ _ _ H1) a ltac:(left)) as (f & -> & Hf & _ & _).
    pose proof Hf as Hf'. rewrite pool_bounds in Hf'.
    unfold addr_of at 1 2. rewrite Z.div_mul by done. change FRAME_COUNT with 16384.
    rewrite (proj2 (Z.ltb_lt f 16384)) by lia.
    erewrite bind_ok by (apply set_ref_ok; [apply H1|lia]).
    destruct (inv_set_ref1 s1 f [] refs H1 Hf) as [H2 Hrc].
    destruct (inv_take _ f [] refs H2 Hrc) as (? & ? & ?).
    eexists _, _. split; [reflexivity|]. split; [done|]. left. eauto.
  - assert (n = 0) as -> by lia.
    destruct (alloc_batch_ok s refs Hinv) as (fs & s1 & E1 & H1 & Hms & Hlen & Hrc & Hnone).
    rewrite (bind_ok _ _ _ _ _ E1). destruct fs as [|f fs]; simpl.
    + exists NO_FRAME, s1. split; [done|]. split; [by rewrite Hms|]. right. split_and!; try done.
      intros f Hf. by apply (sets_noleak _ _ _ _ (inv_sets _ _ _ Hinv) f Hf), Hnone.
    + rewrite fmap_cons in H1. destruct (inv_take s1 f _ refs H1) as (? & ? & H2); [apply Hrc; left|].
      destruct (refill_ok _ s1 _ cpu 0 H2) as (s2 & E2 & H3 & Hl3).
      { by eapply mag_has_eq. }
      { rewrite length_fmap. simpl in Hlen. lia. }
      rewrite (bind_ok _ _ _ _ _ E2). eexists _, _. split; [reflexivity|].
      split; [by rewrite Hl3, Hms|]. left. eauto 6.
Qed.

Lemma live_bounds s ex refs f n :
  fa_inv s ex refs -> refs !! f = Some n ->
  2816 <= f < 8192 /\ rc s f = n /\ 1 <= n <= 65535.
Proof.
  intros Hinv Hf. destruct (sets_refs _ _ _ _ (inv_sets _ _ _ Hinv) f n Hf) as (Hp & _ & ? & ?).
  by rewrite pool_bounds in Hp.
Qed.

(** Changing the count of a live frame. *)
Lemma inv_set_count s ex refs f n v :
  fa_inv s ex refs -> refs !! f = Some n -> 1 <= v <= 65535 ->
  fa_inv (set_refcounts (<[Z.to_nat f := v]> (frame_refcount s)) s) ex (<[f := v]> refs).
Proof.
  intros Hinv Hf Hv. pose proof (live_bounds s ex refs f n Hinv Hf) as (Hfb & _).
  destruct Hinv as [Hs Hh Hm [Hnd Hsp Hr Hnl]]. constructor; try done.
  - destruct Hs. constructor; simpl; rewrite ?length_insert; try done. apply Forall_insert; [done|lia].
  - constructor; try done.
    + intros a Ha. destruct (Hsp a Ha) as (g & -> & ? & ? & ?). exists g.
      rewrite lookup_insert_ne by congruence. done.
    + intros g k Hg. destruct (decide (g = f)) as [->|Hne].
      * rewrite lookup_insert_eq in Hg. injection Hg as <-.
        destruct (Hr f n Hf) as (? & ? & _). rewrite rc_set_ref, Z.eqb_refl by (done || lia). done.
      * rewrite lookup_insert_ne in Hg by done. destruct (Hr g k Hg) as (Hp & ? & ? & ?).
        rewrite rc_set_ref by (rewrite ?pool_bounds in Hp; done || lia).
        by rewrite (proj2 (Z.eqb_neq g f)).
    + intros g Hg Hbg. destruct (Hnl g Hg Hbg) as [[k Hk]|?]; [left|by right].
      destruct (decide (g = f)) as [->|]; [rewrite lookup_insert_eq|rewrite lookup_insert_ne by done];
        eauto.
Qed.

Lemma frame_incref_ok s refs f n :
  fa_inv s [] refs -> refs !! f = Some n -> n < 65535 ->
  exists s', frame_incref (addr_of f) s = Ok (tt, s') /\ magazines s' = magazines s /\
    fa_inv s' [] (<[f := n + 1]> refs).
Proof.
  intros Hinv Hf Hn. pose proof (live_bounds s [] refs f n Hinv Hf) as (Hfb & Hrc & Hn1).
  unfold frame_incref, addr_of. rewrite Z.div_mul by done. change FRAME_COUNT with 16384.
  rewrite (proj2 (Z.leb_gt 16384 f)) by lia.
  erewrite bind_ok by (apply get_ref_ok; [apply Hinv|lia]). rewrite Hrc.
  rewrite (proj2 (Z.ltb_lt n 65535)) by lia. rewrite set_ref_ok by (apply Hinv || lia).
  eexists. split; [reflexivity|]. split; [done|]. eapply inv_set_count; eauto; lia.
Qed.

Definition drop_ref (f n : Z) (refs : gmap Z Z) : gmap Z Z :=
  if n =? 1 then delete f refs else <[f := n - 1]> refs.

Lemma frame_decref_ok s refs cpu f n :
  fa_inv s [] refs -> refs !! f = Some n -> 0 <= cpu < Z.of_nat (length (magazines s)) ->
  exists s', frame_decref cpu (addr_of f) s = Ok (tt, s') /\
    length (magazines s') = length (magazines s) /\ fa_inv s' [] (drop_ref f n refs).
Proof.
  intros Hinv Hf Hc. pose proof (live_bounds s [] refs f n Hinv Hf) as (Hfb & Hrc & Hn1).
  unfold frame_decref, addr_of. rewrite Z.div_mul by done. change FRAME_COUNT with 16384.
  rewrite (proj2 (Z.leb_gt 16384 f)) by lia.
  change KERNEL_RESERVED_END with (2816 * PAGE_SIZE_CONST).
  rewrite (proj2 (Z.ltb_ge (f * PAGE_SIZE_CONST) _)) by (unfold PAGE_SIZE_CONST; lia).
  erewrite bind_ok by (apply get_ref_ok; [apply Hinv|lia]). rewrite Hrc.
  rewrite (proj2 (Z.eqb_neq n 0)) by lia. unfold drop_ref.
  destruct (Z.ltb_spec 1 n); [rewrite (proj2 (Z.eqb_neq n 1)) by lia|replace (n =? 1) with true by lia].
  - rewrite set_ref_ok by (apply Hinv || lia). eexists. split; [reflexivity|]. split; [done|].
    eapply inv_set_count; eauto; lia.
  - erewrite bind_ok by (apply set_ref_ok; [apply Hinv|lia]).
    fold (addr_of f). match goal with |- exists _, _ _ _ ?s0 = _ /\ _ =>
      destruct (release_ok s0 (addr_of f) [] (delete f refs) cpu) as (s' & -> & ? & ?);
        [|done|by exists s'] end.
    destruct Hinv as [Hs Hh Hm Hsets]. constructor; try done.
    + destruct Hs. constructor; simpl; rewrite ?length_insert; try done. apply Forall_insert; [done|lia].
    + eapply sets_drop; [exact Hsets|exact Hf|]. intros g Hne Hp.
      rewrite pool_bounds in Hp. rewrite rc_set_ref by (done || lia).
      by rewrite (proj2 (Z.eqb_neq g f)).
Qed.

(** [reserve_low] sets the bits of the frames from [k] to [e - 1]. *)
Lemma reserve_low_ok n k e s :
  fa_shape s -> 0 <= k <= e -> e <= 16384 -> (Z.to_nat (e - k) < n)%nat ->
  exists s', reserve_low_loop n (k * PAGE_SIZE_CONST) (e * PAGE_SIZE_CONST) s = Ok (tt, s') /\
    fa_shape s' /\ next_free s' = next_free s /\ magazines s' = magazines s /\
    forall g, 0 <= g < 16384 -> bit s' g = bit s g || ((k <=? g) && (g <? e)).
Proof.
  revert k s. induction n as [|n IH]; intros k s Hs Hk He Hn; [lia|]. cbn [reserve_low_loop].
  destruct (Z.ltb_spec (k * PAGE_SIZE_CONST) (e * PAGE_SIZE_CONST)) as [Hlt|Hge];
    unfold PAGE_SIZE_CONST in Hlt || unfold PAGE_SIZE_CONST in Hge.
  - destruct (mark_used_ok s k Hs ltac:(lia)) as (s1 & E1 & Hs1 & Hn1 & Hr1 & Hm1 & Hb1).
    unfold frame_alloc_mark_used in E1. rewrite Z.div_mul in * by done.
    rewrite (bind_ok _ _ _ _ _ E1). rewrite u32_id by (unfold is_u32, PAGE_SIZE_CONST; lia).
    replace (k * PAGE_SIZE_CONST + PAGE_SIZE_CONST) with ((k + 1) * PAGE_SIZE_CONST)
      by (unfold PAGE_SIZE_CONST; lia).
    destruct (IH (k + 1) s1 Hs1) as (s' & -> & Hs' & Hn' & Hm' & Hb'); [lia|lia|lia|].
    exists s'. split_and!; try congruence. intros g Hg. rewrite Hb', Hb1 by done.
    destruct (Z.eqb_spec g k), (Z.leb_spec k g), (Z.leb_spec (k + 1) g), (Z.ltb_spec g e);
      try lia; destruct (bit s g); done.
  - exists s. split_and!; try done. intros g Hg.
    destruct (Z.leb_spec k g), (Z.ltb_spec g e); try lia; destruct (bit s g); done.
Qed.

(** ** Reachable states *)

Definition MAX_CPUS := 8.

(** The zero-initialised statics. *)
Definition frames_bss : frames :=
  Frames (replicate (Z.to_nat BITMAP_SIZE) 0) 0 (replicate (Z.to_nat FRAME_COUNT) 0)
    (replicate 8 (Magazine (replicate 16 0) 0)).

Lemma nthZ_replicate_0 n i : nthZ (replicate n 0) i = 0.
Proof.
  unfold nthZ. destruct (replicate n 0 !! Z.to_nat i) as [x|] eqn:E; [|done].
  apply lookup_replicate in E as [-> _]. done.
Qed.

Lemma boot_ok :
  exists s, frame_alloc_reserve_low KERNEL_HEAP_END frames_bss = Ok (tt, s) /\
    length (magazines s) = 8%nat /\ spare s = [] /\ fa_inv s [] ∅.
Proof.
  assert (fa_shape frames_bss) as Hs.
  { unfold frames_bss. constructor; cbn [frame_bitmap frame_refcount].
    - by rewrite length_replicate.
    - intros i Hi. by rewrite nthZ_replicate_0.
    - rewrite length_replicate. unfold FRAME_COUNT. by rewrite Z2Nat.id.
    - by apply Forall_replicate. }
  destruct (reserve_low_ok (S (S (Z.to_nat 2816))) 0 2816 frames_bss Hs)
    as (s & E & Hs' & Hn & Hm & Hb); [lia|lia|lia|].
  exists s. rewrite Hm. split; [|split; [done|]].
  { unfold frame_alloc_reserve_low.
    change KERNEL_HEAP_END with (2816 * PAGE_SIZE_CONST) at 2.
    replace (KERNEL_HEAP_END / PAGE_SIZE_CONST) with 2816 by done. exact E. }
  clear E.
  assert (forall f, pool f -> bit s f = false) as Hfree.
  { intros f Hf. rewrite pool_bounds in Hf. rewrite Hb by lia.
    rewrite (proj2 (Z.ltb_ge f 2816)), andb_false_r, orb_false_r by lia.
    unfold bit, frames_bss. cbn [frame_bitmap]. by rewrite nthZ_replicate_0, Z.bits_0. }
  unfold frames_bss in Hn, Hm. cbn [next_free magazines] in Hn, Hm.
  assert (spare s = []) as Hsp by (unfold spare; rewrite Hm; vm_compute; reflexivity).
  split; [done|]. constructor.
  - exact Hs'.
  - split; rewrite Hn; [lia|]. intros g Hg Hlt. rewrite pool_bounds in Hg. lia.
  - rewrite Hm. apply Forall_replicate. split; cbn; lia.
  - rewrite Hsp. constructor; [constructor|..].
    + intros a Ha. by apply not_elem_of_nil in Ha.
    + intros f n Hf. by rewrite lookup_empty in Hf.
    + intros f Hf. by rewrite Hfree.
Qed.

(** The states of the allocator under callers that keep count: [refs] holds,
    for every frame in use, the number of references its users hold.  A
    reference is dropped only by somebody who holds one. *)
Inductive fa_reach : frames -> gmap Z Z -> Prop :=
| reach_boot s :
    frame_alloc_reserve_low KERNEL_HEAP_END frames_bss = Ok (tt, s) -> fa_reach s ∅
| reach_alloc s refs cpu a s' :
    fa_reach s refs -> 0 <= cpu < MAX_CPUS ->
    allocate_frame cpu s = Ok (a, s') -> a <> NO_FRAME ->
    fa_reach s' (<[a / PAGE_SIZE_CONST := 1]> refs)
| reach_alloc_fail s refs cpu s' :
    fa_reach s refs -> 0 <= cpu < MAX_CPUS ->
    allocate_frame cpu s = Ok (NO_FRAME, s') -> fa_reach s' refs
| reach_incref s refs f n s' :
    fa_reach s refs -> refs !! f = Some n -> n < 65535 ->
    frame_incref (addr_of f) s = Ok (tt, s') -> fa_reach s' (<[f := n + 1]> refs)
| reach_decref s refs cpu f n s' :
    fa_reach s refs -> 0 <= cpu < MAX_CPUS -> refs !! f = Some n ->
    frame_decref cpu (addr_of f) s = Ok (tt, s') -> fa_reach s' (drop_ref f n refs)
| reach_free s refs cpu f n s' :
    fa_reach s refs -> 0 <= cpu < MAX_CPUS -> refs !! f = Some n ->
    free_frame cpu (addr_of f) s = Ok (tt, s') -> fa_reach s' (drop_ref f n refs).

Lemma addr_of_not_none f : pool f -> addr_of f <> NO_FRAME /\ addr_of f / PAGE_SIZE_CONST = f.
Proof.
  intros Hf. rewrite pool_bounds in Hf. unfold addr_of. rewrite Z.div_mul by done.
  unfold NO_FRAME, PAGE_SIZE_CONST. lia.
Qed.

Lemma free_frame_live s ex refs cpu f n :
  fa_inv s ex refs -> refs !! f = Some n ->
  free_frame cpu (addr_of f) s = frame_decref cpu (addr_of f) s.
Proof.
  intros Hinv Hf. destruct (live_bounds s ex refs f n Hinv Hf) as (Hb & _).
  unfold free_frame. change KERNEL_RESERVED_END with (2816 * PAGE_SIZE_CONST).
  unfold addr_of, NO_FRAME, PAGE_SIZE_CONST.
  rewrite !(proj2 (Z.eqb_neq _ _)), (proj2 (Z.ltb_ge _ _)) by lia. done.
Qed.

Lemma reach_inv s refs : fa_reach s refs -> fa_inv s [] refs /\ length (magazines s) = 8%nat.
Proof.
  induction 1 as [s E|s refs cpu a s' _ [IH Hl] Hc E Ha|s refs cpu s' _ [IH Hl] Hc E
    |s refs f n s' _ [IH Hl] Hf Hn E|s refs cpu f n s' _ [IH Hl] Hc Hf E
    |s refs cpu f n s' _ [IH Hl] Hc Hf E].
  - destruct boot_ok as (s' & E' & ? & _ & ?). rewrite E in E'. injection E' as <-. split; assumption.
  - destruct (allocate_frame_ok s refs cpu IH) as (r & s1 & E1 & Hl1 & Hr);
      [by rewrite Hl|]. rewrite E in E1. injection E1 as -> ->. rewrite Hl1. split; [|done].
    destruct Hr as [(f & -> & Hf & _ & ?)|(-> & _)]; [|done].
    by destruct (addr_of_not_none f Hf) as [_ ->].
  - destruct (allocate_frame_ok s refs cpu IH) as (r & s1 & E1 & Hl1 & Hr);
      [by rewrite Hl|]. rewrite E in E1. injection E1 as <- ->. rewrite Hl1. split; [|done].
    destruct Hr as [(f & Ef & Hf & _)|(_ & ? & _)]; [|done].
    by destruct (addr_of_not_none f Hf).
  - destruct (frame_incref_ok s refs f n IH Hf Hn) as (s1 & E1 & Hl1 & ?).
    rewrite E in E1. injection E1 as ->. by rewrite Hl1.
  - destruct (frame_decref_ok s refs cpu f n IH Hf) as (s1 & E1 & Hl1 & ?); [by rewrite Hl|].
    rewrite E in E1. injection E1 as ->. by rewrite Hl1.
  - erewrite free_frame_live in E by eauto.
    destruct (frame_decref_ok s refs cpu f n IH Hf) as (s1 & E1 & Hl1 & ?); [by rewrite Hl|].
    rewrite E in E1. injection E1 as ->. by rewrite Hl1.
Qed.

(** ** Properties *)

(** C34: No frame is handed out twice.  In every state the allocator can reach
    on any CPUs, [allocate_frame] returns without a fault either the failure
    value or the address of a page-aligned frame above the kernel heap and
    below the end of the identity map that nobody holds a reference to; and
    every frame in use still has exactly the reference count its users hold,
    as [frame_getref] reports. *)
Theorem allocate_frame_fresh s refs cpu :
  fa_reach s refs -> 0 <= cpu < MAX_CPUS ->
  (exists a s', allocate_frame cpu s = Ok (a, s') /\
    (a = NO_FRAME \/
     KERNEL_HEAP_END <= a < IDENTITY_MAP_END /\ a mod PAGE_SIZE_CONST = 0 /\
     refs !! (a / PAGE_SIZE_CONST) = None /\
     frame_getref a s' = Ok (1, s') /\
     forall f n, refs !! f = Some n -> frame_getref (addr_of f) s' = Ok (n, s'))) /\
  forall f n, refs !! f = Some n -> frame_getref (addr_of f) s = Ok (n, s).
Proof.
  intros Hreach Hc. destruct (reach_inv s refs Hreach) as [Hinv Hl].
  assert (forall s refs f n, fa_inv s [] refs -> refs !! f = Some n ->
    frame_getref (addr_of f) s = Ok (n, s)) as Hget.
  { clear. intros s refs f n Hinv Hf. destruct (live_bounds s [] refs f n Hinv Hf) as (Hb & <- & _).
    unfold frame_getref, addr_of. rewrite Z.div_mul by done. change FRAME_COUNT with 16384.
    rewrite (proj2 (Z.leb_gt 16384 f)) by lia. apply get_ref_ok; [apply Hinv|lia]. }
  split; [|eauto].
  destruct (allocate_frame_ok s refs cpu Hinv) as (a & s' & E & _ & Hr); [by rewrite Hl|].
  exists a, s'. split; [done|]. destruct Hr as [(f & -> & Hf & Hnone & Hinv')|(-> & _)]; [right|by left].
  pose proof Hf as Hb. rewrite pool_bounds in Hb. unfold addr_of at 1 2 3 4.
  rewrite Z.div_mul, Z.mod_mul by done. split_and!; try done.
  - change KERNEL_HEAP_END with (2816 * PAGE_SIZE_CONST). unfold PAGE_SIZE_CONST. lia.
  - change IDENTITY_MAP_END with (8192 * PAGE_SIZE_CONST). unfold PAGE_SIZE_CONST. lia.
  - eapply Hget; [exact Hinv'|]. apply lookup_insert_eq.
  - intros g n Hg. eapply Hget; [exact Hinv'|]. rewrite lookup_insert_ne; [done|]. congruence.
Qed.

Lemma reach_boot_ex : exists s, fa_reach s ∅ /\ spare s = [].
Proof.
  destruct boot_ok as (s & E & _ & Hsp & _). exists s. split; [by constructor|exact Hsp].
Qed.

Lemma allocate_frame_fresh_witness :
  exists s a s', fa_reach s ∅ /\ allocate_frame 3 s = Ok (a, s').
Proof.
  destruct reach_boot_ex as (s & Hr & _).
  destruct (allocate_frame_fresh s ∅ 3 Hr) as [(a & s' & E & _) _]; [vm_compute; split; congruence|].
  exists s, a, s'. split; [exact Hr|exact E].
Defined.

(** Allocation fails only when there is nothing to give.  When
    [allocate_frame] fails, the CPU's own magazine is empty and every frame of
    the pool is referenced by somebody or waits in another CPU's magazine: the
    search hint never hides a free frame. *)
Theorem allocate_frame_exhausted s refs cpu s' :
  fa_reach s refs -> 0 <= cpu < MAX_CPUS ->
  allocate_frame cpu s = Ok (NO_FRAME, s') ->
  mag_has s cpu 0 /\
  forall a, KERNEL_HEAP_END <= a < IDENTITY_MAP_END -> a mod PAGE_SIZE_CONST = 0 ->
    is_Some (refs !! (a / PAGE_SIZE_CONST)) \/ a ∈ spare s.
Proof.
  intros Hreach Hc E. destruct (reach_inv s refs Hreach) as [Hinv Hl].
  destruct (allocate_frame_ok s refs cpu Hinv) as (a & s1 & E1 & _ & Hr); [by rewrite Hl|].
  rewrite E in E1. injection E1 as <- <-.
  destruct Hr as [(f & Ef & Hf & _)|(_ & _ & Hm & Hall)]; [by destruct (addr_of_not_none f Hf)|].
  split; [done|]. intros a Ha Hmod.
  assert (a = addr_of (a / PAGE_SIZE_CONST)) as Ea.
  { unfold addr_of. pose proof (Z.div_mod a PAGE_SIZE_CONST ltac:(done)). lia. }
  rewrite Ea at 2. apply Hall, pool_bounds.
  change KERNEL_HEAP_END with (2816 * PAGE_SIZE_CONST) in Ha.
  change IDENTITY_MAP_END with (8192 * PAGE_SIZE_CONST) in Ha.
  split; [apply Z.div_le_lower_bound|apply Z.div_lt_upper_bound]; unfold PAGE_SIZE_CONST in *; lia.
Qed.

(** The pool has 5376 frames, so a run of allocations ends in failure. *)
Lemma refs_size s refs : fa_inv s [] refs -> (size refs <= Z.to_nat 5376)%nat.
Proof.
  intros Hinv. rewrite <- (size_dom refs), <- (length_seqZ 2816 5376).
  rewrite <- (size_list_to_set (C := gset Z)) by apply NoDup_seqZ.
  apply subseteq_size. intros f [n Hf]%elem_of_dom. rewrite elem_of_list_to_set, elem_of_seqZ.
  destruct (live_bounds s [] refs f n Hinv Hf). lia.
Qed.

Lemma reach_exhausted k s refs :
  fa_reach s refs -> (size refs + k = S (Z.to_nat 5376))%nat ->
  exists s1 refs1 s2, fa_reach s1 refs1 /\ allocate_frame 0 s1 = Ok (NO_FRAME, s2).
Proof.
  revert s refs. induction k as [|k IH]; intros s refs Hreach Hk;
    destruct (reach_inv s refs Hreach) as [Hinv Hl]; pose proof (refs_size s refs Hinv); [lia|].
  destruct (allocate_frame_ok s refs 0 Hinv) as (a & s' & E & _ & Hr); [rewrite Hl; lia|].
  destruct Hr as [(f & Ea & Hf & Hnone & _)|(Ea & _)]; rewrite Ea in E; [|eauto].
  destruct (addr_of_not_none f Hf) as [Hne Hdiv].
  apply (IH s' (<[addr_of f / PAGE_SIZE_CONST := 1]> refs)).
  - eapply reach_alloc; [exact Hreach| |exact E|exact Hne]. unfold MAX_CPUS. lia.
  - rewrite Hdiv, map_size_insert_None by done. lia.
Qed.

Lemma exhausted_ex :
  exists s refs s', fa_reach s refs /\ allocate_frame 0 s = Ok (NO_FRAME, s').
Proof.
  destruct reach_boot_ex as (s & Hr & _).
  apply (reach_exhausted (S (Z.to_nat 5376)) s ∅ Hr). by rewrite map_size_empty.
Qed.

Lemma allocate_frame_exhausted_witness : exists s refs s', fa_reach s refs /\
  allocate_frame 0 s = Ok (NO_FRAME, s') /\ mag_has s 0 0.
Proof.
  destruct exhausted_ex as (s & refs & s' & Hr & E). exists s, refs, s'.
  destruct (allocate_frame_exhausted s refs 0 s' Hr) as [Hm _].
  - vm_compute. split; congruence.
  - exact E.
  - split; [exact Hr|]. split; [exact E|exact Hm].
Defined.

(** Dropping a reference.  [frame_decref] on a frame with several
    references only lowers its count; on the last reference the frame leaves
    the set of frames in use and stays available, in a magazine or in the
    bitmap; it terminates without a fault on every CPU.  [free_frame] is the
    same operation on frames of the pool and does nothing on the failure value
    and on addresses of the kernel image and heap. *)
Theorem frame_decref_drops s refs cpu f n :
  fa_reach s refs -> 0 <= cpu < MAX_CPUS -> refs !! f = Some n ->
  (exists s', frame_decref cpu (addr_of f) s = Ok (tt, s') /\
     free_frame cpu (addr_of f) s = Ok (tt, s') /\ fa_reach s' (drop_ref f n refs) /\
     (n = 1 -> addr_of f ∈ spare s' \/ bit s' f = false)) /\
  forall a, a = NO_FRAME \/ a < KERNEL_HEAP_END -> free_frame cpu a s = Ok (tt, s).
Proof.
  intros Hreach Hc Hf. destruct (reach_inv s refs Hreach) as [Hinv Hl]. split.
  - destruct (frame_decref_ok s refs cpu f n Hinv Hf) as (s' & E & _ & Hinv'); [by rewrite Hl|].
    exists s'. erewrite (free_frame_live s [] refs cpu f n) by done. rewrite E.
    split; [done|]. split; [done|]. split; [by eapply reach_decref|]. intros ->.
    destruct (bit s' f) eqn:Eb; [left|by right].
    destruct (live_bounds s [] refs f 1 Hinv Hf) as (Hb & _).
    destruct (sets_noleak _ _ _ _ (inv_sets _ _ _ Hinv') f) as [Hs|?]; try done.
    unfold drop_ref in Hs. simpl in Hs. rewrite lookup_delete_eq in Hs. by destruct Hs.
  - intros a Ha. unfold free_frame. destruct Ha as [->|Ha]; [done|].
    destruct (_ || _); [done|]. by rewrite (proj2 (Z.ltb_lt a KERNEL_RESERVED_END)).
Qed.

Lemma one_live_ex : exists s f, fa_reach s (<[f := 1]> ∅).
Proof.
  destruct reach_boot_ex as (s & Hr & Hsp). destruct (reach_inv s _ Hr) as [Hinv Hl].
  destruct (allocate_frame_ok s ∅ 0 Hinv) as (a & s' & E & _ & [(f & -> & Hf & _)|(_ & _ & _ & Hall)]).
  - rewrite Hl. lia.
  - exists s', f. destruct (addr_of_not_none f Hf) as [Hne Hdiv]. rewrite <- Hdiv.
    eapply (reach_alloc s ∅); [exact Hr| |exact E|exact Hne]. unfold MAX_CPUS. lia.
  - exfalso. destruct (Hall 2816) as [Hs|Hin]; [done|by destruct Hs|].
    rewrite Hsp in Hin. by apply not_elem_of_nil in Hin.
Qed.

Lemma frame_decref_drops_witness :
  exists (s : frames) (f : Z) (s' : frames), fa_reach s (<[f := 1]> ∅) /\
    frame_decref 5 (addr_of f) s = Ok (tt, s') /\ fa_reach s' (drop_ref f 1 (<[f := 1]> ∅)).
Proof.
  destruct one_live_ex as (s & f & Hr). exists s, f.
  destruct (frame_decref_drops s (<[f := 1]> ∅) 5 f 1 Hr) as [(s' & E & _ & Hr' & _) _].
  - vm_compute. split; congruence.
  - apply lookup_insert_eq.
  - exists s'. split; [exact Hr|]. split; [exact E|exact Hr'].
Defined.
