(* ===== verification/FrameDecref.v ===== *)
(** * Dropping references nobody counted

    What [frame_decref] and [free_frame] do in any state of the allocator, also
    for frames the caller holds no reference to: they return, and they change
    no reference count but that of the frame. *)

From stdpp Require Import base tactics numbers list gmap.
From S2P Require Import Prelude FrameAlloc.

Definition phys_ok (a : Z) : Prop := 0 <= a < MAX_PHYS_MEM.

Record fa_weak (q : frames) : Prop := {
  fw_shape : fa_shape q;
  fw_len : length (magazines q) = 8%nat;
  fw_mags : Forall (fun m => mag_ok m /\ Forall phys_ok (mag_items m)) (magazines q)
}.

Lemma shape_rc_pos q g : fa_shape q -> 0 <= rc q g.
Proof.
  intros Hq. unfold rc, nthZ. destruct (frame_refcount q !! Z.to_nat g) as [n|] eqn:E; [|done].
  by apply (Forall_lookup_1 _ _ _ _ (shape_pos _ Hq) E).
Qed.

Lemma fa_inv_weak q refs :
  fa_inv q [] refs -> length (magazines q) = 8%nat -> fa_weak q.
Proof.
  intros [Hsh _ Hm [_ Hsp _ _]] Hl. constructor; [done|done|]. apply Forall_forall. intros m Hin. split.
  - by eapply Forall_forall in Hm.
  - apply Forall_forall. intros a Ha. destruct (Hsp a) as (f & -> & Hf & _).
    { cbn [app]. unfold spare. apply list_elem_of_In, in_concat. exists (mag_items m).
      split; apply list_elem_of_In; [by apply list_elem_of_fmap_2|done]. }
    rewrite pool_bounds in Hf. unfold phys_ok, MAX_PHYS_MEM, addr_of, PAGE_SIZE_CONST. lia.
Qed.

Section Weak.
Variable cpu : Z.
Hypothesis Hcpu : 0 <= cpu < MAX_CPUS.

Lemma weak_mag q : fa_weak q -> exists m, magazines q !! Z.to_nat cpu = Some m /\ mag_ok m /\ Forall phys_ok (mag_items m).
Proof.
  intros Hq. unfold MAX_CPUS in Hcpu. destruct (lookup_lt_is_Some_2 (magazines q) (Z.to_nat cpu)) as [m Hm]; [rewrite (fw_len _ Hq); lia|].
  exists m. split; [done|]. apply (Forall_lookup_1 _ _ _ _ (fw_mags _ Hq) Hm).
Qed.

Lemma weak_set_mag q m' : fa_weak q -> mag_ok m' -> Forall phys_ok (mag_items m') ->
  fa_weak (set_magazines (<[Z.to_nat cpu := m']> (magazines q)) q).
Proof.
  intros [[] Hl Hm] Hok Hit. constructor; cbn [magazines set_magazines]; [by constructor|by rewrite length_insert|].
  by apply Forall_insert.
Qed.

Lemma mag_push_weak q m a : fa_weak q -> magazines q !! Z.to_nat cpu = Some m -> frame_magazine_count m < 16 -> phys_ok a ->
  wp (mag_push cpu a) (fun _ q' => fa_weak q' /\ frame_refcount q' = frame_refcount q) q.
Proof.
  intros Hq Hm Hc Ha. destruct (weak_mag q Hq) as (m0 & Hm0 & [Hl Hcnt] & Hit). rewrite Hm in Hm0. injection Hm0 as <-.
  unfold mag_push. eapply wp_bind_ok; [apply get_mag_ok; [lia|exact Hm]|]. eapply wp_bind_ok; [apply wr_ok; lia|].
  eapply wp_ok; [apply (put_mag_ok q cpu m); [lia|done]|]. split; [|done]. apply weak_set_mag; [done| |].
  - split; cbn; [by rewrite length_insert|lia].
  - unfold mag_items. cbn. replace (Z.to_nat (frame_magazine_count m + 1)) with (S (Z.to_nat (frame_magazine_count m))) by lia.
    rewrite (take_S_r _ _ a) by (apply list_lookup_insert_eq; lia). rewrite take_insert_ge by lia.
    apply Forall_app. split; [exact Hit|]. by apply Forall_singleton.
Qed.

Lemma mag_pop_weak q m : fa_weak q -> magazines q !! Z.to_nat cpu = Some m -> 0 < frame_magazine_count m ->
  wp (mag_pop cpu) (fun a q' => phys_ok a /\ fa_weak q' /\ frame_refcount q' = frame_refcount q /\
    exists m', magazines q' !! Z.to_nat cpu = Some m' /\ frame_magazine_count m' = frame_magazine_count m - 1) q.
Proof.
  intros Hq Hm Hc. destruct (weak_mag q Hq) as (m0 & Hm0 & [Hl Hcnt] & Hit). rewrite Hm in Hm0. injection Hm0 as <-.
  unfold mag_pop. eapply wp_bind_ok; [apply get_mag_ok; [lia|exact Hm]|].
  destruct (lookup_lt_is_Some_2 (frame_magazine m) (Z.to_nat (frame_magazine_count m - 1))) as [a Ha]; [lia|].
  eapply wp_bind_ok; [apply rd_ok; [lia|exact Ha]|]. eapply wp_bind_ok; [apply (put_mag_ok q cpu m); [lia|done]|]. apply wp_ret.
  assert (mag_items m = take (Z.to_nat (frame_magazine_count m - 1)) (frame_magazine m) ++ [a]) as Ei.
  { unfold mag_items. replace (Z.to_nat (frame_magazine_count m)) with (S (Z.to_nat (frame_magazine_count m - 1))) by lia.
    by apply take_S_r. }
  rewrite Ei in Hit. apply Forall_app in Hit as [Hit1 Hit2]. apply Forall_cons in Hit2 as [Hpa _]. split; [done|]. split; [|split; [done|]].
  - apply weak_set_mag; [done|split; cbn; lia|exact Hit1].
  - eexists. split; [apply list_lookup_insert_eq; by eapply lookup_lt_Some|done].
Qed.

Lemma pool_return_weak q a : fa_weak q -> phys_ok a ->
  wp (pool_return a) (fun _ q' => fa_weak q' /\ frame_refcount q' = frame_refcount q /\ magazines q' = magazines q) q.
Proof.
  intros [Hsh Hl Hm] Ha. unfold phys_ok, MAX_PHYS_MEM in Ha. unfold pool_return.
  destruct (frame_clear_ok q (a / PAGE_SIZE_CONST) Hsh) as (q1 & E1 & Hsh1 & _ & Hr1 & Hm1 & _).
  { unfold PAGE_SIZE_CONST. split; [apply Z.div_pos; lia|apply Z.div_lt_upper_bound; lia]. }
  assert (frame_clear a q = Ok (tt, q1)) as E.
  { rewrite <- E1. unfold frame_clear. by rewrite Z.div_mul. }
  eapply wp_bind_ok; [exact E|]. assert (fa_weak q1) as Hq1.
  { constructor; [done|by rewrite Hm1|by rewrite Hm1]. }
  apply wp_bind, wp_gets. unfold id. destruct (_ && _); [|by apply wp_ret]. apply wp_modify. split; [|done].
  destruct Hq1 as [[] ? ?]. by constructor.
Qed.

Lemma drain_weak k q m : fa_weak q -> magazines q !! Z.to_nat cpu = Some m -> Z.of_nat k <= frame_magazine_count m ->
  wp (drain_magazine k cpu) (fun _ q' => fa_weak q' /\ frame_refcount q' = frame_refcount q) q.
Proof.
  revert q m. induction k as [|k IH]; intros q m Hq Hm Hk; cbn [drain_magazine]; [by apply wp_ret|].
  eapply wp_step; [eapply mag_pop_weak; [done|done|lia]|]. intros a q1 (Ha & Hq1 & Hr1 & m1 & Hm1 & Hc1).
  eapply wp_step; [by apply pool_return_weak|]. intros u q2 (Hq2 & Hr2 & Hms2).
  eapply wp_mono; [eapply (IH q2 m1); [done|by rewrite Hms2|lia]|]. intros u' q3 [Hq3 Hr3]. split; [done|congruence].
Qed.

Lemma release_weak q a : fa_weak q -> phys_ok a ->
  wp (release_frame_to_pool cpu a) (fun _ q' => fa_weak q' /\ frame_refcount q' = frame_refcount q) q.
Proof.
  intros Hq Ha. destruct (weak_mag q Hq) as (m & Hm & [Hl Hc] & _). unfold release_frame_to_pool.
  eapply wp_bind_ok; [apply get_mag_ok; [lia|exact Hm]|]. change FRAME_MAGAZINE_SIZE with 16.
  destruct (Z.ltb_spec (frame_magazine_count m) 16); [by eapply mag_push_weak|].
  eapply wp_step; [eapply drain_weak; [done|exact Hm|change (Z.to_nat (16 / 2)) with 8%nat; lia]|]. intros u q1 [Hq1 Hr1].
  eapply wp_mono; [by apply pool_return_weak|]. intros u' q2 (Hq2 & Hr2 & _). split; [done|congruence].
Qed.

(** The count after one more reference was dropped. *)
Definition rc_drop (q q' : frames) (a : Z) : Prop :=
  forall g, 0 <= g < 16384 -> rc q' g =
    if (g =? a / PAGE_SIZE_CONST) && (KERNEL_RESERVED_END <=? a) then Z.max 0 (rc q g - 1) else rc q g.

Lemma frame_decref_weak q a : fa_weak q -> 0 <= a ->
  wp (frame_decref cpu a) (fun _ q' => fa_weak q' /\ rc_drop q q' a) q.
Proof.
  intros Hq Ha. unfold frame_decref, rc_drop. change FRAME_COUNT with 16384. assert (0 <= a / PAGE_SIZE_CONST) by (apply Z.div_pos; done).
  destruct (Z.leb_spec 16384 (a / PAGE_SIZE_CONST)).
  { apply wp_ret. split; [done|]. intros g Hg. by rewrite (proj2 (Z.eqb_neq g _)) by lia. }
  destruct (Z.ltb_spec a KERNEL_RESERVED_END).
  { apply wp_ret. split; [done|]. intros g Hg. by rewrite (proj2 (Z.leb_gt _ _)), andb_false_r by lia. }
  pose proof (shape_rc_pos q (a / PAGE_SIZE_CONST) (fw_shape _ Hq)). eapply wp_bind_ok; [apply get_ref_ok; [apply Hq|lia]|].
  assert (forall v, 0 <= v -> let q' := set_refcounts (<[Z.to_nat (a / PAGE_SIZE_CONST) := v]> (frame_refcount q)) q in
    fa_weak q' /\ forall g, 0 <= g < 16384 -> rc q' g = if g =? a / PAGE_SIZE_CONST then v else rc q g) as Hset.
  { intros v Hv q'. split; [|intros g Hg; apply rc_set_ref; [apply Hq|lia|lia]]. destruct Hq as [[] ? ?]. constructor; try done.
    constructor; cbn; rewrite ?length_insert; try done. by apply Forall_insert. }
  rewrite (proj2 (Z.leb_le _ _)) by lia. destruct (Z.eqb_spec (rc q (a / PAGE_SIZE_CONST)) 0) as [E0|].
  { apply wp_ret. split; [done|]. intros g Hg. rewrite andb_true_r. destruct (Z.eqb_spec g (a / PAGE_SIZE_CONST)) as [->|]; [lia|done]. }
  destruct (Z.ltb_spec 1 (rc q (a / PAGE_SIZE_CONST))).
  - destruct (Hset (rc q (a / PAGE_SIZE_CONST) - 1) ltac:(lia)) as [Hw Hr]. eapply wp_ok; [apply set_ref_ok; [apply Hq|lia]|].
    split; [done|]. intros g Hg. rewrite Hr, andb_true_r by done. destruct (Z.eqb_spec g (a / PAGE_SIZE_CONST)) as [->|]; [lia|done].
  - destruct (Hset 0 ltac:(lia)) as [Hw Hr]. eapply wp_bind_ok; [apply set_ref_ok; [apply Hq|lia]|].
    eapply wp_mono; [apply release_weak; [done|]|].
    + unfold phys_ok, MAX_PHYS_MEM, PAGE_SIZE_CONST in *. pose proof (Z.div_mod a 4096 ltac:(lia)). pose proof (Z.mod_pos_bound a 4096 ltac:(lia)). lia.
    + intros u q' [Hq' Hr']. split; [done|]. intros g Hg. unfold rc at 1. rewrite Hr'. rewrite andb_true_r.
      etrans; [apply Hr; done|]. destruct (Z.eqb_spec g (a / PAGE_SIZE_CONST)) as [->|]; [lia|done].
Qed.

Lemma free_frame_weak q a : fa_weak q -> 0 <= a ->
  wp (free_frame cpu a) (fun _ q' => fa_weak q' /\ (rc_drop q q' a \/ q' = q)) q.
Proof.
  intros Hq Ha. unfold free_frame. destruct (_ || _); [apply wp_ret; by auto|]. destruct (_ <? _); [apply wp_ret; by auto|].
  eapply wp_mono; [by apply frame_decref_weak|]. intros u q' []. auto.
Qed.

End Weak.
