(* ===== verification/Kasan.v ===== *)
(** * Kernel heap memory and KASAN-lite

    The bytes of the kernel heap arena and the checks of lib/kasan.c (built
    with CONFIG_KASAN_LITE): canaries around every allocation and a poison
    pattern over memory that is not allocated.  A byte is a [Z] in [0, 256); a
    32-bit access is little-endian and faults outside the arena.  [Panic] is
    [kernel_panic]. *)

From stdpp Require Import base tactics numbers list gmap.
From S2P Require Import Prelude.

(** The arena [heap_base, heap_end_var) with the statics of mm/heap.c. *)
Record kheap := Kheap {
  heap_base : Z;
  heap_end_var : Z;
  heap_start : Z;
  kbytes : Z -> Z
}.

Definition heap_size_var (h : kheap) : Z := heap_end_var h - heap_base h.

Definition set_kbytes (m : Z -> Z) (h : kheap) : kheap :=
  Kheap (heap_base h) (heap_end_var h) (heap_start h) m.

(** Bytes of a word and words of a memory. *)
Definition byte_of (w i : Z) : Z := Z.shiftr w (8 * i) mod 256.

Definition word (m : Z -> Z) (a : Z) : Z :=
  m a + 256 * (m (a + 1) + 256 * (m (a + 2) + 256 * m (a + 3))).

Definition put8 (m : Z -> Z) (a v : Z) : Z -> Z :=
  fun x => if x =? a then v else m x.

Definition put32 (m : Z -> Z) (a w : Z) : Z -> Z :=
  fun x => if (a <=? x) && (x <? a + 4) then byte_of w (x - a) else m x.

Definition in_arena (h : kheap) (a n : Z) : bool :=
  (heap_base h <=? a) && (a + n <=? heap_end_var h).

Definition load32 (a : Z) : ST kheap Z :=
  h ← gets id;
  if in_arena h a 4 then ret (word (kbytes h) a) else fail Undef.
Definition store32 (a w : Z) : ST kheap unit :=
  h ← gets id;
  if in_arena h a 4 then modify (set_kbytes (put32 (kbytes h) a w)) else fail Undef.
Definition store8 (a v : Z) : ST kheap unit :=
  h ← gets id;
  if in_arena h a 1 then modify (set_kbytes (put8 (kbytes h) a v)) else fail Undef.

Definition KASAN_CANARY_HEAD := 3735902810.
Definition KASAN_CANARY_TAIL := 1515904685.
Definition KASAN_POISON_WORD := 3735928559.
Definition KASAN_CANARY_BYTES := 8.

Definition kasan_raw_size (user_size : Z) : Z := u32 (user_size + 2 * KASAN_CANARY_BYTES).

Definition write_head_canary (raw user_size : Z) : ST kheap unit :=
  store32 raw KASAN_CANARY_HEAD;;
  store32 (raw + 4) user_size.

Definition write_tail_canary (tail : Z) : ST kheap unit :=
  store32 tail KASAN_CANARY_TAIL;;
  store32 (tail + 4) KASAN_CANARY_TAIL.

(** [Some user_size] when the head canary is intact. *)
Definition validate_head_canary (raw : Z) : ST kheap (option Z) :=
  magic ← load32 raw;
  if negb (magic =? KASAN_CANARY_HEAD) then ret None
  else n ← load32 (raw + 4); ret (Some n).

Definition validate_tail_canary (tail : Z) : ST kheap bool :=
  w0 ← load32 tail;
  if w0 =? KASAN_CANARY_TAIL
  then w1 ← load32 (tail + 4); ret (w1 =? KASAN_CANARY_TAIL)
  else ret false.

Fixpoint poison_words (n : nat) (p : Z) : ST kheap unit :=
  match n with
  | O => ret tt
  | S n' => store32 p KASAN_POISON_WORD;; poison_words n' (p + 4)
  end.

Fixpoint poison_rest (n : nat) (i rest : Z) : ST kheap unit :=
  match n with
  | O => ret tt
  | S n' =>
      store8 (rest + i) (Z.land (Z.shiftr KASAN_POISON_WORD (i * 8)) 255);;
      poison_rest n' (i + 1) rest
  end.

Definition poison_region (p bytes : Z) : ST kheap unit :=
  let n32 := bytes / 4 in
  poison_words (Z.to_nat n32) p;;
  poison_rest (Z.to_nat (bytes - n32 * 4)) 0 (p + n32 * 4).

Definition kasan_alloc_register (raw_block raw_size user_size : Z) : ST kheap Z :=
  if raw_block =? 0 then ret 0
  else if raw_size <? u32 (user_size + 2 * KASAN_CANARY_BYTES) then fail Panic
  else
    write_head_canary raw_block user_size;;
    let user := raw_block + KASAN_CANARY_BYTES in
    let tail := user + user_size in
    write_tail_canary tail;;
    ret user.

Fixpoint check_poison_words (n : nat) (p : Z) : ST kheap unit :=
  match n with
  | O => ret tt
  | S n' =>
      w ← load32 p;
      if negb (w =? KASAN_POISON_WORD) then fail Panic else check_poison_words n' (p + 4)
  end.

Definition kasan_check_poison (raw_block bytes : Z) : ST kheap unit :=
  if (raw_block =? 0) || (bytes =? 0) then ret tt
  else check_poison_words (Z.to_nat (bytes / 4)) raw_block.

(** Returns the raw block; the heap passes NULL for [out_raw_size]. *)
Definition kasan_free_check (user_ptr : Z) : ST kheap Z :=
  if user_ptr =? 0 then ret 0
  else
    let raw := user_ptr - KASAN_CANARY_BYTES in
    head ← validate_head_canary raw;
    match head with
    | None => fail Panic
    | Some user_size =>
        let tail := u32 (user_ptr + user_size) in
        ok ← validate_tail_canary tail;
        if negb ok then fail Panic
        else
          poison_region raw (u32 (user_size + 2 * KASAN_CANARY_BYTES));;
          ret raw
    end.

Definition kasan_poison_range (p bytes : Z) : ST kheap unit :=
  if (p =? 0) || (bytes =? 0) then ret tt else poison_region p bytes.

(** ** Memory lemmas *)

Lemma byte_of_range w i : is_u8 (byte_of w i).
Proof. unfold is_u8, byte_of. apply Z.mod_pos_bound. lia. Qed.

Lemma put32_in m a w x : a <= x < a + 4 -> put32 m a w x = byte_of w (x - a).
Proof. intros H. unfold put32. by rewrite (proj2 (Z.leb_le a x)), (proj2 (Z.ltb_lt x (a + 4))) by lia. Qed.

Lemma put32_out m a w x : x < a \/ a + 4 <= x -> put32 m a w x = m x.
Proof.
  intros H. unfold put32. destruct (Z.leb_spec a x), (Z.ltb_spec x (a + 4)); try done; lia.
Qed.

Lemma word_bytes w : is_u32 w ->
  byte_of w 0 + 256 * (byte_of w 1 + 256 * (byte_of w 2 + 256 * byte_of w 3)) = w.
Proof.
  intros Hw. unfold byte_of. rewrite !Z.shiftr_div_pow2 by lia.
  change (2 ^ (8 * 0)) with 1. change (2 ^ (8 * 1)) with 256.
  change (2 ^ (8 * 2)) with 65536. change (2 ^ (8 * 3)) with 16777216.
  unfold is_u32 in Hw. Z.div_mod_to_equations. lia.
Qed.

Lemma word_put32_same m a w : is_u32 w -> word (put32 m a w) a = w.
Proof.
  intros Hw. unfold word. rewrite !put32_in by lia.
  replace (a - a) with 0 by lia. replace (a + 1 - a) with 1 by lia.
  replace (a + 2 - a) with 2 by lia. replace (a + 3 - a) with 3 by lia.
  by apply word_bytes.
Qed.

Lemma word_ext m m' a : (forall x, a <= x < a + 4 -> m' x = m x) -> word m' a = word m a.
Proof. intros H. unfold word. rewrite !H by lia. done. Qed.

Lemma word_put32_other m a w b : b + 4 <= a \/ a + 4 <= b -> word (put32 m a w) b = word m b.
Proof. intros H. apply word_ext. intros x Hx. apply put32_out. lia. Qed.

(** A word changes when one of its bytes does. *)
Lemma word_changed m a x v :
  a <= x < a + 4 -> v <> m x -> word (put8 m x v) a <> word m a.
Proof.
  intros Hx Hv. unfold word, put8.
  assert (x = a \/ x = a + 1 \/ x = a + 2 \/ x = a + 3) as [->|[->|[->| ->]]] by lia;
    rewrite Z.eqb_refl; repeat rewrite (proj2 (Z.eqb_neq _ _)) by lia; lia.
Qed.

(** The poison pattern follows the address, because poisoned regions start at
    word boundaries. *)
Definition pbyte (x : Z) : Z := byte_of KASAN_POISON_WORD (x mod 4).

Definition poisoned (m : Z -> Z) (lo hi : Z) : Prop :=
  forall x, lo <= x < hi -> m x = pbyte x.

Lemma poisoned_word m lo hi a :
  poisoned m lo hi -> lo <= a -> a + 4 <= hi -> a mod 4 = 0 -> word m a = KASAN_POISON_WORD.
Proof.
  intros H Hl Hh Ha. unfold word. rewrite !H by lia. unfold pbyte.
  pose proof (Z.div_mod a 4 ltac:(lia)) as E. rewrite Ha in E.
  assert (forall i, 0 <= i < 4 -> (a + i) mod 4 = i) as Hm.
  { intros i Hi. rewrite E. replace (4 * (a / 4) + 0 + i) with (i + a / 4 * 4) by lia.
    rewrite Z.mod_add by lia. by apply Z.mod_small. }
  rewrite Ha, !Hm by lia. apply word_bytes. done.
Qed.

Lemma poisoned_ext m m' lo hi :
  poisoned m lo hi -> (forall x, lo <= x < hi -> m' x = m x) -> poisoned m' lo hi.
Proof. intros H He x Hx. rewrite He by done. by apply H. Qed.

Lemma pbyte_put32 m a x :
  a mod 4 = 0 -> a <= x < a + 4 -> put32 m a KASAN_POISON_WORD x = pbyte x.
Proof.
  intros Ha Hx. rewrite put32_in by done. unfold pbyte. f_equal.
  pose proof (Z.div_mod a 4 ltac:(lia)) as E. rewrite Ha in E.
  replace x with ((x - a) + a / 4 * 4) at 2 by lia. rewrite Z.mod_add by lia.
  rewrite Z.mod_small; lia.
Qed.

(** ** Running the primitives *)

Lemma in_arena_spec h a n :
  in_arena h a n = true <-> heap_base h <= a /\ a + n <= heap_end_var h.
Proof. unfold in_arena. by rewrite andb_true_iff, !Z.leb_le. Qed.

Lemma load32_ok h a :
  heap_base h <= a -> a + 4 <= heap_end_var h -> load32 a h = Ok (word (kbytes h) a, h).
Proof. intros. unfold load32. run. unfold id. by rewrite (proj2 (in_arena_spec h a 4)). Qed.

Lemma store32_ok h a w :
  heap_base h <= a -> a + 4 <= heap_end_var h ->
  store32 a w h = Ok (tt, set_kbytes (put32 (kbytes h) a w) h).
Proof. intros. unfold store32. run. unfold id. by rewrite (proj2 (in_arena_spec h a 4)). Qed.

Lemma store8_ok h a v :
  heap_base h <= a -> a + 1 <= heap_end_var h ->
  store8 a v h = Ok (tt, set_kbytes (put8 (kbytes h) a v) h).
Proof. intros. unfold store8. run. unfold id. by rewrite (proj2 (in_arena_spec h a 1)). Qed.

Lemma set_kbytes_twice m m' h : set_kbytes m' (set_kbytes m h) = set_kbytes m' h.
Proof. done. Qed.

(** Executes the load or store at the front of a program. *)
Ltac mem_step :=
  first
  [ erewrite bind_ok by (apply load32_ok; cbn [heap_base heap_end_var set_kbytes]; lia)
  | erewrite bind_ok by (apply store32_ok; cbn [heap_base heap_end_var set_kbytes]; lia)
  | rewrite store32_ok by (cbn [heap_base heap_end_var set_kbytes]; lia) ];
  rewrite ?set_kbytes_twice; cbn [kbytes set_kbytes].

(** Simplifies words read back from a memory after stores. *)
Ltac words := repeat first
  [ rewrite word_put32_same by first [assumption | done | unfold is_u32; lia]
  | rewrite word_put32_other by lia ].

Lemma poison_words_ok n p h :
  p mod 4 = 0 -> heap_base h <= p -> p + 4 * Z.of_nat n <= heap_end_var h ->
  exists m, poison_words n p h = Ok (tt, set_kbytes m h) /\
    forall x, m x = if decide (p <= x < p + 4 * Z.of_nat n) then pbyte x else kbytes h x.
Proof.
  revert p h. induction n as [|n IH]; intros p h Hp Hl Hh; cbn [poison_words].
  - exists (kbytes h). split; [by destruct h|]. intros x. rewrite decide_False by lia. done.
  - mem_step. destruct (IH (p + 4) (set_kbytes (put32 (kbytes h) p KASAN_POISON_WORD) h))
      as (m & E & Hm); cbn [heap_base heap_end_var set_kbytes] in *; [|lia|lia|].
    { rewrite <- Zplus_mod_idemp_l, Hp. done. }
    exists m. rewrite E, set_kbytes_twice. split; [done|]. intros x. rewrite Hm.
    cbn [kbytes set_kbytes]. destruct (decide (p <= x < p + 4)).
    + rewrite decide_False, (decide_True (P := p <= x < _)) by lia. by apply pbyte_put32.
    + rewrite put32_out by lia.
      destruct (decide (p + 4 <= x < p + 4 + 4 * Z.of_nat n)).
      * by rewrite decide_True by lia.
      * by rewrite decide_False by lia.
Qed.

Lemma poison_rest_ok n i r h :
  r mod 4 = 0 -> 0 <= i -> i + Z.of_nat n < 4 ->
  heap_base h <= r -> r + i + Z.of_nat n <= heap_end_var h ->
  exists m, poison_rest n i r h = Ok (tt, set_kbytes m h) /\
    forall x, m x = if decide (r + i <= x < r + i + Z.of_nat n) then pbyte x else kbytes h x.
Proof.
  revert i h. induction n as [|n IH]; intros i h Hr Hi Hn Hl Hh; cbn [poison_rest].
  - exists (kbytes h). split; [by destruct h|]. intros x. by rewrite decide_False by lia.
  - erewrite bind_ok by (apply store8_ok; lia).
    set (v := Z.land _ 255).
    destruct (IH (i + 1) (set_kbytes (put8 (kbytes h) (r + i) v) h)) as (m & E & Hm);
      cbn [heap_base heap_end_var set_kbytes] in *; try lia.
    exists m. rewrite E, set_kbytes_twice. split; [done|]. intros x. rewrite Hm.
    cbn [kbytes set_kbytes]. unfold put8. destruct (Z.eqb_spec x (r + i)) as [->|Hne].
    + rewrite decide_False, decide_True by lia. unfold v, pbyte, byte_of.
      change 255 with (2 ^ 8 - 1). rewrite land_pow2_mask by lia.
      rewrite Z.add_mod, Hr, Z.add_0_l, !Z.mod_mod, (Z.mod_small i) by lia.
      by rewrite (Z.mul_comm i).
    + destruct (decide (r + (i + 1) <= x < r + (i + 1) + Z.of_nat n)).
      * by rewrite decide_True by lia.
      * by rewrite decide_False by lia.
Qed.

Lemma poison_region_ok p n h :
  p mod 4 = 0 -> 0 <= n -> heap_base h <= p -> p + n <= heap_end_var h ->
  exists m, poison_region p n h = Ok (tt, set_kbytes m h) /\
    forall x, m x = if decide (p <= x < p + n) then pbyte x else kbytes h x.
Proof.
  intros Hp Hn Hl Hh. unfold poison_region.
  pose proof (Z.div_mod n 4 ltac:(lia)). pose proof (Z.mod_pos_bound n 4 ltac:(lia)).
  assert (0 <= n / 4) by (apply Z.div_pos; lia).
  destruct (poison_words_ok (Z.to_nat (n / 4)) p h) as (m1 & E1 & Hm1); [done|lia|lia|].
  rewrite (bind_ok _ _ _ _ _ E1).
  destruct (poison_rest_ok (Z.to_nat (n - n / 4 * 4)) 0 (p + n / 4 * 4) (set_kbytes m1 h))
    as (m2 & E2 & Hm2); cbn [heap_base heap_end_var set_kbytes]; try lia.
  { by rewrite Z.mod_add. }
  exists m2. rewrite E2, set_kbytes_twice. split; [done|]. intros x. rewrite Hm2.
  cbn [kbytes set_kbytes]. rewrite Hm1. repeat case_decide; try done; lia.
Qed.

Lemma check_poison_ok n p h :
  p mod 4 = 0 -> heap_base h <= p -> p + 4 * Z.of_nat n <= heap_end_var h ->
  poisoned (kbytes h) p (p + 4 * Z.of_nat n) -> check_poison_words n p h = Ok (tt, h).
Proof.
  revert p. induction n as [|n IH]; intros p Hp Hl Hh Hpo; cbn [check_poison_words]; [done|].
  mem_step. erewrite (poisoned_word _ p) by (done || lia). rewrite Z.eqb_refl.
  cbn [negb]. apply IH; try lia.
  - rewrite <- Zplus_mod_idemp_l, Hp. done.
  - intros x Hx. apply Hpo. lia.
Qed.
