(* ===== verification/Heap.v ===== *)
(** * Kernel heap

    Models mm/heap.c: a first-fit allocator over a doubly linked list of
    blocks that tile the arena, with immediate coalescing on free and the
    KASAN-lite checks of [Kasan].  [heap_lock] makes each operation atomic. *)

From stdpp Require Import base tactics numbers list gmap.
From S2P Require Import Prelude Kasan.

(** A [block_header_t]: size, is_free, next, prev, four words. *)
Definition HEADER_SIZE := 16.
Definition f_size (b : Z) : Z := b.
Definition f_is_free (b : Z) : Z := b + 4.
Definition f_next (b : Z) : Z := b + 8.
Definition f_prev (b : Z) : Z := b + 12.

Definition set_heap_start (p : Z) (h : kheap) : kheap :=
  Kheap (heap_base h) (heap_end_var h) p (kbytes h).

Definition heap_init : ST kheap unit :=
  h ← gets id;
  modify (set_heap_start (heap_base h));;
  let b := heap_base h in
  store32 (f_size b) (heap_size_var h);;
  store32 (f_is_free b) 1;;
  store32 (f_next b) 0;;
  store32 (f_prev b) 0;;
  kasan_poison_range (b + HEADER_SIZE) (heap_size_var h - HEADER_SIZE).

Definition split_block (block size : Z) : ST kheap unit :=
  bsize ← load32 (f_size block);
  if u32 (size + HEADER_SIZE + 16) <? bsize then
    let new_block := u32 (block + size) in
    h ← gets id;
    if (new_block <? heap_base h) || (heap_end_var h <=? new_block) then ret tt
    else
      store32 (f_size new_block) (u32 (bsize - size));;
      store32 (f_is_free new_block) 1;;
      next ← load32 (f_next block);
      store32 (f_next new_block) next;;
      store32 (f_prev new_block) block;;
      next ← load32 (f_next block);
      (if negb (next =? 0) then store32 (f_prev next) new_block else ret tt);;
      store32 (f_next block) new_block;;
      store32 (f_size block) size
  else ret tt.

Definition merge_next (block : Z) : ST kheap unit :=
  next ← load32 (f_next block);
  if next =? 0 then ret tt
  else
    fr ← load32 (f_is_free next);
    if fr =? 0 then ret tt
    else
      next_size ← load32 (f_size next);
      nn ← load32 (f_next next);
      kasan_poison_range next HEADER_SIZE;;
      bsize ← load32 (f_size block);
      store32 (f_size block) (u32 (bsize + next_size));;
      store32 (f_next block) nn;;
      if negb (nn =? 0) then store32 (f_prev nn) block else ret tt.

Definition merge_prev (block : Z) : ST kheap unit :=
  prev ← load32 (f_prev block);
  if prev =? 0 then ret tt
  else
    fr ← load32 (f_is_free prev);
    if fr =? 0 then ret tt
    else
      nn ← load32 (f_next block);
      this_size ← load32 (f_size block);
      kasan_poison_range block HEADER_SIZE;;
      psize ← load32 (f_size prev);
      store32 (f_size prev) (u32 (psize + this_size));;
      store32 (f_next prev) nn;;
      if negb (nn =? 0) then store32 (f_prev nn) prev else ret tt.

Definition merge_free_blocks (block : Z) : ST kheap unit :=
  merge_next block;; merge_prev block.

Definition take_block (blk total_size size : Z) : ST kheap Z :=
  store32 (f_is_free blk) 0;;
  split_block blk total_size;;
  bsize ← load32 (f_size blk);
  let data_size := u32 (bsize - HEADER_SIZE) in
  let raw_payload := blk + HEADER_SIZE in
  kasan_check_poison raw_payload data_size;;
  kasan_alloc_register raw_payload data_size size.

(** The first-fit walk. *)
Fixpoint find_fit (fuel : nat) (blk total_size size : Z) : ST kheap Z :=
  match fuel with
  | O => fail NoFuel
  | S fuel' =>
      if blk =? 0 then ret 0
      else
        fr ← load32 (f_is_free blk);
        bsize ← load32 (f_size blk);
        if negb (fr =? 0) && (total_size <=? bsize) then take_block blk total_size size
        else next ← load32 (f_next blk); find_fit fuel' next total_size size
  end.

(** Every block has at least a header, so the arena bounds the walk. *)
Definition walk_fuel (h : kheap) : nat := S (Z.to_nat (heap_size_var h / HEADER_SIZE)).

Definition heap_alloc (size : Z) : ST kheap Z :=
  h ← gets id;
  if (size =? 0) || (heap_size_var h - HEADER_SIZE * 2 <? size) then ret 0
  else
    let raw_size := kasan_raw_size size in
    let raw_size := Z.land (u32 (raw_size + 3)) (u32 (Z.lnot 3)) in
    let total_size := u32 (raw_size + HEADER_SIZE) in
    if heap_size_var h <? total_size then ret 0
    else find_fit (walk_fuel h) (heap_start h) total_size size.

Definition heap_free (ptr : Z) : ST kheap unit :=
  if ptr =? 0 then ret tt
  else
    let raw_head := ptr - KASAN_CANARY_BYTES in
    w ← load32 raw_head;
    (if w =? KASAN_POISON_WORD then kasan_check_poison raw_head KASAN_CANARY_BYTES
     else ret tt);;
    raw_payload ← kasan_free_check ptr;
    let block := raw_payload - HEADER_SIZE in
    h ← gets id;
    if (block <? heap_base h) || (heap_end_var h <=? block) then ret tt
    else
      fr ← load32 (f_is_free block);
      if fr =? 1 then ret tt
      else
        bsize ← load32 (f_size block);
        if (bsize =? 0) || (heap_size_var h <? bsize) || (bsize <? HEADER_SIZE) then ret tt
        else if heap_end_var h <? u32 (block + bsize) then ret tt
        else
          store32 (f_is_free block) 1;;
          merge_free_blocks block.

(** ** The block list *)

(** A block of the arena: free, or allocated with the size the caller asked
    for. *)
Record block := Block {
  b_addr : Z;
  b_size : Z;
  b_user : option Z
}.

Definition b_free (b : block) : Z := match b_user b with None => 1 | Some _ => 0 end.
Definition b_end (b : block) : Z := b_addr b + b_size b.

(** Where the caller's bytes of an allocated block start. *)
Definition user_ptr (b : block) : Z := b_addr b + HEADER_SIZE + KASAN_CANARY_BYTES.

Record block_ok (b : block) : Prop := {
  ok_addr : b_addr b mod 4 = 0;
  ok_mod : b_size b mod 4 = 0;
  ok_min : 36 <= b_size b;
  ok_user : forall u, b_user b = Some u -> 0 < u /\ u + 32 <= b_size b
}.

(** A pointer to the block at [a], NULL at the end [e] of the arena. *)
Definition ptr_to (e a : Z) : Z := if a =? e then 0 else a.

Definition header (m : Z -> Z) (e prv : Z) (b : block) : Prop :=
  word m (b_addr b) = b_size b /\ word m (b_addr b + 4) = b_free b /\
  word m (b_addr b + 8) = ptr_to e (b_end b) /\ word m (b_addr b + 12) = prv.

(** A free block is poison behind its header; an allocated one has its
    canaries and poison behind the tail canary. *)
Definition contents (m : Z -> Z) (b : block) : Prop :=
  match b_user b with
  | None => poisoned m (b_addr b + 16) (b_end b)
  | Some u =>
      word m (b_addr b + 16) = KASAN_CANARY_HEAD /\ word m (b_addr b + 20) = u /\
      word m (b_addr b + 24 + u) = KASAN_CANARY_TAIL /\
      word m (b_addr b + 28 + u) = KASAN_CANARY_TAIL /\
      poisoned m (b_addr b + 32 + u) (b_end b)
  end.

(** The blocks [bs] tile the addresses from [a] to [z]. *)
Fixpoint seg (m : Z -> Z) (e prv a : Z) (bs : list block) (z : Z) : Prop :=
  match bs with
  | [] => a = z
  | b :: bs' => b_addr b = a /\ block_ok b /\ header m e prv b /\ contents m b /\
      seg m e a (b_end b) bs' z
  end.

Definition last_addr (prv : Z) (bs : list block) : Z :=
  default prv (b_addr <$> last bs).

Fixpoint no_adjacent_free (bs : list block) : Prop :=
  match bs with
  | b :: bs' =>
      match bs' with
      | c :: _ => ~ (b_user b = None /\ b_user c = None)
      | [] => True
      end /\ no_adjacent_free bs'
  | [] => True
  end.

Record heap_rep (h : kheap) (bs : list block) : Prop := {
  rep_base : 64 <= heap_base h /\ heap_base h mod 4 = 0;
  rep_end : heap_end_var h < 4294967296;
  rep_start : heap_start h = heap_base h;
  rep_seg : seg (kbytes h) (heap_end_var h) 0 (heap_base h) bs (heap_end_var h);
  rep_adj : no_adjacent_free bs
}.

Lemma ptr_to_ne e a : a <> e -> ptr_to e a = a.
Proof. intros. unfold ptr_to. by rewrite (proj2 (Z.eqb_neq a e)). Qed.

Lemma ptr_to_end e : ptr_to e e = 0.
Proof. unfold ptr_to. by rewrite Z.eqb_refl. Qed.

Lemma seg_le m e prv a bs z : seg m e prv a bs z -> a <= z.
Proof.
  revert prv a. induction bs as [|b bs IH]; intros prv a; simpl; [lia|].
  intros (<- & Hok & _ & _ & Hs). apply IH in Hs. destruct Hok. unfold b_end in Hs. lia.
Qed.

Lemma last_addr_cons prv b bs : last_addr prv (b :: bs) = last_addr (b_addr b) bs.
Proof. unfold last_addr. rewrite last_cons. by destruct (last bs). Qed.

Lemma seg_app m e prv a l1 l2 z :
  seg m e prv a (l1 ++ l2) z <->
  exists y, seg m e prv a l1 y /\ seg m e (last_addr prv l1) y l2 z.
Proof.
  revert prv a. induction l1 as [|b l1 IH]; intros prv a; simpl.
  - split; [eauto|]. by intros (y & -> & ?).
  - rewrite last_addr_cons. split.
    + intros (<- & Hok & Hh & Hc & Hs). apply IH in Hs as (y & H1 & H2). exists y. done.
    + intros (y & (<- & Hok & Hh & Hc & Hs) & H2). split_and!; try done. apply IH. eauto.
Qed.

Lemma contents_ext m m' b :
  block_ok b -> (forall x, b_addr b + 16 <= x < b_end b -> m' x = m x) -> contents m b -> contents m' b.
Proof.
  intros Hok He. unfold contents. destruct (b_user b) as [u|] eqn:Eu.
  - destruct (ok_user b Hok u Eu) as [Hu Hu']. unfold b_end in *.
    intros (H1 & H2 & H3 & H4 & H5). split_and!;
      try (erewrite word_ext; [eassumption|]; intros x Hx; apply He; lia).
    eapply poisoned_ext; [exact H5|]. intros x Hx. apply He. lia.
  - intros H. eapply poisoned_ext; [exact H|]. auto.
Qed.

Lemma header_ext m m' e prv b :
  (forall x, b_addr b <= x < b_addr b + 16 -> m' x = m x) -> header m e prv b -> header m' e prv b.
Proof.
  intros He (H1 & H2 & H3 & H4). unfold header.
  rewrite !(word_ext m m') by (intros; apply He; lia). done.
Qed.

(** A segment depends only on its own bytes. *)
Lemma seg_ext m m' e prv a bs z :
  (forall x, a <= x < z -> m' x = m x) -> seg m e prv a bs z -> seg m' e prv a bs z.
Proof.
  revert prv a. induction bs as [|b bs IH]; intros prv a He; simpl; [done|].
  intros (<- & Hok & Hh & Hc & Hs). pose proof (seg_le _ _ _ _ _ _ Hs).
  unfold b_end in *. destruct Hok as [? ? ? ?] eqn:EE. split_and!; try done.
  - eapply header_ext; [|exact Hh]. intros. apply He. lia.
  - eapply contents_ext; [done| |exact Hc]. unfold b_end. intros. apply He. lia.
  - apply IH; [|done]. intros. apply He. lia.
Qed.

(** Redirecting the [prev] pointer of the first block. *)
Lemma seg_set_prev m m' e prv prv' a b bs z :
  seg m e prv a (b :: bs) z -> word m' (a + 12) = prv' ->
  (forall x, a <= x < z -> ~ (a + 12 <= x < a + 16) -> m' x = m x) ->
  seg m' e prv' a (b :: bs) z.
Proof.
  intros (<- & Hok & (H1 & H2 & H3 & H4) & Hc & Hs) Hw He.
  pose proof (seg_le _ _ _ _ _ _ Hs). pose proof (ok_min b Hok). unfold b_end in *.
  split_and!; try done.
  - split_and!; try (rewrite (word_ext m m'); [done|]; intros; apply He; lia). done.
  - eapply contents_ext; [done| |exact Hc]. unfold b_end. intros. apply He; lia.
  - eapply seg_ext; [|exact Hs]. unfold b_end. intros. apply He; lia.
Qed.

Lemma seg_length m e prv a bs z : seg m e prv a bs z -> 16 * Z.of_nat (length bs) <= z - a.
Proof.
  revert prv a. induction bs as [|b bs IH]; intros prv a; simpl; [lia|].
  intros (<- & Hok & _ & _ & Hs). apply IH in Hs. pose proof (ok_min b Hok). unfold b_end in Hs. lia.
Qed.

(** Does a block satisfy a request of [total] bytes? *)
Definition fits (total : Z) (b : block) : bool :=
  bool_decide (b_user b = None) && (total <=? b_size b).

(** The first block of [bs] that fits. *)
Fixpoint first_fit (total : Z) (bs : list block) : option (list block * block * list block) :=
  match bs with
  | [] => None
  | b :: bs' =>
      if fits total b then Some ([], b, bs')
      else match first_fit total bs' with
           | Some (l1, x, l2) => Some (b :: l1, x, l2)
           | None => None
           end
  end.

Lemma first_fit_Some total bs l1 b l2 :
  first_fit total bs = Some (l1, b, l2) -> bs = l1 ++ b :: l2 /\ fits total b = true.
Proof.
  revert l1. induction bs as [|x bs IH]; intros l1; simpl; [done|].
  destruct (fits total x) eqn:E; [by intros [= <- <- <-]|].
  destruct (first_fit total bs) as [[[k1 y] k2]|]; [|done].
  intros [= <- <- <-]. destruct (IH k1 eq_refl) as [-> ?]. done.
Qed.

Lemma find_fit_ok fuel total size h prv a bs :
  0 < a -> heap_base h <= a ->
  seg (kbytes h) (heap_end_var h) prv a bs (heap_end_var h) -> (length bs < fuel)%nat ->
  find_fit fuel (ptr_to (heap_end_var h) a) total size h =
    match first_fit total bs with
    | Some (_, b, _) => take_block (b_addr b) total size h
    | None => Ok (0, h)
    end.
Proof.
  revert prv a bs. induction fuel as [|fuel IH]; intros prv a bs Ha Hb Hs Hf; [lia|].
  cbn [find_fit]. destruct bs as [|b bs]; simpl in Hs.
  - rewrite Hs. unfold ptr_to. by rewrite Z.eqb_refl.
  - destruct Hs as (<- & Hok & (H1 & H2 & H3 & H4) & Hc & Hs).
    pose proof (seg_le _ _ _ _ _ _ Hs). pose proof (ok_min b Hok). unfold b_end in *.
    rewrite ptr_to_ne by lia. rewrite (proj2 (Z.eqb_neq (b_addr b) 0)) by lia.
    unfold f_is_free, f_size, f_next. mem_step. mem_step. rewrite H1, H2. simpl.
    unfold fits. replace (negb (b_free b =? 0)) with (bool_decide (b_user b = None))
      by (unfold b_free; by destruct (b_user b)).
    destruct (bool_decide (b_user b = None) && (total <=? b_size b)) eqn:E; [done|].
    mem_step. rewrite H3. unfold b_end. erewrite IH; [|lia|lia|exact Hs|simpl in Hf; lia].
    destruct (first_fit total bs) as [[[k1 y] k2]|]; done.
Qed.

(** ** Allocation from a free block *)

(** Reads through stores to other places. *)
Ltac outs := rewrite ?put32_out by lia.

Lemma b_size_u32 m e prv b bs z :
  0 < b_addr b -> e < 4294967296 -> z <= e -> seg m e prv (b_addr b) (b :: bs) z ->
  0 < b_size b /\ b_end b <= z /\ is_u32 (b_size b) /\ is_u32 (b_addr b).
Proof.
  intros Ha He Hz (_ & Hok & _ & _ & Hs). pose proof (seg_le _ _ _ _ _ _ Hs).
  pose proof (ok_min b Hok). unfold b_end, is_u32 in *. lia.
Qed.

(** The memory after a block at [a] of [bsize] bytes was cut at [size]. *)
Definition split_mem (m : Z -> Z) (e a bsize size : Z) : Z -> Z :=
  let nb := a + size in
  let nx := ptr_to e (a + bsize) in
  let m := put32 m nb (bsize - size) in
  let m := put32 m (nb + 4) 1 in
  let m := put32 m (nb + 8) nx in
  let m := put32 m (nb + 12) a in
  let m := if nx =? 0 then m else put32 m (nx + 12) nb in
  let m := put32 m (a + 8) nb in
  put32 m a size.

Lemma split_block_ok h a bsize size :
  0 < a -> heap_base h <= a -> a + bsize <= heap_end_var h -> heap_end_var h < 4294967296 ->
  (a + bsize <> heap_end_var h -> a + bsize + 16 <= heap_end_var h) ->
  word (kbytes h) a = bsize -> word (kbytes h) (a + 8) = ptr_to (heap_end_var h) (a + bsize) ->
  36 <= size -> size + 32 < bsize ->
  split_block a size h = Ok (tt, set_kbytes (split_mem (kbytes h) (heap_end_var h) a bsize size) h).
Proof.
  intros Ha Hb He He32 Hnx Hw Hn Hs Hlt. unfold split_block, f_size, f_is_free, f_next, f_prev.
  mem_step. rewrite Hw, !u32_id by (unfold is_u32, HEADER_SIZE; lia).
  rewrite (proj2 (Z.ltb_lt _ _)) by (unfold HEADER_SIZE; lia). run. unfold id.
  rewrite (proj2 (Z.ltb_ge _ _)), (proj2 (Z.leb_gt _ _)) by lia. cbn [orb].
  do 2 mem_step. mem_step. words. rewrite Hn. do 2 mem_step. mem_step. words. rewrite Hn.
  unfold split_mem. assert (Hcase : ptr_to (heap_end_var h) (a + bsize) = 0 \/
    ptr_to (heap_end_var h) (a + bsize) = a + bsize /\ a + bsize + 16 <= heap_end_var h).
  { unfold ptr_to. destruct (Z.eqb_spec (a + bsize) (heap_end_var h)); [by left|right; auto]. }
  destruct Hcase as [->|[-> ?]].
  - cbn [negb Z.eqb]. run. do 2 mem_step. done.
  - rewrite (proj2 (Z.eqb_neq (a + bsize) 0)) by lia. cbn [negb]. do 3 mem_step. done.
Qed.

Lemma split_mem_facts m e a bsize size :
  0 < a -> a + bsize <= e -> e < 4294967296 -> 36 <= size -> size + 32 < bsize ->
  let m' := split_mem m e a bsize size in
  (word m' a = size /\ word m' (a + 8) = a + size) /\
  header m' e a (Block (a + size) (bsize - size) None) /\
  (a + bsize <> e -> word m' (a + bsize + 12) = a + size) /\
  (forall x, ~ (a <= x < a + 4) -> ~ (a + 8 <= x < a + 12) ->
     ~ (a + size <= x < a + size + 16) ->
     (a + bsize <> e -> ~ (a + bsize + 12 <= x < a + bsize + 16)) -> m' x = m x).
Proof.
  intros Ha Hb He Hs Hlt m'. unfold m', split_mem, header, b_end; cbn [b_addr b_size b_free b_user].
  replace (a + size + (bsize - size)) with (a + bsize) by lia. unfold ptr_to.
  destruct (Z.eqb_spec (a + bsize) e) as [Hend|Hend]; cbn [Z.eqb].
  - words. split_and!; try done. intros x H1 H2 H3 H4. outs. done.
  - rewrite (proj2 (Z.eqb_neq (a + bsize) 0)) by lia. words. split_and!; try done.
    intros x H1 H2 H3 H4. specialize (H4 Hend). outs. done.
Qed.

Definition register_mem (m : Z -> Z) (raw u : Z) : Z -> Z :=
  let m := put32 m raw KASAN_CANARY_HEAD in
  let m := put32 m (raw + 4) u in
  let m := put32 m (raw + 8 + u) KASAN_CANARY_TAIL in
  put32 m (raw + 8 + u + 4) KASAN_CANARY_TAIL.

Lemma register_ok h raw rsize u :
  0 < raw -> 0 < u -> u + 16 <= rsize -> heap_base h <= raw -> raw + rsize <= heap_end_var h ->
  heap_end_var h < 4294967296 ->
  kasan_alloc_register raw rsize u h =
    Ok (raw + 8, set_kbytes (register_mem (kbytes h) raw u) h).
Proof.
  intros Hr Hu Hru Hb He He32. unfold kasan_alloc_register.
  rewrite (proj2 (Z.eqb_neq raw 0)), u32_id by (unfold is_u32, KASAN_CANARY_BYTES; lia).
  rewrite (proj2 (Z.ltb_ge _ _)) by (unfold KASAN_CANARY_BYTES; lia).
  unfold write_head_canary, write_tail_canary, KASAN_CANARY_BYTES.
  rewrite bind_assoc. do 2 mem_step. rewrite bind_assoc. do 2 mem_step. done.
Qed.

(** Behind the tail canary the register leaves the poison of the free block. *)
Lemma register_contents m a size u :
  0 < u -> u + 32 <= size -> is_u32 u -> poisoned m (a + 16) (a + size) ->
  contents (register_mem m (a + 16) u) (Block a size (Some u)).
Proof.
  intros Hu Hs Hu32 Hp. unfold contents, register_mem, b_end; cbn [b_addr b_size b_user].
  replace (a + 16 + 8 + u) with (a + 24 + u) by lia.
  replace (a + 24 + u + 4) with (a + 28 + u) by lia.
  replace (a + 16 + 4) with (a + 20) by lia. words. split_and!; try done.
  intros x Hx. outs. apply Hp. lia.
Qed.

Lemma register_out m raw u x :
  0 < u -> ~ (raw <= x < raw + 16 + u) -> register_mem m raw u x = m x.
Proof. intros Hu Hx. unfold register_mem. outs. done. Qed.

(** What a free block becomes when [n] bytes are taken from it. *)
Definition alloc_split (b : block) (total n : Z) : list block :=
  if total + 32 <? b_size b
  then [Block (b_addr b) total (Some n); Block (b_addr b + total) (b_size b - total) None]
  else [Block (b_addr b) (b_size b) (Some n)].

Lemma mod4_plus a b : a mod 4 = 0 -> b mod 4 = 0 -> (a + b) mod 4 = 0.
Proof. intros Ha Hb. rewrite Z.add_mod, Ha, Hb by lia. done. Qed.

Lemma mod4_minus a b : a mod 4 = 0 -> b mod 4 = 0 -> (a - b) mod 4 = 0.
Proof. intros Ha Hb. rewrite Zminus_mod, Ha, Hb. done. Qed.

Lemma mod4_min x : x mod 4 = 0 -> 32 < x -> 36 <= x.
Proof. intros. Z.div_mod_to_equations. lia. Qed.

(** The end of [take_block] once the header of the block reads [bsize]. *)
Lemma take_finish h a bsize n :
  0 < a -> 0 < n -> n + 32 <= bsize -> a mod 4 = 0 -> bsize mod 4 = 0 ->
  heap_base h <= a -> a + bsize <= heap_end_var h -> heap_end_var h < 4294967296 ->
  word (kbytes h) a = bsize -> poisoned (kbytes h) (a + 16) (a + bsize) ->
  (bs ← load32 (f_size a);
   let data_size := u32 (bs - HEADER_SIZE) in
   let raw_payload := a + HEADER_SIZE in
   kasan_check_poison raw_payload data_size;;
   kasan_alloc_register raw_payload data_size n) h =
  Ok (a + 24, set_kbytes (register_mem (kbytes h) (a + 16) n) h).
Proof.
  intros Ha Hn Hnb Hm4 Hb4 Hb He He32 Hw Hp. unfold f_size, HEADER_SIZE. mem_step. rewrite Hw.
  rewrite u32_id by (unfold is_u32; lia). unfold kasan_check_poison.
  rewrite !(proj2 (Z.eqb_neq _ _)) by lia. cbn [orb].
  pose proof (Z.div_mod (bsize - 16) 4 ltac:(lia)) as Hd. rewrite mod4_minus in Hd by done.
  erewrite bind_ok; [|apply check_poison_ok].
  - rewrite register_ok by lia. do 2 f_equal. lia.
  - by apply mod4_plus.
  - lia.
  - lia.
  - intros x Hx. apply Hp. lia.
Qed.

(** Hypotheses shared by the lemmas on one block [b] followed by [l2]. *)
Definition at_block (h : kheap) (prv : Z) (b : block) (l2 : list block) : Prop :=
  64 <= heap_base h /\ heap_base h <= b_addr b /\ heap_end_var h < 4294967296 /\
  seg (kbytes h) (heap_end_var h) prv (b_addr b) (b :: l2) (heap_end_var h).

Lemma seg_first_min m e prv a bs z : seg m e prv a bs z -> a <> z -> a + 36 <= z.
Proof.
  destruct bs as [|b bs]; simpl; [done|]. intros (<- & Hok & _ & _ & Hs) _.
  apply seg_le in Hs. pose proof (ok_min b Hok). unfold b_end in Hs. lia.
Qed.

Lemma seg_change_prev m m' e prv prv' a bs :
  seg m e prv a bs e -> (a <> e -> word m' (a + 12) = prv') ->
  (forall x, a <= x < e -> ~ (a + 12 <= x < a + 16) -> m' x = m x) ->
  seg m' e prv' a bs e.
Proof.
  intros Hs Hw He. destruct bs as [|c bs]; [done|].
  assert (a <> e) as Hne.
  { destruct Hs as (<- & Hok & _ & _ & Hs). apply seg_le in Hs. pose proof (ok_min c Hok).
    unfold b_end in Hs. lia. }
  eapply seg_set_prev; eauto.
Qed.

Lemma take_split h prv b l2 total n :
  at_block h prv b l2 -> b_user b = None -> 0 < n -> n + 32 <= total -> total mod 4 = 0 ->
  total + 32 < b_size b ->
  exists m', take_block (b_addr b) total n h = Ok (b_addr b + 24, set_kbytes m' h) /\
    seg m' (heap_end_var h) prv (b_addr b)
      (Block (b_addr b) total (Some n) ::
       Block (b_addr b + total) (b_size b - total) None :: l2) (heap_end_var h) /\
    forall x, x < b_addr b \/ b_end b + 16 <= x -> m' x = kbytes h x.
Proof.
  intros (Hb0 & Hb & He32 & Hs) Hu Hn Hnt Ht4 Hlt.
  destruct Hs as (_ & Hok & (H1 & H2 & H3 & H4) & Hc & Hs).
  unfold contents in Hc. rewrite Hu in Hc. pose proof (seg_le _ _ _ _ _ _ Hs) as Hle.
  pose proof (seg_first_min _ _ _ _ _ _ Hs) as Hfst. destruct Hok as [Ha4 Hm4 Hmin Huser].
  set (a := b_addr b) in *. set (e := heap_end_var h) in *. unfold b_end in *. fold a in Hc, Hs, H3, Hle, Hfst |- *.
  assert (36 <= total) by (apply mod4_min; lia).
  unfold take_block, f_is_free. mem_step. set (m1 := put32 (kbytes h) (a + 4) 0).
  erewrite bind_ok; [|apply (split_block_ok _ a (b_size b) total); cbn [kbytes set_kbytes heap_base heap_end_var];
    fold e; first [lia | unfold m1; words; assumption]].
  rewrite set_kbytes_twice. cbn [kbytes set_kbytes heap_end_var]. fold e.
  destruct (split_mem_facts m1 e a (b_size b) total) as ((F1 & F2) & F3 & F4 & F5); try lia.
  set (m2 := split_mem m1 e a (b_size b) total) in *.
  assert (Hsame : forall x, a + 16 <= x < a + total -> m2 x = kbytes h x).
  { intros x Hx. rewrite F5 by lia. unfold m1. outs. done. }
  rewrite (take_finish _ a total n); cbn [kbytes set_kbytes heap_base heap_end_var]; fold e; try lia; try done.
  2: { intros x Hx. rewrite Hsame by lia. apply Hc. lia. }
  rewrite set_kbytes_twice. eexists. split; [reflexivity|].
  set (m3 := register_mem m2 (a + 16) n).
  assert (Hr : forall x, ~ (a + 16 <= x < a + 32 + n) -> m3 x = m2 x).
  { intros x Hx. apply register_out; lia. }
  assert (Hw : forall x, x + 4 <= a + 16 \/ a + 32 + n <= x -> word m3 x = word m2 x).
  { intros x Hx. apply word_ext. intros y Hy. apply Hr. lia. }
  assert (Hw2 : forall x, (a + 4 <= x /\ x + 4 <= a + 8) \/ (a + 12 <= x /\ x + 4 <= a + 16) ->
            word m2 x = word m1 x).
  { intros x Hx. apply word_ext. intros y Hy. apply F5; lia. }
  split.
  - cbn [seg]. cbn [b_addr b_size b_user]. unfold b_end; cbn [b_addr b_size].
    replace (a + total + (b_size b - total)) with (a + b_size b) by lia. split_and!; try done.
    + constructor; cbn [b_addr b_size b_user]; try done; try lia. intros u [= <-]. lia.
    + unfold header, b_end; cbn [b_addr b_size b_free b_user]. rewrite !Hw by lia.
      rewrite ptr_to_ne by lia. rewrite F1, F2, !Hw2 by lia. unfold m1. words. done.
    + apply register_contents; try done; try lia; [unfold is_u32; lia|].
      intros x Hx. rewrite Hsame by done. apply Hc. lia.
    + constructor; cbn [b_addr b_size b_user]; try done; try lia.
      * by apply mod4_plus.
      * by apply mod4_minus.
      * apply mod4_min; [by apply mod4_minus|lia].
    + eapply header_ext; [|exact F3]. cbn [b_addr]. intros x Hx. apply Hr. lia.
    + intros x; cbn [b_addr b_size b_user]. unfold b_end; cbn [b_addr b_size]. intros Hx.
      rewrite Hr, F5 by lia. unfold m1. outs. apply Hc. lia.
    + eapply seg_change_prev; [exact Hs| |].
      * intros Hne. rewrite Hw by lia. by apply F4.
      * intros x Hx Hn12. rewrite Hr, F5 by lia. unfold m1. outs. done.
  - intros x Hx. destruct (decide (a + b_size b <= x)).
    + rewrite Hr, F5 by lia. unfold m1. outs. done.
    + rewrite Hr, F5 by lia. unfold m1. outs. done.
Qed.

Lemma take_whole h prv b l2 total n :
  at_block h prv b l2 -> b_user b = None -> 0 < n -> n + 32 <= total -> total <= b_size b ->
  b_size b <= total + 32 ->
  exists m', take_block (b_addr b) total n h = Ok (b_addr b + 24, set_kbytes m' h) /\
    seg m' (heap_end_var h) prv (b_addr b)
      (Block (b_addr b) (b_size b) (Some n) :: l2) (heap_end_var h) /\
    forall x, x < b_addr b \/ b_end b + 16 <= x -> m' x = kbytes h x.
Proof.
  intros (Hb0 & Hb & He32 & Hs) Hu Hn Hnt Htb Hlt.
  pose proof Hs as (_ & Hok & (H1 & H2 & H3 & H4) & Hc & Hs').
  unfold contents in Hc. rewrite Hu in Hc. pose proof (seg_le _ _ _ _ _ _ Hs') as Hle.
  destruct Hok as [Ha4 Hm4 Hmin Huser]. unfold b_end in *.
  unfold take_block, f_is_free. mem_step. set (m1 := put32 (kbytes h) (b_addr b + 4) 0).
  assert (Hw1 : word m1 (b_addr b) = b_size b) by (unfold m1; words; done).
  erewrite bind_ok.
  2: { unfold split_block, f_size. mem_step. rewrite Hw1.
       rewrite u32_id by (unfold is_u32, HEADER_SIZE; lia).
       rewrite (proj2 (Z.ltb_ge _ _)) by (unfold HEADER_SIZE; lia). done. }
  rewrite (take_finish _ (b_addr b) (b_size b) n);
    cbn [kbytes set_kbytes heap_base heap_end_var]; try lia; try done.
  2: { intros x Hx. unfold m1. outs. apply Hc. lia. }
  rewrite set_kbytes_twice. eexists. split; [reflexivity|].
  assert (Hr : forall x, ~ (b_addr b + 16 <= x < b_addr b + 32 + n) ->
    register_mem m1 (b_addr b + 16) n x = m1 x) by (intros x Hx; apply register_out; lia).
  split.
  - cbn [seg b_addr b_size b_user]. unfold b_end; cbn [b_addr b_size]. split_and!; try done.
    + constructor; cbn [b_addr b_size b_user]; try done. intros u [= <-]. lia.
    + unfold header, b_end; cbn [b_addr b_size b_free b_user].
      rewrite !(word_ext m1 (register_mem _ _ _)) by (intros; apply Hr; lia).
      unfold m1. words. done.
    + apply register_contents; try done; try lia; [unfold is_u32; lia|].
      intros x Hx. unfold m1. outs. apply Hc. lia.
    + eapply seg_ext; [|exact Hs']. intros x Hx. rewrite Hr by lia. unfold m1. outs. done.
  - intros x Hx. rewrite Hr by lia. unfold m1. outs. done.
Qed.

Lemma take_block_ok h prv b l2 total n :
  at_block h prv b l2 -> b_user b = None -> 0 < n -> n + 32 <= total -> total mod 4 = 0 ->
  total <= b_size b ->
  exists m', take_block (b_addr b) total n h = Ok (b_addr b + 24, set_kbytes m' h) /\
    seg m' (heap_end_var h) prv (b_addr b) (alloc_split b total n ++ l2) (heap_end_var h) /\
    forall x, x < b_addr b \/ b_end b + 16 <= x -> m' x = kbytes h x.
Proof.
  intros Hat Hu Hn Hnt Ht4 Htb. unfold alloc_split. destruct (Z.ltb_spec (total + 32) (b_size b)).
  - by apply take_split.
  - by apply take_whole.
Qed.

(** Rounding a request: canaries, alignment, header. *)
Definition total_of (n : Z) : Z := (n + 19) / 4 * 4 + 16.

Lemma total_of_bounds n : n + 32 <= total_of n < n + 36 /\ total_of n mod 4 = 0.
Proof.
  unfold total_of. split; [Z.div_mod_to_equations; lia|].
  apply mod4_plus; [apply Z.mod_mul; lia|done].
Qed.

Lemma round4 x : is_u32 x -> Z.land x (u32 (Z.lnot 3)) = x / 4 * 4.
Proof.
  intros Hx. by apply (land_lnot_mask x 2).
Qed.

Lemma naf_app l1 l2 :
  no_adjacent_free (l1 ++ l2) <->
  no_adjacent_free l1 /\ no_adjacent_free l2 /\
  forall x y, last l1 = Some x -> head l2 = Some y -> ~ (b_user x = None /\ b_user y = None).
Proof.
  induction l1 as [|b [|c l1] IH].
  - split; [intros; split_and!; done|by intros (_ & ? & _)].
  - clear IH. cbn [app no_adjacent_free]. destruct l2 as [|y l2]; cbn [last head].
    + split; [by intros|done].
    + split.
      * intros [Hb Hl]. split_and!; try done. by intros x z [= <-] [= <-].
      * intros (_ & Hl & Hxy). split; [by apply Hxy|done].
  - change (no_adjacent_free ((b :: c :: l1) ++ l2))
      with (~ (b_user b = None /\ b_user c = None) /\ no_adjacent_free ((c :: l1) ++ l2)).
    rewrite IH. change (last (b :: c :: l1)) with (last (c :: l1)).
    change (no_adjacent_free (b :: c :: l1))
      with (~ (b_user b = None /\ b_user c = None) /\ no_adjacent_free (c :: l1)).
    tauto.
Qed.

Lemma naf_alloc l1 b l2 total n :
  b_user b = None -> no_adjacent_free (l1 ++ b :: l2) ->
  no_adjacent_free (l1 ++ alloc_split b total n ++ l2).
Proof.
  intros Hu. rewrite !naf_app. cbn [no_adjacent_free]. intros (H1 & [Hb H2] & _).
  assert (forall x, b_user x <> None -> forall y : block, ~ (b_user x = None /\ b_user y = None))
    as Hnone by (intros ? ? ? [? _]; done).
  unfold alloc_split. destruct (_ <? _); cbn [app no_adjacent_free last head];
    (split; [done|split; [split; [|split; [done|]]|intros x y _ [= <-] [_ ?]; done]]).
  - split; [by apply Hnone|done].
  - intros x y [= <-] Hy [_ Hn]. destruct l2 as [|z l2]; [done|].
    injection Hy as ->. by apply Hb.
  - done.
  - intros x y [= <-] _. by apply Hnone.
Qed.

(** ** [heap_alloc] on the block list *)

(** The bytes that belong to callers. *)
Definition user_byte (bs : list block) (x : Z) : Prop :=
  exists b u, b ∈ bs /\ b_user b = Some u /\ user_ptr b <= x < user_ptr b + u.

(** The result and the new block list of a request for [n] bytes. *)
Definition abs_alloc (size n : Z) (bs : list block) : Z * list block :=
  if (n =? 0) || (size - 32 <? n) || (size <? total_of n) then (0, bs)
  else match first_fit (total_of n) bs with
       | None => (0, bs)
       | Some (l1, b, l2) => (user_ptr b, l1 ++ alloc_split b (total_of n) n ++ l2)
       end.

Lemma seg_addr_bounds m e prv a bs z b :
  seg m e prv a bs z -> b ∈ bs -> a <= b_addr b /\ b_end b <= z /\ block_ok b.
Proof.
  revert prv a. induction bs as [|c bs IH]; intros prv a Hs Hb; [by apply not_elem_of_nil in Hb|].
  destruct Hs as (<- & Hok & _ & _ & Hs). apply elem_of_cons in Hb as [->|Hb].
  - apply seg_le in Hs. split; [lia|]. done.
  - destruct (IH _ _ Hs Hb) as (? & ? & ?). pose proof (ok_min c Hok). unfold b_end in *.
    split; [lia|]. done.
Qed.

(** Callers' bytes lie clear of a block [b] and of the header behind it. *)
Lemma user_byte_outside m e prv a l1 b l2 z x :
  seg m e prv a (l1 ++ b :: l2) z -> user_byte (l1 ++ l2) x ->
  x < b_addr b \/ b_end b + 16 <= x.
Proof.
  rewrite seg_app. intros (y & H1 & (<- & Hok & _ & _ & H2)) (c & u & Hc & Hu & Hx).
  unfold user_ptr, HEADER_SIZE, KASAN_CANARY_BYTES in Hx.
  apply elem_of_app in Hc as [Hc|Hc].
  - destruct (seg_addr_bounds _ _ _ _ _ _ _ H1 Hc) as (_ & ? & Hcok).
    destruct (ok_user c Hcok u Hu). unfold b_end in *. left. lia.
  - destruct (seg_addr_bounds _ _ _ _ _ _ _ H2 Hc) as (? & _ & _). right. lia.
Qed.

Lemma seg_replace m m' e l1 b new l2 base :
  seg m e 0 base (l1 ++ b :: l2) e ->
  seg m' e (last_addr 0 l1) (b_addr b) new e ->
  (forall x, x < b_addr b -> m' x = m x) ->
  seg m' e 0 base (l1 ++ new) e.
Proof.
  rewrite !(seg_app _ _ _ _ l1). intros (y & H1 & H2) Hn He.
  assert (b_addr b = y) as Hy by apply H2. rewrite Hy in *. exists y. split; [|done].
  eapply seg_ext; [|exact H1]. intros x Hx. apply He. lia.
Qed.

Lemma at_block_of h l1 b l2 :
  heap_rep h (l1 ++ b :: l2) -> at_block h (last_addr 0 l1) b l2.
Proof.
  intros [[Hb _] He _ Hs _]. apply seg_app in Hs as (y & H1 & H2).
  apply seg_le in H1. split; [done|]. destruct H2 as (<- & H2). split; [done|]. split; [done|].
  split; [done|]. done.
Qed.

Lemma heap_alloc_ok h bs n :
  heap_rep h bs -> 0 <= n < 4294967296 ->
  exists h', heap_alloc n h = Ok (fst (abs_alloc (heap_size_var h) n bs), h') /\
    heap_rep h' (snd (abs_alloc (heap_size_var h) n bs)) /\
    heap_base h' = heap_base h /\ heap_end_var h' = heap_end_var h /\
    forall x, user_byte bs x -> kbytes h' x = kbytes h x.
Proof.
  intros Hrep Hn. pose proof Hrep as [[Hb Hb4] He Hst Hs Hadj].
  unfold heap_alloc, abs_alloc. run. unfold id, HEADER_SIZE. change (16 * 2) with 32.
  destruct ((n =? 0) || (heap_size_var h - 32 <? n)) eqn:Eg; cbn [orb]; [eauto 10|].
  bool_case. unfold heap_size_var in *.
  unfold kasan_raw_size, KASAN_CANARY_BYTES. change (2 * 8) with 16.
  rewrite (u32_id (n + 16)), (u32_id (n + 16 + 3)) by (unfold is_u32; lia).
  rewrite round4 by (unfold is_u32; lia). replace (n + 16 + 3) with (n + 19) by lia.
  assert ((n + 19) / 4 * 4 <= n + 19) by (Z.div_mod_to_equations; lia).
  assert (0 <= (n + 19) / 4 * 4) by (Z.div_mod_to_equations; lia).
  rewrite (u32_id (_ + 16)) by (unfold is_u32; lia). fold (total_of n).
  destruct (total_of_bounds n) as [Htb Ht4].
  destruct (heap_end_var h - heap_base h <? total_of n); [eauto 10|].
  pose proof (seg_length _ _ _ _ _ _ Hs) as Hlen. pose proof (seg_le _ _ _ _ _ _ Hs).
  assert (heap_start h = ptr_to (heap_end_var h) (heap_base h)) as ->.
  { rewrite ptr_to_ne by lia. done. }
  erewrite find_fit_ok; [|lia|lia|exact Hs|].
  2: { unfold walk_fuel, heap_size_var, HEADER_SIZE.
       assert (Z.of_nat (length bs) <= (heap_end_var h - heap_base h) / 16)
         by (apply Z.div_le_lower_bound; lia). lia. }
  destruct (first_fit (total_of n) bs) as [[[l1 b] l2]|] eqn:Ef; [|eauto 10].
  destruct (first_fit_Some _ _ _ _ _ Ef) as [-> Hfit]. unfold fits in Hfit.
  apply andb_true_iff in Hfit as [Hu%bool_decide_eq_true Hsz%Z.leb_le].
  destruct (take_block_ok h (last_addr 0 l1) b l2 (total_of n) n (at_block_of _ _ _ _ Hrep))
    as (m' & -> & Hseg & Hout); try done; try lia.
  eexists. cbn [fst snd]. split; [unfold user_ptr, HEADER_SIZE, KASAN_CANARY_BYTES; do 2 f_equal; lia|].
  split; [|split; [done|split; [done|]]].
  - constructor; cbn [heap_base heap_end_var heap_start kbytes set_kbytes]; try done.
    + eapply seg_replace; [exact Hs|exact Hseg|]. intros x Hx. apply Hout. by left.
    + by apply naf_alloc.
  - intros x (c & u & Hc & Hcu & Hx). apply Hout. cbn [kbytes set_kbytes].
    eapply user_byte_outside; [exact Hs|]. exists c, u. split; [|done].
    apply elem_of_app in Hc as [?|Hc]; [apply elem_of_app; by left|].
    apply elem_of_cons in Hc as [->|?]; [congruence|apply elem_of_app; by right].
Qed.

(** ** Coalescing *)

(** The tail both halves of [merge_free_blocks] share: block [x] absorbs the
    block [y] behind it. *)
Definition absorb (x y ysize nn : Z) : ST kheap unit :=
  kasan_poison_range y HEADER_SIZE;;
  xsize ← load32 (f_size x);
  store32 (f_size x) (u32 (xsize + ysize));;
  store32 (f_next x) nn;;
  if negb (nn =? 0) then store32 (f_prev nn) x else ret tt.

Definition joined (x y : block) : block := Block (b_addr x) (b_size x + b_size y) None.

Lemma absorb_ok h prv x y l2 :
  at_block h prv x (y :: l2) -> b_user x = None -> b_user y = None ->
  exists m', absorb (b_addr x) (b_addr y) (b_size y) (ptr_to (heap_end_var h) (b_end y)) h
      = Ok (tt, set_kbytes m' h) /\
    seg m' (heap_end_var h) prv (b_addr x) (joined x y :: l2) (heap_end_var h) /\
    forall z, z < b_addr x \/ b_end y + 16 <= z -> m' z = kbytes h z.
Proof.
  intros (Hb0 & Hb & He & Hs) Hux Huy.
  destruct Hs as (_ & Hox & (X1 & X2 & X3 & X4) & Hcx & Hay & Hoy & (Y1 & Y2 & Y3 & Y4) & Hcy & Hs).
  unfold contents in Hcx, Hcy. rewrite Hux in Hcx. rewrite Huy in Hcy.
  pose proof (seg_le _ _ _ _ _ _ Hs) as Hle. pose proof (seg_first_min _ _ _ _ _ _ Hs) as Hfst.
  destruct Hox as [Hx4 Hxm Hxmin _], Hoy as [Hy4 Hym Hymin _]. unfold b_end in *. rewrite Hay in *.
  unfold absorb, HEADER_SIZE, kasan_poison_range, f_size, f_next, f_prev.
  rewrite (proj2 (Z.eqb_neq (b_addr x + b_size x) 0)) by lia. cbn [orb Z.eqb].
  destruct (poison_region_ok (b_addr x + b_size x) 16 h) as (m1 & E1 & Hm1); try done; try lia.
  rewrite (bind_ok _ _ _ _ _ E1). set (a := b_addr x) in *. set (e := heap_end_var h) in *.
  assert (Hout : forall z, ~ (a + b_size x <= z < a + b_size x + 16) -> m1 z = kbytes h z).
  { intros z Hz. rewrite Hm1. by rewrite decide_False. }
  mem_step. rewrite (word_ext (kbytes h) m1), X1 by (intros; apply Hout; lia).
  rewrite u32_id by (unfold is_u32; lia). do 2 mem_step.
  set (nx := a + b_size x + b_size y) in *.
  assert (exists m', (if negb (ptr_to e nx =? 0) then store32 (ptr_to e nx + 12) a else ret tt)
      (set_kbytes (put32 (put32 m1 a (b_size x + b_size y)) (a + 8) (ptr_to e nx)) h) =
      Ok (tt, set_kbytes m' h) /\ word m' a = b_size x + b_size y /\ word m' (a + 4) = 1 /\
      word m' (a + 8) = ptr_to e nx /\ word m' (a + 12) = prv /\
      (nx <> e -> word m' (nx + 12) = a) /\
      (forall z, ~ (a <= z < a + 4) -> ~ (a + 8 <= z < a + 12) ->
         (nx <> e -> ~ (nx + 12 <= z < nx + 16)) -> m' z = m1 z)) as (m' & -> & F1 & F2 & F3 & F4 & F5 & F6).
  { assert (word m1 (a + 4) = 1 /\ word m1 (a + 12) = prv) as [G1 G2].
    { rewrite !(word_ext (kbytes h) m1) by (intros; apply Hout; lia).
      rewrite X2. unfold b_free. by rewrite Hux. }
    assert (is_u32 (ptr_to e nx)) by (unfold ptr_to, is_u32; destruct (_ =? _); lia).
    unfold ptr_to at 1 2. destruct (Z.eqb_spec nx e) as [Hend|Hend].
    - eexists. split; [reflexivity|]. words. split_and!; try done.
      intros z ? ? ?. outs. done.
    - rewrite (proj2 (Z.eqb_neq nx 0)) by lia. specialize (Hfst Hend). cbn [negb]. mem_step.
      eexists. split; [reflexivity|]. words. split_and!; try done.
      intros z ? ? Hz. specialize (Hz Hend). outs. done. }
  exists m'. split; [done|]. unfold joined. split.
  - cbn [seg b_addr b_size b_user]. unfold b_end; cbn [b_addr b_size]. fold a.
    replace (a + (b_size x + b_size y)) with nx by lia. split_and!; try done.
    + constructor; cbn [b_addr b_size b_user]; try done; [by apply mod4_plus|lia].
    + unfold header, b_end; cbn [b_addr b_size b_free b_user].
      replace (a + (b_size x + b_size y)) with nx by lia. done.
    + intros z; cbn [b_addr b_size]; unfold b_end; cbn [b_addr b_size]. intros Hz. rewrite F6 by lia.
      rewrite Hm1. case_decide; [done|]. destruct (decide (z < a + b_size x)); [apply Hcx|apply Hcy]; lia.
    + eapply seg_change_prev; [exact Hs|exact F5|]. intros z Hz Hn. rewrite F6, Hout by lia. done.
  - intros z Hz. rewrite F6, Hout by lia. done.
Qed.

Definition is_free_block (b : block) : bool := bool_decide (b_user b = None).

(** [b], just freed, after the attempt to absorb its successor. *)
Definition join_next (b : block) (l2 : list block) : block * list block :=
  match l2 with
  | c :: l2' => if is_free_block c then (joined b c, l2') else (b, l2)
  | [] => (b, [])
  end.

(** ... and after its predecessor, the last block of [l1], absorbed it. *)
Definition join_prev (l1 : list block) (b : block) : list block * block :=
  match last l1 with
  | Some p => if is_free_block p then (removelast l1, joined p b) else (l1, b)
  | None => (l1, b)
  end.

Lemma merge_next_ok h prv b l2 :
  at_block h prv b l2 -> b_user b = None ->
  exists m', merge_next (b_addr b) h = Ok (tt, set_kbytes m' h) /\
    seg m' (heap_end_var h) prv (b_addr b)
      (fst (join_next b l2) :: snd (join_next b l2)) (heap_end_var h) /\
    forall z, z < b_addr b \/ (match l2 with
                              | c :: _ => if is_free_block c then b_end c + 16 <= z else b_end b <= z
                              | [] => True end) -> m' z = kbytes h z.
Proof.
  intros Hat Hu. pose proof Hat as (Hb0 & Hb & He & Hs). cbn [seg] in Hs.
  destruct Hs as (_ & Hok & (H1 & H2 & H3 & H4) & Hc & Hs).
  pose proof (seg_le _ _ _ _ _ _ Hs). pose proof (ok_min b Hok).
  unfold b_end in *. unfold merge_next, f_next, f_is_free, f_size. mem_step. rewrite H3.
  destruct l2 as [|c l2]; cbn [join_next].
  - simpl in Hs. rewrite Hs, ptr_to_end. exists (kbytes h). split; [by destruct h|]. split; [|done].
    apply Hat.
  - pose proof Hs as (Hca & Hcok & (C1 & C2 & C3 & C4) & Hcc & Hsc).
    pose proof (seg_le _ _ _ _ _ _ Hsc). pose proof (ok_min c Hcok). unfold b_end in *. rewrite Hca in *.
    rewrite ptr_to_ne by lia. rewrite (proj2 (Z.eqb_neq _ _)) by lia. mem_step. rewrite C2.
    unfold b_free, is_free_block. destruct (b_user c) as [u|] eqn:Eu; cbn [Z.eqb].
    + exists (kbytes h). split; [by destruct h|]. split; [apply Hat|done].
    + do 2 mem_step. rewrite C1, C3. rewrite <- Hca in *.
      destruct (absorb_ok h prv b c l2 Hat Hu Eu) as (m' & E & Hseg & Hout).
      exists m'. split; [exact E|]. split; [done|]. unfold b_end in *. done.
Qed.

Lemma merge_prev_ok h l1 b l2 base :
  64 <= heap_base h -> base = heap_base h -> heap_end_var h < 4294967296 ->
  seg (kbytes h) (heap_end_var h) 0 base (l1 ++ b :: l2) (heap_end_var h) -> b_user b = None ->
  exists m', merge_prev (b_addr b) h = Ok (tt, set_kbytes m' h) /\
    seg m' (heap_end_var h) 0 base
      (fst (join_prev l1 b) ++ snd (join_prev l1 b) :: l2) (heap_end_var h) /\
    forall x, user_byte (l1 ++ l2) x -> m' x = kbytes h x.
Proof.
  intros Hb0 -> He Hs Hu. pose proof Hs as Hs0.
  apply seg_app in Hs as (y & Hs1 & (<- & Hok & (H1 & H2 & H3 & H4) & Hc & Hs2)).
  pose proof (seg_le _ _ _ _ _ _ Hs1). pose proof (seg_le _ _ _ _ _ _ Hs2). pose proof (ok_min b Hok).
  unfold b_end in *. unfold merge_prev, f_prev, f_is_free, f_size, f_next. mem_step. rewrite H4.
  unfold join_prev, last_addr. destruct (last l1) as [p|] eqn:El; cbn [fmap option_fmap option_map default].
  2: { exists (kbytes h). split; [by destruct h|]. done. }
  apply last_Some in El as [l1' ->]. rewrite removelast_last. rewrite <- app_assoc in Hs0. simpl in Hs0.
  pose proof Hs0 as Hs3. apply seg_app in Hs3 as (y & Hs3 & Hs4).
  pose proof Hs4 as (Hpa & Hpok & (P1 & P2 & P3 & P4) & Hpc & Hba & _). subst y.
  pose proof (seg_le _ _ _ _ _ _ Hs3). pose proof (ok_min p Hpok). unfold b_end in Hba.
  simpl. rewrite (proj2 (Z.eqb_neq (b_addr p) 0)) by lia. mem_step. rewrite P2.
  unfold b_free, is_free_block. destruct (b_user p) as [u|] eqn:Eu; cbn [Z.eqb].
  - exists (kbytes h). split; [by destruct h|]. split; [|done]. simpl. by rewrite <- app_assoc.
  - do 2 mem_step. rewrite H1, H3.
    destruct (absorb_ok h (last_addr 0 l1') p b l2) as (m' & E & Hseg & Hout); try done.
    exists m'. split; [exact E|]. split.
    + eapply (seg_replace (kbytes h) m' _ l1' p _ (b :: l2)); [exact Hs0|exact Hseg|].
      intros x Hx. apply Hout. by left.
    + intros x (c & u & Hcin & Hcu & Hx). apply Hout.
      rewrite <- app_assoc in Hcin. apply elem_of_app in Hcin as [Hcin|Hcin].
      * destruct (user_byte_outside _ _ _ _ l1' p (b :: l2) _ x Hs0) as [?|?];
          [|by left|]. { exists c, u. split; [apply elem_of_app; by left|done]. }
        destruct (seg_addr_bounds _ _ _ _ _ _ _ Hs3 Hcin) as (_ & ? & Hcok).
        destruct (ok_user c Hcok u Hcu). unfold user_ptr, HEADER_SIZE, KASAN_CANARY_BYTES, b_end in *. lia.
      * apply elem_of_cons in Hcin as [->|Hcin]; [congruence|]. right.
        destruct (seg_addr_bounds _ _ _ _ _ _ _ Hs2 Hcin) as (? & _ & _).
        unfold user_ptr, HEADER_SIZE, KASAN_CANARY_BYTES, b_end in *. lia.
Qed.

(** ** [heap_free] *)

Definition freed (b : block) : block := Block (b_addr b) (b_size b) None.

Lemma free_check_ok h prv b l2 u :
  at_block h prv b l2 -> b_user b = Some u ->
  exists m', kasan_free_check (user_ptr b) h = Ok (b_addr b + 16, set_kbytes m' h) /\
    poisoned m' (b_addr b + 16) (b_end b) /\
    forall x, ~ (b_addr b + 16 <= x < b_end b) -> m' x = kbytes h x.
Proof.
  intros (Hb0 & Hb & He & Hs) Hu. destruct Hs as (_ & Hok & _ & Hc & Hs).
  pose proof (seg_le _ _ _ _ _ _ Hs). destruct (ok_user b Hok u Hu) as [Hu0 Hu1].
  unfold contents in Hc. rewrite Hu in Hc. destruct Hc as (C1 & C2 & C3 & C4 & C5).
  unfold b_end, user_ptr, HEADER_SIZE, KASAN_CANARY_BYTES in *.
  unfold kasan_free_check, validate_head_canary, validate_tail_canary, KASAN_CANARY_BYTES.
  rewrite (proj2 (Z.eqb_neq _ 0)) by lia.
  replace (b_addr b + 16 + 8 - 8) with (b_addr b + 16) by lia.
  rewrite bind_assoc. mem_step. rewrite C1. cbn [Z.eqb negb Pos.eqb KASAN_CANARY_HEAD].
  rewrite bind_assoc. replace (b_addr b + 16 + 4) with (b_addr b + 20) by lia. mem_step. rewrite C2. run.
  replace (b_addr b + 16 + 8 + u) with (b_addr b + 24 + u) by lia.
  rewrite u32_id by (unfold is_u32; lia). rewrite bind_assoc. mem_step. rewrite C3.
  cbn [Z.eqb Pos.eqb KASAN_CANARY_TAIL]. rewrite bind_assoc.
  replace (b_addr b + 24 + u + 4) with (b_addr b + 28 + u) by lia. mem_step. rewrite C4. run.
  cbn [Z.eqb Pos.eqb negb KASAN_CANARY_TAIL]. rewrite u32_id by (unfold is_u32; lia).
  destruct (poison_region_ok (b_addr b + 16) (u + 2 * 8) h) as (m' & E & Hm); try lia.
  { apply mod4_plus; [apply Hok|done]. }
  rewrite (bind_ok _ _ _ _ _ E). exists m'. split; [done|]. split.
  - intros x Hx. rewrite Hm. case_decide; [done|]. apply C5. lia.
  - intros x Hx. rewrite Hm. rewrite decide_False by lia. done.
Qed.

Lemma heap_free_phase1 h prv b l2 u :
  at_block h prv b l2 -> b_user b = Some u ->
  exists m', heap_free (user_ptr b) h = merge_free_blocks (b_addr b) (set_kbytes m' h) /\
    seg m' (heap_end_var h) prv (b_addr b) (freed b :: l2) (heap_end_var h) /\
    forall x, x < b_addr b \/ b_end b <= x -> m' x = kbytes h x.
Proof.
  intros Hat Hu. pose proof Hat as (Hb0 & Hb & He & Hs).
  destruct (free_check_ok h prv b l2 u Hat Hu) as (m1 & E1 & Hp & Hout).
  destruct Hs as (_ & Hok & (H1 & H2 & H3 & H4) & Hc & Hs). pose proof (seg_le _ _ _ _ _ _ Hs).
  pose proof (ok_min b Hok). unfold contents in Hc. rewrite Hu in Hc. destruct Hc as (C1 & _).
  unfold b_free in H2. rewrite Hu in H2. unfold b_end in *.
  unfold heap_free. assert (user_ptr b = b_addr b + 24) as Ep
    by (unfold user_ptr, HEADER_SIZE, KASAN_CANARY_BYTES; lia).
  rewrite Ep in *. unfold KASAN_CANARY_BYTES. rewrite (proj2 (Z.eqb_neq _ 0)) by lia.
  replace (b_addr b + 24 - 8) with (b_addr b + 16) by lia. mem_step. rewrite C1.
  cbn [Z.eqb Pos.eqb KASAN_CANARY_HEAD KASAN_POISON_WORD]. run.
  rewrite (bind_ok _ _ _ _ _ E1). run. unfold id; cbn [heap_base heap_end_var set_kbytes].
  unfold heap_size_var; cbn [heap_base heap_end_var set_kbytes]. unfold HEADER_SIZE.
  replace (b_addr b + 16 - 16) with (b_addr b) by lia.
  rewrite (proj2 (Z.ltb_ge _ _)), (proj2 (Z.leb_gt _ _)) by lia. cbn [orb].
  unfold f_is_free, f_size. mem_step. rewrite (word_ext (kbytes h) m1), H2 by (intros; apply Hout; lia).
  cbn [Z.eqb]. mem_step. rewrite (word_ext (kbytes h) m1), H1 by (intros; apply Hout; lia).
  rewrite (proj2 (Z.eqb_neq _ 0)), !(proj2 (Z.ltb_ge _ _)) by lia. cbn [orb].
  rewrite u32_id by (unfold is_u32; lia). rewrite (proj2 (Z.ltb_ge _ _)) by lia.
  mem_step. eexists. split; [reflexivity|]. split.
  - cbn [seg freed b_addr b_size]. unfold b_end; cbn [freed b_addr b_size]. split_and!; try done.
    + destruct Hok. by constructor.
    + unfold header, b_end; cbn [freed b_addr b_size b_free b_user]. words.
      rewrite !(word_ext (kbytes h) m1) by (intros; apply Hout; lia). done.
    + intros x; cbn [freed b_addr b_size]; unfold b_end; cbn [freed b_addr b_size]. intros Hx.
      outs. by apply Hp.
    + eapply seg_ext; [|exact Hs]. intros x Hx. outs. apply Hout. lia.
  - intros x Hx. outs. apply Hout. lia.
Qed.

(** The new block list when [b], between [l1] and [l2], is freed. *)
Definition abs_free (l1 : list block) (b : block) (l2 : list block) : list block :=
  let '(b1, l2') := join_next (freed b) l2 in
  let '(l1', b2) := join_prev l1 b1 in
  l1' ++ b2 :: l2'.

Lemma naf_free l1 b l2 :
  no_adjacent_free (l1 ++ b :: l2) -> no_adjacent_free (abs_free l1 b l2).
Proof.
  rewrite naf_app. cbn [no_adjacent_free]. intros (H1 & [_ H2] & _).
  unfold abs_free, join_next, join_prev, is_free_block.
  (* the successor side: a free block in front of a list that starts allocated *)
  assert (exists b1 l2', (match l2 with
      | c :: l2' => if bool_decide (b_user c = None) then (joined (freed b) c, l2') else (freed b, l2)
      | [] => (freed b, []) end) = (b1, l2') /\ no_adjacent_free l2' /\
      forall y, head l2' = Some y -> b_user y <> None) as (b1 & l2' & -> & H2' & Hy).
  { destruct l2 as [|c l2]; [by eexists _, _|]. case_bool_decide as E.
    - eexists _, _. split; [done|]. cbn [no_adjacent_free] in H2. destruct H2 as [Hc H2].
      split; [done|]. intros y Hy ?. destruct l2 as [|z l2]; [done|]. injection Hy as ->. by apply Hc.
    - eexists _, _. split; [done|]. split; [done|]. by intros y [= <-]. }
  assert (forall k (x : block), no_adjacent_free k ->
    (forall y, last k = Some y -> b_user y <> None) -> no_adjacent_free (k ++ x :: l2')) as Hgen.
  { intros k x Hk Hl. apply naf_app. split; [done|]. split.
    - cbn [no_adjacent_free]. split; [|done]. destruct l2' as [|y l2']; [done|].
      intros [_ ?]. by apply (Hy y).
    - intros z y Hz [= <-] [? _]. by apply (Hl z). }
  destruct (last l1) as [p|] eqn:El; [|apply Hgen; [done|by rewrite El]].
  case_bool_decide as E; [|apply Hgen; [done|intros y; rewrite El; intros [= <-]; done]].
  apply last_Some in El as [k ->]. rewrite removelast_last. apply naf_app in H1 as (Hk & _ & Hkp).
  apply Hgen; [done|]. intros y Hlast ?. by apply (Hkp y p).
Qed.

(** Absorbing a free successor loses no caller's byte. *)
Lemma user_byte_join m e base z l1 b l2 b1 l2' x :
  seg m e 0 base (l1 ++ b :: l2) z -> user_byte (l1 ++ l2) x ->
  join_next (freed b) l2 = (b1, l2') ->
  user_byte (l1 ++ l2') x /\
  forall c k, l2 = c :: k -> is_free_block c = true -> b_end b <= x -> b_end c + 16 <= x.
Proof.
  intros Hs (d & u & Hd & Hu & Hx) Ej.
  assert (d ∈ l1 ++ l2') as Hd'.
  { apply elem_of_app. apply elem_of_app in Hd as [?|Hd]; [by left|right].
    destruct l2 as [|c l2]; simpl in Ej; [by apply not_elem_of_nil in Hd|].
    unfold is_free_block in Ej. case_bool_decide as E; injection Ej as _ <-; [|done].
    apply elem_of_cons in Hd as [->|?]; [congruence|done]. }
  split; [by exists d, u|]. intros c k -> Hc Hge. simpl in Ej. rewrite Hc in Ej. injection Ej as _ <-.
  change (l1 ++ b :: c :: k) with (l1 ++ [b] ++ c :: k) in Hs. rewrite app_assoc in Hs.
  destruct (user_byte_outside _ _ _ _ (l1 ++ [b]) c k _ x Hs) as [Hlt|?]; [|exfalso|done].
  - exists d, u. split; [|done]. rewrite <- app_assoc. apply elem_of_app.
    apply elem_of_app in Hd' as [?|?]; [by left|right; by right].
  - rewrite <- app_assoc in Hs. apply seg_app in Hs as (y & _ & (<- & _ & _ & _ & (Hc' & _))). lia.
Qed.

Lemma heap_free_ok h l1 b l2 u :
  heap_rep h (l1 ++ b :: l2) -> b_user b = Some u ->
  exists h', heap_free (user_ptr b) h = Ok (tt, h') /\ heap_rep h' (abs_free l1 b l2) /\
    heap_base h' = heap_base h /\ heap_end_var h' = heap_end_var h /\
    forall x, user_byte (l1 ++ l2) x -> kbytes h' x = kbytes h x.
Proof.
  intros Hrep Hu. pose proof (at_block_of _ _ _ _ Hrep) as Hat.
  pose proof Hrep as [[Hb0 Hb4] He Hst Hs Hadj].
  destruct (heap_free_phase1 _ _ _ _ _ Hat Hu) as (m1 & -> & Hseg1 & Hout1).
  unfold merge_free_blocks.
  destruct (merge_next_ok (set_kbytes m1 h) (last_addr 0 l1) (freed b) l2) as (m2 & E2 & Hseg2 & Hout2);
    [|done|].
  { split; [done|]. destruct Hat as (_ & Hb & _ & _). done. }
  rewrite (bind_ok _ _ _ _ _ E2), set_kbytes_twice.
  destruct (join_next (freed b) l2) as [b1 l2'] eqn:Ej. cbn [fst snd] in Hseg2.
  cbn [heap_end_var heap_base set_kbytes kbytes freed b_addr] in *.
  assert (b_addr b1 = b_addr b) as Hb1 by apply Hseg2.
  assert (seg m2 (heap_end_var h) 0 (heap_base h) (l1 ++ b1 :: l2') (heap_end_var h)) as Hsegall.
  { eapply seg_replace; [exact Hs|exact Hseg2|]. intros x Hx. rewrite Hout2 by (by left).
    apply Hout1. by left. }
  destruct (merge_prev_ok (set_kbytes m2 h) l1 b1 l2' (heap_base h)) as (m3 & E3 & Hseg3 & Hout3); try done.
  { clear - Ej. destruct l2 as [|c l2]; simpl in Ej; [by injection Ej as <- _|].
    destruct (is_free_block c); by injection Ej as <- _. }
  rewrite Hb1 in E3. rewrite E3, set_kbytes_twice. eexists. split; [reflexivity|].
  split; [|split; [done|split; [done|]]].
  - constructor; try done; unfold abs_free; rewrite Ej; destruct (join_prev l1 b1) as [k b2] eqn:Ek.
    + exact Hseg3.
    + pose proof (naf_free l1 b l2 Hadj) as Hn. unfold abs_free in Hn. by rewrite Ej, Ek in Hn.
  - intros x Hx. cbn [kbytes set_kbytes] in *.
    pose proof (user_byte_outside _ _ _ _ l1 b l2 _ x Hs Hx) as Hxb.
    destruct (user_byte_join _ _ _ _ _ _ _ _ _ x Hs Hx Ej) as [Hx' Hxc].
    rewrite Hout3, Hout2, Hout1; try done; [destruct Hxb; [by left|right; lia]|].
    destruct Hxb as [?|Hge]; [by left|right]. destruct l2 as [|c l2]; [done|].
    destruct (is_free_block c) eqn:Ec; unfold b_end in *; simpl in *; [|lia].
    apply (Hxc c l2); [done|done|lia].
Qed.

(** ** Initialisation, callers' writes, detection *)

Lemma heap_init_ok h :
  64 <= heap_base h -> heap_base h mod 4 = 0 -> heap_end_var h mod 4 = 0 ->
  heap_base h + 36 <= heap_end_var h -> heap_end_var h < 4294967296 ->
  exists h', heap_init h = Ok (tt, h') /\ heap_base h' = heap_base h /\
    heap_end_var h' = heap_end_var h /\ heap_rep h' [Block (heap_base h) (heap_size_var h) None].
Proof.
  destruct h as [base en st m0]. unfold heap_size_var; cbn [heap_base heap_end_var].
  intros Hb Hb4 He4 Hsz He. unfold heap_init. run. unfold id, f_size, f_is_free, f_next, f_prev, heap_size_var.
  unfold set_heap_start; cbn [heap_base heap_end_var heap_start kbytes].
  do 4 mem_step. unfold kasan_poison_range, HEADER_SIZE.
  rewrite !(proj2 (Z.eqb_neq _ 0)) by lia. cbn [orb].
  match goal with |- context [poison_region _ _ ?h] =>
    destruct (poison_region_ok (base + 16) (en - base - 16) h)
      as (m & -> & Hm) end; cbn [heap_base heap_end_var set_kbytes]; try lia; [by apply mod4_plus|].
  rewrite set_kbytes_twice. eexists. split; [reflexivity|]. split; [done|]. split; [done|].
  constructor; cbn [heap_base heap_end_var heap_start kbytes set_kbytes]; try done.
  cbn [seg b_addr b_size]. unfold b_end; cbn [b_addr b_size].
  replace (base + (en - base)) with (en) by lia.
  split_and!; try done.
  - constructor; cbn [b_addr b_size]; try done; [by apply mod4_minus|lia].
  - unfold header, b_end; cbn [b_addr b_size b_free b_user].
    replace (base + (en - base)) with (en) by lia.
    rewrite ptr_to_end.
    assert (forall a, base <= a -> a + 4 <= base + 16 -> word m a =
      word (put32 (put32 (put32 (put32 m0 (base) (en - base))
        (base + 4) 1) (base + 8) 0) (base + 12) 0) a) as Hw.
    { intros a Ha1 Ha2. apply word_ext. intros x Hx. rewrite Hm, decide_False by lia. done. }
    rewrite !Hw by lia. words. done.
  - intros x; cbn [b_addr b_size]; unfold b_end; cbn [b_addr b_size]. intros Hx.
    rewrite Hm, decide_True by lia. done.
Qed.

(** Callers may store anything into the bytes they own. *)
Lemma seg_user_write m m' e prv a bs z :
  seg m e prv a bs z -> (forall x, a <= x < z -> ~ user_byte bs x -> m' x = m x) ->
  seg m' e prv a bs z.
Proof.
  revert prv a. induction bs as [|b bs IH]; intros prv a; cbn [seg]; [done|].
  intros (<- & Hok & Hh & Hc & Hs) He. pose proof (ok_min b Hok). pose proof (seg_le _ _ _ _ _ _ Hs).
  assert (forall x, b_addr b <= x < b_end b ->
    (forall u, b_user b = Some u -> ~ (b_addr b + 24 <= x < b_addr b + 24 + u)) -> m' x = m x) as Hb.
  { intros x Hx Hu. apply He; [lia|]. intros (c & u & Hcin & Hcu & Hr).
    unfold user_ptr, HEADER_SIZE, KASAN_CANARY_BYTES in Hr. apply elem_of_cons in Hcin as [->|Hcin].
    - apply (Hu u Hcu). lia.
    - destruct (seg_addr_bounds _ _ _ _ _ _ _ Hs Hcin) as (? & _ & _). unfold b_end in *. lia. }
  unfold b_end in *. split_and!; try done.
  - eapply header_ext; [|exact Hh]. intros x Hx. apply Hb; [lia|]. intros. lia.
  - unfold contents in *. destruct (b_user b) as [u|] eqn:Eu.
    + destruct (ok_user b Hok u Eu). destruct Hc as (C1 & C2 & C3 & C4 & C5). unfold b_end in *.
      rewrite !(word_ext m m') by (intros x Hx; apply Hb; [lia|intros v [= <-]; lia]).
      split_and!; try done. eapply poisoned_ext; [exact C5|].
      intros x Hx. apply Hb; [lia|intros v [= <-]; lia].
    + eapply poisoned_ext; [exact Hc|]. unfold b_end. intros x Hx. apply Hb; [lia|done].
  - apply IH; [done|]. unfold b_end. intros x Hx Hn. apply He; [lia|].
    intros (c & u & Hcin & Hcu & Hr). apply elem_of_cons in Hcin as [->|Hcin]; [|apply Hn; by exists c, u].
    destruct (ok_user b Hok u Hcu). unfold user_ptr, HEADER_SIZE, KASAN_CANARY_BYTES in Hr. lia.
Qed.

Lemma heap_rep_user_write h bs m' :
  heap_rep h bs -> (forall x, ~ user_byte bs x -> m' x = kbytes h x) ->
  heap_rep (set_kbytes m' h) bs.
Proof.
  intros [Hb He Hst Hs Hadj] Hm. constructor; try done.
  eapply seg_user_write; [exact Hs|]. intros x _. apply Hm.
Qed.

Lemma free_of_poison h a p :
  64 <= heap_base h -> heap_base h <= a -> poisoned (kbytes h) a (a + 8) -> a mod 4 = 0 ->
  a + 8 <= heap_end_var h -> p = a + 8 -> heap_free p h = Err Panic.
Proof.
  intros Hb Hba Hp Ha He ->. unfold heap_free, KASAN_CANARY_BYTES.
  rewrite (proj2 (Z.eqb_neq _ 0)) by lia. replace (a + 8 - 8) with a by lia.
  mem_step. rewrite (poisoned_word _ a (a + 8)) by (done || lia). rewrite Z.eqb_refl.
  erewrite bind_ok.
  2: { unfold kasan_check_poison. rewrite (proj2 (Z.eqb_neq a 0)) by lia. cbn [orb Z.eqb].
       by apply check_poison_ok. }
  apply bind_err. unfold kasan_free_check, validate_head_canary, KASAN_CANARY_BYTES.
  rewrite (proj2 (Z.eqb_neq _ 0)) by lia. replace (a + 8 - 8) with a by lia.
  rewrite bind_assoc. mem_step. by rewrite (poisoned_word _ a (a + 8)) by (done || lia).
Qed.

(** The freed block, grown by its neighbours, covers the old one. *)
Lemma abs_free_covers h l1 b l2 :
  heap_rep h (l1 ++ b :: l2) ->
  exists c, c ∈ abs_free l1 b l2 /\ b_user c = None /\ b_addr c <= b_addr b /\ b_end b <= b_end c.
Proof.
  intros [_ _ _ Hs _]. unfold abs_free.
  assert (exists b1 l2', join_next (freed b) l2 = (b1, l2') /\ b_user b1 = None /\
    b_addr b1 = b_addr b /\ b_end b <= b_end b1) as (b1 & l2' & -> & Hu1 & Ha1 & He1).
  { destruct l2 as [|c l2]; cbn [join_next]; [by eexists _, _|].
    destruct (is_free_block c); eexists _, _; (split; [reflexivity|]); try done.
    split; [done|]. split; [done|]. apply seg_app in Hs as (y & _ & (_ & _ & _ & _ & (_ & Hok & _))).
    pose proof (ok_min c Hok). unfold b_end; simpl. lia. }
  unfold join_prev. destruct (last l1) as [p|] eqn:El.
  2: { exists b1. split; [apply elem_of_app; right; left|]. split; [done|]. lia. }
  destruct (is_free_block p).
  2: { exists b1. split; [apply elem_of_app; right; left|]. split; [done|]. lia. }
  apply last_Some in El as [k ->]. rewrite <- app_assoc in Hs.
  apply seg_app in Hs as (y & _ & (Hp & Hok & _ & _ & (Hb & _))). pose proof (ok_min p Hok).
  exists (joined p b1). split; [apply elem_of_app; right; left|]. split; [done|].
  unfold b_end in *. simpl in *. lia.
Qed.

(** ** Reachable heaps *)

(** The heap after [heap_init] on an arena, under any sequence of requests,
    releases of live pointers and stores by the owners into their bytes. *)
Inductive heap_reach : kheap -> list block -> Prop :=
| hr_init h h' :
    64 <= heap_base h -> heap_base h mod 4 = 0 -> heap_end_var h mod 4 = 0 ->
    heap_base h + 36 <= heap_end_var h -> heap_end_var h < 4294967296 ->
    heap_init h = Ok (tt, h') ->
    heap_reach h' [Block (heap_base h) (heap_size_var h) None]
| hr_alloc h bs n p h' :
    heap_reach h bs -> 0 <= n < 4294967296 -> heap_alloc n h = Ok (p, h') ->
    heap_reach h' (snd (abs_alloc (heap_size_var h) n bs))
| hr_free h l1 b l2 u h' :
    heap_reach h (l1 ++ b :: l2) -> b_user b = Some u -> heap_free (user_ptr b) h = Ok (tt, h') ->
    heap_reach h' (abs_free l1 b l2)
| hr_write h bs m' :
    heap_reach h bs -> (forall x, ~ user_byte bs x -> m' x = kbytes h x) ->
    heap_reach (set_kbytes m' h) bs.

Lemma heap_reach_rep h bs : heap_reach h bs -> heap_rep h bs.
Proof.
  induction 1 as [h h' Hb Hb4 He4 Hs He E|h bs n p h' _ IH Hn E|h l1 b l2 u h' _ IH Hu E|h bs m' _ IH Hm].
  - destruct (heap_init_ok h) as (h1 & E1 & _ & _ & Hrep); try done. rewrite E in E1.
    injection E1 as <-. done.
  - destruct (heap_alloc_ok h bs n IH Hn) as (h1 & E1 & Hrep & _). rewrite E in E1.
    injection E1 as _ <-. done.
  - destruct (heap_free_ok h l1 b l2 u IH Hu) as (h1 & E1 & Hrep & _). rewrite E in E1.
    injection E1 as <-. done.
  - by apply heap_rep_user_write.
Qed.

Lemma seg_disjoint m e prv a bs z i j b c :
  seg m e prv a bs z -> bs !! i = Some b -> bs !! j = Some c -> (i < j)%nat -> b_end b <= b_addr c.
Proof.
  revert prv a i j. induction bs as [|x bs IH]; intros prv a i j Hs Hi Hj Hij; [done|].
  destruct Hs as (<- & Hok & _ & _ & Hs). destruct i, j as [|j]; simpl in *; try lia.
  - injection Hi as ->. apply list_elem_of_lookup_2 in Hj.
    by destruct (seg_addr_bounds _ _ _ _ _ _ _ Hs Hj).
  - apply (IH _ _ _ _ Hs Hi Hj). lia.
Qed.

Lemma first_fit_None total bs :
  first_fit total bs = None <-> forall b, b ∈ bs -> fits total b = false.
Proof.
  induction bs as [|b bs IH]; simpl.
  - split; [intros _ b Hb; by apply not_elem_of_nil in Hb|done].
  - destruct (fits total b) eqn:E.
    + split; [done|]. intros H. specialize (H b ltac:(left)). congruence.
    + destruct (first_fit total bs) as [[[? ?] ?]|].
      * split; [done|]. intros H. exfalso. discriminate (proj2 IH). intros c Hc. apply H. by right.
      * split; [|done]. intros _ c Hc. apply elem_of_cons in Hc as [->|Hc]; [done|]. by apply IH.
Qed.

(** ** Properties *)

(** C12: [heap_alloc] never faults and never panics in a reachable heap.  It
    returns NULL exactly when the request is 0, too large for the arena or
    larger than every free block; otherwise it returns a pointer to [n] bytes
    that lie inside the arena, overlap no byte that belongs to another caller,
    and every such byte keeps its value. *)
Theorem heap_alloc_safe h bs n :
  heap_reach h bs -> 0 <= n < 4294967296 ->
  exists p h', heap_alloc n h = Ok (p, h') /\
    (p = 0 <-> n = 0 \/ heap_size_var h - 32 < n \/ heap_size_var h < total_of n \/
               forall b, b ∈ bs -> b_user b = None -> b_size b < total_of n) /\
    (forall x, user_byte bs x -> kbytes h' x = kbytes h x) /\
    (p <> 0 -> heap_base h <= p /\ p + n <= heap_end_var h /\
       (forall x, user_byte bs x -> ~ (p <= x < p + n)) /\
       forall x, p <= x < p + n -> user_byte (snd (abs_alloc (heap_size_var h) n bs)) x).
Proof.
  intros Hreach Hn. pose proof (heap_reach_rep h bs Hreach) as Hrep.
  destruct (heap_alloc_ok h bs n Hrep Hn) as (h' & E & _ & _ & _ & Hkeep).
  exists (fst (abs_alloc (heap_size_var h) n bs)), h'. split; [done|].
  pose proof Hrep as [[Hb _] _ _ Hs _]. unfold abs_alloc in *.
  destruct ((n =? 0) || (heap_size_var h - 32 <? n) || (heap_size_var h <? total_of n)) eqn:Eg.
  { split; [|split; [done|by intros []]]. split; [intros _|done].
    apply orb_true_iff in Eg as [[?%Z.eqb_eq|?%Z.ltb_lt]%orb_true_iff|?%Z.ltb_lt]; lia || auto. }
  bool_case. destruct (first_fit (total_of n) bs) as [[[l1 b] l2]|] eqn:Ef; cbn [fst snd] in *.
  - destruct (first_fit_Some _ _ _ _ _ Ef) as [-> Hfit]. unfold fits in Hfit.
    apply andb_true_iff in Hfit as [Hu%bool_decide_eq_true Hsz%Z.leb_le].
    assert (b ∈ l1 ++ b :: l2) as Hbin by (apply elem_of_app; right; left).
    destruct (seg_addr_bounds _ _ _ _ _ _ _ Hs Hbin) as (Hba & Hbe & Hbok).
    destruct (total_of_bounds n) as [Htot _]. unfold b_end in *.
    assert (user_ptr b = b_addr b + 24) as Hp by (unfold user_ptr, HEADER_SIZE, KASAN_CANARY_BYTES; lia).
    split_and!; try done.
    + split; [lia|]. intros [?|[?|[?|Hall]]]; try lia. specialize (Hall b Hbin Hu). lia.
    + intros _. rewrite Hp. split_and!; try lia.
      * intros x (c & u & Hc & Hcu & Hx).
        assert (c ∈ l1 ++ l2) as Hc'.
        { apply elem_of_app. apply elem_of_app in Hc as [?|Hc]; [by left|right].
          apply elem_of_cons in Hc as [->|?]; [congruence|done]. }
        destruct (user_byte_outside _ _ _ _ l1 b l2 _ x Hs) as [?|?]; [by exists c, u|lia|].
        unfold b_end in *. lia.
      * intros x Hx. exists (Block (b_addr b) (if total_of n + 32 <? b_size b then total_of n else b_size b) (Some n)), n.
        split; [|split; [done|by rewrite <- Hp in Hx]].
        apply elem_of_app; right. apply elem_of_app; left. unfold alloc_split.
        destruct (_ <? _); left.
  - split; [|split; [done|by intros []]]. split; [intros _|done]. right. right. right.
    intros b Hbin Hbu. rewrite first_fit_None in Ef. specialize (Ef b Hbin). unfold fits in Ef.
    rewrite bool_decide_true in Ef by done. simpl in Ef. by apply Z.leb_gt in Ef.
Qed.

(** A 1 KiB arena with arbitrary contents. *)
Definition demo_arena : kheap := Kheap 4096 5120 0 (fun x => x mod 7).

Lemma demo_heap : exists h, heap_reach h [Block 4096 1024 None] /\ heap_size_var h = 1024.
Proof.
  destruct (heap_init_ok demo_arena) as (h & E & Hb & He & _); try (vm_compute; congruence).
  exists h. split; [|unfold heap_size_var; by rewrite Hb, He].
  apply (hr_init demo_arena h); try exact E; vm_compute; congruence.
Qed.

Lemma heap_alloc_safe_witness :
  exists h p h', heap_reach h [Block 4096 1024 None] /\ heap_alloc 100 h = Ok (p, h') /\ p <> 0.
Proof.
  destruct demo_heap as (h & Hr & Hsz).
  destruct (heap_alloc_safe h [Block 4096 1024 None] 100 Hr) as (p & h' & E & Hnull & _); [lia|].
  exists h, p, h'. split; [exact Hr|]. split; [exact E|]. intros Hp.
  destruct (proj1 Hnull Hp) as [H|[H|[H|H]]]; [lia|lia|rewrite Hsz in H; vm_compute in H; congruence|].
  assert (1024 < total_of 100) by (apply (H (Block 4096 1024 None)); [left|done]). vm_compute in H0. congruence.
Defined.

(** C13: [heap_free] of a live pointer never faults and never panics: the
    canaries of every reachable heap are intact.  The block returns to the
    free list and no two adjacent blocks are free afterwards; the bytes of the
    other callers keep their values; freeing the same pointer again is caught
    and panics. *)
Theorem heap_free_safe h l1 b l2 u :
  heap_reach h (l1 ++ b :: l2) -> b_user b = Some u ->
  exists h', heap_free (user_ptr b) h = Ok (tt, h') /\
    heap_reach h' (abs_free l1 b l2) /\ no_adjacent_free (abs_free l1 b l2) /\
    (forall x, user_byte (l1 ++ l2) x -> kbytes h' x = kbytes h x) /\
    heap_free (user_ptr b) h' = Err Panic.
Proof.
  intros Hreach Hu. pose proof (heap_reach_rep _ _ Hreach) as Hrep.
  destruct (heap_free_ok h l1 b l2 u Hrep Hu) as (h' & E & Hrep' & _ & _ & Hkeep).
  exists h'. split; [done|]. split; [by eapply hr_free|]. split; [apply Hrep'|]. split; [done|].
  destruct (abs_free_covers h l1 b l2 Hrep) as (c & Hc & Hcu & Ha & He).
  destruct Hrep' as [[Hb0 _] _ _ Hs _].
  assert (b ∈ l1 ++ b :: l2) as Hbin by (apply elem_of_app; right; left).
  destruct (seg_addr_bounds _ _ _ _ _ _ _ (rep_seg _ _ Hrep) Hbin) as (_ & _ & Hbok).
  destruct (seg_addr_bounds _ _ _ _ _ _ _ Hs Hc) as (Hca & Hce & _).
  destruct (ok_user b Hbok u Hu). unfold b_end in *.
  apply list_elem_of_split in Hc as (k1 & k2 & Ek). rewrite Ek in Hs.
  apply seg_app in Hs as (y & _ & (_ & _ & _ & Hcont & _)). unfold contents in Hcont.
  rewrite Hcu in Hcont. unfold b_end in Hcont.
  apply (free_of_poison h' (b_addr b + 16)); try lia.
  - intros x Hx. apply Hcont. lia.
  - apply mod4_plus; [apply Hbok|done].
  - unfold user_ptr, HEADER_SIZE, KASAN_CANARY_BYTES. lia.
Qed.

Lemma demo_alloc : exists h l1 b l2, heap_reach h (l1 ++ b :: l2) /\ b_user b = Some 100.
Proof.
  destruct demo_heap as (h & Hr & Hsz). pose proof (heap_reach_rep _ _ Hr) as Hrep.
  destruct (heap_alloc_ok h _ 100 Hrep ltac:(lia)) as (h' & E & _).
  exists h', [], (Block 4096 132 (Some 100)), [Block 4228 892 None]. split; [|done].
  assert (heap_reach h' (snd (abs_alloc (heap_size_var h) 100 [Block 4096 1024 None]))) as H
    by (eapply hr_alloc; [exact Hr|lia|exact E]).
  rewrite Hsz in H. exact H.
Qed.

Lemma heap_free_safe_witness :
  exists h b h', b_user b = Some 100 /\ heap_free (user_ptr b) h = Ok (tt, h') /\
    heap_free (user_ptr b) h' = Err Panic.
Proof.
  destruct demo_alloc as (h & l1 & b & l2 & Hr & Hu).
  destruct (heap_free_safe h l1 b l2 100 Hr Hu) as (h' & E & _ & _ & _ & E2).
  exists h, b, h'. split; [exact Hu|]. split; [exact E|exact E2].
Defined.

(** C14: A write past the end of an allocation is detected.  If any of the
    eight bytes behind a live allocation of a reachable heap was overwritten
    with another value, [heap_free] of that pointer panics instead of
    returning the block to the list. *)
Theorem heap_overflow_detected h l1 b l2 u x v :
  heap_reach h (l1 ++ b :: l2) -> b_user b = Some u ->
  user_ptr b + u <= x < user_ptr b + u + 8 -> v <> kbytes h x ->
  heap_free (user_ptr b) (set_kbytes (put8 (kbytes h) x v) h) = Err Panic.
Proof.
  intros Hreach Hu Hx Hv. pose proof (heap_reach_rep _ _ Hreach) as Hrep.
  destruct (at_block_of _ _ _ _ Hrep) as (Hb0 & Hb & He & Hs).
  destruct Hs as (_ & Hok & _ & Hc & Hs). pose proof (seg_le _ _ _ _ _ _ Hs).
  destruct (ok_user b Hok u Hu) as [Hu0 Hu1]. unfold contents in Hc. rewrite Hu in Hc.
  destruct Hc as (C1 & C2 & C3 & C4 & _). unfold b_end, user_ptr, HEADER_SIZE, KASAN_CANARY_BYTES in *.
  set (m := put8 (kbytes h) x v).
  assert (Hsame : forall a, a + 4 <= b_addr b + 24 + u -> word m a = word (kbytes h) a).
  { intros a Ha. apply word_ext. intros y Hy. unfold m, put8. rewrite (proj2 (Z.eqb_neq y x)); [done|lia]. }
  assert (Hbad : word m (b_addr b + 24 + u) <> KASAN_CANARY_TAIL \/
                 word m (b_addr b + 28 + u) <> KASAN_CANARY_TAIL).
  { destruct (decide (x < b_addr b + 28 + u)); [left; rewrite <- C3|right; rewrite <- C4];
      apply word_changed; (done || lia). }
  unfold heap_free, KASAN_CANARY_BYTES. rewrite (proj2 (Z.eqb_neq _ 0)) by lia.
  replace (b_addr b + 16 + 8 - 8) with (b_addr b + 16) by lia. mem_step.
  rewrite Hsame, C1 by lia. cbn [Z.eqb Pos.eqb KASAN_CANARY_HEAD KASAN_POISON_WORD]. run.
  apply bind_err. unfold kasan_free_check, validate_head_canary, validate_tail_canary, KASAN_CANARY_BYTES.
  rewrite (proj2 (Z.eqb_neq _ 0)) by lia. replace (b_addr b + 16 + 8 - 8) with (b_addr b + 16) by lia.
  rewrite bind_assoc. mem_step. rewrite Hsame, C1 by lia. cbn [Z.eqb negb Pos.eqb KASAN_CANARY_HEAD].
  rewrite bind_assoc. replace (b_addr b + 16 + 4) with (b_addr b + 20) by lia. mem_step.
  rewrite Hsame, C2 by lia. run. replace (b_addr b + 16 + 8 + u) with (b_addr b + 24 + u) by lia.
  rewrite u32_id by (unfold is_u32; lia). rewrite bind_assoc. mem_step.
  destruct (Z.eqb_spec (word m (b_addr b + 24 + u)) KASAN_CANARY_TAIL) as [Ht|Ht]; [|done].
  rewrite bind_assoc. replace (b_addr b + 24 + u + 4) with (b_addr b + 28 + u) by lia. mem_step.
  destruct Hbad as [|Hbad]; [done|]. by rewrite (proj2 (Z.eqb_neq _ _) Hbad).
Qed.

Lemma heap_overflow_detected_witness :
  exists h b v, b_user b = Some 100 /\
    heap_free (user_ptr b) (set_kbytes (put8 (kbytes h) (user_ptr b + 100) v) h) = Err Panic.
Proof.
  destruct demo_alloc as (h & l1 & b & l2 & Hr & Hu).
  exists h, b, (kbytes h (user_ptr b + 100) + 1). split; [exact Hu|].
  apply (heap_overflow_detected h l1 b l2 100 _ _ Hr Hu); lia.
Defined.


