(* ===== verification/Alloc.v ===== *)
(** * The allocator interface

    What the kernel's allocator promises to the components that call kmalloc
    and kfree (process.c, fork.c, ramfs.c), as a class: a successful
    allocation is a fresh block that overlaps no other, a failed one changes
    nothing, and a live block can be freed.  The kernel heap of mm/heap.c
    discharges it; it is what kmalloc calls before the caches of mm/slub.c are
    up and for every size they do not serve. *)

From stdpp Require Import base tactics numbers list gmap.
From S2P Require Import Prelude Kasan Heap.

(** Live blocks are given by their address and the size asked for. *)
Definition apart (L : gmap Z Z) (p n : Z) : Prop :=
  forall q k, L !! q = Some k -> p + n <= q \/ q + k <= p.

Class Kmalloc (M : Type) := {
  km_rep : M -> gmap Z Z -> Prop;
  kmalloc : Z -> ST M Z;
  kfree : Z -> ST M unit;
  kmalloc_zero m L : km_rep m L -> exists m', kmalloc 0 m = Ok (0, m') /\ km_rep m' L;
  kmalloc_spec m L n : km_rep m L -> 0 < n < 4294967296 ->
    exists p m', kmalloc n m = Ok (p, m') /\
      ((p = 0 /\ km_rep m' L) \/
       (0 < p /\ p + n <= 4294967296 /\ L !! p = None /\ apart L p n /\ km_rep m' (<[p := n]> L)));
  kfree_null m : kfree 0 m = Ok (tt, m);
  kfree_spec m L p n : km_rep m L -> L !! p = Some n ->
    exists m', kfree p m = Ok (tt, m') /\ km_rep m' (delete p L);
  km_nonnull m L p n : km_rep m L -> L !! p = Some n -> 0 < p
}.

(** ** The heap is such an allocator *)

Definition live (bs : list block) : gmap Z Z :=
  foldr (fun b m => match b_user b with Some n => <[user_ptr b := n]> m | None => m end) ∅ bs.

Lemma live_cons b bs :
  live (b :: bs) = match b_user b with Some n => <[user_ptr b := n]> (live bs) | None => live bs end.
Proof. done. Qed.

Lemma live_app l1 l2 : live (l1 ++ l2) = live l1 ∪ live l2.
Proof.
  induction l1 as [|b l1 IH].
  { change (live []) with (∅ : gmap Z Z). by rewrite (left_id_L ∅ (∪)). }
  change ((b :: l1) ++ l2) with (b :: (l1 ++ l2)). rewrite !live_cons, IH. destruct (b_user b); [|done]. by rewrite insert_union_l.
Qed.

Lemma live_mid l1 b l2 :
  live (l1 ++ b :: l2) = match b_user b with
                         | Some n => live l1 ∪ <[user_ptr b := n]> (live l2)
                         | None => live (l1 ++ l2)
                         end.
Proof. rewrite !live_app, live_cons. by destruct (b_user b). Qed.

Lemma live_lookup bs p n :
  live bs !! p = Some n -> exists b, b ∈ bs /\ user_ptr b = p /\ b_user b = Some n.
Proof.
  induction bs as [|b bs IH]; simpl; [by rewrite lookup_empty|].
  intros H. destruct (b_user b) as [u|] eqn:Eb.
  - destruct (decide (user_ptr b = p)) as [<-|].
    + rewrite lookup_insert_eq in H. injection H as ->. exists b. split; [left|done].
    + rewrite lookup_insert_ne in H by done. destruct (IH H) as (c & ? & ?). exists c. split; [by right|done].
  - destruct (IH H) as (c & ? & ?). exists c. split; [by right|done].
Qed.

(** Blocks of a segment lie apart from the ones before and behind them. *)
Lemma seg_apart m e prv a l1 b l2 z c :
  seg m e prv a (l1 ++ b :: l2) z -> c ∈ l1 ++ l2 -> b_end c <= b_addr b \/ b_end b <= b_addr c.
Proof.
  intros Hs [Hc|Hc]%elem_of_app; apply list_elem_of_lookup in Hc as [i Hi].
  - left. pose proof (lookup_lt_Some _ _ _ Hi).
    eapply (seg_disjoint m e prv a _ z i (length l1)); [done|by rewrite lookup_app_l| |done].
    by rewrite lookup_app_r, Nat.sub_diag by lia.
  - right. eapply (seg_disjoint m e prv a _ z (length l1) (length l1 + S i)); [done| | |lia].
    + by rewrite lookup_app_r, Nat.sub_diag by lia.
    + rewrite lookup_app_r by lia. by replace (length l1 + S i - length l1)%nat with (S i) by lia.
Qed.

Lemma live_not_in m e prv a l1 b l2 z :
  seg m e prv a (l1 ++ b :: l2) z -> live l1 !! user_ptr b = None /\ live l2 !! user_ptr b = None.
Proof.
  intros Hs. assert (block_ok b) as Hb by (eapply seg_addr_bounds; [done|apply elem_of_app; right; left]).
  assert (forall l, l ⊆ l1 ++ l2 -> live l !! user_ptr b = None) as H.
  { intros l Hl. destruct (live l !! user_ptr b) as [n|] eqn:E; [|done].
    apply live_lookup in E as (c & Hc & Hp & Hu). apply Hl in Hc.
    assert (block_ok c) as Hok.
    { eapply seg_addr_bounds; [done|]. apply elem_of_app. apply elem_of_app in Hc as [?|?]; [by left|right; by right]. }
    pose proof (ok_min _ Hok). pose proof (ok_min _ Hb).
    destruct (seg_apart _ _ _ _ _ _ _ _ _ Hs Hc); unfold user_ptr, b_end in *; lia. }
  split; apply H; set_solver.
Qed.

Lemma live_join_next b l2 b1 l2' :
  b_user b = None -> join_next b l2 = (b1, l2') -> b_user b1 = None /\ live l2' = live l2.
Proof.
  unfold join_next. destruct l2 as [|c l2]; [by intros ? [= <- <-]|].
  unfold is_free_block. case_bool_decide as Hc; intros Hb [= <- <-]; [|done].
  split; [done|]. simpl. by rewrite Hc.
Qed.

Lemma live_join_prev l1 b l1' b1 :
  b_user b = None -> join_prev l1 b = (l1', b1) -> b_user b1 = None /\ live l1' = live l1.
Proof.
  unfold join_prev. destruct (last l1) as [p|] eqn:El; [|by intros ? [= <- <-]].
  unfold is_free_block. case_bool_decide as Hp; intros Hb [= <- <-]; [|done].
  split; [done|]. apply last_Some in El as (l & ->). rewrite removelast_last, live_mid, Hp.
  by rewrite app_nil_r.
Qed.

Lemma live_abs_free l1 b l2 : live (abs_free l1 b l2) = live (l1 ++ l2).
Proof.
  unfold abs_free. destruct (join_next (freed b) l2) as [b1 l2'] eqn:E1.
  destruct (live_join_next (freed b) _ _ _ eq_refl E1) as [H1 H2].
  destruct (join_prev l1 b1) as [l1' b2] eqn:E2. destruct (live_join_prev _ _ _ _ H1 E2) as [H3 H4].
  by rewrite live_mid, H3, !live_app, H2, H4.
Qed.

Definition heap_live (h : kheap) (L : gmap Z Z) : Prop := exists bs, heap_rep h bs /\ L = live bs.

Lemma heap_live_alloc h L n :
  heap_live h L -> 0 < n < 4294967296 ->
  exists p h', heap_alloc n h = Ok (p, h') /\
    ((p = 0 /\ heap_live h' L) \/
     (0 < p /\ p + n <= 4294967296 /\ L !! p = None /\ apart L p n /\ heap_live h' (<[p := n]> L))).
Proof.
  intros (bs & Hrep & ->) Hn. destruct (heap_alloc_ok h bs n Hrep ltac:(lia)) as (h' & E & Hrep' & _).
  eexists _, h'. split; [exact E|]. clear E. revert Hrep'. unfold abs_alloc.
  destruct (_ || _) eqn:Eg; [intros Hrep'; left; by split; [|exists bs]|].
  destruct (first_fit (total_of n) bs) as [[[l1 b] l2]|] eqn:Ef;
    [|intros Hrep'; left; by split; [|exists bs]].
  cbn [fst snd]. intros Hrep'. right. destruct (first_fit_Some _ _ _ _ _ Ef) as [-> Hfit].
  apply andb_true_iff in Hfit as [Hu%bool_decide_eq_true Hsz%Z.leb_le].
  pose proof Hrep as [[Hb0 _] Hend _ Hs _]. destruct (total_of_bounds n) as [Ht _].
  destruct (seg_addr_bounds _ _ _ _ _ _ b Hs) as (Hlo & Hhi & Hok); [apply elem_of_app; right; left|].
  pose proof (ok_min _ Hok). assert (user_ptr b = b_addr b + 24) as Hp by (unfold user_ptr, HEADER_SIZE, KASAN_CANARY_BYTES; lia).
  destruct (live_not_in _ _ _ _ _ _ _ _ Hs) as [N1 N2]. unfold b_end in *.
  split; [lia|]. split; [lia|]. split; [|split].
  - by rewrite live_mid, Hu, live_app, lookup_union_None.
  - intros q k Hq. apply live_lookup in Hq as (c & Hc & <- & Hcu).
    assert (c ∈ l1 ++ l2) as Hc'.
    { apply elem_of_app. apply elem_of_app in Hc as [?|Hc]; [by left|right].
      apply elem_of_cons in Hc as [->|?]; [congruence|done]. }
    assert (block_ok c) as Hcok by (eapply seg_addr_bounds; done).
    destruct (ok_user _ Hcok _ Hcu). pose proof (seg_apart _ _ _ _ _ _ _ _ _ Hs Hc') as Hd.
    unfold user_ptr, b_end, HEADER_SIZE, KASAN_CANARY_BYTES in *. lia.
  - eexists. split; [exact Hrep'|]. rewrite live_mid, Hu. unfold alloc_split.
    destruct (total_of n + 32 <? b_size b); cbn [app]; rewrite live_mid, ?live_cons; cbn [b_user];
      by rewrite <- insert_union_r, live_app by done.
Qed.

Lemma heap_live_free h L p n :
  heap_live h L -> L !! p = Some n ->
  exists h', heap_free p h = Ok (tt, h') /\ heap_live h' (delete p L).
Proof.
  intros (bs & Hrep & ->) Hp. apply live_lookup in Hp as (b & Hb & <- & Hu).
  apply list_elem_of_split in Hb as (l1 & l2 & ->).
  destruct (heap_free_ok h l1 b l2 n Hrep Hu) as (h' & E & Hrep' & _).
  exists h'. split; [done|]. eexists. split; [exact Hrep'|].
  destruct (live_not_in _ _ _ _ _ _ _ _ (rep_seg _ _ Hrep)) as [N1 N2].
  rewrite live_abs_free, live_mid, Hu, live_app.
  rewrite <- insert_union_r by done. rewrite delete_insert_id; [done|]. by apply lookup_union_None.
Qed.

#[export] Instance heap_kmalloc : Kmalloc kheap.
Proof.
  refine {| km_rep := heap_live; kmalloc := heap_alloc; kfree := heap_free |}.
  - intros h L (bs & Hrep & ->). destruct (heap_alloc_ok h bs 0 Hrep ltac:(lia)) as (h' & E & Hrep' & _).
    exists h'. split; [done|by exists bs].
  - apply heap_live_alloc.
  - done.
  - apply heap_live_free.
  - intros h L p n (bs & Hrep & ->) Hp. apply live_lookup in Hp as (b & Hb & <- & _).
    destruct (seg_addr_bounds _ _ _ _ _ _ b (rep_seg _ _ Hrep) Hb) as (Hlo & _ & _).
    destruct (rep_base _ _ Hrep). unfold user_ptr, HEADER_SIZE, KASAN_CANARY_BYTES. lia.
Defined.

(** ** A bump allocator

    The simplest allocator that keeps the promise: it hands out increasing
    addresses and never reuses one.  The examples of the client components run
    on it. *)
Record arena := Arena { a_next : Z; a_live : gmap Z Z }.

Definition arena_rep (a : arena) (L : gmap Z Z) : Prop :=
  a_live a = L /\ 0 < a_next a /\
  forall q k, L !! q = Some k -> 0 < q /\ 0 < k /\ q + k <= a_next a.

Definition arena_alloc (n : Z) : ST arena Z := fun a =>
  if (n <=? 0) || (4294967296 <? a_next a + n) then Ok (0, a)
  else Ok (a_next a, Arena (a_next a + n) (<[a_next a := n]> (a_live a))).

Definition arena_free (p : Z) : ST arena unit := modify (fun a => Arena (a_next a) (delete p (a_live a))).

#[export] Instance arena_kmalloc : Kmalloc arena.
Proof.
  refine {| km_rep := arena_rep; kmalloc := arena_alloc;
            kfree := fun p => if p =? 0 then ret tt else arena_free p |}.
  - intros a L H. by exists a.
  - intros a L n (HL & H0 & Hb) Hn. unfold arena_alloc.
    destruct ((n <=? 0) || (4294967296 <? a_next a + n)) eqn:E.
    { exists 0, a. split; [done|]. by left. }
    apply orb_false_iff in E as [E1%Z.leb_gt E2%Z.ltb_ge]. eexists _, _. split; [reflexivity|]. right.
    assert (L !! a_next a = None) as Hnew.
    { destruct (L !! a_next a) as [k|] eqn:Ek; [|done]. apply Hb in Ek. lia. }
    split; [done|]. split; [done|]. split; [done|]. split.
    + intros q k Hq. apply Hb in Hq. lia.
    + split; [by rewrite <- HL|]. split; [simpl; lia|]. simpl. intros q k Hq.
      apply lookup_insert_Some in Hq as [[<- <-]|[_ Hq]]; [lia|]. apply Hb in Hq. lia.
  - done.
  - intros a L p n (HL & H0 & Hb) Hp. pose proof (Hb _ _ Hp). rewrite (proj2 (Z.eqb_neq p 0)) by lia.
    eexists. split; [reflexivity|]. split; [by rewrite <- HL|]. split; [done|]. simpl. intros q k Hq.
    apply lookup_delete_Some in Hq as [_ Hq]. by apply Hb.
  - intros a L p n (HL & H0 & Hb) Hp. by apply Hb in Hp as [? _].
Defined.

Definition arena_init : arena := Arena 4096 ∅.

Lemma arena_init_rep : km_rep arena_init ∅.
Proof. split; [done|]. split; [done|]. intros q k Hq. by rewrite lookup_empty in Hq. Qed.
