(* ===== verification/Timer.v ===== *)
(** * The clock

    Models core/timer.c and the inline functions of include/kernel/timer.h: the
    counter of timer interrupts, the seconds derived from it, and the sleep
    that waits for a number of them.  The interrupts that wake the processor
    while it sleeps are an argument, [true] for one of the timer; a sleep that
    sees the end of the list waits for ever. *)

From stdpp Require Import base tactics numbers list.
From S2P Require Import Prelude.

Definition TIMER_HZ := 100.
Definition UNIXOS_BOOT_EPOCH_S := 1737280000.

Record timer := Timer {
  timer_ticks : Z;
  seconds : Z
}.

Definition timer_bss : timer := Timer 0 0.

Definition clocksource_tick : ST timer unit :=
  modify (fun t =>
    let new_ticks := u32 (timer_ticks t + 1) in
    Timer new_ticks (if new_ticks mod TIMER_HZ =? 0 then u32 (seconds t + 1) else seconds t)).

Definition get_timer_ticks : ST timer Z := gets timer_ticks.
Definition get_seconds : ST timer Z := gets seconds.

Definition time_now_epoch_secs : ST timer Z :=
  s ← get_seconds; ret (u32 (UNIXOS_BOOT_EPOCH_S + s)).

Definition timer_subsec_usec (ticks : Z) : Z := u32 (ticks mod TIMER_HZ * (1000000 / TIMER_HZ)).
Definition timer_subsec_nsec (ticks : Z) : Z := u32 (ticks mod TIMER_HZ * (1000000000 / TIMER_HZ)).

(** The pair of [tv_sec] and [tv_usec]. *)
Definition time_now_timeval : ST timer (Z * Z) :=
  ticks ← get_timer_ticks;
  secs ← time_now_epoch_secs;
  ret (s32 secs, s32 (timer_subsec_usec ticks)).

Definition time_now_timespec : ST timer (Z * Z) :=
  ticks ← get_timer_ticks;
  secs ← time_now_epoch_secs;
  ret (s32 secs, s32 (timer_subsec_nsec ticks)).

(** The loop around [sti; hlt; cli]; the interrupts not used are returned. *)
Fixpoint sleep_loop (start ticks_to_wait : Z) (irqs : list bool) : ST timer (list bool) :=
  now ← get_timer_ticks;
  if u32 (now - start) <? ticks_to_wait then
    match irqs with
    | [] => fail NoFuel
    | irq :: irqs' =>
        (if irq then clocksource_tick else ret tt);;
        sleep_loop start ticks_to_wait irqs'
    end
  else ret irqs.

Definition sleep_ticks (ms : Z) : Z :=
  let ticks_to_wait := u32 (ms * TIMER_HZ) / 1000 in
  if ticks_to_wait =? 0 then 1 else ticks_to_wait.

Definition sleep_ms (ms : Z) (irqs : list bool) : ST timer (list bool) :=
  if ms =? 0 then ret irqs
  else
    start ← get_timer_ticks;
    sleep_loop start (sleep_ticks ms) irqs.

(** [req] and [rem] are pairs of [tv_sec] and [tv_nsec]. *)
Definition time_sleep_timespec (req : option (Z * Z)) (rem : bool) (irqs : list bool)
    : ST timer (Z * option (Z * Z) * list bool) :=
  match req with
  | None => ret (-1, None, irqs)
  | Some (tv_sec, tv_nsec) =>
      let ms := u32 (u32 (u32 tv_sec * 1000) + u32 tv_nsec / 1000000) in
      let ms := if (ms =? 0) && (0 <? tv_nsec) then 1 else ms in
      rest ← sleep_ms ms irqs;
      ret (0, if rem then Some (0, 0) else None, rest)
  end.

(** ** The counter *)

(** How many of a list of interrupts are those of the timer. *)
Definition ticks_in (irqs : list bool) : Z := Z.of_nat (length (filter (fun b : bool => b = true) irqs)).

Lemma ticks_in_cons b irqs : ticks_in (b :: irqs) = (if b then 1 else 0) + ticks_in irqs.
Proof. unfold ticks_in. rewrite filter_cons. destruct b; case_decide; simpl; try done; lia. Qed.

(** Below the first overflow of the counter the seconds are its hundredth. *)
Definition in_step (t : timer) : Prop := is_u32 (timer_ticks t) /\ seconds t = timer_ticks t / TIMER_HZ.

Lemma tick_in_step t : in_step t -> timer_ticks t < 4294967295 ->
  exists t', clocksource_tick t = Ok (tt, t') /\ in_step t' /\ timer_ticks t' = timer_ticks t + 1.
Proof.
  intros [Ht Hs] Hlt. eexists. split; [reflexivity|]. unfold in_step, is_u32 in *. cbn [timer_ticks seconds].
  rewrite (u32_id (timer_ticks t + 1)) by (unfold is_u32; lia). split; [|done]. split; [lia|].
  rewrite Hs. unfold TIMER_HZ.
  pose proof (Z.div_mod (timer_ticks t) 100 ltac:(lia)). pose proof (Z.mod_pos_bound (timer_ticks t) 100 ltac:(lia)).
  pose proof (Z.div_mod (timer_ticks t + 1) 100 ltac:(lia)). pose proof (Z.mod_pos_bound (timer_ticks t + 1) 100 ltac:(lia)).
  destruct (Z.eqb_spec ((timer_ticks t + 1) mod 100) 0); [rewrite u32_id by (unfold is_u32; lia)|]; lia.
Qed.

(** A sleep returns as soon as its number of ticks has arrived, and not before,
    also across an overflow of the counter. *)
Lemma sleep_loop_ok pre post k n t start :
  u32 (timer_ticks t - start) = k -> 0 <= k -> k + ticks_in pre = n -> 0 <= n < 4294967296 ->
  (pre = [] \/ exists pre', pre = pre' ++ [true]) ->
  exists t', sleep_loop start n (pre ++ post) t = Ok (post, t').
Proof.
  revert k t. induction pre as [|b pre IH]; intros k t Hk Hk0 Hn Hn1 Hend.
  - assert (k = n) as -> by (unfold ticks_in in Hn; simpl in Hn; lia). exists t.
    destruct post; cbn [app sleep_loop]; unfold get_timer_ticks; rewrite bind_gets, Hk, Z.ltb_irrefl; done.
  - assert (0 < ticks_in (b :: pre)) as Hpos.
    { destruct Hend as [?|(pre' & ->)]; [done|]. unfold ticks_in. rewrite filter_app, length_app. simpl. lia. }
    cbn [app sleep_loop]. unfold get_timer_ticks at 1. rewrite bind_gets, Hk, (proj2 (Z.ltb_lt k n)) by lia.
    rewrite ticks_in_cons in Hn, Hpos.
    assert (pre = [] \/ exists pre', pre = pre' ++ [true]) as Hend'.
    { destruct Hend as [?|([|b' pre'] & E)]; [done| |]; injection E as -> ->; eauto. }
    destruct b.
    + apply (IH (k + 1)); try done; try lia. cbn [timer_ticks]. unfold u32 in *.
      rewrite Zminus_mod_idemp_l. replace (timer_ticks t + 1 - start) with (timer_ticks t - start + 1) by lia.
      assert (ticks_in pre >= 0) by (unfold ticks_in; lia).
      rewrite <- Zplus_mod_idemp_l, Hk. destruct (decide (k + 1 = 4294967296)); [lia|]. apply Z.mod_small. lia.
    + apply (IH k); try done; lia.
Qed.

Theorem sleep_waits ms pre post t :
  is_u32 (timer_ticks t) -> 0 < ms ->
  ticks_in (pre ++ [true]) = sleep_ticks ms ->
  exists t', sleep_ms ms (pre ++ [true] ++ post) t = Ok (post, t').
Proof.
  intros Ht Hms Hn. unfold sleep_ms. rewrite (proj2 (Z.eqb_neq ms 0)) by lia.
  unfold get_timer_ticks. rewrite bind_gets, app_assoc.
  apply (sleep_loop_ok _ _ 0); rewrite ?Z.sub_diag; try done; eauto.
  unfold sleep_ticks. destruct (Z.eqb_spec (u32 (ms * TIMER_HZ) / 1000) 0); [lia|].
  pose proof (u32_range (ms * TIMER_HZ)) as [H0 H1].
  split; [apply Z.div_pos; lia|]. apply Z.div_lt_upper_bound; lia.
Qed.

(** The product overflows at 42949673 ms: a sleep of about twelve hours ends
    with the first tick. *)
Lemma sleep_overflow : sleep_ticks 42949673 = 1 /\ sleep_ticks 42949672 = 4294967.
Proof. done. Qed.
