(* ===== verification/FsOps.v ===== *)
(** * The file system interface

    The vtable [fs_ops_t] of include/kernel/fs_internal.h, through which the
    VFS reaches a file system: a record of operations over the state of the
    file system, [None] for a NULL entry.  Output parameters are results; a
    buffer the callee writes is given as the bytes it stores there. *)

From stdpp Require Import base list.
From S2P Require Import Prelude Kstring.

(** The fields of [struct stat] that a file system fills in. *)
Record kstat := Kstat {
  st_ino : Z;
  st_mode : Z;
  st_nlink : Z;
  st_uid : Z;
  st_gid : Z;
  st_size : Z;
  st_blksize : Z;
  st_blocks : Z;
  st_atime : Z;
  st_mtime : Z;
  st_ctime : Z
}.

(** [offsetof(struct linux_dirent, d_name)]; the structure is packed. *)
Definition DIRENT_NAME_OFFSET := 10.

(** The [n] low bytes of a little-endian integer. *)
Fixpoint le_bytes (n : nat) (x : Z) : list Z :=
  match n with
  | O => []
  | S n' => x mod 256 :: le_bytes n' (x / 256)
  end.

Record fs_ops (F : Type) := FsOps {
  op_resolve : option (Z -> Z -> list Z -> ST F Z);
  op_read : option (Z -> Z -> Z -> Z -> ST F (Z * list Z));
  op_write : option (Z -> Z -> list Z -> Z -> Z -> ST F Z);
  op_stat : option (Z -> Z -> ST F (Z * option kstat));
  op_readdir : option (Z -> Z -> list Z -> Z -> Z -> ST F (Z * list Z * Z));
  op_mkdir : option (Z -> Z -> list Z -> Z -> ST F (Z * Z));
  op_create : option (Z -> Z -> list Z -> Z -> ST F (Z * Z));
  op_unlink : option (Z -> Z -> list Z -> ST F Z);
  op_rmdir : option (Z -> Z -> list Z -> ST F Z);
  op_truncate : option (Z -> Z -> Z -> ST F Z);
  op_chmod : option (Z -> Z -> Z -> ST F Z);
  op_chown : option (Z -> Z -> Z -> Z -> ST F Z);
  op_rename : option (Z -> Z -> list Z -> Z -> list Z -> ST F Z);
  op_dtype : option (Z -> Z -> ST F Z);
  op_inc_open : option (Z -> Z -> ST F unit);
  op_dec_open : option (Z -> Z -> ST F unit);
  op_get_open : option (Z -> Z -> ST F Z);
  op_release : option (Z -> Z -> ST F unit)
}.
Arguments op_resolve {F} _.
Arguments op_read {F} _.
Arguments op_write {F} _.
Arguments op_stat {F} _.
Arguments op_readdir {F} _.
Arguments op_mkdir {F} _.
Arguments op_create {F} _.
Arguments op_unlink {F} _.
Arguments op_rmdir {F} _.
Arguments op_truncate {F} _.
Arguments op_chmod {F} _.
Arguments op_chown {F} _.
Arguments op_rename {F} _.
Arguments op_dtype {F} _.
Arguments op_inc_open {F} _.
Arguments op_dec_open {F} _.
Arguments op_get_open {F} _.
Arguments op_release {F} _.

(** ** What a file system promises to the VFS *)

(** [inv] is an invariant of the file system and [ino] holds of the inode
    numbers it hands out.  Given such numbers, terminated names and buffers of
    the size it is told, every operation returns, keeps the invariant, and
    returns only such numbers; a lookup reads the name and not what lies behind
    it. *)
Class FsSafe {F} (ops : fs_ops F) (inv : F -> Prop) (ino : Z -> Prop) : Prop := {
  safe_resolve o priv d nm f : op_resolve ops = Some o -> inv f -> ino d -> 0 ∈ nm ->
    wp (o priv d nm) (fun r f' => inv f' /\ (r = 0 \/ ino r)) f;
  safe_resolve_string o priv d s nm f : op_resolve ops = Some o -> holds nm s ->
    o priv d nm f = o priv d (s ++ [0]) f;
  safe_read o priv i n off f : op_read ops = Some o -> inv f -> ino i -> is_u32 n -> is_u32 off ->
    wp (o priv i n off) (fun r f' => inv f' /\ r.1 <= n) f;
  safe_write o priv i b n off f : op_write ops = Some o -> inv f -> ino i ->
    0 <= n <= Z.of_nat (length b) -> is_u32 n -> is_u32 off ->
    wp (o priv i b n off) (fun r f' => inv f' /\ r <= n) f;
  safe_stat o priv i f : op_stat ops = Some o -> inv f -> ino i ->
    wp (o priv i) (fun r f' => inv f' /\ (r.1 < 0 \/ r.1 = 0 /\ exists st, r.2 = Some st /\ 0 <= st_size st < 2147483648)) f;
  safe_readdir o priv i b n pos f : op_readdir ops = Some o -> inv f -> ino i ->
    0 <= n <= Z.of_nat (length b) -> n < 2147483648 -> is_u32 pos ->
    wp (o priv i b n pos) (fun r f' => inv f' /\ is_u32 r.2 /\ length r.1.2 = length b /\ r.1.1 <= n) f;
  safe_mkdir o priv d nm mode f : op_mkdir ops = Some o -> inv f -> ino d -> 0 ∈ nm ->
    wp (o priv d nm mode) (fun r f' => inv f') f;
  safe_create o priv d nm mode f : op_create ops = Some o -> inv f -> ino d -> 0 ∈ nm ->
    wp (o priv d nm mode) (fun r f' => inv f' /\ (r.1 < 0 \/ ino r.2)) f;
  safe_unlink o priv d nm f : op_unlink ops = Some o -> inv f -> ino d -> 0 ∈ nm ->
    wp (o priv d nm) (fun _ f' => inv f') f;
  safe_rmdir o priv d nm f : op_rmdir ops = Some o -> inv f -> ino d -> 0 ∈ nm ->
    wp (o priv d nm) (fun _ f' => inv f') f;
  safe_truncate o priv i n f : op_truncate ops = Some o -> inv f -> ino i -> is_u32 n ->
    wp (o priv i n) (fun _ f' => inv f') f;
  safe_chmod o priv i mode f : op_chmod ops = Some o -> inv f -> ino i ->
    wp (o priv i mode) (fun _ f' => inv f') f;
  safe_chown o priv i uid gid f : op_chown ops = Some o -> inv f -> ino i ->
    wp (o priv i uid gid) (fun _ f' => inv f') f;
  safe_rename o priv d nm d' nm' f : op_rename ops = Some o -> inv f -> ino d -> ino d' ->
    0 ∈ nm -> 0 ∈ nm' -> wp (o priv d nm d' nm') (fun _ f' => inv f') f;
  safe_inc_open o priv i f : op_inc_open ops = Some o -> inv f -> ino i ->
    wp (o priv i) (fun _ f' => inv f') f;
  safe_dec_open o priv i f : op_dec_open ops = Some o -> inv f -> ino i ->
    wp (o priv i) (fun _ f' => inv f') f;
  safe_get_open o priv i f : op_get_open ops = Some o -> inv f -> ino i ->
    wp (o priv i) (fun _ f' => inv f') f;
  safe_release o priv i f : op_release ops = Some o -> inv f -> ino i ->
    wp (o priv i) (fun _ f' => inv f') f
}.
