(* ===== verification/Ramfs.v ===== *)
(** * The in-memory file system

    Models fs/ramfs.c and its [fs_ops] adapter fs/ramfs_ops.c: the inode
    table, directories as arrays of children, file data in kmalloc'ed buffers.
    A pointer to an inode is its index; a data pointer is an address into the
    store of buffers.  vfs_lock, held by every caller, makes an operation
    atomic. *)

From stdpp Require Import base tactics numbers list gmap.
From S2P Require Import Prelude Kstring FsOps Alloc.

Definition RAMFS_MAX_INODES := 128.
Definition RAMFS_MAX_CHILDREN := 64.
Definition RAMFS_MAX_NAME := 64.
Definition RAMFS_BLOCK_SIZE := 4096.
Definition RAMFS_MAX_FILE_SIZE := 16777216.
Definition RAMFS_INODE_FREE := 0.
Definition RAMFS_INODE_FILE := 1.
Definition RAMFS_INODE_DIR := 2.
Definition RAMFS_ROOT_INO := 1.
Definition S_IFDIR := 16384.
Definition S_IFREG := 32768.
Definition UINT32_MAX := 4294967295.

Record ramfs_inode := RamfsInode {
  i_type : Z;
  i_mode : Z;
  i_uid : Z;
  i_gid : Z;
  i_size : Z;
  i_nlink : Z;
  i_atime : Z;
  i_mtime : Z;
  i_ctime : Z;
  i_name : list Z;
  i_parent : Z;
  i_children : list Z;
  i_child_count : Z;
  i_data : Z;
  i_data_capacity : Z
}.

Definition inode_eta (n : ramfs_inode) : ramfs_inode :=
  RamfsInode (i_type n) (i_mode n) (i_uid n) (i_gid n) (i_size n) (i_nlink n) (i_atime n)
    (i_mtime n) (i_ctime n) (i_name n) (i_parent n) (i_children n) (i_child_count n) (i_data n)
    (i_data_capacity n).

Definition set_type : Z -> ramfs_inode -> ramfs_inode := ltac:(mkset inode_eta i_type).
Definition set_mode : Z -> ramfs_inode -> ramfs_inode := ltac:(mkset inode_eta i_mode).
Definition set_uid : Z -> ramfs_inode -> ramfs_inode := ltac:(mkset inode_eta i_uid).
Definition set_gid : Z -> ramfs_inode -> ramfs_inode := ltac:(mkset inode_eta i_gid).
Definition set_size : Z -> ramfs_inode -> ramfs_inode := ltac:(mkset inode_eta i_size).
Definition set_nlink : Z -> ramfs_inode -> ramfs_inode := ltac:(mkset inode_eta i_nlink).
Definition set_name : list Z -> ramfs_inode -> ramfs_inode := ltac:(mkset inode_eta i_name).
Definition set_parent : Z -> ramfs_inode -> ramfs_inode := ltac:(mkset inode_eta i_parent).
Definition set_children : list Z -> ramfs_inode -> ramfs_inode := ltac:(mkset inode_eta i_children).
Definition set_child_count : Z -> ramfs_inode -> ramfs_inode := ltac:(mkset inode_eta i_child_count).
Definition set_data : Z -> ramfs_inode -> ramfs_inode := ltac:(mkset inode_eta i_data).
Definition set_data_capacity : Z -> ramfs_inode -> ramfs_inode :=
  ltac:(mkset inode_eta i_data_capacity).

(** [kmemset(inode, 0, sizeof(ramfs_inode_t))]. *)
Definition zero_inode : ramfs_inode :=
  RamfsInode 0 0 0 0 0 0 0 0 0 (replicate 64 0) 0 (replicate 64 0) 0 0 0.

Record ramfs (M : Type) := Ramfs {
  inode_table : list ramfs_inode;
  inode_open_count : list Z;
  bufs : gmap Z (list Z);
  rmem : M
}.
Arguments Ramfs {M} _ _ _ _.
Arguments inode_table {M} _.
Arguments inode_open_count {M} _.
Arguments bufs {M} _.
Arguments rmem {M} _.

Section Ramfs.
Context {M : Type} {KM : Kmalloc M}.
(** The bytes found in memory nobody has written yet. *)
Variable junk : Z -> Z.

Definition set_table (t : list ramfs_inode) (f : ramfs M) : ramfs M :=
  Ramfs t (inode_open_count f) (bufs f) (rmem f).
Definition set_open_count (c : list Z) (f : ramfs M) : ramfs M :=
  Ramfs (inode_table f) c (bufs f) (rmem f).
Definition set_bufs (b : gmap Z (list Z)) (f : ramfs M) : ramfs M :=
  Ramfs (inode_table f) (inode_open_count f) b (rmem f).
Definition set_rmem (m : M) (f : ramfs M) : ramfs M :=
  Ramfs (inode_table f) (inode_open_count f) (bufs f) m.

(** ** Accesses *)

Definition node (idx : Z) : ST (ramfs M) ramfs_inode :=
  f ← gets id; rd (inode_table f) idx.

Definition upd_node (idx : Z) (g : ramfs_inode -> ramfs_inode) : ST (ramfs M) unit :=
  f ← gets id;
  n ← rd (inode_table f) idx;
  t ← wr (inode_table f) idx (g n);
  modify (set_table t).

Definition load_buf (p : Z) : ST (ramfs M) (list Z) :=
  f ← gets id;
  match bufs f !! p with Some b => ret b | None => fail Undef end.

Definition store_buf (p : Z) (b : list Z) : ST (ramfs M) unit :=
  modify (fun f => set_bufs (<[p := b]> (bufs f)) f).

(** kmalloc of a data buffer, filled with whatever the memory held. *)
Definition kmalloc_buf (n : Z) : ST (ramfs M) Z :=
  p ← zoom rmem set_rmem (kmalloc n);
  if p =? 0 then ret 0
  else store_buf p (junk <$> seqZ p n);; ret p.

Definition kfree_buf (p : Z) : ST (ramfs M) unit :=
  zoom rmem set_rmem (kfree p);;
  modify (fun f => set_bufs (delete p (bufs f)) f).

(** ** ramfs.c *)

Definition ramfs_get_open_count (idx : Z) : ST (ramfs M) Z :=
  f ← gets id; rd (inode_open_count f) idx.

Definition ramfs_inc_open_count (idx : Z) : ST (ramfs M) unit :=
  f ← gets id;
  n ← rd (inode_open_count f) idx;
  c ← wr (inode_open_count f) idx (u32 (n + 1));
  modify (set_open_count c).

Definition ramfs_dec_open_count (idx : Z) : ST (ramfs M) unit :=
  f ← gets id;
  n ← rd (inode_open_count f) idx;
  c ← wr (inode_open_count f) idx (u32 (n - 1));
  modify (set_open_count c).

(** The scan for a free inode, with [n] candidates left. *)
Fixpoint alloc_inode_loop (n : nat) (i : Z) : ST (ramfs M) Z :=
  match n with
  | O => ret 0
  | S n' =>
      nd ← node i;
      if i_type nd =? RAMFS_INODE_FREE then
        upd_node i (fun _ => set_nlink 1 zero_inode);; ret i
      else alloc_inode_loop n' (i + 1)
  end.

Definition ramfs_alloc_inode : ST (ramfs M) Z :=
  alloc_inode_loop (Z.to_nat (RAMFS_MAX_INODES - 2)) 2.

Definition ramfs_free_inode (idx : Z) : ST (ramfs M) unit :=
  if (idx =? 0) || (RAMFS_MAX_INODES <=? idx) then ret tt
  else
    nd ← node idx;
    (if negb (i_data nd =? 0) then
       kfree_buf (i_data nd);; upd_node idx (set_data 0)
     else ret tt);;
    upd_node idx (fun _ => zero_inode);;
    f ← gets id;
    c ← wr (inode_open_count f) idx 0;
    modify (set_open_count c).

Definition ramfs_get_inode (idx : Z) : ST (ramfs M) ramfs_inode := node idx.

(** The scan of the children, with [n] of them left. *)
Fixpoint lookup_loop (n : nat) (i : Z) (children name : list Z) : ST (ramfs M) Z :=
  match n with
  | O => ret 0
  | S n' =>
      child ← rd children i;
      cn ← node child;
      c ← kstrcmp false (Some (i_name cn)) (Some name);
      if c =? 0 then ret child else lookup_loop n' (i + 1) children name
  end.

Definition ramfs_lookup_child (parent : Z) (name : list Z) : ST (ramfs M) Z :=
  pnode ← node parent;
  if negb (i_type pnode =? RAMFS_INODE_DIR) then ret 0
  else lookup_loop (Z.to_nat (i_child_count pnode)) 0 (i_children pnode) name.

Definition ramfs_add_child (parent child : Z) : ST (ramfs M) Z :=
  pnode ← node parent;
  if negb (i_type pnode =? RAMFS_INODE_DIR) then ret (- ENOTDIR)
  else if RAMFS_MAX_CHILDREN <=? i_child_count pnode then ret (- ENOSPC)
  else
    ch ← wr (i_children pnode) (i_child_count pnode) (u16 child);
    upd_node parent (fun n => set_child_count (u32 (i_child_count n + 1)) (set_children ch n));;
    upd_node child (set_parent parent);;
    ret 0.

(** [for (j = i; j < child_count - 1; j++) children[j] = children[j + 1]],
    with [n] iterations left. *)
Fixpoint shift_loop (n : nat) (j : Z) (children : list Z) : ST (ramfs M) (list Z) :=
  match n with
  | O => ret children
  | S n' =>
      x ← rd children (j + 1);
      c ← wr children j x;
      shift_loop n' (j + 1) c
  end.

(** The index at which [child] is found. *)
Fixpoint find_child (n : nat) (i child : Z) (children : list Z) : ST (ramfs M) (option Z) :=
  match n with
  | O => ret None
  | S n' =>
      x ← rd children i;
      if x =? child then ret (Some i) else find_child n' (i + 1) child children
  end.

Definition ramfs_remove_child (parent child : Z) : ST (ramfs M) Z :=
  pnode ← node parent;
  if negb (i_type pnode =? RAMFS_INODE_DIR) then ret (- ENOTDIR)
  else
    r ← find_child (Z.to_nat (i_child_count pnode)) 0 child (i_children pnode);
    match r with
    | None => ret (- ENOENT)
    | Some i =>
        ch ← shift_loop (Z.to_nat (i_child_count pnode - 1 - i)) i (i_children pnode);
        upd_node parent (fun n => set_child_count (u32 (i_child_count n - 1)) (set_children ch n));;
        ret 0
    end.

(** The result and the bytes stored at [buf]. *)
Definition ramfs_read_data (inode_idx count offset : Z) : ST (ramfs M) (Z * list Z) :=
  inode ← node inode_idx;
  if negb (i_type inode =? RAMFS_INODE_FILE) then ret (- EISDIR, [])
  else if i_size inode <=? offset then ret (0, [])
  else
    let available := u32 (i_size inode - offset) in
    let to_read := if count <? available then count else available in
    if to_read =? 0 then ret (0, [])
    else if negb (i_data inode =? 0) then
      b ← load_buf (i_data inode);
      bytes ← copy_out b offset to_read;
      ret (s32 to_read, bytes)
    else ret (s32 to_read, []).

(** Replaces the data buffer by a zeroed one of [new_cap] bytes that starts
    with the first [copy_size] bytes of the old one; false when there is no
    memory. *)
Definition grow_data (inode_idx new_cap copy_size : Z) : ST (ramfs M) bool :=
  new_data ← kmalloc_buf new_cap;
  if new_data =? 0 then ret false
  else
    raw ← load_buf new_data;
    zeroed ← kmemset raw 0 new_cap;
    store_buf new_data zeroed;;
    inode ← node inode_idx;
    (if negb (i_data inode =? 0) && (0 <? i_size inode) then
       old ← load_buf (i_data inode);
       filled ← kmemcpy zeroed old copy_size;
       store_buf new_data filled;;
       kfree_buf (i_data inode)
     else ret tt);;
    upd_node inode_idx (set_data new_data);;
    upd_node inode_idx (set_data_capacity new_cap);;
    ret true.

(** [(x + RAMFS_BLOCK_SIZE - 1) & ~(RAMFS_BLOCK_SIZE - 1)]. *)
Definition round_block (x : Z) : Z :=
  Z.land (u32 (x + RAMFS_BLOCK_SIZE - 1)) (u32 (Z.lnot (RAMFS_BLOCK_SIZE - 1))).

Definition ramfs_write_data (inode_idx : Z) (buf : list Z) (count offset : Z) : ST (ramfs M) Z :=
  inode ← node inode_idx;
  if i_type inode =? RAMFS_INODE_DIR then ret (- EISDIR)
  else if UINT32_MAX - offset <? count then ret (- EFBIG)
  else
    let end_pos := u32 (offset + count) in
    if RAMFS_MAX_FILE_SIZE <? end_pos then ret (- EFBIG)
    else
      ok ← (if i_data_capacity inode <? end_pos then
              let new_cap := round_block end_pos in
              let new_cap := if RAMFS_MAX_FILE_SIZE <? new_cap then RAMFS_MAX_FILE_SIZE else new_cap in
              grow_data inode_idx new_cap (i_size inode)
            else ret true);
      if negb ok then ret (- ENOSPC)
      else
        inode ← node inode_idx;
        (if count =? 0 then ret tt
         else
           src ← copy_out buf 0 count;
           d ← load_buf (i_data inode);
           d' ← copy_in d offset src;
           store_buf (i_data inode) d');;
        (if i_size inode <? end_pos then upd_node inode_idx (set_size end_pos) else ret tt);;
        ret (s32 count).

Definition ramfs_truncate_inode (inode_idx length : Z) : ST (ramfs M) Z :=
  inode ← node inode_idx;
  if negb (i_type inode =? RAMFS_INODE_FILE) then ret (- EISDIR)
  else if RAMFS_MAX_FILE_SIZE <? length then ret (- EFBIG)
  else
    ok ← (if i_data_capacity inode <? length then
            grow_data inode_idx (round_block length)
              (if i_size inode <? length then i_size inode else length)
          else ret true);
    if negb ok then ret (- ENOSPC)
    else upd_node inode_idx (set_size length);; ret 0.

Definition ramfs_init : ST (ramfs M) Z :=
  modify (set_table (replicate 128 zero_inode));;
  modify (set_open_count (replicate 128 0));;
  upd_node RAMFS_ROOT_INO (set_type RAMFS_INODE_DIR);;
  upd_node RAMFS_ROOT_INO (set_mode 493);;
  upd_node RAMFS_ROOT_INO (set_nlink 2);;
  root ← node RAMFS_ROOT_INO;
  nm ← kstrcpy (Some (i_name root)) (Some [47; 0]);
  upd_node RAMFS_ROOT_INO (set_name (default [] nm));;
  ret 0.

(** [kstrncpy(inode->name, name, RAMFS_MAX_NAME)]. *)
Definition copy_name (idx : Z) (name : list Z) : ST (ramfs M) unit :=
  n ← node idx;
  nm ← kstrncpy (Some (i_name n)) (Some name) RAMFS_MAX_NAME;
  upd_node idx (set_name (default [] nm)).

(** Result and [*out_idx]. *)
Definition ramfs_create_dir (parent_idx : Z) (name : list Z) (mode : Z) : ST (ramfs M) (Z * Z) :=
  parent ← ramfs_get_inode parent_idx;
  if negb (i_type parent =? RAMFS_INODE_DIR) then ret (- ENOTDIR, 0)
  else
    ex ← ramfs_lookup_child parent_idx name;
    if negb (ex =? 0) then ret (- EEXIST, 0)
    else
      new_idx ← ramfs_alloc_inode;
      if new_idx =? 0 then ret (- ENOSPC, 0)
      else
        upd_node new_idx (set_type RAMFS_INODE_DIR);;
        upd_node new_idx (set_mode (Z.land mode 511));;
        upd_node new_idx (set_nlink 2);;
        copy_name new_idx name;;
        rc ← ramfs_add_child parent_idx new_idx;
        if rc <? 0 then ramfs_free_inode new_idx;; ret (rc, 0)
        else
          upd_node parent_idx (fun n => set_nlink (u32 (i_nlink n + 1)) n);;
          ret (0, new_idx).

Definition ramfs_create_file (parent_idx : Z) (name : list Z) (mode : Z) : ST (ramfs M) (Z * Z) :=
  parent ← ramfs_get_inode parent_idx;
  if negb (i_type parent =? RAMFS_INODE_DIR) then ret (- ENOTDIR, 0)
  else
    new_idx ← ramfs_alloc_inode;
    if new_idx =? 0 then ret (- ENOSPC, 0)
    else
      upd_node new_idx (set_type RAMFS_INODE_FILE);;
      upd_node new_idx (set_mode (Z.land mode 511));;
      upd_node new_idx (set_nlink 1);;
      copy_name new_idx name;;
      rc ← ramfs_add_child parent_idx new_idx;
      if rc <? 0 then ramfs_free_inode new_idx;; ret (rc, 0)
      else ret (0, new_idx).

(** Result and the structure filled in. *)
Definition ramfs_fill_stat (inode_idx : Z) : ST (ramfs M) (Z * option kstat) :=
  inode ← node inode_idx;
  if i_type inode =? RAMFS_INODE_FREE then ret (-1, None)
  else
    let kind := if i_type inode =? RAMFS_INODE_DIR then S_IFDIR else S_IFREG in
    ret (0, Some (Kstat inode_idx (u16 (Z.lor (u16 (i_mode inode)) kind)) (u16 (i_nlink inode)) 0 0
                    (s32 (i_size inode)) RAMFS_BLOCK_SIZE (u32 (i_size inode + 511) / 512) 0 0 0)).

Definition ramfs_inode_dtype (inode_idx : Z) : ST (ramfs M) Z :=
  n ← node inode_idx;
  if i_type n =? RAMFS_INODE_DIR then ret 4
  else if i_type n =? RAMFS_INODE_FILE then ret 8
  else ret 0.

Definition ramfs_set_mode (idx mode : Z) : ST (ramfs M) Z :=
  if (idx =? 0) || (RAMFS_MAX_INODES <=? idx) then ret (- ENOENT)
  else
    n ← node idx;
    if i_type n =? RAMFS_INODE_FREE then ret (- ENOENT)
    else upd_node idx (set_mode (Z.land mode 4095));; ret 0.

Definition ramfs_set_owner (idx uid gid : Z) : ST (ramfs M) Z :=
  if (idx =? 0) || (RAMFS_MAX_INODES <=? idx) then ret (- ENOENT)
  else
    n ← node idx;
    if i_type n =? RAMFS_INODE_FREE then ret (- ENOENT)
    else
      (if negb (uid =? UINT32_MAX) then upd_node idx (set_uid uid) else ret tt);;
      (if negb (gid =? UINT32_MAX) then upd_node idx (set_gid gid) else ret tt);;
      ret 0.

Definition ramfs_root_inode : Z := RAMFS_ROOT_INO.

Definition ramfs_set_name (idx : Z) (name : option (list Z)) : ST (ramfs M) Z :=
  match name with
  | None => ret (- ENOENT)
  | Some nm =>
      if (idx =? 0) || (RAMFS_MAX_INODES <=? idx) then ret (- ENOENT)
      else
        n ← node idx;
        if i_type n =? RAMFS_INODE_FREE then ret (- ENOENT)
        else
          copy_name idx nm;;
          n' ← node idx;
          b ← wr (i_name n') (RAMFS_MAX_NAME - 1) 0;
          upd_node idx (set_name b);;
          ret 0
  end.

(** ** ramfs_ops.c *)

Definition ramfs_op_resolve (fs_priv parent : Z) (name : list Z) : ST (ramfs M) Z :=
  c0 ← rd name 0;
  dotdot ← (if negb (c0 =? 46) then ret false
            else c1 ← rd name 1;
                 if negb (c1 =? 46) then ret false
                 else c2 ← rd name 2; ret (c2 =? 0));
  if dotdot : bool then p ← ramfs_get_inode parent; ret (i_parent p)
  else ramfs_lookup_child parent name.

Definition ramfs_op_read (fs_priv inode count offset : Z) : ST (ramfs M) (Z * list Z) :=
  ramfs_read_data inode count offset.

Definition ramfs_op_write (fs_priv inode : Z) (buf : list Z) (count offset : Z) : ST (ramfs M) Z :=
  ramfs_write_data inode buf count offset.

Definition ramfs_op_stat (fs_priv inode : Z) : ST (ramfs M) (Z * option kstat) :=
  ' (r, st) ← ramfs_fill_stat inode;
  ret (if r <? 0 then - ENOENT else 0, st).

(** One turn per child from [i] on, [n] of them left; the buffer, the bytes
    written and the cursor. *)
Fixpoint readdir_loop (n : nat) (i : Z) (children : list Z) (size : Z)
    (out : list Z) (written pos : Z) : ST (ramfs M) (list Z * Z * Z) :=
  match n with
  | O => ret (out, written, pos)
  | S n' =>
      child ← rd children i;
      child_inode ← ramfs_get_inode child;
      name_len ← kstrlen (Some (i_name child_inode));
      let reclen := u32 (DIRENT_NAME_OFFSET + name_len + 1) in
      let reclen := Z.land (u32 (reclen + 3)) (u32 (Z.lnot 3)) in
      if size <? written + reclen then ret (out, written, pos)
      else
        nm ← copy_out (i_name child_inode) 0 (name_len + 1);
        o1 ← copy_in out written (le_bytes 4 child);
        o2 ← copy_in o1 (written + 4) (le_bytes 4 (i + 1));
        o3 ← copy_in o2 (written + 8) (le_bytes 2 reclen);
        o4 ← copy_in o3 (written + DIRENT_NAME_OFFSET) nm;
        readdir_loop n' (i + 1) children size o4 (written + reclen) (i + 1)
  end.

Definition ramfs_op_readdir (fs_priv inode : Z) (buf : list Z) (size pos : Z)
    : ST (ramfs M) (Z * list Z * Z) :=
  dir ← ramfs_get_inode inode;
  if negb (i_type dir =? RAMFS_INODE_DIR) then ret (- ENOTDIR, buf, pos)
  else
    ' (out, written, pos') ← readdir_loop (Z.to_nat (i_child_count dir - pos)) pos
                                (i_children dir) size buf 0 pos;
    ret (s32 written, out, pos').

Definition ramfs_op_mkdir (fs_priv parent : Z) (name : list Z) (mode : Z) : ST (ramfs M) (Z * Z) :=
  ramfs_create_dir parent name mode.

Definition ramfs_op_create (fs_priv parent : Z) (name : list Z) (mode : Z) : ST (ramfs M) (Z * Z) :=
  ramfs_create_file parent name mode.

Definition ramfs_op_unlink (fs_priv parent : Z) (name : list Z) : ST (ramfs M) Z :=
  idx ← ramfs_lookup_child parent name;
  if idx =? 0 then ret (- ENOENT)
  else
    inode ← ramfs_get_inode idx;
    if i_type inode =? RAMFS_INODE_DIR then ret (- EISDIR)
    else
      ramfs_remove_child parent idx;;
      inode ← ramfs_get_inode idx;
      (if 0 <? i_nlink inode then upd_node idx (fun n => set_nlink (i_nlink n - 1) n) else ret tt);;
      inode ← ramfs_get_inode idx;
      (if i_nlink inode =? 0 then
         c ← ramfs_get_open_count idx;
         if c =? 0 then ramfs_free_inode idx else ret tt
       else ret tt);;
      ret 0.

Definition ramfs_op_rmdir (fs_priv parent : Z) (name : list Z) : ST (ramfs M) Z :=
  idx ← ramfs_lookup_child parent name;
  if idx =? 0 then ret (- ENOENT)
  else
    dir ← ramfs_get_inode idx;
    if negb (i_type dir =? RAMFS_INODE_DIR) then ret (- ENOTDIR)
    else if 0 <? i_child_count dir then ret (- ENOTEMPTY)
    else
      ramfs_remove_child parent idx;;
      p ← ramfs_get_inode parent;
      (if 0 <? i_nlink p then upd_node parent (fun n => set_nlink (i_nlink n - 1) n) else ret tt);;
      ramfs_free_inode idx;;
      ret 0.

Definition ramfs_op_truncate (fs_priv inode length : Z) : ST (ramfs M) Z :=
  ramfs_truncate_inode inode length.

Definition ramfs_op_chmod (fs_priv inode mode : Z) : ST (ramfs M) Z := ramfs_set_mode inode mode.

Definition ramfs_op_chown (fs_priv inode uid gid : Z) : ST (ramfs M) Z :=
  ramfs_set_owner inode uid gid.

Definition ramfs_op_rename (fs_priv old_parent : Z) (old_name : list Z) (new_parent : Z)
    (new_name : list Z) : ST (ramfs M) Z :=
  idx ← ramfs_lookup_child old_parent old_name;
  if idx =? 0 then ret (- ENOENT)
  else
    rc ← ramfs_remove_child old_parent idx;
    if rc <? 0 then ret rc
    else
      ramfs_set_name idx (Some new_name);;
      rc ← ramfs_add_child new_parent idx;
      if rc <? 0 then ramfs_add_child old_parent idx;; ret rc
      else ret 0.

Definition ramfs_op_dtype (fs_priv inode : Z) : ST (ramfs M) Z := ramfs_inode_dtype inode.
Definition ramfs_op_inc_open (fs_priv inode : Z) : ST (ramfs M) unit := ramfs_inc_open_count inode.
Definition ramfs_op_dec_open (fs_priv inode : Z) : ST (ramfs M) unit := ramfs_dec_open_count inode.
Definition ramfs_op_get_open (fs_priv inode : Z) : ST (ramfs M) Z := ramfs_get_open_count inode.
Definition ramfs_op_release (fs_priv inode : Z) : ST (ramfs M) unit := ramfs_free_inode inode.

Definition ramfs_ops : fs_ops (ramfs M) := {|
  op_resolve := Some ramfs_op_resolve;
  op_read := Some ramfs_op_read;
  op_write := Some ramfs_op_write;
  op_stat := Some ramfs_op_stat;
  op_readdir := Some ramfs_op_readdir;
  op_mkdir := Some ramfs_op_mkdir;
  op_create := Some ramfs_op_create;
  op_unlink := Some ramfs_op_unlink;
  op_rmdir := Some ramfs_op_rmdir;
  op_truncate := Some ramfs_op_truncate;
  op_chmod := Some ramfs_op_chmod;
  op_chown := Some ramfs_op_chown;
  op_rename := Some ramfs_op_rename;
  op_dtype := Some ramfs_op_dtype;
  op_inc_open := Some ramfs_op_inc_open;
  op_dec_open := Some ramfs_op_dec_open;
  op_get_open := Some ramfs_op_get_open;
  op_release := Some ramfs_op_release
|}.

End Ramfs.
