(* ===== verification/RamfsProofs.v ===== *)
(** * Correctness of the in-memory file system

    The invariant of the inode table and its preservation by every operation
    of Ramfs.v, with what each operation does to files and directories. *)

From stdpp Require Import base tactics numbers list gmap.
From S2P Require Import Prelude Kstring FsOps Alloc Ramfs.

(** ** The invariant *)

(** The children of a directory. *)
Definition kids (n : ramfs_inode) : list Z := take (Z.to_nat (i_child_count n)) (i_children n).

Record node_wf (n : ramfs_inode) : Prop := {
  nw_name_len : length (i_name n) = 64%nat;
  nw_name_nul : 0 ∈ i_name n;
  nw_children : length (i_children n) = 64%nat;
  nw_count : 0 <= i_child_count n <= 64;
  nw_size : 0 <= i_size n <= i_data_capacity n;
  nw_cap : i_data_capacity n <= 16777216;
  nw_data : 0 <= i_data n;
  nw_type : i_type n = 0 \/ i_type n = 1 \/ i_type n = 2;
  nw_free : i_type n = 0 -> n = zero_inode;
  nw_nodir : i_type n <> 2 -> i_child_count n = 0;
  nw_parent : 0 <= i_parent n < 128;
  nw_nlink : is_u32 (i_nlink n)
}.

Section Wf.
Context {M : Type} {KM : Kmalloc M}.

Definition at_inode (f : ramfs M) (i : Z) (n : ramfs_inode) : Prop :=
  0 <= i /\ inode_table f !! Z.to_nat i = Some n.

(** [c] is an entry of directory [d]. *)
Definition entry_of (f : ramfs M) (d c : Z) : Prop :=
  exists n, at_inode f d n /\ c ∈ kids n.

Record tree_wf (f : ramfs M) : Prop := {
  tw_len : length (inode_table f) = 128%nat;
  tw_open : length (inode_open_count f) = 128%nat;
  tw_node : forall i n, at_inode f i n -> node_wf n;
  tw_null : at_inode f 0 zero_inode;
  tw_root : exists n, at_inode f 1 n /\ i_type n = 2;
  tw_kid : forall d c, entry_of f d c ->
    2 <= c < 128 /\ exists m, at_inode f c m /\ i_type m <> 0 /\ i_parent m = d;
  tw_nodup : forall i n, at_inode f i n -> NoDup (kids n)
}.

Record data_wf (f : ramfs M) : Prop := {
  dw_data : forall i n, at_inode f i n ->
    if decide (i_data n = 0) then i_data_capacity n = 0
    else exists b, bufs f !! i_data n = Some b /\ Z.of_nat (length b) = i_data_capacity n;
  dw_sep : forall i j n m, at_inode f i n -> at_inode f j m -> i_data n <> 0 ->
    i_data n = i_data m -> i = j;
  dw_mem : exists L, km_rep (rmem f) L /\
    forall p b, bufs f !! p = Some b -> L !! p = Some (Z.of_nat (length b))
}.

Definition ramfs_wf (f : ramfs M) : Prop := tree_wf f /\ data_wf f.

(** ** Accesses *)

Lemma at_inode_bound f i n : tree_wf f -> at_inode f i n -> 0 <= i < 128.
Proof. intros Hw [Hi Hl]. apply lookup_lt_Some in Hl. rewrite (tw_len _ Hw) in Hl. lia. Qed.

Lemma at_inode_exists f i : tree_wf f -> 0 <= i < 128 -> exists n, at_inode f i n.
Proof.
  intros Hw Hi. destruct (lookup_lt_is_Some_2 (inode_table f) (Z.to_nat i)) as [n Hn].
  - rewrite (tw_len _ Hw). lia.
  - exists n. split; [lia|done].
Qed.

Lemma at_inode_inj f i n m : at_inode f i n -> at_inode f i m -> n = m.
Proof. intros [_ H1] [_ H2]. congruence. Qed.

Lemma node_ok f i n : at_inode f i n -> node i f = Ok (n, f).
Proof. intros [Hi Hn]. unfold node. run. unfold id. by apply rd_ok. Qed.

Definition with_node (i : Z) (n : ramfs_inode) (f : ramfs M) : ramfs M :=
  set_table (<[Z.to_nat i := n]> (inode_table f)) f.

Lemma upd_node_ok f i n g :
  at_inode f i n -> upd_node i g f = Ok (tt, with_node i (g n) f).
Proof.
  intros [Hi Hn]. unfold upd_node. run. unfold id.
  rewrite (bind_ok _ _ _ _ _ (rd_ok _ _ _ f Hi Hn)). pose proof (lookup_lt_Some _ _ _ Hn).
  rewrite (bind_ok _ _ _ _ _ (wr_ok (inode_table f) i (g n) f ltac:(lia))). done.
Qed.

Lemma at_with_node f i n j m :
  at_inode f i n -> forall g, at_inode (with_node i g f) j m <->
  (if decide (j = i) then m = g else at_inode f j m).
Proof.
  intros [Hi Hn] g. pose proof (lookup_lt_Some _ _ _ Hn). unfold at_inode, with_node. simpl.
  case_decide as Hd.
  - subst. rewrite list_lookup_insert_eq by done. naive_solver.
  - split; intros [Hj Hm]; (split; [done|]); [rewrite list_lookup_insert_ne in Hm by lia|rewrite list_lookup_insert_ne by lia]; done.
Qed.

Lemma at_with_node_eq f i n g : at_inode f i n -> at_inode (with_node i g f) i g.
Proof. intros H. apply (at_with_node f i n i g H g). by rewrite decide_True. Qed.

Lemma at_with_node_ne f i n j m g :
  at_inode f i n -> j <> i -> at_inode f j m -> at_inode (with_node i g f) j m.
Proof. intros H Hj Hm. apply (at_with_node f i n j m H g). by rewrite decide_False. Qed.

Lemma with_node_twice i a b f : with_node i b (with_node i a f) = with_node i b f.
Proof. unfold with_node, set_table. simpl. by rewrite list_insert_insert_eq. Qed.

Lemma with_node_comm i j a b (f : ramfs M) :
  0 <= i -> 0 <= j -> i <> j -> with_node i a (with_node j b f) = with_node j b (with_node i a f).
Proof.
  intros. unfold with_node, set_table. simpl. by rewrite list_insert_insert_ne by lia.
Qed.
(** ** Updates that keep the invariant *)

Lemma entry_with_node f i n n' d c :
  at_inode f i n -> entry_of (with_node i n' f) d c ->
  (d = i /\ c ∈ kids n') \/ (d <> i /\ entry_of f d c).
Proof.
  intros Hi (m & Hm & Hc). apply (at_with_node f i n d m Hi) in Hm. case_decide as Hd.
  - left. by subst.
  - right. split; [done|by exists m].
Qed.

Lemma entry_unique f d d' c : tree_wf f -> entry_of f d c -> entry_of f d' c -> d = d'.
Proof.
  intros Hw H1 H2. destruct (tw_kid _ Hw _ _ H1) as (_ & m & Hm & _ & <-).
  destruct (tw_kid _ Hw _ _ H2) as (_ & m' & Hm' & _ & <-). by rewrite (at_inode_inj _ _ _ _ Hm Hm').
Qed.

Lemma kids_wf_nil n : node_wf n -> i_type n <> 2 -> kids n = [].
Proof. intros Hn Ht. unfold kids. by rewrite (nw_nodir _ Hn Ht). Qed.

(** Fields that are not links. *)
Lemma tree_attr f i n n' :
  tree_wf f -> at_inode f i n -> i <> 0 -> node_wf n' -> i_type n' = i_type n ->
  i_parent n' = i_parent n -> kids n' = kids n -> tree_wf (with_node i n' f).
Proof.
  intros Hw Hi H0 Hn' Ht Hp Hk. split.
  - simpl. rewrite length_insert. apply Hw.
  - apply Hw.
  - intros j m Hm. apply (at_with_node f i n j m Hi) in Hm. case_decide; [by subst|by eapply Hw].
  - by eapply at_with_node_ne; [done|lia|apply Hw].
  - destruct (tw_root _ Hw) as (r & Hr & Hrt). destruct (decide (i = 1)) as [->|].
    + exists n'. split; [by eapply at_with_node_eq|]. by rewrite Ht, (at_inode_inj _ _ _ _ Hi Hr).
    + exists r. split; [|done]. by eapply at_with_node_ne; [done|lia|].
  - intros d c Hc. assert (entry_of f d c) as Hc'.
    { destruct (entry_with_node _ _ _ _ _ _ Hi Hc) as [[-> H]|[_ H]]; [|done].
      exists n. by rewrite <- Hk. }
    destruct (tw_kid _ Hw _ _ Hc') as (Hb & m & Hm & Hmt & Hmp). split; [done|].
    destruct (decide (c = i)) as [->|].
    + exists n'. split; [by eapply at_with_node_eq|]. rewrite Ht, Hp.
      by rewrite (at_inode_inj _ _ _ _ Hi Hm).
    + exists m. split; [by eapply at_with_node_ne|done].
  - intros j m Hm. apply (at_with_node f i n j m Hi) in Hm. case_decide.
    + subst. rewrite Hk. by eapply Hw.
    + by eapply Hw.
Qed.

Definition unlinked (f : ramfs M) (c : Z) : Prop := forall d, ~ entry_of f d c.

Lemma free_unlinked f c n : tree_wf f -> at_inode f c n -> i_type n = 0 -> unlinked f c.
Proof.
  intros Hw Hc Ht d Hd. destruct (tw_kid _ Hw _ _ Hd) as (_ & m & Hm & Hmt & _).
  by rewrite (at_inode_inj _ _ _ _ Hm Hc) in Hmt.
Qed.

(** A node nobody lists may become any node without children. *)
Lemma tree_reset f i n n' :
  tree_wf f -> at_inode f i n -> 2 <= i -> unlinked f i -> node_wf n' -> kids n' = [] ->
  tree_wf (with_node i n' f).
Proof.
  intros Hw Hi H2 Hu Hn' Hk. split.
  - simpl. rewrite length_insert. apply Hw.
  - apply Hw.
  - intros j m Hm. apply (at_with_node f i n j m Hi) in Hm. case_decide; [by subst|by eapply Hw].
  - by eapply at_with_node_ne; [done|lia|apply Hw].
  - destruct (tw_root _ Hw) as (r & Hr & Hrt). exists r. split; [|done].
    by eapply at_with_node_ne; [done|lia|].
  - intros d c Hc. destruct (entry_with_node _ _ _ _ _ _ Hi Hc) as [[-> H]|[Hd H]].
    + rewrite Hk in H. by apply not_elem_of_nil in H.
    + destruct (tw_kid _ Hw _ _ H) as (Hb & m & Hm & Hmt & Hmp). split; [done|].
      exists m. split; [|done]. eapply at_with_node_ne; [done| |done]. intros ->. by apply (Hu d).
  - intros j m Hm. apply (at_with_node f i n j m Hi) in Hm. case_decide; [|by eapply Hw].
    subst. rewrite Hk. constructor.
Qed.

(** Taking an entry out of its directory. *)
Lemma tree_unlink f d n n' c :
  tree_wf f -> at_inode f d n -> d <> 0 -> node_wf n' -> i_type n' = i_type n ->
  i_parent n' = i_parent n -> kids n' = filter (fun x => x <> c) (kids n) -> c ∈ kids n ->
  tree_wf (with_node d n' f) /\ unlinked (with_node d n' f) c.
Proof.
  intros Hw Hd H0 Hn' Ht Hp Hk Hc.
  assert (entry_of f d c) as Hdc by (by exists n). split.
  - split.
    + simpl. rewrite length_insert. apply Hw.
    + apply Hw.
    + intros j m Hm. apply (at_with_node f d n j m Hd) in Hm. case_decide; [by subst|by eapply Hw].
    + by eapply at_with_node_ne; [done|lia|apply Hw].
    + destruct (tw_root _ Hw) as (r & Hr & Hrt). destruct (decide (d = 1)) as [->|].
      * exists n'. split; [by eapply at_with_node_eq|]. by rewrite Ht, (at_inode_inj _ _ _ _ Hd Hr).
      * exists r. split; [|done]. by eapply at_with_node_ne; [done|lia|].
    + intros e x Hx. assert (entry_of f e x) as Hx'.
      { destruct (entry_with_node _ _ _ _ _ _ Hd Hx) as [[-> H]|[_ H]]; [|done].
        exists n. split; [done|]. rewrite Hk in H. by apply list_elem_of_filter in H as [_ H]. }
      destruct (tw_kid _ Hw _ _ Hx') as (Hb & m & Hm & Hmt & Hmp). split; [done|].
      destruct (decide (x = d)) as [->|].
      * exists n'. split; [by eapply at_with_node_eq|]. rewrite Ht, Hp.
        by rewrite (at_inode_inj _ _ _ _ Hd Hm).
      * exists m. split; [by eapply at_with_node_ne|done].
    + intros j m Hm. apply (at_with_node f d n j m Hd) in Hm. case_decide; [|by eapply Hw].
      subst. rewrite Hk. apply NoDup_filter. by eapply Hw.
  - intros e He. destruct (entry_with_node _ _ _ _ _ _ Hd He) as [[-> H]|[Hne H]].
    + rewrite Hk in H. by apply list_elem_of_filter in H as [? _].
    + by apply Hne, (entry_unique f e d c).
Qed.
(** Entering an unlisted node in a directory. *)
Section Link.
Context (f : ramfs M) (d : Z) (n n' : ramfs_inode) (c : Z) (m m' : ramfs_inode).
Hypothesis Hw : tree_wf f.
Hypothesis Hd : at_inode f d n.
Hypothesis Hm : at_inode (with_node d n' f) c m.
Hypothesis Hc : 2 <= c.
Hypothesis Hu : unlinked f c.
Hypothesis Hk : kids n' = kids n ++ [c].
Hypothesis Hk' : kids m' = kids m.
Let g := with_node c m' (with_node d n' f).

Lemma link_nodes j x : at_inode g j x ->
  j = c /\ x = m' \/ j <> c /\ j = d /\ x = n' \/ j <> c /\ j <> d /\ at_inode f j x.
Proof using Hd Hm.
  intros Hx. apply (at_with_node _ c m j x Hm) in Hx. case_decide; [by left|right].
  apply (at_with_node f d n j x Hd) in Hx. case_decide; naive_solver.
Qed.

Lemma link_kids x : x ∈ kids n' -> x = c \/ x <> c /\ entry_of f d x.
Proof using Hd Hu Hk.
  rewrite Hk. intros [Hx|Hx%list_elem_of_singleton]%elem_of_app; [right|by left].
  assert (entry_of f d x) as He by (by exists n). split; [|done]. intros ->. by apply (Hu d).
Qed.

Lemma link_entries e x : entry_of g e x -> e = d /\ x = c \/ x <> c /\ entry_of f e x.
Proof using Hd Hm Hu Hk Hk'.
  intros Hx. apply (entry_with_node _ c m m' e x Hm) in Hx as [[-> Hx]|[Hec Hx]].
  - rewrite Hk' in Hx. pose proof (proj1 (at_with_node f d n c m Hd n') Hm) as Hm1. case_decide as Ecd.
    + rewrite Hm1 in Hx. destruct (link_kids x Hx) as [|[]]; [by left|right]. split; [done|by rewrite Ecd].
    + right. assert (entry_of f c x) as He by (by exists m). split; [|done]. intros ->. by apply (Hu c).
  - apply (entry_with_node f d n n' e x Hd) in Hx as [[-> Hx]|[Hed Hx]].
    + destruct (link_kids x Hx); [by left|by right].
    + right. split; [|done]. intros ->. by apply (Hu e).
Qed.

Lemma link_old j x : i_type n' = i_type n -> i_parent n' = i_parent n -> j <> c -> at_inode f j x ->
  exists x', at_inode g j x' /\ i_type x' = i_type x /\ i_parent x' = i_parent x.
Proof using Hd Hm.
  intros Ht Hp Hj Hx. destruct (decide (j = d)) as [->|].
  - exists n'. rewrite (at_inode_inj _ _ _ _ Hx Hd). split; [|done].
    eapply at_with_node_ne; [exact Hm|done|by eapply at_with_node_eq].
  - exists x. split; [|done]. eapply at_with_node_ne; [exact Hm|done|by eapply at_with_node_ne].
Qed.

Lemma link_nodup : NoDup (kids n ++ [c]).
Proof using Hw Hd Hu.
  apply NoDup_app. split_and!; [by eapply Hw| |by apply NoDup_singleton].
  intros x Hx ->%list_elem_of_singleton. apply (Hu d). by exists n.
Qed.

Lemma tree_link :
  d <> 0 -> i_type m <> 0 -> node_wf n' -> node_wf m' -> i_type n' = i_type n ->
  i_parent n' = i_parent n -> i_type m' = i_type m -> i_parent m' = d -> tree_wf g.
Proof using Hw Hd Hm Hc Hu Hk Hk'.
  intros H0 Hmt Hn' Hm' Ht Hp Ht' Hp'. split.
  - simpl. rewrite !length_insert. apply Hw.
  - apply Hw.
  - intros j x Hx. apply link_nodes in Hx as [[_ ->]|[(_ & _ & ->)|(_ & _ & Hx)]]; [done|done|by eapply Hw].
  - eapply at_with_node_ne; [exact Hm|lia|]. by eapply at_with_node_ne; [done|lia|apply Hw].
  - destruct (tw_root _ Hw) as (r & Hr & Hrt).
    destruct (link_old 1 r Ht Hp ltac:(lia) Hr) as (r' & Hr' & E & _). exists r'. by rewrite E.
  - intros e x Hx. apply link_entries in Hx as [[-> ->]|[Hxc Hx]].
    + split; [|exists m'; split; [by eapply at_with_node_eq|by rewrite Ht']].
      destruct Hm as [? Hl]. apply lookup_lt_Some in Hl. simpl in Hl.
      rewrite length_insert, (tw_len _ Hw) in Hl. lia.
    + destruct (tw_kid _ Hw _ _ Hx) as (Hb & y & Hy & Hyt & Hyp). split; [done|].
      destruct (link_old x y Ht Hp Hxc Hy) as (y' & Hy' & E1 & E2). exists y'. by rewrite E1, E2.
  - intros j x Hx. apply link_nodes in Hx as [[-> ->]|[(_ & -> & ->)|(_ & _ & Hx)]]; [| |by eapply Hw].
    + rewrite Hk'. pose proof (proj1 (at_with_node f d n c m Hd n') Hm) as Hm1. case_decide; [|by eapply Hw].
      rewrite Hm1, Hk. apply link_nodup.
    + rewrite Hk. apply link_nodup.
Qed.
End Link.
(** Data buffers. *)
Lemma data_same f i n n' :
  at_inode f i n -> i_data n' = i_data n -> i_data_capacity n' = i_data_capacity n ->
  data_wf f -> data_wf (with_node i n' f).
Proof.
  intros Hi Hd Hc [H1 H2 H3].
  assert (forall j m, at_inode (with_node i n' f) j m -> exists m', at_inode f j m' /\
    i_data m = i_data m' /\ i_data_capacity m = i_data_capacity m') as Hold.
  { intros j m Hm. apply (at_with_node f i n j m Hi) in Hm. case_decide; [subst; eauto|eauto]. }
  split; [| |done].
  - intros j m Hm. destruct (Hold j m Hm) as (m' & Hm' & -> & ->). by apply (H1 j).
  - intros j k m x Hm Hx. destruct (Hold j m Hm) as (m' & Hm' & -> & _).
    destruct (Hold k x Hx) as (x' & Hx' & -> & _). by eapply H2.
Qed.

Lemma data_none f i n n' :
  at_inode f i n -> i_data n' = 0 -> i_data_capacity n' = 0 -> data_wf f ->
  data_wf (with_node i n' f).
Proof.
  intros Hi Hd Hc [H1 H2 H3]. split; [| |done].
  - intros j m Hm. apply (at_with_node f i n j m Hi) in Hm. case_decide; [|by apply (H1 j)].
    subst. by rewrite decide_True.
  - intros j k m x Hm Hx Hne E. apply (at_with_node f i n j m Hi) in Hm.
    apply (at_with_node f i n k x Hi) in Hx. repeat case_decide; subst; try congruence. by eapply H2.
Qed.

(** ** Directories *)

Lemma find_child_hit pre l1 c l2 k (f : ramfs M) :
  c ∉ l1 -> (length l1 < k)%nat ->
  find_child k (Z.of_nat (length pre)) c (pre ++ l1 ++ c :: l2) f =
  Ok (Some (Z.of_nat (length pre + length l1)), f).
Proof.
  revert pre k. induction l1 as [|x l1 IH]; intros pre k Hc Hk;
    (destruct k as [|k]; [simpl in Hk; lia|]); simpl.
  - erewrite bind_ok by (apply rd_ok; [lia|]; rewrite Nat2Z.id, lookup_app_r, Nat.sub_diag by lia; done).
    rewrite Z.eqb_refl, Nat.add_0_r. done.
  - apply not_elem_of_cons in Hc as [Hcx Hc].
    erewrite bind_ok by (apply rd_ok; [lia|]; rewrite Nat2Z.id, lookup_app_r, Nat.sub_diag by lia; done).
    rewrite (proj2 (Z.eqb_neq x c)) by congruence.
    specialize (IH (pre ++ [x]) k Hc ltac:(simpl in Hk; lia)). rewrite length_app, <- app_assoc in IH.
    simpl in IH. replace (Z.of_nat (length pre) + 1) with (Z.of_nat (length pre + 1)) by lia.
    rewrite IH. do 3 f_equal. lia.
Qed.

Lemma find_child_miss pre l c rest (f : ramfs M) :
  c ∉ l -> find_child (length l) (Z.of_nat (length pre)) c (pre ++ l ++ rest) f = Ok (None, f).
Proof.
  revert pre. induction l as [|x l IH]; intros pre Hc; simpl; [done|].
  apply not_elem_of_cons in Hc as [Hcx Hc].
  erewrite bind_ok by (apply rd_ok; [lia|]; rewrite Nat2Z.id, lookup_app_r, Nat.sub_diag by lia; done).
  rewrite (proj2 (Z.eqb_neq x c)) by congruence. specialize (IH (pre ++ [x]) Hc).
  rewrite length_app, <- app_assoc in IH. simpl in IH.
  by replace (Z.of_nat (length pre) + 1) with (Z.of_nat (length pre + 1)) by lia.
Qed.

Lemma shift_loop_ok l1 x l2 rest (f : ramfs M) :
  exists z, shift_loop (length l2) (Z.of_nat (length l1)) (l1 ++ x :: l2 ++ rest) f =
    Ok (l1 ++ l2 ++ z :: rest, f).
Proof.
  revert l1 x. induction l2 as [|y l2 IH]; intros l1 x; simpl; [by exists x|].
  erewrite bind_ok by (apply rd_ok; [lia|];
    replace (Z.to_nat (Z.of_nat (length l1) + 1)) with (length l1 + 1)%nat by lia;
    rewrite lookup_app_r by lia; replace (length l1 + 1 - length l1)%nat with 1%nat by lia; done).
  erewrite bind_ok by (apply wr_ok; rewrite length_app; simpl; lia).
  rewrite Nat2Z.id, insert_app_r_alt, Nat.sub_diag by lia. simpl.
  destruct (IH (l1 ++ [y]) y) as (z & E). rewrite length_app, <- !app_assoc in E. simpl in E.
  replace (Z.of_nat (length l1) + 1) with (Z.of_nat (length l1 + 1)) by lia. exists z. exact E.
Qed.

Lemma filter_ne_split (l1 l2 : list Z) c :
  NoDup (l1 ++ c :: l2) -> filter (fun x => x <> c) (l1 ++ c :: l2) = l1 ++ l2.
Proof.
  intros Hnd. apply NoDup_app in Hnd as (_ & H1 & H2). apply NoDup_cons in H2 as [H2 _].
  rewrite filter_app, filter_cons_False by (intros H; by apply H). f_equal; apply filter_id.
  - intros x Hx ->. apply (H1 c Hx). left.
  - by intros x Hx ->.
Qed.

Lemma kids_split n : node_wf n -> exists rest, i_children n = kids n ++ rest /\
  length (kids n) = Z.to_nat (i_child_count n) /\ length rest = (64 - Z.to_nat (i_child_count n))%nat.
Proof.
  intros Hn. exists (drop (Z.to_nat (i_child_count n)) (i_children n)). unfold kids.
  rewrite take_drop, length_take, length_drop, (nw_children _ Hn). pose proof (nw_count _ Hn).
  split_and!; [done|lia|done].
Qed.
Definition relink (ch : list Z) (cnt : Z) (n : ramfs_inode) : ramfs_inode :=
  set_child_count cnt (set_children ch n).

Lemma relink_wf ch cnt n :
  node_wf n -> i_type n = 2 -> length ch = 64%nat -> 0 <= cnt <= 64 -> node_wf (relink ch cnt n).
Proof. intros [] Ht Hl Hc. split; simpl; try done. rewrite Ht. done. Qed.

Lemma set_parent_wf d n : node_wf n -> i_type n <> 0 -> 0 <= d < 128 -> node_wf (set_parent d n).
Proof. intros [] Ht Hd. split; simpl; try done. Qed.

Lemma dir_nonzero f d n : tree_wf f -> at_inode f d n -> i_type n <> 0 -> d <> 0.
Proof. intros Hw Hd Ht ->. by rewrite (at_inode_inj _ _ _ _ Hd (tw_null _ Hw)) in Ht. Qed.

Lemma remove_child_ok f d n c :
  ramfs_wf f -> at_inode f d n -> i_type n = 2 -> c ∈ kids n ->
  exists ch, let n' := relink ch (i_child_count n - 1) n in
    ramfs_remove_child d c f = Ok (0, with_node d n' f) /\
    kids n' = filter (fun x => x <> c) (kids n) /\
    ramfs_wf (with_node d n' f) /\ unlinked (with_node d n' f) c.
Proof.
  intros [Hw Hdw] Hd Ht Hc. pose proof (tw_node _ Hw _ _ Hd) as Hn.
  destruct (kids_split n Hn) as (rest & Ech & Hkl & Hrl).
  pose proof (tw_nodup _ Hw _ _ Hd) as Hnd. pose proof (nw_count _ Hn) as Hcnt.
  pose proof (nw_children _ Hn) as Hlen.
  pose proof Hc as Hc'. apply list_elem_of_split in Hc' as (l1 & l2 & Ek).
  assert (length l1 + S (length l2) = Z.to_nat (i_child_count n))%nat as Hll
    by (rewrite <- Hkl, Ek, length_app; done).
  pose proof Hnd as Hnd'. rewrite Ek in Hnd'. apply NoDup_app in Hnd' as (_ & Hc1 & _).
  destruct (shift_loop_ok l1 c l2 rest f) as (z & Es).
  exists (l1 ++ l2 ++ z :: rest). cbv zeta.
  assert (kids (relink (l1 ++ l2 ++ z :: rest) (i_child_count n - 1) n) = filter (fun x => x <> c) (kids n)) as Hk.
  { rewrite Ek in Hnd |- *. rewrite filter_ne_split by done. unfold kids. simpl.
    rewrite app_assoc, take_app_le by (rewrite length_app; lia).
    apply take_ge. rewrite length_app. lia. }
  assert (node_wf (relink (l1 ++ l2 ++ z :: rest) (i_child_count n - 1) n)) as Hn'.
  { apply relink_wf; [done|done| |lia]. rewrite Ech, Ek, !length_app in Hlen. simpl in Hlen.
    rewrite !length_app. simpl. lia. }
  assert (d <> 0) as Hd0 by (eapply dir_nonzero; [done|done|lia]).
  destruct (tree_unlink f d n _ c Hw Hd Hd0 Hn' eq_refl eq_refl Hk Hc) as [Hw' Hu'].
  split; [|split; [done|split; [split; [done|by eapply data_same]|done]]].
  unfold ramfs_remove_child. rewrite (bind_ok _ _ _ _ _ (node_ok _ _ _ Hd)), Ht. change (2 =? RAMFS_INODE_DIR) with true; cbn [negb].
  rewrite Ech, Ek, <- app_assoc. cbn [app].
  erewrite bind_ok by (apply (find_child_hit [] l1 c (l2 ++ rest)); [intros H; by apply (Hc1 c H); left|lia]).
  cbn [length Nat.add]. replace (Z.to_nat (i_child_count n - 1 - Z.of_nat (length l1))) with (length l2) by lia.
  rewrite (bind_ok _ _ _ _ _ Es). erewrite bind_ok by (by apply upd_node_ok).
  cbv beta. replace (u32 (i_child_count n - 1)) with (i_child_count n - 1) by (rewrite u32_id; unfold is_u32; lia). done.
Qed.

Lemma add_child_ok f d n c m :
  ramfs_wf f -> at_inode f d n -> i_type n = 2 -> i_child_count n < 64 ->
  at_inode f c m -> 2 <= c -> unlinked f c -> i_type m <> 0 ->
  let n' := relink (<[Z.to_nat (i_child_count n) := c]> (i_children n)) (i_child_count n + 1) n in
  let m' := set_parent d (if decide (c = d) then n' else m) in
  let f' := with_node c m' (with_node d n' f) in
  ramfs_add_child d c f = Ok (0, f') /\ kids n' = kids n ++ [c] /\ ramfs_wf f'.
Proof.
  intros [Hw Hdw] Hd Ht Hlt Hc H2 Hu Hmt n' m' f'. pose proof (tw_node _ Hw _ _ Hd) as Hn.
  destruct (kids_split n Hn) as (rest & Ech & Hkl & Hrl). pose proof (nw_count _ Hn) as Hcnt.
  assert (kids n' = kids n ++ [c]) as Hk.
  { subst n'. unfold kids at 1. simpl. rewrite Ech, insert_app_r_alt, Hkl, Nat.sub_diag by lia.
    destruct rest as [|y rest]; [simpl in Hrl; lia|]. simpl.
    rewrite take_app_ge, Hkl by lia. f_equal.
    by replace (Z.to_nat (i_child_count n + 1) - Z.to_nat (i_child_count n))%nat with 1%nat by lia. }
  assert (node_wf n') as Hn' by (apply relink_wf; [done|done|rewrite length_insert; apply Hn|lia]).
  pose proof (at_inode_bound _ _ _ Hw Hd) as Hdb. pose proof (at_inode_bound _ _ _ Hw Hc) as Hcb.
  set (m1 := if decide (c = d) then n' else m).
  assert (at_inode (with_node d n' f) c m1) as Hm1.
  { apply (at_with_node f d n c m1 Hd). subst m1. by case_decide. }
  assert (i_type m1 <> 0) as Ht1 by (subst m1; case_decide; [simpl; lia|done]).
  assert (node_wf m1) as Hwm1 by (subst m1; case_decide; [done|by eapply Hw]).
  split; [|split; [done|split]].
  - unfold ramfs_add_child. rewrite (bind_ok _ _ _ _ _ (node_ok _ _ _ Hd)), Ht. change (2 =? RAMFS_INODE_DIR) with true; cbn [negb].
    rewrite (proj2 (Z.leb_gt _ _)) by done.
    rewrite (bind_ok _ _ _ _ _ (wr_ok (i_children n) (i_child_count n) (u16 c) f ltac:(rewrite (nw_children _ Hn); lia))).
    erewrite bind_ok by (by apply upd_node_ok). cbv beta.
    replace (u32 (i_child_count n + 1)) with (i_child_count n + 1) by (rewrite u32_id; unfold is_u32; lia).
    replace (u16 c) with c by (unfold u16; rewrite Z.mod_small; lia).
    change (set_child_count _ _) with n'. erewrite bind_ok by (by apply upd_node_ok). done.
  - eapply (tree_link f d n n' c m1 m'); try done; [|by apply set_parent_wf].
    eapply dir_nonzero; [done|done|lia].
  - eapply data_same; [exact Hm1|done|done|]. by eapply data_same.
Qed.

Lemma add_child_fail f d n c :
  at_inode f d n -> i_type n <> 2 \/ 64 <= i_child_count n ->
  exists e, e < 0 /\ ramfs_add_child d c f = Ok (e, f) /\
    e = (if i_type n =? 2 then - ENOSPC else - ENOTDIR).
Proof.
  intros Hd H. unfold ramfs_add_child. rewrite (bind_ok _ _ _ _ _ (node_ok _ _ _ Hd)).
  unfold RAMFS_INODE_DIR, RAMFS_MAX_CHILDREN. destruct (Z.eqb_spec (i_type n) 2); simpl.
  - rewrite (proj2 (Z.leb_le _ _)) by lia. eexists. split; [|done]. done.
  - eexists. split; [|done]. done.
Qed.
(** The name stored in an inode, and the first of the inodes [ks] with name [s]. *)
Definition node_name (f : ramfs M) (c : Z) : list Z :=
  match inode_table f !! Z.to_nat c with
  | Some m => str_of (i_name m)
  | None => []
  end.

Fixpoint find_name (f : ramfs M) (ks s : list Z) : Z :=
  match ks with
  | [] => 0
  | c :: ks' => if decide (node_name f c = s) then c else find_name f ks' s
  end.

Lemma node_name_at f c m : at_inode f c m -> node_name f c = str_of (i_name m).
Proof. intros [_ H]. unfold node_name. by rewrite H. Qed.

Lemma lookup_loop_ok f name s pre ks rest :
  holds name s ->
  (forall c, c ∈ ks -> exists m, at_inode f c m /\ 0 ∈ i_name m) ->
  lookup_loop (length ks) (Z.of_nat (length pre)) (pre ++ ks ++ rest) name f = Ok (find_name f ks s, f).
Proof.
  intros Hs. revert pre. induction ks as [|c ks IH]; intros pre Hks; simpl; [done|].
  erewrite bind_ok by (apply rd_ok; [lia|]; rewrite Nat2Z.id, lookup_app_r, Nat.sub_diag by lia; done).
  destruct (Hks c ltac:(left)) as (m & Hm & Hnul). rewrite (bind_ok _ _ _ _ _ (node_ok _ _ _ Hm)).
  pose proof (str_of_holds _ Hnul) as Hh.
  rewrite (bind_ok _ _ _ _ _ (kstrcmp_ok _ _ _ _ f Hh Hs)), (node_name_at f c m Hm).
  pose proof (str_compare_eq (str_of (i_name m)) s (proj1 Hh) (proj1 Hs)) as Hcmp.
  case_decide as Hd.
  - rewrite (proj2 Hcmp Hd). done.
  - rewrite (proj2 (Z.eqb_neq _ 0)) by (rewrite Hcmp; done).
    specialize (IH (pre ++ [c]) ltac:(intros; apply Hks; by right)).
    rewrite length_app, <- app_assoc in IH. simpl in IH.
    by replace (Z.of_nat (length pre) + 1) with (Z.of_nat (length pre + 1)) by lia.
Qed.

Lemma lookup_child_ok f d n name s :
  tree_wf f -> at_inode f d n -> holds name s ->
  ramfs_lookup_child d name f = Ok (find_name f (kids n) s, f).
Proof.
  intros Hw Hd Hs. pose proof (tw_node _ Hw _ _ Hd) as Hn. unfold ramfs_lookup_child.
  rewrite (bind_ok _ _ _ _ _ (node_ok _ _ _ Hd)). destruct (Z.eqb_spec (i_type n) RAMFS_INODE_DIR) as [Ht|Ht]; simpl.
  - destruct (kids_split n Hn) as (rest & Ech & Hkl & _). rewrite Ech, <- Hkl.
    apply (lookup_loop_ok f name s [] (kids n) rest Hs). intros c Hc.
    destruct (tw_kid _ Hw d c) as (_ & m & Hm & _); [by exists n|].
    exists m. split; [done|]. by eapply Hw.
  - by rewrite (kids_wf_nil n Hn Ht).
Qed.

Lemma find_name_in f ks s : find_name f ks s = 0 \/ find_name f ks s ∈ ks.
Proof.
  induction ks as [|c ks IH]; simpl; [by left|]. case_decide; [right; left|].
  destruct IH as [->|IH]; [by left|right; by right].
Qed.

Lemma find_name_hit f ks s :
  0 ∉ ks -> find_name f ks s <> 0 -> node_name f (find_name f ks s) = s.
Proof.
  induction ks as [|c ks IH]; simpl; [done|]. intros [? ?]%not_elem_of_cons. case_decide; [done|]. by apply IH.
Qed.

Lemma find_name_miss f ks s c : find_name f ks s = 0 -> 0 ∉ ks -> c ∈ ks -> node_name f c <> s.
Proof.
  induction ks as [|x ks IH]; simpl; intros H0 Hz Hc; [by apply not_elem_of_nil in Hc|].
  apply not_elem_of_cons in Hz as [Hx Hz]. case_decide; [congruence|].
  apply elem_of_cons in Hc as [->|Hc]; [done|by apply IH].
Qed.

Lemma kids_nonzero f d n : tree_wf f -> at_inode f d n -> 0 ∉ kids n.
Proof. intros Hw Hd H. destruct (tw_kid _ Hw d 0) as [? _]; [by exists n|lia]. Qed.

(** What a lookup returns is an entry of the directory. *)
Lemma lookup_found f d n s :
  tree_wf f -> at_inode f d n -> find_name f (kids n) s <> 0 ->
  let c := find_name f (kids n) s in
  entry_of f d c /\ c ∈ kids n /\ i_type n = 2 /\ node_name f c = s /\ 2 <= c < 128 /\
  exists m, at_inode f c m /\ i_type m <> 0.
Proof.
  intros Hw Hd H0 c. destruct (find_name_in f (kids n) s) as [?|Hin]; [done|].
  assert (entry_of f d c) as He by (by exists n).
  destruct (tw_kid _ Hw d c He) as (Hb & m & Hm & Hmt & _).
  split; [done|]. split; [done|]. split; [|split; [|split; [done|eauto]]].
  - destruct (decide (i_type n = 2)); [done|]. rewrite (kids_wf_nil n) in Hin by (done || by eapply Hw).
    by apply not_elem_of_nil in Hin.
  - apply find_name_hit; [by eapply kids_nonzero|done].
Qed.
(** ** Buffers *)

Definition mem_ok (f : ramfs M) : Prop := exists L, km_rep (rmem f) L /\
  forall p b, bufs f !! p = Some b -> L !! p = Some (Z.of_nat (length b)).

Lemma kmalloc_buf_ok (junk : Z -> Z) f n :
  mem_ok f -> 0 < n < 4294967296 ->
  exists p f', kmalloc_buf junk n f = Ok (p, f') /\ mem_ok f' /\
    inode_table f' = inode_table f /\ inode_open_count f' = inode_open_count f /\
    ((p = 0 /\ bufs f' = bufs f) \/
     (0 < p /\ bufs f !! p = None /\
      exists b, bufs f' = <[p := b]> (bufs f) /\ Z.of_nat (length b) = n)).
Proof.
  intros (L & HL & Hb) Hn. destruct (kmalloc_spec (rmem f) L n HL Hn) as (p & m & E & Hp).
  unfold kmalloc_buf. assert (zoom rmem set_rmem (kmalloc n) f = Ok (p, set_rmem m f)) as Ez
    by (unfold zoom; by rewrite E).
  rewrite (bind_ok _ _ _ _ _ Ez). destruct Hp as [[-> Hm]|(H0 & H1 & H2 & _ & Hm)].
  - exists 0, (set_rmem m f). split; [done|]. split; [by exists L|]. split; [done|]. split; [done|by left].
  - rewrite (proj2 (Z.eqb_neq p 0)) by lia.
    assert (bufs f !! p = None) as Hnew.
    { destruct (bufs f !! p) as [b|] eqn:Eb; [|done]. apply Hb in Eb. congruence. }
    assert (Z.of_nat (length (junk <$> seqZ p n)) = n) as Hlen by (rewrite length_fmap, length_seqZ; lia).
    exists p. eexists. split; [reflexivity|]. split; [|split; [done|split; [done|]]].
    + exists (<[p := n]> L). split; [done|]. simpl. intros q b Hq.
      apply lookup_insert_Some in Hq as [[<- <-]|[Hne Hq]]; [by rewrite lookup_insert_eq, Hlen|].
      rewrite lookup_insert_ne by done. by apply Hb.
    + right. split; [done|]. split; [done|]. exists (junk <$> seqZ p n). done.
Qed.

Lemma kfree_buf_ok f p b :
  mem_ok f -> bufs f !! p = Some b ->
  exists m, kfree_buf p f = Ok (tt, set_bufs (delete p (bufs f)) (set_rmem m f)) /\
    mem_ok (set_bufs (delete p (bufs f)) (set_rmem m f)).
Proof.
  intros (L & HL & Hb) Hp. destruct (kfree_spec (rmem f) L p _ HL (Hb _ _ Hp)) as (m & E & Hm).
  exists m. unfold kfree_buf.
  assert (zoom rmem set_rmem (kfree p) f = Ok (tt, set_rmem m f)) as Ez by (unfold zoom; by rewrite E).
  rewrite (bind_ok _ _ _ _ _ Ez). split; [done|]. exists (delete p L). split; [done|]. simpl. intros q c Hq.
  apply lookup_delete_Some in Hq as [Hne Hq]. rewrite lookup_delete_ne by done. by apply Hb.
Qed.

(** Inodes outside [P] and their data are left alone. *)
Definition frame (P : Z -> Prop) (f f' : ramfs M) : Prop :=
  forall j n, ~ P j -> at_inode f j n ->
    at_inode f' j n /\ (i_data n <> 0 -> bufs f' !! i_data n = bufs f !! i_data n).

Lemma frame_refl P f : frame P f f.
Proof. done. Qed.

Lemma frame_trans P f g h : frame P f g -> frame P g h -> frame P f h.
Proof.
  intros H1 H2 j n HP Hn. destruct (H1 j n HP Hn) as [Hg Eg]. destruct (H2 j n HP Hg) as [Hh Eh].
  split; [done|]. intros Hd. by rewrite Eh, Eg.
Qed.

Lemma frame_weaken (P Q : Z -> Prop) f f' : (forall j, P j -> Q j) -> frame P f f' -> frame Q f f'.
Proof. intros HPQ H j n HQ. apply H. auto. Qed.

Lemma frame_with_node (P : Z -> Prop) f i n n' : at_inode f i n -> P i -> frame P f (with_node i n' f).
Proof.
  intros Hi HP j m Hj Hm. split; [|done]. eapply at_with_node_ne; [done| |done]. by intros ->.
Qed.

Lemma zero_inode_wf : node_wf zero_inode.
Proof. split; simpl; try done; try lia; by left. Qed.

Lemma tree_ext f f' :
  inode_table f' = inode_table f -> length (inode_open_count f') = 128%nat -> tree_wf f -> tree_wf f'.
Proof.
  intros Ht Ho [T1 T2 T3 T4 T5 T6 T7].
  assert (forall i n, at_inode f' i n <-> at_inode f i n) as Hat by (intros; unfold at_inode; by rewrite Ht).
  split; try done.
  - by rewrite Ht.
  - intros i n Hi%Hat. by eapply T3.
  - by apply Hat.
  - destruct T5 as (r & Hr & ?). exists r. by rewrite Hat.
  - intros d c (m & Hm%Hat & Hc). destruct (T6 d c) as (? & x & ? & ?); [by exists m|].
    split; [done|]. exists x. by rewrite Hat.
  - intros i n Hi%Hat. by eapply T7.
Qed.

(** Dropping the data of an inode that is about to be cleared. *)
Lemma free_data_ok f i n :
  data_wf f -> at_inode f i n ->
  exists g, (if negb (i_data n =? 0) then kfree_buf (i_data n);; upd_node i (set_data 0) else ret tt) f
    = Ok (tt, g) /\ (exists n', at_inode g i n') /\ inode_open_count g = inode_open_count f /\
    inode_table (with_node i zero_inode g) = inode_table (with_node i zero_inode f) /\
    mem_ok g /\ forall p, p <> i_data n -> bufs g !! p = bufs f !! p.
Proof.
  intros Hdw Hi. destruct (Z.eqb_spec (i_data n) 0) as [Ez|Ez]; cbn [negb].
  - exists f. split; [done|]. split_and!; try done; [by exists n|apply Hdw].
  - pose proof (dw_data _ Hdw _ _ Hi) as Hd. rewrite decide_False in Hd by done. destruct Hd as (b & Hbuf & _).
    destruct (kfree_buf_ok f _ b (dw_mem _ Hdw) Hbuf) as (m & E & Hmem).
    rewrite (bind_ok _ _ _ _ _ E). eexists. split; [apply upd_node_ok; exact Hi|].
    split; [eexists; eapply at_with_node_eq; exact Hi|]. split; [done|].
    split; [by rewrite with_node_twice|]. split; [done|].
    intros p Hp. simpl. by rewrite lookup_delete_ne by done.
Qed.

(** A state that differs from [f] in the data of inode [i] only, which it clears. *)
Lemma data_cleared f f' i n :
  data_wf f -> at_inode f i n -> mem_ok f' ->
  inode_table f' = inode_table (with_node i zero_inode f) ->
  (forall p, p <> i_data n -> bufs f' !! p = bufs f !! p) ->
  data_wf f' /\ frame (eq i) f f'.
Proof.
  intros Hdw Hi Hmem Ht Hb.
  assert (forall j m, at_inode f' j m <-> at_inode (with_node i zero_inode f) j m) as Hat
    by (intros; unfold at_inode; by rewrite Ht).
  assert (forall j m, at_inode f j m -> j <> i -> i_data m <> 0 -> bufs f' !! i_data m = bufs f !! i_data m) as Hkeep.
  { intros j m Hm Hj Hd. apply Hb. intros E. apply Hj. by eapply (dw_sep _ Hdw). }
  assert (forall j m, at_inode f' j m -> (j = i /\ m = zero_inode) \/ (j <> i /\ at_inode f j m)) as Hinv.
  { intros j m Hm. apply Hat, (at_with_node f i n j m Hi) in Hm. case_decide; [by left|by right]. }
  split; [split; [| |exact Hmem]|].
  - intros j m Hm. destruct (Hinv j m Hm) as [[-> ->]|[Hj Hm']]; [done|].
    pose proof (dw_data _ Hdw j m Hm') as H. case_decide; [done|]. by rewrite (Hkeep j m).
  - intros j k m x Hm Hx Hne E. destruct (Hinv j m Hm) as [[_ ->]|[Hj Hm']]; [done|].
    destruct (Hinv k x Hx) as [[_ ->]|[Hj' Hx']]; [done|]. by eapply (dw_sep _ Hdw).
  - intros j m Hj Hm. split; [apply Hat; by eapply at_with_node_ne|]. by apply (Hkeep j).
Qed.

Lemma free_inode_ok f i n :
  ramfs_wf f -> at_inode f i n -> 2 <= i -> unlinked f i -> kids n = [] ->
  exists f', ramfs_free_inode i f = Ok (tt, f') /\ ramfs_wf f' /\ at_inode f' i zero_inode /\
    frame (eq i) f f'.
Proof.
  intros [Hw Hdw] Hi H2 Hu Hk. pose proof (at_inode_bound _ _ _ Hw Hi) as Hb.
  unfold ramfs_free_inode. rewrite (proj2 (Z.eqb_neq i 0)) by lia.
  rewrite (proj2 (Z.leb_gt RAMFS_MAX_INODES i)) by (unfold RAMFS_MAX_INODES; lia). cbn [orb].
  rewrite (bind_ok _ _ _ _ _ (node_ok _ _ _ Hi)).
  destruct (free_data_ok f i n Hdw Hi) as (g & Eg & [n' Hi'] & Hoc & Htab & Hmem & Hbufs).
  rewrite (bind_ok _ _ _ _ _ Eg). erewrite bind_ok by (by apply upd_node_ok). run. unfold id.
  erewrite bind_ok by (apply wr_ok; simpl; rewrite Hoc, (tw_open _ Hw); lia).
  eexists. split; [reflexivity|]. set (f' := set_open_count _ _).
  assert (inode_table f' = inode_table (with_node i zero_inode f)) as Ht by exact Htab.
  destruct (data_cleared f f' i n Hdw Hi Hmem Ht Hbufs) as [Hdw' Hframe].
  split; [split; [|done]|split; [|done]].
  - apply (tree_ext (with_node i zero_inode f)); [done| |].
    + simpl. rewrite length_insert, Hoc. apply Hw.
    + eapply tree_reset; try done. apply zero_inode_wf.
  - unfold at_inode. rewrite Ht. by eapply at_with_node_eq.
Qed.
(** ** Creating *)

Definition unchanged (f f' : ramfs M) : Prop := frame (fun _ => False) f f'.

Lemma frame_unchanged f f' r n : frame (eq r) f f' -> at_inode f r n -> at_inode f' r n -> i_data n = 0 ->
  unchanged f f'.
Proof.
  intros H Hr Hr' Hd j m _ Hm. destruct (decide (r = j)) as [<-|Hne]; [|by apply H].
  rewrite (at_inode_inj _ _ _ _ Hm Hr). done.
Qed.

Lemma alloc_inode_loop_ok k i f :
  tree_wf f -> 0 <= i -> i + Z.of_nat k <= 128 ->
  (alloc_inode_loop k i f = Ok (0, f) /\
   forall j n, i <= j < i + Z.of_nat k -> at_inode f j n -> i_type n <> 0) \/
  (exists r, i <= r < i + Z.of_nat k /\ at_inode f r zero_inode /\
   alloc_inode_loop k i f = Ok (r, with_node r (set_nlink 1 zero_inode) f)).
Proof.
  intros Hw. revert i. induction k as [|k IH]; intros i Hi Hk; simpl.
  - left. split; [done|]. intros. lia.
  - destruct (at_inode_exists f i Hw ltac:(lia)) as [n Hn]. rewrite (bind_ok _ _ _ _ _ (node_ok _ _ _ Hn)).
    destruct (Z.eqb_spec (i_type n) RAMFS_INODE_FREE) as [Ht|Ht].
    + right. exists i. split; [lia|]. pose proof (nw_free _ (tw_node _ Hw _ _ Hn) Ht) as ->. split; [done|].
      erewrite bind_ok by (by apply upd_node_ok). done.
    + destruct (IH (i + 1) ltac:(lia) ltac:(lia)) as [[E Hall]|(r & Hr & Hz & E)].
      * left. split; [done|]. intros j m Hj Hm. destruct (decide (j = i)) as [->|].
        -- by rewrite (at_inode_inj _ _ _ _ Hm Hn).
        -- apply (Hall j); [lia|done].
      * right. exists r. split; [lia|done].
Qed.

Definition new_node (ty mode nl : Z) (nm : list Z) : ramfs_inode :=
  RamfsInode ty (Z.land mode 511) 0 0 0 nl 0 0 0 nm 0 (replicate 64 0) 0 0 0.

Lemma new_node_wf ty mode nl nm s :
  ty = 1 \/ ty = 2 -> is_u32 nl -> length nm = 64%nat -> holds nm s -> node_wf (new_node ty mode nl nm).
Proof.
  intros Ht Hl Hnm [_ (r & Er)]. split; simpl; try done; try lia.
  rewrite Er. apply elem_of_app. right. left.
Qed.

Lemma copy_name_ok f r n name s :
  at_inode f r n -> length (i_name n) = 64%nat -> holds name s ->
  exists nm, length nm = 64%nat /\ holds nm (take 63 s) /\
    copy_name r name f = Ok (tt, with_node r (set_name nm n) f).
Proof.
  intros Hr Hl Hs. destruct (kstrncpy_holds (i_name n) name s RAMFS_MAX_NAME f Hs) as (nm & E & Hnl & Hh);
    [rewrite Hl; unfold RAMFS_MAX_NAME; lia|].
  exists nm. rewrite Hl in Hnl. split; [done|]. split; [done|]. unfold copy_name.
  rewrite (bind_ok _ _ _ _ _ (node_ok _ _ _ Hr)), (bind_ok _ _ _ _ _ E). by rewrite (upd_node_ok f r n).
Qed.

Lemma init_node_ok f r name s ty mode nl :
  at_inode f r zero_inode -> holds name s ->
  exists nm, length nm = 64%nat /\ holds nm (take 63 s) /\
    forall B (K : unit -> ST (ramfs M) B), (upd_node r (set_type ty);; upd_node r (set_mode (Z.land mode 511));; upd_node r (set_nlink nl);;
     bind (copy_name r name) K) (with_node r (set_nlink 1 zero_inode) f)
    = K tt (with_node r (new_node ty mode nl nm) f).
Proof.
  intros Hz Hs. assert (forall x, at_inode (with_node r x f) r x) as Hat by (intros; by eapply at_with_node_eq).
  set (x := set_nlink nl (set_mode (Z.land mode 511) (set_type ty (set_nlink 1 zero_inode)))).
  destruct (copy_name_ok (with_node r x f) r x name s (Hat x) eq_refl Hs) as (nm & Hl & Hh & E).
  exists nm. split; [done|]. split; [done|]. intros B K.
  do 3 (erewrite bind_ok by (by apply upd_node_ok); rewrite with_node_twice).
  rewrite (bind_ok _ _ _ _ _ E), with_node_twice. done.
Qed.

Lemma new_inode_wf f r nn :
  ramfs_wf f -> at_inode f r zero_inode -> 2 <= r -> node_wf nn -> kids nn = [] ->
  i_data nn = 0 -> i_data_capacity nn = 0 ->
  ramfs_wf (with_node r nn f) /\ unlinked (with_node r nn f) r.
Proof.
  intros [Hw Hdw] Hz H2 Hn Hk Hd Hc.
  pose proof (free_unlinked f r _ Hw Hz eq_refl) as Hu. split; [split|].
  - by eapply tree_reset.
  - by eapply data_none.
  - intros d Hd'. destruct (entry_with_node _ _ _ _ _ _ Hz Hd') as [[-> H]|[_ H]].
    + rewrite Hk in H. by apply not_elem_of_nil in H.
    + by apply (Hu d).
Qed.

Definition linked (d : Z) (n : ramfs_inode) (r : Z) (n' : ramfs_inode) : Prop :=
  kids n' = kids n ++ [r] /\ exists ch, n' = relink ch (i_child_count n + 1) n.

(** Entering a new node [nn] at the free inode [r] in the directory [d]. *)
Lemma link_new f d n r nn :
  ramfs_wf f -> at_inode f d n -> i_type n = 2 -> at_inode f r zero_inode -> 2 <= r ->
  node_wf nn -> kids nn = [] -> i_type nn <> 0 -> i_data nn = 0 -> i_data_capacity nn = 0 ->
  let f1 := with_node r nn f in
  (i_child_count n < 64 /\ exists f' n', ramfs_add_child d r f1 = Ok (0, f') /\ ramfs_wf f' /\
     at_inode f' d n' /\ linked d n r n' /\ at_inode f' r (set_parent d nn) /\
     frame (fun j => j = d \/ j = r) f f') \/
  (64 <= i_child_count n /\ exists f', ramfs_add_child d r f1 = Ok (- ENOSPC, f1) /\
     ramfs_free_inode r f1 = Ok (tt, f') /\ ramfs_wf f' /\ unchanged f f').
Proof.
  intros Hwf Hd Ht Hz H2 Hn Hk Hnt Hd0 Hc0 f1.
  destruct (new_inode_wf f r nn Hwf Hz H2 Hn Hk Hd0 Hc0) as [Hwf1 Hu].
  assert (d <> r) as Hdr by (intros ->; by rewrite (at_inode_inj _ _ _ _ Hd Hz) in Ht).
  assert (at_inode f1 d n) as Hd1 by (by eapply at_with_node_ne).
  assert (at_inode f1 r nn) as Hr1 by (by eapply at_with_node_eq).
  destruct (decide (i_child_count n < 64)) as [Hlt|Hge]; [left|right]; (split; [lia|]).
  - destruct (add_child_ok f1 d n r nn Hwf1 Hd1 Ht Hlt Hr1 H2 Hu Hnt) as (E & Hk' & Hwf').
    rewrite decide_False in E, Hwf' by congruence.
    set (n' := relink _ _ n) in *. eexists _, n'. split; [exact E|]. split; [done|].
    assert (at_inode (with_node d n' f1) r nn) as Hr2 by (by eapply at_with_node_ne).
    split; [eapply at_with_node_ne; [exact Hr2|done|by eapply at_with_node_eq]|].
    split; [split; [done|by eexists]|]. split; [by eapply at_with_node_eq|].
    eapply frame_trans; [eapply (frame_with_node _ f r); [done|by right]|].
    eapply frame_trans; [eapply (frame_with_node _ f1 d); [done|by left]|].
    eapply frame_with_node; [done|by right].
  - destruct (add_child_fail f1 d n r Hd1) as (e & _ & E & Ee); [lia|]. rewrite Ht in Ee. simpl in Ee.
    destruct (free_inode_ok f1 r nn Hwf1 Hr1 H2 Hu Hk) as (f' & E' & Hwf' & Hz' & Hfr).
    exists f'. rewrite Ee in E. split; [done|]. split; [done|]. split; [done|].
    eapply frame_unchanged; [|exact Hz|exact Hz'|done].
    eapply frame_trans; [|done]. by eapply frame_with_node.
Qed.
(** [f'] is [f] with a new empty node of type [ty] and name [s], cut to 63
    bytes, as the last entry of directory [d], at inode [r]. *)
Record created (f f' : ramfs M) (d r ty : Z) (s : list Z) : Prop := {
  cr_free : at_inode f r zero_inode;
  cr_dir : exists n n', at_inode f d n /\ at_inode f' d n' /\ i_type n' = 2 /\
    kids n' = kids n ++ [r] /\ i_parent n' = i_parent n /\ i_name n' = i_name n;
  cr_node : exists m, at_inode f' r m /\ i_type m = ty /\ str_of (i_name m) = take 63 s /\
    i_size m = 0 /\ kids m = [] /\ i_parent m = d;
  cr_frame : frame (fun j => j = d \/ j = r) f f'
}.

Definition has_free_inode (f : ramfs M) : Prop := exists i, 2 <= i < 128 /\ at_inode f i zero_inode.

Lemma alloc_inode_ok f :
  tree_wf f ->
  (ramfs_alloc_inode f = Ok (0, f) /\ ~ has_free_inode f) \/
  (exists r, 2 <= r < 128 /\ at_inode f r zero_inode /\
   ramfs_alloc_inode f = Ok (r, with_node r (set_nlink 1 zero_inode) f)).
Proof.
  intros Hw. unfold ramfs_alloc_inode.
  destruct (alloc_inode_loop_ok (Z.to_nat (RAMFS_MAX_INODES - 2)) 2 f Hw) as [[E Hall]|(r & Hr & Hz & E)];
    [lia|unfold RAMFS_MAX_INODES; lia| |].
  - left. split; [done|]. intros (i & Hi & Hz). apply (Hall i zero_inode); [unfold RAMFS_MAX_INODES; lia|done|done].
  - right. exists r. split; [unfold RAMFS_MAX_INODES in Hr; lia|done].
Qed.

Lemma linked_created f f' d n r n' ty mode nl nm s :
  at_inode f r zero_inode -> at_inode f d n -> at_inode f' d n' -> i_type n = 2 -> linked d n r n' ->
  at_inode f' r (set_parent d (new_node ty mode nl nm)) -> holds nm (take 63 s) ->
  frame (fun j => j = d \/ j = r) f f' -> created f f' d r ty s.
Proof.
  intros Hz Hd Hd' Ht [Hk (ch & Ech)] Hr Hh Hf. split; [done| | |done].
  - exists n, n'. subst n'. split_and!; done.
  - eexists. split; [exact Hr|]. split; [done|]. split; [by apply holds_str_of|done].
Qed.

Lemma create_file_ok f d n name s mode :
  ramfs_wf f -> at_inode f d n -> holds name s ->
  exists e r f', ramfs_create_file d name mode f = Ok ((e, r), f') /\ ramfs_wf f' /\
    ((e = 0 /\ 2 <= r < 128 /\ i_type n = 2 /\ created f f' d r 1 s) \/
     (r = 0 /\ unchanged f f' /\
      ((e = - ENOTDIR /\ i_type n <> 2) \/ (e = - ENOSPC /\ (~ has_free_inode f \/ 64 <= i_child_count n))))).
Proof.
  intros Hwf Hd Hs. pose proof Hwf as [Hw Hdw]. unfold ramfs_create_file, ramfs_get_inode.
  rewrite (bind_ok _ _ _ _ _ (node_ok _ _ _ Hd)). unfold RAMFS_INODE_DIR.
  destruct (Z.eqb_spec (i_type n) 2) as [Ht|Ht]; cbn [negb].
  2: { eexists _, _, f. split; [reflexivity|]. split; [done|]. right. split; [done|]. split; [done|by left]. }
  destruct (alloc_inode_ok f Hw) as [[E Hno]|(r & Hr & Hz & E)]; rewrite (bind_ok _ _ _ _ _ E).
  { eexists _, _, f. split; [reflexivity|]. split; [done|]. right. split; [done|]. split; [done|right; by eauto]. }
  rewrite (proj2 (Z.eqb_neq r 0)) by lia.
  destruct (init_node_ok f r name s RAMFS_INODE_FILE mode 1 Hz Hs) as (nm & Hl & Hh & En). rewrite En. clear En.
  set (nn := new_node RAMFS_INODE_FILE mode 1 nm).
  assert (node_wf nn) as Hnn by (eapply new_node_wf; [by left|done|done|done]).
  destruct (link_new f d n r nn Hwf Hd Ht Hz) as [(Hc & f' & n' & Ea & Hwf' & Hd' & Hlk & Hr' & Hfr)|(Hc & f' & Ea & Ef & Hwf' & Hfr)];
    try done; try lia; rewrite (bind_ok _ _ _ _ _ Ea).
  - change (0 <? 0) with false. cbv iota. eexists _, _, f'. split; [reflexivity|]. split; [done|]. left. split_and!; try done; try lia.
    by eapply linked_created.
  - change (- ENOSPC <? 0) with true. cbv iota. rewrite (bind_ok _ _ _ _ _ Ef). eexists _, _, f'. split; [reflexivity|]. split; [done|]. right.
    split; [done|]. split; [done|right; by eauto].
Qed.
Lemma nlink_wf k n : node_wf n -> i_type n <> 0 -> is_u32 k -> node_wf (set_nlink k n).
Proof. intros [] Ht Hk. split; simpl; try done. Qed.

(** Changing a link count. *)
Lemma nlink_ok f d n k :
  ramfs_wf f -> at_inode f d n -> i_type n <> 0 -> is_u32 k ->
  ramfs_wf (with_node d (set_nlink k n) f).
Proof.
  intros [Hw Hdw] Hd Ht Hk. split.
  - eapply tree_attr; try done; [by eapply dir_nonzero|]. apply nlink_wf; [by eapply Hw|done|done].
  - by eapply data_same.
Qed.

Lemma create_dir_ok f d n name s mode :
  ramfs_wf f -> at_inode f d n -> holds name s ->
  exists e r f', ramfs_create_dir d name mode f = Ok ((e, r), f') /\ ramfs_wf f' /\
    ((e = 0 /\ 2 <= r < 128 /\ i_type n = 2 /\ find_name f (kids n) s = 0 /\ created f f' d r 2 s) \/
     (r = 0 /\ unchanged f f' /\
      ((e = - ENOTDIR /\ i_type n <> 2) \/ (e = - EEXIST /\ find_name f (kids n) s <> 0) \/
       (e = - ENOSPC /\ (~ has_free_inode f \/ 64 <= i_child_count n))))).
Proof.
  intros Hwf Hd Hs. pose proof Hwf as [Hw Hdw]. unfold ramfs_create_dir, ramfs_get_inode.
  rewrite (bind_ok _ _ _ _ _ (node_ok _ _ _ Hd)). unfold RAMFS_INODE_DIR at 1.
  destruct (Z.eqb_spec (i_type n) 2) as [Ht|Ht]; cbn [negb].
  2: { eexists _, _, f. split; [reflexivity|]. split; [done|]. right. split; [done|]. split; [done|by left]. }
  rewrite (bind_ok _ _ _ _ _ (lookup_child_ok f d n name s Hw Hd Hs)).
  destruct (Z.eqb_spec (find_name f (kids n) s) 0) as [Hf|Hf]; cbn [negb].
  2: { eexists _, _, f. split; [reflexivity|]. split; [done|]. right. split; [done|]. split; [done|right; by left]. }
  destruct (alloc_inode_ok f Hw) as [[E Hno]|(r & Hr & Hz & E)]; rewrite (bind_ok _ _ _ _ _ E).
  { eexists _, _, f. split; [reflexivity|]. split; [done|]. right. split; [done|]. split; [done|right; right; by eauto]. }
  rewrite (proj2 (Z.eqb_neq r 0)) by lia.
  destruct (init_node_ok f r name s RAMFS_INODE_DIR mode 2 Hz Hs) as (nm & Hl & Hh & En). rewrite En. clear En.
  set (nn := new_node RAMFS_INODE_DIR mode 2 nm).
  assert (node_wf nn) as Hnn by (eapply new_node_wf; [by right|done|done|done]).
  destruct (link_new f d n r nn Hwf Hd Ht Hz) as [(Hc & f' & n' & Ea & Hwf' & Hd' & Hlk & Hr' & Hfr)|(Hc & f' & Ea & Ef & Hwf' & Hfr)];
    try done; try lia; rewrite (bind_ok _ _ _ _ _ Ea).
  - change (0 <? 0) with false. cbv iota. erewrite bind_ok by (by apply upd_node_ok).
    cbv beta. set (n2 := set_nlink (u32 (i_nlink n' + 1)) n'). pose proof Hlk as [Hk' (ch & En')].
    assert (i_type n' = 2) as Ht' by (by rewrite En').
    assert (d <> r) as Hdr by (intros ->; rewrite (at_inode_inj _ _ _ _ Hd Hz) in Ht; discriminate).
    assert (at_inode (with_node d n2 f') d n2) as Hd2 by (by eapply at_with_node_eq).
    assert (frame (fun j => j = d \/ j = r) f (with_node d n2 f')) as Hfr2
      by (eapply frame_trans; [done|]; eapply frame_with_node; [done|by left]).
    eexists _, _, _. split; [reflexivity|].
    split; [apply nlink_ok; [done|done|lia|apply u32_range]|]. left. split_and!; try done; try lia.
    assert (at_inode (with_node d n2 f') r (set_parent d nn)) as Hr2 by (by eapply at_with_node_ne).
    split; [done| | |done].
    + exists n, n2. split; [done|]. split; [done|]. split; [exact Ht'|]. split; [exact Hk'|].
      change (i_parent n' = i_parent n /\ i_name n' = i_name n). by rewrite En'.
    + eexists. split; [exact Hr2|]. split; [done|]. split; [by apply holds_str_of|done].
  - change (- ENOSPC <? 0) with true. cbv iota. rewrite (bind_ok _ _ _ _ _ Ef). eexists _, _, f'.
    split; [reflexivity|]. split; [done|]. right. split; [done|]. split; [done|right; right; by eauto].
Qed.

(** ** Removing *)

(** [f'] is [f] without the entry [c] of directory [d]; the other nodes are
    as they were. *)
Record removed (f f' : ramfs M) (d c : Z) : Prop := {
  rm_dir : exists n n', at_inode f d n /\ at_inode f' d n' /\ c ∈ kids n /\
    kids n' = filter (fun x => x <> c) (kids n) /\ i_type n' = 2 /\ i_name n' = i_name n;
  rm_frame : frame (fun j => j = d \/ j = c) f f'
}.

Lemma with_node_same f i n : at_inode f i n -> with_node i n f = f.
Proof.
  intros [_ H]. unfold with_node, set_table. destruct f as [t o b m]. simpl in *. f_equal.
  by apply list_insert_id.
Qed.

Definition nlink_dec (k : Z) : Z := if 0 <? k then k - 1 else k.

Lemma drop_link_ok f i m :
  ramfs_wf f -> at_inode f i m -> i_type m <> 0 ->
  let m' := set_nlink (nlink_dec (i_nlink m)) m in
  (if 0 <? i_nlink m then upd_node i (fun n => set_nlink (i_nlink n - 1) n) else ret tt) f =
    Ok (tt, with_node i m' f) /\ ramfs_wf (with_node i m' f) /\ at_inode (with_node i m' f) i m'.
Proof.
  intros Hwf Hi Ht m'. pose proof (nw_nlink _ (tw_node _ (proj1 Hwf) _ _ Hi)) as Hk. unfold is_u32 in Hk.
  split; [|split; [|by eapply at_with_node_eq]].
  - subst m'. unfold nlink_dec. destruct (0 <? i_nlink m); [by rewrite (upd_node_ok f i m)|].
    replace (set_nlink (i_nlink m) m) with m by (by destruct m). by rewrite with_node_same.
  - apply nlink_ok; try done. unfold is_u32, nlink_dec. destruct (Z.ltb_spec 0 (i_nlink m)); lia.
Qed.

Lemma open_count_ok f i : tree_wf f -> 0 <= i < 128 ->
  ramfs_get_open_count i f = Ok (nthZ (inode_open_count f) i, f).
Proof. intros Hw Hi. unfold ramfs_get_open_count. run. apply rd_nthZ. unfold id. rewrite (tw_open _ Hw). lia. Qed.

Lemma removed_intro f f1 f' d n ch cnt c :
  at_inode f d n -> i_type n = 2 -> c ∈ kids n -> c <> d ->
  kids (relink ch cnt n) = filter (fun x => x <> c) (kids n) ->
  f1 = with_node d (relink ch cnt n) f -> frame (eq c) f1 f' -> removed f f' d c.
Proof.
  intros Hd Ht Hc Hcd Hk -> Hf. split.
  - exists n, (relink ch cnt n). split; [done|].
    destruct (Hf d (relink ch cnt n)) as [Hd' _]; [done|by eapply at_with_node_eq|]. done.
  - eapply frame_trans; [eapply frame_with_node; [done|by left]|].
    eapply frame_weaken; [|done]. by right.
Qed.

(** An unlisted file goes away unless it has links or is open. *)
Lemma free_unused_ok f c m :
  ramfs_wf f -> at_inode f c m -> i_type m <> 0 -> i_type m <> 2 -> 2 <= c < 128 -> unlinked f c ->
  exists f', (if i_nlink m =? 0
              then o ← ramfs_get_open_count c; if o =? 0 then ramfs_free_inode c else ret tt
              else ret tt) f = Ok (tt, f') /\ ramfs_wf f' /\ frame (eq c) f f' /\
    (i_nlink m = 0 -> nthZ (inode_open_count f) c = 0 -> at_inode f' c zero_inode).
Proof.
  intros Hwf Hm Ht0 Ht2 Hc Hu. destruct (Z.eqb_spec (i_nlink m) 0) as [Hl|Hl]; [|by exists f].
  rewrite (bind_ok _ _ _ _ _ (open_count_ok f c (proj1 Hwf) ltac:(lia))).
  destruct (Z.eqb_spec (nthZ (inode_open_count f) c) 0) as [Ho|Ho]; [|by exists f].
  destruct (free_inode_ok f c m Hwf Hm ltac:(lia) Hu) as (f' & E' & H1 & H2 & H3); [|by exists f'].
  apply kids_wf_nil; [by eapply (proj1 Hwf)|done].
Qed.

Lemma unlink_ok f d n name s fs_priv :
  ramfs_wf f -> at_inode f d n -> holds name s ->
  exists e f', ramfs_op_unlink fs_priv d name f = Ok (e, f') /\ ramfs_wf f' /\
    let c := find_name f (kids n) s in
    ((e = 0 /\ c <> 0 /\ removed f f' d c /\
      exists m, at_inode f c m /\ i_type m = 1 /\
        (i_nlink m <= 1 -> nthZ (inode_open_count f) c = 0 -> at_inode f' c zero_inode)) \/
     (f' = f /\ ((e = - ENOENT /\ c = 0) \/
                 (e = - EISDIR /\ exists m, at_inode f c m /\ i_type m = 2)))).
Proof.
  intros Hwf Hd Hs. pose proof Hwf as [Hw Hdw]. unfold ramfs_op_unlink, ramfs_get_inode.
  rewrite (bind_ok _ _ _ _ _ (lookup_child_ok f d n name s Hw Hd Hs)).
  set (c := find_name f (kids n) s).
  destruct (Z.eqb_spec c 0) as [Hc0|Hc0].
  { eexists _, f. split; [reflexivity|]. split; [done|]. right. split; [done|by left]. }
  destruct (lookup_found f d n s Hw Hd Hc0) as (_ & Hck & Ht & Hname & Hcb & m & Hm & Hmt). fold c in Hck, Hname, Hcb, Hm.
  rewrite (bind_ok _ _ _ _ _ (node_ok _ _ _ Hm)). unfold RAMFS_INODE_DIR.
  destruct (Z.eqb_spec (i_type m) 2) as [Hm2|Hm2].
  { eexists _, f. split; [reflexivity|]. split; [done|]. right. split; [done|]. right. split; [done|by exists m]. }
  destruct (remove_child_ok f d n c Hwf Hd Ht Hck) as (ch & E & Hk & Hwf1 & Hu). cbv zeta in *.
  rewrite (bind_ok _ _ _ _ _ E). set (f1 := with_node d _ f) in *.
  assert (c <> d) as Hcd by (intros Ec; rewrite Ec in Hm; rewrite (at_inode_inj _ _ _ _ Hm Hd) in Hm2; done).
  assert (at_inode f1 c m) as Hm1 by (by eapply at_with_node_ne).
  pose proof (tw_node _ Hw _ _ Hm) as Hmw.
  assert (i_type m = 1) as Hmt1 by (destruct (nw_type _ Hmw) as [?|[?|?]]; done).
  rewrite (bind_ok _ _ _ _ _ (node_ok _ _ _ Hm1)).
  destruct (drop_link_ok f1 c m Hwf1 Hm1 Hmt) as (E2 & Hwf2 & Hm2').
  set (m2 := set_nlink _ m) in *. set (f2 := with_node c m2 f1) in *.
  rewrite (bind_ok _ _ _ _ _ E2), (bind_ok _ _ _ _ _ (node_ok _ _ _ Hm2')).
  assert (unlinked f2 c) as Hu2.
  { intros x Hx. destruct (entry_with_node _ _ _ _ _ _ Hm1 Hx) as [[-> H]|[_ H]]; [|by apply (Hu x)].
    rewrite (kids_wf_nil m2) in H; [by apply not_elem_of_nil in H| |done]. by eapply (proj1 Hwf2). }
  assert (frame (eq c) f1 f2) as Hfr2 by (by eapply frame_with_node).
  destruct (free_unused_ok f2 c m2 Hwf2 Hm2' Hmt ltac:(by change (i_type m <> 2)) ltac:(lia) Hu2) as (f' & E3 & Hwf' & Hfr3 & Hz).
  rewrite (bind_ok _ _ _ _ _ E3). eexists _, f'. split; [reflexivity|]. split; [done|]. left.
  split; [done|]. split; [done|]. split; [eapply removed_intro; try done; eapply frame_trans; done|].
  exists m. split; [done|]. split; [done|]. intros Hl Ho. apply Hz; [|done].
  pose proof (nw_nlink _ Hmw) as Hnl. unfold is_u32 in Hnl. change (nlink_dec (i_nlink m) = 0).
  unfold nlink_dec. destruct (Z.ltb_spec 0 (i_nlink m)); lia.
Qed.
Lemma rmdir_ok f d n name s fs_priv :
  ramfs_wf f -> at_inode f d n -> holds name s ->
  exists e f', ramfs_op_rmdir fs_priv d name f = Ok (e, f') /\ ramfs_wf f' /\
    let c := find_name f (kids n) s in
    ((e = 0 /\ c <> 0 /\ c <> d /\ removed f f' d c /\ at_inode f' c zero_inode /\
      exists m, at_inode f c m /\ i_type m = 2 /\ kids m = []) \/
     (f' = f /\ ((e = - ENOENT /\ c = 0) \/ (e = - ENOTDIR /\ exists m, at_inode f c m /\ i_type m <> 2) \/
                 (e = - ENOTEMPTY /\ exists m, at_inode f c m /\ kids m <> [])))).
Proof.
  intros Hwf Hd Hs. pose proof Hwf as [Hw Hdw]. unfold ramfs_op_rmdir, ramfs_get_inode.
  rewrite (bind_ok _ _ _ _ _ (lookup_child_ok f d n name s Hw Hd Hs)).
  set (c := find_name f (kids n) s).
  destruct (Z.eqb_spec c 0) as [Hc0|Hc0].
  { eexists _, f. split; [reflexivity|]. split; [done|]. right. split; [done|by left]. }
  destruct (lookup_found f d n s Hw Hd Hc0) as (_ & Hck & Ht & _ & Hcb & m & Hm & Hmt). fold c in Hck, Hcb, Hm.
  rewrite (bind_ok _ _ _ _ _ (node_ok _ _ _ Hm)). unfold RAMFS_INODE_DIR.
  destruct (Z.eqb_spec (i_type m) 2) as [Hm2|Hm2]; cbn [negb].
  2: { eexists _, f. split; [reflexivity|]. split; [done|]. right. split; [done|]. right. left. split; [done|by exists m]. }
  pose proof (tw_node _ Hw _ _ Hm) as Hmw. pose proof (nw_count _ Hmw). destruct (kids_split m Hmw) as (_ & _ & Hkl & _).
  destruct (Z.ltb_spec 0 (i_child_count m)) as [Hne|Hemp].
  { eexists _, f. split; [reflexivity|]. split; [done|]. right. split; [done|]. right. right. split; [done|].
    exists m. split; [done|]. intros E. rewrite E in Hkl. simpl in Hkl. lia. }
  assert (kids m = []) as Hkm by (apply length_zero_iff_nil; lia).
  assert (c <> d) as Hcd.
  { intros Ec. rewrite Ec in Hm. rewrite (at_inode_inj _ _ _ _ Hm Hd) in Hkm. rewrite Hkm in Hck. by apply not_elem_of_nil in Hck. }
  destruct (remove_child_ok f d n c Hwf Hd Ht Hck) as (ch & E & Hk & Hwf1 & Hu). cbv zeta in *.
  rewrite (bind_ok _ _ _ _ _ E). set (n1 := relink ch _ n) in *. set (f1 := with_node d n1 f) in *.
  assert (at_inode f1 c m) as Hm1 by (by eapply at_with_node_ne).
  assert (at_inode f1 d n1) as Hd1 by (by eapply at_with_node_eq).
  rewrite (bind_ok _ _ _ _ _ (node_ok _ _ _ Hd1)).
  destruct (drop_link_ok f1 d n1 Hwf1 Hd1 ltac:(change (i_type n <> 0); lia)) as (E2 & Hwf2 & Hd2).
  rewrite (bind_ok _ _ _ _ _ E2). set (n2 := set_nlink _ n1) in *. set (f2 := with_node d n2 f1) in *.
  assert (at_inode f2 c m) as Hm2' by (by eapply at_with_node_ne).
  assert (unlinked f2 c) as Hu2.
  { intros x Hx. destruct (entry_with_node _ _ _ _ _ _ Hd1 Hx) as [[-> H']|[_ H']]; [|by apply (Hu x)].
    apply (Hu d). by exists n1. }
  destruct (free_inode_ok f2 c m Hwf2 Hm2' ltac:(lia) Hu2 Hkm) as (f' & E' & Hwf' & Hz & Hfr).
  rewrite (bind_ok _ _ _ _ _ E'). eexists _, f'. split; [reflexivity|]. split; [done|]. left.
  split; [done|]. split; [done|]. split; [done|]. split; [split|split; [done|by exists m]].
  - exists n, n2. split; [done|]. split; [by apply Hfr|]. split; [done|]. split; [exact Hk|done].
  - eapply frame_trans; [eapply (frame_with_node _ f d); [done|by left]|].
    eapply frame_trans; [eapply (frame_with_node _ f1 d); [done|by left]|].
    eapply frame_weaken; [|done]. by right.
Qed.
(** ** Renaming *)

Lemma entry_with_node_iff f i n n' d c :
  at_inode f i n ->
  entry_of (with_node i n' f) d c <-> (d = i /\ c ∈ kids n') \/ (d <> i /\ entry_of f d c).
Proof.
  intros Hi. split; [by eapply entry_with_node|]. intros [[-> Hc]|[Hd (m & Hm & Hc)]].
  - exists n'. split; [by eapply at_with_node_eq|done].
  - exists m. split; [by eapply at_with_node_ne|done].
Qed.

Lemma entry_same_kids f i n n' d c :
  at_inode f i n -> kids n' = kids n -> entry_of (with_node i n' f) d c <-> entry_of f d c.
Proof.
  intros Hi Hk. rewrite (entry_with_node_iff f i n) by done. rewrite Hk. split.
  - intros [[-> ?]|[_ ?]]; [by exists n|done].
  - intros He. destruct (decide (d = i)) as [->|]; [left|by right].
    destruct He as (m & Hm & Hc). by rewrite (at_inode_inj _ _ _ _ Hm Hi) in Hc.
Qed.

Lemma remove_entries f d n c ch cnt :
  tree_wf f -> at_inode f d n -> c ∈ kids n ->
  kids (relink ch cnt n) = filter (fun x => x <> c) (kids n) ->
  forall e x, entry_of (with_node d (relink ch cnt n) f) e x <-> x <> c /\ entry_of f e x.
Proof.
  intros Hw Hd Hc Hk e x. rewrite (entry_with_node_iff f d n) by done. rewrite Hk, list_elem_of_filter.
  assert (entry_of f d c) as Hdc by (by exists n). split.
  - intros [(-> & Hx & Hin)|[He Hx]]; [split; [done|by exists n]|]. split; [|done].
    intros ->. by apply He, (entry_unique f e d c).
  - intros [Hx He]. destruct (decide (e = d)) as [->|]; [left|by right]. split; [done|]. split; [done|].
    destruct He as (m & Hm & Hin). by rewrite (at_inode_inj _ _ _ _ Hm Hd) in Hin.
Qed.

Lemma add_entries f d n c m ch cnt :
  at_inode f d n -> at_inode f c m -> kids (relink ch cnt n) = kids n ++ [c] ->
  let n' := relink ch cnt n in
  let m' := set_parent d (if decide (c = d) then n' else m) in
  forall e x, entry_of (with_node c m' (with_node d n' f)) e x <->
    (e = d /\ x = c) \/ entry_of f e x.
Proof.
  intros Hd Hc Hk n' m' e x.
  assert (at_inode (with_node d n' f) c (if decide (c = d) then n' else m)) as Hc1.
  { apply (at_with_node f d n c _ Hd). by case_decide. }
  rewrite (entry_same_kids _ c _ m' e x Hc1) by done. rewrite (entry_with_node_iff f d n) by done.
  subst n'. rewrite Hk, elem_of_app, list_elem_of_singleton. split.
  - intros [[-> [Hx| ->]]|[_ Hx]]; [right; by exists n|by left|by right].
  - intros [[-> ->]|Hx]; [left; split; [done|by right]|]. destruct (decide (e = d)) as [->|]; [left|by right].
    split; [done|]. left. destruct Hx as (y & Hy & Hin). by rewrite (at_inode_inj _ _ _ _ Hy Hd) in Hin.
Qed.

Lemma holds_last_nul (nm t : list Z) k :
  holds nm t -> (length t <= k)%nat -> holds (<[k := 0]> nm) t.
Proof.
  intros [Ht (r & ->)] Hk. split; [done|]. rewrite insert_app_r_alt by done.
  destruct (k - length t)%nat as [|i]; simpl; eauto.
Qed.

Lemma set_name_ok f i n name s :
  ramfs_wf f -> at_inode f i n -> i_type n <> 0 -> holds name s ->
  exists nm, ramfs_set_name i (Some name) f = Ok (0, with_node i (set_name nm n) f) /\
    holds nm (take 63 s) /\ ramfs_wf (with_node i (set_name nm n) f).
Proof.
  intros [Hw Hdw] Hi Ht Hs. pose proof (tw_node _ Hw _ _ Hi) as Hn. unfold ramfs_set_name.
  pose proof (at_inode_bound _ _ _ Hw Hi) as Hb. pose proof (dir_nonzero _ _ _ Hw Hi Ht) as H0.
  rewrite (proj2 (Z.eqb_neq i 0)) by done.
  rewrite (proj2 (Z.leb_gt RAMFS_MAX_INODES i)) by (unfold RAMFS_MAX_INODES; lia). cbn [orb].
  rewrite (bind_ok _ _ _ _ _ (node_ok _ _ _ Hi)). rewrite (proj2 (Z.eqb_neq _ RAMFS_INODE_FREE)) by done.
  destruct (copy_name_ok f i n name s Hi (nw_name_len _ Hn) Hs) as (nm & Hl & Hh & E).
  rewrite (bind_ok _ _ _ _ _ E). assert (at_inode (with_node i (set_name nm n) f) i (set_name nm n)) as Hi1 by (by eapply at_with_node_eq).
  rewrite (bind_ok _ _ _ _ _ (node_ok _ _ _ Hi1)).
  erewrite bind_ok by (apply wr_ok; cbn [i_name set_name]; rewrite Hl; unfold RAMFS_MAX_NAME; lia).
  erewrite bind_ok by (by apply upd_node_ok). rewrite with_node_twice. cbn [i_name set_name].
  change (Z.to_nat (RAMFS_MAX_NAME - 1)) with 63%nat. exists (<[63%nat := 0]> nm).
  assert (holds (<[63%nat := 0]> nm) (take 63 s)) as Hh' by (apply holds_last_nul; [done|rewrite length_take; lia]).
  split; [done|]. split; [done|]. split; [|by eapply data_same].
  eapply tree_attr; try done. destruct Hn. split; simpl; try done.
  - by rewrite length_insert.
  - destruct Hh' as [_ (r & ->)]. apply elem_of_app. right. left.
Qed.

Lemma name_kept f i n n' c m :
  at_inode f i n -> at_inode f c m -> (c = i -> i_name n' = i_name n) ->
  node_name (with_node i n' f) c = node_name f c.
Proof.
  intros Hi Hc Hn. rewrite (node_name_at f c m Hc). destruct (decide (c = i)) as [->|].
  - rewrite (node_name_at _ i n') by (by eapply at_with_node_eq).
    rewrite (Hn eq_refl). by rewrite (at_inode_inj _ _ _ _ Hi Hc).
  - apply node_name_at. by eapply at_with_node_ne.
Qed.
(** Entering the unlisted node [c] in directory [d]: entries and names after it. *)
Lemma add_child_entries f d n c m :
  ramfs_wf f -> at_inode f d n -> i_type n = 2 -> i_child_count n < 64 ->
  at_inode f c m -> 2 <= c -> unlinked f c -> i_type m <> 0 ->
  exists f', ramfs_add_child d c f = Ok (0, f') /\ ramfs_wf f' /\
    (forall e x, entry_of f' e x <-> (e = d /\ x = c) \/ entry_of f e x) /\
    node_name f' c = node_name f c /\ frame (fun j => j = d \/ j = c) f f'.
Proof.
  intros Hwf Hd Ht Hlt Hc H2 Hu Hmt.
  destruct (add_child_ok f d n c m Hwf Hd Ht Hlt Hc H2 Hu Hmt) as (E & Hk & Hwf').
  set (n' := relink _ _ n) in *. set (m1 := if decide (c = d) then n' else m) in *.
  assert (at_inode (with_node d n' f) c m1) as Hc1.
  { apply (at_with_node f d n c m1 Hd). subst m1. by case_decide. }
  eexists. split; [exact E|]. split; [done|]. split; [|split].
  - by apply add_entries.
  - rewrite (name_kept _ c m1 _ c m1) by done. by rewrite (name_kept f d n n' c m) by done.
  - eapply frame_trans; [eapply (frame_with_node _ f d); [done|by left]|]. eapply frame_with_node; [done|by right].
Qed.

(** Taking the entry [c] out of directory [d] and giving it a new name. *)
Lemma detach_ok f d n c m name' s' :
  ramfs_wf f -> at_inode f d n -> i_type n = 2 -> c ∈ kids n -> at_inode f c m -> i_type m <> 0 ->
  holds name' s' ->
  exists f1 f2 m2 d2, ramfs_remove_child d c f = Ok (0, f1) /\
    ramfs_set_name c (Some name') f1 = Ok (0, f2) /\ ramfs_wf f2 /\
    at_inode f2 c m2 /\ i_type m2 <> 0 /\ at_inode f2 d d2 /\ i_type d2 = 2 /\ i_child_count d2 < 64 /\
    (forall e x, entry_of f2 e x <-> x <> c /\ entry_of f e x) /\
    node_name f2 c = take 63 s' /\ frame (fun j => j = d \/ j = c) f f2.
Proof.
  intros Hwf Hd Ht Hck Hm Hmt Hs'. pose proof Hwf as [Hw Hdw].
  destruct (remove_child_ok f d n c Hwf Hd Ht Hck) as (ch & E & Hk & Hwf1 & Hu). cbv zeta in *.
  pose proof (remove_entries f d n c ch _ Hw Hd Hck Hk) as Hent1.
  set (n1 := relink ch _ n) in *. set (f1 := with_node d n1 f) in *.
  set (m1 := if decide (c = d) then n1 else m).
  assert (at_inode f1 c m1) as Hm1 by (apply (at_with_node f d n c m1 Hd); subst m1; by case_decide).
  assert (i_type m1 <> 0) as Hmt1 by (subst m1; case_decide; [change (i_type n <> 0); lia|done]).
  destruct (set_name_ok f1 c m1 name' s' Hwf1 Hm1 Hmt1 Hs') as (nm & E2 & Hh & Hwf2).
  set (m2 := set_name nm m1) in *. set (f2 := with_node c m2 f1) in *.
  assert (at_inode f2 c m2) as Hm2 by (by eapply at_with_node_eq).
  set (d2 := if decide (d = c) then m2 else n1).
  assert (at_inode f2 d d2) as Hd2.
  { apply (at_with_node f1 c m1 d d2 Hm1). subst d2. case_decide; [done|by eapply at_with_node_eq]. }
  pose proof (nw_count _ (tw_node _ Hw _ _ Hd)) as Hcnt.
  assert (i_type d2 = 2 /\ i_child_count d2 < 64) as [Hd2t Hd2c].
  { subst d2. destruct (decide (d = c)) as [Edc|]; [|simpl; lia].
    subst m2 m1. rewrite decide_True by congruence. simpl. lia. }
  exists f1, f2, m2, d2. split_and!; try done.
  - intros e x. unfold f2. rewrite (entry_same_kids f1 c m1 m2 e x Hm1) by done. apply Hent1.
  - rewrite (node_name_at f2 c m2 Hm2). by apply holds_str_of.
  - eapply frame_trans; [eapply (frame_with_node _ f d); [done|by left]|]. eapply frame_with_node; [done|by right].
Qed.

Lemma rename_ok f d n np name s name' s' fs_priv :
  ramfs_wf f -> at_inode f d n -> 0 <= np < 128 -> holds name s -> holds name' s' ->
  exists e f', ramfs_op_rename fs_priv d name np name' f = Ok (e, f') /\ ramfs_wf f' /\
    let c := find_name f (kids n) s in
    (c = 0 /\ e = - ENOENT /\ f' = f) \/
    (c <> 0 /\ node_name f' c = take 63 s' /\ frame (fun j => j = d \/ j = c \/ j = np) f f' /\
     exists to, (forall e x, entry_of f' e x <-> (e = to /\ x = c) \/ (x <> c /\ entry_of f e x)) /\
       ((e = 0 /\ to = np) \/ (e < 0 /\ to = d))).
Proof.
  intros Hwf Hd Hnp Hs Hs'. pose proof Hwf as [Hw Hdw]. unfold ramfs_op_rename.
  rewrite (bind_ok _ _ _ _ _ (lookup_child_ok f d n name s Hw Hd Hs)).
  set (c := find_name f (kids n) s).
  destruct (Z.eqb_spec c 0) as [Hc0|Hc0].
  { eexists _, f. split; [reflexivity|]. split; [done|]. by left. }
  destruct (lookup_found f d n s Hw Hd Hc0) as (_ & Hck & Ht & _ & Hcb & m & Hm & Hmt). fold c in Hck, Hcb, Hm.
  destruct (detach_ok f d n c m name' s' Hwf Hd Ht Hck Hm Hmt Hs')
    as (f1 & f2 & m2 & d2 & E & E2 & Hwf2 & Hm2 & Hmt2 & Hd2 & Hd2t & Hd2c & Hent2 & Hnn & Hfr2).
  rewrite (bind_ok _ _ _ _ _ E). change (0 <? 0) with false. cbv iota. rewrite (bind_ok _ _ _ _ _ E2).
  assert (unlinked f2 c) as Hu2 by (intros e He; by apply Hent2 in He as [? _]).
  destruct (at_inode_exists f2 np (proj1 Hwf2) Hnp) as [x Hx].
  destruct (decide (i_type x = 2 /\ i_child_count x < 64)) as [[Hx2 Hxc]|Hbad].
  - destruct (add_child_entries f2 np x c m2 Hwf2 Hx Hx2 Hxc Hm2 ltac:(lia) Hu2 Hmt2) as (f3 & E3 & Hwf3 & Hent3 & Hn3 & Hfr3).
    rewrite (bind_ok _ _ _ _ _ E3). change (0 <? 0) with false. cbv iota.
    eexists _, f3. split; [reflexivity|]. split; [done|]. right. split; [done|]. split; [by rewrite Hn3|].
    split; [eapply frame_trans; (eapply frame_weaken; [|done]); intros j [->| ->]; tauto|].
    exists np. split; [|by left]. intros e' y. by rewrite Hent3, Hent2.
  - destruct (add_child_fail f2 np x c Hx) as (e & He & E3 & _); [destruct (decide (i_type x = 2)); [right; lia|by left]|].
    rewrite (bind_ok _ _ _ _ _ E3). rewrite (proj2 (Z.ltb_lt e 0)) by done.
    destruct (add_child_entries f2 d d2 c m2 Hwf2 Hd2 Hd2t Hd2c Hm2 ltac:(lia) Hu2 Hmt2) as (f3 & E4 & Hwf3 & Hent3 & Hn3 & Hfr3).
    rewrite (bind_ok _ _ _ _ _ E4). eexists _, f3. split; [reflexivity|]. split; [done|]. right. split; [done|].
    split; [by rewrite Hn3|]. split; [eapply frame_trans; (eapply frame_weaken; [|done]); intros j [->| ->]; tauto|].
    exists d. split; [|by right]. intros e' y. by rewrite Hent3, Hent2.
Qed.
End Wf.
