(* ===== verification/RamfsData.v ===== *)
(** * File data of the in-memory file system

    Reading, writing and truncating: what they do to the bytes of a file, on
    top of the invariant of RamfsProofs.v. *)

From stdpp Require Import base tactics numbers list gmap.
From S2P Require Import Prelude Kstring FsOps Alloc Ramfs RamfsProofs.

Section Data.
Context {M : Type} {KM : Kmalloc M}.
Variable junk : Z -> Z.

(** The buffer of an inode, and the bytes of the file. *)
Definition buffer (f : ramfs M) (n : ramfs_inode) : list Z := default [] (bufs f !! i_data n).
Definition contents (f : ramfs M) (n : ramfs_inode) : list Z := take (Z.to_nat (i_size n)) (buffer f n).

(** Nothing but zeros behind the end of the file. *)
Definition clean (f : ramfs M) (n : ramfs_inode) : Prop :=
  forall i, i_size n <= i -> nthZ (buffer f n) i = 0.

Lemma buf_length f i n :
  data_wf f -> at_inode f i n -> Z.of_nat (length (buffer f n)) = i_data_capacity n \/ i_data_capacity n = 0.
Proof.
  intros Hdw Hi. pose proof (dw_data _ Hdw _ _ Hi) as H. case_decide as Hd; [by right|left].
  destruct H as (b & Hb & Hl). unfold buffer. by rewrite Hb.
Qed.

Lemma buffer_length f i n :
  ramfs_wf f -> at_inode f i n -> Z.of_nat (length (buffer f n)) = i_data_capacity n \/ i_data_capacity n = 0.
Proof. intros [_ Hdw]. by apply buf_length. Qed.

Lemma load_buf_ok (f : ramfs M) p b : bufs f !! p = Some b -> load_buf p f = Ok (b, f).
Proof. intros H. unfold load_buf. run. unfold id. by rewrite H. Qed.

Lemma frame_bufs f f' i n p b :
  data_wf f -> at_inode f i n -> inode_table f' = inode_table f ->
  bufs f' = <[p := b]> (bufs f) -> bufs f !! p = None -> frame (eq i) f f'.
Proof.
  intros Hdw Hi Ht Hb Hp j m Hj Hm. split; [unfold at_inode; by rewrite Ht|]. intros Hd.
  pose proof (dw_data _ Hdw j m Hm) as H. rewrite decide_False in H by done. destruct H as (c & Hc & _).
  rewrite Hb, lookup_insert_ne; [done|]. intros ->. congruence.
Qed.

(** Giving inode [i] the buffer [b] at a new address [p], the old one kept or
    freed. *)
Lemma swap_data f f' i n p b :
  data_wf f -> at_inode f i n -> 0 < p -> bufs f !! p = None -> mem_ok f' ->
  inode_table f' = inode_table (with_node i (set_data_capacity (Z.of_nat (length b)) (set_data p n)) f) ->
  (forall q, q <> i_data n -> bufs f' !! q = <[p := b]> (bufs f) !! q) ->
  data_wf f' /\ frame (eq i) f f'.
Proof.
  intros Hdw Hi Hp Hnew Hmem Htab Hb. set (n' := set_data_capacity _ _) in Htab.
  assert (forall j m, at_inode f' j m <-> at_inode (with_node i n' f) j m) as Hat
    by (intros; unfold at_inode; by rewrite Htab).
  assert (forall j m, at_inode f j m -> i_data m <> 0 -> i_data m <> p) as Hold.
  { intros j m Hm Hd E. pose proof (dw_data _ Hdw j m Hm) as H. rewrite decide_False in H by lia.
    destruct H as (c & Hc & _). congruence. }
  assert (forall j m, at_inode f j m -> j <> i -> i_data m <> 0 -> bufs f' !! i_data m = bufs f !! i_data m) as Hkeep.
  { intros j m Hm Hj Hd. rewrite Hb; [|intros E; by apply Hj, (dw_sep _ Hdw _ _ m n)].
    rewrite lookup_insert_ne; [done|]. intros E. by apply (Hold j m Hm Hd). }
  split; [split; [| |done]|].
  - intros j m Hm. apply Hat, (at_with_node f i n j m Hi) in Hm. case_decide as Hj.
    + subst. simpl. rewrite decide_False by lia. exists b. split; [|done].
      destruct (decide (p = i_data n)) as [E|E]; [exfalso|rewrite Hb by done; by rewrite lookup_insert_eq].
      apply (Hold _ _ Hi); lia.
    + pose proof (dw_data _ Hdw j m Hm) as H. case_decide; [done|]. by rewrite (Hkeep j m).
  - intros j k m x Hm Hx Hne E. apply Hat, (at_with_node f i n j m Hi) in Hm.
    apply Hat, (at_with_node f i n k x Hi) in Hx.
    destruct (decide (j = i)) as [Ej|Ej], (decide (k = i)) as [Ek|Ek]; [congruence| | |].
    + rewrite Hm in E. simpl in E. exfalso. apply (Hold k x Hx); lia.
    + rewrite Hx in E. simpl in E. exfalso. apply (Hold j m Hm); lia.
    + by eapply (dw_sep _ Hdw).
  - intros j m Hj Hm. split; [apply Hat; by eapply at_with_node_ne|]. by apply (Hkeep j).
Qed.

Lemma mem_ok_store (f : ramfs M) p b b' :
  mem_ok f -> bufs f !! p = Some b -> length b' = length b -> mem_ok (set_bufs (<[p := b']> (bufs f)) f).
Proof.
  intros (L & HL & Hb) Hp Hl. exists L. split; [done|]. simpl. intros q c Hq.
  apply lookup_insert_Some in Hq as [[<- <-]|[_ Hq]]; [rewrite Hl|]; by apply Hb.
Qed.

(** A state that differs in the allocator or the open counts only. *)
Lemma same_state_wf f f1 :
  ramfs_wf f -> inode_table f1 = inode_table f -> length (inode_open_count f1) = 128%nat ->
  bufs f1 = bufs f -> mem_ok f1 -> ramfs_wf f1 /\ unchanged f f1.
Proof.
  intros [Hw [D1 D2 D3]] Htab Hoc Hb Hmem.
  assert (forall j m, at_inode f1 j m <-> at_inode f j m) as Hat by (intros; unfold at_inode; by rewrite Htab).
  split; [split|].
  - by apply (tree_ext f).
  - split; [| |exact Hmem].
    + intros j m Hm%Hat. rewrite Hb. by apply (D1 j).
    + intros j k m x Hm%Hat Hx%Hat. by apply D2.
  - intros j m _ Hm. split; [by apply Hat|by rewrite Hb].
Qed.

(** The bytes a grown buffer starts with. *)
Definition grown (old : list Z) (new_cap copy_size : Z) : list Z :=
  take (Z.to_nat copy_size) old ++ replicate (Z.to_nat (new_cap - copy_size)) 0.

Lemma length_grown old new_cap cs :
  0 <= cs <= new_cap -> cs <= Z.of_nat (length old) -> Z.of_nat (length (grown old new_cap cs)) = new_cap.
Proof. intros. unfold grown. rewrite length_app, length_take, length_replicate. lia. Qed.

(** Copying the old bytes over the zeroed buffer and freeing the old one. *)
Lemma grow_copy f i n p new_cap cs :
  data_wf f -> at_inode f i n -> 0 <= i_size n <= i_data_capacity n -> 0 < p -> bufs f !! p = None ->
  0 <= cs <= new_cap -> cs <= i_size n ->
  forall g, mem_ok g -> inode_table g = inode_table f -> inode_open_count g = inode_open_count f ->
    bufs g = <[p := replicate (Z.to_nat new_cap) 0]> (bufs f) ->
  exists g', (if negb (i_data n =? 0) && (0 <? i_size n) then
       old ← load_buf (i_data n);
       filled ← kmemcpy (replicate (Z.to_nat new_cap) 0) old cs;
       store_buf p filled;;
       kfree_buf (i_data n)
     else ret tt) g = Ok (tt, g') /\ mem_ok g' /\ inode_table g' = inode_table f /\
    inode_open_count g' = inode_open_count f /\
    (forall q, q <> i_data n -> bufs g' !! q = <[p := grown (buffer f n) new_cap cs]> (bufs f) !! q).
Proof.
  intros Hdw Hi Hsize Hp Hnew Hcs Hsz g Hmem Htab Hoc Hbg. pose proof (dw_data _ Hdw _ _ Hi) as Hd.
  destruct (Z.eqb_spec (i_data n) 0) as [Hd0|Hd0]; cbn [negb andb].
  { rewrite decide_True in Hd by done. exists g. split; [done|]. split_and!; try done.
    intros q _. rewrite Hbg. unfold grown. replace cs with 0 by lia. by rewrite Z.sub_0_r. }
  rewrite decide_False in Hd by done. destruct Hd as (old & Hold & Hol).
  unfold buffer. rewrite Hold. cbn [default from_option].
  destruct (Z.ltb_spec 0 (i_size n)) as [Hpos|Hneg].
  2: { exists g. split; [done|]. split_and!; try done.
       intros q _. rewrite Hbg. unfold grown. replace cs with 0 by lia. by rewrite Z.sub_0_r. }
  assert (i_data n <> p) as Hne by congruence.
  assert (bufs g !! i_data n = Some old) as Hgo by (rewrite Hbg, lookup_insert_ne by done; done).
  rewrite (bind_ok _ _ _ _ _ (load_buf_ok g _ _ Hgo)).
  erewrite bind_ok by (apply kmemcpy_ok; rewrite ?length_replicate; lia).
  assert (take (Z.to_nat cs) old ++ drop (Z.to_nat cs) (replicate (Z.to_nat new_cap) 0) = grown old new_cap cs) as ->.
  { unfold grown. rewrite drop_replicate. do 2 f_equal. lia. }
  unfold store_buf. run.
  set (g2 := set_bufs (<[p := grown old new_cap cs]> (bufs g)) g).
  assert (mem_ok g2) as Hmem2.
  { eapply mem_ok_store; [done|rewrite Hbg; apply lookup_insert_eq|].
    apply Nat2Z.inj. rewrite length_grown, length_replicate by lia. lia. }
  assert (bufs g2 !! i_data n = Some old) as Hg2o by (simpl; rewrite lookup_insert_ne by done; done).
  destruct (kfree_buf_ok g2 _ _ Hmem2 Hg2o) as (m & E & Hmem3). eexists. split; [exact E|].
  split; [done|]. split; [done|]. split; [done|]. intros q Hq. simpl.
  rewrite lookup_delete_ne by done. rewrite Hbg, insert_insert_eq. done.
Qed.

Lemma grow_data_raw f i n new_cap cs :
  data_wf f -> at_inode f i n -> 0 <= i_size n <= i_data_capacity n -> 0 < new_cap < 4294967296 ->
  0 <= cs <= new_cap -> cs <= i_size n ->
  exists ok f', grow_data junk i new_cap cs f = Ok (ok, f') /\ inode_open_count f' = inode_open_count f /\
    if ok : bool
    then exists p, p <> 0 /\ data_wf f' /\ frame (eq i) f f' /\
           inode_table f' = inode_table (with_node i (set_data_capacity new_cap (set_data p n)) f) /\ 0 < p /\
           bufs f' !! p = Some (grown (buffer f n) new_cap cs)
    else inode_table f' = inode_table f /\ bufs f' = bufs f /\ mem_ok f'.
Proof.
  intros Hdw Hi Hsize Hpos Hcs Hsz. unfold grow_data.
  destruct (kmalloc_buf_ok junk f new_cap (dw_mem _ Hdw) ltac:(lia)) as (p & f1 & E & Hmem & Htab & Hoc & Hp).
  rewrite (bind_ok _ _ _ _ _ E). destruct Hp as [[-> Hb]|(Hp0 & Hnew & b & Hb & Hbl)].
  { by exists false, f1. }
  rewrite (proj2 (Z.eqb_neq p 0)) by lia.
  assert (bufs f1 !! p = Some b) as Hb1 by (rewrite Hb; apply lookup_insert_eq).
  rewrite (bind_ok _ _ _ _ _ (load_buf_ok f1 p b Hb1)).
  erewrite bind_ok by (apply kmemset_ok; lia). change (u8 0) with 0.
  rewrite (drop_ge b), app_nil_r by lia.
  set (zeroed := replicate (Z.to_nat new_cap) 0). unfold store_buf at 1. run.
  set (g := set_bufs (<[p := zeroed]> (bufs f1)) f1).
  assert (at_inode g i n) as Hgi by (unfold at_inode; simpl; rewrite Htab; apply Hi).
  rewrite (bind_ok _ _ _ _ _ (node_ok g i n Hgi)).
  assert (mem_ok g) as Hmemg by (eapply mem_ok_store; [done|done|subst zeroed; rewrite length_replicate; lia]).
  assert (bufs g = <[p := zeroed]> (bufs f)) as Hbg by (simpl; by rewrite Hb, insert_insert_eq).
  destruct (grow_copy f i n p new_cap cs Hdw Hi Hsize Hp0 Hnew Hcs Hsz g Hmemg Htab Hoc Hbg)
    as (g' & E2 & Hmem' & Htab' & Hoc' & Hb').
  rewrite (bind_ok _ _ _ _ _ E2).
  assert (at_inode g' i n) as Hgi' by (unfold at_inode; rewrite Htab'; apply Hi).
  erewrite bind_ok by (by apply upd_node_ok).
  erewrite bind_ok by (apply upd_node_ok; by eapply at_with_node_eq). rewrite with_node_twice.
  exists true. eexists. split; [reflexivity|]. set (f' := with_node i _ g'). split; [exact Hoc'|].
  assert (Z.of_nat (length (grown (buffer f n) new_cap cs)) = new_cap) as Hgl.
  { apply length_grown; [done|]. destruct (buf_length f i n Hdw Hi); lia. }
  assert (i_data n <> p) as Hne.
  { intros Ed. pose proof (dw_data _ Hdw _ _ Hi) as H. rewrite decide_False in H by lia. destruct H as (c & Hc & _). congruence. }
  assert (inode_table f' = inode_table (with_node i (set_data_capacity new_cap (set_data p n)) f)) as Htf
    by (simpl; by rewrite Htab').
  destruct (swap_data f f' i n p (grown (buffer f n) new_cap cs) Hdw Hi Hp0 Hnew Hmem') as [Hdw' Hfr]; [by rewrite Hgl|exact Hb'|].
  exists p. split_and!; try done; [lia|]. simpl. rewrite Hb' by congruence. apply lookup_insert_eq.
Qed.

Lemma grow_data_ok f i n new_cap cs :
  ramfs_wf f -> at_inode f i n -> i_type n <> 0 -> i_size n <= new_cap <= 16777216 -> 0 < new_cap ->
  0 <= cs <= new_cap -> cs <= i_size n ->
  exists ok f', grow_data junk i new_cap cs f = Ok (ok, f') /\ ramfs_wf f' /\ frame (eq i) f f' /\
    if ok : bool
    then exists p, p <> 0 /\ at_inode f' i (set_data_capacity new_cap (set_data p n)) /\
           bufs f' !! p = Some (grown (buffer f n) new_cap cs)
    else at_inode f' i n /\ bufs f' = bufs f.
Proof.
  intros Hwf Hi Ht Hcap Hpos Hcs Hsz. pose proof Hwf as [Hw Hdw]. pose proof (tw_node _ Hw _ _ Hi) as Hn.
  destruct (grow_data_raw f i n new_cap cs Hdw Hi (nw_size _ Hn) ltac:(lia) Hcs Hsz) as (ok & f' & E & Hoc & Hok).
  exists ok, f'. split; [done|]. destruct ok.
  - destruct Hok as (p & Hp & Hdw' & Hfr & Htab & Hp0 & Hb). split; [split; [|done]|split; [done|]].
    + eapply tree_ext; [done|rewrite Hoc; apply Hw|]. eapply tree_attr; try done; [by eapply dir_nonzero|].
      destruct Hn. split; simpl; try done; lia.
    + exists p. split; [done|]. split; [|done]. unfold at_inode. rewrite Htab. by eapply at_with_node_eq.
  - destruct Hok as (Htab & Hb & Hmem).
    destruct (same_state_wf f f' Hwf Htab ltac:(rewrite Hoc; apply Hw) Hb Hmem) as [Hwf1 Hfr].
    split; [done|]. split; [eapply frame_weaken; [|exact Hfr]; by intros|].
    destruct (Hfr i n (fun F => F) Hi) as [Hi1 _]. done.
Qed.

Lemma nthZ_zeros k i : nthZ (replicate k 0) i = 0.
Proof.
  unfold nthZ. destruct (replicate k 0 !! Z.to_nat i) as [x|] eqn:Ex; [|done].
  by apply lookup_replicate in Ex as [-> _].
Qed.

Lemma round_block_ok x :
  0 <= x <= 16777216 -> x <= round_block x < x + 4096 /\ round_block x <= 16777216.
Proof.
  intros Hx. unfold round_block, RAMFS_BLOCK_SIZE. rewrite u32_id by (unfold is_u32; lia).
  change (4096 - 1) with (2 ^ 12 - 1). rewrite land_lnot_mask by (unfold is_u32; lia).
  change (2 ^ 12) with 4096. pose proof (Z.div_mod (x + 4096 - 1) 4096 ltac:(lia)).
  pose proof (Z.mod_pos_bound (x + 4096 - 1) 4096 ltac:(lia)). split; [lia|].
  assert ((x + 4096 - 1) / 4096 < 4097); [|lia]. apply Z.div_lt_upper_bound; lia.
Qed.

(** Overwriting bytes of the buffer. *)
Lemma put_data f i n bytes offset :
  data_wf f -> at_inode f i n -> i_data n <> 0 -> 0 <= offset ->
  offset + Z.of_nat (length bytes) <= i_data_capacity n ->
  let f' := set_bufs (<[i_data n := splice (buffer f n) offset bytes]> (bufs f)) f in
  data_wf f' /\ frame (eq i) f f' /\ buffer f' n = splice (buffer f n) offset bytes /\
  copy_in (buffer f n) offset bytes f = Ok (splice (buffer f n) offset bytes, f) /\
  load_buf (i_data n) f = Ok (buffer f n, f).
Proof.
  intros Hdw Hi Hd Ho Hle f'. pose proof (dw_data _ Hdw _ _ Hi) as H. rewrite decide_False in H by done.
  destruct H as (b & Hb & Hbl). assert (buffer f n = b) as Eb by (unfold buffer; by rewrite Hb).
  assert (length (splice (buffer f n) offset bytes) = length b) as Hl by (rewrite Eb; apply length_splice; lia).
  split; [split|split_and!].
  - intros j m Hm. pose proof (dw_data _ Hdw j m Hm) as Hj. case_decide; [done|]. simpl.
    destruct (decide (i_data n = i_data m)) as [E|E].
    + rewrite <- E, lookup_insert_eq. eexists. split; [done|]. rewrite Hl, Hbl.
      assert (i = j) as <- by (by eapply (dw_sep _ Hdw)). by rewrite (at_inode_inj _ _ _ _ Hi Hm).
    + by rewrite lookup_insert_ne by done.
  - apply Hdw.
  - eapply mem_ok_store; [apply Hdw|done|done].
  - intros j m Hj Hm. split; [done|]. intros Hmd. simpl. rewrite lookup_insert_ne; [done|].
    intros E. apply Hj. by eapply (dw_sep _ Hdw).
  - unfold buffer at 1. simpl. by rewrite lookup_insert_eq.
  - apply copy_in_ok; [done|]. rewrite Eb. lia.
  - rewrite Eb. by apply load_buf_ok.
Qed.

Lemma put_bytes f i n bytes offset :
  ramfs_wf f -> at_inode f i n -> i_data n <> 0 -> 0 <= offset ->
  offset + Z.of_nat (length bytes) <= i_data_capacity n ->
  let f' := set_bufs (<[i_data n := splice (buffer f n) offset bytes]> (bufs f)) f in
  ramfs_wf f' /\ frame (eq i) f f' /\ at_inode f' i n /\ buffer f' n = splice (buffer f n) offset bytes /\
  copy_in (buffer f n) offset bytes f = Ok (splice (buffer f n) offset bytes, f) /\
  load_buf (i_data n) f = Ok (buffer f n, f).
Proof.
  intros [Hw Hdw] Hi Hd Ho Hle f'. destruct (put_data f i n bytes offset Hdw Hi Hd Ho Hle) as (? & ? & ? & ? & ?).
  split; [split; [by apply (tree_ext f); [|apply Hw|]|done]|done].
Qed.

Lemma resize_ok f i n k :
  ramfs_wf f -> at_inode f i n -> i_type n <> 0 -> 0 <= k <= i_data_capacity n ->
  ramfs_wf (with_node i (set_size k n) f).
Proof.
  intros [Hw Hdw] Hi Ht Hk. split; [|by eapply data_same].
  eapply tree_attr; try done; [by eapply dir_nonzero|].
  pose proof (tw_node _ Hw _ _ Hi) as []. split; simpl; try done; lia.
Qed.

(** Making room for [end_pos] bytes, as both callers of [grow_data] do. *)
Lemma ensure_capacity f i n end_pos new_cap cs :
  ramfs_wf f -> at_inode f i n -> i_type n <> 0 -> 0 <= end_pos <= 16777216 ->
  end_pos <= new_cap <= 16777216 -> (i_data_capacity n < end_pos -> cs = i_size n) ->
  exists ok f', (if i_data_capacity n <? end_pos then grow_data junk i new_cap cs else ret true) f
      = Ok (ok, f') /\ ramfs_wf f' /\ frame (eq i) f f' /\
    if ok : bool
    then exists n', at_inode f' i n' /\ i_type n' = i_type n /\ i_size n' = i_size n /\
           end_pos <= i_data_capacity n' /\ contents f' n' = contents f n /\
           (clean f n -> clean f' n') /\ (0 < end_pos -> i_data n' <> 0)
    else at_inode f' i n /\ bufs f' = bufs f /\ i_data_capacity n < end_pos.
Proof.
  intros Hwf Hi Ht Hend Hcap Hcs. pose proof Hwf as [Hw Hdw]. pose proof (tw_node _ Hw _ _ Hi) as Hn.
  pose proof (nw_size _ Hn). pose proof (nw_cap _ Hn).
  destruct (Z.ltb_spec (i_data_capacity n) end_pos) as [Hlt|Hge].
  - rewrite (Hcs Hlt). destruct (grow_data_ok f i n new_cap (i_size n)) as (ok & f' & E & Hwf' & Hfr & Hok);
      try done; try lia.
    exists ok, f'. split; [done|]. split; [done|]. split; [done|]. destruct ok; [|by destruct Hok].
    destruct Hok as (p & Hp & Hi' & Hb). eexists. split; [exact Hi'|]. simpl. split; [done|]. split; [done|]. split; [lia|].
    assert (buffer f' (set_data_capacity new_cap (set_data p n)) = grown (buffer f n) new_cap (i_size n)) as Eb
      by (unfold buffer at 1; simpl; by rewrite Hb).
    assert (length (take (Z.to_nat (i_size n)) (buffer f n)) = Z.to_nat (i_size n)) as Hlt'
      by (rewrite length_take; destruct (buffer_length f i n Hwf Hi); lia).
    split; [|split; [|done]].
    + unfold contents. rewrite Eb. simpl. unfold grown. rewrite take_app_le by lia. apply take_ge. lia.
    + intros _ k Hk. simpl in Hk. rewrite Eb. unfold grown. rewrite nthZ_app by lia.
      rewrite Hlt'. destruct (Z.ltb_spec k (Z.of_nat (Z.to_nat (i_size n)))); [lia|].
      apply nthZ_zeros.
  - exists true, f. split; [done|]. split; [done|]. split; [done|]. exists n. split_and!; try done.
    intros Hp Hd. pose proof (dw_data _ Hdw _ _ Hi) as H'. rewrite decide_True in H' by done. lia.
Qed.
(** What a write of the [count] bytes of [buf] at [offset] leaves in the file. *)
Record wrote (f f' : ramfs M) (i : Z) (n : ramfs_inode) (buf : list Z) (count offset : Z)
    (n' : ramfs_inode) : Prop := {
  wr_node : at_inode f' i n';
  wr_type : i_type n' = i_type n;
  wr_size : i_size n' = Z.max (i_size n) (offset + count);
  wr_len : Z.of_nat (length (contents f' n')) = i_size n';
  wr_new : forall k, offset <= k < offset + count -> nthZ (contents f' n') k = nthZ buf (k - offset);
  wr_old : forall k, 0 <= k < i_size n -> ~ (offset <= k < offset + count) ->
    nthZ (contents f' n') k = nthZ (contents f n) k;
  wr_hole : clean f n -> forall k, i_size n <= k < offset -> nthZ (contents f' n') k = 0;
  wr_clean : clean f n -> clean f' n'
}.

(** The bytes of the file from those of the buffer. *)
Lemma wrote_intro f f1 f' i n n1 buf count offset :
  ramfs_wf f' -> at_inode f' i (set_size (Z.max (i_size n) (offset + count)) n1) ->
  i_type n1 = i_type n -> i_size n1 = i_size n -> 0 <= i_size n -> contents f1 n1 = contents f n ->
  (clean f n -> clean f1 n1) -> 0 <= offset -> 0 <= count <= Z.of_nat (length buf) ->
  offset + count <= Z.of_nat (length (buffer f1 n1)) \/ offset + count = 0 ->
  buffer f' n1 = splice (buffer f1 n1) offset (take (Z.to_nat count) buf) ->
  (i_size n <= Z.of_nat (length (buffer f1 n1))) ->
  wrote f f' i n buf count offset (set_size (Z.max (i_size n) (offset + count)) n1).
Proof.
  intros Hwf' Hi' Ht Hs Hs0 Hc Hcl Ho Hcnt Hlen Hb Hsl.
  set (n' := set_size _ n1). assert (buffer f' n' = buffer f' n1) as Eb by done.
  assert (length (take (Z.to_nat count) buf) = Z.to_nat count) as Hbl by (rewrite length_take; lia).
  assert (forall k, 0 <= k -> nthZ (buffer f' n') k =
    if (offset <=? k) && (k <? offset + count) then nthZ buf (k - offset) else nthZ (buffer f1 n1) k) as Hbuf.
  { intros k Hk. rewrite Eb, Hb. destruct Hlen as [Hlen|Hz].
    - rewrite nthZ_splice by lia. rewrite Hbl, Z2Nat.id by lia.
      destruct (Z.leb_spec offset k), (Z.ltb_spec k (offset + count)); cbn [andb]; try done. rewrite nthZ_take; [done|lia].
    - assert (offset = 0) as -> by lia. assert (count = 0) as -> by lia.
      change (take (Z.to_nat 0) buf) with (@nil Z). rewrite splice_nil.
      destruct (Z.leb_spec 0 k), (Z.ltb_spec k (0 + 0)); try lia; done. }
  assert (forall k, 0 <= k < i_size n' -> nthZ (contents f' n') k = nthZ (buffer f' n') k) as Hcb
    by (intros; unfold contents; by rewrite nthZ_take).
  assert (i_size n' = Z.max (i_size n) (offset + count)) as Es by done.
  split; try done.
  - unfold contents. rewrite length_take. rewrite Es. assert (length (buffer f' n') = length (buffer f1 n1)) as ->; [|lia].
    rewrite Eb, Hb. destruct Hlen as [Hlen|Hz]; [apply length_splice; lia|].
    assert (offset = 0) as -> by lia. assert (count = 0) as -> by lia.
    change (take (Z.to_nat 0) buf) with (@nil Z). by rewrite splice_nil.
  - intros k Hk. rewrite Hcb, Hbuf by lia. rewrite (proj2 (Z.leb_le _ _)), (proj2 (Z.ltb_lt _ _)) by lia. done.
  - intros k Hk Hn. rewrite Hcb, Hbuf by lia.
    destruct (Z.leb_spec offset k), (Z.ltb_spec k (offset + count)); try lia; cbn [andb];
      rewrite <- Hc; unfold contents; rewrite nthZ_take; (done || lia).
  - intros Hclean k Hk. rewrite Hcb, Hbuf by lia. rewrite (proj2 (Z.leb_gt _ _)) by lia. cbn [andb].
    apply Hcl; [done|lia].
  - intros Hclean k Hk. rewrite Hbuf by lia. destruct (Z.leb_spec offset k), (Z.ltb_spec k (offset + count)); cbn [andb]; try lia;
      apply Hcl; (done || lia).
Qed.

Lemma write_ok f i n buf count offset :
  ramfs_wf f -> at_inode f i n -> i_type n <> 0 -> 0 <= count <= Z.of_nat (length buf) ->
  count < 4294967296 -> 0 <= offset < 4294967296 ->
  exists r f', ramfs_write_data junk i buf count offset f = Ok (r, f') /\ ramfs_wf f' /\ frame (eq i) f f' /\
    if i_type n =? 2 then r = - EISDIR /\ f' = f
    else if 16777216 <? offset + count then r = - EFBIG /\ f' = f
    else (r = - ENOSPC /\ at_inode f' i n /\ bufs f' = bufs f /\ i_data_capacity n < offset + count) \/
         (r = count /\ exists n', wrote f f' i n buf count offset n').
Proof.
  intros Hwf Hi Ht Hcnt Hc32 Ho. pose proof Hwf as [Hw Hdw]. pose proof (tw_node _ Hw _ _ Hi) as Hn.
  pose proof (nw_size _ Hn) as Hsz. unfold ramfs_write_data.
  rewrite (bind_ok _ _ _ _ _ (node_ok _ _ _ Hi)). unfold RAMFS_INODE_DIR, UINT32_MAX, RAMFS_MAX_FILE_SIZE.
  destruct (Z.eqb_spec (i_type n) 2); [by eexists _, f|].
  destruct (Z.ltb_spec (4294967295 - offset) count) as [Hbig|Hsmall].
  { rewrite (proj2 (Z.ltb_lt _ _)) by lia. by eexists _, f. }
  rewrite u32_id by (unfold is_u32; lia). destruct (Z.ltb_spec 16777216 (offset + count)) as [|Hend]; [by eexists _, f|].
  destruct (round_block_ok (offset + count) ltac:(lia)) as [Hrb Hrb2].
  rewrite (proj2 (Z.ltb_ge 16777216 (round_block _))) by lia.
  destruct (ensure_capacity f i n (offset + count) (round_block (offset + count)) (i_size n))
    as (ok & f1 & E & Hwf1 & Hfr1 & Hok); try done; try lia.
  rewrite (bind_ok _ _ _ _ _ E). destruct ok; cbn [negb].
  2: { eexists _, f1. split; [done|]. split; [done|]. split; [done|]. left. done. }
  destruct Hok as (n1 & Hi1 & Ht1 & Hs1 & Hcap1 & Hcont1 & Hclean1 & Hdata1).
  rewrite (bind_ok _ _ _ _ _ (node_ok _ _ _ Hi1)).
  assert (exists f2, (if count =? 0 then ret tt
         else src ← copy_out buf 0 count; d ← load_buf (i_data n1); d' ← copy_in d offset src; store_buf (i_data n1) d') f1
    = Ok (tt, f2) /\ ramfs_wf f2 /\ frame (eq i) f1 f2 /\ at_inode f2 i n1 /\
      buffer f2 n1 = splice (buffer f1 n1) offset (take (Z.to_nat count) buf)) as (f2 & E2 & Hwf2 & Hfr2 & Hi2 & Hb2).
  { destruct (Z.eqb_spec count 0) as [->|Hc0].
    - exists f1. split_and!; try done. change (take (Z.to_nat 0) buf) with (@nil Z). by rewrite splice_nil.
    - rewrite (bind_ok _ _ _ _ _ (copy_out_ok buf 0 count f1 ltac:(lia) ltac:(lia) ltac:(lia))).
      change (drop (Z.to_nat 0) buf) with buf.
      destruct (put_bytes f1 i n1 (take (Z.to_nat count) buf) offset Hwf1 Hi1) as (H1 & H2 & H3 & H4 & H5 & H6);
        [apply Hdata1; lia|lia|rewrite length_take; lia|].
      rewrite (bind_ok _ _ _ _ _ H6), (bind_ok _ _ _ _ _ H5). eexists. split; [reflexivity|]. done. }
  rewrite (bind_ok _ _ _ _ _ E2). rewrite Hs1.
  assert ((if i_size n <? offset + count then upd_node i (set_size (offset + count)) else ret tt) f2 =
    Ok (tt, with_node i (set_size (Z.max (i_size n) (offset + count)) n1) f2)) as E3.
  { destruct (Z.ltb_spec (i_size n) (offset + count)).
    - rewrite Z.max_r by lia. by apply upd_node_ok.
    - rewrite Z.max_l, <- Hs1 by lia. replace (set_size (i_size n1) n1) with n1 by (by destruct n1).
      by rewrite with_node_same. }
  rewrite (bind_ok _ _ _ _ _ E3). rewrite s32_small by lia.
  pose proof (tw_node _ (proj1 Hwf1) _ _ Hi1) as Hn1. pose proof (nw_size _ Hn1) as Hsz1.
  pose proof (buffer_length f1 i n1 Hwf1 Hi1) as Hbl1.
  eexists _, _. split; [reflexivity|]. split; [apply resize_ok; try done; [by rewrite Ht1|lia]|].
  split. { eapply frame_trans; [done|]. eapply frame_trans; [done|]. by eapply frame_with_node. }
  right. split; [done|]. eexists. eapply (wrote_intro f f1); try done; try lia.
  - apply resize_ok; try done; [by rewrite Ht1|lia].
  - by eapply at_with_node_eq.
Qed.
Lemma contents_length f i n :
  ramfs_wf f -> at_inode f i n -> Z.of_nat (length (contents f n)) = i_size n.
Proof.
  intros Hwf Hi. pose proof (nw_size _ (tw_node _ (proj1 Hwf) _ _ Hi)). unfold contents. rewrite length_take.
  destruct (buffer_length f i n Hwf Hi); lia.
Qed.

Lemma read_ok f i n count offset :
  ramfs_wf f -> at_inode f i n -> 0 <= count < 4294967296 -> 0 <= offset ->
  ramfs_read_data i count offset f =
  Ok (if i_type n =? 1
      then let bytes := take (Z.to_nat count) (drop (Z.to_nat offset) (contents f n)) in
           (Z.of_nat (length bytes), bytes)
      else (- EISDIR, []), f).
Proof.
  intros Hwf Hi Hcnt Ho. pose proof Hwf as [Hw Hdw]. pose proof (tw_node _ Hw _ _ Hi) as Hn.
  pose proof (nw_size _ Hn) as Hsz. pose proof (nw_cap _ Hn) as Hcap. pose proof (contents_length f i n Hwf Hi) as Hcl.
  unfold ramfs_read_data. rewrite (bind_ok _ _ _ _ _ (node_ok _ _ _ Hi)). unfold RAMFS_INODE_FILE.
  destruct (Z.eqb_spec (i_type n) 1); cbn [negb]; [|done].
  destruct (Z.leb_spec (i_size n) offset) as [Hge|Hlt].
  { rewrite (drop_ge (contents f n)), take_nil by lia. done. }
  rewrite (u32_id (i_size n - offset)) by (unfold is_u32; lia).
  set (to_read := if count <? i_size n - offset then count else i_size n - offset).
  assert (to_read = Z.min count (i_size n - offset)) as Htr
    by (subst to_read; destruct (Z.ltb_spec count (i_size n - offset)); lia). clearbody to_read. cbv zeta.
  destruct (Z.eqb_spec to_read 0) as [H0|H0].
  { replace count with 0 by lia. done. }
  assert (i_data n <> 0) as Hd.
  { intros Hd. pose proof (dw_data _ Hdw _ _ Hi) as H. rewrite decide_True in H by done. lia. }
  rewrite (proj2 (Z.eqb_neq _ _) Hd). cbn [negb].
  destruct (put_bytes f i n [] 0 Hwf Hi Hd) as (_ & _ & _ & _ & _ & E); [lia|simpl; lia|].
  pose proof (buffer_length f i n Hwf Hi) as Hbl.
  rewrite (bind_ok _ _ _ _ _ E), (bind_ok _ _ _ _ _ (copy_out_ok (buffer f n) offset to_read f Ho ltac:(lia) ltac:(lia))).
  rewrite s32_small by lia.
  assert (take (Z.to_nat to_read) (drop (Z.to_nat offset) (buffer f n)) =
    take (Z.to_nat count) (drop (Z.to_nat offset) (contents f n))) as ->.
  { unfold contents.
    replace (Z.to_nat (i_size n)) with (Z.to_nat offset + (Z.to_nat (i_size n) - Z.to_nat offset))%nat by lia.
    rewrite <- take_drop_commute, take_take. f_equal. lia. }
  unfold ret. do 3 f_equal. rewrite length_take, length_drop. lia.
Qed.

Lemma truncate_ok f i n len :
  ramfs_wf f -> at_inode f i n -> i_type n <> 0 -> 0 <= len < 4294967296 ->
  exists r f', ramfs_truncate_inode junk i len f = Ok (r, f') /\ ramfs_wf f' /\ frame (eq i) f f' /\
    if negb (i_type n =? 1) then r = - EISDIR /\ f' = f
    else if 16777216 <? len then r = - EFBIG /\ f' = f
    else (r = - ENOSPC /\ at_inode f' i n /\ bufs f' = bufs f /\ i_data_capacity n < len) \/
         (r = 0 /\ exists n', at_inode f' i n' /\ i_type n' = 1 /\ i_size n' = len /\
            take (Z.to_nat (Z.min len (i_size n))) (contents f' n') =
            take (Z.to_nat (Z.min len (i_size n))) (contents f n) /\
            (clean f n -> (forall k, i_size n <= k < len -> nthZ (contents f' n') k = 0) /\
                          (i_size n <= len -> clean f' n'))).
Proof.
  intros Hwf Hi Ht Hlen. pose proof Hwf as [Hw Hdw]. pose proof (nw_size _ (tw_node _ Hw _ _ Hi)) as Hsz.
  unfold ramfs_truncate_inode. rewrite (bind_ok _ _ _ _ _ (node_ok _ _ _ Hi)).
  unfold RAMFS_INODE_FILE, RAMFS_MAX_FILE_SIZE.
  destruct (Z.eqb_spec (i_type n) 1) as [Ht1|]; cbn [negb]; [|by eexists _, f].
  destruct (Z.ltb_spec 16777216 len) as [|Hmax]; [by eexists _, f|].
  destruct (round_block_ok len ltac:(lia)) as [Hrb Hrb2].
  destruct (ensure_capacity f i n len (round_block len) (if i_size n <? len then i_size n else len))
    as (ok & f1 & E & Hwf1 & Hfr1 & Hok); try done; try lia.
  { intros. rewrite (proj2 (Z.ltb_lt _ _)) by lia. done. }
  rewrite (bind_ok _ _ _ _ _ E). destruct ok; cbn [negb].
  2: { eexists _, f1. split; [done|]. split; [done|]. split; [done|]. left. done. }
  destruct Hok as (n1 & Hi1 & Htn & Hs1 & Hcap1 & Hcont1 & Hclean1 & _).
  erewrite bind_ok by (by apply upd_node_ok). eexists _, _. split; [reflexivity|].
  split; [apply resize_ok; try done; [lia|lia]|].
  split; [eapply frame_trans; [done|]; by eapply frame_with_node|].
  right. split; [done|]. eexists. split; [by eapply at_with_node_eq|]. simpl. split; [lia|]. split; [done|].
  assert (forall g, contents g (set_size len n1) = take (Z.to_nat len) (buffer g n1)) as Ec by done.
  split.
  - rewrite Ec, <- Hcont1. unfold contents. change (buffer (with_node _ _ f1) n1) with (buffer f1 n1).
    rewrite !take_take. f_equal. lia.
  - intros Hc. specialize (Hclean1 Hc). split.
    + intros k Hk. rewrite Ec, nthZ_take by lia. apply Hclean1. lia.
    + intros Hle k Hk. simpl in Hk. apply Hclean1. lia.
Qed.
End Data.
