(* ===== verification/RamfsSpec.v ===== *)
(** * Theorems about the in-memory file system

    Safety of every sequence of calls through the vtable, the behaviour of the
    directory operations seen through lookups, and read-after-write. *)

From stdpp Require Import base tactics numbers list gmap.
From S2P Require Import Prelude Kstring FsOps Alloc Ramfs RamfsProofs RamfsData.

Section Spec.
Context {M : Type} {KM : Kmalloc M}.
Variable junk : Z -> Z.

(** ** Directory listings *)

Definition reclen (f : ramfs M) (c : Z) : Z :=
  (DIRENT_NAME_OFFSET + Z.of_nat (length (node_name f c)) + 4) / 4 * 4.

(** How many of the entries [ks] fit in the [room] bytes left, and their size. *)
Fixpoint fitting (f : ramfs M) (ks : list Z) (room : Z) : Z * Z :=
  match ks with
  | [] => (0, 0)
  | c :: ks' =>
      if room <? reclen f c then (0, 0)
      else let '(k, w) := fitting f ks' (room - reclen f c) in (k + 1, w + reclen f c)
  end.

Lemma fitting_bounds f ks room :
  0 <= room -> let '(k, w) := fitting f ks room in
  0 <= k <= Z.of_nat (length ks) /\ 0 <= w <= room.
Proof.
  revert room. induction ks as [|c ks IH]; intros room Hr; simpl; [lia|].
  destruct (Z.ltb_spec room (reclen f c)); [lia|].
  assert (0 <= reclen f c) by (unfold reclen, DIRENT_NAME_OFFSET; apply Z.mul_nonneg_nonneg; [apply Z.div_pos; lia|lia]).
  specialize (IH (room - reclen f c) ltac:(lia)). destruct (fitting f ks _) as [k w]. lia.
Qed.

Lemma reclen_ok len :
  0 <= len < 64 ->
  let r := Z.land (u32 (u32 (DIRENT_NAME_OFFSET + len + 1) + 3)) (u32 (Z.lnot 3)) in
  r = (DIRENT_NAME_OFFSET + len + 4) / 4 * 4 /\ DIRENT_NAME_OFFSET + len + 1 <= r <= 76.
Proof.
  intros Hl r. unfold DIRENT_NAME_OFFSET in *. subst r.
  rewrite (u32_id (10 + len + 1)) by (unfold is_u32; lia).
  rewrite (u32_id (10 + len + 1 + 3)) by (unfold is_u32; lia).
  change (Z.lnot 3) with (Z.lnot (2 ^ 2 - 1)). rewrite land_lnot_mask by (unfold is_u32; lia).
  change (2 ^ 2) with 4. replace (10 + len + 1 + 3) with (10 + len + 4) by lia. split; [done|].
  pose proof (Z.div_mod (10 + len + 4) 4 ltac:(lia)). pose proof (Z.mod_pos_bound (10 + len + 4) 4 ltac:(lia)).
  assert ((10 + len + 4) / 4 < 20) by (apply Z.div_lt_upper_bound; lia). lia.
Qed.

Lemma name_short m : node_wf m -> (length (str_of (i_name m)) < 64)%nat.
Proof.
  intros Hm. destruct (str_of_holds _ (nw_name_nul _ Hm)) as [_ (r & Er)].
  pose proof (nw_name_len _ Hm) as Hl. rewrite Er, length_app in Hl. simpl in Hl. lia.
Qed.

Lemma readdir_loop_ok f pre ks rest size out written :
  tree_wf f -> (forall c, c ∈ ks -> exists m, at_inode f c m) ->
  0 <= written <= size -> size <= Z.of_nat (length out) -> size < 4294967296 ->
  let i := Z.of_nat (length pre) in
  let '(k, w) := fitting f ks (size - written) in
  exists out', readdir_loop (length ks) i (pre ++ ks ++ rest) size out written i f =
    Ok ((out', written + w, i + k), f) /\ length out' = length out.
Proof.
  intros Hw. revert pre out written. induction ks as [|c ks IH]; intros pre out written Hks Hwr Hsz Hs32 i;
    cbn [fitting length app].
  { exists out. rewrite !Z.add_0_r. done. }
  destruct (Hks c ltac:(left)) as [m Hm]. pose proof (tw_node _ Hw _ _ Hm) as Hmw.
  pose proof (name_short m Hmw) as Hshort. pose proof (str_of_holds _ (nw_name_nul _ Hmw)) as Hh.
  destruct (reclen_ok (Z.of_nat (length (str_of (i_name m)))) ltac:(lia)) as [Er Hr].
  assert (reclen f c = (DIRENT_NAME_OFFSET + Z.of_nat (length (str_of (i_name m))) + 4) / 4 * 4) as Erc
    by (unfold reclen; by rewrite (node_name_at f c m Hm)).
  rewrite <- Erc in Er. set (len := Z.of_nat (length (str_of (i_name m)))) in *.
  assert (readdir_loop (S (length ks)) i (pre ++ c :: ks ++ rest) size out written i f =
    (if size <? written + reclen f c then ret (out, written, i)
     else nm ← copy_out (i_name m) 0 (len + 1);
        o1 ← copy_in out written (le_bytes 4 c);
        o2 ← copy_in o1 (written + 4) (le_bytes 4 (i + 1));
        o3 ← copy_in o2 (written + 8) (le_bytes 2 (reclen f c));
        o4 ← copy_in o3 (written + DIRENT_NAME_OFFSET) nm;
        readdir_loop (length ks) (i + 1) (pre ++ c :: ks ++ rest) size o4 (written + reclen f c) (i + 1)) f) as ->.
  { cbn [readdir_loop].
    erewrite bind_ok by (apply rd_ok; [lia|]; subst i; rewrite Nat2Z.id, lookup_app_r, Nat.sub_diag by lia; done).
    unfold ramfs_get_inode. rewrite (bind_ok _ _ _ _ _ (node_ok _ _ _ Hm)).
    rewrite (bind_ok _ _ _ _ _ (kstrlen_ok _ _ f Hh)). fold len. cbv zeta. by rewrite Er. }
  destruct (Z.ltb_spec size (written + reclen f c)) as [Hfull|Hroom].
  { rewrite (proj2 (Z.ltb_lt (size - written) _)) by lia. exists out. rewrite !Z.add_0_r. done. }
  rewrite (proj2 (Z.ltb_ge (size - written) _)) by lia. rewrite Er in Hr. unfold DIRENT_NAME_OFFSET in Hr.
  assert (length (take (Z.to_nat (len + 1)) (i_name m)) = Z.to_nat (len + 1)) as Htk
    by (rewrite length_take, (nw_name_len _ Hmw); lia).
  erewrite bind_ok by (apply copy_out_ok; [lia|lia|rewrite (nw_name_len _ Hmw); lia]).
  change (drop (Z.to_nat 0) (i_name m)) with (i_name m). unfold DIRENT_NAME_OFFSET.
  destruct (copy_in_len out written (le_bytes 4 c) f) as (o1 & E1 & L1); [lia|simpl; lia|].
  destruct (copy_in_len o1 (written + 4) (le_bytes 4 (i + 1)) f) as (o2 & E2 & L2); [lia|simpl; lia|].
  destruct (copy_in_len o2 (written + 8) (le_bytes 2 (reclen f c)) f) as (o3 & E3 & L3); [lia|simpl; lia|].
  destruct (copy_in_len o3 (written + 10) (take (Z.to_nat (len + 1)) (i_name m)) f) as (o4 & E4 & L4); [lia|lia|].
  rewrite (bind_ok _ _ _ _ _ E1), (bind_ok _ _ _ _ _ E2), (bind_ok _ _ _ _ _ E3), (bind_ok _ _ _ _ _ E4).
  assert (length o4 = length out) as Hl4 by congruence.
  specialize (IH (pre ++ [c]) o4 (written + reclen f c) ltac:(intros; apply Hks; by right) ltac:(lia) ltac:(lia) Hs32).
  rewrite length_app, <- app_assoc in IH. cbn [app length] in IH.
  replace (size - (written + reclen f c)) with (size - written - reclen f c) in IH by lia.
  replace (Z.of_nat (length pre + 1)) with (i + 1) in IH by lia.
  destruct (fitting f ks _) as [k w]. destruct IH as (out' & E & Hlo). exists out'. rewrite E, Hlo, Hl4.
  split; [|done]. replace (written + (w + reclen f c)) with (written + reclen f c + w) by lia.
  by replace (i + (k + 1)) with (i + 1 + k) by lia.
Qed.
Lemma readdir_ok f i n fs_priv buf size pos :
  ramfs_wf f -> at_inode f i n -> 0 <= pos -> 0 <= size <= Z.of_nat (length buf) -> size < 2147483648 ->
  exists out, length out = length buf /\
    ramfs_op_readdir fs_priv i buf size pos f = Ok (
      if i_type n =? 2
      then let '(k, w) := fitting f (drop (Z.to_nat pos) (kids n)) size in ((w, out), pos + k)
      else ((- ENOTDIR, buf), pos), f).
Proof.
  intros [Hw Hdw] Hi Hpos Hsize H31. unfold ramfs_op_readdir, ramfs_get_inode.
  rewrite (bind_ok _ _ _ _ _ (node_ok _ _ _ Hi)). unfold RAMFS_INODE_DIR.
  destruct (Z.eqb_spec (i_type n) 2); cbn [negb]; [|by exists buf].
  destruct (kids_split n (tw_node _ Hw _ _ Hi)) as (rest & Ech & Hkl & _).
  set (ks := drop (Z.to_nat pos) (kids n)).
  destruct (decide (pos <= i_child_count n)) as [Hle|Hgt].
  - assert (kids n = take (Z.to_nat pos) (kids n) ++ ks) as Ek by (symmetry; apply take_drop).
    assert (length (take (Z.to_nat pos) (kids n)) = Z.to_nat pos) as Hpl by (rewrite length_take; lia).
    pose proof (readdir_loop_ok f (take (Z.to_nat pos) (kids n)) ks rest size buf 0 Hw) as Hloop.
    rewrite Hpl, Z2Nat.id, Z.sub_0_r in Hloop by lia.
    pose proof (fitting_bounds f ks size ltac:(lia)) as Hfb.
    destruct (fitting f ks size) as [k w]. destruct Hloop as (out & E & Hlo); try lia.
    { intros c Hc. destruct (tw_kid _ Hw i c) as (_ & m & Hm & _); [|by exists m].
      exists n. split; [done|]. rewrite Ek. apply elem_of_app. by right. }
    exists out. split; [done|].
    replace (Z.to_nat (i_child_count n - pos)) with (length ks) by (subst ks; rewrite length_drop; lia).
    rewrite Ech, Ek, <- app_assoc. erewrite bind_ok by exact E. cbv beta iota.
    rewrite Z.add_0_l, s32_small by lia. done.
  - assert (ks = []) as -> by (apply drop_ge; lia). exists buf. split; [done|].
    replace (Z.to_nat (i_child_count n - pos)) with 0%nat by lia. cbn. rewrite Z.add_0_r. done.
Qed.

Lemma resolve_ok f d n name s fs_priv :
  ramfs_wf f -> at_inode f d n -> holds name s ->
  ramfs_op_resolve fs_priv d name f =
  Ok (if decide (s = [46; 46]) then i_parent n else find_name f (kids n) s, f).
Proof.
  intros [Hw _] Hd Hs. pose proof (lookup_child_ok f d n name s Hw Hd Hs) as El.
  unfold ramfs_op_resolve. destruct Hs as [Hnz (r & ->)].
  assert (forall (l : list Z) k x, l !! k = Some x -> rd l (Z.of_nat k) f = Ok (x, f)) as Hrd
    by (intros; apply rd_ok; [lia|by rewrite Nat2Z.id]).
  destruct s as [|a s]; simpl app in *.
  { rewrite (bind_ok _ _ _ _ _ (Hrd (0 :: r) 0%nat 0 eq_refl)). simpl. done. }
  rewrite (bind_ok _ _ _ _ _ (Hrd (a :: s ++ 0 :: r) 0%nat a eq_refl)).
  destruct (Z.eqb_spec a 46) as [->|Ha]; cbn [negb];
    [|rewrite decide_False by congruence; exact El].
  destruct s as [|b s]; simpl app in *.
  { rewrite bind_assoc, (bind_ok _ _ _ _ _ (Hrd (46 :: 0 :: r) 1%nat 0 eq_refl)). exact El. }
  rewrite bind_assoc, (bind_ok _ _ _ _ _ (Hrd (46 :: b :: s ++ 0 :: r) 1%nat b eq_refl)).
  destruct (Z.eqb_spec b 46) as [->|Hb]; cbn [negb];
    [|rewrite decide_False by congruence; exact El].
  destruct s as [|c s]; simpl app in *.
  - rewrite bind_assoc, (bind_ok _ _ _ _ _ (Hrd (46 :: 46 :: 0 :: r) 2%nat 0 eq_refl)). rewrite decide_True by done.
    cbn. rewrite (bind_ok _ _ _ _ _ (node_ok f d n Hd)). done.
  - rewrite bind_assoc, (bind_ok _ _ _ _ _ (Hrd (46 :: 46 :: c :: s ++ 0 :: r) 2%nat c eq_refl)).
    apply Forall_cons in Hnz as [_ Hnz]. apply Forall_cons in Hnz as [_ Hnz]. apply Forall_cons in Hnz as [Hc _].
    rewrite (proj2 (Z.eqb_neq c 0) Hc), decide_False by congruence. exact El.
Qed.
(** ** The remaining operations *)

Lemma attr_ok f i n n' :
  ramfs_wf f -> at_inode f i n -> i_type n <> 0 -> node_wf n' -> i_type n' = i_type n ->
  i_parent n' = i_parent n -> kids n' = kids n -> i_data n' = i_data n ->
  i_data_capacity n' = i_data_capacity n -> ramfs_wf (with_node i n' f).
Proof.
  intros [Hw Hdw] Hi Ht Hn Ht' Hp Hk Hd Hc. split; [|by eapply data_same].
  eapply tree_attr; try done. by eapply dir_nonzero.
Qed.

Lemma set_mode_ok f i n mode :
  ramfs_wf f -> at_inode f i n ->
  exists r f', ramfs_set_mode i mode f = Ok (r, f') /\ ramfs_wf f' /\
    ((r = 0 /\ i_type n <> 0 /\ f' = with_node i (set_mode (Z.land mode 4095) n) f) \/
     (r = - ENOENT /\ i_type n = 0 /\ f' = f)).
Proof.
  intros Hwf Hi. pose proof Hwf as [Hw _]. pose proof (at_inode_bound _ _ _ Hw Hi) as Hb. unfold ramfs_set_mode.
  destruct (Z.eqb_spec i 0) as [->|H0]; cbn [orb].
  { rewrite (at_inode_inj _ _ _ _ Hi (tw_null _ Hw)). eexists _, f. split; [done|]. split; [done|]. by right. }
  rewrite (proj2 (Z.leb_gt RAMFS_MAX_INODES i)) by (unfold RAMFS_MAX_INODES; lia).
  rewrite (bind_ok _ _ _ _ _ (node_ok _ _ _ Hi)). unfold RAMFS_INODE_FREE.
  destruct (Z.eqb_spec (i_type n) 0) as [Ht|Ht]; [eexists _, f; split; [done|]; split; [done|]; by right|].
  erewrite bind_ok by (by apply upd_node_ok). eexists _, _. split; [reflexivity|]. split; [|by left].
  eapply attr_ok; try done. pose proof (tw_node _ Hw _ _ Hi) as []. by split.
Qed.

Lemma set_owner_ok f i n uid gid :
  ramfs_wf f -> at_inode f i n ->
  exists r f', ramfs_set_owner i uid gid f = Ok (r, f') /\ ramfs_wf f' /\
    ((r = 0 /\ i_type n <> 0 /\
      f' = with_node i (set_gid (if gid =? UINT32_MAX then i_gid n else gid)
                          (set_uid (if uid =? UINT32_MAX then i_uid n else uid) n)) f) \/
     (r = - ENOENT /\ i_type n = 0 /\ f' = f)).
Proof.
  intros Hwf Hi. pose proof Hwf as [Hw _]. pose proof (at_inode_bound _ _ _ Hw Hi) as Hb. unfold ramfs_set_owner.
  destruct (Z.eqb_spec i 0) as [->|H0]; cbn [orb].
  { rewrite (at_inode_inj _ _ _ _ Hi (tw_null _ Hw)). eexists _, f. split; [done|]. split; [done|]. by right. }
  rewrite (proj2 (Z.leb_gt RAMFS_MAX_INODES i)) by (unfold RAMFS_MAX_INODES; lia).
  rewrite (bind_ok _ _ _ _ _ (node_ok _ _ _ Hi)). unfold RAMFS_INODE_FREE.
  destruct (Z.eqb_spec (i_type n) 0) as [Ht|Ht]; [eexists _, f; split; [done|]; split; [done|]; by right|].
  set (n1 := set_uid (if uid =? UINT32_MAX then i_uid n else uid) n).
  set (n2 := set_gid (if gid =? UINT32_MAX then i_gid n else gid) n1).
  assert ((if negb (uid =? UINT32_MAX) then upd_node i (set_uid uid) else ret tt) f = Ok (tt, with_node i n1 f)) as E1.
  { subst n1. destruct (uid =? UINT32_MAX); cbn [negb]; [|by apply upd_node_ok].
    replace (set_uid (i_uid n) n) with n by (by destruct n). by rewrite with_node_same. }
  assert (at_inode (with_node i n1 f) i n1) as Hi1 by (by eapply at_with_node_eq).
  assert ((if negb (gid =? UINT32_MAX) then upd_node i (set_gid gid) else ret tt) (with_node i n1 f) =
    Ok (tt, with_node i n2 f)) as E2.
  { subst n2. destruct (gid =? UINT32_MAX); cbn [negb].
    - change (i_gid n) with (i_gid n1). replace (set_gid (i_gid n1) n1) with n1 by (by destruct n1). done.
    - rewrite (upd_node_ok _ i n1) by done. by rewrite with_node_twice. }
  rewrite (bind_ok _ _ _ _ _ E1), (bind_ok _ _ _ _ _ E2). eexists _, _. split; [reflexivity|]. split; [|by left].
  eapply attr_ok; try done. pose proof (tw_node _ Hw _ _ Hi) as []. by split.
Qed.

Lemma open_count_upd f i g :
  ramfs_wf f -> 0 <= i < 128 ->
  exists f', (h ← gets id; n ← rd (inode_open_count h) i; c ← wr (inode_open_count h) i (g n);
              modify (set_open_count c)) f = Ok (tt, f') /\ ramfs_wf f' /\ unchanged f f' /\
    nthZ (inode_open_count f') i = g (nthZ (inode_open_count f) i) /\
    forall j, 0 <= j -> j <> i -> nthZ (inode_open_count f') j = nthZ (inode_open_count f) j.
Proof.
  intros Hwf Hi. pose proof Hwf as [Hw Hdw]. run. unfold id. pose proof (tw_open _ Hw) as Hl.
  rewrite (bind_ok _ _ _ _ _ (rd_nthZ (inode_open_count f) i f ltac:(lia))).
  rewrite (bind_ok _ _ _ _ _ (wr_ok (inode_open_count f) i _ f ltac:(lia))).
  eexists. split; [reflexivity|]. set (f' := set_open_count _ f).
  destruct (same_state_wf f f' Hwf) as [Hwf' Hun]; [done|simpl; by rewrite length_insert|done|apply Hdw|].
  split; [done|]. split; [done|]. simpl. split.
  - rewrite nthZ_insert by lia. by rewrite decide_True.
  - intros j Hj Hne. rewrite nthZ_insert by lia. by rewrite decide_False by congruence.
Qed.

Lemma stat_ok (f : ramfs M) i n fs_priv :
  at_inode f i n ->
  ramfs_op_stat fs_priv i f = Ok (
    if i_type n =? 0 then (- ENOENT, None)
    else (0, Some (Kstat i (u16 (Z.lor (u16 (i_mode n)) (if i_type n =? 2 then S_IFDIR else S_IFREG)))
                     (u16 (i_nlink n)) 0 0 (s32 (i_size n)) 4096 (u32 (i_size n + 511) / 512) 0 0 0)), f).
Proof.
  intros Hi. unfold ramfs_op_stat, ramfs_fill_stat. rewrite bind_assoc, (bind_ok _ _ _ _ _ (node_ok _ _ _ Hi)).
  unfold RAMFS_INODE_FREE. by destruct (i_type n =? 0).
Qed.

(** ** Safety of every sequence of calls *)

Inductive ramfs_call :=
| CResolve (parent : Z) (name : list Z)
| CRead (inode count offset : Z)
| CWrite (inode : Z) (buf : list Z) (count offset : Z)
| CStat (inode : Z)
| CReaddir (inode : Z) (buf : list Z) (size pos : Z)
| CMkdir (parent : Z) (name : list Z) (mode : Z)
| CCreate (parent : Z) (name : list Z) (mode : Z)
| CUnlink (parent : Z) (name : list Z)
| CRmdir (parent : Z) (name : list Z)
| CTruncate (inode len : Z)
| CChmod (inode mode : Z)
| CChown (inode uid gid : Z)
| CRename (old_parent : Z) (old_name : list Z) (new_parent : Z) (new_name : list Z)
| CDtype (inode : Z)
| CIncOpen (inode : Z)
| CDecOpen (inode : Z)
| CGetOpen (inode : Z)
| CRelease (inode : Z).

(** Calls an entry of the vtable, dropping the result. *)
Definition via {A B} (op : option A) (k : A -> ST (ramfs M) B) : ST (ramfs M) unit :=
  match op with
  | Some o => k o;; ret tt
  | None => fail Undef
  end.

Definition run_call (c : ramfs_call) : ST (ramfs M) unit :=
  let ops := ramfs_ops junk in
  match c with
  | CResolve p nm => via (op_resolve ops) (fun o => o 0 p nm)
  | CRead i n off => via (op_read ops) (fun o => o 0 i n off)
  | CWrite i b n off => via (op_write ops) (fun o => o 0 i b n off)
  | CStat i => via (op_stat ops) (fun o => o 0 i)
  | CReaddir i b sz pos => via (op_readdir ops) (fun o => o 0 i b sz pos)
  | CMkdir p nm mode => via (op_mkdir ops) (fun o => o 0 p nm mode)
  | CCreate p nm mode => via (op_create ops) (fun o => o 0 p nm mode)
  | CUnlink p nm => via (op_unlink ops) (fun o => o 0 p nm)
  | CRmdir p nm => via (op_rmdir ops) (fun o => o 0 p nm)
  | CTruncate i len => via (op_truncate ops) (fun o => o 0 i len)
  | CChmod i mode => via (op_chmod ops) (fun o => o 0 i mode)
  | CChown i uid gid => via (op_chown ops) (fun o => o 0 i uid gid)
  | CRename op on np nn => via (op_rename ops) (fun o => o 0 op on np nn)
  | CDtype i => via (op_dtype ops) (fun o => o 0 i)
  | CIncOpen i => via (op_inc_open ops) (fun o => o 0 i)
  | CDecOpen i => via (op_dec_open ops) (fun o => o 0 i)
  | CGetOpen i => via (op_get_open ops) (fun o => o 0 i)
  | CRelease i => via (op_release ops) (fun o => o 0 i)
  end.

Definition is_inode (i : Z) : Prop := 0 <= i < 128.
Definition is_string (b : list Z) : Prop := 0 ∈ b.
Definition in_use (f : ramfs M) (i : Z) : Prop := exists n, at_inode f i n /\ i_type n <> 0.

(** What the VFS has to respect: inode numbers of the table, terminated
    names, buffers as large as it says; data operations on inodes that are in
    use, and release of a node that no directory lists and that lists none. *)
Definition call_ok (f : ramfs M) (c : ramfs_call) : Prop :=
  match c with
  | CResolve p nm | CMkdir p nm _ | CCreate p nm _ | CUnlink p nm | CRmdir p nm => is_inode p /\ is_string nm
  | CRead i n off => is_inode i /\ is_u32 n /\ 0 <= off
  | CWrite i b n off => in_use f i /\ 0 <= n <= Z.of_nat (length b) /\ is_u32 n /\ is_u32 off
  | CReaddir i b sz pos => is_inode i /\ 0 <= pos /\ 0 <= sz <= Z.of_nat (length b) /\ sz < 2147483648
  | CTruncate i len => in_use f i /\ is_u32 len
  | CRename op on np nn => is_inode op /\ is_inode np /\ is_string on /\ is_string nn
  | CRelease i => 2 <= i /\ unlinked f i /\ exists n, at_inode f i n /\ kids n = []
  | CStat i | CChmod i _ | CChown i _ _ | CDtype i | CIncOpen i | CDecOpen i | CGetOpen i => is_inode i
  end.

Lemma via_ok {A B} (o : A) (k : A -> ST (ramfs M) B) f b f' :
  k o f = Ok (b, f') -> via (Some o) k f = Ok (tt, f').
Proof. intros E. unfold via. by rewrite (bind_ok _ _ _ _ _ E). Qed.

Lemma run_call_ok f c :
  ramfs_wf f -> call_ok f c -> exists f', run_call c f = Ok (tt, f') /\ ramfs_wf f'.
Proof.
  intros Hwf. pose proof Hwf as [Hw Hdw].
  assert (forall i, is_inode i -> exists n, at_inode f i n) as Hex by (intros; by apply at_inode_exists).
  assert (forall b, is_string b -> exists s, holds b s) as Hstr by (intros; eexists; by apply str_of_holds).
  assert (forall i, in_use f i -> exists n, at_inode f i n /\ i_type n <> 0) as Huse by done.
  destruct c; intros Hc; cbn [call_ok] in Hc; cbn [run_call ramfs_ops op_resolve op_read op_write op_stat op_readdir
    op_mkdir op_create op_unlink op_rmdir op_truncate op_chmod op_chown op_rename op_dtype op_inc_open op_dec_open
    op_get_open op_release].
  - destruct Hc as [Hp Hs]. destruct (Hex _ Hp) as [n Hn], (Hstr _ Hs) as [s Hh].
    exists f. split; [|done]. eapply via_ok. by eapply resolve_ok.
  - destruct Hc as (Hp & Hn & Ho). destruct (Hex _ Hp) as [n Hi]. exists f. split; [|done].
    eapply via_ok. by eapply read_ok.
  - destruct Hc as (Hp & Hn & Hn32 & Ho). destruct (Huse _ Hp) as (n & Hi & Ht). unfold is_u32 in *.
    destruct (write_ok junk f inode n buf count offset) as (r & f' & E & Hwf' & _); try done; try lia.
    exists f'. split; [|done]. by eapply via_ok.
  - destruct (Hex _ Hc) as [n Hi]. exists f. split; [|done]. eapply via_ok. by eapply stat_ok.
  - destruct Hc as (Hp & H0 & Hsz & H31). destruct (Hex _ Hp) as [n Hi].
    destruct (readdir_ok f inode n 0 buf size pos) as (out & _ & E); try done. exists f. split; [|done]. by eapply via_ok.
  - destruct Hc as [Hp Hs]. destruct (Hex _ Hp) as [n Hn], (Hstr _ Hs) as [s Hh].
    destruct (create_dir_ok f parent n name s mode) as (e & r & f' & E & Hwf' & _); try done.
    exists f'. split; [|done]. by eapply via_ok.
  - destruct Hc as [Hp Hs]. destruct (Hex _ Hp) as [n Hn], (Hstr _ Hs) as [s Hh].
    destruct (create_file_ok f parent n name s mode) as (e & r & f' & E & Hwf' & _); try done.
    exists f'. split; [|done]. by eapply via_ok.
  - destruct Hc as [Hp Hs]. destruct (Hex _ Hp) as [n Hn], (Hstr _ Hs) as [s Hh].
    destruct (unlink_ok f parent n name s 0) as (e & f' & E & Hwf' & _); try done.
    exists f'. split; [|done]. by eapply via_ok.
  - destruct Hc as [Hp Hs]. destruct (Hex _ Hp) as [n Hn], (Hstr _ Hs) as [s Hh].
    destruct (rmdir_ok f parent n name s 0) as (e & f' & E & Hwf' & _); try done.
    exists f'. split; [|done]. by eapply via_ok.
  - destruct Hc as [Hp Hl]. destruct (Huse _ Hp) as (n & Hi & Ht). unfold is_u32 in *.
    destruct (truncate_ok junk f inode n len) as (r & f' & E & Hwf' & _); try done.
    exists f'. split; [|done]. by eapply via_ok.
  - destruct (Hex _ Hc) as [n Hi]. destruct (set_mode_ok f inode n mode Hwf Hi) as (r & f' & E & Hwf' & _).
    exists f'. split; [|done]. by eapply via_ok.
  - destruct (Hex _ Hc) as [n Hi]. destruct (set_owner_ok f inode n uid gid Hwf Hi) as (r & f' & E & Hwf' & _).
    exists f'. split; [|done]. by eapply via_ok.
  - destruct Hc as (Hp & Hnp & Hs1 & Hs2). destruct (Hex _ Hp) as [n Hn], (Hstr _ Hs1) as [s Hh], (Hstr _ Hs2) as [s' Hh'].
    destruct (rename_ok f old_parent n new_parent old_name s new_name s' 0) as (e & f' & E & Hwf' & _); try done.
    exists f'. split; [|done]. by eapply via_ok.
  - destruct (Hex _ Hc) as [n Hi]. exists f. split; [|done]. unfold via, ramfs_op_dtype, ramfs_inode_dtype.
    rewrite bind_assoc, (bind_ok _ _ _ _ _ (node_ok _ _ _ Hi)). by repeat case_match.
  - destruct (open_count_upd f inode (fun n => u32 (n + 1)) Hwf Hc) as (f' & E & Hwf' & _).
    exists f'. split; [|done]. by eapply via_ok.
  - destruct (open_count_upd f inode (fun n => u32 (n - 1)) Hwf Hc) as (f' & E & Hwf' & _).
    exists f'. split; [|done]. by eapply via_ok.
  - exists f. split; [|done]. eapply via_ok. by apply open_count_ok.
  - destruct Hc as (H2 & Hu & n & Hi & Hk).
    destruct (free_inode_ok f inode n Hwf Hi H2 Hu Hk) as (f' & E & Hwf' & _).
    exists f'. split; [|done]. by eapply via_ok.
Qed.
Definition root_node : ramfs_inode :=
  RamfsInode 2 493 0 0 0 2 0 0 0 (47 :: 0 :: replicate 62 0) 0 (replicate 64 0) 0 0 0.

Lemma init_ok (f0 : ramfs M) L :
  bufs f0 = ∅ -> km_rep (rmem f0) L ->
  exists f, ramfs_init f0 = Ok (0, f) /\ ramfs_wf f /\ at_inode f 1 root_node /\
    forall i, 0 <= i < 128 -> i <> 1 -> at_inode f i zero_inode.
Proof.
  intros Hb HL. unfold ramfs_init. run.
  set (f1 := set_open_count _ _).
  assert (forall i, 0 <= i < 128 -> at_inode f1 i zero_inode) as Hz.
  { intros i Hi. split; [lia|]. change (inode_table f1) with (replicate 128 zero_inode).
    apply lookup_replicate. split; [done|lia]. }
  assert (forall x, at_inode (with_node RAMFS_ROOT_INO x f1) RAMFS_ROOT_INO x) as Hr
    by (intros; eapply at_with_node_eq, (Hz 1); lia).
  erewrite bind_ok by (apply upd_node_ok, (Hz 1); lia).
  do 2 (erewrite bind_ok by (by apply upd_node_ok); rewrite with_node_twice).
  rewrite (bind_ok _ _ _ _ _ (node_ok _ _ _ (Hr _))). erewrite bind_ok by reflexivity.
  erewrite bind_ok by (by apply upd_node_ok). rewrite with_node_twice.
  eexists. split; [reflexivity|]. change (set_name _ _) with root_node. set (f := with_node _ root_node f1).
  assert (forall i n, at_inode f i n -> (i = 1 /\ n = root_node) \/ (i <> 1 /\ n = zero_inode)) as Hcase.
  { intros i n Hn. apply (at_with_node f1 1 _ i n (Hz 1 ltac:(lia))) in Hn. case_decide; [by left|right].
    split; [done|]. destruct Hn as [H0 Hn].
    change (inode_table f1) with (replicate 128 zero_inode) in Hn. by apply lookup_replicate in Hn as [-> _]. }
  assert (forall i n, at_inode f i n -> kids n = []) as Hkids by (intros i n Hn; by destruct (Hcase i n Hn) as [[_ ->]|[_ ->]]).
  assert (forall i, 0 <= i < 128 -> i <> 1 -> at_inode f i zero_inode) as Hz' by (intros; eapply at_with_node_ne; [apply (Hz 1); lia|done|by apply Hz]).
  split; [split|split; [apply Hr|done]].
  - split; [done|done| |by apply Hz'| | |].
    + intros i n Hn. destruct (Hcase i n Hn) as [[_ ->]|[_ ->]]; [|apply zero_inode_wf].
      split; simpl; try done; try lia. right. left.
    + exists root_node. split; [apply Hr|done].
    + intros d c (n & Hn & Hc). rewrite (Hkids d n Hn) in Hc. by apply not_elem_of_nil in Hc.
    + intros i n Hn. rewrite (Hkids i n Hn). constructor.
  - split.
    + intros i n Hn. destruct (Hcase i n Hn) as [[_ ->]|[_ ->]]; done.
    + intros i k n m Hn Hm Hne. by destruct (Hcase i n Hn) as [[_ ->]|[_ ->]].
    + exists L. split; [done|]. intros p b. simpl. by rewrite Hb, lookup_empty.
Qed.

(** The states the file system can be in. *)
Inductive ramfs_reach : ramfs M -> Prop :=
| rr_init f0 L r f :
    bufs f0 = ∅ -> km_rep (rmem f0) L -> ramfs_init f0 = Ok (r, f) -> ramfs_reach f
| rr_call f c f' :
    ramfs_reach f -> call_ok f c -> run_call c f = Ok (tt, f') -> ramfs_reach f'.

Lemma ramfs_reach_wf f : ramfs_reach f -> ramfs_wf f.
Proof.
  induction 1 as [f0 L r f Hb HL E|f c f' _ IH Hc E].
  - destruct (init_ok f0 L Hb HL) as (g & Eg & Hg & _). rewrite E in Eg. by injection Eg as _ ->.
  - destruct (run_call_ok f c IH Hc) as (g & Eg & Hg). rewrite E in Eg. by injection Eg as ->.
Qed.

(** ** Directories seen through lookups *)

Lemma find_name_ext (f f' : ramfs M) ks t :
  (forall c, c ∈ ks -> node_name f' c = node_name f c) -> find_name f' ks t = find_name f ks t.
Proof.
  induction ks as [|c ks IH]; intros H; simpl; [done|]. rewrite H by left.
  case_decide; [done|]. apply IH. intros. apply H. by right.
Qed.

Lemma find_name_app (f : ramfs M) a b t :
  0 ∉ a -> find_name f (a ++ b) t = if find_name f a t =? 0 then find_name f b t else find_name f a t.
Proof.
  induction a as [|c a IH]; intros H; simpl; [done|]. apply not_elem_of_cons in H as [Hc H].
  case_decide; [|by apply IH]. by rewrite (proj2 (Z.eqb_neq c 0)).
Qed.

Lemma find_name_filter (f : ramfs M) ks c t :
  node_name f c <> t -> find_name f (filter (fun x => x <> c) ks) t = find_name f ks t.
Proof.
  intros Hc. induction ks as [|x ks IH]; [done|]. destruct (decide (x = c)) as [->|Hx].
  - rewrite filter_cons_False by auto. simpl. by rewrite decide_False.
  - rewrite filter_cons_True by done. simpl. by rewrite IH.
Qed.

Lemma frame_name (P : Z -> Prop) (f f' : ramfs M) c :
  frame P f f' -> ~ P c -> (exists m, at_inode f c m) -> node_name f' c = node_name f c.
Proof.
  intros Hf HP [m Hm]. destruct (Hf c m HP Hm) as [Hm' _].
  by rewrite (node_name_at f c m Hm), (node_name_at f' c m Hm').
Qed.

Lemma created_names (f f' : ramfs M) d r ty s c :
  tree_wf f -> created f f' d r ty s -> c <> r -> (exists m, at_inode f c m) ->
  node_name f' c = node_name f c.
Proof.
  intros Hw [Hz (n & n' & Hn & Hn' & _ & _ & _ & Hnm) _ Hf] Hcr Hm. destruct (decide (c = d)) as [->|].
  - by rewrite (node_name_at f d n Hn), (node_name_at f' d n' Hn'), Hnm.
  - apply (frame_name _ f f' c Hf); [by intros [?|?]|done].
Qed.

(** Lookups after a creation. *)
Lemma created_lookup (f f' : ramfs M) d r ty s :
  ramfs_wf f -> ramfs_wf f' -> created f f' d r ty s ->
  forall e m, at_inode f e m -> e <> r -> exists m', at_inode f' e m' /\ i_parent m' = i_parent m /\
    forall t, find_name f' (kids m') t =
      let old := find_name f (kids m) t in
      if (e =? d) && (old =? 0) && bool_decide (t = take 63 s) then r else old.
Proof.
  intros [Hw _] [Hw' _] Hcr e m He Her. pose proof Hcr as [Hz (n & n' & Hn & Hn' & Ht & Hk & Hp & _) (c & Hc & _ & Hcn & _) Hf].
  assert (forall x m, at_inode f x m -> forall c, c ∈ kids m -> node_name f' c = node_name f c) as Hnames.
  { intros x y Hx c' Hc'. destruct (tw_kid _ Hw x c') as (Hb & z & Hz' & Hzt & _); [by exists y|].
    apply (created_names f f' d r ty s c' Hw Hcr); [|by exists z]. intros ->.
    by rewrite (at_inode_inj _ _ _ _ Hz' Hz) in Hzt. }
  destruct (Z.eqb_spec e d) as [->|Hed]; cbn [andb].
  - assert (m = n) as -> by (by eapply at_inode_inj). exists n'. split; [done|]. split; [done|]. intros t.
    rewrite Hk, find_name_app by (apply (kids_nonzero f d n Hw Hn)).
    rewrite (find_name_ext f f') by (apply (Hnames d n Hn)). destruct (Z.eqb_spec (find_name f (kids n) t) 0) as [E0|]; [|done].
    simpl. rewrite (node_name_at f' r c Hc), Hcn. cbn [andb]. rewrite E0.
    case_decide as Hd; [by rewrite bool_decide_true by congruence|by rewrite bool_decide_false by congruence].
  - destruct (Hf e m) as [He' _]; [by intros [?|?]|done|]. exists m. split; [done|]. split; [done|]. intros t.
    by apply find_name_ext, (Hnames e).
Qed.

(** C30: a successful create or mkdir of [s] in directory [d] changes what
    lookups find in exactly one point: the name [s], cut to 63 bytes, now
    leads to the new inode in [d] when nothing did before.  Every other name,
    and every name in every other directory, leads where it led.  On failure
    nothing changes at all. *)
Theorem ramfs_create_lookup (f : ramfs M) d name s mode (dir : bool) :
  ramfs_reach f -> is_inode d -> holds name s ->
  exists err r f',
    (if dir then ramfs_create_dir d name mode else ramfs_create_file d name mode) f = Ok ((err, r), f') /\
    ((err < 0 /\ unchanged f f') \/
     (err = 0 /\ (forall e name' t, is_inode e -> e <> r -> holds name' t -> exists old,
        ramfs_op_resolve 0 e name' f = Ok (old, f) /\
        ramfs_op_resolve 0 e name' f' =
          Ok (if (e =? d) && (old =? 0) && bool_decide (t = take 63 s) && negb (bool_decide (t = [46; 46]))
              then r else old, f')))).
Proof.
  intros Hr Hd Hs. pose proof (ramfs_reach_wf f Hr) as Hwf. pose proof Hwf as [Hw _].
  destruct (at_inode_exists f d Hw Hd) as [n Hn].
  assert (exists err r f', (if dir then ramfs_create_dir d name mode else ramfs_create_file d name mode) f = Ok ((err, r), f') /\
    ramfs_wf f' /\ ((err < 0 /\ unchanged f f') \/ (err = 0 /\ exists ty, created f f' d r ty s))) as (err & r & f' & E & Hwf' & Hres).
  { destruct dir.
    - destruct (create_dir_ok f d n name s mode Hwf Hn Hs) as (err & r & f' & E & Hwf' & H).
      exists err, r, f'. split; [done|]. split; [done|].
      destruct H as [(-> & _ & _ & _ & H)|(_ & Hun & [[-> _]|[[-> _]|[-> _]]])]; [right; by eauto|left..]; done.
    - destruct (create_file_ok f d n name s mode Hwf Hn Hs) as (err & r & f' & E & Hwf' & H).
      exists err, r, f'. split; [done|]. split; [done|].
      destruct H as [(-> & _ & _ & H)|(_ & Hun & [[-> _]|[-> _]])]; [right; by eauto|left..]; done. }
  exists err, r, f'. split; [done|]. destruct Hres as [?|(-> & ty & Hcr)]; [by left|right]. split; [done|].
  intros e name' t He Her Ht. destruct (at_inode_exists f e Hw He) as [m Hm].
  destruct (created_lookup f f' d r ty s Hwf Hwf' Hcr e m Hm Her) as (m' & Hm' & Hp & Hfind).
  eexists. split; [by apply (resolve_ok f e m name' t)|].
  rewrite (resolve_ok f' e m' name' t 0 Hwf' Hm' Ht). case_decide as Hdd.
  - rewrite (bool_decide_true (t = [46; 46])) by done. cbn [negb]. rewrite andb_false_r. by rewrite Hp.
  - rewrite (bool_decide_false (t = [46; 46])) by done. cbn [negb]. rewrite andb_true_r. by rewrite Hfind.
Qed.

(** Names after a removal. *)
Lemma removed_names (f f' : ramfs M) d c n n' :
  tree_wf f -> frame (fun j => j = d \/ j = c) f f' -> at_inode f d n -> at_inode f' d n' -> c ∈ kids n ->
  i_name n' = i_name n ->
  (forall e m x, at_inode f e m -> x ∈ kids m -> x <> c -> node_name f' x = node_name f x) /\
  (forall e m, at_inode f e m -> e <> d -> c ∉ kids m).
Proof.
  intros Hw Hf Hn Hn' Hc Hnm. split.
  - intros e m x Hm Hx Hxc. destruct (tw_kid _ Hw e x) as (_ & y & Hy & _); [by exists m|].
    destruct (decide (x = d)) as [->|Hxd].
    + by rewrite (node_name_at f d n Hn), (node_name_at f' d n' Hn'), Hnm.
    + apply (frame_name _ f f' x Hf); [by intros [?|?]|by exists y].
  - intros e m Hm Hed Hin. apply Hed, (entry_unique f e d c Hw); by eexists.
Qed.

(** unlink and rmdir take exactly the entry they name out of the
    directory: lookups of every other name there, and of every name elsewhere,
    give what they gave; the name itself leads to no entry or to another one
    of the same name.  On failure nothing changes. *)
Theorem ramfs_unlink_lookup (f : ramfs M) d name s (dir : bool) :
  ramfs_reach f -> is_inode d -> holds name s -> s <> [46; 46] ->
  exists err c f',
    (if dir then ramfs_op_rmdir 0 d name else ramfs_op_unlink 0 d name) f = Ok (err, f') /\
    ramfs_op_resolve 0 d name f = Ok (c, f) /\
    ((err < 0 /\ f' = f) \/
     (err = 0 /\ c <> 0 /\
      (exists c', ramfs_op_resolve 0 d name f' = Ok (c', f') /\ c' <> c) /\
      forall e name' t, is_inode e -> e <> c -> holds name' t -> t <> [46; 46] -> e <> d \/ t <> s -> exists r,
        ramfs_op_resolve 0 e name' f = Ok (r, f) /\ ramfs_op_resolve 0 e name' f' = Ok (r, f'))).
Proof.
  intros Hr Hd Hs Hdd. pose proof (ramfs_reach_wf f Hr) as Hwf. pose proof Hwf as [Hw _].
  destruct (at_inode_exists f d Hw Hd) as [n Hn]. set (c := find_name f (kids n) s).
  assert (exists err f', (if dir then ramfs_op_rmdir 0 d name else ramfs_op_unlink 0 d name) f = Ok (err, f') /\
    ramfs_wf f' /\ ((err < 0 /\ f' = f) \/ (err = 0 /\ c <> 0 /\ c <> d /\ removed f f' d c))) as (err & f' & E & Hwf' & Hres).
  { destruct dir.
    - destruct (rmdir_ok f d n name s 0 Hwf Hn Hs) as (err & f' & E & Hwf' & H).
      exists err, f'. split; [done|]. split; [done|].
      destruct H as [(-> & Hc & Hcd & H & _)|(Hf & [[-> _]|[[-> _]|[-> _]]])]; [right; by eauto|left..]; done.
    - destruct (unlink_ok f d n name s 0 Hwf Hn Hs) as (err & f' & E & Hwf' & H).
      exists err, f'. split; [done|]. split; [done|].
      destruct H as [(-> & Hc & H & m & Hm & Hm1 & _)|(Hf & [[-> _]|[-> _]])]; [right|left..]; try done.
      split; [done|]. split; [done|]. split; [|done]. intros Ec. subst c. rewrite Ec in Hm.
      destruct (lookup_found f d n s Hw Hn Hc) as (_ & _ & Ht & _). rewrite (at_inode_inj _ _ _ _ Hm Hn) in Hm1. lia. }
  exists err, c, f'. split; [done|]. split; [rewrite (resolve_ok f d n name s) by done; by rewrite decide_False|].
  destruct Hres as [?|(-> & Hc0 & Hcd & [(n1 & n' & Hn1 & Hn' & Hck & Hk & Ht') Hf])]; [by left|right].
  assert (n1 = n) as -> by (by eapply at_inode_inj). split; [done|]. split; [done|].
  destruct (lookup_found f d n s Hw Hn Hc0) as (_ & _ & _ & Hcs & _). fold c in Hcs.
  destruct (removed_names f f' d c n n' Hw Hf Hn Hn' Hck (proj2 Ht')) as [Hnames Hcin]. split.
  - rewrite (resolve_ok f' d n' name s) by done. rewrite decide_False by done. eexists. split; [done|].
    rewrite Hk. intros E'. destruct (find_name_in f' (filter (fun x => x <> c) (kids n)) s) as [H0|H0]; [congruence|].
    rewrite E' in H0. by apply list_elem_of_filter in H0 as [? _].
  - intros e name' t He Hec Ht Htd Hor. destruct (at_inode_exists f e Hw He) as [m Hm].
    exists (find_name f (kids m) t). rewrite (resolve_ok f e m name' t) by done. rewrite decide_False by done.
    split; [done|]. destruct (decide (e = d)) as [->|Hed].
    + assert (m = n) as -> by (by eapply at_inode_inj). rewrite (resolve_ok f' d n' name' t) by done.
      rewrite decide_False, Hk by done. do 2 f_equal.
      rewrite <- (find_name_filter f (kids n) c t) by (rewrite Hcs; destruct Hor; congruence).
      apply find_name_ext. intros x [Hx Hin]%list_elem_of_filter. apply (Hnames d n x); done.
    + destruct (Hf e m) as [Hm' _]; [by intros [?|?]|done|]. rewrite (resolve_ok f' e m name' t) by done.
      rewrite decide_False by done. do 2 f_equal. apply find_name_ext. intros x Hx.
      apply (Hnames e m x); [done|done|]. intros ->. by apply (Hcin e m).
Qed.
(** ** Reading what was written *)

Lemma frame_contents (P : Z -> Prop) (f f' : ramfs M) i n :
  frame P f f' -> ~ P i -> at_inode f i n -> i_data n <> 0 \/ i_size n = 0 ->
  at_inode f' i n /\ contents f' n = contents f n.
Proof.
  intros Hf HP Hi Hd. destruct (Hf i n HP Hi) as [Hi' Hb]. split; [done|]. unfold contents, buffer.
  destruct Hd as [Hd|Hs]; [by rewrite (Hb Hd)|]. by rewrite Hs.
Qed.

Lemma data_or_empty f i n : ramfs_wf f -> at_inode f i n -> i_data n <> 0 \/ i_size n = 0.
Proof.
  intros [Hw Hdw] Hi. destruct (decide (i_data n = 0)) as [Hd|]; [right|by left].
  pose proof (dw_data _ Hdw _ _ Hi) as H. rewrite decide_True in H by done.
  pose proof (nw_size _ (tw_node _ Hw _ _ Hi)). lia.
Qed.

Lemma nthZ_slice l o c k :
  0 <= o -> 0 <= k < c -> nthZ (take (Z.to_nat c) (drop (Z.to_nat o) l)) k = nthZ l (o + k).
Proof. intros Ho Hk. rewrite nthZ_take by lia. by rewrite nthZ_drop by lia. Qed.

Lemma slice_ext l l' o c :
  0 <= o -> 0 <= c -> o + c <= Z.of_nat (length l) -> o + c <= Z.of_nat (length l') ->
  (forall k, o <= k < o + c -> nthZ l k = nthZ l' k) ->
  take (Z.to_nat c) (drop (Z.to_nat o) l) = take (Z.to_nat c) (drop (Z.to_nat o) l').
Proof.
  intros Ho Hc Hl Hl' H. apply list_eq_nthZ; [rewrite !length_take, !length_drop; lia|].
  rewrite length_take, length_drop. intros k Hk. rewrite !nthZ_slice by lia. apply H. lia.
Qed.

(** Reading back what was written. *)
Lemma wrote_read (f f' : ramfs M) i n buf count offset n' :
  ramfs_wf f' -> wrote f f' i n buf count offset n' -> i_type n = 1 -> 0 <= i_size n ->
  0 <= count <= Z.of_nat (length buf) -> is_u32 count -> 0 <= offset ->
  ramfs_read_data i count offset f' = Ok ((count, take (Z.to_nat count) buf), f').
Proof.
  intros Hwf [Hn' Ht' Hs' Hl' Hnew _ _ _] Ht Hs Hc Hc32 Ho. unfold is_u32 in Hc32.
  rewrite (read_ok f' i n') by (done || lia). rewrite Ht', Ht. change (1 =? 1) with true. cbv iota zeta.
  assert (take (Z.to_nat count) (drop (Z.to_nat offset) (contents f' n')) = take (Z.to_nat count) buf) as ->.
  { apply list_eq_nthZ; [rewrite !length_take, length_drop; lia|]. rewrite length_take, length_drop. intros k Hk.
    rewrite nthZ_slice, nthZ_take, Hnew by lia. f_equal. lia. }
  rewrite length_take. do 3 f_equal. lia.
Qed.

(** C29: a write to a file either fails with -EFBIG (behind 16 MiB) or
    -ENOSPC (no memory) and leaves every byte of every file alone, or it
    stores all [count] bytes: reading the range back gives them, reading any
    other range of the file or any other file gives what it gave before. *)
Theorem ramfs_write_read (f : ramfs M) i n buf count offset :
  ramfs_reach f -> at_inode f i n -> i_type n = 1 -> 0 < count <= Z.of_nat (length buf) ->
  is_u32 count -> is_u32 offset ->
  exists r f', ramfs_op_write junk 0 i buf count offset f = Ok (r, f') /\
    (forall j m c o, at_inode f j m -> j <> i -> is_u32 c -> 0 <= o -> exists x,
       ramfs_op_read 0 j c o f = Ok (x, f) /\ ramfs_op_read 0 j c o f' = Ok (x, f')) /\
    if 16777216 <? offset + count then r = - EFBIG /\ f' = f
    else (r = - ENOSPC /\ forall c o, is_u32 c -> 0 <= o -> exists x,
            ramfs_op_read 0 i c o f = Ok (x, f) /\ ramfs_op_read 0 i c o f' = Ok (x, f')) \/
         (r = count /\
          ramfs_op_read 0 i count offset f' = Ok ((count, take (Z.to_nat count) buf), f') /\
          forall c o, 0 <= c -> 0 <= o -> o + c <= i_size n -> o + c <= offset \/ offset + count <= o ->
            exists x, ramfs_op_read 0 i c o f = Ok (x, f) /\ ramfs_op_read 0 i c o f' = Ok (x, f')).
Proof.
  intros Hr Hi Ht Hcnt Hc32 Ho32. pose proof (ramfs_reach_wf f Hr) as Hwf. unfold is_u32 in *.
  destruct (write_ok junk f i n buf count offset) as (r & f' & E & Hwf' & Hfr & Hres); try done; try lia.
  rewrite Ht in Hres. change (1 =? 2) with false in Hres. cbv iota in Hres.
  exists r, f'. split; [done|]. split.
  { intros j m c o Hj Hne Hc Ho. destruct (frame_contents (eq i) f f' j m Hfr) as [Hj' Ec];
      [by intros ->|done|apply (data_or_empty f j m Hwf Hj)|].
    eexists. unfold ramfs_op_read. rewrite (read_ok f j m), (read_ok f' j m) by done. by rewrite Ec. }
  destruct (Z.ltb_spec 16777216 (offset + count)) as [|Hsmall]; [done|].
  destruct Hres as [(-> & Hi' & Hb & _)|(-> & n' & Hwrote)]; [left|right]; (split; [done|]).
  { intros c o Hc Ho. eexists. unfold ramfs_op_read. rewrite (read_ok f i n), (read_ok f' i n) by done.
    unfold contents, buffer. by rewrite Hb. }
  pose proof (nw_cap _ (tw_node _ (proj1 Hwf) _ _ Hi)). pose proof (nw_size _ (tw_node _ (proj1 Hwf) _ _ Hi)).
  unfold ramfs_op_read. split.
  - eapply wrote_read; try done; lia.
  - destruct Hwrote as [Hn' Ht' Hs' Hl' Hnew Hold _ _]. pose proof (contents_length f i n Hwf Hi) as Hlen.
    intros c o Hc Ho Hsz Hdis. eexists. rewrite (read_ok f i n), (read_ok f' i n') by (done || lia).
    rewrite Ht', Ht. change (1 =? 1) with true. cbv iota zeta. split; [done|].
    rewrite (slice_ext (contents f' n') (contents f n)) by (try lia; intros k Hk; apply Hold; lia). done.
Qed.
End Spec.

(** A fresh file system on the bump allocator. *)
Definition demo_raw : ramfs arena := Ramfs [] [] ∅ arena_init.

Lemma demo_init : exists f, ramfs_init demo_raw = Ok (0, f) /\ ramfs_reach (fun _ => 7) f /\
  at_inode f 1 root_node /\ (forall i, 0 <= i < 128 -> i <> 1 -> at_inode f i zero_inode).
Proof.
  destruct (init_ok demo_raw ∅ eq_refl arena_init_rep) as (f & E & _ & H1 & H2).
  exists f. split; [done|]. split; [|done]. by eapply (rr_init _ demo_raw ∅); [|apply arena_init_rep|].
Qed.


Lemma ramfs_create_lookup_witness :
  exists (f f' : ramfs arena) err r,
    ramfs_create_file 1 [102; 0] 420 f = Ok ((err, r), f') /\ ramfs_reach (fun _ => 7) f.
Proof.
  destruct demo_init as (f & _ & Hr & _).
  destruct (ramfs_create_lookup (fun _ => 7) f 1 [102; 0] [102] 420 false Hr) as (err & r & f' & E & _).
  - split; lia.
  - apply (holds_intro [102] []). repeat constructor; lia.
  - exists f, f', err, r. split; [exact E|exact Hr].
Defined.

Lemma ramfs_unlink_lookup_witness :
  exists (f f' : ramfs arena) err, ramfs_op_unlink 0 1 [102; 0] f = Ok (err, f') /\ ramfs_reach (fun _ => 7) f.
Proof.
  destruct demo_init as (f & _ & Hr & _).
  destruct (ramfs_unlink_lookup (fun _ => 7) f 1 [102; 0] [102] false Hr) as (err & c & f' & E & _).
  - split; lia.
  - apply (holds_intro [102] []). repeat constructor; lia.
  - discriminate.
  - exists f, f', err. split; [exact E|exact Hr].
Defined.

(** A file system with an empty file. *)
Lemma demo_file : exists (f : ramfs arena) i n, ramfs_reach (fun _ => 7) f /\ at_inode f i n /\ i_type n = 1.
Proof.
  destruct demo_init as (f & _ & Hr & H1 & Hz). pose proof (ramfs_reach_wf _ f Hr) as Hwf.
  assert (holds [102; 0] [102]) as Hs by (apply (holds_intro [102] []); repeat constructor; lia).
  destruct (create_file_ok f 1 root_node [102; 0] [102] 420 Hwf H1 Hs) as (e & r & f' & E & _ & Hres).
  assert (ramfs_reach (fun _ => 7) f') as Hr'.
  { eapply (rr_call _ f (CCreate 1 [102; 0] 420)); [done|split; [split; lia|right; left]|]. by eapply via_ok. }
  destruct Hres as [(_ & _ & _ & [_ _ (m & Hm & Ht & _) _])|(_ & _ & [[_ Hn]|[_ [Hn|Hn]]])].
  - by exists f', r, m.
  - done.
  - exfalso. apply Hn. exists 2. split; [lia|]. apply Hz; lia.
  - done.
Qed.

Lemma ramfs_write_read_witness :
  exists (f f' : ramfs arena) i r, ramfs_reach (fun _ => 7) f /\
    ramfs_op_write (fun _ => 7) 0 i [1; 2; 3] 3 0 f = Ok (r, f').
Proof.
  destruct demo_file as (f & i & n & Hr & Hi & Ht).
  destruct (ramfs_write_read (fun _ => 7) f i n [1; 2; 3] 3 0 Hr Hi Ht) as (r & f' & E & _).
  - simpl. lia.
  - split; lia.
  - split; lia.
  - exists f, f', i, r. split; [exact Hr|exact E].
Defined.

(** ** What the code gets wrong *)

Definition name_a : list Z := [97; 0].
Definition name_b : list Z := [98; 0].
Definition name_x : list Z := [120; 0].
Definition demo_junk (_ : Z) : Z := 7.

(** Cutting a file short keeps the bytes behind the new end in the buffer, and
    extending it again makes them readable: a file that is truncated to 0 and
    then extended shows its old contents instead of zeros. *)
Theorem truncate_shows_old_bytes :
  match (ramfs_init;;
         ' (_, i) ← ramfs_create_file 1 name_a 420;
         ramfs_write_data demo_junk i [115; 101; 99] 3 0;;
         ramfs_truncate_inode demo_junk i 0;;
         ramfs_truncate_inode demo_junk i 3;;
         ramfs_read_data i 3 0) demo_raw with
  | Ok (r, _) => r = (3, [115; 101; 99])
  | Err _ => False
  end.
Proof. vm_compute. reflexivity. Qed.

(** A rename that fails because the target is not a directory returns
    -ENOTDIR, and yet the file has the new name in the old directory. *)
Theorem failed_rename_renames :
  match (ramfs_init;;
         ' (_, a) ← ramfs_create_file 1 name_a 420;
         ' (_, x) ← ramfs_create_file 1 name_x 420;
         e ← ramfs_op_rename 0 1 name_a x name_b;
         old ← ramfs_op_resolve 0 1 name_a;
         new ← ramfs_op_resolve 0 1 name_b;
         ret (e, old, new, a)) demo_raw with
  | Ok ((e, old, new, a), _) => e = - ENOTDIR /\ old = 0 /\ new = a /\ a <> 0
  | Err _ => False
  end.
Proof. vm_compute. split_and!; congruence. Qed.

(** Renaming a directory does not count the link it is in its new parent, but
    removing it there does: after two rounds the link count of [b] is 0 while
    [b] is listed and not open, the condition under which vfs_close frees an
    inode. *)
Theorem rename_loses_link_count :
  match (ramfs_init;;
         ' (_, a) ← ramfs_create_dir 1 name_a 493;
         ' (_, b) ← ramfs_create_dir 1 name_b 493;
         ramfs_create_dir a name_x 493;;
         ramfs_op_rename 0 a name_x b name_x;; ramfs_op_rmdir 0 b name_x;;
         ramfs_create_dir a name_x 493;;
         ramfs_op_rename 0 a name_x b name_x;; ramfs_op_rmdir 0 b name_x;;
         found ← ramfs_op_resolve 0 1 name_b;
         opened ← ramfs_op_get_open 0 b;
         ' (_, st) ← ramfs_op_stat 0 b;
         ret (found, b, opened, st_nlink <$> st)) demo_raw with
  | Ok ((found, b, opened, nlink), _) => found = b /\ b <> 0 /\ opened = 0 /\ nlink = Some 0
  | Err _ => False
  end.
Proof. vm_compute. split_and!; congruence. Qed.
