(* ===== verification/RamfsSafe.v ===== *)
(** * The in-memory file system keeps the promises of a file system

    Through the VFS an inode number may outlive its entry: an open file keeps
    the number of an inode that has since been unlinked, freed or handed out
    again.  The invariant of this file holds whatever inodes the operations are
    given, and makes [ramfs_ops] an instance of [FsSafe]. *)

From stdpp Require Import base tactics numbers list gmap.
From S2P Require Import Prelude Kstring FsOps Alloc Ramfs RamfsProofs RamfsData RamfsSpec.

(** ** The invariant *)

Definition in_table (i : Z) : Prop := 0 <= i < 128.

Record safe_node (n : ramfs_inode) : Prop := {
  sn_name_len : length (i_name n) = 64%nat;
  sn_name_nul : 0 ∈ i_name n;
  sn_children : length (i_children n) = 64%nat;
  sn_kids : Forall in_table (i_children n);
  sn_count : 0 <= i_child_count n <= 64;
  sn_size : 0 <= i_size n <= i_data_capacity n;
  sn_cap : i_data_capacity n <= 16777216;
  sn_parent : in_table (i_parent n)
}.

(** What a lookup makes of a name is what it makes of the string in it. *)
Lemma strcmp_loop_string {S} a b s (st : S) : holds b s -> strcmp_loop a b st = strcmp_loop a (s ++ [0]) st.
Proof.
  revert b s. induction a as [|x a IH]; intros b s Hb; [done|].
  destruct s as [|c s]; [destruct (holds_nil_inv _ Hb) as [r ->]|].
  - cbn [strcmp_loop app]. by destruct (Z.eqb_spec x 0) as [->|Hx].
  - destruct b as [|y b]; [by destruct Hb as [_ (? & ?)]|]. apply holds_cons_inv in Hb as (-> & Hc & Hb).
    cbn [strcmp_loop app]. destruct (_ && _); [by apply IH|done].
Qed.

Lemma bind_ext {S A B} (m m' : ST S A) (k k' : A -> ST S B) s :
  m s = m' s -> (forall a s', k a s' = k' a s') -> bind m k s = bind m' k' s.
Proof. intros Hm Hk. unfold bind. rewrite Hm. destruct (m' s) as [[a s']|]; [apply Hk|done]. Qed.

Section Safe.
Context {M : Type} {KM : Kmalloc M}.
Variable junk : Z -> Z.
Implicit Types f : ramfs M.

Record ramfs_safe f : Prop := {
  rs_len : length (inode_table f) = 128%nat;
  rs_open : length (inode_open_count f) = 128%nat;
  rs_nodes : Forall safe_node (inode_table f);
  rs_data : data_wf f
}.

Lemma safe_at f i : ramfs_safe f -> in_table i -> exists n, at_inode f i n /\ safe_node n.
Proof.
  intros Hf Hi. unfold in_table in Hi. destruct (lookup_lt_is_Some_2 (inode_table f) (Z.to_nat i)) as [n Hn].
  { rewrite (rs_len _ Hf). lia. }
  exists n. split; [split; [lia|done]|]. by apply (Forall_lookup_1 _ _ _ _ (rs_nodes _ Hf) Hn).
Qed.

Lemma with_node_safe f i n n' :
  ramfs_safe f -> at_inode f i n -> safe_node n' -> data_wf (with_node i n' f) -> ramfs_safe (with_node i n' f).
Proof.
  intros [H1 H2 H3 H4] Hi Hn' Hd. split; try done; simpl; [by rewrite length_insert|by apply Forall_insert].
Qed.

(** Reading and changing an inode, in front of the rest of a program. *)
Lemma node_wp {A} f i (k : ramfs_inode -> ST (ramfs M) A) Q :
  ramfs_safe f -> in_table i -> (forall n, at_inode f i n -> safe_node n -> wp (k n) Q f) -> wp (bind (node i) k) Q f.
Proof.
  intros Hf Hi Hk. destruct (safe_at f i Hf Hi) as (n & Hn & Hs). eapply wp_bind_ok; [by apply node_ok|]. by apply Hk.
Qed.

Lemma upd_wp {A} f i g (k : unit -> ST (ramfs M) A) Q :
  ramfs_safe f -> in_table i ->
  (forall n, at_inode f i n -> safe_node n -> safe_node (g n) /\
     (i_data (g n) = i_data n /\ i_data_capacity (g n) = i_data_capacity n \/
      i_data (g n) = 0 /\ i_data_capacity (g n) = 0)) ->
  (forall f', ramfs_safe f' -> wp (k tt) Q f') -> wp (bind (upd_node i g) k) Q f.
Proof.
  intros Hf Hi Hg Hk. destruct (safe_at f i Hf Hi) as (n & Hn & Hs). eapply wp_bind_ok; [by apply upd_node_ok|].
  destruct (Hg n Hn Hs) as [Hs' Hd]. apply Hk. eapply with_node_safe; try done.
  destruct Hd as [[? ?]|[? ?]]; [eapply data_same|eapply data_none]; try done; apply Hf.
Qed.

Lemma upd_last_wp f i g (Q : unit -> ramfs M -> Prop) :
  ramfs_safe f -> in_table i ->
  (forall n, at_inode f i n -> safe_node n -> safe_node (g n) /\
     (i_data (g n) = i_data n /\ i_data_capacity (g n) = i_data_capacity n \/
      i_data (g n) = 0 /\ i_data_capacity (g n) = 0)) ->
  (forall f', ramfs_safe f' -> Q tt f') -> wp (upd_node i g) Q f.
Proof.
  intros Hf Hi Hg HQ. assert (wp (bind (upd_node i g) ret) Q f) as H by (apply upd_wp; try done; intros; by apply wp_ret, HQ).
  unfold wp in *. unfold bind in H. by destruct (upd_node i g f) as [[[] f']|].
Qed.

(** A field that takes no part in the invariant, or a new value that obeys it. *)
Ltac field n Hn := intros n ? Hn; split; [destruct Hn; split; simpl; try done; try (unfold in_table in *; lia)|by left].

Lemma zero_safe : safe_node zero_inode.
Proof.
  split; simpl; try done; try lia; try (unfold in_table; simpl; lia); [by left|].
  change (Forall in_table (replicate 64 0)). apply Forall_replicate. unfold in_table. lia.
Qed.

(** ** Operations on inodes *)

Lemma lookup_loop_safe n (i : nat) ch nm f :
  ramfs_safe f -> 0 ∈ nm -> (i + n <= length ch)%nat -> Forall in_table ch ->
  wp (lookup_loop n (Z.of_nat i) ch nm) (fun r f' => f' = f /\ in_table r) f.
Proof.
  intros Hf Hnm. apply str_of_holds in Hnm. revert i. induction n as [|n IH]; intros i Hi Hch; cbn [lookup_loop].
  { apply wp_ret. unfold in_table. split; [done|lia]. }
  destruct (lookup_lt_is_Some_2 ch i ltac:(lia)) as [c Hc].
  eapply wp_bind_ok; [apply rd_ok; [lia|by rewrite Nat2Z.id]|].
  pose proof (Forall_lookup_1 _ _ _ _ Hch Hc) as Hct. apply node_wp; [done..|]. intros m Hm Hs.
  pose proof (str_of_holds _ (sn_name_nul _ Hs)) as Hh.
  eapply wp_bind_ok; [by apply kstrcmp_ok|]. destruct (_ =? 0); [by apply wp_ret|].
  replace (Z.of_nat i + 1) with (Z.of_nat (S i)) by lia. apply IH; [lia|done].
Qed.

Lemma lookup_child_safe d nm f :
  ramfs_safe f -> in_table d -> 0 ∈ nm -> wp (ramfs_lookup_child d nm) (fun r f' => f' = f /\ in_table r) f.
Proof.
  intros Hf Hd Hnm. unfold ramfs_lookup_child. apply node_wp; [done..|]. intros n Hn Hs.
  destruct (negb _); [apply wp_ret; unfold in_table; split; [done|lia]|]. destruct Hs.
  apply (lookup_loop_safe _ 0); try done. lia.
Qed.

Lemma add_child_safe d c f :
  ramfs_safe f -> in_table d -> in_table c -> wp (ramfs_add_child d c) (fun _ f' => ramfs_safe f') f.
Proof.
  intros Hf Hd Hc. unfold ramfs_add_child. apply node_wp; [done..|]. intros n Hn Hs.
  destruct (negb _); [done|]. destruct (Z.leb_spec RAMFS_MAX_CHILDREN (i_child_count n)) as [|Hlt]; [done|].
  unfold RAMFS_MAX_CHILDREN in Hlt. pose proof (sn_count _ Hs) as Hct. pose proof (sn_children _ Hs) as Hcl.
  eapply wp_bind_ok; [apply wr_ok; lia|]. unfold in_table in Hc. assert (u16 c = c) as -> by (unfold u16; rewrite Z.mod_small; lia).
  apply upd_wp; [done..| |].
  { intros n' Hn' _. rewrite (at_inode_inj _ _ _ _ Hn' Hn). split; [|by left].
    destruct Hs. split; simpl; try done; [by rewrite length_insert|by apply Forall_insert|].
    rewrite u32_id; unfold is_u32; lia. }
  intros f1 Hf1. apply upd_wp; [done..| |]; [field x Hx|]. by intros f2 Hf2.
Qed.

Lemma find_child_safe n (i : nat) c ch f :
  (i + n <= length ch)%nat ->
  wp (find_child n (Z.of_nat i) c ch)
    (fun r f' => f' = f /\ match r with Some k => Z.of_nat i <= k < Z.of_nat (i + n) | None => True end) f.
Proof.
  revert i. induction n as [|n IH]; intros i Hi; cbn [find_child]; [done|].
  destruct (lookup_lt_is_Some_2 ch i ltac:(lia)) as [x Hx].
  eapply wp_bind_ok; [apply rd_ok; [lia|by rewrite Nat2Z.id]|]. destruct (x =? c); [apply wp_ret; split; [done|lia]|].
  replace (Z.of_nat i + 1) with (Z.of_nat (S i)) by lia. eapply wp_mono; [apply IH; lia|].
  intros [k|] f' [-> Hk]; split; try done. lia.
Qed.

Lemma shift_loop_safe n (j : nat) ch f :
  (j + n < length ch)%nat -> Forall in_table ch ->
  wp (shift_loop n (Z.of_nat j) ch) (fun ch' f' => f' = f /\ length ch' = length ch /\ Forall in_table ch') f.
Proof.
  revert j ch. induction n as [|n IH]; intros j ch Hj Hch; cbn [shift_loop]; [done|].
  destruct (lookup_lt_is_Some_2 ch (S j) ltac:(lia)) as [x Hx].
  eapply wp_bind_ok; [apply rd_ok; [lia|]; by replace (Z.to_nat (Z.of_nat j + 1)) with (S j) by lia|].
  eapply wp_bind_ok; [apply wr_ok; lia|]. replace (Z.of_nat j + 1) with (Z.of_nat (S j)) by lia. rewrite Nat2Z.id.
  eapply wp_mono; [apply (IH (S j)); [rewrite length_insert; lia|]|].
  - apply Forall_insert; [done|]. by apply (Forall_lookup_1 _ _ _ _ Hch Hx).
  - by rewrite length_insert.
Qed.

Lemma remove_child_safe d c f :
  ramfs_safe f -> in_table d -> wp (ramfs_remove_child d c) (fun _ f' => ramfs_safe f') f.
Proof.
  intros Hf Hd. unfold ramfs_remove_child. apply node_wp; [done..|]. intros n Hn Hs. destruct (negb _); [done|].
  pose proof (sn_count _ Hs) as Hct. pose proof (sn_children _ Hs) as Hcl.
  eapply wp_step; [apply (find_child_safe _ 0); lia|]. intros r f1 [-> Hr]. destruct r as [k|]; [|done].
  eapply wp_step.
  { rewrite <- (Z2Nat.id k) at 2 by lia. apply shift_loop_safe; [lia|apply Hs]. }
  intros ch f1 (-> & Hl & Hch). apply upd_wp; [done..| |by intros].
  intros n' Hn' _. rewrite (at_inode_inj _ _ _ _ Hn' Hn). split; [|by left].
  destruct Hs. split; simpl; try done; [lia|]. rewrite u32_id; unfold is_u32; lia.
Qed.

Lemma free_inode_safe i f :
  ramfs_safe f -> in_table i -> wp (ramfs_free_inode i) (fun _ f' => ramfs_safe f') f.
Proof.
  intros Hf Hi. pose proof Hi as Hb. unfold in_table in Hb. unfold ramfs_free_inode. destruct (_ || _); [done|].
  apply node_wp; [done..|]. intros n Hn Hs.
  destruct (free_data_ok f i n (rs_data _ Hf) Hn) as (g & Eg & [n' Hi'] & Hoc & Htab & Hmem & Hbufs).
  eapply wp_bind_ok; [exact Eg|]. eapply wp_bind_ok; [by apply upd_node_ok|]. apply wp_bind, wp_gets. unfold id.
  eapply wp_bind_ok; [apply wr_ok; simpl; rewrite Hoc, (rs_open _ Hf); lia|]. apply wp_modify.
  set (f' := set_open_count _ _). assert (inode_table f' = inode_table (with_node i zero_inode f)) as Ht by exact Htab.
  destruct (data_cleared f f' i n (rs_data _ Hf) Hn Hmem Ht Hbufs) as [Hdw _].
  split; [| | |done].
  - rewrite Ht. simpl. rewrite length_insert. apply Hf.
  - simpl. rewrite length_insert, Hoc. apply Hf.
  - rewrite Ht. simpl. apply Forall_insert; [apply Hf|apply zero_safe].
Qed.

Lemma copy_name_safe i nm f :
  ramfs_safe f -> in_table i -> 0 ∈ nm -> wp (copy_name i nm) (fun _ f' => ramfs_safe f') f.
Proof.
  intros Hf Hi Hnm. destruct (safe_at f i Hf Hi) as (n & Hn & Hs).
  destruct (copy_name_ok f i n nm _ Hn (sn_name_len _ Hs) (str_of_holds _ Hnm)) as (d & Hl & Hh & E).
  eapply wp_ok; [exact E|]. eapply with_node_safe; try done.
  - destruct Hs. split; simpl; try done. destruct Hh as [_ (r & ->)]. apply elem_of_app. right. left.
  - eapply data_same; try done. apply Hf.
Qed.

Lemma alloc_loop_safe n (i : nat) f :
  ramfs_safe f -> (i + n <= 128)%nat ->
  wp (alloc_inode_loop n (Z.of_nat i)) (fun r f' => ramfs_safe f' /\ in_table r) f.
Proof.
  intros Hf. revert i. induction n as [|n IH]; intros i Hi; cbn [alloc_inode_loop].
  { apply wp_ret. unfold in_table. split; [done|lia]. }
  assert (in_table (Z.of_nat i)) by (unfold in_table; lia).
  apply node_wp; [done..|]. intros m Hm Hs. destruct (_ =? _).
  - apply upd_wp; [done..| |].
    + intros x _ _. split; [|by right]. pose proof zero_safe as []. by split.
    + intros f' Hf'. by apply wp_ret.
  - replace (Z.of_nat i + 1) with (Z.of_nat (S i)) by lia. apply IH. lia.
Qed.

Lemma alloc_inode_safe f :
  ramfs_safe f -> wp ramfs_alloc_inode (fun r f' => ramfs_safe f' /\ in_table r) f.
Proof. intros Hf. by apply (alloc_loop_safe 126 2). Qed.

Lemma create_file_safe d nm mode f :
  ramfs_safe f -> in_table d -> 0 ∈ nm ->
  wp (ramfs_create_file d nm mode) (fun r f' => ramfs_safe f' /\ in_table r.2) f.
Proof.
  intros Hf Hd Hnm. unfold ramfs_create_file, ramfs_get_inode. assert (in_table 0) by (unfold in_table; lia).
  apply node_wp; [done..|]. intros n Hn Hs. destruct (negb _); [done|].
  eapply wp_step; [by apply alloc_inode_safe|]. intros r f1 [Hf1 Hr]. destruct (_ =? 0); [done|].
  apply upd_wp; [done|done|field x Hx|]. intros f2 Hf2. apply upd_wp; [done|done|field x Hx|]. intros f3 Hf3.
  apply upd_wp; [done|done|field x Hx|]. intros f4 Hf4. eapply wp_step; [by apply copy_name_safe|]. intros ? f5 Hf5.
  eapply wp_step; [by apply add_child_safe|]. intros rc f6 Hf6. destruct (_ <? 0); [|done].
  eapply wp_step; [by apply free_inode_safe|]. by intros ? f7 Hf7.
Qed.

Lemma create_dir_safe d nm mode f :
  ramfs_safe f -> in_table d -> 0 ∈ nm -> wp (ramfs_create_dir d nm mode) (fun _ f' => ramfs_safe f') f.
Proof.
  intros Hf Hd Hnm. unfold ramfs_create_dir, ramfs_get_inode. apply node_wp; [done..|]. intros n Hn Hs. destruct (negb _); [done|].
  eapply wp_step; [by apply lookup_child_safe|]. intros ex f0 [-> _]. destruct (negb _); [done|].
  eapply wp_step; [by apply alloc_inode_safe|]. intros r f1 [Hf1 Hr]. destruct (_ =? 0); [done|].
  apply upd_wp; [done|done|field x Hx|]. intros f2 Hf2. apply upd_wp; [done|done|field x Hx|]. intros f3 Hf3.
  apply upd_wp; [done|done|field x Hx|]. intros f4 Hf4. eapply wp_step; [by apply copy_name_safe|]. intros ? f5 Hf5.
  eapply wp_step; [by apply add_child_safe|]. intros rc f6 Hf6. destruct (_ <? 0).
  - eapply wp_step; [by apply free_inode_safe|]. by intros ? f7 Hf7.
  - apply upd_wp; [done|done|field x Hx|]. by intros.
Qed.

Lemma set_name_safe i nm f :
  ramfs_safe f -> in_table i -> 0 ∈ nm -> wp (ramfs_set_name i (Some nm)) (fun _ f' => ramfs_safe f') f.
Proof.
  intros Hf Hi Hnm. unfold ramfs_set_name. destruct (_ || _); [done|]. apply node_wp; [done..|]. intros n Hn Hs.
  destruct (_ =? _); [done|]. eapply wp_step; [by apply copy_name_safe|]. intros ? f1 Hf1.
  apply node_wp; [done..|]. intros m Hm Hms. eapply wp_bind_ok.
  { apply wr_ok. rewrite (sn_name_len _ Hms). unfold RAMFS_MAX_NAME. lia. }
  apply upd_wp; [done|done| |by intros]. field x Hx.
  - rewrite length_insert. apply Hms.
  - apply list_elem_of_lookup_2 with (i := 63%nat), list_lookup_insert_eq. rewrite (sn_name_len _ Hms).
    by apply Nat.ltb_lt.
Qed.

(** ** File data *)

Lemma read_safe i n off f :
  ramfs_safe f -> in_table i -> is_u32 n -> is_u32 off ->
  wp (ramfs_read_data i n off) (fun r f' => ramfs_safe f' /\ r.1 <= n) f.
Proof.
  intros Hf Hi Hn Ho. unfold is_u32 in *. unfold ramfs_read_data. apply node_wp; [done..|]. intros m Hm Hs.
  destruct (negb _); [apply wp_ret; split; [done|unfold EISDIR; simpl; lia]|].
  destruct (Z.leb_spec (i_size m) off) as [|Hlt]; [apply wp_ret; split; [done|simpl; lia]|].
  pose proof (sn_size _ Hs) as Hsz. pose proof (sn_cap _ Hs) as Hcap. rewrite u32_id by (unfold is_u32; lia). cbv zeta.
  set (t := if n <? i_size m - off then n else i_size m - off).
  assert (0 <= t <= n /\ t <= i_size m - off) as Ht by (subst t; destruct (Z.ltb_spec n (i_size m - off)); lia).
  clearbody t. destruct (t =? 0); [apply wp_ret; split; [done|simpl; lia]|].
  assert (s32 t <= n) as Hst by (rewrite s32_small; lia).
  destruct (Z.eqb_spec (i_data m) 0) as [Hd|Hd]; cbn [negb]; [by apply wp_ret|].
  destruct (put_data f i m [] 0 (rs_data _ Hf) Hm Hd) as (_ & _ & _ & _ & E); [lia|simpl; lia|].
  eapply wp_bind_ok; [exact E|]. pose proof (buf_length f i m (rs_data _ Hf) Hm) as Hbl.
  eapply wp_bind_ok; [apply copy_out_ok; lia|]. by apply wp_ret.
Qed.

Lemma ensure_safe i cap end_pos cs f n :
  ramfs_safe f -> in_table i -> at_inode f i n -> 0 <= end_pos <= 16777216 ->
  end_pos <= cap <= 16777216 -> (i_data_capacity n < end_pos -> cs = i_size n) ->
  wp (if i_data_capacity n <? end_pos then grow_data junk i cap cs else ret true)
    (fun ok f' => ramfs_safe f' /\
       (ok = true -> exists m, at_inode f' i m /\ end_pos <= i_data_capacity m)) f.
Proof.
  intros Hf Hi Hn He Hcap Hcs. assert (safe_node n) as Hs by (destruct (safe_at f i Hf Hi) as (m & Hm & ?); by rewrite (at_inode_inj _ _ _ _ Hn Hm)).
  pose proof (sn_size _ Hs) as Hsz. destruct (Z.ltb_spec (i_data_capacity n) end_pos) as [Hlt|Hge].
  2: { apply wp_ret. split; [done|]. intros _. exists n. split; [done|lia]. }
  rewrite (Hcs Hlt). destruct (grow_data_raw junk f i n cap (i_size n) (rs_data _ Hf) Hn Hsz) as (ok & f' & E & Hoc & Hok); try lia.
  eapply wp_ok; [exact E|]. destruct ok.
  - destruct Hok as (p & Hp & Hdw & _ & Htab & Hp0 & _). split.
    + split; [| | |done]; rewrite ?Hoc, ?Htab; simpl; rewrite ?length_insert; try apply Hf.
      apply Forall_insert; [apply Hf|]. destruct Hs. split; simpl; try done; lia.
    + intros _. eexists. split; [unfold at_inode; rewrite Htab; by eapply at_with_node_eq|]. simpl. lia.
  - destruct Hok as (Htab & Hb & Hmem). split; [|done].
    assert (forall j m, at_inode f' j m <-> at_inode f j m) as Hat by (intros; unfold at_inode; by rewrite Htab).
    pose proof (rs_data _ Hf) as [D1 D2 D3]. split; rewrite ?Hoc, ?Htab; try apply Hf. split; [| |exact Hmem].
    + intros j m Hm%Hat. rewrite Hb. by apply (D1 j).
    + intros j k m x Hm%Hat Hx%Hat. by apply D2.
Qed.

Lemma resize_safe f i n k :
  ramfs_safe f -> at_inode f i n -> 0 <= k <= i_data_capacity n -> in_table i ->
  ramfs_safe (with_node i (set_size k n) f).
Proof.
  intros Hf Hn Hk Hi. destruct (safe_at f i Hf Hi) as (m & Hm & Hs). rewrite (at_inode_inj _ _ _ _ Hm Hn) in Hs.
  apply (with_node_safe f i n); try done; [destruct Hs; split; simpl; try done; lia|]. apply (data_same f i n); try done. apply Hf.
Qed.

Lemma write_safe i b n off f :
  ramfs_safe f -> in_table i -> 0 <= n <= Z.of_nat (length b) -> is_u32 n -> is_u32 off ->
  wp (ramfs_write_data junk i b n off) (fun r f' => ramfs_safe f' /\ r <= n) f.
Proof.
  intros Hf Hi Hb Hn Ho. unfold is_u32 in *. unfold ramfs_write_data. apply node_wp; [done..|]. intros m Hm Hs.
  destruct (_ =? _); [apply wp_ret; split; [done|unfold EISDIR; lia]|].
  unfold UINT32_MAX, RAMFS_MAX_FILE_SIZE.
  destruct (Z.ltb_spec (4294967295 - off) n); [apply wp_ret; split; [done|unfold EFBIG; lia]|].
  rewrite u32_id by (unfold is_u32; lia). cbv zeta.
  destruct (Z.ltb_spec 16777216 (off + n)); [apply wp_ret; split; [done|unfold EFBIG; lia]|].
  destruct (round_block_ok (off + n) ltac:(lia)) as [Hrb Hrb2].
  rewrite (proj2 (Z.ltb_ge 16777216 (round_block _))) by lia.
  eapply wp_step; [apply (ensure_safe i _ _ _ f m); try done; lia|]. intros ok f1 [Hf1 Hok].
  destruct ok; cbn [negb]; [|apply wp_ret; split; [done|unfold ENOSPC; lia]].
  destruct (Hok eq_refl) as (m0 & Hm0 & Hcap). apply node_wp; [done..|]. intros m1 Hm1 Hs1.
  rewrite (at_inode_inj _ _ _ _ Hm0 Hm1) in Hcap. pose proof (sn_size _ Hs1) as Hsz1.
  eapply (wp_step _ _ (fun _ f2 => ramfs_safe f2 /\ at_inode f2 i m1)).
  { destruct (Z.eqb_spec n 0); [done|]. eapply wp_bind_ok; [apply copy_out_ok; lia|].
    assert (i_data m1 <> 0) as Hd.
    { intros Hd. pose proof (dw_data _ (rs_data _ Hf1) _ _ Hm1) as H'. rewrite decide_True in H' by done. lia. }
    change (drop (Z.to_nat 0) b) with b.
    destruct (put_data f1 i m1 (take (Z.to_nat n) b) off (rs_data _ Hf1) Hm1 Hd ltac:(lia)) as (H1 & _ & _ & H4 & H5);
      [rewrite length_take; lia|].
    eapply wp_bind_ok; [exact H5|]. eapply wp_bind_ok; [exact H4|]. apply wp_modify. split; [|done].
    destruct Hf1. by split. }
  intros _ f2 [Hf2 Hm2]. eapply (wp_step _ _ (fun _ f3 => ramfs_safe f3)).
  { destruct (Z.ltb_spec (i_size m1) (off + n)); [|done]. eapply wp_ok; [by apply upd_node_ok|].
    apply resize_safe; try done. lia. }
  intros ? f3 Hf3. apply wp_ret. split; [done|]. rewrite s32_small; lia.
Qed.

Lemma truncate_safe i len f :
  ramfs_safe f -> in_table i -> is_u32 len -> wp (ramfs_truncate_inode junk i len) (fun _ f' => ramfs_safe f') f.
Proof.
  intros Hf Hi Hl. unfold is_u32 in *. unfold ramfs_truncate_inode. apply node_wp; [done..|]. intros m Hm Hs.
  destruct (negb _); [done|]. unfold RAMFS_MAX_FILE_SIZE. destruct (Z.ltb_spec 16777216 len); [done|].
  destruct (round_block_ok len ltac:(lia)) as [Hrb Hrb2]. pose proof (sn_size _ Hs).
  eapply wp_step; [apply (ensure_safe i _ _ _ f m); try done; try lia|].
  { intros. rewrite (proj2 (Z.ltb_lt _ _)) by lia. done. }
  intros ok f1 [Hf1 Hok]. destruct ok; cbn [negb]; [|done]. destruct (Hok eq_refl) as (m1 & Hm1 & Hcap).
  eapply wp_bind_ok; [by apply upd_node_ok|]. apply wp_ret, resize_safe; try done. lia.
Qed.

(** ** Directories *)

Lemma lookup_loop_string k i ch nm s f :
  holds nm s -> lookup_loop k i ch nm f = lookup_loop k i ch (s ++ [0]) f.
Proof.
  intros Hh. revert f i. induction k as [|k IH]; intros f i; [done|]. cbn [lookup_loop].
  apply bind_ext; [done|]. intros c g2. apply bind_ext; [done|]. intros cn g3.
  apply bind_ext; [by apply strcmp_loop_string|]. intros r g4. destruct (r =? 0); [done|]. apply IH.
Qed.

Lemma resolve_string priv d s nm f :
  holds nm s -> ramfs_op_resolve priv d nm f = ramfs_op_resolve priv d (s ++ [0]) f.
Proof.
  intros Hh. pose proof (proj1 Hh) as Hs. assert (holds (s ++ [0]) s) as Hh' by (split; [done|by exists []]).
  unfold ramfs_op_resolve.
  rewrite (bind_ok _ _ _ _ _ (rd_holds nm s 0 f Hh ltac:(lia))), (bind_ok _ _ _ _ _ (rd_holds _ s 0 f Hh' ltac:(lia))).
  apply bind_ext.
  - destruct (Z.eqb_spec (nthZ s 0) 46) as [E0|]; cbn [negb]; [|done].
    destruct s as [|c0 [|c1 s]]; [done| |].
    + rewrite (bind_ok _ _ _ _ _ (rd_holds nm _ 1 f Hh ltac:(simpl; lia))).
      by rewrite (bind_ok _ _ _ _ _ (rd_holds _ _ 1 f Hh' ltac:(simpl; lia))).
    + rewrite (bind_ok _ _ _ _ _ (rd_holds nm _ 1 f Hh ltac:(simpl; lia))).
      rewrite (bind_ok _ _ _ _ _ (rd_holds _ _ 1 f Hh' ltac:(simpl; lia))). destruct (negb _); [done|].
      rewrite (bind_ok _ _ _ _ _ (rd_holds nm _ 2 f Hh ltac:(simpl; lia))).
      by rewrite (bind_ok _ _ _ _ _ (rd_holds _ _ 2 f Hh' ltac:(simpl; lia))).
  - intros [] g; [done|]. unfold ramfs_lookup_child. apply bind_ext; [done|]. intros n g'. destruct (negb _); [done|].
    by apply lookup_loop_string.
Qed.

Lemma resolve_safe priv d nm f :
  ramfs_safe f -> in_table d -> 0 ∈ nm -> wp (ramfs_op_resolve priv d nm) (fun r f' => ramfs_safe f' /\ in_table r) f.
Proof.
  intros Hf Hd Hnm. pose proof (str_of_holds _ Hnm) as Hh. unfold ramfs_op_resolve.
  eapply wp_bind_ok; [apply (rd_holds nm _ 0 f Hh); lia|]. eapply (wp_step _ _ (fun _ f' => f' = f)).
  { destruct (Z.eqb_spec (nthZ (str_of nm) 0) 46) as [E0|]; cbn [negb]; [|done].
    destruct (str_of nm) as [|c0 [|c1 s]]; [done| |].
    - by eapply wp_bind_ok; [apply (rd_holds nm _ 1 f Hh); simpl; lia|].
    - eapply wp_bind_ok; [apply (rd_holds nm _ 1 f Hh); simpl; lia|]. destruct (negb _); [done|].
      by eapply wp_bind_ok; [apply (rd_holds nm _ 2 f Hh); simpl; lia|]. }
  intros [] f' ->.
  - apply node_wp; [done..|]. intros n Hn Hs. apply wp_ret. split; [done|apply Hs].
  - eapply wp_mono; [by apply lookup_child_safe|]. by intros r f' [-> ?].
Qed.

Lemma readdir_loop_safe k (i : nat) ch size out written pos f :
  ramfs_safe f -> (i + k <= length ch)%nat -> Forall in_table ch -> (i + k <= 64)%nat ->
  0 <= written <= size -> size <= Z.of_nat (length out) -> size < 2147483648 -> is_u32 pos ->
  wp (readdir_loop k (Z.of_nat i) ch size out written pos)
    (fun '(o, w, p) f' => f' = f /\ length o = length out /\ 0 <= w <= size /\ is_u32 p) f.
Proof.
  intros Hf. revert i out written pos. induction k as [|k IH]; intros i out written pos Hi Hch H64 Hw Hsz Hs31 Hpos;
    cbn [readdir_loop]; [by apply wp_ret|].
  destruct (lookup_lt_is_Some_2 ch i ltac:(lia)) as [c Hc].
  eapply wp_bind_ok; [apply rd_ok; [lia|by rewrite Nat2Z.id]|]. unfold ramfs_get_inode.
  apply node_wp; [done|by apply (Forall_lookup_1 _ _ _ _ Hch Hc)|]. intros m Hm Hs.
  pose proof (str_of_holds _ (sn_name_nul _ Hs)) as Hh. pose proof (holds_length _ _ Hh) as Hnl. rewrite (sn_name_len _ Hs) in Hnl.
  eapply wp_bind_ok; [by apply kstrlen_ok|]. set (nl := Z.of_nat (length (str_of (i_name m)))). unfold DIRENT_NAME_OFFSET.
  rewrite (u32_id (10 + nl + 1)) by (unfold is_u32; lia). rewrite (u32_id (10 + nl + 1 + 3)) by (unfold is_u32; lia).
  cbv zeta. assert (Z.land (10 + nl + 1 + 3) (u32 (Z.lnot 3)) = (10 + nl + 1 + 3) / 4 * 4) as ->
    by (apply (land_lnot_mask _ 2); unfold is_u32; lia).
  set (reclen := (10 + nl + 1 + 3) / 4 * 4).
  assert (10 + nl + 1 <= reclen < 4096) as Hr.
  { pose proof (Z.div_mod (10 + nl + 1 + 3) 4 ltac:(lia)). pose proof (Z.mod_pos_bound (10 + nl + 1 + 3) 4 ltac:(lia)). lia. }
  clearbody reclen. destruct (Z.ltb_spec size (written + reclen)); [by apply wp_ret|].
  eapply wp_bind_ok; [apply copy_out_ok; try lia; rewrite (sn_name_len _ Hs); lia|].
  set (nm := take _ _). assert (Z.of_nat (length nm) = nl + 1) as Hnm.
  { subst nm. rewrite length_take, length_drop, (sn_name_len _ Hs). lia. }
  destruct (copy_in_len out written (le_bytes 4 c) f) as (o1 & E1 & L1); [lia|simpl; lia|].
  destruct (copy_in_len o1 (written + 4) (le_bytes 4 (Z.of_nat i + 1)) f) as (o2 & E2 & L2); [lia|simpl; lia|].
  destruct (copy_in_len o2 (written + 8) (le_bytes 2 reclen) f) as (o3 & E3 & L3); [lia|simpl; lia|].
  destruct (copy_in_len o3 (written + 10) nm f) as (o4 & E4 & L4); [lia|lia|].
  eapply wp_bind_ok; [exact E1|]. eapply wp_bind_ok; [exact E2|]. eapply wp_bind_ok; [exact E3|].
  eapply wp_bind_ok; [exact E4|]. replace (Z.of_nat i + 1) with (Z.of_nat (S i)) by lia.
  assert (length o4 = length out) as Ho4 by congruence.
  eapply wp_mono; [apply (IH (S i)); try done; try lia; unfold is_u32; lia|]. by rewrite Ho4.
Qed.

Lemma readdir_safe priv i b n pos f :
  ramfs_safe f -> in_table i -> 0 <= n <= Z.of_nat (length b) -> n < 2147483648 -> is_u32 pos ->
  wp (ramfs_op_readdir priv i b n pos)
    (fun r f' => ramfs_safe f' /\ is_u32 r.2 /\ length r.1.2 = length b /\ r.1.1 <= n) f.
Proof.
  intros Hf Hi Hb Hn Hp. unfold ramfs_op_readdir, ramfs_get_inode. apply node_wp; [done..|]. intros m Hm Hs.
  destruct (negb _); [apply wp_ret; simpl; unfold ENOTDIR; split_and!; [done|done|done|lia]|].
  pose proof (sn_count _ Hs). pose proof (sn_children _ Hs). unfold is_u32 in Hp.
  destruct (decide (i_child_count m <= pos)).
  - replace (Z.to_nat (i_child_count m - pos)) with 0%nat by lia. cbn [readdir_loop]. eapply wp_bind_ok; [done|].
    apply wp_ret. simpl. rewrite s32_small by lia. split_and!; [done|done|done|lia].
  - eapply wp_step.
    + rewrite <- (Z2Nat.id pos) at 2 by lia. apply readdir_loop_safe; try done; try lia. apply Hs.
    + intros [[o w] p] f' (-> & Hl & Hw & Hp'). apply wp_ret. simpl. rewrite s32_small by lia. split_and!; try done; lia.
Qed.

Lemma drop_link_safe i f (b : bool) :
  ramfs_safe f -> in_table i ->
  wp (if b then upd_node i (fun n => set_nlink (i_nlink n - 1) n) else ret tt) (fun _ f' => ramfs_safe f') f.
Proof. intros Hf Hi. destruct b; [|done]. apply upd_last_wp; [done|done|field x Hx|done]. Qed.

Lemma unlink_safe priv d nm f :
  ramfs_safe f -> in_table d -> 0 ∈ nm -> wp (ramfs_op_unlink priv d nm) (fun _ f' => ramfs_safe f') f.
Proof.
  intros Hf Hd Hnm. unfold ramfs_op_unlink, ramfs_get_inode. eapply wp_step; [by apply lookup_child_safe|].
  intros c f0 [-> Hc]. destruct (_ =? 0); [done|]. apply node_wp; [done..|]. intros n Hn Hs. destruct (_ =? _); [done|].
  eapply wp_step; [by apply remove_child_safe|]. intros ? f1 Hf1. apply node_wp; [done..|]. intros n1 Hn1 Hs1.
  eapply wp_step; [by apply drop_link_safe|]. intros ? f2 Hf2. apply node_wp; [done..|]. intros n2 Hn2 Hs2.
  eapply (wp_step _ _ (fun _ f3 => ramfs_safe f3)); [|by intros].
  destruct (_ =? 0); [|done]. unfold ramfs_get_open_count. rewrite wp_bind, wp_bind. apply wp_gets. unfold id.
  unfold in_table in Hc. destruct (lookup_lt_is_Some_2 (inode_open_count f2) (Z.to_nat c)) as [o Ho];
    [rewrite (rs_open _ Hf2); lia|].
  eapply wp_ok; [by apply rd_ok; [lia|]|]. destruct (_ =? 0); [by apply free_inode_safe|done].
Qed.

Lemma rmdir_safe priv d nm f :
  ramfs_safe f -> in_table d -> 0 ∈ nm -> wp (ramfs_op_rmdir priv d nm) (fun _ f' => ramfs_safe f') f.
Proof.
  intros Hf Hd Hnm. unfold ramfs_op_rmdir, ramfs_get_inode. eapply wp_step; [by apply lookup_child_safe|].
  intros c f0 [-> Hc]. destruct (_ =? 0); [done|]. apply node_wp; [done..|]. intros n Hn Hs.
  destruct (negb _); [done|]. destruct (_ <? _); [done|].
  eapply wp_step; [by apply remove_child_safe|]. intros ? f1 Hf1. apply node_wp; [done..|]. intros n1 Hn1 Hs1.
  eapply wp_step; [by apply drop_link_safe|]. intros ? f2 Hf2.
  eapply wp_step; [by apply free_inode_safe|]. by intros ? f3 Hf3.
Qed.

Lemma rename_safe priv d nm d' nm' f :
  ramfs_safe f -> in_table d -> in_table d' -> 0 ∈ nm -> 0 ∈ nm' ->
  wp (ramfs_op_rename priv d nm d' nm') (fun _ f' => ramfs_safe f') f.
Proof.
  intros Hf Hd Hd' Hnm Hnm'. unfold ramfs_op_rename. eapply wp_step; [by apply lookup_child_safe|].
  intros c f0 [-> Hc]. destruct (_ =? 0); [done|]. eapply wp_step; [by apply remove_child_safe|]. intros rc f1 Hf1.
  destruct (_ <? 0); [done|]. eapply wp_step; [by apply set_name_safe|]. intros ? f2 Hf2.
  eapply wp_step; [by apply add_child_safe|]. intros rc' f3 Hf3. destruct (_ <? 0); [|done].
  eapply wp_step; [by apply add_child_safe|]. by intros ? f4 Hf4.
Qed.

Lemma open_count_safe i (g : Z -> Z) f :
  ramfs_safe f -> in_table i ->
  wp (f ← gets id; n ← rd (inode_open_count f) i; c ← wr (inode_open_count f) i (g n); modify (set_open_count c))
    (fun _ f' => ramfs_safe f') f.
Proof.
  intros Hf Hi. unfold in_table in Hi. pose proof (rs_open _ Hf) as Hl. apply wp_bind, wp_gets. unfold id.
  destruct (lookup_lt_is_Some_2 (inode_open_count f) (Z.to_nat i) ltac:(lia)) as [o Ho].
  eapply wp_bind_ok; [by apply rd_ok; [lia|]|]. eapply wp_bind_ok; [apply wr_ok; lia|]. apply wp_modify.
  destruct Hf as [H1 H2 H3 []]. split; try done. simpl. by rewrite length_insert.
Qed.

Lemma stat_safe priv i f :
  ramfs_safe f -> in_table i ->
  wp (ramfs_op_stat priv i)
    (fun r f' => ramfs_safe f' /\ (r.1 < 0 \/ r.1 = 0 /\ exists st, r.2 = Some st /\ 0 <= st_size st < 2147483648)) f.
Proof.
  intros Hf Hi. unfold ramfs_op_stat, ramfs_fill_stat. apply wp_bind, node_wp; [done..|]. intros n Hn Hs.
  pose proof (sn_size _ Hs). pose proof (sn_cap _ Hs).
  destruct (_ =? _); apply wp_ret, wp_ret; (split; [done|]); simpl; [by left|].
  right. split; [done|]. eexists. split; [done|]. simpl. rewrite s32_small; lia.
Qed.

Lemma mode_safe i mode f :
  ramfs_safe f -> in_table i -> wp (ramfs_set_mode i mode) (fun _ f' => ramfs_safe f') f.
Proof.
  intros Hf Hi. unfold ramfs_set_mode. destruct (_ || _); [done|]. apply node_wp; [done..|]. intros n Hn Hs.
  destruct (_ =? _); [done|]. apply upd_wp; [done|done|field x Hx|done].
Qed.

Lemma owner_safe i uid gid f :
  ramfs_safe f -> in_table i -> wp (ramfs_set_owner i uid gid) (fun _ f' => ramfs_safe f') f.
Proof.
  intros Hf Hi. unfold ramfs_set_owner. destruct (_ || _); [done|]. apply node_wp; [done..|]. intros n Hn Hs.
  destruct (_ =? _); [done|]. eapply (wp_step _ _ (fun _ f' => ramfs_safe f')).
  { destruct (negb _); [|done]. apply upd_last_wp; [done|done|field x Hx|done]. }
  intros _ f1 Hf1. eapply (wp_step _ _ (fun _ f' => ramfs_safe f')); [|by intros].
  destruct (negb _); [|done]. apply upd_last_wp; [done|done|field x Hx|done].
Qed.

#[export] Instance ramfs_fs_safe : FsSafe (ramfs_ops junk) ramfs_safe in_table.
Proof.
  split; intros *; [intros [= <-]..].
  - intros Hf Hd Hn. eapply wp_mono; [by apply resolve_safe|]. intros r f' [? ?]. auto.
  - intros Hh. by apply resolve_string.
  - apply read_safe.
  - apply write_safe.
  - apply stat_safe.
  - apply readdir_safe.
  - apply create_dir_safe.
  - intros Hf Hd Hn. eapply wp_mono; [by apply create_file_safe|]. intros r f' [? ?]. auto.
  - apply unlink_safe.
  - apply rmdir_safe.
  - apply truncate_safe.
  - apply mode_safe.
  - apply owner_safe.
  - apply rename_safe.
  - apply (open_count_safe i (fun n => u32 (n + 1))).
  - apply (open_count_safe i (fun n => u32 (n - 1))).
  - intros Hf Hi. unfold ramfs_op_get_open, ramfs_get_open_count. apply wp_bind, wp_gets. unfold id, in_table in *.
    destruct (lookup_lt_is_Some_2 (inode_open_count f) (Z.to_nat i)) as [o' Ho]; [rewrite (rs_open _ Hf); lia|].
    by eapply wp_ok; [apply rd_ok; [lia|done]|].
  - apply free_inode_safe.
Qed.

(** The file system [ramfs_init] sets up. *)
Lemma init_safe f L :
  bufs f = ∅ -> km_rep (rmem f) L -> wp ramfs_init (fun r f' => r = 0 /\ ramfs_safe f') f.
Proof.
  intros Hb HL. destruct (init_ok f L Hb HL) as (f' & E & [Hw Hd] & H1 & Hz). eapply wp_ok; [exact E|]. split; [done|].
  split; try apply Hw; [|done]. apply Forall_lookup. intros k n Hk.
  assert (at_inode f' (Z.of_nat k) n) as Hn by (split; [lia|by rewrite Nat2Z.id]).
  pose proof (at_inode_bound _ _ _ Hw Hn) as Hbd. destruct (decide (Z.of_nat k = 1)) as [E1|E1].
  - rewrite E1 in Hn. rewrite (at_inode_inj _ _ _ _ Hn H1). pose proof zero_safe as []. split; try done. right. left.
  - rewrite (at_inode_inj _ _ _ _ Hn (Hz _ Hbd E1)). apply zero_safe.
Qed.

End Safe.
