(* ===== verification/Vfs.v ===== *)
(** * The VFS: state, mount table, path walk

    Models fs/vfs_mount.c, fs/dcache.c and the open-file table of
    fs/vfs_core.c, over any file-system state [F].  A pointer to an [fs_ops_t]
    is an address, 0 for NULL, that [vtables] maps to the vtable found there;
    a [mount_t *] is an index of the mount table.  A [char *] is the list of the
    bytes from the pointer to the end of its object.  Local arrays start with
    the bytes [junk].  [vfs_lock] makes each entry point atomic. *)

From stdpp Require Import base tactics numbers list gmap.
From S2P Require Import Prelude Kstring Fd FsOps.

Definition VFS_MAX_MOUNTS := 8.
Definition VFS_MOUNT_TARGET_MAX := 64.
Definition VFS_MAX_OPEN_FILES := 64.
Definition DCACHE_MAX_ENTRIES := 32.
Definition DCACHE_MAX_PATH_LEN := 63.

(** The characters of paths. *)
Definition SLASH := 47.
Definition DOT := 46.

Record mount := Mount {
  m_target : list Z;
  m_ops : Z;
  m_priv : Z;
  m_root : Z;
  m_in_use : bool
}.

Record open_file := OpenFile {
  o_inode : Z;
  o_pos : Z;
  o_flags : Z;
  o_refcount : Z;
  o_fs : Z;
  o_priv : Z
}.

Definition open_file_eta (o : open_file) : open_file :=
  OpenFile (o_inode o) (o_pos o) (o_flags o) (o_refcount o) (o_fs o) (o_priv o).
Definition set_pos : Z -> open_file -> open_file := ltac:(mkset open_file_eta o_pos).
Definition set_refcount : Z -> open_file -> open_file := ltac:(mkset open_file_eta o_refcount).

(** [kmemset(&open_files[i], 0, sizeof(vfs_open_file_t))]. *)
Definition open_file_zero : open_file := OpenFile 0 0 0 0 0 0.

Record dentry := Dentry {
  d_path : list Z;
  d_inode : Z
}.

(** What the VFS uses of a process. *)
Record vproc := VProc {
  v_cwd : list Z;
  v_euid : Z;
  v_fds : list proc_fd
}.

(** [current] is [get_current_process()], 0 when there is none. *)
Record vfs (F : Type) := Vfs {
  mounts : list mount;
  open_files : list open_file;
  kernel_fd_table : list proc_fd;
  procs : gmap Z vproc;
  current : Z;
  g_slots : list (option dentry);
  fsst : F
}.
Arguments Vfs {F} _ _ _ _ _ _ _.
Arguments mounts {F} _.
Arguments open_files {F} _.
Arguments kernel_fd_table {F} _.
Arguments procs {F} _.
Arguments current {F} _.
Arguments g_slots {F} _.
Arguments fsst {F} _.

Section Vfs.
Context {F : Type}.
Variable vtables : Z -> option (fs_ops F).
Variable junk : Z -> Z.

Definition set_mounts (x : list mount) (v : vfs F) : vfs F :=
  Vfs x (open_files v) (kernel_fd_table v) (procs v) (current v) (g_slots v) (fsst v).
Definition set_open_files (x : list open_file) (v : vfs F) : vfs F :=
  Vfs (mounts v) x (kernel_fd_table v) (procs v) (current v) (g_slots v) (fsst v).
Definition set_kernel_fds (x : list proc_fd) (v : vfs F) : vfs F :=
  Vfs (mounts v) (open_files v) x (procs v) (current v) (g_slots v) (fsst v).
Definition set_procs (x : gmap Z vproc) (v : vfs F) : vfs F :=
  Vfs (mounts v) (open_files v) (kernel_fd_table v) x (current v) (g_slots v) (fsst v).
Definition set_slots (x : list (option dentry)) (v : vfs F) : vfs F :=
  Vfs (mounts v) (open_files v) (kernel_fd_table v) (procs v) (current v) x (fsst v).
Definition set_fsst (x : F) (v : vfs F) : vfs F :=
  Vfs (mounts v) (open_files v) (kernel_fd_table v) (procs v) (current v) (g_slots v) x.

(** A local array of [n] bytes. *)
Definition local (n : Z) : list Z := junk <$> seqZ 0 n.

(** A call into the file system, and the vtable behind a pointer. *)
Definition fs_call {A} (m : ST F A) : ST (vfs F) A := zoom fsst set_fsst m.

Definition vtable (p : Z) : ST (vfs F) (fs_ops F) :=
  match vtables p with Some o => ret o | None => fail Undef end.

Definition mount_at (i : Z) : ST (vfs F) mount := v ← gets id; rd (mounts v) i.

(** ** vfs_mount.c *)

(** [target] is a valid mount point: its length, [None] when it is not. *)
Definition mount_target_valid (target : option (list Z)) : ST (vfs F) (option Z) :=
  match target with
  | None => ret None
  | Some t =>
      c ← rd t 0;
      if negb (c =? SLASH) then ret None
      else
        len ← kstrlen target;
        if (len =? 0) || (VFS_MOUNT_TARGET_MAX <=? len) then ret None
        else
          bad ← (if 1 <? len then l ← rd t (len - 1); ret (l =? SLASH) else ret false);
          ret (if (bad : bool) then None else Some len)
  end.

(** Whether one of the [n] mounts from [i] on has the target. *)
Fixpoint mount_busy (n : nat) (i : Z) (target : list Z) : ST (vfs F) bool :=
  match n with
  | O => ret false
  | S n' =>
      m ← mount_at i;
      if m_in_use m then
        c ← kstrcmp false (Some (m_target m)) (Some target);
        if c =? 0 then ret true else mount_busy n' (i + 1) target
      else mount_busy n' (i + 1) target
  end.

(** Installs the mount in the first free slot of the [n] from [i] on. *)
Fixpoint mount_install (n : nat) (i : Z) (target : list Z) (ops fs_priv root_inode : Z)
    : ST (vfs F) Z :=
  match n with
  | O => ret (- ENOSPC)
  | S n' =>
      m ← mount_at i;
      if negb (m_in_use m) then
        t ← kstrncpy (Some (m_target m)) (Some target) VFS_MOUNT_TARGET_MAX;
        t ← wr (default [] t) (VFS_MOUNT_TARGET_MAX - 1) 0;
        v ← gets id;
        ms ← wr (mounts v) i (Mount t ops fs_priv root_inode true);
        modify (set_mounts ms);;
        ret 0
      else mount_install n' (i + 1) target ops fs_priv root_inode
  end.

Definition vfs_mount (target : option (list Z)) (ops fs_priv root_inode : Z) : ST (vfs F) Z :=
  tlen ← mount_target_valid target;
  match tlen, target with
  | Some _, Some t =>
      if (ops =? 0) || (root_inode =? 0) then ret (- EINVAL)
      else
        busy ← mount_busy (Z.to_nat VFS_MAX_MOUNTS) 0 t;
        if (busy : bool) then ret (- EBUSY)
        else mount_install (Z.to_nat VFS_MAX_MOUNTS) 0 t ops fs_priv root_inode
  | _, _ => ret (- EINVAL)
  end.

(** The comparison of [path[i]] with [target[i]], for the [n] indices from [i]
    on. *)
Fixpoint prefix_matches (n : nat) (i : Z) (target path : list Z) : ST (vfs F) bool :=
  match n with
  | O => ret true
  | S n' =>
      p ← rd path i;
      t ← rd target i;
      if negb (p =? t) then ret false else prefix_matches n' (i + 1) target path
  end.

Definition mount_prefix_len (target : list Z) (tlen : Z) (path : list Z) : ST (vfs F) Z :=
  root ← (if tlen =? 1 then t ← rd target 0; ret (t =? SLASH) else ret false);
  if (root : bool) then ret 1
  else
    ok ← prefix_matches (Z.to_nat tlen) 0 target path;
    if negb (ok : bool) then ret 0
    else
      after ← rd path tlen;
      if negb (after =? 0) && negb (after =? SLASH) then ret 0
      else ret tlen.

(** The best of the [n] mounts from [i] on and the best so far. *)
Fixpoint best_mount (n : nat) (i : Z) (path : list Z) (best : option Z) (best_len : Z)
    : ST (vfs F) (option Z * Z) :=
  match n with
  | O => ret (best, best_len)
  | S n' =>
      m ← mount_at i;
      if negb (m_in_use m) then best_mount n' (i + 1) path best best_len
      else
        tlen ← kstrlen (Some (m_target m));
        mlen ← mount_prefix_len (m_target m) tlen path;
        if best_len <? mlen then best_mount n' (i + 1) path (Some i) mlen
        else best_mount n' (i + 1) path best best_len
  end.

(** An error, or the mount and the rest of the path. *)
Definition vfs_resolve_mount (path : option (list Z)) : ST (vfs F) (Z + Z * list Z) :=
  match path with
  | None => ret (inl (- EINVAL))
  | Some p =>
      c ← rd p 0;
      if negb (c =? SLASH) then ret (inl (- EINVAL))
      else
        bl ← best_mount (Z.to_nat VFS_MAX_MOUNTS) 0 p None 0;
        match bl with
        | (None, _) => ret (inl (- ENOENT))
        | (Some m, best_len) =>
            ret (inr (m, if best_len =? 1 then drop 1 p else drop (Z.to_nat best_len) p))
        end
  end.

Definition resolve_one (mnt cur_inode : Z) (comp : list Z) : ST (vfs F) Z :=
  c0 ← rd comp 0;
  dot ← (if c0 =? DOT then c1 ← rd comp 1; ret (c1 =? 0) else ret false);
  if (dot : bool) then ret cur_inode
  else
    m ← mount_at mnt;
    ops ← vtable (m_ops m);
    match op_resolve ops with
    | None => fail Undef
    | Some resolve => fs_call (resolve (m_priv m) cur_inode comp)
    end.

(** [comp[ci] = '\0'; cur_inode = resolve_one(mnt, cur_inode, comp)]: the
    inode and the array. *)
Definition end_component (mnt cur_inode : Z) (comp : list Z) (ci : Z) : ST (vfs F) (Z * list Z) :=
  comp ← wr comp ci 0;
  cur ← resolve_one mnt cur_inode comp;
  ret (cur, comp).

(** The loop of [walk_components] at the character [p] points to, and the
    component left at the end of the path. *)
Fixpoint walk_loop (p : list Z) (mnt cur_inode : Z) (comp : list Z) (ci : Z) : ST (vfs F) Z :=
  match p with
  | [] => fail Undef
  | c :: p' =>
      if c =? 0 then
        if 0 <? ci then r ← end_component mnt cur_inode comp ci; ret r.1 else ret cur_inode
      else if c =? SLASH then
        if 0 <? ci then
          r ← end_component mnt cur_inode comp ci;
          if r.1 =? 0 then ret 0 else walk_loop p' mnt r.1 r.2 0
        else walk_loop p' mnt cur_inode comp ci
      else if ci <? 63 then
        comp ← wr comp ci c;
        walk_loop p' mnt cur_inode comp (ci + 1)
      else walk_loop p' mnt cur_inode comp ci
  end.

Definition walk_components (mnt cur_inode : Z) (rel : option (list Z)) : ST (vfs F) Z :=
  match rel with
  | None => ret cur_inode
  | Some p => walk_loop p mnt cur_inode (local 64) 0
  end.

(** An error, or the mount and the inode. *)
Definition vfs_resolve_path (abs_path : option (list Z)) : ST (vfs F) (Z + Z * Z) :=
  match abs_path with
  | None => ret (inl (- EINVAL))
  | Some p =>
      c ← rd p 0;
      if negb (c =? SLASH) then ret (inl (- EINVAL))
      else
        r ← vfs_resolve_mount abs_path;
        match r with
        | inl rc => ret (inl rc)
        | inr (mnt, rel) =>
            m ← mount_at mnt;
            if m_ops m =? 0 then ret (inl (- ENOSYS))
            else
              ops ← vtable (m_ops m);
              match op_resolve ops with
              | None => ret (inl (- ENOSYS))
              | Some _ =>
                  ino ← walk_components mnt (m_root m) (Some rel);
                  if ino =? 0 then ret (inl (- ENOENT)) else ret (inr (mnt, ino))
              end
        end
  end.

(** [for (i = len; i > 0; i--)]: the index of the last slash below [i], 0 when
    there is none. *)
Fixpoint last_slash (i : nat) (path : list Z) : ST (vfs F) Z :=
  match i with
  | O => ret 0
  | S i' =>
      c ← rd path (Z.of_nat i');
      if c =? SLASH then ret (Z.of_nat i') else last_slash i' path
  end.

(** [for (i = 0; i < last_slash; i++) parent_buf[i] = abs_path[i]] with [n]
    bytes left. *)
Fixpoint copy_prefix (n : nat) (i : Z) (dst src : list Z) : ST (vfs F) (list Z) :=
  match n with
  | O => ret dst
  | S n' =>
      c ← rd src i;
      dst ← wr dst i c;
      copy_prefix n' (i + 1) dst src
  end.

(** An error, or the mount, the parent directory and the leaf. *)
Definition vfs_resolve_parent_and_leaf (abs_path : option (list Z)) : ST (vfs F) (Z + Z * Z * list Z) :=
  match abs_path with
  | None => ret (inl (- EINVAL))
  | Some p =>
      c ← rd p 0;
      if negb (c =? SLASH) then ret (inl (- EINVAL))
      else
        len ← kstrlen abs_path;
        bad ← (if len <? 2 then ret true else l ← rd p (len - 1); ret (l =? SLASH));
        if (bad : bool) then ret (inl (- EINVAL))
        else
          ls ← last_slash (Z.to_nat len) p;
          let leaf := drop (Z.to_nat (ls + 1)) p in
          l0 ← rd leaf 0;
          if l0 =? 0 then ret (inl (- EINVAL))
          else if negb (ls =? 0) && (512 <=? ls) then ret (inl (- ENAMETOOLONG))
          else
            parent_buf ← (if ls =? 0 then b ← wr (local 512) 0 SLASH; wr b 1 0
                          else b ← copy_prefix (Z.to_nat ls) 0 (local 512) p; wr b ls 0);
            r ← vfs_resolve_path (Some parent_buf);
            match r with
            | inl rc => ret (inl rc)
            | inr (mnt, parent_ino) => ret (inr (mnt, parent_ino, leaf))
            end
  end.

(** ** dcache.c *)

(** The loop of [path_eq] from [i] on, with [n] comparisons left. *)
Fixpoint path_eq_loop (n : nat) (i : Z) (a b : list Z) : ST (vfs F) bool :=
  match n with
  | O => ret false
  | S n' =>
      x ← rd a i;
      y ← rd b i;
      if negb (x =? y) then ret false
      else if x =? 0 then ret true
      else path_eq_loop n' (i + 1) a b
  end.

Definition path_eq (a b : list Z) : ST (vfs F) bool :=
  path_eq_loop (Z.to_nat (DCACHE_MAX_PATH_LEN + 1)) 0 a b.

Definition dcache_init : ST (vfs F) unit :=
  modify (set_slots (replicate (Z.to_nat DCACHE_MAX_ENTRIES) None)).

(** Clears the first matching slot of the [n] from [i] on; the dentry it held
    is freed with the slot. *)
Fixpoint invalidate_loop (n : nat) (i : Z) (path : list Z) : ST (vfs F) unit :=
  match n with
  | O => ret tt
  | S n' =>
      v ← gets id;
      s ← rd (g_slots v) i;
      match s with
      | None => invalidate_loop n' (i + 1) path
      | Some d =>
          eq ← path_eq (d_path d) path;
          if (eq : bool) then
            sl ← wr (g_slots v) i None;
            modify (set_slots sl)
          else invalidate_loop n' (i + 1) path
      end
  end.

Definition dcache_invalidate (path : option (list Z)) : ST (vfs F) unit :=
  match path with
  | None => ret tt
  | Some p => invalidate_loop (Z.to_nat DCACHE_MAX_ENTRIES) 0 p
  end.

(** ** vfs_core.c *)

Definition open_file_at (i : Z) : ST (vfs F) open_file := v ← gets id; rd (open_files v) i.

Definition upd_open_file (i : Z) (g : open_file -> open_file) : ST (vfs F) unit :=
  v ← gets id;
  o ← rd (open_files v) i;
  l ← wr (open_files v) i (g o);
  modify (set_open_files l).

(** The scan for a free slot, with [n] of them left. *)
Fixpoint alloc_open_loop (n : nat) (i : Z) : ST (vfs F) Z :=
  match n with
  | O => ret (- EMFILE)
  | S n' =>
      o ← open_file_at i;
      if o_refcount o =? 0 then
        upd_open_file i (fun _ => open_file_zero);;
        upd_open_file i (set_refcount 1);;
        ret i
      else alloc_open_loop n' (i + 1)
  end.

Definition vfs_alloc_open_file : ST (vfs F) Z :=
  alloc_open_loop (Z.to_nat VFS_MAX_OPEN_FILES) 0.

Definition vfs_free_open_file (idx : Z) : ST (vfs F) unit := upd_open_file idx (set_refcount 0).

Definition vfs_open_file_incref (raw_of_idx : Z) : ST (vfs F) unit :=
  if (raw_of_idx <? 0) || (VFS_MAX_OPEN_FILES <=? raw_of_idx) then ret tt
  else
    o ← open_file_at raw_of_idx;
    if 0 <? o_refcount o then upd_open_file raw_of_idx (set_refcount (u32 (o_refcount o + 1)))
    else ret tt.

End Vfs.
