(* ===== verification/VfsPath.v ===== *)
(** * The VFS: operations on paths

    Models fs/vfs_path.c. *)

From stdpp Require Import base tactics numbers list gmap.
From S2P Require Import Prelude Kstring Fd FsOps Vfs.

Definition PATH_BUF := 512.
Definition S_IFMT := 61440.
Definition S_IFDIR := 16384.

Section VfsPath.
Context {F : Type}.
Variable vtables : Z -> option (fs_ops F).
Variable junk : Z -> Z.

(** [get_current_process()]. *)
Definition current_proc : ST (vfs F) (option vproc) :=
  v ← gets id;
  if current v =? 0 then ret None
  else match procs v !! current v with Some p => ret (Some p) | None => fail Undef end.

(** [while (src[j] && room) buf[i++] = src[j++]] with room for [n] bytes: the
    two indices and the buffer when the loop stops. *)
Fixpoint copy_path (n : nat) (src : list Z) (j : Z) (buf : list Z) (i : Z)
    : ST (vfs F) (Z * Z * list Z) :=
  c ← rd src j;
  if c =? 0 then ret (i, j, buf)
  else match n with
       | O => ret (i, j, buf)
       | S n' => buf ← wr buf i c; copy_path n' src (j + 1) buf (i + 1)
       end.

(** The result, and [buf] after the call. *)
Definition make_abs_path (path : option (list Z)) (buf : list Z) (bufsz : Z) : ST (vfs F) (Z * list Z) :=
  match path with
  | None => ret (- EINVAL, buf)
  | Some p =>
      if bufsz <? 2 then ret (- EINVAL, buf)
      else
        p0 ← rd p 0;
        if p0 =? SLASH then
          ' (i, _, buf) ← copy_path (Z.to_nat (bufsz - 1)) p 0 buf 0;
          c ← rd p i;
          if negb (c =? 0) then ret (- ENAMETOOLONG, buf)
          else buf ← wr buf i 0; ret (0, buf)
        else
          cur ← current_proc;
          cwd ← (match cur with
                 | None => ret None
                 | Some q => c ← rd (v_cwd q) 0; ret (if c =? 0 then None else Some (v_cwd q))
                 end);
          match cwd with
          | None =>
              buf ← wr buf 0 SLASH;
              ' (i1, i, buf) ← copy_path (Z.to_nat (bufsz - 2)) p 0 buf 1;
              c ← rd p i;
              if negb (c =? 0) then ret (- ENAMETOOLONG, buf)
              else buf ← wr buf i1 0; ret (0, buf)
          | Some cwd =>
              ' (i, _, buf) ← copy_path (Z.to_nat (bufsz - 2)) cwd 0 buf 0;
              c ← rd cwd i;
              if negb (c =? 0) then ret (- ENAMETOOLONG, buf)
              else
                sep ← (if i =? 0 then ret true else l ← rd buf (i - 1); ret (negb (l =? SLASH)));
                if sep && (bufsz - 2 <=? i) then ret (- ENAMETOOLONG, buf)
                else
                  buf ← (if (sep : bool) then wr buf i SLASH else ret buf);
                  let i := if (sep : bool) then i + 1 else i in
                  ' (i, j, buf) ← copy_path (Z.to_nat (bufsz - 1 - i)) p 0 buf i;
                  c ← rd p j;
                  if negb (c =? 0) then ret (- ENAMETOOLONG, buf)
                  else buf ← wr buf i 0; ret (0, buf)
          end
  end.

Definition vfs_mkdir (pathname : option (list Z)) (mode : Z) : ST (vfs F) Z :=
  match pathname with
  | None => ret (- EINVAL)
  | Some p =>
      c ← rd p 0;
      if negb (c =? SLASH) then ret (- EINVAL)
      else
        r ← vfs_resolve_parent_and_leaf vtables junk pathname;
        match r with
        | inl rc => ret rc
        | inr (mnt, parent_idx, leaf) =>
            m ← mount_at mnt;
            ops ← vtable vtables (m_ops m);
            match op_mkdir ops with
            | None => ret (- ENOSYS)
            | Some mkdir => ' (crc, _) ← fs_call (mkdir (m_priv m) parent_idx leaf mode); ret crc
            end
        end
  end.

Definition vfs_unlink (path : option (list Z)) : ST (vfs F) Z :=
  match path with
  | None => ret (- EINVAL)
  | Some _ =>
      ' (aprc, abs) ← make_abs_path path (local junk PATH_BUF) PATH_BUF;
      if aprc <? 0 then ret aprc
      else
        r ← vfs_resolve_parent_and_leaf vtables junk (Some abs);
        match r with
        | inl rc => ret rc
        | inr (mnt, parent_idx, leaf) =>
            m ← mount_at mnt;
            ops ← vtable vtables (m_ops m);
            match op_unlink ops with
            | None => ret (- ENOSYS)
            | Some unlink =>
                urc ← fs_call (unlink (m_priv m) parent_idx leaf);
                (if urc =? 0 then dcache_invalidate path else ret tt);;
                ret urc
            end
        end
  end.

Definition vfs_rename (oldpath newpath : option (list Z)) : ST (vfs F) Z :=
  match oldpath, newpath with
  | Some _, Some _ =>
      ' (rc, old_abs) ← make_abs_path oldpath (local junk PATH_BUF) PATH_BUF;
      if rc <? 0 then ret rc
      else
        ' (rc, new_abs) ← make_abs_path newpath (local junk PATH_BUF) PATH_BUF;
        if rc <? 0 then ret rc
        else
          r ← vfs_resolve_parent_and_leaf vtables junk (Some old_abs);
          match r with
          | inl rc => ret rc
          | inr (mnt_old, old_parent, old_leaf) =>
              r ← vfs_resolve_parent_and_leaf vtables junk (Some new_abs);
              match r with
              | inl rc => ret rc
              | inr (mnt_new, new_parent, new_leaf) =>
                  if negb (mnt_old =? mnt_new) then ret (- EXDEV)
                  else
                    m ← mount_at mnt_old;
                    ops ← vtable vtables (m_ops m);
                    match op_rename ops with
                    | None => ret (- ENOSYS)
                    | Some rename =>
                        rrc ← fs_call (rename (m_priv m) old_parent old_leaf new_parent new_leaf);
                        (if rrc =? 0 then dcache_invalidate oldpath;; dcache_invalidate newpath
                         else ret tt);;
                        ret rrc
                    end
              end
          end
  | _, _ => ret (- EINVAL)
  end.

(** Whether [readdir] finds an entry in the directory that is to go. *)
Definition dir_has_entry (m : mount) (ops : fs_ops F) (child_ino : Z) : ST (vfs F) bool :=
  match op_readdir ops with
  | None => ret false
  | Some readdir =>
      ' (n, _, _) ← fs_call (readdir (m_priv m) child_ino (local junk 64) 64 0);
      ret (0 <? n)
  end.

Definition vfs_rmdir (path : option (list Z)) : ST (vfs F) Z :=
  match path with
  | None => ret (- EINVAL)
  | Some _ =>
      ' (aprc, abs) ← make_abs_path path (local junk PATH_BUF) PATH_BUF;
      if aprc <? 0 then ret aprc
      else
        r ← vfs_resolve_parent_and_leaf vtables junk (Some abs);
        match r with
        | inl rc => ret rc
        | inr (mnt, parent_idx, leaf) =>
            m ← mount_at mnt;
            ops ← vtable vtables (m_ops m);
            match op_rmdir ops with
            | None => ret (- ENOSYS)
            | Some rmdir =>
                child_ino ← (match op_resolve ops with
                             | None => ret 0
                             | Some resolve => fs_call (resolve (m_priv m) parent_idx leaf)
                             end);
                if child_ino =? 0 then ret (- ENOENT)
                else
                  busy ← dir_has_entry m ops child_ino;
                  if (busy : bool) then ret (- ENOTEMPTY)
                  else
                    rrc ← fs_call (rmdir (m_priv m) parent_idx leaf);
                    (if rrc =? 0 then dcache_invalidate path else ret tt);;
                    ret rrc
            end
        end
  end.

(** The inode an absolute or relative path leads to: an error, or the mount,
    its vtable and the inode. *)
Definition resolve_user_path (path : option (list Z)) : ST (vfs F) (Z + mount * fs_ops F * Z) :=
  match path with
  | None => ret (inl (- EINVAL))
  | Some _ =>
      ' (aprc, abs) ← make_abs_path path (local junk PATH_BUF) PATH_BUF;
      if aprc <? 0 then ret (inl aprc)
      else
        r ← vfs_resolve_path vtables junk (Some abs);
        match r with
        | inl rc => ret (inl rc)
        | inr (mnt, idx) =>
            m ← mount_at mnt;
            ops ← vtable vtables (m_ops m);
            ret (inr (m, ops, idx))
        end
  end.

Definition vfs_truncate (path : option (list Z)) (length : Z) : ST (vfs F) Z :=
  r ← resolve_user_path path;
  match r with
  | inl rc => ret rc
  | inr (m, ops, inode_idx) =>
      match op_truncate ops with
      | None => ret (- ENOSYS)
      | Some truncate => fs_call (truncate (m_priv m) inode_idx length)
      end
  end.

Definition vfs_chmod (path : option (list Z)) (mode : Z) : ST (vfs F) Z :=
  r ← resolve_user_path path;
  match r with
  | inl rc => ret rc
  | inr (m, ops, idx) =>
      match op_stat ops, op_chmod ops with
      | Some stat, Some chmod =>
          ' (src, st) ← fs_call (stat (m_priv m) idx);
          if src <? 0 then ret (- ENOENT)
          else
            cur ← current_proc;
            owner ← (match cur with
                     | None => ret true
                     | Some q =>
                         if v_euid q =? 0 then ret true
                         else match st with
                              | Some s => ret (v_euid q =? st_uid s)
                              | None => fail Undef
                              end
                     end);
            if negb (owner : bool) then ret (- EPERM)
            else fs_call (chmod (m_priv m) idx (Z.land mode 4095))
      | _, _ => ret (- ENOSYS)
      end
  end.

Definition vfs_chown (path : option (list Z)) (uid gid : Z) : ST (vfs F) Z :=
  r ← resolve_user_path path;
  match r with
  | inl rc => ret rc
  | inr (m, ops, idx) =>
      match op_chown ops with
      | None => ret (- ENOSYS)
      | Some chown =>
          cur ← current_proc;
          if match cur with Some q => negb (v_euid q =? 0) | None => false end then ret (- EPERM)
          else fs_call (chown (m_priv m) idx uid gid)
      end
  end.

Definition set_cwd (c : list Z) (q : vproc) : vproc := VProc c (v_euid q) (v_fds q).

Definition vfs_chdir (path : option (list Z)) : ST (vfs F) Z :=
  match path with
  | None => ret (- EINVAL)
  | Some _ =>
      ' (aprc, abs) ← make_abs_path path (local junk PATH_BUF) PATH_BUF;
      if aprc <? 0 then ret aprc
      else
        r ← vfs_resolve_path vtables junk (Some abs);
        match r with
        | inl rc => ret rc
        | inr (mnt, idx) =>
            m ← mount_at mnt;
            ops ← vtable vtables (m_ops m);
            match op_stat ops with
            | None => ret (- ENOSYS)
            | Some stat =>
                ' (src, st) ← fs_call (stat (m_priv m) idx);
                if src <? 0 then ret (- ENOENT)
                else
                  match st with
                  | None => fail Undef
                  | Some s =>
                      if negb (Z.land (st_mode s) S_IFMT =? S_IFDIR) then ret (- ENOTDIR)
                      else
                        cur ← current_proc;
                        match cur with
                        | None => ret (- ESRCH)
                        | Some q =>
                            c ← kstrncpy (Some (v_cwd q)) (Some abs) (Z.of_nat (length (v_cwd q)));
                            c ← wr (default [] c) (Z.of_nat (length (v_cwd q)) - 1) 0;
                            modify (fun v => set_procs (<[current v := set_cwd c q]> (procs v)) v);;
                            ret 0
                        end
                  end
            end
        end
  end.

End VfsPath.
