(* ===== verification/VfsFd.v ===== *)
(** * The VFS: operations on file descriptors

    Models fs/vfs_fd.c, apart from [vfs_get_path_by_fd], which reads a ramfs
    name (VfsRamfs.v).  A [proc_fd_t *] that points into the descriptor table in
    use is the index of the entry. *)

From stdpp Require Import base tactics numbers list gmap.
From S2P Require Import Prelude Kstring Fd FsOps Vfs VfsPath.

(** [O_RDONLY | ... | O_CLOEXEC]. *)
Definition VFS_OPEN_SUPPORTED_FLAGS :=
  fold_right Z.lor 0 [O_RDONLY; O_WRONLY; O_RDWR; O_CREAT; O_EXCL; O_NOCTTY; O_TRUNC; O_APPEND;
    O_NONBLOCK; O_DSYNC; O_DIRECTORY; O_NOFOLLOW; O_CLOEXEC].

Definition set_fds (t : list proc_fd) (q : vproc) : vproc := VProc (v_cwd q) (v_euid q) t.

Section VfsFd.
Context {F : Type}.
Variable vtables : Z -> option (fs_ops F).
Variable junk : Z -> Z.

(** [proc ? proc->fd_table : kernel_fd_table]. *)
Definition fd_table : ST (vfs F) (list proc_fd) :=
  v ← gets id;
  cur ← current_proc;
  match cur with Some q => ret (v_fds q) | None => ret (kernel_fd_table v) end.

Definition put_fd_table (t : list proc_fd) : ST (vfs F) unit :=
  cur ← current_proc;
  match cur with
  | Some q => modify (fun v => set_procs (<[current v := set_fds t q]> (procs v)) v)
  | None => modify (set_kernel_fds t)
  end.

Definition fd_at (fd : Z) : ST (vfs F) proc_fd := t ← fd_table; rd t fd.

Definition put_fd (fd : Z) (e : proc_fd) : ST (vfs F) unit :=
  t ← fd_table; t ← wr t fd e; put_fd_table t.

(** The entry [fd] stands for, [None] for NULL. *)
Definition fd_resolve_slot (fd : Z) : ST (vfs F) (option Z) :=
  cur ← current_proc;
  let max := match cur with Some _ => MAX_OPEN_FILES | None => VFS_MAX_OPEN_FILES end in
  if (fd <? 0) || (max <=? fd) then ret None else ret (Some fd).

Definition fd_to_of_idx_locked (fd : Z) : ST (vfs F) Z :=
  slot ← fd_resolve_slot fd;
  match slot with
  | None => ret (-1)
  | Some i =>
      e ← fd_at i;
      if of_idx e =? 0 then ret (-1)
      else
        let raw := u32 (of_idx e - 1) in
        if VFS_MAX_OPEN_FILES <=? raw then ret (-1)
        else
          o ← open_file_at raw;
          if o_refcount o =? 0 then ret (-1) else ret (s32 raw)
  end.

(** The scan for a free descriptor, with [n] of them left. *)
Fixpoint free_fd_loop (n : nat) (i : Z) (t : list proc_fd) : ST (vfs F) Z :=
  match n with
  | O => ret (- EMFILE)
  | S n' =>
      e ← rd t i;
      if of_idx e =? 0 then ret i else free_fd_loop n' (i + 1) t
  end.

Definition find_free_fd : ST (vfs F) Z :=
  cur ← current_proc;
  t ← fd_table;
  let start := match cur with Some _ => 3 | None => 0 end in
  let max := match cur with Some _ => MAX_OPEN_FILES | None => VFS_MAX_OPEN_FILES end in
  free_fd_loop (Z.to_nat (max - start)) start t.

(** The second copy of [make_abs_path] of vfs_path.c. *)
Definition vfs_make_abs_path (pathname : option (list Z)) (buf : list Z) (bufsz : Z)
    : ST (vfs F) (Z * list Z) :=
  make_abs_path pathname buf bufsz.

(** The inode to open: an error, or the mount and the inode, which is created
    when [O_CREAT] asks for it. *)
Definition open_inode (abs : list Z) (flags mode : Z) : ST (vfs F) (Z + Z * Z) :=
  r ← vfs_resolve_path vtables junk (Some abs);
  match r with
  | inr mi => ret (inr mi)
  | inl rc =>
      if (rc =? - ENOENT) && negb (Z.land flags O_CREAT =? 0) then
        pr ← vfs_resolve_parent_and_leaf vtables junk (Some abs);
        match pr with
        | inl prc => ret (inl prc)
        | inr (mnt, parent_idx, leaf) =>
            m ← mount_at mnt;
            ops ← vtable vtables (m_ops m);
            match op_create ops with
            | None => ret (inl (- ENOSYS))
            | Some create =>
                ' (crc, inode_idx) ← fs_call (create (m_priv m) parent_idx leaf mode);
                if crc <? 0 then ret (inl crc) else ret (inr (mnt, inode_idx))
            end
        end
      else ret (inl rc)
  end.

(** The size [stat] reports when it succeeds. *)
Definition stat_size (ops : fs_ops F) (priv inode : Z) : ST (vfs F) (option Z) :=
  match op_stat ops with
  | None => ret None
  | Some stat =>
      ' (rc, st) ← fs_call (stat priv inode);
      if rc =? 0 then match st with Some s => ret (Some (u32 (st_size s))) | None => fail Undef end
      else ret None
  end.

Definition vfs_open (pathname : option (list Z)) (flags mode : Z) : ST (vfs F) Z :=
  match pathname with
  | None => ret (- EINVAL)
  | Some _ =>
      if negb (Z.land (u32 flags) (u32 (Z.lnot VFS_OPEN_SUPPORTED_FLAGS)) =? 0) then ret (- EINVAL)
      else if Z.land (u32 flags) O_ACCMODE =? O_ACCMODE then ret (- EINVAL)
      else
        ' (aprc, abs) ← vfs_make_abs_path pathname (local junk PATH_BUF) PATH_BUF;
        if aprc <? 0 then ret aprc
        else
          r ← open_inode abs flags mode;
          match r with
          | inl rc => ret rc
          | inr (mnt, inode_idx) =>
              m ← mount_at mnt;
              ops ← vtable vtables (m_ops m);
              (match op_truncate ops with
               | Some truncate =>
                   if negb (Z.land flags O_TRUNC =? 0) then
                     fs_call (truncate (m_priv m) inode_idx 0);; ret tt
                   else ret tt
               | None => ret tt
               end);;
              of_idx ← vfs_alloc_open_file;
              if of_idx <? 0 then ret (- EMFILE)
              else
                start ← (if negb (Z.land flags O_APPEND =? 0) then stat_size ops (m_priv m) inode_idx
                         else ret None);
                upd_open_file of_idx (fun o =>
                  OpenFile inode_idx (default 0 start) (u32 flags) (o_refcount o) (m_ops m) (m_priv m));;
                fd ← find_free_fd;
                if fd <? 0 then vfs_free_open_file of_idx;; ret (- EMFILE)
                else
                  put_fd fd (ProcFd (of_idx + 1) 0 flags 1);;
                  (match op_inc_open ops with
                   | Some inc_open => fs_call (inc_open (m_priv m) inode_idx)
                   | None => ret tt
                   end);;
                  ret fd
          end
  end.

(** What happens to the file system when the last descriptor of an open file
    is closed. *)
Definition last_close (file : open_file) : ST (vfs F) unit :=
  if o_fs file =? 0 then ret tt
  else
    fs ← vtable vtables (o_fs file);
    (match op_dec_open fs with
     | Some dec_open => fs_call (dec_open (o_priv file) (o_inode file))
     | None => ret tt
     end);;
    match op_get_open fs, op_release fs with
    | Some get_open, Some release =>
        n ← fs_call (get_open (o_priv file) (o_inode file));
        if n =? 0 then
          match op_stat fs with
          | None => ret tt
          | Some stat =>
              ' (rc, st) ← fs_call (stat (o_priv file) (o_inode file));
              if rc =? 0 then
                match st with
                | None => fail Undef
                | Some s => if st_nlink s =? 0 then fs_call (release (o_priv file) (o_inode file))
                            else ret tt
                end
              else ret tt
          end
        else ret tt
    | _, _ => ret tt
    end.

Definition vfs_close_locked (fd : Z) : ST (vfs F) unit :=
  if fd <? 0 then ret tt
  else
    slot ← fd_resolve_slot fd;
    match slot with
    | None => ret tt
    | Some i =>
        e ← fd_at i;
        if of_idx e =? 0 then ret tt
        else
          let idx := u32 (of_idx e - 1) in
          (if idx <? VFS_MAX_OPEN_FILES then
             o ← open_file_at idx;
             if 0 <? o_refcount o then
               upd_open_file idx (set_refcount (o_refcount o - 1));;
               (if o_refcount o - 1 =? 0 then last_close o;; vfs_free_open_file idx else ret tt)
             else ret tt
           else ret tt);;
          put_fd i fd_zero
    end.

Definition vfs_close (fd : Z) : ST (vfs F) unit :=
  if fd <? 0 then ret tt else vfs_close_locked fd.

(** The result and the bytes stored at [buf]; [buf] says whether the pointer is
    not NULL. *)
Definition vfs_read (fd : Z) (buf : bool) (count : Z) : ST (vfs F) (Z * list Z) :=
  if negb buf then ret (- EINVAL, []) else
  of_idx ← fd_to_of_idx_locked fd;
  if of_idx <? 0 then ret (- EBADF, [])
  else
    file ← open_file_at of_idx;
    if Z.land (o_flags file) O_ACCMODE =? O_WRONLY then ret (- EBADF, [])
    else if o_fs file =? 0 then ret (- ENOSYS, [])
    else
      fs ← vtable vtables (o_fs file);
      match op_read fs with
      | None => ret (- ENOSYS, [])
      | Some read =>
          ' (result, bytes) ← fs_call (read (o_priv file) (o_inode file) count (o_pos file));
          (if 0 <? result then upd_open_file of_idx (set_pos (u32 (o_pos file + result))) else ret tt);;
          ret (result, bytes)
      end.

Definition vfs_write (fd : Z) (buf : option (list Z)) (count : Z) : ST (vfs F) Z :=
  match buf with None => ret (- EINVAL) | Some buf =>
  if count =? 0 then ret 0
  else
    of_idx ← fd_to_of_idx_locked fd;
    if of_idx <? 0 then ret (- EBADF)
    else
      file ← open_file_at of_idx;
      if Z.land (o_flags file) O_ACCMODE =? O_RDONLY then ret (- EBADF)
      else if o_fs file =? 0 then ret (- ENOSYS)
      else
        fs ← vtable vtables (o_fs file);
        match op_write fs with
        | None => ret (- ENOSYS)
        | Some write =>
            end_pos ← (if negb (Z.land (o_flags file) O_APPEND =? 0)
                       then stat_size fs (o_priv file) (o_inode file) else ret None);
            (match end_pos with Some p => upd_open_file of_idx (set_pos p) | None => ret tt end);;
            let pos := default (o_pos file) end_pos in
            result ← fs_call (write (o_priv file) (o_inode file) buf count pos);
            (if 0 <? result then upd_open_file of_idx (set_pos (u32 (pos + result))) else ret tt);;
            ret result
        end
  end.

(** The sum of two [int32_t]; overflow is undefined. *)
Definition add_s32 (a b : Z) : ST (vfs F) Z :=
  let x := a + b in
  if (-2147483648 <=? x) && (x <? 2147483648) then ret x else fail Undef.

Definition vfs_lseek (fd offset whence : Z) : ST (vfs F) Z :=
  of_idx ← fd_to_of_idx_locked fd;
  if of_idx <? 0 then ret (- EBADF)
  else
    file ← open_file_at of_idx;
    base ← (if whence =? 0 then ret (Some 0)
            else if whence =? 1 then ret (Some (s32 (o_pos file)))
            else if whence =? 2 then
              size ← (if o_fs file =? 0 then ret None
                      else fs ← vtable vtables (o_fs file); stat_size fs (o_priv file) (o_inode file));
              ret (Some (s32 (default 0 size)))
            else ret None);
    match base with
    | None => ret (- EINVAL)
    | Some b =>
        new_pos ← add_s32 b offset;
        if new_pos <? 0 then ret (- EINVAL)
        else upd_open_file of_idx (set_pos new_pos);; ret new_pos
    end.

(** The result and [*st]; [st] says whether the pointer is not NULL. *)
Definition vfs_stat (path : option (list Z)) (st : bool) : ST (vfs F) (Z * option kstat) :=
  if negb st then ret (- EINVAL, None) else
  match path with
  | None => ret (- EINVAL, None)
  | Some _ =>
      ' (aprc, abs) ← vfs_make_abs_path path (local junk PATH_BUF) PATH_BUF;
      if aprc <? 0 then ret (aprc, None)
      else
        r ← vfs_resolve_path vtables junk (Some abs);
        match r with
        | inl rc => ret (rc, None)
        | inr (mnt, inode_idx) =>
            m ← mount_at mnt;
            ops ← vtable vtables (m_ops m);
            match op_stat ops with
            | None => ret (- ENOSYS, None)
            | Some stat => fs_call (stat (m_priv m) inode_idx)
            end
        end
  end.

Definition vfs_fstat (fd : Z) (st : bool) : ST (vfs F) (Z * option kstat) :=
  if negb st then ret (- EINVAL, None) else
  of_idx ← fd_to_of_idx_locked fd;
  if of_idx <? 0 then ret (- EBADF, None)
  else
    file ← open_file_at of_idx;
    if o_fs file =? 0 then ret (- ENOSYS, None)
    else
      fs ← vtable vtables (o_fs file);
      match op_stat fs with
      | None => ret (- ENOSYS, None)
      | Some stat =>
          ' (result, st) ← fs_call (stat (o_priv file) (o_inode file));
          ret (if result <? 0 then - EBADF else 0, st)
      end.

(** [open_files[of_idx - 1].refcount++]. *)
Definition incr_refcount (of_idx : Z) : ST (vfs F) unit :=
  upd_open_file (u32 (of_idx - 1)) (fun o => set_refcount (u32 (o_refcount o + 1)) o).

Definition vfs_dup (oldfd : Z) : ST (vfs F) Z :=
  if (oldfd <? 0) || (MAX_OPEN_FILES <=? oldfd) then ret (- EBADF)
  else
    proc ← current_proc;
    match proc with
    | None => ret (- ESRCH)
    | Some _ =>
        e ← fd_at oldfd;
        if of_idx e =? 0 then ret (- EBADF)
        else
          newfd ← find_free_fd;
          if newfd <? 0 then ret (- EMFILE)
          else
            put_fd newfd e;;
            incr_refcount (of_idx e);;
            ret newfd
    end.

Definition vfs_dup2 (oldfd newfd : Z) : ST (vfs F) Z :=
  if (oldfd <? 0) || (newfd <? 0) then ret (- EBADF)
  else if (MAX_OPEN_FILES <=? oldfd) || (MAX_OPEN_FILES <=? newfd) then ret (- EBADF)
  else if oldfd =? newfd then ret newfd
  else
    proc ← current_proc;
    match proc with
    | None => ret (- ESRCH)
    | Some _ =>
        e ← fd_at oldfd;
        if of_idx e =? 0 then ret (- EBADF)
        else
          n ← fd_at newfd;
          (if negb (of_idx n =? 0) then vfs_close_locked newfd else ret tt);;
          e' ← fd_at oldfd;
          put_fd newfd e';;
          incr_refcount (of_idx e);;
          ret newfd
    end.

(** The result and the bytes of [buffer]. *)
Definition vfs_readdir_fd (fd : Z) (buffer : option (list Z)) (size : Z) : ST (vfs F) (Z * list Z) :=
  match buffer with None => ret (- EINVAL, []) | Some buffer =>
  of_idx ← fd_to_of_idx_locked fd;
  if of_idx <? 0 then ret (- EBADF, buffer)
  else
    file ← open_file_at of_idx;
    if o_fs file =? 0 then ret (- ENOSYS, buffer)
    else
      fs ← vtable vtables (o_fs file);
      match op_readdir fs with
      | None => ret (- ENOSYS, buffer)
      | Some readdir =>
          ' (result, bytes, pos) ← fs_call (readdir (o_priv file) (o_inode file) buffer size (o_pos file));
          (if 0 <=? result then upd_open_file of_idx (set_pos pos) else ret tt);;
          ret (result, bytes)
      end
  end.

Definition vfs_ftruncate (fd length : Z) : ST (vfs F) Z :=
  of_idx ← fd_to_of_idx_locked fd;
  if of_idx <? 0 then ret (- EBADF)
  else
    file ← open_file_at of_idx;
    if o_fs file =? 0 then ret (- ENOSYS)
    else
      fs ← vtable vtables (o_fs file);
      match op_truncate fs with
      | None => ret (- ENOSYS)
      | Some truncate => fs_call (truncate (o_priv file) (o_inode file) length)
      end.

Definition vfs_pread (fd : Z) (buf : bool) (count offset : Z) : ST (vfs F) (Z * list Z) :=
  if negb buf then ret (- EINVAL, []) else
  of_idx ← fd_to_of_idx_locked fd;
  if of_idx <? 0 then ret (- EBADF, [])
  else
    file ← open_file_at of_idx;
    if o_fs file =? 0 then ret (- ENOSYS, [])
    else
      fs ← vtable vtables (o_fs file);
      match op_read fs with
      | None => ret (- ENOSYS, [])
      | Some read => fs_call (read (o_priv file) (o_inode file) count offset)
      end.

Inductive vfs_fd_kind_t := FD_KIND_INVALID | FD_KIND_CONSOLE | FD_KIND_PIPE (pipe_id : Z) | FD_KIND_VFS.

Definition vfs_fd_kind (fd : Z) : ST (vfs F) vfs_fd_kind_t :=
  if (fd <? 0) || (MAX_OPEN_FILES <=? fd) then ret FD_KIND_INVALID
  else
    proc ← current_proc;
    match proc with
    | None => ret FD_KIND_INVALID
    | Some _ =>
        e ← fd_at fd;
        if of_idx e =? CONSOLE_INODE_MAGIC then ret FD_KIND_CONSOLE
        else if PIPE_FD_BASE <=? of_idx e then ret (FD_KIND_PIPE (s32 (of_idx e - PIPE_FD_BASE)))
        else if of_idx e =? 0 then ret FD_KIND_INVALID
        else ret FD_KIND_VFS
    end.

End VfsFd.
