(* ===== verification/VfsProofs.v ===== *)
(** * Mount resolution and path walk

    The mount table as a map of path prefixes and the path walk as a fold over
    the components of a path. *)

From stdpp Require Import base tactics numbers list gmap.
From S2P Require Import Prelude Kstring Fd FsOps Vfs.

(** ** Specification *)

(** The target [t] of a mount covers the path [s]: it is the root, or a prefix
    of [s] that ends at a component boundary. *)
Definition covers (t s : list Z) : Prop :=
  t = [SLASH] \/
  t <> [] /\ t `prefix_of` s /\ (nthZ s (Z.of_nat (length t)) = 0 \/ nthZ s (Z.of_nat (length t)) = SLASH).

#[export] Instance covers_dec t s : Decision (covers t s).
Proof. unfold covers. apply _. Defined.

(** The number of bytes of [s] that [t] covers. *)
Definition covered (t s : list Z) : Z := if decide (covers t s) then Z.of_nat (length t) else 0.

(** The pieces between the slashes. *)
Fixpoint split_slash (s : list Z) : list Z * list (list Z) :=
  match s with
  | [] => ([], [])
  | c :: s' =>
      let '(w, ws) := split_slash s' in
      if c =? SLASH then ([], w :: ws) else (c :: w, ws)
  end.

(** The components of a path: the pieces that are not empty, cut to the 63
    bytes that fit into the array of [walk_components]. *)
Definition components (s : list Z) : list (list Z) :=
  take 63 <$> filter (fun w => w <> []) ((split_slash s).1 :: (split_slash s).2).

Section Mounts.
Context {F : Type}.
Variable vtables : Z -> option (fs_ops F).
Variable junk : Z -> Z.
Implicit Types v : vfs F.

Definition mounted v (i : Z) (m : mount) : Prop :=
  0 <= i /\ mounts v !! Z.to_nat i = Some m /\ m_in_use m = true.

Record mounts_wf v : Prop := {
  mw_len : length (mounts v) = 8%nat;
  mw_targets : Forall (fun m => length (m_target m) = 64%nat /\ (m_in_use m = true -> 0 ∈ m_target m)) (mounts v)
}.

(** The covered bytes of the mount in slot [i]. *)
Definition slot_covered v (s : list Z) (i : Z) : Z :=
  match mounts v !! Z.to_nat i with
  | Some m => if m_in_use m then covered (str_of (m_target m)) s else 0
  | None => 0
  end.

(** ** Mount resolution *)

Lemma prefix_matches_ok k i target t path s v :
  holds target t -> holds path s -> (i + k = length t)%nat -> (i <= length s)%nat ->
  prefix_matches k (Z.of_nat i) target path v = Ok (bool_decide (drop i t `prefix_of` drop i s), v).
Proof.
  intros Ht Hs. revert i. induction k as [|k IH]; intros i Hk Hi; cbn [prefix_matches].
  { rewrite bool_decide_eq_true_2; [done|]. rewrite drop_ge by lia. apply prefix_nil. }
  rewrite (bind_ok _ _ _ _ _ (rd_holds path s (Z.of_nat i) v Hs ltac:(lia))),
    (bind_ok _ _ _ _ _ (rd_holds target t (Z.of_nat i) v Ht ltac:(lia))).
  pose proof (nthZ_nonzero target t (Z.of_nat i) Ht ltac:(lia)) as Hnz.
  destruct (lookup_lt_is_Some_2 t i ltac:(lia)) as [c Hc].
  assert (nthZ t (Z.of_nat i) = c) as Ec by (unfold nthZ; by rewrite Nat2Z.id, Hc).
  rewrite (drop_S t c i Hc). destruct (decide (i = length s)) as [->|Hne].
  { rewrite nthZ_end. rewrite (proj2 (Z.eqb_neq _ _)) by lia. cbn [negb].
    rewrite drop_all, bool_decide_eq_false_2; [done|]. by intros ?%prefix_nil_inv. }
  destruct (lookup_lt_is_Some_2 s i ltac:(lia)) as [d Hd].
  assert (nthZ s (Z.of_nat i) = d) as -> by (unfold nthZ; by rewrite Nat2Z.id, Hd).
  rewrite (drop_S s d i Hd), Ec. destruct (Z.eqb_spec d c) as [->|Hdc]; cbn [negb].
  - replace (Z.of_nat i + 1) with (Z.of_nat (S i)) by lia. rewrite IH by lia.
    do 2 f_equal. apply bool_decide_ext. split; [apply prefix_cons|apply prefix_cons_inv_2].
  - rewrite bool_decide_eq_false_2; [done|]. intros ?%prefix_cons_inv_1. congruence.
Qed.

Lemma mount_prefix_len_ok target t path s v :
  holds target t -> holds path s ->
  mount_prefix_len target (Z.of_nat (length t)) path v = Ok (covered t s, v).
Proof.
  intros Ht Hs. unfold mount_prefix_len, covered.
  assert ((if Z.of_nat (length t) =? 1 then c ← rd target 0; ret (c =? SLASH) else ret false) v =
    Ok (bool_decide (t = [SLASH]), v)) as E.
  { destruct (Z.eqb_spec (Z.of_nat (length t)) 1) as [H1|H1].
    - rewrite (bind_ok _ _ _ _ _ (rd_holds target t 0 v Ht ltac:(lia))).
      destruct t as [|c [|? ?]]; simpl in H1; try lia. change (nthZ [c] 0) with c.
      unfold ret. do 2 f_equal. rewrite eqb_bool_decide. apply bool_decide_ext. split; congruence.
    - rewrite bool_decide_eq_false_2; [done|]. intros ->. done. }
  rewrite (bind_ok _ _ _ _ _ E). case_bool_decide as Hr.
  { rewrite decide_True by (by left). by rewrite Hr. }
  change 0 with (Z.of_nat 0) at 1. rewrite Nat2Z.id.
  rewrite (bind_ok _ _ _ _ _ (prefix_matches_ok (length t) 0 target t path s v Ht Hs ltac:(lia) ltac:(lia))).
  rewrite !drop_0. case_bool_decide as Hp; cbn [negb].
  2: { rewrite decide_False; [done|]. intros [?|(_ & ? & _)]; done. }
  pose proof (prefix_length _ _ Hp) as Hlen.
  rewrite (bind_ok _ _ _ _ _ (rd_holds path s (Z.of_nat (length t)) v Hs ltac:(lia))).
  destruct t as [|c t'].
  { cbn [length]. by destruct (decide _), (_ && _). }
  destruct (Z.eqb_spec (nthZ s (Z.of_nat (length (c :: t')))) 0) as [E0|E0]; cbn [negb andb].
  { rewrite decide_True; [done|]. right. auto. }
  destruct (Z.eqb_spec (nthZ s (Z.of_nat (length (c :: t')))) SLASH) as [E1|E1]; cbn [negb].
  - rewrite decide_True; [done|]. right. auto.
  - rewrite decide_False; [done|]. intros [?|(_ & _ & [?|?])]; done.
Qed.

Lemma mount_at_ok v i m : 0 <= i -> mounts v !! Z.to_nat i = Some m -> mount_at i v = Ok (m, v).
Proof. intros. unfold mount_at. run. by apply rd_ok. Qed.

Lemma best_mount_ok path s n i best bl v :
  mounts_wf v -> holds path s -> 0 <= i -> i + Z.of_nat n <= 8 -> 0 <= bl ->
  exists b l, best_mount n i path best bl v = Ok ((b, l), v) /\ bl <= l /\
    (forall j, i <= j < i + Z.of_nat n -> slot_covered v s j <= l) /\
    ((b = best /\ l = bl) \/ exists j, i <= j < i + Z.of_nat n /\ b = Some j /\ bl < l /\ slot_covered v s j = l).
Proof.
  intros Hw Hs. revert i best bl. induction n as [|n IH]; intros i best bl Hi Hn H0; cbn [best_mount].
  { exists best, bl. split; [done|]. split; [lia|]. split; [lia|by left]. }
  destruct (lookup_lt_is_Some_2 (mounts v) (Z.to_nat i)) as [m Hm]; [rewrite (mw_len _ Hw); lia|].
  rewrite (bind_ok _ _ _ _ _ (mount_at_ok v i m Hi Hm)).
  assert (forall best' bl', slot_covered v s i <= bl' -> bl <= bl' ->
    ((best' = best /\ bl' = bl) \/ (best' = Some i /\ bl < bl' /\ slot_covered v s i = bl')) ->
    exists b l, best_mount n (i + 1) path best' bl' v = Ok ((b, l), v) /\ bl <= l /\
    (forall j, i <= j < i + Z.of_nat (S n) -> slot_covered v s j <= l) /\
    ((b = best /\ l = bl) \/ exists j, i <= j < i + Z.of_nat (S n) /\ b = Some j /\ bl < l /\ slot_covered v s j = l)) as Hgo.
  { intros best' bl' Hc Hbl Hor. destruct (IH (i + 1) best' bl' ltac:(lia) ltac:(lia) ltac:(lia)) as (b & l & E & Hl & Hall & Hres).
    exists b, l. split; [done|]. split; [lia|]. split.
    - intros j Hj. destruct (decide (j = i)) as [->|]; [lia|]. apply Hall. lia.
    - destruct Hres as [[-> ->]|(j & Hj & -> & Hlt & Ej)].
      + destruct Hor as [[-> ->]|(-> & Hlt & Ei)]; [by left|right]. exists i. split_and!; (done || lia).
      + right. exists j. split_and!; (done || lia). }
  assert (m_in_use m = false -> slot_covered v s i = 0) as Hunused by (intros E; unfold slot_covered; by rewrite Hm, E).
  pose proof (Forall_lookup_1 _ _ _ _ (mw_targets _ Hw) Hm) as [_ Hstr].
  destruct (m_in_use m) eqn:Eu; cbn [negb].
  2: { apply Hgo; [rewrite Hunused by done; lia|lia|by left]. }
  pose proof (str_of_holds _ (Hstr eq_refl)) as Hnul.
  rewrite (bind_ok _ _ _ _ _ (kstrlen_ok _ _ v Hnul)), (bind_ok _ _ _ _ _ (mount_prefix_len_ok _ _ _ _ v Hnul Hs)).
  assert (slot_covered v s i = covered (str_of (m_target m)) s) as Esc by (unfold slot_covered; by rewrite Hm, Eu).
  destruct (Z.ltb_spec bl (covered (str_of (m_target m)) s)).
  - apply Hgo; [lia|lia|]. right. done.
  - apply Hgo; [lia|lia|by left].
Qed.

Lemma slot_covered_pos v s i :
  0 <= i -> 0 < slot_covered v s i -> exists m, mounted v i m /\ covers (str_of (m_target m)) s /\
    slot_covered v s i = Z.of_nat (length (str_of (m_target m))).
Proof.
  unfold slot_covered, covered. intros Hi H. destruct (mounts v !! Z.to_nat i) as [m|] eqn:Em; [|lia].
  destruct (m_in_use m) eqn:Eu; [|lia]. destruct (decide _); [|lia]. by exists m.
Qed.

Lemma slot_covered_mounted v s i m :
  mounted v i m -> covers (str_of (m_target m)) s -> slot_covered v s i = Z.of_nat (length (str_of (m_target m))).
Proof. intros (_ & Em & Eu) Hc. unfold slot_covered, covered. rewrite Em, Eu. by rewrite decide_True. Qed.

(** [i] is the mount whose target is the longest that covers [s]. *)
Definition longest_mount v (s : list Z) (i : Z) (m : mount) : Prop :=
  mounted v i m /\ covers (str_of (m_target m)) s /\
    forall j m', mounted v j m' -> covers (str_of (m_target m')) s ->
    (length (str_of (m_target m')) <= length (str_of (m_target m)))%nat.

Lemma covers_pos t s : covers t s -> (0 < length t)%nat.
Proof. intros [->|(H & _)]; [simpl; lia|]. destruct t; [done|simpl; lia]. Qed.

Lemma covers_length t s : covers t s -> s <> [] -> (length t <= length s)%nat.
Proof. intros [->|(_ & H & _)] Hs; [destruct s; [done|simpl; lia]|by apply prefix_length]. Qed.

Lemma resolve_mount_ok path s v :
  mounts_wf v -> holds path s ->
  exists r, vfs_resolve_mount (Some path) v = Ok (r, v) /\
    match r with
    | inl e => if decide (nthZ s 0 = SLASH)
               then e = - ENOENT /\ forall i m, mounted v i m -> ~ covers (str_of (m_target m)) s
               else e = - EINVAL
    | inr (i, rel) => nthZ s 0 = SLASH /\ exists m, longest_mount v s i m /\
    rel = drop (length (str_of (m_target m))) path
    end.
Proof.
  intros Hw Hs. unfold vfs_resolve_mount. rewrite (bind_ok _ _ _ _ _ (rd_holds path s 0 v Hs ltac:(lia))).
  destruct (Z.eqb_spec (nthZ s 0) SLASH) as [E0|E0]; cbn [negb].
  2: { eexists. split; [done|]. cbv beta iota. by rewrite decide_False. }
  destruct (best_mount_ok path s (Z.to_nat VFS_MAX_MOUNTS) 0 None 0 v Hw Hs ltac:(lia) ltac:(done) ltac:(lia))
    as (b & l & E & Hl & Hall & Hres).
  rewrite (bind_ok _ _ _ _ _ E). change (0 + Z.of_nat (Z.to_nat VFS_MAX_MOUNTS)) with 8 in *.
  assert (forall i m, mounted v i m -> 0 <= i < 8) as Hrange.
  { intros i m (Hi & Hm & _). apply lookup_lt_Some in Hm. rewrite (mw_len _ Hw) in Hm. lia. }
  destruct Hres as [[-> ->]|(j & Hj & -> & Hlt & Ej)].
  - eexists. split; [done|]. cbv beta iota. rewrite decide_True by done. split; [done|]. intros i m Hm Hc.
    pose proof (slot_covered_mounted v s i m Hm Hc) as Ec. pose proof (covers_pos _ _ Hc).
    specialize (Hall i (Hrange i m Hm)). lia.
  - destruct (slot_covered_pos v s j ltac:(lia) ltac:(lia)) as (m & Hm & Hc & Em).
    eexists. split; [done|]. split; [done|]. exists m. split; [split; [done|split; [done|]]|].
    + intros k m' Hm' Hc'. specialize (Hall k (Hrange k m' Hm')).
      rewrite (slot_covered_mounted v s k m' Hm' Hc') in Hall. lia.
    + destruct (Z.eqb_spec l 1); f_equal; lia.
Qed.

(** ** The path walk *)

Lemma fs_call_ret {A} (a : A) v : fs_call (ret a) v = Ok (a, v).
Proof. by destruct v. Qed.

Lemma fs_call_bind {A B} (m : ST F A) (k : A -> ST F B) v :
  fs_call (bind m k) v = bind (fs_call m) (fun a => fs_call (k a)) v.
Proof.
  unfold fs_call, zoom, bind. simpl. destruct (m (fsst v)) as [[a f]|]; [|done].
  simpl. by destruct (k a f) as [[b f']|].
Qed.

Lemma fs_call_frame {A} (m : ST F A) v a v' :
  fs_call m v = Ok (a, v') -> exists f, v' = set_fsst f v.
Proof.
  unfold fs_call, zoom. destruct (m (fsst v)) as [[b f]|]; [|done]. intros [= <- <-]. by exists f.
Qed.

(** The walk from inode [ino] along the components [cs], where [rs] looks a
    name up in a directory and 0 stands for no inode. *)
Fixpoint walk_ref (rs : Z -> list Z -> ST F Z) (ino : Z) (cs : list (list Z)) : ST F Z :=
  match cs with
  | [] => ret ino
  | c :: cs' =>
      i ← (if decide (c = [DOT]) then ret ino else rs ino (c ++ [0]));
      if i =? 0 then ret 0 else walk_ref rs i cs'
  end.

(** The lookup sees the name, not the bytes behind it. *)
Definition reads_string {A} (rs : Z -> list Z -> ST F A) : Prop :=
  forall ino buf s f, holds buf s -> rs ino buf f = rs ino (s ++ [0]) f.

(** The mount [mnt] looks names up with [rs]. *)
Definition resolves v (mnt : Z) (rs : Z -> list Z -> ST F Z) : Prop :=
  exists m ops o, 0 <= mnt /\ mounts v !! Z.to_nat mnt = Some m /\ vtables (m_ops m) = Some ops /\
    op_resolve ops = Some o /\ rs = o (m_priv m) /\ reads_string rs.

Lemma resolve_one_ok v mnt rs ino comp w :
  resolves v mnt rs -> holds comp w -> w <> [] ->
  resolve_one vtables mnt ino comp v =
  fs_call (if decide (w = [DOT]) then ret ino else rs ino (w ++ [0])) v.
Proof.
  intros (m & ops & o & H0 & Hm & Hv & Ho & -> & Hrs) Hc Hw.
  assert (0 < Z.of_nat (length w)) as Hl by (destruct w; [done|simpl; lia]).
  unfold resolve_one. rewrite (bind_ok _ _ _ _ _ (rd_holds comp w 0 v Hc ltac:(lia))).
  assert ((if nthZ w 0 =? DOT then c1 ← rd comp 1; ret (c1 =? 0) else ret false) v =
    Ok (bool_decide (w = [DOT]), v)) as E.
  { destruct (Z.eqb_spec (nthZ w 0) DOT) as [Ed|Ed].
    - rewrite (bind_ok _ _ _ _ _ (rd_holds comp w 1 v Hc ltac:(lia))).
      unfold ret. do 2 f_equal. rewrite eqb_bool_decide. apply bool_decide_ext. split; [|by intros ->].
      intros E1. destruct w as [|a [|b w]]; [done|by rewrite <- Ed|]. exfalso.
      apply (nthZ_nonzero comp (a :: b :: w) 1 Hc); [simpl; lia|done].
    - rewrite bool_decide_eq_false_2; [done|]. by intros ->. }
  rewrite (bind_ok _ _ _ _ _ E). case_bool_decide as Hd.
  - rewrite decide_True by done. by rewrite fs_call_ret.
  - rewrite decide_False by done. rewrite (bind_ok _ _ _ _ _ (mount_at_ok v mnt m H0 Hm)).
    unfold vtable. rewrite Hv. run. rewrite Ho. unfold fs_call, zoom. by rewrite (Hrs ino comp w).
Qed.

(** The components of [s] behind the part [w] of a word. *)
Definition components_from (w s : list Z) : list (list Z) :=
  take 63 <$> filter (fun x => x <> []) ((w ++ (split_slash s).1) :: (split_slash s).2).

Lemma components_from_slash w s :
  components_from w (SLASH :: s) = (if decide (w = []) then [] else [take 63 w]) ++ components_from [] s.
Proof.
  unfold components_from. simpl. destruct (split_slash s) as [x ws]. cbn [fst snd]. rewrite app_nil_r.
  destruct (decide (w = [])) as [->|Hw].
  - by rewrite (filter_cons_False _ []) by (intros H; by apply H).
  - by rewrite (filter_cons_True _ w) by done.
Qed.

Lemma components_from_char w c s :
  c <> SLASH -> components_from w (c :: s) = components_from (w ++ [c]) s.
Proof.
  intros Hc. unfold components_from. simpl. destruct (split_slash s) as [x ws].
  rewrite (proj2 (Z.eqb_neq _ _) Hc). cbn [fst snd]. by rewrite <- app_assoc.
Qed.

(** The array [comp] starts with the first 63 bytes of the word [w]. *)
Definition word_in (comp w : list Z) (ci : Z) : Prop :=
  length comp = 64%nat /\ Forall (fun c => c <> 0) w /\ ci = Z.of_nat (length (take 63 w)) /\
  take (Z.to_nat ci) comp = take 63 w.

Lemma end_component_ok v mnt rs ino comp ci w :
  resolves v mnt rs -> word_in comp w ci -> w <> [] ->
  exists comp', length comp' = 64%nat /\
    end_component vtables mnt ino comp ci v =
    bind (fs_call (if decide (take 63 w = [DOT]) then ret ino else rs ino (take 63 w ++ [0])))
      (fun i => ret (i, comp')) v.
Proof.
  intros Hr (Hl & Hnz & Hci & Ht) Hw. assert (0 <= ci <= 63) as Hb by (rewrite length_take in Hci; lia).
  exists (<[Z.to_nat ci := 0]> comp). split; [by rewrite length_insert|]. unfold end_component.
  rewrite (bind_ok _ _ _ _ _ (wr_ok comp ci 0 v ltac:(lia))).
  unfold bind at 1. rewrite (resolve_one_ok v mnt rs ino _ (take 63 w)); [done|done| |].
  - rewrite insert_take_drop by lia. rewrite Ht. apply holds_intro. by apply Forall_take.
  - destruct w; [done|]. by simpl.
Qed.

Lemma word_char comp w ci c :
  word_in comp w ci -> c <> 0 -> ci < 63 -> word_in (<[Z.to_nat ci := c]> comp) (w ++ [c]) (ci + 1).
Proof.
  intros (Hl & Hnz & Hci & Ht) Hc H63. rewrite length_take in Hci.
  assert (length w < 63)%nat as Hw by lia. rewrite (take_ge w) in Ht by lia.
  split; [by rewrite length_insert|]. split; [apply Forall_app; split; [done|by constructor]|].
  rewrite !(take_ge (w ++ [c])) by (rewrite length_app; simpl; lia). rewrite length_app. split; [simpl; lia|].
  replace (Z.to_nat (ci + 1)) with (S (Z.to_nat ci)) by lia.
  rewrite (take_S_r _ _ c) by (apply list_lookup_insert_eq; lia). rewrite take_insert_ge by lia. by rewrite Ht.
Qed.

Lemma word_full comp w ci c :
  word_in comp w ci -> c <> 0 -> 63 <= ci -> word_in comp (w ++ [c]) ci.
Proof.
  intros (Hl & Hnz & Hci & Ht) Hc H63. rewrite length_take in Hci.
  split; [done|]. split; [apply Forall_app; split; [done|by constructor]|].
  rewrite take_app_le by lia. rewrite length_take. split; [lia|done].
Qed.

Lemma word_empty comp w ci : word_in comp w ci -> (0 <? ci) = negb (bool_decide (w = [])).
Proof.
  intros (_ & _ & -> & _). destruct w as [|c w]; [done|]. rewrite bool_decide_eq_false_2 by done.
  cbn [negb]. apply Z.ltb_lt. simpl. lia.
Qed.

Lemma resolves_fs v mnt rs f : resolves v mnt rs -> resolves (set_fsst f v) mnt rs.
Proof. done. Qed.

Lemma walk_loop_ok s : forall p v mnt rs ino comp ci w,
  resolves v mnt rs -> holds p s -> word_in comp w ci ->
  walk_loop vtables p mnt ino comp ci v = fs_call (walk_ref rs ino (components_from w s)) v.
Proof.
  induction s as [|c s IH]; intros p v mnt rs ino comp ci w Hr Hp Hw.
  - destruct (holds_nil_inv _ Hp) as [r ->]. simpl. rewrite (word_empty _ _ _ Hw).
    unfold components_from. simpl. rewrite app_nil_r.
    destruct (decide (w = [])) as [->|Hne].
    + rewrite bool_decide_eq_true_2 by done. simpl. by rewrite fs_call_ret.
    + rewrite bool_decide_eq_false_2 by done. rewrite filter_cons_True by done. cbn [negb].
      destruct (end_component_ok v mnt rs ino comp ci w Hr Hw Hne) as (comp' & _ & E).
      unfold bind at 1. rewrite E. cbn [fmap list_fmap walk_ref filter list_filter].
      rewrite fs_call_bind. unfold bind. destruct (fs_call _ v) as [[i v']|]; [|done]. simpl.
      destruct (Z.eqb_spec i 0) as [->|]; by rewrite fs_call_ret.
  - destruct p as [|x p]; [by destruct Hp as [_ (? & ?)]|].
    apply holds_cons_inv in Hp as (-> & Hc & Hp). cbn [walk_loop].
    rewrite (proj2 (Z.eqb_neq _ _) Hc). destruct (Z.eqb_spec c SLASH) as [->|Hs].
    + rewrite (word_empty _ _ _ Hw), components_from_slash.
      assert (forall comp', length comp' = 64%nat -> word_in comp' [] 0) as Hnew by (intros; by split_and!).
      destruct (decide (w = [])) as [->|Hne].
      * rewrite bool_decide_eq_true_2 by done. simpl. by apply IH.
      * rewrite bool_decide_eq_false_2 by done. cbn [negb app walk_ref].
        destruct (end_component_ok v mnt rs ino comp ci w Hr Hw Hne) as (comp' & Hl & E).
        unfold bind at 1. rewrite E. rewrite fs_call_bind. unfold bind.
        destruct (fs_call (if decide _ then _ else _) v) as [[i v']|] eqn:Ef; [|done]. simpl.
        destruct (i =? 0); [by rewrite fs_call_ret|]. apply IH; [|done|by apply Hnew].
        by destruct (fs_call_frame _ _ _ _ Ef) as [f ->].
    + rewrite components_from_char by done. pose proof Hw as (Hl & _ & Hci & _).
      rewrite length_take in Hci. destruct (Z.ltb_spec ci 63).
      * rewrite (bind_ok _ _ _ _ _ (wr_ok comp ci c v ltac:(lia))). apply IH; [done|done|by apply word_char].
      * apply IH; [done|done|by apply word_full].
Qed.

Lemma walk_components_ok v mnt rs ino rel s :
  resolves v mnt rs -> holds rel s ->
  walk_components vtables junk mnt ino (Some rel) v = fs_call (walk_ref rs ino (components s)) v.
Proof.
  intros Hr Hs. unfold walk_components. erewrite (walk_loop_ok s _ _ _ _ _ _ _ []); [done|done|done|].
  split_and!; [|done|done|done]. unfold local. by rewrite length_fmap, length_seqZ.
Qed.

(** ** Resolving a path *)

(** Every mount in use has a vtable whose lookup reads the name only. *)
Definition mount_ops_ok v : Prop :=
  forall i m, mounted v i m -> exists ops, m_ops m <> 0 /\ vtables (m_ops m) = Some ops /\
    forall o, op_resolve ops = Some o -> reads_string (o (m_priv m)).

Lemma resolve_path_ok path s v :
  mounts_wf v -> mount_ops_ok v -> holds path s -> nthZ s 0 = SLASH ->
  (vfs_resolve_path vtables junk (Some path) v = Ok (inl (- ENOENT), v) /\
   forall i m, mounted v i m -> ~ covers (str_of (m_target m)) s) \/
  exists i m ops, longest_mount v s i m /\ vtables (m_ops m) = Some ops /\
    vfs_resolve_path vtables junk (Some path) v =
    match op_resolve ops with
    | None => Ok (inl (- ENOSYS), v)
    | Some o =>
        (ino ← fs_call (walk_ref (o (m_priv m)) (m_root m) (components (drop (length (str_of (m_target m))) s)));
         ret (if ino =? 0 then inl (- ENOENT) else inr (i, ino))) v
    end.
Proof.
  intros Hw Hops Hs H0. unfold vfs_resolve_path.
  rewrite (bind_ok _ _ _ _ _ (rd_holds path s 0 v Hs ltac:(lia))). rewrite (proj2 (Z.eqb_eq _ _) H0). cbn [negb].
  destruct (resolve_mount_ok path s v Hw Hs) as (r & E & Hr). rewrite (bind_ok _ _ _ _ _ E).
  destruct r as [e|[i rel]].
  { left. rewrite decide_True in Hr by done. by destruct Hr as [-> Hr]. }
  right. destruct Hr as (_ & m & Hlm & ->). pose proof Hlm as ((Hi & Hm & Hu) & Hc & _).
  destruct (Hops i m (proj1 Hlm)) as (ops & Hnz & Hv & Hrs). exists i, m, ops. split; [done|]. split; [done|].
  rewrite (bind_ok _ _ _ _ _ (mount_at_ok v i m Hi Hm)). rewrite (proj2 (Z.eqb_neq _ _) Hnz).
  unfold vtable. rewrite Hv. run. destruct (op_resolve ops) as [o|] eqn:Eo; [|done].
  assert (s <> []) as Hne by (by intros ->).
  unfold bind at 1. set (k := length (str_of (m_target m))) in *.
  rewrite (walk_components_ok v i (o (m_priv m)) (m_root m) (drop k path) (drop k s)).
  - unfold bind. destruct (fs_call _ v) as [[ino v']|]; [|done]. by destruct (ino =? 0).
  - exists m, ops, o. split_and!; try done. by apply Hrs.
  - apply holds_drop; [done|]. by eapply covers_length.
Qed.

(** The position of the last slash. *)
Lemma last_slash_ok path s a b v :
  holds path s -> s = a ++ SLASH :: b -> SLASH ∉ b ->
  last_slash (length s) path v = Ok (Z.of_nat (length a), v).
Proof.
  intros Hs -> Hb.
  assert (forall k, (k <= length b)%nat ->
    last_slash (length a + 1 + k) path v = Ok (Z.of_nat (length a), v)) as Hall.
  { induction k as [|k IH]; intros Hk.
    - replace (length a + 1 + 0)%nat with (S (length a)) by lia. cbn [last_slash].
      rewrite (bind_ok _ _ _ _ _ (rd_holds path _ (Z.of_nat (length a)) v Hs ltac:(rewrite length_app; lia))).
      assert (nthZ (a ++ SLASH :: b) (Z.of_nat (length a)) = SLASH) as ->
        by (rewrite nthZ_app by lia; rewrite Z.ltb_irrefl, Z.sub_diag; done).
      done.
    - replace (length a + 1 + S k)%nat with (S (length a + 1 + k)) by lia. cbn [last_slash].
      rewrite (bind_ok _ _ _ _ _ (rd_holds path _ (Z.of_nat (length a + 1 + k)) v Hs
        ltac:(rewrite length_app; simpl; lia))).
      destruct (lookup_lt_is_Some_2 b k ltac:(lia)) as [c Hc].
      assert (nthZ (a ++ SLASH :: b) (Z.of_nat (length a + 1 + k)) = c) as ->.
      { unfold nthZ. rewrite Nat2Z.id, lookup_app_r by lia.
        replace (length a + 1 + k - length a)%nat with (S k) by lia. simpl. by rewrite Hc. }
      rewrite (proj2 (Z.eqb_neq _ _)); [apply IH; lia|]. intros ->. by apply Hb, (list_elem_of_lookup_2 _ k). }
  rewrite length_app. cbn [length]. rewrite Nat.add_succ_r, <- Nat.add_succ_l, <- Nat.add_1_r. by apply Hall.
Qed.

Lemma copy_prefix_ok n i dst src s v :
  holds src s -> (i + n <= length s)%nat -> (i + n <= length dst)%nat -> take i dst = take i s ->
  copy_prefix n (Z.of_nat i) dst src v = Ok (take (i + n) s ++ drop (i + n) dst, v).
Proof.
  intros Hs. revert i dst. induction n as [|n IH]; intros i dst Hi Hd Ht; cbn [copy_prefix].
  - rewrite Nat.add_0_r, <- Ht, take_drop. done.
  - rewrite (bind_ok _ _ _ _ _ (rd_holds src s (Z.of_nat i) v Hs ltac:(lia))).
    rewrite (bind_ok _ _ _ _ _ (wr_ok dst (Z.of_nat i) _ v ltac:(lia))). rewrite Nat2Z.id.
    destruct (lookup_lt_is_Some_2 s i ltac:(lia)) as [c Hc].
    assert (nthZ s (Z.of_nat i) = c) as -> by (unfold nthZ; by rewrite Nat2Z.id, Hc).
    replace (Z.of_nat i + 1) with (Z.of_nat (S i)) by lia. rewrite IH.
    + rewrite drop_insert_lt by lia. by rewrite Nat.add_succ_r.
    + lia.
    + rewrite length_insert. lia.
    + rewrite (take_S_r s i c) by done. rewrite (take_S_r _ i c) by (apply list_lookup_insert_eq; lia).
      rewrite take_insert_ge by lia. by rewrite Ht.
Qed.

(** The directory part of a path: everything in front of the last slash, or
    the root. *)
Definition dir_part (a : list Z) : list Z := if decide (a = []) then [SLASH] else a.

Lemma resolve_parent_ok path s a b v :
  holds path s -> s = a ++ SLASH :: b -> SLASH ∉ b -> nthZ s 0 = SLASH ->
  exists pb, holds pb (dir_part a) /\
  vfs_resolve_parent_and_leaf vtables junk (Some path) v =
    if decide (b = []) then Ok (inl (- EINVAL), v)
    else if decide (512 <= length a)%nat then Ok (inl (- ENAMETOOLONG), v)
    else (r ← vfs_resolve_path vtables junk (Some pb);
          ret match r with
              | inl rc => inl rc
              | inr (mnt, ino) => inr (mnt, ino, drop (length a + 1) path)
              end) v.
Proof.
  intros Hs Es Hb H0. assert (length s = (length a + 1 + length b)%nat) as Hl by (rewrite Es, length_app; simpl; lia).
  assert (length (local junk 512) = 512%nat) as Hloc by (unfold local; by rewrite length_fmap, length_seqZ).
  set (pb := if decide (a = []) then <[1%nat := 0]> (<[0%nat := SLASH]> (local junk 512))
             else <[length a := 0]> (take (length a) s ++ drop (length a) (local junk 512))).
  exists (if decide (512 <= length a)%nat then dir_part a ++ [0] else pb).
  assert (Forall (fun c => c <> 0) a) as Hanz by (destruct Hs as [Hs _]; rewrite Es in Hs; by apply Forall_app in Hs as [? _]).
  assert (take (length a) s = a) as Eta by (rewrite Es; apply take_app_length).
  split.
  { destruct (decide (512 <= length a)%nat).
    - apply holds_intro. unfold dir_part. case_decide; [by repeat constructor|done].
    - unfold pb, dir_part. case_decide as Ha.
      + destruct (local junk 512) as [|x [|y l]]; try done. simpl. by apply (holds_intro [SLASH]); repeat constructor.
      + rewrite Eta. rewrite insert_take_drop by (rewrite length_app, length_drop; lia).
        rewrite take_app_length. by apply holds_intro. }
  unfold vfs_resolve_parent_and_leaf.
  rewrite (bind_ok _ _ _ _ _ (rd_holds path s 0 v Hs ltac:(lia))). rewrite (proj2 (Z.eqb_eq _ _) H0). cbn [negb].
  rewrite (bind_ok _ _ _ _ _ (kstrlen_ok path s v Hs)).
  assert ((if Z.of_nat (length s) <? 2 then ret true
           else l ← rd path (Z.of_nat (length s) - 1); ret (l =? SLASH)) v = Ok (bool_decide (b = []), v)) as E.
  { destruct (Z.ltb_spec (Z.of_nat (length s)) 2).
    - rewrite bool_decide_eq_true_2; [done|]. destruct b; [done|simpl in *; lia].
    - rewrite (bind_ok _ _ _ _ _ (rd_holds path s (Z.of_nat (length s) - 1) v Hs ltac:(lia))).
      unfold ret. do 2 f_equal. rewrite eqb_bool_decide. apply bool_decide_ext. unfold nthZ.
      replace (Z.to_nat (Z.of_nat (length s) - 1)) with (length a + length b)%nat by lia.
      rewrite Es, lookup_app_r, Nat.add_comm, Nat.add_sub by lia. destruct b as [|c b]; [done|]. simpl.
      split; [|done]. destruct (lookup_lt_is_Some_2 (c :: b) (length b)) as [d Hd]; [simpl; lia|].
      rewrite Hd. simpl. intros ->. exfalso. by apply Hb, (list_elem_of_lookup_2 _ (length b)). }
  rewrite (bind_ok _ _ _ _ _ E).
  destruct (decide (b = [])) as [->|Hbne]; [by rewrite bool_decide_eq_true_2|].
  rewrite bool_decide_eq_false_2, Nat2Z.id by done.
  rewrite (bind_ok _ _ _ _ _ (last_slash_ok path s a b v Hs Es Hb)).
  replace (Z.to_nat (Z.of_nat (length a) + 1)) with (length a + 1)%nat by lia. cbv zeta.
  assert (holds (drop (length a + 1) path) b) as Hleaf.
  { assert (drop (length a + 1) s = b) as <-; [|apply holds_drop; [done|lia]].
    rewrite Es, drop_app_ge by lia. by replace (length a + 1 - length a)%nat with 1%nat by lia. }
  rewrite (bind_ok _ _ _ _ _ (rd_holds _ _ 0 v Hleaf ltac:(lia))).
  rewrite (proj2 (Z.eqb_neq _ _)) by (eapply nthZ_nonzero; [exact Hleaf|destruct b; [done|simpl; lia]]).
  clear E. assert (negb (Z.of_nat (length a) =? 0) && (512 <=? Z.of_nat (length a)) =
    bool_decide (512 <= length a)%nat) as ->.
  { destruct (Z.eqb_spec (Z.of_nat (length a)) 0), (Z.leb_spec 512 (Z.of_nat (length a))); case_bool_decide; (done || lia). }
  case_bool_decide as H5; [by rewrite decide_True|]. rewrite !(decide_False (P := (512 <= length a)%nat)) by done.
  assert ((if Z.of_nat (length a) =? 0 then b0 ← wr (local junk 512) 0 SLASH; wr b0 1 0
     else b0 ← copy_prefix (Z.to_nat (Z.of_nat (length a))) 0 (local junk 512) path; wr b0 (Z.of_nat (length a)) 0) v
     = Ok (pb, v)) as E2; [|rewrite (bind_ok _ _ _ _ _ E2)].
  { unfold pb. clear pb. revert Hloc. generalize (local junk 512). intros loc Hloc.
    destruct (decide (a = [])) as [->|Ha].
    - change (Z.of_nat (length []) =? 0) with true. cbv iota.
      rewrite (bind_ok _ _ _ _ _ (wr_ok loc 0 SLASH v ltac:(lia))). apply wr_ok. rewrite length_insert. lia.
    - rewrite (proj2 (Z.eqb_neq _ _)) by (destruct a; [done|cbn [length]; lia]).
      rewrite Nat2Z.id. change 0 with (Z.of_nat 0) at 1.
      rewrite (bind_ok _ _ _ _ _ (copy_prefix_ok (length a) 0 loc path s v Hs ltac:(lia) ltac:(lia) eq_refl)).
      rewrite wr_ok by (rewrite length_app, length_take, length_drop; lia). by rewrite Nat2Z.id. }
  unfold bind. destruct (vfs_resolve_path _ _ _ v) as [[[rc|[mnt ino]] v']|]; done.
Qed.

End Mounts.
