(* ===== verification/VfsPathProofs.v ===== *)
(** * Absolute paths

    What [make_abs_path] of VfsPath.v computes, and when it fails. *)

From stdpp Require Import base tactics numbers list gmap.
From S2P Require Import Prelude Kstring Fd FsOps Vfs VfsPath.

(** The absolute path that the path [s] stands for in directory [cwd]. *)
Definition abs_path (cwd s : list Z) : list Z :=
  if decide (nthZ s 0 = SLASH) then s
  else if decide (cwd = []) then SLASH :: s
  else if decide (last cwd = Some SLASH) then cwd ++ s
  else cwd ++ SLASH :: s.

Section Abs.
Context {F : Type}.
Implicit Types v : vfs F.

(** The current directory of the process in control; empty when there is no
    process. *)
Definition cur_cwd v : list Z :=
  if current v =? 0 then []
  else match procs v !! current v with Some q => str_of (v_cwd q) | None => [] end.

(** The current process exists and its directory is a string of the array. *)
Definition cwd_wf v : Prop :=
  current v = 0 \/ exists q, procs v !! current v = Some q /\ 0 ∈ v_cwd q /\ length (v_cwd q) = 256%nat.

Lemma current_proc_ok v :
  cwd_wf v -> exists p, current_proc v = Ok (p, v) /\
    match p with
    | None => current v = 0 /\ cur_cwd v = []
    | Some q => current v <> 0 /\ procs v !! current v = Some q /\ holds (v_cwd q) (cur_cwd v) /\
                (length (cur_cwd v) < 256)%nat
    end.
Proof.
  intros Hw. unfold current_proc, cur_cwd. run. unfold id.
  destruct (Z.eqb_spec (current v) 0) as [E|E]; [by exists None|].
  destruct Hw as [?|(q & Hq & Hn & Hl)]; [done|]. exists (Some q). rewrite Hq.
  pose proof (str_of_holds _ Hn) as Hh. pose proof (holds_length _ _ Hh). split_and!; try done. lia.
Qed.

(** The copy loop: [k] bytes are copied, all of them or as many as fit. *)
Lemma copy_path_ok n src s (j i : nat) buf v :
  holds src s -> (j <= length s)%nat -> (i + n <= length buf)%nat ->
  let k := (n `min` (length s - j))%nat in
  copy_path n src (Z.of_nat j) buf (Z.of_nat i) v =
  Ok (Z.of_nat (i + k), Z.of_nat (j + k), take i buf ++ take k (drop j s) ++ drop (i + k) buf, v).
Proof.
  intros Hs. revert j i buf. induction n as [|n IH]; intros j i buf Hj Hi k; cbn [copy_path].
  - rewrite (bind_ok _ _ _ _ _ (rd_holds src s (Z.of_nat j) v Hs ltac:(lia))). subst k. simpl.
    rewrite !Nat.add_0_r, take_drop. by destruct (_ =? 0).
  - rewrite (bind_ok _ _ _ _ _ (rd_holds src s (Z.of_nat j) v Hs ltac:(lia))).
    destruct (decide (j = length s)) as [->|Hne].
    { rewrite nthZ_end. subst k. rewrite Nat.sub_diag, Nat.min_0_r, !Nat.add_0_r. simpl. by rewrite take_drop. }
    rewrite (proj2 (Z.eqb_neq _ _)) by (apply (nthZ_nonzero src); [done|lia]).
    rewrite (bind_ok _ _ _ _ _ (wr_ok buf (Z.of_nat i) _ v ltac:(lia))). rewrite Nat2Z.id.
    replace (Z.of_nat i + 1) with (Z.of_nat (S i)) by lia. replace (Z.of_nat j + 1) with (Z.of_nat (S j)) by lia.
    rewrite IH by (rewrite ?length_insert; lia). subst k.
    replace (S n `min` (length s - j))%nat with (S (n `min` (length s - S j))) by lia.
    set (k := (n `min` (length s - S j))%nat).
    destruct (lookup_lt_is_Some_2 s j ltac:(lia)) as [c Hc].
    assert (nthZ s (Z.of_nat j) = c) as -> by (unfold nthZ; by rewrite Nat2Z.id, Hc).
    rewrite (drop_S s c j Hc). cbn [take]. rewrite drop_insert_lt by lia.
    rewrite (take_S_r _ i c) by (apply list_lookup_insert_eq; lia). rewrite take_insert_ge by lia.
    rewrite <- app_assoc. cbn [app]. by rewrite !Nat.add_succ_r.
Qed.

(** A copy of all of [s] that is then terminated. *)
Lemma copy_path_end n src s i buf v :
  holds src s -> (i + n < length buf)%nat ->
  exists buf1 k, copy_path n src 0 buf (Z.of_nat i) v = Ok (Z.of_nat (i + k), Z.of_nat k, buf1, v) /\
    length buf1 = length buf /\ rd src (Z.of_nat k) v = Ok (nthZ s (Z.of_nat k), v) /\
    (k <= length s)%nat /\ (nthZ s (Z.of_nat k) = 0 <-> (length s <= n)%nat) /\
    ((length s <= n)%nat -> k = length s /\ wr buf1 (Z.of_nat (i + k)) 0 v =
       Ok (take i buf ++ s ++ 0 :: drop (i + length s + 1) buf, v)).
Proof.
  intros Hs Hi. pose proof (copy_path_ok n src s 0 i buf v Hs ltac:(lia) ltac:(lia)) as E.
  cbv zeta in E. rewrite Nat.sub_0_r, drop_0 in E. set (k := (n `min` length s)%nat) in E.
  assert (length (take i buf ++ take k s ++ drop (i + k) buf) = length buf) as Hl
    by (rewrite !length_app, !length_take, length_drop; lia).
  eexists _, k. split; [exact E|]. split; [exact Hl|]. split; [by apply rd_holds; [done|lia]|].
  split; [lia|]. split.
  - split; [|intros; replace k with (length s) by lia; apply nthZ_end].
    intros Hz. destruct (decide (length s <= n)%nat); [done|]. exfalso.
    by apply (nthZ_nonzero src s (Z.of_nat k) Hs); [lia|].
  - intros Hle. replace k with (length s) in * by lia. split; [done|]. rewrite wr_ok by (rewrite Hl; lia).
    rewrite Nat2Z.id, insert_take_drop by (rewrite Hl; lia). rewrite (take_ge s) by lia. do 2 f_equal.
    assert (length (take i buf ++ s) = (i + length s)%nat) as Hp by (rewrite length_app, length_take; lia).
    rewrite app_assoc. rewrite take_app_length' by done. rewrite drop_app_ge by lia. rewrite drop_drop, <- app_assoc.
    do 4 f_equal. lia.
Qed.

(** The last loop of [make_abs_path], behind the [i] bytes in place. *)
Lemma copy_tail_ok src s i (buf pre : list Z) n v :
  holds src s -> take i buf = pre -> Forall (fun c => c <> 0) pre -> (i <= length buf)%nat ->
  (i + n + 1 = length buf)%nat ->
  exists rc buf',
    (' (i1, j, buf) ← copy_path n src 0 buf (Z.of_nat i);
     c ← rd src j;
     if negb (c =? 0) then ret (- ENAMETOOLONG, buf)
     else buf ← wr buf i1 0; ret (0, buf)) v = Ok ((rc, buf'), v) /\ length buf' = length buf /\
    if decide (length (pre ++ s) < length buf)%nat then rc = 0 /\ holds buf' (pre ++ s)
    else rc = - ENAMETOOLONG.
Proof.
  intros Hs Hpre Hnz Hi Hn. destruct (copy_path_end n src s i buf v Hs ltac:(lia)) as (buf1 & k & E & Hl & Er & Hk & Hz & Hw).
  assert (length pre = i) as Hli by (rewrite <- Hpre, length_take; lia).
  rewrite (bind_ok _ _ _ _ _ E). cbv beta iota. rewrite (bind_ok _ _ _ _ _ Er). rewrite length_app.
  destruct (decide (length s <= n)%nat) as [Hle|Hgt].
  - rewrite (proj2 (Z.eqb_eq _ _)) by (by apply Hz). cbn [negb]. destruct (Hw Hle) as [-> Ew].
    rewrite (bind_ok _ _ _ _ _ Ew). eexists _, _. split; [done|]. split.
    { rewrite !length_app. cbn [length]. rewrite length_take, length_drop. lia. }
    rewrite decide_True by lia. split; [done|]. rewrite Hpre, app_assoc. apply holds_intro.
    apply Forall_app. split; [done|apply Hs].
  - rewrite (proj2 (Z.eqb_neq _ _)) by (rewrite Hz; lia). cbn [negb]. eexists _, _. split; [done|]. split; [done|].
    rewrite decide_False by lia. done.
Qed.

(** The same at the start of the buffer, where the two indices agree. *)
Lemma copy_all_ok src s (buf : list Z) v :
  holds src s -> (0 < length buf)%nat ->
  exists rc buf',
    (' (i, _, buf) ← copy_path (length buf - 1) src 0 buf 0;
     c ← rd src i;
     if negb (c =? 0) then ret (- ENAMETOOLONG, buf)
     else buf ← wr buf i 0; ret (0, buf)) v = Ok ((rc, buf'), v) /\ length buf' = length buf /\
    if decide (length s < length buf)%nat then rc = 0 /\ holds buf' s else rc = - ENAMETOOLONG.
Proof.
  intros Hs Hl. destruct (copy_tail_ok src s 0 buf [] (length buf - 1) v Hs) as (rc & buf' & E & Hlen & H); [done|done|lia|lia|].
  exists rc, buf'. split; [|done]. rewrite <- E.
  destruct (copy_path_end (length buf - 1) src s 0 buf v Hs ltac:(lia)) as (buf1 & k & E1 & _).
  change (Z.of_nat 0) with 0 in *. by rewrite !(bind_ok _ _ _ _ _ E1).
Qed.

(** The directory copied in front of a relative path. *)
Lemma copy_cwd_ok cwd d (buf : list Z) n v :
  holds cwd d -> d <> [] -> (length d <= n)%nat -> (n < length buf)%nat ->
  exists buf1, copy_path n cwd 0 buf 0 v = Ok (Z.of_nat (length d), Z.of_nat (length d), buf1, v) /\
    length buf1 = length buf /\ take (length d) buf1 = d /\ rd cwd (Z.of_nat (length d)) v = Ok (0, v) /\
    (l ← rd buf1 (Z.of_nat (length d) - 1); ret (negb (l =? SLASH))) v =
      Ok (negb (bool_decide (last d = Some SLASH)), v).
Proof.
  intros Hd Hne Hn Hb. pose proof (copy_path_ok n cwd d 0 0 buf v Hd ltac:(lia) ltac:(lia)) as E.
  cbv zeta in E. rewrite Nat.sub_0_r, drop_0, Nat.min_r, !Nat.add_0_l, (take_ge d) in E by lia.
  exists (d ++ drop (length d) buf). split; [exact E|].
  split; [rewrite length_app, length_drop; lia|]. split; [apply take_app_length|]. split; [by apply nth_holds_end|].
  destruct d as [|x d' _] using rev_ind; [done|].
  erewrite bind_ok by (apply rd_ok; [rewrite length_app; simpl; lia|
    rewrite length_app, lookup_app_l by (rewrite length_app; simpl; lia); simpl;
    replace (Z.to_nat (Z.of_nat (length d' + 1) - 1)) with (length d') by lia; by apply list_lookup_middle]).
  rewrite last_snoc. unfold ret. do 3 f_equal. rewrite eqb_bool_decide. apply bool_decide_ext. split; congruence.
Qed.

(** [make_abs_path] gives the absolute path, or [ENAMETOOLONG] exactly when it
    does not fit. *)
Lemma make_abs_path_ok path s (buf : list Z) bufsz v :
  cwd_wf v -> holds path s -> Z.of_nat (length buf) = bufsz -> 258 <= bufsz ->
  exists rc buf', make_abs_path (Some path) buf bufsz v = Ok ((rc, buf'), v) /\ length buf' = length buf /\
    if decide (Z.of_nat (length (abs_path (cur_cwd v) s)) < bufsz)
    then rc = 0 /\ holds buf' (abs_path (cur_cwd v) s) else rc = - ENAMETOOLONG.
Proof.
  intros Hw Hs Hb Hsz. unfold make_abs_path, abs_path. rewrite (proj2 (Z.ltb_ge bufsz 2)) by lia.
  rewrite (bind_ok _ _ _ _ _ (rd_holds path s 0 v Hs ltac:(lia))).
  assert (forall a : list Z, (Z.of_nat (length a) < bufsz) <-> (length a < length buf)%nat) as Hfit by lia.
  destruct (Z.eqb_spec (nthZ s 0) SLASH) as [E0|E0].
  { rewrite decide_True by done. replace (Z.to_nat (bufsz - 1)) with (length buf - 1)%nat by lia.
    destruct (copy_all_ok path s buf v Hs ltac:(lia)) as (rc & buf' & E & Hl & H). exists rc, buf'.
    split; [done|]. split; [done|]. by rewrite (decide_ext _ _ _ _ (Hfit s)). }
  rewrite decide_False by done. destruct (current_proc_ok v Hw) as (p & Ep & Hp).
  rewrite (bind_ok _ _ _ _ _ Ep).
  assert ((match p with
           | None => ret None
           | Some q => c ← rd (v_cwd q) 0; ret (if c =? 0 then None else Some (v_cwd q))
           end) v = Ok (if decide (cur_cwd v = []) then None else v_cwd <$> p, v)) as Ec.
  { destruct p as [q|]; [|destruct Hp as [_ ->]; done]. destruct Hp as (_ & _ & Hh & _).
    rewrite (bind_ok _ _ _ _ _ (rd_holds _ _ 0 v Hh ltac:(lia))). destruct (cur_cwd v) as [|c d]; [done|].
    rewrite decide_False by done. change (nthZ (c :: d) 0) with c.
    rewrite (proj2 (Z.eqb_neq _ _)) by (destruct Hh as [Hh _]; by inversion Hh). done. }
  rewrite (bind_ok _ _ _ _ _ Ec). destruct (decide (cur_cwd v = [])) as [Ed|Ed].
  - rewrite (bind_ok _ _ _ _ _ (wr_ok buf 0 SLASH v ltac:(lia))). change (Z.to_nat 0) with 0%nat.
    change 1 with (Z.of_nat 1).
    destruct (copy_tail_ok path s 1 (<[0%nat := SLASH]> buf) [SLASH] (Z.to_nat (bufsz - 2)) v Hs)
      as (rc & buf' & E & Hl & H).
    { destruct buf; [simpl in Hb; lia|done]. }
    { by repeat constructor. }
    { rewrite length_insert. lia. }
    { rewrite length_insert. lia. }
    rewrite length_insert in *. exists rc, buf'. split; [exact E|]. split; [done|].
    by rewrite (decide_ext _ _ _ _ (Hfit (SLASH :: s))).
  - destruct p as [q|]; [|by destruct Hp]. destruct Hp as (_ & _ & Hh & Hlen). cbn [fmap option_fmap option_map].
    destruct (copy_cwd_ok (v_cwd q) (cur_cwd v) buf (Z.to_nat (bufsz - 2)) v Hh Ed ltac:(lia) ltac:(lia))
      as (buf1 & E1 & Hl1 & Ht1 & Er & Es).
    rewrite (bind_ok _ _ _ _ _ E1). cbv beta iota. rewrite (bind_ok _ _ _ _ _ Er). cbn [negb Z.eqb].
    rewrite (proj2 (Z.eqb_neq (Z.of_nat (length (cur_cwd v))) 0)) by (destruct (cur_cwd v); [done|cbn [length]; lia]).
    rewrite (bind_ok _ _ _ _ _ Es). rewrite (proj2 (Z.leb_gt (bufsz - 2) _)), andb_false_r by lia.
    assert (Forall (fun c => c <> 0) (cur_cwd v)) as Hnz by apply Hh.
    case_bool_decide as Hlast; cbn [negb].
    + rewrite decide_True by done. rewrite bind_ret.
      destruct (copy_tail_ok path s (length (cur_cwd v)) buf1 (cur_cwd v) (Z.to_nat (bufsz - 1 - Z.of_nat (length (cur_cwd v)))) v Hs)
        as (rc & buf' & E & Hl & H); [done|done|lia|lia|].
      exists rc, buf'. split; [exact E|]. split; [lia|]. rewrite (decide_ext _ _ _ _ (Hfit (cur_cwd v ++ s))), <- Hl1. exact H.
    + rewrite decide_False by done.
      rewrite (bind_ok _ _ _ _ _ (wr_ok buf1 (Z.of_nat (length (cur_cwd v))) SLASH v ltac:(lia))). rewrite Nat2Z.id.
      replace (Z.of_nat (length (cur_cwd v)) + 1) with (Z.of_nat (S (length (cur_cwd v)))) by lia.
      destruct (copy_tail_ok path s (S (length (cur_cwd v))) (<[length (cur_cwd v) := SLASH]> buf1) (cur_cwd v ++ [SLASH])
        (Z.to_nat (bufsz - 1 - Z.of_nat (S (length (cur_cwd v))))) v Hs) as (rc & buf' & E & Hl & H).
      { rewrite (take_S_r _ _ SLASH) by (apply list_lookup_insert_eq; lia). rewrite take_insert_ge by lia. by rewrite Ht1. }
      { apply Forall_app. split; [done|by repeat constructor]. }
      { rewrite length_insert. lia. }
      { rewrite length_insert. lia. }
      rewrite length_insert in *. exists rc, buf'. split; [exact E|]. split; [lia|].
      rewrite <- app_assoc in H. rewrite (decide_ext _ _ _ _ (Hfit (cur_cwd v ++ SLASH :: s))), <- Hl1. exact H.
Qed.
End Abs.
