(* ===== verification/VfsSafe.v ===== *)
(** * The VFS: invariant of descriptors and open files

    The VFS over any file systems that keep the promises of [FsSafe]: its
    invariant, and the effect of the helpers that look descriptors and paths up.
    The reference count of an open file is the number of descriptors, of all
    processes, that refer to it. *)

From stdpp Require Import base tactics numbers list gmap.
From S2P Require Import Prelude Kstring Fd FsOps Vfs VfsPath VfsFd VfsProofs VfsPathProofs.

(** ** Counting the descriptors of an open file *)

(** The descriptor refers to open file [i]. *)
Definition refers (i : Z) (e : proc_fd) : Prop := of_idx e = i + 1.
#[export] Instance refers_dec i e : Decision (refers i e).
Proof. unfold refers. apply _. Defined.

Definition uses_in (i : Z) (t : list proc_fd) : nat := length (filter (refers i) t).

Definition tables (kt : list proc_fd) (ps : gmap Z vproc) : list (list proc_fd) :=
  kt :: (v_fds <$> (map_to_list ps).*2).

Definition uses_of (i : Z) (kt : list proc_fd) (ps : gmap Z vproc) : nat :=
  sum_list_with (uses_in i) (tables kt ps).

Definition one_if (P : Prop) `{!Decision P} : nat := if decide P then 1%nat else 0%nat.

Lemma one_if_true (P : Prop) `{!Decision P} : P -> one_if P = 1%nat.
Proof. unfold one_if. by case_decide. Qed.

Lemma one_if_false (P : Prop) `{!Decision P} : ~ P -> one_if P = 0%nat.
Proof. unfold one_if. by case_decide. Qed.

Lemma uses_in_insert i t (k : nat) e e' :
  t !! k = Some e ->
  (uses_in i (<[k := e']> t) + one_if (refers i e) = uses_in i t + one_if (refers i e'))%nat.
Proof.
  intros Hk. assert (k < length t)%nat by (by eapply lookup_lt_Some).
  rewrite <- (take_drop_middle t k e Hk) at 2. rewrite insert_take_drop by done. unfold uses_in, one_if.
  rewrite !filter_app, !length_app. rewrite !filter_cons. repeat case_decide; simpl; lia.
Qed.

Lemma uses_in_le i t : (uses_in i t <= length t)%nat.
Proof. apply length_filter. Qed.

Lemma uses_in_pos i t (k : nat) e : t !! k = Some e -> refers i e -> (0 < uses_in i t)%nat.
Proof.
  intros Hk Hr. unfold uses_in. destruct (filter (refers i) t) eqn:Ef; [|simpl; lia]. exfalso.
  assert (e ∈ filter (refers i) t) as Hin by (apply list_elem_of_filter; split; [done|by eapply list_elem_of_lookup_2]).
  rewrite Ef in Hin. by apply not_elem_of_nil in Hin.
Qed.

Lemma uses_of_proc i kt ps k q q' :
  ps !! k = Some q ->
  (uses_of i kt (<[k := q']> ps) + uses_in i (v_fds q) = uses_of i kt ps + uses_in i (v_fds q'))%nat.
Proof.
  intros Hk. unfold uses_of, tables. simpl.
  assert (forall q', sum_list_with (uses_in i) (v_fds <$> (map_to_list (<[k := q']> ps)).*2) =
    uses_in i (v_fds q') + sum_list_with (uses_in i) (v_fds <$> (map_to_list (delete k ps)).*2))%nat as H.
  { intros x. rewrite <- insert_delete_eq, map_to_list_insert by apply lookup_delete_eq. done. }
  rewrite H. rewrite <- (insert_id ps k q Hk) at 2. rewrite H. simpl. lia.
Qed.

Lemma uses_of_le i kt ps :
  (length kt = 64)%nat -> (forall k q, ps !! k = Some q -> length (v_fds q) = 64%nat) ->
  (uses_of i kt ps <= 64 * (1 + size ps))%nat.
Proof.
  intros Hk. unfold uses_of, tables. cbn [sum_list_with]. pose proof (uses_in_le i kt).
  induction ps as [|k q ps Hn IH] using map_ind; intros Hq.
  { rewrite map_to_list_empty, map_size_empty, !fmap_nil. cbn [sum_list_with]. lia. }
  rewrite map_to_list_insert, map_size_insert_None, !fmap_cons by done. cbn [sum_list_with fst snd].
  pose proof (uses_in_le i (v_fds q)). rewrite (Hq k q) in * by apply lookup_insert_eq.
  assert (forall k' q', ps !! k' = Some q' -> length (v_fds q') = 64%nat) as Hq'.
  { intros k' q' Hk'. apply (Hq k' q'). rewrite lookup_insert_ne; [done|congruence]. }
  specialize (IH Hq'). lia.
Qed.

Lemma uses_of_pos_proc i kt ps k q :
  ps !! k = Some q -> (0 < uses_in i (v_fds q))%nat -> (0 < uses_of i kt ps)%nat.
Proof.
  intros Hk Hp. unfold uses_of, tables. simpl.
  assert (map_to_list ps ≡ₚ (k, q) :: map_to_list (delete k ps)) as Hperm.
  { rewrite <- map_to_list_insert by apply lookup_delete_eq. by rewrite insert_delete_id. }
  rewrite Hperm. simpl. lia.
Qed.

(** ** The invariant *)

Section Safe.
Context {F : Type}.
Variable vtables : Z -> option (fs_ops F).
Variable junk : Z -> Z.
Variable inv : F -> Prop.
Variable ino : Z -> Z -> Prop.
Hypothesis safe : forall p ops, vtables p = Some ops -> FsSafe ops inv (ino p).
Implicit Types v : vfs F.

(** The vtable pointer [p] is valid and [i] is an inode number of it. *)
Definition node_at (p i : Z) : Prop := (exists ops, vtables p = Some ops) /\ ino p i.

Definition mount_safe (m : mount) : Prop :=
  length (m_target m) = 64%nat /\
  (m_in_use m = true -> 0 ∈ m_target m /\ m_ops m <> 0 /\ node_at (m_ops m) (m_root m)).

Definition file_safe (o : open_file) : Prop :=
  is_u32 (o_pos o) /\ (o_refcount o <> 0 -> o_fs o = 0 \/ node_at (o_fs o) (o_inode o)).

Definition proc_safe (q : vproc) : Prop :=
  length (v_fds q) = 64%nat /\ Forall (fun e => is_u32 (of_idx e)) (v_fds q) /\
  length (v_cwd q) = 256%nat /\ 0 ∈ v_cwd q.

Definition slot_safe (s : option dentry) : Prop :=
  match s with Some d => length (d_path d) = 64%nat | None => True end.

Record vfs_wf (ms : list mount) (fs : list open_file) (kt : list proc_fd) (ps : gmap Z vproc)
    (cur : Z) (sl : list (option dentry)) : Prop := {
  vw_mounts_len : length ms = 8%nat;
  vw_mounts : Forall mount_safe ms;
  vw_files_len : length fs = 64%nat;
  vw_files : Forall file_safe fs;
  vw_kernel : length kt = 64%nat /\ Forall (fun e => is_u32 (of_idx e)) kt;
  vw_procs : forall k q, ps !! k = Some q -> proc_safe q;
  vw_nprocs : (size ps <= 128)%nat;
  vw_current : cur = 0 \/ exists q, ps !! cur = Some q;
  vw_slots_len : length sl = 32%nat;
  vw_slots : Forall slot_safe sl
}.

Definition vfs_static v : Prop :=
  vfs_wf (mounts v) (open_files v) (kernel_fd_table v) (procs v) (current v) (g_slots v).

(** The reference count of open file [i], and the descriptors that refer to it. *)
Definition v_refs (i : nat) v : Z := default 0 (o_refcount <$> open_files v !! i).
Definition v_uses (i : nat) v : nat := uses_of (Z.of_nat i) (kernel_fd_table v) (procs v).

Definition refs_ok v : Prop := forall i, (i < 64)%nat -> v_refs i v = Z.of_nat (v_uses i v).

Definition vfs_inv v : Prop := vfs_static v /\ refs_ok v /\ inv (fsst v).

(** Only the file systems have changed since [v]. *)
Definition only_fs v v' : Prop := exists f, v' = set_fsst f v /\ inv f.

Lemma only_fs_refl v : inv (fsst v) -> only_fs v v.
Proof. intros H. exists (fsst v). split; [by destruct v|done]. Qed.

Lemma only_fs_trans v v1 v2 : only_fs v v1 -> only_fs v1 v2 -> only_fs v v2.
Proof. intros (f & -> & _) (g & -> & Hg). by exists g. Qed.

Lemma only_fs_static v v' : vfs_static v -> only_fs v v' -> vfs_static v' /\ inv (fsst v').
Proof. by intros Hs (f & -> & Hf). Qed.

Lemma only_fs_inv v v' : vfs_inv v -> only_fs v v' -> vfs_inv v'.
Proof. by intros (Hs & Hr & _) (f & -> & Hf). Qed.

(** A call into the file system. *)
Lemma fs_call_wp {A} (m : ST F A) v (P : A -> F -> Prop) :
  wp m P (fsst v) -> (forall a f, P a f -> inv f) ->
  wp (fs_call m) (fun a v' => only_fs v v' /\ P a (fsst v')) v.
Proof.
  intros Hm Hi. unfold fs_call. apply wp_zoom. eapply wp_mono; [exact Hm|]. simpl. intros a f HP.
  split; [|done]. exists f. split; [done|by eapply Hi].
Qed.

Lemma vtable_ok p ops v : vtables p = Some ops -> vtable vtables p v = Ok (ops, v).
Proof. intros H. unfold vtable. by rewrite H. Qed.

Lemma static_mounts v : vfs_static v -> mounts_wf v.
Proof.
  intros H. split; [apply H|]. eapply Forall_impl; [apply H|]. intros m (Hl & Hu). split; [done|]. intros ?. by apply Hu.
Qed.

Lemma static_mounted v i m : vfs_static v -> mounted v i m -> mount_safe m.
Proof. intros H (_ & Hm & _). by eapply (Forall_lookup_1 _ _ _ _ (vw_mounts _ _ _ _ _ _ H)). Qed.

Lemma static_cwd v : vfs_static v -> cwd_wf v.
Proof.
  intros H. destruct (vw_current _ _ _ _ _ _ H) as [?|[q Hq]]; [by left|right]. exists q. split; [done|].
  destruct (vw_procs _ _ _ _ _ _ H _ _ Hq) as (_ & _ & ? & ?). done.
Qed.

Lemma static_ops v : vfs_static v -> mount_ops_ok vtables v.
Proof.
  intros H i m Hm. destruct (static_mounted v i m H Hm) as [_ Hs]. destruct Hm as (_ & _ & Hu).
  destruct (Hs Hu) as (_ & Hnz & [ops Hv] & _). exists ops. split; [done|]. split; [done|].
  intros o Ho d buf s f Hh. by eapply (safe_resolve_string (FsSafe := safe _ _ Hv)).
Qed.

(** ** Paths *)

Lemma walk_ref_safe p ops o priv i cs f :
  vtables p = Some ops -> op_resolve ops = Some o -> inv f -> ino p i ->
  wp (walk_ref (o priv) i cs) (fun r f' => inv f' /\ (r = 0 \/ ino p r)) f.
Proof.
  intros Hv Ho. revert i f. induction cs as [|c cs IH]; intros i f Hf Hi; cbn [walk_ref].
  { apply wp_ret. auto. }
  eapply (wp_step _ _ (fun r f' => inv f' /\ (r = 0 \/ ino p r))).
  - destruct (decide (c = [DOT])); [apply wp_ret; auto|].
    eapply (safe_resolve (FsSafe := safe _ _ Hv)); try done. apply elem_of_app. right. by left.
  - intros r f' [Hf' Hr]. destruct (Z.eqb_spec r 0); [apply wp_ret; auto|]. apply IH; [done|]. by destruct Hr.
Qed.

(** The mount [i] and an inode of it, which a path led to. *)
Definition found v (i n : Z) : Prop := exists m, mounted v i m /\ node_at (m_ops m) n.

Lemma resolve_path_safe v path s :
  vfs_static v -> inv (fsst v) -> holds path s ->
  wp (vfs_resolve_path vtables junk (Some path))
    (fun r v' => only_fs v v' /\ match r with inl e => e < 0 | inr (i, n) => found v i n end) v.
Proof.
  intros Hs Hi Hp. destruct (decide (nthZ s 0 = SLASH)) as [H0|H0].
  2: { unfold vfs_resolve_path. eapply wp_bind_ok; [apply (rd_holds path s 0 v Hp); lia|].
       rewrite (proj2 (Z.eqb_neq _ _)) by done. cbn [negb]. apply wp_ret. split; [by apply only_fs_refl|done]. }
  destruct (resolve_path_ok vtables junk path s v) as [[E _]|(i & m & ops & (Hm & _) & Hv & E)]; try done.
  { by apply static_mounts. } { by apply static_ops. }
  { eapply wp_ok; [exact E|]. split; [by apply only_fs_refl|done]. }
  unfold wp. rewrite E. destruct (static_mounted v i m Hs Hm) as [_ Hms].
  destruct (Hms ltac:(apply Hm)) as (_ & _ & Hnode). destruct (op_resolve ops) as [o|] eqn:Eo.
  2: { split; [by apply only_fs_refl|done]. }
  fold (wp (ino0 ← fs_call (walk_ref (o (m_priv m)) (m_root m) (components (drop (length (str_of (m_target m))) s)));
     ret (if ino0 =? 0 then inl (- ENOENT) else inr (i, ino0)))
     (fun r v' => only_fs v v' /\ match r with inl e => e < 0 | inr (i, n) => found v i n end) v).
  eapply wp_step.
  - eapply fs_call_wp; [eapply walk_ref_safe; try done; apply Hnode|]. by intros ?? [? _].
  - intros n v' (Hfs & _ & Hn). apply wp_ret. split; [done|]. destruct (Z.eqb_spec n 0); [done|].
    exists m. split; [done|]. split; [by exists ops|]. by destruct Hn.
Qed.

Lemma split_last (s : list Z) : SLASH ∈ s -> exists a b, s = a ++ SLASH :: b /\ SLASH ∉ b.
Proof.
  induction s as [|c s IH]; intros H; [by apply not_elem_of_nil in H|].
  destruct (decide (SLASH ∈ s)) as [Hs|Hs].
  - destruct (IH Hs) as (a & b & -> & Hb). by exists (c :: a), b.
  - apply elem_of_cons in H as [<-|?]; [|done]. by exists [], s.
Qed.

Lemma slash_first (s : list Z) : nthZ s 0 = SLASH -> SLASH ∈ s.
Proof. destruct s as [|c s]; [done|]. intros <-. left. Qed.

Lemma holds_nul buf s : holds buf s -> 0 ∈ buf.
Proof. intros (_ & r & ->). apply elem_of_app. right. left. Qed.

Lemma resolve_parent_safe v path s :
  vfs_static v -> inv (fsst v) -> holds path s ->
  wp (vfs_resolve_parent_and_leaf vtables junk (Some path))
    (fun r v' => only_fs v v' /\
       match r with inl e => e < 0 | inr (i, n, leaf) => found v i n /\ 0 ∈ leaf end) v.
Proof.
  intros Hs Hi Hp. destruct (decide (nthZ s 0 = SLASH)) as [H0|H0].
  2: { unfold vfs_resolve_parent_and_leaf. eapply wp_bind_ok; [apply (rd_holds path s 0 v Hp); lia|].
       rewrite (proj2 (Z.eqb_neq _ _)) by done. cbn [negb]. apply wp_ret. split; [by apply only_fs_refl|done]. }
  destruct (split_last s (slash_first s H0)) as (a & b & Es & Hb).
  destruct (resolve_parent_ok vtables junk path s a b v Hp Es Hb H0) as (pb & Hpb & E).
  destruct (decide (b = [])); [eapply wp_ok; [exact E|]; split; [by apply only_fs_refl|done]|].
  destruct (decide (512 <= length a)%nat); [eapply wp_ok; [exact E|]; split; [by apply only_fs_refl|done]|].
  assert (0 ∈ drop (length a + 1) path) as Hleaf.
  { eapply holds_nul, holds_drop; [done|]. rewrite Es, length_app. simpl. lia. }
  unfold wp. rewrite E. fold (wp (r ← vfs_resolve_path vtables junk (Some pb); ret match r with
      | inl rc => inl rc | inr (mnt, ino0) => inr (mnt, ino0, drop (length a + 1) path) end)
    (fun r v' => only_fs v v' /\
       match r with inl e => e < 0 | inr (i, n, leaf) => found v i n /\ 0 ∈ leaf end) v).
  eapply wp_step; [by eapply resolve_path_safe|]. intros [e|[i k]] v' [Hfs Hr]; by apply wp_ret.
Qed.

(** The absolute path in a local array. *)
Lemma make_abs_path_safe v path :
  vfs_static v -> 0 ∈ path ->
  exists rc buf, make_abs_path (Some path) (local junk PATH_BUF) PATH_BUF v = Ok ((rc, buf), v) /\
    (rc < 0 \/ rc = 0 /\ exists s, holds buf s).
Proof.
  intros Hs Hp. apply str_of_holds in Hp.
  destruct (make_abs_path_ok path (str_of path) (local junk PATH_BUF) PATH_BUF v (static_cwd v Hs) Hp)
    as (rc & buf & E & _ & H).
  { unfold local. by rewrite length_fmap, length_seqZ. }
  { done. }
  exists rc, buf. split; [done|]. case_decide; [|left; by rewrite H]. right. destruct H. eauto.
Qed.

(** [path_eq] and [dcache_invalidate]. *)
Lemma path_eq_loop_ok n (i : nat) a b s v :
  (i + n <= length a)%nat -> holds b s -> (i <= length s)%nat ->
  exists r, path_eq_loop n (Z.of_nat i) a b v = Ok (r, v).
Proof.
  revert i. induction n as [|n IH]; intros i Ha Hb Hi; cbn [path_eq_loop]; [by eexists|].
  rewrite (bind_ok _ _ _ _ _ (rd_nthZ a (Z.of_nat i) v ltac:(lia))).
  rewrite (bind_ok _ _ _ _ _ (rd_holds b s (Z.of_nat i) v Hb ltac:(lia))).
  destruct (Z.eqb_spec (nthZ a (Z.of_nat i)) (nthZ s (Z.of_nat i))) as [E|E]; cbn [negb]; [|by eexists].
  destruct (Z.eqb_spec (nthZ a (Z.of_nat i)) 0) as [E0|E0]; [by eexists|].
  replace (Z.of_nat i + 1) with (Z.of_nat (S i)) by lia. apply IH; [lia|done|].
  destruct (decide (i = length s)) as [->|]; [|lia]. rewrite nthZ_end in E. lia.
Qed.

Lemma invalidate_loop_safe n (i : nat) path v :
  vfs_inv v -> 0 ∈ path -> (i + n <= 32)%nat -> wp (invalidate_loop n (Z.of_nat i) path) (fun _ v' => vfs_inv v') v.
Proof.
  intros Hv Hp. apply str_of_holds in Hp. revert i. induction n as [|n IH]; intros i Hi; cbn [invalidate_loop]; [done|].
  pose proof Hv as (Hs & Hr & Hf). pose proof (vw_slots_len _ _ _ _ _ _ Hs) as Hl.
  apply wp_bind, wp_gets. unfold id.
  destruct (lookup_lt_is_Some_2 (g_slots v) i ltac:(lia)) as [sl Hsl].
  eapply wp_bind_ok; [apply rd_ok; [lia|by rewrite Nat2Z.id]|].
  replace (Z.of_nat i + 1) with (Z.of_nat (S i)) by lia. destruct sl as [d|]; [|apply IH; lia].
  pose proof (Forall_lookup_1 _ _ _ _ (vw_slots _ _ _ _ _ _ Hs) Hsl) as Hd. cbn [slot_safe] in Hd.
  destruct (path_eq_loop_ok 64 0 (d_path d) path _ v ltac:(lia) Hp ltac:(lia)) as [r Er].
  eapply wp_bind_ok; [exact Er|]. destruct r; [|apply IH; lia].
  eapply wp_bind_ok; [apply wr_ok; lia|]. apply wp_modify. split; [|done].
  destruct Hs as []. split; try done; cbn [mounts open_files kernel_fd_table procs current g_slots set_slots].
  - by rewrite length_insert.
  - by apply Forall_insert.
Qed.

Lemma dcache_invalidate_safe path v :
  vfs_inv v -> 0 ∈ path -> wp (dcache_invalidate (Some path)) (fun _ v' => vfs_inv v') v.
Proof. intros Hv Hp. unfold dcache_invalidate. change 0 with (Z.of_nat 0). apply invalidate_loop_safe; [done..|]. done. Qed.

(** ** Descriptors *)

Definition cur_table v : list proc_fd :=
  if current v =? 0 then kernel_fd_table v
  else match procs v !! current v with Some q => v_fds q | None => [] end.

Definition with_table (t : list proc_fd) v : vfs F :=
  if current v =? 0 then set_kernel_fds t v
  else match procs v !! current v with
       | Some q => set_procs (<[current v := set_fds t q]> (procs v)) v
       | None => v
       end.

Lemma current_ok v : vfs_static v -> exists p, current_proc v = Ok (p, v) /\
  match p with
  | None => current v = 0 /\ cur_table v = kernel_fd_table v
  | Some q => current v <> 0 /\ procs v !! current v = Some q /\ cur_table v = v_fds q
  end.
Proof.
  intros Hs. destruct (current_proc_ok v (static_cwd v Hs)) as (p & E & Hp). exists p. split; [done|].
  unfold cur_table. destruct p as [q|].
  - destruct Hp as (H0 & Hq & _). rewrite (proj2 (Z.eqb_neq _ _) H0), Hq. done.
  - destruct Hp as [-> _]. done.
Qed.

Lemma cur_table_safe v :
  vfs_static v -> length (cur_table v) = 64%nat /\ Forall (fun e => is_u32 (of_idx e)) (cur_table v).
Proof.
  intros Hs. destruct (current_ok v Hs) as (p & _ & Hp). destruct p as [q|].
  - destruct Hp as (_ & Hq & ->). destruct (vw_procs _ _ _ _ _ _ Hs _ _ Hq) as (? & ? & _). done.
  - destruct Hp as [_ ->]. apply Hs.
Qed.

Lemma fd_table_ok v : vfs_static v -> fd_table v = Ok (cur_table v, v).
Proof.
  intros Hs. destruct (current_ok v Hs) as (p & E & Hp). unfold fd_table. run. unfold id.
  rewrite (bind_ok _ _ _ _ _ E). destruct p; [destruct Hp as (_ & _ & ->)|destruct Hp as [_ ->]]; done.
Qed.

Lemma put_fd_table_ok t v : vfs_static v -> put_fd_table t v = Ok (tt, with_table t v).
Proof.
  intros Hs. destruct (current_ok v Hs) as (p & E & Hp). unfold put_fd_table.
  rewrite (bind_ok _ _ _ _ _ E). unfold with_table. destruct p as [q|].
  - destruct Hp as (H0 & Hq & _). by rewrite (proj2 (Z.eqb_neq _ _) H0), Hq.
  - destruct Hp as [-> _]. done.
Qed.

Lemma fd_at_ok v fd : vfs_static v -> 0 <= fd < 64 -> exists e, cur_table v !! Z.to_nat fd = Some e /\
  is_u32 (of_idx e) /\ fd_at fd v = Ok (e, v).
Proof.
  intros Hs Hfd. destruct (cur_table_safe v Hs) as [Hl Hu].
  destruct (lookup_lt_is_Some_2 (cur_table v) (Z.to_nat fd) ltac:(lia)) as [e He]. exists e. split; [done|].
  split; [by apply (Forall_lookup_1 _ _ _ _ Hu He)|].
  unfold fd_at. rewrite (bind_ok _ _ _ _ _ (fd_table_ok v Hs)). by apply rd_ok; [lia|].
Qed.

(** The effect of storing a table on the counts. *)
Lemma with_table_uses i t v :
  vfs_static v -> (v_uses i (with_table t v) + uses_in (Z.of_nat i) (cur_table v) =
                   v_uses i v + uses_in (Z.of_nat i) t)%nat.
Proof.
  intros Hs. destruct (current_ok v Hs) as (p & _ & Hp). unfold v_uses, with_table. destruct p as [q|].
  - destruct Hp as (H0 & Hq & ->). rewrite (proj2 (Z.eqb_neq _ _) H0), Hq. exact (uses_of_proc _ _ _ _ _ (set_fds t q) Hq).
  - destruct Hp as [-> ->]. simpl. unfold uses_of, tables. simpl. lia.
Qed.

(** ** Updates *)

Lemma with_table_refs i t v : v_refs i (with_table t v) = v_refs i v.
Proof. unfold v_refs, with_table. destruct (_ =? 0); [done|]. by destruct (procs v !! current v). Qed.

Lemma with_table_fs t v : fsst (with_table t v) = fsst v.
Proof. unfold with_table. destruct (_ =? 0); [done|]. by destruct (procs v !! current v). Qed.

Lemma with_table_rest t v : open_files (with_table t v) = open_files v /\ current (with_table t v) = current v.
Proof. unfold with_table. destruct (_ =? 0); [done|]. by destruct (procs v !! current v). Qed.

Lemma cur_table_with t v : vfs_static v -> cur_table (with_table t v) = t.
Proof.
  intros Hs. destruct (current_ok v Hs) as (p & _ & Hp). unfold with_table, cur_table. destruct p as [q|].
  - destruct Hp as (H0 & Hq & _). rewrite (proj2 (Z.eqb_neq _ _) H0), Hq. simpl.
    by rewrite (proj2 (Z.eqb_neq _ _) H0), lookup_insert_eq.
  - destruct Hp as [H0 _]. rewrite H0. simpl. by rewrite H0.
Qed.

Lemma with_table_static t v :
  vfs_static v -> length t = 64%nat -> Forall (fun e => is_u32 (of_idx e)) t -> vfs_static (with_table t v).
Proof.
  intros Hs Hl Ht. destruct (current_ok v Hs) as (p & _ & Hp). unfold with_table. destruct p as [q|].
  - destruct Hp as (H0 & Hq & _). rewrite (proj2 (Z.eqb_neq _ _) H0), Hq.
    destruct (vw_procs _ _ _ _ _ _ Hs _ _ Hq) as (_ & _ & Hc). destruct Hs. split; try done; simpl.
    + intros k q' Hk. apply lookup_insert_Some in Hk as [[<- <-]|[_ Hk]]; [done|by eapply vw_procs0].
    + rewrite map_size_insert_Some by done. done.
    + right. eexists. apply lookup_insert_eq.
  - destruct Hp as [-> _]. simpl. destruct Hs. split; try done; by left.
Qed.

Lemma put_fd_ok v fd e e' :
  vfs_static v -> 0 <= fd < 64 -> cur_table v !! Z.to_nat fd = Some e -> is_u32 (of_idx e') ->
  exists v', put_fd fd e' v = Ok (tt, v') /\ vfs_static v' /\ fsst v' = fsst v /\
    (forall i, v_refs i v' = v_refs i v) /\
    (forall i, v_uses i v' + one_if (refers (Z.of_nat i) e) = v_uses i v + one_if (refers (Z.of_nat i) e'))%nat /\
    open_files v' = open_files v /\ current v' = current v /\
    cur_table v' = <[Z.to_nat fd := e']> (cur_table v).
Proof.
  intros Hs Hfd He Hu. destruct (cur_table_safe v Hs) as [Hl Hf].
  exists (with_table (<[Z.to_nat fd := e']> (cur_table v)) v). split.
  { unfold put_fd. rewrite (bind_ok _ _ _ _ _ (fd_table_ok v Hs)).
    rewrite (bind_ok _ _ _ _ _ (wr_ok (cur_table v) fd e' v ltac:(lia))). by apply put_fd_table_ok. }
  split; [apply with_table_static; [done|by rewrite length_insert|by apply Forall_insert]|].
  split; [apply with_table_fs|]. split; [intros; apply with_table_refs|]. split.
  { intros i. pose proof (with_table_uses i (<[Z.to_nat fd := e']> (cur_table v)) v Hs).
    pose proof (uses_in_insert (Z.of_nat i) _ _ _ e' He). lia. }
  split; [apply with_table_rest|]. split; [apply with_table_rest|by apply cur_table_with].
Qed.

Lemma open_file_ok v i : vfs_static v -> 0 <= i < 64 ->
  exists o, open_files v !! Z.to_nat i = Some o /\ file_safe o /\ open_file_at i v = Ok (o, v) /\
    v_refs (Z.to_nat i) v = o_refcount o.
Proof.
  intros Hs Hi. destruct (lookup_lt_is_Some_2 (open_files v) (Z.to_nat i)) as [o Ho];
    [rewrite (vw_files_len _ _ _ _ _ _ Hs); lia|].
  exists o. split; [done|]. split; [by apply (Forall_lookup_1 _ _ _ _ (vw_files _ _ _ _ _ _ Hs) Ho)|].
  split; [unfold open_file_at; run; by apply rd_ok; [lia|]|]. unfold v_refs. by rewrite Ho.
Qed.

Lemma upd_open_file_ok v i o g :
  vfs_static v -> 0 <= i < 64 -> open_files v !! Z.to_nat i = Some o -> file_safe (g o) ->
  exists v', upd_open_file i g v = Ok (tt, v') /\ vfs_static v' /\ fsst v' = fsst v /\
    (forall k, v_refs k v' = if decide (k = Z.to_nat i) then o_refcount (g o) else v_refs k v) /\
    (forall k, v_uses k v' = v_uses k v) /\ cur_table v' = cur_table v /\ current v' = current v /\
    open_files v' = <[Z.to_nat i := g o]> (open_files v).
Proof.
  intros Hs Hi Ho Hg. pose proof (vw_files_len _ _ _ _ _ _ Hs) as Hl.
  exists (set_open_files (<[Z.to_nat i := g o]> (open_files v)) v). split.
  { unfold upd_open_file. run. unfold id. rewrite (bind_ok _ _ _ _ _ (rd_ok _ _ _ v (proj1 Hi) Ho)).
    by rewrite (bind_ok _ _ _ _ _ (wr_ok (open_files v) i (g o) v ltac:(lia))). }
  split. { destruct Hs. split; try done; simpl; [by rewrite length_insert|by apply Forall_insert]. }
  split; [done|]. split; [|done]. intros k. unfold v_refs. simpl. case_decide as Hk.
  - subst. by rewrite list_lookup_insert_eq by lia.
  - by rewrite list_lookup_insert_ne by done.
Qed.

End Safe.
