(* ===== verification/VfsCalls.v ===== *)
(** * The VFS: every call keeps the invariant

    Each entry point of VfsPath.v and VfsFd.v returns, whatever the file
    systems do within [FsSafe], and keeps the invariant of VfsSafe.v. *)

From stdpp Require Import base tactics numbers list gmap.
From S2P Require Import Prelude Kstring Fd FsOps Vfs VfsPath VfsFd VfsProofs VfsPathProofs VfsSafe.

Section Calls.
Context {F : Type}.
Variable vtables : Z -> option (fs_ops F).
Variable junk : Z -> Z.
Variable inv : F -> Prop.
Variable ino : Z -> Z -> Prop.
Hypothesis safe : forall p ops, vtables p = Some ops -> FsSafe ops inv (ino p).
Implicit Types v : vfs F.

Abbreviation vfs_static := (vfs_static vtables ino).
Abbreviation vfs_inv := (vfs_inv vtables inv ino).
Abbreviation only_fs := (only_fs inv).
Abbreviation file_safe := (file_safe vtables ino).

(** ** Looking a descriptor up *)

Lemma fd_lookup_ok v fd :
  vfs_static v -> exists r, fd_to_of_idx_locked fd v = Ok (r, v) /\
    (r = -1 \/ 0 <= r < 64 /\ exists o, open_files v !! Z.to_nat r = Some o /\ file_safe o /\ o_refcount o <> 0).
Proof.
  intros Hs. unfold fd_to_of_idx_locked, fd_resolve_slot.
  destruct (current_ok _ _ v Hs) as (p & E & _). rewrite bind_assoc, (bind_ok _ _ _ _ _ E).
  replace (match p with Some _ => MAX_OPEN_FILES | None => VFS_MAX_OPEN_FILES end) with 64 by (by destruct p).
  destruct (Z.ltb_spec fd 0); cbn [orb]; [eexists; split; [reflexivity|by left]|].
  destruct (Z.leb_spec 64 fd); [eexists; split; [reflexivity|by left]|]. run.
  destruct (fd_at_ok _ _ v fd Hs ltac:(lia)) as (e & He & Hu & Ee). rewrite (bind_ok _ _ _ _ _ Ee).
  destruct (Z.eqb_spec (of_idx e) 0); [eexists; split; [reflexivity|by left]|]. unfold is_u32 in Hu.
  rewrite (u32_id (of_idx e - 1)) by (unfold is_u32; lia). unfold VFS_MAX_OPEN_FILES.
  destruct (Z.leb_spec 64 (of_idx e - 1)); [eexists; split; [reflexivity|by left]|].
  destruct (open_file_ok _ _ v (of_idx e - 1) Hs ltac:(lia)) as (o & Ho & Hf & Eo & _).
  rewrite (bind_ok _ _ _ _ _ Eo). destruct (Z.eqb_spec (o_refcount o) 0); [eexists; split; [reflexivity|by left]|].
  rewrite s32_small by lia. eexists. split; [reflexivity|]. right. split; [lia|]. by exists o.
Qed.

(** The shape shared by the calls that start from a descriptor. *)
Lemma with_file_wp {A} fd (bad : A) (k : Z -> open_file -> ST (vfs F) A) Q v :
  vfs_static v -> Q bad v ->
  (forall i o, 0 <= i < 64 -> open_files v !! Z.to_nat i = Some o -> file_safe o -> o_refcount o <> 0 ->
     wp (k i o) Q v) ->
  wp (i ← fd_to_of_idx_locked fd; if i <? 0 then ret bad else o ← open_file_at i; k i o) Q v.
Proof.
  intros Hs Hbad Hk. destruct (fd_lookup_ok v fd Hs) as (r & E & Hr). eapply wp_bind_ok; [exact E|].
  destruct Hr as [->|(Hr & o & Ho & Hf & Hnz)]; [done|]. rewrite (proj2 (Z.ltb_ge r 0)) by lia.
  destruct (open_file_ok _ _ v r Hs Hr) as (o' & Ho' & _ & Eo & _). eapply wp_bind_ok; [exact Eo|].
  rewrite Ho in Ho'. injection Ho' as <-. by apply Hk.
Qed.

Lemma with_fs_wp {A} o (bad : A) (k : fs_ops F -> ST (vfs F) A) Q v :
  file_safe o -> o_refcount o <> 0 -> Q bad v ->
  (forall ops, vtables (o_fs o) = Some ops -> ino (o_fs o) (o_inode o) -> wp (k ops) Q v) ->
  wp (if o_fs o =? 0 then ret bad else fs ← vtable vtables (o_fs o); k fs) Q v.
Proof.
  intros [_ Hf] Hnz Hbad Hk. destruct (Z.eqb_spec (o_fs o) 0); [done|].
  destruct (Hf Hnz) as [?|[[ops Hv] Hi]]; [done|].
  eapply wp_bind_ok; [by apply vtable_ok|]. by apply Hk.
Qed.

(** Moving the position of an open file. *)
Lemma set_pos_inv v i o p :
  vfs_inv v -> 0 <= i < 64 -> open_files v !! Z.to_nat i = Some o -> is_u32 p ->
  exists v', upd_open_file i (set_pos p) v = Ok (tt, v') /\ vfs_inv v' /\
    open_files v' = <[Z.to_nat i := set_pos p o]> (open_files v) /\ cur_table v' = cur_table v.
Proof.
  intros (Hs & Hr & Hi) Hi64 Ho Hp. pose proof (Forall_lookup_1 _ _ _ _ (vw_files _ _ _ _ _ _ _ _ Hs) Ho) as [_ Hf].
  destruct (upd_open_file_ok _ _ v i o (set_pos p) Hs Hi64 Ho) as (v' & E & Hs' & Hfs & Hrefs & Hu & Ht & _ & Hof);
    [by split|].
  exists v'. split; [done|]. split; [|done]. split; [done|]. split; [|by rewrite Hfs].
  intros k Hk. rewrite Hrefs, Hu, <- Hr by done. case_decide; [|done]. subst. unfold v_refs. by rewrite Ho.
Qed.

(** The size of a file. *)
Lemma stat_size_safe v p ops priv i :
  vfs_static v -> inv (fsst v) -> vtables p = Some ops -> ino p i ->
  wp (stat_size ops priv i) (fun r v' => only_fs v v' /\ match r with Some n => 0 <= n < 2147483648 | None => True end) v.
Proof.
  intros Hs Hf Hv Hi. unfold stat_size. destruct (op_stat ops) as [o|] eqn:Eo.
  2: { apply wp_ret. split; [by apply only_fs_refl|done]. }
  eapply wp_step.
  - eapply fs_call_wp; [by eapply (safe_stat (FsSafe := safe _ _ Hv))|]. by intros ?? [? _].
  - intros [rc st] v' (Hfs & _ & Hr). cbn [fst snd] in Hr.
    destruct Hr as [Hlt|(-> & x & -> & Hx)]; [rewrite (proj2 (Z.eqb_neq rc 0)) by lia; by apply wp_ret|].
    apply wp_ret. split; [done|]. rewrite u32_id by (unfold is_u32; lia). done.
Qed.

(** ** Calls on descriptors *)

Lemma vfs_read_safe v fd buf n :
  vfs_inv v -> is_u32 n -> wp (vfs_read vtables fd buf n) (fun _ v' => vfs_inv v') v.
Proof.
  intros Hv Hn. pose proof Hv as (Hs & _ & Hf). unfold vfs_read. destruct buf; [|done]. cbn [negb].
  apply with_file_wp; [done|done|]. intros i o Hi Ho Hfo Hnz. destruct (_ =? O_WRONLY); [done|].
  apply with_fs_wp; [done|done|done|]. intros ops Hvt Hino. destruct (op_read ops) as [rd|] eqn:Er; [|done].
  eapply wp_step.
  - eapply fs_call_wp; [eapply (safe_read (FsSafe := safe _ _ Hvt)); try done; apply Hfo|]. by intros ?? [? _].
  - intros [r bytes] v' (Hfs & _). pose proof (only_fs_inv _ _ _ v v' Hv Hfs) as Hv'.
    destruct Hfs as (f & -> & _). destruct (0 <? r); [|done].
    destruct (set_pos_inv _ i o (u32 (o_pos o + r)) Hv' Hi Ho (u32_range _)) as (v2 & E & H2 & _).
    by eapply wp_bind_ok.
Qed.

Lemma vfs_pread_safe v fd buf n off :
  vfs_inv v -> is_u32 n -> is_u32 off -> wp (vfs_pread vtables fd buf n off) (fun _ v' => vfs_inv v') v.
Proof.
  intros Hv Hn Ho. pose proof Hv as (Hs & _ & Hf). unfold vfs_pread. destruct buf; [|done]. cbn [negb].
  apply with_file_wp; [done|done|]. intros i o Hi Hoi Hfo Hnz.
  apply with_fs_wp; [done|done|done|]. intros ops Hvt Hino. destruct (op_read ops) as [rd|] eqn:Er; [|done].
  eapply wp_mono.
  - eapply fs_call_wp; [by eapply (safe_read (FsSafe := safe _ _ Hvt))|]. by intros ?? [? _].
  - intros r v' (Hfs & _). by eapply only_fs_inv.
Qed.

Lemma vfs_write_safe v fd buf n :
  vfs_inv v -> is_u32 n -> match buf with Some b => n <= Z.of_nat (length b) | None => True end ->
  wp (vfs_write vtables fd buf n) (fun _ v' => vfs_inv v') v.
Proof.
  intros Hv Hn Hb. pose proof Hv as (Hs & _ & Hf). unfold vfs_write. destruct buf as [b|]; [|done].
  destruct (n =? 0); [done|]. apply with_file_wp; [done|done|]. intros i o Hi Ho Hfo Hnz.
  destruct (_ =? O_RDONLY); [done|]. apply with_fs_wp; [done|done|done|]. intros ops Hvt Hino.
  destruct (op_write ops) as [wt|] eqn:Ew; [|done].
  eapply (wp_step _ _ (fun r v' => only_fs v v' /\ match r with Some p => 0 <= p < 2147483648 | None => True end)).
  { destruct (negb _); [by eapply stat_size_safe|]. apply wp_ret. split; [by apply only_fs_refl|done]. }
  intros ep v1 [Hfs Hep]. pose proof (only_fs_inv _ _ _ v v1 Hv Hfs) as Hv1.
  assert (is_u32 (default (o_pos o) ep)) as Hpos by (destruct ep; [unfold is_u32; simpl; lia|apply Hfo]).
  eapply (wp_step _ _ (fun _ v2 => vfs_inv v2 /\ exists o2, open_files v2 !! Z.to_nat i = Some o2)).
  { destruct Hfs as (f & -> & _). destruct ep as [q|]; [|apply wp_ret; split; [done|by exists o]].
    destruct (set_pos_inv _ i o q Hv1 Hi Ho Hpos) as (v2 & E & H2 & Hof & _).
    eapply wp_ok; [exact E|]. split; [done|]. exists (set_pos q o). rewrite Hof. apply list_lookup_insert_eq.
    simpl. rewrite (vw_files_len _ _ _ _ _ _ _ _ Hs). lia. }
  intros _ v2 [Hv2 [o2 Ho2]]. cbv zeta. eapply wp_step.
  - eapply fs_call_wp; [eapply (safe_write (FsSafe := safe _ _ Hvt)); try done; [apply Hv2|unfold is_u32 in *; lia]|].
    by intros ?? [? _].
  - intros r v3 (Hfs3 & _). pose proof (only_fs_inv _ _ _ v2 v3 Hv2 Hfs3) as Hv3.
    destruct Hfs3 as (f & -> & _). destruct (0 <? r); [|done].
    destruct (set_pos_inv _ i o2 (u32 (default (o_pos o) ep + r)) Hv3 Hi Ho2 (u32_range _)) as (v4 & E & H4 & _).
    by eapply wp_bind_ok.
Qed.

Lemma vfs_fstat_safe v fd st :
  vfs_inv v -> wp (vfs_fstat vtables fd st) (fun _ v' => vfs_inv v') v.
Proof.
  intros Hv. pose proof Hv as (Hs & _ & Hf). unfold vfs_fstat. destruct st; [|done]. cbn [negb].
  apply with_file_wp; [done|done|]. intros i o Hi Ho Hfo Hnz. apply with_fs_wp; [done|done|done|].
  intros ops Hvt Hino. destruct (op_stat ops) as [sf|] eqn:Es; [|done]. eapply wp_step.
  - eapply fs_call_wp; [by eapply (safe_stat (FsSafe := safe _ _ Hvt))|]. by intros ?? [? _].
  - intros [r s] v' (Hfs & _). apply wp_ret. by eapply only_fs_inv.
Qed.

Lemma vfs_ftruncate_safe v fd n :
  vfs_inv v -> is_u32 n -> wp (vfs_ftruncate vtables fd n) (fun _ v' => vfs_inv v') v.
Proof.
  intros Hv Hn. pose proof Hv as (Hs & _ & Hf). unfold vfs_ftruncate.
  apply with_file_wp; [done|done|]. intros i o Hi Ho Hfo Hnz. apply with_fs_wp; [done|done|done|].
  intros ops Hvt Hino. destruct (op_truncate ops) as [tf|] eqn:Et; [|done]. eapply wp_mono.
  - eapply fs_call_wp; [by eapply (safe_truncate (FsSafe := safe _ _ Hvt))|]. done.
  - intros r v' (Hfs & _). by eapply only_fs_inv.
Qed.

Lemma vfs_readdir_safe v fd buf n :
  vfs_inv v -> n < 2147483648 -> match buf with Some b => 0 <= n <= Z.of_nat (length b) | None => True end ->
  wp (vfs_readdir_fd vtables fd buf n) (fun _ v' => vfs_inv v') v.
Proof.
  intros Hv Hn Hb. pose proof Hv as (Hs & _ & Hf). unfold vfs_readdir_fd. destruct buf as [b|]; [|done].
  apply with_file_wp; [done|done|]. intros i o Hi Ho Hfo Hnz. apply with_fs_wp; [done|done|done|].
  intros ops Hvt Hino. destruct (op_readdir ops) as [rf|] eqn:Er; [|done]. eapply wp_step.
  - eapply fs_call_wp; [eapply (safe_readdir (FsSafe := safe _ _ Hvt)); try done; apply Hfo|]. by intros ?? [? _].
  - intros [[r bytes] pos] v' (Hfs & _ & Hpos & _). pose proof (only_fs_inv _ _ _ v v' Hv Hfs) as Hv'.
    destruct Hfs as (f & -> & _). destruct (0 <=? r); [|done].
    destruct (set_pos_inv _ i o pos Hv' Hi Ho Hpos) as (v2 & E & H2 & _). by eapply wp_bind_ok.
Qed.


(** The sum of a seek does not overflow: seeks from the start never do, seeks
    from the position by the position, seeks from the end backwards. *)
Definition seek_fits v (fd offset whence : Z) : Prop :=
  -2147483648 <= offset < 2147483648 /\
  (whence = 1 -> forall r o, fd_to_of_idx_locked fd v = Ok (r, v) -> open_files v !! Z.to_nat r = Some o ->
     -2147483648 <= s32 (o_pos o) + offset < 2147483648) /\
  (whence = 2 -> offset <= 0).

Lemma vfs_lseek_safe v fd offset whence :
  vfs_inv v -> seek_fits v fd offset whence -> wp (vfs_lseek vtables fd offset whence) (fun _ v' => vfs_inv v') v.
Proof.
  intros Hv (H0 & H1 & H2). pose proof Hv as (Hs & _ & Hf). unfold vfs_lseek.
  destruct (fd_lookup_ok v fd Hs) as (r & E & Hr). eapply wp_bind_ok; [exact E|].
  destruct Hr as [->|(Hr & o & Ho & Hfo & Hnz)]; [done|]. rewrite (proj2 (Z.ltb_ge r 0)) by lia.
  destruct (open_file_ok _ _ v r Hs Hr) as (o' & Ho' & _ & Eo & _). eapply wp_bind_ok; [exact Eo|].
  rewrite Ho in Ho'. injection Ho' as <-.
  eapply (wp_step _ _ (fun b v' => only_fs v v' /\
    match b with Some x => -2147483648 <= x + offset < 2147483648 | None => True end)).
  { destruct (Z.eqb_spec whence 0); [apply wp_ret; split; [by apply only_fs_refl|lia]|].
    destruct (Z.eqb_spec whence 1); [apply wp_ret; split; [by apply only_fs_refl|by eapply H1]|].
    destruct (Z.eqb_spec whence 2); [|apply wp_ret; split; [by apply only_fs_refl|done]].
    eapply (wp_step _ _ (fun b v' => only_fs v v' /\ match b with Some n => 0 <= n < 2147483648 | None => True end)).
    - apply with_fs_wp; [done|done|split; [by apply only_fs_refl|done]|].
      intros ops Hvt Hino. by eapply stat_size_safe.
    - intros b v' [Hfs Hb]. apply wp_ret. split; [done|]. specialize (H2 ltac:(done)).
      destruct b; simpl; rewrite s32_small; lia. }
  intros b v' [Hfs Hb]. pose proof (only_fs_inv _ _ _ v v' Hv Hfs) as Hv'. destruct b as [x|]; [|done].
  unfold add_s32. rewrite (proj2 (Z.leb_le _ _)), (proj2 (Z.ltb_lt _ _)) by lia. cbn [andb]. apply wp_bind, wp_ret.
  destruct (Z.ltb_spec (x + offset) 0); [done|]. destruct Hfs as (f & -> & _).
  destruct (set_pos_inv _ r o (x + offset) Hv' Hr Ho) as (v2 & E2 & H2' & _); [unfold is_u32; lia|].
  by eapply wp_bind_ok.
Qed.

(** ** Closing *)

Lemma last_close_safe v o :
  vfs_static v -> inv (fsst v) -> file_safe o -> o_refcount o <> 0 ->
  wp (last_close vtables o) (fun _ v' => only_fs v v') v.
Proof.
  intros Hs Hf Hfo Hnz. unfold last_close. apply with_fs_wp; [done|done|by apply only_fs_refl|].
  intros ops Hvt Hino. pose proof (safe _ _ Hvt) as Hsafe.
  assert (forall v1, only_fs v v1 -> inv (fsst v1)) as Hinv by (intros v1 (f & -> & Hf1); done).
  assert (forall {A} (m : ST F A) v1 P, only_fs v v1 -> wp m P (fsst v1) -> (forall a f, P a f -> inv f) ->
    wp (fs_call m) (fun a v2 => only_fs v v2 /\ P a (fsst v2)) v1) as Hcall.
  { intros A m v1 P H1 Hm HP. eapply wp_mono; [by eapply fs_call_wp|]. intros a v2 [H2 Ha]. split; [|done].
    by eapply only_fs_trans. }
  eapply (wp_step _ _ (fun _ v1 => only_fs v v1)).
  { destruct (op_dec_open ops) as [dec|] eqn:Ed; [|apply wp_ret; by apply only_fs_refl].
    eapply wp_mono; [eapply Hcall; [by apply only_fs_refl|by eapply safe_dec_open|done]|]. by intros _ v1 [? _]. }
  intros _ v1 H1. destruct (op_get_open ops) as [get|] eqn:Eg; [|done].
  destruct (op_release ops) as [rel|] eqn:Er; [|done].
  eapply wp_step; [eapply Hcall; [done|eapply safe_get_open; try done; by apply Hinv|done]|].
  intros n v2 [H2 _]. destruct (n =? 0); [|done]. destruct (op_stat ops) as [st|] eqn:Es; [|done].
  eapply wp_step; [eapply Hcall; [done|eapply safe_stat; try done; by apply Hinv|by intros ?? [? _]]|].
  intros [rc s] v3 (H3 & _ & Hr). cbn [fst snd] in Hr.
  destruct Hr as [Hlt|(-> & x & -> & _)]; [by rewrite (proj2 (Z.eqb_neq rc 0)) by lia|].
  cbn [Z.eqb]. destruct (_ =? 0); [|done].
  eapply wp_mono; [eapply Hcall; [done|eapply safe_release; try done; by apply Hinv|done]|]. by intros _ v4 [? _].
Qed.


(** A descriptor in use keeps its open file alive. *)
Lemma refers_live v fd e (i : nat) :
  vfs_static v -> cur_table v !! fd = Some e -> refers (Z.of_nat i) e -> (0 < v_uses i v)%nat.
Proof.
  intros Hs He Hr. destruct (current_ok _ _ v Hs) as (p & _ & Hp). unfold v_uses. destruct p as [q|].
  - destruct Hp as (_ & Hq & Et). rewrite Et in He. eapply uses_of_pos_proc; [done|]. by eapply uses_in_pos.
  - destruct Hp as [_ Et]. rewrite Et in He. pose proof (uses_in_pos _ _ _ _ He Hr).
    unfold uses_of, tables. cbn [sum_list_with]. lia.
Qed.

(** Dropping one reference to open file [i], and freeing it with the last. *)
Lemma drop_ref_safe v i :
  vfs_static v -> inv (fsst v) -> 0 <= i < 64 -> 0 < v_refs (Z.to_nat i) v ->
  wp (o ← open_file_at i;
      if 0 <? o_refcount o then
        upd_open_file i (set_refcount (o_refcount o - 1));;
        (if o_refcount o - 1 =? 0 then last_close vtables o;; vfs_free_open_file i else ret tt)
      else ret tt)
    (fun _ v' => vfs_static v' /\ inv (fsst v') /\ cur_table v' = cur_table v /\ current v' = current v /\
       (forall k, v_uses k v' = v_uses k v) /\
       forall k, v_refs k v' = if decide (k = Z.to_nat i) then v_refs k v - 1 else v_refs k v) v.
Proof.
  intros Hs Hf Hi Hpos. destruct (open_file_ok _ _ v i Hs Hi) as (o & Ho & Hfo & Eo & Er). rewrite Er in Hpos.
  eapply wp_bind_ok; [exact Eo|]. rewrite (proj2 (Z.ltb_lt _ _) Hpos).
  destruct (upd_open_file_ok _ _ v i o (set_refcount (o_refcount o - 1)) Hs Hi Ho)
    as (v1 & E1 & Hs1 & Hfs1 & Hr1 & Hu1 & Ht1 & Hc1 & Hof1).
  { split; [apply Hfo|]. intros _. apply Hfo. lia. }
  eapply wp_bind_ok; [exact E1|]. destruct (Z.eqb_spec (o_refcount o - 1) 0) as [Hz|Hz].
  2: { apply wp_ret. split_and!; try done; [by rewrite Hfs1|]. intros k. rewrite Hr1. case_decide; [|done].
       subst. by rewrite Er. }
  eapply wp_step; [eapply last_close_safe; try done; [by rewrite Hfs1|lia]|].
  intros u v2 Hfs2. destruct Hfs2 as (f & -> & Hf2).
  assert (open_files v1 !! Z.to_nat i = Some (set_refcount (o_refcount o - 1) o)) as Ho1.
  { rewrite Hof1. apply list_lookup_insert_eq. rewrite (vw_files_len _ _ _ _ _ _ _ _ Hs). lia. }
  destruct (upd_open_file_ok _ _ (set_fsst f v1) i _ (set_refcount 0) Hs1 Hi Ho1)
    as (v3 & E3 & Hs3 & Hfs3 & Hr3 & Hu3 & Ht3 & Hc3 & _).
  { split; [apply Hfo|done]. }
  eapply wp_ok; [exact E3|]. split_and!; try done.
  - by rewrite Hfs3.
  - rewrite Ht3. exact Ht1.
  - rewrite Hc3. exact Hc1.
  - intros k. rewrite Hu3. apply Hu1.
  - intros k. rewrite Hr3. case_decide; [subst; simpl; lia|]. change (v_refs k (set_fsst f v1)) with (v_refs k v1).
    rewrite Hr1. by rewrite decide_False.
Qed.

Lemma vfs_close_safe v fd :
  vfs_inv v ->
  wp (vfs_close_locked vtables fd)
    (fun _ v' => vfs_inv v' /\ current v' = current v /\
       forall k e, cur_table v !! k = Some e ->
         exists e', cur_table v' !! k = Some e' /\ (k <> Z.to_nat fd -> e' = e) /\
           (k = Z.to_nat fd -> 0 <= fd -> of_idx e' = 0)) v.
Proof.
  intros Hv. pose proof Hv as (Hs & Hr & Hf). unfold vfs_close_locked, fd_resolve_slot.
  assert (forall k e, cur_table v !! k = Some e -> (k < 64)%nat) as Hlt.
  { intros k e Hk. apply lookup_lt_Some in Hk. by rewrite (proj1 (cur_table_safe _ _ v Hs)) in Hk. }
  destruct (Z.ltb_spec fd 0).
  { apply wp_ret. split_and!; try done. intros k e Hk. exists e. split_and!; try done. lia. }
  destruct (current_ok _ _ v Hs) as (p & E & _). rewrite wp_bind. eapply wp_bind_ok; [exact E|].
  replace (match p with Some _ => MAX_OPEN_FILES | None => VFS_MAX_OPEN_FILES end) with 64 by (by destruct p).
  cbn [orb].
  destruct (Z.leb_spec 64 fd).
  { apply wp_ret, wp_ret. split_and!; try done. intros k e Hk. exists e. split_and!; try done.
    specialize (Hlt k e Hk). lia. }
  apply wp_ret. destruct (fd_at_ok _ _ v fd Hs ltac:(lia)) as (e & He & Hu & Ee). eapply wp_bind_ok; [exact Ee|].
  destruct (Z.eqb_spec (of_idx e) 0) as [Hz|Hnz].
  { apply wp_ret. split_and!; try done. intros k e' Hk. exists e'. split_and!; try done.
    intros -> _. by rewrite Hk in He; injection He as ->. }
  unfold is_u32 in Hu. rewrite (u32_id (of_idx e - 1)) by (unfold is_u32; lia).
  set (i := of_idx e - 1). eapply (wp_step _ _ (fun _ v' => vfs_static v' /\ inv (fsst v') /\
    cur_table v' = cur_table v /\ current v' = current v /\
    (forall k, v_uses k v' = v_uses k v) /\
    forall k, v_refs k v' = if decide (i < 64 /\ k = Z.to_nat i) then v_refs k v - 1 else v_refs k v)).
  { unfold VFS_MAX_OPEN_FILES. destruct (Z.ltb_spec i 64) as [Hi|Hi].
    - assert (refers (Z.of_nat (Z.to_nat i)) e) as Href by (unfold refers; lia).
      pose proof (refers_live v _ e _ Hs He Href) as Hlive.
      eapply wp_mono; [apply drop_ref_safe; try done; [lia|rewrite Hr; lia]|].
      intros _ v' (A1 & A2 & A3 & A4 & A5 & A6). split_and!; try done. intros k. rewrite A6.
      destruct (decide (k = Z.to_nat i)); [rewrite decide_True by done|rewrite decide_False by (by intros [_ ?])]; done.
    - apply wp_ret. split_and!; try done. intros k. rewrite decide_False by lia. done. }
  intros _ v1 (Hs1 & Hf1 & Ht1 & Hc1 & Hu1 & Hr1).
  destruct (put_fd_ok _ _ v1 fd e fd_zero Hs1 ltac:(lia)) as (v2 & E2 & Hs2 & Hfs2 & Hr2 & Hu2 & _ & Hc2 & Ht2);
    [by rewrite Ht1|done|].
  eapply wp_ok; [exact E2|]. split; [split; [done|split; [|by rewrite Hfs2]]|split; [congruence|]].
  - intros k Hk. specialize (Hu2 k). rewrite Hr2, Hr1, Hr by done. rewrite Hu1 in Hu2. revert Hu2.
    unfold one_if, refers. change (of_idx fd_zero) with 0. rewrite (decide_False (P := 0 = Z.of_nat k + 1)) by lia.
    destruct (decide (of_idx e = Z.of_nat k + 1)), (decide (i < 64 /\ k = Z.to_nat i)); lia.
  - intros k e' Hk. specialize (Hlt k e' Hk). rewrite Ht2, Ht1. destruct (decide (k = Z.to_nat fd)) as [->|Hne].
    + exists fd_zero. rewrite list_lookup_insert_eq by (rewrite (proj1 (cur_table_safe _ _ v Hs)); lia). done.
    + exists e'. by rewrite list_lookup_insert_ne by done.
Qed.


(** ** Opening and duplicating *)

Lemma free_fd_loop_ok n i v t :
  (i + n <= length t)%nat ->
  exists r, free_fd_loop n (Z.of_nat i) t v = Ok (r, v) /\
    (r = - EMFILE \/ Z.of_nat i <= r < Z.of_nat (i + n) /\ exists e, t !! Z.to_nat r = Some e /\ of_idx e = 0).
Proof.
  revert i. induction n as [|n IH]; intros i Hi; cbn [free_fd_loop]; [eexists; split; [done|by left]|].
  destruct (lookup_lt_is_Some_2 t i ltac:(lia)) as [e He].
  rewrite (bind_ok _ _ _ _ _ (rd_ok t (Z.of_nat i) e v ltac:(lia) ltac:(by rewrite Nat2Z.id))).
  destruct (Z.eqb_spec (of_idx e) 0).
  - eexists. split; [reflexivity|]. right. split; [lia|]. exists e. by rewrite Nat2Z.id.
  - replace (Z.of_nat i + 1) with (Z.of_nat (S i)) by lia. destruct (IH (S i) ltac:(lia)) as (r & E & Hr).
    exists r. split; [done|]. destruct Hr as [?|[? ?]]; [by left|right]. split; [lia|done].
Qed.

Lemma find_free_fd_ok v :
  vfs_static v -> exists r, find_free_fd v = Ok (r, v) /\
    (r = - EMFILE \/ 0 <= r < 64 /\ exists e, cur_table v !! Z.to_nat r = Some e /\ of_idx e = 0).
Proof.
  intros Hs. destruct (cur_table_safe _ _ v Hs) as [Hl _]. unfold find_free_fd.
  destruct (current_ok _ _ v Hs) as (p & E & _). rewrite (bind_ok _ _ _ _ _ E).
  rewrite (bind_ok _ _ _ _ _ (fd_table_ok _ _ v Hs)). destruct p.
  - destruct (free_fd_loop_ok 61 3 v (cur_table v) ltac:(lia)) as (r & Er & Hr). exists r. split; [exact Er|].
    destruct Hr as [?|[? ?]]; [by left|right]. split; [lia|done].
  - destruct (free_fd_loop_ok 64 0 v (cur_table v) ltac:(lia)) as (r & Er & Hr). exists r. split; [exact Er|].
    destruct Hr as [?|[? ?]]; [by left|right]. split; [lia|done].
Qed.

(** The parts of the state that storing an open file leaves alone. *)
Definition same_fds v v' : Prop :=
  (forall k, v_uses k v' = v_uses k v) /\ cur_table v' = cur_table v /\ current v' = current v.

Lemma alloc_open_loop_ok n i v :
  vfs_static v -> (i + n <= 64)%nat ->
  (alloc_open_loop n (Z.of_nat i) v = Ok (- EMFILE, v)) \/
  (exists r v', alloc_open_loop n (Z.of_nat i) v = Ok (r, v') /\ Z.of_nat i <= r < Z.of_nat (i + n) /\
     vfs_static v' /\ fsst v' = fsst v /\ same_fds v v' /\ v_refs (Z.to_nat r) v = 0 /\
     (forall k, v_refs k v' = if decide (k = Z.to_nat r) then 1 else v_refs k v)).
Proof.
  intros Hs. revert i. induction n as [|n IH]; intros i Hi; cbn [alloc_open_loop]; [by left|].
  destruct (open_file_ok _ _ v (Z.of_nat i) Hs ltac:(lia)) as (o & Ho & _ & Eo & Er).
  rewrite (bind_ok _ _ _ _ _ Eo). destruct (Z.eqb_spec (o_refcount o) 0) as [Hz|Hz].
  - right. destruct (upd_open_file_ok _ _ v (Z.of_nat i) o (fun _ => open_file_zero) Hs ltac:(lia) Ho)
      as (v1 & E1 & Hs1 & Hf1 & Hr1 & Hu1 & Ht1 & Hc1 & Hof1); [by split|].
    assert (open_files v1 !! Z.to_nat (Z.of_nat i) = Some open_file_zero) as Ho1.
    { rewrite Hof1. apply list_lookup_insert_eq. rewrite (vw_files_len _ _ _ _ _ _ _ _ Hs). lia. }
    destruct (upd_open_file_ok _ _ v1 (Z.of_nat i) _ (set_refcount 1) Hs1 ltac:(lia) Ho1)
      as (v2 & E2 & Hs2 & Hf2 & Hr2 & Hu2 & Ht2 & Hc2 & _); [split; [done|by left]|].
    exists (Z.of_nat i), v2. split; [by rewrite (bind_ok _ _ _ _ _ E1), (bind_ok _ _ _ _ _ E2)|].
    split; [lia|]. split; [done|]. split; [congruence|].
    split; [split_and!; [intros k; by rewrite Hu2, Hu1|congruence|congruence]|].
    split; [congruence|]. intros k. rewrite Hr2. case_decide; [done|]. by rewrite Hr1, decide_False.
  - replace (Z.of_nat i + 1) with (Z.of_nat (S i)) by lia.
    destruct (IH (S i) ltac:(lia)) as [E|(r & v' & E & Hr & H)]; [by left|right].
    exists r, v'. split; [done|]. split; [lia|done].
Qed.

(** The tail of [vfs_open], once the inode is known. *)
Lemma open_file_safe v m ops inode flags :
  vfs_inv v -> vtables (m_ops m) = Some ops -> ino (m_ops m) inode ->
  wp (of_idx ← vfs_alloc_open_file;
      if of_idx <? 0 then ret (- EMFILE)
      else
        start ← (if negb (Z.land flags O_APPEND =? 0) then stat_size ops (m_priv m) inode else ret None);
        upd_open_file of_idx (fun o =>
          OpenFile inode (default 0 start) (u32 flags) (o_refcount o) (m_ops m) (m_priv m));;
        fd ← find_free_fd;
        if fd <? 0 then vfs_free_open_file of_idx;; ret (- EMFILE)
        else
          put_fd fd (ProcFd (of_idx + 1) 0 flags 1);;
          (match op_inc_open ops with
           | Some inc_open => fs_call (inc_open (m_priv m) inode)
           | None => ret tt
           end);;
          ret fd) (fun _ v' => vfs_inv v') v.
Proof.
  intros Hv Hvt Hino. pose proof Hv as (Hs & Hr & Hf).
  destruct (alloc_open_loop_ok 64 0 v Hs ltac:(lia)) as [E|(r & v1 & E & Hr64 & Hs1 & Hf1 & (Hu1 & Ht1 & Hc1) & Hz & Hr1)].
  { by eapply wp_bind_ok. }
  eapply wp_bind_ok; [exact E|]. rewrite (proj2 (Z.ltb_ge r 0)) by lia.
  eapply (wp_step _ _ (fun b v' => only_fs v1 v' /\ match b with Some n => 0 <= n < 2147483648 | None => True end)).
  { destruct (negb _); [eapply stat_size_safe; try done; by rewrite Hf1|].
    apply wp_ret. split; [apply only_fs_refl; by rewrite Hf1|done]. }
  intros start v2 [(f & -> & Hf2) Hst].
  destruct (open_file_ok _ _ (set_fsst f v1) r Hs1 ltac:(lia)) as (o & Ho & _ & _ & Er).
  destruct (upd_open_file_ok _ _ (set_fsst f v1) r o (fun o =>
      OpenFile inode (default 0 start) (u32 flags) (o_refcount o) (m_ops m) (m_priv m)) Hs1 ltac:(lia) Ho)
    as (v3 & E3 & Hs3 & Hf3 & Hr3 & Hu3 & Ht3 & Hc3 & Hof3).
  { split; [simpl; destruct start; unfold is_u32; simpl; lia|]. right. split; [by exists ops|done]. }
  eapply wp_bind_ok; [exact E3|].
  assert (forall k, v_refs k v3 = if decide (k = Z.to_nat r) then 1 else v_refs k v) as Hrefs.
  { intros k. rewrite Hr3. change (v_refs ?k (set_fsst f v1)) with (v_refs k v1) in *. simpl.
    rewrite <- Er. rewrite !Hr1. repeat case_decide; congruence. }
  assert (forall k, v_uses k v3 = v_uses k v) as Huses by (intros k; rewrite Hu3; apply Hu1).
  destruct (find_free_fd_ok v3 Hs3) as (fd & Efd & Hfd). eapply wp_bind_ok; [exact Efd|].
  destruct Hfd as [->|(Hfd & e & He & Hez)].
  - change (- EMFILE <? 0) with true. cbv iota.
    destruct (open_file_ok _ _ v3 r Hs3 ltac:(lia)) as (o3 & Ho3 & Hfo3 & _).
    destruct (upd_open_file_ok _ _ v3 r o3 (set_refcount 0) Hs3 ltac:(lia) Ho3)
      as (v4 & E4 & Hs4 & Hf4 & Hr4 & Hu4 & _); [split; [apply Hfo3|done]|].
    eapply wp_bind_ok; [exact E4|]. apply wp_ret. split; [done|]. split; [|rewrite Hf4, Hf3; done].
    intros k Hk. rewrite Hr4, Hu4, Huses, Hrefs, <- Hr by done. case_decide; [subst; by rewrite Hz|done].
  - rewrite (proj2 (Z.ltb_ge fd 0)) by lia.
    destruct (put_fd_ok _ _ v3 fd e (ProcFd (r + 1) 0 flags 1) Hs3 Hfd He)
      as (v4 & E4 & Hs4 & Hf4 & Hr4 & Hu4 & _); [unfold is_u32; simpl; lia|].
    eapply wp_bind_ok; [exact E4|].
    assert (vfs_inv v4) as Hv4.
    { split; [done|]. split; [|rewrite Hf4, Hf3; done]. intros k Hk. specialize (Hu4 k). rewrite Huses in Hu4.
      rewrite Hr4, Hrefs. pose proof (Hr k Hk) as Hrk. rewrite (one_if_false (refers _ e)) in Hu4 by (unfold refers; lia).
      destruct (decide (k = Z.to_nat r)) as [->|].
      - rewrite one_if_true in Hu4 by (unfold refers; simpl; lia). lia.
      - rewrite one_if_false in Hu4 by (unfold refers; simpl; lia). lia. }
    eapply (wp_step _ _ (fun _ v' => vfs_inv v')).
    + destruct (op_inc_open ops) as [inc|] eqn:Ei; [|done]. eapply wp_mono.
      * eapply fs_call_wp; [eapply (safe_inc_open (FsSafe := safe _ _ Hvt)); try done; apply Hv4|done].
      * intros _ v5 [Hfs _]. by eapply only_fs_inv.
    + intros _ v5 H5. by apply wp_ret.
Qed.


(** Reading the mount that a path led to, and its vtable. *)
Lemma with_mount_wp {A} v v' i n (k : mount -> fs_ops F -> ST (vfs F) A) Q :
  found vtables ino v i n -> only_fs v v' ->
  (forall m ops, vtables (m_ops m) = Some ops -> ino (m_ops m) n -> wp (k m ops) Q v') ->
  wp (m ← mount_at i; ops ← vtable vtables (m_ops m); k m ops) Q v'.
Proof.
  intros (m & (Hi & Hm & _) & [ops Hv] & Hn) (f & -> & _) Hk.
  eapply wp_bind_ok; [by apply (mount_at_ok (set_fsst f v) i m)|].
  eapply wp_bind_ok; [by apply vtable_ok|]. by apply Hk.
Qed.

Lemma open_inode_safe v abs s flags mode :
  vfs_inv v -> holds abs s ->
  wp (open_inode vtables junk abs flags mode)
    (fun r v' => only_fs v v' /\ match r with inl _ => True | inr (i, n) => found vtables ino v i n end) v.
Proof.
  intros (Hs & _ & Hf) Ha. unfold open_inode. eapply wp_step; [by eapply resolve_path_safe|].
  intros [rc|[i n]] v1 [Hfs Hr]; [|by apply wp_ret]. destruct (_ && _); [|by apply wp_ret].
  destruct (only_fs_static _ _ _ v v1 Hs Hfs) as [Hs1 Hf1].
  eapply wp_step; [by eapply (resolve_parent_safe _ junk)|].
  intros [prc|[[i n] leaf]] v2 [Hfs2 Hr2]; [apply wp_ret; split; [by eapply only_fs_trans|done]|].
  destruct Hr2 as [Hfound Hleaf]. assert (only_fs v v2) as Hfs' by (by eapply only_fs_trans).
  assert (found vtables ino v i n) as Hfound' by (by destruct Hfs as (f & -> & _)).
  destruct Hfound' as (m & Hm & [ops Hv] & Hn). pose proof Hm as (Hi & Hlm & _).
  destruct Hfs' as (f & -> & Hf2). eapply wp_bind_ok; [by apply (mount_at_ok (set_fsst f v) i m)|].
  eapply wp_bind_ok; [by apply vtable_ok|]. destruct (op_create ops) as [cr|] eqn:Ec.
  2: { apply wp_ret. split; [by exists f|done]. }
  eapply wp_step.
  - eapply fs_call_wp; [by eapply (safe_create (FsSafe := safe _ _ Hv))|]. by intros ?? [? _].
  - intros [crc ni] v3 (Hfs3 & _ & Hc). assert (only_fs v v3) as Hfs4 by (eapply only_fs_trans; [by exists f|done]).
    destruct (Z.ltb_spec crc 0); apply wp_ret; split; try done. exists m. split; [done|]. split; [by exists ops|].
    cbn [fst snd] in Hc. destruct Hc; [lia|done].
Qed.

Lemma vfs_open_safe v path flags mode :
  vfs_inv v -> match path with Some p => 0 ∈ p | None => True end ->
  wp (vfs_open vtables junk path flags mode) (fun _ v' => vfs_inv v') v.
Proof.
  intros Hv Hp. pose proof Hv as (Hs & _ & Hf). unfold vfs_open. destruct path as [p|]; [|done].
  destruct (negb _); [done|]. destruct (_ =? O_ACCMODE); [done|].
  destruct (make_abs_path_safe vtables junk ino v p Hs Hp) as (rc & abs & E & Hrc).
  eapply wp_bind_ok; [exact E|]. cbv beta iota. destruct Hrc as [Hneg|[-> [s Ha]]].
  { rewrite (proj2 (Z.ltb_lt rc 0)) by done. done. }
  cbn [Z.ltb Z.compare]. eapply wp_step; [by eapply open_inode_safe|].
  intros [e|[i n]] v1 [Hfs Hr]; [apply wp_ret; by eapply only_fs_inv|].
  eapply with_mount_wp; [done|done|]. intros m ops Hvt Hn. pose proof (only_fs_inv _ _ _ v v1 Hv Hfs) as Hv1.
  eapply (wp_step _ _ (fun _ v2 => vfs_inv v2)).
  { destruct (op_truncate ops) as [tr|] eqn:Et; [|done]. destruct (negb _); [|done].
    eapply wp_step; [eapply fs_call_wp; [eapply (safe_truncate (FsSafe := safe _ _ Hvt)); try done; apply Hv1|done]|].
    intros _ v2 [Hfs2 _]. apply wp_ret. by eapply only_fs_inv. }
  intros _ v2 Hv2. by apply open_file_safe.
Qed.

(** A descriptor of the table that refers to no open file beyond it: neither
    the console nor a pipe. *)
Definition plain_fd v (fd : Z) : Prop :=
  forall e, cur_table v !! Z.to_nat fd = Some e -> of_idx e <= 64.

(** One more reference to the open file of the descriptor [e] that has been
    stored over one that refers to none. *)
Lemma add_ref_safe v v1 fd e e0 i :
  vfs_inv v -> 0 <= fd < 64 -> cur_table v !! Z.to_nat fd = Some e0 -> of_idx e0 = 0 ->
  put_fd fd e v = Ok (tt, v1) -> of_idx e = i + 1 -> 0 <= i < 64 -> (0 < v_uses (Z.to_nat i) v)%nat ->
  wp (incr_refcount (of_idx e)) (fun _ v' => vfs_inv v') v1.
Proof.
  intros (Hs & Hr & Hf) Hfd He0 Hz Ep Hi Hi64 Hlive.
  destruct (put_fd_ok _ _ v fd e0 e Hs Hfd He0) as (v1' & Ep' & Hs1 & Hf1 & Hr1 & Hu1 & _); [unfold is_u32; lia|].
  rewrite Ep in Ep'. injection Ep' as <-. unfold incr_refcount. rewrite Hi.
  replace (i + 1 - 1) with i by lia. rewrite u32_id by (unfold is_u32; lia).
  destruct (open_file_ok _ _ v1 i Hs1 ltac:(lia)) as (o & Ho & Hfo & _ & Er).
  pose proof (Hr (Z.to_nat i) ltac:(lia)) as Hri. rewrite <- (Hr1 (Z.to_nat i)), Er in Hri.
  pose proof (uses_of_le (Z.of_nat (Z.to_nat i)) (kernel_fd_table v) (procs v) (proj1 (vw_kernel _ _ _ _ _ _ _ _ Hs))
    (fun k q H => proj1 (vw_procs _ _ _ _ _ _ _ _ Hs k q H))) as Hle.
  pose proof (vw_nprocs _ _ _ _ _ _ _ _ Hs) as Hn. fold (v_uses (Z.to_nat i) v) in Hle.
  destruct (upd_open_file_ok _ _ v1 i o (fun o => set_refcount (u32 (o_refcount o + 1)) o) Hs1 ltac:(lia) Ho)
    as (v2 & E2 & Hs2 & Hf2 & Hr2 & Hu2 & _).
  { split; [apply Hfo|]. intros _. apply Hfo. lia. }
  eapply wp_ok; [exact E2|]. split; [done|]. split; [|by rewrite Hf2, Hf1].
  intros k Hk. specialize (Hu1 k). rewrite Hr2, Hu2, Hr1. pose proof (Hr k Hk).
  rewrite (one_if_false (refers _ e0)) in Hu1 by (unfold refers; lia). cbn [o_refcount set_refcount].
  rewrite u32_id by (unfold is_u32; lia). case_decide as Hd.
  - subst k. rewrite one_if_true in Hu1 by (unfold refers; lia). lia.
  - rewrite one_if_false in Hu1 by (unfold refers; lia). lia.
Qed.

Lemma vfs_dup_safe v oldfd :
  vfs_inv v -> plain_fd v oldfd -> wp (vfs_dup oldfd) (fun _ v' => vfs_inv v') v.
Proof.
  intros Hv Hpl. pose proof Hv as (Hs & Hr & Hf). unfold vfs_dup, MAX_OPEN_FILES.
  destruct (Z.ltb_spec oldfd 0); [done|]. destruct (Z.leb_spec 64 oldfd); [done|]. cbn [orb].
  destruct (current_ok _ _ v Hs) as (p & E & _). eapply wp_bind_ok; [exact E|]. destruct p as [q|]; [|done].
  destruct (fd_at_ok _ _ v oldfd Hs ltac:(lia)) as (e & He & Hu & Ee). eapply wp_bind_ok; [exact Ee|].
  destruct (Z.eqb_spec (of_idx e) 0); [done|]. specialize (Hpl e He). unfold is_u32 in Hu.
  destruct (find_free_fd_ok v Hs) as (fd & Efd & Hfd). eapply wp_bind_ok; [exact Efd|].
  destruct Hfd as [->|(Hfd & e0 & He0 & Hz)]; [done|]. rewrite (proj2 (Z.ltb_ge fd 0)) by lia.
  destruct (put_fd_ok _ _ v fd e0 e Hs Hfd He0 ltac:(done)) as (v1 & E1 & _). eapply wp_bind_ok; [exact E1|].
  eapply wp_step.
  - eapply (add_ref_safe v v1 fd e e0 (of_idx e - 1)); try done; try lia.
    eapply refers_live; [done|exact He|]. unfold refers. lia.
  - intros u v2 H2. by apply wp_ret.
Qed.

Lemma vfs_dup2_safe v oldfd newfd :
  vfs_inv v -> plain_fd v oldfd -> wp (vfs_dup2 vtables oldfd newfd) (fun _ v' => vfs_inv v') v.
Proof.
  intros Hv Hpl. pose proof Hv as (Hs & Hr & Hf). unfold vfs_dup2, MAX_OPEN_FILES.
  destruct (Z.ltb_spec oldfd 0); [done|]. destruct (Z.ltb_spec newfd 0); [done|]. cbn [orb].
  destruct (Z.leb_spec 64 oldfd); [done|]. destruct (Z.leb_spec 64 newfd); [done|]. cbn [orb].
  destruct (Z.eqb_spec oldfd newfd) as [|Hne]; [done|].
  destruct (current_ok _ _ v Hs) as (p & E & _). eapply wp_bind_ok; [exact E|]. destruct p as [q|]; [|done].
  destruct (fd_at_ok _ _ v oldfd Hs ltac:(lia)) as (e & He & Hu & Ee). eapply wp_bind_ok; [exact Ee|].
  destruct (Z.eqb_spec (of_idx e) 0); [done|]. specialize (Hpl e He). unfold is_u32 in Hu.
  destruct (fd_at_ok _ _ v newfd Hs ltac:(lia)) as (e0 & He0 & _ & Ee0). eapply wp_bind_ok; [exact Ee0|].
  eapply (wp_step _ _ (fun _ v1 => vfs_inv v1 /\ cur_table v1 !! Z.to_nat oldfd = Some e /\
    exists e1, cur_table v1 !! Z.to_nat newfd = Some e1 /\ of_idx e1 = 0)).
  { destruct (Z.eqb_spec (of_idx e0) 0); cbn [negb]; [apply wp_ret; split; [done|split; [done|by exists e0]]|].
    eapply wp_mono; [by apply vfs_close_safe|]. intros _ v1 (Hv1 & _ & Ht). split; [done|].
    destruct (Ht _ _ He) as (e' & He' & Heq & _). rewrite Heq in He' by lia. split; [done|].
    destruct (Ht _ _ He0) as (e1 & He1 & _ & Hz). exists e1. split; [done|]. apply Hz; [done|lia]. }
  intros _ v1 (Hv1 & He1 & e1 & Hn1 & Hz). pose proof Hv1 as (Hs1 & _).
  destruct (fd_at_ok _ _ v1 oldfd Hs1 ltac:(lia)) as (e' & He' & _ & Ee'). eapply wp_bind_ok; [exact Ee'|].
  rewrite He1 in He'. injection He' as <-.
  destruct (put_fd_ok _ _ v1 newfd e1 e Hs1 ltac:(lia) Hn1 ltac:(done)) as (v2 & E2 & _). eapply wp_bind_ok; [exact E2|].
  eapply wp_step.
  - eapply (add_ref_safe v1 v2 newfd e e1 (of_idx e - 1)); try done; try lia.
    eapply refers_live; [done|exact He1|]. unfold refers. lia.
  - intros u v3 H3. by apply wp_ret.
Qed.

End Calls.
