(* ===== verification/VfsPathCalls.v ===== *)
(** * The VFS: the calls on paths keep the invariant *)

From stdpp Require Import base tactics numbers list gmap.
From S2P Require Import Prelude Kstring Fd FsOps Vfs VfsPath VfsFd VfsProofs VfsPathProofs VfsSafe VfsCalls.

Section PathCalls.
Context {F : Type}.
Variable vtables : Z -> option (fs_ops F).
Variable junk : Z -> Z.
Variable inv : F -> Prop.
Variable ino : Z -> Z -> Prop.
Hypothesis safe : forall p ops, vtables p = Some ops -> FsSafe ops inv (ino p).
Implicit Types v : vfs F.

Abbreviation vfs_static := (vfs_static vtables ino).
Abbreviation vfs_inv := (vfs_inv vtables inv ino).
Abbreviation only_fs := (only_fs inv).

Definition is_path (p : option (list Z)) : Prop := match p with Some b => 0 ∈ b | None => True end.

(** A call into the file system that ends a call. *)
Lemma fs_call_inv {A} (m : ST F A) v (P : A -> F -> Prop) :
  vfs_inv v -> wp m P (fsst v) -> (forall a f, P a f -> inv f) ->
  wp (fs_call m) (fun a v' => vfs_inv v' /\ only_fs v v' /\ P a (fsst v')) v.
Proof.
  intros Hv Hm HP. eapply wp_mono; [by eapply fs_call_wp|]. intros a v' [Hfs Ha].
  split; [by eapply only_fs_inv|done].
Qed.

Lemma with_abs_wp {A} v path (bad : Z -> A) (k : list Z -> ST (vfs F) A) Q :
  vfs_static v -> 0 ∈ path -> (forall e, e < 0 -> Q (bad e) v) ->
  (forall abs s, holds abs s -> wp (k abs) Q v) ->
  wp (' (rc, abs) ← make_abs_path (Some path) (local junk PATH_BUF) PATH_BUF;
      if rc <? 0 then ret (bad rc) else k abs) Q v.
Proof.
  intros Hs Hp Hbad Hk. destruct (make_abs_path_safe vtables junk ino v path Hs Hp) as (rc & abs & E & Hrc).
  eapply wp_bind_ok; [exact E|]. cbv beta iota. destruct Hrc as [Hneg|[-> [s Ha]]].
  - rewrite (proj2 (Z.ltb_lt rc 0)) by done. apply wp_ret. by apply Hbad.
  - by apply (Hk abs s).
Qed.

(** The leaf of a path and the directory it is in. *)
Lemma with_parent_wp {A} v path s (bad : Z -> A) (k : Z -> Z -> list Z -> ST (vfs F) A) Q :
  vfs_inv v -> holds path s -> (forall e v', vfs_inv v' -> Q (bad e) v') ->
  (forall v' i n leaf, only_fs v v' -> vfs_inv v' -> found vtables ino v' i n -> 0 ∈ leaf -> wp (k i n leaf) Q v') ->
  wp (r ← vfs_resolve_parent_and_leaf vtables junk (Some path);
      match r with inl e => ret (bad e) | inr (i, n, leaf) => k i n leaf end) Q v.
Proof.
  intros Hv Hp Hbad Hk. pose proof Hv as (Hs & _ & Hf).
  eapply wp_step; [by eapply (resolve_parent_safe _ junk)|]. intros [e|[[i n] leaf]] v' [Hfs Hr].
  - apply wp_ret, Hbad. by eapply only_fs_inv.
  - destruct Hr as [Hfound Hleaf]. apply Hk; [done|by eapply only_fs_inv| |done]. by destruct Hfs as (f & -> & _).
Qed.

Lemma with_mount {A} v i n (k : mount -> fs_ops F -> ST (vfs F) A) Q :
  vfs_inv v -> found vtables ino v i n ->
  (forall m ops, vtables (m_ops m) = Some ops -> ino (m_ops m) n -> wp (k m ops) Q v) ->
  wp (m ← mount_at i; ops ← vtable vtables (m_ops m); k m ops) Q v.
Proof. intros (_ & _ & Hf) Hfound Hk. eapply with_mount_wp; [done|by apply only_fs_refl|done]. Qed.

Lemma vfs_mkdir_safe v path mode :
  vfs_inv v -> is_path path -> wp (vfs_mkdir vtables junk path mode) (fun _ v' => vfs_inv v') v.
Proof.
  intros Hv Hp. unfold vfs_mkdir. destruct path as [p|]; [|done]. simpl in Hp. pose proof (str_of_holds _ Hp) as Hh.
  eapply wp_bind_ok; [apply (rd_holds p _ 0 v Hh); lia|]. destruct (negb _); [done|].
  apply (with_parent_wp v p (str_of p) (fun e => e)); [done..|].
  intros v1 i n leaf Hfs1 Hv1 Hfound Hleaf. apply with_mount with (n := n); [done..|]. intros m ops Hvt Hn.
  destruct (op_mkdir ops) as [mk|] eqn:Em; [|done].
  eapply wp_step; [eapply fs_call_inv; [done|eapply (safe_mkdir (FsSafe := safe _ _ Hvt)); try done; apply Hv1|done]|].
  intros [crc ?] v2 [Hv2 _]. by apply wp_ret.
Qed.

(** Dropping a path from the cache after a successful operation. *)
Lemma invalidate_after v path (rc : Z) :
  vfs_inv v -> 0 ∈ path ->
  wp ((if rc =? 0 then dcache_invalidate (Some path) else ret tt);; ret rc) (fun _ v' => vfs_inv v') v.
Proof.
  intros Hv Hp. eapply (wp_step _ _ (fun _ v' => vfs_inv v')).
  - destruct (rc =? 0); [by apply dcache_invalidate_safe|done].
  - intros _ v' Hv'. by apply wp_ret.
Qed.

Lemma vfs_unlink_safe v path :
  vfs_inv v -> is_path path -> wp (vfs_unlink vtables junk path) (fun _ v' => vfs_inv v') v.
Proof.
  intros Hv Hp. pose proof Hv as (Hs & _). unfold vfs_unlink. destruct path as [p|]; [|done]. simpl in Hp.
  apply (with_abs_wp v p (fun e => e)); [done..|]. intros abs s Ha.
  apply (with_parent_wp v abs s (fun e => e)); [done..|].
  intros v1 i n leaf Hfs1 Hv1 Hfound Hleaf. apply with_mount with (n := n); [done..|]. intros m ops Hvt Hn.
  destruct (op_unlink ops) as [ul|] eqn:Eu; [|done].
  eapply wp_step; [eapply fs_call_inv; [done|eapply (safe_unlink (FsSafe := safe _ _ Hvt)); try done; apply Hv1|done]|].
  intros rc v2 [Hv2 _]. by apply invalidate_after.
Qed.

Lemma vfs_rename_safe v old new :
  vfs_inv v -> is_path old -> is_path new -> wp (vfs_rename vtables junk old new) (fun _ v' => vfs_inv v') v.
Proof.
  intros Hv Ho Hn. pose proof Hv as (Hs & _). unfold vfs_rename.
  destruct old as [p|], new as [p'|]; try done. simpl in Ho, Hn.
  apply (with_abs_wp v p (fun e => e)); [done..|]. intros abs s Ha.
  apply (with_abs_wp v p' (fun e => e)); [done..|]. intros abs' s' Ha'.
  apply (with_parent_wp v abs s (fun e => e)); [done..|]. intros v1 i n leaf Hfs1 Hv1 Hfound Hleaf.
  apply (with_parent_wp v1 abs' s' (fun e => e)); [done..|]. intros v2 i' n' leaf' Hfs2 Hv2 Hfound' Hleaf'.
  destruct (Z.eqb_spec i i') as [<-|]; [|done]. cbn [negb].
  assert (found vtables ino v2 i n) as Hfound2 by (by destruct Hfs2 as (f & -> & _)).
  destruct Hfound' as (m & Hm & [ops Hvt] & Hn'). destruct Hfound2 as (m2 & Hm2 & _ & Hn2).
  pose proof Hm as (Hi & Hlm & _). destruct Hm2 as (_ & Hlm2 & _). rewrite Hlm in Hlm2. injection Hlm2 as <-.
  eapply wp_bind_ok; [by apply mount_at_ok|]. eapply wp_bind_ok; [by apply vtable_ok|].
  destruct (op_rename ops) as [rn|] eqn:Er; [|done].
  eapply wp_step; [eapply fs_call_inv; [done|eapply (safe_rename (FsSafe := safe _ _ Hvt)); try done; apply Hv2|done]|].
  intros rc v3 [Hv3 _]. eapply (wp_step _ _ (fun _ v' => vfs_inv v')).
  - destruct (rc =? 0); [|done]. eapply wp_step; [by eapply dcache_invalidate_safe|].
    intros u v4 Hv4. by apply dcache_invalidate_safe.
  - intros _ v' Hv'. by apply wp_ret.
Qed.

Lemma vfs_rmdir_safe v path :
  vfs_inv v -> is_path path -> wp (vfs_rmdir vtables junk path) (fun _ v' => vfs_inv v') v.
Proof.
  intros Hv Hp. pose proof Hv as (Hs & _). unfold vfs_rmdir. destruct path as [p|]; [|done]. simpl in Hp.
  apply (with_abs_wp v p (fun e => e)); [done..|]. intros abs s Ha.
  apply (with_parent_wp v abs s (fun e => e)); [done..|].
  intros v1 i n leaf Hfs1 Hv1 Hfound Hleaf. apply with_mount with (n := n); [done..|]. intros m ops Hvt Hn.
  destruct (op_rmdir ops) as [rm|] eqn:Er; [|done].
  eapply (wp_step _ _ (fun c v' => vfs_inv v' /\ (c = 0 \/ ino (m_ops m) c))).
  { destruct (op_resolve ops) as [rs|] eqn:Es; [|apply wp_ret; auto].
    eapply wp_mono; [eapply fs_call_inv; [done|eapply (safe_resolve (FsSafe := safe _ _ Hvt)); try done; apply Hv1|]|].
    - by intros ?? [? _].
    - intros c v2 (Hv2 & _ & _ & Hc). auto. }
  intros c v2 [Hv2 Hc]. destruct (Z.eqb_spec c 0); [done|]. destruct Hc as [|Hc]; [done|].
  eapply (wp_step _ _ (fun _ v' => vfs_inv v')).
  { unfold dir_has_entry. destruct (op_readdir ops) as [rd|] eqn:Ed; [|done].
    eapply wp_step; [eapply fs_call_inv; [done|eapply (safe_readdir (FsSafe := safe _ _ Hvt)); try done; apply Hv2|]|].
    - by intros ?? [? _].
    - intros [[r b] q] v3 [Hv3 _]. by apply wp_ret. }
  intros busy v3 Hv3. destruct busy; [done|].
  eapply wp_step; [eapply fs_call_inv; [done|eapply (safe_rmdir (FsSafe := safe _ _ Hvt)); try done; apply Hv3|done]|].
  intros rc v4 [Hv4 _]. by apply invalidate_after.
Qed.

(** An inode named by a path. *)
Lemma resolve_user_safe v path :
  vfs_inv v -> is_path path ->
  wp (resolve_user_path vtables junk path)
    (fun r v' => vfs_inv v' /\ only_fs v v' /\
       match r with inl _ => True | inr (m, ops, n) => vtables (m_ops m) = Some ops /\ ino (m_ops m) n end) v.
Proof.
  intros Hv Hp. pose proof Hv as (Hs & _ & Hf). unfold resolve_user_path.
  assert (only_fs v v) as Hrefl by (by apply only_fs_refl).
  destruct path as [p|]; [|done]. simpl in Hp.
  apply (with_abs_wp v p inl); [done|done|done|]. intros abs s Ha.
  eapply wp_step; [by eapply (resolve_path_safe _ junk)|]. intros [e|[i n]] v1 [Hfs Hr].
  { apply wp_ret. split; [by eapply only_fs_inv|done]. }
  eapply with_mount_wp; [done|done|]. intros m ops Hvt Hn. apply wp_ret. split; [by eapply only_fs_inv|done].
Qed.

Lemma vfs_truncate_safe v path len :
  vfs_inv v -> is_path path -> is_u32 len -> wp (vfs_truncate vtables junk path len) (fun _ v' => vfs_inv v') v.
Proof.
  intros Hv Hp Hl. unfold vfs_truncate. eapply wp_step; [by apply resolve_user_safe|].
  intros [e|[[m ops] n]] v1 (Hv1 & _ & Hr); [done|]. destruct Hr as [Hvt Hn].
  destruct (op_truncate ops) as [tr|] eqn:Et; [|done].
  eapply wp_mono; [eapply fs_call_inv; [done|eapply (safe_truncate (FsSafe := safe _ _ Hvt)); try done; apply Hv1|done]|].
  by intros rc v2 [Hv2 _].
Qed.

Lemma vfs_chown_safe v path uid gid :
  vfs_inv v -> is_path path -> wp (vfs_chown vtables junk path uid gid) (fun _ v' => vfs_inv v') v.
Proof.
  intros Hv Hp. unfold vfs_chown. eapply wp_step; [by apply resolve_user_safe|].
  intros [e|[[m ops] n]] v1 (Hv1 & _ & Hr); [done|]. destruct Hr as [Hvt Hn].
  destruct (op_chown ops) as [ch|] eqn:Et; [|done].
  destruct (current_ok _ _ v1 (proj1 Hv1)) as (p & E & _). eapply wp_bind_ok; [exact E|].
  destruct (match p with Some q => _ | None => _ end); [done|].
  eapply wp_mono; [eapply fs_call_inv; [done|eapply (safe_chown (FsSafe := safe _ _ Hvt)); try done; apply Hv1|done]|].
  by intros rc v2 [Hv2 _].
Qed.

Lemma vfs_chmod_safe v path mode :
  vfs_inv v -> is_path path -> wp (vfs_chmod vtables junk path mode) (fun _ v' => vfs_inv v') v.
Proof.
  intros Hv Hp. unfold vfs_chmod. eapply wp_step; [by apply resolve_user_safe|].
  intros [e|[[m ops] n]] v1 (Hv1 & _ & Hr); [done|]. destruct Hr as [Hvt Hn].
  destruct (op_stat ops) as [st|] eqn:Es; [|done]. destruct (op_chmod ops) as [ch|] eqn:Ec; [|done].
  eapply wp_step; [eapply fs_call_inv; [done|eapply (safe_stat (FsSafe := safe _ _ Hvt)); try done; apply Hv1|by intros ?? [? _]]|].
  intros [rc s] v2 (Hv2 & _ & _ & Hrc). cbn [fst snd] in Hrc.
  destruct Hrc as [Hneg|(-> & x & -> & _)]; [by rewrite (proj2 (Z.ltb_lt rc 0))|]. cbn [Z.ltb Z.compare].
  destruct (current_ok _ _ v2 (proj1 Hv2)) as (p & E & _). eapply wp_bind_ok; [exact E|].
  eapply (wp_step _ _ (fun _ v' => v' = v2)); [destruct p as [q|]; [by destruct (_ =? 0)|done]|].
  intros b v3 ->. destruct b; [|done]. cbn [negb].
  eapply wp_mono; [eapply fs_call_inv; [done|eapply (safe_chmod (FsSafe := safe _ _ Hvt)); try done; apply Hv2|done]|].
  by intros rc v4 [Hv4 _].
Qed.

Lemma vfs_stat_safe v path st :
  vfs_inv v -> is_path path -> wp (vfs_stat vtables junk path st) (fun _ v' => vfs_inv v') v.
Proof.
  intros Hv Hp. pose proof Hv as (Hs & _ & Hf). unfold vfs_stat. destruct st; [|done]. cbn [negb].
  destruct path as [p|]; [|done]. simpl in Hp.
  apply (with_abs_wp v p (fun e => (e, None))); [done|done|done|]. intros abs s Ha.
  eapply wp_step; [by eapply (resolve_path_safe _ junk)|]. intros [e|[i n]] v1 [Hfs Hr].
  { apply wp_ret. by eapply only_fs_inv. }
  eapply with_mount_wp; [done|done|]. intros m ops Hvt Hn. pose proof (only_fs_inv _ _ _ v v1 Hv Hfs) as Hv1.
  destruct (op_stat ops) as [sf|] eqn:Es; [|done].
  eapply wp_mono; [eapply fs_call_inv; [done|eapply (safe_stat (FsSafe := safe _ _ Hvt)); try done; apply Hv1|by intros ?? [? _]]|].
  by intros rc v4 [Hv4 _].
Qed.


(** ** Changing the directory *)

Lemma replace_proc_inv v k q q' :
  vfs_inv v -> procs v !! k = Some q -> proc_safe q' -> v_fds q' = v_fds q ->
  vfs_inv (set_procs (<[k := q']> (procs v)) v).
Proof.
  intros (Hs & Hr & Hf) Hk Hq' Hfds. split; [|split; [|done]].
  - destruct Hs. split; try done; simpl.
    + intros j x Hx. apply lookup_insert_Some in Hx as [[<- <-]|[_ Hx]]; [done|by eapply vw_procs].
    + by rewrite map_size_insert_Some.
    + destruct vw_current as [|[x Hx]]; [by left|right]. destruct (decide (current v = k)) as [->|].
      * eexists. apply lookup_insert_eq.
      * exists x. by rewrite lookup_insert_ne.
  - intros i Hi. change (v_refs i (set_procs _ v)) with (v_refs i v). rewrite Hr by done. f_equal.
    unfold v_uses. simpl. pose proof (uses_of_proc (Z.of_nat i) (kernel_fd_table v) (procs v) k q q' Hk) as H.
    rewrite Hfds in H. lia.
Qed.

Lemma vfs_chdir_safe v path :
  vfs_inv v -> is_path path -> wp (vfs_chdir vtables junk path) (fun _ v' => vfs_inv v') v.
Proof.
  intros Hv Hp. pose proof Hv as (Hs & _ & Hf). unfold vfs_chdir. destruct path as [p|]; [|done]. simpl in Hp.
  apply (with_abs_wp v p (fun e => e)); [done..|]. intros abs s Ha.
  eapply wp_step; [by eapply (resolve_path_safe _ junk)|]. intros [e|[i n]] v1 [Hfs Hr].
  { apply wp_ret. by eapply only_fs_inv. }
  eapply with_mount_wp; [done|done|]. intros m ops Hvt Hn. pose proof (only_fs_inv _ _ _ v v1 Hv Hfs) as Hv1.
  destruct (op_stat ops) as [sf|] eqn:Es; [|done].
  eapply wp_step; [eapply fs_call_inv; [done|eapply (safe_stat (FsSafe := safe _ _ Hvt)); try done; apply Hv1|by intros ?? [? _]]|].
  intros [rc st] v2 (Hv2 & _ & _ & Hrc). cbn [fst snd] in Hrc.
  destruct Hrc as [Hneg|(-> & x & -> & _)]; [by rewrite (proj2 (Z.ltb_lt rc 0))|]. cbn [Z.ltb Z.compare].
  destruct (negb _); [done|]. destruct (current_ok _ _ v2 (proj1 Hv2)) as (q & E & Hq). eapply wp_bind_ok; [exact E|].
  destruct q as [q|]; [|done]. destruct Hq as (H0 & Hq & _).
  destruct (vw_procs _ _ _ _ _ _ _ _ (proj1 Hv2) _ _ Hq) as (Q1 & Q2 & Q3 & Q4).
  destruct (kstrncpy_holds (v_cwd q) abs s (Z.of_nat (length (v_cwd q))) v2 Ha ltac:(lia)) as (d & Ed & Hd & _).
  eapply wp_bind_ok; [exact Ed|]. change (default [] (Some d)) with d.
  eapply wp_bind_ok; [apply wr_ok; lia|]. eapply wp_bind_ok; [done|]. apply wp_ret.
  apply (replace_proc_inv v2 (current v2) q); [done|done| |done]. split_and!; [done|done| |].
  - simpl. by rewrite length_insert, Hd.
  - apply list_elem_of_lookup_2 with (i := Z.to_nat (Z.of_nat (length (v_cwd q)) - 1)).
    apply list_lookup_insert_eq. lia.
Qed.

End PathCalls.
