(* ===== verification/VfsFork.v ===== *)
(** * The VFS: mounting and inheriting descriptors

    [vfs_mount] keeps the invariant of VfsSafe.v, and so does the part of
    [sys_fork] (core/fork.c) that hands the descriptors of the parent on to the
    child. *)

From stdpp Require Import base tactics numbers list gmap.
From S2P Require Import Prelude Kstring Fd FsOps Vfs VfsPath VfsFd VfsProofs VfsPathProofs VfsSafe VfsCalls VfsPathCalls.

Section Fork.
Context {F : Type}.

Definition proc_at (p : Z) : ST (vfs F) vproc :=
  v ← gets id; match procs v !! p with Some q => ret q | None => fail Undef end.

Definition put_proc_fd (p i : Z) (e : proc_fd) : ST (vfs F) unit :=
  q ← proc_at p;
  t ← wr (v_fds q) i e;
  modify (fun v => set_procs (<[p := set_fds t q]> (procs v)) v).

(** The loop of [sys_fork] over the descriptors, [n] of them left. *)
Fixpoint fork_fds (n : nat) (i parent child : Z) : ST (vfs F) unit :=
  match n with
  | O => ret tt
  | S n' =>
      p ← proc_at parent;
      e ← rd (v_fds p) i;
      put_proc_fd child i e;;
      (if negb (of_idx e =? 0) || negb (fd_flags e =? 0) then
         put_proc_fd parent i (ProcFd (of_idx e) (fd_offset e) (fd_flags e) (s32 (fd_refcount e + 1)));;
         put_proc_fd child i (ProcFd (of_idx e) (fd_offset e) (fd_flags e) 1);;
         let raw := of_idx_decode (of_idx e) in
         if 0 <=? raw then vfs_open_file_incref raw else ret tt
       else ret tt);;
      fork_fds n' (i + 1) parent child
  end.

End Fork.

Section Proofs.
Context {F : Type}.
Variable vtables : Z -> option (fs_ops F).
Variable junk : Z -> Z.
Variable inv : F -> Prop.
Variable ino : Z -> Z -> Prop.
Hypothesis safe : forall p ops, vtables p = Some ops -> FsSafe ops inv (ino p).
Implicit Types v : vfs F.

Abbreviation vfs_static := (vfs_static vtables ino).
Abbreviation vfs_inv := (vfs_inv vtables inv ino).

(** ** Mounting *)

Lemma mount_busy_ok n (i : nat) target v :
  vfs_static v -> 0 ∈ target -> (i + n <= 8)%nat -> exists b, mount_busy n (Z.of_nat i) target v = Ok (b, v).
Proof.
  intros Hs Ht. apply str_of_holds in Ht. revert i. induction n as [|n IH]; intros i Hi; cbn [mount_busy]; [by eexists|].
  destruct (lookup_lt_is_Some_2 (mounts v) i) as [m Hm]; [rewrite (vw_mounts_len _ _ _ _ _ _ _ _ Hs); lia|].
  rewrite (bind_ok _ _ _ _ _ (mount_at_ok v (Z.of_nat i) m ltac:(lia) ltac:(by rewrite Nat2Z.id))).
  replace (Z.of_nat i + 1) with (Z.of_nat (S i)) by lia.
  destruct (m_in_use m) eqn:Eu; [|apply IH; lia].
  destruct (Forall_lookup_1 _ _ _ _ (vw_mounts _ _ _ _ _ _ _ _ Hs) Hm) as [_ Hms].
  destruct (Hms Eu) as [Hn _]. apply str_of_holds in Hn.
  rewrite (bind_ok _ _ _ _ _ (kstrcmp_ok _ _ _ _ v Hn Ht)). destruct (_ =? 0); [by eexists|apply IH; lia].
Qed.

Lemma mount_install_safe n (i : nat) target ops priv root v :
  vfs_inv v -> 0 ∈ target -> (i + n <= 8)%nat -> ops <> 0 -> node_at vtables ino ops root ->
  wp (mount_install n (Z.of_nat i) target ops priv root) (fun _ v' => vfs_inv v') v.
Proof.
  intros Hv Ht Hi Hops Hroot. pose proof (str_of_holds _ Ht) as Hh. pose proof Hv as (Hs & Hr & Hf).
  pose proof (vw_mounts_len _ _ _ _ _ _ _ _ Hs) as Hl.
  revert i Hi. induction n as [|n IH]; intros i Hi; cbn [mount_install]; [done|].
  destruct (lookup_lt_is_Some_2 (mounts v) i ltac:(lia)) as [m Hm].
  eapply wp_bind_ok; [apply (mount_at_ok v (Z.of_nat i) m); [lia|by rewrite Nat2Z.id]|].
  destruct (m_in_use m) eqn:Eu; cbn [negb].
  { replace (Z.of_nat i + 1) with (Z.of_nat (S i)) by lia. apply IH. lia. }
  destruct (Forall_lookup_1 _ _ _ _ (vw_mounts _ _ _ _ _ _ _ _ Hs) Hm) as [Hml _].
  destruct (kstrncpy_holds (m_target m) target _ 64 v Hh ltac:(lia)) as (d & Ed & Hd & _).
  eapply wp_bind_ok; [exact Ed|]. change (default [] (Some d)) with d.
  eapply wp_bind_ok; [apply wr_ok; unfold VFS_MOUNT_TARGET_MAX; lia|]. apply wp_bind, wp_gets.
  eapply wp_bind_ok; [apply wr_ok; unfold id; lia|]. eapply wp_bind_ok; [done|]. apply wp_ret.
  split; [|done]. destruct Hs. split; try done; simpl; [by rewrite length_insert|].
  apply Forall_insert; [done|]. split; [cbn [m_target]; by rewrite length_insert, Hd|]. intros _. split; [|done].
  apply list_elem_of_lookup_2 with (i := 63%nat), list_lookup_insert_eq. rewrite Hd, Hml. by apply Nat.ltb_lt.
Qed.

Lemma vfs_mount_safe v target ops priv root :
  vfs_inv v -> is_path target -> (ops <> 0 -> root <> 0 -> node_at vtables ino ops root) ->
  wp (vfs_mount target ops priv root) (fun _ v' => vfs_inv v') v.
Proof.
  intros Hv Ht Hroot. pose proof Hv as (Hs & _). unfold vfs_mount.
  eapply (wp_step _ _ (fun _ v' => v' = v)).
  { unfold mount_target_valid. destruct target as [t|]; [|done]. simpl in Ht. pose proof (str_of_holds _ Ht) as Hh.
    eapply wp_bind_ok; [apply (rd_holds t _ 0 v Hh); lia|]. destruct (negb _); [done|].
    eapply wp_bind_ok; [by apply kstrlen_ok|]. destruct (_ || _); [done|].
    eapply (wp_step _ _ (fun _ v' => v' = v)); [|by intros ?? ->].
    destruct (Z.ltb_spec 1 (Z.of_nat (length (str_of t)))); [|done].
    eapply wp_bind_ok; [apply (rd_holds t (str_of t) _ v Hh); lia|done]. }
  intros r v1 ->. destruct r as [l|]; [|done]. destruct target as [t|]; [|done]. simpl in Ht.
  destruct (Z.eqb_spec ops 0); [done|]. destruct (Z.eqb_spec root 0); [done|]. cbn [orb].
  destruct (mount_busy_ok 8 0 t v Hs Ht ltac:(lia)) as [b Eb]. eapply wp_bind_ok; [exact Eb|].
  destruct b; [done|]. apply (mount_install_safe 8 0); try done. by apply Hroot.
Qed.

(** ** Inheriting descriptors *)

Lemma put_proc_fd_ok v k q i e e' :
  vfs_static v -> procs v !! k = Some q -> 0 <= i -> v_fds q !! Z.to_nat i = Some e -> is_u32 (of_idx e') ->
  let v' := set_procs (<[k := set_fds (<[Z.to_nat i := e']> (v_fds q)) q]> (procs v)) v in
  put_proc_fd k i e' v = Ok (tt, v') /\ vfs_static v' /\
  (forall j, v_uses j v' + one_if (refers (Z.of_nat j) e) = v_uses j v + one_if (refers (Z.of_nat j) e'))%nat.
Proof.
  intros Hs Hk Hi He Hu v'. destruct (vw_procs _ _ _ _ _ _ _ _ Hs _ _ Hk) as (Q1 & Q2 & Q3 & Q4).
  pose proof (lookup_lt_Some _ _ _ He) as Hlt. split; [|split].
  - unfold put_proc_fd, proc_at. rewrite bind_assoc. run. unfold id. rewrite Hk. run.
    by rewrite (bind_ok _ _ _ _ _ (wr_ok (v_fds q) i e' v ltac:(lia))).
  - destruct Hs. split; try done; simpl.
    + intros j x Hx. apply lookup_insert_Some in Hx as [[<- <-]|[_ Hx]]; [|by eapply vw_procs].
      split_and!; try done; simpl; [by rewrite length_insert|by apply Forall_insert].
    + by rewrite map_size_insert_Some.
    + destruct vw_current as [|[x Hx]]; [by left|right]. destruct (decide (current v = k)) as [->|].
      * eexists. apply lookup_insert_eq.
      * exists x. by rewrite lookup_insert_ne.
  - intros j. pose proof (uses_of_proc (Z.of_nat j) (kernel_fd_table v) (procs v) k q
      (set_fds (<[Z.to_nat i := e']> (v_fds q)) q) Hk) as H1.
    pose proof (uses_in_insert (Z.of_nat j) _ _ _ e' He) as H2. cbn [v_fds set_fds] in H1. unfold v_uses. simpl. lia.
Qed.

Lemma incref_ok v i :
  vfs_static v -> 0 <= i < 64 -> 0 < v_refs (Z.to_nat i) v < 100000 ->
  exists v', vfs_open_file_incref i v = Ok (tt, v') /\ vfs_static v' /\ procs v' = procs v /\ fsst v' = fsst v /\
    (forall k, v_uses k v' = v_uses k v) /\
    forall k, v_refs k v' = if decide (k = Z.to_nat i) then v_refs k v + 1 else v_refs k v.
Proof.
  intros Hs Hi Hpos. unfold vfs_open_file_incref, VFS_MAX_OPEN_FILES.
  rewrite (proj2 (Z.ltb_ge i 0)), (proj2 (Z.leb_gt 64 i)) by lia. cbn [orb].
  destruct (open_file_ok _ _ v i Hs Hi) as (o & Ho & Hfo & Eo & Er). rewrite (bind_ok _ _ _ _ _ Eo), <- Er.
  rewrite (proj2 (Z.ltb_lt 0 _)) by lia. rewrite u32_id by (unfold is_u32; lia).
  destruct (upd_open_file_ok _ _ v i o (set_refcount (v_refs (Z.to_nat i) v + 1)) Hs Hi Ho)
    as (v' & E & Hs' & Hf & Hr & Hu & _).
  { split; [apply Hfo|]. intros _. apply Hfo. lia. }
  exists v'. split_and!; try done.
  - unfold upd_open_file in E. revert E. run. unfold id. rewrite (bind_ok _ _ _ _ _ (rd_ok _ _ _ v (proj1 Hi) Ho)).
    erewrite bind_ok by (apply wr_ok; rewrite (vw_files_len _ _ _ _ _ _ _ _ Hs); lia). by intros [= <-].
  - intros k. rewrite Hr. case_decide; [by subst|done].
Qed.

Lemma uses_small v k : vfs_static v -> Z.of_nat (v_uses k v) <= 8256.
Proof.
  intros Hs. pose proof (uses_of_le (Z.of_nat k) (kernel_fd_table v) (procs v) (proj1 (vw_kernel _ _ _ _ _ _ _ _ Hs))
    (fun k q H => proj1 (vw_procs _ _ _ _ _ _ _ _ Hs k q H))) as Hle.
  pose proof (vw_nprocs _ _ _ _ _ _ _ _ Hs) as Hn. unfold v_uses. lia.
Qed.

Lemma of_idx_decode_ok e : is_u32 e ->
  (of_idx_decode e = -1 /\ (e = 0 \/ 64 < e)) \/ (of_idx_decode e = e - 1 /\ 1 <= e <= 64).
Proof.
  unfold of_idx_decode, is_u32. intros He. destruct (Z.eqb_spec e 0); [left; auto|].
  destruct (Z.ltb_spec 64 e); [left; auto|right]. lia.
Qed.

(** The part of a descriptor that counts as a reference. *)
Lemma refers_same k e e' : of_idx e' = of_idx e -> one_if (refers k e') = one_if (refers k e).
Proof. intros E. unfold one_if. repeat case_decide; unfold refers in *; (done || lia). Qed.

(** One descriptor. *)
Lemma fork_step_safe v (i : nat) parent child p c e e0 :
  vfs_inv v -> parent <> child -> procs v !! parent = Some p -> procs v !! child = Some c ->
  v_fds p !! i = Some e -> v_fds c !! i = Some e0 -> of_idx e0 = 0 ->
  wp (put_proc_fd child (Z.of_nat i) e;;
      if negb (of_idx e =? 0) || negb (fd_flags e =? 0) then
        put_proc_fd parent (Z.of_nat i) (ProcFd (of_idx e) (fd_offset e) (fd_flags e) (s32 (fd_refcount e + 1)));;
        put_proc_fd child (Z.of_nat i) (ProcFd (of_idx e) (fd_offset e) (fd_flags e) 1);;
        let raw := of_idx_decode (of_idx e) in
        if 0 <=? raw then vfs_open_file_incref raw else ret tt
      else ret tt)
    (fun _ v' => vfs_inv v' /\ exists p' c' ep e', procs v' !! parent = Some p' /\ procs v' !! child = Some c' /\
       v_fds p' = <[i := ep]> (v_fds p) /\ v_fds c' = <[i := e']> (v_fds c) /\ of_idx e' = of_idx e) v.
Proof.
  intros Hv Hne Hp Hc He He0 Hz. pose proof Hv as (Hs & Hr & Hf).
  assert (is_u32 (of_idx e)) as Hu.
  { destruct (vw_procs _ _ _ _ _ _ _ _ Hs _ _ Hp) as (_ & Hall & _). by apply (Forall_lookup_1 _ _ _ _ Hall He). }
  pose proof (lookup_lt_Some _ _ _ He) as Hlp. pose proof (lookup_lt_Some _ _ _ He0) as Hlc.
  destruct (put_proc_fd_ok v child c (Z.of_nat i) e0 e Hs Hc) as (E1 & Hs1 & Hu1);
    [lia|by rewrite Nat2Z.id|done|]. rewrite Nat2Z.id in *.
  eapply wp_bind_ok; [exact E1|]. set (v1 := set_procs _ v) in *.
  destruct (negb (of_idx e =? 0) || negb (fd_flags e =? 0)) eqn:Eb.
  2: { apply orb_false_iff in Eb as [Ez%negb_false_iff%Z.eqb_eq _].
    apply wp_ret. split; [split; [done|split; [|done]]|].
    - intros j Hj. specialize (Hu1 j). change (v_refs j v1) with (v_refs j v). rewrite Hr by done.
      rewrite !one_if_false in Hu1 by (unfold refers; lia). lia.
    - eexists p, _, e, e. split; [simpl; rewrite lookup_insert_ne by done; exact Hp|].
      split; [apply lookup_insert_eq|]. split; [by rewrite list_insert_id|done]. }
  set (e2 := ProcFd (of_idx e) (fd_offset e) (fd_flags e) (s32 (fd_refcount e + 1))).
  destruct (put_proc_fd_ok v1 parent p (Z.of_nat i) e e2 Hs1) as (E2 & Hs2 & Hu2);
    [simpl; rewrite lookup_insert_ne by done; exact Hp|lia|by rewrite Nat2Z.id|done|].
  rewrite Nat2Z.id in *. eapply wp_bind_ok; [exact E2|]. set (v2 := set_procs _ v1) in *.
  set (e3 := ProcFd (of_idx e) (fd_offset e) (fd_flags e) 1).
  destruct (put_proc_fd_ok v2 child (set_fds (<[i := e]> (v_fds c)) c) (Z.of_nat i) e e3 Hs2) as (E3 & Hs3 & Hu3);
    [simpl; rewrite lookup_insert_ne, lookup_insert_eq by done; done|lia
    |rewrite Nat2Z.id; by apply list_lookup_insert_eq|done|].
  rewrite Nat2Z.id in *. eapply wp_bind_ok; [exact E3|]. set (v3 := set_procs _ v2) in *. cbv zeta.
  assert (forall j, v_uses j v3 = v_uses j v + one_if (refers (Z.of_nat j) e))%nat as Huses.
  { intros j. specialize (Hu1 j). specialize (Hu2 j). specialize (Hu3 j).
    rewrite (refers_same _ e e2) in Hu2 by done. rewrite (refers_same _ e e3) in Hu3 by done.
    rewrite (one_if_false (refers _ e0)) in Hu1 by (unfold refers; lia). lia. }
  assert (exists p' c' ep e', procs v3 !! parent = Some p' /\ procs v3 !! child = Some c' /\
     v_fds p' = <[i := ep]> (v_fds p) /\ v_fds c' = <[i := e']> (v_fds c) /\ of_idx e' = of_idx e) as Htabs.
  { eexists _, _, e2, e3. split; [simpl; rewrite lookup_insert_ne by done; apply lookup_insert_eq|].
    split; [apply lookup_insert_eq|]. simpl. rewrite list_insert_insert_eq. done. }
  destruct (of_idx_decode_ok (of_idx e) Hu) as [[-> Hd]|[-> Hd]].
  - apply wp_ret. split; [|done]. split; [done|]. split; [|done]. intros j Hj. rewrite Huses.
    change (v_refs j v3) with (v_refs j v). rewrite Hr, one_if_false by (unfold refers; lia). lia.
  - rewrite (proj2 (Z.leb_le 0 _)) by lia.
    pose proof (Hr (Z.to_nat (of_idx e - 1)) ltac:(lia)) as Hrk.
    assert (0 < v_uses (Z.to_nat (of_idx e - 1)) v)%nat as Hlive.
    { unfold v_uses. eapply uses_of_pos_proc; [exact Hp|]. eapply uses_in_pos; [exact He|]. unfold refers. lia. }
    pose proof (uses_small v (Z.to_nat (of_idx e - 1)) Hs).
    destruct (incref_ok v3 (of_idx e - 1) Hs3 ltac:(lia)) as (v4 & E4 & Hs4 & Hp4 & Hf4 & Hu4 & Hr4).
    { change (v_refs ?k v3) with (v_refs k v). lia. }
    eapply wp_ok; [exact E4|]. split; [|by rewrite Hp4]. split; [done|]. split; [|by rewrite Hf4].
    intros j Hj. rewrite Hr4, Hu4, Huses. change (v_refs j v3) with (v_refs j v). rewrite Hr by done.
    case_decide as Hk.
    + rewrite one_if_true by (unfold refers; lia). lia.
    + rewrite one_if_false by (unfold refers; lia). lia.
Qed.

Lemma fork_fds_safe n : forall (i : nat) parent child p c v,
  vfs_inv v -> parent <> child -> procs v !! parent = Some p -> procs v !! child = Some c -> (i + n = 64)%nat ->
  (forall k e, (i <= k)%nat -> v_fds c !! k = Some e -> of_idx e = 0) ->
  wp (fork_fds n (Z.of_nat i) parent child)
    (fun _ v' => vfs_inv v' /\ exists c', procs v' !! child = Some c' /\
       (forall k, (k < i)%nat -> v_fds c' !! k = v_fds c !! k) /\
       forall k e, (i <= k)%nat -> v_fds p !! k = Some e -> exists e', v_fds c' !! k = Some e' /\ of_idx e' = of_idx e) v.
Proof.
  induction n as [|n IH]; intros i parent child p c v Hv Hne Hp Hc Hi Hzero; cbn [fork_fds].
  { apply wp_ret. split; [done|]. exists c. split_and!; try done. intros k e Hk He.
    apply lookup_lt_Some in He. pose proof Hv as (Hs & _). destruct (vw_procs _ _ _ _ _ _ _ _ Hs _ _ Hp) as [Hl _]. lia. }
  pose proof Hv as (Hs & _). destruct (vw_procs _ _ _ _ _ _ _ _ Hs _ _ Hp) as [Hlp _].
  destruct (vw_procs _ _ _ _ _ _ _ _ Hs _ _ Hc) as [Hlc _].
  destruct (lookup_lt_is_Some_2 (v_fds p) i ltac:(lia)) as [e He].
  destruct (lookup_lt_is_Some_2 (v_fds c) i ltac:(lia)) as [e0 He0].
  eapply wp_bind_ok; [unfold proc_at; run; unfold id; by rewrite Hp|].
  eapply wp_bind_ok; [apply rd_ok; [lia|rewrite Nat2Z.id; exact He]|].
  pose proof (fork_step_safe v i parent child p c e e0 Hv Hne Hp Hc He He0 (Hzero i e0 ltac:(lia) He0)) as Hstep.
  rewrite wp_bind in Hstep. apply wp_bind. eapply wp_mono; [exact Hstep|]. intros u v0 H0.
  eapply wp_step; [exact H0|]. clear Hstep H0 u v0.
  intros u v1 (Hv1 & p' & c' & ep & e' & Hp' & Hc' & Efp & Efc & Eo).
  replace (Z.of_nat i + 1) with (Z.of_nat (S i)) by lia.
  eapply wp_mono; [eapply (IH (S i) parent child p' c'); try done; [lia|]|].
  { intros k x Hk Hx. rewrite Efc, list_lookup_insert_ne in Hx by lia. apply (Hzero k); [lia|done]. }
  intros _ v2 (Hv2 & c2 & Hc2 & Hlow & Hhigh). split; [done|]. exists c2. split; [done|]. split.
  - intros k Hk. rewrite Hlow, Efc, list_lookup_insert_ne by lia. done.
  - intros k x Hk Hx. destruct (decide (k = i)) as [->|].
    + exists e'. rewrite Hlow, Efc, list_lookup_insert_eq by lia. split; [done|]. congruence.
    + apply (Hhigh k x); [lia|]. rewrite Efp, list_lookup_insert_ne by lia. done.
Qed.

End Proofs.
