(* ===== verification/VfsSpec.v ===== *)
(** * The VFS: histories

    Every sequence of VFS calls, interleaved with the creation of processes,
    the switches between them and the descriptors other components install,
    starting from the empty tables.  The file systems behind the VFS are any
    that keep the promises of [FsSafe]; VfsRamfs.v puts ramfs there. *)

From stdpp Require Import base tactics numbers list gmap.
From S2P Require Import Prelude Kstring Fd FsOps Vfs VfsPath VfsFd VfsProofs VfsPathProofs VfsSafe VfsCalls.
From S2P Require Import VfsPathCalls VfsFork.

(** The entry points of the VFS, and what other components do to its state. *)
Inductive vfs_event :=
  | EOpen (path : option (list Z)) (flags mode : Z)
  | EClose (fd : Z)
  | ERead (fd : Z) (buf : bool) (count : Z)
  | EPread (fd : Z) (buf : bool) (count offset : Z)
  | EWrite (fd : Z) (buf : option (list Z)) (count : Z)
  | ELseek (fd offset whence : Z)
  | EStat (path : option (list Z)) (st : bool)
  | EFstat (fd : Z) (st : bool)
  | EDup (oldfd : Z)
  | EDup2 (oldfd newfd : Z)
  | EReaddir (fd : Z) (buf : option (list Z)) (size : Z)
  | EFtruncate (fd length : Z)
  | EMkdir (path : option (list Z)) (mode : Z)
  | EUnlink (path : option (list Z))
  | ERename (oldpath newpath : option (list Z))
  | ERmdir (path : option (list Z))
  | ETruncate (path : option (list Z)) (length : Z)
  | EChmod (path : option (list Z)) (mode : Z)
  | EChown (path : option (list Z)) (uid gid : Z)
  | EChdir (path : option (list Z))
  | EMount (target : option (list Z)) (ops priv root : Z)
  | ESwitch (p : Z)
  | ENew (p : Z) (q : vproc)
  | EFork (parent child : Z)
  | EReap (p : Z)
  | EForeign (fd : Z) (e : proc_fd).

(** A descriptor of another component: free, a pipe or the console. *)
Definition foreign (e : proc_fd) : Prop := is_u32 (of_idx e) /\ (of_idx e = 0 \/ 64 < of_idx e).

Definition no_files (t : list proc_fd) : Prop := Forall foreign t.

Lemma foreign_refers e (i : nat) : foreign e -> (i < 64)%nat -> ~ refers (Z.of_nat i) e.
Proof. intros [_ H] Hi. unfold refers. lia. Qed.

Lemma no_files_uses t (i : nat) : no_files t -> (i < 64)%nat -> uses_in (Z.of_nat i) t = 0%nat.
Proof.
  intros Ht Hi. unfold uses_in. induction Ht as [|e t He _ IH]; [done|].
  rewrite filter_cons_False; [done|]. by apply foreign_refers.
Qed.

Lemma uses_of_new (i : nat) kt ps p q :
  ps !! p = None -> no_files (v_fds q) -> (i < 64)%nat ->
  uses_of (Z.of_nat i) kt (<[p := q]> ps) = uses_of (Z.of_nat i) kt ps.
Proof.
  intros Hp Hq Hi. unfold uses_of, tables. simpl. rewrite map_to_list_insert by done. simpl.
  by rewrite (no_files_uses (v_fds q)).
Qed.

Section Spec.
Context {F : Type}.
Variable vtables : Z -> option (fs_ops F).
Variable junk : Z -> Z.
Variable inv : F -> Prop.
Variable ino : Z -> Z -> Prop.
Hypothesis safe : forall p ops, vtables p = Some ops -> FsSafe ops inv (ino p).
Implicit Types v : vfs F.

Abbreviation vfs_static := (vfs_static vtables ino).
Abbreviation vfs_inv := (vfs_inv vtables inv ino).

Definition set_current (p : Z) v : vfs F :=
  Vfs (mounts v) (open_files v) (kernel_fd_table v) (procs v) p (g_slots v) (fsst v).

Definition skip {A} (m : ST (vfs F) A) : ST (vfs F) unit := m;; ret tt.

Definition run_event (e : vfs_event) : ST (vfs F) unit :=
  match e with
  | EOpen path flags mode => skip (vfs_open vtables junk path flags mode)
  | EClose fd => vfs_close vtables fd
  | ERead fd buf n => skip (vfs_read vtables fd buf n)
  | EPread fd buf n off => skip (vfs_pread vtables fd buf n off)
  | EWrite fd buf n => skip (vfs_write vtables fd buf n)
  | ELseek fd off wh => skip (vfs_lseek vtables fd off wh)
  | EStat path st => skip (vfs_stat vtables junk path st)
  | EFstat fd st => skip (vfs_fstat vtables fd st)
  | EDup fd => skip (vfs_dup fd)
  | EDup2 a b => skip (vfs_dup2 vtables a b)
  | EReaddir fd buf n => skip (vfs_readdir_fd vtables fd buf n)
  | EFtruncate fd n => skip (vfs_ftruncate vtables fd n)
  | EMkdir path mode => skip (vfs_mkdir vtables junk path mode)
  | EUnlink path => skip (vfs_unlink vtables junk path)
  | ERename old new => skip (vfs_rename vtables junk old new)
  | ERmdir path => skip (vfs_rmdir vtables junk path)
  | ETruncate path n => skip (vfs_truncate vtables junk path n)
  | EChmod path mode => skip (vfs_chmod vtables junk path mode)
  | EChown path uid gid => skip (vfs_chown vtables junk path uid gid)
  | EChdir path => skip (vfs_chdir vtables junk path)
  | EMount target ops priv root => skip (vfs_mount target ops priv root)
  | ESwitch p => modify (set_current p)
  | ENew p q => modify (fun v => set_procs (<[p := q]> (procs v)) v)
  | EFork parent child => fork_fds 64 0 parent child
  | EReap p => modify (fun v => set_procs (delete p (procs v)) v)
  | EForeign fd e => put_fd fd e
  end.

(** What the callers guarantee. *)
Definition event_ok v (e : vfs_event) : Prop :=
  match e with
  | EOpen path _ _ | EStat path _ | EMkdir path _ | EUnlink path | ERmdir path | EChmod path _
  | EChown path _ _ | EChdir path => is_path path
  | ERename old new => is_path old /\ is_path new
  | ETruncate path n => is_path path /\ is_u32 n
  | EClose _ | EFstat _ _ => True
  | ERead _ _ n | EFtruncate _ n => is_u32 n
  | EPread _ _ n off => is_u32 n /\ is_u32 off
  | EWrite _ buf n => is_u32 n /\ match buf with Some b => n <= Z.of_nat (length b) | None => True end
  | ELseek fd off wh => seek_fits v fd off wh
  | EDup fd | EDup2 fd _ => plain_fd v fd
  | EReaddir _ buf n => n < 2147483648 /\ match buf with Some b => 0 <= n <= Z.of_nat (length b) | None => True end
  | EMount target ops priv root => is_path target /\ (ops <> 0 -> root <> 0 -> node_at vtables ino ops root)
  | ESwitch p => exists q, procs v !! p = Some q
  | ENew p q => p <> 0 /\ procs v !! p = None /\ (size (procs v) < 128)%nat /\ proc_safe q /\ no_files (v_fds q)
  | EFork parent child => parent <> child /\ exists p c, procs v !! parent = Some p /\ procs v !! child = Some c /\
      Forall (fun e => of_idx e = 0) (v_fds c)
  | EReap p => p <> current v /\ exists q, procs v !! p = Some q /\ no_files (v_fds q)
  | EForeign fd e => 0 <= fd < 64 /\ foreign e /\ forall e0, cur_table v !! Z.to_nat fd = Some e0 -> foreign e0
  end.

Lemma skip_wp {A} (m : ST (vfs F) A) v (Q : vfs F -> Prop) :
  wp m (fun _ v' => Q v') v -> wp (skip m) (fun _ v' => Q v') v.
Proof. intros H. eapply wp_step; [exact H|]. intros a v' Ha. exact Ha. Qed.

Lemma new_safe v p q :
  vfs_inv v -> event_ok v (ENew p q) -> vfs_inv (set_procs (<[p := q]> (procs v)) v).
Proof.
  intros (Hs & Hr & Hf) (H0 & Hp & Hsz & Hq & Hno). split; [|split; [|done]].
  - destruct Hs. split; try done; simpl.
    + intros k x Hx. apply lookup_insert_Some in Hx as [[<- <-]|[_ Hx]]; [done|by eapply vw_procs].
    + rewrite map_size_insert_None by done. lia.
    + destruct vw_current as [?|[x Hx]]; [by left|right]. exists x. rewrite lookup_insert_ne; congruence.
  - intros i Hi. change (v_refs i (set_procs _ v)) with (v_refs i v). rewrite Hr by done. f_equal.
    symmetry. by apply uses_of_new.
Qed.

Lemma reap_safe v p : vfs_inv v -> event_ok v (EReap p) -> vfs_inv (set_procs (delete p (procs v)) v).
Proof.
  intros (Hs & Hr & Hf) (Hc & q & Hq & Hno). split; [|split; [|done]].
  - destruct Hs. split; try done; simpl.
    + intros k x Hx. apply lookup_delete_Some in Hx as [_ Hx]. by eapply vw_procs.
    + rewrite map_size_delete_Some by eauto. lia.
    + destruct vw_current as [?|[x Hx]]; [by left|right]. exists x. by rewrite lookup_delete_ne.
  - intros i Hi. change (v_refs i (set_procs _ v)) with (v_refs i v). rewrite Hr by done. f_equal.
    unfold v_uses. simpl. rewrite <- (insert_delete_id (procs v) p q Hq) at 1.
    apply uses_of_new; [apply lookup_delete_eq|done|done].
Qed.

Lemma foreign_safe v fd e :
  vfs_inv v -> event_ok v (EForeign fd e) -> wp (put_fd fd e) (fun _ v' => vfs_inv v') v.
Proof.
  intros (Hs & Hr & Hf) (Hfd & He & Hold). destruct (fd_at_ok _ _ v fd Hs Hfd) as (e0 & He0 & _).
  destruct (put_fd_ok _ _ v fd e0 e Hs Hfd He0 (proj1 He)) as (v1 & E1 & Hs1 & Hf1 & Hr1 & Hu1 & _).
  eapply wp_ok; [exact E1|]. split; [done|]. split; [|by rewrite Hf1]. intros i Hi. rewrite Hr1, Hr by done.
  specialize (Hu1 i). rewrite !one_if_false in Hu1 by (apply foreign_refers; auto). lia.
Qed.

Lemma run_event_safe v e : vfs_inv v -> event_ok v e -> wp (run_event e) (fun _ v' => vfs_inv v') v.
Proof.
  intros Hv He. pose proof Hv as (Hs & Hr & Hf). destruct e; cbn [run_event]; cbn [event_ok] in He; try apply skip_wp.
  - by eapply vfs_open_safe.
  - unfold vfs_close. destruct (fd <? 0); [done|]. eapply wp_mono; [by eapply vfs_close_safe|]. by intros ?? [? _].
  - by eapply vfs_read_safe.
  - by eapply vfs_pread_safe; [| |apply He..].
  - by eapply vfs_write_safe; [| |apply He..].
  - by eapply vfs_lseek_safe.
  - by eapply vfs_stat_safe.
  - by eapply vfs_fstat_safe.
  - by eapply vfs_dup_safe.
  - by eapply vfs_dup2_safe.
  - by eapply vfs_readdir_safe; [| |apply He..].
  - by eapply vfs_ftruncate_safe.
  - by eapply vfs_mkdir_safe.
  - by eapply vfs_unlink_safe.
  - by eapply vfs_rename_safe; [| |apply He..].
  - by eapply vfs_rmdir_safe.
  - by eapply vfs_truncate_safe; [| |apply He..].
  - by eapply vfs_chmod_safe.
  - by eapply vfs_chown_safe.
  - by eapply vfs_chdir_safe.
  - by eapply vfs_mount_safe; [|apply He..].
  - apply wp_modify. split; [|done]. destruct Hs. split; try done. by right.
  - apply wp_modify. by apply new_safe.
  - destruct He as (Hne & p & c & Hp & Hc & Hz). eapply wp_mono; [eapply (fork_fds_safe _ _ _ 64 0 _ _ p c); try done|].
    + intros k x _ Hx. by apply (Forall_lookup_1 _ _ _ _ Hz Hx).
    + by intros u v' [? _].
  - apply wp_modify. by apply reap_safe.
  - by apply foreign_safe.
Qed.

(** The empty tables, over a file-system state [f]. *)
Definition vfs_empty (f : F) : vfs F :=
  Vfs (replicate 8 (Mount (replicate 64 0) 0 0 0 false)) (replicate 64 open_file_zero) (replicate 64 fd_zero)
    ∅ 0 (replicate 32 None) f.

Inductive vfs_reach : vfs F -> Prop :=
| vr_empty f : inv f -> vfs_reach (vfs_empty f)
| vr_event v e v' : vfs_reach v -> event_ok v e -> run_event e v = Ok (tt, v') -> vfs_reach v'.

Lemma empty_inv f : inv f -> vfs_inv (vfs_empty f).
Proof.
  intros Hf. split; [|split; [|done]].
  - split; try done.
    + apply Forall_replicate. by split.
    + apply Forall_replicate. by split.
    + split; [done|]. by apply Forall_replicate.
    + simpl. rewrite map_size_empty. lia.
    + by left.
    + by apply Forall_replicate.
  - intros i Hi. unfold v_refs, v_uses. cbn [open_files vfs_empty kernel_fd_table procs].
    rewrite lookup_replicate_2 by done. unfold uses_of, tables. rewrite map_to_list_empty, !fmap_nil.
    cbn [sum_list_with]. rewrite no_files_uses; [done| |done]. apply Forall_replicate. split; [done|by left].
Qed.

Lemma vfs_reach_inv v : vfs_reach v -> vfs_inv v.
Proof.
  induction 1 as [f Hf|v e v' _ IH He E]; [by apply empty_inv|].
  pose proof (run_event_safe v e IH He) as H. unfold wp in H. by rewrite E in H.
Qed.


(** C31: resolving an absolute path is a lookup in the mount table followed by
    a fold: the mount whose target is the longest prefix of the path that ends
    at a component boundary, then one lookup per component of the rest, from
    the root of that mount, with empty components and "." skipped, ".."
    left to the file system, and names cut to 63 bytes. *)
Theorem resolve_path_walks v path s :
  vfs_reach v -> holds path s -> nthZ s 0 = SLASH ->
  (vfs_resolve_path vtables junk (Some path) v = Ok (inl (- ENOENT), v) /\
   forall i m, mounted v i m -> ~ covers (str_of (m_target m)) s) \/
  exists i m ops, longest_mount v s i m /\ vtables (m_ops m) = Some ops /\
    vfs_resolve_path vtables junk (Some path) v =
    match op_resolve ops with
    | None => Ok (inl (- ENOSYS), v)
    | Some o =>
        (n ← fs_call (walk_ref (o (m_priv m)) (m_root m) (components (drop (length (str_of (m_target m))) s)));
         ret (if n =? 0 then inl (- ENOENT) else inr (i, n))) v
    end.
Proof.
  intros Hv Hp H0. pose proof (vfs_reach_inv v Hv) as (Hs & _).
  apply resolve_path_ok; [by eapply static_mounts|by eapply static_ops|done|done].
Qed.

(** C33: the buffer a path is made absolute in is never overrun: when the
    absolute path with its terminator fits into the buffer the result is 0 and
    the buffer holds exactly that path, otherwise -ENAMETOOLONG; the buffer
    keeps its length either way. *)
Theorem abs_path_bounded v path s buf :
  vfs_reach v -> holds path s -> (258 <= length buf)%nat ->
  exists rc buf', make_abs_path (Some path) buf (Z.of_nat (length buf)) v = Ok ((rc, buf'), v) /\
    length buf' = length buf /\
    (rc = 0 /\ holds buf' (abs_path (cur_cwd v) s) /\ (length (abs_path (cur_cwd v) s) < length buf)%nat \/
     rc = - ENAMETOOLONG /\ (length buf <= length (abs_path (cur_cwd v) s))%nat).
Proof.
  intros Hv Hp Hl. pose proof (vfs_reach_inv v Hv) as (Hs & _).
  destruct (make_abs_path_ok path s buf _ v (static_cwd _ _ v Hs) Hp eq_refl ltac:(lia)) as (rc & buf' & E & Hl' & H).
  exists rc, buf'. split; [done|]. split; [done|]. case_decide; [left|right]; (split; [apply H|]); [split; [apply H|lia]|lia].
Qed.

(** C32: after a fork the child has, slot by slot, the open files of its
    parent, and every count has grown with the new descriptors. *)
Theorem fork_shares_files v parent child p c :
  vfs_reach v -> parent <> child -> procs v !! parent = Some p -> procs v !! child = Some c ->
  Forall (fun e => of_idx e = 0) (v_fds c) ->
  exists v' c', fork_fds 64 0 parent child v = Ok (tt, v') /\ vfs_reach v' /\ procs v' !! child = Some c' /\
    (of_idx <$> v_fds c') = (of_idx <$> v_fds p) /\
    forall i o, open_files v' !! i = Some o ->
      o_refcount o = Z.of_nat (uses_of (Z.of_nat i) (kernel_fd_table v') (procs v')).
Proof.
  intros Hv Hne Hp Hc Hz. assert (event_ok v (EFork parent child)) as He by (split; [done|by exists p, c]).
  pose proof (vfs_reach_inv v Hv) as Hi. assert (forall k e, (0 <= k)%nat -> v_fds c !! k = Some e -> of_idx e = 0) as Hz'
    by (intros k x _ Hx; by apply (Forall_lookup_1 _ _ _ _ Hz Hx)).
  pose proof (fork_fds_safe _ _ _ 64 0 parent child p c v Hi Hne Hp Hc eq_refl Hz') as H.
  apply wp_elim in H as ([] & v' & E & (Hs & Hr & Hf) & c' & Hc' & _ & Hsame). exists v', c'. split; [done|].
  split; [by eapply (vr_event v (EFork parent child))|]. split; [done|]. split.
  - pose proof Hi as (Hs0 & _). destruct (vw_procs _ _ _ _ _ _ _ _ Hs0 _ _ Hp) as [Hlp _].
    destruct (vw_procs _ _ _ _ _ _ _ _ Hs _ _ Hc') as [Hlc _].
    apply list_eq_same_length with 64%nat; rewrite ?length_fmap; try done. intros k x y Hk Hx Hy.
    rewrite list_lookup_fmap in Hx, Hy. destruct (v_fds p !! k) as [e|] eqn:Ee; [|done].
    destruct (Hsame k e ltac:(lia) Ee) as (e' & He' & Heq). rewrite He' in Hx. simpl in Hx, Hy. congruence.
  - intros i o Ho. assert (i < 64)%nat as Hi64.
    { rewrite <- (vw_files_len _ _ _ _ _ _ _ _ Hs). by eapply lookup_lt_Some. }
    specialize (Hr i Hi64). unfold v_refs, v_uses in Hr. by rewrite Ho in Hr.
Qed.

End Spec.
