(* ===== verification/VfsRamfs.v ===== *)
(** * The VFS over the in-memory file system

    [vfs_init] and the two functions of fs/vfs_core.c and fs/vfs_fd.c that call
    ramfs directly, the VFS with ramfs mounted as an instance of the histories
    of VfsSpec.v, and a write, a seek and a read through a descriptor down to
    the bytes of the file. *)

From stdpp Require Import base tactics numbers list gmap.
From S2P Require Import Prelude Kstring Fd FsOps Alloc Ramfs RamfsProofs RamfsData RamfsSpec RamfsSafe.
From S2P Require Import Vfs VfsPath VfsFd VfsProofs VfsPathProofs VfsSafe VfsCalls VfsPathCalls VfsFork VfsSpec.

(** The address of [ramfs_ops]; which one does not matter. *)
Definition RAMFS_OPS := 1.

Section VfsRamfs.
Context {M : Type} {KM : Kmalloc M}.
Variable junk : Z -> Z.

(** The vtables of the system. *)
Definition vtables (p : Z) : option (fs_ops (ramfs M)) :=
  if p =? RAMFS_OPS then Some (ramfs_ops junk) else None.

Definition vfs_init : ST (vfs (ramfs M)) Z :=
  fs_call ramfs_init;;
  dcache_init;;
  mrc ← vfs_mount (Some [SLASH; 0]) RAMFS_OPS 0 ramfs_root_inode;
  if mrc <? 0 then ret mrc else ret 0.

Definition vfs_inode_dtype (inode_idx : Z) : ST (vfs (ramfs M)) Z := fs_call (ramfs_inode_dtype inode_idx).

(** The name found there, [None] for NULL. *)
Definition vfs_get_path_by_fd (fd : Z) : ST (vfs (ramfs M)) (option (list Z)) :=
  if (fd <? 0) || (MAX_OPEN_FILES <=? fd) then ret None
  else
    proc ← current_proc;
    match proc with
    | None => ret None
    | Some q =>
        e ← rd (v_fds q) fd;
        if of_idx e =? 0 then ret None
        else
          let of_idx := u32 (of_idx e - 1) in
          if VFS_MAX_OPEN_FILES <=? of_idx then ret None
          else
            file ← open_file_at of_idx;
            if negb (o_fs file =? RAMFS_OPS) then ret None
            else if RAMFS_MAX_INODES <=? o_inode file then ret None
            else n ← fs_call (ramfs_get_inode (o_inode file)); ret (Some (i_name n))
    end.

Implicit Types v : vfs (ramfs M).

(** Inode numbers of the file systems. *)
Definition ino (p i : Z) : Prop := in_table i.

Lemma vtables_safe p ops : vtables p = Some ops -> FsSafe ops ramfs_safe (ino p).
Proof. unfold vtables. destruct (_ =? _); [|done]. intros [= <-]. apply ramfs_fs_safe. Qed.

Definition reach : vfs (ramfs M) -> Prop := vfs_reach vtables junk ramfs_safe ino.

(** ** Booting *)

(** Memory as the loader leaves it: every table zero. *)
Definition bss (m : M) : vfs (ramfs M) := vfs_empty (Ramfs [] [] ∅ m).

Lemma fs_call_eq {A} (m : ST (ramfs M) A) v a f : m (fsst v) = Ok (a, f) -> fs_call m v = Ok (a, set_fsst f v).
Proof. intros E. unfold fs_call, zoom. by rewrite E. Qed.

Lemma root_node_at : node_at vtables ino RAMFS_OPS ramfs_root_inode.
Proof. split; [by eexists|]. unfold ino, in_table, ramfs_root_inode, RAMFS_ROOT_INO. lia. Qed.

(** Booting. *)
Lemma vfs_boot_ok (m : M) L :
  km_rep m L ->
  exists v, vfs_init (bss m) = Ok (0, v) /\ reach v /\ ramfs_wf (fsst v) /\
    (exists t, mounts v !! 0%nat = Some (Mount t RAMFS_OPS 0 RAMFS_ROOT_INO true) /\ holds t [SLASH]) /\
    (forall i n, mounted v i n -> i = 0) /\
    Forall (fun o => o_refcount o = 0) (open_files v).
Proof.
  intros HL. set (f0 := Ramfs [] [] ∅ m : ramfs M).
  destruct (init_ok f0 L eq_refl HL) as (f & E & Hwf & _).
  assert (ramfs_safe f) as Hsafe.
  { pose proof (init_safe f0 L eq_refl HL) as H. unfold wp in H. rewrite E in H. apply H. }
  set (t := [SLASH; 0] ++ replicate 62 0).
  assert (run_event vtables junk (EMount (Some [SLASH; 0]) RAMFS_OPS 0 ramfs_root_inode) (vfs_empty f) =
    Ok (tt, set_mounts (<[0%nat := Mount t RAMFS_OPS 0 RAMFS_ROOT_INO true]> (mounts (vfs_empty f))) (vfs_empty f))) as Em
    by reflexivity.
  eexists. split; [|split; [refine (vr_event _ _ _ _ _ _ _ _ _ Em); [by apply vr_empty|]|]].
  - unfold vfs_init. rewrite (bind_ok _ _ _ _ _ (fs_call_eq ramfs_init (bss m) 0 f E)). reflexivity.
  - split; [right; left|]. intros _ _. apply root_node_at.
  - split; [done|]. split; [exists t; split; [done|]; split; [by repeat constructor|by eexists]|].
    split; [|by apply Forall_replicate]. intros i n (Hi & Hn & Hu). cbn [mounts set_mounts] in Hn.
    destruct (decide (Z.to_nat i = 0%nat)); [lia|]. rewrite list_lookup_insert_ne in Hn by lia.
    apply lookup_replicate in Hn as [-> _]. done.
Qed.

(** booting from zeroed tables succeeds, whatever the allocator does: ramfs
    is mounted at the root and nothing else is mounted, no file is open, and
    the VFS is in a state its histories start from. *)
Theorem vfs_init_boots (m : M) L :
  km_rep m L ->
  exists v, vfs_init (bss m) = Ok (0, v) /\ reach v /\ ramfs_wf (fsst v) /\
    (exists t, mounts v !! 0%nat = Some (Mount t RAMFS_OPS 0 RAMFS_ROOT_INO true) /\ holds t [SLASH]) /\
    (forall i n, mounted v i n -> i = 0) /\
    Forall (fun o => o_refcount o = 0) (open_files v).
Proof. apply vfs_boot_ok. Qed.

(** ** Files through descriptors *)

(** Descriptor [fd] of the current process names open file [k], which is [o]. *)
Record fd_opens v (fd k : Z) (o : open_file) : Prop := {
  fo_fd : 0 <= fd < 64;
  fo_idx : 0 <= k < 64;
  fo_slot : exists e, cur_table v !! Z.to_nat fd = Some e /\ of_idx e = k + 1;
  fo_file : open_files v !! Z.to_nat k = Some o;
  fo_live : o_refcount o <> 0
}.

Lemma fd_opens_ok v fd k o :
  vfs_static vtables ino v -> fd_opens v fd k o ->
  fd_to_of_idx_locked fd v = Ok (k, v) /\ open_file_at k v = Ok (o, v).
Proof.
  intros Hs [Hfd Hk (e & He & Ei) Ho Hl]. unfold fd_to_of_idx_locked, fd_resolve_slot.
  destruct (current_ok _ _ v Hs) as (p & E & _). rewrite bind_assoc, (bind_ok _ _ _ _ _ E).
  replace (match p with Some _ => MAX_OPEN_FILES | None => VFS_MAX_OPEN_FILES end) with 64 by (by destruct p).
  rewrite (proj2 (Z.ltb_ge fd 0)), (proj2 (Z.leb_gt 64 fd)) by lia. cbn [orb]. run.
  destruct (fd_at_ok _ _ v fd Hs Hfd) as (e' & He' & _ & Ee). rewrite He in He'. injection He' as <-.
  rewrite (bind_ok _ _ _ _ _ Ee), Ei. rewrite (proj2 (Z.eqb_neq (k + 1) 0)) by lia.
  replace (k + 1 - 1) with k by lia. rewrite u32_id by (unfold is_u32; lia).
  rewrite (proj2 (Z.leb_gt VFS_MAX_OPEN_FILES k)) by (unfold VFS_MAX_OPEN_FILES; lia).
  destruct (open_file_ok _ _ v k Hs Hk) as (o' & Ho' & _ & Eo & _). rewrite Ho in Ho'. injection Ho' as <-.
  rewrite (bind_ok _ _ _ _ _ Eo). rewrite (proj2 (Z.eqb_neq _ _) Hl). rewrite s32_small by lia. done.
Qed.

(** The state with other file contents and another position in file [k]. *)
Definition moved v k o f p : vfs (ramfs M) :=
  set_open_files (<[Z.to_nat k := set_pos p o]> (open_files v)) (set_fsst f v).

Lemma moved_ok v fd k o f p :
  vfs_static vtables ino v -> fd_opens v fd k o -> is_u32 p ->
  vfs_static vtables ino (moved v k o f p) /\ fd_opens (moved v k o f p) fd k (set_pos p o).
Proof.
  intros Hs [Hfd Hk He Ho Hl] Hp. pose proof (vw_files_len _ _ _ _ _ _ _ _ Hs) as Hlen. split.
  - pose proof (Forall_lookup_1 _ _ _ _ (vw_files _ _ _ _ _ _ _ _ Hs) Ho) as [_ Hn].
    destruct Hs. split; try done; simpl; [by rewrite length_insert|]. by apply Forall_insert.
  - split; try done. simpl. apply list_lookup_insert_eq. lia.
Qed.

Lemma upd_pos_ok v k o f p :
  0 <= k -> open_files v !! Z.to_nat k = Some o ->
  upd_open_file k (set_pos p) (set_fsst f v) = Ok (tt, moved v k o f p).
Proof.
  intros Hk Ho. unfold upd_open_file. run. unfold id. pose proof (lookup_lt_Some _ _ _ Ho).
  erewrite bind_ok by (apply rd_ok; [done|exact Ho]).
  by rewrite (bind_ok _ _ _ _ _ (wr_ok (open_files v) k (set_pos p o) _ ltac:(lia))).
Qed.

Lemma ramfs_vtable v : vtable vtables RAMFS_OPS v = Ok (ramfs_ops junk, v).
Proof. done. Qed.

(** A write that the file system accepts, at the position of the file. *)
Lemma vfs_write_eq v fd k o buf count r f :
  vfs_static vtables ino v -> fd_opens v fd k o -> o_fs o = RAMFS_OPS ->
  Z.land (o_flags o) O_ACCMODE = O_RDWR -> Z.land (o_flags o) O_APPEND = 0 -> count <> 0 ->
  ramfs_write_data junk (o_inode o) buf count (o_pos o) (fsst v) = Ok (r, f) ->
  vfs_write vtables fd (Some buf) count v =
    Ok (r, if 0 <? r then moved v k o f (u32 (o_pos o + r)) else set_fsst f v).
Proof.
  intros Hs Ho Hfs Hacc Happ Hc E. destruct (fd_opens_ok v fd k o Hs Ho) as [E1 E2]. pose proof (fo_idx _ _ _ _ Ho) as Hk.
  unfold vfs_write. rewrite (proj2 (Z.eqb_neq count 0) Hc). rewrite (bind_ok _ _ _ _ _ E1).
  rewrite (proj2 (Z.ltb_ge k 0)) by lia. rewrite (bind_ok _ _ _ _ _ E2), Hacc, Happ, Hfs. cbn [Z.eqb negb O_RDWR O_RDONLY RAMFS_OPS].
  rewrite (bind_ok _ _ _ _ _ (ramfs_vtable v)). cbn [op_write ramfs_ops]. run.
  cbn [default from_option]. rewrite (bind_ok _ _ _ _ _ (fs_call_eq _ v r f E)).
  destruct (0 <? r); [|done]. by rewrite (bind_ok _ _ _ _ _ (upd_pos_ok v k o f _ ltac:(lia) (fo_file _ _ _ _ Ho))).
Qed.

Lemma vfs_seek_eq v fd k o p :
  vfs_static vtables ino v -> fd_opens v fd k o -> 0 <= p < 2147483648 ->
  vfs_lseek vtables fd p 0 v = Ok (p, moved v k o (fsst v) p).
Proof.
  intros Hs Ho Hp. destruct (fd_opens_ok v fd k o Hs Ho) as [E1 E2]. pose proof (fo_idx _ _ _ _ Ho) as Hk. unfold vfs_lseek.
  rewrite (bind_ok _ _ _ _ _ E1). rewrite (proj2 (Z.ltb_ge k 0)) by lia. rewrite (bind_ok _ _ _ _ _ E2).
  assert (add_s32 0 p v = Ok (p, v)) as Ea.
  { unfold add_s32. change (0 + p) with p. by rewrite (proj2 (Z.leb_le _ p)), (proj2 (Z.ltb_lt p _)) by lia. }
  rewrite (bind_ok _ _ v (Some 0) v) by reflexivity. rewrite (bind_ok _ _ _ _ _ Ea), (proj2 (Z.ltb_ge p 0)) by lia.
  assert (set_fsst (fsst v) v = v) as Ev by (by destruct v).
  pose proof (upd_pos_ok v k o (fsst v) p ltac:(lia) (fo_file _ _ _ _ Ho)) as E. rewrite Ev in E.
  by rewrite (bind_ok _ _ _ _ _ E).
Qed.

Lemma vfs_read_eq v fd k o count r bytes :
  vfs_static vtables ino v -> fd_opens v fd k o -> o_fs o = RAMFS_OPS ->
  Z.land (o_flags o) O_ACCMODE = O_RDWR ->
  ramfs_read_data (o_inode o) count (o_pos o) (fsst v) = Ok ((r, bytes), fsst v) ->
  exists v', vfs_read vtables fd true count v = Ok ((r, bytes), v').
Proof.
  intros Hs Ho Hfs Hacc E. destruct (fd_opens_ok v fd k o Hs Ho) as [E1 E2]. pose proof (fo_idx _ _ _ _ Ho) as Hk.
  unfold vfs_read. cbn [negb]. rewrite (bind_ok _ _ _ _ _ E1).
  rewrite (proj2 (Z.ltb_ge k 0)) by lia. rewrite (bind_ok _ _ _ _ _ E2), Hacc, Hfs. cbn [Z.eqb Pos.eqb O_RDWR O_WRONLY RAMFS_OPS].
  rewrite (bind_ok _ _ _ _ _ (ramfs_vtable v)). cbn [op_read ramfs_ops].
  rewrite (bind_ok _ _ _ _ _ (fs_call_eq _ v (r, bytes) (fsst v) E)).
  destruct (0 <? r); [|by eexists]. eexists.
  by rewrite (bind_ok _ _ _ _ _ (upd_pos_ok v k o (fsst v) _ ltac:(lia) (fo_file _ _ _ _ Ho))).
Qed.

(** C16: through a descriptor opened for reading and writing, a write, a seek
    back to where it started and a read give the bytes that were written; or
    the write reports that the file would grow too large or that memory is
    short. *)
Theorem vfs_write_seek_read v fd k o n buf count :
  reach v -> fd_opens v fd k o -> o_fs o = RAMFS_OPS ->
  Z.land (o_flags o) O_ACCMODE = O_RDWR -> Z.land (o_flags o) O_APPEND = 0 ->
  ramfs_wf (fsst v) -> at_inode (fsst v) (o_inode o) n -> i_type n = RAMFS_INODE_FILE ->
  0 < count <= Z.of_nat (length buf) -> is_u32 count ->
  exists w v1, vfs_write vtables fd (Some buf) count v = Ok (w, v1) /\
    (w = - EFBIG \/ w = - ENOSPC \/
     w = count /\ exists v2, (vfs_lseek vtables fd (o_pos o) 0;; vfs_read vtables fd true count) v1 =
       Ok ((count, take (Z.to_nat count) buf), v2)).
Proof.
  intros Hv Ho Hfs Hacc Happ Hwf Hn Ht Hc Hc32. unfold RAMFS_INODE_FILE in Ht.
  pose proof (vfs_reach_inv _ _ _ _ vtables_safe v Hv) as (Hs & _). unfold is_u32 in Hc32.
  pose proof (proj1 (Forall_lookup_1 _ _ _ _ (vw_files _ _ _ _ _ _ _ _ Hs) (fo_file _ _ _ _ Ho))) as Hpos.
  destruct (write_ok junk (fsst v) (o_inode o) n buf count (o_pos o)) as (r & f & E & Hwf' & _ & Hr); try done; try lia.
  rewrite (vfs_write_eq v fd k o buf count r f) by (done || lia). eexists _, _. split; [done|].
  rewrite Ht in Hr. cbn [Z.eqb Pos.eqb] in Hr.
  destruct (Z.ltb_spec 16777216 (o_pos o + count)) as [|Hsmall]; [left; by destruct Hr|right].
  destruct Hr as [[-> _]|(-> & n' & Hwrote)]; [by left|right]. split; [done|]. unfold is_u32 in Hpos.
  rewrite (proj2 (Z.ltb_lt 0 count)), u32_id by (unfold is_u32; lia).
  destruct (moved_ok v fd k o f (o_pos o + count) Hs Ho ltac:(unfold is_u32; lia)) as [Hs1 Ho1].
  set (v1 := moved v k o f (o_pos o + count)) in *.
  rewrite (bind_ok _ _ _ _ _ (vfs_seek_eq v1 fd k _ (o_pos o) Hs1 Ho1 ltac:(lia))).
  destruct (moved_ok v1 fd k _ (fsst v1) (o_pos o) Hs1 Ho1 Hpos) as [Hs2 Ho2].
  apply (vfs_read_eq _ fd k _ _ _ _ Hs2 Ho2); [done|done|].
  eapply wrote_read; try done; [apply (nw_size _ (tw_node _ (proj1 Hwf) _ _ Hn))|lia|apply Hpos].
Qed.

End VfsRamfs.

(** ** Witnesses *)

Definition demo_junk7 (i : Z) : Z := 7.

Abbreviation demo_event := (run_event (vtables (M := arena) demo_junk7) demo_junk7).
Abbreviation demo_reach := (reach (M := arena) demo_junk7).

(** The state an event leads to. *)
Definition after (e : vfs_event) (v : vfs (ramfs arena)) : vfs (ramfs arena) :=
  match demo_event e v with Ok (_, v') => v' | Err _ => v end.

Lemma after_reach e v :
  demo_reach v -> event_ok (vtables demo_junk7) ino v e -> demo_event e v = Ok (tt, after e v) -> demo_reach (after e v).
Proof. intros Hv He E. by eapply vr_event. Qed.

(** A process with no files, in the root directory. *)
Definition demo_proc : vproc := VProc (SLASH :: replicate 255 0) 0 (replicate 64 fd_zero).

Lemma demo_proc_safe : proc_safe demo_proc /\ no_files (v_fds demo_proc).
Proof.
  split; [split_and!; try done|].
  - cbn [v_fds demo_proc]. by apply Forall_replicate.
  - right. left.
  - cbn [v_fds demo_proc]. apply Forall_replicate. split; [done|by left].
Qed.

Definition demo_boot : vfs (ramfs arena) :=
  match vfs_init (bss arena_init) with Ok (_, v) => v | Err _ => bss arena_init end.

Lemma demo_boot_reach : demo_reach demo_boot.
Proof.
  destruct (vfs_boot_ok demo_junk7 arena_init ∅ arena_init_rep) as (v & E & Hv & _).
  assert (demo_boot = v) as -> by (unfold demo_boot; by rewrite E). exact Hv.
Qed.

(** The process 4096 has opened "/f", which is new, for reading and writing. *)
Definition demo_new := after (ENew 4096 demo_proc) demo_boot.
Definition demo_run := after (ESwitch 4096) demo_new.
Definition demo_open := after (EOpen (Some [SLASH; 102; 0]) (O_CREAT + O_RDWR) 420) demo_run.

Lemma demo_run_reach : demo_reach demo_run.
Proof.
  apply after_reach; [apply after_reach; [exact demo_boot_reach| |vm_compute; reflexivity]| |vm_compute; reflexivity].
  - split; [done|]. split; [vm_compute; reflexivity|]. split; [apply Nat.ltb_lt; vm_compute; reflexivity|]. apply demo_proc_safe.
  - eexists. vm_compute. reflexivity.
Qed.

Lemma demo_open_reach : demo_reach demo_open.
Proof. apply after_reach; [exact demo_run_reach|right; right; left|vm_compute; reflexivity]. Qed.


Lemma resolve_path_walks_witness :
  holds [SLASH; 102; 0] [SLASH; 102] /\
  ((exists v, vfs_resolve_path (vtables demo_junk7) demo_junk7 (Some [SLASH; 102; 0]) demo_open = Ok (inl (- ENOENT), v)) \/
   exists i m, longest_mount demo_open [SLASH; 102] i m).
Proof.
  assert (holds [SLASH; 102; 0] [SLASH; 102]) as Hh by (split; [by repeat constructor|by exists []]). split; [exact Hh|].
  destruct (resolve_path_walks (vtables demo_junk7) demo_junk7 ramfs_safe ino (vtables_safe demo_junk7) demo_open
    [SLASH; 102; 0] [SLASH; 102] demo_open_reach Hh eq_refl) as [[E _]|(i & m & ops & Hm & _)].
  - left. eexists. exact E.
  - right. exists i, m. exact Hm.
Defined.

Lemma abs_path_bounded_witness :
  exists rc buf, make_abs_path (Some [102; 0]) (replicate 512 7) 512 demo_open = Ok ((rc, buf), demo_open) /\
    length buf = 512%nat.
Proof.
  assert (holds [102; 0] [102]) as Hh by (split; [by repeat constructor|by exists []]).
  destruct (abs_path_bounded (vtables demo_junk7) demo_junk7 ramfs_safe ino (vtables_safe demo_junk7) demo_open
    [102; 0] [102] (replicate 512 7) demo_open_reach Hh) as (rc & buf & E & Hl & _).
  - rewrite length_replicate. lia.
  - exists rc, buf. rewrite length_replicate in E, Hl. split; [exact E|exact Hl].
Defined.

Lemma vfs_init_boots_witness :
  exists v, vfs_init (bss arena_init) = Ok (0, v) /\ demo_reach v.
Proof.
  destruct (vfs_init_boots demo_junk7 arena_init ∅ arena_init_rep) as (v & E & Hv & _).
  exists v. split; [exact E|exact Hv].
Defined.

(** A second process, 8192, not yet running. *)
Definition demo_child := after (ENew 8192 demo_proc) demo_open.

Lemma demo_child_reach : demo_reach demo_child.
Proof.
  apply after_reach; [exact demo_open_reach| |vm_compute; reflexivity].
  split; [done|]. split; [vm_compute; reflexivity|]. split; [apply Nat.ltb_lt; vm_compute; reflexivity|]. apply demo_proc_safe.
Qed.

Lemma fork_shares_files_witness :
  exists p c v' c', procs demo_child !! 4096 = Some p /\ procs demo_child !! 8192 = Some c /\
    fork_fds 64 0 4096 8192 demo_child = Ok (tt, v') /\ procs v' !! 8192 = Some c' /\
    (of_idx <$> v_fds c') = (of_idx <$> v_fds p).
Proof.
  destruct (procs demo_child !! 4096) as [p|] eqn:Ep; [|vm_compute in Ep; discriminate].
  assert (procs demo_child !! 8192 = Some demo_proc) as Ec by (vm_compute; reflexivity).
  destruct (fork_shares_files (vtables demo_junk7) demo_junk7 ramfs_safe ino (vtables_safe demo_junk7) demo_child
    4096 8192 p demo_proc     demo_child_reach) as (v' & c' & E & _ & Hc & Hs & _).
  - discriminate.
  - exact Ep.
  - exact Ec.
  - cbn [v_fds demo_proc]. by apply Forall_replicate.
  - exists p, demo_proc, v', c'. split_and!; [reflexivity|exact Ec|exact E|exact Hc|exact Hs].
Defined.

(** The file system of [demo_open], by calls of ramfs alone. *)
Definition ramfs_after (c : ramfs_call) (f : ramfs arena) : ramfs arena :=
  match run_call demo_junk7 c f with Ok (_, f') => f' | Err _ => f end.

Lemma ramfs_after_reach c f :
  ramfs_reach demo_junk7 f -> call_ok f c -> run_call demo_junk7 c f = Ok (tt, ramfs_after c f) ->
  ramfs_reach demo_junk7 (ramfs_after c f).
Proof. intros Hf Hc E. by eapply rr_call. Qed.

Definition demo_fs : ramfs arena := match ramfs_init demo_raw with Ok (_, f) => f | Err _ => demo_raw end.

Lemma demo_open_wf : ramfs_wf (fsst demo_open).
Proof.
  assert (ramfs_reach demo_junk7 demo_fs) as Hr.
  { eapply (rr_init _ demo_raw ∅ 0); [done|apply arena_init_rep|]. vm_compute. reflexivity. }
  assert (fsst demo_open = ramfs_after (CIncOpen 2) (ramfs_after (CCreate 1 [102; 0] 420) demo_fs)) as ->
    by (vm_compute; reflexivity).
  apply (ramfs_reach_wf demo_junk7), ramfs_after_reach; [apply ramfs_after_reach; [exact Hr| |vm_compute; reflexivity]| |vm_compute; reflexivity].
  - split; [unfold is_inode; lia|right; left].
  - cbn [call_ok]. unfold is_inode. lia.
Qed.

Lemma vfs_write_seek_read_witness :
  exists w v1, vfs_write (vtables demo_junk7) 3 (Some [104; 105]) 2 demo_open = Ok (w, v1) /\
    (w = - EFBIG \/ w = - ENOSPC \/ w = 2).
Proof.
  destruct (open_files demo_open !! 0%nat) as [o|] eqn:Eo; [|vm_compute in Eo; discriminate].
  destruct (inode_table (fsst demo_open) !! 2%nat) as [n|] eqn:En; [|vm_compute in En; discriminate].
  assert (o = OpenFile 2 0 66 1 1 0) as Ho by (vm_compute in Eo; congruence).
  assert (i_type n = 1) as Ht by (vm_compute in En; injection En as <-; reflexivity).
  destruct (vfs_write_seek_read demo_junk7 demo_open 3 0 o n [104; 105] 2 demo_open_reach) as (w & v1 & E & Hw).
  - split; [lia|lia| |exact Eo|rewrite Ho; discriminate]. eexists. split; [vm_compute; reflexivity|reflexivity].
  - rewrite Ho. reflexivity.
  - rewrite Ho. reflexivity.
  - rewrite Ho. reflexivity.
  - exact demo_open_wf.
  - rewrite Ho. split; [simpl; lia|exact En].
  - exact Ht.
  - simpl. lia.
  - unfold is_u32. lia.
  - exists w, v1. split; [exact E|]. destruct Hw as [H|[H|[H _]]]; [left; exact H|right; left; exact H|right; right; exact H].
Defined.
