(* ===== verification/Block.v ===== *)
(** * Block devices

    Models kernel/block.h and drivers/block/block.c: the interface through
    which the file system and the journal reach a disk, and the registry of
    devices.  What a device promises is the class [BlockDevice]: it says what a
    read returns, what a failed or a successful write may have changed, and
    which contents each sector may have after a loss of power.  Between two
    flushes a device may keep written sectors in a volatile cache and write
    them back in any order, so that after a crash a sector holds any of the
    values it was given since the last flush, independently of the others.
    A disk with such a cache is the instance [cached]; [traced] records the
    states a device goes through, so that a crash at any point of a program
    can be spoken about. *)

From stdpp Require Import base tactics numbers list gmap.
From S2P Require Import Prelude Kstring.

(** ** Words in memory and on disk, least significant byte first *)

Definition le32 (x : Z) : list Z :=
  [u8 x; u8 (Z.shiftr x 8); u8 (Z.shiftr x 16); u8 (Z.shiftr x 24)].

Definition get32 (b : list Z) (off : Z) : Z :=
  nthZ b off + 256 * nthZ b (off + 1) + 65536 * nthZ b (off + 2) + 16777216 * nthZ b (off + 3).

Lemma length_le32 x : length (le32 x) = 4%nat.
Proof. done. Qed.

Lemma le32_get x : is_u32 x ->
  u8 x + 256 * u8 (Z.shiftr x 8) + 65536 * u8 (Z.shiftr x 16) + 16777216 * u8 (Z.shiftr x 24) = x.
Proof.
  unfold is_u32, u8. intros Hx. rewrite !Z.shiftr_div_pow2 by lia.
  change (2 ^ 8) with 256. change (2 ^ 16) with 65536. change (2 ^ 24) with 16777216.
  assert (x / 65536 = x / 256 / 256) as E2 by (rewrite Zdiv_Zdiv by lia; done).
  assert (x / 16777216 = x / 256 / 256 / 256) as E3 by (rewrite !Zdiv_Zdiv by lia; done).
  rewrite E2, E3. set (a := x / 256). set (b := a / 256). set (c := b / 256).
  assert (c / 256 = 0) as Ec.
  { unfold c, b, a. rewrite !Zdiv_Zdiv by lia. apply Z.div_small. lia. }
  pose proof (Z.div_mod x 256 ltac:(lia)). pose proof (Z.div_mod a 256 ltac:(lia)).
  pose proof (Z.div_mod b 256 ltac:(lia)). pose proof (Z.div_mod c 256 ltac:(lia)). lia.
Qed.

Lemma get32_app_l b r off :
  0 <= off -> off + 4 <= Z.of_nat (length b) -> get32 (b ++ r) off = get32 b off.
Proof.
  intros H0 H1. unfold get32. rewrite !nthZ_app by lia.
  repeat match goal with |- context [?a <? ?b] => destruct (Z.ltb_spec a b); [|lia] end. done.
Qed.

Lemma get32_app_r b r off :
  Z.of_nat (length b) <= off -> get32 (b ++ r) off = get32 r (off - Z.of_nat (length b)).
Proof.
  intros H0. unfold get32. rewrite !nthZ_app by lia.
  repeat match goal with |- context [?a <? ?b] => destruct (Z.ltb_spec a b); [lia|] end.
  by rewrite !Z.add_sub_swap.
Qed.

Lemma get32_le32 x r : is_u32 x -> get32 (le32 x ++ r) 0 = x.
Proof. intros Hx. rewrite get32_app_l by (simpl; lia). by apply le32_get. Qed.

Lemma get32_take b n off : 0 <= off -> off + 4 <= Z.of_nat n -> get32 (take n b) off = get32 b off.
Proof. intros. rewrite <- (Nat2Z.id n). unfold get32. by rewrite !nthZ_take by lia. Qed.

(** ** block.h *)

(** A buffer as the sectors of 512 bytes it is transferred in. *)
Definition sector_of (buf : list Z) (i : Z) : list Z := take 512 (drop (Z.to_nat (512 * i)) buf).

(** The function pointers of a [block_device_t]; [flush] may be NULL.  A read
    returns its result and what it left in the caller's buffer. *)
Class BlockOps (D : Type) := {
  read_blocks : Z -> Z -> ST D (Z * list Z);
  write_blocks : Z -> Z -> list Z -> ST D Z;
  flush : option (ST D Z)
}.

Section Calls.
Context {D : Type} `{BlockOps D}.

Definition blk_read (lba count : Z) : ST D (Z * list Z) := read_blocks lba count.

Definition blk_write (lba count : Z) (buf : list Z) : ST D Z := write_blocks lba count buf.

Definition blk_flush : ST D Z :=
  match flush with
  | Some f => f
  | None => ret 0
  end.

End Calls.

(** What a device promises.  [bd_view d s] is what a read of sector [s]
    returns; [bd_may d s v] says that [s] may hold [v] after a loss of power
    in state [d]; a healthy device is one that fails no request. *)
Class BlockDevice (D : Type) `{BlockOps D} := {
  bd_view : D -> Z -> list Z;
  bd_may : D -> Z -> list Z -> Prop;
  bd_healthy : D -> Prop;
  bd_may_view d s : bd_may d s (bd_view d s);
  bd_read_spec d lba n : 0 <= n ->
    exists rc buf d', blk_read lba n d = Ok ((rc, buf), d') /\ rc <= 0 /\
      Z.of_nat (length buf) = 512 * n /\
      (rc = 0 -> forall i, 0 <= i < n -> sector_of buf i = bd_view d (lba + i)) /\
      (forall s, bd_view d' s = bd_view d s) /\
      (forall s v, bd_may d' s v -> bd_may d s v) /\
      (bd_healthy d -> rc = 0 /\ bd_healthy d');
  bd_write_spec d lba n buf : 0 <= n -> 512 * n <= Z.of_nat (length buf) ->
    exists rc d', blk_write lba n buf d = Ok (rc, d') /\ rc <= 0 /\
      (forall s, ~ lba <= s < lba + n -> bd_view d' s = bd_view d s) /\
      (forall i, 0 <= i < n ->
         bd_view d' (lba + i) = sector_of buf i \/ (rc < 0 /\ bd_view d' (lba + i) = bd_view d (lba + i))) /\
      (forall s v, bd_may d' s v ->
         bd_may d s v \/ exists i, 0 <= i < n /\ s = lba + i /\ v = sector_of buf i) /\
      (bd_healthy d -> rc = 0 /\ bd_healthy d');
  bd_flush_spec d :
    exists rc d', blk_flush d = Ok (rc, d') /\ rc <= 0 /\
      (forall s, bd_view d' s = bd_view d s) /\
      (forall s v, bd_may d' s v -> bd_may d s v) /\
      (rc = 0 -> forall s v, bd_may d' s v -> v = bd_view d s) /\
      (bd_healthy d -> rc = 0 /\ bd_healthy d')
}.

(** A disk as a loss of power in state [d] may leave it. *)
Definition crash_image {D} `{BlockDevice D} (d : D) (m : Z -> list Z) : Prop :=
  forall s, bd_may d s (m s).

(** ** The states a device goes through *)

Definition traced (D : Type) : Type := (D * list D)%type.

Definition logged {D A} (m : ST D A) : ST (traced D) A := fun t =>
  match m (fst t) with
  | Ok (a, d') => Ok (a, (d', snd t ++ [d']))
  | Err e => Err e
  end.

#[export] Instance traced_ops {D} `{BlockOps D} : BlockOps (traced D) := {
  read_blocks lba n := logged (read_blocks lba n);
  write_blocks lba n buf := logged (write_blocks lba n buf);
  flush := match flush with Some f => Some (logged f) | None => Some (logged (ret 0)) end
}.

Section Traced.
Context {D : Type} `{BlockDevice D}.

Lemma traced_read (lba n : Z) (t : traced D) rc buf d' :
  blk_read lba n (fst t) = Ok ((rc, buf), d') ->
  blk_read lba n t = Ok ((rc, buf), (d', snd t ++ [d'])).
Proof. unfold blk_read. simpl. unfold logged. by intros ->. Qed.

Lemma traced_write (lba n : Z) (buf : list Z) (t : traced D) rc d' :
  blk_write lba n buf (fst t) = Ok (rc, d') ->
  blk_write lba n buf t = Ok (rc, (d', snd t ++ [d'])).
Proof. unfold blk_write. simpl. unfold logged. by intros ->. Qed.

Lemma traced_flush (t : traced D) rc d' :
  blk_flush (fst t) = Ok (rc, d') -> blk_flush t = Ok (rc, (d', snd t ++ [d'])).
Proof. unfold blk_flush. simpl. destruct flush; unfold logged; by intros ->. Qed.

End Traced.

(** ** A disk with a volatile write cache

    [faults] are the outcomes of the reads and writes to come: a request fails
    when its entry says so.  Flushes succeed. *)
Record cached := Cached {
  durable : gmap Z (list Z);
  cache : list (Z * list Z);
  faults : list bool
}.

(** A sector is 512 bytes long. *)
Definition pad_sector (v : list Z) : list Z := take 512 (v ++ replicate 512 0).

Definition sector_in (m : gmap Z (list Z)) (s : Z) : list Z := pad_sector (default [] (m !! s)).

(** The durable sectors overwritten by the cached ones, oldest first. *)
Definition settle (m : gmap Z (list Z)) (c : list (Z * list Z)) : gmap Z (list Z) :=
  foldl (fun m w => <[fst w := snd w]> m) m c.

Definition cached_view (d : cached) (s : Z) : list Z := sector_in (settle (durable d) (cache d)) s.

Definition cached_may (d : cached) (s : Z) (v : list Z) : Prop :=
  v = sector_in (durable d) s \/ exists w, (s, w) ∈ cache d /\ v = pad_sector w.

Definition next_fault (d : cached) : bool * cached :=
  match faults d with
  | [] => (false, d)
  | b :: fs => (b, Cached (durable d) (cache d) fs)
  end.

Definition cached_read (lba n : Z) : ST cached (Z * list Z) := fun d =>
  let '(bad, d') := next_fault d in
  if bad then Ok ((-1, replicate (Z.to_nat (512 * n)) 0), d')
  else Ok ((0, concat (cached_view d <$> seqZ lba n)), d').

Definition cached_write (lba n : Z) (buf : list Z) : ST cached Z := fun d =>
  let '(bad, d') := next_fault d in
  if bad then Ok (-1, d')
  else Ok (0, Cached (durable d')
                (cache d' ++ ((fun i => (lba + i, sector_of buf i)) <$> seqZ 0 n)) (faults d')).

Definition cached_flush : ST cached Z := fun d =>
  Ok (0, Cached (settle (durable d) (cache d)) [] (faults d)).

#[export] Instance cached_ops : BlockOps cached := {
  read_blocks := cached_read;
  write_blocks := cached_write;
  flush := Some cached_flush
}.

Lemma length_pad v : length (pad_sector v) = 512%nat.
Proof. unfold pad_sector. rewrite length_take, length_app, length_replicate. lia. Qed.

Lemma pad_id v : length v = 512%nat -> pad_sector v = v.
Proof. intros E. unfold pad_sector. rewrite take_app_le by lia. by rewrite take_ge by lia. Qed.

Lemma length_sector_of buf n i :
  0 <= i < n -> 512 * n <= Z.of_nat (length buf) -> length (sector_of buf i) = 512%nat.
Proof. intros. unfold sector_of. rewrite length_take, length_drop. lia. Qed.

Lemma concat_sector (f : Z -> list Z) lba n i :
  (forall s, length (f s) = 512%nat) -> 0 <= i < n ->
  sector_of (concat (f <$> seqZ lba n)) i = f (lba + i).
Proof.
  intros Hf Hi. replace n with (i + (1 + (n - i - 1))) by lia. rewrite !seqZ_app, !fmap_app, !concat_app by lia. unfold sector_of.
  assert (forall l, length (concat (f <$> l)) = (512 * length l)%nat) as Hl.
  { induction l as [|x l IH]; [done|]. cbn. rewrite length_app, Hf, IH. lia. }
  rewrite drop_app_ge by (rewrite Hl, length_seqZ; lia). rewrite Hl, length_seqZ.
  replace (Z.to_nat (512 * i) - 512 * Z.to_nat i)%nat with 0%nat by lia. rewrite drop_0.
  change (seqZ (lba + i) 1) with [0 + (lba + i)]. simpl. rewrite <- app_assoc.
  rewrite take_app_le, take_ge by (rewrite Hf; lia). done.
Qed.

Lemma concat_length (f : Z -> list Z) lba n :
  (forall s, length (f s) = 512%nat) -> 0 <= n ->
  Z.of_nat (length (concat (f <$> seqZ lba n))) = 512 * n.
Proof.
  intros Hf Hn. assert (forall l, length (concat (f <$> l)) = (512 * length l)%nat) as Hl.
  { induction l as [|x l IH]; [done|]. cbn. rewrite length_app, Hf, IH. lia. }
  rewrite Hl, length_seqZ. lia.
Qed.

Lemma settle_app m c w : settle m (c ++ [w]) = <[fst w := snd w]> (settle m c).
Proof. unfold settle. by rewrite foldl_app. Qed.

(** A sector reads as its last cached value, or as the durable one. *)
Lemma settle_cases m c s : sector_in (settle m c) s = sector_in m s \/
  exists w, (s, w) ∈ c /\ sector_in (settle m c) s = pad_sector w.
Proof.
  induction c as [|[k w] c IH] using rev_ind; [by left|]. rewrite settle_app. simpl. unfold sector_in in *.
  destruct (decide (k = s)) as [->|Hk].
  - right. exists w. rewrite lookup_insert_eq. split; [apply elem_of_app; right; by left|done].
  - rewrite lookup_insert_ne by done. destruct IH as [->|(w' & Hw & ->)]; [by left|right].
    exists w'. split; [by apply elem_of_app; left|done].
Qed.

Lemma settle_write m (lba : Z) (buf : list Z) n s :
  sector_in (settle m ((fun i => (lba + i, sector_of buf i)) <$> seqZ 0 (Z.of_nat n))) s =
  if decide (lba <= s < lba + Z.of_nat n) then pad_sector (sector_of buf (s - lba)) else sector_in m s.
Proof.
  induction n as [|n IH]; [case_decide; [lia|done]|].
  replace (Z.of_nat (S n)) with (Z.of_nat n + 1) by lia. rewrite seqZ_app, fmap_app by lia.
  change (seqZ (0 + Z.of_nat n) 1) with [0 + (0 + Z.of_nat n)]. simpl. rewrite settle_app. simpl.
  unfold sector_in in *. destruct (decide (lba + (0 + Z.of_nat n) = s)) as [<-|Hk].
  - rewrite lookup_insert_eq, decide_True by lia. simpl. do 2 f_equal. lia.
  - rewrite lookup_insert_ne, IH by done. repeat case_decide; try lia; done.
Qed.

Lemma settle_settle m c c' : settle m (c ++ c') = settle (settle m c) c'.
Proof. unfold settle. by rewrite foldl_app. Qed.

Lemma next_fault_disk d b d' :
  next_fault d = (b, d') ->
  durable d' = durable d /\ cache d' = cache d /\
  (Forall (fun x => x = false) (faults d) -> b = false /\ Forall (fun x => x = false) (faults d')).
Proof.
  unfold next_fault. destruct (faults d) as [|x fs] eqn:E; intros [= <- <-].
  - by rewrite E.
  - split; [done|]. split; [done|]. by intros [-> ?]%Forall_cons.
Qed.

#[export] Instance cached_device : BlockDevice cached.
Proof.
  refine {| bd_view := cached_view; bd_may := cached_may;
            bd_healthy := fun d => Forall (fun b => b = false) (faults d) |}.
  - intros d s. destruct (settle_cases (durable d) (cache d) s) as [?|(w & ? & ?)]; [by left|right; eauto].
  - intros d lba n Hn. unfold blk_read. simpl. unfold cached_read.
    destruct (next_fault d) as [b d'] eqn:E. apply next_fault_disk in E as (E1 & E2 & E3).
    assert (forall s, cached_view d' s = cached_view d s) as Hv by (intros; unfold cached_view; by rewrite E1, E2).
    assert (forall s v, cached_may d' s v -> cached_may d s v) as Hm by (intros; unfold cached_may in *; by rewrite <- E1, <- E2).
    assert (forall s, length (cached_view d s) = 512%nat) as Hl by (intros; apply length_pad).
    destruct b; eexists _, _, d'; (split; [reflexivity|]); split_and!; try done.
    + rewrite length_replicate. lia.
    + intros Hf. by destruct (E3 Hf).
    + by apply concat_length.
    + intros _ i Hi. by apply concat_sector.
    + intros Hf. by destruct (E3 Hf).
  - intros d lba n buf Hn Hb. unfold blk_write. simpl. unfold cached_write.
    destruct (next_fault d) as [b d'] eqn:E. apply next_fault_disk in E as (E1 & E2 & E3).
    rewrite E1, E2. destruct b; eexists _, _; (split; [reflexivity|]).
    { split_and!; [done|by intros; unfold cached_view; rewrite E1, E2| | |intros Hf; by destruct (E3 Hf)].
      - intros i Hi. right. split; [done|]. unfold cached_view. by rewrite E1, E2.
      - intros s v. unfold cached_may. rewrite E1, E2. by left. }
    rewrite <- (Z2Nat.id n) by done.
    assert (forall s, sector_in (settle (settle (durable d) (cache d))
        ((fun i => (lba + i, sector_of buf i)) <$> seqZ 0 (Z.of_nat (Z.to_nat n)))) s =
        if decide (lba <= s < lba + Z.of_nat (Z.to_nat n)) then pad_sector (sector_of buf (s - lba)) else cached_view d s)
      as Hw by (intros; apply settle_write).
    split_and!; [done| | | |intros Hf; by destruct (E3 Hf)].
    + intros s Hs. unfold cached_view at 1. cbn [durable cache]. by rewrite settle_settle, Hw, decide_False.
    + intros i Hi. left. unfold cached_view. cbn [durable cache]. rewrite settle_settle, Hw, decide_True by lia.
      replace (lba + i - lba) with i by lia. apply pad_id. apply (length_sector_of _ n); lia.
    + intros s v [Hv|(w & [Hc|Hc]%elem_of_app & ->)]; [by left; left|left; right; by exists w|].
      right. apply list_elem_of_fmap in Hc as (i & [= -> ->] & Hi%elem_of_seqZ). exists i.
      split; [lia|]. split; [done|]. apply pad_id. apply (length_sector_of _ n); lia.
  - intros d. unfold blk_flush. simpl. unfold cached_flush. eexists _, _. split; [reflexivity|].
    split_and!; [done|done| | |done].
    + intros s v [->|(w & Hc & _)]; [|by apply not_elem_of_nil in Hc].
      destruct (settle_cases (durable d) (cache d) s) as [?|(w & ? & ?)]; [by left|right; eauto].
    + intros _ s v [->|(w & Hc & _)]; [done|by apply not_elem_of_nil in Hc].
Defined.

(** ** block.c: the registry of devices

    The state is the first [g_count] entries of [g_devs]. *)
Definition MAX_BLOCK_DEVICES := 8.

Record block_device := BlockDev {
  bd_name : list Z;
  bd_block_size : Z;
  bd_total_blocks : Z;
  bd_has_read : bool;
  bd_has_write : bool
}.

(** Is a device of that name in the table? *)
Fixpoint name_registered (devs : list block_device) (name : list Z) : ST (list block_device) bool :=
  match devs with
  | [] => ret false
  | d :: devs' =>
      c ← kstrcmp false (Some (bd_name d)) (Some name);
      if c =? 0 then ret true else name_registered devs' name
  end.

Definition block_device_register (bd : option block_device) : ST (list block_device) Z :=
  match bd with
  | None => ret (- EINVAL)
  | Some bd =>
      if negb (bd_has_read bd) || negb (bd_has_write bd) then ret (- EINVAL)
      else
        devs ← gets id;
        if MAX_BLOCK_DEVICES <=? Z.of_nat (length devs) then ret (- ENOSPC)
        else
          dup ← name_registered devs (bd_name bd);
          if (dup : bool) then ret (- EEXIST)
          else modify (fun devs => devs ++ [bd]);; ret 0
  end.

Fixpoint find_device (devs : list block_device) (name : list Z) : ST (list block_device) (option block_device) :=
  match devs with
  | [] => ret None
  | d :: devs' =>
      c ← kstrcmp false (Some (bd_name d)) (Some name);
      if c =? 0 then ret (Some d) else find_device devs' name
  end.

Definition block_device_find (name : list Z) : ST (list block_device) (option block_device) :=
  devs ← gets id; find_device devs name.

(** The names in the table are strings, and no two are the same. *)
Definition devs_ok (devs : list block_device) : Prop :=
  Forall (fun d => 0 ∈ bd_name d) devs /\ NoDup (str_of ∘ bd_name <$> devs) /\
  Z.of_nat (length devs) <= MAX_BLOCK_DEVICES.

Lemma name_compare {S} (a b : list Z) (st : S) : 0 ∈ a -> 0 ∈ b ->
  exists c, kstrcmp false (Some a) (Some b) st = Ok (c, st) /\ (c = 0 <-> str_of a = str_of b).
Proof.
  intros Ha Hb. eexists. split; [apply kstrcmp_ok; by apply str_of_holds|].
  apply str_compare_eq; apply str_of_nonzero.
Qed.

Lemma name_registered_ok devs name st :
  Forall (fun d => 0 ∈ bd_name d) devs -> 0 ∈ name ->
  exists b, name_registered devs name st = Ok (b, st) /\
    (b = true <-> str_of name ∈ (str_of ∘ bd_name <$> devs)).
Proof.
  intros Hd Hn. induction Hd as [|d devs Hd _ (b & IH & Hb)].
  { exists false. split; [done|]. split; [done|]. by intros ?%not_elem_of_nil. }
  destruct (name_compare (bd_name d) name st Hd Hn) as (c & E & Hc). cbn [name_registered fmap list_fmap].
  rewrite (bind_ok _ _ _ _ _ E). destruct (Z.eqb_spec c 0) as [Hz|Hz].
  - exists true. split; [done|]. split; [|done]. intros _. apply elem_of_cons. left. symmetry. by apply Hc.
  - exists b. split; [done|]. rewrite Hb, elem_of_cons. split; [by right|]. intros [?|?]; [|done]. destruct Hz. by apply Hc.
Qed.

(** A registration keeps the names unique; the device it adds is the one a
    lookup of its name finds. *)
Lemma block_device_register_ok bd devs : devs_ok devs -> 0 ∈ bd_name bd ->
  exists rc devs', block_device_register (Some bd) devs = Ok (rc, devs') /\ devs_ok devs' /\
    (rc <> 0 -> devs' = devs) /\ (rc = 0 -> devs' = devs ++ [bd]).
Proof.
  intros (H1 & H2 & H3) Hn. unfold block_device_register.
  destruct (negb (bd_has_read bd) || negb (bd_has_write bd)); [by eexists _, _|].
  run. unfold id at 1. destruct (Z.leb_spec MAX_BLOCK_DEVICES (Z.of_nat (length devs))); [by eexists _, _|].
  destruct (name_registered_ok devs (bd_name bd) devs H1 Hn) as (b & E & Hb). unfold id. rewrite (bind_ok _ _ _ _ _ E).
  destruct b; [by eexists _, _|]. eexists _, _. split; [reflexivity|]. split; [|done]. unfold devs_ok.
  rewrite Forall_app, Forall_singleton, fmap_app, length_app. simpl. split; [done|]. split; [|lia].
  apply NoDup_app. split; [done|]. split; [|apply NoDup_singleton].
  intros x Hx ->%list_elem_of_singleton. destruct Hb as [_ Hb]. by specialize (Hb Hx).
Qed.

Lemma block_device_find_ok devs i bd name : devs_ok devs -> devs !! i = Some bd ->
  0 ∈ name -> str_of name = str_of (bd_name bd) ->
  block_device_find name devs = Ok (Some bd, devs).
Proof.
  intros (H1 & H2 & _) Hi Hn He. unfold block_device_find. run. unfold id. generalize devs at 2 3 as st. intros st.
  revert i Hi. induction H1 as [|d devs Hd _ IH]; intros i Hi; [done|]. cbn [find_device].
  destruct (name_compare (bd_name d) name st Hd Hn) as (c & E & Hc). rewrite (bind_ok _ _ _ _ _ E).
  cbn [fmap list_fmap] in H2. apply NoDup_cons in H2 as [H2 H3]. destruct i as [|i]; simpl in Hi.
  - injection Hi as ->. by rewrite (proj2 (Z.eqb_eq c 0)) by (by apply Hc).
  - rewrite (proj2 (Z.eqb_neq c 0)); [by eapply IH|]. intros Hz%Hc. destruct H2. apply list_elem_of_fmap.
    exists bd. split; [simpl; congruence|by eapply list_elem_of_lookup_2].
Qed.
