(* ===== verification/Journal.v ===== *)
(** * The write-ahead journal

    Models fs/journal.c and kernel/journal.h: a transaction collects up to
    eight blocks, [journal_commit] writes them to the log area of the disk,
    marks the log committed and copies it to the target blocks, and
    [journal_replay] repeats the copy when the system boots with a committed
    log.  The superblock and the transaction header are records with their
    layout on disk.  [g_journal_lock] only delimits critical sections and has
    no state of its own here.  The header comment of journal.c requires the
    log to be durable before it is applied; the theorems are in
    JournalProofs. *)

From stdpp Require Import base tactics numbers list gmap.
From S2P Require Import Prelude Alloc Block.

Definition JOURNAL_MAGIC := 0x4A4F5552.
Definition JOURNAL_VERSION := 1.
Definition JOURNAL_BLOCK_SIZE := 4096.
Definition JOURNAL_DEFAULT_BLOCKS := 32.
Definition JOURNAL_MAX_PER_TXN := 8.
Definition JOURNAL_SLOT_HDR := 1.
Definition JOURNAL_SLOT_DATA0 := JOURNAL_SLOT_HDR + 1.

(** ** The structures on disk *)

Record journal_superblock := Superblock {
  sb_magic : Z;
  sb_version : Z;
  sb_num_blocks : Z;
  sb_txn_id_next : Z;
  sb_pad : list Z
}.

Definition sb_bytes (sb : journal_superblock) : list Z :=
  le32 (sb_magic sb) ++ le32 (sb_version sb) ++ le32 (sb_num_blocks sb) ++
  le32 (sb_txn_id_next sb) ++ sb_pad sb.

Definition sb_of (b : list Z) : journal_superblock :=
  Superblock (get32 b 0) (get32 b 4) (get32 b 8) (get32 b 12) (drop 16 b).

Record journal_txn_header := TxnHeader {
  h_magic : Z;
  h_txn_id : Z;
  h_num_blocks : Z;
  h_committed : Z;
  h_target_blocks : list Z;
  h_crc : Z;
  h_pad : list Z
}.

Definition hdr_bytes (h : journal_txn_header) : list Z :=
  le32 (h_magic h) ++ le32 (h_txn_id h) ++ le32 (h_num_blocks h) ++ le32 (h_committed h) ++
  concat (le32 <$> h_target_blocks h) ++ le32 (h_crc h) ++ h_pad h.

Definition hdr_of (b : list Z) : journal_txn_header :=
  TxnHeader (get32 b 0) (get32 b 4) (get32 b 8) (get32 b 12)
    ((fun i => get32 b (16 + 4 * i)) <$> seqZ 0 JOURNAL_MAX_PER_TXN) (get32 b 48) (drop 52 b).

Definition set_committed (v : Z) (h : journal_txn_header) : journal_txn_header :=
  TxnHeader (h_magic h) (h_txn_id h) (h_num_blocks h) v (h_target_blocks h) (h_crc h) (h_pad h).
Definition set_crc (v : Z) (h : journal_txn_header) : journal_txn_header :=
  TxnHeader (h_magic h) (h_txn_id h) (h_num_blocks h) (h_committed h) (h_target_blocks h) v (h_pad h).

(** One step of the bit loop, the bit loop, and the loop over the bytes in
    front of the field [crc]. *)
Definition crc_bit (crc : Z) : Z :=
  let mask := u32 (- Z.land crc 1) in
  Z.lxor (Z.shiftr crc 1) (Z.land 0xEDB88320 mask).

Definition crc_byte (crc b : Z) : Z := Nat.iter 8 crc_bit (Z.lxor crc b).

Definition journal_crc (h : journal_txn_header) : Z :=
  u32 (Z.lnot (foldl crc_byte 0xFFFFFFFF (take 48 (hdr_bytes h)))).

(** ** The state of journal.c *)

Record journal_txn := Txn {
  in_use : Z;
  txn_id : Z;
  num_blocks : Z;
  target_blocks : list Z;
  data_buffers : list Z
}.

Definition txn_zero : journal_txn := Txn 0 0 0 (replicate 8 0) (replicate 8 0).

Section Journal.
Context {D M : Type} `{BlockOps D} `{Kmalloc M}.

(** The static variables, the device behind [g_bd], the allocator and the
    contents of the buffers it handed out. *)
Record journal := JournalState {
  g_bd : bool;
  g_journal_start : Z;
  g_sectors_per_block : Z;
  g_target_sectors : Z;
  g_sb : journal_superblock;
  g_initialized : Z;
  g_txn : journal_txn;
  jdev : D;
  jmem : M;
  jbufs : gmap Z (list Z)
}.

Definition eta_j (s : journal) : journal :=
  JournalState (g_bd s) (g_journal_start s) (g_sectors_per_block s) (g_target_sectors s) (g_sb s)
    (g_initialized s) (g_txn s) (jdev s) (jmem s) (jbufs s).

Definition set_bd : bool -> journal -> journal := ltac:(mkset eta_j g_bd).
Definition set_start : Z -> journal -> journal := ltac:(mkset eta_j g_journal_start).
Definition set_spb : Z -> journal -> journal := ltac:(mkset eta_j g_sectors_per_block).
Definition set_ts : Z -> journal -> journal := ltac:(mkset eta_j g_target_sectors).
Definition set_sb : journal_superblock -> journal -> journal := ltac:(mkset eta_j g_sb).
Definition set_initialized : Z -> journal -> journal := ltac:(mkset eta_j g_initialized).
Definition set_txn : journal_txn -> journal -> journal := ltac:(mkset eta_j g_txn).
Definition set_jdev : D -> journal -> journal := ltac:(mkset eta_j jdev).
Definition set_jmem : M -> journal -> journal := ltac:(mkset eta_j jmem).
Definition set_jbufs : gmap Z (list Z) -> journal -> journal := ltac:(mkset eta_j jbufs).

Definition on_dev {A} (m : ST D A) : ST journal A := zoom jdev set_jdev m.

(** ** Operations *)

Definition zero_block : list Z := replicate (Z.to_nat JOURNAL_BLOCK_SIZE) 0.

Definition journal_lba (s : journal) (idx : Z) : Z :=
  u32 (g_journal_start s + idx) * g_sectors_per_block s.

Definition journal_write_block (idx : Z) (data : list Z) : ST journal Z :=
  s ← gets id;
  on_dev (blk_write (journal_lba s idx) (g_sectors_per_block s) data).

Definition journal_format_fresh (num : Z) : ST journal Z :=
  r ← for_until (Z.to_nat (num - 1)) 1 (fun i =>
        rc ← journal_write_block i zero_block;
        ret (if rc <? 0 then Some rc else None));
  match r with
  | Some rc => ret rc
  | None =>
      modify (set_sb (Superblock JOURNAL_MAGIC JOURNAL_VERSION num 1 (replicate 4080 0)));;
      sb ← gets g_sb;
      journal_write_block 0 (sb_bytes sb)
  end.

Definition journal_init (bd : bool) (journal_start_block : Z) : ST journal Z :=
  if negb bd then ret (- EINVAL)
  else
    modify (set_bd true);;
    modify (set_start journal_start_block);;
    modify (set_spb (JOURNAL_BLOCK_SIZE / 512));;
    modify (fun s => if g_target_sectors s =? 0 then set_ts (g_sectors_per_block s) s else s);;
    s ← gets id;
    '(rc, buf) ← on_dev (blk_read (g_journal_start s * g_sectors_per_block s) (g_sectors_per_block s));
    modify (set_sb (sb_of buf));;
    if rc <? 0 then ret rc
    else
      sb ← gets g_sb;
      rc ← (if (sb_magic sb =? JOURNAL_MAGIC) && (sb_version sb =? JOURNAL_VERSION) then ret 0
            else journal_format_fresh JOURNAL_DEFAULT_BLOCKS);
      if rc <? 0 then ret rc
      else
        modify (set_txn txn_zero);;
        modify (set_initialized 1);;
        ret 0.

Definition discard_slot (hdr_blk : Z) : ST journal Z := journal_write_block hdr_blk zero_block.

(** The body of the loop over the blocks of a committed log. *)
Definition replay_block (hdr : journal_txn_header) (i : Z) : ST journal (option Z) :=
  s ← gets id;
  '(rc, data_buf) ← on_dev (blk_read (journal_lba s (JOURNAL_SLOT_DATA0 + i)) (g_sectors_per_block s));
  if rc <? 0 then ret (Some rc)
  else
    t ← rd (h_target_blocks hdr) i;
    rc ← on_dev (blk_write (t * g_target_sectors s) (g_target_sectors s) data_buf);
    ret (if rc <? 0 then Some rc else None).

Definition journal_replay : ST journal Z :=
  s ← gets id;
  if g_initialized s =? 0 then ret (- EINVAL)
  else
    '(rc, buf) ← on_dev (blk_read (journal_lba s JOURNAL_SLOT_HDR) (g_sectors_per_block s));
    if rc <? 0 then ret rc
    else
      let hdr := hdr_of buf in
      if negb (h_magic hdr =? JOURNAL_MAGIC) || negb (h_committed hdr =? 1) then ret 0
      else
        let expected_crc := h_crc hdr in
        let hdr := set_crc 0 hdr in
        if negb (journal_crc hdr =? expected_crc) then discard_slot JOURNAL_SLOT_HDR
        else if (h_num_blocks hdr =? 0) || (JOURNAL_MAX_PER_TXN <? h_num_blocks hdr)
        then discard_slot JOURNAL_SLOT_HDR
        else
          r ← for_until (Z.to_nat (h_num_blocks hdr)) 0 (replay_block hdr);
          match r with
          | Some rc => ret rc
          | None => journal_write_block JOURNAL_SLOT_HDR zero_block;; ret 0
          end.

(** There is one transaction object; [true] stands for its address and [false]
    for NULL.  While it is in use the loop spins until another CPU ends the
    transaction, which on its own it never does. *)
Definition journal_begin : ST journal bool :=
  s ← gets id;
  if g_initialized s =? 0 then ret false
  else if negb (in_use (g_txn s) =? 0) then fail NoFuel
  else
    let sb := g_sb s in
    modify (set_sb (Superblock (sb_magic sb) (sb_version sb) (sb_num_blocks sb)
                      (u32 (sb_txn_id_next sb + 1)) (sb_pad sb)));;
    modify (set_txn (Txn 1 (sb_txn_id_next sb) 0 (target_blocks (g_txn s)) (data_buffers (g_txn s))));;
    ret true.

Definition load_jbuf (p : Z) : ST journal (list Z) :=
  s ← gets id;
  match jbufs s !! p with Some b => ret b | None => fail Undef end.

Definition journal_log_block (txn : bool) (target_block : Z) (data : option (list Z)) : ST journal Z :=
  match txn, data with
  | false, _ | _, None => ret (- EINVAL)
  | true, Some data =>
      s ← gets id;
      let t := g_txn s in
      if JOURNAL_MAX_PER_TXN <=? num_blocks t then ret (- ENOMEM)
      else
        buf ← zoom jmem set_jmem (kmalloc JOURNAL_BLOCK_SIZE);
        if buf =? 0 then ret (- ENOMEM)
        else
          b ← copy_out data 0 JOURNAL_BLOCK_SIZE;
          modify (fun s => set_jbufs (<[buf := b]> (jbufs s)) s);;
          let idx := num_blocks t in
          tb ← wr (target_blocks t) idx target_block;
          db ← wr (data_buffers t) idx buf;
          modify (set_txn (Txn (in_use t) (txn_id t) (num_blocks t + 1) tb db));;
          ret 0
  end.

(** The body of the loop that frees the buffers. *)
Definition free_buffer (i : Z) : ST journal unit :=
  s ← gets id;
  let t := g_txn s in
  b ← rd (data_buffers t) i;
  if b =? 0 then ret tt
  else
    zoom jmem set_jmem (kfree b);;
    modify (fun s => set_jbufs (delete b (jbufs s)) s);;
    db ← wr (data_buffers t) i 0;
    modify (set_txn (Txn (in_use t) (txn_id t) (num_blocks t) (target_blocks t) db)).

Definition journal_abort (txn : bool) : ST journal unit :=
  if negb txn then ret tt
  else
    n ← gets (fun s => num_blocks (g_txn s));
    for_loop (Z.to_nat n) 0 free_buffer;;
    modify (fun s => let t := g_txn s in
                     set_txn (Txn 0 (txn_id t) 0 (target_blocks t) (data_buffers t)) s).

(** What a commit ends with: a result, or [kernel_panic], which stops the
    machine with the disk as it is. *)
Inductive commit_result := Done (rc : Z) | Panicked.

Definition fail_commit (rc : Z) : ST journal commit_result := journal_abort true;; ret (Done rc).

(** The header a transaction is logged with, before its CRC. *)
Definition txn_header (t : journal_txn) : journal_txn_header :=
  TxnHeader JOURNAL_MAGIC (txn_id t) (num_blocks t) 0
    (take (Z.to_nat (num_blocks t)) (target_blocks t) ++ replicate (8 - Z.to_nat (num_blocks t)) 0) 0
    (replicate (Z.to_nat (JOURNAL_BLOCK_SIZE - 4 * 5 - 4 * JOURNAL_MAX_PER_TXN)) 0).

Definition with_crc (h : journal_txn_header) : journal_txn_header :=
  let h := set_crc 0 h in set_crc (journal_crc h) h.

(** The bodies of the loops that write the log and that apply it. *)
Definition log_data (t : journal_txn) (i : Z) : ST journal (option Z) :=
  b ← rd (data_buffers t) i;
  buf ← load_jbuf b;
  rc ← journal_write_block (JOURNAL_SLOT_DATA0 + i) buf;
  ret (if rc <? 0 then Some rc else None).

Definition apply_block (t : journal_txn) (i : Z) : ST journal (option Z) :=
  s ← gets id;
  tb ← rd (target_blocks t) i;
  b ← rd (data_buffers t) i;
  buf ← load_jbuf b;
  rc ← on_dev (blk_write (tb * g_target_sectors s) (g_target_sectors s) buf);
  ret (if rc <? 0 then Some rc else None).

(** The end of a commit: the header is cleared and the superblock written. *)
Definition finish_commit (t : journal_txn) : ST journal commit_result :=
  journal_write_block JOURNAL_SLOT_HDR zero_block;;
  modify (fun s => let sb := g_sb s in
            if sb_txn_id_next sb <? u32 (txn_id t + 1)
            then set_sb (Superblock (sb_magic sb) (sb_version sb) (sb_num_blocks sb)
                           (u32 (txn_id t + 1)) (sb_pad sb)) s
            else s);;
  sb ← gets g_sb;
  journal_write_block 0 (sb_bytes sb);;
  journal_abort true;;
  ret (Done 0).

Definition journal_commit (txn : bool) : ST journal commit_result :=
  s ← gets id;
  let t := g_txn s in
  if negb txn || (in_use t =? 0) then ret (Done (- EINVAL))
  else if JOURNAL_MAX_PER_TXN <? num_blocks t then ret (Done (- EINVAL))
  else
    let n := Z.to_nat (num_blocks t) in
    let hdr := txn_header t in
    r ← for_until n 0 (log_data t);
    match r with
    | Some rc => fail_commit rc
    | None =>
        rc ← journal_write_block JOURNAL_SLOT_HDR (hdr_bytes (with_crc hdr));
        if rc <? 0 then fail_commit rc
        else
          on_dev blk_flush;;
          let hdr := set_committed 1 hdr in
          rc ← journal_write_block JOURNAL_SLOT_HDR (hdr_bytes (with_crc hdr));
          if rc <? 0 then fail_commit rc
          else
            on_dev blk_flush;;
            r ← for_until n 0 (apply_block t);
            match r with
            | Some _ => ret Panicked
            | None => on_dev blk_flush;; finish_commit t
            end
    end.

Definition journal_set_target_sectors (target_sectors : Z) : ST journal unit :=
  if target_sectors =? 0 then ret tt else modify (set_ts target_sectors).

(** ** The callers *)

(** [journaled_write] of fs/ext2.c, once the file system is mounted. *)
Definition journaled_write (mounted : bool) (blk : Z) (buf : option (list Z)) : ST journal commit_result :=
  if negb mounted then ret (Done (- EIO))
  else
    t ← journal_begin;
    if negb t then ret (Done (- EIO))
    else
      rc ← journal_log_block t blk buf;
      if rc <? 0 then journal_abort t;; ret (Done rc)
      else journal_commit t.

(** What [init_block_and_journal] does with the journal when the system boots,
    after the file system gave its block size. *)
Definition journal_boot (target_sectors journal_start_block : Z) : ST journal Z :=
  journal_set_target_sectors target_sectors;;
  rc ← journal_init true journal_start_block;
  if negb (rc =? 0) then ret rc else journal_replay.

End Journal.
Arguments journal D M : clear implicits.

(** The static variables as the loader clears them. *)
Definition journal_bss {D M} (dev : D) (mem : M) : journal D M :=
  JournalState false 0 0 0 (sb_of []) 0 txn_zero dev mem ∅.
