(* ===== verification/JournalReplay.v ===== *)
(** * Recovery from a crash

    What a disk must hold for the journal to bring it back to a consistent
    state: the layout of the log area, the image of a committed header, and
    the lemma that a boot on a disk with a committed log writes the logged
    blocks to their targets, while a boot on a disk without one changes
    nothing. *)

From stdpp Require Import base tactics numbers list gmap.
From S2P Require Import Prelude Alloc Block Journal.

(** ** The log area *)

(** Sectors of the journal that starts at block [start]. *)
Definition jsec (start s : Z) : Prop := start * 8 <= s < (start + JOURNAL_DEFAULT_BLOCKS) * 8.
Definition sb_sec (start : Z) : Z := start * 8.
Definition hdr_sec (start : Z) : Z := (start + 1) * 8.
Definition data_sec (start i : Z) : Z := (start + (2 + i)) * 8.

Definition geometry (start ts : Z) : Prop :=
  0 <= start /\ start + JOURNAL_DEFAULT_BLOCKS <= 4294967296 /\ 0 < ts <= 8.

(** The blocks of a transaction: target block and contents. *)
Definition txlog := list (Z * list Z).

Definition put_block (base n : Z) (b : list Z) (V : Z -> list Z) (s : Z) : list Z :=
  if decide (base <= s < base + n) then sector_of b (s - base) else V s.

Definition apply_log (ts : Z) (L : txlog) (V : Z -> list Z) : Z -> list Z :=
  foldl (fun V w => put_block (fst w * ts) ts (snd w) V) V L.

Definition target (ts : Z) (L : txlog) (s : Z) : Prop :=
  Exists (fun w => fst w * ts <= s < fst w * ts + ts) L.

#[export] Instance target_dec ts L s : Decision (target ts L s).
Proof. unfold target. apply _. Defined.

Record log_ok (start ts : Z) (L : txlog) : Prop := {
  lo_length : (length L <= 8)%nat;
  lo_target : Forall (fun w => is_u32 (fst w)) L;
  lo_data : Forall (fun w => length (snd w) = 4096%nat) L;
  lo_apart : forall s, target ts L s -> ~ jsec start s
}.

Lemma apply_log_snoc ts L w V : apply_log ts (L ++ [w]) V = put_block (fst w * ts) ts (snd w) (apply_log ts L V).
Proof. unfold apply_log. by rewrite foldl_app. Qed.

Lemma target_snoc ts L w s : target ts (L ++ [w]) s <-> target ts L s \/ fst w * ts <= s < fst w * ts + ts.
Proof. unfold target. by rewrite Exists_app, Exists_cons, Exists_nil, (right_id False or). Qed.

Lemma apply_log_other ts L V s : ~ target ts L s -> apply_log ts L V s = V s.
Proof.
  induction L as [|w L IH] using rev_ind; [done|]. rewrite target_snoc, apply_log_snoc. intros Hs.
  unfold put_block. rewrite decide_False by (intros ?; apply Hs; by right).
  apply IH. intros ?. apply Hs. by left.
Qed.

(** The result on the targets does not depend on what they held. *)
Lemma apply_log_ext ts L V V' s :
  (~ target ts L s -> V s = V' s) -> apply_log ts L V s = apply_log ts L V' s.
Proof.
  revert s. induction L as [|w L IH] using rev_ind; intros s Hs.
  { apply Hs. by intros ?%Exists_nil. }
  rewrite !apply_log_snoc. unfold put_block. case_decide; [done|]. apply IH. intros Ht. apply Hs.
  rewrite target_snoc. by intros [?|?].
Qed.

Lemma apply_log_idem ts L V s : apply_log ts L (apply_log ts L V) s = apply_log ts L V s.
Proof. apply apply_log_ext. apply apply_log_other. Qed.

(** ** The header of a log *)

Definition log_header (id : Z) (L : txlog) (committed : Z) : journal_txn_header :=
  TxnHeader JOURNAL_MAGIC id (Z.of_nat (length L)) committed
    (L.*1 ++ replicate (8 - length L) 0) 0
    (replicate (Z.to_nat (JOURNAL_BLOCK_SIZE - 4 * 5 - 4 * JOURNAL_MAX_PER_TXN)) 0).

(** The sector that decides what a replay does. *)
Definition hdr_image (id : Z) (L : txlog) (committed : Z) : list Z :=
  sector_of (hdr_bytes (with_crc (log_header id L committed))) 0.

(** A header block that a replay leaves alone, and a superblock that a boot
    recognises. *)
Definition idle (v : list Z) : Prop :=
  h_magic (hdr_of v) <> JOURNAL_MAGIC \/ h_committed (hdr_of v) <> 1.

Definition sb_valid (v : list Z) : Prop :=
  sb_magic (sb_of v) = JOURNAL_MAGIC /\ sb_version (sb_of v) = JOURNAL_VERSION.

Lemma length_words ws : length (concat (le32 <$> ws)) = (4 * length ws)%nat.
Proof. induction ws as [|w ws IH]; [done|]. cbn [fmap list_fmap concat]. rewrite length_app, IH, length_le32. simpl. lia. Qed.

Lemma get32_words ws r (i : nat) x : Forall is_u32 ws -> ws !! i = Some x ->
  get32 (concat (le32 <$> ws) ++ r) (4 * Z.of_nat i) = x.
Proof.
  revert i. induction ws as [|w ws IH]; intros i Hw Hi; [done|]. apply Forall_cons in Hw as [Hw Hws].
  cbn [fmap list_fmap concat]. rewrite <- app_assoc. destruct i as [|i]; simpl in Hi.
  - injection Hi as ->. by apply get32_le32.
  - rewrite get32_app_r by (rewrite length_le32; lia). rewrite length_le32. rewrite <- (IH i Hws Hi). f_equal. lia.
Qed.

(** The words of a header in front of the CRC, the CRC itself. *)
Definition hdr_words (h : journal_txn_header) : list Z :=
  [h_magic h; h_txn_id h; h_num_blocks h; h_committed h] ++ h_target_blocks h ++ [h_crc h].

Lemma hdr_bytes_words h : hdr_bytes h = concat (le32 <$> hdr_words h) ++ h_pad h.
Proof.
  unfold hdr_bytes, hdr_words. rewrite !fmap_app, !concat_app. cbn [fmap list_fmap concat].
  by rewrite app_nil_r, <- !app_assoc.
Qed.

Lemma crc_ext h h' :
  h_magic h = h_magic h' -> h_txn_id h = h_txn_id h' -> h_num_blocks h = h_num_blocks h' ->
  h_committed h = h_committed h' -> h_target_blocks h = h_target_blocks h' ->
  length (h_target_blocks h') = 8%nat -> journal_crc h = journal_crc h'.
Proof.
  intros E1 E2 E3 E4 E5 El. unfold journal_crc. do 3 f_equal.
  assert (forall h, length (h_target_blocks h) = 8%nat -> take 48 (hdr_bytes h) = concat (le32 <$>
    ([h_magic h; h_txn_id h; h_num_blocks h; h_committed h] ++ h_target_blocks h))) as H.
  { clear. intros h El. rewrite hdr_bytes_words. unfold hdr_words. rewrite (app_assoc _ (h_target_blocks h)).
    rewrite fmap_app, concat_app, <- app_assoc. apply take_app_length'. rewrite length_words, length_app, El. done. }
  rewrite !H by congruence. by rewrite E1, E2, E3, E4, E5.
Qed.

Record hdr_wf (h : journal_txn_header) : Prop := {
  hw_words : Forall is_u32 (hdr_words h);
  hw_targets : length (h_target_blocks h) = 8%nat
}.

(** A header is read back from the first sector of its block. *)
Lemma hdr_roundtrip h b :
  hdr_wf h -> sector_of b 0 = sector_of (hdr_bytes h) 0 ->
  h_magic (hdr_of b) = h_magic h /\ h_txn_id (hdr_of b) = h_txn_id h /\
  h_num_blocks (hdr_of b) = h_num_blocks h /\ h_committed (hdr_of b) = h_committed h /\
  h_target_blocks (hdr_of b) = h_target_blocks h /\ h_crc (hdr_of b) = h_crc h.
Proof.
  intros [Hw Ht] Hb.
  assert (forall i x, hdr_words h !! i = Some x -> (i <= 12)%nat -> get32 b (4 * Z.of_nat i) = x) as Hg.
  { intros i x Hi Hle. unfold sector_of in Hb. rewrite !drop_0 in Hb.
    rewrite <- (get32_take b 512), Hb by lia. rewrite get32_take, hdr_bytes_words by lia. by apply get32_words. }
  unfold hdr_words in Hg. unfold hdr_of.
  cbn [h_magic h_txn_id h_num_blocks h_committed h_target_blocks h_crc]. split_and!.
  - exact (Hg 0%nat _ eq_refl ltac:(lia)).
  - exact (Hg 1%nat _ eq_refl ltac:(lia)).
  - exact (Hg 2%nat _ eq_refl ltac:(lia)).
  - exact (Hg 3%nat _ eq_refl ltac:(lia)).
  - apply (list_eq_same_length _ _ 8); [done|done|]. intros i x y Hi Hx Hy.
    apply list_lookup_fmap_Some in Hx as (k & -> & Hk). apply lookup_seqZ in Hk as [-> _].
    replace (16 + 4 * (0 + Z.of_nat i)) with (4 * Z.of_nat (4 + i)) by lia. apply Hg; [|lia].
    rewrite lookup_app_r by (simpl; lia). replace (4 + i - _)%nat with i by (simpl; lia). by rewrite lookup_app_l by lia.
  - apply (Hg 12%nat _); [|lia]. rewrite !lookup_app_r by (simpl; lia). simpl. by rewrite Ht.
Qed.

Lemma hdr_of_sector b b' : sector_of b 0 = sector_of b' 0 -> idle b -> idle b'.
Proof.
  unfold sector_of. rewrite !drop_0. intros E. unfold idle, hdr_of. simpl.
  assert (forall o, 0 <= o -> o + 4 <= 512 -> get32 b o = get32 b' o) as H.
  { intros o H0 H1. rewrite <- (get32_take b 512), <- (get32_take b' 512) by lia. f_equal. exact E. }
  by rewrite !H by lia.
Qed.

Lemma sector_idem b : sector_of (sector_of b 0) 0 = sector_of b 0.
Proof. unfold sector_of. rewrite !drop_0. rewrite take_take. done. Qed.

Lemma sb_of_sector b v : sector_of b 0 = v -> sb_valid v -> sb_valid b.
Proof.
  intros <-. unfold sb_valid, sb_of, sector_of. rewrite drop_0. cbn [sb_magic sb_version].
  by rewrite !get32_take by lia.
Qed.

Lemma log_header_wf id L c start ts crc :
  is_u32 id -> is_u32 c -> is_u32 crc -> log_ok start ts L -> hdr_wf (set_crc crc (log_header id L c)).
Proof.
  intros Hid Hc Hcrc HL. pose proof (lo_length _ _ _ HL).
  assert (Forall is_u32 L.*1) as Ht by (apply Forall_fmap; apply (lo_target _ _ _ HL)).
  split.
  - unfold hdr_words, log_header. cbn. repeat (apply Forall_cons; split); try done; [unfold is_u32; lia|].
    rewrite !Forall_app. split; [split; [done|]|by apply Forall_singleton].
    apply Forall_replicate. done.
  - cbn. rewrite length_app, length_fmap, length_replicate. lia.
Qed.

(** The contents of the log area. *)
Definition holds_log (start : Z) (L : txlog) (m : Z -> list Z) : Prop :=
  forall (i : nat) w, L !! i = Some w ->
  forall k, 0 <= k < 8 -> m (data_sec start (Z.of_nat i) + k) = sector_of (snd w) k.

Section OnDev.
Context {E M : Type} `{BlockOps E} `{Kmalloc M}.

Lemma on_dev_ok {A} (m : ST E A) (st : journal E M) a d' :
  m (jdev st) = Ok (a, d') -> on_dev m st = Ok (a, set_jdev d' st).
Proof. intros Em. unfold on_dev, zoom. by rewrite Em. Qed.

End OnDev.

Section Recovery.
Context {D M : Type} `{BlockDevice D} `{Kmalloc M}.
Implicit Types (st : journal D M) (d : D).

(** The journal is set up for the disk [d]. *)
Definition booted (start ts : Z) (st : journal D M) : Prop :=
  g_journal_start st = start /\ g_sectors_per_block st = 8 /\ g_target_sectors st = ts /\
  g_initialized st = 1.

Lemma lba_ok start ts st i : geometry start ts -> g_journal_start st = start -> g_sectors_per_block st = 8 ->
  0 <= i < JOURNAL_DEFAULT_BLOCKS -> journal_lba st i = (start + i) * 8.
Proof.
  intros (Hg1 & Hg2 & _) E1 E2 Hi. unfold journal_lba, JOURNAL_DEFAULT_BLOCKS in *. rewrite E1, E2.
  by rewrite u32_id by (unfold is_u32; lia).
Qed.

Lemma read_healthy st lba n : 0 <= n -> bd_healthy (jdev st) ->
  exists buf d', on_dev (blk_read lba n) st = Ok ((0, buf), set_jdev d' st) /\ bd_healthy d' /\
    (forall s, bd_view d' s = bd_view (jdev st) s) /\ Z.of_nat (length buf) = 512 * n /\
    (forall i, 0 <= i < n -> sector_of buf i = bd_view (jdev st) (lba + i)).
Proof.
  intros Hn Hh. destruct (bd_read_spec (jdev st) lba n Hn) as (rc & buf & d' & Er & _ & Hl & Hb & Hv & _ & Hd).
  destruct (Hd Hh) as [-> Hd']. exists buf, d'. split; [by apply on_dev_ok|]. auto.
Qed.

Lemma write_healthy st lba n buf : 0 <= n -> 512 * n <= Z.of_nat (length buf) -> bd_healthy (jdev st) ->
  exists d', on_dev (blk_write lba n buf) st = Ok (0, set_jdev d' st) /\ bd_healthy d' /\
    (forall s, bd_view d' s = put_block lba n buf (bd_view (jdev st)) s).
Proof.
  intros Hn Hl Hh. destruct (bd_write_spec (jdev st) lba n buf Hn Hl) as (rc & d' & Ew & _ & Ho & Hi & _ & Hd).
  destruct (Hd Hh) as [-> Hd']. exists d'. split; [by apply on_dev_ok|]. split; [done|].
  intros s. unfold put_block. case_decide as Hs; [|by apply Ho].
  destruct (Hi (s - lba) ltac:(lia)) as [E|[? _]]; [|lia]. by replace (lba + (s - lba)) with s in E by lia.
Qed.

Lemma jinit_ok start ts d mem : geometry start ts -> bd_healthy d -> sb_valid (bd_view d (sb_sec start)) ->
  exists st, (journal_set_target_sectors ts;; journal_init true start) (journal_bss d mem) = Ok (0, st) /\
    booted start ts st /\ bd_healthy (jdev st) /\ forall s, bd_view (jdev st) s = bd_view d s.
Proof.
  intros (Hg1 & Hg2 & Hts) Hh Hsb. unfold journal_set_target_sectors.
  rewrite (proj2 (Z.eqb_neq ts 0)) by lia. rewrite bind_modify. unfold journal_init. cbn [negb].
  rewrite !bind_modify. cbn [g_target_sectors set_ts set_spb set_start set_bd journal_bss].
  rewrite (proj2 (Z.eqb_neq ts 0)) by lia. set (st0 := set_spb _ _). rewrite bind_gets. unfold id at 1 2.
  change (g_journal_start st0) with start. change (g_sectors_per_block st0) with 8.
  destruct (read_healthy st0 (start * 8) 8 ltac:(lia) Hh) as (buf & d' & Er & Hd' & Hv & _ & Hb).
  unfold id. rewrite (bind_ok _ _ _ _ _ Er). rewrite bind_modify. cbn [Z.ltb Z.compare]. rewrite bind_gets.
  cbn [g_sb set_sb]. pose proof (Hb 0 ltac:(lia)) as Hz. rewrite Z.add_0_r in Hz.
  destruct (sb_of_sector _ _ Hz Hsb) as [E1 E2]. rewrite E1, E2, !Z.eqb_refl. cbn [andb]. rewrite bind_ret.
  cbn [Z.ltb Z.compare]. rewrite !bind_modify. eexists. split; [reflexivity|]. split; [done|]. split; [done|]. exact Hv.
Qed.

Lemma jboot_ok start ts d mem : geometry start ts -> bd_healthy d -> sb_valid (bd_view d (sb_sec start)) ->
  exists st, journal_boot ts start (journal_bss d mem) = journal_replay st /\
    booted start ts st /\ bd_healthy (jdev st) /\ forall s, bd_view (jdev st) s = bd_view d s.
Proof.
  intros Hg Hh Hsb. destruct (jinit_ok start ts d mem Hg Hh Hsb) as (st & E & Hst).
  exists st. split; [|done]. unfold journal_boot. unfold bind at 1. unfold bind at 1 in E.
  destruct (journal_set_target_sectors ts (journal_bss d mem)) as [[[] s1]|]; [|done].
  rewrite (bind_ok _ _ _ _ _ E). done.
Qed.

(** Writing a block of the journal changes nothing outside it. *)
Lemma write_block_healthy start ts st i b : geometry start ts -> booted start ts st ->
  0 <= i < JOURNAL_DEFAULT_BLOCKS -> length b = 4096%nat -> bd_healthy (jdev st) ->
  exists d', journal_write_block i b st = Ok (0, set_jdev d' st) /\ bd_healthy d' /\
    forall s, bd_view d' s = put_block ((start + i) * 8) 8 b (bd_view (jdev st)) s.
Proof.
  intros Hg (E1 & E2 & _) Hi Hl Hh. unfold journal_write_block. rewrite bind_gets. unfold id.
  rewrite (lba_ok start ts st i Hg E1 E2 Hi), E2. by apply write_healthy; [lia|lia|].
Qed.

Lemma put_outside start i b (V : Z -> list Z) s : 0 <= i < JOURNAL_DEFAULT_BLOCKS -> ~ jsec start s ->
  put_block ((start + i) * 8) 8 b V s = V s.
Proof.
  intros Hi Hs. unfold put_block. rewrite decide_False; [done|]. unfold jsec, JOURNAL_DEFAULT_BLOCKS in *. lia.
Qed.

Lemma length_zero_block : length zero_block = 4096%nat.
Proof. apply length_replicate. Qed.

Lemma discard_ok start ts st : geometry start ts -> booted start ts st -> bd_healthy (jdev st) ->
  exists d', discard_slot JOURNAL_SLOT_HDR st = Ok (0, set_jdev d' st) /\
    forall s, ~ jsec start s -> bd_view d' s = bd_view (jdev st) s.
Proof.
  intros Hg Hb Hh.
  destruct (write_block_healthy start ts st 1 zero_block Hg Hb ltac:(done) length_zero_block Hh) as (d' & E & _ & Hv).
  exists d'. split; [exact E|]. intros s Hs. rewrite Hv. by apply put_outside.
Qed.

(** ** A boot without a committed log *)

Lemma boot_idle start ts d mem : geometry start ts -> bd_healthy d ->
  sb_valid (bd_view d (sb_sec start)) -> idle (bd_view d (hdr_sec start)) ->
  exists st, journal_boot ts start (journal_bss d mem) = Ok (0, st) /\
    forall s, bd_view (jdev st) s = bd_view d s.
Proof.
  intros Hg Hh Hsb Hi. destruct (jboot_ok start ts d mem Hg Hh Hsb) as (st & -> & Hst & Hh' & Hv).
  pose proof Hst as (E1 & E2 & _ & E4). unfold journal_replay. rewrite bind_gets. unfold id. rewrite E4. cbn [Z.eqb].
  rewrite (lba_ok start ts st JOURNAL_SLOT_HDR Hg E1 E2 ltac:(done)), E2.
  destruct (read_healthy st ((start + JOURNAL_SLOT_HDR) * 8) 8 ltac:(lia) Hh') as (buf & d' & Er & _ & Hv' & _ & Hb).
  rewrite (bind_ok _ _ _ _ _ Er). cbn [Z.ltb Z.compare].
  assert (idle buf) as Hbuf.
  { eapply hdr_of_sector; [|exact Hi]. pose proof (Hb 0 ltac:(lia)) as Hz. rewrite Z.add_0_r, Hv in Hz.
    change ((start + JOURNAL_SLOT_HDR) * 8) with (hdr_sec start) in Hz. rewrite <- Hz. apply sector_idem. }
  assert (negb (h_magic (hdr_of buf) =? JOURNAL_MAGIC) || negb (h_committed (hdr_of buf) =? 1) = true) as ->.
  { apply orb_true_iff. rewrite !negb_true_iff, !Z.eqb_neq. exact Hbuf. }
  eexists. split; [reflexivity|]. intros s. cbn [jdev set_jdev]. by rewrite Hv'.
Qed.

(** ** A boot with a committed log *)

Definition replayed (start ts : Z) (L : txlog) (V : Z -> list Z) (k : Z) (st : journal D M) : Prop :=
  booted start ts st /\ bd_healthy (jdev st) /\
  forall s, bd_view (jdev st) s = if decide (jsec start s) then V s else apply_log ts (take (Z.to_nat k) L) V s.

Lemma replay_block_ok start ts L V hdr st (k : nat) w :
  geometry start ts -> log_ok start ts L -> holds_log start L V ->
  L !! k = Some w -> h_target_blocks hdr !! k = Some (fst w) ->
  replayed start ts L V (Z.of_nat k) st ->
  wp (replay_block hdr (Z.of_nat k))
    (fun r st' => r = None /\ replayed start ts L V (Z.of_nat k + 1) st') st.
Proof.
  intros Hg HL Hlog Hw Ht (Hst & Hh & Hv). pose proof Hst as (E1 & E2 & E3 & E4). pose proof Hg as (Hg1 & Hg2 & Hts).
  pose proof (lookup_lt_Some _ _ _ Hw). pose proof (lo_length _ _ _ HL).
  unfold replay_block. apply wp_bind, wp_gets. unfold id.
  rewrite (lba_ok start ts st _ Hg E1 E2) by (unfold JOURNAL_SLOT_DATA0, JOURNAL_SLOT_HDR, JOURNAL_DEFAULT_BLOCKS; lia).
  rewrite E2, E3. destruct (read_healthy st ((start + (JOURNAL_SLOT_DATA0 + Z.of_nat k)) * 8) 8 ltac:(lia) Hh)
    as (buf & d1 & Er & Hh1 & Hv1 & Hl & Hb).
  eapply wp_bind_ok; [exact Er|]. cbn [Z.ltb Z.compare]. eapply wp_bind_ok; [apply rd_ok; [lia|by rewrite Nat2Z.id]|].
  destruct (write_healthy (set_jdev d1 st) (fst w * ts) ts buf ltac:(lia) ltac:(lia) Hh1) as (d2 & Ew & Hh2 & Hv2).
  eapply wp_bind_ok; [exact Ew|]. apply wp_ret. split; [done|]. split; [done|]. split; [done|].
  assert (forall j, 0 <= j < 8 -> sector_of buf j = sector_of (snd w) j) as Hbuf.
  { intros j Hj. rewrite Hb, Hv by done. rewrite decide_True; [by apply (Hlog k w)|].
    unfold jsec, JOURNAL_SLOT_DATA0, JOURNAL_SLOT_HDR, JOURNAL_DEFAULT_BLOCKS. lia. }
  intros s. cbn [jdev set_jdev]. rewrite Hv2. unfold put_block. cbn [jdev set_jdev].
  replace (Z.to_nat (Z.of_nat k + 1)) with (S k) by lia. rewrite (take_S_r _ _ w), apply_log_snoc by done.
  unfold put_block. case_decide as Hs; [|by rewrite Hv1, Hv, Nat2Z.id].
  rewrite decide_False; [apply Hbuf; lia|]. apply (lo_apart _ _ _ HL). apply Exists_exists.
  exists w. split; [by eapply list_elem_of_lookup_2|done].
Qed.

Lemma replay_loop_ok start ts L V hdr st :
  geometry start ts -> log_ok start ts L -> holds_log start L V ->
  (exists r, h_target_blocks hdr = L.*1 ++ r) -> replayed start ts L V 0 st ->
  exists st', for_until (Z.to_nat (Z.of_nat (length L))) 0 (replay_block hdr) st = Ok (None, st') /\
    replayed start ts L V (Z.of_nat (length L)) st'.
Proof.
  intros Hg HL Hlog (r & Ht) Hst. rewrite Nat2Z.id.
  destruct (proj1 (wp_elim _ _ _) (for_until_wp (replayed start ts L V) (fun _ _ => False) (length L) 0
    (replay_block hdr) st Hst ltac:(intros k s1 Hk Hs1;
      destruct (lookup_lt_is_Some_2 L (Z.to_nat k) ltac:(lia)) as [w Hw];
      rewrite <- (Z2Nat.id k) in * by lia; rewrite Nat2Z.id in Hw; eapply wp_mono;
      [eapply replay_block_ok; [done|done|done|exact Hw| |exact Hs1];
         rewrite Ht, lookup_app_l by (rewrite length_fmap; lia); by rewrite list_lookup_fmap, Hw
      |by intros x s2 [-> ?]]))) as ([x|] & s2 & El & Hr); [done|]. by exists s2.
Qed.

Lemma with_crc_id h : h_crc h = 0 -> with_crc h = set_crc (journal_crc h) h.
Proof. destruct h; cbn. by intros ->. Qed.

Lemma boot_log start ts n L d mem : geometry start ts -> log_ok start ts L -> is_u32 n -> bd_healthy d ->
  sb_valid (bd_view d (sb_sec start)) -> bd_view d (hdr_sec start) = hdr_image n L 1 ->
  holds_log start L (bd_view d) ->
  exists st, journal_boot ts start (journal_bss d mem) = Ok (0, st) /\
    forall s, ~ jsec start s -> bd_view (jdev st) s = apply_log ts L (bd_view d) s.
Proof.
  intros Hg HL Hid Hh Hsb Hi Hlog. destruct (jboot_ok start ts d mem Hg Hh Hsb) as (st & -> & Hst & Hh' & Hv).
  pose proof Hst as (E1 & E2 & _ & E4). unfold journal_replay. rewrite bind_gets. unfold id. rewrite E4. cbn [Z.eqb].
  rewrite (lba_ok start ts st JOURNAL_SLOT_HDR Hg E1 E2 ltac:(done)), E2.
  destruct (read_healthy st ((start + JOURNAL_SLOT_HDR) * 8) 8 ltac:(lia) Hh') as (buf & d' & Er & Hh1 & Hv' & _ & Hb).
  rewrite (bind_ok _ _ _ _ _ Er). cbn [Z.ltb Z.compare].
  pose proof (Hb 0 ltac:(lia)) as Hz. rewrite Z.add_0_r, Hv in Hz. change ((start + JOURNAL_SLOT_HDR) * 8) with (hdr_sec start) in Hz. rewrite Hi in Hz.
  unfold hdr_image in Hz. rewrite with_crc_id in Hz by done. set (h := log_header n L 1) in *.
  assert (hdr_wf (set_crc (journal_crc h) h)) as Hwf by (eapply log_header_wf; [done|done|apply u32_range|done]).
  destruct (hdr_roundtrip _ _ Hwf Hz) as (F1 & F2 & F3 & F4 & F5 & F6). cbn [h_magic h_txn_id h_num_blocks h_committed h_target_blocks h_crc set_crc] in F1, F2, F3, F4, F5, F6.
  set (hb := hdr_of buf) in *. rewrite F1, F4, F6. change (h_magic h) with JOURNAL_MAGIC. change (h_committed h) with 1.
  rewrite !Z.eqb_refl. cbn [negb orb].
  rewrite (crc_ext (set_crc 0 hb) h) by (done || apply (hw_targets _ Hwf)). rewrite Z.eqb_refl. cbn [negb].
  change (h_num_blocks (set_crc 0 hb)) with (h_num_blocks hb). rewrite F3. change (h_num_blocks h) with (Z.of_nat (length L)).
  pose proof (lo_length _ _ _ HL). rewrite (proj2 (Z.ltb_ge JOURNAL_MAX_PER_TXN _)) by (unfold JOURNAL_MAX_PER_TXN; lia).
  rewrite orb_false_r. destruct (Z.eqb_spec (Z.of_nat (length L)) 0) as [Hnil|Hnil].
  { destruct (discard_ok start ts (set_jdev d' st) Hg Hst Hh1) as (d2 & -> & Hv2). eexists. split; [reflexivity|].
    intros s Hs. destruct L; [|done]. cbn [jdev set_jdev]. rewrite Hv2 by done. cbn [jdev set_jdev]. by rewrite Hv'. }
  destruct (replay_loop_ok start ts L (bd_view d) (set_crc 0 hb) (set_jdev d' st)) as (s2 & El & Hst2 & Hh2 & Hv2);
    [done..|by exists (replicate (8 - length L) 0)| |].
  { split; [done|]. split; [done|]. intros s. cbn [jdev set_jdev]. rewrite Hv', Hv. by case_decide. }
  rewrite (bind_ok _ _ _ _ _ El).  destruct (discard_ok start ts s2 Hg Hst2 Hh2) as (d3 & E3 & Hv3). rewrite (bind_ok _ _ _ _ _ E3).
  eexists. split; [reflexivity|]. intros s Hs. cbn [jdev set_jdev]. rewrite Hv3, Hv2, decide_False by done.
  rewrite Nat2Z.id, take_ge by lia. done.
Qed.

End Recovery.
