(* ===== verification/JournalProofs.v ===== *)
(** * The phases of a commit

    [journal_commit] takes the disk through phases that differ in what the
    header block may hold after a crash, in whether the log is durable, and in
    what the sectors outside the journal may hold.  Each phase is shown to be
    one from which recovery restores either the state before the transaction
    or the state after it, and each request of the commit to lead from one
    phase to the next, failed requests included. *)

From stdpp Require Import base tactics numbers list gmap.
From S2P Require Import Prelude Alloc Block Journal JournalReplay.

(** What a write and a flush do to a device. *)
Record wrote {D} `{BlockDevice D} (lba n : Z) (buf : list Z) (rc : Z) (d d' : D) : Prop := {
  wd_rc : rc <= 0;
  wd_out : forall s, ~ lba <= s < lba + n -> bd_view d' s = bd_view d s;
  wd_view : rc = 0 -> forall s, bd_view d' s = put_block lba n buf (bd_view d) s;
  wd_may : forall s v, bd_may d' s v ->
    bd_may d s v \/ exists i, 0 <= i < n /\ s = lba + i /\ v = sector_of buf i;
  wd_healthy : bd_healthy d -> rc = 0 /\ bd_healthy d'
}.

Record flushed {D} `{BlockDevice D} (d d' : D) : Prop := {
  fd_view : forall s, bd_view d' s = bd_view d s;
  fd_may : forall s v, bd_may d' s v -> bd_may d s v;
  fd_settled : forall s v, bd_may d' s v -> v = bd_view d s;
  fd_healthy : bd_healthy d -> bd_healthy d'
}.

(** Flushes of the device do not fail; the journal ignores their results. *)
Definition flush_reliable (D : Type) `{BlockOps D} : Prop :=
  forall d rc d', blk_flush d = Ok (rc, d') -> rc = 0.

Lemma blk_write_ok {D} `{BlockDevice D} (d : D) lba n buf : 0 <= n -> 512 * n <= Z.of_nat (length buf) ->
  exists rc d', blk_write lba n buf d = Ok (rc, d') /\ wrote lba n buf rc d d'.
Proof.
  intros Hn Hl. destruct (bd_write_spec d lba n buf Hn Hl) as (rc & d' & E & H1 & H2 & H3 & H4 & H5).
  exists rc, d'. split; [done|]. split; try done. intros -> s. unfold put_block. case_decide; [|by apply H2].
  destruct (H3 (s - lba) ltac:(lia)) as [Es|[? _]]; [|lia]. by replace (lba + (s - lba)) with s in Es by lia.
Qed.

Lemma blk_flush_ok {D} `{BlockDevice D} (d : D) : flush_reliable D ->
  exists d', blk_flush d = Ok (0, d') /\ flushed d d'.
Proof.
  intros Hf. destruct (bd_flush_spec d) as (rc & d' & E & H1 & H2 & H3 & H4 & H5).
  pose proof (Hf _ _ _ E) as ->. exists d'. split; [done|]. split; [done|done|by apply H4|].
  intros Hh. by destruct (H5 Hh).
Qed.

Section Phases.
Context {D : Type} `{BlockDevice D}.
Context (start ts id : Z) (L : txlog) (d0 : D).
Hypothesis Hgeo : geometry start ts.
Hypothesis Hlog : log_ok start ts L.
Hypothesis Hid : is_u32 id.

(** ** What a crash may leave *)

Record phase (Hd : list Z -> Prop) (lg : bool) (T : Z -> list Z -> Prop) (d : D) : Prop := {
  ph_sb : forall v, bd_may d (sb_sec start) v -> sb_valid v;
  ph_hdr : forall v, bd_may d (hdr_sec start) v -> Hd v;
  ph_log : lg = true -> forall (i : nat) w k v, L !! i = Some w -> 0 <= k < 8 ->
    bd_may d (data_sec start (Z.of_nat i) + k) v -> v = sector_of (snd w) k;
  ph_out : forall s v, ~ jsec start s -> bd_may d s v -> T s v
}.

Definition committed (v : list Z) : Prop := v = hdr_image id L 1.

(** A disk after a crash from which recovery leads to the image [m0] of the
    sectors outside the journal, or to [m0] with the log applied. *)
Inductive recovers (m m0 : Z -> list Z) : Prop :=
| rec_old : idle (m (hdr_sec start)) -> (forall s, ~ jsec start s -> m s = m0 s) -> recovers m m0
| rec_new : idle (m (hdr_sec start)) -> (forall s, ~ jsec start s -> m s = apply_log ts L m0 s) -> recovers m m0
| rec_log : committed (m (hdr_sec start)) -> holds_log start L m ->
    (forall s, ~ jsec start s -> apply_log ts L m s = apply_log ts L m0 s) -> recovers m m0.

Definition safe (d : D) : Prop := forall m, crash_image d m ->
  sb_valid (m (sb_sec start)) /\
  exists m0, (forall s, ~ jsec start s -> bd_may d0 s (m0 s)) /\ recovers m m0.

Lemma phase_holds_log Hd T d m : phase Hd true T d -> crash_image d m -> holds_log start L m.
Proof. intros Hp Hm i w Hw k Hk. by eapply (ph_log _ _ _ _ Hp). Qed.

Lemma safe_idle lg d : phase idle lg (bd_may d0) d -> safe d.
Proof.
  intros Hp m Hm. split; [eapply ph_sb; [exact Hp|apply Hm]|]. exists m. split.
  - intros s Hs. eapply ph_out; [exact Hp|done|apply Hm].
  - apply rec_old; [|done]. eapply ph_hdr; [exact Hp|apply Hm].
Qed.

Lemma safe_commit d : phase (fun v => idle v \/ committed v) true (bd_may d0) d -> safe d.
Proof.
  intros Hp m Hm. split; [eapply ph_sb; [exact Hp|apply Hm]|]. exists m. split.
  - intros s Hs. eapply ph_out; [exact Hp|done|apply Hm].
  - destruct (ph_hdr _ _ _ _ Hp _ (Hm (hdr_sec start))) as [Hi|Hc]; [by apply rec_old|].
    apply rec_log; [done|by eapply phase_holds_log|done].
Qed.

(** While the log is applied, the targets may hold anything. *)
Definition off_target (s : Z) (v : list Z) : Prop := ~ target ts L s -> bd_may d0 s v.

Lemma safe_apply d : phase committed true off_target d -> safe d.
Proof.
  intros Hp m Hm. split; [eapply ph_sb; [exact Hp|apply Hm]|].
  exists (fun s => if decide (target ts L s) then bd_view d0 s else m s). split.
  - intros s Hs. case_decide as Ht; [apply bd_may_view|]. by eapply (ph_out _ _ _ _ Hp s _ Hs (Hm s)).
  - apply rec_log; [eapply ph_hdr; [exact Hp|apply Hm]|by eapply phase_holds_log|].
    intros s _. apply apply_log_ext. intros Ht. by rewrite decide_False.
Qed.

Definition applied (s : Z) (v : list Z) : Prop := v = apply_log ts L (bd_view d0) s.

Lemma safe_applied d : phase (fun v => idle v \/ committed v) true applied d -> safe d.
Proof.
  intros Hp m Hm. split; [eapply ph_sb; [exact Hp|apply Hm]|].
  assert (forall s, ~ jsec start s -> m s = apply_log ts L (bd_view d0) s) as Ha
    by (intros s Hs; exact (ph_out _ _ _ _ Hp s _ Hs (Hm s))).
  exists (bd_view d0). split; [intros; apply bd_may_view|].
  destruct (ph_hdr _ _ _ _ Hp _ (Hm (hdr_sec start))) as [Hi|Hc]; [by apply rec_new|].
  apply rec_log; [done|by eapply phase_holds_log|]. intros s Hs. apply apply_log_ext.
  intros Ht. by rewrite Ha, apply_log_other.
Qed.

(** ** Steps *)

Lemma phase_mono (Hd Hd' : list Z -> Prop) lg lg' (T T' : Z -> list Z -> Prop) d :
  phase Hd lg T d -> (forall v, Hd v -> Hd' v) -> (lg' = true -> lg = true) ->
  (forall s v, T s v -> T' s v) -> phase Hd' lg' T' d.
Proof.
  intros Hp H1 H2 H3. split.
  - apply (ph_sb _ _ _ _ Hp).
  - intros v Hv. apply H1. by apply (ph_hdr _ _ _ _ Hp).
  - intros Hl. apply (ph_log _ _ _ _ Hp). by apply H2.
  - intros s v Hs Hv. apply H3. by apply (ph_out _ _ _ _ Hp).
Qed.

(** A value that a phase allows to be written to a sector. *)
Definition may_write (Hd : list Z -> Prop) (lg : bool) (T : Z -> list Z -> Prop) (s : Z) (v : list Z) : Prop :=
  (s = sb_sec start -> sb_valid v) /\ (s = hdr_sec start -> Hd v) /\
  (lg = true -> jsec start s -> s < data_sec start 0) /\ (~ jsec start s -> T s v).

Lemma phase_write Hd lg T lba n buf rc d d' : wrote lba n buf rc d d' -> phase Hd lg T d ->
  (forall i, 0 <= i < n -> may_write Hd lg T (lba + i) (sector_of buf i)) -> phase Hd lg T d'.
Proof.
  intros Hw Hp Hn. split.
  - intros v [Hv|(i & Hi & Es & ->)]%(wd_may _ _ _ _ _ _ Hw); [by apply (ph_sb _ _ _ _ Hp)|]. by apply (Hn i Hi).
  - intros v [Hv|(i & Hi & Es & ->)]%(wd_may _ _ _ _ _ _ Hw); [by apply (ph_hdr _ _ _ _ Hp)|]. by apply (Hn i Hi).
  - intros Hl i w k v Hi Hk [Hv|(j & Hj & Es & ->)]%(wd_may _ _ _ _ _ _ Hw); [by eapply (ph_log _ _ _ _ Hp)|].
    destruct (Hn j Hj) as (_ & _ & Hs & _). pose proof (lookup_lt_Some _ _ _ Hi). pose proof (lo_length _ _ _ Hlog).
    specialize (Hs Hl). rewrite <- Es in Hs. unfold jsec, data_sec, JOURNAL_DEFAULT_BLOCKS in *. lia.
  - intros s v Hs [Hv|(i & Hi & -> & ->)]%(wd_may _ _ _ _ _ _ Hw); [by apply (ph_out _ _ _ _ Hp)|]. by apply (Hn i Hi).
Qed.

(** After a flush the disk is what it reads as. *)
Lemma phase_flush Hd lg T d d' : flushed d d' -> phase Hd lg T d -> holds_log start L (bd_view d) ->
  phase (fun v => v = bd_view d (hdr_sec start)) true (fun s v => v = bd_view d s /\ T s v) d'.
Proof.
  intros Hf Hp Hl. split.
  - intros v Hv. apply (ph_sb _ _ _ _ Hp). by apply (fd_may _ _ Hf).
  - intros v Hv. by apply (fd_settled _ _ Hf).
  - intros _ i w k v Hi Hk Hv. apply (fd_settled _ _ Hf) in Hv as ->. by apply (Hl i w).
  - intros s v Hs Hv. split; [by apply (fd_settled _ _ Hf)|]. apply (ph_out _ _ _ _ Hp); [done|]. by apply (fd_may _ _ Hf).
Qed.

(** ** The phases of a commit *)

Definition view_old (d : D) : Prop := forall s, ~ jsec start s -> bd_view d s = bd_view d0 s.

Definition keeps (d : D) : Prop := bd_healthy d0 -> bd_healthy d.

(** The first [k] blocks of the log read back. *)
Definition log_read (k : nat) (d : D) : Prop := holds_log start (take k L) (bd_view d).

(** The state after a request that failed before the commit. *)
Definition failed (d : D) : Prop := safe d /\ view_old d /\ ~ bd_healthy d0.

Definition logging (k : nat) (d : D) : Prop :=
  phase idle false (bd_may d0) d /\ view_old d /\ log_read k d /\ keeps d.
Definition log_durable (d : D) : Prop :=
  phase idle true (bd_may d0) d /\ view_old d /\ log_read (length L) d /\ keeps d.
Definition committing (d : D) : Prop :=
  phase (fun v => idle v \/ committed v) true (bd_may d0) d /\ view_old d /\ log_read (length L) d /\
  committed (bd_view d (hdr_sec start)) /\ keeps d.
Definition applying (k : nat) (d : D) : Prop :=
  phase committed true off_target d /\
  (forall s, ~ jsec start s -> bd_view d s = apply_log ts (take k L) (bd_view d0) s) /\
  log_read (length L) d /\ committed (bd_view d (hdr_sec start)) /\ keeps d.
Definition finishing (d : D) : Prop :=
  phase (fun v => idle v \/ committed v) true applied d /\
  (forall s, ~ jsec start s -> applied s (bd_view d s)) /\ keeps d.

(** Writing the block [i] of the journal. *)
Lemma view_old_write i b rc d d' : 0 <= i < JOURNAL_DEFAULT_BLOCKS ->
  wrote ((start + i) * 8) 8 b rc d d' -> view_old d -> view_old d'.
Proof.
  intros Hi Hw Hv s Hs. rewrite (wd_out _ _ _ _ _ _ Hw); [by apply Hv|].
  unfold jsec, JOURNAL_DEFAULT_BLOCKS in *. lia.
Qed.

Lemma log_read_write i b rc d d' k : 0 <= i < 2 ->
  wrote ((start + i) * 8) 8 b rc d d' -> log_read k d -> log_read k d'.
Proof.
  intros Hi Hw Hl j w Hj n Hn. rewrite (wd_out _ _ _ _ _ _ Hw); [by apply (Hl j w Hj)|]. unfold data_sec. lia.
Qed.

Lemma keeps_wrote lba n b rc d d' : wrote lba n b rc d d' -> keeps d -> keeps d' /\ (rc < 0 -> ~ bd_healthy d0).
Proof.
  intros Hw Hk. split; [intros Hh; by apply (wd_healthy _ _ _ _ _ _ Hw), Hk|].
  intros Hrc Hh. destruct (wd_healthy _ _ _ _ _ _ Hw (Hk Hh)) as [-> _]. lia.
Qed.

(** The log is written to data blocks only. *)
Lemma write_log_step (k : nat) w rc d d' : L !! k = Some w ->
  wrote (data_sec start (Z.of_nat k)) 8 (snd w) rc d d' -> logging k d ->
  safe d' /\ (if rc <? 0 then failed d' else logging (S k) d').
Proof.
  intros Hk Hw (Hp & Hv & Hl & Hh). pose proof (lookup_lt_Some _ _ _ Hk). pose proof (lo_length _ _ _ Hlog).
  destruct (keeps_wrote _ _ _ _ _ _ Hw Hh) as [Hh' Hf].
  assert (phase idle false (bd_may d0) d') as Hp'.
  { eapply phase_write; [exact Hw|done|]. intros j Hj. unfold may_write, sb_sec, hdr_sec, data_sec, jsec, JOURNAL_DEFAULT_BLOCKS.
    split_and!; [lia|lia|done|]. intros Hn. destruct Hn. lia. }
  assert (view_old d') as Hv' by (eapply (view_old_write (2 + Z.of_nat k)); [unfold JOURNAL_DEFAULT_BLOCKS; lia|exact Hw|done]).
  split; [by eapply safe_idle|]. destruct (Z.ltb_spec rc 0) as [Hrc|Hrc].
  { split; [by eapply safe_idle|]. split; [done|]. by apply Hf. }
  split_and!; [done|done| |done]. assert (rc = 0) as Hz by (pose proof (wd_rc _ _ _ _ _ _ Hw); lia).
  intros j w' Hj n Hn. rewrite (wd_view _ _ _ _ _ _ Hw Hz). unfold put_block.
  rewrite (take_S_r _ _ _ Hk) in Hj. apply lookup_app_Some in Hj as [Hj|[Hge Hj]].
  - pose proof (lookup_lt_Some _ _ _ Hj) as Hlt. rewrite length_take in Hlt.
    rewrite decide_False by (unfold data_sec; lia). by apply (Hl j w').
  - rewrite length_take_le in Hj, Hge by lia. apply list_lookup_singleton_Some in Hj as [Hj <-].
    assert (j = k) as -> by lia. rewrite decide_True by lia. f_equal. lia.
Qed.

(** The header is written before and after the commit point. *)
Lemma write_pending_step b rc d d' : idle (sector_of b 0) -> wrote (hdr_sec start) 8 b rc d d' ->
  logging (length L) d -> safe d' /\
  (if rc <? 0 then failed d' else logging (length L) d' /\ idle (bd_view d' (hdr_sec start))).
Proof.
  intros Hb Hw (Hp & Hv & Hl & Hh). destruct (keeps_wrote _ _ _ _ _ _ Hw Hh) as [Hh' Hf].
  assert (phase idle false (bd_may d0) d') as Hp'.
  { eapply phase_write; [exact Hw|done|]. intros j Hj. unfold may_write, sb_sec, hdr_sec, jsec, JOURNAL_DEFAULT_BLOCKS.
    split_and!; [lia| |done|intros Hn; destruct Hn; lia]. intros Ej. by replace j with 0 by lia. }
  assert (view_old d') as Hv' by (eapply (view_old_write 1); [done|exact Hw|done]).
  split; [by eapply safe_idle|]. destruct (Z.ltb_spec rc 0) as [Hrc|Hrc].
  { split; [by eapply safe_idle|]. split; [done|]. by apply Hf. }
  assert (rc = 0) as Hz by (pose proof (wd_rc _ _ _ _ _ _ Hw); lia).
  split; [split_and!; [done|done|by eapply (log_read_write 1)|done]|].
  rewrite (wd_view _ _ _ _ _ _ Hw Hz). unfold put_block. rewrite decide_True by lia. by rewrite Z.sub_diag.
Qed.

Lemma flush_pending_step d d' : flushed d d' -> logging (length L) d -> idle (bd_view d (hdr_sec start)) ->
  safe d' /\ log_durable d'.
Proof.
  intros Hf (Hp & Hv & Hl & Hh) Hi. unfold log_read in Hl. rewrite firstn_all in Hl.
  assert (phase idle true (bd_may d0) d') as Hp'.
  { eapply phase_mono; [by eapply phase_flush|by intros v ->|done|by intros s v [_ ?]]. }
  split; [by eapply safe_idle|]. split_and!; [done| | |intros ?; by apply (fd_healthy _ _ Hf), Hh].
  - intros s Hs. rewrite (fd_view _ _ Hf). by apply Hv.
  - unfold log_read. rewrite firstn_all. intros i w Hi' k Hk. rewrite (fd_view _ _ Hf). by apply (Hl i w).
Qed.

Lemma write_commit_step b rc d d' : committed (sector_of b 0) -> wrote (hdr_sec start) 8 b rc d d' ->
  log_durable d -> safe d' /\ (if rc <? 0 then failed d' else committing d').
Proof.
  intros Hb Hw (Hp & Hv & Hl & Hh). destruct (keeps_wrote _ _ _ _ _ _ Hw Hh) as [Hh' Hf].
  assert (phase (fun v => idle v \/ committed v) true (bd_may d0) d') as Hp'.
  { eapply phase_write; [exact Hw|eapply phase_mono; [exact Hp|by left|done|done]|].
    intros j Hj. unfold may_write, sb_sec, hdr_sec, data_sec, jsec, JOURNAL_DEFAULT_BLOCKS.
    split_and!; [lia| |lia|intros Hn; destruct Hn; lia]. intros Ej. right. by replace j with 0 by lia. }
  assert (view_old d') as Hv' by (eapply (view_old_write 1); [done|exact Hw|done]).
  split; [by apply safe_commit|]. destruct (Z.ltb_spec rc 0) as [Hrc|Hrc].
  { split; [by apply safe_commit|]. split; [done|]. by apply Hf. }
  assert (rc = 0) as Hz by (pose proof (wd_rc _ _ _ _ _ _ Hw); lia).
  split_and!; [done|done|by eapply (log_read_write 1)| |done].
  rewrite (wd_view _ _ _ _ _ _ Hw Hz). unfold put_block. rewrite decide_True by lia. by rewrite Z.sub_diag.
Qed.

Lemma flush_commit_step d d' : flushed d d' -> committing d -> safe d' /\ applying 0 d'.
Proof.
  intros Hf (Hp & Hv & Hl & Hc & Hh). unfold log_read in Hl. rewrite firstn_all in Hl.
  assert (phase committed true off_target d') as Hp'.
  { eapply phase_mono; [by eapply phase_flush|by intros v ->|done|by intros s v [_ ?] _]. }
  split; [by apply safe_apply|]. split_and!; [done| | | |intros ?; by apply (fd_healthy _ _ Hf), Hh].
  - intros s Hs. rewrite (fd_view _ _ Hf). by apply Hv.
  - unfold log_read. rewrite firstn_all. intros i w Hi' k Hk. rewrite (fd_view _ _ Hf). by apply (Hl i w).
  - by rewrite (fd_view _ _ Hf).
Qed.

(** Applying the log writes outside the journal only. *)
Lemma apply_step (k : nat) w rc d d' : L !! k = Some w ->
  wrote (fst w * ts) ts (snd w) rc d d' -> applying k d ->
  safe d' /\ (if rc <? 0 then ~ bd_healthy d0 else applying (S k) d').
Proof.
  intros Hk Hw (Hp & Hv & Hl & Hc & Hh). destruct (keeps_wrote _ _ _ _ _ _ Hw Hh) as [Hh' Hf].
  assert (forall s, fst w * ts <= s < fst w * ts + ts -> target ts L s) as Ht.
  { intros s Hs. apply Exists_exists. exists w. split; [by eapply list_elem_of_lookup_2|done]. }
  assert (forall s, fst w * ts <= s < fst w * ts + ts -> ~ jsec start s) as Hj
    by (intros s Hs; by apply (lo_apart _ _ _ Hlog), Ht).
  assert (forall s, jsec start s -> bd_view d' s = bd_view d s) as Hvj.
  { intros s Hs. apply (wd_out _ _ _ _ _ _ Hw). intros Hn. by apply (Hj s Hn). }
  assert (phase committed true off_target d') as Hp'.
  { eapply phase_write; [exact Hw|done|]. intros j Hjj. pose proof (Hj (fst w * ts + j) ltac:(lia)) as Hn.
    unfold may_write. split_and!.
    - intros Es. destruct Hn. rewrite Es. unfold jsec, sb_sec, JOURNAL_DEFAULT_BLOCKS. lia.
    - intros Es. destruct Hn. rewrite Es. unfold jsec, hdr_sec, JOURNAL_DEFAULT_BLOCKS. lia.
    - done.
    - intros _ Hnt. destruct Hnt. apply Ht. lia. }
  split; [by apply safe_apply|]. destruct (Z.ltb_spec rc 0) as [Hrc|Hrc]; [by apply Hf|].
  assert (rc = 0) as Hz by (pose proof (wd_rc _ _ _ _ _ _ Hw); lia). split_and!; [done| | | |done].
  - intros s Hs. rewrite (wd_view _ _ _ _ _ _ Hw Hz), (take_S_r _ _ _ Hk), apply_log_snoc. unfold put_block.
    case_decide; [done|]. by apply Hv.
  - intros i w' Hi n Hn. rewrite Hvj; [by apply (Hl i w')|]. unfold log_read in Hl. rewrite firstn_all in Hi.
    pose proof (lookup_lt_Some _ _ _ Hi). pose proof (lo_length _ _ _ Hlog).
    unfold jsec, data_sec, JOURNAL_DEFAULT_BLOCKS. lia.
  - rewrite Hvj; [done|]. unfold jsec, hdr_sec, JOURNAL_DEFAULT_BLOCKS. lia.
Qed.

Lemma flush_apply_step d d' : flushed d d' -> applying (length L) d -> safe d' /\ finishing d'.
Proof.
  intros Hf (Hp & Hv & Hl & Hc & Hh). unfold log_read in Hl. rewrite firstn_all in Hl, Hv.
  assert (phase (fun v => idle v \/ committed v) true applied d') as Hp'.
  { assert (phase (fun v => v = bd_view d (hdr_sec start)) true (fun s v => v = bd_view d s /\ off_target s v) d')
      as Hq by (by eapply phase_flush).
    split; [apply (ph_sb _ _ _ _ Hq)|intros v ->%(ph_hdr _ _ _ _ Hq); by right|apply (ph_log _ _ _ _ Hq)|].
    intros s v Hs Hm. destruct (ph_out _ _ _ _ Hq s v Hs Hm) as [-> _]. by apply Hv. }
  split; [by apply safe_applied|]. split_and!; [done| |intros ?; by apply (fd_healthy _ _ Hf), Hh].
  intros s Hs. unfold applied. rewrite (fd_view _ _ Hf). by apply Hv.
Qed.

(** The header is cleared and the superblock written. *)
Lemma finish_step i b rc d d' :
  (i = 0 /\ sb_valid (sector_of b 0)) \/ (i = 1 /\ idle (sector_of b 0)) ->
  wrote ((start + i) * 8) 8 b rc d d' -> finishing d -> safe d' /\ finishing d'.
Proof.
  intros Hb Hw (Hp & Hv & Hh). destruct (keeps_wrote _ _ _ _ _ _ Hw Hh) as [Hh' _].
  assert (phase (fun v => idle v \/ committed v) true applied d') as Hp'.
  { eapply phase_write; [exact Hw|done|]. intros j Hj. unfold may_write, sb_sec, hdr_sec, data_sec, jsec, JOURNAL_DEFAULT_BLOCKS.
    split_and!; [| |lia|intros Hn; destruct Hn; lia].
    - intros Es. destruct Hb as [[-> Hb]|[-> Hb]]; [|lia]. by replace j with 0 by lia.
    - intros Es. destruct Hb as [[-> Hb]|[-> Hb]]; [lia|]. left. by replace j with 0 by lia. }
  split; [by apply safe_applied|]. split_and!; [done| |done]. intros s Hs.
  rewrite (wd_out _ _ _ _ _ _ Hw); [by apply Hv|]. unfold jsec, JOURNAL_DEFAULT_BLOCKS in *. lia.
Qed.

End Phases.
