(* ===== verification/JournalSpec.v ===== *)
(** * Crash atomicity of the journal

    The transaction in memory ([txn_rep]), the proof that [journal_commit]
    runs through the phases of JournalProofs, and the theorems: whatever
    requests fail and whenever power is lost, a boot finds the disk with none
    or all of the transaction; without failures the transaction is applied,
    durable and its memory returned.  The last theorem shows what the missing
    flush behind the clearing of the header allows. *)

From stdpp Require Import base tactics numbers list gmap.
From S2P Require Import Prelude Alloc Block Journal JournalReplay JournalProofs.

(** ** The journal in memory *)

Record sb_ok (sb : journal_superblock) : Prop := {
  so_magic : sb_magic sb = JOURNAL_MAGIC;
  so_version : sb_version sb = JOURNAL_VERSION;
  so_next : is_u32 (sb_txn_id_next sb);
  so_pad : length (sb_pad sb) = 4080%nat
}.

(** A journal between two transactions. *)
Record journal_idle {E M} `{Kmalloc M} (start ts : Z) (st : journal E M) (Lm : gmap Z Z) : Prop := {
  ji_booted : booted start ts st;
  ji_sb : sb_ok (g_sb st);
  ji_use : in_use (g_txn st) = 0;
  ji_targets : length (target_blocks (g_txn st)) = 8%nat;
  ji_buffers : length (data_buffers (g_txn st)) = 8%nat;
  ji_mem : km_rep (jmem st) Lm
}.

(** A journal with the transaction [L] open: the buffers hold its blocks. *)
Record txn_rep {E M} `{Kmalloc M} (start ts : Z) (st : journal E M) (L : txlog) (Lm : gmap Z Z) : Prop := {
  tr_booted : booted start ts st;
  tr_sb : sb_ok (g_sb st);
  tr_use : in_use (g_txn st) <> 0;
  tr_id : is_u32 (txn_id (g_txn st));
  tr_num : num_blocks (g_txn st) = Z.of_nat (length L);
  tr_tlen : length (target_blocks (g_txn st)) = 8%nat;
  tr_blen : length (data_buffers (g_txn st)) = 8%nat;
  tr_targets : take (length L) (target_blocks (g_txn st)) = L.*1;
  tr_bufs : forall (i : nat) w, L !! i = Some w -> exists p,
    data_buffers (g_txn st) !! i = Some p /\ jbufs st !! p = Some (snd w) /\
    Lm !! p = Some JOURNAL_BLOCK_SIZE;
  tr_nodup : NoDup (take (length L) (data_buffers (g_txn st)));
  tr_mem : km_rep (jmem st) Lm
}.

(** The allocator without the buffers of the transaction. *)
Definition released (Lm : gmap Z Z) (ps : list Z) : gmap Z Z := foldl (fun m p => delete p m) Lm ps.

Definition txn_bufs {E M} (st : journal E M) : list Z :=
  take (Z.to_nat (num_blocks (g_txn st))) (data_buffers (g_txn st)).

Lemma released_snoc Lm ps p : released Lm (ps ++ [p]) = delete p (released Lm ps).
Proof. unfold released. by rewrite foldl_app. Qed.

Lemma released_other Lm ps p : p ∉ ps -> released Lm ps !! p = Lm !! p.
Proof.
  induction ps as [|q ps IH] using rev_ind; [done|]. rewrite not_elem_of_app, released_snoc.
  intros [Hp Hq]. rewrite lookup_delete_ne; [by apply IH|]. intros ->. apply Hq. by left.
Qed.

Section Cleanup.
Context {E M : Type} `{BlockOps E} `{Kmalloc M}.
Implicit Types st : journal E M.

Lemma txn_length start ts st L Lm : txn_rep start ts st L Lm -> (length L <= 8)%nat.
Proof.
  intros Ht. pose proof (f_equal length (tr_targets _ _ _ _ _ Ht)) as El.
  rewrite length_take, length_fmap, (tr_tlen _ _ _ _ _ Ht) in El. lia.
Qed.

(** The first [k] buffers are freed, the others are as they were. *)
Record freeing (st0 : journal E M) (Lm : gmap Z Z) (k : Z) (st : journal E M) : Prop := {
  fr_same : exists db m bs, st = set_txn (Txn (in_use (g_txn st0)) (txn_id (g_txn st0)) (num_blocks (g_txn st0))
              (target_blocks (g_txn st0)) db) (set_jmem m (set_jbufs bs st0)) /\
              length db = 8%nat /\ (forall j, k <= Z.of_nat j -> db !! j = data_buffers (g_txn st0) !! j);
  fr_mem : km_rep (jmem st) (released Lm (take (Z.to_nat k) (data_buffers (g_txn st0))))
}.

Lemma free_buffer_ok start ts st0 L Lm st k : txn_rep start ts st0 L Lm -> (k < length L)%nat ->
  freeing st0 Lm (Z.of_nat k) st -> wp (free_buffer (Z.of_nat k)) (fun _ st' => freeing st0 Lm (Z.of_nat k + 1) st') st.
Proof.
  intros Ht Hk [(db & m & bs & -> & Hl & Hdb) Hm]. destruct (lookup_lt_is_Some_2 L k Hk) as [w Hw].
  pose proof (txn_length _ _ _ _ _ Ht). destruct (tr_bufs _ _ _ _ _ Ht k w Hw) as (p & Hp & _ & Hlm). rewrite Nat2Z.id in Hm. cbn [jmem set_jmem set_txn] in Hm.
  set (db0 := data_buffers (g_txn st0)) in *.
  assert (released Lm (take k db0) !! p = Some JOURNAL_BLOCK_SIZE) as Hrel.
  { rewrite released_other; [done|]. pose proof (tr_nodup _ _ _ _ _ Ht) as Hnd. fold db0 in Hnd.
    rewrite <- (take_drop k (take (length L) db0)), take_take in Hnd. replace (k `min` length L)%nat with k in Hnd by lia.
    apply NoDup_app in Hnd as (_ & Hd & _). intros Hin. apply (Hd p Hin).
    apply list_elem_of_lookup. exists 0%nat. by rewrite lookup_drop, Nat.add_0_r, lookup_take_lt by lia. }
  unfold free_buffer. apply wp_bind, wp_gets. unfold id. cbn [g_txn set_txn data_buffers].
  eapply wp_bind_ok; [apply (rd_ok _ _ p); [lia|]; rewrite Nat2Z.id, Hdb by lia; exact Hp|].
  rewrite (proj2 (Z.eqb_neq p 0)) by (pose proof (km_nonnull _ _ _ _ Hm Hrel); lia).
  destruct (kfree_spec _ _ p _ Hm Hrel) as (m' & Ef & Hm').
  eapply wp_bind_ok; [unfold zoom; cbn [jmem set_jmem set_txn]; rewrite Ef; reflexivity|].
  apply wp_bind, wp_modify. eapply wp_bind_ok; [apply wr_ok; lia|]. apply wp_modify. split.
  - eexists (<[Z.to_nat (Z.of_nat k) := 0]> db), m', _. split; [reflexivity|]. split; [by rewrite length_insert|].
    intros j Hj. rewrite list_lookup_insert_ne by lia. apply Hdb. lia.
  - cbn [jmem set_jmem set_txn set_jbufs]. replace (Z.to_nat (Z.of_nat k + 1)) with (S k) by lia.
    by rewrite (take_S_r (data_buffers (g_txn st0)) k p Hp), released_snoc.
Qed.

(** Aborting, or finishing, a transaction returns its memory and leaves the
    disk alone. *)
Lemma abort_ok start ts st L Lm : txn_rep start ts st L Lm ->
  exists st', journal_abort true st = Ok (tt, st') /\ jdev st' = jdev st /\
    journal_idle start ts st' (released Lm (txn_bufs st)).
Proof.
  intros Ht. unfold journal_abort. cbn [negb].
  pose proof (for_loop_wp (freeing st Lm) (length L) 0 free_buffer st) as Hloop.
  assert (wp (for_loop (length L) 0 free_buffer) (fun _ s' => freeing st Lm (0 + Z.of_nat (length L)) s') st) as Hw.
  { apply Hloop.
    - split; [|by apply (tr_mem _ _ _ _ _ Ht)]. exists (data_buffers (g_txn st)), (jmem st), (jbufs st).
      split; [by destruct st as [? ? ? ? ? ? [] ? ? ?]|]. split; [apply (tr_blen _ _ _ _ _ Ht)|done].
    - intros k s Hk Hs. rewrite <- (Z2Nat.id k) in * by lia. eapply free_buffer_ok; [done|lia|done]. }
  apply wp_elim in Hw as ([] & st1 & E1 & [(db & m & bs & -> & Hl & _) Hm]).
  rewrite bind_gets, (tr_num _ _ _ _ _ Ht), Nat2Z.id, (bind_ok _ _ _ _ _ E1). eexists. split; [reflexivity|].
  split; [done|]. destruct Ht. split; try done. unfold txn_bufs. by rewrite tr_num0.
Qed.

End Cleanup.

Lemma set_sb_id {E M} (st : journal E M) : set_sb (g_sb st) st = st.
Proof. by destruct st. Qed.

Lemma set_jdev_id {E M} (st : journal E M) : set_jdev (jdev st) st = st.
Proof. by destruct st. Qed.

(** ** One block, from begin to commit *)

Section OneBlock.
Context {E M : Type} `{BlockOps E} `{Kmalloc M}.

Lemma begin_ok start ts (st : journal E M) Lm : journal_idle start ts st Lm ->
  exists st', journal_begin st = Ok (true, st') /\ jdev st' = jdev st /\ txn_rep start ts st' [] Lm.
Proof.
  intros Hi. unfold journal_begin. rewrite bind_gets. unfold id.
  destruct (ji_booted _ _ _ _ Hi) as (E1 & E2 & E3 & E4). rewrite E4, (ji_use _ _ _ _ Hi). cbn [Z.eqb negb].
  rewrite !bind_modify. eexists. split; [reflexivity|]. split; [done|]. destruct Hi as [_ [? ? ? ?] ? ? ? ?].
  split; try done; [split; try done; apply u32_range|constructor].
Qed.

Lemma take_insert_snoc (l : list Z) k x : (k < length l)%nat -> take (S k) (<[k := x]> l) = take k l ++ [x].
Proof.
  intros Hk. rewrite (take_S_r _ _ x) by (by apply list_lookup_insert_eq). by rewrite take_insert_ge by lia.
Qed.

Lemma txn_rep_snoc start ts (st : journal E M) L Lm t b p m' :
  txn_rep start ts st L Lm -> (length L < 8)%nat -> Lm !! p = None ->
  km_rep m' (<[p := JOURNAL_BLOCK_SIZE]> Lm) ->
  txn_rep start ts (set_txn (Txn (in_use (g_txn st)) (txn_id (g_txn st)) (Z.of_nat (length L) + 1)
      (<[length L := t]> (target_blocks (g_txn st))) (<[length L := p]> (data_buffers (g_txn st))))
    (set_jbufs (<[p := b]> (jbufs st)) (set_jmem m' st))) (L ++ [(t, b)]) (<[p := JOURNAL_BLOCK_SIZE]> Lm).
Proof.
  intros Ht HL Hp Hm. pose proof (tr_tlen _ _ _ _ _ Ht) as E1. pose proof (tr_blen _ _ _ _ _ Ht) as E2.
  assert (forall i w, L !! i = Some w -> exists q, data_buffers (g_txn st) !! i = Some q /\ q <> p /\
    jbufs st !! q = Some (snd w) /\ Lm !! q = Some JOURNAL_BLOCK_SIZE) as Hb.
  { intros i w Hi. destruct (tr_bufs _ _ _ _ _ Ht i w Hi) as (q & ? & ? & ?). exists q. split_and!; try done. congruence. }
  split; cbn [g_txn set_txn in_use txn_id num_blocks target_blocks data_buffers jbufs set_jbufs jmem set_jmem];
    try (by destruct Ht); rewrite ?length_insert, ?length_app; try done.
  - simpl. lia.
  - simpl. rewrite Nat.add_1_r, take_insert_snoc, fmap_app, (tr_targets _ _ _ _ _ Ht) by lia. done.
  - intros i w [Hi|[Hge Hi]]%lookup_app_Some.
    + destruct (Hb i w Hi) as (q & ? & ? & ? & ?). exists q. pose proof (lookup_lt_Some _ _ _ Hi).
      by rewrite list_lookup_insert_ne, !lookup_insert_ne by (done || lia).
    + apply list_lookup_singleton_Some in Hi as [Hi <-]. assert (i = length L) as -> by lia. exists p.
      by rewrite list_lookup_insert_eq, !lookup_insert_eq by lia.
  - simpl. rewrite Nat.add_1_r, take_insert_snoc by lia. apply NoDup_app. split; [apply (tr_nodup _ _ _ _ _ Ht)|].
    split; [|apply NoDup_singleton]. intros q Hq ->%list_elem_of_singleton. apply list_elem_of_lookup in Hq as [i Hi].
    pose proof (lookup_lt_Some _ _ _ Hi) as Hlt. rewrite length_take in Hlt. rewrite lookup_take_lt in Hi by lia.
    destruct (lookup_lt_is_Some_2 L i ltac:(lia)) as [w Hw]. destruct (Hb i w Hw) as (q & ? & ? & _). congruence.
Qed.

Lemma log_block_ok start ts (st : journal E M) L Lm t b : txn_rep start ts st L Lm -> (length L < 8)%nat ->
  length b = 4096%nat ->
  exists rc st', journal_log_block true t (Some b) st = Ok (rc, st') /\ jdev st' = jdev st /\
    ((rc = - ENOMEM /\ txn_rep start ts st' L Lm /\ txn_bufs st' = txn_bufs st) \/
     (rc = 0 /\ exists p, Lm !! p = None /\ txn_rep start ts st' (L ++ [(t, b)]) (<[p := JOURNAL_BLOCK_SIZE]> Lm) /\
        txn_bufs st' = txn_bufs st ++ [p])).
Proof.
  intros Ht HL Hb. pose proof (tr_num _ _ _ _ _ Ht) as Hnum. unfold journal_log_block. rewrite bind_gets. unfold id.
  rewrite Hnum, (proj2 (Z.leb_gt JOURNAL_MAX_PER_TXN _)) by (unfold JOURNAL_MAX_PER_TXN; lia).
  destruct (kmalloc_spec _ _ JOURNAL_BLOCK_SIZE (tr_mem _ _ _ _ _ Ht) ltac:(done)) as (p & m' & Ek & Hp).
  assert (zoom jmem set_jmem (kmalloc JOURNAL_BLOCK_SIZE) st = Ok (p, set_jmem m' st)) as Ez by (unfold zoom; by rewrite Ek).
  rewrite (bind_ok _ _ _ _ _ Ez). destruct Hp as [[-> Hm]|(Hp0 & _ & Hnew & _ & Hm)].
  { cbn [Z.eqb]. eexists _, _. split; [reflexivity|]. split; [done|]. left. split; [done|]. split; [by destruct Ht|done]. }
  rewrite (proj2 (Z.eqb_neq p 0)) by lia.
  rewrite (bind_ok _ _ _ _ _ (copy_out_ok b 0 JOURNAL_BLOCK_SIZE _ ltac:(lia) ltac:(done) ltac:(unfold JOURNAL_BLOCK_SIZE; lia))).
  rewrite bind_modify. rewrite (bind_ok _ _ _ _ _ (wr_ok (target_blocks (g_txn st)) (Z.of_nat (length L)) t _ ltac:(rewrite (tr_tlen _ _ _ _ _ Ht); lia))).
  rewrite (bind_ok _ _ _ _ _ (wr_ok (data_buffers (g_txn st)) (Z.of_nat (length L)) p _ ltac:(rewrite (tr_blen _ _ _ _ _ Ht); lia))). rewrite bind_modify.
  eexists _, _. split; [reflexivity|]. split; [done|]. right. split; [done|]. exists p. split; [done|].
  rewrite Nat2Z.id, drop_0, take_ge by (rewrite Hb; done). unfold txn_bufs.
  cbn [g_txn set_txn num_blocks data_buffers]. rewrite Hnum. set (k := length L) in *.
  assert (take (Z.to_nat (Z.of_nat k + 1)) (<[k := p]> (data_buffers (g_txn st))) = take k (data_buffers (g_txn st)) ++ [p]) as Etk.
  { replace (Z.to_nat (Z.of_nat k + 1)) with (S k) by lia. apply take_insert_snoc. rewrite (tr_blen _ _ _ _ _ Ht). lia. }
  split; [|by rewrite Etk, Nat2Z.id]. exact (txn_rep_snoc start ts st L Lm t b p m' Ht HL Hnew Hm).
Qed.

Lemma released_one Lm p k : Lm !! p = None -> released (<[p := k]> Lm) [p] = Lm.
Proof. intros Hp. unfold released. simpl. by apply delete_insert_id. Qed.

End OneBlock.

(** ** The commit, request by request *)

Section Commit.
Context {D M : Type} `{BlockDevice D} `{Kmalloc M}.
Context (start ts : Z) (L : txlog) (d0 : D) (st0 : journal (traced D) M) (Lm : gmap Z Z).
Hypothesis Hgeo : geometry start ts.
Hypothesis Hlog : log_ok start ts L.
Hypothesis Htxn : txn_rep start ts st0 L Lm.
Hypothesis Hflush : flush_reliable D.

Let n := txn_id (g_txn st0).

Definition with_dev (d : D) (h : list D) : journal (traced D) M := @set_jdev (traced D) M (d, h) st0.

(** The journal differs from [st0] in the device only; the device satisfies
    [P], and every state it went through is safe. *)
Definition at_dev (P : D -> Prop) (st : journal (traced D) M) : Prop :=
  exists d h, st = with_dev d h /\ P d /\ Forall (safe start ts n L d0) h.

Lemma at_dev_mono (P Q : D -> Prop) st : at_dev P st -> (forall d, P d -> Q d) -> at_dev Q st.
Proof. intros (d & h & E & HP & Hh) HQ. exists d, h. auto. Qed.

Lemma write_rule lba k buf (P : D -> Prop) (Q : Z -> D -> Prop) st :
  0 <= k -> 512 * k <= Z.of_nat (length buf) ->
  (forall rc d d', P d -> wrote lba k buf rc d d' -> safe start ts n L d0 d' /\ Q rc d') ->
  at_dev P st -> wp (on_dev (blk_write lba k buf)) (fun rc st' => at_dev (Q rc) st') st.
Proof.
  intros Hk Hl HQ (d & h & -> & HP & Hh). destruct (blk_write_ok d lba k buf Hk Hl) as (rc & d' & Ew & Hw).
  destruct (HQ _ _ _ HP Hw) as [Hs Hq]. eapply wp_ok; [apply on_dev_ok; by apply (traced_write _ _ _ (d, h))|].
  exists d', (h ++ [d']). split; [done|]. split; [done|]. rewrite Forall_app, Forall_singleton. done.
Qed.

Lemma flush_rule (P Q : D -> Prop) st :
  (forall d d', P d -> flushed d d' -> safe start ts n L d0 d' /\ Q d') ->
  at_dev P st -> wp (on_dev blk_flush) (fun _ st' => at_dev Q st') st.
Proof.
  intros HQ (d & h & -> & HP & Hh). destruct (blk_flush_ok d Hflush) as (d' & Ef & Hf).
  destruct (HQ _ _ HP Hf) as [Hs Hq]. eapply wp_ok; [apply on_dev_ok; by apply (traced_flush (d, h))|].
  exists d', (h ++ [d']). split; [done|]. split; [done|]. rewrite Forall_app, Forall_singleton. done.
Qed.

(** A block of the journal. *)
Lemma write_block_rule i b (P : D -> Prop) (Q : Z -> D -> Prop) st :
  0 <= i < JOURNAL_DEFAULT_BLOCKS -> length b = 4096%nat ->
  (forall rc d d', P d -> wrote ((start + i) * 8) 8 b rc d d' -> safe start ts n L d0 d' /\ Q rc d') ->
  at_dev P st -> wp (journal_write_block i b) (fun rc st' => at_dev (Q rc) st') st.
Proof.
  intros Hi Hl HQ Hat. unfold journal_write_block. apply wp_bind, wp_gets. unfold id.
  assert (g_journal_start st = start /\ g_sectors_per_block st = 8) as [E1 E2].
  { destruct Hat as (d & h & -> & _). by destruct (tr_booted _ _ _ _ _ Htxn) as (? & ? & _). }
  rewrite (lba_ok start ts st i Hgeo E1 E2 Hi), E2. eapply write_rule; [lia|lia|exact HQ|exact Hat].
Qed.

Lemma load_jbuf_ok (i : nat) w d h : L !! i = Some w -> exists p,
  rd (data_buffers (g_txn st0)) (Z.of_nat i) (with_dev d h) = Ok (p, with_dev d h) /\
  load_jbuf p (with_dev d h) = Ok (snd w, with_dev d h).
Proof.
  intros Hw. destruct (tr_bufs _ _ _ _ _ Htxn i w Hw) as (p & Hp & Hb & _). exists p.
  split; [apply rd_ok; [lia|by rewrite Nat2Z.id]|]. unfold load_jbuf. rewrite bind_gets. unfold id. cbn [jbufs with_dev set_jdev]. by rewrite Hb.
Qed.

Lemma log_data_length (i : nat) w : L !! i = Some w -> length (snd w) = 4096%nat.
Proof. intros Hw. by apply (Forall_lookup_1 _ _ _ _ (lo_data _ _ _ Hlog) Hw). Qed.

Lemma log_data_ok (k : nat) st : (k < length L)%nat ->
  at_dev (logging start L d0 k) st ->
  wp (log_data (g_txn st0) (Z.of_nat k)) (fun r st' => match r with
    | Some rc => rc < 0 /\ at_dev (failed start ts n L d0) st'
    | None => at_dev (logging start L d0 (S k)) st' end) st.
Proof.
  intros Hk Hat. destruct (lookup_lt_is_Some_2 L k Hk) as [w Hw]. pose proof Hat as (d & h & -> & _).
  destruct (load_jbuf_ok k w d h Hw) as (p & E1 & E2). unfold log_data.
  eapply wp_bind_ok; [exact E1|]. eapply wp_bind_ok; [exact E2|]. pose proof (lo_length _ _ _ Hlog).
  eapply wp_step; [eapply (write_block_rule _ _ _ (fun rc d => if rc <? 0 then failed start ts n L d0 d else logging start L d0 (S k) d));
    [|by eapply log_data_length| |exact Hat]|].
  - unfold JOURNAL_SLOT_DATA0, JOURNAL_SLOT_HDR, JOURNAL_DEFAULT_BLOCKS. lia.
  - intros rc d1 d2 Hd1 Hd2. by eapply write_log_step.
  - intros rc st' Hst'. apply wp_ret. cbv beta in Hst'. destruct (Z.ltb_spec rc 0); [split; [done|exact Hst']|exact Hst'].
Qed.

Lemma log_loop_ok st : at_dev (logging start L d0 0) st ->
  wp (for_until (length L) 0 (log_data (g_txn st0))) (fun r st' => match r with
    | Some rc => rc < 0 /\ at_dev (failed start ts n L d0) st'
    | None => at_dev (logging start L d0 (length L)) st' end) st.
Proof.
  intros Hat. eapply wp_mono; [apply (for_until_wp (fun k => at_dev (logging start L d0 (Z.to_nat k)))
    (fun rc st' => rc < 0 /\ at_dev (failed start ts n L d0) st')); [exact Hat|]|].
  - intros k s Hk Hs. rewrite <- (Z2Nat.id k) by lia. eapply wp_mono; [apply log_data_ok; [lia|exact Hs]|].
    intros [rc|] s'; [done|]. by replace (Z.to_nat (Z.of_nat (Z.to_nat k) + 1)) with (S (Z.to_nat k)) by lia.
  - intros [rc|] s'; [done|]. by rewrite Z.add_0_l, Nat2Z.id.
Qed.

Lemma apply_block_ok (k : nat) st : (k < length L)%nat ->
  at_dev (applying start ts n L d0 k) st ->
  wp (apply_block (g_txn st0) (Z.of_nat k)) (fun r st' => match r with
    | Some rc => at_dev (fun _ => ~ bd_healthy d0) st'
    | None => at_dev (applying start ts n L d0 (S k)) st' end) st.
Proof.
  intros Hk Hat. destruct (lookup_lt_is_Some_2 L k Hk) as [w Hw]. pose proof Hat as (d & h & -> & _).
  destruct (load_jbuf_ok k w d h Hw) as (p & E1 & E2). unfold apply_block.
  destruct (tr_booted _ _ _ _ _ Htxn) as (_ & _ & E3 & _). destruct Hgeo as (_ & _ & Hts).
  apply wp_bind, wp_gets. unfold id. cbn [g_target_sectors with_dev set_jdev]. rewrite E3.
  assert (target_blocks (g_txn st0) !! k = Some (fst w)) as Ht.
  { rewrite <- (lookup_take_lt _ (length L)), (tr_targets _ _ _ _ _ Htxn) by done. by rewrite list_lookup_fmap, Hw. }
  eapply wp_bind_ok; [apply rd_ok; [lia|rewrite Nat2Z.id; exact Ht]|].
  eapply wp_bind_ok; [exact E1|]. eapply wp_bind_ok; [exact E2|].
  eapply wp_step; [eapply (write_rule _ _ _ _ (fun rc d => if rc <? 0 then ~ bd_healthy d0 else applying start ts n L d0 (S k) d));
    [lia|rewrite (log_data_length _ _ Hw); lia| |exact Hat]|].
  - intros rc d1 d2 Hd1 Hd2. by eapply apply_step.
  - intros rc st' Hst'. apply wp_ret. cbv beta in Hst'. destruct (rc <? 0); exact Hst'.
Qed.

Lemma apply_loop_ok st : at_dev (applying start ts n L d0 0) st ->
  wp (for_until (length L) 0 (apply_block (g_txn st0))) (fun r st' => match r with
    | Some rc => at_dev (fun _ => ~ bd_healthy d0) st'
    | None => at_dev (applying start ts n L d0 (length L)) st' end) st.
Proof.
  intros Hat. eapply wp_mono; [apply (for_until_wp (fun k => at_dev (applying start ts n L d0 (Z.to_nat k)))
    (fun rc st' => at_dev (fun _ => ~ bd_healthy d0) st')); [exact Hat|]|].
  - intros k s Hk Hs. rewrite <- (Z2Nat.id k) by lia. eapply wp_mono; [apply apply_block_ok; [lia|exact Hs]|].
    intros [rc|] s'; [done|]. by replace (Z.to_nat (Z.of_nat (Z.to_nat k) + 1)) with (S (Z.to_nat k)) by lia.
  - intros [rc|] s'; [done|]. by rewrite Z.add_0_l, Nat2Z.id.
Qed.

(** What a commit ends with. *)
Definition committed_post (r : commit_result) (st' : journal (traced D) M) : Prop :=
  Forall (safe start ts n L d0) (snd (jdev st')) /\
  match r with
  | Done rc => journal_idle start ts st' (released Lm (txn_bufs st0)) /\
      ((rc < 0 /\ failed start ts n L d0 (fst (jdev st'))) \/
       (rc = 0 /\ finishing start ts n L d0 (fst (jdev st'))))
  | Panicked => ~ bd_healthy d0
  end.

Lemma fail_commit_ok rc st : rc < 0 -> at_dev (failed start ts n L d0) st -> wp (fail_commit rc) committed_post st.
Proof.
  intros Hrc (d & h & -> & Hd & Hh). unfold fail_commit.
  assert (txn_rep start ts (with_dev d h) L Lm) as Ht by (by destruct Htxn).
  destruct (abort_ok _ _ _ _ _ Ht) as (st' & Ea & Ed & Hi). eapply wp_bind_ok; [exact Ea|]. apply wp_ret.
  unfold committed_post. rewrite Ed. cbn [jdev with_dev set_jdev fst snd]. split; [done|]. split; [exact Hi|]. by left.
Qed.

(** The headers of the commit. *)
Lemma txn_header_log : txn_header (g_txn st0) = log_header n L 0.
Proof.
  unfold txn_header, log_header. rewrite (tr_num _ _ _ _ _ Htxn), Nat2Z.id, (tr_targets _ _ _ _ _ Htxn). done.
Qed.

Lemma header_length c : length (hdr_bytes (with_crc (log_header n L c))) = 4096%nat.
Proof.
  pose proof (lo_length _ _ _ Hlog). rewrite hdr_bytes_words, length_app, length_words. unfold hdr_words.
  cbn [log_header with_crc set_crc h_magic h_txn_id h_num_blocks h_committed h_target_blocks h_crc h_pad].
  rewrite !length_app, length_fmap, !length_replicate. cbn [length].
  change (Z.to_nat (JOURNAL_BLOCK_SIZE - _ - _)) with 4044%nat. lia.
Qed.

Lemma pending_idle : idle (hdr_image n L 0).
Proof.
  right. unfold hdr_image. rewrite with_crc_id by done. set (h := log_header n L 0).
  assert (hdr_wf (set_crc (journal_crc h) h)) as Hwf.
  { eapply log_header_wf; [apply (tr_id _ _ _ _ _ Htxn)|done|apply u32_range|done]. }
  by destruct (hdr_roundtrip _ (sector_of (hdr_bytes (set_crc (journal_crc h) h)) 0) Hwf (sector_idem _))
    as (_ & _ & _ & -> & _).
Qed.

Lemma zero_idle : idle (sector_of zero_block 0).
Proof. by left. Qed.

Lemma sb_bytes_valid sb : sb_ok sb -> sb_valid (sector_of (sb_bytes sb) 0) /\ length (sb_bytes sb) = 4096%nat.
Proof.
  intros [E1 E2 _ E4]. split.
  - unfold sb_valid, sb_of, sector_of. rewrite drop_0. cbn [sb_magic sb_version]. rewrite !get32_take by lia.
    unfold sb_bytes. rewrite E1, E2. split; [by apply get32_le32|].
    rewrite get32_app_r by (rewrite length_le32; lia). by apply get32_le32.
  - unfold sb_bytes. rewrite !length_app, !length_le32, E4. done.
Qed.

Lemma with_dev_txn d h : txn_rep start ts (with_dev d h) L Lm.
Proof. by destruct Htxn. Qed.

(** The header is cleared, the superblock written, the memory returned. *)
Lemma finish_commit_ok st : at_dev (finishing start ts n L d0) st ->
  wp (finish_commit (g_txn st0)) committed_post st.
Proof.
  intros Hat. unfold finish_commit.
  eapply wp_step; [eapply (write_block_rule _ _ _ (fun _ => finishing start ts n L d0));
    [done|apply length_zero_block| |exact Hat]|].
  { intros rc d d' Hd Hw. eapply finish_step; [done| |exact Hw|exact Hd]. right. split; [done|apply zero_idle]. }
  intros _ st1 (d1 & h1 & -> & Hd1 & Hh1). apply wp_bind, wp_modify. set (st2 := if _ : bool then _ else _).
  assert (exists sb, sb_ok sb /\ st2 = set_sb sb (with_dev d1 h1)) as (sb & Hsb & ->).
  { pose proof (tr_sb _ _ _ _ _ Htxn) as Hok. unfold st2. destruct (_ <? _); [|exists (g_sb st0); split; [done|symmetry; apply (set_sb_id (with_dev d1 h1))]].
    eexists. split; [|reflexivity]. destruct Hok. split; try done. apply u32_range. }
  apply wp_bind, wp_gets. cbn [g_sb set_sb]. destruct (sb_bytes_valid sb Hsb) as [Hv Hl].
  unfold journal_write_block at 1. rewrite wp_bind. apply wp_bind, wp_gets. unfold id.
  destruct (tr_booted _ _ _ _ _ Htxn) as (E1 & E2 & _).
  rewrite (lba_ok start ts (set_sb sb (with_dev d1 h1)) 0 Hgeo E1 E2 ltac:(done)).
  destruct (blk_write_ok d1 ((start + 0) * 8) 8 (sb_bytes sb) ltac:(lia) ltac:(lia)) as (rc & d2 & Ew & Hw).
  destruct (finish_step start ts n L d0 Hlog 0 (sb_bytes sb) rc d1 d2 ltac:(by left) Hw Hd1) as [Hs Hf].
  cbn [g_sectors_per_block set_sb with_dev set_jdev]. rewrite E2.
  eapply wp_ok; [apply on_dev_ok; by apply (traced_write _ _ _ (d1, h1))|]. cbv beta.
  set (st3 := set_jdev _ _). assert (txn_rep start ts st3 L Lm) as Ht3 by (by destruct Htxn).
  destruct (abort_ok _ _ _ _ _ Ht3) as (st' & Ea & Ed & Hi). eapply wp_bind_ok; [exact Ea|]. apply wp_ret.
  unfold committed_post. rewrite Ed. cbn [jdev st3 set_jdev fst snd]. split; [by rewrite Forall_app, Forall_singleton|].
  split; [exact Hi|]. by right.
Qed.

Lemma commit_ok : jdev st0 = (d0, []) -> logging start L d0 0 d0 ->
  wp (journal_commit true) committed_post st0.
Proof.
  intros Hdev Hd0. assert (at_dev (logging start L d0 0) st0) as Hat.
  { exists d0, []. split; [unfold with_dev; rewrite <- Hdev; symmetry; apply set_jdev_id|]. done. }
  pose proof (txn_length _ _ _ _ _ Htxn) as Hlen. pose proof (tr_num _ _ _ _ _ Htxn) as Hnum.
  unfold journal_commit. apply wp_bind, wp_gets. unfold id. cbn [negb orb].
  rewrite (proj2 (Z.eqb_neq _ _) (tr_use _ _ _ _ _ Htxn)), Hnum.
  rewrite (proj2 (Z.ltb_ge JOURNAL_MAX_PER_TXN _)) by (unfold JOURNAL_MAX_PER_TXN; lia). rewrite Nat2Z.id, txn_header_log.
  eapply wp_step; [apply log_loop_ok; exact Hat|]. intros [rc|] st1 Hst1; cbv iota in Hst1.
  { destruct Hst1. by apply fail_commit_ok. }
  eapply wp_step; [eapply (write_block_rule 1 _ _ (fun rc d => if rc <? 0 then failed start ts n L d0 d
      else logging start L d0 (length L) d /\ idle (bd_view d (hdr_sec start))));
    [done|apply header_length|intros rc d d' Hd Hw; eapply write_pending_step; [done|apply pending_idle|exact Hw|exact Hd]|exact Hst1]|].
  intros rc st2 Hst2. cbv beta in Hst2. destruct (Z.ltb_spec rc 0) as [Hrc|_]; [by apply fail_commit_ok|].
  eapply wp_step; [eapply (flush_rule _ (log_durable start L d0)); [|exact Hst2];
    intros d d' [Hd Hi] Hf; eapply flush_pending_step; [exact Hf|exact Hd|exact Hi]|].
  intros ? st3 Hst3. cbv beta in Hst3. eapply wp_step; [eapply (write_block_rule 1 _ _ (fun rc d => if rc <? 0 then failed start ts n L d0 d
      else committing start n L d0 d));
    [done|apply header_length|intros rc' d d' Hd Hw; eapply write_commit_step; [done|done|exact Hw|exact Hd]|exact Hst3]|].
  intros rc' st4 Hst4. cbv beta in Hst4. destruct (Z.ltb_spec rc' 0) as [Hrc|_]; [by apply fail_commit_ok|].
  eapply wp_step; [eapply (flush_rule _ (applying start ts n L d0 0)); [|exact Hst4];
    intros d d' Hd Hf; eapply flush_commit_step; [exact Hf|exact Hd]|].
  intros ? st5 Hst5. cbv beta in Hst5. eapply wp_step; [apply apply_loop_ok; exact Hst5|]. intros [r|] st6 Hst6; cbv iota in Hst6.
  { apply wp_ret. destruct Hst6 as (d & h & -> & Hn & Hh). by split. }
  eapply wp_step; [eapply (flush_rule _ (finishing start ts n L d0)); [|exact Hst6];
    intros d d' Hd Hf; eapply flush_apply_step; [exact Hf|exact Hd]|].
  intros ? st7 Hst7. cbv beta in Hst7. by apply finish_commit_ok.
Qed.

End Commit.

(** ** The theorems *)

Section Theorems.
Context {D M : Type} `{BlockDevice D} `{Kmalloc M}.

(** Whatever a loss of power in state [d] leaves on the disk, a boot on a
    device with that content succeeds, and the sectors outside the journal
    then read as an image in [P]. *)
Definition recovers_to (start ts : Z) (d : D) (P : (Z -> list Z) -> Prop) : Prop :=
  forall m, crash_image d m -> exists m', P m' /\
    forall (d1 : D) (mem : M), (forall s, bd_view d1 s = m s) -> bd_healthy d1 ->
      exists st1, journal_boot ts start (journal_bss d1 mem) = Ok (0, st1) /\
        forall s, ~ jsec start s -> bd_view (jdev st1) s = m' s.

(** The sectors as a crash before the transaction could have left them,
    without the transaction or with all of it. *)
Definition all_or_nothing (start ts : Z) (L : txlog) (d0 : D) (m' : Z -> list Z) : Prop :=
  exists m0, (forall s, ~ jsec start s -> bd_may d0 s (m0 s)) /\
    ((forall s, ~ jsec start s -> m' s = m0 s) \/
     (forall s, ~ jsec start s -> m' s = apply_log ts L m0 s)).

(** The disk of a journal that is not being replayed: no crash leaves a
    committed header or an unknown superblock. *)
Definition ready (start : Z) (d : D) : Prop :=
  (forall v, bd_may d (sb_sec start) v -> sb_valid v) /\
  (forall v, bd_may d (hdr_sec start) v -> idle v).

Lemma ready_logging start L d : ready start d -> logging start L d 0 d.
Proof.
  intros [Hsb Hh]. split_and!; [by split|by intros s _| |by intros ?]. intros i w Hi. by rewrite take_0 in Hi.
Qed.

(** What a boot makes of a recoverable disk. *)
Lemma recovers_boot start ts n L m m0 : geometry start ts -> log_ok start ts L -> is_u32 n ->
  sb_valid (m (sb_sec start)) -> recovers start ts n L m m0 -> exists m',
  ((forall s, ~ jsec start s -> m' s = m0 s) \/ (forall s, ~ jsec start s -> m' s = apply_log ts L m0 s)) /\
  (forall s, ~ jsec start s -> m' s = m s \/ committed n L (m (hdr_sec start)) /\ m' s = apply_log ts L m0 s) /\
  forall (d1 : D) (mem : M), (forall s, bd_view d1 s = m s) -> bd_healthy d1 ->
  exists st1, journal_boot ts start (journal_bss d1 mem) = Ok (0, st1) /\
    forall s, ~ jsec start s -> bd_view (jdev st1) s = m' s.
Proof.
  intros Hg HL Hn Hsb Hr.
  assert (idle (m (hdr_sec start)) -> forall (d1 : D) (mem : M), (forall s, bd_view d1 s = m s) -> bd_healthy d1 ->
    exists st1, journal_boot ts start (journal_bss d1 mem) = Ok (0, st1) /\
      forall s, ~ jsec start s -> bd_view (jdev st1) s = m s) as Hboot.
  { intros Hi d1 mem Hv Hh. destruct (boot_idle start ts d1 mem Hg Hh) as (st1 & E & Hst1); [by rewrite Hv|by rewrite Hv|].
    exists st1. split; [exact E|]. intros s _. by rewrite Hst1, Hv. }
  destruct Hr as [Hi Hr|Hi Hr|Hc Hl Hr].
  - exists m. split; [by left|]. split; [by left|by apply Hboot].
  - exists m. split; [by right|]. split; [by left|by apply Hboot].
  - exists (apply_log ts L m0). split; [by right|]. split; [by right|]. intros d1 mem Hv Hh.
    destruct (boot_log start ts n L d1 mem Hg HL Hn Hh) as (st1 & E & Hst1);
      [by rewrite Hv|by rewrite Hv|intros i w Hw k Hk; rewrite Hv; by apply (Hl i w)|].
    exists st1. split; [exact E|]. intros s Hs. rewrite Hst1, <- Hr by done. apply apply_log_ext. by rewrite Hv.
Qed.

Lemma safe_recovers start ts n L d0 d : geometry start ts -> log_ok start ts L -> is_u32 n ->
  safe start ts n L d0 d -> recovers_to start ts d (all_or_nothing start ts L d0).
Proof.
  intros Hg HL Hn Hs m Hm. destruct (Hs m Hm) as (Hsb & m0 & Hm0 & Hr).
  destruct (recovers_boot _ _ _ _ _ _ Hg HL Hn Hsb Hr) as (m' & Hm' & _ & Hb). exists m'. split; [|done]. by exists m0.
Qed.

(** Once the log is applied and flushed the transaction is durable. *)
Lemma finishing_recovers start ts n L d0 d : geometry start ts -> log_ok start ts L -> is_u32 n ->
  finishing start ts n L d0 d ->
  recovers_to start ts d (fun m' => forall s, ~ jsec start s -> m' s = apply_log ts L (bd_view d0) s).
Proof.
  intros Hg HL Hn (Hp & _ & _) m Hm.
  assert (forall s, ~ jsec start s -> m s = apply_log ts L (bd_view d0) s) as Ha
    by (intros s Hs; exact (ph_out _ _ _ _ _ _ Hp s _ Hs (Hm s))).
  assert (recovers start ts n L m (bd_view d0)) as Hr.
  { destruct (ph_hdr _ _ _ _ _ _ Hp _ (Hm (hdr_sec start))) as [Hi|Hc]; [by apply rec_new|].
    apply rec_log; [done|by eapply phase_holds_log|]. intros s Hs. apply apply_log_ext. intros Ht. by rewrite Ha, apply_log_other. }
  destruct (recovers_boot _ _ _ _ _ _ Hg HL Hn (ph_sb _ _ _ _ _ _ Hp _ (Hm _)) Hr) as (m' & _ & Hm' & Hb).
  exists m'. split; [|done]. intros s Hs. destruct (Hm' s Hs) as [->|[_ ->]]; [by apply Ha|done].
Qed.

(** What a commit of [L], begun on the device [d], ends with: no crash during
    it tears the transaction apart; when it returned 0 the blocks read back and
    survive any later crash; when it returned an error nothing changed; in both
    cases the journal is ready for the next transaction with the memory [Lm]. *)
Definition commit_promise (start ts : Z) (L : txlog) (Lm : gmap Z Z) (d : D)
    (r : commit_result) (st' : journal (traced D) M) : Prop :=
  (forall d', d' ∈ d :: snd (jdev st') -> recovers_to start ts d' (all_or_nothing start ts L d)) /\
  match r with
  | Done rc => journal_idle start ts st' Lm /\
      ((rc = 0 /\ (forall s, ~ jsec start s -> bd_view (fst (jdev st')) s = apply_log ts L (bd_view d) s) /\
        recovers_to start ts (fst (jdev st'))
          (fun m' => forall s, ~ jsec start s -> m' s = apply_log ts L (bd_view d) s)) \/
       (rc < 0 /\ forall s, ~ jsec start s -> bd_view (fst (jdev st')) s = bd_view d s))
  | Panicked => True
  end.

Lemma post_promise start ts L (st st' : journal (traced D) M) Lm d r :
  geometry start ts -> log_ok start ts L -> txn_rep start ts st L Lm -> ready start d ->
  committed_post start ts L d st Lm r st' ->
  commit_promise start ts L (released Lm (txn_bufs st)) d r st' /\ (bd_healthy d -> r = Done 0).
Proof.
  intros Hg HL Ht Hr [Hsafe Hpost]. pose proof (tr_id _ _ _ _ _ Ht) as Hn. split; [split|].
  - intros d' Hd'. apply (safe_recovers _ _ _ _ _ _ Hg HL Hn). apply elem_of_cons in Hd' as [->|Hd'].
    + destruct (ready_logging start L d Hr) as [Hp _]. by eapply safe_idle.
    + by eapply Forall_forall.
  - destruct r as [rc|]; [|done]. destruct Hpost as [Hi [[Hrc (_ & Hv & _)]|[-> Hfin]]]; (split; [exact Hi|]).
    + right. by split.
    + left. split; [done|]. split; [apply Hfin|]. by eapply finishing_recovers.
  - intros Hh. destruct r as [rc|]; [|done]. destruct Hpost as [_ [[_ (_ & _ & Hn')]|[-> _]]]; [by destruct Hn'|done].
Qed.



End Theorems.

(** ** An example disk

    A journal of 32 blocks at block 100 of an otherwise empty disk whose write
    cache is empty; file system blocks of 4096 bytes. *)

Definition example_sb : journal_superblock :=
  Superblock JOURNAL_MAGIC JOURNAL_VERSION JOURNAL_DEFAULT_BLOCKS 1 (replicate 4080 0).

Definition example_disk : cached := Cached {[ sb_sec 100 := sector_of (sb_bytes example_sb) 0 ]} [] [].

Definition example_block : list Z := replicate 4096 7.

Definition example_journal : journal (traced cached) arena :=
  JournalState true 100 8 8 example_sb 1 txn_zero (example_disk, []) arena_init ∅.

(** The transaction that writes [example_block] to block 5. *)
Definition example_open : journal (traced cached) arena :=
  JournalState true 100 8 8 example_sb 1 (Txn 1 1 1 (5 :: replicate 7 0) (4096 :: replicate 7 0))
    (example_disk, []) (Arena 8192 {[ 4096 := 4096 ]}) {[ 4096 := example_block ]}.

Lemma cached_flush_reliable : flush_reliable cached.
Proof. intros d rc d'. unfold blk_flush. simpl. unfold cached_flush. congruence. Qed.

Lemma example_geometry : geometry 100 8.
Proof. done. Qed.

Lemma example_log_ok : log_ok 100 8 [(5, example_block)].
Proof.
  split; [simpl; lia|by apply Forall_singleton|by apply Forall_singleton; vm_compute|].
  intros s Hs. apply Exists_exists in Hs as (w & Hw%list_elem_of_singleton & Hs). subst w.
  unfold jsec, JOURNAL_DEFAULT_BLOCKS. simpl in Hs. lia.
Qed.

Lemma example_ready : ready 100 example_disk.
Proof.
  split; intros v [->|(w & Hw & _)]; try (by apply not_elem_of_nil in Hw).
  - split; vm_compute; reflexivity.
  - left. vm_compute. discriminate.
Qed.

Lemma example_sb_ok : sb_ok example_sb.
Proof. split; [done|done|done|apply length_replicate]. Qed.

Lemma example_idle : journal_idle 100 8 example_journal ∅.
Proof. split; [done|apply example_sb_ok|done|done|done|apply arena_init_rep]. Qed.

Lemma example_txn : txn_rep 100 8 example_open [(5, example_block)] {[ 4096 := JOURNAL_BLOCK_SIZE ]}.
Proof.
  split; [done|apply example_sb_ok|done|done|done|done|done|done| |apply NoDup_singleton|].
  - intros [|i] w Hi; [|done]. injection Hi as <-. exists 4096. split; [done|].
    cbn [jbufs example_open snd]. by rewrite !lookup_singleton_eq.
  - split; [done|]. split; [done|]. intros q k [<- <-]%lookup_singleton_Some. done.
Qed.



(** ** What the CRC does not cover

    The header records the targets and not the data: a disk with the committed
    header of one transaction and other blocks in the log area is replayed as
    if those blocks had been logged for its targets.  Such a disk can arise
    because [journal_commit] does not flush after it cleared the header: the
    next transaction overwrites the log area while the old header may still be
    on the disk. *)
Lemma hdr_image_targets n L L' c : L.*1 = L'.*1 -> hdr_image n L c = hdr_image n L' c.
Proof.
  intros El. assert (length L = length L') as Hl by (rewrite <- (length_fmap fst L), El; by rewrite length_fmap).
  unfold hdr_image, log_header. by rewrite El, Hl.
Qed.

Lemma stale_header_replay {D M} `{BlockDevice D} `{Kmalloc M} start ts n L stale (d : D) (mem : M) :
  geometry start ts -> log_ok start ts stale -> is_u32 n -> L.*1 = stale.*1 -> bd_healthy d ->
  sb_valid (bd_view d (sb_sec start)) -> bd_view d (hdr_sec start) = hdr_image n L 1 ->
  holds_log start stale (bd_view d) ->
  exists st, journal_boot ts start (journal_bss d mem) = Ok (0, st) /\
    forall s, ~ jsec start s -> bd_view (jdev st) s = apply_log ts stale (bd_view d) s.
Proof.
  intros Hg Hs Hn El Hh Hsb Hd Hl. rewrite (hdr_image_targets n L stale 1 El) in Hd. by eapply boot_log.
Qed.
