(* ===== verification/JournalIo.v ===== *)
(** * The journal on a device that works

    What [journaled_write] does for the file system while no request fails:
    either no buffer could be had and nothing happened, or the block has its
    new contents and no sector outside the block and the journal changed. *)

From stdpp Require Import base tactics numbers list gmap.
From S2P Require Import Prelude Alloc Block Journal JournalReplay JournalProofs JournalSpec.

Section Healthy.
Context {D M : Type} `{BlockDevice D} `{Kmalloc M}.
Context (start ts : Z) (Hg : geometry start ts).
Implicit Types (st : journal D M) (d : D).

Lemma booted_dev st d : booted start ts st -> booted start ts (set_jdev d st).
Proof. by destruct st. Qed.

Lemma txn_rep_dev st d L Lm : txn_rep start ts st L Lm -> txn_rep start ts (set_jdev d st) L Lm.
Proof. intros Ht. destruct Ht, st. by split. Qed.

Lemma journal_step st d i b : booted start ts st -> bd_healthy d -> 0 <= i < JOURNAL_DEFAULT_BLOCKS ->
  length b = 4096%nat ->
  exists d', journal_write_block i b (set_jdev d st) = Ok (0, set_jdev d' st) /\ bd_healthy d' /\
    forall s, ~ jsec start s -> bd_view d' s = bd_view d s.
Proof.
  intros Hb Hh Hi Hl.
  destruct (write_block_healthy start ts (set_jdev d st) i b Hg (booted_dev _ _ Hb) Hi Hl Hh) as (d' & E & Hh' & Hv).
  exists d'. split; [exact E|]. split; [done|]. intros s Hs. rewrite Hv. by rewrite put_outside.
Qed.

Lemma flush_step st d : bd_healthy d ->
  exists d', on_dev blk_flush (set_jdev d st) = Ok (0, set_jdev d' st) /\ bd_healthy d' /\
    forall s, bd_view d' s = bd_view d s.
Proof.
  intros Hh. destruct (bd_flush_spec d) as (rc & d' & E & _ & Hv & _ & _ & Hd). destruct (Hd Hh) as [-> Hd'].
  exists d'. split; [by rewrite (on_dev_ok _ (set_jdev d st) _ _ E)|]. done.
Qed.

Lemma txn_rep_sb st sb L Lm : sb_ok sb -> txn_rep start ts st L Lm -> txn_rep start ts (set_sb sb st) L Lm.
Proof. intros Hs Ht. destruct Ht, st. by split. Qed.

Lemma finish_write st d L Lm : txn_rep start ts st L Lm -> bd_healthy d ->
  exists st', finish_commit (g_txn st) (set_jdev d st) = Ok (Done 0, st') /\
    journal_idle start ts st' (released Lm (txn_bufs st)) /\ bd_healthy (jdev st') /\
    forall s, ~ jsec start s -> bd_view (jdev st') s = bd_view d s.
Proof.
  intros Ht Hh. pose proof (tr_booted _ _ _ _ _ Ht) as Hb. unfold finish_commit.
  destruct (journal_step st d 1 zero_block Hb Hh ltac:(done) length_zero_block) as (d1 & E1 & Hh1 & Hv1).
  change JOURNAL_SLOT_HDR with 1. rewrite (bind_ok _ _ _ _ _ E1), bind_modify, bind_gets.
  set (sb := if _ <? _ then _ else _). assert (exists sb', sb = set_jdev d1 (set_sb sb' st) /\ sb_ok sb') as (sb' & -> & Hsb).
  { pose proof (tr_sb _ _ _ _ _ Ht) as [? ? ? ?]. unfold sb. case_match.
    - eexists. split; [reflexivity|]. split; try done. apply u32_range.
    - exists (g_sb st). split; [by rewrite set_sb_id|]. by split. }
  pose proof (txn_rep_sb st sb' _ _ Hsb Ht) as Ht'.
  destruct (journal_step (set_sb sb' st) d1 0 (sb_bytes sb') (tr_booted _ _ _ _ _ Ht') Hh1 ltac:(done)) as (d2 & E2 & Hh2 & Hv2).
  { destruct Hsb. unfold sb_bytes. rewrite !length_app, !length_le32. lia. }
  change (g_sb (set_jdev d1 (set_sb sb' st))) with sb'. rewrite (bind_ok _ _ _ _ _ E2).
  destruct (abort_ok start ts (set_jdev d2 (set_sb sb' st)) L Lm (txn_rep_dev _ _ _ _ Ht')) as (st' & E3 & Ed & Hi).
  rewrite (bind_ok _ _ _ _ _ E3). eexists. split; [reflexivity|]. split; [exact Hi|]. rewrite Ed. split; [done|].
  intros s Hs. change (jdev (set_jdev d2 (set_sb sb' st))) with d2. by rewrite Hv2, Hv1.
Qed.

(** The two loops over the one block of the transaction. *)
Lemma txn_one st blk b Lm p : txn_rep start ts st [(blk, b)] Lm -> txn_bufs st = [p] ->
  num_blocks (g_txn st) = 1 /\ rd (target_blocks (g_txn st)) 0 = @ret (journal D M) Z blk /\
  rd (data_buffers (g_txn st)) 0 = @ret (journal D M) Z p /\ jbufs st !! p = Some b.
Proof.
  intros Ht Hp. pose proof (tr_num _ _ _ _ _ Ht) as Hn. simpl in Hn.
  destruct (tr_bufs _ _ _ _ _ Ht 0%nat _ eq_refl) as (q & Hq & Hb & _).
  unfold txn_bufs in Hp. rewrite Hn in Hp. pose proof (tr_targets _ _ _ _ _ Ht) as Htg. simpl in Htg.
  destruct (target_blocks (g_txn st)) as [|t0 tl]; [done|]. destruct (data_buffers (g_txn st)) as [|b0 bl]; [done|].
  simpl in Hq, Hp, Htg. simplify_eq. split_and!; try done.
Qed.

Lemma log_step st d blk b Lm p : txn_rep start ts st [(blk, b)] Lm -> txn_bufs st = [p] -> length b = 4096%nat ->
  bd_healthy d ->
  exists d', for_until 1 0 (log_data (g_txn st)) (set_jdev d st) = Ok (None, set_jdev d' st) /\ bd_healthy d' /\
    forall s, ~ jsec start s -> bd_view d' s = bd_view d s.
Proof.
  intros Ht Hp Hl Hh. destruct (txn_one _ _ _ _ _ Ht Hp) as (Hn & Et & Eb & Hbuf).
  destruct (journal_step st d 2 b (tr_booted _ _ _ _ _ Ht) Hh ltac:(done) Hl) as (d1 & E1 & Hd1).
  exists d1. split; [|exact Hd1]. cbn [for_until]. unfold log_data, load_jbuf. rewrite Eb.
  rewrite bind_assoc, bind_ret, !bind_assoc, bind_gets. unfold id. cbn [jbufs set_jdev]. rewrite Hbuf.
  rewrite bind_ret, bind_assoc. change (JOURNAL_SLOT_DATA0 + 0) with 2. by rewrite (bind_ok _ _ _ _ _ E1).
Qed.

Lemma apply_write st d blk b Lm p : txn_rep start ts st [(blk, b)] Lm -> txn_bufs st = [p] -> length b = 4096%nat ->
  bd_healthy d ->
  exists d', for_until 1 0 (apply_block (g_txn st)) (set_jdev d st) = Ok (None, set_jdev d' st) /\ bd_healthy d' /\
    forall s, bd_view d' s = put_block (blk * ts) ts b (bd_view d) s.
Proof.
  intros Ht Hp Hl Hh. destruct (txn_one _ _ _ _ _ Ht Hp) as (Hn & Et & Eb & Hbuf).
  destruct (tr_booted _ _ _ _ _ Ht) as (B1 & B2 & B3 & B4).
  destruct (write_healthy (set_jdev d st) (blk * ts) ts b) as (d' & E & Hd'); [destruct Hg as (_ & _ & ?); lia| |done|].
  { destruct Hg as (_ & _ & ?). rewrite Hl. lia. }
  exists d'. split; [|exact Hd']. cbn [for_until]. unfold apply_block, load_jbuf.
  rewrite bind_assoc, bind_gets. unfold id at 1. rewrite Et, Eb, bind_assoc, bind_ret, bind_assoc, bind_ret, !bind_assoc, bind_gets.
  unfold id. cbn [jbufs set_jdev]. rewrite Hbuf, bind_ret, bind_assoc.
  change (g_target_sectors (set_jdev d st)) with (g_target_sectors st). rewrite B3. by rewrite (bind_ok _ _ _ _ _ E).
Qed.

Lemma length_crc h : length (hdr_bytes (with_crc h)) = length (hdr_bytes h).
Proof. unfold hdr_bytes, with_crc, set_crc. rewrite !length_app. done. Qed.

Lemma length_one_header st blk b Lm : txn_rep start ts st [(blk, b)] Lm ->
  length (hdr_bytes (txn_header (g_txn st))) = 4096%nat.
Proof.
  intros Ht. unfold hdr_bytes, txn_header. rewrite (tr_num _ _ _ _ _ Ht). pose proof (tr_tlen _ _ _ _ _ Ht) as El.
  by destruct (target_blocks (g_txn st)).
Qed.

Lemma commit_step st d blk b Lm p : txn_rep start ts st [(blk, b)] Lm -> txn_bufs st = [p] ->
  log_ok start ts [(blk, b)] -> bd_healthy d ->
  exists st', journal_commit true (set_jdev d st) = Ok (Done 0, st') /\
    journal_idle start ts st' (released Lm [p]) /\ bd_healthy (jdev st') /\
    forall s, ~ jsec start s -> bd_view (jdev st') s = put_block (blk * ts) ts b (bd_view d) s.
Proof.
  intros Ht Hp HL Hh. destruct (txn_one _ _ _ _ _ Ht Hp) as (Hn & _).
  pose proof (tr_booted _ _ _ _ _ Ht) as Hb. assert (length b = 4096%nat) as Hlen by apply (proj1 (Forall_singleton _ _) (lo_data _ _ _ HL)).
  pose proof (length_one_header _ _ _ _ Ht) as Hhl.
  unfold journal_commit. rewrite bind_gets. unfold id. change (g_txn (set_jdev d st)) with (g_txn st). cbn [negb orb].
  rewrite (proj2 (Z.eqb_neq _ _) (tr_use _ _ _ _ _ Ht)), Hn. change (Z.to_nat 1) with 1%nat. change (JOURNAL_MAX_PER_TXN <? 1) with false. cbv iota zeta.
  destruct (log_step st d _ _ _ _ Ht Hp Hlen Hh) as (d1 & E1 & Hh1 & Hv1). rewrite (bind_ok _ _ _ _ _ E1). cbv iota.
  change JOURNAL_SLOT_HDR with 1.
  destruct (journal_step st d1 1 _ Hb Hh1 ltac:(done) (eq_trans (length_crc _) Hhl)) as (d2 & E2 & Hh2 & Hv2).
  rewrite (bind_ok _ _ _ _ _ E2). cbn [Z.ltb Z.compare].
  destruct (flush_step st d2 Hh2) as (d3 & E3 & Hh3 & Hv3). rewrite (bind_ok _ _ _ _ _ E3).
  destruct (journal_step st d3 1 (hdr_bytes (with_crc (set_committed 1 (txn_header (g_txn st))))) Hb Hh3 ltac:(done)) as (d4 & E4 & Hh4 & Hv4).
  { rewrite length_crc. exact Hhl. }
  rewrite (bind_ok _ _ _ _ _ E4). cbn [Z.ltb Z.compare].
  destruct (flush_step st d4 Hh4) as (d5 & E5 & Hh5 & Hv5). rewrite (bind_ok _ _ _ _ _ E5).
  destruct (apply_write st d5 _ _ _ _ Ht Hp Hlen Hh5) as (d6 & E6 & Hh6 & Hv6). rewrite (bind_ok _ _ _ _ _ E6). cbv iota.
  destruct (flush_step st d6 Hh6) as (d7 & E7 & Hh7 & Hv7). rewrite (bind_ok _ _ _ _ _ E7).
  destruct (finish_write st d7 _ _ Ht Hh7) as (st' & E8 & Hi & Hh8 & Hv8). exists st'. split; [exact E8|].
  rewrite Hp in Hi. split; [done|]. split; [done|]. intros s Hs. rewrite Hv8, Hv7, Hv6 by done.
  unfold put_block. case_decide; [done|]. by rewrite Hv5, Hv4, Hv3, Hv2, Hv1.
Qed.

Lemma journaled_write_healthy st Lm blk b : journal_idle start ts st Lm -> log_ok start ts [(blk, b)] ->
  bd_healthy (jdev st) ->
  exists rc st', journaled_write true blk (Some b) st = Ok (Done rc, st') /\ journal_idle start ts st' Lm /\
    bd_healthy (jdev st') /\
    ((rc = - ENOMEM /\ jdev st' = jdev st) \/
     (rc = 0 /\ forall s, ~ jsec start s -> bd_view (jdev st') s = put_block (blk * ts) ts b (bd_view (jdev st)) s)).
Proof.
  intros Hi HL Hh. unfold journaled_write. cbn [negb].
  destruct (begin_ok _ _ _ _ Hi) as (st1 & E1 & Ed1 & Ht1). rewrite (bind_ok _ _ _ _ _ E1). cbn [negb].
  assert (length b = 4096%nat) as Hb by apply (proj1 (Forall_singleton _ _) (lo_data _ _ _ HL)).
  destruct (log_block_ok _ _ _ _ _ blk b Ht1 ltac:(simpl; lia) Hb) as (rc & st2 & E2 & Ed2 & Hlog).
  rewrite (bind_ok _ _ _ _ _ E2).
  assert (txn_bufs st1 = []) as Hb0 by (unfold txn_bufs; by rewrite (tr_num _ _ _ _ _ Ht1)).
  destruct Hlog as [(-> & Ht2 & Eb)|(-> & p & Hp & Ht2 & Eb)]; rewrite Hb0 in Eb.
  - change (- ENOMEM <? 0) with true. cbv iota. destruct (abort_ok _ _ _ _ _ Ht2) as (st3 & E3 & Ed3 & Hi3).
    rewrite (bind_ok _ _ _ _ _ E3). eexists _, _. split; [reflexivity|]. rewrite Eb in Hi3. split; [exact Hi3|].
    rewrite Ed3, Ed2, Ed1. split; [done|by left].
  - rewrite Z.ltb_irrefl. cbn [app] in Ht2, Eb. rewrite <- (set_jdev_id st2).
    destruct (commit_step st2 (jdev st2) blk b _ p Ht2 Eb HL) as (st' & E & Hi' & Hh' & Hv); [by rewrite Ed2, Ed1|].
    rewrite released_one in Hi' by done. exists 0, st'. split; [exact E|]. split; [done|]. split; [done|]. right.
    split; [done|]. intros s Hs. by rewrite Hv, Ed2, Ed1.
Qed.

End Healthy.
