(* ===== verification/Ext2Disk.v ===== *)
(** * The structures of ext2 on the disk

    Models fs/ext2_ondisk.h: the packed structures of the superblock, of a group
    descriptor and of an inode as records, with the functions that take them
    from bytes and put them back, and the setters of the fields the driver
    changes.  All integers are little-endian. *)

From stdpp Require Import base tactics numbers list.
From S2P Require Import Prelude Block.

Definition EXT2_MAGIC := 0xEF53.
Definition EXT2_NDIR_BLOCKS := 12.
Definition EXT2_IND_BLOCK := 12.
Definition EXT2_DIND_BLOCK := 13.
Definition EXT2_S_IFMT := 0xF000.
Definition EXT2_S_IFREG := 0x8000.
Definition EXT2_S_IFDIR := 0x4000.

Definition le16 (x : Z) : list Z := [u8 x; u8 (Z.shiftr x 8)].
Definition get16 (b : list Z) (off : Z) : Z := nthZ b off + 256 * nthZ b (off + 1).

(** ** The superblock *)

Record ext2_superblock := Ext2Superblock {
  s_inodes_count : Z;
  s_blocks_count : Z;
  s_r_blocks_count : Z;
  s_free_blocks_count : Z;
  s_free_inodes_count : Z;
  s_first_data_block : Z;
  s_log_block_size : Z;
  s_log_frag_size : Z;
  s_blocks_per_group : Z;
  s_frags_per_group : Z;
  s_inodes_per_group : Z;
  s_mtime : Z;
  s_wtime : Z;
  s_mnt_count : Z;
  s_max_mnt_count : Z;
  s_magic : Z;
  s_state : Z;
  s_errors : Z;
  s_minor_rev_level : Z;
  s_lastcheck : Z;
  s_checkinterval : Z;
  s_creator_os : Z;
  s_rev_level : Z;
  s_def_resuid : Z;
  s_def_resgid : Z;
  s_first_ino : Z;
  s_inode_size : Z;
  s_block_group_nr : Z;
  s_feature_compat : Z;
  s_feature_incompat : Z;
  s_feature_ro_compat : Z;
  s_uuid : list Z;
  s_volume_name : list Z;
  s_pad : list Z
}.

Definition ext2_sb_of (b : list Z) : ext2_superblock :=
  Ext2Superblock
    (get32 b 0) (get32 b 4) (get32 b 8) (get32 b 12) (get32 b 16) (get32 b 20) (get32 b 24) (get32 b 28)
    (get32 b 32) (get32 b 36) (get32 b 40) (get32 b 44) (get32 b 48) (get16 b 52) (get16 b 54)
    (get16 b 56) (get16 b 58) (get16 b 60) (get16 b 62) (get32 b 64) (get32 b 68) (get32 b 72)
    (get32 b 76) (get16 b 80) (get16 b 82) (get32 b 84) (get16 b 88) (get16 b 90) (get32 b 92)
    (get32 b 96) (get32 b 100) (take 16 (drop 104 b)) (take 16 (drop 120 b)) (take 840 (drop 136 b)).

Definition ext2_sb_bytes (sb : ext2_superblock) : list Z :=
  le32 (s_inodes_count sb) ++ le32 (s_blocks_count sb) ++ le32 (s_r_blocks_count sb) ++
  le32 (s_free_blocks_count sb) ++ le32 (s_free_inodes_count sb) ++ le32 (s_first_data_block sb) ++
  le32 (s_log_block_size sb) ++ le32 (s_log_frag_size sb) ++ le32 (s_blocks_per_group sb) ++
  le32 (s_frags_per_group sb) ++ le32 (s_inodes_per_group sb) ++ le32 (s_mtime sb) ++
  le32 (s_wtime sb) ++ le16 (s_mnt_count sb) ++ le16 (s_max_mnt_count sb) ++ le16 (s_magic sb) ++
  le16 (s_state sb) ++ le16 (s_errors sb) ++ le16 (s_minor_rev_level sb) ++ le32 (s_lastcheck sb) ++
  le32 (s_checkinterval sb) ++ le32 (s_creator_os sb) ++ le32 (s_rev_level sb) ++
  le16 (s_def_resuid sb) ++ le16 (s_def_resgid sb) ++ le32 (s_first_ino sb) ++ le16 (s_inode_size sb) ++
  le16 (s_block_group_nr sb) ++ le32 (s_feature_compat sb) ++ le32 (s_feature_incompat sb) ++
  le32 (s_feature_ro_compat sb) ++ s_uuid sb ++ s_volume_name sb ++ s_pad sb.

(** ** Group descriptors *)

Record ext2_group_desc := GroupDesc {
  bg_block_bitmap : Z;
  bg_inode_bitmap : Z;
  bg_inode_table : Z;
  bg_free_blocks_count : Z;
  bg_free_inodes_count : Z;
  bg_used_dirs_count : Z;
  bg_pad : Z;
  bg_reserved : list Z
}.

Definition gd_of (b : list Z) : ext2_group_desc :=
  GroupDesc
    (get32 b 0) (get32 b 4) (get32 b 8) (get16 b 12) (get16 b 14) (get16 b 16) (get16 b 18)
    (take 12 (drop 20 b)).

Definition gd_bytes (d : ext2_group_desc) : list Z :=
  le32 (bg_block_bitmap d) ++ le32 (bg_inode_bitmap d) ++ le32 (bg_inode_table d) ++
  le16 (bg_free_blocks_count d) ++ le16 (bg_free_inodes_count d) ++ le16 (bg_used_dirs_count d) ++
  le16 (bg_pad d) ++ bg_reserved d.

(** ** Inodes *)

Record ext2_inode := Inode {
  i_mode : Z;
  i_uid : Z;
  i_size : Z;
  i_atime : Z;
  i_ctime : Z;
  i_mtime : Z;
  i_dtime : Z;
  i_gid : Z;
  i_links_count : Z;
  i_blocks : Z;
  i_flags : Z;
  i_osd1 : Z;
  i_block : list Z;
  i_generation : Z;
  i_file_acl : Z;
  i_dir_acl : Z;
  i_faddr : Z;
  i_osd2 : list Z
}.

Definition inode_of (b : list Z) : ext2_inode :=
  Inode
    (get16 b 0) (get16 b 2) (get32 b 4) (get32 b 8) (get32 b 12) (get32 b 16) (get32 b 20) (get16 b 24)
    (get16 b 26) (get32 b 28) (get32 b 32) (get32 b 36) ((fun i => get32 b (40 + 4 * i)) <$> seqZ 0 15)
    (get32 b 100) (get32 b 104) (get32 b 108) (get32 b 112) (take 12 (drop 116 b)).

Definition inode_bytes (n : ext2_inode) : list Z :=
  le16 (i_mode n) ++ le16 (i_uid n) ++ le32 (i_size n) ++ le32 (i_atime n) ++ le32 (i_ctime n) ++
  le32 (i_mtime n) ++ le32 (i_dtime n) ++ le16 (i_gid n) ++ le16 (i_links_count n) ++
  le32 (i_blocks n) ++ le32 (i_flags n) ++ le32 (i_osd1 n) ++ concat (le32 <$> i_block n) ++
  le32 (i_generation n) ++ le32 (i_file_acl n) ++ le32 (i_dir_acl n) ++ le32 (i_faddr n) ++ i_osd2 n.

(** ** Setters *)

Definition eta_esb (sb : ext2_superblock) : ext2_superblock :=
  Ext2Superblock (s_inodes_count sb) (s_blocks_count sb) (s_r_blocks_count sb) (s_free_blocks_count sb)
    (s_free_inodes_count sb) (s_first_data_block sb) (s_log_block_size sb) (s_log_frag_size sb)
    (s_blocks_per_group sb) (s_frags_per_group sb) (s_inodes_per_group sb) (s_mtime sb) (s_wtime sb)
    (s_mnt_count sb) (s_max_mnt_count sb) (s_magic sb) (s_state sb) (s_errors sb) (s_minor_rev_level sb)
    (s_lastcheck sb) (s_checkinterval sb) (s_creator_os sb) (s_rev_level sb) (s_def_resuid sb)
    (s_def_resgid sb) (s_first_ino sb) (s_inode_size sb) (s_block_group_nr sb) (s_feature_compat sb)
    (s_feature_incompat sb) (s_feature_ro_compat sb) (s_uuid sb) (s_volume_name sb) (s_pad sb).

Definition set_free_blocks : Z -> ext2_superblock -> ext2_superblock := ltac:(mkset eta_esb s_free_blocks_count).
Definition set_free_inodes : Z -> ext2_superblock -> ext2_superblock := ltac:(mkset eta_esb s_free_inodes_count).

Definition eta_gd (d : ext2_group_desc) : ext2_group_desc :=
  GroupDesc (bg_block_bitmap d) (bg_inode_bitmap d) (bg_inode_table d) (bg_free_blocks_count d)
    (bg_free_inodes_count d) (bg_used_dirs_count d) (bg_pad d) (bg_reserved d).

Definition set_bg_free_blocks : Z -> ext2_group_desc -> ext2_group_desc := ltac:(mkset eta_gd bg_free_blocks_count).
Definition set_bg_free_inodes : Z -> ext2_group_desc -> ext2_group_desc := ltac:(mkset eta_gd bg_free_inodes_count).
Definition set_bg_used_dirs : Z -> ext2_group_desc -> ext2_group_desc := ltac:(mkset eta_gd bg_used_dirs_count).

Definition eta_inode (n : ext2_inode) : ext2_inode :=
  Inode (i_mode n) (i_uid n) (i_size n) (i_atime n) (i_ctime n) (i_mtime n) (i_dtime n) (i_gid n)
    (i_links_count n) (i_blocks n) (i_flags n) (i_osd1 n) (i_block n) (i_generation n) (i_file_acl n)
    (i_dir_acl n) (i_faddr n) (i_osd2 n).

Definition set_i_mode : Z -> ext2_inode -> ext2_inode := ltac:(mkset eta_inode i_mode).
Definition set_i_size : Z -> ext2_inode -> ext2_inode := ltac:(mkset eta_inode i_size).
Definition set_i_atime : Z -> ext2_inode -> ext2_inode := ltac:(mkset eta_inode i_atime).
Definition set_i_ctime : Z -> ext2_inode -> ext2_inode := ltac:(mkset eta_inode i_ctime).
Definition set_i_mtime : Z -> ext2_inode -> ext2_inode := ltac:(mkset eta_inode i_mtime).
Definition set_i_links_count : Z -> ext2_inode -> ext2_inode := ltac:(mkset eta_inode i_links_count).
Definition set_i_blocks : Z -> ext2_inode -> ext2_inode := ltac:(mkset eta_inode i_blocks).
Definition set_i_block : list Z -> ext2_inode -> ext2_inode := ltac:(mkset eta_inode i_block).

(** ** From bytes and back *)

Lemma le16_get x : is_u16 x -> u8 x + 256 * u8 (Z.shiftr x 8) = x.
Proof.
  intros Hx. assert (is_u32 x) as Hx' by (unfold is_u16, is_u32 in *; lia).
  rewrite <- (le32_get x Hx') at 3. unfold is_u16, u8 in *. rewrite !Z.shiftr_div_pow2 by lia.
  rewrite (Z.div_small x (2 ^ 16)), (Z.div_small x (2 ^ 24)) by lia. rewrite Z.mod_0_l by lia. lia.
Qed.

Record inode_wf (n : ext2_inode) : Prop := {
  iw_mode : is_u16 (i_mode n);
  iw_uid : is_u16 (i_uid n);
  iw_size : is_u32 (i_size n);
  iw_atime : is_u32 (i_atime n);
  iw_ctime : is_u32 (i_ctime n);
  iw_mtime : is_u32 (i_mtime n);
  iw_dtime : is_u32 (i_dtime n);
  iw_gid : is_u16 (i_gid n);
  iw_links : is_u16 (i_links_count n);
  iw_blocks : is_u32 (i_blocks n);
  iw_flags : is_u32 (i_flags n);
  iw_osd1 : is_u32 (i_osd1 n);
  iw_block : length (i_block n) = 15%nat /\ Forall is_u32 (i_block n);
  iw_generation : is_u32 (i_generation n);
  iw_file_acl : is_u32 (i_file_acl n);
  iw_dir_acl : is_u32 (i_dir_acl n);
  iw_faddr : is_u32 (i_faddr n);
  iw_osd2 : length (i_osd2 n) = 12%nat
}.

Lemma length_inode_bytes n : inode_wf n -> length (inode_bytes n) = 128%nat.
Proof.
  intros Hn. unfold inode_bytes. rewrite !length_app, (iw_osd2 _ Hn).
  destruct (i_block n) as [|? [|? [|? [|? [|? [|? [|? [|? [|? [|? [|? [|? [|? [|? [|? [|]]]]]]]]]]]]]]]] eqn:E;
    by destruct (iw_block _ Hn) as [Hl _]; rewrite E in Hl.
Qed.

(** An inode read from the bytes it was written as is the same. *)
Lemma inode_of_bytes n r : inode_wf n -> inode_of (inode_bytes n ++ r) = n.
Proof.
  intros Hn. destruct Hn as [? ? ? ? ? ? ? ? ? ? ? ? [Hl Hb] ? ? ? ? Ho]. destruct n as [a b c d e f g h i j k l bl m o p q os]. cbn in *.
  destruct bl as [|b0 [|b1 [|b2 [|b3 [|b4 [|b5 [|b6 [|b7 [|b8 [|b9 [|b10 [|b11 [|b12 [|b13 [|b14 [|]]]]]]]]]]]]]]]]; try done.
  rewrite !Forall_cons in Hb. destruct_and!.
  unfold inode_of, inode_bytes, get16, get32, le16, le32, nthZ. cbn -[u8 Z.mul Z.add Z.shiftr take].
  f_equal; try (by apply le16_get); try (by apply le32_get).
  - do 15 (apply (f_equal2 (@cons Z)); [by apply le32_get|]). done.
  - do 12 (destruct os as [|? os]; [done|]). destruct os; done.
Qed.
