(* ===== verification/Ext2.v ===== *)
(** * The ext2 driver

    Models fs/ext2.c: a mounted file system is the static variables of the
    driver, the scratch block of the processor, the clock and the journal,
    whose device is the disk the driver reads.  Blocks are written through
    one-block transactions of the journal; the superblock is written directly.
    The inode that a function declares on its stack and does not initialise
    starts as the bytes [junk].  Output parameters are results; [true] stands
    for a pointer that is not NULL. *)

From stdpp Require Import base tactics numbers list gmap.
From S2P Require Import Prelude Kstring Alloc Timer FsOps Block Journal Ext2Disk.

Definition EXT2_MAX_GROUPS := 64.
Definition EXT2_FT_REG_FILE := 1.
Definition EXT2_FT_DIR := 2.

(** Accesses to the bytes of a buffer; unsigned division. *)
Definition ld16 {S} (b : list Z) (off : Z) : ST S Z := w ← copy_out b off 2; ret (get16 w 0).
Definition ld32 {S} (b : list Z) (off : Z) : ST S Z := w ← copy_out b off 4; ret (get32 w 0).

Definition udiv {S} (a b : Z) : ST S Z := if b =? 0 then fail Undef else ret (a / b).
Definition umod {S} (a b : Z) : ST S Z := if b =? 0 then fail Undef else ret (a mod b).

Section Ext2.
Context {D M : Type} `{BlockOps D} `{Kmalloc M}.
Context (junk : list Z).

Record ext2 := Ext2 {
  e_bd : bool;
  e_sb : ext2_superblock;
  g_gdt : list ext2_group_desc;
  g_block_size : Z;
  g_inode_size : Z;
  g_blocks_per_group : Z;
  g_inodes_per_group : Z;
  g_groups : Z;
  g_sectors_per_blk : Z;
  g_dirty_sb : Z;
  g_dirty_gdt : Z;
  g_write_window_open : Z;
  g_block_buf : list Z;
  e_timer : timer;
  e_journal : journal D M
}.

Definition eta_e (s : ext2) : ext2 :=
  Ext2 (e_bd s) (e_sb s) (g_gdt s) (g_block_size s) (g_inode_size s) (g_blocks_per_group s)
    (g_inodes_per_group s) (g_groups s) (g_sectors_per_blk s) (g_dirty_sb s) (g_dirty_gdt s)
    (g_write_window_open s) (g_block_buf s) (e_timer s) (e_journal s).

Definition set_ebd : bool -> ext2 -> ext2 := ltac:(mkset eta_e e_bd).
Definition set_esb : ext2_superblock -> ext2 -> ext2 := ltac:(mkset eta_e e_sb).
Definition set_gdt : list ext2_group_desc -> ext2 -> ext2 := ltac:(mkset eta_e g_gdt).
Definition set_block_size : Z -> ext2 -> ext2 := ltac:(mkset eta_e g_block_size).
Definition set_inode_size : Z -> ext2 -> ext2 := ltac:(mkset eta_e g_inode_size).
Definition set_bpg : Z -> ext2 -> ext2 := ltac:(mkset eta_e g_blocks_per_group).
Definition set_ipg : Z -> ext2 -> ext2 := ltac:(mkset eta_e g_inodes_per_group).
Definition set_groups : Z -> ext2 -> ext2 := ltac:(mkset eta_e g_groups).
Definition set_sectors : Z -> ext2 -> ext2 := ltac:(mkset eta_e g_sectors_per_blk).
Definition set_dirty_sb : Z -> ext2 -> ext2 := ltac:(mkset eta_e g_dirty_sb).
Definition set_dirty_gdt : Z -> ext2 -> ext2 := ltac:(mkset eta_e g_dirty_gdt).
Definition set_window : Z -> ext2 -> ext2 := ltac:(mkset eta_e g_write_window_open).
Definition set_block_buf : list Z -> ext2 -> ext2 := ltac:(mkset eta_e g_block_buf).
Definition set_timer : timer -> ext2 -> ext2 := ltac:(mkset eta_e e_timer).
Definition set_journal : journal D M -> ext2 -> ext2 := ltac:(mkset eta_e e_journal).

Definition on_disk {A} (m : ST D A) : ST ext2 A := zoom e_journal set_journal (on_dev m).

Definition ext2_is_mounted : ST ext2 bool := gets e_bd.

(** ** Blocks *)

(** Every block is read into the scratch block. *)
Definition read_block (blk : Z) : ST ext2 Z :=
  s ← gets id;
  '(rc, data) ← on_disk (blk_read (blk * g_sectors_per_blk s) (g_sectors_per_blk s));
  b ← copy_in (g_block_buf s) 0 data;
  modify (set_block_buf b);;
  ret rc.

(** [journaled_write] of the scratch block. *)
Definition write_block (blk : Z) : ST ext2 Z :=
  s ← gets id;
  r ← zoom e_journal set_journal
        (journaled_write (e_bd s && negb (g_write_window_open s =? 0)) blk (Some (g_block_buf s)));
  match r with
  | Done rc => ret rc
  | Panicked => fail Panic
  end.

Definition now : ST ext2 Z := zoom e_timer set_timer time_now_epoch_secs.

Definition gd (group : Z) : ST ext2 ext2_group_desc := s ← gets id; rd (g_gdt s) group.

Definition upd_gd (group : Z) (f : ext2_group_desc -> ext2_group_desc) : ST ext2 unit :=
  d ← gd group;
  s ← gets id;
  l ← wr (g_gdt s) group (f d);
  modify (set_gdt l).

Definition upd_sb (f : ext2_superblock -> ext2_superblock) : ST ext2 unit :=
  modify (fun s => set_esb (f (e_sb s)) s).

(** The bit of a bitmap in the scratch block. *)
Definition bit_mask (bit : Z) : Z := u8 (Z.shiftl 1 (Z.land bit 7)).

Definition test_bit (bit : Z) : ST ext2 bool :=
  s ← gets id;
  byte ← rd (g_block_buf s) (Z.shiftr bit 3);
  ret (negb (Z.land byte (bit_mask bit) =? 0)).

Definition set_bit (bit : Z) : ST ext2 unit :=
  s ← gets id;
  byte ← rd (g_block_buf s) (Z.shiftr bit 3);
  b ← wr (g_block_buf s) (Z.shiftr bit 3) (Z.lor byte (bit_mask bit));
  modify (set_block_buf b).

Definition clear_bit (bit : Z) : ST ext2 unit :=
  s ← gets id;
  byte ← rd (g_block_buf s) (Z.shiftr bit 3);
  b ← wr (g_block_buf s) (Z.shiftr bit 3) (Z.land byte (u8 (Z.lnot (bit_mask bit))));
  modify (set_block_buf b).

(** [for (i = 0; i < g_block_size; i++) g_block_buf[i] = 0]. *)
Definition zero_buf : ST ext2 unit :=
  s ← gets id;
  b ← copy_in (g_block_buf s) 0 (replicate (Z.to_nat (g_block_size s)) 0);
  modify (set_block_buf b).

(** ** Writing back the superblock and the descriptors *)

(** The loop over the blocks of the descriptors: [src] is the offset in the
    table and [gdt_bytes] what is left of it. *)
Fixpoint sync_gdt (n : nat) (gdt_block i src gdt_bytes : Z) : ST ext2 unit :=
  match n with
  | O => ret tt
  | S n' =>
      zero_buf;;
      s ← gets id;
      let copy := if g_block_size s <? gdt_bytes then g_block_size s else gdt_bytes in
      bytes ← copy_out (concat (gd_bytes <$> g_gdt s)) src copy;
      b ← copy_in (g_block_buf s) 0 bytes;
      modify (set_block_buf b);;
      write_block (u32 (gdt_block + i));;
      sync_gdt n' gdt_block (i + 1) (src + copy) (u32 (gdt_bytes - copy))
  end.

Definition ext2_sync_locked : ST ext2 unit :=
  s ← gets id;
  if negb (e_bd s) then ret tt
  else
    (if negb (g_dirty_sb s =? 0) then
       on_disk (blk_write 2 2 (ext2_sb_bytes (e_sb s) ++ replicate 48 0));;
       modify (set_dirty_sb 0)
     else ret tt);;
    if negb (g_dirty_gdt s =? 0) then
      let gdt_block := if g_block_size s =? 1024 then 2 else 1 in
      let gdt_bytes := u32 (g_groups s * 32) in
      nblocks ← udiv (u32 (u32 (gdt_bytes + g_block_size s) - 1)) (g_block_size s);
      sync_gdt (Z.to_nat nblocks) gdt_block 0 0 gdt_bytes;;
      modify (set_dirty_gdt 0)
    else ret tt.

(** ** Reservation of the journal's blocks *)

(** One iteration: 1 when the block was reserved. *)
Definition reserve_one (blk : Z) : ST ext2 Z :=
  s ← gets id;
  if blk <? s_first_data_block (e_sb s) then ret 0
  else
    let rel := blk - s_first_data_block (e_sb s) in
    group ← udiv rel (g_blocks_per_group s);
    bit ← umod rel (g_blocks_per_group s);
    if g_groups s <=? group then ret 0
    else
      d ← gd group;
      rc ← read_block (bg_block_bitmap d);
      if negb (rc =? 0) then ret 0
      else
        used ← test_bit bit;
        if (used : bool) then ret 0
        else
          set_bit bit;;
          rc ← write_block (bg_block_bitmap d);
          if negb (rc =? 0) then ret 0
          else
            upd_gd group (fun d => set_bg_free_blocks (u16 (bg_free_blocks_count d - 1)) d);;
            upd_sb (fun sb => set_free_blocks (u32 (s_free_blocks_count sb - 1)) sb);;
            modify (set_dirty_gdt 1);;
            modify (set_dirty_sb 1);;
            ret 1.

Fixpoint reserve_loop (n : nat) (start i reserved : Z) : ST ext2 Z :=
  match n with
  | O => ret reserved
  | S n' =>
      r ← reserve_one (u32 (start + i));
      reserve_loop n' start (i + 1) (reserved + r)
  end.

Definition ext2_reserve_blocks (start count : Z) : ST ext2 Z :=
  s ← gets id;
  if negb (e_bd s) then ret 0
  else
    reserved ← reserve_loop (Z.to_nat count) start 0 0;
    (if 0 <? reserved then ext2_sync_locked else ret tt);;
    ret reserved.

(** ** Mounting *)

(** A shift by 32 or more is undefined, and so is a division by zero. *)
Definition recompute_geometry : ST ext2 unit :=
  s ← gets id;
  let sb := e_sb s in
  if 32 <=? s_log_block_size sb then fail Undef
  else
    let bs := u32 (Z.shiftl 1024 (s_log_block_size sb)) in
    modify (set_block_size bs);;
    modify (set_inode_size (if 1 <=? s_rev_level sb then s_inode_size sb else 128));;
    modify (set_bpg (s_blocks_per_group sb));;
    modify (set_ipg (s_inodes_per_group sb));;
    modify (set_sectors (bs / 512));;
    groups ← udiv (u32 (u32 (s_blocks_count sb + s_blocks_per_group sb) - 1)) (s_blocks_per_group sb);
    modify (set_groups groups).

(** [kmemcpy] of whole descriptors to the byte offset [dst] of the table. *)
Fixpoint gds_of (n : nat) (b : list Z) : list ext2_group_desc :=
  match n with
  | O => []
  | S n' => gd_of b :: gds_of n' (drop 32 b)
  end.

Definition load_gds (dst : Z) (b : list Z) : ST ext2 unit :=
  s ← gets id;
  let n := (length b / 32)%nat in
  let at_ := Z.to_nat (dst / 32) in
  if (at_ + n <=? length (g_gdt s))%nat
  then modify (set_gdt (take at_ (g_gdt s) ++ gds_of n b ++ drop (at_ + n) (g_gdt s)))
  else fail Undef.

Fixpoint mount_gdt (n : nat) (gdt_block i dst remaining : Z) : ST ext2 (option Z) :=
  match n with
  | O => ret None
  | S n' =>
      rc ← read_block (u32 (u32 (gdt_block + 1) + i));
      if negb (rc =? 0) then modify (set_ebd false);; ret (Some (- EIO))
      else
        s ← gets id;
        let copy := if g_block_size s <? remaining then g_block_size s else remaining in
        b ← copy_out (g_block_buf s) 0 copy;
        load_gds dst b;;
        mount_gdt n' gdt_block (i + 1) (dst + copy) (u32 (remaining - copy))
  end.

Definition mount_fail (rc : Z) : ST ext2 Z := modify (set_ebd false);; ret rc.

Definition ext2_mount (bd : bool) : ST ext2 Z :=
  if negb bd then ret (- EINVAL)
  else
    modify (set_ebd true);;
    '(rc, sb_buf) ← on_disk (blk_read 2 2);
    if negb (rc =? 0) then mount_fail (- EIO)
    else
      b ← copy_out sb_buf 0 976;
      modify (set_esb (ext2_sb_of b));;
      if negb (s_magic (ext2_sb_of b) =? EXT2_MAGIC) then mount_fail (- EINVAL)
      else
        recompute_geometry;;
        s ← gets id;
        if 4096 <? g_block_size s then mount_fail (- EINVAL)
        else if EXT2_MAX_GROUPS <? g_groups s then mount_fail (- EINVAL)
        else
          let gdt_block := if g_block_size s =? 1024 then 2 else 1 in
          rc ← read_block gdt_block;
          if negb (rc =? 0) then mount_fail (- EIO)
          else
            s ← gets id;
            let gdt_bytes := u32 (g_groups s * 32) in
            r ← (if g_block_size s <? gdt_bytes then
                   b ← copy_out (g_block_buf s) 0 (g_block_size s);
                   load_gds 0 b;;
                   let remaining := gdt_bytes - g_block_size s in
                   nblocks ← udiv (u32 (u32 (remaining + g_block_size s) - 1)) (g_block_size s);
                   mount_gdt (Z.to_nat nblocks) gdt_block 0 (g_block_size s) remaining
                 else
                   b ← copy_out (g_block_buf s) 0 gdt_bytes;
                   load_gds 0 b;;
                   ret None);
            match r with
            | Some rc => ret rc
            | None =>
                zoom e_journal set_journal (journal_set_target_sectors (g_sectors_per_blk s));;
                modify (set_window 1);;
                ret 0
            end.

(** ** Inodes *)

(** The block of the inode table that holds an inode, and where in it. *)
Definition locate_inode (ino : Z) : ST ext2 (option (Z * Z)) :=
  s ← gets id;
  group ← udiv (u32 (ino - 1)) (g_inodes_per_group s);
  index ← umod (u32 (ino - 1)) (g_inodes_per_group s);
  if g_groups s <=? group then ret None
  else
    let off := u32 (index * g_inode_size s) in
    inblock ← udiv off (g_block_size s);
    inoff ← umod off (g_block_size s);
    d ← gd group;
    ret (Some (u32 (bg_inode_table d + inblock), inoff)).

Definition inode_copy (s : ext2) : Z := if 128 <? g_inode_size s then 128 else g_inode_size s.

Definition read_inode (ino : Z) : ST ext2 (Z * ext2_inode) :=
  s ← gets id;
  if (ino =? 0) || (s_inodes_count (e_sb s) <? ino) then ret (- ENOENT, inode_of junk)
  else
    l ← locate_inode ino;
    match l with
    | None => ret (- EIO, inode_of junk)
    | Some (blk, inoff) =>
        rc ← read_block blk;
        if negb (rc =? 0) then ret (- EIO, inode_of junk)
        else
          s ← gets id;
          b ← copy_out (g_block_buf s) inoff (inode_copy s);
          ret (0, inode_of (b ++ drop (length b) junk))
    end.

Definition write_inode_locked (ino : Z) (n : ext2_inode) : ST ext2 Z :=
  s ← gets id;
  if (ino =? 0) || (s_inodes_count (e_sb s) <? ino) then ret (- EINVAL)
  else
    l ← locate_inode ino;
    match l with
    | None => ret (- EIO)
    | Some (blk, inoff) =>
        rc ← read_block blk;
        if negb (rc =? 0) then ret (- EIO)
        else
          s ← gets id;
          b ← copy_in (g_block_buf s) inoff (take (Z.to_nat (inode_copy s)) (inode_bytes n));
          modify (set_block_buf b);;
          write_block blk
    end.

(** Loads the word at index [i] of a block of block numbers. *)
Definition load_ptr (blk i : Z) : ST ext2 Z :=
  rc ← read_block blk;
  if negb (rc =? 0) then ret 0
  else s ← gets id; ld32 (g_block_buf s) (i * 4).

Definition inode_block_phys (n : ext2_inode) (logical : Z) : ST ext2 Z :=
  s ← gets id;
  let ptrs_per_block := g_block_size s / 4 in
  if logical <? EXT2_NDIR_BLOCKS then rd (i_block n) logical
  else
    let logical := logical - EXT2_NDIR_BLOCKS in
    if logical <? ptrs_per_block then
      indir ← rd (i_block n) EXT2_IND_BLOCK;
      if indir =? 0 then ret 0 else load_ptr indir logical
    else
      let logical := logical - ptrs_per_block in
      if logical <? u32 (ptrs_per_block * ptrs_per_block) then
        l1 ← udiv logical ptrs_per_block;
        l2 ← umod logical ptrs_per_block;
        dind ← rd (i_block n) EXT2_DIND_BLOCK;
        if dind =? 0 then ret 0
        else
          mid ← load_ptr dind l1;
          if mid =? 0 then ret 0 else load_ptr mid l2
      else ret 0.

(** ** Reading a file *)

(** The loop of [read_inode_data]; [out] are the bytes stored so far.  Every
    iteration reads at least one byte. *)
Fixpoint read_loop (fuel : nat) (n : ext2_inode) (offset to_read got : Z) (out : list Z)
    : ST ext2 (Z * list Z) :=
  if got <? to_read then
    match fuel with
    | O => fail NoFuel
    | S fuel' =>
        s ← gets id;
        let pos := u32 (offset + got) in
        logical ← udiv pos (g_block_size s);
        inoff ← umod pos (g_block_size s);
        let take_ := u32 (g_block_size s - inoff) in
        let take_ := if to_read - got <? take_ then to_read - got else take_ in
        phys ← inode_block_phys n logical;
        if phys =? 0 then
          read_loop fuel' n offset to_read (got + take_) (out ++ replicate (Z.to_nat take_) 0)
        else
          rc ← read_block phys;
          if negb (rc =? 0) then ret (- EIO, out)
          else
            s ← gets id;
            b ← copy_out (g_block_buf s) inoff take_;
            read_loop fuel' n offset to_read (got + take_) (out ++ b)
    end
  else ret (s32 got, out).

Definition read_inode_data (n : ext2_inode) (len offset : Z) : ST ext2 (Z * list Z) :=
  if i_size n <=? offset then ret (0, [])
  else
    let to_read := if i_size n <? u32 (offset + len) then i_size n - offset else len in
    read_loop (Z.to_nat to_read) n offset to_read 0 [].

Definition is_kind (kind : Z) (n : ext2_inode) : bool := Z.land (i_mode n) EXT2_S_IFMT =? kind.

(** Result and the bytes stored in the buffer. *)
Definition ext2_read_inode (ino len offset : Z) : ST ext2 (Z * list Z) :=
  s ← gets id;
  if negb (e_bd s) then ret (- EINVAL, [])
  else
    '(rc, n) ← read_inode ino;
    if negb (rc =? 0) then ret (- EIO, [])
    else if negb (is_kind EXT2_S_IFREG n) then ret (- EISDIR, [])
    else read_inode_data n len offset.

(** ** Allocation *)

(** What an allocator ends with: its result and the number it stored. *)
Definition alloc_block_bit (group : Z) (d : ext2_group_desc) (bit : Z) : ST ext2 (option (Z * Z)) :=
  used ← test_bit bit;
  if (used : bool) then ret None
  else
    set_bit bit;;
    rc ← write_block (bg_block_bitmap d);
    if negb (rc =? 0) then ret (Some (- EIO, 0))
    else
      upd_gd group (fun d => set_bg_free_blocks (u16 (bg_free_blocks_count d - 1)) d);;
      upd_sb (fun sb => set_free_blocks (u32 (s_free_blocks_count sb - 1)) sb);;
      modify (set_dirty_gdt 1);;
      modify (set_dirty_sb 1);;
      s ← gets id;
      ret (Some (0, u32 (u32 (s_first_data_block (e_sb s) + u32 (group * g_blocks_per_group s)) + bit))).

Definition alloc_block_in_group_locked (group : Z) : ST ext2 (Z * Z) :=
  d ← gd group;
  if bg_free_blocks_count d =? 0 then ret (- ENOSPC, 0)
  else
    rc ← read_block (bg_block_bitmap d);
    if negb (rc =? 0) then ret (- EIO, 0)
    else
      bpg ← gets g_blocks_per_group;
      r ← for_until (Z.to_nat bpg) 0 (alloc_block_bit group d);
      ret (default (- ENOSPC, 0) r).

Definition alloc_inode_bit (group : Z) (d : ext2_group_desc) (bit : Z) : ST ext2 (option (Z * Z)) :=
  used ← test_bit bit;
  if (used : bool) then ret None
  else
    s ← gets id;
    let ino := u32 (u32 (u32 (group * g_inodes_per_group s) + bit) + 1) in
    if (1 <=? s_rev_level (e_sb s)) && (ino <? s_first_ino (e_sb s)) then ret None
    else
      set_bit bit;;
      rc ← write_block (bg_inode_bitmap d);
      if negb (rc =? 0) then ret (Some (- EIO, 0))
      else
        upd_gd group (fun d => set_bg_free_inodes (u16 (bg_free_inodes_count d - 1)) d);;
        upd_sb (fun sb => set_free_inodes (u32 (s_free_inodes_count sb - 1)) sb);;
        modify (set_dirty_gdt 1);;
        modify (set_dirty_sb 1);;
        ret (Some (0, ino)).

Definition alloc_inode_in_group_locked (group : Z) : ST ext2 (Z * Z) :=
  d ← gd group;
  if bg_free_inodes_count d =? 0 then ret (- ENOSPC, 0)
  else
    rc ← read_block (bg_inode_bitmap d);
    if negb (rc =? 0) then ret (- EIO, 0)
    else
      ipg ← gets g_inodes_per_group;
      r ← for_until (Z.to_nat ipg) 0 (alloc_inode_bit group d);
      ret (default (- ENOSPC, 0) r).

(** The loop over the groups that stops at a success and at [-EIO]. *)
Fixpoint alloc_groups (alloc : Z -> ST ext2 (Z * Z)) (n : nat) (g : Z) (last : Z * Z) : ST ext2 (Z * Z) :=
  match n with
  | O => ret last
  | S n' =>
      '(rc, x) ← alloc g;
      if (rc =? 0) || (rc =? - EIO) then ret (rc, x) else alloc_groups alloc n' (g + 1) (rc, x)
  end.

Definition ext2_alloc_inode (mode : Z) : ST ext2 (Z * Z) :=
  s ← gets id;
  if negb (e_bd s) then ret (- EINVAL, 0)
  else
    '(rc, ino) ← alloc_groups alloc_inode_in_group_locked (Z.to_nat (g_groups s)) 0 (- ENOSPC, 0);
    if negb (rc =? 0) then ret (rc, 0)
    else
      t ← now;
      let fresh := Inode mode 0 0 t t t 0 0 1 0 0 0 (replicate 15 0) 0 0 0 0 (replicate 12 0) in
      rc ← write_inode_locked ino fresh;
      if negb (rc =? 0) then ret (rc, 0)
      else
        (if Z.land mode EXT2_S_IFMT =? EXT2_S_IFDIR then
           ipg ← gets g_inodes_per_group;
           group ← udiv (u32 (ino - 1)) ipg;
           upd_gd group (fun d => set_bg_used_dirs (u16 (bg_used_dirs_count d + 1)) d);;
           modify (set_dirty_gdt 1)
         else ret tt);;
        ext2_sync_locked;;
        ret (0, ino).

(** ** Writing a file *)

Definition splice_and_journal_locked (phys inoff : Z) (src : list Z) (zero_first : bool) : ST ext2 Z :=
  rc ← (if zero_first then zero_buf;; ret 0 else read_block phys);
  if negb (rc =? 0) then ret (- EIO)
  else
    s ← gets id;
    b ← copy_in (g_block_buf s) inoff src;
    modify (set_block_buf b);;
    write_block phys.

(** The loop [for (g = 1; rc != 0 && g < g_groups; g++)]. *)
Fixpoint alloc_next (n : nat) (g : Z) (last : Z * Z) : ST ext2 (Z * Z) :=
  match n with
  | O => ret last
  | S n' =>
      if last.1 =? 0 then ret last
      else r ← alloc_block_in_group_locked g; alloc_next n' (g + 1) r
  end.

Definition alloc_any : ST ext2 (Z * Z) :=
  r ← alloc_block_in_group_locked 0;
  groups ← gets g_groups;
  alloc_next (Z.to_nat (groups - 1)) 1 r.

(** The body of the loop over the blocks, at the position [pos] with [left]
    bytes to go: the bytes written and the inode, or the error the call ends
    with. *)
Definition write_piece (n : ext2_inode) (src : list Z) (pos left : Z) : ST ext2 (Z + Z * ext2_inode) :=
  s ← gets id;
  logical ← udiv pos (g_block_size s);
  inoff ← umod pos (g_block_size s);
  let take_ := u32 (g_block_size s - inoff) in
  let take_ := if left <? take_ then left else take_ in
  phys ← rd (i_block n) logical;
  '(rc, phys', n) ←
    (if phys =? 0 then
       '(rc, new_blk) ← alloc_any;
       if negb (rc =? 0) then ret (rc, 0, n)
       else
         l ← wr (i_block n) logical new_blk;
         ret (0, new_blk, set_i_blocks (u32 (i_blocks n + g_block_size s / 512)) (set_i_block l n))
     else ret (0, phys, n));
  if negb (rc =? 0) then ret (inl rc)
  else
    bytes ← copy_out src 0 take_;
    rc ← splice_and_journal_locked phys' inoff bytes (phys =? 0);
    if negb (rc =? 0) then ret (inl rc) else ret (inr (take_, n)).

Fixpoint write_loop (fuel : nat) (n : ext2_inode) (src : list Z) (count offset written : Z)
    : ST ext2 (Z + ext2_inode) :=
  if written <? count then
    match fuel with
    | O => fail NoFuel
    | S fuel' =>
        r ← write_piece n (drop (Z.to_nat written) src) (u32 (offset + written)) (count - written);
        match r with
        | inl rc => ret (inl rc)
        | inr (k, n') => write_loop fuel' n' src count offset (written + k)
        end
    end
  else ret (inr n).

(** [inode_dirty] is set on every path to its test. *)
Definition ext2_inode_write_data (ino : Z) (buf : option (list Z)) (count offset : Z) : ST ext2 Z :=
  s ← gets id;
  match buf with
  | None => ret (- EINVAL)
  | Some buf =>
      if negb (e_bd s) then ret (- EINVAL)
      else if count =? 0 then ret 0
      else if EXT2_NDIR_BLOCKS * g_block_size s <? offset + count then ret (- EFBIG)
      else
        '(rc, n) ← read_inode ino;
        if negb (rc =? 0) then ret (- EIO)
        else if negb (is_kind EXT2_S_IFREG n) then ret (- EISDIR)
        else
          r ← write_loop (Z.to_nat count) n buf count offset 0;
          match r with
          | inl rc => ret rc
          | inr n =>
              let end_ := u32 (offset + count) in
              let n := if i_size n <? end_ then set_i_size end_ n else n in
              t ← now;
              rc ← write_inode_locked ino (set_i_ctime t (set_i_mtime t n));
              if negb (rc =? 0) then ret rc
              else ext2_sync_locked;; ret (s32 count)
          end
  end.

(** ** Truncation *)

(** What happens to the bit of the block [phys], with the inode in memory. *)
Definition free_data_block (phys : Z) (n : ext2_inode) : ST ext2 ext2_inode :=
  s ← gets id;
  if phys <? s_first_data_block (e_sb s) then ret n
  else
    let rel := phys - s_first_data_block (e_sb s) in
    group ← udiv rel (g_blocks_per_group s);
    bit ← umod rel (g_blocks_per_group s);
    if g_groups s <=? group then ret n
    else
      d ← gd group;
      rc ← read_block (bg_block_bitmap d);
      if negb (rc =? 0) then ret n
      else
        used ← test_bit bit;
        if negb used then ret n
        else
          clear_bit bit;;
          rc ← write_block (bg_block_bitmap d);
          if negb (rc =? 0) then ret n
          else
            upd_gd group (fun d => set_bg_free_blocks (u16 (bg_free_blocks_count d + 1)) d);;
            upd_sb (fun sb => set_free_blocks (u32 (s_free_blocks_count sb + 1)) sb);;
            modify (set_dirty_gdt 1);;
            modify (set_dirty_sb 1);;
            ret (if g_block_size s / 512 <=? i_blocks n
                 then set_i_blocks (i_blocks n - g_block_size s / 512) n else n).

Fixpoint truncate_loop (k : nat) (i : Z) (n : ext2_inode) : ST ext2 ext2_inode :=
  match k with
  | O => ret n
  | S k' =>
      phys ← rd (i_block n) i;
      if phys =? 0 then truncate_loop k' (i + 1) n
      else
        n ← free_data_block phys n;
        l ← wr (i_block n) i 0;
        truncate_loop k' (i + 1) (set_i_block l n)
  end.

Definition ext2_inode_truncate (ino new_size : Z) : ST ext2 Z :=
  s ← gets id;
  if negb (e_bd s) then ret (- EINVAL)
  else if u32 (EXT2_NDIR_BLOCKS * g_block_size s) <? new_size then ret (- EFBIG)
  else
    '(rc, n) ← read_inode ino;
    if negb (rc =? 0) then ret (- EIO)
    else
      keep ← udiv (u32 (u32 (new_size + g_block_size s) - 1)) (g_block_size s);
      let keep_blocks := if EXT2_NDIR_BLOCKS <? keep then EXT2_NDIR_BLOCKS else keep in
      n ← truncate_loop (Z.to_nat (EXT2_NDIR_BLOCKS - keep_blocks)) keep_blocks n;
      t ← now;
      rc ← write_inode_locked ino (set_i_ctime t (set_i_mtime t (set_i_size new_size n)));
      (if rc =? 0 then ext2_sync_locked else ret tt);;
      ret rc.

Definition ext2_inode_adjust_links (ino delta : Z) : ST ext2 Z :=
  s ← gets id;
  if negb (e_bd s) then ret (- EINVAL)
  else
    '(rc, n) ← read_inode ino;
    if negb (rc =? 0) then ret (- EIO)
    else
      let v := s32 (i_links_count n + delta) in
      let v := if v <? 0 then 0 else v in
      let v := if 0xFFFF <? v then 0xFFFF else v in
      t ← now;
      rc ← write_inode_locked ino (set_i_ctime t (set_i_links_count (u16 v) n));
      (if rc =? 0 then ext2_sync_locked else ret tt);;
      ret rc.

(** ** Directories

    An entry at the offset [off] of a block: the inode, [rec_len], [name_len],
    [file_type] and the name. *)

Definition de_inode (b : list Z) (off : Z) : ST ext2 Z := ld32 b off.
Definition de_rec_len (b : list Z) (off : Z) : ST ext2 Z := ld16 b (off + 4).
Definition de_name_len (b : list Z) (off : Z) : ST ext2 Z := rd b (off + 6).

(** The comparison of the names. *)
Fixpoint name_match (k : nat) (i : Z) (b : list Z) (off : Z) (name : list Z) : ST ext2 bool :=
  match k with
  | O => ret true
  | S k' =>
      x ← rd b (off + 8 + i);
      y ← rd name i;
      if negb (x =? y) then ret false else name_match k' (i + 1) b off name
  end.

(** The loop over the entries of a block, which moves at least one byte every
    time: the entry with the name and the one in front of it. *)
Fixpoint find_entry (fuel : nat) (bs : Z) (b : list Z) (off prev : Z) (name : list Z) (name_len : Z)
    : ST ext2 (option (Z * Z)) :=
  if off <? bs then
    match fuel with
    | O => fail NoFuel
    | S fuel' =>
        rec_len ← de_rec_len b off;
        if rec_len =? 0 then ret None
        else
          inode ← de_inode b off;
          len ← (if negb (inode =? 0) then de_name_len b off else ret 0);
          hit ← (if negb (inode =? 0) && (len =? name_len)
                 then name_match (Z.to_nat name_len) 0 b off name else ret false);
          if (hit : bool) then ret (Some (off, prev))
          else find_entry fuel' bs b (off + rec_len) off name name_len
    end
  else ret None.

Definition find_in_block (name : list Z) (name_len : Z) : ST ext2 (option (Z * Z)) :=
  s ← gets id;
  find_entry (Z.to_nat (g_block_size s)) (g_block_size s) (g_block_buf s) 0 4294967295 name name_len.

(** The blocks an inode can reach: the direct ones, those of the indirect block
    and those of the doubly indirect one. *)
Definition max_blocks (bs : Z) : Z := EXT2_NDIR_BLOCKS + bs / 4 + bs / 4 * (bs / 4).

Fixpoint lookup_blocks (fuel : nat) (n : ext2_inode) (logical : Z) (name : list Z) (name_len : Z) : ST ext2 Z :=
  s ← gets id;
  if u32 (logical * g_block_size s) <? i_size n then
    match fuel with
    | O => fail NoFuel
    | S fuel' =>
        phys ← inode_block_phys n logical;
        if phys =? 0 then ret 0
        else
          rc ← read_block phys;
          if negb (rc =? 0) then ret 0
          else
            r ← find_in_block name name_len;
            match r with
            | Some (off, _) => s ← gets id; de_inode (g_block_buf s) off
            | None => lookup_blocks fuel' n (logical + 1) name name_len
            end
    end
  else ret 0.

Definition dir_lookup_in_inode (n : ext2_inode) (name : list Z) (name_len : Z) : ST ext2 Z :=
  s ← gets id;
  lookup_blocks (Z.to_nat (max_blocks (g_block_size s) + 1)) n 0 name name_len.

(** [!name || !name[0]]. *)
Definition no_name (name : option (list Z)) : ST ext2 bool :=
  match name with
  | None => ret true
  | Some nm => c ← rd nm 0; ret (c =? 0)
  end.

Definition ext2_dir_lookup (parent_ino : Z) (name : option (list Z)) : ST ext2 Z :=
  s ← gets id;
  bad ← (if negb (e_bd s) then ret true else no_name name);
  if (bad : bool) then ret 0
  else
    let name := default [] name in
    name_len ← strlen_from name 0;
    '(rc, n) ← read_inode parent_ino;
    if negb (rc =? 0) then ret 0
    else if negb (is_kind EXT2_S_IFDIR n) then ret 0
    else dir_lookup_in_inode n name name_len.

Definition dir_entry_size (name_len : Z) : Z := Z.land (u32 (8 + name_len + 3)) (u32 (Z.lnot 3)).

(** Stores an entry into the scratch block, without or with its [rec_len]. *)
Definition put_entry (off child_ino : Z) (rec_len : option Z) (name_len file_type : Z) (name : list Z) : ST ext2 unit :=
  s ← gets id;
  b ← copy_in (g_block_buf s) off (le32 child_ino);
  b ← match rec_len with Some r => copy_in b (off + 4) (le16 r) | None => ret b end;
  b ← copy_in b (off + 6) [u8 name_len; file_type];
  nm ← copy_out name 0 name_len;
  b ← copy_in b (off + 8) nm;
  modify (set_block_buf b).

Definition put_rec_len (off rec_len : Z) : ST ext2 unit :=
  s ← gets id;
  b ← copy_in (g_block_buf s) (off + 4) (le16 rec_len);
  modify (set_block_buf b).

(** The second loop over a block of [ext2_dir_add_entry]: [true] when the entry
    has been put into an empty record or behind a used one. *)
Fixpoint place_entry (fuel : nat) (off need child_ino name_len file_type : Z) (name : list Z) : ST ext2 bool :=
  s ← gets id;
  if off <? g_block_size s then
    match fuel with
    | O => fail NoFuel
    | S fuel' =>
        rec_len ← de_rec_len (g_block_buf s) off;
        if rec_len =? 0 then ret false
        else
          inode ← de_inode (g_block_buf s) off;
          actual ← (if negb (inode =? 0) then len ← de_name_len (g_block_buf s) off; ret (dir_entry_size len)
                    else ret 0);
          let slack := u32 (rec_len - actual) in
          let next_off := off + rec_len in
          if (inode =? 0) && (need <=? rec_len) then
            put_entry off child_ino None name_len file_type name;; ret true
          else if negb (inode =? 0) && (need <=? slack) then
            put_rec_len off (u16 actual);;
            put_entry (off + actual) child_ino (Some (u16 (next_off - (off + actual)))) name_len file_type name;;
            ret true
          else place_entry fuel' next_off need child_ino name_len file_type name
    end
  else ret false.

(** The body of the loop over the blocks of a directory: the result the call
    ends with, or [None] for the next block; [inr tt] leaves the loop. *)
Definition add_in_block (n : ext2_inode) (child_ino name_len file_type : Z) (name : list Z) (logical : Z)
    : ST ext2 (option (Z + unit)) :=
  phys ← rd (i_block n) logical;
  if phys =? 0 then ret (Some (inr tt))
  else
    rc ← read_block phys;
    if negb (rc =? 0) then ret (Some (inl (- EIO)))
    else
      dup ← find_in_block name name_len;
      match dup with
      | Some _ => ret (Some (inl (- EEXIST)))
      | None =>
          bs ← gets g_block_size;
          done_ ← place_entry (Z.to_nat bs) 0 (dir_entry_size name_len) child_ino name_len file_type name;
          if negb done_ then ret None
          else
            rc ← write_block phys;
            if negb (rc =? 0) then ret (Some (inl (- EIO)))
            else ext2_sync_locked;; ret (Some (inl 0))
      end.

(** The end of [ext2_dir_add_entry]: a new block for the directory. *)
Definition add_block (parent_ino : Z) (n : ext2_inode) (child_ino name_len file_type : Z) (name : list Z) : ST ext2 Z :=
  slot ← for_until 12 0 (fun i => b ← rd (i_block n) i; ret (if b =? 0 then Some i else None));
  match slot with
  | None => ret (- EFBIG)
  | Some new_slot =>
      s ← gets id;
      '(rc, new_blk) ← alloc_groups alloc_block_in_group_locked (Z.to_nat (g_groups s)) 0 (- ENOSPC, 0);
      if negb (rc =? 0) then ret rc
      else
        zero_buf;;
        put_entry 0 child_ino (Some (u16 (g_block_size s))) name_len file_type name;;
        rc ← write_block new_blk;
        if negb (rc =? 0) then ret (- EIO)
        else
          l ← wr (i_block n) new_slot new_blk;
          t ← now;
          rc ← write_inode_locked parent_ino
                 (set_i_ctime t (set_i_mtime t (set_i_size (u32 (i_size n + g_block_size s))
                    (set_i_blocks (u32 (i_blocks n + g_block_size s / 512)) (set_i_block l n)))));
          (if rc =? 0 then ext2_sync_locked else ret tt);;
          ret rc
  end.

Definition ext2_dir_add_entry (parent_ino : Z) (name : option (list Z)) (child_ino file_type : Z) : ST ext2 Z :=
  s ← gets id;
  bad ← (if negb (e_bd s) then ret true else no_name name);
  if (bad : bool) || (child_ino =? 0) then ret (- EINVAL)
  else
    let name := default [] name in
    name_len ← strlen_from name 0;
    if 255 <? name_len then ret (- ENAMETOOLONG)
    else
      '(rc, n) ← read_inode parent_ino;
      if negb (rc =? 0) then ret (- EIO)
      else if negb (is_kind EXT2_S_IFDIR n) then ret (- ENOTDIR)
      else
        r ← for_until 12 0 (add_in_block n child_ino name_len file_type name);
        match r with
        | Some (inl rc) => ret rc
        | _ => add_block parent_ino n child_ino name_len file_type name
        end.

(** The body of the loop of [ext2_dir_remove_entry], as above. *)
Definition remove_in_block (parent_ino : Z) (n : ext2_inode) (name : list Z) (name_len logical : Z)
    : ST ext2 (option Z) :=
  phys ← rd (i_block n) logical;
  if phys =? 0 then ret (Some (- ENOENT))
  else
    rc ← read_block phys;
    if negb (rc =? 0) then ret (Some (- EIO))
    else
      r ← find_in_block name name_len;
      match r with
      | None => ret None
      | Some (off, prev_off) =>
          s ← gets id;
          (if prev_off =? 4294967295 then
             b ← copy_in (g_block_buf s) off (le32 0);
             modify (set_block_buf b)
           else
             p ← de_rec_len (g_block_buf s) prev_off;
             r ← de_rec_len (g_block_buf s) off;
             put_rec_len prev_off (u16 (p + r)));;
          rc ← write_block phys;
          if negb (rc =? 0) then ret (Some (- EIO))
          else
            t ← now;
            rc ← write_inode_locked parent_ino (set_i_ctime t (set_i_mtime t n));
            (if rc =? 0 then ext2_sync_locked else ret tt);;
            ret (Some rc)
      end.

Definition ext2_dir_remove_entry (parent_ino : Z) (name : option (list Z)) : ST ext2 Z :=
  s ← gets id;
  bad ← (if negb (e_bd s) then ret true else no_name name);
  if (bad : bool) then ret (- EINVAL)
  else
    let name := default [] name in
    name_len ← strlen_from name 0;
    '(rc, n) ← read_inode parent_ino;
    if negb (rc =? 0) then ret (- EIO)
    else if negb (is_kind EXT2_S_IFDIR n) then ret (- ENOTDIR)
    else
      r ← for_until 12 0 (remove_in_block parent_ino n name name_len);
      ret (default (- ENOENT) r).

(** ** Status *)

Definition ext2_stat (ino : Z) (st : bool) : ST ext2 (Z * option kstat) :=
  s ← gets id;
  if negb (e_bd s) || negb st then ret (- EINVAL, None)
  else
    '(rc, n) ← read_inode ino;
    if negb (rc =? 0) then ret (- ENOENT, None)
    else
      ret (0, Some (Kstat ino (i_mode n) (i_links_count n) (i_uid n) (i_gid n) (s32 (i_size n))
                      (g_block_size s) (i_blocks n) (i_atime n) (i_mtime n) (i_ctime n))).

Definition ext2_inode_dtype (ino : Z) : ST ext2 Z :=
  s ← gets id;
  if negb (e_bd s) then ret 0
  else
    '(rc, n) ← read_inode ino;
    if negb (rc =? 0) then ret 0
    else ret (if is_kind EXT2_S_IFDIR n then 4 else if is_kind EXT2_S_IFREG n then 8 else 0).

(** ** Reading a directory *)

(** Whether the entry at [inblk] is listed: it is in use and not one of the
    two dot entries. *)
Definition emitted (b : list Z) (inblk inode : Z) : ST ext2 bool :=
  if inode =? 0 then ret false
  else
    name_len ← de_name_len b inblk;
    if name_len =? 0 then ret false
    else
      c0 ← (if (name_len =? 1) || (name_len =? 2) then rd b (inblk + 8) else ret 0);
      c1 ← (if (name_len =? 2) && (c0 =? 46) then rd b (inblk + 9) else ret 0);
      ret (negb ((name_len =? 1) && (c0 =? 46)) && negb ((name_len =? 2) && (c0 =? 46) && (c1 =? 46))).

(** What the loop over a block ends with: the caller's buffer is full, or the
    number of bytes stored and the cursor to go on with. *)
Fixpoint emit_block (fuel : nat) (bs : Z) (b : list Z) (inblk : Z) (out : list Z) (size written cursor : Z)
    : ST ext2 (bool * (list Z * Z * Z)) :=
  if inblk <? bs then
    match fuel with
    | O => fail NoFuel
    | S fuel' =>
        advance ← de_rec_len b inblk;
        if advance =? 0 then ret (false, (out, written, cursor))
        else
          inode ← de_inode b inblk;
          emit ← emitted b inblk inode;
          if (emit : bool) then
            name_len ← de_name_len b inblk;
            let reclen := Z.land (u32 (DIRENT_NAME_OFFSET + name_len + 1 + 3)) (u32 (Z.lnot 3)) in
            if size <? u32 (written + reclen) then ret (true, (out, written, cursor))
            else
              name ← copy_out b (inblk + 8) name_len;
              out ← copy_in out written
                      (le32 inode ++ le32 (u32 (cursor + advance)) ++ le16 reclen ++ name ++ [0]);
              emit_block fuel' bs b (inblk + advance) out size (written + reclen) (u32 (cursor + advance))
          else emit_block fuel' bs b (inblk + advance) out size written (u32 (cursor + advance))
    end
  else ret (false, (out, written, cursor)).

(** [pos] is what [*pos] holds when the call ends with an error; every round
    over a block without an empty [rec_len] moves the cursor. *)
Fixpoint readdir_loop (fuel : nat) (n : ext2_inode) (out : list Z) (size pos written cursor : Z)
    : ST ext2 (Z * list Z * Z) :=
  if cursor <? i_size n then
    match fuel with
    | O => fail NoFuel
    | S fuel' =>
        s ← gets id;
        logical ← udiv cursor (g_block_size s);
        inblk ← umod cursor (g_block_size s);
        phys ← inode_block_phys n logical;
        if phys =? 0 then ret (s32 written, out, cursor)
        else
          rc ← read_block phys;
          if negb (rc =? 0) then ret (- EIO, out, pos)
          else
            s ← gets id;
            local_block ← copy_out (g_block_buf s) 0 (g_block_size s);
            '(full, (out, written, cursor)) ←
              emit_block (Z.to_nat (g_block_size s)) (g_block_size s) local_block inblk out size written cursor;
            if (full : bool) then ret (s32 written, out, cursor)
            else readdir_loop fuel' n out size pos written cursor
    end
  else ret (s32 written, out, cursor).

Definition ext2_readdir_chunk (parent_ino : Z) (buf : option (list Z)) (size pos : Z) : ST ext2 (Z * list Z * Z) :=
  s ← gets id;
  match buf with
  | None => ret (- EINVAL, [], pos)
  | Some out =>
      if negb (e_bd s) then ret (- EINVAL, out, pos)
      else
        '(rc, n) ← read_inode parent_ino;
        if negb (rc =? 0) then ret (- EIO, out, pos)
        else if negb (is_kind EXT2_S_IFDIR n) then ret (- ENOTDIR, out, pos)
        else readdir_loop (Z.to_nat (i_size n)) n out size pos 0 pos
  end.

(** ** The operations for the VFS (fs/ext2_ops.c) *)

Definition DOT : list Z := [46; 0].
Definition DOTDOT : list Z := [46; 46; 0].

Definition ext2_op_resolve (fs_priv parent : Z) (name : list Z) : ST ext2 Z := ext2_dir_lookup parent (Some name).

Definition ext2_op_read (fs_priv inode count offset : Z) : ST ext2 (Z * list Z) :=
  ext2_read_inode inode (u32 count) offset.

Definition ext2_op_write (fs_priv inode : Z) (buf : list Z) (count offset : Z) : ST ext2 Z :=
  ext2_inode_write_data inode (Some buf) (u32 count) offset.

Definition ext2_op_stat (fs_priv inode : Z) : ST ext2 (Z * option kstat) := ext2_stat inode true.

Definition ext2_op_readdir (fs_priv inode : Z) (buf : list Z) (size pos : Z) : ST ext2 (Z * list Z * Z) :=
  ext2_readdir_chunk inode (Some buf) size pos.

Definition ext2_op_mkdir (fs_priv parent : Z) (name : list Z) (mode : Z) : ST ext2 (Z * Z) :=
  '(rc, ino) ← ext2_alloc_inode (u16 (Z.lor (Z.land mode 0xFFF) EXT2_S_IFDIR));
  if negb (rc =? 0) then ret (rc, 0)
  else
    rc ← ext2_dir_add_entry ino (Some DOT) ino EXT2_FT_DIR;
    if negb (rc =? 0) then ret (rc, 0)
    else
      rc ← ext2_dir_add_entry ino (Some DOTDOT) parent EXT2_FT_DIR;
      if negb (rc =? 0) then ret (rc, 0)
      else
        rc ← ext2_dir_add_entry parent (Some name) ino EXT2_FT_DIR;
        if negb (rc =? 0) then ret (rc, 0)
        else
          ext2_inode_adjust_links ino 1;;
          ext2_inode_adjust_links parent 1;;
          ret (0, ino).

Definition ext2_op_create (fs_priv parent : Z) (name : list Z) (mode : Z) : ST ext2 (Z * Z) :=
  '(rc, ino) ← ext2_alloc_inode (u16 (Z.lor (Z.land mode 0xFFF) EXT2_S_IFREG));
  if negb (rc =? 0) then ret (rc, 0)
  else
    rc ← ext2_dir_add_entry parent (Some name) ino EXT2_FT_REG_FILE;
    if negb (rc =? 0) then ret (rc, 0) else ret (0, ino).

Definition ext2_op_unlink (fs_priv parent : Z) (name : list Z) : ST ext2 Z :=
  ext2_dir_remove_entry parent (Some name).

Definition ext2_op_rmdir (fs_priv parent : Z) (name : list Z) : ST ext2 Z := ret (- EROFS).

Definition ext2_op_truncate (fs_priv inode length : Z) : ST ext2 Z := ext2_inode_truncate inode length.

Definition ext2_op_chmod (fs_priv inode mode : Z) : ST ext2 Z := ret (- EROFS).

Definition ext2_op_chown (fs_priv inode uid gid : Z) : ST ext2 Z := ret (- EROFS).

Definition ext2_op_rename (fs_priv old_parent : Z) (old_name : list Z) (new_parent : Z) (new_name : list Z) : ST ext2 Z :=
  ret (- EROFS).

Definition ext2_op_dtype (fs_priv inode : Z) : ST ext2 Z := ext2_inode_dtype inode.

Definition ext2_ops : fs_ops ext2 := {|
  op_resolve := Some ext2_op_resolve;
  op_read := Some ext2_op_read;
  op_write := Some ext2_op_write;
  op_stat := Some ext2_op_stat;
  op_readdir := Some ext2_op_readdir;
  op_mkdir := Some ext2_op_mkdir;
  op_create := Some ext2_op_create;
  op_unlink := Some ext2_op_unlink;
  op_rmdir := Some ext2_op_rmdir;
  op_truncate := Some ext2_op_truncate;
  op_chmod := Some ext2_op_chmod;
  op_chown := Some ext2_op_chown;
  op_rename := Some ext2_op_rename;
  op_dtype := Some ext2_op_dtype;
  op_inc_open := None;
  op_dec_open := None;
  op_get_open := None;
  op_release := None
|}.

End Ext2.
Arguments ext2 D M : clear implicits.

(** The static variables as the loader clears them. *)
Definition ext2_bss {D M} (j : journal D M) : ext2 D M :=
  Ext2 false (ext2_sb_of (replicate 976 0)) (replicate 64 (gd_of (replicate 32 0))) 0 0 0 0 0 0 0 0 0 (replicate 4096 0) timer_bss j.
