(* ===== verification/Ext2Io.v ===== *)
(** * The blocks of a mounted ext2

    The geometry of a file system ([geo]), what it means that the driver has it
    mounted ([mounted]), and the specifications of the operations that read and
    write whole blocks: the rest of the proofs see the disk as the map [disk]
    from block numbers to contents.  The blocks of the journal, of the
    superblock and of the descriptors are [reserved]: the driver does not read
    them after the mount, and what they hold is not part of the map. *)

From stdpp Require Import base tactics numbers list gmap.
From S2P Require Import Prelude Alloc Timer Block Journal JournalReplay JournalProofs JournalSpec JournalIo Ext2Disk Ext2.

Record geo := Geo {
  fg_bs : Z;
  fg_isz : Z;
  fg_bpg : Z;
  fg_ipg : Z;
  fg_groups : Z;
  fg_first : Z;
  fg_inodes : Z;
  fg_bb : Z -> Z;
  fg_ib : Z -> Z;
  fg_it : Z -> Z;
  fg_journal : Z
}.

Definition fg_spb (G : geo) : Z := fg_bs G / 512.
Definition fg_gdt (G : geo) : Z := if fg_bs G =? 1024 then 2 else 1.
Definition fg_gdt_blocks (G : geo) : Z := (fg_groups G * 32 + fg_bs G - 1) / fg_bs G.

(** The block overlaps the journal, holds the superblock, or descriptors. *)
Definition jblk (G : geo) (b : Z) : Prop :=
  fg_journal G * 8 < (b + 1) * fg_spb G /\ b * fg_spb G < (fg_journal G + JOURNAL_DEFAULT_BLOCKS) * 8.
Definition sbblk (G : geo) (b : Z) : Prop := 2 < (b + 1) * fg_spb G /\ b * fg_spb G < 4.
Definition gdblk (G : geo) (b : Z) : Prop := fg_gdt G <= b < fg_gdt G + fg_gdt_blocks G.
Definition reserved (G : geo) (b : Z) : Prop := jblk G b \/ sbblk G b \/ gdblk G b.

(** The metadata of the groups. *)
Inductive meta := BlockBitmap (g : Z) | InodeBitmap (g : Z) | InodeTable (g i : Z).

Definition table_blocks (G : geo) : Z := (fg_ipg G * fg_isz G + fg_bs G - 1) / fg_bs G.

Definition meta_valid (G : geo) (m : meta) : Prop :=
  match m with
  | BlockBitmap g | InodeBitmap g => 0 <= g < fg_groups G
  | InodeTable g i => 0 <= g < fg_groups G /\ 0 <= i < table_blocks G
  end.

Definition meta_loc (G : geo) (m : meta) : Z :=
  match m with
  | BlockBitmap g => fg_bb G g
  | InodeBitmap g => fg_ib G g
  | InodeTable g i => fg_it G g + i
  end.

Record geo_ok (G : geo) : Prop := {
  go_bs : fg_bs G = 1024 \/ fg_bs G = 2048 \/ fg_bs G = 4096;
  go_isz : 128 <= fg_isz G <= fg_bs G /\ fg_bs G mod fg_isz G = 0;
  go_ipg : 0 < fg_ipg G <= 8 * fg_bs G;
  go_bpg : 0 < fg_bpg G <= 8 * fg_bs G;
  go_groups : 0 < fg_groups G <= 64;
  go_inodes : fg_inodes G <= fg_groups G * fg_ipg G;
  go_first : 0 <= fg_first G /\ fg_first G + fg_groups G * fg_bpg G <= 4294967296;
  go_journal : geometry (fg_journal G) (fg_spb G);
  go_gdt : forall b, gdblk G b -> ~ jblk G b;
  go_meta : forall m, meta_valid G m -> is_u32 (meta_loc G m) /\ ~ reserved G (meta_loc G m);
  go_inj : forall m m', meta_valid G m -> meta_valid G m' -> meta_loc G m = meta_loc G m' -> m = m'
}.

Section Io.
Context {D M : Type} `{BlockDevice D} `{Kmalloc M}.
Context (G : geo) (HG : geo_ok G) (Lm : gmap Z Z).
Implicit Types s : ext2 D M.

Definition disk s (b : Z) : list Z :=
  concat (bd_view (jdev (e_journal s)) <$> seqZ (b * fg_spb G) (fg_spb G)).

Record mounted s : Prop := {
  mo_bd : e_bd s = true;
  mo_window : g_write_window_open s <> 0;
  mo_bs : g_block_size s = fg_bs G;
  mo_isz : g_inode_size s = fg_isz G;
  mo_bpg : g_blocks_per_group s = fg_bpg G;
  mo_ipg : g_inodes_per_group s = fg_ipg G;
  mo_groups : g_groups s = fg_groups G;
  mo_spb : g_sectors_per_blk s = fg_spb G;
  mo_first : s_first_data_block (e_sb s) = fg_first G;
  mo_inodes : s_inodes_count (e_sb s) = fg_inodes G;
  mo_sb : length (ext2_sb_bytes (e_sb s)) = 976%nat;
  mo_gdt : length (g_gdt s) = 64%nat /\ Forall (fun d => length (bg_reserved d) = 12%nat) (g_gdt s);
  mo_gd : forall g d, 0 <= g < fg_groups G -> g_gdt s !! Z.to_nat g = Some d ->
    bg_block_bitmap d = fg_bb G g /\ bg_inode_bitmap d = fg_ib G g /\ bg_inode_table d = fg_it G g;
  mo_buf : length (g_block_buf s) = 4096%nat;
  mo_journal : journal_idle (fg_journal G) (fg_spb G) (e_journal s) Lm;
  mo_healthy : bd_healthy (jdev (e_journal s))
}.

(** Blocks that are not reserved have the same contents. *)
Definition agree s s' : Prop := forall b, ~ reserved G b -> disk s' b = disk s b.

Lemma agree_refl s : agree s s.
Proof. done. Qed.
Lemma agree_trans s1 s2 s3 : agree s1 s2 -> agree s2 s3 -> agree s1 s3.
Proof. intros E1 E2 b Hb. by rewrite E2, E1. Qed.

Lemma spb_bs : 512 * fg_spb G = fg_bs G.
Proof. unfold fg_spb. destruct (go_bs _ HG) as [->|[->| ->]]; done. Qed.
Lemma spb_pos : 2 <= fg_spb G <= 8.
Proof. unfold fg_spb. destruct (go_bs _ HG) as [->|[->| ->]]; done. Qed.
Lemma bs_range : 1024 <= fg_bs G <= 4096.
Proof. destruct (go_bs _ HG) as [->|[->| ->]]; lia. Qed.

(** ** Sectors and blocks *)

Lemma sectors_concat buf (n k : nat) : length buf = (512 * (k + n))%nat ->
  drop (512 * k) buf = concat (sector_of buf <$> seqZ (Z.of_nat k) (Z.of_nat n)).
Proof.
  revert k. induction n as [|n IH]; intros k Hl.
  - rewrite drop_ge by lia. done.
  - rewrite Nat2Z.inj_succ, seqZ_cons by lia. cbn [fmap list_fmap concat].
    rewrite Z.pred_succ. replace (Z.succ (Z.of_nat k)) with (Z.of_nat (S k)) by lia.
    rewrite <- IH by lia. unfold sector_of. replace (Z.to_nat (512 * Z.of_nat k)) with (512 * k)%nat by lia.
    rewrite <- (take_drop 512 (drop (512 * k) buf)) at 1. rewrite drop_drop. do 2 f_equal. lia.
Qed.

Lemma fmap_seqZ_shift {A} (f f' : Z -> A) a b n :
  (forall i, 0 <= i < n -> f (a + i) = f' (b + i)) -> f <$> seqZ a n = f' <$> seqZ b n.
Proof.
  intros E. apply list_eq. intros i. rewrite !list_lookup_fmap.
  destruct (decide (Z.of_nat i < n)); [|by rewrite !lookup_seqZ_ge by lia].
  rewrite !lookup_seqZ_lt by lia. simpl. f_equal. apply E. lia.
Qed.

(** The sectors of a buffer of [n] sectors. *)
Lemma buf_of_sectors buf n (V : Z -> list Z) lba : 0 <= n -> Z.of_nat (length buf) = 512 * n ->
  (forall i, 0 <= i < n -> sector_of buf i = V (lba + i)) -> buf = concat (V <$> seqZ lba n).
Proof.
  intros Hn Hl Hb. rewrite <- (drop_0 buf). rewrite <- (Z2Nat.id n) by lia.
  rewrite <- (fmap_seqZ_shift (sector_of buf) V 0 lba) by (intros; apply Hb; lia).
  apply (sectors_concat buf (Z.to_nat n) 0). lia.
Qed.

Lemma sector_of_take buf n i : 0 <= i < n -> sector_of (take (Z.to_nat (512 * n)) buf) i = sector_of buf i.
Proof.
  intros Hi. unfold sector_of. rewrite skipn_firstn_comm, take_take. f_equal. lia.
Qed.

Lemma length_view (d : D) sec : bd_healthy d -> length (bd_view d sec) = 512%nat.
Proof.
  intros Hh. destruct (bd_read_spec d sec 1 ltac:(lia)) as (rc & buf & d' & _ & _ & Hl & Hb & _ & _ & Hd).
  destruct (Hd Hh) as [-> _]. specialize (Hb eq_refl 0 ltac:(lia)). rewrite Z.add_0_r in Hb. rewrite <- Hb.
  unfold sector_of. rewrite length_take, length_drop. lia.
Qed.

Lemma length_concat_views (d : D) a n : bd_healthy d ->
  length (concat (bd_view d <$> seqZ a (Z.of_nat n))) = (512 * n)%nat.
Proof.
  intros Hh. revert a. induction n as [|n IH]; intros a; [done|].
  rewrite Nat2Z.inj_succ, seqZ_cons by lia. cbn [fmap list_fmap concat].
  rewrite Z.pred_succ, length_app, (length_view _ _ Hh), IH. lia.
Qed.

Lemma length_disk s b : mounted s -> Z.of_nat (length (disk s b)) = fg_bs G.
Proof.
  intros Hm. unfold disk. pose proof spb_pos. rewrite <- (Z2Nat.id (fg_spb G)) at 2 by lia.
  rewrite length_concat_views by apply (mo_healthy _ Hm). rewrite <- spb_bs. lia.
Qed.

(** ** Reading and writing a block *)

(** Only the scratch block and the journal changed. *)
Lemma mounted_io s b j : mounted s -> length b = 4096%nat ->
  journal_idle (fg_journal G) (fg_spb G) j Lm -> bd_healthy (jdev j) ->
  mounted (set_block_buf b (set_journal j s)).
Proof. intros Hm Hb Hj Hh. destruct Hm, s. by split. Qed.

Lemma idle_dev (j : journal D M) d start ts : journal_idle start ts j Lm -> journal_idle start ts (set_jdev d j) Lm.
Proof. intros Hj. destruct Hj, j. by split. Qed.

Definition buf_is s (c : list Z) : Prop := take (Z.to_nat (fg_bs G)) (g_block_buf s) = c.

Lemma read_block_ok s blk : mounted s ->
  wp (read_block blk) (fun rc s' => rc = 0 /\ mounted s' /\ agree s s' /\ buf_is s' (disk s blk) /\
    e_timer s' = e_timer s) s.
Proof.
  intros Hm. unfold read_block. apply wp_bind, wp_gets. unfold id. rewrite (mo_spb _ Hm). pose proof spb_pos as Hs.
  destruct (read_healthy (e_journal s) (blk * fg_spb G) (fg_spb G) ltac:(lia) (mo_healthy _ Hm)) as (buf & d' & E & Hh & Hv & Hl & Hb).
  pose proof (buf_of_sectors buf (fg_spb G) _ _ ltac:(lia) Hl Hb) as Ebuf. fold (disk s blk) in Ebuf.
  pose proof (length_disk s blk Hm) as Hdl. rewrite <- Ebuf in Hdl. pose proof bs_range.
  eapply wp_bind_ok; [unfold on_disk, zoom; rewrite E; reflexivity|]. cbv beta iota.
  eapply wp_bind_ok; [apply copy_in_ok; [lia|]; rewrite (mo_buf _ Hm); lia|].
  apply wp_bind, wp_modify, wp_ret. split; [done|]. split; [|split; [|split]].
  - apply mounted_io; [done| |by apply idle_dev, mo_journal|done]. rewrite length_splice; [apply (mo_buf _ Hm)|lia|]. rewrite (mo_buf _ Hm). lia.
  - intros b _. unfold disk. f_equal. apply list_fmap_ext. intros i sec _. apply Hv.
  - unfold buf_is, splice. cbn [g_block_buf set_block_buf set_journal]. simpl. rewrite <- Ebuf.
    by rewrite take_app_le, take_ge by lia.
  - done.
Qed.

Lemma disk_put s s' blk b : mounted s -> mounted s' -> length b = 4096%nat ->
  (forall sec, ~ jsec (fg_journal G) sec -> bd_view (jdev (e_journal s')) sec =
     put_block (blk * fg_spb G) (fg_spb G) b (bd_view (jdev (e_journal s))) sec) ->
  forall b', ~ jblk G b' -> disk s' b' = if decide (b' = blk) then take (Z.to_nat (fg_bs G)) b else disk s b'.
Proof.
  intros Hm Hm' Hl Hv b' Hb'. pose proof spb_pos as Hs. pose proof bs_range as Hbs. pose proof spb_bs as Hsb.
  assert (forall i, 0 <= i < fg_spb G -> ~ jsec (fg_journal G) (b' * fg_spb G + i)) as Hj.
  { intros i Hi Hj. apply Hb'. unfold jblk, jsec, JOURNAL_DEFAULT_BLOCKS in *. lia. }
  case_decide as E; [subst b'|].
  - symmetry. apply buf_of_sectors; [lia|rewrite length_take; lia|]. intros i Hi. rewrite Hv by (by apply Hj).
    unfold put_block. rewrite decide_True by lia. replace (blk * fg_spb G + i - blk * fg_spb G) with i by lia.
    rewrite <- Hsb. by apply sector_of_take.
  - unfold disk. f_equal. apply fmap_seqZ_shift. intros i Hi. rewrite Hv by (by apply Hj).
    unfold put_block. rewrite decide_False; [done|]. nia.
Qed.

Lemma write_block_ok s blk : mounted s -> is_u32 blk -> ~ jblk G blk ->
  wp (write_block blk) (fun rc s' => mounted s' /\ g_block_buf s' = g_block_buf s /\ e_timer s' = e_timer s /\
    ((rc = - ENOMEM /\ agree s s') \/
     (rc = 0 /\ forall b, ~ jblk G b ->
        disk s' b = if decide (b = blk) then take (Z.to_nat (fg_bs G)) (g_block_buf s) else disk s b))) s.
Proof.
  intros Hm Hu Hj. unfold write_block. apply wp_bind, wp_gets. unfold id.
  rewrite (mo_bd _ Hm), (proj2 (Z.eqb_neq _ _) (mo_window _ Hm)). cbn [andb negb].
  pose proof spb_pos as Hs. destruct (journaled_write_healthy (fg_journal G) (fg_spb G) (go_journal _ HG) (e_journal s) Lm blk (g_block_buf s))
    as (rc & j & E & Hi & Hh & Hr).
  - apply (mo_journal _ Hm).
  - split; [simpl; lia|by constructor|constructor; [apply (mo_buf _ Hm)|constructor]|].
    intros sec Ht Hsec. apply Exists_exists in Ht as (w & ->%list_elem_of_singleton & Ht). simpl in Ht. apply Hj. unfold jblk, jsec, JOURNAL_DEFAULT_BLOCKS in *. lia.
  - apply (mo_healthy _ Hm).
  - eapply wp_bind_ok; [unfold zoom; rewrite E; reflexivity|]. apply wp_ret.
    assert (mounted (set_journal j s)) as Hm'.
    { replace (set_journal j s) with (set_block_buf (g_block_buf s) (set_journal j s)) by (by destruct s).
      apply mounted_io; try done. apply (mo_buf _ Hm). }
    split; [done|]. split; [done|]. split; [done|]. destruct Hr as [[-> Hd]|[-> Hv]]; [left|right]; (split; [done|]).
    + intros b _. unfold disk. cbn [e_journal set_journal]. by rewrite Hd.
    + intros b Hb. apply (disk_put s (set_journal j s)); try done. apply (mo_buf _ Hm).
Qed.

(** ** The other operations on the state *)

Lemma gd_ok s g : mounted s -> 0 <= g < fg_groups G ->
  exists d, gd g s = Ok (d, s) /\ g_gdt s !! Z.to_nat g = Some d /\
    bg_block_bitmap d = fg_bb G g /\ bg_inode_bitmap d = fg_ib G g /\ bg_inode_table d = fg_it G g.
Proof.
  intros Hm Hg. pose proof (go_groups _ HG). destruct (mo_gdt _ Hm) as [Hl _].
  destruct (lookup_lt_is_Some_2 (g_gdt s) (Z.to_nat g) ltac:(lia)) as [d Hd]. exists d.
  split; [|split; [done|by apply (mo_gd _ Hm)]]. unfold gd. rewrite bind_gets. unfold id. apply rd_ok; [lia|done].
Qed.

(** A change of the descriptors that keeps where the metadata are. *)
Definition gd_keeps (f : ext2_group_desc -> ext2_group_desc) : Prop := forall d,
  bg_block_bitmap (f d) = bg_block_bitmap d /\ bg_inode_bitmap (f d) = bg_inode_bitmap d /\
  bg_inode_table (f d) = bg_inode_table d /\ bg_reserved (f d) = bg_reserved d.

Lemma upd_gd_ok s g f : mounted s -> 0 <= g < fg_groups G -> gd_keeps f ->
  exists l, upd_gd g f s = Ok (tt, set_gdt l s) /\ mounted (set_gdt l s).
Proof.
  intros Hm Hg Hf. destruct (gd_ok s g Hm Hg) as (d & E & Hd & Hp). unfold upd_gd. pose proof (go_groups _ HG).
  destruct (mo_gdt _ Hm) as [Hl Hr]. rewrite (bind_ok _ _ _ _ _ E), bind_gets. unfold id.
  rewrite (bind_ok _ _ _ _ _ (wr_ok (g_gdt s) g (f d) s ltac:(lia))). eexists. split; [reflexivity|].
  destruct (Hf d) as (F1 & F2 & F3 & F4). pose proof (mo_gd _ Hm) as Hgd.
  assert (mounted s) as Hm' by done. destruct Hm'. split; try done; cbn [g_gdt set_gdt].
  - split; [by rewrite length_insert|]. apply Forall_insert; [done|]. rewrite F4. by apply (Forall_lookup_1 _ _ _ _ Hr Hd).
  - intros g' d' Hg' Hd'. destruct (decide (g' = g)) as [->|Hne].
    + rewrite list_lookup_insert_eq in Hd' by lia. simplify_eq. rewrite F1, F2, F3. by apply Hgd.
    + rewrite list_lookup_insert_ne in Hd' by lia. by apply Hgd.
Qed.

Lemma upd_sb_ok s f : mounted s ->
  (forall sb, s_first_data_block (f sb) = s_first_data_block sb /\ s_inodes_count (f sb) = s_inodes_count sb /\
     length (ext2_sb_bytes (f sb)) = length (ext2_sb_bytes sb)) ->
  mounted (set_esb (f (e_sb s)) s).
Proof. intros Hm Hf. destruct (Hf (e_sb s)) as (F1 & F2 & F3). destruct Hm. split; try done; cbn [e_sb set_esb]; congruence. Qed.

Lemma set_free_blocks_keeps sb v : s_first_data_block (set_free_blocks v sb) = s_first_data_block sb /\
  s_inodes_count (set_free_blocks v sb) = s_inodes_count sb /\
  length (ext2_sb_bytes (set_free_blocks v sb)) = length (ext2_sb_bytes sb).
Proof. by split_and!. Qed.

Lemma set_free_inodes_keeps sb v : s_first_data_block (set_free_inodes v sb) = s_first_data_block sb /\
  s_inodes_count (set_free_inodes v sb) = s_inodes_count sb /\
  length (ext2_sb_bytes (set_free_inodes v sb)) = length (ext2_sb_bytes sb).
Proof. by split_and!. Qed.

Lemma mounted_dirty s x y : mounted s -> mounted (set_dirty_sb x (set_dirty_gdt y s)).
Proof. intros Hm. destruct Hm. by split. Qed.

Lemma mounted_buf s b : mounted s -> length b = 4096%nat -> mounted (set_block_buf b s).
Proof. intros Hm Hb. destruct Hm. by split. Qed.

(** The updates of the free counts that follow every change of a bitmap. *)
Lemma counted {A} s g f h (k : ST (ext2 D M) A) Q : mounted s -> 0 <= g < fg_groups G -> gd_keeps f ->
  (forall sb, s_first_data_block (h sb) = s_first_data_block sb /\ s_inodes_count (h sb) = s_inodes_count sb /\
     length (ext2_sb_bytes (h sb)) = length (ext2_sb_bytes sb)) ->
  (forall s', mounted s' -> e_journal s' = e_journal s -> e_timer s' = e_timer s -> g_block_buf s' = g_block_buf s -> wp k Q s') ->
  wp (upd_gd g f;; upd_sb h;; modify (set_dirty_gdt 1);; modify (set_dirty_sb 1);; k) Q s.
Proof.
  intros Hm Hg Hf Hh Hk. destruct (upd_gd_ok s g f Hm Hg Hf) as (l & E & Hm1).
  eapply wp_bind_ok; [exact E|]. unfold upd_sb. apply wp_bind, wp_modify, wp_bind, wp_modify, wp_bind, wp_modify.
  apply Hk; try done. apply mounted_dirty, upd_sb_ok; done.
Qed.

Lemma now_ok s : exists t, now s = Ok (t, s) /\ is_u32 t.
Proof. eexists. split; [unfold now, zoom; destruct s; reflexivity|]. apply u32_range. Qed.

Lemma zero_buf_ok s : mounted s ->
  exists b, zero_buf s = Ok (tt, set_block_buf b s) /\ length b = 4096%nat /\
    take (Z.to_nat (fg_bs G)) b = replicate (Z.to_nat (fg_bs G)) 0.
Proof.
  intros Hm. pose proof bs_range. unfold zero_buf. rewrite bind_gets. unfold id. rewrite (mo_bs _ Hm).
  rewrite (bind_ok _ _ _ _ _ (copy_in_ok (g_block_buf s) 0 (replicate (Z.to_nat (fg_bs G)) 0) s ltac:(lia)
    ltac:(rewrite length_replicate, (mo_buf _ Hm); lia))).
  eexists. split; [reflexivity|]. split.
  - rewrite length_splice; [apply (mo_buf _ Hm)|lia|]. rewrite length_replicate, (mo_buf _ Hm). lia.
  - unfold splice. simpl. rewrite take_app_le, take_ge by (rewrite length_replicate; lia). done.
Qed.

Lemma agree_journal s s' : e_journal s' = e_journal s -> agree s s'.
Proof. intros E b _. unfold disk. by rewrite E. Qed.

(** ** Writing back the superblock and the descriptors *)

Lemma length_gd_bytes d : length (bg_reserved d) = 12%nat -> length (gd_bytes d) = 32%nat.
Proof. intros E. unfold gd_bytes. rewrite !length_app, E. done. Qed.

Lemma length_gdt_bytes s : mounted s -> length (concat (gd_bytes <$> g_gdt s)) = 2048%nat.
Proof.
  intros Hm. destruct (mo_gdt _ Hm) as [Hl Hr]. change 2048%nat with (32 * 64)%nat. rewrite <- Hl. clear Hl.
  induction Hr as [|d l Hd _ IH]; [done|]. cbn [fmap list_fmap concat length]. rewrite length_app, length_gd_bytes, IH by done. lia.
Qed.

Lemma sync_gdt_ok n i src left s : mounted s -> 0 <= i -> i + Z.of_nat n <= fg_gdt_blocks G ->
  0 <= src -> 0 <= left -> src + left <= 2048 ->
  wp (sync_gdt n (fg_gdt G) i src left) (fun _ s' => mounted s' /\ agree s s') s.
Proof.
  revert i src left s. induction n as [|n IH]; intros i src left s Hm Hi Hn Hs Hl Hsum; cbn [sync_gdt].
  { apply wp_ret. split; [done|apply agree_refl]. }
  destruct (zero_buf_ok s Hm) as (b & Ez & Hbl & _). eapply wp_bind_ok; [exact Ez|].
  pose proof (mounted_buf s b Hm Hbl) as Hm1. apply wp_bind, wp_gets. unfold id. rewrite (mo_bs _ Hm1).
  set (copy := if fg_bs G <? left then fg_bs G else left). pose proof bs_range.
  assert (0 <= copy <= left /\ copy <= fg_bs G) as Hc by (unfold copy; destruct (Z.ltb_spec (fg_bs G) left); lia). clearbody copy.
  eapply wp_bind_ok; [apply copy_out_ok; [lia|lia|rewrite (length_gdt_bytes _ Hm1); lia]|].
  eapply wp_bind_ok; [apply copy_in_ok; [lia|]; rewrite length_take, length_drop, (length_gdt_bytes _ Hm1), (mo_buf _ Hm1); lia|].
  apply wp_bind, wp_modify. set (s2 := set_block_buf _ _).
  assert (mounted s2) as Hm2.
  { apply mounted_buf; [done|]. rewrite length_splice; [apply (mo_buf _ Hm1)|lia|]. rewrite length_take, length_drop, (length_gdt_bytes _ Hm1), (mo_buf _ Hm1). lia. }
  assert (gdblk G (fg_gdt G + i)) as Hgd by (unfold gdblk; lia).
  assert (0 <= fg_gdt G + i < 100) as Hsmall.
  { unfold fg_gdt_blocks in Hn. pose proof (go_groups _ HG). unfold fg_gdt.
    pose proof (Z.div_le_upper_bound (fg_groups G * 32 + fg_bs G - 1) (fg_bs G) 3 ltac:(lia) ltac:(lia)). destruct (fg_bs G =? 1024); lia. }
  rewrite u32_id by (unfold is_u32; lia).
  eapply wp_step; [apply (write_block_ok s2 _ Hm2); [unfold is_u32; lia|by apply (go_gdt _ HG)]|].
  intros rc s3 (Hm3 & _ & _ & Hw). cbv beta. rewrite u32_id by (unfold is_u32; lia).
  eapply wp_mono; [apply IH; [done|lia|lia|lia|lia|lia]|]. intros [] s4 [Hm4 Ha4]. split; [done|].
  eapply agree_trans; [|exact Ha4]. intros b' Hb'. destruct Hw as [[_ Ha]|[_ Hw]]; [by rewrite (Ha b' Hb')|].
  rewrite Hw by (intros ?; apply Hb'; by left). rewrite decide_False; [done|]. intros ->. apply Hb'. right. by right.
Qed.

Lemma sync_sb_ok s : mounted s ->
  exists d, on_disk (blk_write 2 2 (ext2_sb_bytes (e_sb s) ++ replicate 48 0)) s = Ok (0, set_journal (set_jdev d (e_journal s)) s) /\
    mounted (set_journal (set_jdev d (e_journal s)) s) /\ agree s (set_journal (set_jdev d (e_journal s)) s).
Proof.
  intros Hm. destruct (write_healthy (e_journal s) 2 2 (ext2_sb_bytes (e_sb s) ++ replicate 48 0)) as (d & E & Hh & Hv); [lia| |apply (mo_healthy _ Hm)|].
  { rewrite length_app, length_replicate, (mo_sb _ Hm). lia. }
  exists d. split; [unfold on_disk, zoom; by rewrite E|]. split.
  - replace (set_journal _ s) with (set_block_buf (g_block_buf s) (set_journal (set_jdev d (e_journal s)) s)) by (by destruct s).
    apply mounted_io; [done|apply (mo_buf _ Hm)|by apply idle_dev, mo_journal|done].
  - intros b Hb. pose proof spb_pos. unfold disk. cbn [e_journal set_journal jdev set_jdev]. f_equal.
    apply fmap_seqZ_shift. intros i Hi. rewrite Hv. unfold put_block. rewrite decide_False; [done|].
    intros Hsec. apply Hb. right. left. unfold sbblk. lia.
Qed.

Lemma sync_ok s : mounted s -> wp ext2_sync_locked (fun _ s' => mounted s' /\ agree s s') s.
Proof.
  intros Hm. unfold ext2_sync_locked. apply wp_bind, wp_gets. unfold id. rewrite (mo_bd _ Hm). cbn [negb].
  apply (wp_step _ _ (fun _ s' => mounted s' /\ agree s s')).
  - destruct (negb (g_dirty_sb s =? 0)); [|apply wp_ret; split; [done|apply agree_refl]].
    destruct (sync_sb_ok s Hm) as (d & E & Hm1 & Ha). eapply wp_bind_ok; [exact E|]. apply wp_modify.
    set (s1 := set_journal _ s) in *. split; [|exact Ha]. clearbody s1. destruct Hm1. by split.
  - intros [] s1 [Hm1 Ha1]. cbv beta. destruct (negb (g_dirty_gdt s =? 0)); [|by apply wp_ret].
    rewrite (mo_bs _ Hm), (mo_groups _ Hm). pose proof bs_range. pose proof (go_groups _ HG).
    rewrite (u32_id (fg_groups G * 32)) by (unfold is_u32; lia). rewrite (u32_id (_ + _)) by (unfold is_u32; lia).
    rewrite (u32_id (_ - _)) by (unfold is_u32; lia). unfold udiv. rewrite (proj2 (Z.eqb_neq (fg_bs G) 0)) by lia.
    apply wp_bind, wp_ret. eapply wp_step.
    + apply (sync_gdt_ok _ 0 0 _ s1 Hm1); try lia.
      unfold fg_gdt_blocks. pose proof (Z.div_pos (fg_groups G * 32 + fg_bs G - 1) (fg_bs G) ltac:(lia) ltac:(lia)). lia.
    + intros [] s2 [Hm2 Ha2]. cbv beta. apply wp_modify. split; [destruct Hm2; by split|]. by eapply agree_trans.
Qed.

End Io.
