(* ===== verification/Ext2Inv.v ===== *)
(** * Consistency of an ext2 file system

    What the blocks of the disk mean: which block a position of a file is in,
    which blocks an inode owns, which blocks are marked as used, and the
    entries of a directory.  [layout V I] says that the inodes [I] and the
    blocks [V] are consistent: every block an inode owns is a data block that
    the bitmaps mark as used, no block is owned twice, and every block of a
    directory is a sequence of entries.  [I] is the table of inodes; it need
    not be the one on the disk, since a call changes an inode in memory first. *)

From stdpp Require Import base tactics numbers list gmap.
From S2P Require Import Prelude Block Ext2Disk Ext2 Ext2Io.

(** ** Directory entries *)

(** [d_pad] are the bytes of the record behind the name. *)
Record dent := Dent {
  d_ino : Z;
  d_type : Z;
  d_name : list Z;
  d_pad : list Z
}.

Definition d_rec (e : dent) : Z := 8 + Z.of_nat (length (d_name e)) + Z.of_nat (length (d_pad e)).

Definition dent_bytes (e : dent) : list Z :=
  le32 (d_ino e) ++ le16 (d_rec e) ++ [Z.of_nat (length (d_name e)); d_type e] ++ d_name e ++ d_pad e.

Definition dents_bytes (es : list dent) : list Z := concat (dent_bytes <$> es).

Record dent_ok (G : geo) (e : dent) : Prop := {
  de_ino : 0 <= d_ino e <= fg_inodes G;
  de_len : Z.of_nat (length (d_name e)) <= 255;
  de_align : d_rec e mod 4 = 0
}.

Definition dir_block_ok (G : geo) (b : list Z) : Prop :=
  exists es, b = dents_bytes es /\ Forall (dent_ok G) es.

(** ** Inodes *)

Definition valid_ino (G : geo) (ino : Z) : Prop := 1 <= ino <= fg_inodes G.

Definition iblk (G : geo) (ino : Z) : Z :=
  fg_it G ((ino - 1) / fg_ipg G) + (ino - 1) mod fg_ipg G * fg_isz G / fg_bs G.
Definition ioff (G : geo) (ino : Z) : Z := (ino - 1) mod fg_ipg G * fg_isz G mod fg_bs G.

Definition inode_at (G : geo) (V : Z -> list Z) (ino : Z) : ext2_inode :=
  inode_of (take 128 (drop (Z.to_nat (ioff G ino)) (V (iblk G ino)))).

Definition is_dir (n : ext2_inode) : Prop := is_kind EXT2_S_IFDIR n = true.

(** ** The blocks of an inode *)

Inductive slot := Direct (i : Z) | Ind | IndPtr (i : Z) | Dind | Mid (i : Z) | DindPtr (i j : Z).

#[export] Instance slot_eq_dec : EqDecision slot.
Proof. solve_decision. Defined.

Definition ppb (G : geo) : Z := fg_bs G / 4.

Definition slot_valid (G : geo) (k : slot) : Prop :=
  match k with
  | Direct i => 0 <= i < 12
  | Ind | Dind => True
  | IndPtr i | Mid i => 0 <= i < ppb G
  | DindPtr i j => 0 <= i < ppb G /\ 0 <= j < ppb G
  end.

(** The slots that hold block numbers. *)
Definition ptr_slot (k : slot) : Prop :=
  match k with Ind | Dind | Mid _ => True | _ => False end.

Definition ptr (V : Z -> list Z) (b i : Z) : Z := if b =? 0 then 0 else get32 (V b) (4 * i).

Definition slot_blk (V : Z -> list Z) (n : ext2_inode) (k : slot) : Z :=
  match k with
  | Direct i => nthZ (i_block n) i
  | Ind => nthZ (i_block n) 12
  | IndPtr i => ptr V (nthZ (i_block n) 12) i
  | Dind => nthZ (i_block n) 13
  | Mid i => ptr V (nthZ (i_block n) 13) i
  | DindPtr i j => ptr V (ptr V (nthZ (i_block n) 13) i) j
  end.

Definition slot_of (G : geo) (logical : Z) : option slot :=
  if logical <? 12 then Some (Direct logical)
  else if logical - 12 <? ppb G then Some (IndPtr (logical - 12))
  else if logical - 12 - ppb G <? ppb G * ppb G
       then Some (DindPtr ((logical - 12 - ppb G) / ppb G) ((logical - 12 - ppb G) mod ppb G))
  else None.

(** The block of the position [logical], 0 for a hole. *)
Definition phys (G : geo) (V : Z -> list Z) (n : ext2_inode) (logical : Z) : Z :=
  match slot_of G logical with Some k => slot_blk V n k | None => 0 end.

(** The byte of a file at a position. *)
Definition fbyte (G : geo) (V : Z -> list Z) (n : ext2_inode) (p : Z) : Z :=
  let b := phys G V n (p / fg_bs G) in if b =? 0 then 0 else nthZ (V b) (p mod fg_bs G).

(** How many of the direct blocks there are. *)
Definition filled (n : ext2_inode) : Z := Z.of_nat (length (filter (fun b => b <> 0) (take 12 (i_block n)))).

(** Directories grow by a block at a time, in front of which there is room. *)
Definition size_ok (n : ext2_inode) : Prop := i_size n <= 1073741824 + 4096 * filled n.

(** ** The blocks of the disk *)

Definition in_area (G : geo) (b : Z) : Prop := fg_first G <= b < fg_first G + fg_groups G * fg_bpg G.

Record data_block (G : geo) (b : Z) : Prop := {
  db_pos : 0 < b;
  db_area : in_area G b;
  db_apart : ~ reserved G b;
  db_meta : forall m, meta_valid G m -> meta_loc G m <> b
}.

Definition bit_of (bm : list Z) (bit : Z) : bool := Z.testbit (nthZ bm (bit / 8)) (bit mod 8).

Definition used (G : geo) (V : Z -> list Z) (b : Z) : bool :=
  bit_of (V (fg_bb G ((b - fg_first G) / fg_bpg G))) ((b - fg_first G) mod fg_bpg G).

(** The mark of an inode, and the inodes that have to have it. *)
Definition iused (G : geo) (V : Z -> list Z) (ino : Z) : bool :=
  bit_of (V (fg_ib G ((ino - 1) / fg_ipg G))) ((ino - 1) mod fg_ipg G).

Definition live (n : ext2_inode) : Prop := i_links_count n <> 0.

(** ** Consistency *)

Record layout (G : geo) (V : Z -> list Z) (I : Z -> ext2_inode) : Prop := {
  ly_wf : forall ino, valid_ino G ino -> inode_wf (I ino);
  ly_size : forall ino, valid_ino G ino -> size_ok (I ino);
  ly_own : forall ino k, valid_ino G ino -> slot_valid G k -> slot_blk V (I ino) k <> 0 ->
    data_block G (slot_blk V (I ino) k) /\ used G V (slot_blk V (I ino) k) = true;
  ly_inj : forall ino k ino' k', valid_ino G ino -> valid_ino G ino' -> slot_valid G k -> slot_valid G k' ->
    slot_blk V (I ino) k = slot_blk V (I ino') k' -> slot_blk V (I ino) k <> 0 -> ino = ino' /\ k = k';
  ly_dir : forall ino logical, valid_ino G ino -> is_dir (I ino) -> 0 <= logical -> phys G V (I ino) logical <> 0 ->
    dir_block_ok G (V (phys G V (I ino) logical));
  ly_free : forall b, in_area G b -> used G V b = false -> data_block G b;
  ly_live : forall ino, valid_ino G ino -> live (I ino) -> iused G V ino = true
}.

Definition stored (G : geo) (V : Z -> list Z) (I : Z -> ext2_inode) : Prop :=
  forall ino, valid_ino G ino -> inode_at G V ino = I ino.

Definition upd (I : Z -> ext2_inode) (ino : Z) (n : ext2_inode) : Z -> ext2_inode :=
  fun x => if decide (x = ino) then n else I x.

Lemma upd_same I ino n : upd I ino n ino = n.
Proof. unfold upd. by rewrite decide_True. Qed.
Lemma upd_other I ino n x : x <> ino -> upd I ino n x = I x.
Proof. intros. unfold upd. by rewrite decide_False. Qed.

(** The block belongs to no inode. *)
Definition unowned (G : geo) (V : Z -> list Z) (I : Z -> ext2_inode) (b : Z) : Prop :=
  forall ino k, valid_ino G ino -> slot_valid G k -> slot_blk V (I ino) k <> b.

Section Layout.
Context (G : geo) (HG : geo_ok G).
Implicit Types (V : Z -> list Z) (I : Z -> ext2_inode).

Lemma bs_cases : fg_bs G = 1024 \/ fg_bs G = 2048 \/ fg_bs G = 4096.
Proof. apply (go_bs _ HG). Qed.

Lemma ppb_range : 256 <= ppb G <= 1024.
Proof. unfold ppb. destruct bs_cases as [->|[->| ->]]; done. Qed.

Lemma slot_of_valid logical k : 0 <= logical -> slot_of G logical = Some k -> slot_valid G k.
Proof.
  intros Hl. unfold slot_of. pose proof ppb_range as Hp.
  destruct (Z.ltb_spec logical 12); [intros [= <-]; simpl; lia|].
  destruct (Z.ltb_spec (logical - 12) (ppb G)); [intros [= <-]; simpl; lia|].
  destruct (Z.ltb_spec (logical - 12 - ppb G) (ppb G * ppb G)) as [Hlt|]; [|done]. intros [= <-]. simpl. split.
  - split; [apply Z.div_pos; lia|]. apply Z.div_lt_upper_bound; lia.
  - apply Z.mod_pos_bound. lia.
Qed.

Lemma slot_of_inj l l' k : 0 <= l -> 0 <= l' -> slot_of G l = Some k -> slot_of G l' = Some k -> l = l'.
Proof.
  intros Hl Hl'. unfold slot_of. pose proof ppb_range as Hp.
  repeat match goal with |- context [?a <? ?b] => destruct (Z.ltb_spec a b) end; intros; simplify_eq; try lia.
  pose proof (Z.div_mod (l - 12 - ppb G) (ppb G) ltac:(lia)). pose proof (Z.div_mod (l' - 12 - ppb G) (ppb G) ltac:(lia)). nia.
Qed.

Lemma slot_of_data logical k : slot_of G logical = Some k -> ~ ptr_slot k.
Proof. unfold slot_of. repeat case_match; intros; simplify_eq; simpl; tauto. Qed.

(** The blocks of an inode only depend on the blocks of block numbers. *)
Lemma slot_blk_ext V V' n : 
  (forall k, slot_valid G k -> ptr_slot k -> slot_blk V n k <> 0 -> V' (slot_blk V n k) = V (slot_blk V n k)) ->
  forall k, slot_valid G k -> slot_blk V' n k = slot_blk V n k.
Proof.
  intros H k Hk. assert (forall b i, (b <> 0 -> V' b = V b) -> ptr V' b i = ptr V b i) as Hptr.
  { intros b i Hb. unfold ptr. destruct (Z.eqb_spec b 0); [done|]. by rewrite Hb. }
  destruct k; simpl in *; try done; try (apply Hptr; intros; by apply (H Ind) || by apply (H Dind)).
  rewrite (Hptr (nthZ (i_block n) 13) i) by (intros; by apply (H Dind)). apply Hptr. intros. apply (H (Mid i)); [apply Hk|done|done].
Qed.

Lemma phys_slot V n logical k : slot_of G logical = Some k -> phys G V n logical = slot_blk V n k.
Proof. unfold phys. by intros ->. Qed.

Lemma phys_ext V V' n : (forall k, slot_valid G k -> slot_blk V' n k = slot_blk V n k) ->
  forall logical, 0 <= logical -> phys G V' n logical = phys G V n logical.
Proof.
  intros H logical Hl. unfold phys. destruct (slot_of G logical) as [k|] eqn:E; [|done]. apply H. by eapply slot_of_valid.
Qed.

Lemma phys_inv V n logical : phys G V n logical <> 0 -> exists k, slot_of G logical = Some k /\ phys G V n logical = slot_blk V n k.
Proof. unfold phys. destruct (slot_of G logical) as [k|]; [eauto|done]. Qed.

(** ** Changing blocks *)

Lemma layout_ext V V' I : layout G V I ->
  (forall ino k, valid_ino G ino -> slot_valid G k -> ptr_slot k -> slot_blk V (I ino) k <> 0 ->
     V' (slot_blk V (I ino) k) = V (slot_blk V (I ino) k)) ->
  (forall ino k, valid_ino G ino -> slot_valid G k -> slot_blk V (I ino) k <> 0 ->
     used G V' (slot_blk V (I ino) k) = true) ->
  (forall ino logical, valid_ino G ino -> is_dir (I ino) -> 0 <= logical -> phys G V (I ino) logical <> 0 ->
     dir_block_ok G (V' (phys G V (I ino) logical))) ->
  (forall b, in_area G b -> used G V' b = false -> data_block G b) ->
  (forall ino, valid_ino G ino -> iused G V ino = true -> iused G V' ino = true) ->
  layout G V' I.
Proof.
  intros [] Hptr Hused Hdir Hfree Hlive.
  assert (forall ino k, valid_ino G ino -> slot_valid G k -> slot_blk V' (I ino) k = slot_blk V (I ino) k) as Es.
  { intros ino k Hi. apply slot_blk_ext. intros. by apply Hptr. }
  assert (forall ino l, valid_ino G ino -> 0 <= l -> phys G V' (I ino) l = phys G V (I ino) l) as Ep.
  { intros ino l Hi. apply phys_ext. intros. by apply Es. }
  split; try done.
  - intros ino k Hi Hk. rewrite Es by done. intros Hne. split; [by apply ly_own0|by apply Hused].
  - intros ino k ino' k' Hi Hi' Hk Hk'. rewrite !Es by done. by apply ly_inj0.
  - intros ino l Hi Hd Hl. rewrite Ep by done. by apply Hdir.
  - intros ino Hi Hn. by apply Hlive, ly_live0.
Qed.

(** The bitmap that an inode is marked in. *)
Lemma ib_valid ino : valid_ino G ino -> meta_valid G (InodeBitmap ((ino - 1) / fg_ipg G)).
Proof.
  intros Hi. unfold valid_ino in Hi. pose proof (go_ipg _ HG). pose proof (go_inodes _ HG). simpl.
  split; [apply Z.div_pos; lia|]. apply Z.div_lt_upper_bound; nia.
Qed.

Lemma iused_keep V V' ino : valid_ino G ino -> V' (fg_ib G ((ino - 1) / fg_ipg G)) = V (fg_ib G ((ino - 1) / fg_ipg G)) ->
  iused G V' ino = iused G V ino.
Proof. intros Hi E. unfold iused. by rewrite E. Qed.

(** Writing a block that holds no block numbers. *)
Lemma layout_write V V' I b : layout G V I -> data_block G b ->
  (forall b', ~ reserved G b' -> b' <> b -> V' b' = V b') ->
  (forall ino k, valid_ino G ino -> slot_valid G k -> ptr_slot k -> slot_blk V (I ino) k <> b) ->
  (forall ino logical, valid_ino G ino -> is_dir (I ino) -> 0 <= logical -> phys G V (I ino) logical = b -> dir_block_ok G (V' b)) ->
  layout G V' I.
Proof.
  intros HL Hb Hv Hptr Hdir. pose proof HL as [].
  assert (forall b', in_area G b' -> used G V' b' = used G V b') as Eu.
  { intros b' Ha. unfold used. f_equal. pose proof (go_bpg _ HG). pose proof (go_groups _ HG). unfold in_area in Ha.
    assert (meta_valid G (BlockBitmap ((b' - fg_first G) / fg_bpg G))) as Hm.
    { simpl. split; [apply Z.div_pos; lia|]. apply Z.div_lt_upper_bound; nia. }
    apply Hv; [apply (go_meta _ HG _ Hm)|]. apply (db_meta _ _ Hb _ Hm). }
  eapply layout_ext; [done| | | | |].
  - intros ino k Hi Hk Hp Hne. apply Hv; [|by apply Hptr]. apply (db_apart _ _ (proj1 (ly_own0 ino k Hi Hk Hne))).
  - intros ino k Hi Hk Hne. destruct (ly_own0 ino k Hi Hk Hne) as [Hd Hu]. rewrite Eu; [done|apply (db_area _ _ Hd)].
  - intros ino l Hi Hd Hl Hne. destruct (decide (phys G V (I ino) l = b)) as [E|E]; [rewrite E; by apply (Hdir ino l)|].
    rewrite Hv; [by apply ly_dir0| |done]. destruct (phys_inv _ _ _ Hne) as (k & Ek & E2). rewrite E2 in *.
    by apply (ly_own0 ino k Hi (slot_of_valid _ _ Hl Ek)).
  - intros b' Ha Hu. apply ly_free0; [done|]. by rewrite <- Eu.
  - intros ino Hi Hn. rewrite (iused_keep V); [done|done|]. pose proof (ib_valid ino Hi) as Hm.
    apply Hv; [apply (go_meta _ HG _ Hm)|apply (db_meta _ _ Hb _ Hm)].
Qed.

(** Writing a block of metadata. *)
Lemma layout_meta V V' I m : layout G V I -> meta_valid G m ->
  (forall b', ~ reserved G b' -> b' <> meta_loc G m -> V' b' = V b') ->
  (forall ino k, valid_ino G ino -> slot_valid G k -> slot_blk V (I ino) k <> 0 -> used G V' (slot_blk V (I ino) k) = true) ->
  (forall b, in_area G b -> used G V' b = false -> data_block G b) ->
  (forall ino, valid_ino G ino -> iused G V ino = true -> iused G V' ino = true) ->
  layout G V' I.
Proof.
  intros HL Hm Hv Hu Hf Hlive. pose proof HL as [].
  assert (forall ino k, valid_ino G ino -> slot_valid G k -> slot_blk V (I ino) k <> 0 ->
    V' (slot_blk V (I ino) k) = V (slot_blk V (I ino) k)) as Eb.
  { intros ino k Hi Hk Hne. destruct (ly_own0 ino k Hi Hk Hne) as [Hd _]. apply Hv; [apply (db_apart _ _ Hd)|].
    intros E. by apply (db_meta _ _ Hd m Hm). }
  eapply layout_ext; try done; [intros; by apply Eb|]. intros ino l Hi Hd Hl Hne.
  destruct (phys_inv _ _ _ Hne) as (k & Ek & E). rewrite E in *. rewrite Eb; [|done|by eapply slot_of_valid|done].
  rewrite <- E. by apply ly_dir0; rewrite ?E.
Qed.

(** Metadata that holds no mark of an inode. *)
Lemma iused_meta V V' m ino : meta_valid G m -> (forall g, m <> InodeBitmap g) ->
  (forall b', ~ reserved G b' -> b' <> meta_loc G m -> V' b' = V b') -> valid_ino G ino -> iused G V' ino = iused G V ino.
Proof.
  intros Hm Hnb Hv Hi. apply iused_keep; [done|]. pose proof (ib_valid ino Hi) as Hm'. apply Hv; [apply (go_meta _ HG _ Hm')|].
  intros E. by apply (Hnb _ (eq_sym (go_inj _ HG _ _ Hm' Hm E))).
Qed.

(** Inode bitmaps and inode tables say nothing about blocks. *)
Lemma layout_table V V' I m : layout G V I -> meta_valid G m -> (forall g, m <> BlockBitmap g) ->
  (forall b', ~ reserved G b' -> b' <> meta_loc G m -> V' b' = V b') ->
  (forall ino, valid_ino G ino -> iused G V ino = true -> iused G V' ino = true) -> layout G V' I.
Proof.
  intros HL Hm Hnb Hv Hlive. pose proof HL as [].
  assert (forall b', in_area G b' -> used G V' b' = used G V b') as Eu.
  { intros b' Ha. unfold used. f_equal. pose proof (go_bpg _ HG). pose proof (go_groups _ HG). unfold in_area in Ha.
    assert (meta_valid G (BlockBitmap ((b' - fg_first G) / fg_bpg G))) as Hm'.
    { simpl. split; [apply Z.div_pos; lia|]. apply Z.div_lt_upper_bound; nia. }
    apply Hv; [apply (go_meta _ HG _ Hm')|]. intros E. by apply (Hnb _ (eq_sym (go_inj _ HG _ _ Hm' Hm E))). }
  eapply layout_meta; try done.
  - intros ino k Hi Hk Hne. destruct (ly_own0 ino k Hi Hk Hne) as [Hd Hu]. rewrite Eu; [done|apply (db_area _ _ Hd)].
  - intros b Ha Hu. apply ly_free0; [done|]. by rewrite <- Eu.
Qed.

(** ** Changing an inode *)

Lemma layout_inode V I ino n : layout G V I -> valid_ino G ino -> inode_wf n -> size_ok n ->
  (forall k, slot_valid G k -> slot_blk V n k <> 0 -> slot_blk V n k = slot_blk V (I ino) k \/
     (unowned G V I (slot_blk V n k) /\ data_block G (slot_blk V n k) /\ used G V (slot_blk V n k) = true /\
      forall k', slot_valid G k' -> slot_blk V n k' = slot_blk V n k -> k' = k)) ->
  (is_dir n -> forall logical, 0 <= logical -> phys G V n logical <> 0 -> dir_block_ok G (V (phys G V n logical))) ->
  (live n -> iused G V ino = true) ->
  layout G V (upd I ino n).
Proof.
  intros HL Hi Hw Hs Hk Hd Hlive. pose proof HL as []. split.
  - intros x Hx. unfold upd. case_decide; [done|]. by apply ly_wf0.
  - intros x Hx. unfold upd. case_decide; [done|]. by apply ly_size0.
  - intros x k Hx Hv. unfold upd. case_decide; [|by apply ly_own0]. intros Hne.
    destruct (Hk k Hv Hne) as [E|(_ & ? & ? & _)]; [|done]. rewrite E in *. by apply ly_own0.
  - intros x k x' k' Hx Hx' Hv Hv'. unfold upd. repeat case_decide; subst; intros E Hne.
    + split; [done|]. destruct (Hk k Hv Hne) as [E1|(U1 & _ & _ & Hu1)]; [|by rewrite (Hu1 k' Hv' (eq_sym E))].
      rewrite E in Hne. destruct (Hk k' Hv' Hne) as [E2|(U2 & _)].
      * rewrite <- E in Hne. apply (ly_inj0 ino k ino k'); try done; congruence.
      * exfalso. apply (U2 ino k Hi Hv). congruence.
    + destruct (Hk k Hv Hne) as [E1|(U1 & _)].
      * rewrite E1 in *. destruct (ly_inj0 ino k x' k'); try done.
      * exfalso. by apply (U1 x' k' Hx' Hv').
    + assert (slot_blk V n k' <> 0) as Hne' by congruence. destruct (Hk k' Hv' Hne') as [E1|(U1 & _)].
      * rewrite E1 in *. destruct (ly_inj0 x k ino k'); try done.
      * exfalso. by apply (U1 x k Hx Hv).
    + by apply ly_inj0.
  - intros x l Hx. unfold upd. case_decide; [intros; by apply Hd|by apply ly_dir0].
  - done.
  - intros x Hx. unfold upd. case_decide; [subst; done|by apply ly_live0].
Qed.

(** The other slots when one direct block is replaced. *)
Lemma slot_blk_insert V n n' i v : 0 <= i < 12 -> length (i_block n) = 15%nat ->
  i_block n' = <[Z.to_nat i := v]> (i_block n) ->
  forall k, slot_valid G k -> slot_blk V n' k = if decide (k = Direct i) then v else slot_blk V n k.
Proof.
  intros Hi Hl E k Hk.
  assert (forall j, 0 <= j < 15 -> nthZ (i_block n') j = if decide (i = j) then v else nthZ (i_block n) j) as En.
  { intros j Hj. rewrite E. apply nthZ_insert; lia. }
  destruct k; simpl in *; rewrite ?En by lia; repeat case_decide; simplify_eq; try done; try lia.
Qed.

Lemma phys_insert V n n' i v : 0 <= i < 12 -> length (i_block n) = 15%nat ->
  i_block n' = <[Z.to_nat i := v]> (i_block n) ->
  forall l, 0 <= l -> phys G V n' l = if decide (l = i) then v else phys G V n l.
Proof.
  intros Hi Hl E l Hl0. unfold phys. destruct (slot_of G l) as [k|] eqn:Ek.
  - rewrite (slot_blk_insert V n n' i v Hi Hl E k (slot_of_valid _ _ Hl0 Ek)).
    assert (slot_of G i = Some (Direct i)) as Ei by (unfold slot_of; by rewrite (proj2 (Z.ltb_lt i 12)) by lia).
    destruct (decide (k = Direct i)) as [->|Hne].
    + rewrite decide_True; [done|]. by apply (slot_of_inj l i (Direct i)); try lia.
    + rewrite decide_False; [done|]. intros ->. rewrite Ek in Ei. congruence.
  - rewrite decide_False; [done|]. intros ->. unfold slot_of in Ek. by rewrite (proj2 (Z.ltb_lt i 12)) in Ek by lia.
Qed.

(** A new block, with its contents already on the disk. *)
Lemma layout_add V I ino n i b : layout G V I -> valid_ino G ino -> inode_wf n -> size_ok n ->
  0 <= i < 12 -> i_block n = <[Z.to_nat i := b]> (i_block (I ino)) -> i_mode n = i_mode (I ino) -> i_links_count n = i_links_count (I ino) ->
  data_block G b -> used G V b = true -> unowned G V I b -> (is_dir n -> dir_block_ok G (V b)) ->
  layout G V (upd I ino n).
Proof.
  intros HL Hi Hw Hs Hr Eb Em Elc Hb Hu Ho Hd. pose proof (iw_block _ (ly_wf _ _ _ HL ino Hi)) as [Hl _].
  pose proof (slot_blk_insert V (I ino) n i b Hr Hl Eb) as Es. apply layout_inode; try done.
  - intros k Hk. rewrite Es by done. case_decide; [|by left]. intros _. right. split; [done|]. split; [done|]. split; [done|].
    intros k' Hk'. rewrite Es by done. case_decide; [by subst|]. intros E. exfalso. by apply (Ho ino k').
  - intros Hdn l Hl0. rewrite (phys_insert V (I ino) n i b Hr Hl Eb l Hl0). case_decide; [intros; by apply Hd|].
    apply (ly_dir _ _ _ HL); try done. unfold is_dir, is_kind in *. by rewrite <- Em.
  - unfold live. rewrite Elc. by apply (ly_live _ _ _ HL).
Qed.

Lemma layout_drop V I ino n i : layout G V I -> valid_ino G ino -> inode_wf n -> size_ok n ->
  0 <= i < 12 -> i_block n = <[Z.to_nat i := 0]> (i_block (I ino)) -> i_mode n = i_mode (I ino) -> i_links_count n = i_links_count (I ino) ->
  layout G V (upd I ino n).
Proof.
  intros HL Hi Hw Hs Hr Eb Em Elc. pose proof (iw_block _ (ly_wf _ _ _ HL ino Hi)) as [Hl _].
  pose proof (slot_blk_insert V (I ino) n i 0 Hr Hl Eb) as Es. apply layout_inode; try done.
  - intros k Hk. rewrite Es by done. case_decide; [done|by left].
  - intros Hdn l Hl0. rewrite (phys_insert V (I ino) n i 0 Hr Hl Eb l Hl0). case_decide; [done|].
    apply (ly_dir _ _ _ HL); try done. unfold is_dir, is_kind in *. by rewrite <- Em.
  - unfold live. rewrite Elc. by apply (ly_live _ _ _ HL).
Qed.

Lemma slot_blk_same V n n' : i_block n' = i_block n -> forall k, slot_blk V n' k = slot_blk V n k.
Proof. intros E k. destruct k; simpl; by rewrite E. Qed.

Lemma phys_same V n n' l : i_block n' = i_block n -> phys G V n' l = phys G V n l.
Proof. intros E. unfold phys. destruct (slot_of G l); [by apply slot_blk_same|done]. Qed.

Lemma layout_fields V I ino n : layout G V I -> valid_ino G ino -> inode_wf n -> size_ok n ->
  i_block n = i_block (I ino) -> i_mode n = i_mode (I ino) -> (live n -> iused G V ino = true) -> layout G V (upd I ino n).
Proof.
  intros HL Hi Hw Hs Eb Em Hlive. apply layout_inode; try done.
  - intros k Hk _. left. by apply slot_blk_same.
  - intros Hdn l Hl0. rewrite (phys_same V (I ino) n l Eb). apply (ly_dir _ _ _ HL); try done.
    unfold is_dir, is_kind in *. by rewrite <- Em.
Qed.

Lemma layout_times V I ino n : layout G V I -> valid_ino G ino -> inode_wf n -> size_ok n ->
  i_block n = i_block (I ino) -> i_mode n = i_mode (I ino) -> i_links_count n = i_links_count (I ino) -> layout G V (upd I ino n).
Proof. intros HL Hi Hw Hs Eb Em Elc. apply layout_fields; try done. unfold live. rewrite Elc. by apply (ly_live _ _ _ HL). Qed.

(** An inode without blocks. *)
Lemma layout_fresh V I ino n : layout G V I -> valid_ino G ino -> inode_wf n -> size_ok n ->
  i_block n = replicate 15 0 -> iused G V ino = true -> layout G V (upd I ino n).
Proof.
  intros HL Hi Hw Hs Eb Hlive. assert (forall j, nthZ (i_block n) j = 0) as E0.
  { intros j. rewrite Eb. unfold nthZ. destruct (_ !! _) as [x|] eqn:E; [|done]. by apply lookup_replicate in E as [-> _]. }
  assert (forall k, slot_blk V n k = 0) as Es by (intros []; simpl; rewrite ?E0; done).
  apply layout_inode; try done; [intros k _ []; apply Es|]. intros _ l _ []. unfold phys. destruct (slot_of G l); [apply Es|done].
Qed.

End Layout.
