(* ===== verification/Ext2Table.v ===== *)
(** * The inode table of ext2

    Where an inode is on the disk, and that reading and writing one inode does
    what the map of inodes says: a written inode reads back, the others do not
    change. *)

From stdpp Require Import base tactics numbers list gmap.
From S2P Require Import Prelude Alloc Block Ext2Disk Ext2 Ext2Io Ext2Inv.

Lemma get16_app_l b r off : 0 <= off -> off + 2 <= Z.of_nat (length b) -> get16 (b ++ r) off = get16 b off.
Proof.
  intros H0 H1. unfold get16. rewrite !nthZ_app by lia.
  repeat match goal with |- context [?a <? ?b] => destruct (Z.ltb_spec a b); [|lia] end. done.
Qed.

Lemma inode_of_app b r : length b = 128%nat -> inode_of (b ++ r) = inode_of b.
Proof.
  intros Hl. unfold inode_of. rewrite !get32_app_l, !get16_app_l by lia. f_equal.
  - apply list_fmap_ext. intros i x Hx. apply lookup_seqZ in Hx as [-> ?]. apply get32_app_l; rewrite ?Hl; lia.
  - rewrite drop_app_le by lia. rewrite take_app_le; [done|]. rewrite length_drop. lia.
Qed.

Section Where.
Context (G : geo) (HG : geo_ok G).

Definition per_block : Z := fg_bs G / fg_isz G.

Lemma per_block_spec : fg_bs G = per_block * fg_isz G /\ 0 < per_block.
Proof.
  destruct (go_isz _ HG) as [Hi Hd]. pose proof (Z.div_mod (fg_bs G) (fg_isz G) ltac:(lia)). unfold per_block.
  split; [lia|]. apply Z.div_str_pos. lia.
Qed.

Lemma inode_place ino : valid_ino G ino ->
  let idx := (ino - 1) mod fg_ipg G in
  iblk G ino = fg_it G ((ino - 1) / fg_ipg G) + idx / per_block /\ ioff G ino = idx mod per_block * fg_isz G.
Proof.
  intros Hv idx. destruct per_block_spec as [Eb Hp]. destruct (go_isz _ HG) as [Hi _].
  unfold iblk, ioff. fold idx. rewrite Eb. rewrite Z.div_mul_cancel_r by lia. by rewrite Zmult_mod_distr_r.
Qed.

Lemma ioff_range ino : valid_ino G ino -> 0 <= ioff G ino /\ ioff G ino + 128 <= fg_bs G.
Proof.
  intros Hv. destruct (inode_place ino Hv) as [_ ->]. destruct per_block_spec as [Eb Hp]. destruct (go_isz _ HG) as [Hi _].
  pose proof (Z.mod_pos_bound ((ino - 1) mod fg_ipg G) per_block Hp). nia.
Qed.

Lemma ino_group ino : valid_ino G ino -> 0 <= (ino - 1) / fg_ipg G < fg_groups G.
Proof.
  intros Hv. unfold valid_ino in Hv. pose proof (go_ipg _ HG). pose proof (go_inodes _ HG).
  split; [apply Z.div_pos; lia|]. apply Z.div_lt_upper_bound; lia.
Qed.

Lemma iblk_meta ino : valid_ino G ino ->
  exists g i, meta_valid G (InodeTable g i) /\ meta_loc G (InodeTable g i) = iblk G ino /\
    g = (ino - 1) / fg_ipg G /\ i = (ino - 1) mod fg_ipg G * fg_isz G / fg_bs G.
Proof.
  intros Hv. eexists _, _. split; [|split; [|split; reflexivity]]; [|done]. split; [by apply ino_group|].
  pose proof (go_ipg _ HG). destruct (go_isz _ HG). pose proof (Z.mod_pos_bound (ino - 1) (fg_ipg G) ltac:(lia)).
  split; [apply Z.div_pos; nia|]. apply Z.div_lt_upper_bound; [lia|]. unfold table_blocks.
  pose proof (Z.div_mod (fg_ipg G * fg_isz G + fg_bs G - 1) (fg_bs G) ltac:(lia)).
  pose proof (Z.mod_pos_bound (fg_ipg G * fg_isz G + fg_bs G - 1) (fg_bs G) ltac:(lia)). nia.
Qed.

Lemma iblk_ok ino : valid_ino G ino -> is_u32 (iblk G ino) /\ ~ reserved G (iblk G ino).
Proof. intros Hv. destruct (iblk_meta ino Hv) as (g & i & Hm & <- & _). by apply (go_meta _ HG). Qed.

(** Two inodes never overlap. *)
Lemma inodes_apart ino ino' : valid_ino G ino -> valid_ino G ino' -> ino <> ino' -> iblk G ino = iblk G ino' ->
  ioff G ino + 128 <= ioff G ino' \/ ioff G ino' + 128 <= ioff G ino.
Proof.
  intros Hv Hv' Hne E.
  destruct (iblk_meta ino Hv) as (g & i & Hm & E1 & Eg & Ei). destruct (iblk_meta ino' Hv') as (g' & i' & Hm' & E1' & Eg' & Ei').
  assert (InodeTable g i = InodeTable g' i') as [= -> _] by (apply (go_inj _ HG); congruence).
  destruct (inode_place ino Hv) as [E2 ->]. destruct (inode_place ino' Hv') as [E2' ->].
  rewrite E2, E2', <- Eg, <- Eg' in E. destruct per_block_spec as [Eb Hp]. destruct (go_isz _ HG) as [Hi _]. pose proof (go_ipg _ HG) as Hg.
  set (x := (ino - 1) mod fg_ipg G) in *. set (x' := (ino' - 1) mod fg_ipg G) in *.
  assert (x <> x') as Hx.
  { intros Hx. apply Hne. pose proof (Z.div_mod (ino - 1) (fg_ipg G) ltac:(lia)). pose proof (Z.div_mod (ino' - 1) (fg_ipg G) ltac:(lia)).
    fold x in H. fold x' in H0. rewrite <- Eg in H. rewrite <- Eg' in H0. lia. }
  pose proof (Z.div_mod x per_block ltac:(lia)). pose proof (Z.div_mod x' per_block ltac:(lia)).
  assert (x / per_block = x' / per_block) as Eq by lia.
  assert (x mod per_block <> x' mod per_block) by (intros ?; apply Hx; lia). nia.
Qed.

(** ** Writing an inode *)

Definition put_inode (V : Z -> list Z) (ino : Z) (n : ext2_inode) (b : Z) : list Z :=
  if decide (b = iblk G ino) then splice (V b) (ioff G ino) (inode_bytes n) else V b.

Lemma stored_put V V' I ino n : stored G V I -> valid_ino G ino -> inode_wf n ->
  (forall b, ~ reserved G b -> Z.of_nat (length (V b)) = fg_bs G) ->
  (forall b, ~ reserved G b -> V' b = put_inode V ino n b) -> stored G V' (upd I ino n).
Proof.
  intros Hs Hv Hn Hl Hput x Hx. destruct (iblk_ok x Hx) as [_ Hr]. pose proof (length_inode_bytes n Hn) as Hlen.
  destruct (ioff_range ino Hv). unfold inode_at. rewrite Hput by done. unfold put_inode.
  destruct (decide (x = ino)) as [->|Hne].
  - rewrite upd_same, decide_True by done. rewrite splice_same by (rewrite ?Hl by done; lia).
    rewrite <- (app_nil_r (inode_bytes n)). by apply inode_of_bytes.
  - rewrite upd_other by done. rewrite <- (Hs x Hx). unfold inode_at. case_decide as E; [|done]. f_equal.
    destruct (inodes_apart x ino Hx Hv Hne E); destruct (ioff_range x Hx);
      apply splice_other; rewrite ?Hl, ?Hlen by done; lia.
Qed.

Lemma layout_put V V' I ino n : layout G V I -> valid_ino G ino ->
  (forall b, ~ reserved G b -> V' b = put_inode V ino n b) -> layout G V' I.
Proof.
  intros HL Hv Hput. destruct (iblk_meta ino Hv) as (g & i & Hm & E & _).
  assert (forall b, ~ reserved G b -> b <> meta_loc G (InodeTable g i) -> V' b = V b) as Hv'.
  { intros b Hr Hne. rewrite Hput by done. unfold put_inode. rewrite decide_False; [done|]. congruence. }
  apply (layout_table G HG V V' I (InodeTable g i)); try done. intros x Hx. by rewrite (iused_meta G HG V V' (InodeTable g i)).
Qed.

End Where.

Section Table.
Context {D M : Type} `{BlockDevice D} `{Kmalloc M}.
Context (junk : list Z) (G : geo) (HG : geo_ok G) (Lm : gmap Z Z).
Implicit Types s : ext2 D M.
Notation mounted := (mounted G Lm).
Notation disk := (disk G).
Notation agree := (agree G).

Lemma locate_ok s ino : mounted s -> valid_ino G ino ->
  locate_inode ino s = Ok (Some (iblk G ino, ioff G ino), s).
Proof.
  intros Hm Hv. pose proof (bs_range G HG). pose proof (go_ipg _ HG). destruct (go_isz _ HG) as [Hi _].
  pose proof (ino_group G HG ino Hv) as Hg. unfold valid_ino in Hv. pose proof (go_inodes _ HG). pose proof (go_groups _ HG).
  unfold locate_inode. rewrite bind_gets. unfold id. rewrite (u32_id (ino - 1)) by (unfold is_u32; nia).
  rewrite (mo_ipg _ _ _ Hm), (mo_groups _ _ _ Hm), (mo_isz _ _ _ Hm), (mo_bs _ _ _ Hm). unfold udiv, umod.
  rewrite (proj2 (Z.eqb_neq (fg_ipg G) 0)), (proj2 (Z.eqb_neq (fg_bs G) 0)) by lia. rewrite !bind_ret.
  rewrite (proj2 (Z.leb_gt (fg_groups G) _)) by lia. pose proof (Z.mod_pos_bound (ino - 1) (fg_ipg G) ltac:(lia)).
  rewrite (u32_id (_ * _)) by (unfold is_u32; nia). rewrite !bind_ret.
  destruct (gd_ok G HG Lm s _ Hm Hg) as (d & E & _ & _ & _ & Ed). rewrite (bind_ok _ _ _ _ _ E), Ed.
  destruct (iblk_ok G HG ino Hv) as [Hu _]. unfold iblk in *. by rewrite u32_id by done.
Qed.

Lemma ino_guard s ino : mounted s -> valid_ino G ino -> ((ino =? 0) || (s_inodes_count (e_sb s) <? ino)) = false.
Proof.
  intros Hm Hv. rewrite (mo_inodes _ _ _ Hm). unfold valid_ino in Hv.
  rewrite (proj2 (Z.eqb_neq ino 0)), (proj2 (Z.ltb_ge _ ino)) by lia. done.
Qed.

Lemma inode_copy_ok s : mounted s -> inode_copy s = 128.
Proof.
  intros Hm. unfold inode_copy. rewrite (mo_isz _ _ _ Hm). destruct (go_isz _ HG). destruct (Z.ltb_spec 128 (fg_isz G)); lia.
Qed.

Lemma read_inode_ok s ino : mounted s -> valid_ino G ino ->
  wp (read_inode junk ino) (fun r s' => r = (0, inode_at G (disk s) ino) /\ mounted s' /\ agree s s') s.
Proof.
  intros Hm Hv. unfold read_inode. apply wp_bind, wp_gets. unfold id. rewrite (ino_guard _ _ Hm Hv).
  eapply wp_bind_ok; [by apply locate_ok|]. cbv iota.
  eapply wp_step; [by apply (read_block_ok G HG Lm)|]. intros rc s1 (-> & Hm1 & Ha & Hb & _). cbn [Z.eqb negb].
  apply wp_bind, wp_gets. unfold id. rewrite (inode_copy_ok _ Hm1). destruct (ioff_range G HG ino Hv). pose proof (bs_range G HG).
  eapply wp_bind_ok; [apply copy_out_ok; [lia|lia|rewrite (mo_buf _ _ _ Hm1); lia]|]. apply wp_ret. split; [|done]. f_equal.
  unfold inode_at. rewrite <- Hb. change (Z.to_nat 128) with 128%nat.
  rewrite inode_of_app by (rewrite length_take, length_drop, (mo_buf _ _ _ Hm1); lia). f_equal.
  rewrite skipn_firstn_comm, take_take. f_equal. lia.
Qed.

Lemma write_inode_ok s ino n : mounted s -> valid_ino G ino -> inode_wf n ->
  wp (write_inode_locked ino n) (fun rc s' => mounted s' /\
    ((rc = - ENOMEM /\ agree s s') \/
     (rc = 0 /\ forall b, ~ reserved G b -> disk s' b = put_inode G (disk s) ino n b))) s.
Proof.
  intros Hm Hv Hn. unfold write_inode_locked. apply wp_bind, wp_gets. unfold id. rewrite (ino_guard _ _ Hm Hv).
  eapply wp_bind_ok; [by apply locate_ok|]. cbv iota.
  eapply wp_step; [by apply (read_block_ok G HG Lm)|]. intros rc s1 (-> & Hm1 & Ha & Hb & _). cbn [Z.eqb negb].
  apply wp_bind, wp_gets. unfold id. rewrite (inode_copy_ok _ Hm1). destruct (ioff_range G HG ino Hv). pose proof (bs_range G HG).
  pose proof (length_inode_bytes n Hn) as Hl. pose proof (mo_buf _ _ _ Hm1) as Hbl. rewrite take_ge by (rewrite Hl; done).
  eapply wp_bind_ok; [apply copy_in_ok; [lia|]; rewrite Hl, Hbl; lia|]. apply wp_bind, wp_modify.
  set (buf := splice _ _ _). assert (length buf = 4096%nat) as Hbuf by (unfold buf; rewrite length_splice; rewrite ?Hl, ?Hbl; lia).
  destruct (iblk_ok G HG ino Hv) as [Hu Hr].
  eapply wp_mono; [apply (write_block_ok G HG Lm _ _ (mounted_buf G Lm s1 buf Hm1 Hbuf) Hu); intros ?; apply Hr; by left|].
  intros rc s2 (Hm2 & _ & _ & Hw). split; [done|]. destruct Hw as [[-> Ha2]|[-> Hw]]; [left|right]; (split; [done|]).
  - by eapply agree_trans.
  - intros b Hb'. rewrite Hw by (intros ?; apply Hb'; by left). unfold put_inode. case_decide as E; [|by apply Ha].
    subst b. cbn [g_block_buf set_block_buf]. unfold buf. rewrite take_splice by (rewrite ?Hl, ?Hbl; lia). by rewrite Hb.
Qed.

End Table.
