(* ===== verification/Ext2Alloc.v ===== *)
(** * Allocation in ext2

    The bitmaps: a block or an inode that an allocator returns was free, is
    marked afterwards, and no other mark changes.  [holds_fs s I] is the
    invariant of the driver between two calls: the file system is mounted, the
    table on the disk is [I], and the disk is consistent. *)

From stdpp Require Import base tactics numbers list gmap.
From S2P Require Import Prelude Alloc Timer Block Ext2Disk Ext2 Ext2Io Ext2Inv Ext2Table.

(** ** Bits *)

Lemma land_bit x k : 0 <= k -> Z.land x (2 ^ k) = if Z.testbit x k then 2 ^ k else 0.
Proof.
  intros Hk. apply Z.bits_inj'. intros j Hj. rewrite Z.land_spec, Z.pow2_bits_eqb by done.
  destruct (Z.eqb_spec k j) as [->|Hne].
  - destruct (Z.testbit x j) eqn:E; simpl; [by rewrite Z.pow2_bits_true|by rewrite Z.bits_0].
  - rewrite andb_false_r. destruct (Z.testbit x k); [|by rewrite Z.bits_0]. by rewrite Z.pow2_bits_false.
Qed.

Lemma bit_mask_eq bit : 0 <= bit -> bit_mask bit = 2 ^ (bit mod 8) /\ 0 <= bit mod 8 < 8.
Proof.
  intros Hb. pose proof (Z.mod_pos_bound bit 8 ltac:(lia)) as Hm. split; [|done]. unfold bit_mask.
  change 7 with (2 ^ 3 - 1). rewrite land_pow2_mask by lia. change (2 ^ 3) with 8. rewrite Z.shiftl_1_l.
  apply u8_id. unfold is_u8. split; [apply Z.pow_nonneg; lia|].
  apply Z.le_lt_trans with (2 ^ 7); [apply Z.pow_le_mono_r; lia|lia].
Qed.

Lemma clear_mask k j : 0 <= k < 8 -> 0 <= j < 8 -> Z.testbit (u8 (Z.lnot (2 ^ k))) j = negb (j =? k).
Proof.
  intros Hk Hj. unfold u8. change 256 with (2 ^ 8). rewrite Z.mod_pow2_bits_low by lia.
  rewrite Z.lnot_spec by lia. rewrite Z.pow2_bits_eqb by lia. by rewrite Z.eqb_sym.
Qed.

Lemma bit_of_insert l bit bit' v : 0 <= bit -> 0 <= bit' -> bit / 8 < Z.of_nat (length l) -> bit' / 8 < Z.of_nat (length l) ->
  bit_of (<[Z.to_nat (bit / 8) := v]> l) bit' =
  if decide (bit / 8 = bit' / 8) then Z.testbit v (bit' mod 8) else bit_of l bit'.
Proof.
  intros H0 H0' H1 H2. unfold bit_of. pose proof (Z.div_pos bit 8 ltac:(lia) ltac:(lia)). pose proof (Z.div_pos bit' 8 ltac:(lia) ltac:(lia)).
  rewrite nthZ_insert by lia. by case_decide.
Qed.

Lemma bit_of_take l n bit : 0 <= bit < 8 * n -> bit_of (take (Z.to_nat n) l) bit = bit_of l bit.
Proof.
  intros Hb. unfold bit_of. rewrite nthZ_take; [done|].
  split; [apply Z.div_pos; lia|apply Z.div_lt_upper_bound; lia].
Qed.

Lemma same_bit bit bit' : bit / 8 = bit' / 8 -> bit mod 8 = bit' mod 8 -> bit = bit'.
Proof. intros E1 E2. rewrite (Z.div_mod bit 8), (Z.div_mod bit' 8) by lia. congruence. Qed.

Section Bits.
Context {D M : Type} `{BlockDevice D} `{Kmalloc M}.
Context (G : geo) (HG : geo_ok G) (Lm : gmap Z Z).
Implicit Types s : ext2 D M.
Notation mounted := (mounted G Lm).

Lemma byte_of_bit bit : 0 <= bit < 8 * fg_bs G -> Z.shiftr bit 3 = bit / 8 /\ 0 <= bit / 8 < fg_bs G.
Proof.
  intros Hb. rewrite Z.shiftr_div_pow2 by lia. split; [done|]. split; [apply Z.div_pos; lia|apply Z.div_lt_upper_bound; lia].
Qed.

Lemma test_bit_ok s bit : mounted s -> 0 <= bit < 8 * fg_bs G ->
  test_bit bit s = Ok (bit_of (g_block_buf s) bit, s).
Proof.
  intros Hm Hb. destruct (byte_of_bit bit Hb) as [Eb Hr]. pose proof (bs_range G HG). destruct (bit_mask_eq bit ltac:(lia)) as [Em Hk].
  unfold test_bit. rewrite bind_gets. unfold id. rewrite Eb.
  rewrite (bind_ok _ _ _ _ _ (rd_nthZ (g_block_buf s) (bit / 8) s ltac:(rewrite (mo_buf _ _ _ Hm); lia))). unfold ret. do 2 f_equal.
  rewrite Em, land_bit by lia. unfold bit_of. destruct (Z.testbit _ _); [|done].
  rewrite (proj2 (Z.eqb_neq _ 0)); [done|]. pose proof (Z.pow_pos_nonneg 2 (bit mod 8) ltac:(lia) ltac:(lia)). lia.
Qed.

Lemma set_bit_ok s bit : mounted s -> 0 <= bit < 8 * fg_bs G ->
  exists b, set_bit bit s = Ok (tt, set_block_buf b s) /\ length b = 4096%nat /\
    forall bit', 0 <= bit' < 8 * fg_bs G -> bit_of b bit' = bit_of (g_block_buf s) bit' || (bit' =? bit).
Proof.
  intros Hm Hb. destruct (byte_of_bit bit Hb) as [Eb Hr]. pose proof (bs_range G HG). destruct (bit_mask_eq bit ltac:(lia)) as [Em Hk].
  pose proof (mo_buf _ _ _ Hm) as Hl. unfold set_bit. rewrite bind_gets. unfold id. rewrite Eb.
  rewrite (bind_ok _ _ _ _ _ (rd_nthZ (g_block_buf s) (bit / 8) s ltac:(lia))).
  rewrite (bind_ok _ _ _ _ _ (wr_ok (g_block_buf s) (bit / 8) (Z.lor (nthZ (g_block_buf s) (bit / 8)) (bit_mask bit)) s ltac:(lia))).
  eexists. split; [reflexivity|]. split; [by rewrite length_insert|]. intros bit' Hb'. destruct (byte_of_bit bit' Hb') as [_ Hr'].
  rewrite bit_of_insert by lia. rewrite Em. case_decide as E.
  - rewrite Z.lor_spec, Z.pow2_bits_eqb by lia. unfold bit_of. rewrite E. f_equal.
    apply eq_true_iff_eq. rewrite !Z.eqb_eq. split; [intros; by apply same_bit|by intros ->].
  - destruct (Z.eqb_spec bit' bit); [congruence|]. by rewrite orb_false_r.
Qed.

Lemma clear_bit_ok s bit : mounted s -> 0 <= bit < 8 * fg_bs G ->
  exists b, clear_bit bit s = Ok (tt, set_block_buf b s) /\ length b = 4096%nat /\
    forall bit', 0 <= bit' < 8 * fg_bs G -> bit_of b bit' = bit_of (g_block_buf s) bit' && negb (bit' =? bit).
Proof.
  intros Hm Hb. destruct (byte_of_bit bit Hb) as [Eb Hr]. pose proof (bs_range G HG). destruct (bit_mask_eq bit ltac:(lia)) as [Em Hk].
  pose proof (mo_buf _ _ _ Hm) as Hl. unfold clear_bit. rewrite bind_gets. unfold id. rewrite Eb.
  rewrite (bind_ok _ _ _ _ _ (rd_nthZ (g_block_buf s) (bit / 8) s ltac:(lia))).
  rewrite (bind_ok _ _ _ _ _ (wr_ok (g_block_buf s) (bit / 8) (Z.land (nthZ (g_block_buf s) (bit / 8)) (u8 (Z.lnot (bit_mask bit)))) s ltac:(lia))).
  eexists. split; [reflexivity|]. split; [by rewrite length_insert|]. intros bit' Hb'. destruct (byte_of_bit bit' Hb') as [_ Hr'].
  rewrite bit_of_insert by lia. rewrite Em. pose proof (Z.mod_pos_bound bit' 8 ltac:(lia)). case_decide as E.
  - rewrite Z.land_spec, clear_mask by lia. unfold bit_of. rewrite E. do 2 f_equal.
    apply eq_true_iff_eq. rewrite !Z.eqb_eq. split; [intros; by apply same_bit|by intros ->].
  - destruct (Z.eqb_spec bit' bit); [congruence|]. by rewrite andb_true_r.
Qed.

End Bits.

(** ** Marks *)

Section Marks.
Context (G : geo) (HG : geo_ok G).
Implicit Types (V : Z -> list Z) (I : Z -> ext2_inode).

Lemma area_place b : in_area G b ->
  let g := (b - fg_first G) / fg_bpg G in let bit := (b - fg_first G) mod fg_bpg G in
  0 <= g < fg_groups G /\ 0 <= bit < fg_bpg G /\ b = fg_first G + g * fg_bpg G + bit.
Proof.
  intros Ha g bit. unfold in_area in Ha. pose proof (go_bpg _ HG). pose proof (go_groups _ HG).
  pose proof (Z.div_mod (b - fg_first G) (fg_bpg G) ltac:(lia)). pose proof (Z.mod_pos_bound (b - fg_first G) (fg_bpg G) ltac:(lia)).
  split_and!; try (apply Z.div_pos; lia); try (apply Z.div_lt_upper_bound; nia); unfold g, bit; lia.
Qed.

Lemma place_area g bit : 0 <= g < fg_groups G -> 0 <= bit < fg_bpg G ->
  let b := fg_first G + g * fg_bpg G + bit in
  in_area G b /\ is_u32 b /\ (b - fg_first G) / fg_bpg G = g /\ (b - fg_first G) mod fg_bpg G = bit.
Proof.
  intros Hg Hb b. pose proof (go_bpg _ HG). pose proof (go_first _ HG). unfold in_area, is_u32, b.
  replace (fg_first G + g * fg_bpg G + bit - fg_first G) with (bit + g * fg_bpg G) by lia.
  rewrite Z.div_add, Z_mod_plus_full, Z.div_small, Z.mod_small by lia. split_and!; try nia.
Qed.

(** The bit of [b] changed to [v], no other bit and no other block. *)
Record remark V V' (b : Z) (v : bool) : Prop := {
  rm_area : in_area G b;
  rm_rest : forall b', ~ reserved G b' -> b' <> fg_bb G ((b - fg_first G) / fg_bpg G) -> V' b' = V b';
  rm_bits : forall b', in_area G b' -> used G V' b' = if decide (b' = b) then v else used G V b'
}.

Lemma remark_table V V' b v I : remark V V' b v -> stored G V I -> stored G V' I.
Proof.
  intros Hr Hs ino Hv. rewrite <- (Hs ino Hv). unfold inode_at. do 3 f_equal.
  destruct (iblk_meta G HG ino Hv) as (g & i & Hm & E & _). destruct (area_place b (rm_area _ _ _ _ Hr)) as (Hg & _).
  apply (rm_rest _ _ _ _ Hr); [by apply iblk_ok|]. rewrite <- E. intros E2.
  by pose proof (go_inj _ HG (InodeTable g i) (BlockBitmap ((b - fg_first G) / fg_bpg G)) Hm Hg E2).
Qed.

Lemma remark_data V V' b v b' : remark V V' b v -> data_block G b' -> V' b' = V b'.
Proof.
  intros Hr Hd. apply (rm_rest _ _ _ _ Hr); [apply (db_apart _ _ Hd)|]. destruct (area_place b (rm_area _ _ _ _ Hr)) as (Hg & _).
  intros E. by apply (db_meta _ _ Hd (BlockBitmap ((b - fg_first G) / fg_bpg G)) Hg).
Qed.

Lemma remark_iused V V' b v ino : remark V V' b v -> valid_ino G ino -> iused G V' ino = iused G V ino.
Proof.
  intros Hr. destruct (area_place b (rm_area _ _ _ _ Hr)) as (Hg & _).
  apply (iused_meta G HG V V' (BlockBitmap ((b - fg_first G) / fg_bpg G))); try done. apply (rm_rest _ _ _ _ Hr).
Qed.

Lemma layout_mark V V' b I : layout G V I -> remark V V' b true -> layout G V' I.
Proof.
  intros HL Hr. destruct (area_place b (rm_area _ _ _ _ Hr)) as (Hg & _).
  apply (layout_meta G HG V V' I (BlockBitmap ((b - fg_first G) / fg_bpg G))); try done.
  - apply (rm_rest _ _ _ _ Hr).
  - intros ino k Hi Hk Hne. destruct (ly_own _ _ _ HL ino k Hi Hk Hne) as [Hd Hu].
    rewrite (rm_bits _ _ _ _ Hr) by apply (db_area _ _ Hd). by case_decide.
  - intros b' Ha. rewrite (rm_bits _ _ _ _ Hr) by done. case_decide; [done|]. by apply (ly_free _ _ _ HL).
  - intros x Hx. by rewrite (remark_iused V V' b true).
Qed.

Lemma layout_unmark V V' b I : layout G V I -> data_block G b -> unowned G V I b -> remark V V' b false -> layout G V' I.
Proof.
  intros HL Hd Ho Hr. destruct (area_place b (rm_area _ _ _ _ Hr)) as (Hg & _).
  apply (layout_meta G HG V V' I (BlockBitmap ((b - fg_first G) / fg_bpg G))); try done.
  - apply (rm_rest _ _ _ _ Hr).
  - intros ino k Hi Hk Hne. destruct (ly_own _ _ _ HL ino k Hi Hk Hne) as [Hd' Hu].
    rewrite (rm_bits _ _ _ _ Hr) by apply (db_area _ _ Hd'). rewrite decide_False; [done|]. by apply Ho.
  - intros b' Ha. rewrite (rm_bits _ _ _ _ Hr) by done. case_decide; [by subst|]. by apply (ly_free _ _ _ HL).
  - intros x Hx. by rewrite (remark_iused V V' b false).
Qed.

(** A block that was free. *)
Lemma free_unowned V I b : layout G V I -> in_area G b -> used G V b = false -> data_block G b /\ unowned G V I b.
Proof.
  intros HL Ha Hu. pose proof (ly_free _ _ _ HL b Ha Hu) as Hd. split; [done|]. intros ino k Hi Hk E.
  assert (slot_blk V (I ino) k <> 0) as Hne by (pose proof (db_pos _ _ Hd); lia).
  destruct (ly_own _ _ _ HL ino k Hi Hk Hne) as [_ Hu']. congruence.
Qed.

Lemma slot_blk_eq V V' n : (forall b, data_block G b -> V' b = V b) -> 
  (forall k, slot_valid G k -> slot_blk V n k <> 0 -> data_block G (slot_blk V n k)) ->
  forall k, slot_valid G k -> slot_blk V' n k = slot_blk V n k.
Proof. intros Hv Hd. apply slot_blk_ext. intros k Hk _ Hne. by apply Hv, Hd. Qed.

End Marks.

Lemma remark_intro G (HG : geo_ok G) V V' g bit v bm : 0 <= g < fg_groups G -> 0 <= bit < fg_bpg G ->
  (forall b', ~ reserved G b' -> V' b' = if decide (b' = fg_bb G g) then bm else V b') ->
  (forall bit', 0 <= bit' < 8 * fg_bs G -> bit_of bm bit' = if decide (bit' = bit) then v else bit_of (V (fg_bb G g)) bit') ->
  remark G V V' (fg_first G + g * fg_bpg G + bit) v.
Proof.
  intros Hg Hb Hv Hbm. destruct (place_area G HG g bit Hg Hb) as (Ha & _ & Eg & Eb). split; [done| |].
  - intros b' Hr Hne. rewrite Eg in Hne. rewrite Hv by done. by rewrite decide_False.
  - intros b' Ha'. destruct (area_place G HG b' Ha') as (Hg' & Hb' & Eb'). unfold used.
    set (g' := (b' - fg_first G) / fg_bpg G) in *. set (bit' := (b' - fg_first G) mod fg_bpg G) in *. pose proof (go_bpg _ HG).
    rewrite Hv by (by apply (go_meta _ HG (BlockBitmap g'))). case_decide as E.
    + assert (BlockBitmap g' = BlockBitmap g) as [= Egg] by (by apply (go_inj _ HG)). rewrite Hbm by lia. rewrite Eb', Egg.
      repeat case_decide; try done; lia.
    + rewrite decide_False; [done|]. intros ->. apply E. unfold g'. by rewrite Eg.
Qed.

Section Ops.
Context {D M : Type} `{BlockDevice D} `{Kmalloc M}.
Context (junk : list Z) (G : geo) (HG : geo_ok G) (Lm : gmap Z Z).
Implicit Types (s : ext2 D M) (I : Z -> ext2_inode).
Notation mounted := (mounted G Lm).
Notation disk := (disk G).
Notation agree := (agree G).

Lemma layout_agree s s' I : agree s s' -> layout G (disk s) I -> layout G (disk s') I.
Proof.
  intros Ha HL. pose proof (go_groups _ HG). apply (layout_table G HG (disk s) _ I (InodeBitmap 0)); try done; [simpl; lia| |].
  - intros b Hr _. by apply Ha.
  - intros x Hx. rewrite (iused_keep G (disk s) (disk s') x); [done|done|]. by apply Ha, (go_meta _ HG (InodeBitmap _)), (ib_valid G HG).
Qed.

Lemma stored_agree s s' I : agree s s' -> stored G (disk s) I -> stored G (disk s') I.
Proof.
  intros Ha Hs ino Hv. rewrite <- (Hs ino Hv). unfold inode_at. rewrite Ha; [done|]. by apply iblk_ok.
Qed.

(** The file system between two calls. *)
Record holds_fs s I : Prop := {
  hf_mounted : mounted s;
  hf_stored : stored G (disk s) I;
  hf_layout : layout G (disk s) I
}.

Lemma holds_agree s s' I : mounted s' -> agree s s' -> holds_fs s I -> holds_fs s' I.
Proof. intros Hm Ha [_ Hs HL]. split; [done|by eapply stored_agree|by eapply layout_agree]. Qed.

Lemma remark_agree s s1 s2 s3 b v : agree s s1 -> remark G (disk s1) (disk s2) b v -> agree s2 s3 -> remark G (disk s) (disk s3) b v.
Proof.
  intros A1 Hr A2. destruct (area_place G HG b (rm_area _ _ _ _ _ Hr)) as (Hg & _).
  assert (forall b', in_area G b' -> ~ reserved G (fg_bb G ((b' - fg_first G) / fg_bpg G))) as Hbb.
  { intros b' Hb'. destruct (area_place G HG b' Hb') as (Hg' & _). by apply (go_meta _ HG (BlockBitmap _)). }
  split; [apply (rm_area _ _ _ _ _ Hr)| |].
  - intros b' Hr' Hne. by rewrite A2, (rm_rest _ _ _ _ _ Hr), A1.
  - intros b' Hb'. unfold used. rewrite A2, <- A1 by (by apply Hbb). apply (rm_bits _ _ _ _ _ Hr b' Hb').
Qed.

(** Writing the bitmap in the scratch block with the bit changed. *)
Lemma write_bitmap s0 s g bit v : mounted s -> agree s0 s -> 0 <= g < fg_groups G -> 0 <= bit < fg_bpg G ->
  (forall bit', 0 <= bit' < 8 * fg_bs G ->
     bit_of (g_block_buf s) bit' = if decide (bit' = bit) then v else bit_of (disk s0 (fg_bb G g)) bit') ->
  wp (write_block (fg_bb G g)) (fun rc s' => mounted s' /\
    ((rc = - ENOMEM /\ agree s0 s') \/ (rc = 0 /\ remark G (disk s0) (disk s') (fg_first G + g * fg_bpg G + bit) v))) s.
Proof.
  intros Hm Ha Hg Hb Hbits. destruct (go_meta _ HG (BlockBitmap g) Hg) as [Hu Hr]. simpl in Hu, Hr.
  eapply wp_mono; [apply (write_block_ok G HG Lm _ _ Hm Hu); intros ?; apply Hr; by left|].
  intros rc s' (Hm' & _ & _ & Hw). split; [done|]. destruct Hw as [[-> Ha']|[-> Hw]]; [left|right]; (split; [done|]).
  - by eapply agree_trans.
  - apply (remark_intro G HG _ _ _ _ _ (take (Z.to_nat (fg_bs G)) (g_block_buf s))); try done.
    + intros b' Hr'. rewrite Hw by (intros ?; apply Hr'; by left). case_decide; [done|by apply Ha].
    + intros bit' Hbit'. rewrite bit_of_take by done. by apply Hbits.
Qed.

(** After a read of a bitmap the scratch block has its bits. *)
Lemma buf_bits s c bit : buf_is G s c -> 0 <= bit < 8 * fg_bs G -> bit_of (g_block_buf s) bit = bit_of c bit.
Proof. intros <- Hb. by rewrite bit_of_take. Qed.

(** The errors of the search for a free block. *)
Definition alloc_error (r : Z) : bool := (r =? - ENOSPC) || (r =? - EIO).

Lemma alloc_error_neg r : alloc_error r = true -> r < 0 /\ r <> - EEXIST.
Proof. intros [->%Z.eqb_eq| ->%Z.eqb_eq]%orb_true_iff; done. Qed.

Definition alloc_post s (r : Z * Z) (s' : ext2 D M) : Prop :=
  mounted s' /\
  ((alloc_error r.1 = true /\ agree s s') \/
   (r.1 = 0 /\ is_u32 r.2 /\ used G (disk s) r.2 = false /\ remark G (disk s) (disk s') r.2 true)).

Lemma set_bg_free_blocks_keeps f : gd_keeps (fun d => set_bg_free_blocks (f d) d).
Proof. by intros d. Qed.
Lemma set_bg_free_inodes_keeps f : gd_keeps (fun d => set_bg_free_inodes (f d) d).
Proof. by intros d. Qed.

Lemma alloc_block_bit_ok s s1 g d bit : mounted s1 -> agree s s1 -> 0 <= g < fg_groups G -> 0 <= bit < fg_bpg G ->
  bg_block_bitmap d = fg_bb G g -> buf_is G s1 (disk s (fg_bb G g)) ->
  wp (alloc_block_bit g d bit) (fun r s' => match r with Some a => alloc_post s a s' | None => s' = s1 end) s1.
Proof.
  intros Hm Ha Hg Hb Ed Hbuf. pose proof (go_bpg _ HG). unfold alloc_block_bit.
  eapply wp_bind_ok; [apply (test_bit_ok G HG Lm); [done|lia]|].
  destruct (bit_of (g_block_buf s1) bit) eqn:Ebit; [by apply wp_ret|].
  destruct (set_bit_ok G HG Lm s1 bit Hm ltac:(lia)) as (b & E & Hl & Hbits). eapply wp_bind_ok; [exact E|]. rewrite Ed.
  eapply wp_step; [apply (write_bitmap s _ g bit true (mounted_buf G Lm _ _ Hm Hl) ltac:(done) Hg Hb)|].
  { intros bit' Hb'. cbn [g_block_buf set_block_buf]. rewrite Hbits, (buf_bits _ _ _ Hbuf) by done.
    case_decide; [subst; by rewrite Z.eqb_refl, orb_true_r|]. by rewrite (proj2 (Z.eqb_neq _ _)), orb_false_r. }
  intros rc s2 (Hm2 & [[-> Ha2]|[-> Hr]]); cbn [Z.eqb negb].
  - change (negb (- ENOMEM =? 0)) with true. cbv iota. apply wp_ret. split; [done|]. left. split; [done|exact Ha2].
  - apply (counted G HG Lm); [done|done|apply set_bg_free_blocks_keeps|intros; apply set_free_blocks_keeps|].
    intros s3 Hm3 Ej _ _. apply wp_bind, wp_gets, wp_ret. unfold id. rewrite (mo_first _ _ _ Hm3), (mo_bpg _ _ _ Hm3).
    destruct (place_area G HG g bit Hg Hb) as (Harea & Hu & Eg & Eb).
    pose proof (go_first _ HG). assert (0 <= g * fg_bpg G) by nia. unfold is_u32 in Hu.
    rewrite (u32_id (g * fg_bpg G)), (u32_id (fg_first G + g * fg_bpg G)), u32_id by (unfold is_u32; lia).
    split; [done|]. right. split; [done|]. split; [exact Hu|]. split.
    + cbn [snd]. unfold used. rewrite Eg, Eb. by rewrite <- (buf_bits _ _ _ Hbuf) by lia.
    + eapply remark_agree; [apply agree_refl|exact Hr|by apply agree_journal].
Qed.

Lemma alloc_block_ok s g : mounted s -> 0 <= g < fg_groups G -> wp (alloc_block_in_group_locked g) (alloc_post s) s.
Proof.
  intros Hm Hg. unfold alloc_block_in_group_locked. destruct (gd_ok G HG Lm s g Hm Hg) as (d & E & _ & Ed & _).
  eapply wp_bind_ok; [exact E|]. case_match; [apply wp_ret; split; [done|left; split; [done|apply agree_refl]]|].
  rewrite Ed. eapply wp_step; [by apply (read_block_ok G HG Lm)|]. intros rc s1 (-> & Hm1 & Ha & Hb & _). cbn [Z.eqb negb].
  apply wp_bind, wp_gets. rewrite (mo_bpg _ _ _ Hm1). eapply wp_step.
  { apply (for_until_wp (fun _ s' => s' = s1) (fun a s' => alloc_post s a s')); [done|].
    intros k s' Hk ->. apply alloc_block_bit_ok; try done. lia. }
  intros [r|] s2 Hr; apply wp_ret; cbv beta iota in Hr; [exact Hr|]. subst. split; [done|]. left. split; [done|exact Ha].
Qed.

Lemma alloc_post_agree s s1 r s' : agree s s1 -> alloc_post s1 r s' -> alloc_post s r s'.
Proof.
  intros Ha [Hm [[Hr Ha']|(Hr & Hu & Hf & Hk)]]; (split; [done|]); [left; split; [done|by eapply agree_trans]|right].
  split_and!; try done; [|by eapply remark_agree; [exact Ha|exact Hk|apply agree_refl]].
  unfold used in *. destruct (area_place G HG _ (rm_area _ _ _ _ _ Hk)) as (Hg & _). rewrite <- Ha; [done|]. by apply (go_meta _ HG (BlockBitmap _)).
Qed.

Lemma alloc_groups_ok s s0 n g last : mounted s -> agree s0 s -> 0 <= g -> g + Z.of_nat n <= fg_groups G -> alloc_error last.1 = true ->
  wp (alloc_groups alloc_block_in_group_locked n g last) (alloc_post s0) s.
Proof.
  revert g s last. induction n as [|n IH]; intros g s last Hm Ha Hg Hn Hl; cbn [alloc_groups].
  { apply wp_ret. split; [done|]. by left. }
  eapply wp_step; [apply alloc_block_ok; [done|lia]|]. intros [rc x] s1 Hp. cbv beta iota.
  pose proof (alloc_post_agree s0 s _ _ Ha Hp) as Hp0.
  destruct ((rc =? 0) || (rc =? - EIO)) eqn:E; [by apply wp_ret|]. apply orb_false_iff in E as [E%Z.eqb_neq _].
  destruct Hp0 as [Hm1 [[Hr Ha1]|(Hr & _)]]; [|done]. apply IH; try done; lia.
Qed.

Lemma alloc_next_ok s s0 n g last : 0 <= g -> g + Z.of_nat n <= fg_groups G -> alloc_post s0 last s ->
  wp (alloc_next n g last) (alloc_post s0) s.
Proof.
  revert g s last. induction n as [|n IH]; intros g s last Hg Hn Hp; cbn [alloc_next]; [by apply wp_ret|].
  destruct (Z.eqb_spec last.1 0); [by apply wp_ret|]. destruct Hp as [Hm [[Hr Ha]|(? & _)]]; [|done].
  eapply wp_step; [apply alloc_block_ok; [done|lia]|]. intros r s1 Hp. cbv beta. apply IH; [lia|lia|]. by eapply alloc_post_agree.
Qed.

Lemma alloc_any_ok s : mounted s -> wp alloc_any (alloc_post s) s.
Proof.
  intros Hm. pose proof (go_groups _ HG). unfold alloc_any. eapply wp_step; [apply alloc_block_ok; [done|lia]|].
  intros r s1 Hp. cbv beta. apply wp_bind, wp_gets. rewrite (mo_groups _ _ _ (proj1 Hp)). apply alloc_next_ok; [lia|lia|done].
Qed.

(** ** Inodes *)

Definition same_data s s' : Prop := forall b, data_block G b -> disk s' b = disk s b.

Lemma agree_data s s' : agree s s' -> same_data s s'.
Proof. intros Ha b Hb. apply Ha, (db_apart _ _ Hb). Qed.

Lemma data_trans s1 s2 s3 : same_data s1 s2 -> same_data s2 s3 -> same_data s1 s3.
Proof. intros E1 E2 b Hb. by rewrite E2, E1. Qed.

(** The bit of the inode is set, and no other block changed. *)
Record imark (V V' : Z -> list Z) (ino : Z) : Prop := {
  im_range : 1 <= ino <= fg_groups G * fg_ipg G;
  im_rest : forall b, ~ reserved G b -> b <> fg_ib G ((ino - 1) / fg_ipg G) -> V' b = V b;
  im_bits : forall ino', 1 <= ino' <= fg_groups G * fg_ipg G -> iused G V' ino' = iused G V ino' || (ino' =? ino)
}.

Lemma ino_place ino : 1 <= ino <= fg_groups G * fg_ipg G ->
  let g := (ino - 1) / fg_ipg G in let bit := (ino - 1) mod fg_ipg G in
  0 <= g < fg_groups G /\ 0 <= bit < fg_ipg G /\ ino = g * fg_ipg G + bit + 1.
Proof.
  intros Hi g bit. pose proof (go_ipg _ HG). pose proof (Z.div_mod (ino - 1) (fg_ipg G) ltac:(lia)).
  pose proof (Z.mod_pos_bound (ino - 1) (fg_ipg G) ltac:(lia)).
  split_and!; try (apply Z.div_pos; lia); try (apply Z.div_lt_upper_bound; nia); unfold g, bit; lia.
Qed.

Lemma place_ino g bit : 0 <= g < fg_groups G -> 0 <= bit < fg_ipg G ->
  let ino := g * fg_ipg G + bit + 1 in
  1 <= ino <= fg_groups G * fg_ipg G /\ (ino - 1) / fg_ipg G = g /\ (ino - 1) mod fg_ipg G = bit.
Proof.
  intros Hg Hb ino. unfold ino. replace (g * fg_ipg G + bit + 1 - 1) with (bit + g * fg_ipg G) by lia.
  rewrite Z.div_add, Z_mod_plus_full, Z.div_small, Z.mod_small by lia. split_and!; try nia.
Qed.

Lemma ib_loc ino : 1 <= ino <= fg_groups G * fg_ipg G -> meta_valid G (InodeBitmap ((ino - 1) / fg_ipg G)).
Proof. intros Hi. apply (ino_place ino Hi). Qed.

Lemma imark_layout V V' ino I : imark V V' ino -> layout G V I -> layout G V' I.
Proof.
  intros Hk HL. apply (layout_table G HG V V' I (InodeBitmap ((ino - 1) / fg_ipg G))); try done.
  - apply ib_loc, (im_range _ _ _ Hk).
  - apply (im_rest _ _ _ Hk).
  - intros x Hx Hu. rewrite (im_bits _ _ _ Hk), Hu; [done|]. pose proof (go_inodes _ HG). unfold valid_ino in Hx. lia.
Qed.

Lemma imark_stored V V' ino I : imark V V' ino -> stored G V I -> stored G V' I.
Proof.
  intros Hk Hs x Hx. rewrite <- (Hs x Hx). unfold inode_at. do 3 f_equal.
  destruct (iblk_meta G HG x Hx) as (g & i & Hm & E & _). apply (im_rest _ _ _ Hk); [by apply iblk_ok|]. rewrite <- E. intros E2.
  by pose proof (go_inj _ HG (InodeTable g i) (InodeBitmap ((ino - 1) / fg_ipg G)) Hm (ib_loc _ (im_range _ _ _ Hk)) E2).
Qed.

Lemma imark_data V V' ino b : imark V V' ino -> data_block G b -> V' b = V b.
Proof.
  intros Hk Hd. apply (im_rest _ _ _ Hk); [apply (db_apart _ _ Hd)|]. intros E.
  by apply (db_meta _ _ Hd (InodeBitmap ((ino - 1) / fg_ipg G)) (ib_loc _ (im_range _ _ _ Hk))).
Qed.

Lemma imark_intro V V' g bit bm : 0 <= g < fg_groups G -> 0 <= bit < fg_ipg G ->
  (forall b', ~ reserved G b' -> V' b' = if decide (b' = fg_ib G g) then bm else V b') ->
  (forall bit', 0 <= bit' < 8 * fg_bs G -> bit_of bm bit' = bit_of (V (fg_ib G g)) bit' || (bit' =? bit)) ->
  imark V V' (g * fg_ipg G + bit + 1).
Proof.
  intros Hg Hb Hv Hbm. destruct (place_ino g bit Hg Hb) as (Hi & Eg & Eb). split; [done| |].
  - intros b' Hr Hne. rewrite Eg in Hne. rewrite Hv by done. by rewrite decide_False.
  - intros x Hx. destruct (ino_place x Hx) as (Hg' & Hb' & Ex). unfold iused.
    set (g' := (x - 1) / fg_ipg G) in *. set (bit' := (x - 1) mod fg_ipg G) in *. pose proof (go_ipg _ HG).
    rewrite Hv by (by apply (go_meta _ HG (InodeBitmap g'))). case_decide as E.
    + assert (InodeBitmap g' = InodeBitmap g) as [= Egg] by (by apply (go_inj _ HG)). rewrite Hbm by lia. rewrite Egg. f_equal.
      apply eq_true_iff_eq. rewrite !Z.eqb_eq. rewrite Ex, Egg. lia.
    + rewrite (proj2 (Z.eqb_neq x _)); [by rewrite orb_false_r|]. intros ->. apply E. unfold g'. by rewrite Eg.
Qed.

Definition ialloc_post s (r : Z * Z) (s' : ext2 D M) : Prop :=
  mounted s' /\ ((r.1 < 0 /\ agree s s') \/ (r.1 = 0 /\ iused G (disk s) r.2 = false /\ imark (disk s) (disk s') r.2)).

Lemma alloc_inode_bit_ok s s1 g d bit : mounted s1 -> agree s s1 -> 0 <= g < fg_groups G -> 0 <= bit < fg_ipg G ->
  bg_inode_bitmap d = fg_ib G g -> buf_is G s1 (disk s (fg_ib G g)) ->
  wp (alloc_inode_bit g d bit) (fun r s' => match r with Some a => ialloc_post s a s' | None => s' = s1 end) s1.
Proof.
  intros Hm Ha Hg Hb Ed Hbuf. pose proof (go_ipg _ HG). pose proof (go_groups _ HG). unfold alloc_inode_bit.
  eapply wp_bind_ok; [apply (test_bit_ok G HG Lm); [done|lia]|].
  destruct (bit_of (g_block_buf s1) bit) eqn:Ebit; [by apply wp_ret|]. apply wp_bind, wp_gets. unfold id.
  rewrite (mo_ipg _ _ _ Hm). destruct (place_ino g bit Hg Hb) as (Hi & Eg & Eb). pose proof (bs_range G HG).
  rewrite (u32_id (g * fg_ipg G)), (u32_id (g * fg_ipg G + bit)), u32_id by (unfold is_u32; nia).
  case_match; [by apply wp_ret|].
  destruct (set_bit_ok G HG Lm s1 bit Hm ltac:(lia)) as (b & E & Hl & Hbits). eapply wp_bind_ok; [exact E|]. rewrite Ed.
  destruct (go_meta _ HG (InodeBitmap g) Hg) as [Hu Hr]. simpl in Hu, Hr.
  eapply wp_step; [apply (write_block_ok G HG Lm _ _ (mounted_buf G Lm _ _ Hm Hl) Hu); intros ?; apply Hr; by left|].
  intros rc s2 (Hm2 & _ & _ & Hw). destruct Hw as [[-> Ha2]|[-> Hw]]; cbn [Z.eqb negb].
  - change (negb (- ENOMEM =? 0)) with true. cbv iota. apply wp_ret. split; [done|]. left. split; [done|]. by eapply agree_trans; [exact Ha|exact Ha2].
  - apply (counted G HG Lm); [done|done|apply set_bg_free_inodes_keeps|intros; apply set_free_inodes_keeps|].
    intros s3 Hm3 Ej _ _. apply wp_ret. split; [done|]. right. split; [done|]. cbn [snd]. split.
    + unfold iused. rewrite Eg, Eb. by rewrite <- (buf_bits _ _ _ Hbuf) by lia.
    + apply (imark_intro _ _ _ _ (take (Z.to_nat (fg_bs G)) b)); try done.
      * intros b' Hr'. rewrite (agree_journal G s2 s3 Ej b' Hr'). rewrite Hw by (intros ?; apply Hr'; by left). case_decide; [done|by apply Ha].
      * intros bit' Hb'. rewrite bit_of_take by done. by rewrite Hbits, (buf_bits _ _ _ Hbuf) by done.
Qed.

Lemma alloc_inode_group_ok s g : mounted s -> 0 <= g < fg_groups G -> wp (alloc_inode_in_group_locked g) (ialloc_post s) s.
Proof.
  intros Hm Hg. unfold alloc_inode_in_group_locked. destruct (gd_ok G HG Lm s g Hm Hg) as (d & E & _ & _ & Ed & _).
  eapply wp_bind_ok; [exact E|]. case_match; [apply wp_ret; split; [done|left; split; [done|apply agree_refl]]|].
  rewrite Ed. eapply wp_step; [by apply (read_block_ok G HG Lm)|]. intros rc s1 (-> & Hm1 & Ha & Hb & _). cbn [Z.eqb negb].
  apply wp_bind, wp_gets. rewrite (mo_ipg _ _ _ Hm1). eapply wp_step.
  { apply (for_until_wp (fun _ s' => s' = s1) (fun a s' => ialloc_post s a s')); [done|].
    intros k s' Hk ->. apply alloc_inode_bit_ok; try done. lia. }
  intros [r|] s2 Hr; apply wp_ret; cbv beta iota in Hr; [exact Hr|]. subst. split; [done|]. left. split; [done|exact Ha].
Qed.

Lemma ialloc_post_agree s s1 r s' : agree s s1 -> ialloc_post s1 r s' -> ialloc_post s r s'.
Proof.
  intros Ha [Hm [[Hr Ha']|(Hr & Hu & Hk)]]; (split; [done|]); [left; split; [done|by eapply agree_trans]|right].
  assert (forall x, 1 <= x <= fg_groups G * fg_ipg G -> iused G (disk s1) x = iused G (disk s) x) as Eu.
  { intros x Hx. unfold iused. rewrite Ha; [done|]. by apply (go_meta _ HG (InodeBitmap _)), ib_loc. }
  destruct Hk as [K1 K2 K3]. split; [done|]. rewrite <- Eu by done. split; [done|]. split; [done| |].
  - intros b Hb Hne. by rewrite K2, Ha.
  - intros x Hx. by rewrite K3, Eu.
Qed.

Lemma alloc_inodes_ok s s0 n g last : mounted s -> agree s0 s -> 0 <= g -> g + Z.of_nat n <= fg_groups G -> last.1 < 0 ->
  wp (alloc_groups alloc_inode_in_group_locked n g last) (ialloc_post s0) s.
Proof.
  revert g s last. induction n as [|n IH]; intros g s last Hm Ha Hg Hn Hl; cbn [alloc_groups].
  { apply wp_ret. split; [done|]. by left. }
  eapply wp_step; [apply alloc_inode_group_ok; [done|lia]|]. intros [rc x] s1 Hp. cbv beta iota.
  pose proof (ialloc_post_agree s0 s _ _ Ha Hp) as Hp0.
  destruct ((rc =? 0) || (rc =? - EIO)) eqn:E; [by apply wp_ret|]. apply orb_false_iff in E as [E%Z.eqb_neq _].
  destruct Hp0 as [Hm1 [[Hr Ha1]|(Hr & _)]]; [|done]. apply IH; try done; lia.
Qed.

(** A new inode. *)
Definition fresh_inode (mode t : Z) : ext2_inode :=
  Inode mode 0 0 t t t 0 0 1 0 0 0 (replicate 15 0) 0 0 0 0 (replicate 12 0).

Lemma fresh_ok mode t : is_u16 mode -> is_u32 t -> inode_wf (fresh_inode mode t) /\ size_ok (fresh_inode mode t).
Proof. intros Hm Ht. split; [|done]. split; try done. split; [done|]. apply Forall_replicate. done. Qed.

Lemma write_inode_bad s ino n : mounted s -> 1 <= ino -> ~ valid_ino G ino -> write_inode_locked ino n s = Ok (- EINVAL, s).
Proof.
  intros Hm Hi Hv. unfold write_inode_locked. rewrite bind_gets. unfold id. rewrite (mo_inodes _ _ _ Hm).
  unfold valid_ino in Hv. rewrite (proj2 (Z.ltb_lt (fg_inodes G) ino)), orb_true_r by lia. done.
Qed.

Lemma put_keeps_data V V' ino n b : valid_ino G ino -> (forall b, ~ reserved G b -> V' b = put_inode G V ino n b) -> data_block G b -> V' b = V b.
Proof.
  intros Hv Hput Hd. rewrite Hput by apply (db_apart _ _ Hd). unfold put_inode. rewrite decide_False; [done|].
  destruct (iblk_meta G HG ino Hv) as (g & i & Hm & E & _). rewrite <- E. intros ->. by apply (db_meta _ _ Hd _ Hm).
Qed.

(** Writing back a changed inode, when the disk is consistent with it. *)
Lemma commit_inode s I ino n : mounted s -> stored G (disk s) I -> valid_ino G ino ->
  layout G (disk s) (upd I ino n) -> inode_wf n ->
  wp (write_inode_locked ino n) (fun rc s' =>
    (rc = - ENOMEM /\ mounted s' /\ agree s s') \/ (rc = 0 /\ holds_fs s' (upd I ino n) /\ same_data s s')) s.
Proof.
  intros Hm Hs Hv HL' Hn. eapply wp_mono; [by apply (write_inode_ok G HG Lm)|].
  intros rc s' (Hm' & [[-> Ha]|[-> Hput]]); [by left|right]. split; [done|].
  split; [|intros b Hb; by eapply put_keeps_data]. split; [done| |by eapply layout_put].
  eapply stored_put; try done. intros b _. by eapply length_disk.
Qed.

(** Ends a call: what was dirty is written back. *)
Lemma sync_holds s I : holds_fs s I -> wp ext2_sync_locked (fun _ s' => holds_fs s' I /\ same_data s s') s.
Proof.
  intros Hf. eapply wp_mono; [apply (sync_ok G HG Lm), (hf_mounted _ _ Hf)|]. intros [] s' [Hm Ha].
  split; [by eapply holds_agree|by apply agree_data].
Qed.

Lemma ext2_alloc_inode_ok s I mode : holds_fs s I -> is_u16 mode ->
  wp (ext2_alloc_inode mode) (fun r s' => same_data s s' /\
    ((r.1 < 0 /\ holds_fs s' I) \/
     (r.1 = 0 /\ valid_ino G r.2 /\ iused G (disk s) r.2 = false /\
      exists t, is_u32 t /\ holds_fs s' (upd I r.2 (fresh_inode mode t))))) s.
Proof.
  intros Hf Hmode. pose proof (hf_mounted _ _ Hf) as Hm. unfold ext2_alloc_inode. apply wp_bind, wp_gets. unfold id.
  rewrite (mo_bd _ _ _ Hm). cbn [negb]. rewrite (mo_groups _ _ _ Hm). pose proof (go_groups _ HG).
  eapply wp_step; [apply (alloc_inodes_ok s s); [done|apply agree_refl|lia|lia|done]|].
  intros [rc ino] s1 [Hm1 Hr]. cbv beta iota. cbn [fst snd] in Hr.
  destruct (Z.eqb_spec rc 0) as [->|Hne]; cbn [negb].
  2: { destruct Hr as [[Hr Ha]|(? & _)]; [|done]. apply wp_ret. split; [by apply agree_data|]. left. split; [done|by eapply holds_agree]. }
  destruct Hr as [[? _]|(_ & Hu & Hk)]; [done|]. destruct (now_ok s1) as (t & Et & Ht). eapply wp_bind_ok; [exact Et|].
  fold (fresh_inode mode t). destruct (fresh_ok mode t Hmode Ht) as [Hw Hsz].
  assert (holds_fs s1 I) as Hf1.
  { split; [done|eapply imark_stored; [done|apply Hf]|eapply imark_layout; [done|apply Hf]]. }
  assert (same_data s s1) as Hd1 by (intros b Hb; by eapply imark_data).
  destruct (decide (valid_ino G ino)) as [Hv|Hv].
  2: { eapply wp_bind_ok; [apply write_inode_bad; [done|apply (im_range _ _ _ Hk)|done]|].
       change (negb (- EINVAL =? 0)) with true. cbv iota. apply wp_ret. split; [done|]. left. done. }
  eapply wp_step; [apply (commit_inode s1 I ino); try done; [apply Hf1|]; apply layout_fresh; try done; [apply Hf1|by rewrite (im_bits _ _ _ Hk), Z.eqb_refl, orb_true_r by apply (im_range _ _ _ Hk)]|].
  intros rc s2 [(-> & Hm2 & Ha2)|(-> & Hf2 & Hd2)]; cbv beta.
  { change (negb (- ENOMEM =? 0)) with true. cbv iota. apply wp_ret. split; [eapply data_trans; [done|by apply agree_data]|].
    left. split; [done|by eapply holds_agree]. }
  cbn [Z.eqb negb]. eapply (wp_step _ _ (fun _ s' => holds_fs s' (upd I ino (fresh_inode mode t)) /\ agree s2 s')).
  { case_match; [|apply wp_ret; split; [done|apply agree_refl]]. apply wp_bind, wp_gets. rewrite (mo_ipg _ _ _ (hf_mounted _ _ Hf2)).
    unfold udiv. pose proof (go_ipg _ HG). rewrite (proj2 (Z.eqb_neq (fg_ipg G) 0)) by lia. apply wp_bind, wp_ret.
    pose proof (ino_group G HG ino Hv). unfold valid_ino in Hv. pose proof (go_inodes _ HG). pose proof (bs_range G HG).
    rewrite u32_id by (unfold is_u32; nia).
    destruct (upd_gd_ok G HG Lm s2 ((ino - 1) / fg_ipg G) (fun d => set_bg_used_dirs (u16 (bg_used_dirs_count d + 1)) d) (hf_mounted _ _ Hf2) ltac:(done)) as (l & El & Hm3); [by intros d|].
    eapply wp_bind_ok; [exact El|]. apply wp_modify.
    assert (mounted (set_dirty_gdt 1 (set_gdt l s2))) as Hm4 by (destruct Hm3; by split).
    split; [|by apply agree_journal]. eapply holds_agree; [done| |exact Hf2]. by apply agree_journal. }
  intros [] s3 [Hf3 Ha3]. cbv beta. eapply wp_step; [by apply sync_holds|]. intros [] s4 [Hf4 Hd4]. apply wp_ret.
  split; [eapply data_trans; [exact Hd1|]; eapply data_trans; [exact Hd2|]; eapply data_trans; [by apply agree_data|done]|].
  right. split; [done|]. split; [done|]. split; [done|]. by exists t.
Qed.

End Ops.
