(* ===== verification/Ext2Data.v ===== *)
(** * Reading and writing files of ext2

    [read_inode_data] returns the bytes of the file; the loop of
    [ext2_inode_write_data] puts the bytes of the caller in place, allocates the
    blocks that are missing, and touches no other file. *)

From stdpp Require Import base tactics numbers list gmap.
From S2P Require Import Prelude Alloc Timer Block Ext2Disk Ext2 Ext2Io Ext2Inv Ext2Table Ext2Alloc.

(** ** Bytes of a file when blocks change *)

Section Bytes.
Context (G : geo) (HG : geo_ok G).
Implicit Types (V : Z -> list Z) (n : ext2_inode).

(** Every block of the inode has the same contents. *)
Definition same_blocks V V' n : Prop :=
  forall k, slot_valid G k -> slot_blk V n k <> 0 -> V' (slot_blk V n k) = V (slot_blk V n k).

Lemma same_blocks_slots V V' n k : same_blocks V V' n -> slot_valid G k -> slot_blk V' n k = slot_blk V n k.
Proof. intros Hs Hk. apply (slot_blk_ext G); [intros; by apply Hs|done]. Qed.

Lemma same_blocks_refl V n : same_blocks V V n.
Proof. by intros k. Qed.

Lemma same_blocks_trans V1 V2 V3 n : same_blocks V1 V2 n -> same_blocks V2 V3 n -> same_blocks V1 V3 n.
Proof.
  intros H1 H2 k Hk Hne. pose proof (same_blocks_slots _ _ _ k H1 Hk) as E. rewrite <- (H1 k Hk Hne), <- E. apply H2; [done|by rewrite E].
Qed.

Lemma same_blocks_phys V V' n l : same_blocks V V' n -> 0 <= l -> phys G V' n l = phys G V n l.
Proof. intros Hs. apply (phys_ext G HG). intros. by apply same_blocks_slots. Qed.

Lemma same_blocks_byte V V' n p : same_blocks V V' n -> 0 <= p -> fbyte G V' n p = fbyte G V n p.
Proof.
  intros Hs Hp. pose proof (bs_range G HG). unfold fbyte. rewrite (same_blocks_phys V V' n) by (done || apply Z.div_pos; lia).
  destruct (Z.eqb_spec (phys G V n (p / fg_bs G)) 0) as [|Hne]; [done|]. destruct (phys_inv G V n _ Hne) as (k & Ek & E).
  rewrite E in *. rewrite Hs; [done| |done]. eapply slot_of_valid; [done| |done]. apply Z.div_pos; lia.
Qed.

(** One data block of the inode is written. *)
Lemma byte_put V V' n b l0 k0 : b <> 0 -> 0 <= l0 -> slot_of G l0 = Some k0 -> slot_blk V n k0 = b ->
  (forall k, slot_valid G k -> slot_blk V n k = b -> k = k0) ->
  (forall k, slot_valid G k -> slot_blk V n k <> 0 -> slot_blk V n k <> b -> V' (slot_blk V n k) = V (slot_blk V n k)) ->
  forall p, 0 <= p -> fbyte G V' n p = if decide (p / fg_bs G = l0) then nthZ (V' b) (p mod fg_bs G) else fbyte G V n p.
Proof.
  intros Hb Hl0 Ek0 Eb Hu Hs p Hp. pose proof (bs_range G HG). pose proof (Z.div_pos p (fg_bs G) Hp ltac:(lia)) as Hl.
  assert (forall k, slot_valid G k -> slot_blk V' n k = slot_blk V n k) as Es.
  { apply (slot_blk_ext G). intros k Hk Hp' Hne. apply Hs; [done|done|]. intros E. apply (Hu k Hk) in E. subst k.
    by apply (slot_of_data G l0 k0). }
  unfold fbyte. rewrite (phys_ext G HG V V' n Es) by done. case_decide as E.
  - rewrite E, (phys_slot G V n l0 k0 Ek0), Eb. by rewrite (proj2 (Z.eqb_neq b 0)).
  - destruct (Z.eqb_spec (phys G V n (p / fg_bs G)) 0) as [|Hne]; [done|]. destruct (phys_inv G V n _ Hne) as (k & Ek & E2).
    rewrite E2 in *. pose proof (slot_of_valid G HG _ _ Hl Ek) as Hk. rewrite Hs; [done|done|done|].
    intros E3. apply (Hu k Hk) in E3. subst k. by apply E, (slot_of_inj G HG (p / fg_bs G) l0 k0).
Qed.

Lemma sub_bytes (b : list Z) o k : 0 <= o -> 0 <= k -> o + k <= Z.of_nat (length b) ->
  take (Z.to_nat k) (drop (Z.to_nat o) b) = (fun i => nthZ b (o + i)) <$> seqZ 0 k.
Proof.
  intros Ho Hk Hl. apply list_eq_nthZ.
  - rewrite length_take, length_drop, length_fmap, length_seqZ. lia.
  - rewrite length_take, length_drop. intros i Hi. rewrite nthZ_take, nthZ_drop by lia.
    unfold nthZ at 2. rewrite list_lookup_fmap, lookup_seqZ_lt by lia. simpl. do 2 f_equal. lia.
Qed.

Lemma zeros_eq k : (fun _ : Z => 0) <$> seqZ 0 k = replicate (Z.to_nat k) 0.
Proof.
  apply list_eq. intros i. rewrite list_lookup_fmap. destruct (decide (Z.of_nat i < k)).
  - rewrite lookup_seqZ_lt, lookup_replicate_2 by lia. done.
  - rewrite lookup_seqZ_ge, lookup_ge_None_2 by (rewrite ?length_replicate; lia). done.
Qed.

End Bytes.

Section Read.
Context {D M : Type} `{BlockDevice D} `{Kmalloc M}.
Context (junk : list Z) (G : geo) (HG : geo_ok G) (Lm : gmap Z Z).
Implicit Types (s : ext2 D M) (I : Z -> ext2_inode).
Notation mounted := (mounted G Lm).
Notation disk := (disk G).
Notation agree := (agree G).

(** The blocks of the inode are not reserved. *)
Definition clear V n : Prop := forall k, slot_valid G k -> slot_blk V n k <> 0 -> ~ reserved G (slot_blk V n k).

Lemma layout_clear V I ino : layout G V I -> valid_ino G ino -> clear V (I ino).
Proof. intros HL Hv k Hk Hne. by apply (db_apart G), (ly_own _ _ _ HL). Qed.

Lemma agree_blocks s s' n : agree s s' -> clear (disk s) n -> same_blocks G (disk s) (disk s') n.
Proof. intros Ha Hc k Hk Hne. apply Ha. by apply Hc. Qed.

Lemma agree_clear s s' n : agree s s' -> clear (disk s) n -> clear (disk s') n.
Proof. intros Ha Hc k Hk. rewrite (same_blocks_slots G (disk s) _ n k (agree_blocks _ _ _ Ha Hc) Hk). by apply Hc. Qed.

Lemma load_ptr_ok s blk i : mounted s -> 0 <= i < ppb G ->
  wp (load_ptr blk i) (fun v s' => v = get32 (disk s blk) (4 * i) /\ mounted s' /\ agree s s') s.
Proof.
  intros Hm Hi. unfold load_ptr. eapply wp_step; [by apply (read_block_ok G HG Lm)|].
  intros rc s1 (-> & Hm1 & Ha & Hb & _). cbn [Z.eqb negb]. apply wp_bind, wp_gets. unfold id.
  assert (4 * ppb G = fg_bs G) as Ep by (unfold ppb; destruct (go_bs _ HG) as [->|[->| ->]]; done).
  pose proof (bs_range G HG). pose proof (mo_buf _ _ _ Hm1) as Hl. unfold ld32.
  eapply wp_bind_ok; [apply copy_out_ok; lia|]. apply wp_ret. split; [|done]. rewrite <- Hb. unfold get32.
  rewrite !nthZ_take, !nthZ_drop by lia.
  replace (i * 4) with (4 * i) by lia. by rewrite Z.add_0_r.
Qed.

Lemma phys_ok s n logical : mounted s -> length (i_block n) = 15%nat -> clear (disk s) n -> 0 <= logical ->
  wp (inode_block_phys n logical) (fun v s' => v = phys G (disk s) n logical /\ mounted s' /\ agree s s') s.
Proof.
  intros Hm Hl Hc Hlog. unfold inode_block_phys. apply wp_bind, wp_gets. unfold id. rewrite (mo_bs _ _ _ Hm).
  fold (ppb G). pose proof (ppb_range G HG) as Hp. unfold phys, slot_of. change EXT2_NDIR_BLOCKS with 12.
  assert (forall j, 0 <= j < 15 -> rd (i_block n) j s = Ok (nthZ (i_block n) j, s)) as Hrd by (intros; apply rd_nthZ; lia).
  destruct (Z.ltb_spec logical 12); [eapply wp_ok; [apply Hrd; lia|]; split; [done|]; split; [done|apply agree_refl]|].
  destruct (Z.ltb_spec (logical - 12) (ppb G)).
  - eapply wp_bind_ok; [by apply Hrd|]. unfold slot_blk, ptr. change EXT2_IND_BLOCK with 12.
    destruct (Z.eqb_spec (nthZ (i_block n) 12) 0); [apply wp_ret; split; [done|]; split; [done|apply agree_refl]|].
    apply load_ptr_ok; [done|lia].
  - rewrite u32_id by (unfold is_u32; nia).
    destruct (Z.ltb_spec (logical - 12 - ppb G) (ppb G * ppb G)); [|apply wp_ret; split; [done|]; split; [done|apply agree_refl]].
    set (x := logical - 12 - ppb G) in *. unfold udiv, umod. rewrite (proj2 (Z.eqb_neq (ppb G) 0)) by lia.
    apply wp_bind, wp_ret, wp_bind, wp_ret. eapply wp_bind_ok; [by apply Hrd|]. unfold slot_blk, ptr at 2. change EXT2_DIND_BLOCK with 13.
    assert (0 <= x / ppb G < ppb G) as Hd by (split; [apply Z.div_pos; lia|apply Z.div_lt_upper_bound; lia]).
    destruct (Z.eqb_spec (nthZ (i_block n) 13) 0) as [|Hne]; [apply wp_ret; split; [done|]; split; [done|apply agree_refl]|].
    eapply wp_step; [by apply load_ptr_ok|]. intros mid s1 (-> & Hm1 & Ha1). cbv beta. unfold ptr.
    set (mid := get32 (disk s (nthZ (i_block n) 13)) (4 * (x / ppb G))).
    destruct (Z.eqb_spec mid 0) as [|Hmid]; [by apply wp_ret|].
    eapply wp_mono; [apply load_ptr_ok; [done|]; apply Z.mod_pos_bound; lia|]. intros v s2 (-> & Hm2 & Ha2).
    split; [|split; [done|by eapply agree_trans]]. rewrite (Ha1 mid); [done|]. specialize (Hc (Mid (x / ppb G)) Hd). unfold slot_blk, ptr in Hc.
    rewrite (proj2 (Z.eqb_neq _ 0) Hne) in Hc. by apply Hc.
Qed.

Definition bytes_at (V : Z -> list Z) n (offset got k : Z) : list Z :=
  (fun i => fbyte G V n (u32 (offset + i))) <$> seqZ got k.

Lemma bytes_at_app V n offset got a b : 0 <= a -> 0 <= b ->
  bytes_at V n offset got (a + b) = bytes_at V n offset got a ++ bytes_at V n offset (got + a) b.
Proof. intros Ha Hb. unfold bytes_at. by rewrite seqZ_app, fmap_app by lia. Qed.

(** The bytes of one block. *)
Lemma bytes_block V n pos k offset got : u32 (offset + got) = pos -> 0 <= k <= fg_bs G - pos mod fg_bs G ->
  bytes_at V n offset got k =
  (fun i => let b := phys G V n (pos / fg_bs G) in if b =? 0 then 0 else nthZ (V b) (pos mod fg_bs G + i)) <$> seqZ 0 k.
Proof.
  intros Ep Hk. pose proof (bs_range G HG). unfold bytes_at. apply fmap_seqZ_shift. intros i Hi. rewrite Z.add_0_l.
  assert (is_u32 pos) as Hu by (rewrite <- Ep; apply u32_range). unfold is_u32 in Hu.
  pose proof (Z.div_mod pos (fg_bs G) ltac:(lia)) as Edm. pose proof (Z.mod_pos_bound pos (fg_bs G) ltac:(lia)).
  assert (pos + i < 4294967296) as Hlt.
  { destruct (go_bs _ HG) as [Eb|[Eb|Eb]]; rewrite Eb in *; lia. }
  assert (u32 (offset + (got + i)) = pos + i) as ->.
  { rewrite <- Ep. unfold u32 in *. rewrite Z.add_assoc, <- Zplus_mod_idemp_l, Ep. apply Z.mod_small. lia. }
  unfold fbyte. replace (pos + i) with (pos mod fg_bs G + i + pos / fg_bs G * fg_bs G) by lia.
  rewrite Z.div_add, Z_mod_plus_full, Z.div_small, Z.mod_small by lia. done.
Qed.

Lemma ext2_read_loop_ok fuel s0 s n offset to_read got out : mounted s -> agree s0 s -> length (i_block n) = 15%nat -> clear (disk s0) n ->
  0 <= got <= to_read -> is_u32 to_read -> (Z.to_nat (to_read - got) <= fuel)%nat ->
  wp (read_loop fuel n offset to_read got out)
    (fun r s' => r = (s32 to_read, out ++ bytes_at (disk s0) n offset got (to_read - got)) /\ mounted s' /\ agree s0 s') s.
Proof.
  revert s got out. induction fuel as [|fuel IH]; intros s got out Hm Ha Hl Hc Hg Hu Hfuel; cbn [read_loop].
  - assert (got = to_read) as -> by lia. rewrite Z.ltb_irrefl. apply wp_ret. rewrite Z.sub_diag. cbn. by rewrite app_nil_r.
  - destruct (Z.ltb_spec got to_read) as [Hlt|]; [|assert (got = to_read) as -> by lia; apply wp_ret; rewrite Z.sub_diag; cbn; by rewrite app_nil_r].
    apply wp_bind, wp_gets. unfold id. rewrite (mo_bs _ _ _ Hm). pose proof (bs_range G HG).
    set (pos := u32 (offset + got)). unfold udiv, umod. rewrite (proj2 (Z.eqb_neq (fg_bs G) 0)) by lia.
    apply wp_bind, wp_ret, wp_bind, wp_ret. pose proof (u32_range (offset + got)) as Hpos. fold pos in Hpos. unfold is_u32 in Hpos.
    pose proof (Z.mod_pos_bound pos (fg_bs G) ltac:(lia)) as Hmod. rewrite u32_id by (unfold is_u32; lia).
    set (k := if _ <? _ then _ else _).
    assert (0 < k <= fg_bs G - pos mod fg_bs G /\ k <= to_read - got) as [Hk1 Hk2] by (unfold k; destruct (Z.ltb_spec (to_read - got) (fg_bs G - pos mod fg_bs G)); lia). clearbody k.
    pose proof (Z.div_pos pos (fg_bs G) ltac:(lia) ltac:(lia)) as Hlog.
    eapply wp_step; [apply phys_ok; [done|done|by eapply agree_clear|done]|]. intros b s1 (-> & Hm1 & Ha1). cbv beta.
    rewrite (same_blocks_phys G HG (disk s0) (disk s) n) by (done || by apply agree_blocks).
    pose proof (bytes_block (disk s0) n pos k offset got eq_refl ltac:(lia)) as Eb.
    replace (to_read - got) with (k + (to_read - (got + k))) by lia. rewrite bytes_at_app, app_assoc by lia.
    set (b := phys G (disk s0) n (pos / fg_bs G)) in *. pose proof (agree_trans G _ _ _ Ha Ha1) as Ha01.
    destruct (Z.eqb_spec b 0) as [Eb0|Hb0].
    + rewrite <- zeros_eq. assert ((fun _ : Z => 0) <$> seqZ 0 k = bytes_at (disk s0) n offset got k) as ->.
      { rewrite Eb. apply fmap_seqZ_shift. intros i Hi. by rewrite Eb0. }
      apply IH; try done; lia.
    + eapply wp_step; [by apply (read_block_ok G HG Lm)|]. intros rc s2 (-> & Hm2 & Ha2 & Hbuf & _). cbn [Z.eqb negb].
      apply wp_bind, wp_gets. unfold id. pose proof (mo_buf _ _ _ Hm2) as Hbl. eapply wp_bind_ok; [apply copy_out_ok; lia|].
      assert (take (Z.to_nat k) (drop (Z.to_nat (pos mod fg_bs G)) (g_block_buf s2)) = bytes_at (disk s0) n offset got k) as ->.
      { rewrite Eb, sub_bytes by lia. apply fmap_seqZ_shift. intros i Hi. cbv zeta. rewrite (proj2 (Z.eqb_neq b 0) Hb0), !Z.add_0_l.
        destruct (phys_inv G (disk s0) n (pos / fg_bs G) Hb0) as (sl & Esl & E).
        rewrite <- (Ha01 b) by (unfold b in *; rewrite E in *; apply Hc; [by eapply slot_of_valid|done]). rewrite <- Hbuf. by rewrite nthZ_take by lia. }
      apply IH; try done; [|lia|lia]. by eapply agree_trans.
Qed.

Lemma read_data_ok s n len offset : mounted s -> length (i_block n) = 15%nat -> clear (disk s) n -> is_u32 (i_size n) ->
  is_u32 len -> is_u32 offset ->
  let k := if i_size n <=? offset then 0 else if i_size n <? u32 (offset + len) then i_size n - offset else len in
  wp (read_inode_data n len offset) (fun r s' => r = (s32 k, bytes_at (disk s) n offset 0 k) /\ mounted s' /\ agree s s') s.
Proof.
  intros Hm Hl Hc Hsz Hlen Hoff k. unfold read_inode_data. unfold is_u32 in *. destruct (Z.leb_spec (i_size n) offset).
  - apply wp_ret. split; [done|]. split; [done|apply agree_refl].
  - fold k. assert (0 <= k < 4294967296) as Hk by (unfold k; case_match; lia).
    eapply wp_mono; [apply (ext2_read_loop_ok _ s s); [done|apply agree_refl|done|done|lia|done|lia]|]. intros r s' (-> & ?). by rewrite Z.sub_0_r.
Qed.

End Read.
