(* ===== verification/Ext2Write.v ===== *)
(** * Writing files of ext2

    The loop of [ext2_inode_write_data].  At every point of it the disk is
    consistent with the inode in memory as well as with the one on the disk, so
    that the call may end with an error; bytes outside the range written and
    the blocks of every other file keep their contents. *)

From stdpp Require Import base tactics numbers list gmap.
From S2P Require Import Prelude Alloc Timer Block Ext2Disk Ext2 Ext2Io Ext2Inv Ext2Table Ext2Alloc Ext2Data.

(** The inode in memory has the blocks of the old one, and maybe more. *)
Definition grown (n0 n : ext2_inode) : Prop :=
  (forall j, 0 <= j -> nthZ (i_block n0) j <> 0 -> nthZ (i_block n) j = nthZ (i_block n0) j) /\
  (forall j, 12 <= j -> nthZ (i_block n) j = nthZ (i_block n0) j).

Lemma grown_slot G V n0 n k : grown n0 n -> slot_valid G k -> slot_blk V n0 k <> 0 -> slot_blk V n k = slot_blk V n0 k.
Proof. intros [H1 H2] Hk Hne. destruct k; simpl in *; rewrite ?H2 by lia; try done. apply H1; [lia|done]. Qed.

Lemma filled_insert n n' i b : 0 <= i < 12 -> length (i_block n) = 15%nat -> nthZ (i_block n) i = 0 -> b <> 0 ->
  i_block n' = <[Z.to_nat i := b]> (i_block n) -> filled n' = filled n + 1.
Proof.
  intros Hi Hl E0 Hb E. unfold filled. rewrite E. set (l := i_block n) in *. set (j := Z.to_nat i).
  assert (l !! j = Some 0) as Ej.
  { destruct (lookup_lt_is_Some_2 l j ltac:(lia)) as [x Hx]. unfold nthZ in E0. fold j in E0. rewrite Hx in E0. simpl in E0. by subst. }
  rewrite take_insert_lt by lia. set (t := take 12 l).
  assert (t !! j = Some 0) as Et by (unfold t; rewrite lookup_take_lt by lia; done).
  rewrite <- (take_drop_middle t j 0 Et). rewrite insert_app_r_alt by (rewrite length_take; lia).
  pose proof (lookup_lt_Some _ _ _ Et). rewrite length_take. replace (j - j `min` length t)%nat with 0%nat by lia. simpl.
  rewrite !filter_app, !length_app, !filter_cons. repeat case_decide; try done. simpl. lia.
Qed.

Lemma filled_max n : filled n <= 12.
Proof. unfold filled. pose proof (length_filter (fun b => b <> 0) (take 12 (i_block n))) as Hl. rewrite length_take in Hl. lia. Qed.

Lemma filled_grown n n' : filled n' = filled n + 1 -> size_ok n -> i_size n' <= i_size n + 4096 -> size_ok n'.
Proof. unfold size_ok. lia. Qed.

Lemma layout_inodes G V I I' : (forall x, I' x = I x) -> layout G V I -> layout G V I'.
Proof.
  intros E HL. destruct HL. split; try done; intros *; rewrite !E; auto.
Qed.

Section Write.
Context {D M : Type} `{BlockDevice D} `{Kmalloc M}.
Context (junk : list Z) (G : geo) (HG : geo_ok G) (Lm : gmap Z Z).
Implicit Types (s : ext2 D M).
Notation mounted := (mounted G Lm).
Notation disk := (disk G).
Notation agree := (agree G).
Notation holds_fs := (holds_fs G Lm).

Lemma stored_data V V' I b : stored G V I -> data_block G b ->
  (forall b', ~ reserved G b' -> b' <> b -> V' b' = V b') -> stored G V' I.
Proof.
  intros Hs Hd Hv ino Hi. rewrite <- (Hs ino Hi). unfold inode_at. do 3 f_equal. destruct (iblk_meta G HG ino Hi) as (g & i & Hm & E & _).
  apply Hv; [by apply iblk_ok|]. rewrite <- E. by apply (db_meta _ _ Hd).
Qed.

(** The blocks that a change of marks leaves alone. *)
Lemma remark_blocks V V' b v I ino : remark G V V' b v -> layout G V I -> valid_ino G ino -> same_blocks G V V' (I ino).
Proof. intros Hr HL Hi k Hk Hne. eapply remark_data; [done|done|]. by apply (ly_own _ _ _ HL). Qed.

Section Call.
Context (s0 : ext2 D M) (I : Z -> ext2_inode) (ino : Z) (buf : list Z) (off count : Z).
Hypothesis Hino : valid_ino G ino.
Hypothesis Hreg : ~ is_dir (I ino).
Hypothesis Hoff : 0 <= off /\ 0 < count /\ off + count <= 12 * fg_bs G.
Hypothesis Hbuf : count <= Z.of_nat (length buf).

(** A byte of the file is as it was, or the new one in the range. *)
Definition torn (V V' : Z -> list Z) : Prop := forall p, 0 <= p ->
  fbyte G V' (I ino) p = fbyte G V (I ino) p \/ (off <= p < off + count /\ fbyte G V' (I ino) p = nthZ buf (p - off)).

Definition others (V V' : Z -> list Z) : Prop := forall x, valid_ino G x -> x <> ino -> same_blocks G V V' (I x).

Record wcore s n : Prop := {
  wc_mounted : mounted s;
  wc_stored : stored G (disk s) I;
  wc_old : layout G (disk s) I;
  wc_new : layout G (disk s) (upd I ino n);
  wc_grown : grown (I ino) n;
  wc_size : i_size n = i_size (I ino);
  wc_mode : i_mode n = i_mode (I ino);
  wc_links : i_links_count n = i_links_count (I ino);
  wc_torn : torn (disk s0) (disk s);
  wc_others : others (disk s0) (disk s)
}.

Lemma core_wf s n : wcore s n -> inode_wf n.
Proof. intros Hw. rewrite <- (upd_same I ino n). by apply (ly_wf _ _ _ (wc_new _ _ Hw)). Qed.

Lemma core_own s n k : wcore s n -> slot_valid G k -> slot_blk (disk s) n k <> 0 ->
  data_block G (slot_blk (disk s) n k) /\ used G (disk s) (slot_blk (disk s) n k) = true.
Proof. intros Hw Hk. rewrite <- (upd_same I ino n) at 1 2 3. by apply (ly_own _ _ _ (wc_new _ _ Hw)). Qed.

(** Who owns a block of the inode in memory. *)
Lemma core_unique s n k b : wcore s n -> slot_valid G k -> slot_blk (disk s) n k = b -> b <> 0 ->
  (forall k', slot_valid G k' -> slot_blk (disk s) n k' = b -> k' = k) /\
  (forall x k', valid_ino G x -> slot_valid G k' -> slot_blk (disk s) (I x) k' = b -> x = ino /\ k' = k).
Proof.
  intros Hw Hk Eb Hb. pose proof (ly_inj _ _ _ (wc_new _ _ Hw)) as Hinj. split.
  - intros k' Hk' E. destruct (Hinj ino k' ino k) as [_ ->]; rewrite ?upd_same; try done; congruence.
  - intros x k' Hx Hk' E. destruct (decide (x = ino)) as [->|Hne].
    + split; [done|]. assert (slot_blk (disk s) n k' = slot_blk (disk s) (I ino) k') as E2 by (apply (grown_slot G); [apply (wc_grown _ _ Hw)|done|by rewrite E]).
      destruct (Hinj ino k' ino k) as [_ ->]; rewrite ?upd_same; try done; congruence.
    + destruct (Hinj x k' ino k) as [-> _]; rewrite ?upd_same, ?(upd_other I ino n x Hne); try done; congruence.
Qed.

Lemma core_agree s s' n : mounted s' -> agree s s' -> wcore s n -> wcore s' n.
Proof.
  intros Hm Ha Hw. assert (forall x, valid_ino G x -> same_blocks G (disk s) (disk s') (I x)) as Hx.
  { intros x Hx. apply agree_blocks; [done|]. by apply layout_clear; [apply (wc_old _ _ Hw)|]. }
  split; try (by destruct Hw); try (by eapply layout_agree; [done|done|destruct Hw]).
  - eapply stored_agree; [done|done|apply Hw].
  - intros p Hp. rewrite (same_blocks_byte G HG (disk s)) by (done || by apply Hx). by apply (wc_torn _ _ Hw).
  - intros x Hv Hne. eapply same_blocks_trans; [by apply (wc_others _ _ Hw)|by apply Hx].
Qed.

(** Writing a block the inode in memory has. *)
Lemma core_write s s' n l b : wcore s n -> 0 <= l < 12 -> nthZ (i_block n) l = b -> b <> 0 -> mounted s' ->
  (forall b', ~ reserved G b' -> b' <> b -> disk s' b' = disk s b') ->
  (forall p, 0 <= p -> p / fg_bs G = l -> nthZ (i_block (I ino)) l <> 0 ->
     nthZ (disk s' b) (p mod fg_bs G) = nthZ (disk s b) (p mod fg_bs G) \/
     (off <= p < off + count /\ nthZ (disk s' b) (p mod fg_bs G) = nthZ buf (p - off))) ->
  wcore s' n /\ forall p, 0 <= p ->
    fbyte G (disk s') n p = if decide (p / fg_bs G = l) then nthZ (disk s' b) (p mod fg_bs G) else fbyte G (disk s) n p.
Proof.
  intros Hw Hl Eb Hb Hm Hv Htorn. assert (slot_valid G (Direct l)) as Hk by (simpl; lia).
  assert (slot_of G l = Some (Direct l)) as El by (unfold slot_of; by rewrite (proj2 (Z.ltb_lt l 12)) by lia).
  destruct (core_own s n (Direct l) Hw Hk) as [Hd _]; [by simpl; rewrite Eb|]. simpl in Hd. rewrite Eb in Hd.
  destruct (core_unique s n (Direct l) b Hw Hk Eb Hb) as [Hun Hux].
  assert (forall J, layout G (disk s) J -> (J ino = I ino \/ J ino = n) -> (forall x, x <> ino -> J x = I x) -> layout G (disk s') J) as HJ.
  { intros J HL HJ Hother. assert (forall x k, valid_ino G x -> slot_valid G k -> slot_blk (disk s) (J x) k = b -> x = ino /\ k = Direct l) as Hown.
    { intros x k Hx Hk' E. destruct (decide (x = ino)) as [->|Hne]; [|rewrite Hother in E by done; by apply Hux].
      destruct HJ as [Ej|Ej]; rewrite Ej in E; [by apply Hux|]. split; [done|by apply Hun]. }
    apply (layout_write G HG (disk s) _ J b); try done.
    - intros x k Hx Hk' Hp E. destruct (Hown x k Hx Hk' E) as [_ ->]. done.
    - intros x lg Hx Hdir Hlg E. destruct (phys_inv G (disk s) (J x) lg ltac:(by rewrite E)) as (k & Ek & Ep). rewrite Ep in E.
      destruct (Hown x k Hx (slot_of_valid G HG _ _ Hlg Ek) E) as [-> _]. exfalso. apply Hreg. destruct HJ as [Ej|Ej]; rewrite Ej in Hdir; [done|].
      unfold is_dir, is_kind in *. by rewrite <- (wc_mode _ _ Hw). }
  assert (forall m k, (forall k', slot_valid G k' -> slot_blk (disk s) m k' <> 0 -> data_block G (slot_blk (disk s) m k')) ->
    slot_valid G k -> slot_blk (disk s) m k <> 0 -> slot_blk (disk s) m k <> b -> disk s' (slot_blk (disk s) m k) = disk s (slot_blk (disk s) m k)) as Hrest.
  { intros m k Hdat Hk' Hne Hneb. apply Hv; [|done]. by apply (db_apart G), Hdat. }
  assert (forall x k, valid_ino G x -> slot_valid G k -> slot_blk (disk s) (I x) k <> 0 -> data_block G (slot_blk (disk s) (I x) k)) as Hold
    by (intros; by apply (ly_own _ _ _ (wc_old _ _ Hw))).
  split; [split; try (by destruct Hw)|].
  - by eapply stored_data; [apply Hw|done|].
  - apply HJ; [apply Hw|by left|done].
  - apply HJ; [apply Hw|right; apply upd_same|intros; by apply upd_other].
  - intros p Hp. destruct (decide (nthZ (i_block (I ino)) l = 0)) as [E0|E0].
    + rewrite (same_blocks_byte G HG (disk s)); [by apply (wc_torn _ _ Hw)| |done]. intros k Hk' Hne.
      apply Hrest; [intros; by apply Hold|done|done|]. intros E. destruct (Hux ino k Hino Hk' E) as [_ ->]. done.
    + assert (nthZ (i_block (I ino)) l = b) as Ebo by (rewrite <- Eb; symmetry; apply (proj1 (wc_grown _ _ Hw)); [lia|done]).
      rewrite (byte_put G HG (disk s) (disk s') (I ino) b l (Direct l)); try done; [|lia|intros k Hk' E; by apply (Hux ino k)|intros; apply Hrest; try done; intros; by apply Hold].
      case_decide as Ep; [|by apply (wc_torn _ _ Hw)]. destruct (Htorn p Hp Ep E0) as [->|?]; [|by right].
      pose proof (wc_torn _ _ Hw p Hp) as Ht. unfold fbyte at 1 3 in Ht. rewrite Ep, (phys_slot G _ _ _ _ El) in Ht. simpl in Ht.
      rewrite Ebo, (proj2 (Z.eqb_neq b 0) Hb) in Ht. done.
  - intros x Hx Hne. eapply same_blocks_trans; [by apply (wc_others _ _ Hw)|]. intros k Hk' Hnz.
    apply Hrest; [intros; by apply Hold|done|done|]. intros E. by destruct (Hux x k Hx Hk' E).
  - apply (byte_put G HG (disk s) (disk s') n b l (Direct l)); try done; [lia|]. intros k Hk' Hne Hneb.
    apply Hrest; try done. intros k' Hk2 Hne2. by apply (core_own s n).
Qed.

(** A block that was free becomes the block [l] of the inode in memory. *)
Lemma core_mark s s1 n n' l b : wcore s n -> 0 <= l < 12 -> nthZ (i_block n) l = 0 -> mounted s1 -> is_u32 b ->
  used G (disk s) b = false -> remark G (disk s) (disk s1) b true ->
  n' = set_i_blocks (u32 (i_blocks n + fg_bs G / 512)) (set_i_block (<[Z.to_nat l := b]> (i_block n)) n) ->
  wcore s1 n /\ wcore s1 n' /\ nthZ (i_block n') l = b /\ b <> 0 /\
  forall p, 0 <= p -> p / fg_bs G <> l -> fbyte G (disk s1) n' p = fbyte G (disk s) n p.
Proof.
  intros Hw Hl E0 Hm Hu Hf Hr En. pose proof (core_wf s n Hw) as Hwf. destruct (iw_block _ Hwf) as [Hlen Hall].
  destruct (free_unowned G (disk s) I b (wc_old _ _ Hw) (rm_area _ _ _ _ _ Hr) Hf) as [Hd Ho].
  destruct (free_unowned G (disk s) (upd I ino n) b (wc_new _ _ Hw) (rm_area _ _ _ _ _ Hr) Hf) as [_ Hon].
  pose proof (db_pos _ _ Hd) as Hpos.
  assert (forall x, valid_ino G x -> same_blocks G (disk s) (disk s1) (I x)) as Hsb by (intros; eapply remark_blocks; [done|apply Hw|done]).
  assert (same_blocks G (disk s) (disk s1) n) as Hsn.
  { rewrite <- (upd_same I ino n). eapply remark_blocks; [done|apply Hw|done]. }
  assert (wcore s1 n) as Hw1.
  { split; try (by destruct Hw); try (by eapply layout_mark; [done|destruct Hw|]).
    - eapply remark_table; [done|done|apply Hw].
    - intros p Hp. rewrite (same_blocks_byte G HG (disk s)) by (done || by apply Hsb). by apply (wc_torn _ _ Hw).
    - intros x Hx Hne. eapply same_blocks_trans; [by apply (wc_others _ _ Hw)|by apply Hsb]. }
  assert (i_block n' = <[Z.to_nat l := b]> (i_block n)) as Eb by (by rewrite En).
  assert (inode_wf n') as Hwf'.
  { rewrite En. destruct Hwf. split; try done; [apply u32_range|]. cbn [i_block set_i_blocks set_i_block]. split; [by rewrite length_insert|by apply Forall_insert]. }
  assert (nthZ (i_block n') l = b) as Enl by (rewrite Eb, nthZ_insert by lia; by rewrite decide_True).
  split; [done|]. split; [|split; [done|split; [lia|]]].
  - split; try (by destruct Hw1); rewrite ?En; try (by destruct Hw1); rewrite <- En.
    + eapply layout_inodes; [|apply (layout_add G HG (disk s1) (upd I ino n) ino n' l b); try done; rewrite ?upd_same; try done].
      * intros x. unfold upd. by case_decide.
      * apply Hw1.
      * eapply filled_grown; [by eapply filled_insert; try done; lia| |rewrite En; simpl; lia].
        rewrite <- (upd_same I ino n). by apply (ly_size _ _ _ (wc_new _ _ Hw)).
      * by rewrite En.
      * by rewrite En.
      * rewrite (rm_bits _ _ _ _ _ Hr) by apply (rm_area _ _ _ _ _ Hr). by rewrite decide_True.
      * intros x k Hx Hk. rewrite (same_blocks_slots G (disk s)); [by apply Hon| |done].
        unfold upd. case_decide; [done|by apply Hsb].
      * intros Hdir. exfalso. apply Hreg. unfold is_dir, is_kind in *. rewrite En in Hdir. cbn [i_mode set_i_blocks set_i_block] in Hdir. by rewrite <- (wc_mode _ _ Hw).
    + destruct (wc_grown _ _ Hw) as [G1 G2]. split; intros j Hj.
      * intros Hne. rewrite Eb. unfold nthZ at 1. destruct (decide (j = l)) as [->|Hjl].
        { exfalso. rewrite <- (G1 l) in Hne by done. done. }
        rewrite list_lookup_insert_ne by lia. by apply G1.
      * rewrite Eb. unfold nthZ at 1. rewrite list_lookup_insert_ne by lia. by apply G2.
  - intros p Hp Hpl. unfold fbyte. pose proof (bs_range G HG). pose proof (Z.div_pos p (fg_bs G) Hp ltac:(lia)) as Hdp.
    rewrite (phys_insert G HG (disk s1) n n' l b Hl Hlen Eb) by done. rewrite decide_False by done.
    pose proof (same_blocks_byte G HG _ _ n p Hsn Hp) as Ef. exact Ef.
Qed.

(** The bytes of a block after one piece of the caller's bytes is put into it. *)
Lemma piece_byte base w k p : Z.of_nat (length base) = fg_bs G -> 0 <= w -> 0 <= k -> w + k <= count ->
  (off + w) mod fg_bs G + k <= fg_bs G -> 0 <= p -> p / fg_bs G = (off + w) / fg_bs G ->
  nthZ (splice base ((off + w) mod fg_bs G) (take (Z.to_nat k) (drop (Z.to_nat w) buf))) (p mod fg_bs G) =
  if decide (off + w <= p < off + w + k) then nthZ buf (p - off) else nthZ base (p mod fg_bs G).
Proof.
  intros Hl Hw Hk Hwk Hfit Hp Ep. pose proof (bs_range G HG).
  assert (length (take (Z.to_nat k) (drop (Z.to_nat w) buf)) = Z.to_nat k) as Hlen by (rewrite length_take, length_drop; lia).
  pose proof (Z.mod_pos_bound p (fg_bs G) ltac:(lia)). pose proof (Z.mod_pos_bound (off + w) (fg_bs G) ltac:(lia)).
  pose proof (Z.div_mod p (fg_bs G) ltac:(lia)). pose proof (Z.div_mod (off + w) (fg_bs G) ltac:(lia)).
  rewrite nthZ_splice by lia. rewrite Hlen, Z2Nat.id by lia.
  destruct (Z.leb_spec ((off + w) mod fg_bs G) (p mod fg_bs G)), (Z.ltb_spec (p mod fg_bs G) ((off + w) mod fg_bs G + k)); simpl;
    case_decide; try lia; try done.
  rewrite nthZ_take, nthZ_drop by lia. f_equal. nia.
Qed.

Lemma splice_journal_ok s b inoff src (z : bool) : mounted s -> is_u32 b -> ~ reserved G b -> 0 <= inoff ->
  inoff + Z.of_nat (length src) <= fg_bs G ->
  wp (splice_and_journal_locked b inoff src z) (fun rc s' => mounted s' /\
    ((rc = - ENOMEM /\ agree s s') \/
     (rc = 0 /\ forall b', ~ reserved G b' -> disk s' b' =
        if decide (b' = b) then splice (if z then replicate (Z.to_nat (fg_bs G)) 0 else disk s b) inoff src else disk s b'))) s.
Proof.
  intros Hm Hu Hr Hi Hfit. unfold splice_and_journal_locked. pose proof (bs_range G HG).
  eapply (wp_step _ _ (fun rc s1 => rc = 0 /\ mounted s1 /\ agree s s1 /\
    buf_is G s1 (if z then replicate (Z.to_nat (fg_bs G)) 0 else disk s b))).
  - destruct z.
    + destruct (zero_buf_ok G HG Lm s Hm) as (b0 & E & Hl & Ht). eapply wp_bind_ok; [exact E|]. apply wp_ret.
      split; [done|]. split; [by apply mounted_buf|]. split; [by apply agree_journal|exact Ht].
    + eapply wp_mono; [by apply (read_block_ok G HG Lm)|]. intros rc s1 (? & ? & ? & ? & _). done.
  - intros rc s1 (-> & Hm1 & Ha & Hb). cbn [Z.eqb negb]. apply wp_bind, wp_gets. unfold id. pose proof (mo_buf _ _ _ Hm1) as Hbl.
    eapply wp_bind_ok; [apply copy_in_ok; rewrite ?Hbl; lia|]. apply wp_bind, wp_modify. set (b1 := splice (g_block_buf s1) inoff src).
    assert (length b1 = 4096%nat) as Hl1 by (unfold b1; rewrite length_splice; rewrite ?Hbl; lia).
    eapply wp_mono; [apply (write_block_ok G HG Lm _ _ (mounted_buf G Lm s1 b1 Hm1 Hl1) Hu); intros ?; apply Hr; by left|].
    intros rc s2 (Hm2 & _ & _ & Hw). split; [done|]. destruct Hw as [[-> Ha2]|[-> Hw]]; [left|right]; (split; [done|]).
    + by eapply agree_trans.
    + intros b' Hr'. rewrite Hw by (intros ?; apply Hr'; by left). case_decide; [|by apply Ha].
      cbn [g_block_buf set_block_buf]. unfold b1. rewrite take_splice by (rewrite ?Hbl; lia). by rewrite Hb.
Qed.

(** The bytes written so far. *)
Definition wbytes s n w : Prop := forall p, 0 <= p ->
  fbyte G (disk s) n p = if decide (off <= p < off + w) then nthZ buf (p - off) else fbyte G (disk s0) (I ino) p.

Definition wfail s : Prop := holds_fs s I /\ torn (disk s0) (disk s) /\ others (disk s0) (disk s).

Lemma core_fail s n : wcore s n -> wfail s.
Proof. intros []. by split; [split|]. Qed.

Definition piece_post w (r : Z + Z * ext2_inode) s' : Prop :=
  match r with
  | inl rc => rc < 0 /\ wfail s'
  | inr (k, n') => 0 < k <= count - w /\ wcore s' n' /\ wbytes s' n' (w + k)
  end.

(** The end of a piece, once the inode has the block [b] at [l]; [z] says that
    the block is new. *)
Lemma piece_write s s1 n w b k (z : bool) : wcore s1 n -> 0 <= w -> 0 < k <= count - w ->
  (off + w) mod fg_bs G + k <= fg_bs G -> (off + w) / fg_bs G < 12 -> nthZ (i_block n) ((off + w) / fg_bs G) = b -> b <> 0 ->
  (z = true -> nthZ (i_block (I ino)) ((off + w) / fg_bs G) = 0) ->
  (forall p, 0 <= p -> (if decide (p / fg_bs G = (off + w) / fg_bs G) then (if z then 0 else nthZ (disk s1 b) (p mod fg_bs G)) else fbyte G (disk s1) n p) =
     if decide (off <= p < off + w) then nthZ buf (p - off) else fbyte G (disk s0) (I ino) p) ->
  wp (rc ← splice_and_journal_locked b ((off + w) mod fg_bs G) (take (Z.to_nat k) (drop (Z.to_nat w) buf)) z;
      if negb (rc =? 0) then ret (inl rc) else ret (inr (k, n))) (piece_post w) s1.
Proof.
  intros Hw Hw0 Hk Hfit Hl Eb Hb Hz Hprev. pose proof (bs_range G HG). set (l := (off + w) / fg_bs G) in *.
  assert (0 <= l < 12) as Hl12 by (split; [apply Z.div_pos; lia|done]). assert (slot_valid G (Direct l)) as Hsl by done.
  destruct (core_own s1 n (Direct l) Hw Hsl) as [Hd _]; [by simpl; rewrite Eb|]. simpl in Hd. rewrite Eb in Hd.
  assert (is_u32 b) as Hu.
  { rewrite <- Eb. unfold nthZ. destruct (iw_block _ (core_wf s1 n Hw)) as [Hlen Hall].
    destruct (lookup_lt_is_Some_2 (i_block n) (Z.to_nat l) ltac:(lia)) as [x Hx]. rewrite Hx. by apply (Forall_lookup_1 _ _ _ _ Hall Hx). }
  pose proof (Z.mod_pos_bound (off + w) (fg_bs G) ltac:(lia)) as Hmod.
  eapply wp_step; [apply (splice_journal_ok s1 b _ _ z (wc_mounted _ _ Hw) Hu (db_apart _ _ Hd)); [lia|rewrite length_take, length_drop; lia]|].
  intros rc s2 (Hm2 & [[-> Ha]|[-> Hdisk]]); cbv beta.
  { change (negb (- ENOMEM =? 0)) with true. cbv iota. apply wp_ret. split; [done|]. by eapply core_fail, core_agree. }
  cbn [Z.eqb negb]. apply wp_ret. split; [lia|].
  set (base := if z then replicate (Z.to_nat (fg_bs G)) 0 else disk s1 b) in *.
  assert (Z.of_nat (length base) = fg_bs G) as Hbase.
  { unfold base. destruct z; [rewrite length_replicate; lia|]. by apply (length_disk G HG Lm), Hw. }
  assert (forall p, 0 <= p -> p / fg_bs G = l -> nthZ (disk s2 b) (p mod fg_bs G) =
    if decide (off + w <= p < off + w + k) then nthZ buf (p - off) else nthZ base (p mod fg_bs G)) as Hnew.
  { intros p Hp Ep. rewrite Hdisk by apply (db_apart _ _ Hd). rewrite decide_True by done. apply piece_byte; try done; lia. }
  destruct (core_write s1 s2 n l b Hw Hl12 Eb Hb Hm2) as [Hw2 Hbytes].
  - intros b' Hr Hne. rewrite Hdisk by done. by rewrite decide_False.
  - intros p Hp Ep Hold. rewrite Hnew by done. case_decide; [right; split; [lia|done]|]. left. unfold base. destruct z; [|done].
    by specialize (Hz eq_refl).
  - split; [done|]. intros p Hp. rewrite Hbytes by done. specialize (Hprev p Hp). case_decide as Ep.
    + rewrite Hnew by done. destruct (decide (off + w <= p < off + w + k)); [by rewrite decide_True by lia|].
      assert (nthZ base (p mod fg_bs G) = if z then 0 else nthZ (disk s1 b) (p mod fg_bs G)) as Eb2.
      { unfold base. destruct z; [|done]. unfold nthZ. destruct (replicate _ 0 !! _) as [x|] eqn:Ex; [|done]. by apply lookup_replicate in Ex as [-> _]. }
      rewrite Eb2, Hprev. repeat case_decide; try done; lia.
    + rewrite Hprev. assert (~ (off + w <= p < off + w + k)).
      { intros Hin. apply Ep. unfold l. pose proof (Z.div_mod (off + w) (fg_bs G) ltac:(lia)).
        symmetry. apply Z.div_unique with (p - fg_bs G * ((off + w) / fg_bs G)); lia. }
      repeat case_decide; try done; lia.
Qed.

Lemma byte_at s n p : 0 <= p -> p / fg_bs G < 12 ->
  fbyte G (disk s) n p = if nthZ (i_block n) (p / fg_bs G) =? 0 then 0 else nthZ (disk s (nthZ (i_block n) (p / fg_bs G))) (p mod fg_bs G).
Proof. intros Hp Hl. unfold fbyte, phys, slot_of. by rewrite (proj2 (Z.ltb_lt _ 12)) by lia. Qed.

Lemma write_piece_ok s n w : wcore s n -> wbytes s n w -> 0 <= w < count ->
  wp (write_piece n (drop (Z.to_nat w) buf) (u32 (off + w)) (count - w)) (piece_post w) s.
Proof.
  intros Hw Hby Hwc. pose proof (bs_range G HG). pose proof (wc_mounted _ _ Hw) as Hm. unfold write_piece.
  apply wp_bind, wp_gets. unfold id. rewrite (mo_bs _ _ _ Hm). rewrite (u32_id (off + w)) by (unfold is_u32; lia).
  unfold udiv, umod. rewrite (proj2 (Z.eqb_neq (fg_bs G) 0)) by lia. apply wp_bind, wp_ret, wp_bind, wp_ret.
  set (l := (off + w) / fg_bs G). assert (0 <= l < 12) as Hl by (unfold l; split; [apply Z.div_pos; lia|apply Z.div_lt_upper_bound; lia]).
  pose proof (Z.mod_pos_bound (off + w) (fg_bs G) ltac:(lia)) as Hmod. rewrite (u32_id (fg_bs G - _)) by (unfold is_u32; lia).
  set (k := if _ <? _ then _ else _).
  assert (0 < k <= count - w /\ (off + w) mod fg_bs G + k <= fg_bs G) as [Hk Hfit] by (unfold k; destruct (Z.ltb_spec (count - w) (fg_bs G - (off + w) mod fg_bs G)); lia). clearbody k.
  destruct (iw_block _ (core_wf s n Hw)) as [Hlen _]. eapply wp_bind_ok; [apply rd_nthZ; lia|].
  assert (forall s', copy_out (drop (Z.to_nat w) buf) 0 k s' = Ok (take (Z.to_nat k) (drop (Z.to_nat w) buf), s')) as Ecopy.
  { intros s'. rewrite copy_out_ok by (rewrite ?length_drop; lia). done. }
  destruct (Z.eqb_spec (nthZ (i_block n) l) 0) as [E0|E0].
  - apply wp_bind. eapply wp_step; [by apply (alloc_any_ok G HG Lm)|]. intros [rc b] s1 [Hm1 Hr]. cbv beta iota. cbn [fst snd] in Hr.
    destruct (Z.eqb_spec rc 0) as [->|Hne]; cbn [negb].
    2: { destruct Hr as [[Hr Ha]|(? & _)]; [|done]. apply wp_ret. rewrite (proj2 (Z.eqb_neq rc 0) Hne). cbn [negb].
         apply wp_ret. split; [by apply alloc_error_neg|]. by eapply core_fail, core_agree. }
    destruct Hr as [[? _]|(_ & Hu & Hf & Hr)]; [done|]. eapply wp_bind_ok; [apply wr_ok; lia|]. apply wp_ret. cbn [Z.eqb negb].
    destruct (core_mark s s1 n _ l b Hw Hl E0 Hm1 Hu Hf Hr eq_refl) as (_ & Hw1 & Eb & Hb & Hrest).
    eapply wp_bind_ok; [apply Ecopy|]. eapply (piece_write s s1 _ w b k true); try done; try lia.
    + intros _. destruct (decide (nthZ (i_block (I ino)) l = 0)) as [|Hne]; [done|]. exfalso. apply Hne.
      fold l. rewrite <- (proj1 (wc_grown _ _ Hw) l) by (done || lia). done.
    + intros p Hp. rewrite <- (Hby p Hp). fold l. case_decide as Ep; [|by apply Hrest].
      rewrite byte_at by lia. by rewrite Ep, E0.
  - apply wp_bind, wp_ret. cbn [Z.eqb negb]. eapply wp_bind_ok; [apply Ecopy|].
    eapply (piece_write s s n w _ k false); try done; try lia. intros p Hp. rewrite <- (Hby p Hp). fold l. case_decide as Ep; [|done].
    rewrite byte_at by lia. rewrite Ep. by rewrite (proj2 (Z.eqb_neq _ 0) E0).
Qed.

Lemma ext2_write_loop_ok fuel s n w : wcore s n -> wbytes s n w -> 0 <= w <= count -> (Z.to_nat (count - w) <= fuel)%nat ->
  wp (write_loop fuel n buf count off w)
    (fun r s' => match r with inl rc => rc < 0 /\ wfail s' | inr n' => wcore s' n' /\ wbytes s' n' count end) s.
Proof.
  revert s n w. induction fuel as [|fuel IH]; intros s n w Hw Hby Hwc Hf; cbn [write_loop].
  - assert (w = count) as -> by lia. rewrite Z.ltb_irrefl. by apply wp_ret.
  - destruct (Z.ltb_spec w count) as [Hlt|]; [|assert (w = count) as -> by lia; by apply wp_ret].
    eapply wp_step; [apply write_piece_ok; [done|done|lia]|]. intros [rc|[k n']] s' Hp; cbv beta iota.
    + by apply wp_ret.
    + destruct Hp as (Hk & Hw' & Hb'). apply IH; try done; lia.
Qed.

End Call.
(** ** The whole call *)

(** The inode with a new size and new times. *)
Definition touched (t size : Z) (n : ext2_inode) : ext2_inode := set_i_ctime t (set_i_mtime t (set_i_size size n)).

Lemma touched_wf t size n : inode_wf n -> is_u32 t -> is_u32 size -> inode_wf (touched t size n).
Proof. intros [] Ht Hs. by split. Qed.

Lemma set_size_id n : set_i_size (i_size n) n = n.
Proof. by destruct n. Qed.

Lemma data_blocks s s' I ino : layout G (disk s) I -> valid_ino G ino -> same_data G s s' -> same_blocks G (disk s) (disk s') (I ino).
Proof. intros HL Hi Hd k Hk Hne. apply Hd. by apply (ly_own _ _ _ HL). Qed.

Lemma same_blocks_inode V V' n n' : i_block n' = i_block n -> same_blocks G V V' n -> same_blocks G V V' n'.
Proof. intros E Hs k. rewrite (slot_blk_same V n n' E). apply Hs. Qed.

Lemma fbyte_inode V n n' p : i_block n' = i_block n -> fbyte G V n' p = fbyte G V n p.
Proof. intros E. unfold fbyte. by rewrite (phys_same G V n n' _ E). Qed.

Definition write_post s I ino buf count off (r : Z) s' : Prop :=
  others I ino (disk s) (disk s') /\
  ((r < 0 /\ holds_fs s' I /\ torn I ino buf off count (disk s) (disk s')) \/
   (r = count /\ (0 < count -> ~ is_dir (I ino)) /\ exists n', holds_fs s' (upd I ino n') /\ i_mode n' = i_mode (I ino) /\ i_links_count n' = i_links_count (I ino) /\
     i_size n' = (if count =? 0 then i_size (I ino) else Z.max (i_size (I ino)) (off + count)) /\
     forall p, 0 <= p -> fbyte G (disk s') n' p =
       if decide (off <= p < off + count) then nthZ buf (p - off) else fbyte G (disk s) (I ino) p)).

Lemma holds_upd_id s I ino : holds_fs s I -> holds_fs s (upd I ino (I ino)).
Proof.
  intros [Hm Hs HL]. assert (forall x, upd I ino (I ino) x = I x) as E by (intros x; unfold upd; case_decide; by subst).
  split; [done| |by eapply layout_inodes]. intros x Hx. rewrite E. by apply Hs.
Qed.

Lemma others_refl I ino V : others I ino V V.
Proof. intros x _ _. apply same_blocks_refl. Qed.

Lemma torn_refl I ino buf off count V : torn I ino buf off count V V.
Proof. intros p _. by left. Qed.

Lemma agree_others s s' I ino : layout G (disk s) I -> agree s s' -> others I ino (disk s) (disk s').
Proof. intros HL Ha x Hx _. apply agree_blocks; [done|by apply layout_clear]. Qed.

Lemma agree_torn s s' I ino buf off count : layout G (disk s) I -> valid_ino G ino -> agree s s' -> torn I ino buf off count (disk s) (disk s').
Proof. intros HL Hi Ha p Hp. left. apply (same_blocks_byte G HG); [|done]. apply agree_blocks; [done|by apply layout_clear]. Qed.

(** The inode that the loop ended with is written back. *)
Lemma write_commit s0 s I ino buf off count n t : valid_ino G ino -> ~ is_dir (I ino) -> 0 <= off -> 0 < count -> off + count <= 12 * fg_bs G ->
  wcore s0 I ino buf off count s n -> wbytes s0 I ino buf off s n count -> is_u32 t ->
  wp (rc ← write_inode_locked ino (touched t (Z.max (i_size n) (off + count)) n);
      if negb (rc =? 0) then ret rc else ext2_sync_locked;; ret (s32 count)) (write_post s0 I ino buf count off) s.
Proof.
  intros Hi Hnd Hoff Hc Hfit Hw Hby Ht. pose proof (bs_range G HG). pose proof (core_wf s0 I ino buf off count Hi s n Hw) as Hwf.
  set (n' := touched _ _ _). assert (is_u32 (Z.max (i_size n) (off + count))) as Hsz by (pose proof (iw_size _ Hwf); unfold is_u32 in *; lia).
  pose proof (touched_wf t _ n Hwf Ht Hsz) as Hwf'.
  assert (layout G (disk s) (upd I ino n')) as HL'.
  { eapply layout_inodes; [|apply (layout_times G (disk s) (upd I ino n) ino n'); try done; rewrite ?upd_same; try done].
    - intros x. unfold upd. by case_decide.
    - apply Hw.
    - pose proof (ly_size _ _ _ (wc_new _ _ _ _ _ _ _ _ Hw) ino Hi) as Hs. rewrite upd_same in Hs. unfold size_ok, filled in *. cbn. lia. }
  eapply wp_step; [apply (commit_inode G HG Lm s I ino n'); try done; apply Hw|].
  intros rc s1 [(-> & Hm1 & Ha1)|(-> & Hf1 & Hd1)]; cbv beta.
  { change (negb (- ENOMEM =? 0)) with true. cbv iota. apply wp_ret.
    destruct (core_fail _ _ _ _ _ _ s1 n (core_agree _ _ _ _ _ _ Hi s s1 n Hm1 Ha1 Hw)) as (Hf & Hto & Hot).
    split; [done|]. left. done. }
  cbn [Z.eqb negb]. eapply wp_step; [by apply (sync_holds G HG Lm)|]. intros [] s2 [Hf2 Hd2]. apply wp_ret. unfold ret.
  pose proof (data_trans G _ _ _ Hd1 Hd2) as Hd. split.
  - intros x Hx Hne. eapply same_blocks_trans; [by apply (wc_others _ _ _ _ _ _ _ _ Hw)|]. apply data_blocks; [apply Hw|done|done].
  - right. rewrite s32_small by lia. split; [done|]. split; [done|]. exists n'. split; [done|]. split; [apply Hw|]. split; [apply Hw|]. split.
    + rewrite (proj2 (Z.eqb_neq count 0)) by lia. unfold n'. cbn. by rewrite (wc_size _ _ _ _ _ _ _ _ Hw).
    + intros p Hp. rewrite <- (Hby p Hp). rewrite (fbyte_inode _ n n') by done. apply (same_blocks_byte G HG); [|done].
      rewrite <- (upd_same I ino n). apply data_blocks; [apply Hw|done|done].
Qed.

Lemma write_data_ok s I ino buf count off : holds_fs s I -> valid_ino G ino -> is_u32 count -> is_u32 off ->
  count <= Z.of_nat (length buf) ->
  wp (ext2_inode_write_data junk ino (Some buf) count off) (write_post s I ino buf count off) s.
Proof.
  intros Hf Hi Hc Ho Hb. pose proof (hf_mounted _ _ _ _ Hf) as Hm. pose proof (bs_range G HG). unfold is_u32 in *.
  unfold ext2_inode_write_data. apply wp_bind, wp_gets. unfold id. rewrite (mo_bd _ _ _ Hm). cbn [negb].
  destruct (Z.eqb_spec count 0) as [->|Hc0].
  { apply wp_ret. split; [apply others_refl|]. right. split; [done|]. split; [lia|]. exists (I ino). split; [by apply holds_upd_id|].
    split; [done|]. split; [done|]. split; [done|]. intros p Hp. by rewrite decide_False by lia. }
  rewrite (mo_bs _ _ _ Hm). change EXT2_NDIR_BLOCKS with 12. destruct (Z.ltb_spec (12 * fg_bs G) (off + count)).
  { apply wp_ret. split; [apply others_refl|]. left. split; [done|]. split; [done|apply torn_refl]. }
  eapply wp_step; [by apply (read_inode_ok junk G HG Lm)|]. intros [rc n] s1 ([= -> ->] & Hm1 & Ha1). cbn [Z.eqb negb].
  rewrite (hf_stored _ _ _ _ Hf ino Hi). pose proof (holds_agree G HG Lm s s1 I Hm1 Ha1 Hf) as Hf1.
  destruct (is_kind EXT2_S_IFREG (I ino)) eqn:Ereg; cbn [negb].
  2: { apply wp_ret. split; [by apply agree_others; [apply Hf|]|]. left. split; [done|]. split; [done|by apply agree_torn; [apply Hf| |]]. }
  assert (~ is_dir (I ino)) as Hnd.
  { unfold is_dir, is_kind in *. apply Z.eqb_eq in Ereg. rewrite Ereg. done. }
  assert (wcore s I ino buf off count s1 (I ino)) as Hw.
  { destruct (holds_upd_id s1 I ino Hf1) as [_ _ HL1]. destruct Hf1. split; try done.
    - by apply agree_torn; [apply Hf| |].
    - by apply agree_others; [apply Hf|]. }
  eapply wp_step; [apply (ext2_write_loop_ok s I ino buf off count Hi Hnd ltac:(lia) Hb _ s1 (I ino) 0 Hw); [|lia|lia]|].
  { intros p Hp. rewrite decide_False by lia. apply (same_blocks_byte G HG); [|done]. apply agree_blocks; [done|]. by apply layout_clear; [apply Hf|]. }
  intros [rc|n] s2 Hr; cbv beta iota in Hr |- *.
  - destruct Hr as (Hrc & Hf2 & Ht2 & Ho2). apply wp_ret. split; [done|]. left. done.
  - destruct Hr as [Hw2 Hby]. rewrite (u32_id (off + count)) by (unfold is_u32; lia). destruct (now_ok s2) as (t & Et & Ht).
    eapply wp_bind_ok; [exact Et|].
    assert ((if i_size n <? off + count then set_i_size (off + count) n else n) = set_i_size (Z.max (i_size n) (off + count)) n) as ->.
    { destruct (Z.ltb_spec (i_size n) (off + count)); [by rewrite Z.max_r by lia|]. by rewrite Z.max_l, set_size_id by lia. }
    apply write_commit; try done; lia.
Qed.

End Write.

(** * Truncation and link counts of ext2

    [ext2_inode_truncate] frees the direct blocks behind the new size and keeps
    the bytes in front of it.  The blocks are marked as free before the inode
    without them is written: when that write fails, the inode on the disk
    still has blocks that the bitmaps hand out again. *)

Section Trunc.
Context {D M : Type} `{BlockDevice D} `{Kmalloc M}.
Context (junk : list Z) (G : geo) (HG : geo_ok G) (Lm : gmap Z Z).
Implicit Types (s : ext2 D M) (I : Z -> ext2_inode).
Notation mounted := (mounted G Lm).
Notation disk := (disk G).
Notation agree := (agree G).
Notation holds_fs := (holds_fs G Lm).

(** The inode in memory, with the size it is to have, is consistent with the
    disk, the one on the disk may not be; no data block has been written. *)
Record tcore s0 I ino size s n : Prop := {
  tc_mounted : mounted s;
  tc_stored : stored G (disk s) I;
  tc_new : layout G (disk s) (upd I ino (set_i_size size n));
  tc_mode : i_mode n = i_mode (I ino);
  tc_links : i_links_count n = i_links_count (I ino);
  tc_data : same_data G s0 s
}.

Lemma remark_same_data s s' b v : remark G (disk s) (disk s') b v -> same_data G s s'.
Proof. intros Hr b' Hb'. by eapply remark_data. Qed.

(** The mark of a block of the inode is cleared, unless there is no memory. *)
Lemma free_block_ok s I ino size n i : mounted s -> layout G (disk s) (upd I ino (set_i_size size n)) -> valid_ino G ino -> 0 <= i < 12 ->
  nthZ (i_block n) i <> 0 ->
  wp (free_data_block (nthZ (i_block n) i) n) (fun n' s' => mounted s' /\
    (exists v, is_u32 v /\ n' = set_i_blocks v n) /\
    (agree s s' \/ remark G (disk s) (disk s') (nthZ (i_block n) i) false)) s.
Proof.
  intros Hm HL Hi Hr Hne. set (b := nthZ (i_block n) i) in *.
  pose proof (ly_own _ _ _ HL ino (Direct i) Hi Hr) as Hown. rewrite upd_same in Hown. simpl in Hown. destruct (Hown Hne) as [Hd Hu].
  pose proof (ly_wf _ _ _ HL ino Hi) as Hwf. rewrite upd_same in Hwf. pose proof (iw_blocks _ Hwf) as Hbl. change (is_u32 (i_blocks n)) in Hbl.
  assert (exists v, is_u32 v /\ n = set_i_blocks v n) as Hsame by (exists (i_blocks n); split; [done|by destruct n]).
  destruct (area_place G HG b (db_area _ _ Hd)) as (Hg & Hbit & Eb). pose proof (go_bpg _ HG). pose proof (db_area _ _ Hd) as Ha. unfold in_area in Ha.
  unfold free_data_block. apply wp_bind, wp_gets. unfold id. rewrite (mo_first _ _ _ Hm), (mo_bpg _ _ _ Hm), (mo_groups _ _ _ Hm).
  rewrite (proj2 (Z.ltb_ge b _)) by lia. unfold udiv, umod. rewrite (proj2 (Z.eqb_neq (fg_bpg G) 0)) by lia.
  apply wp_bind, wp_ret, wp_bind, wp_ret. set (g := (b - fg_first G) / fg_bpg G) in *. set (bit := (b - fg_first G) mod fg_bpg G) in *.
  rewrite (proj2 (Z.leb_gt (fg_groups G) g)) by lia. destruct (gd_ok G HG Lm s g Hm Hg) as (d & E & _ & Ed & _).
  eapply wp_bind_ok; [exact E|]. rewrite Ed. eapply wp_step; [by apply (read_block_ok G HG Lm)|].
  intros rc s1 (-> & Hm1 & Ha1 & Hb1 & _). cbn [Z.eqb negb].
  eapply wp_bind_ok; [apply (test_bit_ok G HG Lm); [done|lia]|]. rewrite (buf_bits G _ _ _ Hb1) by lia. assert (bit_of (disk s (fg_bb G g)) bit = true) as -> by exact Hu. cbn [negb].
  destruct (clear_bit_ok G HG Lm s1 bit Hm1 ltac:(lia)) as (b1 & E1 & Hl1 & Hbits). eapply wp_bind_ok; [exact E1|].
  eapply wp_step; [apply (write_bitmap G HG Lm s _ g bit false (mounted_buf G Lm _ _ Hm1 Hl1) Ha1 Hg Hbit)|].
  { intros bit' Hb'. cbn [g_block_buf set_block_buf]. rewrite Hbits, (buf_bits G _ _ _ Hb1) by done.
    case_decide; [subst; by rewrite Z.eqb_refl, andb_false_r|]. by rewrite (proj2 (Z.eqb_neq _ _)), andb_true_r. }
  intros rc s2 (Hm2 & [[-> Ha2]|[-> Hrm]]); cbn [Z.eqb negb].
  - change (negb (- ENOMEM =? 0)) with true. cbv iota. apply wp_ret. split; [done|]. split; [done|]. by left.
  - apply (counted G HG Lm); [done|done|apply set_bg_free_blocks_keeps|intros; apply set_free_blocks_keeps|].
    intros s3 Hm3 Ej _ _. apply wp_ret. split; [done|]. split.
    + rewrite (mo_bs _ _ _ Hm). case_match eqn:Ec; [|done]. eexists. split; [|reflexivity]. apply Z.leb_le in Ec.
      pose proof (bs_range G HG). pose proof (Z.div_pos (fg_bs G) 512 ltac:(lia) ltac:(lia)). unfold is_u32 in *. lia.
    + right. replace b with (fg_first G + g * fg_bpg G + bit) by lia. eapply remark_agree; [done|apply agree_refl|exact Hrm|by apply agree_journal].
Qed.

(** The inode without the block [i]. *)
Lemma drop_layout V I ino n n' i : layout G V (upd I ino n) -> valid_ino G ino -> 0 <= i < 12 -> inode_wf n' ->
  i_size n' <= 1073741824 -> i_block n' = <[Z.to_nat i := 0]> (i_block n) -> i_mode n' = i_mode n -> i_links_count n' = i_links_count n -> nthZ (i_block n) i <> 0 ->
  layout G V (upd I ino n') /\ unowned G V (upd I ino n') (nthZ (i_block n) i).
Proof.
  intros HL Hi Hr Hwf Hsz Eb Em Elc Hne. pose proof (ly_wf _ _ _ HL ino Hi) as Hwf0. rewrite upd_same in Hwf0. destruct (iw_block _ Hwf0) as [Hlen _].
  split.
  - eapply layout_inodes; [|apply (layout_drop G HG V (upd I ino n) ino n' i); try done; rewrite ?upd_same; try done].
    + intros x. unfold upd. by case_decide.
    + unfold size_ok, filled. lia.
  - intros x k Hx Hk E. pose proof (ly_inj _ _ _ HL) as Hinj. destruct (decide (x = ino)) as [->|Hxi].
    + rewrite upd_same in E. rewrite (slot_blk_insert G V n n' i 0 Hr Hlen Eb k Hk) in E. case_decide; [congruence|].
      destruct (Hinj ino k ino (Direct i)) as [_ ?]; rewrite ?upd_same; try done; simpl; congruence.
    + rewrite upd_other in E by done.
      destruct (Hinj x k ino (Direct i)) as [? _]; rewrite ?upd_same, ?(upd_other I ino n x Hxi); try done; simpl; congruence.
Qed.

(** What the loop leaves of the list of blocks, from [keep] up to [i]. *)
Definition cut (keep i : Z) (l l' : list Z) : Prop := length l' = length l /\
  forall j, 0 <= j -> nthZ l' j = if decide (keep <= j < i) then 0 else nthZ l j.

Lemma wf_cut size v n l : inode_wf (set_i_size size n) -> is_u32 v -> length l = 15%nat -> Forall is_u32 l ->
  inode_wf (set_i_size size (set_i_block l (set_i_blocks v n))).
Proof. intros [] Hv Hl Hf. by split. Qed.

Lemma truncate_step s0 s I ino size n i v s' : valid_ino G ino -> tcore s0 I ino size s n -> 0 <= i < 12 -> size <= 1073741824 ->
  nthZ (i_block n) i <> 0 -> is_u32 v -> mounted s' -> agree s s' \/ remark G (disk s) (disk s') (nthZ (i_block n) i) false ->
  tcore s0 I ino size s' (set_i_block (<[Z.to_nat i := 0]> (i_block n)) (set_i_blocks v n)).
Proof.
  intros Hi Ht Hr Hsz Hne Hv Hm Hs'. set (n' := set_i_block _ _). pose proof (tc_new _ _ _ _ _ _ Ht) as HL.
  pose proof (ly_wf _ _ _ HL ino Hi) as Hwf. rewrite upd_same in Hwf. destruct (iw_block _ Hwf) as [Hlen Hall].
  pose proof (ly_own _ _ _ HL ino (Direct i) Hi Hr) as Hown. rewrite upd_same in Hown. simpl in Hown. destruct (Hown Hne) as [Hd _].
  assert (inode_wf (set_i_size size n')) as Hwf' by (apply wf_cut; [done|done|by rewrite length_insert|by apply Forall_insert]).
  destruct (drop_layout (disk s) I ino (set_i_size size n) (set_i_size size n') i HL Hi Hr Hwf') as [HL' Ho]; try done.
  destruct Ht. destruct Hs' as [Ha|Hrm]; split; try done.
  - by eapply stored_agree.
  - by eapply layout_agree.
  - eapply data_trans; [done|by apply agree_data].
  - by eapply remark_table.
  - by eapply layout_unmark.
  - eapply data_trans; [done|by eapply remark_same_data].
Qed.

Lemma truncate_loop_ok k i s0 s I ino size n keep : valid_ino G ino -> tcore s0 I ino size s n -> size <= 1073741824 ->
  0 <= keep <= i -> i + Z.of_nat k = 12 -> cut keep i (i_block (I ino)) (i_block n) ->
  wp (truncate_loop k i n) (fun n' s' => tcore s0 I ino size s' n' /\ cut keep 12 (i_block (I ino)) (i_block n')) s.
Proof.
  intros Hi Ht Hsz. revert i s n Ht. induction k as [|k IH]; intros i s n Ht Hki Hk Hcut; cbn [truncate_loop].
  { apply wp_ret. split; [done|]. by replace 12 with i by lia. }
  pose proof (ly_wf _ _ _ (tc_new _ _ _ _ _ _ Ht) ino Hi) as Hwf. rewrite upd_same in Hwf. destruct (iw_block _ Hwf) as [Hlen _]. simpl in Hlen.
  eapply wp_bind_ok; [apply rd_nthZ; lia|]. destruct Hcut as [Hcl Hcut].
  destruct (Z.eqb_spec (nthZ (i_block n) i) 0) as [E0|E0].
  - apply IH; [done|lia|lia|]. split; [done|]. intros j Hj. rewrite Hcut by done. repeat case_decide; try done; try lia.
    assert (j = i) as -> by lia. rewrite <- E0, Hcut by lia. by rewrite decide_False by lia.
  - eapply wp_step; [apply (free_block_ok s I ino size n i); try done; [apply Ht|apply Ht|lia]|].
    intros n1 s1 (Hm1 & (v & Hv & ->) & Hs1). cbv beta. cbn [i_block set_i_blocks]. eapply wp_bind_ok; [apply wr_ok; lia|].
    apply IH; [by eapply truncate_step; try done; lia|lia|lia|]. cbn [i_block set_i_block]. split; [by rewrite length_insert|].
    intros j Hj. destruct (decide (j = i)) as [->|Hne].
    + rewrite nthZ_insert by lia. rewrite !decide_True by lia. done.
    + unfold nthZ at 1. rewrite list_lookup_insert_ne by lia. fold (nthZ (i_block n) j). rewrite Hcut by done.
      repeat case_decide; try done; lia.
Qed.

Lemma cut_byte V n n' keep p : cut keep 12 (i_block n) (i_block n') -> 0 <= p -> 
  fbyte G V n' p = if decide (keep <= p / fg_bs G < 12) then 0 else fbyte G V n p.
Proof.
  intros [_ Hcut] Hp. pose proof (bs_range G HG). pose proof (Z.div_pos p (fg_bs G) Hp ltac:(lia)) as Hd.
  unfold fbyte, phys. destruct (slot_of G (p / fg_bs G)) as [k|] eqn:Ek; [|by repeat case_decide].
  unfold slot_of in Ek. destruct (Z.ltb_spec (p / fg_bs G) 12) as [Hlt|Hge].
  - injection Ek as <-. simpl. rewrite Hcut by lia. by case_decide.
  - rewrite (decide_False (P := keep <= p / fg_bs G < 12)) by lia.
    assert (forall j, 12 <= j -> nthZ (i_block n') j = nthZ (i_block n) j) as E.
    { intros j Hj. rewrite Hcut by lia. by rewrite decide_False by lia. }
    destruct (p / fg_bs G - 12 <? ppb G); [|destruct (p / fg_bs G - 12 - ppb G <? ppb G * ppb G); [|done]];
      injection Ek as <-; simpl; by rewrite E by lia.
Qed.

Definition trunc_post s I ino size (r : Z) s' : Prop :=
  same_data G s s' /\ mounted s' /\
  ((r = - EFBIG /\ holds_fs s' I) \/ r = - ENOMEM \/
   (r = 0 /\ exists n', holds_fs s' (upd I ino n') /\ i_mode n' = i_mode (I ino) /\ i_links_count n' = i_links_count (I ino) /\ i_size n' = size /\
      cut ((size + fg_bs G - 1) / fg_bs G) 12 (i_block (I ino)) (i_block n'))).

Lemma ext2_truncate_ok s I ino size : holds_fs s I -> valid_ino G ino -> is_u32 size ->
  wp (ext2_inode_truncate junk ino size) (trunc_post s I ino size) s.
Proof.
  intros Hf Hi Hsz. pose proof (hf_mounted _ _ _ _ Hf) as Hm. pose proof (bs_range G HG). unfold is_u32 in Hsz.
  unfold ext2_inode_truncate. apply wp_bind, wp_gets. unfold id. rewrite (mo_bd _ _ _ Hm), (mo_bs _ _ _ Hm). cbn [negb].
  change EXT2_NDIR_BLOCKS with 12. rewrite (u32_id (12 * fg_bs G)) by (unfold is_u32; lia). destruct (Z.ltb_spec (12 * fg_bs G) size).
  { apply wp_ret. split; [by intros ?|]. split; [done|]. by left. }
  eapply wp_step; [by apply (read_inode_ok junk G HG Lm)|]. intros [rc n] s1 ([= -> ->] & Hm1 & Ha1). cbn [Z.eqb negb].
  rewrite (hf_stored _ _ _ _ Hf ino Hi). destruct (holds_agree G HG Lm s s1 I Hm1 Ha1 Hf) as [_ Hst1 HL1].
  rewrite (u32_id (size + fg_bs G)), u32_id by (unfold is_u32; lia). unfold udiv. rewrite (proj2 (Z.eqb_neq (fg_bs G) 0)) by lia.
  apply wp_bind, wp_ret. set (keep := (size + fg_bs G - 1) / fg_bs G).
  assert (0 <= keep <= 12) as Hk by (unfold keep; split; [apply Z.div_pos; lia|]; apply Z.lt_succ_r, Z.div_lt_upper_bound; lia).
  rewrite (proj2 (Z.ltb_ge 12 keep)) by lia. pose proof (ly_wf _ _ _ HL1 ino Hi) as Hwf.
  assert (tcore s I ino size s1 (I ino)) as Ht.
  { split; try done; [|by apply agree_data]. apply layout_times; try done.
    - destruct Hwf. by split.
    - unfold size_ok, filled. cbn [i_size set_i_size]. lia. }
  eapply wp_step; [apply (truncate_loop_ok _ keep s s1 I ino size (I ino) keep); try done; try lia|].
  { split; [done|]. intros j Hj. by rewrite decide_False by lia. }
  intros n s2 [Ht2 Hcut]. cbv beta. destruct (now_ok s2) as (t & Et & Htu). eapply wp_bind_ok; [exact Et|]. fold (touched t size n).
  pose proof (ly_wf _ _ _ (tc_new _ _ _ _ _ _ Ht2) ino Hi) as Hwf2. rewrite upd_same in Hwf2.
  assert (inode_wf (touched t size n)) as Hwt by (destruct Hwf2; by split).
  assert (layout G (disk s2) (upd I ino (touched t size n))) as HL2.
  { eapply layout_inodes; [|apply (layout_times G (disk s2) (upd I ino (set_i_size size n)) ino (touched t size n)); try done; rewrite ?upd_same; try done].
    - intros x. unfold upd. by case_decide.
    - apply Ht2.
    - unfold size_ok, filled, touched. cbn [i_size set_i_size set_i_ctime set_i_mtime]. lia. }
  eapply wp_step; [apply (commit_inode G HG Lm s2 I ino); try done; apply Ht2|].
  intros rc s3 [(-> & Hm3 & Ha3)|(-> & Hf3 & Hd3)]; cbv beta.
  - change (- ENOMEM =? 0) with false. cbv iota. apply wp_bind, wp_ret, wp_ret. split; [|split; [done|by right; left]].
    eapply data_trans; [apply Ht2|by apply agree_data].
  - cbn [Z.eqb]. eapply wp_step; [by apply (sync_holds G HG Lm)|]. intros [] s4 [Hf4 Hd4]. apply wp_ret.
    split; [eapply data_trans; [apply Ht2|by eapply data_trans]|]. split; [apply Hf4|]. right. right. split; [done|].
    exists (touched t size n). split; [done|]. split; [apply Ht2|]. split; [apply Ht2|]. done.
Qed.

(** ** Link counts *)

Lemma adjust_links_ok s I ino delta : holds_fs s I -> valid_ino G ino -> live (I ino) ->
  wp (ext2_inode_adjust_links junk ino delta) (fun r s' => same_data G s s' /\
    ((r < 0 /\ holds_fs s' I) \/ (r = 0 /\ exists n', holds_fs s' (upd I ino n') /\ i_mode n' = i_mode (I ino) /\
       i_size n' = i_size (I ino) /\ i_block n' = i_block (I ino) /\ (delta = 1 -> live n')))) s.
Proof.
  intros Hf Hi Hlive. pose proof (hf_mounted _ _ _ _ Hf) as Hm. unfold ext2_inode_adjust_links. apply wp_bind, wp_gets. unfold id.
  rewrite (mo_bd _ _ _ Hm). cbn [negb]. eapply wp_step; [by apply (read_inode_ok junk G HG Lm)|].
  intros [rc n] s1 ([= -> ->] & Hm1 & Ha1). cbn [Z.eqb negb]. rewrite (hf_stored _ _ _ _ Hf ino Hi).
  pose proof (holds_agree G HG Lm s s1 I Hm1 Ha1 Hf) as Hf1. destruct (now_ok s1) as (t & Et & Ht). eapply wp_bind_ok; [exact Et|].
  set (v := if 0xFFFF <? _ then _ else _). set (n' := set_i_ctime t _).
  assert (inode_wf n') as Hwf'.
  { pose proof (ly_wf _ _ _ (hf_layout _ _ _ _ Hf) ino Hi) as []. split; try done. apply Z.mod_pos_bound. lia. }
  eapply wp_step; [apply (commit_inode G HG Lm s1 I ino n'); try done; [apply Hf1|]; apply layout_fields; try done; [apply Hf1| |intros _; by apply (ly_live _ _ _ (hf_layout _ _ _ _ Hf1))]|].
  { apply (ly_size _ _ _ (hf_layout _ _ _ _ Hf) ino Hi). }
  intros rc s3 [(-> & Hm3 & Ha3)|(-> & Hf3 & Hd3)]; cbv beta.
  - change (- ENOMEM =? 0) with false. cbv iota. apply wp_bind, wp_ret, wp_ret.
    split; [by eapply data_trans; apply agree_data|]. left. split; [done|by eapply holds_agree].
  - cbn [Z.eqb]. eapply wp_step; [by apply (sync_holds G HG Lm)|]. intros [] s4 [Hf4 Hd4]. apply wp_ret.
    split; [eapply data_trans; [by apply agree_data|by eapply data_trans]|]. right. split; [done|]. exists n'.
    split_and!; try done. intros ->. unfold live, n', v. cbn [i_links_count set_i_ctime set_i_links_count].
    pose proof (iw_links _ (ly_wf _ _ _ (hf_layout _ _ _ _ Hf) ino Hi)) as Hu. unfold is_u16 in Hu. rewrite s32_small by lia.
    rewrite (proj2 (Z.ltb_ge _ 0)) by lia. unfold u16. destruct (Z.ltb_spec 65535 (i_links_count (I ino) + 1)); rewrite Z.mod_small by lia; lia.
Qed.

End Trunc.
