(* ===== verification/Ext2Dents.v ===== *)
(** * The entries of a directory block of ext2

    The loops over the records of a block as functions on lists of entries:
    [find_entry] finds the first entry in use with a name, [place_entry] puts a
    new entry into an unused record or behind a used one, and the removal
    empties the record or joins it to the one in front. *)

From stdpp Require Import base tactics numbers list gmap.
From S2P Require Import Prelude Kstring Alloc Timer Block Ext2Disk Ext2 Ext2Io Ext2Inv Ext2Table Ext2Alloc Ext2Data Ext2Write.

(** ** Bytes of an entry *)

Lemma d_rec_pos e : 8 <= d_rec e.
Proof. unfold d_rec. lia. Qed.

Lemma length_dent e : Z.of_nat (length (dent_bytes e)) = d_rec e.
Proof. unfold dent_bytes, d_rec. rewrite !length_app. simpl. lia. Qed.

Lemma dents_cons e es : dents_bytes (e :: es) = dent_bytes e ++ dents_bytes es.
Proof. done. Qed.

Lemma dents_app es es' : dents_bytes (es ++ es') = dents_bytes es ++ dents_bytes es'.
Proof. unfold dents_bytes. by rewrite fmap_app, concat_app. Qed.

Lemma nthZ_middle A (X : list Z) C i : 0 <= i < Z.of_nat (length X) -> nthZ (A ++ X ++ C) (Z.of_nat (length A) + i) = nthZ X i.
Proof.
  intros Hi. rewrite nthZ_app, (proj2 (Z.ltb_ge _ _)) by lia.
  replace (Z.of_nat (length A) + i - Z.of_nat (length A)) with i by lia. by rewrite nthZ_app, (proj2 (Z.ltb_lt _ _)) by lia.
Qed.

(** ** Finding an entry *)

(** The entry in use with the name: its offset and that of the one in front. *)
Fixpoint find_dent (es : list dent) (off prev : Z) (nm : list Z) : option (Z * Z) :=
  match es with
  | [] => None
  | e :: es' =>
      if bool_decide (d_ino e <> 0 /\ d_name e = nm) then Some (off, prev)
      else find_dent es' (off + d_rec e) off nm
  end.

(** The same with the entries in front of it and behind it. *)
Lemma find_dent_some es off prev nm o p : find_dent es off prev nm = Some (o, p) ->
  exists es1 e es2, es = es1 ++ e :: es2 /\ d_ino e <> 0 /\ d_name e = nm /\
    Forall (fun e => ~ (d_ino e <> 0 /\ d_name e = nm)) es1 /\
    o = off + Z.of_nat (length (dents_bytes es1)) /\
    (es1 = [] /\ p = prev \/ exists es0 e0, es1 = es0 ++ [e0] /\ p = off + Z.of_nat (length (dents_bytes es0))).
Proof.
  revert off prev. induction es as [|e es IH]; intros off prev; simpl; [done|]. case_bool_decide as Hd.
  - intros [= <- <-]. exists [], e, es. destruct Hd. split_and!; try done; [simpl; lia|by left].
  - intros Hf. destruct (IH _ _ Hf) as (es1 & e1 & es2 & -> & H1 & H2 & H3 & H4 & H5). exists (e :: es1), e1, es2.
    split_and!; try done; [by constructor|rewrite dents_cons, length_app; pose proof (length_dent e); lia|]. right.
    destruct H5 as [[-> ->]|(es0 & e0 & -> & ->)]; [exists [], e; simpl; split; [done|lia]|].
    exists (e :: es0), e0. split; [done|]. rewrite dents_cons, length_app. pose proof (length_dent e). lia.
Qed.

Lemma find_dent_none es off prev nm : find_dent es off prev nm = None -> Forall (fun e => ~ (d_ino e <> 0 /\ d_name e = nm)) es.
Proof. revert off prev. induction es as [|e es IH]; intros off prev; simpl; [done|]. case_bool_decide; [done|]. constructor; [done|eauto]. Qed.

Section Scan.
Context {D M : Type} `{BlockDevice D} `{Kmalloc M}.
Context (G : geo) (HG : geo_ok G).
Implicit Types s : ext2 D M.

(** Access to the fields of the entry behind [A]. *)
Lemma dent_fields A e C s : dent_ok G e -> d_rec e < 65536 ->
  let b := A ++ dent_bytes e ++ C in let off := Z.of_nat (length A) in
  de_rec_len b off s = Ok (d_rec e, s) /\ de_inode b off s = Ok (d_ino e, s) /\
  de_name_len b off s = Ok (Z.of_nat (length (d_name e)), s) /\
  forall i, 0 <= i < Z.of_nat (length (d_name e)) -> rd b (off + 8 + i) s = Ok (nthZ (d_name e) i, s).
Proof.
  intros He Hr b off. pose proof (d_rec_pos e) as Hp. pose proof (length_dent e) as Hl.
  assert (Z.of_nat (length b) = off + d_rec e + Z.of_nat (length C)) as Hlb by (unfold b; rewrite !length_app; lia).
  assert (forall i, 0 <= i < d_rec e -> nthZ b (off + i) = nthZ (dent_bytes e) i) as Hn by (intros; apply nthZ_middle; lia).
  pose proof (go_inodes _ HG). pose proof (go_groups _ HG). pose proof (go_ipg _ HG). pose proof (bs_range G HG). destruct (de_ino _ _ He) as [Hi0 Hi1].
  split_and!.
  - unfold de_rec_len, ld16. rewrite (bind_ok _ _ _ _ _ (copy_out_ok b (off + 4) 2 s ltac:(lia) ltac:(lia) ltac:(lia))).
    unfold ret, get16. rewrite !nthZ_take, !nthZ_drop by lia. replace (off + 4 + (0 + 1)) with (off + 5) by lia. rewrite Z.add_0_r, !Hn by lia.
    do 2 f_equal. apply le16_get. unfold is_u16. lia.
  - unfold de_inode, ld32. rewrite (bind_ok _ _ _ _ _ (copy_out_ok b off 4 s ltac:(lia) ltac:(lia) ltac:(lia))).
    unfold ret, get32. rewrite !nthZ_take, !nthZ_drop, !Hn by lia. do 2 f_equal. apply le32_get. unfold is_u32. nia.
  - unfold de_name_len. rewrite rd_nthZ by lia. by rewrite Hn by lia.
  - intros i Hi. assert (8 + i < d_rec e) by (unfold d_rec; lia). rewrite rd_nthZ by lia. replace (off + 8 + i) with (off + (8 + i)) by lia.
    rewrite Hn by lia. unfold nthZ, dent_bytes. replace (Z.to_nat (8 + i)) with (8 + Z.to_nat i)%nat by lia.
    simpl. rewrite lookup_app_l by lia. done.
Qed.

Lemma name_match_ok k i A e C nm rest s : dent_ok G e -> d_rec e < 65536 -> length (d_name e) = length nm ->
  0 <= i -> (Z.of_nat k + i = Z.of_nat (length nm)) -> take (Z.to_nat i) (d_name e) = take (Z.to_nat i) nm ->
  name_match k i (A ++ dent_bytes e ++ C) (Z.of_nat (length A)) (nm ++ rest) s = Ok (bool_decide (d_name e = nm), s).
Proof.
  intros He Hr Hl. destruct (dent_fields A e C s He Hr) as (_ & _ & _ & Hrd).
  revert i. induction k as [|k IH]; intros i Hi Hk Ht; cbn [name_match].
  - rewrite bool_decide_true; [done|]. rewrite <- (take_ge (d_name e) (Z.to_nat i)), Ht by lia. apply take_ge. lia.
  - rewrite (bind_ok _ _ _ _ _ (Hrd i ltac:(lia))).
    assert (rd (nm ++ rest) i s = Ok (nthZ nm i, s)) as Er.
    { rewrite rd_nthZ by (rewrite length_app; lia). by rewrite nthZ_app, (proj2 (Z.ltb_lt _ _)) by lia. }
    rewrite (bind_ok _ _ _ _ _ Er). destruct (Z.eqb_spec (nthZ (d_name e) i) (nthZ nm i)) as [E|E]; cbn [negb].
    + apply IH; [lia|lia|]. destruct (lookup_lt_is_Some_2 (d_name e) (Z.to_nat i) ltac:(lia)) as [x Hx].
      destruct (lookup_lt_is_Some_2 nm (Z.to_nat i) ltac:(lia)) as [y Hy]. replace (Z.to_nat (i + 1)) with (S (Z.to_nat i)) by lia.
      unfold nthZ in E. rewrite Hx, Hy in E. simpl in E. by rewrite (take_S_r _ _ _ Hx), (take_S_r _ _ _ Hy), Ht, E.
    + rewrite bool_decide_false; [done|]. intros E2. apply E. by rewrite E2.
Qed.

Lemma find_entry_ok fuel es A C prev nm rest s bs : Forall (dent_ok G) es -> (length es <= fuel)%nat -> bs < 65536 ->
  Z.of_nat (length A) + Z.of_nat (length (dents_bytes es)) = bs ->
  find_entry fuel bs (A ++ dents_bytes es ++ C) (Z.of_nat (length A)) prev (nm ++ rest) (Z.of_nat (length nm)) s =
  Ok (find_dent es (Z.of_nat (length A)) prev nm, s).
Proof.
  intros Hes. revert fuel A prev. induction Hes as [|e es He Hes IH]; intros fuel A prev Hf Hbs Hl.
  - destruct fuel; cbn [find_entry find_dent]; rewrite (proj2 (Z.ltb_ge _ bs)) by (simpl in Hl; lia); done.
  - destruct fuel as [|fuel]; [simpl in Hf; lia|]. cbn [find_entry find_dent]. rewrite dents_cons, length_app in Hl. rewrite dents_cons, <- app_assoc.
    pose proof (length_dent e) as Hle. pose proof (d_rec_pos e) as Hp. rewrite (proj2 (Z.ltb_lt _ bs)) by lia.
    assert (d_rec e < 65536) as Hr by lia. destruct (dent_fields A e (dents_bytes es ++ C) s He Hr) as (E1 & E2 & E3 & _).
    rewrite (bind_ok _ _ _ _ _ E1), (proj2 (Z.eqb_neq (d_rec e) 0)) by lia. rewrite (bind_ok _ _ _ _ _ E2).
    assert (find_entry fuel bs (A ++ dent_bytes e ++ dents_bytes es ++ C) (Z.of_nat (length A) + d_rec e) (Z.of_nat (length A)) (nm ++ rest) (Z.of_nat (length nm)) s
      = Ok (find_dent es (Z.of_nat (length A) + d_rec e) (Z.of_nat (length A)) nm, s)) as Enext.
    { specialize (IH fuel (A ++ dent_bytes e) (Z.of_nat (length A)) ltac:(simpl in Hf; lia) Hbs).
      rewrite length_app, <- app_assoc, Nat2Z.inj_add, Hle in IH. apply IH. lia. }
    destruct (Z.eqb_spec (d_ino e) 0) as [E0|E0]; cbn [negb andb].
    { rewrite !bind_ret. rewrite bool_decide_false by tauto. exact Enext. }
    rewrite (bind_ok _ _ _ _ _ E3). destruct (Z.eqb_spec (Z.of_nat (length (d_name e))) (Z.of_nat (length nm))) as [El|El].
    + rewrite Nat2Z.id. rewrite (bind_ok _ _ _ _ _ (name_match_ok (length nm) 0 A e (dents_bytes es ++ C) nm rest s He Hr ltac:(lia) ltac:(lia) ltac:(lia) eq_refl)).
      destruct (decide (d_name e = nm)) as [En|En].
      * rewrite !bool_decide_true by done. done.
      * rewrite !bool_decide_false by tauto. exact Enext.
    + rewrite bind_ret, bool_decide_false by (intros [_ En]; apply El; by rewrite En). exact Enext.
Qed.

(** ** Storing an entry *)

Lemma head8 (X : list Z) : (8 <= length X)%nat -> exists x0 x1 x2 x3 x4 x5 x6 x7 Y, X = x0 :: x1 :: x2 :: x3 :: x4 :: x5 :: x6 :: x7 :: Y.
Proof. intros Hl. do 8 (destruct X as [|? X]; [simpl in Hl; lia|]). by repeat eexists. Qed.

Definition put_bytes (X : list Z) (child : Z) (rec : option Z) (ft : Z) (nm : list Z) : list Z :=
  le32 child ++ match rec with Some r => le16 r | None => take 2 (drop 4 X) end ++
  [Z.of_nat (length nm); ft] ++ nm ++ drop (8 + length nm) X.

Lemma put_entry_ok A X C child rec ft nm rest s : Z.of_nat (length nm) <= 255 -> (8 + length nm <= length X)%nat ->
  g_block_buf s = A ++ X ++ C ->
  put_entry (Z.of_nat (length A)) child rec (Z.of_nat (length nm)) ft (nm ++ rest) s =
  Ok (tt, set_block_buf (A ++ put_bytes X child rec ft nm ++ C) s).
Proof.
  intros Hnm HX Hb. unfold put_entry. rewrite bind_gets. unfold id. rewrite Hb.
  assert (forall Y pos bs s', length Y = length X -> 0 <= pos -> pos + Z.of_nat (length bs) <= Z.of_nat (length X) ->
    copy_in (A ++ Y ++ C) (Z.of_nat (length A) + pos) bs s' = Ok (A ++ splice Y pos bs ++ C, s')) as Hcp.
  { intros Y pos bs s' HY Hp Hl. rewrite copy_in_ok by (rewrite ?length_app; lia). by rewrite splice_app_middle by lia. }
  assert (forall Y pos bs, length Y = length X -> 0 <= pos -> pos + Z.of_nat (length bs) <= Z.of_nat (length X) -> length (splice Y pos bs) = length X) as Hls
    by (intros; rewrite length_splice by lia; done).
  assert (copy_in (A ++ X ++ C) (Z.of_nat (length A)) (le32 child) s = Ok (A ++ splice X 0 (le32 child) ++ C, s)) as E1.
  { rewrite <- (Hcp X 0 (le32 child) s) by (simpl; lia). by rewrite Z.add_0_r. }
  rewrite (bind_ok _ _ _ _ _ E1). set (X1 := splice X 0 (le32 child)). assert (length X1 = length X) as L1 by (apply Hls; simpl; lia).
  set (X2 := match rec with Some r => splice X1 4 (le16 r) | None => X1 end). assert (length X2 = length X) as L2.
  { unfold X2. destruct rec; [apply Hls; [done|lia|simpl; lia]|done]. }
  assert (match rec with Some r => copy_in (A ++ X1 ++ C) (Z.of_nat (length A) + 4) (le16 r) | None => ret (A ++ X1 ++ C) end s = Ok (A ++ X2 ++ C, s)) as E2.
  { unfold X2. destruct rec; [apply Hcp; [done|lia|simpl; lia]|done]. }
  rewrite (bind_ok _ _ _ _ _ E2). rewrite (bind_ok _ _ _ _ _ (Hcp X2 6 [u8 (Z.of_nat (length nm)); ft] s L2 ltac:(lia) ltac:(simpl; lia))).
  set (X3 := splice X2 6 _). assert (length X3 = length X) as L3 by (apply Hls; [done|lia|simpl; lia]).
  rewrite (bind_ok _ _ _ _ _ (copy_out_ok (nm ++ rest) 0 (Z.of_nat (length nm)) s ltac:(lia) ltac:(lia) ltac:(rewrite length_app; lia))).
  rewrite Nat2Z.id. change (Z.to_nat 0) with 0%nat. rewrite drop_0, take_app_length.
  rewrite (bind_ok _ _ _ _ _ (Hcp X3 8 nm s L3 ltac:(lia) ltac:(lia))). unfold modify. do 4 f_equal. f_equal.
  destruct (head8 X ltac:(lia)) as (x0 & x1 & x2 & x3 & x4 & x5 & x6 & x7 & Y & ->).
  unfold X3, X2, X1, put_bytes. rewrite u8_id by (unfold is_u8; lia). destruct rec; reflexivity.
Qed.

Lemma put_rec_len_ok A X C r s : (8 <= length X)%nat -> g_block_buf s = A ++ X ++ C ->
  put_rec_len (Z.of_nat (length A)) r s = Ok (tt, set_block_buf (A ++ splice X 4 (le16 r) ++ C) s).
Proof.
  intros HX Hb. unfold put_rec_len. rewrite bind_gets. unfold id. rewrite Hb.
  rewrite (bind_ok _ _ _ _ _ (copy_in_ok (A ++ X ++ C) (Z.of_nat (length A) + 4) (le16 r) s ltac:(lia) ltac:(rewrite !length_app; simpl; lia))).
  unfold modify. by rewrite splice_app_middle by (simpl; lia).
Qed.

(** ** Room for an entry *)

Lemma entry_size_spec len : 0 <= len <= 255 ->
  8 + len <= dir_entry_size len < 12 + len /\ dir_entry_size len mod 4 = 0.
Proof.
  intros Hl. assert (dir_entry_size len = (8 + len + 3) / 4 * 4) as ->.
  { unfold dir_entry_size. rewrite (u32_id (8 + len + 3)) by (unfold is_u32; lia).
    exact (land_lnot_mask (8 + len + 3) 2 ltac:(unfold is_u32; lia) ltac:(lia)). }
  rewrite Z_mod_mult.
  pose proof (Z.div_mod (8 + len + 3) 4 ltac:(lia)). pose proof (Z.mod_pos_bound (8 + len + 3) 4 ltac:(lia)). lia.
Qed.

Definition d_size (e : dent) : Z := dir_entry_size (Z.of_nat (length (d_name e))).

Lemma d_size_fits e : dent_ok G e -> d_size e <= d_rec e.
Proof.
  intros He. destruct (entry_size_spec (Z.of_nat (length (d_name e)))) as [F1 F2]; [pose proof (de_len _ _ He); lia|].
  fold (d_size e) in *. pose proof (de_align _ _ He) as Ha. unfold d_rec in *.
  pose proof (Z.div_mod (d_size e) 4 ltac:(lia)). pose proof (Z.div_mod (8 + Z.of_nat (length (d_name e)) + Z.of_nat (length (d_pad e))) 4 ltac:(lia)). lia.
Qed.

(** The unused record with the new entry in it. *)
Definition reuse (e : dent) (child ft : Z) (nm : list Z) : dent :=
  Dent child ft nm (drop (length nm) (d_name e ++ d_pad e)).

(** The used record cut to its size, and the new entry behind it. *)
Definition shrink (e : dent) : dent :=
  Dent (d_ino e) (d_type e) (d_name e) (take (Z.to_nat (d_size e - 8) - length (d_name e)) (d_pad e)).
Definition behind (e : dent) (child ft : Z) (nm : list Z) : dent :=
  Dent child ft nm (drop (Z.to_nat (d_size e) - length (d_name e) + length nm) (d_pad e)).

Fixpoint place (es : list dent) (child ft : Z) (nm : list Z) : option (list dent) :=
  match es with
  | [] => None
  | e :: es' =>
      let need := dir_entry_size (Z.of_nat (length nm)) in
      if bool_decide (d_ino e = 0 /\ need <= d_rec e) then Some (reuse e child ft nm :: es')
      else if bool_decide (d_ino e <> 0 /\ need <= d_rec e - d_size e)
           then Some (shrink e :: behind e child ft nm :: es')
      else (fun l => e :: l) <$> place es' child ft nm
  end.

Lemma d_rec_shrink e : dent_ok G e -> d_rec (shrink e) = d_size e.
Proof.
  intros He. pose proof (d_size_fits e He) as Hf. destruct (entry_size_spec (Z.of_nat (length (d_name e)))) as [F1 _]; [pose proof (de_len _ _ He); lia|].
  fold (d_size e) in *. unfold d_rec in *. cbn [d_name d_pad shrink]. rewrite length_take. lia.
Qed.

Lemma d_rec_behind e child ft nm : dent_ok G e -> Z.of_nat (length nm) <= 255 ->
  dir_entry_size (Z.of_nat (length nm)) <= d_rec e - d_size e -> d_rec (behind e child ft nm) = d_rec e - d_size e.
Proof.
  intros He Hn Hr. destruct (entry_size_spec (Z.of_nat (length nm))) as [F1 _]; [lia|].
  destruct (entry_size_spec (Z.of_nat (length (d_name e)))) as [F2 _]; [pose proof (de_len _ _ He); lia|]. fold (d_size e) in *.
  unfold d_rec in *. cbn [d_name d_pad behind]. rewrite length_drop. lia.
Qed.

Lemma d_rec_reuse e child ft nm : Z.of_nat (length nm) <= 255 -> dir_entry_size (Z.of_nat (length nm)) <= d_rec e ->
  d_rec (reuse e child ft nm) = d_rec e.
Proof.
  intros Hn Hr. destruct (entry_size_spec (Z.of_nat (length nm))) as [F1 _]; [lia|].
  unfold d_rec in *. cbn [d_name d_pad reuse]. rewrite length_drop, length_app. lia.
Qed.

Lemma reuse_bytes e child ft nm : Z.of_nat (length nm) <= 255 -> dir_entry_size (Z.of_nat (length nm)) <= d_rec e ->
  put_bytes (dent_bytes e) child None ft nm = dent_bytes (reuse e child ft nm).
Proof. intros Hn Hr. unfold put_bytes, dent_bytes at 3. rewrite (d_rec_reuse e child ft nm Hn Hr). reflexivity. Qed.

Lemma shrink_bytes e : dent_ok G e ->
  splice (dent_bytes e) 4 (le16 (d_size e)) =
  dent_bytes (shrink e) ++ drop (Z.to_nat (d_size e - 8) - length (d_name e)) (d_pad e).
Proof.
  intros He. unfold dent_bytes at 2. rewrite (d_rec_shrink e He). cbn [d_ino d_type d_name d_pad shrink].
  rewrite <- !app_assoc, take_drop. reflexivity.
Qed.

Lemma behind_bytes e child ft nm : dent_ok G e -> Z.of_nat (length nm) <= 255 ->
  dir_entry_size (Z.of_nat (length nm)) <= d_rec e - d_size e ->
  put_bytes (drop (Z.to_nat (d_size e - 8) - length (d_name e)) (d_pad e)) child (Some (d_rec e - d_size e)) ft nm =
  dent_bytes (behind e child ft nm).
Proof.
  intros He Hn Hr. unfold dent_bytes. rewrite (d_rec_behind e child ft nm He Hn Hr). unfold put_bytes. rewrite drop_drop.
  destruct (entry_size_spec (Z.of_nat (length (d_name e)))) as [F2 _]; [pose proof (de_len _ _ He); lia|]. fold (d_size e) in *.
  cbn [d_ino d_type d_name d_pad behind]. do 4 f_equal. f_equal. lia.
Qed.

Lemma place_entry_ok fuel es A C child ft nm rest s : Forall (dent_ok G) es -> (length es <= fuel)%nat ->
  Z.of_nat (length nm) <= 255 -> g_block_size s < 65536 ->
  Z.of_nat (length A) + Z.of_nat (length (dents_bytes es)) = g_block_size s -> g_block_buf s = A ++ dents_bytes es ++ C ->
  place_entry fuel (Z.of_nat (length A)) (dir_entry_size (Z.of_nat (length nm))) child (Z.of_nat (length nm)) ft (nm ++ rest) s =
  match place es child ft nm with
  | Some es' => Ok (true, set_block_buf (A ++ dents_bytes es' ++ C) s)
  | None => Ok (false, s)
  end.
Proof.
  intros Hes. revert fuel A. induction Hes as [|e es He Hes IH]; intros fuel A Hf Hn Hbs Hl Hb.
  - destruct fuel; cbn [place_entry place]; rewrite bind_gets; unfold id; rewrite (proj2 (Z.ltb_ge _ (g_block_size s))) by (simpl in Hl; lia); done.
  - destruct fuel as [|fuel]; [simpl in Hf; lia|]. cbn [place_entry place]. rewrite bind_gets. unfold id.
    rewrite dents_cons, length_app in Hl. rewrite dents_cons, <- app_assoc in Hb. pose proof (length_dent e) as Hle. pose proof (d_rec_pos e) as Hp.
    rewrite (proj2 (Z.ltb_lt _ (g_block_size s))) by lia. assert (d_rec e < 65536) as Hr by lia.
    destruct (dent_fields A e (dents_bytes es ++ C) s He Hr) as (E1 & E2 & E3 & _). rewrite <- Hb in E1, E2, E3.
    rewrite (bind_ok _ _ _ _ _ E1), (proj2 (Z.eqb_neq (d_rec e) 0)) by lia. rewrite (bind_ok _ _ _ _ _ E2).
    set (need := dir_entry_size (Z.of_nat (length nm))). pose proof (d_size_fits e He) as Hfit.
    destruct (entry_size_spec (Z.of_nat (length nm))) as [Hneed _]; [lia|]. fold need in Hneed.
    destruct (entry_size_spec (Z.of_nat (length (d_name e)))) as [Hds _]; [pose proof (de_len _ _ He); lia|]. fold (d_size e) in Hds.
    assert (place_entry fuel (Z.of_nat (length A) + d_rec e) need child (Z.of_nat (length nm)) ft (nm ++ rest) s =
      match place es child ft nm with Some es' => Ok (true, set_block_buf (A ++ dent_bytes e ++ dents_bytes es' ++ C) s) | None => Ok (false, s) end) as Enext.
    { specialize (IH fuel (A ++ dent_bytes e) ltac:(simpl in Hf; lia) Hn Hbs). rewrite length_app, <- app_assoc, Nat2Z.inj_add, Hle in IH. fold need in IH.
      rewrite IH by (done || lia). destruct (place es child ft nm); [|done]. by rewrite <- app_assoc. }
    destruct (Z.eqb_spec (d_ino e) 0) as [E0|E0]; cbn [negb andb].
    + rewrite bind_ret. destruct (Z.leb_spec need (d_rec e)) as [Hfree|Hfree].
      * rewrite bool_decide_true by done.
        rewrite (bind_ok _ _ _ _ _ (put_entry_ok A (dent_bytes e) (dents_bytes es ++ C) child None ft nm rest s Hn ltac:(lia) Hb)).
        rewrite reuse_bytes by done. unfold ret. by rewrite dents_cons, <- app_assoc.
      * rewrite !bool_decide_false by lia. rewrite Enext. destruct (place es child ft nm); [|done]. cbn [fmap option_fmap option_map]. by rewrite dents_cons, <- app_assoc.
    + rewrite bind_assoc, (bind_ok _ _ _ _ _ E3), bind_ret. fold (d_size e). rewrite u32_id by (unfold is_u32; lia).
      rewrite bool_decide_false by tauto. destruct (Z.leb_spec need (d_rec e - d_size e)) as [Hroom|Hroom].
      * rewrite bool_decide_true by done. assert (forall x, 0 <= x < 65536 -> u16 x = x) as Hu16 by (intros; by apply Z.mod_small).
        rewrite Hu16 by lia. rewrite (bind_ok _ _ _ _ _ (put_rec_len_ok A (dent_bytes e) (dents_bytes es ++ C) (d_size e) s ltac:(lia) Hb)).
        rewrite shrink_bytes by done. set (Q := drop _ (d_pad e)).
        assert (length (dent_bytes (shrink e)) = Z.to_nat (d_size e)) as Hls by (pose proof (length_dent (shrink e)); rewrite (d_rec_shrink e He) in *; lia).
        replace (Z.of_nat (length A) + d_size e) with (Z.of_nat (length (A ++ dent_bytes (shrink e)))) by (rewrite length_app; lia).
        replace (Z.of_nat (length A) + d_rec e - Z.of_nat (length (A ++ dent_bytes (shrink e)))) with (d_rec e - d_size e) by (rewrite length_app; lia).
        rewrite Hu16 by lia.
        assert (8 + length nm <= length Q)%nat as HQ by (unfold Q; rewrite length_drop; unfold d_rec in *; lia).
        erewrite bind_ok; [|apply (put_entry_ok (A ++ dent_bytes (shrink e)) Q (dents_bytes es ++ C) child _ ft nm rest); [done|exact HQ|cbn [g_block_buf set_block_buf]; by rewrite <- !app_assoc]].
        unfold Q. rewrite behind_bytes by done. unfold ret. rewrite !dents_cons, <- !app_assoc. by destruct s.
      * rewrite bool_decide_false by lia. rewrite Enext. destruct (place es child ft nm); [|done]. cbn [fmap option_fmap option_map]. by rewrite dents_cons, <- app_assoc.
Qed.

(** ** The entries in use *)

Definition entries (es : list dent) : list (list Z * Z) := (fun e => (d_name e, d_ino e)) <$> filter (fun e => d_ino e <> 0) es.

Lemma entries_app es es' : entries (es ++ es') = entries es ++ entries es'.
Proof. unfold entries. by rewrite filter_app, fmap_app. Qed.

Lemma entries_cons e es : entries (e :: es) = (if decide (d_ino e = 0) then [] else [(d_name e, d_ino e)]) ++ entries es.
Proof. unfold entries. rewrite filter_cons. repeat case_decide; try done; tauto. Qed.

(** A placed entry is in the block, and the others are as they were. *)
Lemma place_spec es child ft nm es' : Forall (dent_ok G) es -> 0 < child <= fg_inodes G -> Z.of_nat (length nm) <= 255 ->
  place es child ft nm = Some es' ->
  Forall (dent_ok G) es' /\ length (dents_bytes es') = length (dents_bytes es) /\
  exists l1 l2, entries es = l1 ++ l2 /\ entries es' = l1 ++ (nm, child) :: l2.
Proof.
  intros Hes Hc Hn. revert es'. induction Hes as [|e es He Hes IH]; intros es'; cbn [place]; [done|].
  destruct (entry_size_spec (Z.of_nat (length (d_name e)))) as [_ Hal]; [pose proof (de_len _ _ He); lia|]. fold (d_size e) in Hal.
  case_bool_decide as H1'; [|case_bool_decide as H2'].
  - destruct H1' as [E0 Hr]. intros [= <-]. pose proof (d_rec_reuse e child ft nm Hn Hr) as Er. split; [|split].
    + constructor; [|done]. split; cbn [d_ino d_name reuse]; [lia|done|]. rewrite Er. apply He.
    + rewrite !dents_cons, !length_app. pose proof (length_dent e). pose proof (length_dent (reuse e child ft nm)). lia.
    + exists [], (entries es). rewrite !entries_cons. rewrite decide_True by done. cbn [d_ino d_name reuse]. by rewrite decide_False by lia.
  - destruct H2' as [E0 Hr]. intros [= <-]. pose proof (d_rec_shrink e He) as Er1. pose proof (d_rec_behind e child ft nm He Hn Hr) as Er2. split; [|split].
    + constructor; [|constructor; [|done]]; split; cbn [d_ino d_name shrink behind]; try apply He; try lia; rewrite ?Er1, ?Er2; [done|].
      rewrite Zminus_mod, Hal, (de_align _ _ He). done.
    + rewrite !dents_cons, !length_app. pose proof (length_dent e). pose proof (length_dent (shrink e)). pose proof (length_dent (behind e child ft nm)). lia.
    + exists [(d_name e, d_ino e)], (entries es). rewrite !entries_cons. rewrite decide_False by done. cbn [d_ino d_name shrink behind].
      rewrite !decide_False by (done || lia). done.
  - destruct (place es child ft nm) as [es1|] eqn:Ep; [|done]. cbn [fmap option_fmap option_map]. intros [= <-]. destruct (IH _ eq_refl) as (I1 & I2 & l1 & l2 & E1 & E2).
    split; [by constructor|]. split; [rewrite !dents_cons, !length_app; lia|].
    exists ((if decide (d_ino e = 0) then [] else [(d_name e, d_ino e)]) ++ l1), l2. by rewrite !entries_cons, E1, E2, <- !app_assoc.
Qed.

(** ** Removing an entry *)

Definition joined (e0 e : dent) : dent := Dent (d_ino e0) (d_type e0) (d_name e0) (d_pad e0 ++ dent_bytes e).
Definition emptied (e : dent) : dent := Dent 0 (d_type e) (d_name e) (d_pad e).

Lemma d_rec_joined e0 e : d_rec (joined e0 e) = d_rec e0 + d_rec e.
Proof. unfold d_rec at 1. cbn [d_name d_pad joined]. rewrite length_app. pose proof (length_dent e). unfold d_rec at 1. lia. Qed.

Lemma joined_bytes e0 e : splice (dent_bytes e0) 4 (le16 (d_rec e0 + d_rec e)) ++ dent_bytes e = dent_bytes (joined e0 e).
Proof.
  unfold dent_bytes at 3. rewrite d_rec_joined. cbn [d_ino d_type d_name d_pad joined].
  change (splice (dent_bytes e0) 4 (le16 (d_rec e0 + d_rec e))) with
    (le32 (d_ino e0) ++ le16 (d_rec e0 + d_rec e) ++ [Z.of_nat (length (d_name e0)); d_type e0] ++ d_name e0 ++ d_pad e0).
  by rewrite <- !app_assoc.
Qed.

Lemma emptied_bytes e : splice (dent_bytes e) 0 (le32 0) = dent_bytes (emptied e).
Proof. reflexivity. Qed.

End Scan.

(** * Directories of ext2

    [dir_rep V n ess]: the blocks of the directory [n] that a lookup goes
    through hold the entries [ess].  [ext2_dir_lookup] returns the inode of the
    first entry with the name, or 0. *)

(** ** Names *)

(** The inode of the first entry with the name, 0 when there is none. *)
Fixpoint assoc (l : list (list Z * Z)) (nm : list Z) : Z :=
  match l with
  | [] => 0
  | (x, i) :: l' => if bool_decide (x = nm) then i else assoc l' nm
  end.

Lemma assoc_none l nm : nm ∉ l.*1 -> assoc l nm = 0.
Proof.
  induction l as [|[x i] l IH]; simpl; [done|]. intros [Hx Hl]%not_elem_of_cons. rewrite bool_decide_false by congruence. by apply IH.
Qed.

Lemma assoc_app_none l l' nm : nm ∉ l.*1 -> assoc (l ++ l') nm = assoc l' nm.
Proof.
  induction l as [|[x i] l IH]; simpl; [done|]. intros [Hx Hl]%not_elem_of_cons. rewrite bool_decide_false by congruence. by apply IH.
Qed.

Lemma assoc_app_some l l' nm : nm ∈ l.*1 -> assoc (l ++ l') nm = assoc l nm.
Proof.
  induction l as [|[x i] l IH]; simpl; [by intros ?%elem_of_nil|]. intros Hin. case_bool_decide; [done|].
  apply IH. by apply elem_of_cons in Hin as [?|?]; [congruence|].
Qed.

Lemma assoc_middle_other l1 l2 x i nm : x <> nm -> assoc (l1 ++ (x, i) :: l2) nm = assoc (l1 ++ l2) nm.
Proof.
  intros Hne. induction l1 as [|[y j] l1 IH]; simpl; [by rewrite bool_decide_false|]. case_bool_decide; [done|apply IH].
Qed.

Lemma entries_none es nm : Forall (fun e => ~ (d_ino e <> 0 /\ d_name e = nm)) es <-> nm ∉ (entries es).*1.
Proof.
  induction es as [|e es IH]; [split; [intros _; apply not_elem_of_nil|done]|]. rewrite Forall_cons, entries_cons, IH. case_decide; simpl.
  - split; [by intros [_ ?]|]. intros Hn. split; [tauto|done].
  - rewrite not_elem_of_cons. split; intros [H1 H2]; (split; [|done]); [intros ->; tauto|intros [_ <-]; done].
Qed.

Definition dir_names (ess : list (list dent)) : list (list Z * Z) := ess ≫= entries.

Lemma dir_names_app ess ess' : dir_names (ess ++ ess') = dir_names ess ++ dir_names ess'.
Proof. unfold dir_names. apply bind_app. Qed.

(** ** Finding a name in the scratch block *)

Section Dirs.
Context {D M : Type} `{BlockDevice D} `{Kmalloc M}.
Context (junk : list Z) (G : geo) (HG : geo_ok G) (Lm : gmap Z Z).
Implicit Types (s : ext2 D M) (I : Z -> ext2_inode).
Notation mounted := (mounted G Lm).
Notation disk := (disk G).
Notation agree := (agree G).
Notation holds_fs := (holds_fs G Lm).

Lemma length_dents es : (length es <= length (dents_bytes es))%nat.
Proof.
  induction es as [|e es IH]; [done|]. rewrite dents_cons, length_app. pose proof (length_dent e). pose proof (d_rec_pos e). simpl. lia.
Qed.

Lemma buf_split s es : buf_is G s (dents_bytes es) -> g_block_buf s = [] ++ dents_bytes es ++ drop (Z.to_nat (fg_bs G)) (g_block_buf s).
Proof. intros <-. simpl. by rewrite take_drop. Qed.

Lemma find_in_block_ok s es nm rest : mounted s -> buf_is G s (dents_bytes es) -> Forall (dent_ok G) es ->
  Z.of_nat (length (dents_bytes es)) = fg_bs G ->
  find_in_block (nm ++ rest) (Z.of_nat (length nm)) s = Ok (find_dent es 0 4294967295 nm, s).
Proof.
  intros Hm Hb Hes Hl. pose proof (bs_range G HG). pose proof (length_dents es). unfold find_in_block. rewrite bind_gets. unfold id.
  rewrite (mo_bs _ _ _ Hm), (buf_split s es Hb). apply (find_entry_ok G HG _ es [] _ _ nm rest s); [done|lia|lia|simpl; lia].
Qed.

(** ** Looking up a name *)

(** The blocks [ess] are those that a lookup goes through. *)
Record dir_rep (V : Z -> list Z) (n : ext2_inode) (ess : list (list dent)) : Prop := {
  dr_blocks : forall (j : nat) es, ess !! j = Some es -> u32 (Z.of_nat j * fg_bs G) < i_size n /\
    phys G V n (Z.of_nat j) <> 0 /\ V (phys G V n (Z.of_nat j)) = dents_bytes es /\ Forall (dent_ok G) es;
  dr_end : i_size n <= u32 (Z.of_nat (length ess) * fg_bs G) \/ phys G V n (Z.of_nat (length ess)) = 0
}.

Lemma phys_max V n l : 0 <= l -> phys G V n l <> 0 -> l < max_blocks (fg_bs G).
Proof.
  intros Hl Hne. destruct (phys_inv G V n l Hne) as (k & Ek & _). unfold max_blocks. fold (ppb G). change EXT2_NDIR_BLOCKS with 12.
  pose proof (ppb_range G HG). unfold slot_of in Ek. repeat case_match; simplify_eq; bool_case; try lia; nia.
Qed.

Lemma dir_rep_exists V I ino : layout G V I -> valid_ino G ino -> is_dir (I ino) -> exists ess, dir_rep V (I ino) ess.
Proof.
  intros HL Hi Hd. set (n := I ino) in *.
  assert (forall k (ess : list (list dent)), (Z.to_nat (max_blocks (fg_bs G)) <= k + length ess)%nat ->
    (forall (j : nat) es, ess !! j = Some es -> u32 (Z.of_nat j * fg_bs G) < i_size n /\
      phys G V n (Z.of_nat j) <> 0 /\ V (phys G V n (Z.of_nat j)) = dents_bytes es /\ Forall (dent_ok G) es) ->
    exists ess', dir_rep V n ess') as Hex.
  { induction k as [|k IH]; intros ess Hk Hess;
      (destruct (decide (phys G V n (Z.of_nat (length ess)) = 0)) as [E0|E0]; [exists ess; split; [done|by right]|]).
    - pose proof (phys_max V n _ (Nat2Z.is_nonneg _) E0). lia.
    - destruct (Z.leb_spec (i_size n) (u32 (Z.of_nat (length ess) * fg_bs G))); [exists ess; split; [done|by left]|].
      destruct (ly_dir _ _ _ HL ino (Z.of_nat (length ess)) Hi Hd ltac:(lia) E0) as (es & Ees & Hes). fold n in Ees.
      apply (IH (ess ++ [es])); [rewrite length_app; simpl; lia|]. intros j es' [Hj|[Hj Hj']]%lookup_app_Some; [by apply Hess|].
      apply list_lookup_singleton_Some in Hj' as [Hj0 <-]. assert (j = length ess) as -> by lia. done. }
  apply (Hex (Z.to_nat (max_blocks (fg_bs G))) []); [simpl; lia|]. intros j es Hj. done.
Qed.

Lemma find_assoc_some es nm o p : Forall (dent_ok G) es -> find_dent es 0 4294967295 nm = Some (o, p) ->
  nm ∈ (entries es).*1 /\ exists es1 e es2, es = es1 ++ e :: es2 /\ o = Z.of_nat (length (dents_bytes es1)) /\ d_ino e = assoc (entries es) nm /\ d_ino e <> 0.
Proof.
  intros Hes Hf. destruct (find_dent_some _ _ _ _ _ _ Hf) as (es1 & e & es2 & -> & Hne & Hnm & H1' & -> & _).
  apply entries_none in H1'. rewrite entries_app, entries_cons, decide_False by done. split.
  - rewrite !fmap_app. simpl. rewrite Hnm. set_solver.
  - exists es1, e, es2. split_and!; try done. rewrite assoc_app_none by done. simpl. by rewrite bool_decide_true.
Qed.

Lemma lookup_blocks_ok fuel s0 s n nm rest ess k : mounted s -> agree s0 s -> length (i_block n) = 15%nat -> clear G (disk s0) n ->
  dir_rep (disk s0) n ess -> (k <= length ess)%nat -> (length ess - k < fuel)%nat -> nm ∉ (dir_names (take k ess)).*1 ->
  wp (lookup_blocks fuel n (Z.of_nat k) (nm ++ rest) (Z.of_nat (length nm)))
    (fun v s' => v = assoc (dir_names ess) nm /\ mounted s' /\ agree s0 s') s.
Proof.
  revert s k. induction fuel as [|fuel IH]; intros s k Hm Ha Hl Hc Hd Hk Hf Hnm; [lia|]. cbn [lookup_blocks].
  apply wp_bind, wp_gets; unfold id; rewrite (mo_bs _ _ _ Hm).
  assert (k = length ess -> assoc (dir_names ess) nm = 0) as Hend by (intros ->; rewrite take_ge in Hnm by lia; by apply assoc_none).
  destruct (decide (k = length ess)) as [->|Hne].
  { rewrite Hend by done. case_match eqn:Ec; [|by apply wp_ret]. apply Z.ltb_lt in Ec.
    destruct (dr_end _ _ _ Hd) as [?|E0]; [lia|]. eapply wp_step; [apply phys_ok; [done|done|done|by eapply agree_clear|lia]|].
    intros v s1 (-> & Hm1 & Ha1). cbv beta. rewrite (same_blocks_phys G HG (disk s0) (disk s) n _ (agree_blocks G s0 s n Ha Hc)) by lia.
    rewrite E0. cbn [Z.eqb]. apply wp_ret. split; [done|]. split; [done|by eapply agree_trans]. }
  destruct (lookup_lt_is_Some_2 ess k ltac:(lia)) as [es Hes]. destruct (dr_blocks _ _ _ Hd k es Hes) as (Hsz & Hp & Eb & Hok).
  rewrite (proj2 (Z.ltb_lt _ _)) by done. eapply wp_step; [apply phys_ok; [done|done|done|by eapply agree_clear|lia]|].
  intros v s1 (-> & Hm1 & Ha1). cbv beta. rewrite (same_blocks_phys G HG (disk s0) (disk s) n _ (agree_blocks G s0 s n Ha Hc)) by lia.
  rewrite (proj2 (Z.eqb_neq _ 0) Hp). pose proof (agree_trans G _ _ _ Ha Ha1) as Ha01.
  assert (~ reserved G (phys G (disk s0) n (Z.of_nat k))) as Hr.
  { destruct (phys_inv G _ _ _ Hp) as (sl & Esl & E). rewrite E in *. apply Hc; [|done]. apply (slot_of_valid G HG (Z.of_nat k)); [lia|done]. }
  eapply wp_step; [by apply (read_block_ok G HG Lm)|]. intros rc s2 (-> & Hm2 & Ha2 & Hb2 & _). cbn [Z.eqb negb].
  rewrite Ha01, Eb in Hb2 by done. assert (Z.of_nat (length (dents_bytes es)) = fg_bs G) as Hlb by (rewrite <- Eb, <- Ha01 by done; by apply (length_disk G HG Lm)).
  eapply wp_bind_ok; [by apply find_in_block_ok|].
  assert (dir_names ess = dir_names (take k ess) ++ entries es ++ dir_names (drop (S k) ess)) as Edn.
  { rewrite <- (take_drop_middle ess k es Hes) at 1. by rewrite dir_names_app. }
  destruct (find_dent es 0 4294967295 nm) as [[o p]|] eqn:Ef.
  - destruct (find_assoc_some es nm o p Hok Ef) as (Hin & es1 & e & es2 & -> & -> & Ei & _).
    apply wp_bind, wp_gets. unfold id. rewrite (buf_split s2 _ Hb2). rewrite dents_app, dents_cons, <- !app_assoc. rewrite app_nil_l.
    apply Forall_app in Hok as [_ [He _]%Forall_cons].
    destruct (dent_fields G HG (dents_bytes es1) e (dents_bytes es2 ++ drop (Z.to_nat (fg_bs G)) (g_block_buf s2)) s2 He) as (_ & E2 & _).
    { rewrite dents_app, dents_cons, !length_app in Hlb. pose proof (length_dent e). pose proof (bs_range G HG). lia. }
    eapply wp_ok; [exact E2|]. split; [|split; [done|by eapply agree_trans]].
    rewrite Edn, Ei, assoc_app_none by done. by rewrite assoc_app_some.
  - apply find_dent_none, entries_none in Ef. replace (Z.of_nat k + 1) with (Z.of_nat (S k)) by lia. apply IH; try done; try lia; [by eapply agree_trans|].
    rewrite (take_S_r _ _ _ Hes), dir_names_app, fmap_app, not_elem_of_app. split; [done|]. unfold dir_names. simpl. by rewrite app_nil_r.
Qed.

Lemma dir_rep_length V n ess : dir_rep V n ess -> Z.of_nat (length ess) <= max_blocks (fg_bs G).
Proof.
  intros Hd. destruct (decide (length ess = 0%nat)) as [E|E].
  - rewrite E. unfold max_blocks. fold (ppb G). pose proof (ppb_range G HG). change EXT2_NDIR_BLOCKS with 12. nia.
  - destruct (lookup_lt_is_Some_2 ess (length ess - 1) ltac:(lia)) as [es Hes]. destruct (dr_blocks _ _ _ Hd _ es Hes) as (_ & Hp & _).
    pose proof (phys_max V n (Z.of_nat (length ess - 1)) ltac:(lia) Hp). lia.
Qed.

(** The name of a call: [nm] is the string in the caller's buffer. *)
Lemma no_name_ok nm rest s : Forall (fun c => c <> 0) nm ->
  no_name (Some (nm ++ 0 :: rest)) s = Ok (bool_decide (nm = []), s).
Proof.
  intros Hnm. unfold no_name. destruct nm as [|c nm]; [done|]. apply Forall_cons in Hnm as [Hc _].
  rewrite (bind_ok _ _ _ _ _ (rd_ok ((c :: nm) ++ 0 :: rest) 0 c s ltac:(lia) eq_refl)). by rewrite (proj2 (Z.eqb_neq c 0)).
Qed.

Lemma dir_lookup_ok s I ino nm rest : holds_fs s I -> valid_ino G ino -> Forall (fun c => c <> 0) nm ->
  wp (ext2_dir_lookup junk ino (Some (nm ++ 0 :: rest)))
    (fun v s' => mounted s' /\ agree s s' /\ (v <> 0 -> is_dir (I ino) /\ nm <> []) /\
       forall ess, is_dir (I ino) -> nm <> [] -> dir_rep (disk s) (I ino) ess -> v = assoc (dir_names ess) nm) s.
Proof.
  intros Hf Hi Hnm. pose proof (hf_mounted _ _ _ _ Hf) as Hm. unfold ext2_dir_lookup. apply wp_bind, wp_gets. unfold id.
  rewrite (mo_bd _ _ _ Hm). cbn [negb]. eapply wp_bind_ok; [by apply no_name_ok|]. case_bool_decide as E0.
  { apply wp_ret. split; [done|]. split; [apply agree_refl|]. done. }
  cbn [default]. eapply wp_bind_ok; [by apply strlen_from_ok, holds_intro|]. rewrite Z.add_0_l.
  eapply wp_step; [by apply (read_inode_ok junk G HG Lm)|]. intros [rc n] s1 ([= -> ->] & Hm1 & Ha1). cbn [Z.eqb negb].
  rewrite (hf_stored _ _ _ _ Hf ino Hi). destruct (is_kind EXT2_S_IFDIR (I ino)) eqn:Ed; cbn [negb].
  2: { apply wp_ret. split; [done|]. split; [done|]. unfold is_dir. rewrite Ed. done. }
  unfold dir_lookup_in_inode. apply wp_bind, wp_gets. unfold id. rewrite (mo_bs _ _ _ Hm1).
  destruct (dir_rep_exists (disk s) I ino (hf_layout _ _ _ _ Hf) Hi Ed) as [ess0 Hd0].
  assert (forall ess, dir_rep (disk s) (I ino) ess -> wp (lookup_blocks (Z.to_nat (max_blocks (fg_bs G) + 1)) (I ino) 0 (nm ++ 0 :: rest) (Z.of_nat (length nm)))
    (fun v s' => v = assoc (dir_names ess) nm /\ mounted s' /\ agree s s') s1) as Hw.
  { intros ess Hd. pose proof (dir_rep_length _ _ _ Hd). apply (lookup_blocks_ok _ s s1 (I ino) nm (0 :: rest) ess 0); try done; try lia.
    - by apply (iw_block _ (ly_wf _ _ _ (hf_layout _ _ _ _ Hf) ino Hi)).
    - by apply layout_clear; [apply Hf|].
    - apply not_elem_of_nil. }
  destruct (proj1 (wp_elim _ _ _) (Hw ess0 Hd0)) as (v & s2 & E & Ev & Hm2 & Ha2). eapply wp_ok; [exact E|].
  split; [done|]. split; [done|]. split; [done|]. intros ess _ _ Hd. specialize (Hw ess Hd). unfold wp in Hw. rewrite E in Hw. by destruct Hw.
Qed.

End Dirs.
