(* ===== verification/Ext2DirOps.v ===== *)
(** * Adding and removing directory entries of ext2

    What [ext2_dir_add_entry] and [ext2_dir_remove_entry] do to the blocks of a
    directory, on every path: which entries there are afterwards, and that no
    block of another inode changed. *)

From stdpp Require Import base tactics numbers list gmap.
From S2P Require Import Prelude Kstring Alloc Timer Block Ext2Disk Ext2 Ext2Io Ext2Inv Ext2Table Ext2Alloc Ext2Data Ext2Write Ext2Dents.

Section DirOps.
Context {D M : Type} `{BlockDevice D} `{Kmalloc M}.
Context (junk : list Z) (G : geo) (HG : geo_ok G) (Lm : gmap Z Z).
Implicit Types (s : ext2 D M) (I J : Z -> ext2_inode).
Notation mounted := (mounted G Lm).
Notation disk := (disk G).
Notation agree := (agree G).
Notation holds_fs := (holds_fs G Lm).

(** The direct blocks of a directory, up to the first hole. *)
Record direct_rep (V : Z -> list Z) (n : ext2_inode) (ess : list (list dent)) : Prop := {
  dd_len : (length ess <= 12)%nat;
  dd_blocks : forall (j : nat) es, ess !! j = Some es -> nthZ (i_block n) (Z.of_nat j) <> 0 /\
    V (nthZ (i_block n) (Z.of_nat j)) = dents_bytes es /\ Forall (dent_ok G) es;
  dd_end : length ess = 12%nat \/ nthZ (i_block n) (Z.of_nat (length ess)) = 0
}.

Lemma direct_rep_exists V I ino : layout G V I -> valid_ino G ino -> is_dir (I ino) -> exists ess, direct_rep V (I ino) ess.
Proof.
  intros HL Hi Hd. set (n := I ino) in *.
  assert (forall k (ess : list (list dent)), (12 = k + length ess)%nat ->
    (forall (j : nat) es, ess !! j = Some es -> nthZ (i_block n) (Z.of_nat j) <> 0 /\
      V (nthZ (i_block n) (Z.of_nat j)) = dents_bytes es /\ Forall (dent_ok G) es) -> exists ess', direct_rep V n ess') as Hex.
  { induction k as [|k IH]; intros ess Hk Hess; [exists ess; split; [lia|done|left; lia]|].
    destruct (decide (nthZ (i_block n) (Z.of_nat (length ess)) = 0)) as [E0|E0]; [exists ess; split; [lia|done|by right]|].
    assert (phys G V n (Z.of_nat (length ess)) = nthZ (i_block n) (Z.of_nat (length ess))) as Ep.
    { unfold phys, slot_of. by rewrite (proj2 (Z.ltb_lt _ 12)) by lia. }
    destruct (ly_dir _ _ _ HL ino (Z.of_nat (length ess)) Hi Hd ltac:(lia)) as (es & Ees & Hes); [fold n; by rewrite Ep|]. fold n in Ees. rewrite Ep in Ees.
    apply (IH (ess ++ [es])); [rewrite length_app; simpl; lia|]. intros j es' [Hj|[Hj Hj']]%lookup_app_Some; [by apply Hess|].
    apply list_lookup_singleton_Some in Hj' as [Hj0 <-]. assert (j = length ess) as -> by lia. done. }
  apply (Hex 12%nat []); [done|]. done.
Qed.

(** All blocks of all inodes but the direct block [k] of [ino]. *)
Definition only_block (V V' : Z -> list Z) I ino k : Prop := forall x sl, valid_ino G x -> slot_valid G sl ->
  ~ (x = ino /\ sl = Direct k) -> slot_blk V (I x) sl <> 0 -> V' (slot_blk V (I x) sl) = V (slot_blk V (I x) sl).

Definition all_blocks (V V' : Z -> list Z) I : Prop := forall x, valid_ino G x -> same_blocks G V V' (I x).

Lemma agree_all s s' I : layout G (disk s) I -> agree s s' -> all_blocks (disk s) (disk s') I.
Proof. intros HL Ha x Hx. apply agree_blocks; [done|by apply layout_clear]. Qed.

Lemma all_blocks_trans V1 V2 V3 I : all_blocks V1 V2 I -> all_blocks V2 V3 I -> all_blocks V1 V3 I.
Proof. intros A1 A2 x Hx. eapply same_blocks_trans; [by apply A1|by apply A2]. Qed.

Lemma data_all s s' I : layout G (disk s) I -> same_data G s s' -> all_blocks (disk s) (disk s') I.
Proof. intros HL Hd x Hx. by apply data_blocks. Qed.

Lemma all_blocks_agree s s1 s' I : layout G (disk s) I -> agree s s1 -> all_blocks (disk s1) (disk s') I -> all_blocks (disk s) (disk s') I.
Proof. intros HL Ha Hb. eapply all_blocks_trans; [by eapply agree_all|done]. Qed.

(** The direct block [k] of a directory is rewritten. *)
Lemma dir_write s s' I ino k b c : holds_fs s I -> valid_ino G ino -> 0 <= k < 12 -> nthZ (i_block (I ino)) k = b -> b <> 0 ->
  mounted s' -> (forall b', ~ reserved G b' -> disk s' b' = if decide (b' = b) then c else disk s b') -> dir_block_ok G c ->
  holds_fs s' I /\ only_block (disk s) (disk s') I ino k /\ disk s' b = c.
Proof.
  intros [_ Hst HL] Hi Hk Eb Hb Hm Hv Hc. assert (slot_valid G (Direct k)) as Hsv by (simpl; lia).
  destruct (ly_own _ _ _ HL ino (Direct k) Hi Hsv) as [Hd _]; [by simpl; rewrite Eb|]. simpl in Hd. rewrite Eb in Hd.
  assert (forall x sl, valid_ino G x -> slot_valid G sl -> slot_blk (disk s) (I x) sl = b -> x = ino /\ sl = Direct k) as Hu.
  { intros x sl Hx Hsl E. destruct (ly_inj _ _ _ HL x sl ino (Direct k)) as [-> ->]; try done; simpl; congruence. }
  assert (forall b', ~ reserved G b' -> b' <> b -> disk s' b' = disk s b') as Hrest by (intros; rewrite Hv by done; by rewrite decide_False).
  assert (disk s' b = c) as Ec by (rewrite Hv by apply (db_apart _ _ Hd); by rewrite decide_True).
  split; [split; [done|by eapply stored_data|]|].
  - eapply layout_write; try done.
    + intros x sl Hx Hsl Hp E. destruct (Hu x sl Hx Hsl E) as [_ ->]. done.
    + intros _ l _ _ _ _. by rewrite Ec.
  - split; [|done]. intros x sl Hx Hsl Hne Hnz. apply Hrest; [by apply (db_apart G), (ly_own _ _ _ HL)|]. intros E. by apply Hne, Hu.
Qed.

(** ** Adding *)

(** A change of one block of the directory; [J] are the inodes afterwards. *)
Record in_place s I J (ino : Z) (ess : list (list dent)) (k : nat) (es es' : list dent) s' : Prop := {
  ip_block : ess !! k = Some es;
  ip_ok : Forall (dent_ok G) es';
  ip_holds : holds_fs s' J;
  ip_only : only_block (disk s) (disk s') I ino (Z.of_nat k);
  ip_now : disk s' (nthZ (i_block (I ino)) (Z.of_nat k)) = dents_bytes es'
}.

Lemma only_agree s s1 s2 s3 I ino k : holds_fs s I -> agree s s1 -> only_block (disk s1) (disk s2) I ino k -> agree s2 s3 -> holds_fs s2 I ->
  only_block (disk s) (disk s3) I ino k.
Proof.
  intros Hf A1 Ho A2 Hf2 x sl Hx Hsl Hne Hnz.
  pose proof (same_blocks_slots G (disk s) (disk s1) (I x) sl (agree_all s s1 I (hf_layout _ _ _ _ Hf) A1 x Hx) Hsl) as Es.
  assert (~ reserved G (slot_blk (disk s) (I x) sl)) as Hr by (by apply (db_apart G), (ly_own _ _ _ (hf_layout _ _ _ _ Hf))).
  rewrite A2, <- A1 by done. rewrite <- Es. apply Ho; try done. by rewrite Es.
Qed.

Lemma in_place_agree s s1 s2 s3 I ino ess k es es' : holds_fs s I -> agree s s1 -> in_place s1 I I ino ess k es es' s2 -> agree s2 s3 -> mounted s3 ->
  nthZ (i_block (I ino)) (Z.of_nat k) <> 0 -> valid_ino G ino -> (k < 12)%nat -> in_place s I I ino ess k es es' s3.
Proof.
  intros Hf A1 [P1 P2 P3 P4 P5] A2 Hm Hne Hi Hk. split; try done.
  - by eapply holds_agree.
  - by eapply only_agree.
  - rewrite A2; [done|]. apply (db_apart G), (ly_own _ _ _ (hf_layout _ _ _ _ Hf) ino (Direct (Z.of_nat k))); [done|simpl; lia|done].
Qed.

Lemma rewrite_block_ok s0 s I ino ess k es es' buf : holds_fs s0 I -> valid_ino G ino -> direct_rep (disk s0) (I ino) ess -> mounted s -> agree s0 s ->
  ess !! k = Some es -> Forall (dent_ok G) es' -> length (dents_bytes es') = length (dents_bytes es) ->
  length buf = 4096%nat -> take (Z.to_nat (fg_bs G)) buf = dents_bytes es' -> g_block_buf s = buf ->
  wp (write_block (nthZ (i_block (I ino)) (Z.of_nat k)))
    (fun rc s' => (rc = - ENOMEM /\ mounted s' /\ agree s0 s') \/ (rc = 0 /\ in_place s0 I I ino ess k es es' s')) s.
Proof.
  intros Hf Hi Hd Hm Ha Hk Hok Hlen Hbl Hbuf Eb. destruct (dd_blocks _ _ _ Hd k es Hk) as (Hne & Edisk & Hes). pose proof (dd_len _ _ _ Hd) as H12.
  pose proof (lookup_lt_Some _ _ _ Hk) as Hklt. set (b := nthZ (i_block (I ino)) (Z.of_nat k)) in *.
  assert (slot_valid G (Direct (Z.of_nat k))) as Hsv by (simpl; lia). pose proof (hf_layout _ _ _ _ Hf) as HL.
  destruct (ly_own _ _ _ HL ino (Direct (Z.of_nat k)) Hi Hsv Hne) as [Hdb _]. simpl in Hdb. fold b in Hdb.
  assert (is_u32 b) as Hu.
  { destruct (iw_block _ (ly_wf _ _ _ HL ino Hi)) as [Hl15 Hall]. unfold b, nthZ. rewrite Nat2Z.id.
    destruct (lookup_lt_is_Some_2 (i_block (I ino)) k ltac:(lia)) as [x Hx]. rewrite Hx. by apply (Forall_lookup_1 _ _ _ _ Hall Hx). }
  eapply wp_mono; [apply (write_block_ok G HG Lm s b Hm Hu); intros ?; apply (db_apart _ _ Hdb); by left|].
  intros rc s' (Hm' & _ & _ & Hw). destruct Hw as [[-> Ha']|[-> Hw]]; [left; split; [done|]; split; [done|by eapply agree_trans]|right]. split; [done|].
  pose proof (holds_agree G HG Lm s0 s I Hm Ha Hf) as Hf1.
  destruct (dir_write s s' I ino (Z.of_nat k) b (dents_bytes es') Hf1 Hi ltac:(lia) eq_refl Hne Hm') as (Hf' & Ho & En).
  - intros b' Hr. rewrite Hw by (intros ?; apply Hr; by left). by rewrite Eb, Hbuf.
  - by exists es'.
  - split; try done. eapply only_agree; [done|done|done|apply agree_refl|done].
Qed.

(** The same at the end of a call that wrote the block: what is dirty goes out. *)
Lemma finish_in_place s s1 I ino ess k es es' : holds_fs s I -> valid_ino G ino -> direct_rep (disk s) (I ino) ess ->
  in_place s I I ino ess k es es' s1 -> wp ext2_sync_locked (fun _ s' => in_place s I I ino ess k es es' s') s1.
Proof.
  intros Hf Hi Hd Hip. pose proof (ip_block _ _ _ _ _ _ _ _ _ Hip) as Hk. destruct (dd_blocks _ _ _ Hd k es Hk) as (Hne & _).
  pose proof (lookup_lt_Some _ _ _ Hk). pose proof (dd_len _ _ _ Hd).
  eapply wp_mono; [apply (sync_ok G HG Lm), (ip_holds _ _ _ _ _ _ _ _ _ Hip)|]. intros [] s2 [Hm Ha].
  eapply in_place_agree; try done. lia.
Qed.

Section Add.
Context (s0 : ext2 D M) (I : Z -> ext2_inode) (ino : Z) (ess : list (list dent)) (nm : list Z) (child ft : Z).
Hypothesis Hf : holds_fs s0 I.
Hypothesis Hino : valid_ino G ino.
Hypothesis Hdir : direct_rep (disk s0) (I ino) ess.
Hypothesis Hchild : 0 < child <= fg_inodes G.
Hypothesis Hnm : Z.of_nat (length nm) <= 255.

Lemma block_read s k es : mounted s -> agree s0 s -> ess !! k = Some es ->
  wp (read_block (nthZ (i_block (I ino)) (Z.of_nat k)))
    (fun rc s' => rc = 0 /\ mounted s' /\ agree s0 s' /\ buf_is G s' (dents_bytes es) /\ Z.of_nat (length (dents_bytes es)) = fg_bs G) s.
Proof.
  intros Hm Ha Hk. destruct (dd_blocks _ _ _ Hdir k es Hk) as (Hne & Eb & _). pose proof (lookup_lt_Some _ _ _ Hk). pose proof (dd_len _ _ _ Hdir).
  assert (~ reserved G (nthZ (i_block (I ino)) (Z.of_nat k))) as Hr.
  { apply (db_apart G), (ly_own _ _ _ (hf_layout _ _ _ _ Hf) ino (Direct (Z.of_nat k))); [done|simpl; lia|done]. }
  eapply wp_mono; [by apply (read_block_ok G HG Lm)|]. intros rc s' (-> & Hm' & Ha' & Hb & _). rewrite Ha, Eb in Hb by done.
  split_and!; try done; [by eapply agree_trans|]. rewrite <- Eb. apply (length_disk G HG Lm), Hf.
Qed.

(** What one block ends the call with. *)
Definition placed s' : Prop := exists k es es', in_place s0 I I ino ess k es es' s' /\ place es child ft nm = Some es' /\
  nm ∉ (dir_names (take (S k) ess)).*1.

Definition failed (r : Z) s' : Prop := mounted s' /\ agree s0 s' /\ (r = - EEXIST /\ nm ∈ (dir_names ess).*1 \/ r = - EIO).

Lemma names_next k es : ess !! k = Some es -> nm ∉ (dir_names (take k ess)).*1 -> nm ∉ (entries es).*1 -> nm ∉ (dir_names (take (S k) ess)).*1.
Proof.
  intros Hk Hn1 Hn2. rewrite (take_S_r _ _ _ Hk), dir_names_app, fmap_app, not_elem_of_app. split; [done|]. unfold dir_names. simpl. by rewrite app_nil_r.
Qed.

Lemma names_in k es : ess !! k = Some es -> nm ∈ (entries es).*1 -> nm ∈ (dir_names ess).*1.
Proof.
  intros Hk Hin. rewrite <- (take_drop_middle ess k es Hk), dir_names_app, fmap_app, elem_of_app. right.
  unfold dir_names. simpl. rewrite fmap_app, elem_of_app. by left.
Qed.

Lemma add_in_block_ok s (k : nat) rest : mounted s -> agree s0 s -> (k <= length ess)%nat -> (k < 12)%nat -> nm ∉ (dir_names (take k ess)).*1 ->
  wp (add_in_block (I ino) child (Z.of_nat (length nm)) ft (nm ++ rest) (Z.of_nat k)) (fun r s' =>
    match r with
    | None => mounted s' /\ agree s0 s' /\ (S k <= length ess)%nat /\ nm ∉ (dir_names (take (S k) ess)).*1
    | Some (inr _) => mounted s' /\ agree s0 s' /\ k = length ess
    | Some (inl rc) => failed rc s' \/ (rc = 0 /\ placed s')
    end) s.
Proof.
  intros Hm Ha Hk Hk12 Hn. unfold add_in_block. destruct (iw_block _ (ly_wf _ _ _ (hf_layout _ _ _ _ Hf) ino Hino)) as [Hlen _].
  eapply wp_bind_ok; [apply rd_nthZ; lia|]. destruct (decide (k = length ess)) as [->|Hne].
  { destruct (dd_end _ _ _ Hdir) as [?| ->]; [lia|]. cbn [Z.eqb]. by apply wp_ret. }
  destruct (lookup_lt_is_Some_2 ess k ltac:(lia)) as [es Hes]. destruct (dd_blocks _ _ _ Hdir k es Hes) as (Hnz & _ & Hok).
  rewrite (proj2 (Z.eqb_neq _ 0) Hnz). eapply wp_step; [by apply block_read|]. intros rc s1 (-> & Hm1 & Ha1 & Hb1 & Hl). cbn [Z.eqb negb].
  eapply wp_bind_ok; [by apply (find_in_block_ok G HG Lm)|]. destruct (find_dent es 0 4294967295 nm) as [[o p]|] eqn:Ef.
  { apply wp_ret. left. split; [done|]. split; [done|]. left. split; [done|]. eapply names_in; [done|]. by eapply (find_assoc_some G). }
  apply find_dent_none, entries_none in Ef. pose proof (names_next k es Hes Hn Ef) as Hnext. apply wp_bind, wp_gets. rewrite (mo_bs _ _ _ Hm1).
  pose proof (bs_range G HG). pose proof (length_dents es).
  pose proof (place_entry_ok G HG (Z.to_nat (fg_bs G)) es [] (drop (Z.to_nat (fg_bs G)) (g_block_buf s1)) child ft nm rest s1 Hok ltac:(lia) Hnm
    ltac:(rewrite (mo_bs _ _ _ Hm1); lia) ltac:(rewrite (mo_bs _ _ _ Hm1); simpl; lia) (buf_split G s1 es Hb1)) as Ep.
  destruct (place es child ft nm) as [es'|] eqn:Epl; (eapply wp_bind_ok; [exact Ep|]); cbn [negb].
  2: { apply wp_ret. split_and!; try done. lia. }
  destruct (place_spec G es child ft nm es' Hok Hchild Hnm Epl) as (Hok' & Hlen' & _). set (b := [] ++ dents_bytes es' ++ _) in *.
  assert (length b = 4096%nat) as Hlb. { pose proof (mo_buf _ _ _ Hm1). unfold b. rewrite !length_app, length_drop. simpl length. lia. }
  eapply wp_step.
  { eapply (rewrite_block_ok s0 (set_block_buf b s1) I ino ess k es es' b); try done; [by apply mounted_buf|].
    unfold b. simpl. rewrite take_app_le, take_ge by lia. done. }
  intros rc s2 [(-> & Hm2 & Ha2)|(-> & Hip)]; cbv beta.
  - change (negb (- ENOMEM =? 0)) with true. cbv iota. apply wp_ret. left. split; [done|]. split; [done|by right].
  - cbn [Z.eqb negb]. eapply wp_step; [by eapply finish_in_place|]. intros [] s3 Hip3. apply wp_ret. right. split; [done|]. by exists k, es, es'.
Qed.

(** The entry that fills a new block. *)
Definition alone : dent := Dent child ft nm (replicate (Z.to_nat (fg_bs G) - (8 + length nm)) 0).

Lemma alone_spec : d_rec alone = fg_bs G /\ dent_ok G alone /\
  put_bytes (replicate (Z.to_nat (fg_bs G)) 0) child (Some (u16 (fg_bs G))) ft nm = dents_bytes [alone] /\ entries [alone] = [(nm, child)].
Proof.
  pose proof (bs_range G HG). assert (d_rec alone = fg_bs G) as Er by (unfold d_rec; simpl; rewrite length_replicate; lia).
  split; [done|]. split; [|split].
  - split; [simpl; lia|done|]. rewrite Er. destruct (go_bs _ HG) as [->|[->| ->]]; done.
  - unfold dents_bytes, dent_bytes. simpl fmap. simpl concat. rewrite app_nil_r, Er. unfold put_bytes, alone, u16. cbn [d_ino d_type d_name d_pad].
    rewrite Z.mod_small, drop_replicate by lia. done.
  - rewrite entries_cons. simpl. by rewrite decide_False by lia.
Qed.

(** A new block behind the last one. *)
Record appended s' n' b : Prop := {
  ap_holds : holds_fs s' (upd I ino n');
  ap_blocks : all_blocks (disk s0) (disk s') I;
  ap_room : (length ess < 12)%nat;
  ap_new : nm ∉ (dir_names ess).*1;
  ap_block : i_block n' = <[length ess := b]> (i_block (I ino));
  ap_pos : b <> 0;
  ap_mode : i_mode n' = i_mode (I ino);
  ap_links : i_links_count n' = i_links_count (I ino);
  ap_size : i_size n' = i_size (I ino) + fg_bs G;
  ap_now : disk s' b = dents_bytes [alone]
}.

Definition add_post (r : Z) s' : Prop :=
  (r < 0 /\ holds_fs s' I /\ all_blocks (disk s0) (disk s') I /\ (r = - EEXIST -> nm ∈ (dir_names ess).*1)) \/
  (r = 0 /\ (placed s' \/ exists n' b, appended s' n' b)).

Lemma add_agree r s' : r < 0 -> (r = - EEXIST -> nm ∈ (dir_names ess).*1) -> mounted s' -> agree s0 s' -> add_post r s'.
Proof. intros Hr He Hm Ha. left. split; [done|]. split; [by eapply holds_agree|]. split; [|done]. apply agree_all; [apply Hf|done]. Qed.

Lemma mark_all V V' b J : remark G V V' b true -> layout G V J -> all_blocks V V' J.
Proof. intros Hr HL x Hx. by eapply remark_blocks. Qed.

(** The inode of the directory with its new block. *)
Lemma append_inode s b t : mounted s -> stored G (disk s) I -> layout G (disk s) I -> all_blocks (disk s0) (disk s) I -> is_dir (I ino) ->
  (length ess < 12)%nat -> nm ∉ (dir_names ess).*1 -> is_u32 b -> data_block G b -> used G (disk s) b = true -> unowned G (disk s) I b ->
  disk s b = dents_bytes [alone] -> is_u32 t ->
  wp (rc ← write_inode_locked ino
        (set_i_ctime t (set_i_mtime t (set_i_size (u32 (i_size (I ino) + fg_bs G))
          (set_i_blocks (u32 (i_blocks (I ino) + fg_bs G / 512)) (set_i_block (<[length ess := b]> (i_block (I ino))) (I ino))))));
      (if rc =? 0 then ext2_sync_locked else ret tt);; ret rc) add_post s.
Proof.
  intros Hm Hs HL Hall Hd Hlt Hnew Hu Hdb Hus Hun Ec Ht. set (n' := set_i_ctime t _). pose proof (bs_range G HG) as Hbs.
  pose proof (ly_wf _ _ _ HL ino Hino) as Hwf. destruct (iw_block _ Hwf) as [Hlen Hb15].
  pose proof (ly_size _ _ _ HL ino Hino) as Hsz. pose proof (filled_max (I ino)) as Hfm. pose proof (iw_size _ Hwf) as Hsz0.
  assert (i_size n' = i_size (I ino) + fg_bs G) as Es by (unfold n'; simpl; apply u32_id; unfold is_u32, size_ok in *; lia).
  assert (nthZ (i_block (I ino)) (Z.of_nat (length ess)) = 0) as E0 by (destruct (dd_end _ _ _ Hdir) as [?|]; [lia|done]).
  assert (inode_wf n') as Hwf'.
  { unfold n'. destruct Hwf. split; try done; try apply u32_range. cbn [i_block set_i_ctime set_i_mtime set_i_size set_i_blocks set_i_block].
    split; [by rewrite length_insert|by apply Forall_insert]. }
  assert (layout G (disk s) (upd I ino n')) as HL'.
  { apply (layout_add G HG (disk s) I ino n' (Z.of_nat (length ess)) b); try done; [|lia|by rewrite Nat2Z.id|].
    - eapply (filled_grown (I ino)); [|done|lia]. apply (filled_insert _ _ (Z.of_nat (length ess)) b); try done; [lia|pose proof (db_pos _ _ Hdb); lia|by rewrite Nat2Z.id].
    - intros _. rewrite Ec. exists [alone]. split; [done|]. constructor; [apply alone_spec|done]. }
  eapply wp_step; [by apply (commit_inode G HG Lm s I ino n')|]. intros rc s1 [(-> & Hm1 & Ha1)|(-> & Hf1 & Hd1)]; cbv beta.
  - change (- ENOMEM =? 0) with false. cbv iota. apply wp_bind, wp_ret, wp_ret. left. split; [done|].
    split; [split; [done|by eapply stored_agree|by eapply layout_agree]|]. split; [|done]. eapply all_blocks_trans; [done|by apply agree_all].
  - cbn [Z.eqb]. eapply wp_step; [by apply (sync_holds G HG Lm)|]. intros [] s2 [Hf2 Hd2]. apply wp_ret. right. split; [done|]. right.
    exists n', b. pose proof (data_trans G _ _ _ Hd1 Hd2) as Hd12. pose proof (db_pos _ _ Hdb). split; try done; [|lia|].
    + eapply all_blocks_trans; [done|by apply data_all].
    + by rewrite Hd12.
Qed.

Lemma free_slot_ok s : wp (for_until 12 0 (fun i => b ← rd (i_block (I ino)) i; ret (if b =? 0 then Some i else None)))
  (fun r s' => s' = s /\ match r with Some i => i = Z.of_nat (length ess) /\ (length ess < 12)%nat | None => length ess = 12%nat end) s.
Proof.
  destruct (iw_block _ (ly_wf _ _ _ (hf_layout _ _ _ _ Hf) ino Hino)) as [Hlen _]. pose proof (dd_len _ _ _ Hdir) as H12.
  eapply wp_mono; [apply (for_until_wp (fun k s' => s' = s /\ k <= Z.of_nat (length ess)) (fun i s' => s' = s /\ i = Z.of_nat (length ess) /\ (length ess < 12)%nat)); [split; [done|lia]|]|].
  - intros k s' Hk [-> Hle]. eapply wp_bind_ok; [apply rd_nthZ; lia|]. apply wp_ret.
    destruct (decide (k = Z.of_nat (length ess))) as [->|Hne].
    + destruct (dd_end _ _ _ Hdir) as [?| ->]; [lia|]. simpl. split; [done|]. split; [done|lia].
    + destruct (lookup_lt_is_Some_2 ess (Z.to_nat k) ltac:(lia)) as [es Hes]. destruct (dd_blocks _ _ _ Hdir _ es Hes) as (Hnz & _).
      rewrite Z2Nat.id in Hnz by lia. rewrite (proj2 (Z.eqb_neq _ 0) Hnz). split; [done|lia].
  - intros [i|] s' Hr; cbv beta iota in Hr; [by destruct Hr as (-> & -> & ?)|]. destruct Hr as [-> ?]. split; [done|lia].
Qed.

Lemma marked_ok s b : mounted s -> remark G (disk s0) (disk s) b true -> holds_fs s I.
Proof.
  intros Hm Hr. split; [done|eapply remark_table; [done|done|apply Hf]|]. eapply layout_mark; [done|apply Hf|done].
Qed.

(** A block that no inode owns yet is written. *)
Lemma fresh_block s s' b : holds_fs s I -> data_block G b -> used G (disk s) b = true -> unowned G (disk s) I b -> mounted s' ->
  (forall b', ~ reserved G b' -> b' <> b -> disk s' b' = disk s b') ->
  holds_fs s' I /\ all_blocks (disk s) (disk s') I /\ unowned G (disk s') I b /\ used G (disk s') b = true.
Proof.
  intros [_ Hs HL] Hdb Hus Hun Hm Hrest.
  assert (all_blocks (disk s) (disk s') I) as Hall.
  { intros x Hx k Hk Hne. apply Hrest; [by apply (db_apart G), (ly_own _ _ _ HL)|by apply Hun]. }
  split; [split; [done|by eapply stored_data|]|split; [done|split]].
  - eapply layout_write; try done; [intros x k Hx Hk _; by apply Hun|]. intros x l Hx _ Hl E. exfalso.
    destruct (phys_inv G (disk s) (I x) l) as (k & Ek & Ep); [rewrite E; pose proof (db_pos _ _ Hdb); lia|].
    apply (Hun x k Hx (slot_of_valid G HG _ _ Hl Ek)). congruence.
  - intros x k Hx Hk. rewrite (same_blocks_slots G (disk s)); [by apply Hun|by apply Hall|done].
  - rewrite <- Hus. unfold used. destruct (area_place G HG b (db_area _ _ Hdb)) as (Hg & _).
    rewrite Hrest; [done|by apply (go_meta _ HG (BlockBitmap _))|]. by apply (db_meta _ _ Hdb (BlockBitmap _)).
Qed.

Lemma add_block_ok s rest : mounted s -> agree s0 s -> is_dir (I ino) -> nm ∉ (dir_names ess).*1 ->
  wp (add_block ino (I ino) child (Z.of_nat (length nm)) ft (nm ++ rest)) add_post s.
Proof.
  intros Hm Ha Hd Hnew. unfold add_block. eapply wp_step; [apply free_slot_ok|]. intros [i|] s' [-> Hi]; cbv beta iota.
  2: { apply wp_ret. by apply add_agree. }
  destruct Hi as [-> Hlt]. apply wp_bind, wp_gets. unfold id. rewrite (mo_groups _ _ _ Hm), (mo_bs _ _ _ Hm). pose proof (go_groups _ HG).
  eapply wp_step; [apply (alloc_groups_ok G HG Lm s s0); [done|done|lia|lia|done]|]. intros [rc b] s1 [Hm1 Hr]. cbv beta iota. cbn [fst snd] in Hr.
  destruct (Z.eqb_spec rc 0) as [->|Hne]; cbn [negb].
  2: { destruct Hr as [[[Hr Hr2]%alloc_error_neg Ha1]|(? & _)]; [|done]. apply wp_ret. by apply add_agree. }
  destruct Hr as [[? _]|(_ & Hu & Hfree & Hmark)]; [done|].
  destruct (free_unowned G (disk s0) I b (hf_layout _ _ _ _ Hf) (rm_area _ _ _ _ _ Hmark) Hfree) as [Hdb Hun].
  destruct (zero_buf_ok G HG Lm s1 Hm1) as (z & Ez & Hlz & Htz). eapply wp_bind_ok; [exact Ez|]. pose proof (bs_range G HG).
  destruct alone_spec as (Er & Hok & Eput & _). eapply wp_bind_ok.
  { apply (put_entry_ok [] (replicate (Z.to_nat (fg_bs G)) 0) (drop (Z.to_nat (fg_bs G)) z)); [done|rewrite length_replicate; lia|].
    cbn [g_block_buf set_block_buf]. by rewrite <- Htz, app_nil_l, take_drop. }
  rewrite Eput, app_nil_l. set (s2 := set_block_buf _ (set_block_buf z s1)).
  assert (length (dents_bytes [alone]) = Z.to_nat (fg_bs G)) as Hla.
  { rewrite dents_cons, length_app. pose proof (length_dent alone). change (length (dents_bytes [])) with 0%nat. lia. }
  assert (mounted s2) as Hm2.
  { apply mounted_buf; [by apply mounted_buf|]. rewrite length_app, length_drop, Hla, Hlz. lia. }
  eapply wp_step; [apply (write_block_ok G HG Lm s2 b Hm2 Hu); intros ?; apply (db_apart _ _ Hdb); by left|].
  intros rc s3 (Hm3 & _ & _ & Hw). cbv beta. pose proof (marked_ok s1 b Hm1 Hmark) as Hf1.
  pose proof (mark_all _ _ _ _ Hmark (hf_layout _ _ _ _ Hf)) as Hall1. pose proof (hf_layout _ _ _ _ Hf1) as HL1.
  destruct Hw as [[-> Ha3]|[-> Hw]].
  { change (negb (- ENOMEM =? 0)) with true. cbv iota. apply wp_ret. left. split; [done|].
    split; [apply (holds_agree G HG Lm s1); [done|exact Ha3|done]|]. split; [|done]. eapply all_blocks_trans; [done|by apply agree_all]. }
  assert (unowned G (disk s1) I b) as Hun1.
  { intros x k Hx Hk. rewrite (same_blocks_slots G (disk s0)); [by apply Hun|by apply Hall1|done]. }
  assert (used G (disk s1) b = true) as Hus by (rewrite (rm_bits _ _ _ _ _ Hmark) by apply (db_area _ _ Hdb); by rewrite decide_True).
  assert (forall b', ~ reserved G b' -> b' <> b -> disk s3 b' = disk s1 b') as Hrest.
  { intros b' Hr' Hneb. rewrite Hw by (intros ?; apply Hr'; by left). by rewrite decide_False. }
  destruct (fresh_block s1 s3 b Hf1 Hdb Hus Hun1 Hm3 Hrest) as (Hf3 & Hall3 & Hun3 & Hus3).
  cbn [Z.eqb negb]. destruct (iw_block _ (ly_wf _ _ _ HL1 ino Hino)) as [Hlen _]. eapply wp_bind_ok; [apply wr_ok; lia|]. rewrite Nat2Z.id.
  destruct (now_ok s3) as (t & Et & Ht). eapply wp_bind_ok; [exact Et|]. apply append_inode; try done; try apply Hf3.
  - by eapply all_blocks_trans.
  - rewrite Hw by (intros ?; apply (db_apart _ _ Hdb); by left). rewrite decide_True by done. unfold s2. cbn [g_block_buf set_block_buf].
    rewrite take_app_le, take_ge by lia. done.
Qed.

Lemma dir_add_ok rest : Forall (fun c => c <> 0) nm -> nm <> [] -> is_dir (I ino) ->
  wp (ext2_dir_add_entry junk ino (Some (nm ++ 0 :: rest)) child ft) add_post s0.
Proof.
  intros Hnz Hne Hd. pose proof (hf_mounted _ _ _ _ Hf) as Hm. unfold ext2_dir_add_entry. apply wp_bind, wp_gets. unfold id.
  rewrite (mo_bd _ _ _ Hm). cbn [negb]. eapply wp_bind_ok; [by apply no_name_ok|]. rewrite bool_decide_false, (proj2 (Z.eqb_neq child 0)) by (done || lia).
  cbn [orb default]. eapply wp_bind_ok; [by apply strlen_from_ok, holds_intro|]. rewrite Z.add_0_l, (proj2 (Z.ltb_ge 255 _)) by lia.
  eapply wp_step; [by apply (read_inode_ok junk G HG Lm)|]. intros [rc n] s1 ([= -> ->] & Hm1 & Ha1). cbn [Z.eqb negb].
  rewrite (hf_stored _ _ _ _ Hf ino Hino), Hd. cbn [negb].
  eapply wp_step.
  { apply (for_until_wp (fun k s => 0 <= k /\ mounted s /\ agree s0 s /\ (Z.to_nat k <= length ess)%nat /\ nm ∉ (dir_names (take (Z.to_nat k) ess)).*1)
      (fun r s => match r with
        | inl rc => failed rc s \/ (rc = 0 /\ placed s)
        | inr _ => mounted s /\ agree s0 s /\ nm ∉ (dir_names ess).*1 end)).
    - split_and!; try done; [simpl; lia|apply not_elem_of_nil].
    - intros k s Hk (Hk0 & Hms & Has & Hle & Hno). pose proof (add_in_block_ok s (Z.to_nat k) (0 :: rest) Hms Has Hle ltac:(lia) Hno) as Hw.
      rewrite Z2Nat.id in Hw by lia. eapply wp_mono; [exact Hw|]. intros [[r|[]]|] s'; [done| |].
      + intros (? & ? & Ek). split; [done|]. split; [done|]. by rewrite Ek, take_ge in Hno by lia.
      + intros (? & ? & ? & ?). replace (Z.to_nat (k + 1)) with (S (Z.to_nat k)) by lia. split_and!; try done. lia. }
  intros [[r|[]]|] s2 Hr; cbv beta iota in Hr |- *.
  - apply wp_ret. destruct Hr as [(Hms & Has & Hr)|[-> Hp]]; [|right; split; [done|by left]].
    destruct Hr as [[-> Hin]| ->]; by apply add_agree.
  - destruct Hr as (? & ? & ?). by apply add_block_ok.
  - destruct Hr as (_ & Hms & Has & Hle & Hno). apply add_block_ok; try done. change (Z.to_nat (0 + Z.of_nat 12)) with 12%nat in *.
    pose proof (dd_len _ _ _ Hdir). by rewrite take_ge in Hno by lia.
Qed.

End Add.

(** ** Removing *)

(** The first entry with the name goes. *)
Record cutout (es es' : list dent) (nm : list Z) : Prop := {
  co_ok : Forall (dent_ok G) es';
  co_len : length (dents_bytes es') = length (dents_bytes es);
  co_names : exists l1 i l2, entries es = l1 ++ (nm, i) :: l2 /\ nm ∉ l1.*1 /\ entries es' = l1 ++ l2
}.

Lemma cutout_empty e es nm : Forall (dent_ok G) (e :: es) -> d_ino e <> 0 -> d_name e = nm -> cutout (e :: es) (emptied e :: es) nm.
Proof.
  intros [He Hes]%Forall_cons Hi En. split.
  - constructor; [|done]. destruct He. split; simpl; [lia|done|done].
  - rewrite !dents_cons, !length_app. done.
  - exists [], (d_ino e), (entries es). rewrite !entries_cons, decide_False, decide_True by done. rewrite En. split; [done|]. split; [apply not_elem_of_nil|done].
Qed.

Lemma cutout_join es0 e0 e es2 nm : Forall (dent_ok G) (es0 ++ e0 :: e :: es2) -> d_ino e <> 0 -> d_name e = nm -> 
  Forall (fun e => ~ (d_ino e <> 0 /\ d_name e = nm)) (es0 ++ [e0]) ->
  cutout (es0 ++ e0 :: e :: es2) (es0 ++ joined e0 e :: es2) nm.
Proof.
  intros [Hes0 [He0 [He Hes2]%Forall_cons]%Forall_cons]%Forall_app Hi En Hno. split.
  - apply Forall_app. split; [done|]. constructor; [|done]. split; [apply He0|apply He0|]. rewrite d_rec_joined.
    rewrite Z.add_mod, (de_align _ _ He0), (de_align _ _ He) by lia. done.
  - rewrite !dents_app, !dents_cons, !length_app. pose proof (length_dent (joined e0 e)). pose proof (d_rec_joined e0 e).
    pose proof (length_dent e0). pose proof (length_dent e). lia.
  - exists (entries (es0 ++ [e0])), (d_ino e), (entries es2). rewrite !entries_app, !entries_cons, (decide_False (P := d_ino e = 0)) by done.
    rewrite En. change (d_ino (joined e0 e)) with (d_ino e0). change (d_name (joined e0 e)) with (d_name e0).
    split; [by rewrite app_nil_r, <- !app_assoc|]. split; [|by rewrite app_nil_r, <- !app_assoc]. apply entries_none in Hno.
    by rewrite entries_app, entries_cons in Hno.
Qed.

Lemma remove_edit_ok s es nm C o p : Forall (dent_ok G) es -> Z.of_nat (length (dents_bytes es)) = fg_bs G -> g_block_buf s = dents_bytes es ++ C ->
  find_dent es 0 4294967295 nm = Some (o, p) ->
  exists es', cutout es es' nm /\
    (if p =? 4294967295 then b ← copy_in (g_block_buf s) o (le32 0); modify (set_block_buf b)
     else p' ← de_rec_len (g_block_buf s) p; r ← de_rec_len (g_block_buf s) o; put_rec_len p (u16 (p' + r))) s
    = Ok (tt, set_block_buf (dents_bytes es' ++ C) s).
Proof.
  intros Hok Hl Hb Hfd. destruct (find_dent_some _ _ _ _ _ _ Hfd) as (es1 & e & es2 & -> & Hi & En & Hno & -> & Hp). pose proof (bs_range G HG).
  destruct Hp as [[-> ->]|(es0 & e0 & -> & ->)].
  - exists (emptied e :: es2). split; [by apply cutout_empty|]. rewrite Z.eqb_refl, Hb. rewrite app_nil_l in *. change (0 + Z.of_nat (length (dents_bytes []))) with 0.
    rewrite !dents_cons, length_app in Hl. rewrite !dents_cons, <- !app_assoc.
    pose proof (length_dent e). pose proof (d_rec_pos e).
    rewrite (bind_ok _ _ _ _ _ (copy_in_ok (dent_bytes e ++ dents_bytes es2 ++ C) 0 (le32 0) s ltac:(lia) ltac:(rewrite length_app; simpl; lia))).
    unfold modify. rewrite <- emptied_bytes. reflexivity.
  - rewrite <- app_assoc in *. simpl app in *. exists (es0 ++ joined e0 e :: es2). split; [by apply cutout_join|].
    apply Forall_app in Hok as [_ [He0 [He _]%Forall_cons]%Forall_cons].
    rewrite !dents_app, !dents_cons, !length_app in Hl. rewrite !dents_app, !dents_cons in *. rewrite <- !app_assoc in *.
    pose proof (length_dent e). pose proof (d_rec_pos e). pose proof (length_dent e0). pose proof (d_rec_pos e0).
    rewrite (proj2 (Z.eqb_neq _ _)) by lia. rewrite Hb, !Z.add_0_l.
    destruct (dent_fields G HG (dents_bytes es0) e0 (dent_bytes e ++ dents_bytes es2 ++ C) s He0 ltac:(lia)) as (E1 & _).
    rewrite (bind_ok _ _ _ _ _ E1).
    destruct (dent_fields G HG (dents_bytes es0 ++ dent_bytes e0) e (dents_bytes es2 ++ C) s He ltac:(lia)) as (E2 & _).
    rewrite <- app_assoc in E2. rewrite app_nil_r. rewrite (bind_ok _ _ _ _ _ E2). unfold u16. rewrite Z.mod_small by lia.
    rewrite (put_rec_len_ok (dents_bytes es0) (dent_bytes e0) (dent_bytes e ++ dents_bytes es2 ++ C) _ s ltac:(lia) Hb).
    rewrite <- joined_bytes. by rewrite <- !app_assoc.
Qed.

Section Remove.
Context (s0 : ext2 D M) (I : Z -> ext2_inode) (ino : Z) (ess : list (list dent)) (nm : list Z).
Hypothesis Hf : holds_fs s0 I.
Hypothesis Hino : valid_ino G ino.
Hypothesis Hdir : direct_rep (disk s0) (I ino) ess.

Definition timed t (n : ext2_inode) : ext2_inode := set_i_ctime t (set_i_mtime t n).

(** The entry is gone; the times of the directory may have stayed behind. *)
Definition removed (r : Z) s' : Prop := exists J k es es', in_place s0 I J ino ess k es es' s' /\ cutout es es' nm /\
  nm ∉ (dir_names (take k ess)).*1 /\ (r = 0 /\ (exists t, is_u32 t /\ J = upd I ino (timed t (I ino))) \/ r = - ENOMEM /\ J = I).

Definition remove_post (r : Z) s' : Prop :=
  (mounted s' /\ agree s0 s' /\ (r = - ENOENT /\ nm ∉ (dir_names ess).*1 \/ r = - EIO)) \/ removed r s'.

Lemma remove_times s1 k es es' t : in_place s0 I I ino ess k es es' s1 -> cutout es es' nm -> nm ∉ (dir_names (take k ess)).*1 -> is_u32 t ->
  wp (rc ← write_inode_locked ino (timed t (I ino)); (if rc =? 0 then ext2_sync_locked else ret tt);; ret (Some rc))
    (fun r s' => match r with Some rc => remove_post rc s' | None => False end) s1.
Proof.
  intros Hip Hco Hno Ht. pose proof (ip_holds _ _ _ _ _ _ _ _ _ Hip) as [Hm1 Hs1 HL1]. pose proof (ip_block _ _ _ _ _ _ _ _ _ Hip) as Hk.
  destruct (dd_blocks _ _ _ Hdir k es Hk) as (Hne & _). pose proof (lookup_lt_Some _ _ _ Hk). pose proof (dd_len _ _ _ Hdir).
  assert (inode_wf (timed t (I ino))) as Hwf by (destruct (ly_wf _ _ _ HL1 ino Hino); by split).
  assert (layout G (disk s1) (upd I ino (timed t (I ino)))) as HL'.
  { apply layout_times; try done. by apply (ly_size _ _ _ HL1). }
  assert (forall s2, same_data G s1 s2 -> forall J, holds_fs s2 J -> in_place s0 I J ino ess k es es' s2) as Hend.
  { intros s2 Hd J HJ. destruct Hip as [P1 P2 P3 P4 P5]. pose proof (hf_layout _ _ _ _ Hf) as HL0. split; try done.
    - intros x sl Hx Hsl Hxs Hnz. rewrite Hd by (by apply (ly_own _ _ _ HL0)). by apply P4.
    - rewrite Hd; [done|]. apply (ly_own _ _ _ HL0 ino (Direct (Z.of_nat k))); [done|simpl; lia|done]. }
  eapply wp_step; [by apply (commit_inode G HG Lm s1 I ino)|]. intros rc s2 [(-> & Hm2 & Ha2)|(-> & Hf2 & Hd2)]; cbv beta.
  - change (- ENOMEM =? 0) with false. cbv iota. apply wp_bind, wp_ret, wp_ret. right. exists I, k, es, es'. split_and!; try done; [|by right].
    apply Hend; [by apply agree_data|]. by eapply (holds_agree G HG Lm s1).
  - cbn [Z.eqb]. eapply wp_step; [by apply (sync_holds G HG Lm)|]. intros [] s3 [Hf3 Hd3]. apply wp_ret. right.
    exists (upd I ino (timed t (I ino))), k, es, es'. split_and!; try done; [|left; split; [done|by exists t]].
    apply Hend; [by eapply data_trans|done].
Qed.

Lemma remove_in_block_ok s (k : nat) rest : mounted s -> agree s0 s -> (k <= length ess)%nat -> (k < 12)%nat -> nm ∉ (dir_names (take k ess)).*1 ->
  wp (remove_in_block ino (I ino) (nm ++ rest) (Z.of_nat (length nm)) (Z.of_nat k)) (fun r s' =>
    match r with
    | None => mounted s' /\ agree s0 s' /\ (S k <= length ess)%nat /\ nm ∉ (dir_names (take (S k) ess)).*1
    | Some rc => remove_post rc s'
    end) s.
Proof.
  intros Hm Ha Hk Hk12 Hn. unfold remove_in_block. destruct (iw_block _ (ly_wf _ _ _ (hf_layout _ _ _ _ Hf) ino Hino)) as [Hlen _].
  eapply wp_bind_ok; [apply rd_nthZ; lia|]. destruct (decide (k = length ess)) as [->|Hne].
  { destruct (dd_end _ _ _ Hdir) as [?| ->]; [lia|]. cbn [Z.eqb]. apply wp_ret. left. split; [done|]. split; [done|]. left. by rewrite take_ge in Hn by lia. }
  destruct (lookup_lt_is_Some_2 ess k ltac:(lia)) as [es Hes]. destruct (dd_blocks _ _ _ Hdir k es Hes) as (Hnz & _ & Hok).
  rewrite (proj2 (Z.eqb_neq _ 0) Hnz). eapply wp_step; [by apply (block_read s0 I ino ess)|]. intros rc s1 (-> & Hm1 & Ha1 & Hb1 & Hl). cbn [Z.eqb negb].
  eapply wp_bind_ok; [by apply (find_in_block_ok G HG Lm)|]. destruct (find_dent es 0 4294967295 nm) as [[o p]|] eqn:Ef.
  2: { apply find_dent_none, entries_none in Ef. apply wp_ret. split_and!; try done; [lia|]. by eapply names_next. }
  apply wp_bind, wp_gets. unfold id. pose proof (bs_range G HG).
  destruct (remove_edit_ok s1 es nm (drop (Z.to_nat (fg_bs G)) (g_block_buf s1)) o p Hok Hl (buf_split G s1 es Hb1) Ef) as (es' & Hco & Ee).
  eapply wp_bind_ok; [exact Ee|]. set (b := dents_bytes es' ++ _) in *. pose proof (co_len _ _ _ Hco) as Hlen'.
  assert (length b = 4096%nat) as Hlb. { pose proof (mo_buf _ _ _ Hm1). unfold b. rewrite length_app, length_drop. lia. }
  eapply wp_step.
  { eapply (rewrite_block_ok s0 (set_block_buf b s1) I ino ess k es es' b); try done; [by apply mounted_buf|apply Hco|].
    unfold b. rewrite take_app_le, take_ge by lia. done. }
  intros rc s2 [(-> & Hm2 & Ha2)|(-> & Hip)]; cbv beta.
  - change (negb (- ENOMEM =? 0)) with true. cbv iota. apply wp_ret. left. split; [done|]. split; [done|by right].
  - cbn [Z.eqb negb]. destruct (now_ok s2) as (t & Et & Ht). eapply wp_bind_ok; [exact Et|].
    eapply wp_mono; [by eapply remove_times|]. by intros [rc|].
Qed.

Lemma dir_remove_ok rest : Forall (fun c => c <> 0) nm -> nm <> [] -> is_dir (I ino) ->
  wp (ext2_dir_remove_entry junk ino (Some (nm ++ 0 :: rest))) remove_post s0.
Proof.
  intros Hnz Hne Hd. pose proof (hf_mounted _ _ _ _ Hf) as Hm. unfold ext2_dir_remove_entry. apply wp_bind, wp_gets. unfold id.
  rewrite (mo_bd _ _ _ Hm). cbn [negb]. eapply wp_bind_ok; [by apply no_name_ok|]. rewrite bool_decide_false by done.
  cbn [default]. eapply wp_bind_ok; [by apply strlen_from_ok, holds_intro|]. rewrite Z.add_0_l.
  eapply wp_step; [by apply (read_inode_ok junk G HG Lm)|]. intros [rc n] s1 ([= -> ->] & Hm1 & Ha1). cbn [Z.eqb negb].
  rewrite (hf_stored _ _ _ _ Hf ino Hino), Hd. cbn [negb].
  eapply wp_step.
  { apply (for_until_wp (fun k s => 0 <= k /\ mounted s /\ agree s0 s /\ (Z.to_nat k <= length ess)%nat /\ nm ∉ (dir_names (take (Z.to_nat k) ess)).*1)
      remove_post).
    - split_and!; try done; [simpl; lia|apply not_elem_of_nil].
    - intros k s Hk (Hk0 & Hms & Has & Hle & Hno). pose proof (remove_in_block_ok s (Z.to_nat k) (0 :: rest) Hms Has Hle ltac:(lia) Hno) as Hw.
      rewrite Z2Nat.id in Hw by lia. eapply wp_mono; [exact Hw|]. intros [r|] s'; [done|].
      intros (? & ? & ? & ?). replace (Z.to_nat (k + 1)) with (S (Z.to_nat k)) by lia. split_and!; try done. lia. }
  intros [r|] s2 Hr; cbv beta iota in Hr; apply wp_ret; [done|].
  destruct Hr as (_ & Hms & Has & Hle & Hno). left. split; [done|]. split; [done|]. left. split; [done|].
  change (Z.to_nat (0 + Z.of_nat 12)) with 12%nat in *. pose proof (dd_len _ _ _ Hdir). by rewrite take_ge in Hno by lia.
Qed.

End Remove.

End DirOps.
