(* ===== verification/Ext2Names.v ===== *)
(** * Directories of ext2 as lists of names

    [dir_is V n l]: the inode [n] is a directory whose blocks hold the names
    [l], in the order of the blocks; it has direct blocks only, without holes,
    and its size covers them, as this driver and mke2fs make directories.
    Looking up, adding and removing a name in terms of that list. *)

From stdpp Require Import base tactics numbers list gmap.
From S2P Require Import Prelude Kstring Alloc Timer Block Ext2Disk Ext2 Ext2Io Ext2Inv Ext2Table Ext2Alloc Ext2Data Ext2Write Ext2Dents Ext2DirOps.

Lemma dir_names_insert ess k es es' : ess !! k = Some es ->
  dir_names ess = dir_names (take k ess) ++ entries es ++ dir_names (drop (S k) ess) /\
  dir_names (<[k := es']> ess) = dir_names (take k ess) ++ entries es' ++ dir_names (drop (S k) ess).
Proof.
  intros Hk. split.
  - rewrite <- (take_drop_middle ess k es Hk) at 1. by rewrite dir_names_app.
  - rewrite insert_take_drop by (by eapply lookup_lt_Some). by rewrite dir_names_app.
Qed.

Section Names.
Context {D M : Type} `{BlockDevice D} `{Kmalloc M}.
Context (junk : list Z) (G : geo) (HG : geo_ok G) (Lm : gmap Z Z).
Implicit Types (s : ext2 D M) (I J : Z -> ext2_inode) (V : Z -> list Z).
Notation mounted := (mounted G Lm).
Notation disk := (disk G).
Notation agree := (agree G).
Notation holds_fs := (holds_fs G Lm).

Record plain_dir V n (ess : list (list dent)) : Prop := {
  pd_direct : direct_rep G V n ess;
  pd_size : i_size n = Z.of_nat (length ess) * fg_bs G;
  pd_holes : forall j, Z.of_nat (length ess) <= j < 12 -> nthZ (i_block n) j = 0
}.

Definition dir_is V n (l : list (list Z * Z)) : Prop := is_dir n /\ exists ess, plain_dir V n ess /\ l = dir_names ess.

Lemma phys_direct V n j : 0 <= j < 12 -> phys G V n j = nthZ (i_block n) j.
Proof. intros Hj. unfold phys, slot_of. by rewrite (proj2 (Z.ltb_lt _ 12)) by lia. Qed.

Lemma plain_lookup V n ess : plain_dir V n ess -> dir_rep G V n ess.
Proof.
  intros [Hd Hs Hh]. pose proof (dd_len _ _ _ _ Hd) as Hl. pose proof (bs_range G HG). split.
  - intros j es Hj. pose proof (lookup_lt_Some _ _ _ Hj). destruct (dd_blocks _ _ _ _ Hd j es Hj) as (Hne & Ev & Hok).
    rewrite phys_direct by lia. rewrite u32_id by (unfold is_u32; nia). split; [nia|done].
  - left. rewrite u32_id by (unfold is_u32; nia). lia.
Qed.

Lemma same_direct V V' n j : same_blocks G V V' n -> 0 <= j < 12 -> nthZ (i_block n) j <> 0 -> V' (nthZ (i_block n) j) = V (nthZ (i_block n) j).
Proof. intros Hs Hj Hne. by apply (Hs (Direct j)). Qed.

Lemma plain_same V V' n n' ess : i_block n' = i_block n -> i_size n' = i_size n -> same_blocks G V V' n -> plain_dir V n ess -> plain_dir V' n' ess.
Proof.
  intros Eb Es Hsame [[Hl Hbl He] Hs Hh]. split; [split|by rewrite Es|by rewrite Eb]; rewrite ?Eb; try done.
  intros j es Hj. destruct (Hbl j es Hj) as (Hne & Ev & Hok). split; [done|]. split; [|done]. pose proof (lookup_lt_Some _ _ _ Hj).
  rewrite (same_direct V); [done|done|lia|done].
Qed.

Lemma dir_same V V' n n' l : i_block n' = i_block n -> i_size n' = i_size n -> i_mode n' = i_mode n -> same_blocks G V V' n ->
  dir_is V n l -> dir_is V' n' l.
Proof.
  intros Eb Es Em Hsame (Hd & ess & Hp & ->). split; [unfold is_dir, is_kind in *; by rewrite Em|]. exists ess. split; [by eapply plain_same|done].
Qed.

Lemma dir_fresh V n : is_dir n -> i_size n = 0 -> i_block n = replicate 15 0 -> dir_is V n [].
Proof.
  intros Hd Es Eb. split; [done|]. exists []. assert (forall j, nthZ (i_block n) j = 0) as E0.
  { intros j. rewrite Eb. unfold nthZ. destruct (_ !! _) as [x|] eqn:E; [|done]. by apply lookup_replicate in E as [-> _]. }
  split; [|done]. split; [split; [simpl; lia|done|right; apply E0]|done|done].
Qed.

(** One block of the directory was rewritten. *)
Lemma plain_edit s s' I J n' ino ess k es es' : plain_dir (disk s) (I ino) ess -> valid_ino G ino -> in_place G Lm s I J ino ess k es es' s' ->
  i_block n' = i_block (I ino) -> i_size n' = i_size (I ino) -> plain_dir (disk s') n' (<[k := es']> ess).
Proof.
  intros [[Hl Hbl He] Hs Hh] Hi [P1 P2 P3 P4 P5] Eb Es. split; [split|by rewrite Es, length_insert|by rewrite Eb, length_insert].
  - by rewrite length_insert.
  - intros j e Hj. rewrite Eb. destruct (decide (j = k)) as [->|Hne].
    + rewrite list_lookup_insert_eq in Hj by (by eapply lookup_lt_Some). injection Hj as <-. destruct (Hbl k es P1) as (Hne & _). done.
    + rewrite list_lookup_insert_ne in Hj by done. destruct (Hbl j e Hj) as (Hnz & Ev & Hok). split; [done|]. split; [|done].
      pose proof (lookup_lt_Some _ _ _ Hj). rewrite <- Ev. apply (P4 ino (Direct (Z.of_nat j))); [done|simpl; lia| |done].
      intros [_ E]. injection E as E. lia.
  - by rewrite length_insert, Eb.
Qed.

(** A block was appended. *)
Lemma plain_append s s' I n' ino ess b es : plain_dir (disk s) (I ino) ess -> length (i_block (I ino)) = 15%nat -> all_blocks G (disk s) (disk s') I -> valid_ino G ino ->
  (length ess < 12)%nat -> i_block n' = <[length ess := b]> (i_block (I ino)) -> i_size n' = i_size (I ino) + fg_bs G -> b <> 0 ->
  disk s' b = dents_bytes es -> Forall (dent_ok G) es -> plain_dir (disk s') n' (ess ++ [es]).
Proof.
  intros [[Hl Hbl He] Hs Hh] Hlen Hall Hi Hlt Eb Es Hb Ec Hok.
  assert (forall j, 0 <= j < 15 -> nthZ (i_block n') j = if decide (Z.of_nat (length ess) = j) then b else nthZ (i_block (I ino)) j) as En.
  { intros j Hj. rewrite Eb. rewrite <- (Nat2Z.id (length ess)) at 1. apply nthZ_insert; lia. }
  split; [split| |].
  - rewrite length_app. simpl. lia.
  - intros j e [Hj|[Hj Hj']]%lookup_app_Some.
    + pose proof (lookup_lt_Some _ _ _ Hj). rewrite En, decide_False by lia. destruct (Hbl j e Hj) as (Hnz & Ev & Hoke). split; [done|]. split; [|done].
      rewrite (same_direct (disk s)); [done|by apply Hall|lia|done].
    + apply list_lookup_singleton_Some in Hj' as [Hj0 <-]. assert (j = length ess) as -> by lia. rewrite En, decide_True by lia. done.
  - rewrite length_app. simpl. destruct (decide (length ess = 11%nat)) as [->|]; [by left|right]. rewrite En, decide_False by lia. apply Hh. lia.
  - rewrite Es, Hs, length_app. simpl. lia.
  - rewrite length_app. simpl. intros j Hj. rewrite En, decide_False by lia. apply Hh. lia.
Qed.

(** An inode that a call leaves alone. *)
Definition kept V V' I J x : Prop := J x = I x /\ same_blocks G V V' (I x).

Lemma only_kept V V' I ino k x : only_block G V V' I ino k -> valid_ino G x -> x <> ino -> same_blocks G V V' (I x).
Proof. intros Ho Hx Hne sl Hsl Hnz. apply Ho; try done. by intros [-> _]. Qed.

(** ** The operations *)

Lemma lookup_names_ok s I ino nm rest : holds_fs s I -> valid_ino G ino -> Forall (fun c => c <> 0) nm ->
  wp (ext2_dir_lookup junk ino (Some (nm ++ 0 :: rest))) (fun v s' => mounted s' /\ agree s s' /\
    (v <> 0 -> is_dir (I ino) /\ nm <> []) /\ forall l, nm <> [] -> dir_is (disk s) (I ino) l -> v = assoc l nm) s.
Proof.
  intros Hf Hi Hnz. eapply wp_mono; [by apply (dir_lookup_ok junk G HG Lm s I)|]. intros v s' (Hm & Ha & Hd & Hv).
  split_and!; try done. intros l Hne (Hdir & ess & Hp & ->). apply Hv; try done. by apply plain_lookup.
Qed.

(** The list with the name added, or with it removed. *)
Definition added (l l' : list (list Z * Z)) (nm : list Z) (child : Z) : Prop :=
  exists l1 l2, l = l1 ++ l2 /\ l' = l1 ++ (nm, child) :: l2 /\ nm ∉ l1.*1.

Definition without (l l' : list (list Z * Z)) (nm : list Z) : Prop :=
  exists l1 i l2, l = l1 ++ (nm, i) :: l2 /\ l' = l1 ++ l2 /\ nm ∉ l1.*1.

Lemma assoc_added l l' nm child x : added l l' nm child -> assoc l' x = if decide (x = nm) then child else assoc l x.
Proof.
  intros (l1 & l2 & -> & -> & Hn). case_decide as E.
  - subst. rewrite assoc_app_none by done. simpl. by rewrite bool_decide_true.
  - by apply assoc_middle_other.
Qed.

Lemma assoc_without l l' nm x : without l l' nm -> x <> nm -> assoc l' x = assoc l x.
Proof. intros (l1 & i & l2 & -> & -> & _) Hne. by rewrite assoc_middle_other. Qed.

(** What is known of the names of an inode, if anything. *)
Definition known V n (ol : option (list (list Z * Z))) : Prop := forall l, ol = Some l -> dir_is V n l.

Lemma known_rep V I ino ol : layout G V I -> valid_ino G ino -> is_dir (I ino) -> known V (I ino) ol ->
  exists ess, direct_rep G V (I ino) ess /\ forall l, ol = Some l -> plain_dir V (I ino) ess /\ l = dir_names ess.
Proof.
  intros HL Hi Hd Hk. destruct ol as [l|].
  - destruct (Hk l eq_refl) as (_ & ess & Hp & ->). exists ess. split; [apply Hp|]. by intros l [= <-].
  - destruct (direct_rep_exists G V I ino HL Hi Hd) as [ess Hess]. by exists ess.
Qed.

Definition add_names_post s I ino ol nm child (r : Z) s' : Prop :=
  (r < 0 /\ holds_fs s' I /\ all_blocks G (disk s) (disk s') I) \/
  (r = 0 /\ nm <> [] /\ exists n', holds_fs s' (upd I ino n') /\ i_links_count n' = i_links_count (I ino) /\
    (forall x, valid_ino G x -> x <> ino -> same_blocks G (disk s) (disk s') (I x)) /\
    forall l, ol = Some l -> exists l', added l l' nm child /\ dir_is (disk s') n' l').

Lemma added_block ess k es es' nm child ft : Forall (dent_ok G) es -> 0 < child <= fg_inodes G -> Z.of_nat (length nm) <= 255 ->
  ess !! k = Some es -> place es child ft nm = Some es' -> nm ∉ (dir_names (take (S k) ess)).*1 ->
  added (dir_names ess) (dir_names (<[k := es']> ess)) nm child.
Proof.
  intros Hok Hc Hn Hk Hp Hno. destruct (dir_names_insert ess k es es' Hk) as [-> ->].
  destruct (place_spec G es child ft nm es' Hok Hc Hn Hp) as (_ & _ & l1 & l2 & E1 & E2). rewrite E1, E2.
  exists (dir_names (take k ess) ++ l1), (l2 ++ dir_names (drop (S k) ess)). rewrite <- !app_assoc. split; [done|]. split; [done|].
  rewrite (take_S_r _ _ _ Hk), dir_names_app in Hno. unfold dir_names in Hno at 2. simpl in Hno. rewrite app_nil_r, E1 in Hno.
  rewrite !fmap_app in *. rewrite !not_elem_of_app in *. tauto.
Qed.

Lemma cut_block ess k es es' nm : cutout G es es' nm -> ess !! k = Some es -> nm ∉ (dir_names (take k ess)).*1 ->
  without (dir_names ess) (dir_names (<[k := es']> ess)) nm.
Proof.
  intros [_ _ (l1 & i & l2 & E1 & Hn & E2)] Hk Hno. destruct (dir_names_insert ess k es es' Hk) as [-> ->]. rewrite E1, E2.
  exists (dir_names (take k ess) ++ l1), i, (l2 ++ dir_names (drop (S k) ess)). rewrite <- !app_assoc. split; [done|]. split; [done|].
  rewrite fmap_app, not_elem_of_app. done.
Qed.

(** Calls that end before they look at the directory. *)
Lemma add_refused s I ino nm rest child ft : holds_fs s I -> valid_ino G ino -> Forall (fun c => c <> 0) nm -> 0 < child ->
  (nm = [] \/ 255 < Z.of_nat (length nm) \/ ~ is_dir (I ino)) ->
  wp (ext2_dir_add_entry junk ino (Some (nm ++ 0 :: rest)) child ft) (fun r s' => r < 0 /\ mounted s' /\ agree s s') s.
Proof.
  intros Hf Hi Hnz Hc Hbad. pose proof (hf_mounted _ _ _ _ Hf) as Hm. unfold ext2_dir_add_entry. apply wp_bind, wp_gets. unfold id.
  rewrite (mo_bd _ _ _ Hm). cbn [negb]. eapply wp_bind_ok; [by apply no_name_ok|]. rewrite (proj2 (Z.eqb_neq child 0)), orb_false_r by lia.
  case_bool_decide as E0; [apply wp_ret; split; [done|]; split; [done|apply agree_refl]|].
  cbn [default]. eapply wp_bind_ok; [by apply strlen_from_ok, holds_intro|]. rewrite Z.add_0_l.
  destruct (Z.ltb_spec 255 (Z.of_nat (length nm))); [apply wp_ret; split; [done|]; split; [done|apply agree_refl]|].
  eapply wp_step; [by apply (read_inode_ok junk G HG Lm)|]. intros [rc n] s1 ([= -> ->] & Hm1 & Ha1). cbn [Z.eqb negb].
  rewrite (hf_stored _ _ _ _ Hf ino Hi). destruct Hbad as [?|[?|Hd]]; [done|lia|]. unfold is_dir in Hd.
  apply not_true_is_false in Hd. rewrite Hd. cbn [negb]. by apply wp_ret.
Qed.

Lemma add_names_ok s I ino ol nm rest child ft : holds_fs s I -> valid_ino G ino -> known (disk s) (I ino) ol -> Forall (fun c => c <> 0) nm -> 0 < child <= fg_inodes G ->
  wp (ext2_dir_add_entry junk ino (Some (nm ++ 0 :: rest)) child ft) (add_names_post s I ino ol nm child) s.
Proof.
  intros Hf Hi Hol Hnz Hc. destruct (decide (nm = [] \/ 255 < Z.of_nat (length nm))) as [Hbad|Hgood].
  { eapply wp_mono; [apply (add_refused s I); try done; [lia|tauto]|]. intros r s' (Hr & Hm & Ha). left. split; [done|].
    split; [by apply (holds_agree G HG Lm s)|]. by apply agree_all; [apply Hf|]. }
  destruct (is_kind EXT2_S_IFDIR (I ino)) eqn:Ed.
  2: { eapply wp_mono; [apply (add_refused s I); try done; [lia|]; right; right; unfold is_dir; by rewrite Ed|]. intros r s' (Hr & Hm & Ha). left. split; [done|].
       split; [by apply (holds_agree G HG Lm s)|]. by apply agree_all; [apply Hf|]. }
  assert (nm <> [] /\ Z.of_nat (length nm) <= 255) as [Hne Hlen].
  { split; [intros ?; apply Hgood; by left|]. destruct (decide (255 < Z.of_nat (length nm))); [|lia]. exfalso. apply Hgood. by right. }
  destruct (known_rep (disk s) I ino ol (hf_layout _ _ _ _ Hf) Hi Ed Hol) as (ess & Hess & Hl).
  eapply wp_mono; [by apply (dir_add_ok junk G HG Lm s I ino ess nm child ft)|]. intros r s' [(Hr & Hf' & Hall & _)|[-> Hp]]; [by left|right].
  split; [done|]. split; [done|]. destruct Hp as [(k & es & es' & Hip & Hpl & Hno)|(n' & b & Hap)].
  - exists (I ino). split; [apply holds_upd_id, (ip_holds _ _ _ _ _ _ _ _ _ _ _ Hip)|]. split; [done|].
    split; [intros x Hx Hxi; eapply only_kept; [apply (ip_only _ _ _ _ _ _ _ _ _ _ _ Hip)|done|done]|]. intros l El.
    destruct (Hl l El) as [Hpd ->]. pose proof (ip_block _ _ _ _ _ _ _ _ _ _ _ Hip) as Hk.
    destruct (dd_blocks _ _ _ _ Hess k es Hk) as (_ & _ & Hok). eexists. split; [by eapply added_block|]. split; [done|].
    eexists. split; [|reflexivity]. by eapply plain_edit.
  - destruct Hap as [P1 P2 P3 P4 P5 P6 P7 P8 P9 P10]. exists n'. split; [done|]. split; [done|]. split; [intros x Hx _; by apply P2|].
    intros l El. destruct (Hl l El) as [Hpd ->].
    destruct (alone_spec G HG nm child ft Hc Hlen) as (_ & Ha2 & _ & Ea). exists (dir_names (ess ++ [[alone G nm child ft]])). split.
    + exists (dir_names ess), []. rewrite app_nil_r. split; [done|]. split; [|done]. rewrite dir_names_app. unfold dir_names at 2. simpl. by rewrite Ea.
    + split; [unfold is_dir, is_kind in *; by rewrite P7|]. eexists. split; [|reflexivity].
      eapply plain_append; try done; [apply (iw_block _ (ly_wf _ _ _ (hf_layout _ _ _ _ Hf) ino Hi))|constructor; [exact Ha2|constructor]].
Qed.

Definition remove_names_post s I ino ol nm (r : Z) s' : Prop :=
  (r < 0 /\ holds_fs s' I /\ all_blocks G (disk s) (disk s') I /\ (r = - ENOENT -> forall l, ol = Some l -> nm ∉ l.*1)) \/
  ((r = 0 \/ r = - ENOMEM) /\ is_dir (I ino) /\ exists n', holds_fs s' (upd I ino n') /\ i_links_count n' = i_links_count (I ino) /\
    (forall x, valid_ino G x -> x <> ino -> same_blocks G (disk s) (disk s') (I x)) /\
    forall l, ol = Some l -> exists l', without l l' nm /\ dir_is (disk s') n' l').

Lemma remove_names_ok s I ino ol nm rest : holds_fs s I -> valid_ino G ino -> known (disk s) (I ino) ol -> Forall (fun c => c <> 0) nm ->
  wp (ext2_dir_remove_entry junk ino (Some (nm ++ 0 :: rest))) (remove_names_post s I ino ol nm) s.
Proof.
  intros Hf Hi Hol Hnz. assert (forall r s', r < 0 -> r <> - ENOENT -> mounted s' -> agree s s' -> remove_names_post s I ino ol nm r s') as Hbad.
  { intros r s' Hr Hr2 Hm Ha. left. split; [done|]. split; [by apply (holds_agree G HG Lm s)|]. by split; [apply agree_all; [apply Hf|]|]. }
  destruct (decide (nm <> [] /\ is_kind EXT2_S_IFDIR (I ino) = true)) as [[Hne Ed]|Hno].
  2: { pose proof (hf_mounted _ _ _ _ Hf) as Hm. unfold ext2_dir_remove_entry. apply wp_bind, wp_gets. unfold id.
       rewrite (mo_bd _ _ _ Hm). cbn [negb]. eapply wp_bind_ok; [by apply no_name_ok|].
       case_bool_decide as E0; [apply wp_ret, Hbad; try done|]. cbn [default]. eapply wp_bind_ok; [by apply strlen_from_ok, holds_intro|].
       eapply wp_step; [by apply (read_inode_ok junk G HG Lm)|]. intros [rc n] s1 ([= -> ->] & Hm1 & Ha1). cbn [Z.eqb negb].
       rewrite (hf_stored _ _ _ _ Hf ino Hi). destruct (is_kind EXT2_S_IFDIR (I ino)) eqn:Ed; [exfalso; by apply Hno|]. cbn [negb]. by apply wp_ret, Hbad. }
  destruct (known_rep (disk s) I ino ol (hf_layout _ _ _ _ Hf) Hi Ed Hol) as (ess & Hess & Hl).
  eapply wp_mono; [by apply (dir_remove_ok junk G HG Lm s I ino ess nm)|].
  intros r s' [(Hm & Ha & [[-> Hnot]| ->])|(J & k & es & es' & Hip & Hco & Hpre & HJ)].
  - left. split; [done|]. split; [by apply (holds_agree G HG Lm s)|]. split; [by apply agree_all; [apply Hf|]|]. intros _ l El. by destruct (Hl l El) as [_ ->].
  - by apply Hbad.
  - right. split; [tauto|]. split; [done|]. assert (exists n', (forall x, J x = upd I ino n' x) /\ i_links_count n' = i_links_count (I ino) /\ i_block n' = i_block (I ino) /\
      i_size n' = i_size (I ino) /\ i_mode n' = i_mode (I ino)) as (n' & EJ & El & Eb & Es & Em).
    { destruct HJ as [[_ (t & _ & ->)]|[_ ->]]; [by exists (timed t (I ino))|]. exists (I ino). split; [|done]. intros x. unfold upd. case_decide; by subst. }
    exists n'. pose proof (ip_holds _ _ _ _ _ _ _ _ _ _ _ Hip) as [Hm' Hs' HL'].
    split; [split; [done|intros x Hx; rewrite <- EJ; by apply Hs'|eapply layout_inodes; [|exact HL']; intros x; by rewrite EJ]|]. split; [done|].
    split; [intros x Hx Hxi; eapply only_kept; [apply (ip_only _ _ _ _ _ _ _ _ _ _ _ Hip)|done|done]|]. intros l Eol.
    destruct (Hl l Eol) as [Hpd ->]. eexists. split; [eapply cut_block; [done|apply (ip_block _ _ _ _ _ _ _ _ _ _ _ Hip)|done]|].
    split; [unfold is_dir, is_kind in *; by rewrite Em|]. eexists. split; [|reflexivity]. by eapply plain_edit.
Qed.

End Names.
