(* ===== verification/Ext2Spec.v ===== *)
(** * The operations of ext2 against an abstract file system

    The abstract file system maps inode numbers to files, a size and the bytes,
    and to directories, lists of names.  [spec c A r A'] is what a call of the
    operations table may return and do.  On a mounted, consistent file system
    with a healthy device every program of calls returns, with results and
    effects of the abstract one; allocations of memory may fail at any point. *)

From stdpp Require Import base tactics numbers list gmap.
From S2P Require Import Prelude Kstring Alloc Timer FsOps Block Ext2Disk Ext2 Ext2Io Ext2Inv Ext2Table Ext2Alloc Ext2Data Ext2Write Ext2Dents Ext2DirOps Ext2Names.

(** ** The abstract file system *)

Inductive node := NFile (size : Z) (data : Z -> Z) | NDir (names : list (list Z * Z)).

Inductive call :=
  | Resolve (parent : Z) (name : list Z)
  | Read (inode count offset : Z)
  | Write (inode : Z) (buf : list Z) (offset : Z)
  | Create (parent : Z) (name : list Z) (mode : Z)
  | Mkdir (parent : Z) (name : list Z) (mode : Z)
  | Unlink (parent : Z) (name : list Z).

Inductive answer := RNum (r : Z) | RMade (r inode : Z) | RData (r : Z) (bytes : list Z).

(** The arguments: inodes that are known, names without a terminator, a range
    of bytes that fits 32 bits. *)
Definition allowed (A : gmap Z node) (c : call) : Prop :=
  match c with
  | Resolve p nm | Create p nm _ | Mkdir p nm _ | Unlink p nm => is_Some (A !! p) /\ Forall (fun c => c <> 0) nm
  | Read i count off => is_Some (A !! i) /\ 0 <= count /\ 0 <= off /\ off + count < 4294967296
  | Write i buf off => is_Some (A !! i) /\ is_u32 (Z.of_nat (length buf)) /\ is_u32 off
  end.

Definition overwrite (f : Z -> Z) (buf : list Z) (off p : Z) : Z :=
  if decide (off <= p < off + Z.of_nat (length buf)) then nthZ buf (p - off) else f p.

(** A name is made in [p] for the new inode [i]. *)
Definition made (A : gmap Z node) (p : Z) (nm : list Z) (i : Z) (a : node) (A' : gmap Z node) : Prop :=
  exists l l', A !! p = Some (NDir l) /\ A !! i = None /\ added l l' nm i /\ A' = <[i := a]> (<[p := NDir l']> A).

Definition spec (c : call) (A : gmap Z node) (r : answer) (A' : gmap Z node) : Prop :=
  match c, r with
  | Resolve p nm, RNum v => A' = A /\
      v = match A !! p with Some (NDir l) => if decide (nm = []) then 0 else assoc l nm | _ => 0 end
  | Read i count off, RData v bytes => A' = A /\
      match A !! i with
      | Some (NFile size f) => let k := if size <=? off then 0 else Z.min count (size - off) in v = k /\ bytes = f <$> seqZ off k
      | _ => v < 0 /\ bytes = []
      end
  | Write i buf off, RNum v =>
      match A !! i with
      | Some (NFile size f) =>
          (v = Z.of_nat (length buf) /\
           A' = <[i := NFile (if decide (buf = []) then size else Z.max size (off + Z.of_nat (length buf))) (overwrite f buf off)]> A) \/
          (v < 0 /\ exists f', A' = <[i := NFile size f']> A /\ forall p, 0 <= p -> f' p = f p \/ f' p = overwrite f buf off p)
      | _ => A' = A /\ (v < 0 \/ buf = [])
      end
  | Create p nm mode, RMade v i => (v < 0 /\ A' = A) \/ (v = 0 /\ nm <> [] /\ made A p nm i (NFile 0 (fun _ => 0)) A')
  | Mkdir p nm mode, RMade v i =>
      (v < 0 /\ A' = A) \/ (v = 0 /\ nm <> [] /\ exists l, l ≡ₚ [([46], i); ([46; 46], p)] /\ made A p nm i (NDir l) A')
  | Unlink p nm, RNum v =>
      (v < 0 /\ A' = A /\ (v = - ENOENT -> forall l, A !! p = Some (NDir l) -> nm ∉ l.*1)) \/
      ((v = 0 \/ v = - ENOMEM) /\ exists l l', A !! p = Some (NDir l) /\ without l l' nm /\ A' = <[p := NDir l']> A)
  | _, _ => False
  end.

(** A program makes its calls depend on the results so far. *)
Inductive prog := Done | Do (c : call) (k : answer -> prog).

Fixpoint valid_prog (p : prog) (A : gmap Z node) : Prop :=
  match p with
  | Done => True
  | Do c k => allowed A c /\ forall r A', spec c A r A' -> valid_prog (k r) A'
  end.

Inductive run_spec : gmap Z node -> list (call * answer) -> gmap Z node -> Prop :=
  | rs_nil A : run_spec A [] A
  | rs_cons A c r A1 t A2 : spec c A r A1 -> run_spec A1 t A2 -> run_spec A ((c, r) :: t) A2.

Section Exec.
Context {D M : Type} `{BlockOps D} `{Kmalloc M}.
Context (junk : list Z).

Definition exec (c : call) : ST (ext2 D M) answer :=
  match c with
  | Resolve p nm => v ← ext2_op_resolve junk 0 p (nm ++ [0]); ret (RNum v)
  | Read i count off => '(v, bytes) ← ext2_op_read junk 0 i count off; ret (RData v bytes)
  | Write i buf off => v ← ext2_op_write junk 0 i buf (Z.of_nat (length buf)) off; ret (RNum v)
  | Create p nm mode => '(v, i) ← ext2_op_create junk 0 p (nm ++ [0]) mode; ret (RMade v i)
  | Mkdir p nm mode => '(v, i) ← ext2_op_mkdir junk 0 p (nm ++ [0]) mode; ret (RMade v i)
  | Unlink p nm => v ← ext2_op_unlink junk 0 p (nm ++ [0]); ret (RNum v)
  end.

Fixpoint run_prog (p : prog) : ST (ext2 D M) (list (call * answer)) :=
  match p with
  | Done => ret []
  | Do c k => r ← exec c; t ← run_prog (k r); ret ((c, r) :: t)
  end.
End Exec.

Section Spec.
Context {D M : Type} `{BlockDevice D} `{Kmalloc M}.
Context (junk : list Z) (G : geo) (HG : geo_ok G) (Lm : gmap Z Z).
Implicit Types (s : ext2 D M) (I J : Z -> ext2_inode) (V : Z -> list Z) (A : gmap Z node).
Notation mounted := (mounted G Lm).
Notation disk := (disk G).
Notation agree := (agree G).
Notation holds_fs := (holds_fs G Lm).

Definition shows V n (a : node) : Prop :=
  match a with
  | NFile size f => is_kind EXT2_S_IFREG n = true /\ i_size n = size /\ forall p, 0 <= p -> fbyte G V n p = f p
  | NDir l => dir_is G V n l
  end.

Definition views V I A : Prop := forall i a, A !! i = Some a -> valid_ino G i /\ live (I i) /\ shows V (I i) a.

(** The file system on the disk is consistent and shows [A]. *)
Definition fs_is s A : Prop := exists I, holds_fs s I /\ views (disk s) I A.

Lemma shows_same V V' n n' a : i_block n' = i_block n -> i_size n' = i_size n -> i_mode n' = i_mode n -> same_blocks G V V' n ->
  shows V n a -> shows V' n' a.
Proof.
  intros Eb Es Em Hs. destruct a as [size f|l]; simpl; [|by apply (dir_same G)]. intros (Hk & Hz & Hf). split; [unfold is_kind in *; by rewrite Em|].
  split; [congruence|]. intros p Hp. rewrite (fbyte_inode G V' n n') by done. rewrite (same_blocks_byte G HG V); [by apply Hf|done|done].
Qed.

(** Inodes that are as they were show what they did. *)
Lemma views_keep V V' I J A : views V I A -> (forall i, valid_ino G i -> is_Some (A !! i) -> live (I i) -> kept G V V' I J i) -> views V' J A.
Proof.
  intros Hv Hk i a Ea. destruct (Hv i a Ea) as (Hi & Hl & Hs). destruct (Hk i Hi ltac:(by exists a) Hl) as [E Hb]. rewrite E.
  split; [done|]. split; [done|]. by apply (shows_same V V' (I i)).
Qed.

Lemma views_all V V' I A : views V I A -> all_blocks G V V' I -> views V' I A.
Proof. intros Hv Ha. apply (views_keep V V' I I); [done|]. intros i Hi _ _. split; [done|by apply Ha]. Qed.

(** One inode changed. *)
Lemma views_upd V V' I A ino n a : views V I A -> valid_ino G ino -> live n -> shows V' n a ->
  (forall x, valid_ino G x -> x <> ino -> same_blocks G V V' (I x)) -> views V' (upd I ino n) (<[ino := a]> A).
Proof.
  intros Hv Hi Hl Hs Ho i b. destruct (decide (i = ino)) as [->|Hne].
  - rewrite lookup_insert_eq. intros [= <-]. by rewrite upd_same.
  - rewrite lookup_insert_ne by done. rewrite upd_other by done. intros Eb. destruct (Hv i b Eb) as (Hvi & Hli & Hsi).
    split; [done|]. split; [done|]. apply (shows_same V V' (I i)); try done. by apply Ho.
Qed.

Lemma fs_agree s s' I A : holds_fs s I -> views (disk s) I A -> mounted s' -> agree s s' -> fs_is s' A.
Proof.
  intros Hf Hv Hm Ha. exists I. split; [by apply (holds_agree G HG Lm s)|]. apply (views_all (disk s)); [done|]. by apply agree_all; [apply Hf|].
Qed.

(** ** The calls *)

Definition sim (c : call) : Prop := forall s A, fs_is s A -> allowed A c ->
  wp (exec junk c) (fun r s' => exists A', spec c A r A' /\ fs_is s' A') s.

Lemma not_both n : is_kind EXT2_S_IFREG n = true -> ~ is_dir n.
Proof. unfold is_dir, is_kind. intros E%Z.eqb_eq. by rewrite E. Qed.

Lemma dir_not_file n : is_dir n -> is_kind EXT2_S_IFREG n = false.
Proof. intros Hd. apply not_true_is_false. intros E. by apply (not_both n). Qed.

Lemma sim_resolve p nm : sim (Resolve p nm).
Proof.
  intros s A (I & Hf & Hv) [[a Ha] Hnz]. destruct (Hv p a Ha) as (Hi & Hl & Hs). cbn [exec]. unfold ext2_op_resolve.
  eapply wp_step; [by apply (lookup_names_ok junk G HG Lm s I p nm [])|]. intros v s' (Hm & Hag & Hd & Hn). apply wp_ret.
  exists A. split; [|by eapply fs_agree]. simpl. split; [done|]. rewrite Ha. destruct (decide (v = 0)) as [->|Hne].
  - destruct a as [|l]; [done|]. case_decide; [done|]. by apply Hn.
  - destruct (Hd Hne) as [Hdir Hnm]. destruct a as [size f|l]; [destruct Hs as [Hk _]; by apply not_both in Hk|].
    rewrite decide_False by done. by apply Hn.
Qed.

Lemma seq_bytes V n f off k : 0 <= off -> off + k < 4294967296 -> (forall p, 0 <= p -> fbyte G V n p = f p) ->
  bytes_at G V n off 0 k = f <$> seqZ off k.
Proof.
  intros Ho Hk Hf. unfold bytes_at. apply list_eq. intros j. rewrite !list_lookup_fmap.
  destruct (decide (Z.of_nat j < k)) as [Hj|Hj].
  - rewrite !(proj2 (lookup_seqZ _ _ j _)) by (split; [reflexivity|lia]). simpl. rewrite u32_id by (unfold is_u32; lia). f_equal.
    rewrite Hf by lia. f_equal; lia.
  - by rewrite !lookup_seqZ_ge by lia.
Qed.

Lemma sim_read i count off : sim (Read i count off).
Proof.
  intros s A (I & Hf & Hv) ([a Ha] & Hc & Ho & Hfit). destruct (Hv i a Ha) as (Hi & Hl & Hs). pose proof (hf_mounted _ _ _ _ Hf) as Hm.
  pose proof (hf_layout _ _ _ _ Hf) as HL. pose proof (ly_wf _ _ _ HL i Hi) as Hwf. pose proof (ly_size _ _ _ HL i Hi) as Hsz. pose proof (filled_max (I i)) as Hfm.
  cbn [exec]. unfold ext2_op_read. rewrite u32_id by (unfold is_u32; lia). unfold ext2_read_inode.
  apply wp_bind, wp_bind, wp_gets. unfold id. rewrite (mo_bd _ _ _ Hm). cbn [negb].
  eapply wp_step; [by apply (read_inode_ok junk G HG Lm)|]. intros [rc n] s1 ([= -> ->] & Hm1 & Ha1). cbn [Z.eqb negb].
  rewrite (hf_stored _ _ _ _ Hf i Hi). destruct a as [size f|l].
  - destruct Hs as (Hk & Es & Hb). rewrite Hk. cbn [negb]. pose proof (iw_size _ Hwf) as Hsu. unfold size_ok in Hsz.
    pose proof (layout_clear G (disk s) I i HL Hi) as Hclear.
    eapply wp_mono; [apply (read_data_ok G HG Lm s1 (I i) count off); [done|apply (iw_block _ Hwf)|by eapply agree_clear|done|unfold is_u32; lia|unfold is_u32; lia]|].
    intros r s2 (-> & Hm2 & Ha2). apply wp_ret. exists A. split; [|eapply fs_agree; [done|done|done|by eapply agree_trans]]. simpl. split; [done|]. rewrite Ha.
    unfold is_u32 in Hsu. rewrite (u32_id (off + count)), Es by (unfold is_u32; lia). rewrite Es in *.
    assert ((if size <=? off then 0 else if size <? off + count then size - off else count) = (if size <=? off then 0 else Z.min count (size - off))) as ->.
    { destruct (Z.leb_spec size off), (Z.ltb_spec size (off + count)); lia. }
    assert (0 <= (if size <=? off then 0 else Z.min count (size - off)) <= size) as Hkb by (destruct (Z.leb_spec size off); lia).
    rewrite s32_small by lia. split; [done|]. apply seq_bytes; [done|destruct (Z.leb_spec size off); lia|].
    intros p Hp. rewrite (same_blocks_byte G HG (disk s)); [by apply Hb|by apply agree_blocks|done].
  - destruct Hs as [Hd _]. rewrite (dir_not_file _ Hd). cbn [negb]. apply wp_ret, wp_ret. exists A. split; [|by eapply fs_agree].
    simpl. by rewrite Ha.
Qed.

(** Only regular files are written. *)
Lemma write_refused s I ino buf off : holds_fs s I -> valid_ino G ino -> is_dir (I ino) -> is_u32 (Z.of_nat (length buf)) -> is_u32 off ->
  wp (ext2_inode_write_data junk ino (Some buf) (Z.of_nat (length buf)) off) (fun r s' => mounted s' /\ agree s s' /\ (r < 0 \/ buf = [])) s.
Proof.
  intros Hf Hi Hd Hc Ho. pose proof (hf_mounted _ _ _ _ Hf) as Hm. unfold ext2_inode_write_data. apply wp_bind, wp_gets. unfold id.
  rewrite (mo_bd _ _ _ Hm). cbn [negb]. destruct (Z.eqb_spec (Z.of_nat (length buf)) 0).
  { apply wp_ret. split; [done|]. split; [apply agree_refl|]. right. by destruct buf. }
  case_match; [apply wp_ret; split; [done|]; split; [apply agree_refl|by left]|].
  eapply wp_step; [by apply (read_inode_ok junk G HG Lm)|]. intros [rc n0] s1 ([= -> ->] & Hm1 & Ha1). cbn [Z.eqb negb].
  rewrite (hf_stored _ _ _ _ Hf ino Hi), (dir_not_file _ Hd). cbn [negb]. apply wp_ret. split; [done|]. split; [done|by left].
Qed.

Lemma sim_write i buf off : sim (Write i buf off).
Proof.
  intros s A (I & Hf & Hv) ([a Ha] & Hlen & Ho). destruct (Hv i a Ha) as (Hi & Hl & Hs). cbn [exec]. unfold ext2_op_write. rewrite u32_id by done.
  destruct a as [size f|l].
  2: { eapply wp_step; [apply (write_refused s I); try done; apply Hs|]. intros r s' (Hm & Hag & Hr). apply wp_ret.
       exists A. split; [cbn [spec]; by rewrite Ha|by eapply fs_agree]. }
  destruct Hs as (Hk & Hz & Hfb).
  eapply wp_step; [by apply (write_data_ok junk G HG Lm s I i buf (Z.of_nat (length buf)) off)|]. intros r s' [Hoth Hr]. apply wp_ret. cbn [spec]. rewrite Ha.
  destruct Hr as [(Hr & Hf' & Htorn)|(-> & Hnd & n' & Hf' & Em & El & Es & Hb)].
  - exists (<[i := NFile size (fbyte G (disk s') (I i))]> A). split.
    + right. split; [done|]. eexists. split; [reflexivity|]. intros p Hp. unfold overwrite. rewrite <- Hfb by done.
      destruct (Htorn p Hp) as [->|[Hin ->]]; [by left|right]. by rewrite decide_True by lia.
    + exists (upd I i (I i)). split; [by apply holds_upd_id|]. by apply (views_upd (disk s)).
  - eexists. split; [left; split; reflexivity|]. exists (upd I i n'). split; [done|].
    apply (views_upd (disk s)); try done; [unfold live in *; by rewrite El|]. split; [unfold is_kind in *; by rewrite Em|].
    split; [rewrite Es, Hz; by destruct buf|]. intros p Hp. rewrite Hb by done. unfold overwrite. by rewrite Hfb.
Qed.

(** ** New inodes *)

Lemma made_kind mode kind t : kind = EXT2_S_IFREG \/ kind = EXT2_S_IFDIR ->
  is_kind kind (fresh_inode (u16 (Z.lor (Z.land mode 0xFFF) kind)) t) = true.
Proof.
  intros Hk. unfold is_kind, fresh_inode. cbn [i_mode]. apply Z.eqb_eq. unfold u16. change 65536 with (2 ^ 16). rewrite <- Z.land_ones by lia.
  rewrite <- Z.land_assoc. change (Z.land (Z.ones 16) EXT2_S_IFMT) with EXT2_S_IFMT.
  rewrite Z.land_lor_distr_l, <- Z.land_assoc. change (Z.land 4095 EXT2_S_IFMT) with 0. rewrite Z.land_0_r. by destruct Hk as [-> | ->].
Qed.

Lemma fresh_byte V mode t p : fbyte G V (fresh_inode mode t) p = 0.
Proof.
  assert (forall j, nthZ (i_block (fresh_inode mode t)) j = 0) as E0.
  { intros j. cbn [i_block fresh_inode]. unfold nthZ. destruct (_ !! _) as [x|] eqn:E; [|done]. by apply lookup_replicate in E as [-> _]. }
  unfold fbyte, phys. destruct (slot_of G _) as [[]|]; simpl; rewrite ?E0; done.
Qed.

(** The new inode is none that anything was known of. *)
Lemma alloc_ok s I A mode kind : holds_fs s I -> views (disk s) I A -> kind = EXT2_S_IFREG \/ kind = EXT2_S_IFDIR ->
  wp (ext2_alloc_inode (u16 (Z.lor (Z.land mode 0xFFF) kind))) (fun r s' =>
    (r.1 < 0 /\ fs_is s' A) \/
    (r.1 = 0 /\ valid_ino G r.2 /\ A !! r.2 = None /\ exists t, let n := fresh_inode (u16 (Z.lor (Z.land mode 0xFFF) kind)) t in
      is_kind kind n = true /\ holds_fs s' (upd I r.2 n) /\ views (disk s') (upd I r.2 n) A)) s.
Proof.
  intros Hf Hv Hk. eapply wp_mono; [apply (ext2_alloc_inode_ok G HG Lm s I); [done|apply Z.mod_pos_bound; lia]|].
  intros [rc i] s' [Hd Hr]. cbn [fst snd] in *. assert (all_blocks G (disk s) (disk s') I) as Hall by (by apply data_all; [apply Hf|]).
  destruct Hr as [[Hr Hf']|(-> & Hi & Hu & t & Ht & Hf')]; [left|right].
  - split; [done|]. exists I. split; [done|by eapply views_all].
  - split; [done|]. split; [done|]. assert (~ live (I i)) as Hnl.
    { intros Hl. pose proof (ly_live _ _ _ (hf_layout _ _ _ _ Hf) i Hi Hl). congruence. }
    split. { destruct (A !! i) as [a|] eqn:Ea; [|done]. exfalso. by destruct (Hv i a Ea) as (_ & ? & _). }
    exists t. cbv zeta. split; [by apply made_kind|]. split; [done|]. apply (views_keep (disk s) _ I); [done|]. intros x Hx _ Hl.
    split; [|by apply Hall]. apply upd_other. by intros ->.
Qed.

(** The names of an inode the abstract file system knows. *)
Definition names_of A i : option (list (list Z * Z)) := match A !! i with Some (NDir l) => Some l | _ => None end.

Lemma known_names V I A i : views V I A -> known G V (I i) (names_of A i).
Proof.
  intros Hv l. unfold names_of. destruct (A !! i) as [[size f|l']|] eqn:Ea; try done. intros [= ->]. by destruct (Hv i _ Ea) as (_ & _ & Hs).
Qed.

(** Adding an entry to a directory of [A]. *)
Lemma add_view s I A p nm rest child ft : holds_fs s I -> views (disk s) I A -> valid_ino G p -> live (I p) -> is_Some (A !! p) -> Forall (fun c => c <> 0) nm ->
  0 < child <= fg_inodes G ->
  wp (ext2_dir_add_entry junk p (Some (nm ++ 0 :: rest)) child ft) (fun r s' =>
    (r < 0 /\ fs_is s' A) \/
    (r = 0 /\ nm <> [] /\ exists l l' J, A !! p = Some (NDir l) /\ added l l' nm child /\ holds_fs s' J /\ views (disk s') J (<[p := NDir l']> A))) s.
Proof.
  intros Hf Hv Hi Hl [a Ha] Hnz Hc. destruct (Hv p a Ha) as (_ & _ & Hs).
  destruct a as [size f|l].
  { eapply wp_mono; [apply (add_refused junk G HG Lm s I p); try done; [lia|right; right; apply not_both, Hs]|]. intros r s' (Hr & Hm & Hag). left.
    split; [done|by eapply fs_agree]. }
  eapply wp_mono; [apply (add_names_ok junk G HG Lm s I p (Some l)); try done; by intros l' [= <-]|].
  intros r s' [(Hr & Hf' & Hall)|(-> & Hne & n' & Hf' & El & Hoth & Hnames)].
  - left. split; [done|]. exists I. split; [done|by eapply views_all].
  - right. split; [done|]. split; [done|]. destruct (Hnames l eq_refl) as (l' & Had & Hd). exists l, l', (upd I p n').
    split; [done|]. split; [done|]. split; [done|]. apply (views_upd (disk s)); try done. unfold live in *. by rewrite El.
Qed.

Lemma fs_weaken s A A' : A ⊆ A' -> fs_is s A' -> fs_is s A.
Proof. intros Hsub (I & Hf & Hv). exists I. split; [done|]. intros i a Ea. apply Hv. by eapply lookup_weaken. Qed.

(** The new inode becomes known. *)
Lemma fresh_view V I A i n a : views V (upd I i n) A -> A !! i = None -> valid_ino G i -> live n -> shows V n a -> views V (upd I i n) (<[i := a]> A).
Proof.
  intros Hv Hn Hi Hl Hs x b. destruct (decide (x = i)) as [->|Hne].
  - rewrite lookup_insert_eq, upd_same. by intros [= <-].
  - rewrite lookup_insert_ne by done. apply Hv.
Qed.

Lemma sim_create p nm mode : sim (Create p nm mode).
Proof.
  intros s A (I & Hf & Hv) [[a Ha] Hnz]. destruct (Hv p a Ha) as (Hp & Hl & Hs). cbn [exec]. unfold ext2_op_create. apply wp_bind.
  eapply wp_step; [apply (alloc_ok s I A mode EXT2_S_IFREG); try done; by left|]. intros [rc i] s1 Hr. cbv beta iota. cbn [fst snd] in Hr.
  destruct (Z.eqb_spec rc 0) as [->|Hne]; cbn [negb].
  2: { destruct Hr as [[Hr Hfs]|(? & _)]; [|done]. apply wp_ret, wp_ret. exists A. split; [by left|done]. }
  destruct Hr as [[? _]|(_ & Hi & Hnone & t & Hk & Hf1 & Hv1)]; [done|]. set (n := fresh_inode _ t) in *.
  assert (p <> i) as Hpi by congruence. set (A1 := <[i := NFile 0 (fun _ => 0)]> A).
  assert (views (disk s1) (upd I i n) A1) as Hv2.
  { apply fresh_view; try done. split; [done|]. split; [done|]. intros q _. apply fresh_byte. }
  pose proof (insert_subseteq A i (NFile 0 (fun _ => 0)) Hnone) as Hsub.
  eapply wp_step; [apply (add_view s1 (upd I i n) A1 p nm [] i EXT2_FT_REG_FILE); try done; [by rewrite upd_other| |unfold valid_ino in Hi; lia]|].
  { unfold A1. rewrite lookup_insert_ne by done. by exists a. }
  intros r s2 [[Hr Hfs]|(-> & Hnn & l & l' & J & El & Had & Hf2 & Hv3)]; cbv beta.
  - rewrite (proj2 (Z.eqb_neq r 0)) by lia. cbn [negb]. apply wp_ret, wp_ret. exists A. split; [by left|eapply fs_weaken; [apply Hsub|done]].
  - cbn [Z.eqb negb]. apply wp_ret, wp_ret. unfold A1 in El. rewrite lookup_insert_ne in El by done.
    eexists. split; [right; split; [done|]; split; [done|]; exists l, l'; done|]. exists J. split; [done|]. by rewrite insert_insert_ne by done.
Qed.

(** A change of the number of links shows nothing. *)
Lemma links_view s I A i : holds_fs s I -> views (disk s) I A -> valid_ino G i -> live (I i) ->
  wp (ext2_inode_adjust_links junk i 1) (fun _ s' => fs_is s' A) s.
Proof.
  intros Hf Hv Hi Hl. eapply wp_mono; [by apply (adjust_links_ok junk G HG Lm s I)|]. intros r s' [Hd Hr].
  assert (all_blocks G (disk s) (disk s') I) as Hall by (by apply data_all; [apply Hf|]).
  destruct Hr as [[Hr Hf']|(-> & n' & Hf' & Em & Es & Eb & Hl')].
  - exists I. split; [done|by eapply views_all].
  - exists (upd I i n'). split; [done|]. intros x a Ea. destruct (Hv x a Ea) as (Hx & Hlx & Hsx). split; [done|].
    unfold upd. case_decide as Ex; [subst x|]; (split; [by auto|]); [by apply (shows_same (disk s) _ (I i)); try done; apply Hall|].
    apply (shows_same (disk s) _ (I x)); try done. by apply Hall.
Qed.

Lemma links_fs s A i : fs_is s A -> is_Some (A !! i) -> wp (ext2_inode_adjust_links junk i 1) (fun _ s' => fs_is s' A) s.
Proof. intros (I & Hf & Hv) [a Ha]. destruct (Hv i a Ha) as (Hi & Hl & _). by apply (links_view s I). Qed.

(** Adding an entry, by the abstract file system alone. *)
Lemma add_fs s A p nm rest child ft : fs_is s A -> is_Some (A !! p) -> Forall (fun c => c <> 0) nm -> 0 < child <= fg_inodes G ->
  wp (ext2_dir_add_entry junk p (Some (nm ++ 0 :: rest)) child ft) (fun r s' =>
    (r < 0 /\ fs_is s' A) \/
    (r = 0 /\ nm <> [] /\ exists l l', A !! p = Some (NDir l) /\ added l l' nm child /\ fs_is s' (<[p := NDir l']> A))) s.
Proof.
  intros (I & Hf & Hv) [a Ha] Hnz Hc. destruct (Hv p a Ha) as (Hp & Hl & _).
  eapply wp_mono; [apply (add_view s I A p nm rest child ft); try done; by exists a|].
  intros r s' [Hr|(-> & Hne & l & l' & J & El & Had & HJ & HvJ)]; [by left|right]. split; [done|]. split; [done|]. exists l, l'. split_and!; try done. by exists J.
Qed.

Lemma sim_unlink p nm : sim (Unlink p nm).
Proof.
  intros s A (I & Hf & Hv) [[a Ha] Hnz]. destruct (Hv p a Ha) as (Hp & Hl & Hs). cbn [exec]. unfold ext2_op_unlink.
  eapply wp_step; [apply (remove_names_ok junk G HG Lm s I p (names_of A p) nm []); try done; by apply known_names|].
  intros r s' Hr. apply wp_ret. destruct Hr as [(Hr & Hf' & Hall & Hno)|(Hr & Hdir & n' & Hf' & El & Hoth & Hnames)].
  - exists A. split; [|exists I; split; [done|by eapply views_all]]. left. split; [done|]. split; [done|]. intros E l Ea. apply (Hno E). unfold names_of. by rewrite Ea.
  - destruct a as [size f|l]; [exfalso; by apply (not_both (I p)); [apply Hs|]|]. destruct (Hnames l) as (l' & Hw & Hd); [unfold names_of; by rewrite Ha|].
    eexists. split; [right; split; [done|]; exists l, l'; done|]. exists (upd I p n'). split; [done|].
    apply (views_upd (disk s)); try done. unfold live in *. by rewrite El.
Qed.

Lemma added_perm l l' nm i : added l l' nm i -> l' ≡ₚ (nm, i) :: l.
Proof. intros (l1 & l2 & -> & -> & _). by rewrite Permutation_middle. Qed.

(** The two entries of a new directory, in front of the rest of the call. *)
Lemma dots_fs s A i p k (Q : Z * Z -> ext2 D M -> Prop) : fs_is s A -> A !! i = Some (NDir []) -> valid_ino G i -> valid_ino G p ->
  (forall r s' b, r < 0 -> fs_is s' (<[i := b]> A) -> Q (r, 0) s') ->
  (forall l s', l ≡ₚ [([46], i); ([46; 46], p)] -> fs_is s' (<[i := NDir l]> A) -> wp k Q s') ->
  wp (rc ← ext2_dir_add_entry junk i (Some DOT) i EXT2_FT_DIR;
      if negb (rc =? 0) then ret (rc, 0)
      else rc ← ext2_dir_add_entry junk i (Some DOTDOT) p EXT2_FT_DIR; if negb (rc =? 0) then ret (rc, 0) else k) Q s.
Proof.
  intros Hfs Ea Hi Hp Hbad Hgood. unfold valid_ino in Hi, Hp.
  assert (Forall (fun c => c <> 0) [46] /\ Forall (fun c => c <> 0) [46; 46]) as [Hn1 Hn2] by (split; repeat (apply Forall_cons; split; [done|]); apply Forall_nil; done).
  eapply wp_step; [apply (add_fs s A i [46] [] i EXT2_FT_DIR); try done; lia|].
  intros r s1 [[Hr Hf1]|(-> & _ & l & l1 & El & Had & Hf1)]; cbv beta.
  - rewrite (proj2 (Z.eqb_neq r 0)) by lia. cbn [negb]. apply wp_ret, (Hbad _ _ (NDir [])); [done|]. by rewrite insert_id.
  - cbn [Z.eqb negb]. rewrite Ea in El. injection El as <-. apply added_perm in Had.
    eapply wp_step; [apply (add_fs s1 (<[i := NDir l1]> A) i [46; 46] [] p EXT2_FT_DIR); try done; [rewrite lookup_insert_eq; by eexists|lia]|].
    intros r s2 [[Hr Hf2]|(-> & _ & l & l2 & El & Had2 & Hf2)]; cbv beta.
    + rewrite (proj2 (Z.eqb_neq r 0)) by lia. cbn [negb]. by apply wp_ret, (Hbad _ _ (NDir l1)).
    + cbn [Z.eqb negb]. rewrite lookup_insert_eq in El. injection El as <-. rewrite insert_insert_eq in Hf2. apply (Hgood l2); [|done].
      apply added_perm in Had2. rewrite Had2, Had. by apply perm_swap.
Qed.

Lemma sim_mkdir p nm mode : sim (Mkdir p nm mode).
Proof.
  intros s A (I & Hf & Hv) [[a Ha] Hnz]. destruct (Hv p a Ha) as (Hp & Hl & Hs). cbn [exec]. unfold ext2_op_mkdir. apply wp_bind.
  eapply wp_step; [apply (alloc_ok s I A mode EXT2_S_IFDIR); try done; by right|]. intros [rc i] s1 Hr. cbv beta iota. cbn [fst snd] in Hr.
  destruct (Z.eqb_spec rc 0) as [->|Hne]; cbn [negb].
  2: { destruct Hr as [[Hr Hfs]|(? & _)]; [|done]. apply wp_ret, wp_ret. exists A. split; [by left|done]. }
  destruct Hr as [[? _]|(_ & Hi & Hnone & t & Hk & Hf1 & Hv1)]; [done|]. set (n := fresh_inode _ t) in *.
  assert (p <> i) as Hpi by congruence. assert (forall b, A ⊆ <[i := b]> A) as Hsub by (intros b; by apply insert_subseteq).
  assert (fs_is s1 (<[i := NDir []]> A)) as Hfs1.
  { exists (upd I i n). split; [done|]. apply fresh_view; try done. by apply dir_fresh. }
  apply (dots_fs s1 _ i p _ _ Hfs1 (lookup_insert_eq _ _ _) Hi Hp).
  { intros r s' b Hr Hfs. rewrite insert_insert_eq in Hfs. apply wp_ret. exists A. split; [by left|eapply fs_weaken; [apply (Hsub b)|done]]. }
  intros l s2 Hperm Hfs2. rewrite insert_insert_eq in Hfs2. set (A1 := <[i := NDir l]> A) in *.
  assert (A1 !! p = Some a) as Hp1 by (unfold A1; by rewrite lookup_insert_ne).
  eapply wp_step; [apply (add_fs s2 A1 p nm [] i EXT2_FT_DIR); try done; unfold valid_ino in Hi; lia|].
  intros r s3 [[Hr Hfs]|(-> & Hnn & lp & lp' & El & Had & Hfs3)]; cbv beta.
  - rewrite (proj2 (Z.eqb_neq r 0)) by lia. cbn [negb]. apply wp_ret, wp_ret. exists A. split; [by left|eapply fs_weaken; [apply Hsub|done]].
  - cbn [Z.eqb negb]. set (A2 := <[p := NDir lp']> A1) in *.
    assert (is_Some (A2 !! i) /\ is_Some (A2 !! p)) as [Hsi Hsp].
    { unfold A2, A1. split; [rewrite lookup_insert_ne, lookup_insert_eq by done|rewrite lookup_insert_eq]; by eexists. }
    eapply wp_step; [by apply (links_fs _ A2)|]. intros ? s4 Hfs4. eapply wp_step; [by apply (links_fs _ A2)|]. intros ? s5 Hfs5. apply wp_ret, wp_ret.
    exists A2. split; [|done]. right. split; [done|]. split; [done|]. exists l. split; [done|]. exists lp, lp'.
    split; [congruence|]. split; [done|]. split; [done|]. unfold A2, A1. by rewrite insert_insert_ne.
Qed.

Lemma sim_call c : sim c.
Proof. destruct c; [apply sim_resolve|apply sim_read|apply sim_write|apply sim_create|apply sim_mkdir|apply sim_unlink]. Qed.

Lemma run_refines p s A : fs_is s A -> valid_prog p A ->
  exists t s' A', run_prog junk p s = Ok (t, s') /\ run_spec A t A' /\ fs_is s' A'.
Proof.
  revert s A. induction p as [|c k IH]; intros s A Hfs Hv; [exists [], s, A; split; [done|]; split; [constructor|done]|].
  destruct Hv as [Hall Hk]. destruct (proj1 (wp_elim _ _ _) (sim_call c s A Hfs Hall)) as (r & s1 & E1 & A1 & Hsp & Hfs1).
  destruct (IH r s1 A1 Hfs1 (Hk r A1 Hsp)) as (t & s2 & A2 & E2 & Hrs & Hfs2). exists ((c, r) :: t), s2, A2.
  split; [cbn [run_prog]; by rewrite (bind_ok _ _ _ _ _ E1), (bind_ok _ _ _ _ _ E2)|]. split; [by econstructor|done].
Qed.

(** C3: The operations of ext2 implement the abstract file system.  On a
    mounted and consistent file system that shows [A], on a device that does
    not fail, every program of lookups, reads, writes, creations of files and
    directories and unlinks, each on inodes that are known and with arguments
    that may depend on earlier results, runs to its end without a fault; the
    results and the file system at the end are ones that the abstract file
    system allows, and the disk is consistent again: no block belongs to two
    inodes, every block in use is marked, every directory is well formed. *)
Theorem ext2_refines p s A : fs_is s A -> valid_prog p A ->
  exists t s' A', run_prog junk p s = Ok (t, s') /\ run_spec A t A' /\ fs_is s' A'.
Proof. apply run_refines. Qed.

(** ** Reading back *)

Lemma seq_overwrite f buf off : overwrite f buf off <$> seqZ off (Z.of_nat (length buf)) = buf.
Proof.
  apply list_eq. intros j. rewrite list_lookup_fmap. destruct (decide (j < length buf)%nat) as [Hj|Hj].
  - rewrite (proj2 (lookup_seqZ _ _ j _)) by (split; [reflexivity|lia]). simpl. unfold overwrite. rewrite decide_True by lia.
    replace (off + Z.of_nat j - off) with (Z.of_nat j) by lia. unfold nthZ. rewrite Nat2Z.id.
    destruct (lookup_lt_is_Some_2 buf j Hj) as [x Hx]. by rewrite Hx.
  - rewrite lookup_seqZ_ge by lia. symmetry. apply lookup_ge_None. lia.
Qed.

(** C8: What is written to a file of ext2 is read back.  A write at an offset
    of a regular file ends with an error, or with the number of bytes; then a
    read of as many bytes at that offset returns exactly the bytes written. *)
Theorem ext2_write_read s A i size f buf off : fs_is s A -> A !! i = Some (NFile size f) -> buf <> [] -> 0 <= off ->
  off + Z.of_nat (length buf) < 4294967296 ->
  wp (v ← ext2_op_write junk 0 i buf (Z.of_nat (length buf)) off; r ← ext2_op_read junk 0 i (Z.of_nat (length buf)) off; ret (v, r))
    (fun r _ => r.1 < 0 \/ (r.1 = Z.of_nat (length buf) /\ r.2 = (Z.of_nat (length buf), buf))) s.
Proof.
  intros Hfs Ha Hne Ho Hfit. assert (0 < Z.of_nat (length buf)) as Hpos by (destruct buf; [done|simpl; lia]).
  pose proof (sim_write i buf off s A Hfs) as Hw. cbn [exec allowed] in Hw. rewrite Ha in Hw.
  specialize (Hw ltac:(split; [by eexists|]; unfold is_u32; lia)). apply wp_elim in Hw as (r & s1 & E & A1 & Hsp & Hfs1).
  destruct (ext2_op_write junk 0 i buf (Z.of_nat (length buf)) off s) as [[v s1']|] eqn:Ew; [|unfold bind in E; by rewrite Ew in E].
  rewrite (bind_ok _ _ _ _ _ Ew) in E. injection E as <- <-. cbn [spec] in Hsp. rewrite Ha in Hsp. eapply wp_bind_ok; [exact Ew|].
  assert (is_Some (A1 !! i)) as Hs1 by (destruct Hsp as [[_ ->]|(_ & f' & -> & _)]; rewrite lookup_insert_eq; by eexists).
  pose proof (sim_read i (Z.of_nat (length buf)) off s1' A1 Hfs1 ltac:(split; [done|lia])) as Hr. cbn [exec] in Hr.
  destruct (ext2_op_read junk 0 i (Z.of_nat (length buf)) off s1') as [[[n bytes] s2]|] eqn:Er; [|unfold wp, bind in Hr; by rewrite Er in Hr].
  unfold wp in Hr. rewrite (bind_ok _ _ _ _ _ Er) in Hr. cbv beta iota in Hr. destruct Hr as (A2 & Hsp2 & _).
  eapply wp_bind_ok; [exact Er|]. apply wp_ret. cbn [spec] in Hsp2. destruct Hsp2 as [_ Hsp2].
  destruct Hsp as [[-> ->]|(Hv & _)]; [right|by left]. split; [done|]. simpl. rewrite lookup_insert_eq, decide_False in Hsp2 by done.
  rewrite (proj2 (Z.leb_gt _ off)) in Hsp2 by lia. rewrite Z.min_l in Hsp2 by lia. destruct Hsp2 as [-> ->]. by rewrite seq_overwrite.
Qed.

(** ** Truncation *)

(** The bytes of a file cut to [size]: whole blocks go, the rest of the last
    block stays. *)
Definition cut_data (size : Z) (f : Z -> Z) (p : Z) : Z :=
  if decide ((size + fg_bs G - 1) / fg_bs G <= p / fg_bs G < 12) then 0 else f p.


End Spec.
