(* ===== verification/Ext2Example.v ===== *)
(** * A file system to run ext2 on

    An image of 64 blocks of 4096 bytes with 16 inodes and an empty root
    directory, the journal behind it, on the model of a disk with a write cache
    and with an arena for memory.  The driver mounts it, the mounted state
    shows the abstract file system with the root alone, and the theorems on
    programs of calls apply to it. *)

From stdpp Require Import base tactics numbers list gmap.
From S2P Require Import Prelude Kstring Alloc Timer FsOps Block Journal JournalReplay JournalProofs JournalSpec Ext2Disk Ext2 Ext2Io Ext2Inv Ext2Table Ext2Alloc Ext2Data Ext2Write Ext2Dents Ext2DirOps Ext2Names Ext2Spec.

(** ** The image *)

Definition ex_sb : ext2_superblock :=
  Ext2Superblock 16 64 0 58 5 0 2 0 64 64 16 0 0 0 0 EXT2_MAGIC 1 0 0 0 0 0 1 0 0 11 128 0 0 0 0 (replicate 16 0) (replicate 16 0) (replicate 840 0).
Definition ex_gd : ext2_group_desc := GroupDesc 2 3 4 58 5 1 0 (replicate 12 0).
Definition padded (n : nat) (b : list Z) : list Z := b ++ replicate (n - length b) 0.
Definition ex_root : ext2_inode :=
  Inode (EXT2_S_IFDIR + 493) 0 4096 0 0 0 0 0 2 8 0 0 (5 :: replicate 14 0) 0 0 0 0 (replicate 12 0).
Definition ex_zero : ext2_inode := Inode 0 0 0 0 0 0 0 0 0 0 0 0 (replicate 15 0) 0 0 0 0 (replicate 12 0).
Definition ex_dents : list dent := [Dent 2 2 [46] [0; 0; 0]; Dent 2 2 [46; 46] (replicate 4074 0)].
Definition ex_blocks : list (Z * list Z) :=
  [(0, replicate 1024 0 ++ padded 3072 (ext2_sb_bytes ex_sb)); (1, padded 4096 (gd_bytes ex_gd)); (2, padded 4096 [63]);
   (3, padded 4096 [255; 7]); (4, padded 4096 (replicate 128 0 ++ inode_bytes ex_root)); (5, dents_bytes ex_dents)].
Definition ex_sectors : gmap Z (list Z) :=
  list_to_map (flat_map (fun '(b, c) => (fun i => (b * 8 + i, sector_of c i)) <$> seqZ 0 8) ex_blocks).
Definition ex_disk : cached := Cached (ex_sectors ∪ {[ sb_sec 100 := sector_of (sb_bytes example_sb) 0 ]}) [] [].
Definition ex_journal : journal cached arena := JournalState true 100 8 8 example_sb 1 txn_zero ex_disk arena_init ∅.

Definition ex_geo : geo := Geo 4096 128 64 16 1 0 16 (fun _ => 2) (fun _ => 3) (fun _ => 4) 100.

Definition ex_fs : ext2 cached arena :=
  match ext2_mount true (ext2_bss ex_journal) with Ok (_, s) => s | Err _ => ext2_bss ex_journal end.

Lemma ex_mounts : ext2_mount true (ext2_bss ex_journal) = Ok (0, ex_fs).
Proof. vm_compute. reflexivity. Qed.

(** ** It is mounted *)

Lemma ex_geo_ok : geo_ok ex_geo.
Proof.
  split; try (simpl; unfold geometry; change JOURNAL_DEFAULT_BLOCKS with 32; simpl; lia).
  - done.
  - unfold geometry. by split_and!.
  - intros b. unfold gdblk, jblk. change (fg_gdt ex_geo) with 1. change (fg_gdt_blocks ex_geo) with 1. change (fg_spb ex_geo) with 8. simpl. lia.
  - intros m Hm. split; [destruct m; simpl in *; unfold is_u32; change (table_blocks ex_geo) with 1 in *; lia|].
    unfold reserved, jblk, sbblk, gdblk. change (fg_gdt ex_geo) with 1. change (fg_gdt_blocks ex_geo) with 1. change (fg_spb ex_geo) with 8.
    destruct m; simpl in *; change (table_blocks ex_geo) with 1 in *; lia.
  - intros [] []; simpl; change (table_blocks ex_geo) with 1; intros; try (f_equal; lia); lia.
Qed.

Lemma ex_journal_eq : e_journal ex_fs = ex_journal.
Proof. vm_compute. reflexivity. Qed.

Lemma lengths_checked l : forallb (fun d => Nat.eqb (length (bg_reserved d)) 12) l = true -> Forall (fun d => length (bg_reserved d) = 12%nat) l.
Proof. induction l as [|d l IH]; simpl; [done|]. intros [E%Nat.eqb_eq Hl]%andb_true_iff. constructor; [done|by apply IH]. Qed.

Lemma ex_mounted : mounted ex_geo ∅ ex_fs.
Proof.
  split; [..|rewrite ex_journal_eq|rewrite ex_journal_eq].
  1, 3-11, 14: vm_compute; reflexivity.
  - vm_compute. discriminate.
  - split; [vm_compute; reflexivity|]. apply lengths_checked. vm_compute. reflexivity.
  - intros g d Hg Hd. assert (g = 0) as -> by (simpl in Hg; lia). vm_compute in Hd. injection Hd as <-. by split_and!.
  - split; [repeat split; reflexivity|apply example_sb_ok|reflexivity|reflexivity|reflexivity|apply arena_init_rep].
  - exact (Forall_nil_2 _).
Qed.

(** ** It is consistent *)

Definition ex_inodes (ino : Z) : ext2_inode := if ino =? 2 then ex_root else ex_zero.

Lemma ex_stored : stored ex_geo (disk ex_geo ex_fs) ex_inodes.
Proof.
  assert (Forall (fun ino => inode_at ex_geo (disk ex_geo ex_fs) ino = ex_inodes ino) (seqZ 1 16)) as Hall.
  { change (seqZ 1 16) with [1;2;3;4;5;6;7;8;9;10;11;12;13;14;15;16]. repeat (apply Forall_cons; split; [vm_compute; reflexivity|]). apply Forall_nil_2. }
  intros ino Hi. rewrite Forall_forall in Hall. apply Hall. apply elem_of_seqZ. unfold valid_ino in Hi. simpl in Hi. lia.
Qed.

(** The root has one block, the other inodes have none. *)
Lemma ex_pointers ino j : nthZ (i_block (ex_inodes ino)) j = if (ino =? 2) && (Z.to_nat j =? 0)%nat then 5 else 0.
Proof.
  assert (forall m i, default 0 (replicate m 0 !! i) = 0) as Hz.
  { intros m i. destruct (_ !! _) as [x|] eqn:E; [|done]. by apply lookup_replicate in E as [-> _]. }
  unfold ex_inodes, nthZ. destruct (ino =? 2); [|apply (Hz 15%nat)]. destruct (Z.to_nat j) as [|k]; [done|]. apply (Hz 14%nat).
Qed.

Lemma ex_slot V ino k : slot_valid ex_geo k -> slot_blk V (ex_inodes ino) k <> 0 -> ino = 2 /\ k = Direct 0 /\ slot_blk V (ex_inodes ino) k = 5.
Proof.
  destruct k as [j| | | | |]; simpl; rewrite ?ex_pointers; rewrite ?andb_false_r; try done. intros Hj.
  destruct (Z.eqb_spec ino 2) as [->|]; simpl; [|done]. destruct (Nat.eqb_spec (Z.to_nat j) 0); [|done].
  assert (j = 0) as -> by lia. done.
Qed.

Lemma ex_free b : in_area ex_geo b -> b < 6 -> used ex_geo (disk ex_geo ex_fs) b = true.
Proof.
  intros Hb Hlt. assert (Forall (fun b => used ex_geo (disk ex_geo ex_fs) b = true) (seqZ 0 6)) as Hall.
  { change (seqZ 0 6) with [0;1;2;3;4;5]. repeat (apply Forall_cons; split; [vm_compute; reflexivity|]). apply Forall_nil_2. }
  rewrite Forall_forall in Hall. apply Hall. apply elem_of_seqZ. unfold in_area in Hb. simpl in Hb. lia.
Qed.

Lemma ex_data b : 5 <= b < 64 -> data_block ex_geo b.
Proof.
  intros Hb. split; [lia|unfold in_area; simpl; lia| |].
  - unfold reserved, jblk, sbblk, gdblk. change (fg_gdt ex_geo) with 1. change (fg_gdt_blocks ex_geo) with 1. change (fg_spb ex_geo) with 8. simpl. lia.
  - intros m Hm. destruct m; simpl in *; change (table_blocks ex_geo) with 1 in *; lia.
Qed.

Lemma ex_root_block : disk ex_geo ex_fs 5 = dents_bytes ex_dents.
Proof. vm_compute. reflexivity. Qed.

Lemma ex_dents_ok : Forall (dent_ok ex_geo) ex_dents.
Proof. repeat (apply Forall_cons; split; [split; vm_compute; try split; discriminate || reflexivity|]). apply Forall_nil_2. Qed.

Lemma ex_layout : layout ex_geo (disk ex_geo ex_fs) ex_inodes.
Proof.
  split.
  - intros ino _. unfold ex_inodes. destruct (ino =? 2); split; try done; (split; [done|]); repeat (apply Forall_cons; split; [done|]); apply Forall_nil_2.
  - intros ino _. unfold ex_inodes. destruct (ino =? 2); done.
  - intros ino k Hi Hk Hne. destruct (ex_slot _ ino k Hk Hne) as (_ & _ & ->). split; [apply ex_data; lia|]. apply ex_free; [|lia].
    unfold in_area. simpl. lia.
  - intros ino k ino' k' Hi Hi' Hk Hk' E Hne. destruct (ex_slot _ ino k Hk Hne) as (-> & -> & _).
    rewrite E in Hne. destruct (ex_slot _ ino' k' Hk' Hne) as (-> & -> & _). done.
  - intros ino l Hi Hd Hl Hne. destruct (phys_inv ex_geo _ _ _ Hne) as (k & Ek & E). rewrite E in *.
    destruct (ex_slot _ ino k (slot_of_valid ex_geo ex_geo_ok _ _ Hl Ek) Hne) as (_ & _ & ->). rewrite ex_root_block. exists ex_dents. split; [done|apply ex_dents_ok].
  - intros b Hb Hu. destruct (Z.ltb_spec b 6); [by rewrite ex_free in Hu|]. apply ex_data. unfold in_area in Hb. simpl in Hb. lia.
  - intros ino Hi Hl. unfold live, ex_inodes in Hl. destruct (Z.eqb_spec ino 2) as [->|]; [vm_compute; reflexivity|done].
Qed.

Lemma ex_holds : holds_fs ex_geo ∅ ex_fs ex_inodes.
Proof. split; [apply ex_mounted|apply ex_stored|apply ex_layout]. Qed.

(** The abstract file system that it shows. *)
Definition ex_names : list (list Z * Z) := [([46], 2); ([46; 46], 2)].
Definition ex_tree : gmap Z node := {[ 2 := NDir ex_names ]}.

Lemma ex_shows : fs_is ex_geo ∅ ex_fs ex_tree.
Proof.
  exists ex_inodes. split; [apply ex_holds|]. unfold ex_tree. intros i a [<- <-]%lookup_singleton_Some. split; [done|]. split; [done|].
  split; [done|]. exists [ex_dents]. split; [|done]. split; [split|done|].
  - simpl. lia.
  - intros j es Hj. apply list_lookup_singleton_Some in Hj as [-> <-]. split; [done|]. split; [apply ex_root_block|apply ex_dents_ok].
  - right. done.
  - intros j Hj. simpl in Hj. rewrite ex_pointers. simpl. by destruct (Nat.eqb_spec (Z.to_nat j) 0); [lia|].
Qed.

(** ** Runs *)

(** A file is made, written if that went well, and read. *)
Definition ex_prog : prog :=
  Do (Create 2 [97] 420) (fun r =>
    match r with
    | RMade 0 i => Do (Write i [1; 2; 3] 4094) (fun _ => Do (Read i 10 4090) (fun _ => Do (Unlink 2 [97]) (fun _ => Done)))
    | _ => Done
    end).

Lemma ex_prog_valid : valid_prog ex_prog ex_tree.
Proof.
  assert (forall nm, nm = [97] -> Forall (fun c => c <> 0) nm) as Hnm by (intros ? ->; apply Forall_cons; split; [done|apply Forall_nil_2]).
  split; [split; [by eexists|by apply Hnm]|]. intros r A1 Hsp. destruct r as [| |]; try done. destruct r; try done. cbn [valid_prog].
  destruct Hsp as [[? _]|(_ & _ & l & l' & Hp & Hn & _ & ->)]; [done|]. assert (inode <> 2) as Hne by (intros ->; by rewrite Hp in Hn).
  split. { split; [rewrite lookup_insert_eq; by eexists|]. done. }
  intros r A2 Hsp. destruct r as [v| |]; try done. cbn [spec] in Hsp. rewrite lookup_insert_eq in Hsp.
  assert (exists a, A2 = <[inode := a]> (<[2 := NDir l']> ex_tree)) as [a ->].
  { destruct Hsp as [[_ ->]|(_ & f' & -> & _)]; rewrite insert_insert_eq; by eexists. }
  split. { split; [rewrite lookup_insert_eq; by eexists|]. done. }
  intros r A3 Hsp3. destruct r as [| |]; try done. destruct Hsp3 as [-> _]. split; [|done]. split; [|by apply Hnm].
  rewrite lookup_insert_ne, lookup_insert_eq by done. by eexists.
Qed.

Lemma ext2_refines_witness : exists t s' A',
  run_prog [] ex_prog ex_fs = Ok (t, s') /\ run_spec ex_tree t A' /\ fs_is ex_geo ∅ s' A' /\
  t = [(Create 2 [97] 420, RMade 0 12); (Write 12 [1; 2; 3] 4094, RNum 3); (Read 12 10 4090, RData 7 [0; 0; 0; 0; 1; 2; 3]);
       (Unlink 2 [97], RNum 0)].
Proof.
  destruct (ext2_refines [] ex_geo ex_geo_ok ∅ ex_prog ex_fs ex_tree ex_shows ex_prog_valid) as (t & s' & A' & E & Hrs & Hfs).
  exists t, s', A'. split; [exact E|]. split; [exact Hrs|]. split; [exact Hfs|].
  assert (match run_prog [] ex_prog ex_fs with Ok (t, _) => Some t | Err _ => None end =
    Some [(Create 2 [97] 420, RMade 0 12); (Write 12 [1; 2; 3] 4094, RNum 3); (Read 12 10 4090, RData 7 [0; 0; 0; 0; 1; 2; 3]);
          (Unlink 2 [97], RNum 0)]) as Et by (vm_compute; reflexivity).
  rewrite E in Et. injection Et as Et. exact Et.
Defined.

(** A state with a file in it. *)
Lemma ex_file : exists s A, fs_is ex_geo ∅ s A /\ A !! 12 = Some (NFile 0 (fun _ => 0)).
Proof.
  pose proof (sim_create [] ex_geo ex_geo_ok ∅ 2 [97] 420 ex_fs ex_tree ex_shows) as Hs.
  destruct (proj1 (wp_elim _ _ _) (Hs ltac:(split; [by eexists|apply Forall_cons; split; [done|apply Forall_nil_2]]))) as (r & s & E & A & Hsp & Hfs).
  assert (match exec [] (Create 2 [97] 420) ex_fs with Ok (r, _) => Some r | Err _ => None end = Some (RMade 0 12)) as Et by (vm_compute; reflexivity).
  rewrite E in Et. injection Et as ->. destruct Hsp as [[? _]|(_ & _ & l & l' & _ & _ & _ & ->)]; [done|].
  exists s, (<[12 := NFile 0 (fun _ => 0)]> (<[2 := NDir l']> ex_tree)). split; [exact Hfs|]. apply lookup_insert_eq.
Qed.

Lemma ext2_write_read_witness : exists s A, fs_is ex_geo ∅ s A /\
  wp (v ← ext2_op_write [] 0 12 [7; 8] 2 100; r ← ext2_op_read [] 0 12 2 100; ret (v, r))
    (fun r _ => r.1 < 0 \/ (r.1 = 2 /\ r.2 = (2, [7; 8]))) s.
Proof.
  destruct ex_file as (s & A & Hfs & Ha). exists s, A. split; [exact Hfs|].
  apply (ext2_write_read [] ex_geo ex_geo_ok ∅ s A 12 0 (fun _ => 0) [7; 8] 100 Hfs Ha); [discriminate|lia|simpl; lia].
Defined.

