(* ===== verification/Proc.v ===== *)
(** * Processes

    The state shared by core/process.c, sched.c, waitq.c, signal.c, fork.c and
    syscalls/sys_proc.c: the process objects, the table and the hash of
    processes, the per-CPU blocks, and the operations of process.c that create
    and find processes.  A pointer is the address of its object and 0 is NULL.
    The hash table of processes stands for the finite map it implements
    (Hashtable).  Address spaces are used through the class [AddressSpaces].
    What the code does to the machine (interrupts to other CPUs, CR3, the TSS,
    the switch of stacks) is recorded in a log. *)

From stdpp Require Import base tactics numbers list gmap.
From S2P Require Import Prelude Kstring Fd Alloc.

Definition PROCESS_READY := 0.
Definition PROCESS_RUNNING := 1.
Definition PROCESS_BLOCKED := 2.
Definition PROCESS_TERMINATED := 3.
Definition PROCESS_ZOMBIE := 4.
Definition MAX_PROCESSES_CONST := 128.
Definition MAX_CPUS := 8.
Definition KERNEL_STACK_SIZE := 0x2000.
Definition NSIG_HANDLED := 32.
(** [sizeof(process_t)] on i686. *)
Definition PROCESS_SIZE := 1640.

Record process_context := Context {
  eax : Z; ebx : Z; ecx : Z; edx : Z; esi : Z; edi : Z; ebp : Z; esp : Z;
  eip : Z; eflags : Z; cs : Z; ds : Z; es : Z; fs : Z; gs : Z; ss : Z
}.

Definition context_zero : process_context := Context 0 0 0 0 0 0 0 0 0 0 0 0 0 0 0 0.

(** [process_t]; [p_children_wq] are the processes asleep on the queue, last
    one first.  [ht_node], the link of the hash table, is in [pid_ht] below. *)
Record process := Process {
  p_pid : Z; p_ppid : Z; p_pgid : Z; p_sid : Z;
  p_uid : Z; p_gid : Z; p_euid : Z; p_egid : Z; p_suid : Z; p_sgid : Z;
  p_state : Z; p_priority : Z; p_mlfq_queue : Z;
  p_name : list Z;
  p_context : process_context;
  p_memory : Z;
  p_kernel_stack : Z;
  p_user_stack_base : Z;
  p_canary_expected : Z;
  p_first_sched : Z;
  p_exit_code : Z;
  p_tty : Z;
  p_umask : Z;
  p_signal_mask : Z;
  p_signal_pending : Z;
  p_signal_handlers : list Z;
  p_next : Z;
  p_time_slice : Z;
  p_cwd : list Z;
  p_fd_table : list proc_fd;
  p_open_files_count : Z;
  p_alarm_ticks : Z;
  p_tls_base : Z; p_clear_child_tid : Z;
  p_elf_entry : Z; p_elf_phdr : Z; p_elf_phnum : Z; p_interp_base : Z;
  p_children_wq : list Z;
  p_owner_cpu : Z
}.

Definition eta_p (p : process) : process :=
  Process (p_pid p) (p_ppid p) (p_pgid p) (p_sid p) (p_uid p) (p_gid p) (p_euid p) (p_egid p) (p_suid p)
    (p_sgid p) (p_state p) (p_priority p) (p_mlfq_queue p) (p_name p) (p_context p) (p_memory p)
    (p_kernel_stack p) (p_user_stack_base p) (p_canary_expected p) (p_first_sched p) (p_exit_code p) (p_tty p) (p_umask p)
    (p_signal_mask p) (p_signal_pending p) (p_signal_handlers p) (p_next p) (p_time_slice p) (p_cwd p)
    (p_fd_table p) (p_open_files_count p) (p_alarm_ticks p) (p_tls_base p) (p_clear_child_tid p) (p_elf_entry p)
    (p_elf_phdr p) (p_elf_phnum p) (p_interp_base p) (p_children_wq p) (p_owner_cpu p).

Definition set_pid : Z -> process -> process := ltac:(mkset eta_p p_pid).
Definition set_ppid : Z -> process -> process := ltac:(mkset eta_p p_ppid).
Definition set_pgid : Z -> process -> process := ltac:(mkset eta_p p_pgid).
Definition set_sid : Z -> process -> process := ltac:(mkset eta_p p_sid).
Definition set_uid : Z -> process -> process := ltac:(mkset eta_p p_uid).
Definition set_gid : Z -> process -> process := ltac:(mkset eta_p p_gid).
Definition set_euid : Z -> process -> process := ltac:(mkset eta_p p_euid).
Definition set_egid : Z -> process -> process := ltac:(mkset eta_p p_egid).
Definition set_suid : Z -> process -> process := ltac:(mkset eta_p p_suid).
Definition set_sgid : Z -> process -> process := ltac:(mkset eta_p p_sgid).
Definition set_state : Z -> process -> process := ltac:(mkset eta_p p_state).
Definition set_priority : Z -> process -> process := ltac:(mkset eta_p p_priority).
Definition set_mlfq_queue : Z -> process -> process := ltac:(mkset eta_p p_mlfq_queue).
Definition set_name : list Z -> process -> process := ltac:(mkset eta_p p_name).
Definition set_context : process_context -> process -> process := ltac:(mkset eta_p p_context).
Definition set_memory : Z -> process -> process := ltac:(mkset eta_p p_memory).
Definition set_kernel_stack : Z -> process -> process := ltac:(mkset eta_p p_kernel_stack).
Definition set_canary : Z -> process -> process := ltac:(mkset eta_p p_canary_expected).
Definition set_first_sched : Z -> process -> process := ltac:(mkset eta_p p_first_sched).
Definition set_exit_code : Z -> process -> process := ltac:(mkset eta_p p_exit_code).
Definition set_tty : Z -> process -> process := ltac:(mkset eta_p p_tty).
Definition set_umask : Z -> process -> process := ltac:(mkset eta_p p_umask).
Definition set_signal_mask : Z -> process -> process := ltac:(mkset eta_p p_signal_mask).
Definition set_signal_pending : Z -> process -> process := ltac:(mkset eta_p p_signal_pending).
Definition set_signal_handlers : list Z -> process -> process := ltac:(mkset eta_p p_signal_handlers).
Definition set_next : Z -> process -> process := ltac:(mkset eta_p p_next).
Definition set_time_slice : Z -> process -> process := ltac:(mkset eta_p p_time_slice).
Definition set_cwd : list Z -> process -> process := ltac:(mkset eta_p p_cwd).
Definition set_fd_table : list proc_fd -> process -> process := ltac:(mkset eta_p p_fd_table).
Definition set_alarm_ticks : Z -> process -> process := ltac:(mkset eta_p p_alarm_ticks).
Definition set_children_wq : list Z -> process -> process := ltac:(mkset eta_p p_children_wq).
Definition set_owner_cpu : Z -> process -> process := ltac:(mkset eta_p p_owner_cpu).

(** [kmemset(proc, 0, sizeof(process_t))]. *)
Definition process_zero : process :=
  Process 0 0 0 0 0 0 0 0 0 0 0 0 0 (replicate 16 0) context_zero 0 0 0 0 0 0 0 0 0 0 (replicate 32 0) 0 0
    (replicate 256 0) (replicate (Z.to_nat MAX_OPEN_FILES) (ProcFd 0 0 0 0)) 0 0 0 0 0 0 0 0 [] 0.

(** The per-CPU block of percpu.h: the fields of the scheduler. *)
Record cpu := Cpu {
  c_id : Z;
  c_current : Z;
  c_run_queues : list Z;
  c_sched_ticks : Z;
  c_schedule_calls : Z;
  c_last_steal_tick : Z;
  c_quantum_left : Z;
  c_current_queue : Z;
  c_idle_proc : Z;
  c_rcu_qs_count : Z;
  c_syscall_regs : Z
}.

Definition eta_c (c : cpu) : cpu :=
  Cpu (c_id c) (c_current c) (c_run_queues c) (c_sched_ticks c) (c_schedule_calls c) (c_last_steal_tick c)
    (c_quantum_left c) (c_current_queue c) (c_idle_proc c) (c_rcu_qs_count c) (c_syscall_regs c).

Definition set_current : Z -> cpu -> cpu := ltac:(mkset eta_c c_current).
Definition set_run_queues : list Z -> cpu -> cpu := ltac:(mkset eta_c c_run_queues).
Definition set_sched_ticks : Z -> cpu -> cpu := ltac:(mkset eta_c c_sched_ticks).
Definition set_schedule_calls : Z -> cpu -> cpu := ltac:(mkset eta_c c_schedule_calls).
Definition set_last_steal : Z -> cpu -> cpu := ltac:(mkset eta_c c_last_steal_tick).
Definition set_quantum : Z -> cpu -> cpu := ltac:(mkset eta_c c_quantum_left).
Definition set_current_queue : Z -> cpu -> cpu := ltac:(mkset eta_c c_current_queue).
Definition set_idle : Z -> cpu -> cpu := ltac:(mkset eta_c c_idle_proc).
Definition set_rcu : Z -> cpu -> cpu := ltac:(mkset eta_c c_rcu_qs_count).

Inductive kevent :=
| Ipi (target : Z)
| LoadCr3 (dir : Z)
| SetTss (sp : Z)
| Switch (save load : Z).

(** What processes need of address spaces (mm/process_mm.c): [as_dir] is the
    field [page_directory] of an address space. *)
Class AddressSpaces (A : Type) := {
  as_dir : A -> Z -> Z;
  as_create : ST A Z;
  as_clone : Z -> ST A Z;
  as_destroy : Z -> ST A unit
}.

Section Kern.
Context {M A : Type}.

(** The kernel's state.  [kwaiting] are the processes whose entry of a wait
    queue, a variable of [wait_event] on their stack, has its field [proc] set;
    [kstacks] are the bytes of the kernel stacks. *)
Record kern := Kern {
  procs : gmap Z process;
  table : list Z;
  pid_ht : gmap Z Z;
  next_pid : Z;
  cpus : list cpu;
  cpu_count : Z;
  rr_counter : Z;
  scheduler_enabled : Z;
  console_pgrp : Z;
  kmem : M;
  kspaces : A;
  kstacks : gmap Z (list Z);
  kwaiting : gset Z;
  klog : list kevent
}.

Definition eta_k (k : kern) : kern :=
  Kern (procs k) (table k) (pid_ht k) (next_pid k) (cpus k) (cpu_count k) (rr_counter k)
    (scheduler_enabled k) (console_pgrp k) (kmem k) (kspaces k) (kstacks k) (kwaiting k) (klog k).

Definition set_procs : gmap Z process -> kern -> kern := ltac:(mkset eta_k procs).
Definition set_ptable : list Z -> kern -> kern := ltac:(mkset eta_k table).
Definition set_ht : gmap Z Z -> kern -> kern := ltac:(mkset eta_k pid_ht).
Definition set_next_pid : Z -> kern -> kern := ltac:(mkset eta_k next_pid).
Definition set_cpus : list cpu -> kern -> kern := ltac:(mkset eta_k cpus).
Definition set_rr : Z -> kern -> kern := ltac:(mkset eta_k rr_counter).
Definition set_enabled : Z -> kern -> kern := ltac:(mkset eta_k scheduler_enabled).
Definition set_console : Z -> kern -> kern := ltac:(mkset eta_k console_pgrp).
Definition set_kmem : M -> kern -> kern := ltac:(mkset eta_k kmem).
Definition set_kspaces : A -> kern -> kern := ltac:(mkset eta_k kspaces).
Definition set_kstacks : gmap Z (list Z) -> kern -> kern := ltac:(mkset eta_k kstacks).
Definition set_waiting : gset Z -> kern -> kern := ltac:(mkset eta_k kwaiting).
Definition set_klog : list kevent -> kern -> kern := ltac:(mkset eta_k klog).

(** [p->...]: the object at an address. *)
Definition getp (p : Z) : ST kern process :=
  k ← gets id;
  match procs k !! p with Some x => ret x | None => fail Undef end.

Definition updp (p : Z) (f : process -> process) : ST kern unit :=
  x ← getp p;
  modify (fun k => set_procs (<[p := f x]> (procs k)) k).

Definition getc (c : Z) : ST kern cpu := k ← gets id; rd (cpus k) c.

Definition updc (c : Z) (f : cpu -> cpu) : ST kern unit :=
  k ← gets id;
  x ← rd (cpus k) c;
  l ← wr (cpus k) c (f x);
  modify (set_cpus l).

Definition log (e : kevent) : ST kern unit := modify (fun k => set_klog (klog k ++ [e]) k).

(** The address of the static object [kernel_proc], which is no address of the
    heap. *)
Definition KERNEL_PROC := -1.

Definition current_process (me : Z) : ST kern Z := c ← getc me; ret (c_current c).

Definition get_current_process (me : Z) : ST kern Z :=
  p ← current_process me; ret (if p =? 0 then KERNEL_PROC else p).

Definition process_switch (me next : Z) : ST kern unit :=
  if next =? 0 then ret tt else updc me (set_current next).

(** ** Finding processes *)

Definition ht_lookup (pid : Z) : ST kern Z := gets (fun k => default 0 (pid_ht k !! u32 pid)).

Definition ht_insert (pid p : Z) : ST kern unit :=
  modify (fun k => if decide (pid_ht k !! u32 pid = None) then set_ht (<[u32 pid := p]> (pid_ht k)) k else k).

Definition process_find_by_pid (pid : Z) : ST kern Z :=
  p ← ht_lookup pid;
  if p =? 0 then ret 0
  else
    x ← getp p;
    ret (if p_state x =? PROCESS_TERMINATED then 0 else p).

Definition process_get_by_index (idx : Z) : ST kern Z :=
  if MAX_PROCESSES_CONST <=? idx then ret 0
  else
    k ← gets id;
    p ← rd (table k) idx;
    if p =? 0 then ret 0
    else
      x ← getp p;
      ret (if p_state x =? PROCESS_TERMINATED then 0 else p).

(** The test on a candidate. *)
Definition is_child (ppid : Z) (zombie_only : bool) (q : Z) : ST kern bool :=
  if q =? 0 then ret false
  else
    x ← getp q;
    ret ((p_ppid x =? s32 ppid) && negb (p_state x =? PROCESS_TERMINATED) &&
         (negb zombie_only || (p_state x =? PROCESS_ZOMBIE))).

Definition process_find_child (ppid pid : Z) (zombie_only : bool) : ST kern Z :=
  if 0 <? pid then
    q ← ht_lookup pid;
    b ← is_child ppid zombie_only q;
    ret (if (b : bool) then q else 0)
  else
    r ← for_until (Z.to_nat (MAX_PROCESSES_CONST - 1)) 1 (fun i =>
          k ← gets id;
          q ← rd (table k) i;
          b ← is_child ppid zombie_only q;
          ret (if (b : bool) then Some q else None));
    ret (default 0 r).

(** ** Creating processes *)

Context `{Kmalloc M} `{AddressSpaces A}.

Definition kmalloc_k (n : Z) : ST kern Z := zoom kmem set_kmem (kmalloc n).
Definition kfree_k (p : Z) : ST kern unit := zoom kmem set_kmem (kfree p).
Definition on_spaces {B} (m : ST A B) : ST kern B := zoom kspaces set_kspaces m.

(** [kmalloc] of a process, cleared, and of a kernel stack, whose contents are
    what the memory held ([junk]). *)
Definition new_process : ST kern Z :=
  p ← kmalloc_k PROCESS_SIZE;
  if p =? 0 then ret 0
  else modify (fun k => set_procs (<[p := process_zero]> (procs k)) k);; ret p.

Definition free_process (p : Z) : ST kern unit :=
  kfree_k p;; modify (fun k => set_procs (delete p (procs k)) k).

Definition new_stack (junk : list Z) : ST kern Z :=
  p ← kmalloc_k KERNEL_STACK_SIZE;
  if p =? 0 then ret 0
  else modify (fun k => set_kstacks (<[p := junk]> (kstacks k)) k);; ret p.

Definition free_stack (p : Z) : ST kern unit :=
  kfree_k p;; modify (fun k => set_kstacks (delete p (kstacks k)) k).

Definition allocate_next_pid : ST kern Z :=
  n ← gets next_pid;
  modify (set_next_pid (u32 (n + 1)));;
  ret (s32 n).

Definition put_slot (i p : Z) : ST kern unit :=
  k ← gets id; l ← wr (table k) i p; modify (set_ptable l).

(** The scan for a free slot of the table. *)
Definition find_slot : ST kern Z :=
  r ← for_until (Z.to_nat (MAX_PROCESSES_CONST - 1)) 1 (fun i =>
        k ← gets id;
        q ← rd (table k) i;
        ret (if q =? 0 then Some i else None));
  ret (default (-1) r).

Definition process_init_signals (p : Z) : ST kern unit :=
  if p =? 0 then ret tt
  else updp p (fun x => set_signal_handlers (replicate 32 0) (set_signal_pending 0 (set_signal_mask 0 x))).

Definition process_init_priority (p : Z) : ST kern unit :=
  if p =? 0 then ret tt else updp p (fun x => set_time_slice 100 (set_priority 20 x)).

Definition strncpy_field (dst src : list Z) (n : Z) : ST kern (list Z) :=
  r ← kstrncpy (Some dst) (Some src) n;
  ret (default dst r).

(** Identity, name and kernel stack of a new process; the stack, or NULL. *)
Definition fill_start (proc entry_point parent_pid : Z) (junk name : list Z) : ST kern Z :=
  updp proc (fun x => set_gid 0 (set_uid 0 (set_state PROCESS_READY (set_ppid parent_pid x))));;
  x ← getp proc;
  nm ← strncpy_field (p_name x) name 16;
  let c := p_context x in
  updp proc (fun x => set_context (Context (eax c) (ebx c) (ecx c) (edx c) (esi c) (edi c) (ebp c) (esp c)
                        entry_point 0x202 (cs c) (ds c) (es c) (fs c) (gs c) (ss c)) (set_name nm x));;
  stack ← new_stack junk;
  updp proc (set_kernel_stack stack);;
  ret stack.

(** The rest of its fields; [inherit] is what was read of the parent: its sid,
    tty, umask and cwd. *)
Definition fill_rest (proc entry_point stack : Z) (inherit : Z * Z * Z * option (list Z)) : ST kern unit :=
  let '(parent_sid, parent_tty, parent_umask, parent_cwd) := inherit in
  updp proc (fun x => let c := p_context x in
    set_context (Context (eax c) (ebx c) (ecx c) (edx c) (esi c) (edi c) (ebp c)
                   (u32 (stack + KERNEL_STACK_SIZE)) (eip c) (eflags c) (cs c) (ds c) (es c) (fs c) (gs c) (ss c)) x);;
  mem ← (if negb (entry_point =? 0) then on_spaces as_create else ret 0);
  updp proc (set_memory mem);;
  process_init_signals proc;;
  process_init_priority proc;;
  updp proc (fun x => set_umask parent_umask (set_tty parent_tty (set_sid parent_sid (set_pgid (p_pid x) x))));;
  x ← getp proc;
  cwd ← match parent_cwd with
        | Some d => strncpy_field (p_cwd x) d 256
        | None => ret (<[1%nat := 0]> (<[0%nat := 47]> (p_cwd x)))
        end;
  updp proc (fun x => set_children_wq [] (set_cwd cwd x)).

Definition process_create (me : Z) (name : option (list Z)) (entry_point : Z) (junk : list Z) : ST kern Z :=
  match name with
  | None => ret 0
  | Some name =>
      proc ← new_process;
      if proc =? 0 then ret 0
      else
        slot ← find_slot;
        if slot <? 0 then free_process proc;; ret 0
        else
          put_slot slot proc;;
          pid ← allocate_next_pid;
          updp proc (set_pid pid);;
          parent ← current_process me;
          '(parent_pid, inherit) ←
                    (if parent =? 0 then ret (0, (pid, -1, 18, None))
                     else
                       x ← getp parent;
                       cwd ← (if nthZ (p_cwd x) 0 =? 0 then ret None
                              else d ← strncpy_field (replicate 256 0) (p_cwd x) 256; ret (Some d));
                       ret (p_pid x, (p_sid x, p_tty x, p_umask x, cwd)));
          stack ← fill_start proc entry_point parent_pid junk name;
          if stack =? 0 then put_slot slot 0;; free_process proc;; ret 0
          else
            fill_rest proc entry_point stack inherit;;
            x ← getp proc;
            ht_insert (p_pid x) proc;;
            ret proc
  end.

(** The boot: [kernel_proc] is process 0 and runs on the boot CPU. *)
Definition process_init (me : Z) (junk : list Z) : ST kern unit :=
  modify (set_ht ∅);;
  stack ← new_stack junk;
  nm ← strncpy_field (replicate 16 0) [107; 101; 114; 110; 101; 108; 0] 16;
  let c := context_zero in
  let sp := if stack =? 0 then 0 else u32 (stack + KERNEL_STACK_SIZE) in
  modify (fun k => set_procs (<[KERNEL_PROC :=
    set_context (Context 0 0 0 0 0 0 0 sp 0 0x202 0 0 0 0 0 0)
      (set_kernel_stack stack (set_name nm (set_umask 18 (set_tty (-1)
        (set_priority 1 (set_state PROCESS_RUNNING process_zero))))))]> (procs k)) k);;
  put_slot 0 KERNEL_PROC;;
  ht_insert 0 KERNEL_PROC;;
  updc me (set_current KERNEL_PROC).

End Kern.
Arguments kern M A : clear implicits.
