(* ===== verification/Sched.v ===== *)
(** * The scheduler

    Models core/sched.c: four run queues per CPU, each a circular list linked
    through the field [next] of the processes, multi-level feedback, work
    stealing and the switch of processes.  [me] is the CPU the code runs on.
    The run-queue locks delimit critical sections; interrupts are disabled
    throughout, so an operation of one CPU is one step.  [asm_context_switch]
    continues in the new process; the model of [schedule] ends there. *)

From stdpp Require Import base tactics numbers list gmap.
From S2P Require Import Prelude Alloc Proc.

Definition NUM_QUEUES := 4.
Definition queue_quantum : list Z := [5; 10; 20; 40].
Definition STEAL_MIN_INTERVAL := 4.

Section Sched.
Context {M A : Type}.
Abbreviation kern := (kern M A).

Definition scheduler_enable : ST kern unit := modify (set_enabled 1).

Definition scheduler_register_idle (cpu_id idle : Z) : ST kern unit :=
  if idle =? 0 then fail Panic else updc cpu_id (set_idle idle).

(** [*rq_head(cpu, q)]. *)
Definition rq_head (c q : Z) : ST kern Z := x ← getc c; rd (c_run_queues x) q.

Definition set_head (c q p : Z) : ST kern unit :=
  x ← getc c;
  l ← wr (c_run_queues x) q p;
  updc c (set_run_queues l).

Definition p_next_of (p : Z) : ST kern Z := x ← getp p; ret (p_next x).

Definition add_to_queue (c proc queue : Z) : ST kern unit :=
  let queue := if queue <? 0 then 0 else queue in
  let queue := if NUM_QUEUES <=? queue then NUM_QUEUES - 1 else queue in
  updp proc (set_mlfq_queue queue);;
  head ← rq_head c queue;
  if head =? 0 then
    set_head c queue proc;; updp proc (set_next proc)
  else
    n ← p_next_of head;
    updp proc (set_next n);;
    updp head (set_next proc).

(** The loop [while (prev->next != proc)]: the predecessor of [proc], 0 when
    the walk comes back to the head. *)
Fixpoint find_prev (fuel : nat) (head proc prev : Z) : ST kern Z :=
  match fuel with
  | O => fail NoFuel
  | S fuel' =>
      n ← p_next_of prev;
      if n =? proc then ret prev
      else if n =? head then ret 0
      else find_prev fuel' head proc n
  end.

(** As many steps as there are processes. *)
Definition remove_from_queue (c proc : Z) : ST kern unit :=
  x ← getp proc;
  let queue := p_mlfq_queue x in
  if (queue <? 0) || (NUM_QUEUES <=? queue) then ret tt
  else
    head ← rq_head c queue;
    if head =? 0 then ret tt
    else if (head =? proc) && (p_next x =? proc) then
      set_head c queue 0;; updp proc (set_next 0)
    else
      k ← gets id;
      prev ← find_prev (S (size (procs k))) head proc head;
      if prev =? 0 then ret tt
      else
        updp prev (set_next (p_next x));;
        (if head =? proc then set_head c queue (p_next x) else ret tt);;
        updp proc (set_next 0).

Definition scheduler_add_process (me proc : Z) : ST kern unit :=
  if proc =? 0 then ret tt
  else
    x ← getp proc;
    if p_pid x =? 0 then ret tt
    else
      updp proc (fun x => set_time_slice (nthZ queue_quantum 0) (set_state PROCESS_READY x));;
      k ← gets id;
      let n := rr_counter k in
      modify (set_rr (u32 (n + 1)));;
      let target_id := if 0 <? cpu_count k then n mod cpu_count k else 0 in
      updp proc (set_owner_cpu target_id);;
      add_to_queue target_id proc 0;;
      c ← getc me;
      if target_id =? c_id c then ret tt else log (Ipi target_id).

Definition scheduler_remove_process (proc : Z) : ST kern unit :=
  if proc =? 0 then ret tt
  else x ← getp proc; remove_from_queue (p_owner_cpu x) proc.

(** The first non-empty queue: its head and its number; 0 when all are empty. *)
Definition find_next_process (me : Z) : ST kern (Z * Z) :=
  r ← for_until (Z.to_nat NUM_QUEUES) 0 (fun q =>
        head ← rq_head me q;
        ret (if head =? 0 then None else Some (head, q)));
  ret (default (0, 0) r).

(** The scan of the queues of the victim [v]. *)
Definition steal_queue (me v q : Z) : ST kern (option Z) :=
  head ← rq_head v q;
  if head =? 0 then ret None
  else
    steal ← p_next_of head;
    if steal =? head then ret None
    else
      n ← p_next_of steal;
      updp head (set_next n);;
      updp steal (set_next 0);;
      c ← getc me;
      updp steal (set_owner_cpu (c_id c));;
      x ← getp steal;
      add_to_queue me steal (p_mlfq_queue x);;
      ret (Some steal).

Definition try_steal_work (me : Z) : ST kern Z :=
  c ← getc me;
  let now := c_sched_ticks c in
  if (STEAL_MIN_INTERVAL <=? now) && (u32 (now - c_last_steal_tick c) <? STEAL_MIN_INTERVAL) then ret 0
  else
    updc me (set_last_steal now);;
    n ← gets cpu_count;
    r ← for_until (Z.to_nat n) 0 (fun i =>
          c ← getc me;
          if i =? c_id c then ret None
          else for_until (Z.to_nat NUM_QUEUES) 0 (steal_queue me i));
    ret (default 0 r).

(** The end of [pick_next_or_idle]: without a choice of its own the CPU steals,
    or idles. *)
Definition pick_or_steal (me proc queue : Z) : ST kern (Z * Z) :=
  '(proc, queue) ←
     (if proc =? 0 then
        s ← try_steal_work me;
        if negb (s =? 0) then x ← getp s; ret (s, p_mlfq_queue x) else ret (0, queue)
      else ret (proc, queue));
  c ← getc me;
  ret (if proc =? 0 then c_idle_proc c else proc, queue).

Definition pick_next_or_idle (me : Z) : ST kern (Z * Z) :=
  '(proc, queue) ← find_next_process me;
  cur ← current_process me;
  '(proc, queue) ←
     (if negb (proc =? 0) && (proc =? cur) then
        x ← getp cur;
        if negb (p_state x =? PROCESS_RUNNING) then
          head ← rq_head me queue;
          n ← p_next_of head;
          set_head me queue n;;
          '(proc, queue) ← find_next_process me;
          ret (if proc =? cur then (0, queue) else (proc, queue))
        else ret (proc, queue)
      else ret (proc, queue));
  pick_or_steal me proc queue.

Definition demote_quantum_exhausted (me cur : Z) : ST kern unit :=
  if cur =? 0 then ret tt
  else
    c ← getc me;
    if cur =? c_idle_proc c then ret tt
    else
      x ← getp cur;
      if negb (p_state x =? PROCESS_RUNNING) then ret tt
      else if negb (c_quantum_left c =? 0) then ret tt
      else
        remove_from_queue me cur;;
        let new_queue := p_mlfq_queue x + 1 in
        let new_queue := if NUM_QUEUES <=? new_queue then NUM_QUEUES - 1 else new_queue in
        updp cur (set_state PROCESS_READY);;
        add_to_queue me cur new_queue.

Context `{AddressSpaces A}.

Definition dir_of (mem : Z) : ST kern Z := gets (fun k => as_dir (kspaces k) mem).

Definition context_switch (me old new : Z) : ST kern unit :=
  if (old =? 0) || (new =? 0) || (old =? new) then ret tt
  else
    updp old (fun x => if p_state x =? PROCESS_RUNNING then set_state PROCESS_READY x else x);;
    updp new (set_state PROCESS_RUNNING);;
    updc me (set_current new);;
    o ← getp old;
    n ← getp new;
    (if p_memory n =? 0 then ret tt
     else
       nd ← dir_of (p_memory n);
       if nd =? 0 then ret tt
       else
         od ← dir_of (p_memory o);
         if (p_memory o =? 0) || negb (od =? nd) then log (LoadCr3 nd) else ret tt);;
    (if p_kernel_stack n =? 0 then ret tt else log (SetTss (u32 (p_kernel_stack n + KERNEL_STACK_SIZE))));;
    updp new (fun x => if negb (p_first_sched x =? 0) then set_first_sched 0 x else x);;
    o ← getp old;
    if (p_state o =? PROCESS_ZOMBIE) || (p_state o =? PROCESS_TERMINATED) then log (Switch 0 new)
    else log (Switch old new).

(** The branch of [schedule] that found the idle process. *)
Definition schedule_idle (me idle : Z) : ST kern unit :=
  cur ← current_process me;
  if (idle =? 0) || (cur =? 0) || (cur =? idle) then ret tt
  else
    x ← getp cur;
    if p_state x =? PROCESS_RUNNING then ret tt
    else
      updc me (set_current idle);;
      updp idle (set_state PROCESS_RUNNING);;
      context_switch me cur idle.

(** The branch that takes the CPU from the current process. *)
Definition schedule_next (me idle : Z) : ST kern unit :=
  cur ← current_process me;
  demote_quantum_exhausted me cur;;
  '(next, queue) ← pick_next_or_idle me;
  if negb (next =? 0) && negb (next =? cur) && negb (next =? idle) then
    updc me (set_current next);;
    updc me (set_current_queue queue);;
    updp next (set_state PROCESS_RUNNING);;
    quantum ← rd queue_quantum queue;
    updc me (set_quantum quantum);;
    head ← rq_head me queue;
    n ← p_next_of head;
    set_head me queue n;;
    if cur =? 0 then ret tt else context_switch me cur next
  else if cur =? 0 then ret tt
  else
    x ← getp cur;
    quantum ← rd queue_quantum (p_mlfq_queue x);
    updc me (set_quantum quantum).

Definition schedule (me : Z) : ST kern unit :=
  updc me (fun c => set_rcu (u32 (c_rcu_qs_count c + 1)) (set_schedule_calls (u32 (c_schedule_calls c + 1)) c));;
  '(next, _) ← pick_next_or_idle me;
  c ← getc me;
  let idle := c_idle_proc c in
  if next =? idle then schedule_idle me idle
  else
    let cur := c_current c in
    if (cur =? idle) || (c_quantum_left c =? 0) || (cur =? 0) then schedule_next me idle
    else
      x ← getp cur;
      if negb (p_state x =? PROCESS_RUNNING) then schedule_next me idle else ret tt.

Definition timer_tick (me : Z) : ST kern unit :=
  k ← gets id;
  if scheduler_enabled k =? 0 then ret tt
  else
    updc me (fun c => set_sched_ticks (u32 (c_sched_ticks c + 1)) c);;
    updc me (fun c => if 0 <? c_quantum_left c then set_quantum (c_quantum_left c - 1) c else c).

End Sched.
