(* ===== verification/SchedFrame.v ===== *)
(** * What the scheduler leaves alone

    The scheduler touches the run queues, the per-CPU blocks and six fields of
    the processes; everything else of the kernel's state is as before, no
    process appears or disappears and none becomes a zombie. *)

From stdpp Require Import base tactics numbers list gmap.
From S2P Require Import Prelude Alloc Proc Sched.

Section Frame.
Context {M A : Type}.
Implicit Types k : kern M A.

(** A process without the fields of the scheduler. *)
Definition proc_core (x : process) : process :=
  set_state 0 (set_next 0 (set_mlfq_queue 0 (set_time_slice 0 (set_owner_cpu 0 (set_first_sched 0 x))))).

(** The kernel's state without what the scheduler changes. *)
Definition kern_core (k : kern M A) : kern M A :=
  set_procs (proc_core <$> procs k) (set_cpus [] (set_rr 0 (set_enabled 0 (set_klog [] k)))).

(** [quiet k k']: the scheduler may lead from [k] to [k']. *)
Definition quiet (k k' : kern M A) : Prop :=
  kern_core k' = kern_core k /\
  forall p x x', procs k !! p = Some x -> procs k' !! p = Some x' -> p_state x' = PROCESS_ZOMBIE -> p_state x = PROCESS_ZOMBIE.

Lemma quiet_lookup k k' p x : quiet k k' -> procs k !! p = Some x ->
  exists x', procs k' !! p = Some x' /\ proc_core x' = proc_core x /\ (p_state x' = PROCESS_ZOMBIE -> p_state x = PROCESS_ZOMBIE).
Proof.
  intros [E Hz] Hx. apply (f_equal (fun k => procs k !! p)) in E. cbn in E. rewrite !lookup_fmap, Hx in E. cbn in E.
  apply fmap_Some in E as (x' & Hx' & Ex). exists x'. split; [done|]. split; [done|]. by apply Hz with p.
Qed.

#[export] Instance quiet_preorder : PreOrder quiet.
Proof.
  split.
  - intros k. split; [done|]. intros p x x' H1 H2. by simplify_eq.
  - intros k1 k2 k3 H12 [E2 Hz2]. pose proof H12 as [E1 _]. split; [congruence|]. intros p x x'' Hx Hx'' Hs.
    destruct (quiet_lookup _ _ _ _ H12 Hx) as (x' & Hx' & _ & Hz). by eapply Hz, Hz2.
Qed.

Lemma quiet_updp p f : (forall x, proc_core (f x) = proc_core x) ->
  (forall x, p_state (f x) = PROCESS_ZOMBIE -> p_state x = PROCESS_ZOMBIE) -> preserves quiet (updp (M := M) (A := A) p f).
Proof.
  intros Hf Hz k [] k' E. unfold updp, getp in E. rewrite bind_assoc, bind_gets in E. cbn [id] in E.
  destruct (procs k !! p) as [x|] eqn:Hx; [|done]. rewrite bind_ret in E. injection E as <-. split.
  - unfold kern_core. cbn. rewrite fmap_insert, Hf, insert_id; [done|]. by rewrite lookup_fmap, Hx.
  - intros q y y' Hy Hy'. cbn in Hy'. apply lookup_insert_Some in Hy' as [[<- <-]|[_ Hy']]; [|by simplify_eq].
    simplify_eq. apply Hz.
Qed.

Lemma quiet_updc c f : preserves quiet (updc (M := M) (A := A) c f).
Proof.
  intros k [] k' E. unfold updc in E. rewrite bind_gets in E. unfold rd, wr in E.
  destruct (in_bounds (cpus (id k)) c); [|done]. destruct (cpus (id k) !! Z.to_nat c); [|done].
  cbn in E. injection E as <-. split; [done|]. intros p x x' H1 H2. cbn in H2. by simplify_eq.
Qed.

Lemma quiet_log e : preserves quiet (log (M := M) (A := A) e).
Proof. intros k [] k' [= <-]. split; [done|]. intros p x x' H1 H2. cbn in H2. by simplify_eq. Qed.

Lemma quiet_getp p : preserves quiet (getp (M := M) (A := A) p).
Proof. unfold getp. pres. Qed.

Lemma quiet_getc c : preserves quiet (getc (M := M) (A := A) c).
Proof. unfold getc. pres. Qed.

Lemma quiet_rr f : preserves quiet (modify (fun k : kern M A => set_rr (f k) k)).
Proof. intros k [] k' [= <-]. split; [done|]. intros p x x' H1 H2. cbn in H2. by simplify_eq. Qed.

Lemma quiet_set_rr n : preserves quiet (modify (set_rr (M := M) (A := A) n)).
Proof. apply (quiet_rr (fun _ => n)). Qed.

End Frame.

#[export] Hint Resolve quiet_updc quiet_log quiet_getp quiet_getc quiet_set_rr : pres.
#[export] Hint Extern 3 (preserves quiet (updp _ _)) =>
  apply quiet_updp; [intros ?; repeat case_match; done|intros ?; cbn; repeat case_match; done] : pres.

Section Ops.
Context {M A : Type} `{AddressSpaces A}.

Lemma quiet_current me : preserves quiet (current_process (M := M) (A := A) me).
Proof. unfold current_process. pres. Qed.

Lemma quiet_rq_head c q : preserves quiet (rq_head (M := M) (A := A) c q).
Proof. unfold rq_head. pres. Qed.

Lemma quiet_set_head c q p : preserves quiet (set_head (M := M) (A := A) c q p).
Proof. unfold set_head. pres. Qed.

Lemma quiet_next_of p : preserves quiet (p_next_of (M := M) (A := A) p).
Proof. unfold p_next_of. pres. Qed.

#[local] Hint Resolve quiet_current quiet_rq_head quiet_set_head quiet_next_of : pres.

Lemma quiet_add c p q : preserves quiet (add_to_queue (M := M) (A := A) c p q).
Proof. unfold add_to_queue. pres. Qed.

Lemma quiet_find_prev fuel h p prev : preserves quiet (find_prev (M := M) (A := A) fuel h p prev).
Proof. revert prev. induction fuel as [|fuel IH]; intros prev; cbn [find_prev]; pres. Qed.

#[local] Hint Resolve quiet_add quiet_find_prev : pres.

Lemma quiet_remove c p : preserves quiet (remove_from_queue (M := M) (A := A) c p).
Proof. unfold remove_from_queue. pres. Qed.

#[local] Hint Resolve quiet_remove : pres.

Lemma quiet_add_process me p : preserves quiet (scheduler_add_process (M := M) (A := A) me p).
Proof. unfold scheduler_add_process. pres. Qed.

Lemma quiet_remove_process p : preserves quiet (scheduler_remove_process (M := M) (A := A) p).
Proof. unfold scheduler_remove_process. pres. Qed.

Lemma quiet_find_next me : preserves quiet (find_next_process (M := M) (A := A) me).
Proof. unfold find_next_process. pres. Qed.

Lemma quiet_steal me : preserves quiet (try_steal_work (M := M) (A := A) me).
Proof. unfold try_steal_work, steal_queue. pres. Qed.

#[local] Hint Resolve quiet_find_next quiet_steal : pres.

Lemma quiet_pick me : preserves quiet (pick_next_or_idle (M := M) (A := A) me).
Proof. unfold pick_next_or_idle, pick_or_steal. pres. Qed.

Lemma quiet_demote me p : preserves quiet (demote_quantum_exhausted (M := M) (A := A) me p).
Proof. unfold demote_quantum_exhausted. pres. Qed.

Lemma quiet_switch me old new : preserves quiet (context_switch (M := M) me old new).
Proof. unfold context_switch, dir_of. pres. Qed.

#[local] Hint Resolve quiet_pick quiet_demote quiet_switch : pres.

Lemma quiet_schedule me : preserves quiet (schedule (M := M) me).
Proof. unfold schedule, schedule_idle, schedule_next. pres. Qed.

Lemma quiet_tick me : preserves quiet (timer_tick (M := M) (A := A) me).
Proof. unfold timer_tick. pres. Qed.

Lemma quiet_idle c p : preserves quiet (scheduler_register_idle (M := M) (A := A) c p).
Proof. unfold scheduler_register_idle. pres. Qed.

End Ops.

#[export] Hint Resolve quiet_add_process quiet_remove_process quiet_schedule quiet_tick quiet_idle : pres.
