(* ===== verification/SchedProofs.v ===== *)
(** * Run queues

    The circular lists of the scheduler as lists of processes: the invariant
    that each queue is a closed ring of processes that know their queue, that
    no process is in two queues, and the effect of the queue operations on the
    lists. *)

From stdpp Require Import base tactics numbers list gmap.
From S2P Require Import Prelude Alloc Proc Sched.

(** ** Rings *)

(** The processes [l] are linked one to the next, the last one to [e]. *)
Fixpoint chain (P : gmap Z process) (l : list Z) (e : Z) : Prop :=
  match l with
  | [] => True
  | x :: l' => (exists pr, P !! x = Some pr /\ p_next pr = hd e l') /\ chain P l' e
  end.

Lemma chain_app P l1 l2 e : chain P (l1 ++ l2) e <-> chain P l1 (hd e l2) /\ chain P l2 e.
Proof.
  induction l1 as [|x l1 IH]; [simpl; tauto|]. cbn [app chain]. rewrite IH.
  assert (hd e (l1 ++ l2) = hd (hd e l2) l1) as -> by (by destruct l1). tauto.
Qed.

Lemma chain_frame P l e x pr : x ∉ l -> chain (<[x := pr]> P) l e <-> chain P l e.
Proof.
  induction l as [|y l IH]; [done|]. rewrite not_elem_of_cons. intros [Hx Hl]. cbn [chain].
  by rewrite IH, lookup_insert_ne by done.
Qed.

(** An update that keeps the link keeps the chain. *)
Lemma chain_same P l e x pr pr' : P !! x = Some pr -> p_next pr' = p_next pr ->
  chain P l e -> chain (<[x := pr']> P) l e.
Proof.
  intros Hx Hn. induction l as [|y l IH]; [done|]. cbn [chain]. intros [(pr0 & Hy & Hn0) Hl]. split; [|by apply IH].
  destruct (decide (x = y)) as [->|Hxy].
  - exists pr'. rewrite lookup_insert_eq. split; [done|]. congruence.
  - exists pr0. by rewrite lookup_insert_ne.
Qed.

Lemma chain_lookup P l e x : chain P l e -> x ∈ l -> is_Some (P !! x).
Proof.
  induction l as [|y l IH]; [by intros _ ?%not_elem_of_nil|]. cbn [chain]. intros [(pr & Hy & _) Hl] [->|?]%elem_of_cons; [eauto|by apply IH].
Qed.

Lemma chain_at P l1 x l2 e : chain P (l1 ++ x :: l2) e -> exists pr, P !! x = Some pr /\ p_next pr = hd e l2.
Proof. rewrite chain_app. by intros [_ [H _]]. Qed.

Definition is_ring (P : gmap Z process) (l : list Z) : Prop := chain P l (hd 0 l).

(** A ring may be entered at the next element. *)
Lemma ring_rotate P h l : is_ring P (h :: l) -> is_ring P (l ++ [h]).
Proof.
  unfold is_ring. cbn [chain hd]. intros [Hh Hl]. destruct l as [|x l]; [by cbn in *|].
  rewrite chain_app. cbn [hd chain] in *. cbn [app hd]. split; [done|]. split; [|done]. exact Hh.
Qed.

(** Inserting behind the head. *)
Lemma ring_insert P h l p hr pr : is_ring P (h :: l) -> P !! h = Some hr -> NoDup (p :: h :: l) ->
  is_ring (<[h := set_next p hr]> (<[p := set_next (p_next hr) pr]> P)) (h :: p :: l).
Proof.
  unfold is_ring. cbn [chain hd]. intros [(hr' & Hh & Hn) Hl] Hr Hnd.
  assert (hr' = hr) as -> by congruence. apply NoDup_cons in Hnd as [[Hph Hpl]%not_elem_of_cons [Hhl _]%NoDup_cons].
  split; [|split].
  - exists (set_next p hr). by rewrite lookup_insert_eq.
  - exists (set_next (p_next hr) pr). by rewrite lookup_insert_ne, lookup_insert_eq by done.
  - by rewrite !chain_frame by done.
Qed.

Lemma ring_single P p pr : is_ring (<[p := set_next p pr]> P) [p].
Proof. split; [|done]. exists (set_next p pr). by rewrite lookup_insert_eq. Qed.

(** Unlinking [p] behind [q], the head or not. *)
Lemma ring_unlink P l1 q p l2 qr pr : is_ring P (l1 ++ q :: p :: l2) -> NoDup (l1 ++ q :: p :: l2) ->
  P !! q = Some qr -> P !! p = Some pr ->
  is_ring (<[p := set_next 0 pr]> (<[q := set_next (p_next pr) qr]> P)) (l1 ++ q :: l2).
Proof.
  unfold is_ring. intros Hc Hnd Hq Hp. assert (hd 0 (l1 ++ q :: l2) = hd 0 (l1 ++ q :: p :: l2)) as Eh by (by destruct l1).
  rewrite Eh. revert Hc. generalize (hd 0 (l1 ++ q :: p :: l2)) as e. intros e. rewrite !chain_app. cbn [chain hd].
  intros (H1 & (qr' & Hq' & Hqn) & (pr' & Hp' & Hpn) & H2). assert (pr' = pr) as -> by congruence.
  apply NoDup_app in Hnd as (_ & Hd & [Hqpl Hnd]%NoDup_cons). apply not_elem_of_cons in Hqpl as [Hqp Hql].
  apply NoDup_cons in Hnd as [Hpl _].
  assert (p ∉ l1) as Hp1 by (intros ?; apply (Hd p); set_solver). assert (q ∉ l1) as Hq1 by (intros ?; apply (Hd q); set_solver).
  rewrite !chain_frame by done. split; [done|]. split; [|done].
  exists (set_next (p_next pr) qr). by rewrite lookup_insert_ne, lookup_insert_eq by done.
Qed.

(** Unlinking the head behind the last element. *)
Lemma ring_unlink_head P h l q qr hr : is_ring P (h :: l ++ [q]) -> NoDup (h :: l ++ [q]) ->
  P !! q = Some qr -> P !! h = Some hr ->
  is_ring (<[h := set_next 0 hr]> (<[q := set_next (p_next hr) qr]> P)) (l ++ [q]).
Proof.
  intros Hr%ring_rotate Hnd Hq Hh. rewrite <- app_assoc in Hr. cbn [app] in Hr.
  apply (ring_unlink P l q h [] qr hr Hr); [|done|done].
  assert (l ++ [q; h] ≡ₚ h :: l ++ [q]) as -> by
    (change [q; h] with ([q] ++ [h]); rewrite app_assoc; by rewrite Permutation_app_comm). done.
Qed.

(** ** The queues of a CPU *)

Record rq (P : gmap Z process) (c : cpu) (Qs : list (list Z)) : Prop := {
  rq_len : length Qs = 4%nat;
  rq_heads : c_run_queues c = hd 0 <$> Qs;
  rq_ring : Forall (is_ring P) Qs;
  rq_queue : forall q l p, Qs !! q = Some l -> p ∈ l ->
    exists x, P !! p = Some x /\ p_mlfq_queue x = Z.of_nat q;
  rq_nodup : NoDup (mjoin Qs);
  rq_null : 0 ∉ mjoin Qs
}.

Lemma elem_of_queue (Qs : list (list Z)) (q : nat) l p : Qs !! q = Some l -> p ∈ l -> p ∈ mjoin Qs.
Proof. intros Hq Hp. apply list_elem_of_join. exists l. split; [done|by eapply list_elem_of_lookup_2]. Qed.

(** Splitting off one queue. *)
Lemma concat_insert (Qs : list (list Z)) (q : nat) l l' : Qs !! q = Some l ->
  exists r, mjoin Qs ≡ₚ l ++ r /\ mjoin (<[q := l']> Qs) ≡ₚ l' ++ r.
Proof.
  revert q. induction Qs as [|l0 Qs IH]; intros [|q] Hq; [done|done| |].
  - injection Hq as ->. by exists (mjoin Qs).
  - cbn in Hq. destruct (IH q Hq) as (r & E1 & E2). exists (l0 ++ r). cbn. rewrite E1, E2.
    by rewrite !(Permutation_app_swap_app l0).
Qed.

Lemma links_ext P P' l e : (forall y, y ∈ l -> P' !! y = P !! y) -> chain P l e -> chain P' l e.
Proof.
  induction l as [|x l IH]; [done|]. cbn [chain]. intros Hy [Hx Hl]. rewrite (Hy x) by (by left). split; [done|].
  apply IH; [|done]. intros y Hyl. apply Hy. by right.
Qed.

(** A process of another queue is not in this one. *)
Lemma other_queue (Qs : list (list Z)) (q j : nat) l m p :
  NoDup (mjoin Qs) -> Qs !! q = Some l -> Qs !! j = Some m -> j <> q -> p ∈ m -> p ∉ l.
Proof.
  revert q j. induction Qs as [|l0 Qs IH]; intros q j Hnd Hq Hj Hne Hp Hpl; [done|].
  cbn in Hnd. apply NoDup_app in Hnd as (_ & Hd & Hnd). destruct q as [|q], j as [|j]; cbn in Hq, Hj; simplify_eq.
  - apply (Hd p Hpl). by eapply elem_of_queue.
  - apply (Hd p Hp). by eapply elem_of_queue.
  - by eapply (IH q j); [done..|lia| |].
Qed.

(** Replacing one queue by another list of processes, when only processes of
    the two lists have changed. *)
Lemma rq_replace P P' c c' Qs (q : nat) l l' : rq P c Qs -> Qs !! q = Some l ->
  c_run_queues c' = <[q := hd 0 l']> (c_run_queues c) ->
  is_ring P' l' -> NoDup (mjoin (<[q := l']> Qs)) -> 0 ∉ l' ->
  (forall p, p ∈ l' -> exists x, P' !! p = Some x /\ p_mlfq_queue x = Z.of_nat q) ->
  (forall y, y ∈ mjoin Qs -> y ∉ l -> P' !! y = P !! y) ->
  rq P' c' (<[q := l']> Qs).
Proof.
  intros [H1 H2 H3 H4 H5 H6] Hq Hc Hr Hnd H0 Hl Hother.
  assert (forall j m y, Qs !! j = Some m -> j <> q -> y ∈ m -> P' !! y = P !! y) as Ho.
  { intros j m y Hj Hne Hy. apply Hother; [by eapply elem_of_queue|exact (other_queue Qs q j l m y H5 Hq Hj Hne Hy)]. }
  split; [rewrite length_insert; exact H1|rewrite Hc, H2, list_fmap_insert; done| | |exact Hnd|].
  - apply Forall_lookup. intros j m Hj. apply list_lookup_insert_Some in Hj as [(<- & <- & _)|[Hne Hj]]; [done|].
    apply (links_ext P); [|by apply (Forall_lookup_1 _ _ _ _ H3 Hj)]. intros y Hy. eapply Ho; [done|lia|done].
  - intros j m p Hj Hp. apply list_lookup_insert_Some in Hj as [(<- & <- & _)|[Hne Hj]]; [by apply Hl|].
    rewrite (Ho j m p Hj) by (lia || done). by eapply H4.
  - destruct (concat_insert Qs q l l' Hq) as (r & E1 & E2). rewrite E2, not_elem_of_app. split; [done|].
    rewrite E1, not_elem_of_app in H6. tauto.
Qed.

Lemma null_queue P c Qs (q : nat) l : rq P c Qs -> Qs !! q = Some l -> 0 ∉ l.
Proof. intros Hq Hl H0. apply (rq_null _ _ _ Hq). by eapply elem_of_queue. Qed.

Lemma nodup_queue (Qs : list (list Z)) (q : nat) l : NoDup (mjoin Qs) -> Qs !! q = Some l -> NoDup l.
Proof.
  intros Hnd Hl. destruct (concat_insert Qs q l [] Hl) as (r & E & _). rewrite E in Hnd. by apply NoDup_app in Hnd as [? _].
Qed.

(** A process that is in no queue may change. *)
Lemma rq_frame P c Qs p x : p ∉ mjoin Qs -> rq P c Qs -> rq (<[p := x]> P) c Qs.
Proof.
  intros Hp [H1 H2 H3 H4 H5 H6]. split; try done.
  - apply Forall_lookup. intros q l Hq. apply (links_ext P); [|by apply (Forall_lookup_1 _ _ _ _ H3 Hq)].
    intros y Hy. rewrite lookup_insert_ne; [done|]. intros ->. apply Hp. by eapply elem_of_queue.
  - intros q l y Hq Hy. rewrite lookup_insert_ne; [by eapply H4|]. intros ->. apply Hp. by eapply elem_of_queue.
Qed.

(** An update that keeps link and queue number. *)
Lemma rq_update P c Qs p x x' : P !! p = Some x -> p_next x' = p_next x -> p_mlfq_queue x' = p_mlfq_queue x ->
  rq P c Qs -> rq (<[p := x']> P) c Qs.
Proof.
  intros Hp Hn Hm [H1 H2 H3 H4 H5 H6]. split; try done.
  - eapply Forall_impl; [exact H3|]. intros l. by apply (chain_same _ _ _ _ x).
  - intros q l y Hq Hy. destruct (H4 q l y Hq Hy) as (z & Hz & Hzq). destruct (decide (p = y)) as [->|Hne].
    + exists x'. rewrite lookup_insert_eq. split; [done|]. congruence.
    + exists z. by rewrite lookup_insert_ne.
Qed.

(** ** Reading and writing the state *)

Section Ops.
Context {M A : Type}.
Implicit Types k : kern M A.

Lemma getp_ok k p x : procs k !! p = Some x -> getp p k = Ok (x, k).
Proof. intros Hx. unfold getp. rewrite bind_gets. unfold id. by rewrite Hx. Qed.

Lemma updp_ok k p f x : procs k !! p = Some x -> updp p f k = Ok (tt, set_procs (<[p := f x]> (procs k)) k).
Proof. intros Hx. unfold updp. by rewrite (bind_ok _ _ _ _ _ (getp_ok _ _ _ Hx)). Qed.

Lemma getc_ok k (c : nat) x : cpus k !! c = Some x -> getc (Z.of_nat c) k = Ok (x, k).
Proof. intros Hx. unfold getc. rewrite bind_gets. unfold id. apply rd_ok; [lia|by rewrite Nat2Z.id]. Qed.

Lemma updc_ok k (c : nat) f x : cpus k !! c = Some x -> updc (Z.of_nat c) f k = Ok (tt, set_cpus (<[c := f x]> (cpus k)) k).
Proof.
  intros Hx. unfold updc. rewrite bind_gets. unfold id. pose proof (lookup_lt_Some _ _ _ Hx).
  rewrite (bind_ok _ _ _ _ _ (rd_ok (cpus k) (Z.of_nat c) x k ltac:(lia) ltac:(by rewrite Nat2Z.id))).
  rewrite (bind_ok _ _ _ _ _ (wr_ok (cpus k) (Z.of_nat c) (f x) k ltac:(lia))). by rewrite Nat2Z.id.
Qed.

Lemma p_next_ok k p x : procs k !! p = Some x -> p_next_of p k = Ok (p_next x, k).
Proof. intros Hx. unfold p_next_of. by rewrite (bind_ok _ _ _ _ _ (getp_ok _ _ _ Hx)). Qed.

Lemma rq_head_ok k c C Qs (q : nat) l : cpus k !! c = Some C -> rq (procs k) C Qs -> Qs !! q = Some l ->
  rq_head (Z.of_nat c) (Z.of_nat q) k = Ok (hd 0 l, k).
Proof.
  intros Hc Hq Hl. unfold rq_head. rewrite (bind_ok _ _ _ _ _ (getc_ok _ _ _ Hc)). apply rd_ok; [lia|].
  by rewrite (rq_heads _ _ _ Hq), Nat2Z.id, list_lookup_fmap, Hl.
Qed.

Lemma set_head_ok k c C (q : nat) p : cpus k !! c = Some C -> (q < length (c_run_queues C))%nat ->
  set_head (Z.of_nat c) (Z.of_nat q) p k =
  Ok (tt, set_cpus (<[c := set_run_queues (<[q := p]> (c_run_queues C)) C]> (cpus k)) k).
Proof.
  intros Hc Hq. unfold set_head. rewrite (bind_ok _ _ _ _ _ (getc_ok _ _ _ Hc)).
  rewrite (bind_ok _ _ _ _ _ (wr_ok (c_run_queues C) (Z.of_nat q) p k ltac:(lia))), Nat2Z.id. by apply updc_ok.
Qed.

(** An operation on the queues changes links, queue numbers and heads only. *)
Definition linked (x x' : process) : Prop :=
  exists m n, x' = set_mlfq_queue m (set_next n x) /\ (m = p_mlfq_queue x \/ 0 <= m < 4).

Record relinks (c : nat) (k k' : kern M A) : Prop := {
  rl_rest : k' = set_cpus (cpus k') (set_procs (procs k') k);
  rl_cpu : exists C r, cpus k !! c = Some C /\ cpus k' = <[c := set_run_queues r C]> (cpus k);
  rl_dom : forall p, is_Some (procs k !! p) <-> is_Some (procs k' !! p);
  rl_procs : forall p x x', procs k !! p = Some x -> procs k' !! p = Some x' -> linked x x'
}.

Lemma length_heads P C Qs : rq P C Qs -> length (c_run_queues C) = 4%nat.
Proof. intros Hq. rewrite (rq_heads _ _ _ Hq), length_fmap. apply Hq. Qed.

Definition insert_behind (p : Z) (l : list Z) : list Z :=
  match l with [] => [p] | h :: t => h :: p :: t end.

Lemma insert_behind_perm p l : insert_behind p l ≡ₚ p :: l.
Proof. destruct l as [|h t]; [done|]. simpl. constructor. Qed.

Lemma rq_size P C Qs (q : nat) l : rq P C Qs -> Qs !! q = Some l -> (length l <= size P)%nat.
Proof.
  intros Hq Hl. destruct (concat_insert Qs q l [] Hl) as (r & E & _).
  pose proof (rq_nodup _ _ _ Hq) as Hnd. rewrite E in Hnd. apply NoDup_app in Hnd as [Hnd _].
  rewrite <- (size_list_to_set (C := gset Z) l Hnd), <- size_dom. apply subseteq_size.
  intros p Hp%elem_of_list_to_set. apply elem_of_dom. destruct (rq_queue _ _ _ Hq q l p Hl Hp) as (x & -> & _). eauto.
Qed.

Lemma linked_refl x : linked x x.
Proof. exists (p_mlfq_queue x), (p_next x). split; [by destruct x|by left]. Qed.

Lemma linked_next n x x' : linked x x' -> linked x (set_next n x').
Proof. intros (m & n' & -> & Hm). by exists m, n. Qed.

Lemma linked_queue m x x' : 0 <= m < 4 -> linked x x' -> linked x (set_mlfq_queue m x').
Proof. intros Hm (m' & n & -> & _). exists m, n. split; [done|by right]. Qed.

Lemma linked_trans x y z : linked x y -> linked y z -> linked x z.
Proof.
  intros (m & n & -> & Hm) (m' & n' & -> & Hm'). exists m', n'. split; [done|]. cbn in Hm'. destruct Hm' as [->|?]; [done|by right].
Qed.

Lemma relinks_proc c k p x x' C : cpus k !! c = Some C -> procs k !! p = Some x -> linked x x' ->
  relinks c k (set_procs (<[p := x']> (procs k)) k).
Proof.
  intros HC Hp Hx. split; cbn [procs set_procs cpus].
  - by destruct k.
  - exists C, (c_run_queues C). split; [done|]. rewrite list_insert_id; [done|]. rewrite HC. by destruct C.
  - intros q. destruct (decide (p = q)) as [->|]; [rewrite lookup_insert_eq, Hp|rewrite lookup_insert_ne by done]; naive_solver.
  - intros q y y' Hy. destruct (decide (p = q)) as [->|]; [rewrite lookup_insert_eq; naive_solver|].
    rewrite lookup_insert_ne by done. intros ?. assert (y = y') as -> by congruence. apply linked_refl.
Qed.

Lemma relinks_head c k C r : cpus k !! c = Some C -> relinks c k (set_cpus (<[c := set_run_queues r C]> (cpus k)) k).
Proof.
  intros HC. split; cbn [procs set_cpus cpus]; [by destruct k|by exists C, r|done|].
  intros q y y' Hy Hy'. assert (y = y') as -> by congruence. apply linked_refl.
Qed.

Lemma relinks_trans c k1 k2 k3 : relinks c k1 k2 -> relinks c k2 k3 -> relinks c k1 k3.
Proof.
  intros [R1 (C1 & r1 & HC1 & E1) D1 P1] [R2 (C2 & r2 & HC2 & E2) D2 P2]. split.
  - rewrite R2. rewrite R1. by destruct k1.
  - exists C1, r2. split; [done|]. pose proof (lookup_lt_Some _ _ _ HC1). rewrite E2, E1, list_insert_insert_eq. f_equal.
    rewrite E1, list_lookup_insert_eq in HC2 by done. injection HC2 as <-. done.
  - intros p. by rewrite D1, D2.
  - intros p x z Hx Hz. destruct (proj2 (D2 p) ltac:(eauto)) as [y Hy]. eapply linked_trans; [by eapply P1|by eapply P2].
Qed.

Lemma add_to_queue_ok k (c : nat) C Qs p x (q : nat) l :
  cpus k !! c = Some C -> rq (procs k) C Qs -> procs k !! p = Some x -> p ∉ mjoin Qs -> p <> 0 ->
  Qs !! q = Some l ->
  exists k' C', add_to_queue (Z.of_nat c) p (Z.of_nat q) k = Ok (tt, k') /\ cpus k' !! c = Some C' /\
    rq (procs k') C' (<[q := insert_behind p l]> Qs) /\ relinks c k k'.
Proof.
  intros HC Hrq Hp Hpq Hp0 Hl. pose proof (lookup_lt_Some _ _ _ Hl) as Hq4. rewrite (rq_len _ _ _ Hrq) in Hq4.
  unfold add_to_queue. rewrite (proj2 (Z.ltb_ge _ 0)) by lia. rewrite (proj2 (Z.leb_gt NUM_QUEUES _)) by (unfold NUM_QUEUES; lia).
  rewrite (bind_ok _ _ _ _ _ (updp_ok _ _ _ _ Hp)). set (x1 := set_mlfq_queue (Z.of_nat q) x).
  set (k1 := set_procs _ k). assert (rq (procs k1) C Qs) as Hrq1 by (by apply rq_frame).
  rewrite (bind_ok _ _ _ _ _ (rq_head_ok k1 c C Qs q l HC Hrq1 Hl)).
  assert (procs k1 !! p = Some x1) as Hp1 by apply lookup_insert_eq.
  assert (NoDup (mjoin (<[q := insert_behind p l]> Qs))) as Hnd.
  { destruct (concat_insert Qs q l (insert_behind p l) Hl) as (r & E1 & E2). rewrite E2, insert_behind_perm. cbn.
    rewrite <- E1. apply NoDup_cons. split; [done|apply Hrq]. }
  assert (p ∉ l) as Hpl by (intros ?; apply Hpq; by eapply elem_of_queue).
  assert (relinks c k k1) as R1 by (eapply relinks_proc; [done|done|apply linked_queue; [lia|apply linked_refl]]).
  destruct l as [|h t]; cbn [hd insert_behind] in *.
  - cbn [Z.eqb]. rewrite (bind_ok _ _ _ _ _ (set_head_ok k1 c C q p HC ltac:(rewrite (length_heads _ _ _ Hrq); lia))).
    set (k2 := set_cpus _ k1). rewrite (updp_ok k2 p (set_next p) x1 Hp1). eexists _, _. split; [reflexivity|].
    split; [apply list_lookup_insert_eq; by eapply lookup_lt_Some|]. split.
    + eapply rq_replace; [exact Hrq1|exact Hl|done|apply ring_single|done| | |].
      * rewrite list_elem_of_singleton. congruence.
      * intros y ->%list_elem_of_singleton. exists (set_next p x1). split; [apply lookup_insert_eq|done].
      * intros y Hy _. apply lookup_insert_ne. intros ->. done.
    + eapply relinks_trans; [exact R1|]. eapply relinks_trans; [by apply (relinks_head c k1 C)|].
      eapply (relinks_proc c k2); [apply list_lookup_insert_eq; by eapply lookup_lt_Some|exact Hp1|apply linked_next, linked_refl].
  - destruct (rq_queue _ _ _ Hrq1 q (h :: t) h Hl ltac:(by left)) as (hr & Hh & Hhq).
    assert (h <> 0) as Hh0 by (intros ->; apply (rq_null _ _ _ Hrq); eapply elem_of_queue; [exact Hl|by left]).
    rewrite (proj2 (Z.eqb_neq h 0) Hh0), (bind_ok _ _ _ _ _ (p_next_ok k1 h hr Hh)).
    rewrite (bind_ok _ _ _ _ _ (updp_ok k1 p _ x1 Hp1)). set (k2 := set_procs _ k1).
    assert (p <> h) as Hph by (intros ->; apply Hpl; by left).
    assert (procs k2 !! h = Some hr) as Hh2 by (etransitivity; [by apply lookup_insert_ne|done]).
    rewrite (updp_ok k2 h _ hr Hh2). eexists _, _. split; [reflexivity|]. split; [exact HC|]. split.
    + eapply rq_replace; [exact Hrq1|exact Hl| |apply ring_insert; [|exact Hh|]|exact Hnd| | |].
      * rewrite list_insert_id; [done|]. by rewrite (rq_heads _ _ _ Hrq), list_lookup_fmap, Hl.
      * by apply (Forall_lookup_1 _ _ _ _ (rq_ring _ _ _ Hrq1) Hl).
      * apply (nodup_queue _ q (h :: p :: t)) in Hnd; [|apply list_lookup_insert_eq; by eapply lookup_lt_Some].
        by rewrite (Permutation_swap p h) in Hnd.
      * pose proof (null_queue _ _ _ _ _ Hrq Hl) as Hnl. rewrite not_elem_of_cons in Hnl. rewrite !not_elem_of_cons.
        destruct Hnl. split_and!; [lia|lia|done].
      * intros y. rewrite !elem_of_cons. intros [->|[->|Hy]].
        -- exists (set_next p hr). split; [apply lookup_insert_eq|done].
        -- exists (set_next (p_next hr) x1). split; [|done]. etransitivity; [by apply lookup_insert_ne|apply lookup_insert_eq].
        -- destruct (rq_queue _ _ _ Hrq1 q (h :: t) y Hl ltac:(by right)) as (z & Hz & Hzq).
           pose proof (nodup_queue _ _ _ (rq_nodup _ _ _ Hrq) Hl) as [Hht _]%NoDup_cons.
           exists z. split; [|done]. unfold k2. cbn [procs set_procs].
           rewrite !lookup_insert_ne; [exact Hz|intros ->; apply Hpl; by right|intros ->; done].
      * intros y Hy Hyl. unfold k2. cbn [procs set_procs].
        rewrite !lookup_insert_ne; [done|by intros ->|intros ->; apply Hyl; by left].
    + eapply relinks_trans; [exact R1|]. eapply relinks_trans; [eapply (relinks_proc c k1); [exact HC|exact Hp1|apply linked_next, linked_refl]|].
      eapply (relinks_proc c k2); [exact HC|exact Hh2|apply linked_next, linked_refl].
Qed.

(** The walk of [remove_from_queue] from [prev] to the end [m] of the ring. *)
Lemma find_prev_ok k fuel h p prev m : chain (procs k) (prev :: m) h -> h ∉ m -> (length m < fuel)%nat ->
  exists r, find_prev fuel h p prev k = Ok (r, k) /\
    ((exists a b, prev :: m = a ++ r :: p :: b) \/
     ((p ∉ m) /\ p = h /\ exists a, prev :: m = a ++ [r]) \/
     ((p ∉ m) /\ p <> h /\ r = 0)).
Proof.
  revert fuel prev. induction m as [|y m IH]; intros [|fuel] prev Hc Hh Hf; try (simpl in Hf; lia);
    destruct Hc as [(pr & Hp & Hn) Hc]; cbn [find_prev hd] in *; rewrite (bind_ok _ _ _ _ _ (p_next_ok _ _ _ Hp)), Hn.
  - destruct (Z.eqb_spec h p) as [->|Hne].
    + exists prev. split; [done|]. right; left. split; [apply not_elem_of_nil|]. split; [done|]. by exists [].
    + rewrite Z.eqb_refl. exists 0. split; [done|]. right; right. split; [apply not_elem_of_nil|]. split; [congruence|done].
  - destruct (Z.eqb_spec y p) as [->|Hne].
    + exists prev. split; [done|]. left. by exists [], m.
    + rewrite not_elem_of_cons in Hh. rewrite (proj2 (Z.eqb_neq y h)) by (by destruct Hh).
      destruct (IH fuel y Hc ltac:(by destruct Hh) ltac:(simpl in Hf; lia)) as (r & E & Hr). exists r. split; [done|].
      destruct Hr as [(a & b & Er)|[(Hp1 & Hp2 & a & Er)|(Hp1 & Hp2 & ->)]].
      * left. exists (prev :: a), b. by rewrite Er.
      * right; left. rewrite not_elem_of_cons. split; [done|]. split; [done|]. exists (prev :: a). by rewrite Er.
      * right; right. rewrite not_elem_of_cons. done.
Qed.

Definition without (p : Z) (l : list Z) : list Z := filter (fun y => y <> p) l.

Lemma without_notin p l : p ∉ l -> without p l = l.
Proof. intros Hp. apply filter_id. intros x Hx ->. done. Qed.

Lemma without_mid p a b : p ∉ a -> p ∉ b -> without p (a ++ p :: b) = a ++ b.
Proof.
  intros Ha Hb. unfold without. rewrite filter_app, filter_cons_False by tauto. f_equal; by apply without_notin.
Qed.

(** What is left when [remove_from_queue] unlinked [p] behind [prev]. *)
Lemma unlink_step_ok k (c : nat) C Qs p x (q : nat) l l' prev pr :
  cpus k !! c = Some C -> rq (procs k) C Qs -> Qs !! q = Some l -> procs k !! p = Some x ->
  procs k !! prev = Some pr -> p <> prev -> p ∈ l -> prev ∈ l -> l ≡ₚ p :: l' ->
  is_ring (<[p := set_next 0 x]> (<[prev := set_next (p_next x) pr]> (procs k))) l' ->
  forall k1, k1 = set_procs (<[prev := set_next (p_next x) pr]> (procs k)) k ->
  forall k2, k2 = set_cpus (<[c := set_run_queues (<[q := hd 0 l']> (c_run_queues C)) C]> (cpus k1)) k1 ->
  exists k3, updp p (set_next 0) k2 = Ok (tt, k3) /\ cpus k3 !! c = cpus k2 !! c /\
    rq (procs k3) (set_run_queues (<[q := hd 0 l']> (c_run_queues C)) C) (<[q := l']> Qs) /\ relinks c k k3.
Proof.
  intros HC Hrq Hl Hp Hprev Hne Hpl Hprl Hperm Hring k1 -> k2 ->. set (k1 := set_procs _ k). set (k2 := set_cpus _ k1).
  assert (procs k2 !! p = Some x) as Hp2 by (etransitivity; [by apply lookup_insert_ne|done]).
  rewrite (updp_ok k2 p _ x Hp2). eexists. split; [reflexivity|]. split; [done|].
  assert (NoDup (mjoin (<[q := l']> Qs))) as Hnd.
  { destruct (concat_insert Qs q l l' Hl) as (r & E1 & E2). pose proof (rq_nodup _ _ _ Hrq) as Hnd. rewrite E1, Hperm in Hnd.
    rewrite E2. by apply NoDup_cons in Hnd as [_ ?]. }
  assert (forall y, y ∈ l' -> y ∈ l) as Hsub by (intros y Hy; rewrite Hperm; by right).
  split.
  - eapply rq_replace; [exact Hrq|exact Hl|done|exact Hring|done| | |].
    + intros H0. apply (null_queue _ _ _ _ _ Hrq Hl). by apply Hsub.
    + intros y Hy. destruct (rq_queue _ _ _ Hrq q l y Hl (Hsub y Hy)) as (z & Hz & Hzq). cbn [procs set_procs k2 k1 set_cpus].
      destruct (decide (p = y)) as [<-|]; [rewrite lookup_insert_eq; eexists; split; [done|]; cbn; congruence|].
      rewrite lookup_insert_ne by done.
      destruct (decide (prev = y)) as [<-|]; [rewrite lookup_insert_eq; eexists; split; [done|]; cbn; congruence|].
      rewrite lookup_insert_ne by done. eauto.
    + intros y Hy Hyl. cbn [procs set_procs k2 k1 set_cpus]. rewrite !lookup_insert_ne; [done| |]; by intros ->.
  - eapply relinks_trans; [eapply (relinks_proc c k); [exact HC|exact Hprev|apply linked_next, linked_refl]|].
    eapply relinks_trans; [by apply (relinks_head c k1 C)|].
    eapply (relinks_proc c k2); [apply list_lookup_insert_eq; by eapply lookup_lt_Some|exact Hp2|apply linked_next, linked_refl].
Qed.

Lemma set_head_same k (c : nat) C (q : nat) h : cpus k !! c = Some C -> c_run_queues C !! q = Some h ->
  set_cpus (<[c := set_run_queues (<[q := h]> (c_run_queues C)) C]> (cpus k)) k = k.
Proof.
  intros HC Hq. rewrite (list_insert_id (c_run_queues C)) by done.
  assert (set_run_queues (c_run_queues C) C = C) as -> by (by destruct C). rewrite list_insert_id by done. by destruct k.
Qed.

Lemma relinks_refl c k C : cpus k !! c = Some C -> relinks c k k.
Proof.
  intros HC. pose proof (relinks_head c k C (c_run_queues C) HC) as R.
  assert (set_run_queues (c_run_queues C) C = C) as E by (by destruct C). rewrite E, list_insert_id in R by done.
  by destruct k.
Qed.

(** The last process of a queue leaves it. *)
Lemma remove_single k (c : nat) C Qs p x (q : nat) :
  cpus k !! c = Some C -> rq (procs k) C Qs -> procs k !! p = Some x -> Qs !! q = Some [p] ->
  exists k' C', (set_head (Z.of_nat c) (Z.of_nat q) 0;; updp p (set_next 0)) k = Ok (tt, k') /\ cpus k' !! c = Some C' /\
    rq (procs k') C' (<[q := []]> Qs) /\ relinks c k k'.
Proof.
  intros HC Hrq Hp Hl. pose proof (lookup_lt_Some _ _ _ Hl) as Hq4. rewrite (rq_len _ _ _ Hrq) in Hq4.
  rewrite (bind_ok _ _ _ _ _ (set_head_ok k c C q 0 HC ltac:(rewrite (length_heads _ _ _ Hrq); lia))). set (k1 := set_cpus _ k).
  rewrite (updp_ok k1 p _ x Hp). eexists _, _. split; [reflexivity|].
  split; [apply list_lookup_insert_eq; by eapply lookup_lt_Some|]. split.
  - eapply rq_replace; [exact Hrq|exact Hl|done|done| |apply not_elem_of_nil|by intros ? ?%not_elem_of_nil|].
    + destruct (concat_insert Qs q [p] [] Hl) as (r & E1 & E2). pose proof (rq_nodup _ _ _ Hrq) as Hnd. rewrite E1 in Hnd.
      rewrite E2. by apply NoDup_app in Hnd as (_ & _ & ?).
    + intros y Hy Hyl. apply lookup_insert_ne. intros ->. apply Hyl. by left.
  - eapply relinks_trans; [by apply (relinks_head c k C)|].
    eapply (relinks_proc c k1); [apply list_lookup_insert_eq; by eapply lookup_lt_Some|exact Hp|apply linked_next, linked_refl].
Qed.

(** The commands that unlink [p] behind [prev]. *)
Definition unlink (c q head p prev next : Z) : ST (kern M A) unit :=
  updp prev (set_next next);; (if head =? p then set_head c q next else ret tt);; updp p (set_next 0).

Lemma unlink_mid k (c : nat) C Qs p x (q : nat) a r b :
  cpus k !! c = Some C -> rq (procs k) C Qs -> procs k !! p = Some x -> Qs !! q = Some (a ++ r :: p :: b) ->
  exists k' C', unlink (Z.of_nat c) (Z.of_nat q) (hd 0 (a ++ r :: p :: b)) p r (p_next x) k = Ok (tt, k') /\
    cpus k' !! c = Some C' /\ rq (procs k') C' (<[q := without p (a ++ r :: p :: b)]> Qs) /\ relinks c k k'.
Proof.
  intros HC Hrq Hp Hl. pose proof (nodup_queue _ _ _ (rq_nodup _ _ _ Hrq) Hl) as Hnd.
  pose proof (Forall_lookup_1 _ _ _ _ (rq_ring _ _ _ Hrq) Hl) as Hring.
  set (l := a ++ r :: p :: b) in *. assert (r ∈ l /\ p ∈ l) as [Hrl Hpl].
  { unfold l. rewrite !elem_of_app, !elem_of_cons. naive_solver. }
  destruct (rq_queue _ _ _ Hrq q _ r Hl Hrl) as (pr & Hr & _).
  assert ((p ∉ a ++ [r]) /\ p ∉ b) as [Hpa Hpb].
  { unfold l in Hnd. change (r :: p :: b) with ([r] ++ p :: b) in Hnd. rewrite app_assoc in Hnd.
    apply NoDup_app in Hnd as (_ & Hd & [? _]%NoDup_cons). split; [|done]. intros Hin. apply (Hd p Hin). by left. }
  apply not_elem_of_app in Hpa as [Hpa Hpr]. rewrite list_elem_of_singleton in Hpr.
  assert (without p l = a ++ r :: b) as ->.
  { unfold l. change (r :: p :: b) with ([r] ++ p :: b). rewrite app_assoc, without_mid; [by rewrite <- app_assoc| |done].
    by rewrite not_elem_of_app, list_elem_of_singleton. }
  assert (hd 0 (a ++ r :: b) = hd 0 l) as Ehd by (by destruct a).
  assert (hd 0 l <> p) as Hhp by (unfold l; destruct a; cbn; [congruence|]; intros ->; apply Hpa; by left).
  assert (c_run_queues C !! q = Some (hd 0 l)) as Hhd by (by rewrite (rq_heads _ _ _ Hrq), list_lookup_fmap, Hl).
  unfold unlink. rewrite (bind_ok _ _ _ _ _ (updp_ok k r _ pr Hr)), (proj2 (Z.eqb_neq _ p) Hhp), bind_ret. set (k1 := set_procs _ k).
  edestruct (unlink_step_ok k c C Qs p x q l (a ++ r :: b) r pr) as (k3 & E3 & Ec & Hrq3 & R3);
    [done..| |by apply ring_unlink|reflexivity|reflexivity|].
  { unfold l. change (r :: p :: b) with ([r] ++ p :: b). rewrite app_assoc, <- Permutation_middle. by rewrite <- app_assoc. }
  rewrite Ehd in E3, Ec, Hrq3. fold k1 in E3, Ec. rewrite (set_head_same k1 c C q _ HC Hhd) in E3, Ec.
  assert (set_run_queues (<[q := hd 0 l]> (c_run_queues C)) C = C) as EC.
  { rewrite list_insert_id by done. by destruct C. }
  rewrite EC in Hrq3. exists k3, C. split; [exact E3|]. split; [by rewrite Ec|]. done.
Qed.

Lemma unlink_head k (c : nat) C Qs p x (q : nat) l r :
  cpus k !! c = Some C -> rq (procs k) C Qs -> procs k !! p = Some x -> Qs !! q = Some (p :: l ++ [r]) ->
  exists k' C', unlink (Z.of_nat c) (Z.of_nat q) p p r (p_next x) k = Ok (tt, k') /\
    cpus k' !! c = Some C' /\ rq (procs k') C' (<[q := without p (p :: l ++ [r])]> Qs) /\ relinks c k k'.
Proof.
  intros HC Hrq Hp Hl. pose proof (nodup_queue _ _ _ (rq_nodup _ _ _ Hrq) Hl) as Hnd. pose proof (lookup_lt_Some _ _ _ Hl) as Hq4.
  pose proof (Forall_lookup_1 _ _ _ _ (rq_ring _ _ _ Hrq) Hl) as Hring.
  destruct (rq_queue _ _ _ Hrq q _ r Hl ltac:(set_solver)) as (pr & Hr & _).
  assert (p ∉ l ++ [r]) as Hpl by (by apply NoDup_cons in Hnd as [? _]).
  assert (p <> r) as Hpr by (intros ->; apply Hpl; set_solver).
  unfold without. rewrite filter_cons_False by tauto. fold (without p (l ++ [r])). rewrite without_notin by done.
  assert (p_next x = hd 0 (l ++ [r])) as Hn.
  { destruct Hring as [(x' & Hx' & En) _]. assert (x' = x) as -> by congruence. rewrite En. by destruct l. }
  unfold unlink. rewrite (bind_ok _ _ _ _ _ (updp_ok k r _ pr Hr)), Z.eqb_refl. set (k1 := set_procs _ k).
  rewrite (rq_len _ _ _ Hrq) in Hq4.
  rewrite (bind_ok _ _ _ _ _ (set_head_ok k1 c C q (p_next x) HC ltac:(rewrite (length_heads _ _ _ Hrq); lia))).
  edestruct (unlink_step_ok k c C Qs p x q (p :: l ++ [r]) (l ++ [r]) r pr) as (k3 & E3 & Ec & Hrq3 & R3);
    [done|done|done|done|done|done|set_solver|set_solver|done|by apply ring_unlink_head|reflexivity|reflexivity|].
  fold k1 in E3, Ec. rewrite <- Hn in E3, Ec. exists k3. eexists. split; [exact E3|]. split; [|done].
  rewrite Ec, Hn. apply list_lookup_insert_eq. by eapply lookup_lt_Some.
Qed.

Lemma remove_from_queue_ok k (c : nat) C Qs p x (q : nat) l :
  cpus k !! c = Some C -> rq (procs k) C Qs -> procs k !! p = Some x -> p_mlfq_queue x = Z.of_nat q ->
  Qs !! q = Some l -> p <> 0 ->
  exists k' C', remove_from_queue (Z.of_nat c) p k = Ok (tt, k') /\ cpus k' !! c = Some C' /\
    rq (procs k') C' (<[q := without p l]> Qs) /\ relinks c k k'.
Proof.
  intros HC Hrq Hp Hq Hl Hp0. pose proof (lookup_lt_Some _ _ _ Hl) as Hq4. rewrite (rq_len _ _ _ Hrq) in Hq4.
  unfold remove_from_queue. rewrite (bind_ok _ _ _ _ _ (getp_ok _ _ _ Hp)), Hq.
  rewrite (proj2 (Z.ltb_ge _ 0)) by lia. rewrite (proj2 (Z.leb_gt NUM_QUEUES _)) by (unfold NUM_QUEUES; lia). cbn [orb].
  rewrite (bind_ok _ _ _ _ _ (rq_head_ok k c C Qs q l HC Hrq Hl)).
  pose proof (relinks_refl c k C HC) as Rrefl.
  assert (without p l = l -> exists k' C', ret tt k = Ok (tt, k') /\ cpus k' !! c = Some C' /\
    rq (procs k') C' (<[q := without p l]> Qs) /\ relinks c k k') as Hnone.
  { intros ->. exists k, C. rewrite list_insert_id by done. done. }
  pose proof (nodup_queue _ _ _ (rq_nodup _ _ _ Hrq) Hl) as Hnd. pose proof (null_queue _ _ _ _ _ Hrq Hl) as H0.
  pose proof (Forall_lookup_1 _ _ _ _ (rq_ring _ _ _ Hrq) Hl) as Hring. pose proof (rq_size _ _ _ _ _ Hrq Hl) as Hsz.
  destruct l as [|h t]; cbn [hd]; [by apply Hnone|]. apply not_elem_of_cons in H0 as [Hh0 Ht0].
  rewrite (proj2 (Z.eqb_neq h 0)) by congruence. apply NoDup_cons in Hnd as [Hht Hndt].
  assert (c_run_queues C !! q = Some h) as Hhd by (by rewrite (rq_heads _ _ _ Hrq), list_lookup_fmap, Hl).
  destruct ((h =? p) && (p_next x =? p)) eqn:Eself.
  - apply andb_true_iff in Eself as [->%Z.eqb_eq En%Z.eqb_eq]. destruct Hring as [(x' & Hx' & Hn) _].
    assert (x' = x) as -> by congruence. destruct t as [|y t]; [|exfalso; apply Hht, elem_of_cons; left; cbn in Hn; congruence].
    unfold without. rewrite filter_cons_False by tauto. rewrite filter_nil. by eapply remove_single.
  - rewrite bind_gets. unfold id. destruct (find_prev_ok k (S (size (procs k))) h p h t Hring Hht ltac:(simpl in Hsz; lia)) as (r & Ef & Hr).
    rewrite (bind_ok _ _ _ _ _ Ef). destruct Hr as [(a & b & El)|[(Hpt & -> & a & El)|(Hpt & Hph & ->)]].
    + assert (r ∈ h :: t) as Hrl by (rewrite El; set_solver).
      rewrite (proj2 (Z.eqb_neq r 0)) by (intros ->; apply elem_of_cons in Hrl as [?|?]; [congruence|done]).
      rewrite El in Hl. destruct (unlink_mid k c C Qs p x q a r b HC Hrq Hp Hl) as (k' & C' & E & Hrest).
      rewrite <- El in E, Hrest. exists k', C'. split; [exact E|exact Hrest].
    + assert (r ∈ h :: t) as Hrl by (rewrite El; set_solver).
      rewrite (proj2 (Z.eqb_neq r 0)) by (intros ->; apply elem_of_cons in Hrl as [?|?]; [congruence|done]).
      destruct a as [|h' a]; cbn in El; injection El as <- ->.
      * destruct Hring as [(x' & Hx' & Hn) _]. assert (x' = x) as -> by congruence. cbn in Hn.
        by rewrite Hn, Z.eqb_refl in Eself.
      * by eapply unlink_head.
    + cbn [Z.eqb]. apply Hnone. apply without_notin. by rewrite not_elem_of_cons.
Qed.

End Ops.
