(* ===== verification/SchedSpec.v ===== *)
(** * The scheduler's invariant on one CPU

    The invariant of a CPU that has no other CPU to steal from, that adding,
    removing and rotating keep it, and what [pick_next_or_idle] chooses. *)

From stdpp Require Import base tactics numbers list gmap.
From S2P Require Import Prelude Alloc Proc Sched SchedProofs.

Section Spec.
Context {M A : Type} `{AddressSpaces A}.
Implicit Types k : kern M A.

Record sched_inv (k : kern M A) (C : cpu) (Qs : list (list Z)) : Prop := {
  si_cpu : cpus k !! 0%nat = Some C;
  si_id : c_id C = 0;
  si_count : cpu_count k = 1;
  si_rq : rq (procs k) C Qs;
  si_procs : forall p x, procs k !! p = Some x -> p <> 0 /\ 0 <= p_mlfq_queue x < 4 /\ p_owner_cpu x = 0;
  si_current : c_current C = 0 \/ is_Some (procs k !! c_current C);
  si_idle : c_idle_proc C = 0 \/ (is_Some (procs k !! c_idle_proc C) /\ c_idle_proc C ∉ mjoin Qs)
}.

(** Relinking keeps the invariant, when the idle process stays out. *)
Lemma inv_relinks k k' C C' Qs Qs' : sched_inv k C Qs -> relinks 0 k k' -> cpus k' !! 0%nat = Some C' ->
  rq (procs k') C' Qs' -> (c_idle_proc C = 0 \/ c_idle_proc C ∉ mjoin Qs') -> sched_inv k' C' Qs'.
Proof.
  intros [H1 H2 H3 H4 H5 H6 H7] [R1 (C0 & r & HC0 & Ec) R3 R4] HC' Hrq Hidle.
  assert (C0 = C) as -> by congruence. pose proof (lookup_lt_Some _ _ _ H1).
  rewrite Ec, list_lookup_insert_eq in HC' by done. injection HC' as <-. split.
  - rewrite Ec. by apply list_lookup_insert_eq.
  - done.
  - by rewrite R1.
  - done.
  - intros p x' Hx'. destruct (proj2 (R3 p) ltac:(eauto)) as [x Hx]. destruct (H5 p x Hx) as (? & ? & ?).
    destruct (R4 p x x' Hx Hx') as (m & n & -> & Hm). cbn. split; [done|]. split; [destruct Hm; lia|done].
  - destruct H6 as [?|Hs]; [by left|right]. by apply R3.
  - cbn. destruct H7 as [?|[Hs _]]; [by left|]. destruct Hidle as [?|?]; [by left|]. right. split; [by apply R3|done].
Qed.

(** So does an update of a process that keeps its links. *)
Lemma inv_update k C Qs p x x' : sched_inv k C Qs -> procs k !! p = Some x -> p_next x' = p_next x ->
  p_mlfq_queue x' = p_mlfq_queue x -> p_owner_cpu x' = 0 ->
  sched_inv (set_procs (<[p := x']> (procs k)) k) C Qs.
Proof.
  intros [H1 H2 H3 H4 H5 H6 H7] Hp Hn Hq Ho. split; cbn [procs set_procs cpus cpu_count]; try done.
  - by apply (rq_update _ _ _ _ x).
  - intros y z. rewrite lookup_insert_Some. intros [[<- <-]|[_ Hz]]; [|by apply H5]. rewrite Hq. by destruct (H5 p x Hp) as (? & ? & _).
  - destruct H6 as [?|Hs]; [by left|right]. rewrite lookup_insert_is_Some. destruct (decide (p = c_current C)); naive_solver.
  - destruct H7 as [?|[Hs ?]]; [by left|right]. split; [|done]. rewrite lookup_insert_is_Some. destruct (decide (p = c_idle_proc C)); naive_solver.
Qed.

(** And an update of the CPU that keeps queues, idle process and number. *)
Lemma inv_cpu k C C' Qs : sched_inv k C Qs -> c_id C' = 0 -> c_run_queues C' = c_run_queues C ->
  c_idle_proc C' = c_idle_proc C -> (c_current C' = c_current C \/ is_Some (procs k !! c_current C')) ->
  sched_inv (set_cpus (<[0%nat := C']> (cpus k)) k) C' Qs.
Proof.
  intros [H1 H2 H3 H4 H5 H6 H7] E1 E2 E3 E4. split; cbn [procs set_cpus cpus cpu_count]; try done.
  - apply list_lookup_insert_eq. by eapply lookup_lt_Some.
  - destruct H4 as [? Hh ? ? ? ?]. split; try done. by rewrite E2.
  - destruct E4 as [->|?]; [done|by right].
  - by rewrite E3.
Qed.

Lemma inv_log k C Qs e : sched_inv k C Qs -> sched_inv (set_klog (klog k ++ [e]) k) C Qs.
Proof. by intros [H1 H2 H3 H4 H5 H6 H7]. Qed.

(** The queue of a process. *)
Lemma inv_queue_of k C Qs p x : sched_inv k C Qs -> procs k !! p = Some x ->
  exists (q : nat) l, p_mlfq_queue x = Z.of_nat q /\ (q < 4)%nat /\ Qs !! q = Some l /\ (p ∈ mjoin Qs -> p ∈ l).
Proof.
  intros Hi Hp. destruct (si_procs _ _ _ Hi p x Hp) as (_ & Hq & _). exists (Z.to_nat (p_mlfq_queue x)).
  pose proof (rq_len _ _ _ (si_rq _ _ _ Hi)) as Hl. destruct (lookup_lt_is_Some_2 Qs (Z.to_nat (p_mlfq_queue x)) ltac:(lia)) as [l El].
  exists l. split; [lia|]. split; [lia|]. split; [done|]. intros (m & Hpm & [j Hj]%list_elem_of_lookup)%list_elem_of_join.
  destruct (rq_queue _ _ _ (si_rq _ _ _ Hi) j m p Hj Hpm) as (x' & Hx' & Hxq). assert (x' = x) as -> by congruence.
  assert (j = Z.to_nat (p_mlfq_queue x)) as -> by lia. congruence.
Qed.

(** ** Adding and removing *)

Lemma inv_add k C Qs p x (q : nat) l : sched_inv k C Qs -> procs k !! p = Some x -> p ∉ mjoin Qs ->
  p <> c_idle_proc C -> Qs !! q = Some l ->
  exists k' C', add_to_queue 0 p (Z.of_nat q) k = Ok (tt, k') /\ sched_inv k' C' (<[q := insert_behind p l]> Qs) /\
    mjoin (<[q := insert_behind p l]> Qs) ≡ₚ p :: mjoin Qs /\ relinks 0 k k' /\ cpus k' !! 0%nat = Some C'.
Proof.
  intros Hi Hp Hpq Hpi Hl.
  destruct (add_to_queue_ok k 0 C Qs p x q l (si_cpu _ _ _ Hi) (si_rq _ _ _ Hi) Hp Hpq) as (k' & C' & E & HC' & Hrq & R);
    [by destruct (si_procs _ _ _ Hi p x Hp)|done|].
  assert (mjoin (<[q := insert_behind p l]> Qs) ≡ₚ p :: mjoin Qs) as Hperm.
  { destruct (concat_insert Qs q l (insert_behind p l) Hl) as (r & E1 & E2). rewrite E2, insert_behind_perm, E1. done. }
  exists k', C'. split; [exact E|]. split; [|done]. eapply inv_relinks; [exact Hi|done|done|done|].
  destruct (si_idle _ _ _ Hi) as [?|[_ ?]]; [by left|right]. rewrite Hperm, not_elem_of_cons. done.
Qed.

Lemma without_perm p l : p ∈ l -> NoDup l -> l ≡ₚ p :: without p l.
Proof.
  intros Hp Hnd. apply list_elem_of_split in Hp as (a & b & ->). apply NoDup_app in Hnd as (_ & Hd & [Hb _]%NoDup_cons).
  rewrite without_mid; [by rewrite Permutation_middle| |done]. intros Ha. apply (Hd p Ha). by left.
Qed.

Lemma inv_remove k C Qs p x : sched_inv k C Qs -> procs k !! p = Some x ->
  exists k' C' (q : nat) l, remove_from_queue 0 p k = Ok (tt, k') /\ sched_inv k' C' (<[q := without p l]> Qs) /\
    mjoin (<[q := without p l]> Qs) ≡ₚ without p (mjoin Qs) /\ relinks 0 k k' /\ cpus k' !! 0%nat = Some C' /\
    p_mlfq_queue x = Z.of_nat q /\ (q < 4)%nat /\ Qs !! q = Some l.
Proof.
  intros Hi Hp. destruct (inv_queue_of k C Qs p x Hi Hp) as (q & l & Hq & Hq4 & Hl & Hin).
  destruct (remove_from_queue_ok k 0 C Qs p x q l (si_cpu _ _ _ Hi) (si_rq _ _ _ Hi) Hp Hq Hl) as (k' & C' & E & HC' & Hrq & R);
    [by destruct (si_procs _ _ _ Hi p x Hp)|].
  destruct (concat_insert Qs q l (without p l) Hl) as (r & E1 & E2).
  assert (mjoin (<[q := without p l]> Qs) ≡ₚ without p (mjoin Qs)) as Hperm.
  { assert (without p r = r) as Er.
    { apply without_notin. pose proof (rq_nodup _ _ _ (si_rq _ _ _ Hi)) as Hnd. rewrite E1 in Hnd.
      apply NoDup_app in Hnd as (_ & Hd & _). intros Hr. apply (Hd p); [|done]. apply Hin. rewrite E1. apply elem_of_app. by right. }
    rewrite E2. unfold without at 2. rewrite E1, filter_app. fold (without p l) (without p r). by rewrite Er. }
  exists k', C', q, l. split; [exact E|]. split; [|done]. eapply inv_relinks; [exact Hi|done|done|done|].
  destruct (si_idle _ _ _ Hi) as [?|[_ Hn]]; [by left|right]. rewrite Hperm. unfold without. rewrite list_elem_of_filter. tauto.
Qed.

(** ** Choosing a process *)

(** The head and the number of the first queue that is not empty. *)
Fixpoint first_ready (q : Z) (Qs : list (list Z)) : Z * Z :=
  match Qs with
  | [] => (0, 0)
  | [] :: Qs' => first_ready (q + 1) Qs'
  | (h :: _) :: _ => (h, q)
  end.

Lemma first_ready_spec Qs (i : nat) : 0 ∉ mjoin Qs ->
  (first_ready (Z.of_nat i) Qs = (0, 0) /\ mjoin Qs = []) \/
  exists (j : nat) h t, first_ready (Z.of_nat i) Qs = (h, Z.of_nat (i + j)) /\ Qs !! j = Some (h :: t) /\ h <> 0.
Proof.
  revert i. induction Qs as [|[|h t] Qs IH]; intros i H0; cbn [first_ready]; [by left| |].
  - cbn in H0. replace (Z.of_nat i + 1) with (Z.of_nat (S i)) by lia.
    destruct (IH (S i) H0) as [[-> ?]|(j & h & t & -> & Hj & Hh)]; [by left|right].
    exists (S j), h, t. split; [do 2 f_equal; lia|]. done.
  - right. exists 0%nat, h, t. split; [do 2 f_equal; lia|]. split; [done|]. cbn in H0. intros ->. apply H0. by left.
Qed.

Lemma find_next_ok k C Qs : sched_inv k C Qs -> find_next_process 0 k = Ok (first_ready 0 Qs, k).
Proof.
  intros Hi. pose proof (rq_len _ _ _ (si_rq _ _ _ Hi)) as Hlen. unfold find_next_process.
  assert (forall n (i : nat), (i + n = 4)%nat -> for_until n (Z.of_nat i) (fun q => head ← rq_head 0 q;
      ret (if head =? 0 then None else Some (head, q))) k =
    Ok (match first_ready (Z.of_nat i) (drop i Qs) with (0, _) => None | r => Some r end, k)) as Hloop.
  { induction n as [|n IH]; intros i Hin; cbn [for_until].
    - rewrite drop_ge by lia. done.
    - destruct (lookup_lt_is_Some_2 Qs i ltac:(lia)) as [l Hl]. rewrite (drop_S _ _ _ Hl). cbn [first_ready].
      rewrite bind_assoc, (bind_ok _ _ _ _ _ (rq_head_ok k 0 C Qs i l (si_cpu _ _ _ Hi) (si_rq _ _ _ Hi) Hl)), bind_ret.
      pose proof (null_queue _ _ _ _ _ (si_rq _ _ _ Hi) Hl) as H0. destruct l as [|h t]; cbn [hd].
      + cbn [Z.eqb]. replace (Z.of_nat i + 1) with (Z.of_nat (S i)) by lia. apply IH. lia.
      + apply not_elem_of_cons in H0 as [Hh _]. rewrite (proj2 (Z.eqb_neq h 0)) by congruence. by destruct h. }
  rewrite (bind_ok _ _ _ _ _ (Hloop 4%nat 0%nat eq_refl)). rewrite drop_0.
  change (Z.of_nat 0) with 0. destruct (first_ready_spec Qs 0 (rq_null _ _ _ (si_rq _ _ _ Hi))) as [[Ef _]|(j & h & t & Ef & _ & Hh)];
    change (Z.of_nat 0) with 0 in Ef; rewrite Ef; [done|by destruct h].
Qed.

(** With one CPU there is nobody to steal from. *)
Lemma try_steal_ok k C Qs : sched_inv k C Qs ->
  exists t, try_steal_work 0 k = Ok (0, set_cpus (<[0%nat := set_last_steal t C]> (cpus k)) k).
Proof.
  intros Hi. unfold try_steal_work. rewrite (bind_ok _ _ _ _ _ (getc_ok k 0 C (si_cpu _ _ _ Hi))).
  destruct (_ && _).
  { exists (c_last_steal_tick C). assert (set_last_steal (c_last_steal_tick C) C = C) as -> by (by destruct C).
    rewrite list_insert_id by apply Hi. by destruct k. }
  exists (c_sched_ticks C). rewrite (bind_ok _ _ _ _ _ (updc_ok k 0 _ C (si_cpu _ _ _ Hi))). set (k1 := set_cpus _ k).
  rewrite bind_gets. change (cpu_count k1) with (cpu_count k). rewrite (si_count _ _ _ Hi). change (Z.to_nat 1) with 1%nat. cbn [for_until].
  assert (cpus k1 !! 0%nat = Some (set_last_steal (c_sched_ticks C) C)) as HC1
    by (apply list_lookup_insert_eq; eapply lookup_lt_Some, Hi).
  rewrite !bind_assoc, (bind_ok _ _ _ _ _ (getc_ok k1 0 _ HC1)). cbn [c_id set_last_steal]. rewrite (si_id _ _ _ Hi). done.
Qed.

(** The head of a queue moves to its end. *)
Lemma inv_rotate k C Qs (q : nat) h t : sched_inv k C Qs -> Qs !! q = Some (h :: t) ->
  exists n, p_next_of h k = Ok (n, k) /\
    set_head 0 (Z.of_nat q) n k = Ok (tt, set_cpus (<[0%nat := set_run_queues (<[q := n]> (c_run_queues C)) C]> (cpus k)) k) /\
    sched_inv (set_cpus (<[0%nat := set_run_queues (<[q := n]> (c_run_queues C)) C]> (cpus k)) k)
      (set_run_queues (<[q := n]> (c_run_queues C)) C) (<[q := t ++ [h]]> Qs) /\
    mjoin (<[q := t ++ [h]]> Qs) ≡ₚ mjoin Qs.
Proof.
  intros Hi Hl. pose proof (si_rq _ _ _ Hi) as Hrq. pose proof (lookup_lt_Some _ _ _ Hl) as Hq4. rewrite (rq_len _ _ _ Hrq) in Hq4.
  pose proof (Forall_lookup_1 _ _ _ _ (rq_ring _ _ _ Hrq) Hl) as Hring.
  destruct Hring as [(hr & Hh & Hn) Ht]. cbn [hd] in Hn.
  destruct (concat_insert Qs q (h :: t) (t ++ [h]) Hl) as (r & E1 & E2).
  assert (mjoin (<[q := t ++ [h]]> Qs) ≡ₚ mjoin Qs) as Hperm.
  { rewrite E1, E2. by rewrite (Permutation_app_comm t [h]). }
  assert (hd 0 (t ++ [h]) = p_next hr) as Ehd by (rewrite Hn; by destruct t).
  exists (p_next hr). split; [by apply p_next_ok|]. split; [apply (set_head_ok k 0 C q); [apply Hi|rewrite (length_heads _ _ _ Hrq); lia]|].
  split; [|done]. eapply (inv_relinks k); [exact Hi|apply relinks_head, Hi|apply list_lookup_insert_eq; eapply lookup_lt_Some, Hi| |].
  - eapply rq_replace; [exact Hrq|exact Hl|by rewrite Ehd| |by rewrite Hperm; apply Hrq| | |done].
    + apply ring_rotate. split; [by exists hr|done].
    + pose proof (null_queue _ _ _ _ _ Hrq Hl) as H0. by rewrite (Permutation_app_comm t [h]).
    + intros p Hp. apply (rq_queue _ _ _ Hrq q (h :: t)); [done|]. by rewrite (Permutation_app_comm t [h]) in Hp.
  - destruct (si_idle _ _ _ Hi) as [?|[_ ?]]; [by left|right]. by rewrite Hperm.
Qed.

(** A choice changes the order of a queue and the time of the last theft. *)
Definition same_cpu (C C' : cpu) : Prop :=
  exists r t, C' = set_last_steal t (set_run_queues r C).

Record chosen (k : kern M A) (C : cpu) (Qs : list (list Z)) (p : Z) (q : nat) (k' : kern M A) (C' : cpu) (Qs' : list (list Z)) : Prop := {
  ch_inv : sched_inv k' C' Qs';
  ch_perm : mjoin Qs' ≡ₚ mjoin Qs;
  ch_queue : (q < 4)%nat;
  ch_rest : k' = set_cpus (cpus k') k;
  ch_cpu : same_cpu C C';
  ch_choice : p = c_idle_proc C \/ (p <> 0 /\ exists t, Qs' !! q = Some (p :: t))
}.

Lemma choose_idle k C Qs (q : nat) : sched_inv k C Qs -> (q < 4)%nat ->
  exists k' C', pick_or_steal 0 0 (Z.of_nat q) k = Ok ((c_idle_proc C, Z.of_nat q), k') /\
    chosen k C Qs (c_idle_proc C) q k' C' Qs.
Proof.
  intros Hi Hq. destruct (try_steal_ok k C Qs Hi) as (t & Es). set (k1 := set_cpus _ k) in Es.
  assert (sched_inv k1 (set_last_steal t C) Qs) as Hi1 by (eapply inv_cpu; [exact Hi|apply Hi|done|done|by left]).
  exists k1, (set_last_steal t C). unfold pick_or_steal. cbn [Z.eqb]. rewrite bind_assoc, (bind_ok _ _ _ _ _ Es).
  cbn [Z.eqb negb]. rewrite bind_ret. rewrite (bind_ok _ _ _ _ _ (getc_ok k1 0 _ (si_cpu _ _ _ Hi1))). split; [done|].
  split; [done|done|done|done| |by left]. exists (c_run_queues C), t. by destruct C.
Qed.

Lemma choose_head k C Qs (q : nat) h t : sched_inv k C Qs -> Qs !! q = Some (h :: t) ->
  pick_or_steal 0 h (Z.of_nat q) k = Ok ((h, Z.of_nat q), k) /\ chosen k C Qs h q k C Qs.
Proof.
  intros Hi Hl. pose proof (lookup_lt_Some _ _ _ Hl) as Hq. rewrite (rq_len _ _ _ (si_rq _ _ _ Hi)) in Hq.
  assert (h <> 0) as Hh by (pose proof (null_queue _ _ _ _ _ (si_rq _ _ _ Hi) Hl) as [? _]%not_elem_of_cons; congruence).
  unfold pick_or_steal. rewrite (proj2 (Z.eqb_neq h 0) Hh), bind_ret.
  rewrite (bind_ok _ _ _ _ _ (getc_ok k 0 C (si_cpu _ _ _ Hi))), (proj2 (Z.eqb_neq h 0) Hh). split; [done|].
  split; [done|done|done|by destruct k| |right; eauto]. exists (c_run_queues C), (c_last_steal_tick C). by destruct C.
Qed.

Lemma cpu_current_ok k C Qs : sched_inv k C Qs -> current_process 0 k = Ok (c_current C, k).
Proof. intros Hi. unfold current_process. by rewrite (bind_ok _ _ _ _ _ (getc_ok k 0 C (si_cpu _ _ _ Hi))). Qed.

Lemma pick_ok k C Qs : sched_inv k C Qs ->
  exists p q k' C' Qs', pick_next_or_idle 0 k = Ok ((p, Z.of_nat q), k') /\ chosen k C Qs p q k' C' Qs'.
Proof.
  intros Hi. unfold pick_next_or_idle. rewrite (bind_ok _ _ _ _ _ (find_next_ok k C Qs Hi)).
  destruct (first_ready_spec Qs 0 (rq_null _ _ _ (si_rq _ _ _ Hi))) as [[Ef _]|(q & h & t & Ef & Hl & Hh)];
    change (Z.of_nat 0) with 0 in Ef; rewrite Ef, (bind_ok _ _ _ _ _ (cpu_current_ok k C Qs Hi)).
  { destruct (choose_idle k C Qs 0 Hi ltac:(lia)) as (k' & C' & E & Hc). by exists (c_idle_proc C), 0%nat, k', C', Qs. }
  destruct (choose_head k C Qs q h t Hi Hl) as [Ekeep Hkeep]. rewrite (proj2 (Z.eqb_neq h 0) Hh). cbn [negb andb Nat.add].
  destruct (Z.eqb_spec h (c_current C)) as [Ehc|Ehc]; [|by exists h, q, k, C, Qs].
  destruct (rq_queue _ _ _ (si_rq _ _ _ Hi) q _ h Hl ltac:(by left)) as (x & Hx & _).
  rewrite <- Ehc. rewrite bind_assoc, (bind_ok _ _ _ _ _ (getp_ok k h x Hx)).
  destruct (p_state x =? PROCESS_RUNNING); cbn [negb]; [by exists h, q, k, C, Qs|].
  destruct (inv_rotate k C Qs q h t Hi Hl) as (n & En & Eh & Hi1 & Hperm). set (C1 := set_run_queues _ C) in *.
  rewrite bind_assoc, (bind_ok _ _ _ _ _ (rq_head_ok k 0 C Qs q _ (si_cpu _ _ _ Hi) (si_rq _ _ _ Hi) Hl)). cbn [hd].
  rewrite bind_assoc, (bind_ok _ _ _ _ _ En), bind_assoc, (bind_ok _ _ _ _ _ Eh). set (k1 := set_cpus _ k) in *.
  rewrite bind_assoc, (bind_ok _ _ _ _ _ (find_next_ok k1 C1 _ Hi1)).
  assert (forall p q' k' C' Qs', chosen k1 C1 (<[q := t ++ [h]]> Qs) p q' k' C' Qs' -> chosen k C Qs p q' k' C' Qs') as Hch.
  { intros p q' k' C' Qs' [? Hp' ? Hr' (r & t' & ->) ?]. split; [done|by rewrite Hp'|done|by rewrite Hr'| |done]. by exists r, t'. }
  destruct (first_ready_spec _ 0 (rq_null _ _ _ (si_rq _ _ _ Hi1))) as [[Ef1 _]|(q1 & h1 & t1 & Ef1 & Hl1 & Hh1)];
    change (Z.of_nat 0) with 0 in Ef1; rewrite Ef1.
  { rewrite (proj2 (Z.eqb_neq 0 h)) by congruence. rewrite bind_ret. destruct (choose_idle k1 C1 _ 0 Hi1 ltac:(lia)) as (k' & C' & E & Hc).
    exists (c_idle_proc C), 0%nat, k', C'. eexists. split; [exact E|]. by apply Hch. }
  cbn [Nat.add]. destruct (Z.eqb_spec h1 h) as [->|Hne]; rewrite bind_ret.
  - pose proof (lookup_lt_Some _ _ _ Hl1) as Hq1. rewrite (rq_len _ _ _ (si_rq _ _ _ Hi1)) in Hq1.
    destruct (choose_idle k1 C1 _ q1 Hi1 Hq1) as (k' & C' & E & Hc).
    exists (c_idle_proc C), q1, k', C'. eexists. split; [exact E|]. by apply Hch.
  - destruct (choose_head k1 C1 _ q1 h1 t1 Hi1 Hl1) as [E Hc]. exists h1, q1, k1, C1. eexists. split; [exact E|]. by apply Hch.
Qed.

(** The current process is not the head, or it runs: the choice is the head of
    the first queue that is not empty. *)
Lemma pick_first k C Qs (q : nat) h t : sched_inv k C Qs -> first_ready 0 Qs = (h, Z.of_nat q) -> Qs !! q = Some (h :: t) ->
  (h = c_current C -> exists x, procs k !! h = Some x /\ p_state x = PROCESS_RUNNING) ->
  pick_next_or_idle 0 k = Ok ((h, Z.of_nat q), k).
Proof.
  intros Hi Ef Hl Hcur. unfold pick_next_or_idle. rewrite (bind_ok _ _ _ _ _ (find_next_ok k C Qs Hi)), Ef.
  rewrite (bind_ok _ _ _ _ _ (cpu_current_ok k C Qs Hi)). destruct (choose_head k C Qs q h t Hi Hl) as [E _].
  destruct (Z.eqb_spec h (c_current C)) as [Ehc|Ehc].
  - destruct (Hcur Ehc) as (x & Hx & Hs). rewrite <- Ehc. destruct (negb (h =? 0)); cbn [andb]; [|by rewrite bind_ret].
    by rewrite bind_assoc, (bind_ok _ _ _ _ _ (getp_ok k h x Hx)), Hs.
  - rewrite andb_false_r. by rewrite bind_ret.
Qed.

End Spec.
