(* ===== verification/SchedSwitch.v ===== *)
(** * Switching processes on one CPU

    [context_switch], the demotion of a process whose quantum is used up, and
    the branches of [schedule]: each returns, keeps the invariant of SchedSpec,
    and gives the processes the states stated here. *)

From stdpp Require Import base tactics numbers list gmap.
From S2P Require Import Prelude Alloc Proc Sched SchedProofs SchedSpec.

Section Switch.
Context {M A : Type} `{AddressSpaces A}.
Implicit Types k : kern M A.

(** The invariant, with the states of some processes. *)
Definition has (C : cpu) (Qs : list (list Z)) (St : gmap Z Z) (k : kern M A) : Prop :=
  sched_inv k C Qs /\ forall p s, St !! p = Some s -> exists x, procs k !! p = Some x /\ p_state x = s.

(** Updates that leave the scheduler's links alone. *)
Definition keeps_links (f : process -> process) : Prop :=
  forall x, p_next (f x) = p_next x /\ p_mlfq_queue (f x) = p_mlfq_queue x /\ p_owner_cpu (f x) = p_owner_cpu x.

Lemma has_getp C Qs St k p s : has C Qs St k -> St !! p = Some s ->
  wp (getp p) (fun x k' => k' = k /\ procs k !! p = Some x /\ p_state x = s) k.
Proof. intros [_ HS] Hp. destruct (HS p s Hp) as (x & Hx & Hs). by eapply wp_ok; [apply getp_ok|]. Qed.

Lemma has_updp C Qs St k p f s s' : has C Qs St k -> St !! p = Some s -> keeps_links f ->
  (forall x, p_state x = s -> p_state (f x) = s') -> wp (updp p f) (fun _ k' => has C Qs (<[p := s']> St) k') k.
Proof.
  intros [Hi HS] Hp Hf Hs. destruct (HS p s Hp) as (x & Hx & Hxs). destruct (Hf x) as (E1 & E2 & E3).
  eapply wp_ok; [by apply updp_ok|]. split.
  - eapply inv_update; [exact Hi|exact Hx|done|done|]. rewrite E3. by apply (si_procs _ _ _ Hi p x Hx).
  - intros y r. cbn [procs set_procs]. rewrite lookup_insert_Some. intros [[<- <-]|[Hne Hy]].
    + rewrite lookup_insert_eq. eauto.
    + rewrite lookup_insert_ne by done. by apply HS.
Qed.

Lemma has_log C Qs St k e : has C Qs St k -> wp (log e) (fun _ k' => has C Qs St k') k.
Proof. intros [Hi HS]. apply wp_modify. split; [by apply inv_log|done]. Qed.

Lemma has_exists C Qs St k p : has C Qs St k -> is_Some (St !! p) -> is_Some (procs k !! p).
Proof. intros [_ HS] [s Hs]. destruct (HS p s Hs) as (x & Hx & _). eauto. Qed.

Lemma has_updc C Qs St k f : has C Qs St k ->
  c_id (f C) = c_id C -> c_run_queues (f C) = c_run_queues C -> c_idle_proc (f C) = c_idle_proc C ->
  (c_current (f C) = c_current C \/ is_Some (St !! c_current (f C))) -> wp (updc 0 f) (fun _ k' => has (f C) Qs St k') k.
Proof.
  intros Hk E1 E2 E3 E4. pose proof Hk as [Hi HS]. eapply wp_ok; [apply (updc_ok k 0 f C), Hi|]. split; [|done].
  eapply inv_cpu; [exact Hi|by rewrite E1; apply Hi|done|done|]. destruct E4 as [?|Hin]; [by left|right]. by eapply has_exists.
Qed.

(** The state [context_switch] leaves the old process in. *)
Definition left_state (s : Z) : Z := if s =? PROCESS_RUNNING then PROCESS_READY else s.

Definition switched (old new so : Z) (St : gmap Z Z) : gmap Z Z :=
  <[new := PROCESS_RUNNING]> (<[old := left_state so]> St).

Lemma context_switch_ok C Qs St k old new so sn : has C Qs St k -> St !! old = Some so -> St !! new = Some sn ->
  old <> 0 -> new <> 0 -> old <> new ->
  wp (context_switch 0 old new) (fun _ k' => has (set_current new C) Qs (switched old new so St) k') k.
Proof.
  intros Hk Ho Hn Ho0 Hn0 Hon. unfold context_switch.
  rewrite (proj2 (Z.eqb_neq old 0) Ho0), (proj2 (Z.eqb_neq new 0) Hn0), (proj2 (Z.eqb_neq old new) Hon). cbn [orb].
  eapply wp_step; [eapply (has_updp _ _ _ _ _ _ _ (left_state so) Hk Ho)|cbv beta; intros _ k1 H1].
  { intros x. by case_match. }
  { intros x <-. unfold left_state. by case_match. }
  eapply wp_step; [eapply (has_updp _ _ _ _ _ _ sn PROCESS_RUNNING H1); [by rewrite lookup_insert_ne|done|done]|cbv beta; intros _ k2 H2].
  fold (switched old new so St) in H2. set (St' := switched old new so St) in *.
  assert (St' !! old = Some (left_state so)) as Ho' by (unfold St', switched; rewrite lookup_insert_ne, lookup_insert_eq; done).
  assert (St' !! new = Some PROCESS_RUNNING) as Hn' by apply lookup_insert_eq.
  eapply wp_step; [eapply (has_updc _ _ _ _ _ H2); [done|done|done|by right; eexists]|cbv beta; intros _ k3 H3].
  eapply wp_step; [eapply has_getp; [exact H3|exact Ho']|]. intros o ? [-> _].
  eapply wp_step; [eapply has_getp; [exact H3|exact Hn']|]. intros x ? [-> _].
  eapply (wp_step _ _ (fun _ k' => has (set_current new C) Qs St' k')).
  { destruct (p_memory x =? 0); [by apply wp_ret|]. apply wp_bind, wp_gets. destruct (_ =? 0); [by apply wp_ret|].
    apply wp_bind, wp_gets. destruct (_ || _); [by apply has_log|by apply wp_ret]. }
  intros _ k4 H4. eapply (wp_step _ _ (fun _ k' => has (set_current new C) Qs St' k')).
  { destruct (p_kernel_stack x =? 0); [by apply wp_ret|by apply has_log]. }
  intros _ k5 H5. eapply wp_step; [eapply (has_updp _ _ _ _ _ _ _ PROCESS_RUNNING H5 Hn')|cbv beta; intros _ k6 H6].
  { intros y. by case_match. }
  { intros y. by case_match. }
  rewrite insert_id in H6 by done.
  eapply wp_step; [eapply has_getp; [exact H6|exact Ho']|]. intros o' ? [-> _].
  destruct (_ || _); by apply has_log.
Qed.

(** ** Demotion *)

(** The queues after an operation: no process left them, and at most the
    current one joined. *)
Definition grown (cur : Z) (Qs Qs' : list (list Z)) : Prop :=
  mjoin Qs' ≡ₚ mjoin Qs \/ ((cur ∉ mjoin Qs) /\ mjoin Qs' ≡ₚ cur :: mjoin Qs).

Lemma grown_perm cur Qs Qs1 Qs2 : grown cur Qs Qs1 -> mjoin Qs2 ≡ₚ mjoin Qs1 -> grown cur Qs Qs2.
Proof. intros [H1|[H1 H2]] Hp; [left|right]; rewrite Hp; done. Qed.

Definition queue (Qs : list (list Z)) (q : nat) : list Z := default [] (Qs !! q).

(** Demoted: out of queue [q] and behind the head of the next one. *)
Definition demote_queues (cur : Z) (q : nat) (Qs : list (list Z)) : list (list Z) :=
  let Qs1 := <[q := without cur (queue Qs q)]> Qs in
  let q' := Nat.min (S q) 3 in
  <[q' := insert_behind cur (queue Qs1 q')]> Qs1.

Lemma relinks_cpu k k' C C' : relinks 0 k k' -> cpus k !! 0%nat = Some C -> cpus k' !! 0%nat = Some C' ->
  exists r, C' = set_run_queues r C.
Proof.
  intros [_ (C0 & r & H0 & E) _ _] HC HC'. assert (C0 = C) as -> by congruence. exists r.
  rewrite E, list_lookup_insert_eq in HC' by (by eapply lookup_lt_Some). congruence.
Qed.

Lemma has_relinks C C' Qs Qs' St k k' : has C Qs St k -> relinks 0 k k' -> sched_inv k' C' Qs' -> has C' Qs' St k'.
Proof.
  intros [_ HS] R Hi. split; [done|]. intros p s Hp. destruct (HS p s Hp) as (x & Hx & Hs).
  destruct (proj1 (rl_dom _ _ _ R p) ltac:(eauto)) as [x' Hx']. exists x'. split; [done|].
  destruct (rl_procs _ _ _ R p x x' Hx Hx') as (m & n & -> & _). done.
Qed.

Lemma demote_ok C Qs St k cur x (q : nat) : has C Qs St k -> St !! cur = Some PROCESS_RUNNING -> procs k !! cur = Some x ->
  p_mlfq_queue x = Z.of_nat q -> cur <> 0 -> cur <> c_idle_proc C -> c_quantum_left C = 0 ->
  wp (demote_quantum_exhausted 0 cur) (fun _ k' => exists r,
    has (set_run_queues r C) (demote_queues cur q Qs) (<[cur := PROCESS_READY]> St) k') k /\
  grown cur Qs (demote_queues cur q Qs).
Proof.
  intros Hk Hst Hx Hq Hc0 Hidle Hquantum. pose proof Hk as [Hi HS].
  destruct (HS cur _ Hst) as (x0 & Hx0 & Hs). rewrite Hx in Hx0. injection Hx0 as <-.
  destruct (inv_remove k C Qs cur x Hi Hx) as (k1 & C1 & q0 & l & E1 & Hi1 & Hp1 & R1 & HC1 & Hq0 & Hq4 & Hl).
  assert (q0 = q) as -> by lia. destruct (relinks_cpu _ _ _ _ R1 (si_cpu _ _ _ Hi) HC1) as (r1 & EC1).
  pose proof (has_relinks _ _ _ _ _ _ _ Hk R1 Hi1) as Hk1.
  set (Qs1 := <[q := without cur l]> Qs) in *. set (q' := Nat.min (S q) 3).
  pose proof (rq_len _ _ _ (si_rq _ _ _ Hi1)) as Hlen.
  destruct (lookup_lt_is_Some_2 Qs1 q' ltac:(lia)) as [l' Hl'].
  assert (demote_queues cur q Qs = <[q' := insert_behind cur l']> Qs1) as ->.
  { assert (queue Qs q = l) as El by (unfold queue; by rewrite Hl). assert (queue Qs1 q' = l') as El' by (unfold queue; by rewrite Hl').
    unfold demote_queues. cbv zeta. rewrite El. fold Qs1 q'. by rewrite El'. }
  split; cycle 1.
  { destruct (concat_insert Qs1 q' l' (insert_behind cur l') Hl') as (r & F1 & F2). unfold grown. rewrite F2, insert_behind_perm.
    change ((cur :: l') ++ r) with (cur :: l' ++ r). rewrite <- F1, Hp1. destruct (decide (cur ∈ mjoin Qs)) as [Hin|Hout].
    - left. symmetry. apply without_perm; [done|]. apply (rq_nodup _ _ _ (si_rq _ _ _ Hi)).
    - right. split; [done|]. by rewrite without_notin. }
  unfold demote_quantum_exhausted. rewrite (proj2 (Z.eqb_neq cur 0) Hc0).
  eapply wp_bind_ok; [apply (getc_ok k 0 C), Hi|]. rewrite (proj2 (Z.eqb_neq cur _) Hidle).
  eapply wp_bind_ok; [by apply getp_ok|]. rewrite Hs, Hquantum. cbn [Z.eqb negb]. eapply wp_bind_ok; [exact E1|].
  eapply wp_step; [eapply (has_updp _ _ _ _ _ _ _ PROCESS_READY Hk1 Hst); done|cbv beta; intros _ k2 H2].
  pose proof H2 as [Hi2 HS2]. destruct (HS2 cur PROCESS_READY (lookup_insert_eq _ _ _)) as (x2 & Hx2 & _).
  destruct (inv_add k2 C1 Qs1 cur x2 q' l' Hi2 Hx2) as (k3 & C3 & E3 & Hi3 & Hp3 & R3 & HC3).
  { rewrite Hp1. unfold without. rewrite list_elem_of_filter. tauto. } { by rewrite EC1. } { done. }
  rewrite Hq. assert ((if NUM_QUEUES <=? Z.of_nat q + 1 then NUM_QUEUES - 1 else Z.of_nat q + 1) = Z.of_nat q') as ->
    by (unfold NUM_QUEUES, q'; destruct (Z.leb_spec 4 (Z.of_nat q + 1)); lia).
  eapply wp_ok; [exact E3|]. destruct (relinks_cpu _ _ _ _ R3 (si_cpu _ _ _ Hi2) HC3) as (r3 & EC3).
  exists r3. rewrite EC1 in EC3. change (set_run_queues r3 (set_run_queues r1 C)) with (set_run_queues r3 C) in EC3.
  subst C3. by eapply has_relinks.
Qed.

(** Otherwise nothing happens. *)
Lemma demote_not C Qs k cur : sched_inv k C Qs -> cur = 0 \/ is_Some (procs k !! cur) ->
  cur = 0 \/ cur = c_idle_proc C \/ c_quantum_left C <> 0 \/ (exists x, procs k !! cur = Some x /\ p_state x <> PROCESS_RUNNING) ->
  demote_quantum_exhausted 0 cur k = Ok (tt, k).
Proof.
  intros Hi Hcur Hnot. unfold demote_quantum_exhausted. destruct (Z.eqb_spec cur 0) as [|Hc0]; [done|].
  destruct Hcur as [?|[x Hx]]; [done|].
  rewrite (bind_ok _ _ _ _ _ (getc_ok k 0 C (si_cpu _ _ _ Hi))). destruct (Z.eqb_spec cur (c_idle_proc C)) as [|Hidle]; [done|].
  rewrite (bind_ok _ _ _ _ _ (getp_ok k cur x Hx)). destruct (Z.eqb_spec (p_state x) PROCESS_RUNNING) as [Hs|]; [|done]. cbn [negb].
  destruct (Z.eqb_spec (c_quantum_left C) 0) as [|]; [|done]. destruct Hnot as [?|[?|[?|(y & Hy & ?)]]]; [done|done|done|].
  by simplify_eq.
Qed.

(** ** The branches of [schedule] *)

(** The states of all processes. *)
Definition states (k : kern M A) : gmap Z Z := p_state <$> procs k.

Lemma has_states C Qs k : sched_inv k C Qs -> has C Qs (states k) k.
Proof. intros Hi. split; [done|]. intros p s. unfold states. rewrite lookup_fmap, fmap_Some. intros (x & Hx & ->). eauto. Qed.

Lemma states_some k p x : procs k !! p = Some x -> states k !! p = Some (p_state x).
Proof. intros Hx. unfold states. by rewrite lookup_fmap, Hx. Qed.

Lemma schedule_idle_ok C Qs St k s si : has C Qs St k -> St !! c_current C = Some s -> s <> PROCESS_RUNNING ->
  St !! c_idle_proc C = Some si -> c_idle_proc C <> 0 -> c_current C <> 0 -> c_current C <> c_idle_proc C ->
  wp (schedule_idle 0 (c_idle_proc C)) (fun _ k' => exists C', c_current C' = c_idle_proc C /\ c_idle_proc C' = c_idle_proc C /\
    has C' Qs (switched (c_current C) (c_idle_proc C) s (<[c_idle_proc C := PROCESS_RUNNING]> St)) k') k.
Proof.
  intros Hk Hs Hrun Hsi Hi0 Hc0 Hci. unfold schedule_idle. eapply wp_bind_ok; [by eapply cpu_current_ok, Hk|].
  rewrite (proj2 (Z.eqb_neq _ 0) Hi0), (proj2 (Z.eqb_neq _ 0) Hc0), (proj2 (Z.eqb_neq _ _) Hci). cbn [orb].
  eapply wp_step; [by eapply has_getp|]. intros x ? (-> & _ & Hx). rewrite Hx, (proj2 (Z.eqb_neq s _) Hrun).
  eapply wp_step; [eapply (has_updc _ _ _ _ _ Hk); [done|done|done|right; by eexists]|cbv beta; intros _ k1 H1].
  eapply wp_step; [eapply (has_updp _ _ _ _ _ _ _ PROCESS_RUNNING H1 Hsi); done|cbv beta; intros _ k2 H2].
  eapply wp_mono; [eapply (context_switch_ok _ _ _ _ _ _ s PROCESS_RUNNING H2); [by rewrite lookup_insert_ne|apply lookup_insert_eq|done|done|done]|].
  cbv beta. intros _ k3 H3. eexists. by split; [|split; [|exact H3]].
Qed.

(** The states once [h] has taken the CPU from [cur]. *)
Definition dispatched (cur h so : Z) (St : gmap Z Z) : gmap Z Z :=
  if cur =? 0 then <[h := PROCESS_RUNNING]> St else switched cur h so (<[h := PROCESS_RUNNING]> St).

(** The commands that give the CPU to the head [h] of queue [q]. *)
Lemma dispatch_ok C Qs St k (q : nat) h t cur sh so : has C Qs St k -> Qs !! q = Some (h :: t) -> St !! h = Some sh ->
  h <> 0 -> h <> cur -> cur = 0 \/ St !! cur = Some so ->
  wp (updc 0 (set_current h);; updc 0 (set_current_queue (Z.of_nat q));; updp h (set_state PROCESS_RUNNING);;
      quantum ← rd queue_quantum (Z.of_nat q); updc 0 (set_quantum quantum);;
      head ← rq_head 0 (Z.of_nat q); n ← p_next_of head; set_head 0 (Z.of_nat q) n;;
      if cur =? 0 then ret tt else context_switch 0 cur h)
    (fun _ k' => exists C', has C' (<[q := t ++ [h]]> Qs) (dispatched cur h so St) k' /\ c_current C' = h /\ c_idle_proc C' = c_idle_proc C /\
       c_quantum_left C' = nthZ queue_quantum (Z.of_nat q) /\ c_current_queue C' = Z.of_nat q) k.
Proof.
  intros Hk Hl Hsh Hh Hhc Hcur. pose proof (lookup_lt_Some _ _ _ Hl) as Hq. rewrite (rq_len _ _ _ (si_rq _ _ _ (proj1 Hk))) in Hq.
  eapply wp_step; [eapply (has_updc _ _ _ _ _ Hk); [done|done|done|right; by eexists]|cbv beta; intros _ k1 H1].
  eapply wp_step; [eapply (has_updc _ _ _ _ _ H1); [done|done|done|by left]|cbv beta; intros _ k2 H2].
  eapply wp_step; [eapply (has_updp _ _ _ _ _ _ _ PROCESS_RUNNING H2 Hsh); done|cbv beta; intros _ k3 H3].
  eapply wp_bind_ok; [apply rd_nthZ; cbn; lia|].
  eapply wp_step; [eapply (has_updc _ _ _ _ _ H3); [done|done|done|by left]|cbv beta; intros _ k4 H4].
  pose proof H4 as [Hi4 HS4]. set (C4 := set_quantum _ _) in *.
  eapply wp_bind_ok; [apply (rq_head_ok k4 0 C4 Qs q _ (si_cpu _ _ _ Hi4) (si_rq _ _ _ Hi4) Hl)|]. cbn [hd].
  destruct (inv_rotate k4 C4 Qs q h t Hi4 Hl) as (n & En & Eh & Hi5 & _).
  eapply wp_bind_ok; [exact En|]. eapply wp_bind_ok; [exact Eh|].
  pose proof (has_relinks _ _ _ _ _ _ _ H4 (relinks_head _ _ _ _ (si_cpu _ _ _ Hi4)) Hi5) as H5.
  set (C5 := set_run_queues _ C4) in *. set (k5 := set_cpus _ k4) in *. unfold dispatched.
  destruct (Z.eqb_spec cur 0) as [|Hc0]; [apply wp_ret; by exists C5|]. destruct Hcur as [?|Hso]; [done|].
  eapply wp_mono; [eapply (context_switch_ok _ _ _ _ cur h so PROCESS_RUNNING H5); [by rewrite lookup_insert_ne|apply lookup_insert_eq|done|done|congruence]|].
  cbv beta. intros _ k6 H6. by exists (set_current h C5).
Qed.

Lemma chosen_same k C Qs p q k' C' Qs' : chosen k C Qs p q k' C' Qs' ->
  c_current C' = c_current C /\ c_idle_proc C' = c_idle_proc C /\ c_quantum_left C' = c_quantum_left C /\ procs k' = procs k.
Proof. intros [_ _ _ Hr (r & t & ->) _]. split_and!; try done. by rewrite Hr. Qed.

(** The part of [schedule_next] behind the demotion. *)
Definition next_process (me cur idle : Z) : ST (kern M A) unit :=
  '(next, queue) ← pick_next_or_idle me;
  if negb (next =? 0) && negb (next =? cur) && negb (next =? idle) then
    updc me (set_current next);; updc me (set_current_queue queue);; updp next (set_state PROCESS_RUNNING);;
    quantum ← rd queue_quantum queue; updc me (set_quantum quantum);;
    head ← rq_head me queue; n ← p_next_of head; set_head me queue n;;
    if cur =? 0 then ret tt else context_switch me cur next
  else if cur =? 0 then ret tt
  else x ← getp cur; quantum ← rd queue_quantum (p_mlfq_queue x); updc me (set_quantum quantum).

Lemma next_process_ok C Qs k : sched_inv k C Qs ->
  wp (next_process 0 (c_current C) (c_idle_proc C)) (fun _ k' => exists C' Qs', sched_inv k' C' Qs' /\ mjoin Qs' ≡ₚ mjoin Qs /\
    c_idle_proc C' = c_idle_proc C /\ (c_current C' = c_current C \/ c_current C' ∈ mjoin Qs)) k.
Proof.
  intros Hi. destruct (pick_ok k C Qs Hi) as (p & q & k2 & C2 & Qs2 & E2 & Hch). eapply wp_bind_ok; [exact E2|].
  pose proof (ch_inv _ _ _ _ _ _ _ _ Hch) as Hi2. pose proof (ch_perm _ _ _ _ _ _ _ _ Hch) as Hperm.
  destruct (chosen_same _ _ _ _ _ _ _ _ Hch) as (Ec & Ei & _ & EP).
  assert (c_current C = 0 \/ is_Some (procs k2 !! c_current C)) as Hcur by (rewrite EP; apply Hi).
  destruct (negb (p =? 0) && negb (p =? c_current C) && negb (p =? c_idle_proc C)) eqn:Eb.
  - bool_case. destruct (ch_choice _ _ _ _ _ _ _ _ Hch) as [->|[Hp0 (t & Hl)]]; [done|].
    destruct (rq_queue _ _ _ (si_rq _ _ _ Hi2) q _ p Hl ltac:(by left)) as (x & Hx & _).
    eapply wp_mono; [eapply (dispatch_ok C2 Qs2 _ k2 q p t (c_current C) _ (default 0 (states k2 !! c_current C)));
      [by apply has_states|exact Hl|by apply states_some|done|done|]|].
    + destruct Hcur as [?|[y Hy]]; [by left|right]. by rewrite (states_some _ _ _ Hy).
    + intros _ k3 (C3 & [Hi3 _] & Hc3 & Hi3' & _). exists C3. eexists. split; [exact Hi3|]. rewrite <- Hperm.
      split; [|split; [congruence|right; rewrite Hc3; eapply elem_of_queue; [exact Hl|by left]]].
      destruct (concat_insert Qs2 q _ (t ++ [p]) Hl) as (r & F1 & F2). rewrite F1, F2. by rewrite (Permutation_app_comm t [p]).
  - destruct (Z.eqb_spec (c_current C) 0) as [|Hc0]; [apply wp_ret; exists C2, Qs2; eauto|]. destruct Hcur as [?|[x Hx]]; [done|].
    eapply wp_bind_ok; [by apply getp_ok|]. destruct (si_procs _ _ _ Hi2 _ x Hx) as (_ & Hq & _).
    eapply wp_bind_ok; [apply rd_nthZ; cbn; lia|]. eapply wp_ok; [apply (updc_ok k2 0 _ C2), Hi2|].
    eexists _, Qs2. split; [eapply inv_cpu; [exact Hi2|apply Hi2|done|done|by left]|]. split; [done|]. split; [done|by left].
Qed.

Lemma schedule_next_eq idle k C Qs : sched_inv k C Qs ->
  schedule_next 0 idle k = (demote_quantum_exhausted 0 (c_current C);; next_process 0 (c_current C) idle) k.
Proof. intros Hi. unfold schedule_next. by rewrite (bind_ok _ _ _ _ _ (cpu_current_ok k C Qs Hi)). Qed.

(** Whether the current process has used up its quantum. *)
Lemma demote_cases k C Qs : sched_inv k C Qs ->
  demote_quantum_exhausted 0 (c_current C) k = Ok (tt, k) \/
  exists x (q : nat), procs k !! c_current C = Some x /\ p_state x = PROCESS_RUNNING /\ p_mlfq_queue x = Z.of_nat q /\
    c_current C <> 0 /\ c_current C <> c_idle_proc C /\ c_quantum_left C = 0.
Proof.
  intros Hi. pose proof (si_current _ _ _ Hi) as Hcur.
  destruct (decide (c_current C = 0)) as [|Hc0]; [left; eapply demote_not; naive_solver|].
  destruct (decide (c_current C = c_idle_proc C)) as [|Hci]; [left; eapply demote_not; naive_solver|].
  destruct (decide (c_quantum_left C = 0)) as [Hq|]; [|left; eapply demote_not; naive_solver].
  destruct Hcur as [?|[x Hx]]; [done|]. destruct (decide (p_state x = PROCESS_RUNNING)) as [Hs|]; [|left; eapply demote_not; naive_solver].
  right. destruct (inv_queue_of k C Qs _ x Hi Hx) as (q & _ & Hxq & _). by exists x, q.
Qed.

(** What a call of [schedule] does: it keeps the invariant, loses no process,
    and gives the CPU to a process that was queued or to the idle process. *)
Record advanced (k : kern M A) (C : cpu) (Qs : list (list Z)) (k' : kern M A) (C' : cpu) (Qs' : list (list Z)) : Prop := {
  ad_inv : sched_inv k' C' Qs';
  ad_grown : grown (c_current C) Qs Qs';
  ad_running : mjoin Qs' ≡ₚ mjoin Qs \/ states k !! c_current C = Some PROCESS_RUNNING;
  ad_idle : c_idle_proc C' = c_idle_proc C;
  ad_current : c_current C' = c_current C \/ c_current C' = c_idle_proc C \/ c_current C' ∈ mjoin Qs
}.

Lemma schedule_next_ok C Qs k : sched_inv k C Qs ->
  wp (schedule_next 0 (c_idle_proc C)) (fun _ k' => exists C' Qs', advanced k C Qs k' C' Qs') k.
Proof.
  intros Hi. unfold wp. rewrite (schedule_next_eq _ k C Qs Hi). fold (wp (A := unit) (S := kern M A)).
  destruct (demote_cases k C Qs Hi) as [E|(x & q & Hx & Hs & Hq & Hc0 & Hci & Hqu)].
  - eapply wp_bind_ok; [exact E|]. eapply wp_mono; [by apply next_process_ok|]. intros _ k' (C' & Qs' & Hi' & Hp & Ei & Hc).
    exists C', Qs'. split; [done|by left|by left|done|naive_solver].
  - assert (states k !! c_current C = Some PROCESS_RUNNING) as Hst by (by rewrite (states_some _ _ _ Hx), Hs).
    destruct (demote_ok C Qs _ k (c_current C) x q (has_states _ _ _ Hi)) as [Hw Hg]; try done.
    eapply wp_step; [exact Hw|]. intros _ k1 (r & Hi1 & _). eapply wp_mono; [apply (next_process_ok _ _ _ Hi1)|].
    intros _ k' (C' & Qs' & Hi' & Hp & Ei & Hc). exists C', Qs'. split; [done|by eapply grown_perm|by right|done|].
    destruct Hc as [Hc|Hc]; [by left|]. change (c_current (set_run_queues r C)) with (c_current C) in *.
    destruct Hg as [Hg|[_ Hg]]; rewrite Hg in Hc; [naive_solver|]. apply elem_of_cons in Hc. naive_solver.
Qed.

(** [schedule] counts its calls first. *)
Definition counted (C : cpu) : cpu :=
  set_rcu (u32 (c_rcu_qs_count C + 1)) (set_schedule_calls (u32 (c_schedule_calls C + 1)) C).

Lemma counted_ok k C Qs : sched_inv k C Qs ->
  updc 0 (fun c => set_rcu (u32 (c_rcu_qs_count c + 1)) (set_schedule_calls (u32 (c_schedule_calls c + 1)) c)) k =
    Ok (tt, set_cpus (<[0%nat := counted C]> (cpus k)) k) /\
  sched_inv (set_cpus (<[0%nat := counted C]> (cpus k)) k) (counted C) Qs.
Proof.
  intros Hi. split; [apply (updc_ok k 0 _ C), Hi|]. eapply inv_cpu; [exact Hi|apply Hi|done|done|by left].
Qed.

Lemma schedule_ok C Qs k : sched_inv k C Qs ->
  wp (schedule 0) (fun _ k' => exists C' Qs', advanced k C Qs k' C' Qs') k.
Proof.
  intros Hi. destruct (counted_ok k C Qs Hi) as [E1 Hi1]. eapply wp_bind_ok; [exact E1|]. set (k1 := set_cpus _ k) in *.
  destruct (pick_ok k1 _ Qs Hi1) as (p & q & k2 & C2 & Qs2 & E2 & Hch). eapply wp_bind_ok; [exact E2|].
  pose proof (ch_inv _ _ _ _ _ _ _ _ Hch) as Hi2. destruct (chosen_same _ _ _ _ _ _ _ _ Hch) as (Ec & Ei & _ & EP).
  change (c_current (counted C)) with (c_current C) in Ec. change (c_idle_proc (counted C)) with (c_idle_proc C) in Ei.
  pose proof (ch_perm _ _ _ _ _ _ _ _ Hch) as Hperm. assert (states k2 = states k) as ES by (unfold states; by rewrite EP).
  assert (wp (schedule_next 0 (c_idle_proc C2)) (fun _ k' => exists C' Qs', advanced k C Qs k' C' Qs') k2) as Hnext.
  { eapply wp_mono; [by apply schedule_next_ok|]. intros _ k3 (C3 & Qs3 & [A1 A2 A3 A4 A5]). exists C3, Qs3.
    rewrite Ec, ?Ei, ?ES in *. unfold grown in A2. rewrite Hperm in A2, A3, A5. by split. }
  assert (wp (ret tt) (fun _ k' => exists C' Qs', advanced k C Qs k' C' Qs') k2) as Hsame.
  { apply wp_ret. exists C2, Qs2. split; [done|by left|by left|done|by left]. }
  eapply wp_bind_ok; [apply (getc_ok k2 0 C2), Hi2|]. cbv zeta. destruct (p =? c_idle_proc C2).
  - destruct (decide (c_idle_proc C2 = 0 \/ c_current C2 = 0 \/ c_current C2 = c_idle_proc C2)) as [Hn|Hn].
    { unfold schedule_idle. eapply wp_bind_ok; [by eapply cpu_current_ok|].
      destruct Hn as [->|[->| ->]]; rewrite ?Z.eqb_refl, ?orb_true_r; exact Hsame. }
    destruct (si_idle _ _ _ Hi2) as [?|[[y Hy] _]]; [tauto|]. destruct (si_current _ _ _ Hi2) as [?|[x Hx]]; [tauto|].
    destruct (decide (p_state x = PROCESS_RUNNING)) as [Hs|Hs].
    + unfold schedule_idle. eapply wp_bind_ok; [by eapply cpu_current_ok|]. destruct (_ || _); [done|].
      eapply wp_bind_ok; [by apply getp_ok|]. by rewrite Hs.
    + eapply wp_mono; [eapply (schedule_idle_ok _ _ _ _ _ _ (has_states _ _ _ Hi2)); [by apply states_some|done|by apply states_some|tauto|tauto|tauto]|].
      cbv beta. intros _ k3 (C3 & Hc3 & Hi3' & [Hi3 _]). exists C3, Qs2.
      split; [done|by left|by left|congruence|right; left; congruence].
  - destruct ((c_current C2 =? c_idle_proc C2) || (c_quantum_left C2 =? 0)) eqn:Eb; cbn [orb]; [done|].
    destruct (Z.eqb_spec (c_current C2) 0) as [|Hc0]; [done|]. destruct (si_current _ _ _ Hi2) as [?|[x Hx]]; [done|].
    eapply wp_bind_ok; [by apply getp_ok|]. by destruct (negb (p_state x =? PROCESS_RUNNING)).
Qed.

End Switch.
