(* ===== verification/SchedRun.v ===== *)
(** * Runs of the scheduler on one CPU

    Every sequence of scheduler operations keeps the run queues and loses no
    process; a process whose quantum is used up makes way for the head of the
    highest queue; a CPU goes idle when a process that does not run is alone in
    its highest queue, whatever waits below; and a process that gives up the CPU
    without being in a queue never runs again. *)

From stdpp Require Import base tactics numbers list gmap.
From S2P Require Import Prelude Alloc Proc Sched SchedFrame SchedProofs SchedSpec SchedSwitch.

Section Run.
Context {M A : Type} `{AddressSpaces A}.
Implicit Types k : kern M A.

(** What happens to the scheduler.  [Spawn] is a new object handed to
    [scheduler_add_process] (fork.c), [Idle] one handed to
    [scheduler_register_idle] (main.c), [State] a write of [state] by another
    component (waitq.c, signal.c, process.c). *)
Inductive sched_op :=
| Tick
| Schedule
| Spawn (p : Z) (x : process)
| Idle (p : Z) (x : process)
| Remove (p : Z)
| State (p s : Z).

Definition run_op (op : sched_op) : ST (kern M A) unit :=
  match op with
  | Tick => timer_tick 0
  | Schedule => schedule 0
  | Spawn p x => modify (fun k => set_procs (<[p := x]> (procs k)) k);; scheduler_add_process 0 p
  | Idle p x => modify (fun k => set_procs (<[p := x]> (procs k)) k);; scheduler_register_idle 0 p
  | Remove p => scheduler_remove_process p
  | State p s => updp p (set_state s)
  end.

(** A new object has an address of its own and lies in no queue; the others
    act on objects that exist. *)
Definition fresh (k : kern M A) (p : Z) (x : process) : Prop :=
  p <> 0 /\ procs k !! p = None /\ 0 <= p_mlfq_queue x < 4 /\ p_owner_cpu x = 0.

Definition op_ok (op : sched_op) (k : kern M A) : Prop :=
  match op with
  | Tick | Schedule => True
  | Spawn p x | Idle p x => fresh k p x
  | Remove p | State p _ => is_Some (procs k !! p)
  end.

(** The processes handed to the scheduler and not taken back. *)
Definition track (op : sched_op) (R : gset Z) : gset Z :=
  match op with
  | Spawn p x => if p_pid x =? 0 then R else {[p]} ∪ R
  | Remove p => R ∖ {[p]}
  | _ => R
  end.

(** A CPU before anything was scheduled. *)
Definition boot_state (k : kern M A) : Prop :=
  cpu_count k = 1 /\ (exists C, cpus k !! 0%nat = Some C /\ c_id C = 0 /\ c_run_queues C = replicate 4 0 /\ c_idle_proc C = 0 /\
    (c_current C = 0 \/ is_Some (procs k !! c_current C))) /\
  forall p x, procs k !! p = Some x -> p <> 0 /\ 0 <= p_mlfq_queue x < 4 /\ p_owner_cpu x = 0.

Inductive reachable : kern M A -> gset Z -> Prop :=
| reach_boot k : boot_state k -> reachable k ∅
| reach_step k R op k' : reachable k R -> op_ok op k -> run_op op k = Ok (tt, k') -> reachable k' (track op R).

Definition queued (Qs : list (list Z)) : gset Z := list_to_set (mjoin Qs).

Lemma sched_boot_inv k : boot_state k -> exists C, sched_inv k C (replicate 4 []).
Proof.
  intros (Hn & (C & HC & Hid & Hq & Hidle & Hcur) & Hp). exists C. split; try done; [|by left].
  split; [done|by rewrite Hq|by repeat constructor| | |].
  - intros q l p Hl. apply lookup_replicate in Hl as [-> _]. by intros ?%not_elem_of_nil.
  - constructor.
  - apply not_elem_of_nil.
Qed.

Lemma fresh_queue k C Qs p x : sched_inv k C Qs -> fresh k p x -> p ∉ mjoin Qs.
Proof.
  intros Hi (_ & Hn & _) (l & Hl & [q Hq]%list_elem_of_lookup)%list_elem_of_join.
  destruct (rq_queue _ _ _ (si_rq _ _ _ Hi) q l p Hq Hl) as (y & Hy & _). congruence.
Qed.

Lemma inv_fresh k C Qs p x : sched_inv k C Qs -> fresh k p x -> sched_inv (set_procs (<[p := x]> (procs k)) k) C Qs.
Proof.
  intros Hi Hf. pose proof (fresh_queue _ _ _ _ _ Hi Hf) as Hp. destruct Hf as (H0 & Hn & Hq & Ho), Hi as [H1 H2 H3 H4 H5 H6 H7].
  split; cbn [procs set_procs cpus cpu_count]; try done.
  - by apply rq_frame.
  - intros y z. rewrite lookup_insert_Some. intros [[<- <-]|[_ Hz]]; [done|by apply H5].
  - destruct H6 as [?|Hs]; [by left|right]. rewrite lookup_insert_ne; [done|]. intros ->. by rewrite Hn in Hs; destruct Hs.
  - destruct H7 as [?|[Hs ?]]; [by left|right]. rewrite lookup_insert_ne; [done|]. intros ->. by rewrite Hn in Hs; destruct Hs.
Qed.

(** [p] exists, and neither runs nor waits for a CPU. *)
Definition stranded (p : Z) (k : kern M A) (C : cpu) (Qs : list (list Z)) : Prop :=
  is_Some (procs k !! p) /\ (p ∉ mjoin Qs) /\ p <> c_current C /\ p <> c_idle_proc C.

Lemma quiet_exists k k' p : quiet k k' -> is_Some (procs k !! p) -> is_Some (procs k' !! p).
Proof. intros Hq [x Hx]. destruct (quiet_lookup _ _ _ _ Hq Hx) as (x' & ? & _). eauto. Qed.

(** The processes a CPU block names. *)
Definition same_procs (C C' : cpu) : Prop := c_current C' = c_current C /\ c_idle_proc C' = c_idle_proc C.

Lemma relinks_same k k' C C' Qs Qs' : relinks 0 k k' -> sched_inv k C Qs -> sched_inv k' C' Qs' -> same_procs C C'.
Proof. intros R Hi Hi'. by destruct (relinks_cpu _ _ _ _ R (si_cpu _ _ _ Hi) (si_cpu _ _ _ Hi')) as (r & ->). Qed.

(** An operation that adds no process to the queues but new ones. *)
Lemma stranded_same p k C Qs k' C' Qs' : quiet k k' -> same_procs C C' -> (p ∈ mjoin Qs' -> p ∈ mjoin Qs) ->
  stranded p k C Qs -> stranded p k' C' Qs'.
Proof.
  intros Hq [E1 E2] Hsub (Hs & Hn & Hc & Hi). split; [by eapply quiet_exists|]. split; [naive_solver|]. by rewrite E1, E2.
Qed.

Lemma add_process_ok k C Qs p x : sched_inv k C Qs -> procs k !! p = Some x -> p ∉ mjoin Qs -> p <> c_idle_proc C -> p_pid x <> 0 ->
  wp (scheduler_add_process 0 p) (fun _ k' => exists C' Qs', sched_inv k' C' Qs' /\ mjoin Qs' ≡ₚ p :: mjoin Qs /\ same_procs C C') k.
Proof.
  intros Hi Hx Hp Hidle Hpid. destruct (si_procs _ _ _ Hi p x Hx) as (Hp0 & _). unfold scheduler_add_process.
  rewrite (proj2 (Z.eqb_neq p 0) Hp0). eapply wp_bind_ok; [by apply getp_ok|]. rewrite (proj2 (Z.eqb_neq _ 0) Hpid).
  eapply wp_step; [eapply (has_updp C Qs (states k) k p _ _ PROCESS_READY); [by apply has_states|by apply states_some|done|done]|cbv beta; intros _ k1 H1].
  apply wp_bind, wp_gets. apply wp_bind, wp_modify. set (k2 := set_rr _ k1).
  assert (sched_inv k2 C Qs) as Hi2 by (by destruct H1 as [[] _]). cbv zeta. change (cpu_count (id k1)) with (cpu_count k1).
  rewrite (si_count _ _ _ (proj1 H1)), Z.mod_1_r. change (if 0 <? 1 then 0 else 0) with 0. destruct (proj2 H1 p _ (lookup_insert_eq _ _ _)) as (x2 & Hx2 & _).
  eapply wp_bind_ok; [by apply (updp_ok k2 p)|]. set (x3 := set_owner_cpu 0 x2). set (k3 := set_procs _ k2).
  assert (sched_inv k3 C Qs) as Hi3 by (by eapply (inv_update k2)).
  destruct (lookup_lt_is_Some_2 Qs 0%nat) as [l Hl]; [rewrite (rq_len _ _ _ (si_rq _ _ _ Hi)); lia|].
  destruct (inv_add k3 C Qs p x3 0 l Hi3 (lookup_insert_eq _ _ _) Hp Hidle Hl) as (k4 & C4 & E4 & Hi4 & Hp4 & R4 & _).
  change (Z.of_nat 0) with 0 in E4. eapply wp_bind_ok; [exact E4|]. eapply wp_bind_ok; [apply (getc_ok k4 0 C4), Hi4|].
  rewrite (si_id _ _ _ Hi4). cbn [Z.eqb]. apply wp_ret. exists C4. eexists. split; [exact Hi4|]. split; [done|by eapply relinks_same].
Qed.

Lemma remove_process_ok k C Qs p : sched_inv k C Qs -> is_Some (procs k !! p) ->
  wp (scheduler_remove_process p) (fun _ k' => exists C' Qs', sched_inv k' C' Qs' /\ mjoin Qs' ≡ₚ without p (mjoin Qs) /\ same_procs C C') k.
Proof.
  intros Hi [x Hx]. destruct (si_procs _ _ _ Hi p x Hx) as (Hp0 & _ & Ho). unfold scheduler_remove_process.
  rewrite (proj2 (Z.eqb_neq p 0) Hp0). eapply wp_bind_ok; [by apply getp_ok|]. rewrite Ho.
  destruct (inv_remove k C Qs p x Hi Hx) as (k1 & C1 & q & l & E1 & Hi1 & Hp1 & R1 & _).
  eapply wp_ok; [exact E1|]. exists C1. eexists. split; [exact Hi1|]. split; [done|by eapply relinks_same].
Qed.

Lemma timer_tick_ok k C Qs : sched_inv k C Qs -> wp (timer_tick 0) (fun _ k' => exists C', sched_inv k' C' Qs /\ same_procs C C') k.
Proof.
  intros Hi. unfold timer_tick. apply wp_bind, wp_gets. destruct (_ =? 0); [apply wp_ret; by exists C|].
  eapply wp_step; [eapply (has_updc C Qs (states k) k); [by apply has_states|done|done|done|by left]|cbv beta; intros _ k1 H1].
  eapply wp_mono; [eapply (has_updc _ _ _ _ _ H1); case_match; try done; by left|]. intros _ k2 [H2 _]. eexists. split; [exact H2|]. by case_match.
Qed.

Lemma queued_perm Qs Qs' : mjoin Qs' ≡ₚ mjoin Qs -> queued Qs' = queued Qs.
Proof. intros Hp. apply set_eq. intros p. unfold queued. by rewrite !elem_of_list_to_set, Hp. Qed.

Lemma queued_grown cur Qs Qs' : grown cur Qs Qs' -> queued Qs ⊆ queued Qs'.
Proof.
  intros [Hp|[_ Hp]] p; unfold queued; rewrite !elem_of_list_to_set, Hp; [done|]. intros ?. by right.
Qed.

Lemma stranded_fresh p k C Qs q x : stranded p k C Qs -> fresh k q x ->
  stranded p (set_procs (<[q := x]> (procs k)) k) C Qs /\ p <> q.
Proof.
  intros ([y Hy] & Hs) (_ & Hn & _). assert (p <> q) as Hne by congruence. split; [|done]. split; [|done].
  cbn. rewrite lookup_insert_ne by done. eauto.
Qed.

Lemma spawn_ok k C Qs p x : sched_inv k C Qs -> fresh k p x ->
  wp (run_op (Spawn p x)) (fun _ k' => exists C' Qs', sched_inv k' C' Qs' /\
    (forall R, R ⊆ queued Qs -> track (Spawn p x) R ⊆ queued Qs') /\
    forall y, stranded y k C Qs -> stranded y k' C' Qs') k.
Proof.
  intros Hi Hok. cbn [run_op track]. apply wp_bind, wp_modify. pose proof (inv_fresh _ _ _ _ _ Hi Hok) as Hi1. set (k1 := set_procs _ k) in *.
  assert (procs k1 !! p = Some x) as Hx by apply lookup_insert_eq. pose proof (fresh_queue _ _ _ _ _ Hi Hok) as Hp.
  destruct (Z.eqb_spec (p_pid x) 0) as [E|E].
  - unfold scheduler_add_process. rewrite (proj2 (Z.eqb_neq p 0) (proj1 Hok)). eapply wp_bind_ok; [by apply getp_ok|]. rewrite E.
    apply wp_ret. exists C, Qs. split; [done|]. split; [done|]. intros y Hy. by eapply stranded_fresh.
  - assert (p <> c_idle_proc C) as Hpi.
    { intros ->. destruct (si_idle _ _ _ Hi) as [?|[[y Hy] _]]; destruct Hok as (? & ? & _); congruence. }
    eapply wp_mono; [eapply (pres_wp quiet); [pres|by eapply add_process_ok]|]. intros _ k' [(C' & Qs' & Hi' & Hq & Hs) Hqu]. exists C', Qs'.
    split; [done|]. unfold queued in *. split.
    + intros R HR y. rewrite elem_of_list_to_set, Hq, elem_of_cons. set_solver.
    + intros y Hy. destruct (stranded_fresh _ _ _ _ _ _ Hy Hok) as [Hy1 Hne]. eapply stranded_same; [done|done| |exact Hy1].
      rewrite Hq, elem_of_cons. naive_solver.
Qed.

Lemma idle_ok k C Qs p x : sched_inv k C Qs -> fresh k p x ->
  wp (run_op (Idle p x)) (fun _ k' => exists C' Qs', sched_inv k' C' Qs' /\
    (forall R, R ⊆ queued Qs -> track (Idle p x) R ⊆ queued Qs') /\
    forall y, stranded y k C Qs -> stranded y k' C' Qs') k.
Proof.
  intros Hi Hok. cbn [run_op track]. apply wp_bind, wp_modify. pose proof (inv_fresh _ _ _ _ _ Hi Hok) as Hi1. set (k1 := set_procs _ k) in *.
  unfold scheduler_register_idle. rewrite (proj2 (Z.eqb_neq p 0) (proj1 Hok)).
  eapply wp_ok; [apply (updc_ok k1 0 _ C), Hi1|]. exists (set_idle p C), Qs. split; [|split; [done|]].
  - destruct Hi1 as [H1 H2 H3 H4 H5 H6 H7]. split; try done.
    + apply list_lookup_insert_eq. by eapply lookup_lt_Some.
    + by destruct H4.
    + right. split; [cbn; rewrite lookup_insert_eq; eauto|by eapply fresh_queue].
  - intros y Hy. destruct (stranded_fresh _ _ _ _ _ _ Hy Hok) as [(Hy1 & Hy2 & Hy3 & _) Hne]. by split.
Qed.

Lemma run_op_ok k C Qs op : sched_inv k C Qs -> op_ok op k ->
  wp (run_op op) (fun _ k' => exists C' Qs', sched_inv k' C' Qs' /\
    (forall R, R ⊆ queued Qs -> track op R ⊆ queued Qs') /\
    forall p, stranded p k C Qs -> stranded p k' C' Qs') k.
Proof.
  intros Hi Hok. destruct op as [| |p x|p x|p|p s]; cbn [run_op op_ok track] in *.
  - eapply wp_mono; [eapply (pres_wp quiet); [pres|by eapply timer_tick_ok]|]. intros _ k' [(C' & Hi' & Hs) Hq]. exists C', Qs.
    split; [done|]. split; [done|]. intros p. by eapply stranded_same.
  - eapply wp_mono; [eapply (pres_wp quiet); [pres|by eapply schedule_ok]|]. intros _ k' [(C' & Qs' & Ha) Hq]. exists C', Qs'.
    split; [apply Ha|]. split; [intros R HR; etransitivity; [exact HR|]; by eapply queued_grown, ad_grown|].
    intros p (Hp & Hpq & Hpc & Hpi). destruct Ha as [_ Hg _ Ei Hc]. split; [by eapply quiet_exists|]. split; [|split].
    + destruct Hg as [Hg|[_ Hg]]; rewrite Hg; [done|]. by apply not_elem_of_cons.
    + naive_solver.
    + by rewrite Ei.
  - by apply spawn_ok.
  - by apply idle_ok.
  - eapply wp_mono; [eapply (pres_wp quiet); [pres|by eapply remove_process_ok]|]. intros _ k' [(C' & Qs' & Hi' & Hq & Hs) Hqu]. exists C', Qs'.
    split; [done|]. unfold queued in *. split.
    + intros R HR y. rewrite elem_of_list_to_set, Hq. unfold without. rewrite list_elem_of_filter. set_solver.
    + intros y. eapply stranded_same; [done|done|]. rewrite Hq. unfold without. rewrite list_elem_of_filter. tauto.
  - destruct Hok as [x Hx]. eapply wp_ok; [by apply updp_ok|]. exists C, Qs. split; [|split; [done|]].
    + eapply inv_update; [exact Hi|exact Hx|done|done|]. by apply (si_procs _ _ _ Hi p x Hx).
    + intros y (Hy & Hyr). split; [|done]. cbn. rewrite lookup_insert_is_Some. destruct (decide (p = y)); [by left|by right].
Qed.

(** C17: On one CPU, whatever sequence of timer ticks, calls of [schedule], new
    processes, removals and changes of process states has happened since the
    boot, the four run queues are disjoint circular lists of live processes
    that carry their queue's number, every process handed to the scheduler and
    not removed is in one of them, and the next operation returns: no walk of
    a list runs away and no pointer is wild. *)
Theorem scheduler_safe k R : reachable k R ->
  (exists C Qs, sched_inv k C Qs /\ R ⊆ queued Qs) /\
  forall op, op_ok op k -> exists k', run_op op k = Ok (tt, k').
Proof.
  intros Hr. assert (exists C Qs, sched_inv k C Qs /\ R ⊆ queued Qs) as Hinv.
  { induction Hr as [k Hb|k R op k' _ (C & Qs & Hi & HR) Hok E].
    - destruct (sched_boot_inv k Hb) as [C Hi]. exists C, (replicate 4 []). split; [done|]. set_solver.
    - destruct (proj1 (wp_elim _ _ _) (run_op_ok k C Qs op Hi Hok)) as ([] & k1 & E1 & C' & Qs' & Hi' & Ht & _).
      assert (k1 = k') as -> by congruence. eauto. }
  split; [done|]. destruct Hinv as (C & Qs & Hi & _). intros op Hok.
  destruct (proj1 (wp_elim _ _ _) (run_op_ok k C Qs op Hi Hok)) as ([] & k1 & E1 & _). eauto.
Qed.

(** ** Preemption *)

Lemma head_not_idle k C Qs (q : nat) h t : sched_inv k C Qs -> Qs !! q = Some (h :: t) -> h <> 0 /\ h <> c_idle_proc C.
Proof.
  intros Hi Hl. pose proof (null_queue _ _ _ _ _ (si_rq _ _ _ Hi) Hl) as [Hh _]%not_elem_of_cons. split; [congruence|].
  assert (h ∈ mjoin Qs) as Hin by (eapply elem_of_queue; [exact Hl|by left]). intros ->. destruct (si_idle _ _ _ Hi) as [?|[_ ?]]; congruence.
Qed.

Lemma first_ready_lookup k C Qs h (n : nat) : sched_inv k C Qs -> first_ready 0 Qs = (h, Z.of_nat n) -> h <> 0 ->
  exists t, Qs !! n = Some (h :: t).
Proof.
  intros Hi Ef Hh. destruct (first_ready_spec Qs 0 (rq_null _ _ _ (si_rq _ _ _ Hi))) as [[E _]|(j & h' & t & E & Hl & _)];
    change (Z.of_nat 0) with 0 in E; rewrite Ef in E; [congruence|]. injection E as <- En. replace n with j by lia. eauto.
Qed.

Lemma queued_state k C Qs p : sched_inv k C Qs -> p ∈ mjoin Qs -> exists s, states k !! p = Some s.
Proof.
  intros Hi (l & Hl & [q Hq]%list_elem_of_lookup)%list_elem_of_join.
  destruct (rq_queue _ _ _ (si_rq _ _ _ Hi) q l p Hq Hl) as (x & Hx & _). rewrite (states_some _ _ _ Hx). eauto.
Qed.

Lemma switched_states cur h St : cur <> h ->
  switched cur h PROCESS_READY (<[h := PROCESS_RUNNING]> (<[cur := PROCESS_READY]> St)) =
  <[h := PROCESS_RUNNING]> (<[cur := PROCESS_READY]> St).
Proof.
  intros Hne. unfold switched. change (left_state PROCESS_READY) with PROCESS_READY.
  rewrite (insert_id (<[h := _]> _) cur); [by rewrite insert_insert_eq|]. by rewrite lookup_insert_ne, lookup_insert_eq.
Qed.

(** When the quantum is used up, the first choice is some process. *)
Lemma schedule_expired k C Qs x : sched_inv k C Qs -> c_current C <> 0 -> c_current C ∈ mjoin Qs -> c_quantum_left C = 0 ->
  procs k !! c_current C = Some x -> p_state x = PROCESS_RUNNING ->
  schedule 0 k = schedule_next 0 (c_idle_proc C) (set_cpus (<[0%nat := counted C]> (cpus k)) k).
Proof.
  intros Hi Hc0 Hcq Hq Hx Hs. destruct (counted_ok k C Qs Hi) as [E1 Hi1]. unfold schedule. rewrite (bind_ok _ _ _ _ _ E1).
  set (k1 := set_cpus _ k) in *.
  destruct (first_ready_spec Qs 0 (rq_null _ _ _ (si_rq _ _ _ Hi))) as [[_ E]|(q & h & t & Ef & Hl & Hh)].
  { rewrite E in Hcq. by apply not_elem_of_nil in Hcq. }
  change (Z.of_nat 0) with 0 in Ef.
  rewrite (bind_ok _ _ _ _ _ (pick_first k1 (counted C) Qs q h t Hi1 Ef Hl ltac:(intros ->; by exists x))).
  rewrite (bind_ok _ _ _ _ _ (getc_ok k1 0 (counted C) (si_cpu _ _ _ Hi1))). cbv zeta.
  destruct (head_not_idle _ _ _ _ _ _ Hi1 Hl) as [_ Hhi]. rewrite (proj2 (Z.eqb_neq h _) Hhi).
  change (c_quantum_left (counted C)) with (c_quantum_left C). rewrite Hq. cbn [Z.eqb]. by rewrite orb_true_r.
Qed.

(** C25: A process that used up its quantum is moved to the next lower queue,
    behind its head, and becomes READY; the head of the highest queue that is
    not empty then, if it is another process, becomes the current process and
    RUNNING, gets the quantum of its queue and goes to that queue's end. *)
Theorem schedule_preempts k C Qs x (q : nat) h (n : nat) :
  sched_inv k C Qs -> c_current C <> 0 -> c_current C ∈ mjoin Qs -> c_current C <> c_idle_proc C -> c_quantum_left C = 0 ->
  procs k !! c_current C = Some x -> p_state x = PROCESS_RUNNING -> p_mlfq_queue x = Z.of_nat q ->
  first_ready 0 (demote_queues (c_current C) q Qs) = (h, Z.of_nat n) -> h <> 0 -> h <> c_current C ->
  exists k' C' t, schedule 0 k = Ok (tt, k') /\ demote_queues (c_current C) q Qs !! n = Some (h :: t) /\
    sched_inv k' C' (<[n := t ++ [h]]> (demote_queues (c_current C) q Qs)) /\
    c_current C' = h /\ c_quantum_left C' = nthZ queue_quantum (Z.of_nat n) /\
    <[h := PROCESS_RUNNING]> (<[c_current C := PROCESS_READY]> (states k)) ⊆ states k'.
Proof.
  intros Hi Hc0 Hcq Hci Hq Hx Hs Hxq Ef Hh Hhc. rewrite (schedule_expired k C Qs x) by done.
  destruct (counted_ok k C Qs Hi) as [_ Hi1]. set (k1 := set_cpus _ k) in *. set (cur := c_current C) in *.
  rewrite (schedule_next_eq _ k1 _ Qs Hi1). change (c_current (counted C)) with cur.
  destruct (demote_ok (counted C) Qs _ k1 cur x q (has_states _ _ _ Hi1)) as [Hw Hg]; try done; [by rewrite (states_some k1 _ _ Hx), Hs|].
  apply wp_elim in Hw as ([] & k2 & E2 & r & H2). rewrite (bind_ok _ _ _ _ _ E2). set (C2 := set_run_queues r _) in *.
  destruct (first_ready_lookup _ _ _ _ _ (proj1 H2) Ef Hh) as [t Hl]. pose proof (head_not_idle _ _ _ _ _ _ (proj1 H2) Hl) as [_ Hhi].
  assert (exists sh, (<[cur := PROCESS_READY]> (states k1)) !! h = Some sh) as [sh Hsh].
  { rewrite lookup_insert_ne by done. apply (queued_state k1 (counted C) Qs); [done|]. assert (h ∈ mjoin (demote_queues cur q Qs)) as Hin
      by (eapply elem_of_queue; [exact Hl|by left]). destruct Hg as [Hp|[_ Hp]]; rewrite Hp in Hin; [done|]. by apply elem_of_cons in Hin as [?|?]. }
  unfold next_process. rewrite (bind_ok _ _ _ _ _ (pick_first k2 C2 _ n h t (proj1 H2) Ef Hl ltac:(done))).
  rewrite (proj2 (Z.eqb_neq h 0) Hh), (proj2 (Z.eqb_neq h cur) Hhc), (proj2 (Z.eqb_neq h (c_idle_proc C)) Hhi). cbn [negb andb].
  pose proof (dispatch_ok C2 _ _ k2 n h t cur sh PROCESS_READY H2 Hl Hsh Hh Hhc ltac:(right; apply lookup_insert_eq)) as Hd.
  apply wp_elim in Hd as ([] & k3 & E3 & C3 & H3 & Hc3 & _ & Hq3 & _). exists k3, C3, t. split; [exact E3|]. split; [done|].
  split; [apply H3|]. split; [done|]. split; [done|]. unfold dispatched in H3. rewrite (proj2 (Z.eqb_neq cur 0) Hc0), switched_states in H3 by done.
  apply map_subseteq_spec. intros p s Hp. destruct (proj2 H3 p s Hp) as (y & Hy & <-). by apply states_some.
Qed.

(** ** Going idle *)

(** The only process of the highest queue is the current one and does not run:
    the choice is the idle process. *)
Lemma pick_alone k C Qs x (q : nat) : sched_inv k C Qs -> c_current C <> 0 -> first_ready 0 Qs = (c_current C, Z.of_nat q) ->
  Qs !! q = Some [c_current C] -> procs k !! c_current C = Some x -> p_state x <> PROCESS_RUNNING ->
  exists k' C', pick_next_or_idle 0 k = Ok ((c_idle_proc C, Z.of_nat q), k') /\ chosen k C Qs (c_idle_proc C) q k' C' Qs.
Proof.
  intros Hi Hc0 Ef Hl Hx Hs. unfold pick_next_or_idle. rewrite (bind_ok _ _ _ _ _ (find_next_ok k C Qs Hi)), Ef.
  rewrite (bind_ok _ _ _ _ _ (cpu_current_ok k C Qs Hi)), (proj2 (Z.eqb_neq _ 0) Hc0), Z.eqb_refl. cbn [negb andb].
  rewrite bind_assoc, (bind_ok _ _ _ _ _ (getp_ok k _ x Hx)), (proj2 (Z.eqb_neq _ _) Hs). cbn [negb].
  destruct (inv_rotate k C Qs q _ _ Hi Hl) as (n & En & Eh & Hi1 & _). cbn [app] in Hi1. rewrite (list_insert_id Qs) in Hi1 by done.
  rewrite bind_assoc, (bind_ok _ _ _ _ _ (rq_head_ok k 0 C Qs q _ (si_cpu _ _ _ Hi) (si_rq _ _ _ Hi) Hl)). cbn [hd].
  rewrite bind_assoc, (bind_ok _ _ _ _ _ En), bind_assoc, (bind_ok _ _ _ _ _ Eh). set (k1 := set_cpus _ k) in *. set (C1 := set_run_queues _ C) in *.
  rewrite bind_assoc, (bind_ok _ _ _ _ _ (find_next_ok k1 C1 _ Hi1)), Ef, Z.eqb_refl, bind_ret.
  pose proof (lookup_lt_Some _ _ _ Hl) as Hq. rewrite (rq_len _ _ _ (si_rq _ _ _ Hi)) in Hq.
  destruct (choose_idle k1 C1 Qs q Hi1 Hq) as (k' & C' & E & [? ? ? Hr' (r & t' & ->) ?]). exists k'. eexists. split; [exact E|].
  split; [done|done|done|by rewrite Hr'| |by left]. by exists r, t'.
Qed.

(** C26: When the current process does not run (it is asleep, or was woken
    again before it gave up the CPU) and is alone in the highest queue that is
    not empty, [schedule] switches to the idle process, whatever waits in the
    lower queues: READY processes there, and the woken process itself, are
    left waiting. *)
Theorem schedule_idles k C Qs x (q : nat) :
  sched_inv k C Qs -> c_current C <> 0 -> first_ready 0 Qs = (c_current C, Z.of_nat q) -> Qs !! q = Some [c_current C] ->
  procs k !! c_current C = Some x -> p_state x <> PROCESS_RUNNING -> c_idle_proc C <> 0 ->
  exists k' C', schedule 0 k = Ok (tt, k') /\ sched_inv k' C' Qs /\ c_current C' = c_idle_proc C /\
    <[c_idle_proc C := PROCESS_RUNNING]> (states k) ⊆ states k'.
Proof.
  intros Hi Hc0 Ef Hl Hx Hs Hi0. destruct (counted_ok k C Qs Hi) as [E1 Hi1]. unfold schedule. rewrite (bind_ok _ _ _ _ _ E1).
  set (k1 := set_cpus _ k) in *. destruct (pick_alone k1 (counted C) Qs x q Hi1 Hc0 Ef Hl Hx Hs) as (k2 & C2 & E2 & Hch).
  rewrite (bind_ok _ _ _ _ _ E2). pose proof (ch_inv _ _ _ _ _ _ _ _ Hch) as Hi2. destruct (chosen_same _ _ _ _ _ _ _ _ Hch) as (Ec & Ei & _ & EP).
  change (c_current (counted C)) with (c_current C) in Ec. change (c_idle_proc (counted C)) with (c_idle_proc C) in *.
  rewrite (bind_ok _ _ _ _ _ (getc_ok k2 0 C2 (si_cpu _ _ _ Hi2))). cbv zeta. rewrite Ei, Z.eqb_refl.
  destruct (si_idle _ _ _ Hi2) as [?|[[y Hy] _]]; [congruence|]. rewrite Ei in Hy.
  assert (c_current C <> c_idle_proc C) as Hci by (by eapply head_not_idle).
  assert (states k2 = states k) as ES by (unfold states; rewrite EP; done).
  assert (states k !! c_current C = Some (p_state x)) as Hsx by (by apply states_some).
  pose proof (schedule_idle_ok C2 Qs (states k) k2 (p_state x) (p_state y)) as Hw. rewrite Ec, Ei in Hw. rewrite <- ES in Hw at 1.
  specialize (Hw (has_states _ _ _ Hi2) Hsx Hs). rewrite <- ES in Hw at 1. specialize (Hw (states_some _ _ _ Hy) Hi0 Hc0 Hci).
  apply wp_elim in Hw as ([] & k3 & E3 & C3 & Hc3 & _ & H3). exists k3, C3. split; [exact E3|]. split; [apply H3|]. split; [done|].
  apply map_subseteq_spec. intros p s Hp. destruct (proj2 H3 p s) as (z & Hz & <-); [|by apply states_some].
  unfold switched. assert (left_state (p_state x) = p_state x) as -> by (unfold left_state; by rewrite (proj2 (Z.eqb_neq _ _) Hs)).
  rewrite (insert_id _ (c_current C)) by (by rewrite lookup_insert_ne). by rewrite insert_insert_eq.
Qed.

(** ** Processes that are in no queue *)

Inductive steps : kern M A -> list sched_op -> kern M A -> Prop :=
| steps_nil k : steps k [] k
| steps_cons k op k1 ops k' : op_ok op k -> run_op op k = Ok (tt, k1) -> steps k1 ops k' -> steps k (op :: ops) k'.

(** C27: A process that is neither in a run queue nor the idle process and has
    lost the CPU never runs again: no sequence of scheduler operations makes it
    current, because only new processes are put into the queues.  The first
    user process is such a process once it waits: it is started by
    [process_switch] and never handed to [scheduler_add_process]. *)
Theorem unqueued_never_runs k C Qs p ops k' :
  sched_inv k C Qs -> stranded p k C Qs -> steps k ops k' ->
  exists C', cpus k' !! 0%nat = Some C' /\ c_current C' <> p.
Proof.
  intros Hi Hs Hst. revert C Qs Hi Hs. induction Hst as [k|k op k1 ops k' Hok E _ IH]; intros C Qs Hi Hs.
  - exists C. split; [apply Hi|]. by destruct Hs as (_ & _ & ? & _).
  - destruct (proj1 (wp_elim _ _ _) (run_op_ok k C Qs op Hi Hok)) as ([] & k2 & E2 & C' & Qs' & Hi' & _ & Hs').
    assert (k2 = k1) as -> by congruence. by eapply IH, Hs'.
Qed.

End Run.

(** ** Example states *)

Definition no_spaces : AddressSpaces unit :=
  {| as_dir _ _ := 0; as_create := ret 0; as_clone _ := ret 0; as_destroy _ := ret tt |}.

Definition example_proc (pid state queue next : Z) : process :=
  set_pid pid (set_state state (set_mlfq_queue queue (set_next next process_zero))).

Definition example_kern (P : gmap Z process) (current idle : Z) (heads : list Z) : kern unit unit :=
  Kern P [] ∅ 12 [Cpu 0 current heads 0 0 0 0 0 idle 0 0] 1 0 1 0 tt tt ∅ ∅ [].

(** Process 11 waits behind the running process 10 in queue 0; 9 is idle. *)
Definition two_ready : kern unit unit :=
  example_kern {[9 := example_proc 1 0 0 0; 10 := example_proc 2 1 0 11; 11 := example_proc 3 0 0 10]} 10 9 [10; 0; 0; 0].

(** Process 10 sleeps in queue 0, 11 is ready in queue 1. *)
Definition one_asleep : kern unit unit :=
  example_kern {[9 := example_proc 1 0 0 0; 10 := example_proc 2 2 0 10; 11 := example_proc 3 0 1 11]} 10 9 [10; 11; 0; 0].

(** Process 8 gave up the CPU to 10 and is in no queue. *)
Definition one_lost : kern unit unit :=
  example_kern {[8 := example_proc 1 2 0 0; 9 := example_proc 2 0 0 0; 10 := example_proc 3 1 0 10]} 10 9 [10; 0; 0; 0].

Ltac example_inv := split;
  [reflexivity|reflexivity|reflexivity
  |split; [reflexivity|reflexivity
          |repeat constructor; eexists; split; reflexivity
          |intros [|[|[|[|q]]]] l p Hl Hp; try done; injection Hl as <-; repeat (apply elem_of_cons in Hp as [->|Hp]; [eexists; split; reflexivity|]);
           by apply not_elem_of_nil in Hp
          |apply (bool_decide_unpack _); reflexivity
          |apply (bool_decide_unpack _); reflexivity]
  |intros p x Hp; cbn [procs two_ready one_asleep one_lost example_kern] in Hp;
   repeat (apply lookup_insert_Some in Hp as [[<- <-]|[_ Hp]]; [cbn; lia|]); apply lookup_singleton_Some in Hp as [<- <-]; cbn; lia
  |right; eexists; reflexivity
  |right; split; [eexists; reflexivity|apply (bool_decide_unpack _); reflexivity]].

Lemma two_ready_inv : sched_inv two_ready (Cpu 0 10 [10; 0; 0; 0] 0 0 0 0 0 9 0 0) [[10; 11]; []; []; []].
Proof. example_inv. Qed.

Lemma one_asleep_inv : sched_inv one_asleep (Cpu 0 10 [10; 11; 0; 0] 0 0 0 0 0 9 0 0) [[10]; [11]; []; []].
Proof. example_inv. Qed.

(** The queues on a boot, one process handed over, one call. *)
Lemma scheduler_safe_witness : exists k : kern unit unit,
  reachable (H := no_spaces) k {[10]} /\ exists k', run_op (H := no_spaces) Schedule k = Ok (tt, k').
Proof.
  pose (k0 := example_kern {[KERNEL_PROC := process_zero]} KERNEL_PROC 0 [0; 0; 0; 0]).
  assert (reachable (H := no_spaces) k0 ∅) as H0.
  { apply reach_boot. split; [done|]. split; [eexists; split_and!; try reflexivity; right; by eexists|].
    intros p x Hp. cbn [procs k0 example_kern] in Hp. apply lookup_singleton_Some in Hp as [<- <-]. unfold KERNEL_PROC. cbn. lia. }
  destruct (proj2 (scheduler_safe (H := no_spaces) k0 ∅ H0) (Spawn 10 (example_proc 2 0 0 0))) as [k1 E1]; [done|].
  exists k1. assert (reachable (H := no_spaces) k1 {[10]}) as H1.
  { replace ({[10]} : gset Z) with (track (Spawn 10 (example_proc 2 0 0 0)) ∅) by reflexivity.
    by eapply (reach_step (H := no_spaces)). }
  split; [done|]. by apply (proj2 (scheduler_safe (H := no_spaces) k1 {[10]} H1)).
Defined.

Lemma schedule_preempts_witness : exists k' C' t,
  schedule (H := no_spaces) 0 two_ready = Ok (tt, k') /\ [[11]; [10]; []; []] !! 0%nat = Some (11 :: t) /\
  sched_inv k' C' (<[0%nat := t ++ [11]]> [[11]; [10]; []; []]) /\ c_current C' = 11 /\ c_quantum_left C' = 5 /\
  <[11 := PROCESS_RUNNING]> (<[10 := PROCESS_READY]> (states two_ready)) ⊆ states k'.
Proof.
  apply (schedule_preempts (H := no_spaces) two_ready _ _ (example_proc 2 1 0 11) 0 11 0 two_ready_inv); try done.
  apply (bool_decide_unpack _). reflexivity.
Defined.

Lemma schedule_idles_witness : exists k' C',
  schedule (H := no_spaces) 0 one_asleep = Ok (tt, k') /\ sched_inv k' C' [[10]; [11]; []; []] /\ c_current C' = 9 /\
  <[9 := PROCESS_RUNNING]> (states one_asleep) ⊆ states k'.
Proof. by apply (schedule_idles (H := no_spaces) one_asleep _ _ (example_proc 2 2 0 10) 0 one_asleep_inv). Defined.

Lemma one_lost_inv : sched_inv one_lost (Cpu 0 10 [10; 0; 0; 0] 0 0 0 0 0 9 0 0) [[10]; []; []; []].
Proof. example_inv. Qed.

Lemma unqueued_never_runs_witness : exists k', steps (H := no_spaces) one_lost [State 8 PROCESS_READY; Schedule] k' /\
  exists C', cpus k' !! 0%nat = Some C' /\ c_current C' <> 8.
Proof.
  destruct (proj1 (wp_elim _ _ _) (run_op_ok (H := no_spaces) one_lost _ _ (State 8 PROCESS_READY) one_lost_inv ltac:(by eexists)))
    as ([] & k1 & E1 & C1 & Qs1 & Hi1 & _).
  destruct (proj1 (wp_elim _ _ _) (run_op_ok (H := no_spaces) k1 _ _ Schedule Hi1 I)) as ([] & k2 & E2 & _).
  exists k2. assert (steps (H := no_spaces) one_lost [State 8 PROCESS_READY; Schedule] k2) as Hs.
  { eapply steps_cons; [by eexists|exact E1|]. eapply steps_cons; [done|exact E2|]. apply steps_nil. }
  split; [exact Hs|]. apply (unqueued_never_runs (H := no_spaces) one_lost _ _ 8 [State 8 PROCESS_READY; Schedule] k2 one_lost_inv); [|exact Hs].
  split; [by eexists|]. split; [apply (bool_decide_unpack _); reflexivity|done].
Defined.
