(* ===== verification/Signal.v ===== *)
(** * Wait queues, signals and the end of a process

    Models core/waitq.c, core/signal.c, core/alarm.c and the functions of
    core/process.c that end a process.  The only wait queues here are the
    [children_wq] of the processes; an entry of one is identified by the
    process on whose stack it lies.  [me] is the CPU the code runs on. *)

From stdpp Require Import base tactics numbers list gmap.
From S2P Require Import Prelude Alloc Proc Sched.

Definition SIGKILL := 9.
Definition SIGUSR1 := 10.
Definition SIGUSR2 := 12.
Definition SIGALRM := 14.
Definition SIGCHLD := 17.
Definition SIGCONT := 18.
Definition SIGSTOP := 19.
Definition SIG_DFL := 0.
Definition SIG_IGN := 1.

Inductive signal_action := ACT_TERM | ACT_IGN.

Definition default_action (sig : Z) : signal_action :=
  if (sig =? SIGCHLD) || (sig =? SIGUSR1) || (sig =? SIGUSR2) then ACT_IGN else ACT_TERM.

Section Signal.
Context {M A : Type}.
Abbreviation kern := (kern M A).

(** ** Wait queues *)

(** [e] of [wait_queue_prepare] is the entry of the process that runs. *)
Definition wait_queue_prepare (me q : Z) : ST kern unit :=
  p ← current_process me;
  if p =? 0 then ret tt
  else
    k ← gets id;
    (if decide (p ∈ kwaiting k) then ret tt
     else
       modify (fun k => set_waiting ({[p]} ∪ kwaiting k) k);;
       updp q (fun x => set_children_wq (p :: p_children_wq x) x));;
    updp p (set_state PROCESS_BLOCKED).

(** The walk that unlinks an entry. *)
Fixpoint unlink_entry (e : Z) (l : list Z) : list Z :=
  match l with
  | [] => []
  | x :: l' => if x =? e then l' else x :: unlink_entry e l'
  end.

Definition wait_queue_finish (q e : Z) : ST kern unit :=
  updp q (fun x => set_children_wq (unlink_entry e (p_children_wq x)) x);;
  k ← gets id;
  if decide (e ∈ kwaiting k) then
    updp e (fun x => if p_state x =? PROCESS_BLOCKED then set_state PROCESS_RUNNING x else x);;
    modify (fun k => set_waiting (kwaiting k ∖ {[e]}) k)
  else ret tt.

Fixpoint wake_entries (me : Z) (l : list Z) : ST kern unit :=
  match l with
  | [] => ret tt
  | e :: l' =>
      k ← gets id;
      (if decide (e ∈ kwaiting k) then
         updp e (set_state PROCESS_READY);;
         x ← getp e;
         c ← getc me;
         if (p_owner_cpu x <? MAX_CPUS) && negb (p_owner_cpu x =? c_id c) then log (Ipi (p_owner_cpu x)) else ret tt
       else ret tt);;
      wake_entries me l'
  end.

Definition wake_all (me q : Z) : ST kern unit :=
  x ← getp q;
  updp q (set_children_wq []);;
  wake_entries me (p_children_wq x).

(** ** Signals *)

Definition bit (sig : Z) : Z := u32 (Z.shiftl 1 sig).

Definition process_deliver_signal (proc sig : Z) : ST kern Z :=
  if proc =? 0 then ret (- EINVAL)
  else
    x ← getp proc;
    handler ← rd (p_signal_handlers x) sig;
    if handler =? SIG_IGN then ret 0
    else if handler =? SIG_DFL then
      match default_action sig with
      | ACT_TERM => updp proc (fun x => set_exit_code (Z.land sig 127) (set_state PROCESS_TERMINATED x));; ret 0
      | ACT_IGN => ret 0
      end
    else
      updp proc (fun x => set_signal_pending (Z.lor (p_signal_pending x) (bit sig)) x);;
      ret 0.

(** What the switch of [process_send_signal] does to the target. *)
Definition act_on_signal (target sig : Z) : ST kern Z :=
  if sig =? SIGKILL then
    updp target (fun x => set_exit_code (Z.land SIGKILL 127) (set_state PROCESS_TERMINATED x));; ret 0
  else if sig =? SIGSTOP then updp target (set_state PROCESS_BLOCKED);; ret 0
  else if sig =? SIGCONT then
    updp target (fun x => if p_state x =? PROCESS_BLOCKED then set_state PROCESS_READY x else x);; ret 0
  else
    t ← getp target;
    if negb (Z.land (p_signal_mask t) (bit sig) =? 0) then
      updp target (fun x => set_signal_pending (Z.lor (p_signal_pending x) (bit sig)) x);; ret 0
    else process_deliver_signal target sig.

Definition process_send_signal (me pid sig : Z) : ST kern Z :=
  if (sig <? 1) || (NSIG_HANDLED <=? sig) then ret (- EINVAL)
  else
    target ← process_find_by_pid pid;
    if target =? 0 then ret (- ESRCH)
    else
      sender ← get_current_process me;
      s ← getp sender;
      t ← getp target;
      if negb (p_euid s =? 0) && negb (p_euid s =? p_uid t) && negb (p_euid s =? p_suid t) then ret (- EPERM)
      else
        r ← act_on_signal target sig;
        t ← getp target;
        k ← gets id;
        c ← getc me;
        (if (p_owner_cpu t <? cpu_count k) && negb (p_owner_cpu t =? c_id c) then log (Ipi (p_owner_cpu t)) else ret tt);;
        ret r.

Definition process_set_signal_handler (proc sig handler : Z) : ST kern Z :=
  if (proc =? 0) || (sig <? 1) || (NSIG_HANDLED <=? sig) then ret (- EINVAL)
  else if (sig =? SIGKILL) || (sig =? SIGSTOP) then ret (- EINVAL)
  else
    x ← getp proc;
    old ← rd (p_signal_handlers x) sig;
    h ← wr (p_signal_handlers x) sig handler;
    updp proc (set_signal_handlers h);;
    ret (s32 old).

Definition signal_pending_check (me : Z) : ST kern Z :=
  p ← get_current_process me;
  x ← getp p;
  ret (if Z.land (p_signal_pending x) (Z.lxor (p_signal_mask x) 0xFFFFFFFF) =? 0 then 0 else 1).

(** The body of the loop of [alarm_tick]. *)
Definition alarm_one (me i : Z) : ST kern unit :=
  p ← process_get_by_index i;
  if p =? 0 then ret tt
  else
    x ← getp p;
    if (p_state x =? PROCESS_TERMINATED) || (p_state x =? PROCESS_ZOMBIE) then ret tt
    else if p_alarm_ticks x =? 0 then ret tt
    else
      updp p (fun x => set_alarm_ticks (u32 (p_alarm_ticks x - 1)) x);;
      if p_alarm_ticks x =? 1 then process_send_signal me (p_pid x) SIGALRM;; ret tt else ret tt.

Definition alarm_tick (me : Z) : ST kern unit := for_loop (Z.to_nat MAX_PROCESSES_CONST) 0 (alarm_one me).

(** ** The end of a process *)

Definition process_exit (me exit_code : Z) : ST kern unit :=
  p ← current_process me;
  if p =? 0 then ret tt
  else
    x ← getp p;
    if p_pid x =? 0 then ret tt
    else
      let my_ppid := p_ppid x in
      updp p (set_exit_code exit_code);;
      (if negb (my_ppid =? 0) then
         parent ← process_find_by_pid my_ppid;
         (if negb (parent =? 0) then wake_all me parent else ret tt);;
         process_send_signal me my_ppid SIGCHLD;;
         ret tt
       else ret tt);;
      updp p (set_state PROCESS_ZOMBIE);;
      scheduler_remove_process p.

Definition ht_remove (pid : Z) : ST kern unit := modify (fun k => set_ht (delete (u32 pid) (pid_ht k)) k).

(** The scan of the table that clears the slot of [proc]. *)
Definition clear_slot (proc : Z) : ST kern unit :=
  r ← for_until (Z.to_nat (MAX_PROCESSES_CONST - 1)) 1 (fun i =>
        k ← gets id;
        q ← rd (table k) i;
        if q =? proc then put_slot i 0;; ret (Some tt) else ret None);
  ret tt.

Context `{Kmalloc M} `{AddressSpaces A}.

Definition process_terminate (proc : Z) : ST kern unit :=
  if proc =? 0 then ret tt
  else
    x ← getp proc;
    if p_pid x =? 0 then ret tt
    else
      updp proc (set_state PROCESS_TERMINATED);;
      (if negb (p_kernel_stack x =? 0) then
         free_stack (p_kernel_stack x);; updp proc (set_kernel_stack 0)
       else ret tt);;
      (if negb (p_memory x =? 0) then
         on_spaces (as_destroy (p_memory x));; updp proc (set_memory 0)
       else ret tt);;
      ht_remove (p_pid x);;
      clear_slot proc;;
      free_process proc.

End Signal.
