(* ===== verification/ProcCalls.v ===== *)
(** * System calls on processes

    Models core/fork.c, core/cred.c, core/jobctl.c, core/stack_canary.c,
    [sys_nice] of core/priority.c and syscalls/sys_proc.c.  The open files and
    the user memory a call touches are used through the class [Userland].
    [sys_waitpid] is cut where it calls [schedule]: it returns [None] to sleep,
    and [waitpid_resume] goes on once the process runs again. *)

From stdpp Require Import base tactics numbers list gmap.
From S2P Require Import Prelude Kstring Fd Alloc Block Proc Sched Signal.

Definition STACK_CANARY_PROCESS_MAGIC := 0xC0DEC0DE.
Definition KERNEL_CODE_SEL := 0x08.
Definition KERNEL_DATA_SEL := 0x10.
Definition USER_CODE_SEL := 0x1B.
Definition USER_DATA_SEL := 0x23.
Definition USER_CODE_BASE := 0x08048000.
Definition USER_SPACE_END := 0x80000000.
Definition NSIG := 65.

(** Offsets of the saved registers, and their size. *)
Definition REGS_DS := 0.
Definition REGS_EAX := 32.
Definition REGS_CS := 48.
Definition REGS_SS := 60.
Definition REGS_SIZE := 64.

(** [copy_to_user] (mm/uaccess.c) and [vfs_open_file_incref] (fs/vfs_core.c). *)
Class Userland (A : Type) := {
  copy_to_user_a : Z -> list Z -> ST A Z;
  open_file_incref_a : Z -> ST A unit
}.

Section Calls.
Context {M A : Type}.
Abbreviation kern := (kern M A).

(** ** Canaries *)

(** [*(uint32_t * )(stack + off) = x]. *)
Definition stack_write (stack off x : Z) : ST kern unit :=
  k ← gets id;
  match kstacks k !! stack with
  | Some s => s' ← copy_in s off (le32 x); modify (fun k => set_kstacks (<[stack := s']> (kstacks k)) k)
  | None => fail Undef
  end.

Definition stack_read (stack off : Z) : ST kern Z :=
  k ← gets id;
  match kstacks k !! stack with
  | Some s => b ← copy_out s off 4; ret (get32 b 0)
  | None => fail Undef
  end.

(** [lo] is the low half of the time stamp counter. *)
Definition process_init_canary (p lo : Z) : ST kern unit :=
  if p =? 0 then ret tt
  else
    x ← getp p;
    if p_kernel_stack x =? 0 then ret tt
    else
      let canary := u32 (Z.lxor (Z.lxor STACK_CANARY_PROCESS_MAGIC (u32 (p_pid x))) lo) in
      updp p (set_canary canary);;
      stack_write (p_kernel_stack x) 0 canary.

Definition process_check_current_canary (me : Z) : ST kern unit :=
  p ← get_current_process me;
  x ← getp p;
  if p_kernel_stack x =? 0 then ret tt
  else
    val ← stack_read (p_kernel_stack x) 0;
    if val =? p_canary_expected x then ret tt else fail Panic.

(** ** Credentials *)

Definition cred_set_uid (proc uid : Z) : ST kern Z :=
  if proc =? 0 then ret (- ESRCH)
  else
    x ← getp proc;
    if p_euid x =? 0 then updp proc (fun x => set_uid uid (set_euid uid (set_suid uid x)));; ret 0
    else if (uid =? p_uid x) || (uid =? p_euid x) || (uid =? p_suid x) then updp proc (set_euid uid);; ret 0
    else ret (- EPERM).

Definition cred_set_gid (proc gid : Z) : ST kern Z :=
  if proc =? 0 then ret (- ESRCH)
  else
    x ← getp proc;
    if p_euid x =? 0 then updp proc (fun x => set_gid gid (set_egid gid (set_sgid gid x)));; ret 0
    else if (gid =? p_gid x) || (gid =? p_egid x) || (gid =? p_sgid x) then updp proc (set_egid gid);; ret 0
    else ret (- EPERM).

Definition cred_set_euid (proc euid : Z) : ST kern Z :=
  if proc =? 0 then ret (- ESRCH)
  else
    x ← getp proc;
    if (p_euid x =? 0) || (euid =? p_uid x) || (euid =? p_suid x) then updp proc (set_euid euid);; ret 0
    else ret (- EPERM).

Definition cred_set_egid (proc egid : Z) : ST kern Z :=
  if proc =? 0 then ret (- ESRCH)
  else
    x ← getp proc;
    if (p_euid x =? 0) || (egid =? p_gid x) || (egid =? p_sgid x) then updp proc (set_egid egid);; ret 0
    else ret (- EPERM).

(** ** Job control *)

Definition process_setpgid (me pid pgid : Z) : ST kern Z :=
  cur ← get_current_process me;
  c ← getp cur;
  let pid := if pid =? 0 then p_pid c else pid in
  let pgid := if pgid =? 0 then pid else pgid in
  target ← process_find_by_pid pid;
  if target =? 0 then ret (- ESRCH)
  else
    t ← getp target;
    if negb (p_pid t =? p_pid c) && negb (p_ppid t =? p_pid c) then ret (- EPERM)
    else updp target (set_pgid pgid);; ret 0.

(** [process_getpgid] and [process_getsid] read the field [f]. *)
Definition get_of_pid (f : process -> Z) (me pid : Z) : ST kern Z :=
  cur ← get_current_process me;
  c ← getp cur;
  if pid =? 0 then ret (f c)
  else
    target ← process_find_by_pid pid;
    if target =? 0 then ret (- ESRCH) else t ← getp target; ret (f t).

Definition process_getpgid (me pid : Z) : ST kern Z := get_of_pid p_pgid me pid.
Definition process_getsid (me pid : Z) : ST kern Z := get_of_pid p_sid me pid.

Definition process_getpgrp (me : Z) : ST kern Z :=
  cur ← get_current_process me; c ← getp cur; ret (p_pgid c).

Definition process_setsid (me : Z) : ST kern Z :=
  cur ← get_current_process me;
  c ← getp cur;
  if p_pid c =? p_pgid c then ret (- EPERM)
  else
    updp cur (fun x => set_tty (-1) (set_pgid (p_pid x) (set_sid (p_pid x) x)));;
    ret (p_pid c).

Definition process_tcgetpgrp (fd : Z) : ST kern Z :=
  if 2 <? fd then ret (- ENOTTY) else gets console_pgrp.

Definition process_tcsetpgrp (fd pgrp : Z) : ST kern Z :=
  if 2 <? fd then ret (- ENOTTY) else modify (set_console pgrp);; ret 0.

Definition sys_nice (me increment : Z) : ST kern Z :=
  p ← get_current_process me;
  x ← getp p;
  let n := s32 (p_priority x) + increment in
  if negb (n =? s32 n) then fail Undef
  else
    let n := if n <? 0 then 0 else n in
    let n := if 39 <? n then 39 else n in
    updp p (set_priority n);;
    ret (n - 20).

(** ** fork *)

Context `{Kmalloc M} `{AddressSpaces A} `{Userland A}.

Definition fork_cleanup (child : Z) : ST kern unit :=
  x ← getp child;
  (if negb (p_memory x =? 0) then on_spaces (as_destroy (p_memory x)) else ret tt);;
  (if negb (p_kernel_stack x =? 0) then free_stack (p_kernel_stack x) else ret tt);;
  free_process child.

(** The fields the child takes from the parent before anything can fail. *)
Definition fork_fields (parent child : Z) : ST kern unit :=
  pid ← allocate_next_pid;
  x ← getp parent;
  updp child (fun c => set_umask (p_umask x) (set_signal_mask (p_signal_mask x) (set_time_slice (p_time_slice x)
    (set_priority (p_priority x) (set_state PROCESS_READY (set_gid (p_gid x) (set_uid (p_uid x)
      (set_ppid (p_pid x) (set_pid pid c)))))))));;
  c ← getp child;
  nm ← strncpy_field (p_name c) (p_name x) 16;
  cwd ← strncpy_field (p_cwd c) (p_cwd x) 256;
  updp child (fun c => set_cwd cwd (set_name nm c)).

(** The saved registers on the new stack; [ret_addr] is [fork_child_return]. *)
Definition fork_regs (ret_addr parent child regs : Z) : ST kern Z :=
  x ← getp parent;
  c ← getp child;
  if regs =? 0 then
    let r := p_context x in
    updp child (set_context (Context 0 (ebx r) (ecx r) (edx r) (esi r) (edi r) (ebp r) (esp r)
                               (eip r) (eflags r) (cs r) (ds r) (es r) (fs r) (gs r) (ss r)));;
    ret 0
  else
    let base := p_kernel_stack x in
    if (regs <? base) || (u32 (base + KERNEL_STACK_SIZE) <=? regs) then ret (- EINVAL)
    else
      let off := regs - base in
      let st := p_kernel_stack c in
      stack_write st (off + REGS_EAX) 0;;
      stack_write st (off + REGS_CS) USER_CODE_SEL;;
      stack_write st (off + REGS_SS) USER_DATA_SEL;;
      stack_write st (off + REGS_DS) USER_DATA_SEL;;
      let r := p_context c in
      updp child (set_context (Context (eax r) (ebx r) (ecx r) (edx r) (esi r) (edi r) (ebp r) (u32 (st + off))
        ret_addr 0x202 KERNEL_CODE_SEL KERNEL_DATA_SEL KERNEL_DATA_SEL KERNEL_DATA_SEL KERNEL_DATA_SEL KERNEL_DATA_SEL));;
      ret 0.

Definition put_fd (p i : Z) (e : proc_fd) : ST kern unit :=
  x ← getp p; t ← wr (p_fd_table x) i e; updp p (set_fd_table t).

(** The body of the loop over the descriptors. *)
Definition fork_fd (parent child i : Z) : ST kern unit :=
  x ← getp parent;
  e ← rd (p_fd_table x) i;
  put_fd child i e;;
  if negb (of_idx e =? 0) || negb (fd_flags e =? 0) then
    put_fd parent i (ProcFd (of_idx e) (fd_offset e) (fd_flags e) (s32 (fd_refcount e + 1)));;
    put_fd child i (ProcFd (of_idx e) (fd_offset e) (fd_flags e) 1);;
    let raw := of_idx_decode (of_idx e) in
    if 0 <=? raw then on_spaces (open_file_incref_a raw) else ret tt
  else ret tt.

(** The end of [sys_fork]: descriptors, handlers, the table, the scheduler. *)
Definition fork_publish (me parent child : Z) : ST kern Z :=
  for_loop (Z.to_nat MAX_OPEN_FILES) 0 (fork_fd parent child);;
  x ← getp parent;
  updp child (fun c => set_next 0 (set_children_wq [] (set_signal_handlers (p_signal_handlers x) c)));;
  slot ← find_slot;
  if slot <? 0 then fork_cleanup child;; ret (- EAGAIN)
  else
    put_slot slot child;;
    c ← getp child;
    ht_insert (p_pid c) child;;
    scheduler_add_process me child;;
    c ← getp child;
    ret (p_pid c).

(** The kernel stack of the child, with its canary. *)
Definition fork_stack (parent child lo : Z) (junk : list Z) : ST kern bool :=
  x ← getp parent;
  stack ← new_stack junk;
  updp child (set_kernel_stack stack);;
  if stack =? 0 then ret false
  else
    k ← gets id;
    match kstacks k !! p_kernel_stack x with
    | Some s => modify (fun k => set_kstacks (<[stack := s]> (kstacks k)) k)
    | None => fail Undef
    end;;
    process_init_canary child lo;;
    ret true.

Definition sys_fork (me ret_addr lo : Z) (junk : list Z) (regs : Z) : ST kern Z :=
  parent ← get_current_process me;
  x ← getp parent;
  if p_pid x =? 0 then ret (- EPERM)
  else
    child ← new_process;
    if child =? 0 then ret (- ENOMEM)
    else
      fork_fields parent child;;
      if p_kernel_stack x =? 0 then fork_cleanup child;; ret (- EINVAL)
      else
        ok ← fork_stack parent child lo junk;
        if negb ok then fork_cleanup child;; ret (- ENOMEM)
        else
          r ← fork_regs ret_addr parent child regs;
          if r <? 0 then fork_cleanup child;; ret r
          else
            updp child (set_first_sched 1);;
            mem ← (if negb (p_memory x =? 0) then on_spaces (as_clone (p_memory x)) else ret 0);
            updp child (set_memory mem);;
            if negb (p_memory x =? 0) && (mem =? 0) then fork_cleanup child;; ret (- ENOMEM)
            else fork_publish me parent child.

(** ** wait *)

Definition waitpid_reap (child status_ptr : Z) : ST kern Z :=
  x ← getp child;
  rc ← (if negb (status_ptr =? 0) then on_spaces (copy_to_user_a status_ptr (le32 (u32 (p_exit_code x)))) else ret 0);
  if rc <? 0 then ret rc
  else
    (if p_state x =? PROCESS_ZOMBIE then process_terminate child else ret tt);;
    ret (p_pid x).

(** The condition of [wait_event]. *)
Definition wait_cond (ppid pid : Z) : ST kern bool :=
  z ← process_find_child ppid pid true;
  if negb (z =? 0) then ret true
  else a ← process_find_child ppid pid false; ret (a =? 0).

(** A round of [wait_event] up to [schedule]: whether the loop was left. *)
Definition wait_event_round (me cur ppid pid : Z) : ST kern bool :=
  b ← wait_cond ppid pid;
  if (b : bool) then ret true
  else
    wait_queue_prepare me cur;;
    b ← wait_cond ppid pid;
    if (b : bool) then wait_queue_finish cur cur;; ret true else ret false.

(** The loop of [sys_waitpid]; when a round of [wait_event] is left, the loop
    ends in the next pass, so two passes are enough. *)
Fixpoint waitpid_loop (fuel : nat) (me cur ppid pid status_ptr : Z) : ST kern (option Z) :=
  match fuel with
  | O => fail NoFuel
  | S fuel' =>
      z ← process_find_child ppid pid true;
      if negb (z =? 0) then r ← waitpid_reap z status_ptr; ret (Some r)
      else
        a ← process_find_child ppid pid false;
        if a =? 0 then ret (Some (- ECHILD))
        else
          b ← wait_event_round me cur ppid pid;
          if (b : bool) then waitpid_loop fuel' me cur ppid pid status_ptr else ret None
  end.

Definition sys_waitpid (me pid status_ptr opts : Z) : ST kern (option Z) :=
  cur ← get_current_process me;
  x ← getp cur;
  a ← process_find_child (u32 (p_pid x)) (s32 pid) false;
  if a =? 0 then ret (Some (- ECHILD))
  else if negb (Z.land opts 1 =? 0) then
    z ← process_find_child (u32 (p_pid x)) (s32 pid) true;
    if z =? 0 then ret (Some 0) else r ← waitpid_reap z status_ptr; ret (Some r)
  else waitpid_loop 2 me cur (u32 (p_pid x)) (s32 pid) status_ptr.

(** Behind [schedule]: the rest of the round, and the next rounds. *)
Definition waitpid_resume (me pid status_ptr : Z) : ST kern (option Z) :=
  cur ← get_current_process me;
  x ← getp cur;
  wait_queue_finish cur cur;;
  b ← wait_event_round me cur (u32 (p_pid x)) (s32 pid);
  if (b : bool) then waitpid_loop 2 me cur (u32 (p_pid x)) (s32 pid) status_ptr else ret None.

(** ** The other calls of sys_proc.c *)

Definition sys_exit (me status : Z) : ST kern unit :=
  process_exit me (s32 (Z.shiftl (Z.land status 0xFF) 8));; schedule me.

Definition get_field (f : process -> Z) (me : Z) : ST kern Z :=
  p ← get_current_process me; x ← getp p; ret (s32 (f x)).

Definition sys_getpid (me : Z) : ST kern Z := get_field p_pid me.
Definition sys_getppid (me : Z) : ST kern Z := get_field p_ppid me.
Definition sys_getuid (me : Z) : ST kern Z := get_field p_uid me.
Definition sys_getgid (me : Z) : ST kern Z := get_field p_gid me.
Definition sys_geteuid (me : Z) : ST kern Z := get_field p_euid me.
Definition sys_getegid (me : Z) : ST kern Z := get_field p_egid me.
Definition sys_gettid (me : Z) : ST kern Z := get_field p_pid me.
Definition sys_set_tid_address (me tidptr : Z) : ST kern Z := get_field p_pid me.

Definition sys_setuid (me uid : Z) : ST kern Z := p ← get_current_process me; cred_set_uid p uid.
Definition sys_setgid (me gid : Z) : ST kern Z := p ← get_current_process me; cred_set_gid p gid.
Definition sys_seteuid (me euid : Z) : ST kern Z := p ← get_current_process me; cred_set_euid p euid.
Definition sys_setegid (me egid : Z) : ST kern Z := p ← get_current_process me; cred_set_egid p egid.

Definition sys_kill (me pid sig : Z) : ST kern Z := process_send_signal me (s32 pid) (s32 sig).

Definition sys_signal (me sig handler : Z) : ST kern Z :=
  if (NSIG <=? sig) || (sig =? 0) then ret (- EINVAL)
  else if (1 <? handler) && ((handler <? USER_CODE_BASE) || (USER_SPACE_END <=? handler)) then ret (- EFAULT)
  else p ← get_current_process me; process_set_signal_handler p (s32 sig) handler.

(** [sys_fork_wrap]. *)
Definition sys_fork_wrap (me ret_addr lo : Z) (junk : list Z) : ST kern Z :=
  c ← getc me; sys_fork me ret_addr lo junk (c_syscall_regs c).

Definition sys_setpgid (me pid pgid : Z) : ST kern Z := process_setpgid me (s32 pid) (s32 pgid).
Definition sys_getpgid (me pid : Z) : ST kern Z := process_getpgid me (s32 pid).
Definition sys_getpgrp (me : Z) : ST kern Z := process_getpgrp me.
Definition sys_setsid (me : Z) : ST kern Z := process_setsid me.
Definition sys_getsid (me pid : Z) : ST kern Z := process_getsid me (s32 pid).
Definition sys_tcgetpgrp (fd : Z) : ST kern Z := process_tcgetpgrp (s32 fd).
Definition sys_tcsetpgrp (fd pgrp : Z) : ST kern Z := process_tcsetpgrp (s32 fd) (s32 pgrp).

End Calls.
