(* ===== verification/LifeInv.v ===== *)
(** * The invariant of the process table

    What holds between the operations on processes: table, pid hash, objects,
    kernel stacks and heap agree, and no zombie waits for a CPU.  Two
    relations say which changes keep it: [mild], for changes of process fields
    the invariant does not mention, and [quiet] of SchedFrame, for the
    scheduler. *)

From stdpp Require Import base tactics numbers list gmap.
From S2P Require Import Prelude Kstring Fd Alloc Proc Sched SchedFrame SchedProofs SchedSpec SchedSwitch.
From S2P Require Import Signal ProcCalls.

(** What the operations on processes rely on: [sp_rep a S] says that [S] are the
    live address spaces.  Creating and cloning yield a new one or fail with
    NULL, a live one can be destroyed, and copies to user memory and counts of
    open files return. *)
Class SpacesLaws (A : Type) `{AddressSpaces A} `{Userland A} := {
  sp_rep : A -> gset Z -> Prop;
  sp_create a S : sp_rep a S -> exists m a', as_create a = Ok (m, a') /\
    ((m = 0 /\ sp_rep a' S) \/ (m <> 0 /\ m ∉ S /\ sp_rep a' ({[m]} ∪ S)));
  sp_clone a S src : sp_rep a S -> src ∈ S -> exists m a', as_clone src a = Ok (m, a') /\
    ((m = 0 /\ sp_rep a' S) \/ (m <> 0 /\ m ∉ S /\ sp_rep a' ({[m]} ∪ S)));
  sp_destroy a S m : sp_rep a S -> m ∈ S -> exists a', as_destroy m a = Ok (tt, a') /\ sp_rep a' (S ∖ {[m]});
  sp_copy a S p b : sp_rep a S -> exists r a', copy_to_user_a p b a = Ok (r, a') /\ sp_rep a' S;
  sp_incref a S i : sp_rep a S -> 0 <= i < 64 -> exists a', open_file_incref_a i a = Ok (tt, a') /\ sp_rep a' S
}.

(** The buffers of a process at address [p]; only [p] itself sleeps on its
    queue of children. *)
Record proc_ok (p : Z) (x : process) : Prop := {
  po_handlers : length (p_signal_handlers x) = 32%nat;
  po_name : length (p_name x) = 16%nat /\ 0 ∈ p_name x;
  po_cwd : length (p_cwd x) = 256%nat /\ 0 ∈ p_cwd x;
  po_fds : length (p_fd_table x) = 64%nat;
  po_wq : forall e, e ∈ p_children_wq x -> e = p
}.

Section Inv.
Context {M A : Type} {KM : Kmalloc M} {AS : AddressSpaces A} {UL : Userland A} {SL : SpacesLaws A}.
Implicit Types k : kern M A.

(** [L] are the live blocks of the heap, [L0] those that belong to others; [S]
    are the live address spaces; [U] are the processes under construction,
    which no table names yet. *)
Record kinv (U : gset Z) (L0 : gmap Z Z) (k : kern M A) (C : cpu) (Qs : list (list Z)) (L : gmap Z Z) (S : gset Z) : Prop := {
  ki_sched : sched_inv k C Qs;
  ki_len : length (table k) = 128%nat;
  ki_kernel : table k !! 0%nat = Some KERNEL_PROC;
  ki_slots : forall (i j : nat) p, p <> 0 -> table k !! i = Some p -> table k !! j = Some p -> i = j;
  ki_live : forall p, p <> 0 -> is_Some (procs k !! p) /\ (p ∉ U) <-> p ∈ table k;
  ki_pid : forall p x, procs k !! p = Some x -> p ∉ U -> 0 <= p_pid x < next_pid k /\ (p_pid x = 0 -> p = KERNEL_PROC);
  ki_ppid : forall p x, procs k !! p = Some x -> p ∉ U -> p <> KERNEL_PROC -> p_ppid x <> p_pid x;
  ki_kpid : forall x, procs k !! KERNEL_PROC = Some x -> p_pid x = 0 /\ p_ppid x = 0;
  ki_ht : forall pid p, pid_ht k !! pid = Some p <-> exists x, procs k !! p = Some x /\ p_pid x = pid /\ p ∉ U;
  ki_next : 1 <= next_pid k <= 2147483648;
  ki_rep : km_rep (kmem k) L;
  ki_obj : forall p x, procs k !! p = Some x -> p = KERNEL_PROC \/ L !! p = Some PROCESS_SIZE;
  ki_stack : forall p x, procs k !! p = Some x -> p_kernel_stack x <> 0 ->
    L !! p_kernel_stack x = Some KERNEL_STACK_SIZE /\
    exists s, kstacks k !! p_kernel_stack x = Some s /\ length s = 8192%nat;
  ki_stack_inj : forall p q x y, procs k !! p = Some x -> procs k !! q = Some y ->
    p_kernel_stack x <> 0 -> p_kernel_stack x = p_kernel_stack y -> p = q;
  ki_owned : forall a n, L !! a = Some n ->
    L0 !! a = Some n \/ is_Some (procs k !! a) \/ exists p x, procs k !! p = Some x /\ p_kernel_stack x = a;
  ki_others : forall a n, L0 !! a = Some n -> L !! a = Some n /\ procs k !! a = None /\
    forall p x, procs k !! p = Some x -> p_kernel_stack x <> a;
  ki_spaces : sp_rep (kspaces k) S;
  ki_mem_null : 0 ∉ S;
  ki_mem : forall p x, procs k !! p = Some x -> p_memory x <> 0 -> p_memory x ∈ S;
  ki_mem_inj : forall p q x y, procs k !! p = Some x -> procs k !! q = Some y ->
    p_memory x <> 0 -> p_memory x = p_memory y -> p = q;
  ki_mem_owned : forall m, m ∈ S -> exists p x, procs k !! p = Some x /\ p_memory x = m;
  ki_zombie : forall p x, procs k !! p = Some x -> p_state x = PROCESS_ZOMBIE -> p ∉ mjoin Qs /\ p <> c_idle_proc C;
  ki_shape : forall p x, procs k !! p = Some x -> proc_ok p x
}.

(** ** Changes of other fields *)

(** A process without the fields that a signal, a wait, a change of
    credentials or of the session may change. *)
Definition proc_rest (x : process) : process :=
  set_state 0 (set_exit_code 0 (set_signal_pending 0 (set_signal_mask 0 (set_signal_handlers [] (set_children_wq []
    (set_uid 0 (set_gid 0 (set_euid 0 (set_egid 0 (set_suid 0 (set_sgid 0 (set_pgid 0 (set_sid 0 (set_tty 0
      (set_priority 0 (set_alarm_ticks 0 x)))))))))))))))).

Definition kern_rest (k : kern M A) : kern M A :=
  set_procs (proc_rest <$> procs k) (set_waiting ∅ (set_console 0 (set_klog [] k))).

Definition mild_proc (p : Z) (x x' : process) : Prop :=
  proc_rest x' = proc_rest x /\ (p_state x' = PROCESS_ZOMBIE -> p_state x = PROCESS_ZOMBIE) /\ (proc_ok p x -> proc_ok p x').

Definition mild (k k' : kern M A) : Prop :=
  kern_rest k' = kern_rest k /\
  forall p x x', procs k !! p = Some x -> procs k' !! p = Some x' -> mild_proc p x x'.

Lemma mild_lookup k k' p x : mild k k' -> procs k !! p = Some x -> exists x', procs k' !! p = Some x' /\ mild_proc p x x'.
Proof.
  intros [E Hm] Hx. apply (f_equal (fun k => procs k !! p)) in E. cbn in E. rewrite !lookup_fmap, Hx in E. cbn in E.
  apply fmap_Some in E as (x' & Hx' & _). exists x'. split; [done|]. by apply Hm.
Qed.

Lemma mild_back k k' p x' : mild k k' -> procs k' !! p = Some x' -> exists x, procs k !! p = Some x /\ mild_proc p x x'.
Proof.
  intros [E Hm] Hx. apply (f_equal (fun k => procs k !! p)) in E. cbn in E. rewrite !lookup_fmap, Hx in E. cbn in E.
  symmetry in E. apply fmap_Some in E as (x & Hx' & _). exists x. split; [done|]. by apply Hm.
Qed.

Lemma mild_proc_refl p x : mild_proc p x x.
Proof. done. Qed.

Lemma mild_refl k : mild k k.
Proof. split; [done|]. intros p x x' H1 H2. by simplify_eq. Qed.

Lemma mild_trans k1 k2 k3 : mild k1 k2 -> mild k2 k3 -> mild k1 k3.
Proof.
  intros H12 H23. split; [by rewrite (proj1 H23), (proj1 H12)|]. intros p x x'' Hx Hx''.
  destruct (mild_lookup _ _ _ _ H12 Hx) as (x' & Hx' & E1 & Z1 & O1). destruct (proj2 H23 p x' x'' Hx' Hx'') as (E2 & Z2 & O2).
  split; [congruence|]. split; tauto.
Qed.

(** Links, queue number and CPU of a process. *)
Definition links (x : process) : Z * Z * Z := (p_next x, p_mlfq_queue x, p_owner_cpu x).

Lemma chain_links P P' l e : (forall p, links <$> P' !! p = links <$> P !! p) -> chain P l e -> chain P' l e.
Proof.
  intros Hl. induction l as [|p l IH]; [done|]. intros [(x & Hx & Hn) Hc]. split; [|by apply IH].
  specialize (Hl p). rewrite Hx in Hl. apply fmap_Some in Hl as (x' & Hx' & E). exists x'. split; [done|]. injection E as E _ _. congruence.
Qed.

Lemma sched_inv_links k k' C Qs : cpus k' = cpus k -> cpu_count k' = cpu_count k ->
  (forall p, links <$> procs k' !! p = links <$> procs k !! p) -> sched_inv k C Qs -> sched_inv k' C Qs.
Proof.
  intros Ec En Hl [H1 H2 H3 [R1 R2 R3 R4 R5 R6] H5 H6 H7].
  assert (forall p, is_Some (procs k !! p) -> is_Some (procs k' !! p)) as Hs.
  { intros p. by rewrite <- !(fmap_is_Some links), Hl. }
  assert (forall p x, procs k !! p = Some x -> exists x', procs k' !! p = Some x' /\ links x' = links x) as Hf.
  { intros p x Hx. specialize (Hl p). rewrite Hx in Hl. apply fmap_Some in Hl as (x' & ? & ?). eauto. }
  split; rewrite ?Ec, ?En; try done.
  - split; try done.
    + eapply Forall_impl; [exact R3|]. intros l. by apply chain_links.
    + intros q l p Hq Hp. destruct (R4 q l p Hq Hp) as (x & Hx & Hm). destruct (Hf p x Hx) as (x' & Hx' & E).
      exists x'. split; [done|]. injection E as _ E _. congruence.
  - intros p x' Hx'. specialize (Hl p). rewrite Hx' in Hl. symmetry in Hl. apply fmap_Some in Hl as (x & Hx & E).
    destruct (H5 p x Hx) as (? & ? & ?). injection E as _ -> ->. done.
  - destruct H6; [by left|right; by apply Hs].
  - destruct H7 as [?|[? ?]]; [by left|right]. split; [by apply Hs|done].
Qed.

(** The invariant over two maps of processes that agree on what it mentions. *)
Definition agrees (x x' : process) : Prop :=
  p_pid x' = p_pid x /\ p_ppid x' = p_ppid x /\ p_kernel_stack x' = p_kernel_stack x /\ p_memory x' = p_memory x.

Lemma kinv_procs U L0 k k' C C' Qs Qs' L S : kinv U L0 k C Qs L S -> sched_inv k' C' Qs' ->
  table k' = table k -> pid_ht k' = pid_ht k -> next_pid k' = next_pid k -> kmem k' = kmem k -> kstacks k' = kstacks k ->
  kspaces k' = kspaces k ->
  (forall p x, procs k !! p = Some x -> exists x', procs k' !! p = Some x' /\ agrees x x') ->
  (forall p x', procs k' !! p = Some x' -> exists x, procs k !! p = Some x /\ agrees x x' /\ (proc_ok p x -> proc_ok p x') /\
    (p_state x' = PROCESS_ZOMBIE -> p ∉ mjoin Qs' /\ p <> c_idle_proc C')) ->
  kinv U L0 k' C' Qs' L S.
Proof.
  intros [] Hsched Et Eh En Em Es Ea Hf Hb. split; rewrite ?Et, ?Eh, ?En, ?Em, ?Es, ?Ea; try done.
  - intros p Hp. rewrite <- ki_live0 by done.
    split; intros [[x Hx] ?]; [destruct (Hb p x Hx) as (? & ? & _)|destruct (Hf p x Hx) as (? & ? & _)]; eauto.
  - intros p x' Hx'. destruct (Hb p x' Hx') as (x & Hx & (-> & _) & _). by apply ki_pid0.
  - intros p x' Hx'. destruct (Hb p x' Hx') as (x & Hx & (-> & -> & _) & _). by apply ki_ppid0.
  - intros x' Hx'. destruct (Hb _ x' Hx') as (x & Hx & (-> & -> & _) & _). by apply ki_kpid0.
  - intros pid p. rewrite ki_ht0. split; intros (x & Hx & <- & HU).
    + destruct (Hf p x Hx) as (x' & ? & E & _). by exists x'.
    + destruct (Hb p x Hx) as (x' & ? & [E _] & _). by exists x'.
  - intros p x' Hx'. destruct (Hb p x' Hx') as (x & Hx & _). by eapply ki_obj0.
  - intros p x' Hx'. destruct (Hb p x' Hx') as (x & Hx & (_ & _ & -> & _) & _). by apply (ki_stack0 p).
  - intros p q x' y' Hx' Hy'. destruct (Hb p x' Hx') as (x & Hx & (_ & _ & -> & _) & _). destruct (Hb q y' Hy') as (y & Hy & (_ & _ & -> & _) & _).
    by apply ki_stack_inj0.
  - intros a n Ha. destruct (ki_owned0 a n Ha) as [?|[[x Hx]|(p & x & Hx & <-)]]; [by left|right; left|right; right].
    + destruct (Hf a x Hx) as (x' & ? & _). eauto.
    + destruct (Hf p x Hx) as (x' & ? & _ & _ & E & _). by exists p, x'.
  - intros a n Ha. destruct (ki_others0 a n Ha) as (HL & Hn & Hst). split; [done|]. split.
    + destruct (procs k' !! a) as [x'|] eqn:E; [|done]. destruct (Hb a x' E) as (x & ? & _). congruence.
    + intros p x' Hx'. destruct (Hb p x' Hx') as (x & Hx & (_ & _ & -> & _) & _). by apply (Hst p).
  - intros p x' Hx'. destruct (Hb p x' Hx') as (x & Hx & (_ & _ & _ & ->) & _). by apply (ki_mem0 p).
  - intros p q x' y' Hx' Hy'. destruct (Hb p x' Hx') as (x & Hx & (_ & _ & _ & ->) & _). destruct (Hb q y' Hy') as (y & Hy & (_ & _ & _ & ->) & _).
    by apply ki_mem_inj0.
  - intros m Hm. destruct (ki_mem_owned0 m Hm) as (p & x & Hx & <-). destruct (Hf p x Hx) as (x' & ? & _ & _ & _ & E). by exists p, x'.
  - intros p x' Hx'. by destruct (Hb p x' Hx') as (x & Hx & _ & _ & Hz).
  - intros p x' Hx'. destruct (Hb p x' Hx') as (x & Hx & _ & Hok & _). by apply Hok, (ki_shape0 p).
Qed.

Lemma mild_links k k' p : mild k k' -> links <$> procs k' !! p = links <$> procs k !! p.
Proof.
  intros Hm. destruct (procs k !! p) as [x|] eqn:Hx.
  - destruct (mild_lookup _ _ _ _ Hm Hx) as (x' & -> & E & _). cbn. f_equal. unfold links. change (links (proc_rest x') = links (proc_rest x)). by rewrite E.
  - destruct (procs k' !! p) as [x'|] eqn:Hx'; [|done]. destruct (mild_back _ _ _ _ Hm Hx') as (x & ? & _). congruence.
Qed.

Lemma mild_agrees p x x' : mild_proc p x x' -> agrees x x'.
Proof. intros [E _]. split; [exact (f_equal p_pid E)|split; [exact (f_equal p_ppid E)|split; [exact (f_equal p_kernel_stack E)|exact (f_equal p_memory E)]]]. Qed.

Lemma kinv_mild U L0 k k' C Qs L S : kinv U L0 k C Qs L S -> mild k k' -> kinv U L0 k' C Qs L S.
Proof.
  intros Hk Hm. pose proof (proj1 Hm) as E.
  eapply kinv_procs; [exact Hk| |exact (f_equal table E)|exact (f_equal pid_ht E)|exact (f_equal next_pid E)|exact (f_equal kmem E)|exact (f_equal kstacks E)|exact (f_equal kspaces E)| |].
  - apply (sched_inv_links k k'); [exact (f_equal cpus E)|exact (f_equal cpu_count E)| |apply Hk]. intros p. by apply mild_links.
  - intros p x Hx. destruct (mild_lookup _ _ _ _ Hm Hx) as (x' & ? & ?). exists x'. split; [done|by eapply mild_agrees].
  - intros p x' Hx'. destruct (mild_back _ _ _ _ Hm Hx') as (x & Hx & Hp). exists x. split; [done|]. split; [by eapply mild_agrees|].
    split; [apply Hp|]. intros Hz. apply (ki_zombie _ _ _ _ _ _ _ Hk p x Hx). by apply Hp.
Qed.

(** Changes of the scheduler's fields keep the invariant when no zombie is
    queued. *)
Lemma core_agrees p x x' : proc_core x' = proc_core x -> agrees x x' /\ (proc_ok p x -> proc_ok p x').
Proof.
  intros Ex. split.
  - split; [exact (f_equal p_pid Ex)|split; [exact (f_equal p_ppid Ex)|split; [exact (f_equal p_kernel_stack Ex)|exact (f_equal p_memory Ex)]]].
  - intros [O1 O2 O3 O4 O5].
    pose proof (f_equal p_signal_handlers Ex) as E1. pose proof (f_equal p_name Ex) as E2. pose proof (f_equal p_cwd Ex) as E3.
    pose proof (f_equal p_fd_table Ex) as E4. pose proof (f_equal p_children_wq Ex) as E5. cbn in *. by split; rewrite ?E1, ?E2, ?E3, ?E4, ?E5.
Qed.

Lemma core_lookup k k' p : kern_core k' = kern_core k -> proc_core <$> procs k' !! p = proc_core <$> procs k !! p.
Proof. intros E. apply (f_equal (fun k => procs k !! p)) in E. cbn in E. by rewrite !lookup_fmap in E. Qed.

Lemma kinv_core U L0 k k' C C' Qs Qs' L S : kinv U L0 k C Qs L S -> kern_core k' = kern_core k -> sched_inv k' C' Qs' ->
  (forall p x, procs k' !! p = Some x -> p_state x = PROCESS_ZOMBIE -> p ∉ mjoin Qs' /\ p <> c_idle_proc C') -> kinv U L0 k' C' Qs' L S.
Proof.
  intros Hk E Hs Hz.
  eapply kinv_procs; [exact Hk|exact Hs|exact (f_equal table E)|exact (f_equal pid_ht E)|exact (f_equal next_pid E)|exact (f_equal kmem E)|exact (f_equal kstacks E)|exact (f_equal kspaces E)| |].
  - intros p x Hx. pose proof (core_lookup k k' p E) as Ep. rewrite Hx in Ep. apply fmap_Some in Ep as (x' & Hx' & Ex).
    exists x'. split; [done|]. by apply (core_agrees p).
  - intros p x' Hx'. pose proof (core_lookup k k' p E) as Ep. rewrite Hx' in Ep. symmetry in Ep. apply fmap_Some in Ep as (x & Hx & Ex).
    exists x. split; [done|]. destruct (core_agrees p x x' Ex) as [? ?]. split; [done|]. split; [done|]. by apply Hz.
Qed.

Lemma kinv_quiet U L0 k k' C C' Qs Qs' L S : kinv U L0 k C Qs L S -> quiet k k' -> sched_inv k' C' Qs' ->
  (forall p x, procs k !! p = Some x -> p_state x = PROCESS_ZOMBIE -> p ∉ mjoin Qs' /\ p <> c_idle_proc C') -> kinv U L0 k' C' Qs' L S.
Proof.
  intros Hk Hq Hs Hz. eapply kinv_core; [exact Hk|apply Hq|done|]. intros p x' Hx' Hs'.
  pose proof (core_lookup k k' p (proj1 Hq)) as Ep. rewrite Hx' in Ep. symmetry in Ep. apply fmap_Some in Ep as (x & Hx & _).
  eapply Hz; [exact Hx|]. by apply (proj2 Hq p x x').
Qed.

End Inv.
