(* ===== verification/LifeSignal.v ===== *)
(** * Signals, waits and credentials keep the process table

    The operations that change fields of existing processes return from every
    state that satisfies the invariant of LifeInv, and change nothing it
    mentions. *)

From stdpp Require Import base tactics numbers list gmap.
From S2P Require Import Prelude Kstring Fd Alloc Block Proc Sched SchedFrame SchedProofs SchedSpec SchedSwitch.
From S2P Require Import Signal ProcCalls LifeInv.

(** An update of fields that [mild] allows. *)
Ltac mild_field :=
  intros ?; repeat case_match;
  (split; [reflexivity|split; [first [done|intros ?; discriminate]|intros []; by split]]).

Section Calm.
Context {M A : Type} {KM : Kmalloc M} {AS : AddressSpaces A} {UL : Userland A} {SL : SpacesLaws A}.
Variables (U : gset Z) (L0 : gmap Z Z) (C : cpu) (Qs : list (list Z)) (L : gmap Z Z) (S : gset Z).
Implicit Types k : kern M A.

(** The invariant, and only fields it does not mention have changed since [k0]. *)
Definition calm (k0 k : kern M A) : Prop := kinv U L0 k C Qs L S /\ mild k0 k.

Definition mild_upd (p : Z) (f : process -> process) : Prop := forall x, mild_proc p x (f x).

Lemma calm_start k : kinv U L0 k C Qs L S -> calm k k.
Proof. intros Hk. split; [done|apply mild_refl]. Qed.

Lemma calm_exists k0 k p : calm k0 k -> is_Some (procs k0 !! p) -> is_Some (procs k !! p).
Proof. intros [_ Hm] [x Hx]. destruct (mild_lookup _ _ _ _ Hm Hx) as (x' & ? & _). eauto. Qed.

Lemma calm_back k0 k p : calm k0 k -> is_Some (procs k !! p) -> is_Some (procs k0 !! p).
Proof. intros [_ Hm] [x Hx]. destruct (mild_back _ _ _ _ Hm Hx) as (x' & ? & _). eauto. Qed.

Lemma calm_step k0 k k' : calm k0 k -> mild k k' -> calm k0 k'.
Proof. intros [Hk Hm] Hm'. split; [by eapply kinv_mild|by eapply mild_trans]. Qed.

Lemma calm_getp k0 k p : calm k0 k -> is_Some (procs k0 !! p) ->
  wp (getp p) (fun x k' => k' = k /\ procs k !! p = Some x) k.
Proof. intros Hk Hp. destruct (calm_exists _ _ _ Hk Hp) as [x Hx]. by eapply wp_ok; [apply getp_ok|]. Qed.

Lemma mild_updp k p f x : procs k !! p = Some x -> mild_proc p x (f x) -> mild k (set_procs (<[p := f x]> (procs k)) k).
Proof.
  intros Hx Hf. split.
  - unfold kern_rest. cbn. rewrite fmap_insert, (proj1 Hf), insert_id; [done|]. by rewrite lookup_fmap, Hx.
  - intros q y y' Hy Hy'. cbn in Hy'. apply lookup_insert_Some in Hy' as [[<- <-]|[_ Hy']]; simplify_eq; [done|apply mild_proc_refl].
Qed.

Lemma calm_updp k0 k p f : calm k0 k -> is_Some (procs k0 !! p) -> mild_upd p f -> wp (updp p f) (fun _ k' => calm k0 k') k.
Proof.
  intros Hk Hp Hf. destruct (calm_exists _ _ _ Hk Hp) as [x Hx]. eapply wp_ok; [by apply updp_ok|].
  eapply calm_step; [exact Hk|by apply mild_updp].
Qed.

Lemma calm_log k0 k e : calm k0 k -> wp (log e) (fun _ k' => calm k0 k') k.
Proof.
  intros Hk. apply wp_modify. eapply calm_step; [exact Hk|]. split; [done|]. intros p x x' H1 H2. cbn in H2. simplify_eq. apply mild_proc_refl.
Qed.

Lemma calm_waiting k0 k W : calm k0 k -> calm k0 (set_waiting W k).
Proof. intros Hk. eapply calm_step; [exact Hk|]. split; [done|]. intros p x x' H1 H2. cbn in H2. simplify_eq. apply mild_proc_refl. Qed.

Lemma calm_getc k0 k : calm k0 k -> getc 0 k = Ok (C, k).
Proof. intros [Hk _]. apply (getc_ok k 0), Hk. Qed.

Lemma calm_current k0 k : calm k0 k -> current_process 0 k = Ok (c_current C, k).
Proof. intros [Hk _]. eapply cpu_current_ok, Hk. Qed.

Lemma kernel_exists k : kinv U L0 k C Qs L S -> is_Some (procs k !! KERNEL_PROC).
Proof. intros Hk. apply (ki_live _ _ _ _ _ _ _ Hk); [done|]. eapply list_elem_of_lookup_2, Hk. Qed.

(** The process the system calls act for. *)
Definition self : Z := if c_current C =? 0 then KERNEL_PROC else c_current C.

Lemma self_exists k0 k : calm k0 k -> is_Some (procs k0 !! self).
Proof.
  intros Hk. eapply calm_back; [exact Hk|]. destruct Hk as [Hk _]. unfold self. destruct (Z.eqb_spec (c_current C) 0); [by apply kernel_exists|].
  by destruct (si_current _ _ _ (ki_sched _ _ _ _ _ _ _ Hk)).
Qed.

Lemma calm_self k0 k : calm k0 k -> get_current_process 0 k = Ok (self, k).
Proof. intros Hk. unfold get_current_process. by rewrite (bind_ok _ _ _ _ _ (calm_current _ _ Hk)). Qed.

(** ** Finding *)

Lemma calm_ht k0 k pid : calm k0 k -> exists p, ht_lookup pid k = Ok (p, k) /\ (p = 0 \/ is_Some (procs k0 !! p)).
Proof.
  intros Hk. unfold ht_lookup. eexists. split; [done|]. destruct (pid_ht k !! u32 pid) as [p|] eqn:E; cbn; [right|by left].
  eapply calm_back; [exact Hk|]. apply (ki_ht _ _ _ _ _ _ _ (proj1 Hk)) in E as (x & Hx & _). eauto.
Qed.

Lemma calm_find k0 k pid : calm k0 k ->
  wp (process_find_by_pid pid) (fun p k' => k' = k /\ (p = 0 \/ is_Some (procs k0 !! p))) k.
Proof.
  intros Hk. unfold process_find_by_pid. destruct (calm_ht k0 k pid Hk) as (p & E & Hp). eapply wp_bind_ok; [exact E|].
  destruct (Z.eqb_spec p 0) as [|Hne]; [apply wp_ret; by split; [|left]|]. destruct Hp as [?|Hp]; [done|].
  eapply wp_step; [by eapply calm_getp|]. intros x ? [-> Hx]. apply wp_ret. split; [done|]. case_match; [by left|by right].
Qed.

(** The slots of the table. *)
Lemma calm_slot k0 k i : calm k0 k -> 0 <= i < 128 ->
  exists p, rd (table k) i k = Ok (p, k) /\ (p = 0 \/ is_Some (procs k0 !! p)).
Proof.
  intros Hk Hi. destruct (lookup_lt_is_Some_2 (table k) (Z.to_nat i)) as [p Hp]; [rewrite (ki_len _ _ _ _ _ _ _ (proj1 Hk)); lia|].
  exists p. split; [apply rd_ok; [lia|done]|]. destruct (decide (p = 0)); [by left|right]. eapply calm_back; [exact Hk|].
  apply (ki_live _ _ _ _ _ _ _ (proj1 Hk)); [done|]. by eapply list_elem_of_lookup_2.
Qed.

Lemma calm_index k0 k i : calm k0 k -> 0 <= i ->
  wp (process_get_by_index i) (fun p k' => k' = k /\ (p = 0 \/ is_Some (procs k0 !! p))) k.
Proof.
  intros Hk Hi. unfold process_get_by_index, MAX_PROCESSES_CONST. destruct (Z.leb_spec 128 i); [apply wp_ret; by split; [|left]|].
  apply wp_bind, wp_gets. destruct (calm_slot k0 k i Hk) as (p & E & Hp); [lia|]. eapply wp_bind_ok; [exact E|].
  destruct (Z.eqb_spec p 0) as [|Hne]; [apply wp_ret; by split; [|left]|]. destruct Hp as [?|Hp]; [done|].
  eapply wp_step; [by eapply calm_getp|]. intros x ? [-> Hx]. apply wp_ret. split; [done|]. case_match; [by left|by right].
Qed.

(** A child of [ppid]; with [zo] only a zombie. *)
Definition childb k (ppid : Z) (zo : bool) (q : Z) : bool :=
  match procs k !! q with
  | Some x => negb (q =? 0) && ((p_ppid x =? s32 ppid) && negb (p_state x =? PROCESS_TERMINATED) &&
                                (negb zo || (p_state x =? PROCESS_ZOMBIE)))
  | None => false
  end.

(** The child [process_find_child] returns. *)
Definition the_child k (ppid pid : Z) (zo : bool) : Z :=
  if 0 <? pid then
    let q := default 0 (pid_ht k !! u32 pid) in if childb k ppid zo q then q else 0
  else default 0 (head (filter (fun q => Is_true (childb k ppid zo q)) (drop 1 (table k)))).

Lemma is_child_ok k0 k ppid zo q : calm k0 k -> q = 0 \/ is_Some (procs k0 !! q) ->
  is_child ppid zo q k = Ok (childb k ppid zo q, k).
Proof.
  intros Hk Hq. unfold is_child, childb. destruct (Z.eqb_spec q 0) as [->|Hne].
  - by destruct (procs k !! 0).
  - destruct Hq as [?|Hq]; [done|]. destruct (calm_exists _ _ _ Hk Hq) as [x Hx]. by rewrite (bind_ok _ _ _ _ _ (getp_ok k q x Hx)), Hx.
Qed.

Lemma find_child_ok k0 k ppid pid zo : calm k0 k ->
  process_find_child ppid pid zo k = Ok (the_child k ppid pid zo, k).
Proof.
  intros Hk. unfold process_find_child, the_child. destruct (0 <? pid).
  - destruct (calm_ht k0 k pid Hk) as (p & E & Hp). rewrite (bind_ok _ _ _ _ _ E). injection E as ->.
    by rewrite (bind_ok _ _ _ _ _ (is_child_ok k0 k ppid zo p Hk Hp)).
  - assert (forall n (i : nat), (i + n = 128)%nat -> for_until n (Z.of_nat i) (fun i => k ← gets id; q ← rd (table k) i;
        b ← is_child ppid zo q; ret (if (b : bool) then Some q else None)) k =
      Ok (head (filter (fun q => Is_true (childb k ppid zo q)) (drop i (table k))), k)) as Hloop.
    { pose proof (ki_len _ _ _ _ _ _ _ (proj1 Hk)) as Hlen. induction n as [|n IH]; intros i Hi; cbn [for_until].
      - by rewrite drop_ge by lia.
      - destruct (lookup_lt_is_Some_2 (table k) i ltac:(lia)) as [p Hp]. rewrite (drop_S _ _ _ Hp), bind_assoc, bind_gets, bind_assoc.
        destruct (calm_slot k0 k (Z.of_nat i) Hk ltac:(lia)) as (p' & E & Hl). pose proof E as E'. unfold id. rewrite (bind_ok _ _ _ _ _ E).
        unfold rd in E'. destruct (in_bounds _ _); [|done]. rewrite Nat2Z.id, Hp in E'. injection E' as <-.
        rewrite bind_assoc, (bind_ok _ _ _ _ _ (is_child_ok k0 k ppid zo p Hk Hl)), bind_ret, filter_cons.
        destruct (childb k ppid zo p) eqn:Eb; cbn [Is_true].
        + by rewrite decide_True by done.
        + rewrite decide_False by (intros []). replace (Z.of_nat i + 1) with (Z.of_nat (Datatypes.S i)) by lia. apply IH. lia. }
    rewrite (bind_ok _ _ _ _ _ (Hloop 127%nat 1%nat eq_refl)). done.
Qed.

Lemma the_child_spec k0 k ppid pid zo : calm k0 k -> the_child k ppid pid zo <> 0 ->
  childb k ppid zo (the_child k ppid pid zo) = true.
Proof.
  intros Hk. unfold the_child. destruct (0 <? pid); [by case_match|].
  destruct (head _) as [q|] eqn:E; cbn; [|done]. intros _. apply head_Some_elem_of in E. apply list_elem_of_filter in E as [E _].
  by apply Is_true_true.
Qed.

Lemma childb_spec k ppid zo q : childb k ppid zo q = true -> exists x, procs k !! q = Some x /\ q <> 0 /\ p_ppid x = s32 ppid /\
  p_state x <> PROCESS_TERMINATED /\ (zo = true -> p_state x = PROCESS_ZOMBIE).
Proof.
  unfold childb. destruct (procs k !! q) as [x|]; [|done]. intros Hb. bool_case. exists x. split_and!; try done. intros ->. cbn in *. by bool_case.
Qed.

Lemma the_child_ext k k' ppid pid zo : table k' = table k -> pid_ht k' = pid_ht k ->
  (forall q, childb k' ppid zo q = childb k ppid zo q) -> the_child k' ppid pid zo = the_child k ppid pid zo.
Proof.
  intros Et Eh Hc. unfold the_child. rewrite Et, Eh, Hc. destruct (0 <? pid); [done|]. do 2 f_equal.
  apply list_filter_iff. intros q. by rewrite Hc.
Qed.

(** ** Signals *)

Lemma calm_then {B D} k0 k (m : ST (kern M A) B) (r : D) :
  wp m (fun _ k' => calm k0 k') k -> wp (m;; ret r) (fun _ k' => calm k0 k') k.
Proof. intros Hm. eapply wp_step; [exact Hm|]. cbv beta. intros b k' Hk'. by apply wp_ret. Qed.

Lemma calm_deliver k0 k p sig : calm k0 k -> is_Some (procs k0 !! p) -> 1 <= sig < 32 ->
  wp (process_deliver_signal p sig) (fun _ k' => calm k0 k') k.
Proof.
  intros Hk Hp Hsig. unfold process_deliver_signal. destruct (p =? 0); [by apply wp_ret|].
  eapply wp_step; [by eapply calm_getp|]. intros x ? [-> Hx].
  eapply wp_bind_ok; [apply rd_nthZ; rewrite (po_handlers _ _ (ki_shape _ _ _ _ _ _ _ (proj1 Hk) p x Hx)); lia|].
  destruct (_ =? SIG_IGN); [by apply wp_ret|]. destruct (_ =? SIG_DFL); [destruct (default_action sig)|].
  - apply calm_then. eapply (calm_updp k0 k p); [done|done|mild_field].
  - by apply wp_ret.
  - apply calm_then. eapply (calm_updp k0 k p); [done|done|mild_field].
Qed.

Lemma calm_act k0 k p sig : calm k0 k -> is_Some (procs k0 !! p) -> 1 <= sig < 32 ->
  wp (act_on_signal p sig) (fun _ k' => calm k0 k') k.
Proof.
  intros Hk Hp Hsig. unfold act_on_signal.
  destruct (sig =? SIGKILL); [apply calm_then; eapply (calm_updp k0 k p); [done|done|mild_field]|].
  destruct (sig =? SIGSTOP); [apply calm_then; eapply (calm_updp k0 k p); [done|done|mild_field]|].
  destruct (sig =? SIGCONT); [apply calm_then; eapply (calm_updp k0 k p); [done|done|mild_field]|].
  eapply wp_step; [by eapply calm_getp|]. intros x ? [-> Hx].
  destruct (negb _); [apply calm_then; eapply (calm_updp k0 k p); [done|done|mild_field]|].
  by apply calm_deliver.
Qed.

Lemma calm_send k0 k pid sig : calm k0 k -> wp (process_send_signal 0 pid sig) (fun _ k' => calm k0 k') k.
Proof.
  intros Hk. unfold process_send_signal, NSIG_HANDLED. destruct ((sig <? 1) || (32 <=? sig)) eqn:Es; [by apply wp_ret|]. bool_case.
  eapply wp_step; [by eapply calm_find|]. intros p ? [-> Hp]. destruct (Z.eqb_spec p 0) as [|Hp0]; [by apply wp_ret|].
  destruct Hp as [?|Hp]; [done|]. eapply wp_bind_ok; [by eapply calm_self|].
  eapply wp_step; [eapply calm_getp; [exact Hk|by eapply self_exists]|]. intros s ? [-> _].
  eapply wp_step; [by eapply calm_getp|]. intros t ? [-> _]. destruct (_ && _); [by apply wp_ret|].
  eapply wp_step; [by apply (calm_act k0)|]. cbv beta. intros r k1 Hk1.
  eapply wp_step; [by eapply calm_getp|]. intros t' ? [-> _]. apply wp_bind, wp_gets.
  eapply wp_bind_ok; [by eapply calm_getc|]. eapply (wp_step _ _ (fun _ k' => calm k0 k')).
  - destruct (_ && _); [by apply calm_log|by apply wp_ret].
  - cbv beta. intros _ k2 Hk2. by apply wp_ret.
Qed.

Lemma calm_set_handler k0 k p sig h : calm k0 k -> is_Some (procs k0 !! p) ->
  wp (process_set_signal_handler p sig h) (fun _ k' => calm k0 k') k.
Proof.
  intros Hk Hp. unfold process_set_signal_handler, NSIG_HANDLED. destruct (_ || (32 <=? sig)) eqn:Es; [by apply wp_ret|]. bool_case.
  destruct (_ || _); [by apply wp_ret|]. eapply wp_step; [by eapply calm_getp|]. intros x ? [-> Hx].
  pose proof (ki_shape _ _ _ _ _ _ _ (proj1 Hk) p x Hx) as Hok. pose proof (po_handlers _ _ Hok) as Hlen.
  eapply wp_bind_ok; [apply rd_nthZ; lia|]. eapply wp_bind_ok; [apply wr_ok; lia|]. set (hs := <[_ := h]> _).
  eapply wp_bind_ok; [by apply updp_ok|]. apply wp_ret. eapply calm_step; [exact Hk|]. apply mild_updp; [done|].
  split; [done|]. split; [done|]. intros []. split; try done. cbn. unfold hs. by rewrite length_insert.
Qed.

Lemma calm_alarm k0 k : calm k0 k -> wp (alarm_tick 0) (fun _ k' => calm k0 k') k.
Proof.
  intros Hk. apply (for_loop_wp (fun _ k' => calm k0 k')); [done|]. clear k Hk. intros i k Hi Hk. unfold alarm_one.
  eapply wp_step; [eapply calm_index; [exact Hk|lia]|]. intros p ? [-> Hp]. destruct (Z.eqb_spec p 0) as [|Hp0]; [by apply wp_ret|].
  destruct Hp as [?|Hp]; [done|]. eapply wp_step; [by eapply calm_getp|]. intros x ? [-> Hx].
  destruct (_ || _); [by apply wp_ret|]. destruct (_ =? 0); [by apply wp_ret|].
  eapply wp_step; [eapply (calm_updp k0 k p); [done|done|mild_field]|]. cbv beta. intros _ k1 Hk1.
  destruct (_ =? 1); [|by apply wp_ret]. by apply calm_then, calm_send.
Qed.

(** ** Wait queues *)

Lemma calm_wake_entries k0 k l : calm k0 k -> Forall (fun e => is_Some (procs k0 !! e)) l ->
  wp (wake_entries 0 l) (fun _ k' => calm k0 k') k.
Proof.
  intros Hk Hl. revert k Hk. induction Hl as [|e l He _ IH]; intros k Hk; cbn [wake_entries]; [by apply wp_ret|].
  apply wp_bind, wp_gets. eapply (wp_step _ _ (fun _ k' => calm k0 k')); [|cbv beta; intros _ k' Hk'; by apply IH].
  destruct (decide _); [|by apply wp_ret].
  eapply wp_step; [eapply (calm_updp k0 k e); [done|done|mild_field]|]. cbv beta. intros _ k1 Hk1.
  eapply wp_step; [by eapply calm_getp|]. intros x ? [-> Hx]. eapply wp_bind_ok; [by eapply calm_getc|].
  destruct (_ && _); [by apply calm_log|by apply wp_ret].
Qed.

Lemma calm_wake_all k0 k q : calm k0 k -> is_Some (procs k0 !! q) -> wp (wake_all 0 q) (fun _ k' => calm k0 k') k.
Proof.
  intros Hk Hq. unfold wake_all. eapply wp_step; [by eapply calm_getp|]. intros x ? [-> Hx].
  eapply wp_step; [eapply (calm_updp k0 k q); [done|done|]|].
  { intros y. split; [done|]. split; [done|]. intros []. split; try done. intros e He. by apply not_elem_of_nil in He. }
  cbv beta. intros _ k1 Hk1. apply calm_wake_entries; [done|]. apply Forall_forall. intros e He.
  by rewrite (po_wq _ _ (ki_shape _ _ _ _ _ _ _ (proj1 Hk) q x Hx) e He).
Qed.

(** Only the process at [p] differs. *)
Definition only (p : Z) k k' : Prop := forall q, q <> p -> procs k' !! q = procs k !! q.

Lemma calm_updp_only k0 k1 k p f : calm k0 k -> only p k1 k -> is_Some (procs k0 !! p) -> mild_upd p f ->
  wp (updp p f) (fun _ k' => calm k0 k' /\ only p k1 k') k.
Proof.
  intros Hk Ho Hp Hf. destruct (calm_exists _ _ _ Hk Hp) as [x Hx]. eapply wp_ok; [by apply updp_ok|].
  split; [eapply calm_step; [exact Hk|by apply mild_updp]|]. intros q Hq. cbn. rewrite lookup_insert_ne by done. by apply Ho.
Qed.

Lemma calm_prepare k0 k : calm k0 k -> wp (wait_queue_prepare 0 self) (fun _ k' => calm k0 k' /\ only self k k') k.
Proof.
  intros Hk. unfold wait_queue_prepare. eapply wp_bind_ok; [by eapply calm_current|].
  destruct (Z.eqb_spec (c_current C) 0) as [|Hc0]; [by apply wp_ret|].
  assert (self = c_current C) as Es by (unfold self; by rewrite (proj2 (Z.eqb_neq _ 0) Hc0)).
  pose proof (self_exists _ _ Hk) as Hs. rewrite Es in *. apply wp_bind, wp_gets.
  eapply (wp_step _ _ (fun _ k' => calm k0 k' /\ only (c_current C) k k'));
    [|cbv beta; intros _ k' [Hk' Ho]; eapply (calm_updp_only k0 k k'); [done|done|done|mild_field]].
  destruct (decide _); [by apply wp_ret|]. apply wp_bind, wp_modify. eapply (calm_updp_only k0 k); [by apply calm_waiting|done|done|].
  intros x. split; [done|]. split; [done|]. intros [O1 O2 O3 O4 O5]. split; try done. cbn. intros e [->|He]%elem_of_cons; [done|by apply O5].
Qed.

Lemma unlink_entry_sub e l x : x ∈ unlink_entry e l -> x ∈ l.
Proof.
  induction l as [|y l IH]; [done|]. cbn. destruct (y =? e); [by right|]. intros [->|Hx]%elem_of_cons; [by left|right; by apply IH].
Qed.

Lemma calm_finish k0 k q : calm k0 k -> is_Some (procs k0 !! q) -> wp (wait_queue_finish q q) (fun _ k' => calm k0 k') k.
Proof.
  intros Hk Hq. unfold wait_queue_finish. eapply wp_step; [eapply (calm_updp k0 k q); [done|done|]|].
  { intros x. split; [done|]. split; [done|]. intros [O1 O2 O3 O4 O5]. split; try done. cbn. intros e He%unlink_entry_sub. by apply O5. }
  cbv beta. intros _ k1 Hk1. apply wp_bind, wp_gets. destruct (decide _); [|by apply wp_ret].
  eapply wp_step; [eapply (calm_updp k0 k1 q); [done|done|mild_field]|]. cbv beta. intros _ k2 Hk2.
  apply wp_modify. by apply calm_waiting.
Qed.

(** ** Credentials, job control and priorities *)

Lemma calm_creds k0 k p id : calm k0 k -> is_Some (procs k0 !! p) ->
  wp (cred_set_uid p id) (fun _ k' => calm k0 k') k /\ wp (cred_set_gid p id) (fun _ k' => calm k0 k') k /\
  wp (cred_set_euid p id) (fun _ k' => calm k0 k') k /\ wp (cred_set_egid p id) (fun _ k' => calm k0 k') k.
Proof.
  intros Hk Hp. split_and!; unfold cred_set_uid, cred_set_gid, cred_set_euid, cred_set_egid;
    (destruct (p =? 0); [by apply wp_ret|]; eapply wp_step; [by eapply calm_getp|]; intros x ? [-> Hx]);
    repeat (case_match; [apply calm_then; eapply (calm_updp k0 k p); [done|done|mild_field]|]); by apply wp_ret.
Qed.

Lemma calm_setpgid k0 k pid pgid : calm k0 k -> wp (process_setpgid 0 pid pgid) (fun _ k' => calm k0 k') k.
Proof.
  intros Hk. unfold process_setpgid. eapply wp_bind_ok; [by eapply calm_self|].
  eapply wp_step; [eapply calm_getp; [exact Hk|by eapply self_exists]|]. intros c ? [-> Hc]. cbv zeta.
  eapply wp_step; [by eapply calm_find|]. intros p ? [-> Hp]. destruct (Z.eqb_spec p 0) as [|Hp0]; [by apply wp_ret|].
  destruct Hp as [?|Hp]; [done|]. eapply wp_step; [by eapply calm_getp|]. intros t ? [-> Ht]. destruct (_ && _); [by apply wp_ret|].
  apply calm_then. eapply (calm_updp k0 k p); [done|done|mild_field].
Qed.

Lemma calm_setsid k0 k : calm k0 k -> wp (process_setsid 0) (fun _ k' => calm k0 k') k.
Proof.
  intros Hk. unfold process_setsid. eapply wp_bind_ok; [by eapply calm_self|]. pose proof (self_exists _ _ Hk) as Hs.
  eapply wp_step; [by eapply calm_getp|]. intros c ? [-> Hc]. destruct (_ =? _); [by apply wp_ret|].
  apply calm_then. eapply (calm_updp k0 k self); [done|done|mild_field].
Qed.

Lemma calm_tcsetpgrp k0 k fd pgrp : calm k0 k -> wp (process_tcsetpgrp fd pgrp) (fun _ k' => calm k0 k') k.
Proof.
  intros Hk. unfold process_tcsetpgrp. destruct (2 <? fd); [by apply wp_ret|]. apply calm_then, wp_modify.
  eapply calm_step; [exact Hk|]. split; [done|]. intros p x x' E1 E2. cbn in E2. simplify_eq. apply mild_proc_refl.
Qed.

(** [nice] overflows on increments that leave the range of [int]. *)
Lemma calm_nice k0 k i : calm k0 k ->
  (forall x, procs k !! self = Some x -> -2147483648 <= s32 (p_priority x) + i < 2147483648) ->
  wp (sys_nice 0 i) (fun _ k' => calm k0 k') k.
Proof.
  intros Hk Hi. unfold sys_nice. eapply wp_bind_ok; [by eapply calm_self|]. pose proof (self_exists _ _ Hk) as Hs.
  eapply wp_step; [by eapply calm_getp|]. intros x ? [-> Hx]. cbv zeta.
  rewrite (s32_id (s32 (p_priority x) + i)) by (by apply Hi). rewrite Z.eqb_refl. cbn [negb].
  apply calm_then. eapply (calm_updp k0 k self); [done|done|mild_field].
Qed.

(** ** Waiting *)

(** The condition of [wait_event]. *)
Definition wait_over k (ppid pid : Z) : bool := negb (the_child k ppid pid true =? 0) || (the_child k ppid pid false =? 0).

Lemma wait_cond_ok k0 k ppid pid : calm k0 k -> wait_cond ppid pid k = Ok (wait_over k ppid pid, k).
Proof.
  intros Hk. unfold wait_cond, wait_over. rewrite (bind_ok _ _ _ _ _ (find_child_ok k0 k ppid pid true Hk)).
  destruct (negb (the_child k ppid pid true =? 0)); [done|]. by rewrite (bind_ok _ _ _ _ _ (find_child_ok k0 k ppid pid false Hk)).
Qed.

(** A change of a process that is no child of [ppid]. *)
Lemma childb_other k k' ppid zo p : (forall q, q <> p -> procs k' !! q = procs k !! q) ->
  (forall x, procs k !! p = Some x -> p_ppid x <> s32 ppid) -> (forall x, procs k' !! p = Some x -> p_ppid x <> s32 ppid) ->
  forall q, childb k' ppid zo q = childb k ppid zo q.
Proof.
  intros Ho Hp Hp' q. unfold childb. destruct (decide (q = p)) as [->|Hne]; [|by rewrite Ho].
  assert (forall o : option process, (forall x, o = Some x -> p_ppid x <> s32 ppid) ->
    match o with Some x => negb (p =? 0) && ((p_ppid x =? s32 ppid) && negb (p_state x =? PROCESS_TERMINATED) &&
                                (negb zo || (p_state x =? PROCESS_ZOMBIE))) | None => false end = false) as Hf.
  { intros [x|] Hx; [|done]. rewrite (proj2 (Z.eqb_neq (p_ppid x) _)) by (by apply Hx). by rewrite andb_false_r. }
  by rewrite !Hf.
Qed.

(** A round of [wait_event] that starts with nothing to report goes to sleep:
    what it changes of its own process does not make that process its child. *)
Lemma calm_round k0 k x pid : calm k0 k -> procs k !! self = Some x -> self ∉ U -> self <> KERNEL_PROC ->
  wait_over k (u32 (p_pid x)) pid = false ->
  wp (wait_event_round 0 self (u32 (p_pid x)) pid) (fun b k' => b = false /\ calm k0 k') k.
Proof.
  intros Hk Hx HU Hself Hover. unfold wait_event_round. eapply wp_bind_ok; [by eapply wait_cond_ok|]. rewrite Hover.
  destruct (proj1 (wp_elim _ _ _) (calm_prepare k k (calm_start k (proj1 Hk)))) as ([] & k1 & E1 & Hk1 & Ho).
  eapply wp_bind_ok; [exact E1|]. eapply wp_bind_ok; [by eapply (wait_cond_ok k)|].
  assert (wait_over k1 (u32 (p_pid x)) pid = false) as ->.
  { pose proof (ki_pid _ _ _ _ _ _ _ (proj1 Hk) _ _ Hx HU) as [Hpid _]. pose proof (ki_next _ _ _ _ _ _ _ (proj1 Hk)).
    assert (s32 (u32 (p_pid x)) = p_pid x) as Es by (rewrite u32_id by (unfold is_u32; lia); apply s32_small; lia).
    pose proof (proj1 (proj2 Hk1)) as Er. assert (forall zo q, childb k1 (u32 (p_pid x)) zo q = childb k (u32 (p_pid x)) zo q) as Hc.
    { intros zo. apply (childb_other _ _ _ _ self); [exact Ho| |]; rewrite Es.
      - intros y Hy. assert (y = x) as -> by congruence. by apply (ki_ppid _ _ _ _ _ _ _ (proj1 Hk) self).
      - intros y Hy. destruct (mild_back _ _ _ _ (proj2 Hk1) Hy) as (y0 & Hy0 & Hm). assert (y0 = x) as -> by congruence.
        rewrite (proj1 (proj2 (mild_agrees _ _ _ Hm))). by apply (ki_ppid _ _ _ _ _ _ _ (proj1 Hk) self). }
    unfold wait_over in *. rewrite !(the_child_ext k k1) by (done || exact (f_equal table Er) || exact (f_equal pid_ht Er)). done. }
  apply wp_ret. split; [done|]. eapply calm_step; [exact Hk|apply Hk1].
Qed.

End Calm.
