(* ===== verification/LifeEnd.v ===== *)
(** * The end of a process

    [process_exit], [process_terminate] and [sys_waitpid] return from every
    state that satisfies the invariant of LifeInv and keep it: the zombie
    leaves the run queues, and reaping it frees exactly its object, its kernel
    stack and its address space. *)

From stdpp Require Import base tactics numbers list gmap.
From S2P Require Import Prelude Kstring Fd Alloc Block Proc Sched SchedFrame SchedProofs SchedSpec SchedSwitch SchedRun.
From S2P Require Import Signal ProcCalls LifeInv LifeSignal.

Section End_.
Context {M A : Type} {KM : Kmalloc M} {AS : AddressSpaces A} {UL : Userland A} {SL : SpacesLaws A}.
Variables (L0 : gmap Z Z).
Implicit Types k : kern M A.

(** ** The heap and the address spaces *)

Lemma kfree_k_ok k L p n : km_rep (kmem k) L -> L !! p = Some n ->
  exists m, kfree_k p k = Ok (tt, set_kmem m k) /\ km_rep m (delete p L).
Proof.
  intros Hr Hp. destruct (kfree_spec _ _ _ _ Hr Hp) as (m & E & Hm). exists m. split; [|done].
  unfold kfree_k, zoom. by rewrite E.
Qed.

Lemma destroy_ok k S m : sp_rep (kspaces k) S -> m ∈ S ->
  exists a, on_spaces (as_destroy m) k = Ok (tt, set_kspaces a k) /\ sp_rep a (S ∖ {[m]}).
Proof.
  intros Hr Hm. destruct (sp_destroy _ _ _ Hr Hm) as (a & E & Ha). exists a. split; [|done].
  unfold on_spaces, zoom. by rewrite E.
Qed.

Lemma km_no_null (m : M) (L : gmap Z Z) : km_rep m L -> L !! 0 = None.
Proof. intros Hr. destruct (L !! 0) as [n|] eqn:E; [|done]. pose proof (km_nonnull _ _ _ _ Hr E). lia. Qed.

(** ** Exit *)

Lemma exit_ok U k C Qs L S code : kinv U L0 k C Qs L S -> c_current C <> c_idle_proc C ->
  wp (process_exit 0 code) (fun _ k' => exists C' Qs', kinv U L0 k' C' Qs' L S /\ same_procs C C') k.
Proof.
  intros Hk Hci. pose proof (calm_start U L0 C Qs L S k Hk) as Hc. unfold process_exit. eapply wp_bind_ok; [by eapply calm_current|].
  assert (wp (ret tt) (fun (_ : unit) k' => exists C' Qs', kinv U L0 k' C' Qs' L S /\ same_procs C C') k) as Hsame
    by (apply wp_ret; by exists C, Qs).
  destruct (Z.eqb_spec (c_current C) 0) as [|Hc0]; [done|]. set (p := c_current C) in *.
  assert (is_Some (procs k !! p)) as Hp by (by destruct (si_current _ _ _ (ki_sched _ _ _ _ _ _ _ Hk))).
  eapply wp_step; [by eapply calm_getp|]. intros x ? [-> Hx]. destruct (p_pid x =? 0); [done|].
  eapply wp_step; [eapply (calm_updp _ _ _ _ _ _ k k p _ Hc Hp); mild_field|]. cbv beta. intros _ k1 Hk1.
  eapply (wp_step _ _ (fun _ k' => calm U L0 C Qs L S k k')).
  { destruct (negb _); [|by apply wp_ret]. eapply wp_step; [by eapply calm_find|]. intros q ? [-> Hq].
    eapply (wp_step _ _ (fun _ k' => calm U L0 C Qs L S k k')).
    - destruct (Z.eqb_spec q 0) as [|Hq0]; [by apply wp_ret|]. destruct Hq as [?|Hq]; [done|]. by apply calm_wake_all.
    - cbv beta. intros _ k2 Hk2. by apply calm_then, calm_send. }
  cbv beta. clear k1 Hk1. intros _ k1 Hk1. destruct (calm_exists _ _ _ _ _ _ _ _ _ Hk1 Hp) as [x1 Hx1].
  eapply wp_bind_ok; [by apply updp_ok|]. set (k2 := set_procs _ k1). pose proof (proj1 Hk1) as Hi1.
  assert (sched_inv k2 C Qs) as Hs2.
  { eapply inv_update; [apply Hi1|exact Hx1|done|done|]. by apply (si_procs _ _ _ (ki_sched _ _ _ _ _ _ _ Hi1) p x1). }
  eapply wp_mono; [eapply (pres_wp quiet); [pres|eapply (remove_process_ok k2 C Qs p Hs2)]|].
  { cbn. rewrite lookup_insert_eq. eauto. }
  intros _ k3 [(C' & Qs' & Hs3 & Hq3 & Hsp) Hqu]. exists C', Qs'. split; [|done].
  assert (kern_core k2 = kern_core k1) as E2.
  { unfold kern_core, k2. cbn. rewrite fmap_insert, insert_id; [done|]. by rewrite lookup_fmap, Hx1. }
  eapply kinv_core; [exact Hi1|by rewrite (proj1 Hqu), E2|done|]. intros q y Hy Hz. rewrite Hq3, (proj2 Hsp).
  unfold without. rewrite list_elem_of_filter. destruct (decide (q = p)) as [->|Hne]; [split; [tauto|done]|].
  assert (exists y2, procs k2 !! q = Some y2 /\ p_state y2 = PROCESS_ZOMBIE) as (y2 & Hy2 & Hz2).
  { pose proof (core_lookup k2 k3 q (proj1 Hqu)) as Ep. rewrite Hy in Ep. symmetry in Ep. apply fmap_Some in Ep as (y2 & Hy2 & _).
    exists y2. split; [done|]. by apply (proj2 Hqu q y2 y). }
  cbn in Hy2. rewrite lookup_insert_ne in Hy2 by done. destruct (ki_zombie _ _ _ _ _ _ _ Hi1 q y2 Hy2 Hz2). split; [tauto|done].
Qed.

(** ** Removing a process *)

Lemma inv_delete k k' C Qs p : sched_inv k C Qs -> p ∉ mjoin Qs -> p <> c_current C -> p <> c_idle_proc C ->
  cpus k' = cpus k -> cpu_count k' = cpu_count k -> procs k' = delete p (procs k) -> sched_inv k' C Qs.
Proof.
  intros [H1 H2 H3 [R1 R2 R3 R4 R5 R6] H5 H6 H7] Hq Hc Hi Ec En Ep.
  assert (forall q, q <> p -> procs k' !! q = procs k !! q) as Ho by (intros q Hne; by rewrite Ep, lookup_delete_ne).
  split; rewrite ?Ec, ?En; try done.
  - split; try done.
    + apply Forall_lookup. intros q l Hl. apply (links_ext (procs k)); [|by apply (Forall_lookup_1 _ _ _ _ R3 Hl)].
      intros y Hy. apply Ho. intros ->. apply Hq. by eapply elem_of_queue.
    + intros q l y Hl Hy. rewrite Ho; [by eapply R4|]. intros ->. apply Hq. by eapply elem_of_queue.
  - intros q y. rewrite Ep. intros [_ Hy]%lookup_delete_Some. by apply H5.
  - destruct H6 as [?|?]; [by left|right]. by rewrite Ho by done.
  - destruct H7 as [?|[? ?]]; [by left|right]. by rewrite Ho by done.
Qed.

(** What is left of the rest of the state when the process at [p] is gone. *)
Record dropped (p : Z) (x : process) k k' (L : gmap Z Z) (S : gset Z) (L' : gmap Z Z) (S' : gset Z) : Prop := {
  dr_cpus : cpus k' = cpus k;
  dr_count : cpu_count k' = cpu_count k;
  dr_next : next_pid k' = next_pid k;
  dr_procs : procs k' = delete p (procs k);
  dr_len : length (table k') = 128%nat;
  dr_kernel : table k' !! 0%nat = Some KERNEL_PROC;
  dr_slots : forall (i j : nat) q, q <> 0 -> table k' !! i = Some q -> table k' !! j = Some q -> i = j;
  dr_table : forall q, q <> 0 -> q ∈ table k' <-> q ∈ table k /\ q <> p;
  dr_ht : forall pid q, pid_ht k' !! pid = Some q <-> pid_ht k !! pid = Some q /\ q <> p;
  dr_rep : km_rep (kmem k') L';
  dr_heap : forall a n, L' !! a = Some n <-> L !! a = Some n /\ a <> p /\ a <> p_kernel_stack x;
  dr_stacks : forall a, a <> p_kernel_stack x -> kstacks k' !! a = kstacks k !! a;
  dr_spaces : sp_rep (kspaces k') S';
  dr_mem : forall m, m ∈ S' <-> m ∈ S /\ m <> p_memory x
}.

Lemma kinv_drop U k k' C Qs L S L' S' p x : kinv U L0 k C Qs L S -> procs k !! p = Some x ->
  p <> KERNEL_PROC -> p ∉ mjoin Qs -> p <> c_current C -> p <> c_idle_proc C -> dropped p x k k' L S L' S' ->
  kinv (U ∖ {[p]}) L0 k' C Qs L' S'.
Proof.
  intros Hk Hx HpK Hq Hc Hi [D1 D2 D3 D4 D5 D6 D7 D8 D9 D10 D11 D12 D13 D14].
  assert (forall q y, procs k' !! q = Some y <-> procs k !! q = Some y /\ q <> p) as Hl.
  { intros q y. rewrite D4, lookup_delete_Some. naive_solver. }
  assert (forall q, q <> p -> q ∉ U ∖ {[p]} <-> q ∉ U) as HU by set_solver.
  destruct Hk. split; rewrite ?D3; try done.
  - by eapply inv_delete.
  - intros q Hq0. rewrite D8, <- ki_live by done. destruct (decide (q = p)) as [->|Hne].
    + split; [intros [[y [_ ?]%Hl] _]; done|naive_solver].
    + rewrite (HU q Hne). split; [intros [[y [Hy _]%Hl] ?]; eauto|]. intros [[[y Hy] ?] _]. split; [exists y; by apply Hl|done].
  - intros q y [Hy Hne]%Hl. rewrite (HU q Hne). by apply ki_pid.
  - intros q y [Hy Hne]%Hl. rewrite (HU q Hne). by apply ki_ppid.
  - intros y [Hy _]%Hl. by apply ki_kpid.
  - intros pid q. rewrite D9, ki_ht. split.
    + intros [(y & Hy & Hp & HUq) Hne]. exists y. rewrite Hl, (HU q Hne). done.
    + intros (y & [Hy Hne]%Hl & Hp & HUq). rewrite (HU q Hne) in HUq. split; [by exists y|done].
  - intros q y [Hy Hne]%Hl. destruct (ki_obj q y Hy) as [?|HL]; [by left|right]. apply D11. split; [done|]. split; [done|]. intros ->.
    destruct (decide (p_kernel_stack x = 0)) as [E|E]; [|destruct (ki_stack p x Hx E) as [HL' _]; rewrite HL in HL'; discriminate].
    rewrite E in HL. by rewrite (km_no_null _ _ ki_rep) in HL.
  - intros q y [Hy Hne]%Hl Hst. destruct (ki_stack q y Hy Hst) as [HL (st & Hst' & Hlen)].
    assert (p_kernel_stack y <> p_kernel_stack x) as Hns by (intros E; apply Hne; by apply (ki_stack_inj q p y x)).
    split; [|exists st; by rewrite D12]. apply D11. split; [done|]. split; [|done]. intros E.
    destruct (ki_obj p x Hx) as [?|HL']; [done|]. rewrite E, HL' in HL. discriminate.
  - intros q r y z [Hy _]%Hl [Hz _]%Hl. by apply ki_stack_inj.
  - intros a n (Ha & Hap & Has)%D11. destruct (ki_owned a n Ha) as [?|[[y Hy]|(q & y & Hy & <-)]]; [by left|right; left|right; right].
    + exists y. by apply Hl.
    + exists q, y. split; [apply Hl; split; [done|intros ->; congruence]|done].
  - intros a n Ha. destruct (ki_others a n Ha) as (HL & Hn & Hst). split; [|split].
    + apply D11. split; [done|]. split; [congruence|]. intros ->. by apply (Hst p x).
    + rewrite D4. apply lookup_delete_None. by right.
    + intros q y [Hy _]%Hl. by apply (Hst q).
  - rewrite D14. tauto.
  - intros q y [Hy Hne]%Hl Hm. apply D14. split; [by apply (ki_mem q)|]. intros E. apply Hne. by apply (ki_mem_inj q p y x).
  - intros q r y z [Hy _]%Hl [Hz _]%Hl. by apply ki_mem_inj.
  - intros m [Hm Hne]%D14. destruct (ki_mem_owned m Hm) as (q & y & Hy & <-). exists q, y. split; [|done]. apply Hl. split; [done|]. intros ->. congruence.
  - intros q y [Hy _]%Hl. by apply ki_zombie.
  - intros q y [Hy _]%Hl. by apply ki_shape.
Qed.

(** ** Terminate *)

Lemma drop_stack k L p x st : km_rep (kmem k) L -> procs k !! p = Some x -> (st <> 0 -> L !! st = Some KERNEL_STACK_SIZE) ->
  exists m K x', (if negb (st =? 0) then free_stack st;; updp p (set_kernel_stack 0) else ret tt) k =
      Ok (tt, set_procs (<[p := x']> (procs k)) (set_kstacks K (set_kmem m k))) /\
    km_rep m (delete st L) /\ (forall a, a <> st -> K !! a = kstacks k !! a).
Proof.
  intros Hr Hx Hst. destruct (Z.eqb_spec st 0) as [->|H0]; cbn [negb].
  - exists (kmem k), (kstacks k), x. rewrite insert_id by done. split; [by destruct k|]. split; [|done].
    by rewrite delete_id by (by eapply km_no_null).
  - destruct (kfree_k_ok k L st _ Hr (Hst H0)) as (m & E & Hm). exists m, (delete st (kstacks k)), (set_kernel_stack 0 x).
    unfold free_stack. rewrite bind_assoc, (bind_ok _ _ _ _ _ E), bind_modify.
    split; [exact (updp_ok (set_kstacks (delete st (kstacks k)) (set_kmem m k)) p _ x Hx)|]. split; [done|].
    intros a Ha. by rewrite lookup_delete_ne.
Qed.

Lemma drop_memory k S p x m : sp_rep (kspaces k) S -> 0 ∉ S -> procs k !! p = Some x -> (m <> 0 -> m ∈ S) ->
  exists a x', (if negb (m =? 0) then on_spaces (as_destroy m);; updp p (set_memory 0) else ret tt) k =
      Ok (tt, set_procs (<[p := x']> (procs k)) (set_kspaces a k)) /\ sp_rep a (S ∖ {[m]}).
Proof.
  intros Hr Hn Hx Hm. destruct (Z.eqb_spec m 0) as [->|H0]; cbn [negb].
  - exists (kspaces k), x. rewrite insert_id by done. split; [by destruct k|]. by replace (S ∖ {[0]}) with S by set_solver.
  - destruct (destroy_ok k S m Hr (Hm H0)) as (a & E & Ha). exists a, (set_memory 0 x). rewrite (bind_ok _ _ _ _ _ E).
    split; [exact (updp_ok (set_kspaces a k) p _ x Hx)|done].
Qed.

Lemma put_slot_ok k (i : nat) p : (i < length (table k))%nat ->
  put_slot (Z.of_nat i) p k = Ok (tt, set_ptable (<[i := p]> (table k)) k).
Proof. intros Hi. unfold put_slot. rewrite bind_gets. unfold id. by rewrite (bind_ok _ _ _ _ _ (wr_ok (table k) (Z.of_nat i) p k ltac:(lia))), Nat2Z.id. Qed.

Lemma clear_slot_ok k (i : nat) p : length (table k) = 128%nat -> (1 <= i)%nat -> table k !! i = Some p ->
  (forall (i j : nat), table k !! i = Some p -> table k !! j = Some p -> i = j) ->
  clear_slot p k = Ok (tt, set_ptable (<[i := 0]> (table k)) k).
Proof.
  intros Hlen Hi Hp Hu. unfold clear_slot.
  assert (forall n (j : nat), (j + n = 128)%nat -> (j <= i)%nat -> for_until n (Z.of_nat j) (fun i => k ← gets id; q ← rd (table k) i;
      if q =? p then put_slot i 0;; ret (Some tt) else ret None) k = Ok (Some tt, set_ptable (<[i := 0]> (table k)) k)) as Hloop.
  { pose proof (lookup_lt_Some _ _ _ Hp) as Hlt. induction n as [|n IH]; intros j Hj Hji; [lia|]. cbn [for_until].
    destruct (lookup_lt_is_Some_2 (table k) j ltac:(lia)) as [q Hq]. rewrite bind_assoc, bind_gets, bind_assoc. unfold id.
    rewrite (bind_ok _ _ _ _ _ (rd_ok (table k) (Z.of_nat j) q k ltac:(lia) ltac:(by rewrite Nat2Z.id))).
    destruct (Z.eqb_spec q p) as [->|Hne].
    - assert (j = i) as -> by (by apply Hu). rewrite bind_assoc, (bind_ok _ _ _ _ _ (put_slot_ok k i 0 ltac:(lia))). done.
    - rewrite bind_ret. replace (Z.of_nat j + 1) with (Z.of_nat (Datatypes.S j)) by lia. apply IH; [lia|].
      destruct (decide (j = i)) as [->|]; [congruence|lia]. }
  by rewrite (bind_ok _ _ _ _ _ (Hloop 127%nat 1%nat eq_refl Hi)).
Qed.

(** The table without the process. *)
Lemma table_drop U k C Qs L S (i : nat) p : kinv U L0 k C Qs L S -> p <> 0 -> p <> KERNEL_PROC -> table k !! i = Some p ->
  let t := <[i := 0]> (table k) in
  length t = 128%nat /\ t !! 0%nat = Some KERNEL_PROC /\
  (forall (a b : nat) q, q <> 0 -> t !! a = Some q -> t !! b = Some q -> a = b) /\
  (forall q, q <> 0 -> q ∈ t <-> q ∈ table k /\ q <> p).
Proof.
  intros Hk Hp0 HpK Hi t. pose proof (lookup_lt_Some _ _ _ Hi) as Hlt. pose proof (ki_kernel _ _ _ _ _ _ _ Hk) as HK.
  assert (forall a q, q <> 0 -> t !! a = Some q <-> table k !! a = Some q /\ a <> i) as Ht.
  { intros a q Hq. unfold t. rewrite list_lookup_insert_Some. naive_solver. }
  split; [unfold t; rewrite length_insert; apply Hk|]. split; [apply Ht; [done|]; split; [done|]; intros <-; congruence|]. split.
  - intros a b q Hq [Ha _]%Ht [Hb _]%Ht; try done. by eapply (ki_slots _ _ _ _ _ _ _ Hk).
  - intros q Hq. rewrite !list_elem_of_lookup. split.
    + intros [a [Ha Hne]%Ht]; [|done]. split; [eauto|]. intros ->. apply Hne. by eapply (ki_slots _ _ _ _ _ _ _ Hk).
    + intros [[a Ha] Hne]. exists a. apply Ht; [done|]. split; [done|]. intros ->. congruence.
Qed.

(** Reaping frees exactly what the process owned. *)
Lemma terminate_ok U k C Qs L S p x : kinv U L0 k C Qs L S -> procs k !! p = Some x -> p ∉ U -> p <> KERNEL_PROC ->
  p_state x = PROCESS_ZOMBIE -> p <> c_current C ->
  exists k' L' S', process_terminate p k = Ok (tt, k') /\ kinv U L0 k' C Qs L' S' /\ dropped p x k k' L S L' S'.
Proof.
  intros Hk Hx HpU HpK Hz Hc. destruct (si_procs _ _ _ (ki_sched _ _ _ _ _ _ _ Hk) p x Hx) as (Hp0 & _).
  destruct (ki_zombie _ _ _ _ _ _ _ Hk p x Hx Hz) as [Hq Hi]. destruct (ki_pid _ _ _ _ _ _ _ Hk p x Hx HpU) as [Hpid HpidK].
  assert (p ∈ table k) as [i Hti]%list_elem_of_lookup by (apply (ki_live _ _ _ _ _ _ _ Hk p Hp0); eauto).
  pose proof (ki_len _ _ _ _ _ _ _ Hk) as Hlen. pose proof (ki_kernel _ _ _ _ _ _ _ Hk) as HK. pose proof (ki_next _ _ _ _ _ _ _ Hk).
  destruct (table_drop U k C Qs L S i p Hk Hp0 HpK Hti) as (T1 & T2 & T3 & T4).
  unfold process_terminate. rewrite (proj2 (Z.eqb_neq p 0) Hp0), (bind_ok _ _ _ _ _ (getp_ok k p x Hx)).
  rewrite (proj2 (Z.eqb_neq (p_pid x) 0)) by (intros E; by apply HpK, HpidK). rewrite (bind_ok _ _ _ _ _ (updp_ok k p _ x Hx)).
  set (k1 := set_procs _ k). assert (procs k1 !! p = Some (set_state PROCESS_TERMINATED x)) as Hx1 by apply lookup_insert_eq.
  destruct (drop_stack k1 L p _ (p_kernel_stack x) (ki_rep _ _ _ _ _ _ _ Hk) Hx1) as (m & K & x2 & E2 & Hm & HKs);
    [intros Hst; by apply (ki_stack _ _ _ _ _ _ _ Hk p x)|]. rewrite (bind_ok _ _ _ _ _ E2). set (k2 := set_procs _ _).
  assert (procs k2 !! p = Some x2) as Hx2 by apply lookup_insert_eq.
  destruct (drop_memory k2 S p _ (p_memory x) (ki_spaces _ _ _ _ _ _ _ Hk) (ki_mem_null _ _ _ _ _ _ _ Hk) Hx2) as (a & x3 & E3 & Ha);
    [intros Hmem; by apply (ki_mem _ _ _ _ _ _ _ Hk p)|]. rewrite (bind_ok _ _ _ _ _ E3). set (k3 := set_procs _ _).
  unfold ht_remove. rewrite bind_modify. set (k4 := set_ht _ k3).
  rewrite (bind_ok _ _ _ _ _ (clear_slot_ok k4 i p Hlen ltac:(destruct i; [congruence|lia]) Hti (fun a b => ki_slots _ _ _ _ _ _ _ Hk a b p Hp0))).
  set (k5 := set_ptable _ k4). unfold free_process. destruct (ki_obj _ _ _ _ _ _ _ Hk p x Hx) as [?|HLp]; [done|].
  assert (delete (p_kernel_stack x) L !! p = Some PROCESS_SIZE) as HLp'.
  { rewrite lookup_delete_ne; [done|]. intros E. destruct (decide (p_kernel_stack x = 0)); [congruence|].
    destruct (ki_stack _ _ _ _ _ _ _ Hk p x Hx) as [HLs _]; [done|]. rewrite E, HLp in HLs. discriminate. }
  destruct (kfree_k_ok k5 _ p _ Hm HLp') as (m6 & E6 & Hm6). rewrite (bind_ok _ _ _ _ _ E6).
  set (k6 := set_kmem m6 k5). change (modify (fun k => set_procs (delete p (procs k)) k) k6) with (Ok (tt, set_procs (delete p (procs k6)) k6)).
  set (k7 := set_procs _ k6). assert (dropped p x k k7 L S (delete p (delete (p_kernel_stack x) L)) (S ∖ {[p_memory x]})) as Hd.
  { split; try done.
    - cbn. by rewrite !delete_insert_eq.
    - intros pid q. cbn. rewrite u32_id by (unfold is_u32; lia). rewrite lookup_delete_Some. split.
      + intros [Hne Hq']. split; [done|]. intros ->. apply (ki_ht _ _ _ _ _ _ _ Hk) in Hq' as (y & Hy & Hyp & _). by simplify_eq.
      + intros [Hq' Hne]. split; [|done]. intros <-. apply Hne.
        assert (pid_ht k !! p_pid x = Some p) as E1 by (apply (ki_ht _ _ _ _ _ _ _ Hk); eauto). congruence.
    - intros b n. rewrite !lookup_delete_Some. naive_solver.
    - set_solver. }
  exists k7. do 2 eexists. split; [done|]. split; [|exact Hd]. replace U with (U ∖ {[p]}) by set_solver. by eapply kinv_drop.
Qed.

(** ** Wait *)

Lemma kinv_spaces U k C Qs L S a : kinv U L0 k C Qs L S -> sp_rep a S -> kinv U L0 (set_kspaces a k) C Qs L S.
Proof. intros [[]] Ha. by split. Qed.

Lemma the_child_listed U k C Qs L S ppid pid zo : kinv U L0 k C Qs L S -> the_child k ppid pid zo <> 0 -> the_child k ppid pid zo ∉ U.
Proof.
  intros Hk. unfold the_child. destruct (0 <? pid).
  - destruct (childb _ _ _ _); [|done]. destruct (pid_ht k !! u32 pid) as [q|] eqn:E; cbn; [|done]. intros _.
    by apply (ki_ht _ _ _ _ _ _ _ Hk) in E as (x & _ & _ & ?).
  - destruct (head _) as [q|] eqn:E; cbn; [|done]. intros Hq. apply head_Some_elem_of, list_elem_of_filter in E as [_ E].
    apply (ki_live _ _ _ _ _ _ _ Hk q Hq). eapply subseteq_drop, E.
Qed.

(** The process that waits: a user process on the CPU. *)
Definition caller (U : gset Z) k (C : cpu) (x : process) : Prop :=
  c_current C <> 0 /\ c_current C <> KERNEL_PROC /\ (c_current C ∉ U) /\ procs k !! c_current C = Some x /\ p_state x <> PROCESS_ZOMBIE.

(** A child that is reaped leaves the table, the hash, the heap and the address
    spaces; a status that cannot be stored leaves it a zombie. *)
Definition reaped (z r : Z) k k' (L : gmap Z Z) (S : gset Z) (L' : gmap Z Z) (S' : gset Z) : Prop :=
  exists y, procs k !! z = Some y /\ p_state y = PROCESS_ZOMBIE /\
    ((r < 0 /\ procs k' = procs k /\ table k' = table k /\ L' = L /\ S' = S) \/ (r = p_pid y /\ dropped z y k k' L S L' S')).

Lemma reap_ok U k C Qs L S x pid ptr : kinv U L0 k C Qs L S -> caller U k C x ->
  the_child k (u32 (p_pid x)) pid true <> 0 ->
  wp (waitpid_reap (the_child k (u32 (p_pid x)) pid true) ptr) (fun r k' => exists L' S', kinv U L0 k' C Qs L' S' /\
    reaped (the_child k (u32 (p_pid x)) pid true) r k k' L S L' S') k.
Proof.
  intros Hk (Hc0 & HcK & HcU & Hx & Hxz) Hz. pose proof (the_child_listed _ _ _ _ _ _ _ _ _ Hk Hz) as HzU.
  pose proof (the_child_spec _ _ _ _ _ _ _ _ _ _ _ (calm_start _ _ _ _ _ _ _ Hk) Hz) as Hch. set (z := the_child _ _ _ _) in *.
  apply childb_spec in Hch as (y & Hy & _ & Hpp & _ & Hyz). specialize (Hyz eq_refl).
  assert (z <> c_current C) as Hzc by (intros E; rewrite E in Hy; by simplify_eq).
  assert (z <> KERNEL_PROC) as HzK.
  { intros E. rewrite E in Hy. destruct (ki_kpid _ _ _ _ _ _ _ Hk y Hy) as [_ E0]. rewrite E0 in Hpp.
    destruct (ki_pid _ _ _ _ _ _ _ Hk _ _ Hx HcU) as [Hpid HpidK]. pose proof (ki_next _ _ _ _ _ _ _ Hk).
    rewrite u32_id, s32_small in Hpp by (unfold is_u32; lia). by apply HcK, HpidK. }
  unfold waitpid_reap. eapply wp_bind_ok; [by apply getp_ok|].
  eapply (wp_step _ _ (fun _ k' => exists a, k' = set_kspaces a k /\ sp_rep a S)).
  { destruct (negb _); [|apply wp_ret; exists (kspaces k); split; [by destruct k|apply Hk]].
    destruct (sp_copy (kspaces k) S ptr (le32 (u32 (p_exit_code y))) (ki_spaces _ _ _ _ _ _ _ Hk)) as (r & a & E & Ha).
    apply wp_zoom. eapply wp_ok; [exact E|]. eauto. }
  intros rc k1 (a & -> & Ha). pose proof (kinv_spaces _ _ _ _ _ _ _ Hk Ha) as Hk1. destruct (Z.ltb_spec rc 0).
  { apply wp_ret. exists L, S. split; [done|]. exists y. split; [done|]. split; [done|]. left. by split_and!. }
  rewrite Hyz. cbn [Z.eqb]. destruct (terminate_ok U _ C Qs L S z y Hk1 Hy HzU HzK Hyz Hzc) as (k2 & L' & S' & E & Hk2 & Hd).
  change (PROCESS_ZOMBIE =? PROCESS_ZOMBIE) with true. eapply wp_bind_ok; [exact E|]. apply wp_ret. exists L', S'. split; [done|].
  exists y. split; [done|]. split; [done|]. right. split; [done|]. by destruct Hd.
Qed.

Lemma caller_mild U k k' C x : caller U k C x -> mild k k' -> exists x', caller U k' C x' /\ p_pid x' = p_pid x.
Proof.
  intros (? & ? & ? & Hx & Hz) Hm. destruct (mild_lookup _ _ _ _ Hm Hx) as (x' & Hx' & Hp). exists x'.
  split; [|by apply (mild_agrees _ _ _ Hp)]. split_and!; try done. intros E. by apply Hz, Hp.
Qed.

Lemma caller_self U k C x : caller U k C x -> self C = c_current C.
Proof. intros (H0 & _). unfold self. by rewrite (proj2 (Z.eqb_neq _ 0) H0). Qed.

(** What a call that waits for [pid] does: nothing without a child, reap a
    zombie, and otherwise return at once or sleep. *)
Definition waited (x : process) (pid : Z) (hang : bool) (o : option Z) k k' (L : gmap Z Z) (S : gset Z) (L' : gmap Z Z) (S' : gset Z) : Prop :=
  let z := the_child k (u32 (p_pid x)) pid true in
  if the_child k (u32 (p_pid x)) pid false =? 0 then o = Some (- ECHILD) /\ k' = k
  else if negb (z =? 0) then exists r, o = Some r /\ reaped z r k k' L S L' S'
  else if hang then o = None /\ mild k k' else o = Some 0 /\ k' = k.

Lemma the_child_any k C Qs L S U ppid pid : kinv U L0 k C Qs L S -> the_child k ppid pid false = 0 -> the_child k ppid pid true = 0.
Proof.
  intros Hk. assert (forall q, childb k ppid true q = true -> childb k ppid false q = true) as Hsub.
  { intros q. unfold childb. destruct (procs k !! q); [|done]. intros Hb. bool_case. cbn. by rewrite !andb_true_iff, !negb_true_iff, !Z.eqb_eq, !Z.eqb_neq. }
  unfold the_child. destruct (0 <? pid).
  - destruct (childb k ppid true _) eqn:E; [|done]. by rewrite (Hsub _ E).
  - destruct (head (filter (fun q => Is_true (childb k ppid true q)) _)) as [q|] eqn:E; [|done]. cbn.
    apply head_Some_elem_of, list_elem_of_filter in E as [E1%Is_true_true E2]. destruct (childb_spec _ _ _ _ E1) as (_ & _ & Hq & _).
    destruct (head (filter (fun q => Is_true (childb k ppid false q)) _)) as [r|] eqn:E'; cbn.
    + apply head_Some_elem_of, list_elem_of_filter in E' as [E'%Is_true_true _]. by destruct (childb_spec _ _ _ _ E') as (_ & _ & ? & _).
    + intros _. exfalso. apply head_None in E'. assert (q ∈ filter (fun q => Is_true (childb k ppid false q)) (drop 1 (table k))) as Hin.
      { apply list_elem_of_filter. split; [apply Is_true_true; by apply Hsub|done]. }
      rewrite E' in Hin. by apply not_elem_of_nil in Hin.
Qed.

(** One pass of the loop is enough: it reaps, gives up, or goes to sleep. *)
Lemma waitpid_loop_ok U k C Qs L S x pid ptr fuel : kinv U L0 k C Qs L S -> caller U k C x ->
  wp (waitpid_loop (Datatypes.S fuel) 0 (c_current C) (u32 (p_pid x)) pid ptr) (fun o k' => exists L' S', kinv U L0 k' C Qs L' S' /\
    waited x pid true o k k' L S L' S') k.
Proof.
  intros Hk Hc. pose proof (calm_start _ _ _ _ _ _ _ Hk) as Hcalm. cbn [waitpid_loop]. unfold waited. cbv zeta.
  eapply wp_bind_ok; [by eapply find_child_ok|]. destruct (Z.eqb_spec (the_child k (u32 (p_pid x)) pid true) 0) as [Ez|Ez]; cbn [negb]; cycle 1.
  { destruct (Z.eqb_spec (the_child k (u32 (p_pid x)) pid false) 0) as [Ea|Ea]; [by rewrite (the_child_any _ _ _ _ _ _ _ _ Hk Ea) in Ez|].
    eapply wp_step; [by eapply reap_ok|]. cbv beta. intros r k' (L' & S' & ? & ?). apply wp_ret. eauto 10. }
  eapply wp_bind_ok; [by eapply find_child_ok|]. destruct (Z.eqb_spec (the_child k (u32 (p_pid x)) pid false) 0) as [Ea|Ea].
  { apply wp_ret. eauto. }
  eapply wp_step; [rewrite <- (caller_self _ _ _ _ Hc); eapply (calm_round _ _ _ _ _ _ k k x pid Hcalm)|]; rewrite ?(caller_self _ _ _ _ Hc); try apply Hc.
  - unfold wait_over. by rewrite Ez, (proj2 (Z.eqb_neq _ 0) Ea).
  - cbv beta. intros b k' [-> Hk']. apply wp_ret. exists L, S. split; [apply Hk'|]. split; [done|apply Hk'].
Qed.

Lemma waitpid_ok U k C Qs L S x pid ptr opts : kinv U L0 k C Qs L S -> caller U k C x ->
  wp (sys_waitpid 0 pid ptr opts) (fun o k' => exists L' S', kinv U L0 k' C Qs L' S' /\
    waited x (s32 pid) (Z.land opts 1 =? 0) o k k' L S L' S') k.
Proof.
  intros Hk Hc. pose proof (calm_start _ _ _ _ _ _ _ Hk) as Hcalm. unfold sys_waitpid.
  eapply wp_bind_ok; [by eapply calm_self|]. rewrite (caller_self _ _ _ _ Hc). pose proof Hc as (_ & _ & _ & Hx & _).
  eapply wp_bind_ok; [by apply getp_ok|]. eapply wp_bind_ok; [by eapply find_child_ok|].
  destruct (Z.land opts 1 =? 0); cbn [negb].
  - destruct (Z.eqb_spec (the_child k (u32 (p_pid x)) (s32 pid) false) 0) as [Ea|Ea]; [|by eapply waitpid_loop_ok].
    apply wp_ret. exists L, S. split; [done|]. unfold waited. by rewrite Ea.
  - unfold waited. cbv zeta. destruct (Z.eqb_spec (the_child k (u32 (p_pid x)) (s32 pid) false) 0) as [Ea|Ea]; [apply wp_ret; eauto|].
    eapply wp_bind_ok; [by eapply find_child_ok|].
    destruct (Z.eqb_spec (the_child k (u32 (p_pid x)) (s32 pid) true) 0) as [Ez|Ez]; cbn [negb]; [apply wp_ret; eauto|].
    eapply wp_step; [by eapply reap_ok|]. cbv beta. intros r k' (L' & S' & ? & ?). apply wp_ret. eauto 10.
Qed.

Lemma resume_ok U k C Qs L S x pid ptr : kinv U L0 k C Qs L S -> caller U k C x ->
  wp (waitpid_resume 0 pid ptr) (fun _ k' => exists L' S', kinv U L0 k' C Qs L' S') k.
Proof.
  intros Hk Hc. pose proof (calm_start _ _ _ _ _ _ _ Hk) as Hcalm. unfold waitpid_resume.
  eapply wp_bind_ok; [by eapply calm_self|]. rewrite (caller_self _ _ _ _ Hc). pose proof Hc as (_ & _ & _ & Hx & _).
  eapply wp_bind_ok; [by apply getp_ok|]. eapply wp_step; [eapply (calm_finish _ _ _ _ _ _ k k); [done|eauto]|].
  cbv beta. intros _ k1 [Hk1 Hm1]. destruct (caller_mild _ _ _ _ _ Hc Hm1) as (x1 & Hc1 & Ep). rewrite <- Ep.
  pose proof (calm_start _ _ _ _ _ _ _ Hk1) as Hcalm1. destruct (wait_over k1 (u32 (p_pid x1)) (s32 pid)) eqn:Ew.
  - assert (wait_event_round 0 (c_current C) (u32 (p_pid x1)) (s32 pid) k1 = Ok (true, k1)) as E.
    { unfold wait_event_round. by rewrite (bind_ok _ _ _ _ _ (wait_cond_ok _ _ _ _ _ _ _ _ _ _ Hcalm1)), Ew. }
    eapply wp_bind_ok; [exact E|]. eapply wp_mono; [by eapply waitpid_loop_ok|]. cbv beta. naive_solver.
  - eapply wp_step; [rewrite <- (caller_self _ _ _ _ Hc1); eapply (calm_round _ _ _ _ _ _ k1 k1 x1 (s32 pid) Hcalm1)|];
      rewrite ?(caller_self _ _ _ _ Hc1); try apply Hc1; [done|].
    cbv beta. intros b k' [-> Hk']. apply wp_ret. exists L, S. apply Hk'.
Qed.

End End_.
