(* ===== verification/LifeBuild.v ===== *)
(** * Making a process

    [sys_fork] and [process_create] build a process outside the table and
    publish it at the end.  Every step keeps the invariant of LifeInv with the
    new process under construction, and every failure gives back what the new
    process owned. *)

From stdpp Require Import base tactics numbers list gmap.
From S2P Require Import Prelude Kstring Fd Alloc Block Proc Sched SchedFrame SchedProofs SchedSpec SchedSwitch SchedRun.
From S2P Require Import Signal ProcCalls LifeInv LifeSignal LifeEnd.

Section Fork.
Context {M A : Type} {KM : Kmalloc M} {AS : AddressSpaces A} {UL : Userland A} {SL : SpacesLaws A}.
Variables (L0 : gmap Z Z) (C : cpu) (Qs : list (list Z)).
Implicit Types k : kern M A.

(** The process [x] at [c] is under construction beside the processes [P]. *)
Record building (c : Z) (P : gmap Z process) (x : process) (L : gmap Z Z) (S : gset Z) (k : kern M A) : Prop := {
  bd_inv : kinv {[c]} L0 k C Qs L S;
  bd_procs : procs k = <[c := x]> P;
  bd_new : P !! c = None;
  bd_addr : c <> 0 /\ c <> KERNEL_PROC;
  bd_out : (c ∉ mjoin Qs) /\ c <> c_current C /\ c <> c_idle_proc C;
  bd_state : p_state x <> PROCESS_ZOMBIE;
  bd_cpu : 0 <= p_mlfq_queue x < 4 /\ p_owner_cpu x = 0
}.

(** Replacing one process by one with the same pid, stack and memory. *)
Lemma kinv_upd U k L S p x x' : kinv U L0 k C Qs L S -> procs k !! p = Some x ->
  sched_inv (set_procs (<[p := x']> (procs k)) k) C Qs -> agrees x x' -> (proc_ok p x -> proc_ok p x') ->
  (p_state x' = PROCESS_ZOMBIE -> p_state x = PROCESS_ZOMBIE) ->
  kinv U L0 (set_procs (<[p := x']> (procs k)) k) C Qs L S.
Proof.
  intros Hk Hx Hs Ha Hok Hz. eapply kinv_procs; [exact Hk|exact Hs|done|done|done|done|done|done| |].
  - intros q y Hy. cbn. destruct (decide (p = q)) as [<-|Hne]; [rewrite lookup_insert_eq; simplify_eq; eauto|].
    rewrite lookup_insert_ne by done. exists y. by repeat split.
  - intros q y. cbn. intros [[<- <-]|[Hne Hy]]%lookup_insert_Some.
    + exists x. split; [done|]. split; [done|]. split; [done|]. intros E. by eapply (ki_zombie _ _ _ _ _ _ _ Hk p x), Hz.
    + exists y. split; [done|]. split; [by repeat split|]. split; [done|]. by apply (ki_zombie _ _ _ _ _ _ _ Hk).
Qed.

Lemma sched_unqueued k p x : sched_inv k C Qs -> p <> 0 -> p ∉ mjoin Qs ->
  0 <= p_mlfq_queue x < 4 -> p_owner_cpu x = 0 -> sched_inv (set_procs (<[p := x]> (procs k)) k) C Qs.
Proof.
  intros [H1 H2 H3 H4 H5 H6 H7] Hp0 Hp Hq Ho. split; cbn [procs set_procs cpus cpu_count]; try done.
  - by apply rq_frame.
  - intros y z. rewrite lookup_insert_Some. intros [[<- <-]|[_ Hz]]; [done|by apply H5].
  - destruct H6 as [?|?]; [by left|right]. rewrite lookup_insert_is_Some. destruct (decide (p = c_current C)); naive_solver.
  - destruct H7 as [?|[? ?]]; [by left|right]. split; [|done]. rewrite lookup_insert_is_Some. destruct (decide (p = c_idle_proc C)); naive_solver.
Qed.

Lemma bd_lookup c P x L S k : building c P x L S k -> procs k !! c = Some x.
Proof. intros Hb. rewrite (bd_procs _ _ _ _ _ _ Hb). apply lookup_insert_eq. Qed.

Lemma bd_other c P x L S k q y : building c P x L S k -> P !! q = Some y -> q <> c /\ procs k !! q = Some y.
Proof.
  intros Hb Hq. assert (q <> c) as Hne by (intros ->; by rewrite (bd_new _ _ _ _ _ _ Hb) in Hq). split; [done|].
  by rewrite (bd_procs _ _ _ _ _ _ Hb), lookup_insert_ne.
Qed.

(** A step of the construction: fields of the new process change, it may get a
    kernel stack or an address space, and nothing else gets or loses any. *)
Record bd_step (x x' : process) (L L' : gmap Z Z) (S S' : gset Z) (k k' : kern M A) : Prop := {
  bs_table : table k' = table k;
  bs_ht : pid_ht k' = pid_ht k;
  bs_cpus : cpus k' = cpus k;
  bs_count : cpu_count k' = cpu_count k;
  bs_next : next_pid k <= next_pid k' <= 2147483648;
  bs_rep : km_rep (kmem k') L';
  bs_heap : forall a n, L' !! a = Some n <-> L !! a = Some n \/ (a = p_kernel_stack x' /\ a <> 0 /\ n = KERNEL_STACK_SIZE);
  bs_stack : p_kernel_stack x' = p_kernel_stack x \/ (p_kernel_stack x = 0 /\ L !! p_kernel_stack x' = None);
  bs_bytes : forall a s, kstacks k !! a = Some s -> length s = 8192%nat -> exists s', kstacks k' !! a = Some s' /\ length s' = 8192%nat;
  bs_own : p_kernel_stack x' <> 0 -> exists s', kstacks k' !! p_kernel_stack x' = Some s' /\ length s' = 8192%nat;
  bs_spaces : sp_rep (kspaces k') S';
  bs_mem : forall m, m ∈ S' <-> m ∈ S \/ (m = p_memory x' /\ m <> 0);
  bs_space : p_memory x' = p_memory x \/ (p_memory x = 0 /\ p_memory x' ∉ S)
}.

Lemma bd_change c P x x' L L' S S' k k' : building c P x L S k -> bd_step x x' L L' S S' k k' -> procs k' = <[c := x']> P ->
  p_mlfq_queue x' = p_mlfq_queue x -> p_owner_cpu x' = p_owner_cpu x -> (proc_ok c x -> proc_ok c x') -> p_state x' <> PROCESS_ZOMBIE ->
  building c P x' L' S' k'.
Proof.
  intros Hb [B1 B2 B3 B4 B5 B6 B7 B8 B9 B10 B11 B12 B13] Hp' Eq Eo Hok Hz. pose proof (bd_lookup _ _ _ _ _ _ Hb) as Hx.
  pose proof Hb as [Hk Hp Hn [Hc0 HcK] (Hq & Hc & Hi) _ [Hr Hr']].
  assert (procs k' = <[c := x']> (procs k)) as Ep by (by rewrite Hp, insert_insert_eq, Hp').
  assert (sched_inv k' C Qs) as Hs.
  { eapply (sched_inv_links (set_procs (<[c := x']> (procs k)) k)); [done|done|intros q; by rewrite Ep|].
    apply sched_unqueued; try done; [apply Hk|by rewrite Eq|congruence]. }
  assert (forall q y, procs k' !! q = Some y <-> (q = c /\ y = x') \/ (q <> c /\ procs k !! q = Some y)) as Hl.
  { intros q y. rewrite Ep, lookup_insert_Some. naive_solver. }
  split; [|done|done|done|done|done|by rewrite Eq, Eo]. destruct Hk. split; rewrite ?B1, ?B2; try done.
  - intros q Hq0. rewrite <- ki_live by done. rewrite Ep, lookup_insert_is_Some. destruct (decide (c = q)); set_solver.
  - intros q y [[-> _]|[Hne Hy]]%Hl HqU; [set_solver|]. destruct (ki_pid q y Hy HqU). split; [lia|done].
  - intros q y [[-> _]|[Hne Hy]]%Hl HqU; [set_solver|by apply ki_ppid].
  - intros y [[E _]|[_ Hy]]%Hl; [done|by apply ki_kpid].
  - intros pid q. rewrite ki_ht. split; intros (y & Hy & ? & HqU); exists y; (split; [|done]).
    + apply Hl. right. split; [set_solver|done].
    + apply Hl in Hy as [[-> _]|[_ Hy]]; [set_solver|done].
  - lia.
  - intros q y [[-> _]|[Hne Hy]]%Hl; [destruct (ki_obj c x Hx)|destruct (ki_obj q y Hy)]; [by left|right; apply B7; by left|by left|right; apply B7; by left].
  - intros q y [[-> ->]|[Hne Hy]]%Hl Hst.
    + split; [apply B7; by right|by apply B10].
    + destruct (ki_stack q y Hy Hst) as [HL (s & Hs1 & Hs2)]. split; [apply B7; by left|by apply (B9 _ s)].
  - assert (forall q y, procs k !! q = Some y -> q <> c -> p_kernel_stack y <> 0 -> p_kernel_stack y <> p_kernel_stack x') as Hdiff.
    { intros q y Hy Hne Hst E. destruct B8 as [E8|[_ E8]].
      - apply Hne. apply (ki_stack_inj q c y x); [done|done|done|congruence].
      - destruct (ki_stack q y Hy Hst) as [HL _]. rewrite E in HL. congruence. }
    intros q r y z [[-> ->]|[Hne Hy]]%Hl [[-> ->]|[Hne' Hz']]%Hl Hst E; [done| | |by apply (ki_stack_inj q r y z)].
    + exfalso. eapply (Hdiff r z); [done|done|congruence|done].
    + exfalso. by eapply (Hdiff q y).
  - intros a n [Ha|(-> & _ & _)]%B7.
    + destruct (ki_owned a n Ha) as [?|[[y Hy]|(q & y & Hy & <-)]]; [by left|right; left|right; right].
      * destruct (decide (a = c)) as [->|]; [exists x'; apply Hl; by left|exists y; apply Hl; by right].
      * destruct (decide (q = c)) as [->|]; [|exists q, y; split; [apply Hl; by right|done]].
        exists c, x'. split; [apply Hl; by left|]. assert (y = x) as -> by congruence. destruct B8 as [?|[E8 _]]; [done|].
        rewrite E8 in Ha. by rewrite (km_no_null _ _ ki_rep) in Ha.
    + right. right. exists c, x'. split; [apply Hl; by left|done].
  - intros a n Ha. destruct (ki_others a n Ha) as (HL & Hna & Hst). split; [apply B7; by left|]. split.
    + rewrite Ep, lookup_insert_None. split; [done|]. intros ->. congruence.
    + intros q y [[-> ->]|[_ Hy]]%Hl; [|by apply (Hst q)]. destruct B8 as [->|[_ E8]]; [by apply (Hst c)|]. intros E'. congruence.
  - rewrite B12. intros [?|[_ ?]]; done.
  - intros q y [[-> ->]|[Hne Hy]]%Hl Hm; apply B12; [by right|left; by apply (ki_mem q)].
  - assert (forall q y, procs k !! q = Some y -> q <> c -> p_memory y <> 0 -> p_memory y <> p_memory x') as Hdiff.
    { intros q y Hy Hne Hm E. destruct B13 as [E13|[_ E13]].
      - apply Hne. apply (ki_mem_inj q c y x); [done|done|done|congruence].
      - apply E13. rewrite <- E. by apply (ki_mem q). }
    intros q r y z [[-> ->]|[Hne Hy]]%Hl [[-> ->]|[Hne' Hz']]%Hl Hm E; [done| | |by apply (ki_mem_inj q r y z)].
    + exfalso. eapply (Hdiff r z); [done|done|congruence|done].
    + exfalso. by eapply (Hdiff q y).
  - intros m [Hm|(-> & _)]%B12; [|exists c, x'; split; [apply Hl; by left|done]].
    destruct (ki_mem_owned m Hm) as (q & y & Hy & <-). destruct (decide (q = c)) as [->|]; [|exists q, y; split; [apply Hl; by right|done]].
    exists c, x'. split; [apply Hl; by left|]. assert (y = x) as -> by congruence. destruct B13 as [?|[E13 _]]; [done|].
    rewrite E13 in Hm. done.
  - intros q y [[-> ->]|[_ Hy]]%Hl; [done|by apply ki_zombie].
  - intros q y [[-> ->]|[_ Hy]]%Hl; [by apply Hok, ki_shape|by apply ki_shape].
Qed.

(** ** The steps *)

Lemma bd_step_same c P x x' L S k K n a m : building c P x L S k -> p_kernel_stack x' = p_kernel_stack x -> p_memory x' = p_memory x ->
  next_pid k <= n <= 2147483648 -> sp_rep a S -> km_rep m L ->
  (forall b s, kstacks k !! b = Some s -> length s = 8192%nat -> exists s', K !! b = Some s' /\ length s' = 8192%nat) ->
  bd_step x x' L L S S k (set_procs (<[c := x']> P) (set_next_pid n (set_kstacks K (set_kspaces a (set_kmem m k))))).
Proof.
  intros Hb Es Em Hn Ha Hm HK. pose proof (bd_lookup _ _ _ _ _ _ Hb) as Hx. destruct (bd_inv _ _ _ _ _ _ Hb). split; try done.
  - intros b r. split; [by left|]. rewrite Es. intros [?|(-> & H0 & ->)]; [done|]. by apply (ki_stack c x).
  - by left.
  - rewrite Es. intros H0. destruct (ki_stack c x Hx H0) as [_ (s & ? & ?)]. cbn. by apply (HK _ s).
  - intros r. split; [by left|]. rewrite Em. intros [?|(-> & H0)]; [done|]. by apply (ki_mem c).
  - by left.
Qed.

(** What may change of the new process without more ado. *)
Definition bd_upd (c : Z) (f : process -> process) : Prop := forall x,
  p_mlfq_queue (f x) = p_mlfq_queue x /\ p_owner_cpu (f x) = p_owner_cpu x /\ p_kernel_stack (f x) = p_kernel_stack x /\
  p_memory (f x) = p_memory x /\ (p_state x <> PROCESS_ZOMBIE -> p_state (f x) <> PROCESS_ZOMBIE).

Lemma bd_updp c P x L S k f : building c P x L S k -> bd_upd c f -> (proc_ok c x -> proc_ok c (f x)) ->
  updp c f k = Ok (tt, set_procs (<[c := f x]> P) k) /\ building c P (f x) L S (set_procs (<[c := f x]> P) k).
Proof.
  intros Hb Hf Hok. destruct (Hf x) as (E1 & E2 & E3 & E4 & E5). pose proof (bd_inv _ _ _ _ _ _ Hb) as Hk.
  assert (set_procs (<[c := f x]> (procs k)) k = set_procs (<[c := f x]> P) k) as Ek
    by (by rewrite (bd_procs _ _ _ _ _ _ Hb), insert_insert_eq).
  split; [rewrite (updp_ok k c f x (bd_lookup _ _ _ _ _ _ Hb)); by rewrite Ek|].
  eapply (bd_change c P x (f x)); [exact Hb| |done|done|done|done|by apply E5, Hb].
  pose proof (bd_step_same c P x (f x) L S k (kstacks k) (next_pid k) (kspaces k) (kmem k) Hb E3 E4) as Hst.
  replace (set_procs (<[c := f x]> P) k) with (set_procs (<[c := f x]> P) (set_next_pid (next_pid k) (set_kstacks (kstacks k)
    (set_kspaces (kspaces k) (set_kmem (kmem k) k))))) by (by destruct k).
  apply Hst; [pose proof (ki_next _ _ _ _ _ _ _ Hk); lia|apply Hk|apply Hk|]. intros b r ? ?. eauto.
Qed.

Lemma bd_next c P x L S k n : building c P x L S k -> next_pid k <= n <= 2147483648 -> building c P x L S (set_next_pid n k).
Proof.
  intros Hb Hn. pose proof (bd_inv _ _ _ _ _ _ Hb) as Hk. eapply (bd_change c P x x); [exact Hb| |apply Hb|done|done|done|apply Hb].
  pose proof (bd_step_same c P x x L S k (kstacks k) n (kspaces k) (kmem k) Hb eq_refl eq_refl Hn) as Hst.
  replace (set_next_pid n k) with (set_procs (<[c := x]> P) (set_next_pid n (set_kstacks (kstacks k)
    (set_kspaces (kspaces k) (set_kmem (kmem k) k))))) by (destruct k; cbn; f_equal; by rewrite <- (bd_procs _ _ _ _ _ _ Hb)).
  apply Hst; [apply Hk|apply Hk|]. intros b r ? ?. eauto.
Qed.

Lemma bd_spaces c P x L S k a : building c P x L S k -> sp_rep a S -> building c P x L S (set_kspaces a k).
Proof. intros [] Ha. split; try done. by apply kinv_spaces. Qed.

(** Writes into kernel stacks keep their size. *)
Lemma bd_stacks c P x L S k b s s' : building c P x L S k -> kstacks k !! b = Some s -> length s' = length s ->
  building c P x L S (set_kstacks (<[b := s']> (kstacks k)) k).
Proof.
  intros [[] ? ? ? ? ? ?] Hb Hlen. split; try done. split; try done; [by destruct ki_sched|]. cbn [kstacks set_kstacks procs]. intros q y Hy Hst.
  destruct (ki_stack q y Hy Hst) as [HL (r & Hr & Hr')]. split; [done|].
  destruct (decide (p_kernel_stack y = b)) as [E|Hne].
  { rewrite E in Hr |- *. rewrite lookup_insert_eq. exists s'. split; [done|]. congruence. }
  rewrite lookup_insert_ne by done. eauto.
Qed.

Lemma bd_write c P x L S k st off w : building c P x L S k -> p_kernel_stack x = st -> st <> 0 -> 0 <= off -> off + 4 <= 8192 ->
  wp (stack_write st off w) (fun _ k' => building c P x L S k') k.
Proof.
  intros Hb <- H0 Ho1 Ho2. destruct (ki_stack _ _ _ _ _ _ _ (bd_inv _ _ _ _ _ _ Hb) c x (bd_lookup _ _ _ _ _ _ Hb) H0) as [_ (s & Hs & Hl)].
  assert (Z.of_nat (length s) = 8192) as Hz by (rewrite Hl; by vm_compute).
  unfold stack_write. apply wp_bind, wp_gets. cbn [id]. rewrite Hs.
  eapply wp_bind_ok; [apply copy_in_ok; [lia|rewrite length_le32, Hz; lia]|]. apply wp_modify. eapply bd_stacks; [exact Hb|exact Hs|].
  apply length_splice; rewrite ?length_le32, ?Hz; lia.
Qed.

(** ** Beginning and end *)

Lemma kinv_kmem U k L S m : kinv U L0 k C Qs L S -> km_rep m L -> kinv U L0 (set_kmem m k) C Qs L S.
Proof. intros [] Hm. split; try done. by destruct ki_sched. Qed.

Lemma kmalloc_k_ok k L n : km_rep (kmem k) L -> 0 < n < 4294967296 ->
  exists p m, kmalloc_k n k = Ok (p, set_kmem m k) /\
    ((p = 0 /\ km_rep m L) \/ (0 < p /\ L !! p = None /\ km_rep m (<[p := n]> L))).
Proof.
  intros Hr Hn. destruct (kmalloc_spec _ _ _ Hr Hn) as (p & m & E & Hc). exists p, m. split; [unfold kmalloc_k, zoom; by rewrite E|].
  destruct Hc as [?|(? & _ & ? & _ & ?)]; [by left|by right].
Qed.

Lemma process_zero_ok p : proc_ok p process_zero.
Proof.
  split; try done.
  - split; [done|]. by left.
  - split; [done|]. by left.
  - intros e He. by apply not_elem_of_nil in He.
Qed.

Lemma unused k L S U p : kinv U L0 k C Qs L S -> 0 < p -> L !! p = None ->
  procs k !! p = None /\ (p ∉ mjoin Qs) /\ p <> c_current C /\ p <> c_idle_proc C.
Proof.
  intros Hk Hp HL. assert (procs k !! p = None) as Hn.
  { destruct (procs k !! p) as [y|] eqn:E; [|done]. destruct (ki_obj _ _ _ _ _ _ _ Hk p y E) as [->|?]; [done|congruence]. }
  pose proof (ki_sched _ _ _ _ _ _ _ Hk) as Hs. split; [done|]. split_and!.
  - intros (l & Hl & [q Hq]%list_elem_of_lookup)%list_elem_of_join. destruct (rq_queue _ _ _ (si_rq _ _ _ Hs) q l p Hq Hl) as (y & Hy & _). congruence.
  - intros ->. destruct (si_current _ _ _ Hs) as [?|[y Hy]]; [lia|congruence].
  - intros ->. destruct (si_idle _ _ _ Hs) as [?|[[y Hy] _]]; [lia|congruence].
Qed.

Lemma start_ok k L S : kinv ∅ L0 k C Qs L S ->
  wp new_process (fun p k' => (p = 0 /\ kinv ∅ L0 k' C Qs L S /\ procs k' = procs k /\ next_pid k' = next_pid k) \/
    (building p (procs k) process_zero (<[p := PROCESS_SIZE]> L) S k' /\ next_pid k' = next_pid k /\ kstacks k' = kstacks k)) k.
Proof.
  intros Hk. unfold new_process. destruct (kmalloc_k_ok k L PROCESS_SIZE (ki_rep _ _ _ _ _ _ _ Hk)) as (p & m & E & Hc); [done|].
  eapply wp_bind_ok; [exact E|]. destruct Hc as [[-> Hm]|(Hp & HL & Hm)].
  { apply wp_ret. left. split; [done|]. split; [by apply kinv_kmem|done]. }
  rewrite (proj2 (Z.eqb_neq p 0)) by lia. apply wp_bind, wp_modify, wp_ret. right. split; [|done].
  destruct (unused _ _ _ _ _ Hk Hp HL) as (Hn & Hq & Hc & Hi). assert (p <> KERNEL_PROC) as HpK by (intros ->; done).
  split; [|done|done|split; [lia|done]|done|done|done]. set (k' := set_procs _ _).
  assert (forall q y, procs k' !! q = Some y <-> (q = p /\ y = process_zero) \/ (q <> p /\ procs k !! q = Some y)) as Hl.
  { intros q y. cbn. rewrite lookup_insert_Some. naive_solver. }
  pose proof (sched_unqueued k p process_zero (ki_sched _ _ _ _ _ _ _ Hk) ltac:(lia) Hq ltac:(done) eq_refl) as Hs.
  destruct Hk. split; try done.
  - by destruct Hs.
  - intros q Hq0. change (table k') with (table k). rewrite <- ki_live by done. cbn. rewrite lookup_insert_is_Some. destruct (decide (p = q)) as [->|]; [|set_solver].
    rewrite Hn. split; [set_solver|]. intros [[? ?] _]. done.
  - intros q y [[-> _]|[_ Hy]]%Hl HqU; [set_solver|]. by apply ki_pid.
  - intros q y [[-> _]|[_ Hy]]%Hl HqU; [set_solver|]. by apply ki_ppid.
  - intros y [[? _]|[_ Hy]]%Hl; [done|by apply ki_kpid].
  - intros pid q. change (pid_ht k') with (pid_ht k). rewrite ki_ht. split; intros (y & Hy & ? & HqU).
    + exists y. assert (q <> p) by (intros ->; congruence). split; [apply Hl; by right|]. split; [done|set_solver].
    + apply Hl in Hy as [[-> _]|[_ Hy]]; [set_solver|]. exists y. split; [done|]. split; [done|set_solver].
  - intros q y [[-> _]|[Hne Hy]]%Hl; [right; apply lookup_insert_eq|]. destruct (ki_obj q y Hy); [by left|right]. by rewrite lookup_insert_ne.
  - intros q y [[-> ->]|[Hne Hy]]%Hl Hst; [done|]. destruct (ki_stack q y Hy Hst) as [HL' ?]. split; [|done].
    rewrite lookup_insert_ne; [done|]. intros ->. congruence.
  - intros q r y z [[-> ->]|[Hne Hy]]%Hl [[-> ->]|[Hne' Hz]]%Hl Hst E'; [done|done|by rewrite E' in Hst|by apply (ki_stack_inj q r y z)].
  - intros a n [[<- <-]|[Hne Ha]]%lookup_insert_Some; [right; left; exists process_zero; apply Hl; by left|].
    destruct (ki_owned a n Ha) as [?|[[y Hy]|(q & y & Hy & <-)]]; [by left|right; left|right; right].
    + exists y. apply Hl. right. split; [done|done].
    + exists q, y. split; [apply Hl; right; split; [intros ->; congruence|done]|done].
  - intros a n Ha. destruct (ki_others a n Ha) as (HL' & Hna & Hst). assert (a <> p) by congruence. split_and!.
    + by rewrite lookup_insert_ne.
    + cbn. by rewrite lookup_insert_ne.
    + intros q y [[-> ->]|[_ Hy]]%Hl; [|by apply (Hst q)]. intros E'. cbn in E'. subst a. by rewrite (km_no_null _ _ ki_rep) in HL'.
  - intros q y [[-> ->]|[_ Hy]]%Hl Hm'; [done|by apply (ki_mem q)].
  - intros q r y z [[-> ->]|[Hne Hy]]%Hl [[-> ->]|[Hne' Hz]]%Hl Hst E'; [done|done|by rewrite E' in Hst|by apply (ki_mem_inj q r y z)].
  - intros m' Hm'. destruct (ki_mem_owned m' Hm') as (q & y & Hy & <-). exists q, y. split; [apply Hl; right; split; [intros ->; congruence|done]|done].
  - intros q y [[-> ->]|[_ Hy]]%Hl; [done|by apply ki_zombie].
  - intros q y [[-> ->]|[_ Hy]]%Hl; [apply process_zero_ok|by apply ki_shape].
Qed.

(** The kernel stack: when there is no memory the address stays 0. *)
Lemma bd_stack c P x L S k junk : building c P x L S k -> p_kernel_stack x = 0 -> length junk = 8192%nat ->
  exists st k1 L', new_stack junk k = Ok (st, k1) /\ procs k1 = procs k /\ next_pid k1 = next_pid k /\
    (st <> 0 -> kstacks k1 = <[st := junk]> (kstacks k)) /\
    updp c (set_kernel_stack st) k1 = Ok (tt, set_procs (<[c := set_kernel_stack st x]> P) k1) /\
    building c P (set_kernel_stack st x) L' S (set_procs (<[c := set_kernel_stack st x]> P) k1).
Proof.
  intros Hb Hst Hj. pose proof (bd_inv _ _ _ _ _ _ Hb) as Hk. pose proof (bd_lookup _ _ _ _ _ _ Hb) as Hx.
  destruct (kmalloc_k_ok k L KERNEL_STACK_SIZE (ki_rep _ _ _ _ _ _ _ Hk)) as (st & m & E & Hc); [done|]. unfold new_stack.
  rewrite (bind_ok _ _ _ _ _ E). assert (forall k1, procs k1 = procs k -> updp c (set_kernel_stack st) k1 =
    Ok (tt, set_procs (<[c := set_kernel_stack st x]> P) k1)) as Hupd.
  { intros k1 Ek. rewrite (updp_ok k1 c _ x) by (by rewrite Ek). by rewrite Ek, (bd_procs _ _ _ _ _ _ Hb), insert_insert_eq. }
  destruct Hc as [[-> Hm]|(Hp & HL & Hm)].
  - exists 0, (set_kmem m k), L. split; [done|]. split; [done|]. split; [done|]. split; [done|]. split; [by apply Hupd|].
    eapply (bd_change c P x); [exact Hb| |done|done|done|by intros []|apply Hb].
    replace (set_procs _ _) with (set_procs (<[c := set_kernel_stack 0 x]> P) (set_next_pid (next_pid k) (set_kstacks (kstacks k)
      (set_kspaces (kspaces k) (set_kmem m k))))) by (by destruct k). eapply bd_step_same; try done; [|apply Hk|by eauto].
    pose proof (ki_next _ _ _ _ _ _ _ Hk). lia.
  - rewrite (proj2 (Z.eqb_neq st 0)) by lia. rewrite bind_modify. set (k1 := set_kstacks _ _).
    exists st, k1, (<[st := KERNEL_STACK_SIZE]> L). split; [done|]. split; [done|]. split; [done|]. split; [done|]. split; [by apply Hupd|].
    eapply (bd_change c P x); [exact Hb| |done|done|done|by intros []|apply Hb]. split; try done.
    + pose proof (ki_next _ _ _ _ _ _ _ Hk). cbn. lia.
    + intros a n. cbn. rewrite lookup_insert_Some. split; [intros [[<- <-]|[? ?]]; [right; split; [done|]; split; [lia|done]|by left]|].
      intros [Ha|(-> & _ & ->)]; [|by left]. right. split; [congruence|done].
    + right. done.
    + intros a s0 Ha Hl. cbn [kstacks k1 set_kstacks set_procs set_kmem]. destruct (decide (st = a)) as [->|]; [rewrite lookup_insert_eq; eauto|].
      rewrite lookup_insert_ne by done. eauto.
    + intros _. exists junk. split; [apply lookup_insert_eq|done].
    + apply Hk.
    + intros r. split; [by left|]. intros [?|(-> & H0)]; [done|]. by apply (ki_mem _ _ _ _ _ _ _ Hk c x).
    + by left.
Qed.

(** An address space that was created or cloned. *)
Lemma bd_space c P x L S k m a : building c P x L S k -> p_memory x = 0 ->
  (m = 0 /\ sp_rep a S) \/ (m <> 0 /\ m ∉ S /\ sp_rep a ({[m]} ∪ S)) ->
  exists S', updp c (set_memory m) (set_kspaces a k) = Ok (tt, set_procs (<[c := set_memory m x]> P) (set_kspaces a k)) /\
    building c P (set_memory m x) L S' (set_procs (<[c := set_memory m x]> P) (set_kspaces a k)).
Proof.
  intros Hb Hm Hc. pose proof (bd_inv _ _ _ _ _ _ Hb) as Hk. pose proof (bd_lookup _ _ _ _ _ _ Hb) as Hx.
  assert (updp c (set_memory m) (set_kspaces a k) = Ok (tt, set_procs (<[c := set_memory m x]> P) (set_kspaces a k))) as Hupd.
  { rewrite (updp_ok (set_kspaces a k) c _ x Hx). cbn. by rewrite (bd_procs _ _ _ _ _ _ Hb), insert_insert_eq. }
  exists (if decide (m = 0) then S else {[m]} ∪ S). split; [done|].
  eapply (bd_change c P x); [exact Hb| |done|done|done|by intros []|apply Hb]. split; try done.
  - pose proof (ki_next _ _ _ _ _ _ _ Hk). cbn. lia.
  - apply Hk.
  - intros b n. split; [by left|]. intros [?|(-> & H0 & ->)]; [done|]. by apply (ki_stack _ _ _ _ _ _ _ Hk c x).
  - by left.
  - intros b s0 ? ?. eauto.
  - intros H0. by apply (ki_stack _ _ _ _ _ _ _ Hk c x Hx H0).
  - case_decide; destruct Hc as [[? ?]|(? & ? & ?)]; done.
  - intros r. cbn. case_decide; set_solver.
  - destruct Hc as [[-> _]|(? & ? & _)]; [left; by rewrite Hm|by right].
Qed.

(** A change of another process that keeps what the invariant mentions. *)
Lemma bd_neighbour c P x L S k q y y' : building c P x L S k -> P !! q = Some y -> links y' = links y -> agrees y y' ->
  p_state y' = p_state y -> (proc_ok q y -> proc_ok q y') ->
  building c (<[q := y']> P) x L S (set_procs (<[q := y']> (procs k)) k).
Proof.
  intros Hb Hy Hl Ha Hz Hok. destruct (bd_other _ _ _ _ _ _ _ _ Hb Hy) as [Hne Hy']. pose proof (bd_inv _ _ _ _ _ _ Hb) as Hk.
  destruct Hb as [_ Hp Hn Had Ho Hst Hcpu]. split; try done.
  - eapply kinv_upd; [done|exact Hy'| |done|done|by rewrite Hz]. eapply sched_inv_links; [| | |apply Hk]; try done. intros r. cbn.
    destruct (decide (q = r)) as [<-|]; [by rewrite lookup_insert_eq, Hy'; cbn; rewrite Hl|by rewrite lookup_insert_ne].
  - cbn. by rewrite Hp, insert_insert_ne by done.
  - by rewrite lookup_insert_ne.
Qed.

(** Giving up: the new process, its stack and its address space are freed. *)
Lemma bd_cleanup c P x L S k : building c P x L S k ->
  exists k' L' S', fork_cleanup c k = Ok (tt, k') /\ kinv ∅ L0 k' C Qs L' S' /\ procs k' = P /\ next_pid k' = next_pid k.
Proof.
  intros Hb. pose proof (bd_inv _ _ _ _ _ _ Hb) as Hk. pose proof (bd_lookup _ _ _ _ _ _ Hb) as Hx.
  destruct (bd_addr _ _ _ _ _ _ Hb) as [Hc0 HcK]. destruct (bd_out _ _ _ _ _ _ Hb) as (Hq & Hcc & Hci).
  unfold fork_cleanup. rewrite (bind_ok _ _ _ _ _ (getp_ok k c x Hx)).
  assert (exists a, (if negb (p_memory x =? 0) then on_spaces (as_destroy (p_memory x)) else ret tt) k = Ok (tt, set_kspaces a k) /\
      sp_rep a (S ∖ {[p_memory x]})) as (a & E1 & Ha).
  { destruct (Z.eqb_spec (p_memory x) 0) as [E|E]; cbn [negb]; [|apply destroy_ok; [apply Hk|by apply (ki_mem _ _ _ _ _ _ _ Hk c)]].
    exists (kspaces k). split; [by destruct k|]. rewrite E. replace (S ∖ {[0]}) with S by (pose proof (ki_mem_null _ _ _ _ _ _ _ Hk); set_solver).
    apply Hk. }
  rewrite (bind_ok _ _ _ _ _ E1). set (k1 := set_kspaces a k).
  assert (exists m K, (if negb (p_kernel_stack x =? 0) then free_stack (p_kernel_stack x) else ret tt) k1 =
      Ok (tt, set_kstacks K (set_kmem m k1)) /\ km_rep m (delete (p_kernel_stack x) L) /\
      forall b, b <> p_kernel_stack x -> K !! b = kstacks k !! b) as (m & K & E2 & Hm & HK).
  { destruct (Z.eqb_spec (p_kernel_stack x) 0) as [E|E]; cbn [negb].
    - exists (kmem k), (kstacks k). split; [by destruct k|]. split; [|done]. rewrite E, delete_id; [apply Hk|eapply km_no_null, Hk].
    - destruct (kfree_k_ok k1 L (p_kernel_stack x) KERNEL_STACK_SIZE (ki_rep _ _ _ _ _ _ _ Hk)) as (m & E3 & Hm); [by apply (ki_stack _ _ _ _ _ _ _ Hk c)|].
      exists m, (delete (p_kernel_stack x) (kstacks k)). unfold free_stack. rewrite (bind_ok _ _ _ _ _ E3). split; [done|]. split; [done|].
      intros b Hb'. by rewrite lookup_delete_ne. }
  rewrite (bind_ok _ _ _ _ _ E2). set (k2 := set_kstacks _ _). destruct (ki_obj _ _ _ _ _ _ _ Hk c x Hx) as [?|HLc]; [done|].
  assert (delete (p_kernel_stack x) L !! c = Some PROCESS_SIZE) as HLc'.
  { rewrite lookup_delete_ne; [done|]. intros E. destruct (ki_stack _ _ _ _ _ _ _ Hk c x Hx) as [HLs _]; [congruence|]. rewrite E, HLc in HLs. discriminate. }
  destruct (kfree_k_ok k2 _ c _ Hm HLc') as (m3 & E3 & Hm3). unfold free_process. rewrite (bind_ok _ _ _ _ _ E3).
  eexists _, (delete c (delete (p_kernel_stack x) L)), (S ∖ {[p_memory x]}). split; [done|]. split; [|split; [|done]].
  - replace ∅ with ({[c]} ∖ {[c]} : gset Z) by set_solver. eapply (kinv_drop L0 {[c]} k); [done|exact Hx|done|done|done|done|].
    split; try done; try apply Hk.
    + intros q Hq0. split; [|tauto]. intros Hqt. split; [done|]. intros ->. apply (ki_live _ _ _ _ _ _ _ Hk c Hc0) in Hqt as [_ Hqt]. set_solver.
    + intros pid q. split; [|tauto]. intros Hqt. split; [done|]. intros ->. apply (ki_ht _ _ _ _ _ _ _ Hk) in Hqt as (_ & _ & _ & Hqt). set_solver.
    + intros b n. rewrite !lookup_delete_Some. naive_solver.
    + set_solver.
  - cbn. rewrite (bd_procs _ _ _ _ _ _ Hb). apply delete_insert_id, Hb.
Qed.

Lemma find_slot_ok U k L S : kinv U L0 k C Qs L S ->
  exists r, find_slot k = Ok (r, k) /\ (r = -1 \/ exists i : nat, r = Z.of_nat i /\ (1 <= i)%nat /\ table k !! i = Some 0).
Proof.
  intros Hk. pose proof (ki_len _ _ _ _ _ _ _ Hk) as Hlen. unfold find_slot.
  assert (forall n (j : nat), (j + n = 128)%nat -> (1 <= j)%nat -> exists o, for_until n (Z.of_nat j) (fun i => k ← gets id; q ← rd (table k) i;
      ret (if q =? 0 then Some i else None)) k = Ok (o, k) /\
      (o = None \/ exists i : nat, o = Some (Z.of_nat i) /\ (1 <= i)%nat /\ table k !! i = Some 0)) as Hloop.
  { induction n as [|n IH]; intros j Hj H1; [exists None; split; [done|by left]|]. cbn [for_until].
    destruct (lookup_lt_is_Some_2 (table k) j ltac:(lia)) as [q Hq]. rewrite bind_assoc, bind_gets, bind_assoc. unfold id.
    rewrite (bind_ok _ _ _ _ _ (rd_ok (table k) (Z.of_nat j) q k ltac:(lia) ltac:(by rewrite Nat2Z.id))), bind_ret.
    destruct (Z.eqb_spec q 0) as [->|]; [exists (Some (Z.of_nat j)); split; [done|right; eauto]|].
    replace (Z.of_nat j + 1) with (Z.of_nat (Datatypes.S j)) by lia. apply IH; lia. }
  destruct (Hloop 127%nat 1%nat eq_refl ltac:(lia)) as (o & E & Ho). exists (default (-1) o). split.
  - by rewrite (bind_ok _ _ _ _ _ (E : for_until (Z.to_nat (MAX_PROCESSES_CONST - 1)) 1 _ k = _)).
  - destruct Ho as [->|(i & -> & ?)]; [by left|right; eauto].
Qed.

(** A slot filled. *)
Lemma table_fill U k L S (i : nat) p : kinv U L0 k C Qs L S -> p <> 0 -> p ∉ table k -> (1 <= i)%nat -> table k !! i = Some 0 ->
  let t := <[i := p]> (table k) in
  length t = 128%nat /\ t !! 0%nat = Some KERNEL_PROC /\
  (forall (a b : nat) q, q <> 0 -> t !! a = Some q -> t !! b = Some q -> a = b) /\
  (forall q, q <> 0 -> q ∈ t <-> q ∈ table k \/ q = p).
Proof.
  intros Hk Hp0 Hp Hi1 Hi t. pose proof (lookup_lt_Some _ _ _ Hi) as Hlt.
  assert (forall a q, q <> 0 -> t !! a = Some q <-> (table k !! a = Some q \/ (a = i /\ q = p))) as Ht.
  { intros a q Hq. unfold t. rewrite list_lookup_insert_Some. split; [naive_solver|]. intros [Ha|[-> ->]]; [right|by left].
    split; [|done]. intros ->. congruence. }
  assert (forall a, table k !! a <> Some p) as Hnp by (intros a Ha; apply Hp; by eapply list_elem_of_lookup_2).
  split; [unfold t; rewrite length_insert; apply Hk|]. split; [apply Ht; [done|]; left; apply Hk|]. split.
  - intros a b q Hq [Ha|[-> ->]]%Ht [Hb|[-> E]]%Ht; try done; [by eapply (ki_slots _ _ _ _ _ _ _ Hk)|subst q; by apply Hnp in Ha|by apply Hnp in Hb].
  - intros q Hq. rewrite !list_elem_of_lookup. split; [intros [a [Ha|[-> ->]]%Ht]; eauto|]. intros [[a Ha]| -> ]; [exists a|exists i]; apply Ht; eauto.
Qed.

(** The end: the table and the hash name the new process. *)
Lemma kinv_publish c P x L S k (i : nat) : building c P x L S k -> (1 <= i)%nat -> table k !! i = Some 0 ->
  0 < p_pid x < next_pid k -> p_ppid x <> p_pid x -> (forall q y, P !! q = Some y -> p_pid y <> p_pid x) ->
  kinv ∅ L0 (set_ht (<[p_pid x := c]> (pid_ht k)) (set_ptable (<[i := c]> (table k)) k)) C Qs L S.
Proof.
  intros Hb Hi1 Hi Hpid Hpp Hfresh. pose proof (bd_inv _ _ _ _ _ _ Hb) as Hk. pose proof (bd_lookup _ _ _ _ _ _ Hb) as Hx.
  destruct (bd_addr _ _ _ _ _ _ Hb) as [Hc0 HcK].
  assert (c ∉ table k) as Hct by (intros [_ Hc]%(ki_live _ _ _ _ _ _ _ Hk); [set_solver|done]).
  destruct (table_fill _ _ _ _ i c Hk Hc0 Hct Hi1 Hi) as (T1 & T2 & T3 & T4).
  assert (forall q y, procs k !! q = Some y -> q <> c -> p_pid y <> p_pid x) as Hother.
  { intros q y Hy Hne. rewrite (bd_procs _ _ _ _ _ _ Hb), lookup_insert_ne in Hy by done. by eapply Hfresh. }
  destruct Hk. split; cbn [procs set_ht set_ptable table pid_ht next_pid]; try done.
  - by destruct ki_sched.
  - intros q Hq0. rewrite T4, <- ki_live by done. destruct (decide (q = c)) as [->|]; [rewrite Hx; naive_solver|]. set_solver.
  - intros q y Hy _. destruct (decide (q = c)) as [->|Hne]; [simplify_eq; lia|]. apply ki_pid; [done|set_solver].
  - intros q y Hy _ HqK. destruct (decide (q = c)) as [->|Hne]; [by simplify_eq|]. apply (ki_ppid q); [done|set_solver|done].
  - intros pid q. rewrite lookup_insert_Some, ki_ht. split.
    + intros [[<- <-]|[Hne (y & Hy & <- & _)]]; [by exists x|by exists y].
    + intros (y & Hy & <- & _). destruct (decide (q = c)) as [->|Hne]; [left; by simplify_eq|]. right.
      split; [intros E; by apply (Hother q y)|]. exists y. split; [done|]. split; [done|set_solver].
Qed.

Lemma ht_insert_new c P x L S k t : building c P x L S k -> 0 < p_pid x < next_pid k -> (forall q y, P !! q = Some y -> p_pid y <> p_pid x) ->
  ht_insert (p_pid x) c (set_ptable t k) = Ok (tt, set_ht (<[p_pid x := c]> (pid_ht k)) (set_ptable t k)).
Proof.
  intros Hb Hpid Hfresh. pose proof (bd_inv _ _ _ _ _ _ Hb) as Hk. pose proof (ki_next _ _ _ _ _ _ _ Hk). unfold ht_insert, modify.
  rewrite u32_id by (unfold is_u32; lia). cbn [pid_ht set_ptable]. rewrite decide_True; [done|]. destruct (pid_ht k !! p_pid x) as [q|] eqn:E; [|done].
  apply (ki_ht _ _ _ _ _ _ _ Hk) in E as (y & Hy & Ey & Hq). rewrite (bd_procs _ _ _ _ _ _ Hb), lookup_insert_ne in Hy by set_solver.
  by apply Hfresh in Hy.
Qed.

End Fork.
