(* ===== verification/LifeFork.v ===== *)
(** * fork(2)

    [sys_fork] returns from every state that satisfies the invariant of
    LifeInv and keeps it: on success with the child in the table, in the hash
    and in the highest run queue, otherwise with every resource of the child
    given back.  [fork_child] is the child in terms of its parent. *)

From stdpp Require Import base tactics numbers list gmap.
From S2P Require Import Prelude Kstring Fd Alloc Block Proc Sched SchedFrame SchedProofs SchedSpec SchedSwitch SchedRun.
From S2P Require Import Signal ProcCalls LifeInv LifeSignal LifeEnd LifeBuild.

(** A descriptor of the child, and the parent's after the fork. *)
Definition fd_used (e : proc_fd) : bool := negb (of_idx e =? 0) || negb (fd_flags e =? 0).

Definition fd_of_child (e : proc_fd) : proc_fd :=
  if fd_used e then ProcFd (of_idx e) (fd_offset e) (fd_flags e) 1 else e.

Definition fd_of_parent (e : proc_fd) : proc_fd :=
  if fd_used e then ProcFd (of_idx e) (fd_offset e) (fd_flags e) (s32 (fd_refcount e + 1)) else e.

(** The first [i] entries of [T], changed, before the rest of [Z]. *)
Definition upto {B} (f : B -> B) (T R : list B) (i : nat) : list B := (f <$> take i T) ++ drop i R.

Lemma upto_insert {B} (f : B -> B) T R i e v : T !! i = Some e -> length R = length T ->
  <[i := v]> (upto f T R i) = (f <$> take i T) ++ v :: drop (Datatypes.S i) R.
Proof.
  intros He Hl. pose proof (lookup_lt_Some _ _ _ He) as Hi. unfold upto.
  rewrite insert_app_r_alt by (rewrite length_fmap, length_take; lia). f_equal.
  rewrite length_fmap, length_take, Nat.min_l, Nat.sub_diag by lia.
  destruct (lookup_lt_is_Some_2 R i ltac:(lia)) as [r Hr]. by rewrite (drop_S _ _ _ Hr).
Qed.

Lemma upto_step {B} (f : B -> B) T R i e : T !! i = Some e -> length R = length T ->
  (f <$> take i T) ++ f e :: drop (Datatypes.S i) R = upto f T R (Datatypes.S i).
Proof. intros He Hl. unfold upto. rewrite (take_S_r _ _ _ He), fmap_app, <- app_assoc. done. Qed.

Lemma upto_again {B} (f : B -> B) T R i e v w : T !! i = Some e -> length R = length T ->
  <[i := w]> ((f <$> take i T) ++ v :: drop (Datatypes.S i) R) = (f <$> take i T) ++ w :: drop (Datatypes.S i) R.
Proof.
  intros He Hl. pose proof (lookup_lt_Some _ _ _ He) as Hi. rewrite insert_app_r_alt by (rewrite length_fmap, length_take; lia). f_equal.
  by rewrite length_fmap, length_take, Nat.min_l, Nat.sub_diag by lia.
Qed.

Lemma upto_length {B} (f : B -> B) T R i : length R = length T -> (i <= length T)%nat -> length (upto f T R i) = length T.
Proof. intros Hl Hi. unfold upto. rewrite length_app, length_fmap, length_take, length_drop. lia. Qed.

Lemma upto_none {B} (f : B -> B) T R : upto f T R 0 = R.
Proof. done. Qed.

Lemma upto_all {B} (f : B -> B) T R : length R = length T -> upto f T R (length T) = f <$> T.
Proof. intros Hl. unfold upto. rewrite take_ge, drop_ge, app_nil_r by lia. done. Qed.

Lemma upto_same {B} (f : B -> B) T i e : T !! i = Some e -> upto f T T i !! i = Some e.
Proof.
  intros He. pose proof (lookup_lt_Some _ _ _ He). unfold upto. rewrite lookup_app_r by (rewrite length_fmap, length_take; lia).
  rewrite length_fmap, length_take, Nat.min_l, Nat.sub_diag, lookup_drop, Nat.add_0_r by lia. done.
Qed.

Section Fork.
Context {M A : Type} {KM : Kmalloc M} {AS : AddressSpaces A} {UL : Userland A} {SL : SpacesLaws A}.
Variables (L0 : gmap Z Z) (C : cpu) (Qs : list (list Z)).
Implicit Types k : kern M A.
Abbreviation building := (building L0 C Qs).

(** A copy of a string field keeps the buffer's size and a string in it. *)
Lemma strncpy_ok dst src n k : 0 ∈ src -> 0 < n <= Z.of_nat (length dst) ->
  exists d, strncpy_field dst src n k = Ok (d, k) /\ length d = length dst /\ 0 ∈ d /\ str_of d = take (Z.to_nat (n - 1)) (str_of src).
Proof.
  intros H0 Hn. destruct (kstrncpy_holds dst src _ n k (str_of_holds _ H0) Hn) as (d & E & Hl & Hd). exists d.
  unfold strncpy_field. rewrite (bind_ok _ _ _ _ _ E). split; [done|]. split; [done|]. split; [|by apply holds_str_of].
  destruct Hd as [_ (r & ->)]. apply elem_of_app. right. by left.
Qed.

Lemma str_of_short buf n : 0 ∈ buf -> (length buf <= n)%nat -> take (n - 1) (str_of buf) = str_of buf.
Proof. intros H0 Hl. pose proof (holds_length _ _ (str_of_holds _ H0)). apply take_ge. lia. Qed.

(** What the child takes before [sys_fork] can fail. *)
Definition taken (x : process) (n : Z) (c : process) : process :=
  set_umask (p_umask x) (set_signal_mask (p_signal_mask x) (set_time_slice (p_time_slice x)
    (set_priority (p_priority x) (set_state PROCESS_READY (set_gid (p_gid x) (set_uid (p_uid x)
      (set_ppid (p_pid x) (set_pid n c)))))))).

Lemma strings_ok c P z L S k nm cwd : building c P z L S k -> length nm = 16%nat -> 0 ∈ nm -> length cwd = 256%nat -> 0 ∈ cwd ->
  updp c (fun c => set_cwd cwd (set_name nm c)) k = Ok (tt, set_procs (<[c := set_cwd cwd (set_name nm z)]> P) k) /\
  building c P (set_cwd cwd (set_name nm z)) L S (set_procs (<[c := set_cwd cwd (set_name nm z)]> P) k).
Proof. intros Hb L3 Z3 L4 Z4. apply (bd_updp _ _ _ c P z L S k (fun c => set_cwd cwd (set_name nm c)) Hb); [by intros ?|intros []; by split]. Qed.

Lemma fields_ok c P y L S k p x : building c P y L S k -> P !! p = Some x -> proc_ok p x -> 0 <= next_pid k < 2147483648 ->
  wp (fork_fields p c) (fun _ k' => exists nm cwd, building c P (set_cwd cwd (set_name nm (taken x (next_pid k) y))) L S k' /\
    next_pid k' = next_pid k + 1 /\ kstacks k' = kstacks k /\ str_of nm = str_of (p_name x) /\ str_of cwd = str_of (p_cwd x)) k.
Proof.
  intros Hb Hx [_ [Hn Hn0] [Hw Hw0] _ _] Hnext. unfold fork_fields.
  eapply (wp_bind_ok allocate_next_pid); [reflexivity|]. rewrite u32_id by (unfold is_u32; lia). rewrite s32_small by lia.
  pose proof (bd_next _ _ _ _ _ _ _ _ _ (next_pid k + 1) Hb ltac:(lia)) as Hb1. set (k1 := set_next_pid _ k) in *.
  eapply wp_bind_ok; [apply getp_ok, (bd_other _ _ _ _ _ _ _ _ _ _ _ Hb1 Hx)|].
  destruct (bd_updp _ _ _ c P y L S k1 (taken x (next_pid k)) Hb1) as [E2 Hb2]; [by intros z|by intros []|].
  eapply wp_bind_ok; [exact E2|]. set (k2 := set_procs _ k1) in *. eapply wp_bind_ok; [apply getp_ok, (bd_lookup _ _ _ _ _ _ _ _ _ Hb2)|].
  destruct (ki_shape _ _ _ _ _ _ _ (bd_inv _ _ _ _ _ _ _ _ _ Hb2) c _ (bd_lookup _ _ _ _ _ _ _ _ _ Hb2)) as [_ [Hl1 _] [Hl2 _] _ _].
  destruct (strncpy_ok _ (p_name x) 16 k2 Hn0 (ltac:(by rewrite Hl1) : 0 < 16 <= Z.of_nat (length (p_name (taken x (next_pid k) y)))))
    as (nm & E3 & L3 & Z3 & S3). eapply wp_bind_ok; [exact E3|].
  destruct (strncpy_ok _ (p_cwd x) 256 k2 Hw0 (ltac:(by rewrite Hl2) : 0 < 256 <= Z.of_nat (length (p_cwd (taken x (next_pid k) y)))))
    as (cwd & E4 & L4 & Z4 & S4). eapply wp_bind_ok; [exact E4|].
  destruct (strings_ok _ _ _ _ _ _ nm cwd Hb2) as [E5 Hb5]; [by rewrite L3|done|by rewrite L4|done|].
  eapply wp_ok; [exact E5|]. exists nm, cwd. split; [exact Hb5|]. split; [done|]. split; [done|].
  rewrite S3, S4. split; [apply (str_of_short _ 16)|apply (str_of_short _ 256)]; rewrite ?Hn, ?Hw; done.
Qed.

(** ** The kernel stack *)

(** The bytes with a word written. *)
Definition poke (s : list Z) (off w : Z) : list Z := splice s off (le32 w).

Lemma length_poke s off w : 0 <= off -> off + 4 <= 8192 -> length s = 8192%nat -> length (poke s off w) = 8192%nat.
Proof.
  intros H1 H2 Hl. assert (Z.of_nat (length s) = 8192) as Hz by (rewrite Hl; by vm_compute).
  unfold poke. rewrite length_splice; [done|done|rewrite length_le32, Hz; lia].
Qed.

Lemma poke_ok k st s off w : kstacks k !! st = Some s -> length s = 8192%nat -> 0 <= off -> off + 4 <= 8192 ->
  stack_write st off w k = Ok (tt, set_kstacks (<[st := poke s off w]> (kstacks k)) k).
Proof.
  intros Hs Hl H1 H2. unfold stack_write. rewrite bind_gets. unfold id. rewrite Hs.
  assert (Z.of_nat (length s) = 8192) as Hz by (rewrite Hl; by vm_compute).
  rewrite (bind_ok _ _ _ _ _ (copy_in_ok s off (le32 w) k H1 ltac:(rewrite length_le32, Hz; lia))). done.
Qed.

Lemma bd_poke c P x L S k s off w : building c P x L S k -> kstacks k !! p_kernel_stack x = Some s -> length s = 8192%nat ->
  0 <= off -> off + 4 <= 8192 ->
  exists k', stack_write (p_kernel_stack x) off w k = Ok (tt, k') /\ building c P x L S k' /\ next_pid k' = next_pid k /\
    kstacks k' !! p_kernel_stack x = Some (poke s off w) /\ length (poke s off w) = 8192%nat.
Proof.
  intros Hb Hs Hl H1 H2. eexists. split; [by apply poke_ok|]. pose proof (length_poke s off w H1 H2 Hl) as Hl'.
  split; [eapply bd_stacks; [exact Hb|exact Hs|congruence]|]. split; [done|]. split; [apply lookup_insert_eq|done].
Qed.

(** The canary of the process with this pid. *)
Definition canary_of (pid lo : Z) : Z := u32 (Z.lxor (Z.lxor STACK_CANARY_PROCESS_MAGIC (u32 pid)) lo).

Lemma canary_ok c P x L S k s lo : building c P x L S k -> p_kernel_stack x <> 0 -> kstacks k !! p_kernel_stack x = Some s ->
  length s = 8192%nat ->
  exists k', process_init_canary c lo k = Ok (tt, k') /\ building c P (set_canary (canary_of (p_pid x) lo) x) L S k' /\
    next_pid k' = next_pid k /\ kstacks k' !! p_kernel_stack x = Some (poke s 0 (canary_of (p_pid x) lo)) /\
    length (poke s 0 (canary_of (p_pid x) lo)) = 8192%nat.
Proof.
  intros Hb H0 Hs Hl. unfold process_init_canary. destruct (bd_addr _ _ _ _ _ _ _ _ _ Hb) as [Hc0 _].
  rewrite (proj2 (Z.eqb_neq c 0) Hc0), (bind_ok _ _ _ _ _ (getp_ok k c x (bd_lookup _ _ _ _ _ _ _ _ _ Hb))), (proj2 (Z.eqb_neq _ 0) H0).
  fold (canary_of (p_pid x) lo). destruct (bd_updp _ _ _ c P x L S k (set_canary (canary_of (p_pid x) lo)) Hb) as [E Hb1];
    [by intros ?|by intros []|]. rewrite (bind_ok _ _ _ _ _ E).
  destruct (bd_poke _ _ _ _ _ _ s 0 (canary_of (p_pid x) lo) Hb1 Hs Hl) as (k' & E' & Hb' & En & Hs' & Hl'); [done|done|]. by exists k'.
Qed.

(** Without memory for a stack the child keeps none. *)
Lemma stack_ok c P y L S k p x lo junk : building c P y L S k -> P !! p = Some x -> p_kernel_stack y = 0 -> p_kernel_stack x <> 0 ->
  length junk = 8192%nat ->
  wp (fork_stack p c lo junk) (fun b k' => exists L', next_pid k' = next_pid k /\
    ((b = false /\ building c P (set_kernel_stack 0 y) L' S k') \/
     (b = true /\ exists st s, st <> 0 /\ kstacks k !! p_kernel_stack x = Some s /\
        building c P (set_canary (canary_of (p_pid y) lo) (set_kernel_stack st y)) L' S k' /\
        kstacks k' !! st = Some (poke s 0 (canary_of (p_pid y) lo)) /\ length (poke s 0 (canary_of (p_pid y) lo)) = 8192%nat))) k.
Proof.
  intros Hb Hx Hy Hst Hj. destruct (bd_other _ _ _ _ _ _ _ _ _ _ _ Hb Hx) as [_ Hx']. unfold fork_stack.
  eapply wp_bind_ok; [by apply getp_ok|].
  destruct (bd_stack _ _ _ c P y L S k junk Hb Hy Hj) as (st & k1 & L' & E1 & Ep & En & Hk & E2 & Hb2).
  eapply wp_bind_ok; [exact E1|]. eapply wp_bind_ok; [exact E2|]. destruct (Z.eqb_spec st 0) as [->|H0]; [apply wp_ret; exists L'; eauto|].
  destruct (ki_stack _ _ _ _ _ _ _ (bd_inv _ _ _ _ _ _ _ _ _ Hb) p x Hx' Hst) as [HLx (s & Hs & Hl)].
  set (k2 := set_procs _ k1) in *. assert (kstacks k2 !! p_kernel_stack x = Some s) as Hs2.
  { change (kstacks k1 !! p_kernel_stack x = Some s). rewrite (Hk H0). destruct (decide (st = p_kernel_stack x)) as [E|E]; [|by rewrite lookup_insert_ne].
    exfalso. destruct (bd_other _ _ _ _ _ _ _ _ _ _ _ Hb2 Hx) as [Hne Hx2]. apply Hne.
    apply (ki_stack_inj _ _ _ _ _ _ _ (bd_inv _ _ _ _ _ _ _ _ _ Hb2) p c x (set_kernel_stack st y) Hx2 (bd_lookup _ _ _ _ _ _ _ _ _ Hb2) Hst). by rewrite <- E. }
  apply wp_bind, wp_gets. unfold id. rewrite Hs2. apply wp_bind, wp_modify.
  assert (building c P (set_kernel_stack st y) L' S (set_kstacks (<[st := s]> (kstacks k2)) k2)) as Hb3.
  { eapply (bd_stacks _ _ _ c P _ L' S k2 st junk); [exact Hb2| |congruence]. change (kstacks k1 !! st = Some junk). rewrite (Hk H0). apply lookup_insert_eq. }
  destruct (canary_ok _ _ _ _ _ _ s lo Hb3 H0) as (k4 & E4 & Hb4 & En4 & Hs4 & Hl4); [apply lookup_insert_eq|done|].
  eapply wp_bind_ok; [exact E4|]. apply wp_ret. exists L'. split; [by rewrite En4, <- En|]. right. split; [done|]. exists st, s. by split_and!.
Qed.

(** ** The saved registers *)

(** Where a call of fork may find its registers: nowhere, off the kernel stack,
    or with all of them on it. *)
Definition regs_fit (x : process) (regs : Z) : Prop :=
  let base := p_kernel_stack x in regs < base \/ base + KERNEL_STACK_SIZE <= regs \/ regs + REGS_SIZE <= base + KERNEL_STACK_SIZE.

(** They are rejected when they are not on the stack. *)
Definition regs_off (x : process) (regs : Z) : bool :=
  negb (regs =? 0) && ((regs <? p_kernel_stack x) || (u32 (p_kernel_stack x + KERNEL_STACK_SIZE) <=? regs)).

(** The context of the child and the bytes of its stack. *)
Definition child_context (ret_addr : Z) (x y : process) (regs : Z) : process_context :=
  if regs =? 0 then
    let r := p_context x in
    Context 0 (ebx r) (ecx r) (edx r) (esi r) (edi r) (ebp r) (esp r) (eip r) (eflags r) (cs r) (ds r) (es r) (fs r) (gs r) (ss r)
  else
    let r := p_context y in
    Context (eax r) (ebx r) (ecx r) (edx r) (esi r) (edi r) (ebp r) (u32 (p_kernel_stack y + (regs - p_kernel_stack x)))
      ret_addr 0x202 KERNEL_CODE_SEL KERNEL_DATA_SEL KERNEL_DATA_SEL KERNEL_DATA_SEL KERNEL_DATA_SEL KERNEL_DATA_SEL.

Definition child_stack (x : process) (regs : Z) (s : list Z) : list Z :=
  if regs =? 0 then s
  else
    let off := regs - p_kernel_stack x in
    poke (poke (poke (poke s (off + REGS_EAX) 0) (off + REGS_CS) USER_CODE_SEL) (off + REGS_SS) USER_DATA_SEL) (off + REGS_DS) USER_DATA_SEL.

Lemma context_ok c P y L S k r : building c P y L S k ->
  updp c (set_context r) k = Ok (tt, set_procs (<[c := set_context r y]> P) k) /\
  building c P (set_context r y) L S (set_procs (<[c := set_context r y]> P) k).
Proof. intros Hb. apply (bd_updp _ _ _ c P y L S k (set_context r) Hb); [by intros ?|by intros []]. Qed.

Lemma regs_ok c P y L S k p x ra regs s : building c P y L S k -> P !! p = Some x -> 0 < p_kernel_stack x -> regs_fit x regs ->
  kstacks k !! p_kernel_stack y = Some s -> length s = 8192%nat ->
  wp (fork_regs ra p c regs) (fun r k' => next_pid k' = next_pid k /\
    if regs_off x regs then r = - EINVAL /\ building c P y L S k'
    else r = 0 /\ building c P (set_context (child_context ra x y regs) y) L S k' /\
      kstacks k' !! p_kernel_stack y = Some (child_stack x regs s)) k.
Proof.
  intros Hb Hx Hpos Hfit Hs Hl. unfold fork_regs, regs_off, child_context, child_stack. destruct (bd_other _ _ _ _ _ _ _ _ _ _ _ Hb Hx) as [_ Hx'].
  eapply wp_bind_ok; [by apply getp_ok|]. eapply wp_bind_ok; [apply getp_ok, (bd_lookup _ _ _ _ _ _ _ _ _ Hb)|].
  destruct (Z.eqb_spec regs 0) as [->|Hr0]; cbn [negb andb].
  { match goal with |- context [set_context ?r] => destruct (context_ok c P y L S k r Hb) as [E Hb'] end.
    eapply wp_bind_ok; [exact E|]. apply wp_ret. by split_and!. }
  destruct ((regs <? _) || _) eqn:Eo; [by apply wp_ret|]. bool_case. set (off := regs - p_kernel_stack x).
  assert (0 <= off /\ off + 64 <= 8192) as [Ho1 Ho2].
  { unfold regs_fit in Hfit. cbv zeta in Hfit. unfold off, KERNEL_STACK_SIZE, REGS_SIZE in *. assert (u32 (p_kernel_stack x + 8192) <= p_kernel_stack x + 8192) by (apply Z.mod_le; lia). lia. }
  unfold REGS_EAX, REGS_CS, REGS_SS, REGS_DS.
  destruct (bd_poke _ _ _ _ _ _ _ (off + 32) 0 Hb Hs Hl) as (k1 & E1 & Hb1 & N1 & Hs1 & Hl1); [lia|lia|]. eapply wp_bind_ok; [exact E1|].
  destruct (bd_poke _ _ _ _ _ _ _ (off + 48) USER_CODE_SEL Hb1 Hs1 Hl1) as (k2 & E2 & Hb2 & N2 & Hs2 & Hl2); [lia|lia|]. eapply wp_bind_ok; [exact E2|].
  destruct (bd_poke _ _ _ _ _ _ _ (off + 60) USER_DATA_SEL Hb2 Hs2 Hl2) as (k3 & E3 & Hb3 & N3 & Hs3 & Hl3); [lia|lia|]. eapply wp_bind_ok; [exact E3|].
  destruct (bd_poke _ _ _ _ _ _ _ (off + 0) USER_DATA_SEL Hb3 Hs3 Hl3) as (k4 & E4 & Hb4 & N4 & Hs4 & Hl4); [lia|lia|]. eapply wp_bind_ok; [exact E4|].
  cbv zeta. match goal with |- context [set_context ?r] => destruct (context_ok c P y L S k4 r Hb4) as [E5 Hb5] end.
  eapply wp_bind_ok; [exact E5|]. apply wp_ret. split; [cbn; congruence|]. by split_and!.
Qed.

(** ** The descriptors *)

(** Neither the counter of pids nor a stack changes. *)
Definition aside k k' : Prop := next_pid k' = next_pid k /\ kstacks k' = kstacks k.

Lemma put_child c P y L S k (i : nat) e : building c P y L S k -> (i < 64)%nat ->
  exists k', put_fd c (Z.of_nat i) e k = Ok (tt, k') /\ building c P (set_fd_table (<[i := e]> (p_fd_table y)) y) L S k' /\ aside k k'.
Proof.
  intros Hb Hi. pose proof (bd_lookup _ _ _ _ _ _ _ _ _ Hb) as Hy. destruct (ki_shape _ _ _ _ _ _ _ (bd_inv _ _ _ _ _ _ _ _ _ Hb) c y Hy) as [_ _ _ Hl _].
  unfold put_fd. rewrite (bind_ok _ _ _ _ _ (getp_ok k c y Hy)).
  rewrite (bind_ok _ _ _ _ _ (wr_ok (p_fd_table y) (Z.of_nat i) e k ltac:(lia))), Nat2Z.id.
  destruct (bd_updp _ _ _ c P y L S k (set_fd_table (<[i := e]> (p_fd_table y))) Hb) as [E Hb'].
  - by intros ?.
  - intros [O1 O2 O3 _ O5]. split; try done. cbn. by rewrite length_insert.
  - eexists. split; [exact E|]. split; [exact Hb'|done].
Qed.

Lemma put_parent c P y L S k p x (i : nat) e : building c P y L S k -> P !! p = Some x -> (i < 64)%nat ->
  exists k', put_fd p (Z.of_nat i) e k = Ok (tt, k') /\
    building c (<[p := set_fd_table (<[i := e]> (p_fd_table x)) x]> P) y L S k' /\ aside k k'.
Proof.
  intros Hb Hx Hi. destruct (bd_other _ _ _ _ _ _ _ _ _ _ _ Hb Hx) as [Hne Hx'].
  destruct (ki_shape _ _ _ _ _ _ _ (bd_inv _ _ _ _ _ _ _ _ _ Hb) p x Hx') as [_ _ _ Hl _].
  unfold put_fd. rewrite (bind_ok _ _ _ _ _ (getp_ok k p x Hx')).
  rewrite (bind_ok _ _ _ _ _ (wr_ok (p_fd_table x) (Z.of_nat i) e k ltac:(lia))), Nat2Z.id.
  eexists. split; [apply (updp_ok k p (set_fd_table (<[i := e]> (p_fd_table x))) x Hx')|]. split; [|done].
  eapply (bd_neighbour _ _ _ c P y L S k p x); [done|done|done|done|done|]. intros [O1 O2 O3 _ O5]. split; try done. cbn. by rewrite length_insert.
Qed.

(** The descriptors below [i] are done. *)
Definition fds_done (c p : Z) P x y L S k0 (i : nat) k : Prop :=
  building c (<[p := set_fd_table (upto fd_of_parent (p_fd_table x) (p_fd_table x) i) x]> P)
    (set_fd_table (upto fd_of_child (p_fd_table x) (p_fd_table y) i) y) L S k /\ aside k0 k.

Lemma set_fd_twice t t' x : set_fd_table t (set_fd_table t' x) = set_fd_table t x.
Proof. done. Qed.

Lemma fd_step c p P x y L S k0 (i : nat) k : length (p_fd_table x) = 64%nat -> length (p_fd_table y) = 64%nat -> (i < 64)%nat ->
  fds_done c p P x y L S k0 i k -> wp (fork_fd p c (Z.of_nat i)) (fun _ k' => fds_done c p P x y L S k0 (Datatypes.S i) k') k.
Proof.
  intros Hlx Hly Hi [Hb Ha]. destruct (lookup_lt_is_Some_2 (p_fd_table x) i ltac:(lia)) as [e He].
  pose proof (lookup_insert_eq P p (set_fd_table (upto fd_of_parent (p_fd_table x) (p_fd_table x) i) x)) as Hp.
  destruct (bd_other _ _ _ _ _ _ _ _ _ _ _ Hb Hp) as [Hne Hp']. unfold fork_fd. eapply wp_bind_ok; [by apply getp_ok|].
  eapply wp_bind_ok; [apply (rd_ok _ _ e); [lia|rewrite Nat2Z.id; by apply upto_same]|].
  destruct (put_child _ _ _ _ _ _ i e Hb Hi) as (k1 & E1 & Hb1 & Ha1). eapply wp_bind_ok; [exact E1|]. fold (fd_used e).
  cbn [p_fd_table set_fd_table] in Hb1. rewrite (upto_insert _ _ _ _ e) in Hb1 by (done || lia). rewrite set_fd_twice in Hb1.
  pose proof (upto_step fd_of_child (p_fd_table x) (p_fd_table y) i e He ltac:(lia)) as Uc.
  pose proof (upto_step fd_of_parent (p_fd_table x) (p_fd_table x) i e He eq_refl) as Up.
  unfold fd_of_child at 2 in Uc. unfold fd_of_parent at 2 in Up. destruct (fd_used e); cycle 1.
  { apply wp_ret. split; [|destruct Ha, Ha1; split; congruence]. rewrite <- Uc, <- Up. clear Uc Up.
    assert (upto fd_of_parent (p_fd_table x) (p_fd_table x) i = (fd_of_parent <$> take i (p_fd_table x)) ++ e :: drop (Datatypes.S i) (p_fd_table x)) as <-.
    { unfold upto. by rewrite (drop_S _ _ _ He). }
    exact Hb1. }
  destruct (put_parent _ _ _ _ _ _ p _ i (ProcFd (of_idx e) (fd_offset e) (fd_flags e) (s32 (fd_refcount e + 1))) Hb1 Hp Hi) as (k2 & E2 & Hb2 & Ha2).
  eapply wp_bind_ok; [exact E2|]. cbn [p_fd_table set_fd_table] in Hb2. rewrite (upto_insert _ _ _ _ e) in Hb2 by done.
  rewrite set_fd_twice, insert_insert_eq, Up in Hb2.
  destruct (put_child _ _ _ _ _ _ i (ProcFd (of_idx e) (fd_offset e) (fd_flags e) 1) Hb2 Hi) as (k3 & E3 & Hb3 & Ha3).
  eapply wp_bind_ok; [exact E3|]. cbn [p_fd_table set_fd_table] in Hb3. rewrite (upto_again _ _ _ _ e) in Hb3 by (done || lia).
  rewrite set_fd_twice, Uc in Hb3. assert (fds_done c p P x y L S k0 (Datatypes.S i) k3) as Hd.
  { split; [done|]. destruct Ha, Ha1, Ha2, Ha3. split; congruence. }
  destruct (Z.leb_spec 0 (of_idx_decode (of_idx e))) as [H0|H0]; [|by apply wp_ret].
  destruct (sp_incref (kspaces k3) S (of_idx_decode (of_idx e))) as (a & Ea & Hsp); [apply (bd_inv _ _ _ _ _ _ _ _ _ Hb3)| |].
  { revert H0. unfold of_idx_decode. destruct (Z.eqb_spec (of_idx e) 0); [lia|]. destruct (Z.ltb_spec 64 (of_idx e)); lia. }
  apply wp_zoom. eapply wp_ok; [exact Ea|]. split; [by apply bd_spaces|]. by destruct Hd.
Qed.

Lemma fds_ok c p P x y L S k : building c P y L S k -> P !! p = Some x -> length (p_fd_table x) = 64%nat -> length (p_fd_table y) = 64%nat ->
  wp (for_loop (Z.to_nat MAX_OPEN_FILES) 0 (fork_fd p c)) (fun _ k' =>
    building c (<[p := set_fd_table (fd_of_parent <$> p_fd_table x) x]> P) (set_fd_table (fd_of_child <$> p_fd_table x) y) L S k' /\ aside k k') k.
Proof.
  intros Hb Hx Hlx Hly. eapply wp_mono; [apply (for_loop_wp (fun i k' => fds_done c p P x y L S k (Z.to_nat i) k'))|].
  - split; [|done]. change (Z.to_nat 0) with 0%nat. rewrite !upto_none.
    replace (set_fd_table (p_fd_table x) x) with x by (by destruct x). replace (set_fd_table (p_fd_table y) y) with y by (by destruct y).
    by rewrite (insert_id P p x Hx).
  - intros i k' Hi Hd. replace (Z.to_nat (i + 1)) with (Datatypes.S (Z.to_nat i)) by lia. replace i with (Z.of_nat (Z.to_nat i)) at 1 by lia.
    apply fd_step; [done|done|unfold MAX_OPEN_FILES in *; lia|done].
  - intros _ k' [Hd Ha]. split; [|done]. change (Z.to_nat (0 + Z.of_nat (Z.to_nat MAX_OPEN_FILES))) with 64%nat in Hd.
    rewrite <- Hlx in Hd. by rewrite !upto_all in Hd by lia.
Qed.

(** ** The end *)

Definition with_fds (t : list proc_fd) (h : list Z) (y : process) : process :=
  set_next 0 (set_children_wq [] (set_signal_handlers h (set_fd_table t y))).

Definition bumped (x : process) : process := set_fd_table (fd_of_parent <$> p_fd_table x) x.

Lemma handlers_ok c P y L S k h : building c P y L S k -> length h = 32%nat ->
  updp c (fun c => set_next 0 (set_children_wq [] (set_signal_handlers h c))) k =
    Ok (tt, set_procs (<[c := set_next 0 (set_children_wq [] (set_signal_handlers h y))]> P) k) /\
  building c P (set_next 0 (set_children_wq [] (set_signal_handlers h y))) L S
    (set_procs (<[c := set_next 0 (set_children_wq [] (set_signal_handlers h y))]> P) k).
Proof.
  intros Hb Hh. apply (bd_updp _ _ _ c P y L S k (fun c => set_next 0 (set_children_wq [] (set_signal_handlers h c))) Hb); [by intros ?|].
  intros [_ O2 O3 O4 _]. split; try done. intros e He. by apply not_elem_of_nil in He.
Qed.

(** The processes are [P], but for what the scheduler changes. *)
Definition like (P : gmap Z process) k : Prop := forall q, proc_core <$> procs k !! q = proc_core <$> P !! q.

Lemma publish_end c P y L S k (i : nat) : building c P y L S k -> (1 <= i)%nat -> table k !! i = Some 0 ->
  0 < p_pid y < next_pid k -> p_ppid y <> p_pid y -> (forall q z, P !! q = Some z -> p_pid z <> p_pid y) ->
  wp (put_slot (Z.of_nat i) c;; c' ← getp c; ht_insert (p_pid c') c;; scheduler_add_process 0 c;; c' ← getp c; ret (p_pid c'))
    (fun r k' => r = p_pid y /\ like (<[c := y]> P) k' /\ c ∈ table k' /\ pid_ht k' !! p_pid y = Some c /\ aside k k' /\
      exists C' Qs', kinv ∅ L0 k' C' Qs' L S /\ same_procs C C' /\ mjoin Qs' ≡ₚ c :: mjoin Qs) k.
Proof.
  intros Hb Hi1 Hi Hpid Hpp Hnew. pose proof (bd_inv _ _ _ _ _ _ _ _ _ Hb) as Hk. destruct (bd_out _ _ _ _ _ _ _ _ _ Hb) as (Hq & _ & Hidle).
  pose proof (lookup_lt_Some _ _ _ Hi) as Hlt. eapply wp_bind_ok; [by apply put_slot_ok|].
  pose proof (bd_lookup _ _ _ _ _ _ _ _ _ Hb) as Hy. eapply wp_bind_ok; [by apply (getp_ok (set_ptable _ k) c y)|].
  eapply wp_bind_ok; [by eapply (ht_insert_new _ _ _ c P y L S k)|].
  pose proof (kinv_publish _ _ _ _ _ _ _ _ _ i Hb Hi1 Hi Hpid Hpp Hnew) as Hk'. set (k1 := set_ht _ _) in *.
  eapply wp_step; [eapply (pres_wp quiet); [pres|eapply (add_process_ok k1 C Qs c y)]|]; [apply Hk'|exact Hy|done|done|lia|].
  cbv beta. intros _ k2 [(C' & Qs' & Hs & Hperm & Hsame) Hqu]. destruct (quiet_lookup _ _ _ _ Hqu (Hy : procs k1 !! c = Some y)) as (y2 & Hy2 & Ey & _).
  eapply wp_bind_ok; [by apply getp_ok|]. apply wp_ret. pose proof (proj1 Hqu) as Ec. split; [exact (f_equal p_pid Ey)|]. split; [|split_and!].
  - intros q. rewrite (core_lookup _ _ q Ec). change (procs k1) with (procs k). by rewrite (bd_procs _ _ _ _ _ _ _ _ _ Hb).
  - rewrite (f_equal table Ec : table k2 = table k1). apply list_elem_of_lookup_2 with i. cbn. by apply list_lookup_insert_eq.
  - rewrite (f_equal pid_ht Ec : pid_ht k2 = pid_ht k1). apply lookup_insert_eq.
  - split; [exact (f_equal next_pid Ec)|exact (f_equal kstacks Ec)].
  - exists C', Qs'. split; [|done]. eapply kinv_quiet; [exact Hk'|done|done|]. intros q z Hz Hzs. rewrite Hperm, (proj2 Hsame).
    destruct (ki_zombie _ _ _ _ _ _ _ Hk' q z Hz Hzs) as [? ?]. split; [|done]. apply not_elem_of_cons. split; [|done]. intros ->.
    assert (z = y) as -> by (cbn in Hz; congruence). by apply (bd_state _ _ _ _ _ _ _ _ _ Hb).
Qed.

Lemma publish_ok c P y L S k p x : building c P y L S k -> P !! p = Some x -> proc_ok p x ->
  0 < p_pid y < next_pid k -> p_ppid y <> p_pid y -> (forall q z, P !! q = Some z -> p_pid z <> p_pid y) ->
  wp (fork_publish 0 p c) (fun r k' => exists C' Qs' L' S', kinv ∅ L0 k' C' Qs' L' S' /\ same_procs C C' /\ next_pid k' = next_pid k /\
    ((r = - EAGAIN /\ procs k' = <[p := bumped x]> P /\ C' = C /\ Qs' = Qs) \/
     (r = p_pid y /\ like (<[c := with_fds (fd_of_child <$> p_fd_table x) (p_signal_handlers x) y]> (<[p := bumped x]> P)) k' /\
      c ∈ table k' /\ pid_ht k' !! p_pid y = Some c /\ kstacks k' = kstacks k /\ mjoin Qs' ≡ₚ c :: mjoin Qs))) k.
Proof.
  intros Hb Hx Hok Hpid Hpp Hnew. unfold fork_publish. pose proof (bd_lookup _ _ _ _ _ _ _ _ _ Hb) as Hy.
  eapply wp_step; [eapply fds_ok; [exact Hb|exact Hx|apply Hok|by eapply po_fds, (ki_shape _ _ _ _ _ _ _ (bd_inv _ _ _ _ _ _ _ _ _ Hb) c)]|].
  cbv beta. intros _ k1 [Hb1 [N1 K1]]. fold (bumped x) in Hb1. pose proof (lookup_insert_eq P p (bumped x)) as Hp1.
  destruct (bd_other _ _ _ _ _ _ _ _ _ _ _ Hb1 Hp1) as [Hne Hp1']. eapply wp_bind_ok; [by apply getp_ok|].
  destruct (handlers_ok _ _ _ _ _ _ (p_signal_handlers x) Hb1) as [E2 Hb2]; [apply Hok|]. eapply wp_bind_ok; [exact E2|].
  fold (with_fds (fd_of_child <$> p_fd_table x) (p_signal_handlers x) y) in Hb2 |- *. set (k2 := set_procs _ k1) in *.
  destruct (find_slot_ok L0 C Qs _ _ _ _ (bd_inv _ _ _ _ _ _ _ _ _ Hb2)) as (r & E3 & Hr). eapply wp_bind_ok; [exact E3|].
  destruct Hr as [->|(i & -> & Hi1 & Hi)].
  - change (-1 <? 0) with true. destruct (bd_cleanup _ _ _ _ _ _ _ _ _ Hb2) as (k' & L' & S' & E4 & Hk' & Ep & En). eapply wp_bind_ok; [exact E4|].
    apply wp_ret. exists C, Qs, L', S'. split; [done|]. split; [done|]. split; [by rewrite En|]. by left.
  - rewrite (proj2 (Z.ltb_ge (Z.of_nat i) 0)) by lia. eapply wp_mono; [apply (publish_end c (<[p := bumped x]> P) _ L S k2 i Hb2 Hi1 Hi)|].
    + change (0 < p_pid y < next_pid k1). by rewrite N1.
    + exact Hpp.
    + intros q z [[<- <-]|[_ Hz]]%lookup_insert_Some; [|by apply (Hnew q)]. by apply (Hnew p x).
    + intros r k' (-> & Hlike & Ht & Hht & [Ha1 Ha2] & C' & Qs' & Hk' & Hs & Hq). exists C', Qs', L, S. split; [done|]. split; [done|].
      split; [by rewrite Ha1|]. right. split; [done|]. split; [done|]. split; [done|]. split; [done|]. split; [by rewrite Ha2|done].
Qed.

(** ** The whole call *)

Definition fork_child (ra lo regs : Z) (x : process) (n : Z) (nm cwd : list Z) (st m : Z) : process :=
  let y := set_canary (canary_of n lo) (set_kernel_stack st (set_cwd cwd (set_name nm (taken x n process_zero)))) in
  with_fds (fd_of_child <$> p_fd_table x) (p_signal_handlers x) (set_memory m (set_first_sched 1 (set_context (child_context ra x y regs) y))).

(** A failed fork gives back what the child owned; only the counts of the
    parent's descriptors may have changed. *)
Definition fork_failed (p : Z) (x : process) (r : Z) k k' : Prop :=
  r < 0 /\ (procs k' = procs k \/ procs k' = <[p := bumped x]> (procs k)).

Definition forked (ra lo regs p : Z) (x : process) (Qs' : list (list Z)) (r : Z) k k' : Prop :=
  r = next_pid k /\ next_pid k' = next_pid k + 1 /\
  exists c nm cwd st m s, procs k !! c = None /\
    like (<[c := fork_child ra lo regs x (next_pid k) nm cwd st m]> (<[p := bumped x]> (procs k))) k' /\
    str_of nm = str_of (p_name x) /\ str_of cwd = str_of (p_cwd x) /\
    (c ∈ table k') /\ pid_ht k' !! r = Some c /\ mjoin Qs' ≡ₚ c :: mjoin Qs /\
    (m = 0 <-> p_memory x = 0) /\ kstacks k !! p_kernel_stack x = Some s /\
    kstacks k' !! st = Some (child_stack x regs (poke s 0 (canary_of (next_pid k) lo))).

(** The address space of the child. *)
Lemma memory_ok c P y L S k p x : building c P y L S k -> P !! p = Some x -> p_memory y = 0 ->
  exists m k1 S', (if negb (p_memory x =? 0) then on_spaces (as_clone (p_memory x)) else ret 0) k = Ok (m, k1) /\
    updp c (set_memory m) k1 = Ok (tt, set_procs (<[c := set_memory m y]> P) k1) /\ (p_memory x = 0 -> m = 0) /\
    building c P (set_memory m y) L S' (set_procs (<[c := set_memory m y]> P) k1) /\ aside k k1.
Proof.
  intros Hb Hx Hm. destruct (bd_other _ _ _ _ _ _ _ _ _ _ _ Hb Hx) as [_ Hx']. pose proof (bd_inv _ _ _ _ _ _ _ _ _ Hb) as Hk.
  assert (exists m a, (if negb (p_memory x =? 0) then on_spaces (as_clone (p_memory x)) else ret 0) k = Ok (m, set_kspaces a k) /\
      (p_memory x = 0 -> m = 0) /\ ((m = 0 /\ sp_rep a S) \/ (m <> 0 /\ m ∉ S /\ sp_rep a ({[m]} ∪ S)))) as (m & a & E & Hm0 & Hc).
  { destruct (Z.eqb_spec (p_memory x) 0) as [E|E]; cbn [negb].
    - exists 0, (kspaces k). split; [by destruct k|]. split; [done|]. left. split; [done|apply Hk].
    - destruct (sp_clone (kspaces k) S (p_memory x) (ki_spaces _ _ _ _ _ _ _ Hk) (ki_mem _ _ _ _ _ _ _ Hk p x Hx' E)) as (m & a & Ea & Hc).
      exists m, a. unfold on_spaces, zoom. rewrite Ea. by split_and!. }
  destruct (bd_space _ _ _ c P y L S k m a Hb Hm Hc) as (S' & E' & Hb'). exists m, (set_kspaces a k), S'. by split_and!.
Qed.

Lemma first_ok c P y L S k : building c P y L S k ->
  updp c (set_first_sched 1) k = Ok (tt, set_procs (<[c := set_first_sched 1 y]> P) k) /\
  building c P (set_first_sched 1 y) L S (set_procs (<[c := set_first_sched 1 y]> P) k).
Proof. intros Hb. apply (bd_updp _ _ _ c P y L S k (set_first_sched 1) Hb); [by intros ?|by intros []]. Qed.

Section Tail.
Variables (k0 : kern M A) (p : Z) (x : process) (ra lo regs : Z).
Hypothesis Hpids : forall q z, procs k0 !! q = Some z -> p_pid z < next_pid k0.
Hypothesis Hx : procs k0 !! p = Some x.
Hypothesis Hok : proc_ok p x.
Hypothesis Hnext : 0 < next_pid k0 < 2147483648.

Definition fork_post (r : Z) (k' : kern M A) : Prop := exists C' Qs' L' S',
  kinv ∅ L0 k' C' Qs' L' S' /\ same_procs C C' /\ next_pid k0 <= next_pid k' /\
  (fork_failed p x r k0 k' \/ forked ra lo regs p x Qs' r k0 k').

Lemma cleanup_ok c y L S k r : building c (procs k0) y L S k -> next_pid k0 <= next_pid k -> r < 0 ->
  wp (fork_cleanup c;; ret r) fork_post k.
Proof.
  intros Hb Hn Hr. destruct (bd_cleanup _ _ _ _ _ _ _ _ _ Hb) as (k' & L' & S' & E & Hk' & Ep & En). eapply wp_bind_ok; [exact E|].
  apply wp_ret. exists C, Qs, L', S'. split; [done|]. split; [done|]. split; [lia|]. left. split; [done|by left].
Qed.

Definition raw_child (nm cwd : list Z) (st : Z) : process :=
  set_canary (canary_of (next_pid k0) lo) (set_kernel_stack st (set_cwd cwd (set_name nm (taken x (next_pid k0) process_zero)))).

Lemma fork_tail c L S k nm cwd st s0 : building c (procs k0) (raw_child nm cwd st) L S k -> 0 < p_kernel_stack x -> regs_fit x regs ->
  next_pid k = next_pid k0 + 1 -> kstacks k0 !! p_kernel_stack x = Some s0 ->
  kstacks k !! st = Some (poke s0 0 (canary_of (next_pid k0) lo)) -> length (poke s0 0 (canary_of (next_pid k0) lo)) = 8192%nat ->
  str_of nm = str_of (p_name x) -> str_of cwd = str_of (p_cwd x) ->
  wp (r ← fork_regs ra p c regs;
      if r <? 0 then fork_cleanup c;; ret r
      else
        updp c (set_first_sched 1);;
        mem ← (if negb (p_memory x =? 0) then on_spaces (as_clone (p_memory x)) else ret 0);
        updp c (set_memory mem);;
        if negb (p_memory x =? 0) && (mem =? 0) then fork_cleanup c;; ret (- ENOMEM)
        else fork_publish 0 p c) fork_post k.
Proof.
  intros Hb Hpos Hfit Hn Hs0 Hs Hl Enm Ecwd. set (y := raw_child nm cwd st) in *.
  eapply wp_step; [eapply (regs_ok c (procs k0) y L S k p x); [exact Hb|exact Hx|done|done|exact Hs|done]|].
  cbv beta. intros r k1 [N1 Hr]. destruct (regs_off x regs).
  { destruct Hr as [-> Hb1]. change (- EINVAL <? 0) with true. eapply cleanup_ok; [exact Hb1|lia|done]. }
  destruct Hr as (-> & Hb1 & Hs1). change (0 <? 0) with false. cbn [negb].
  destruct (first_ok _ _ _ _ _ _ Hb1) as [E2 Hb2]. eapply wp_bind_ok; [exact E2|]. set (k2 := set_procs _ k1) in *.
  destruct (memory_ok _ _ _ _ _ _ p x Hb2 Hx eq_refl) as (m & k3 & S' & E3 & E4 & Hm0 & Hb4 & [N3 K3]).
  eapply wp_bind_ok; [exact E3|]. eapply wp_bind_ok; [exact E4|]. set (k4 := set_procs _ k3) in *.
  assert (next_pid k4 = next_pid k0 + 1) as N4 by (change (next_pid k3 = next_pid k0 + 1); rewrite N3; change (next_pid k1 = next_pid k0 + 1); congruence).
  destruct (negb (p_memory x =? 0) && (m =? 0)) eqn:Em; [eapply cleanup_ok; [exact Hb4|lia|done]|].
  eapply wp_mono; [eapply (publish_ok c (procs k0) _ L S' k4 p x Hb4 Hx Hok)|].
  - change (0 < next_pid k0 < next_pid k4). lia.
  - change (p_pid x <> next_pid k0). pose proof (Hpids p x Hx). lia.
  - intros q z Hz. change (p_pid z <> next_pid k0). pose proof (Hpids q z Hz). lia.
  - intros r k' (C' & Qs' & L' & S'' & Hk' & Hsame & N5 & Hc). exists C', Qs', L', S''. split; [done|]. split; [done|]. split; [lia|].
    destruct Hc as [(-> & Ep & _)|(-> & Hlike & Ht & Hht & K5 & Hq)]; [left; split; [done|by right]|right].
    split; [done|]. split; [lia|]. exists c, nm, cwd, st, m, s0. split; [apply (bd_new _ _ _ _ _ _ _ _ _ Hb)|]. split; [exact Hlike|].
    split; [done|]. split; [done|]. split; [done|]. split; [exact Hht|]. split; [done|]. split; [split; [|done]|split; [done|]].
    + intros ->. destruct (Z.eqb_spec (p_memory x) 0); [done|discriminate].
    + rewrite K5. change (kstacks k4) with (kstacks k3). rewrite K3. exact Hs1.
Qed.

End Tail.

Lemma fork_ok k L S x ra lo junk regs : kinv ∅ L0 k C Qs L S -> procs k !! self C = Some x -> next_pid k < 2147483648 ->
  regs_fit x regs -> length junk = 8192%nat ->
  wp (sys_fork 0 ra lo junk regs) (fork_post k (self C) x ra lo regs) k.
Proof.
  intros Hk Hx Hn Hfit Hj. pose proof (ki_next _ _ _ _ _ _ _ Hk) as Hn1. pose proof (ki_shape _ _ _ _ _ _ _ Hk _ _ Hx) as Hok.
  assert (forall q z, procs k !! q = Some z -> p_pid z < next_pid k) as Hpids.
  { intros q z Hz. by apply (ki_pid _ _ _ _ _ _ _ Hk q z Hz). }
  unfold sys_fork. eapply wp_bind_ok; [by eapply calm_self, calm_start|]. eapply wp_bind_ok; [by apply getp_ok|].
  assert (forall r k', r < 0 -> kinv ∅ L0 k' C Qs L S -> procs k' = procs k -> next_pid k' = next_pid k -> fork_post k (self C) x ra lo regs r k') as Hfail.
  { intros r k' Hr Hk' Ep En. exists C, Qs, L, S. split; [done|]. split; [done|]. split; [lia|]. left. split; [done|by left]. }
  destruct (p_pid x =? 0); [apply wp_ret; by apply Hfail|].
  eapply wp_step; [by eapply start_ok|]. cbv beta. intros c k1 Hc. destruct Hc as [(-> & Hk1 & Ep & En)|(Hb & N1 & K1)].
  { change (0 =? 0) with true. apply wp_ret. by apply Hfail. }
  rewrite (proj2 (Z.eqb_neq c 0) (proj1 (bd_addr _ _ _ _ _ _ _ _ _ Hb))).
  eapply wp_step; [eapply (fields_ok c (procs k) _ _ _ k1 (self C) x Hb Hx Hok); lia|]. cbv beta.
  intros _ k2 (nm & cwd & Hb2 & N2 & K2 & Enm & Ecwd). rewrite N1 in Hb2, N2.
  destruct (Z.eqb_spec (p_kernel_stack x) 0) as [E0|E0]; [eapply cleanup_ok; [exact Hb2|lia|done]|].
  eapply wp_step; [eapply (stack_ok _ _ _ _ _ k2 (self C) x lo junk Hb2 Hx eq_refl E0 Hj)|]. cbv beta.
  intros b k3 (L' & N3 & [(-> & Hb3)|(-> & st & s & Hst & Hs & Hb3 & Hs3 & Hl3)]); cbn [negb].
  { eapply cleanup_ok; [exact Hb3|lia|done]. }
  assert (0 < p_kernel_stack x) as Hpos.
  { destruct (ki_stack _ _ _ _ _ _ _ Hk _ _ Hx E0) as [HL _]. by eapply km_nonnull; [apply Hk|]. }
  eapply (fork_tail k (self C) x ra lo regs Hpids Hx Hok ltac:(lia) c _ _ k3 nm cwd st s); try done; [lia|congruence].
Qed.

End Fork.
