(* ===== verification/LifeCreate.v ===== *)
(** * Creating a process

    [process_create] enters the new object into the table first and fills it
    afterwards.  What fills it does not look at the table ([blind]), so it can
    be followed with the invariant of LifeBuild, where the object is still
    outside, and moved behind the write of the slot. *)

From stdpp Require Import base tactics numbers list gmap.
From S2P Require Import Prelude Kstring Fd Alloc Block Proc Sched SchedFrame SchedProofs SchedSpec SchedSwitch SchedRun.
From S2P Require Import Signal ProcCalls LifeInv LifeSignal LifeEnd LifeBuild LifeFork.

Create HintDb blind.

Section Blind.
Context {M A : Type} {KM : Kmalloc M} {AS : AddressSpaces A}.
Implicit Types k : kern M A.

(** [m] neither reads nor writes the table. *)
Definition blind {B} (m : ST (kern M A) B) : Prop := forall t k,
  m (set_ptable t k) = match m k with Ok (b, k') => Ok (b, set_ptable t k') | Err e => Err e end.

Lemma blind_ret {B} (b : B) : blind (ret b).
Proof. done. Qed.

Lemma blind_fail {B} e : blind (B := B) (fail e).
Proof. done. Qed.

Lemma blind_bind {B D} (m : ST (kern M A) B) (f : B -> ST (kern M A) D) : blind m -> (forall b, blind (f b)) -> blind (bind m f).
Proof. intros Hm Hf t k. unfold bind. rewrite Hm. destruct (m k) as [[b k']|e]; [apply Hf|done]. Qed.

Lemma blind_modify f : (forall t k, f (set_ptable t k) = set_ptable t (f k)) -> blind (modify f).
Proof. intros Hf t k. unfold modify. by rewrite Hf. Qed.

Lemma blind_getp p : blind (getp p).
Proof. intros t k. unfold getp. rewrite !bind_gets. unfold id. cbn. by destruct (procs k !! p). Qed.

Lemma blind_updp p f : blind (updp p f).
Proof. apply blind_bind; [apply blind_getp|]. intros x. by apply blind_modify. Qed.

Lemma blind_kmalloc n : blind (kmalloc_k n).
Proof. intros t k. unfold kmalloc_k, zoom. cbn. by destruct (kmalloc n (kmem k)) as [[p m]|]. Qed.

Lemma blind_spaces {B} (m : ST A B) : blind (on_spaces m).
Proof. intros t k. unfold on_spaces, zoom. cbn. by destruct (m (kspaces k)) as [[p a]|]. Qed.

Lemma blind_stack junk : blind (new_stack junk).
Proof. apply blind_bind; [apply blind_kmalloc|]. intros p. destruct (p =? 0); [apply blind_ret|]. apply blind_bind; [by apply blind_modify|]. intros _. apply blind_ret. Qed.

Lemma blind_rd {B} (l : list B) i : blind (rd l i).
Proof. intros t k. unfold rd. destruct (in_bounds l i); [|done]. by destruct (l !! Z.to_nat i). Qed.

Lemma blind_wr {B} (l : list B) i b : blind (wr l i b).
Proof. intros t k. unfold wr. by destruct (in_bounds l i). Qed.

Lemma blind_strncpy dst src n : blind (strncpy_field dst src n).
Proof.
  apply blind_bind; [|intros o; apply blind_ret]. unfold kstrncpy. destruct (n =? 0); [apply blind_ret|].
  apply blind_bind; [|intros d; apply blind_ret]. generalize (Z.to_nat (n - 1)) as fuel, 0 as i. intros fuel. revert dst.
  induction fuel as [|fuel IH]; intros dst i; cbn [strncpy_loop]; [apply blind_wr|].
  apply blind_bind; [apply blind_rd|]. intros c. destruct (c =? 0); [apply blind_wr|]. apply blind_bind; [apply blind_wr|]. intros d. apply IH.
Qed.

(** Following [m] with another table. *)
Lemma blind_wp {B} (m : ST (kern M A) B) Q t k : blind m -> wp m Q k ->
  wp m (fun b k' => exists k1, k' = set_ptable t k1 /\ table k1 = table k /\ Q b k1) (set_ptable t k).
Proof.
  intros Hm Hw. destruct (proj1 (wp_elim _ _ _) Hw) as (b & k1 & E & HQ). eapply wp_ok; [by rewrite (Hm t k), E|].
  exists k1. split; [done|]. split; [|done]. pose proof (Hm (table k) k) as E1. replace (set_ptable (table k) k) with k in E1 by (by destruct k).
  rewrite E in E1. injection E1 as E1. by rewrite E1.
Qed.

#[local] Hint Resolve blind_ret blind_getp blind_updp blind_spaces blind_stack blind_strncpy : blind.

Lemma blind_start c e pp junk name : blind (fill_start c e pp junk name).
Proof. unfold fill_start. repeat (apply blind_bind; [by auto with blind|intros ?]). auto with blind. Qed.

Lemma blind_rest c e st inh : blind (fill_rest c e st inh).
Proof.
  destruct inh as [[[sid tty] um] cwd]. unfold fill_rest, process_init_signals, process_init_priority.
  repeat (apply blind_bind; [repeat case_match; by auto with blind|intros ?]). by apply blind_modify.
Qed.

End Blind.

Section Create.
Context {M A : Type} {KM : Kmalloc M} {AS : AddressSpaces A} {UL : Userland A} {SL : SpacesLaws A}.
Variables (L0 : gmap Z Z) (C : cpu) (Qs : list (list Z)).
Implicit Types k : kern M A.
Abbreviation building := (building L0 C Qs).

(** A process under construction with this pid and parent, this stack and
    address space. *)
Definition made (c : Z) P (pid ppid st m n : Z) L S k : Prop := exists y,
  building c P y L S k /\ (p_pid y = pid /\ p_ppid y = ppid /\ p_kernel_stack y = st /\ p_memory y = m) /\ next_pid k = n.

(** A change of the other fields. *)
Definition mends (c : Z) (f : process -> process) : Prop := forall y,
  (p_pid (f y) = p_pid y /\ p_ppid (f y) = p_ppid y /\ p_kernel_stack (f y) = p_kernel_stack y /\ p_memory (f y) = p_memory y) /\
  p_mlfq_queue (f y) = p_mlfq_queue y /\ p_owner_cpu (f y) = p_owner_cpu y /\
  (p_state y <> PROCESS_ZOMBIE -> p_state (f y) <> PROCESS_ZOMBIE) /\ (proc_ok c y -> proc_ok c (f y)).

Lemma made_updp c P pid ppid st m n L S k f : made c P pid ppid st m n L S k -> mends c f ->
  wp (updp c f) (fun _ k' => made c P pid ppid st m n L S k') k.
Proof.
  intros (y & Hb & (E1 & E2 & E3 & E4) & En) Hf. destruct (Hf y) as ((F1 & F2 & F3 & F4) & _ & _ & _ & Hok).
  destruct (bd_updp _ _ _ c P y L S k f Hb) as [E Hb'].
  - intros z. destruct (Hf z) as ((? & ? & ? & ?) & ? & ? & ? & ?). by split_and!.
  - done.
  - eapply wp_ok; [exact E|]. exists (f y). split; [done|]. split; [|done]. by rewrite F1, F2, F3, F4.
Qed.

Lemma made_getp c P pid ppid st m n L S k : made c P pid ppid st m n L S k ->
  exists y, getp c k = Ok (y, k) /\ proc_ok c y /\ p_pid y = pid.
Proof.
  intros (y & Hb & (E1 & _) & _). pose proof (bd_lookup _ _ _ _ _ _ _ _ _ Hb) as Hy. exists y. split; [by apply getp_ok|]. split; [|done].
  by apply (ki_shape _ _ _ _ _ _ _ (bd_inv _ _ _ _ _ _ _ _ _ Hb)).
Qed.

Ltac mend := intros ?; split; [done|]; split; [done|]; split; [done|]; split; [first [done|by intros ?]|intros []; by split].

Lemma start_fields c P pid n L S k e pp junk name : made c P pid 0 0 0 n L S k -> 0 ∈ name -> length junk = 8192%nat ->
  wp (fill_start c e pp junk name) (fun st k' => exists L', made c P pid pp st 0 n L' S k') k.
Proof.
  intros Hm Hname Hj. unfold fill_start.
  assert (wp (updp c (fun x => set_gid 0 (set_uid 0 (set_state PROCESS_READY (set_ppid pp x))))) (fun _ k' => made c P pid pp 0 0 n L S k') k) as H1.
  { destruct Hm as (y & Hb & (E1 & E2 & E3 & E4) & En).
    destruct (bd_updp _ _ _ c P y L S k (fun x => set_gid 0 (set_uid 0 (set_state PROCESS_READY (set_ppid pp x)))) Hb) as [E Hb']; [by intros ?|by intros []|].
    eapply wp_ok; [exact E|]. eexists. split; [exact Hb'|]. by split_and!. }
  eapply wp_step; [exact H1|]. cbv beta. intros _ k1 H2. destruct (made_getp _ _ _ _ _ _ _ _ _ _ H2) as (y & Ey & [_ [Hl _] _ _ _] & _).
  eapply wp_bind_ok; [exact Ey|]. destruct (strncpy_ok (p_name y) name 16 k1 Hname ltac:(by rewrite Hl)) as (nm & En & Ln & Zn & _).
  eapply wp_bind_ok; [exact En|]. cbv zeta. rewrite Hl in Ln. eapply wp_step; [eapply made_updp; [exact H2|mend]|]. cbv beta. intros _ k2 H3.
  destruct H3 as (z & Hb & (E1 & E2 & E3 & E4) & Enext). destruct (bd_stack _ _ _ c P z L S k2 junk Hb E3 Hj) as (st & k3 & L' & E5 & _ & N & _ & E6 & Hb').
  eapply wp_bind_ok; [exact E5|]. eapply wp_bind_ok; [exact E6|]. apply wp_ret. exists L'. eexists. split; [exact Hb'|]. split; [by split_and!|].
  change (next_pid k3 = n). congruence.
Qed.

Lemma rest_fields c P pid pp st n L S k e sid tty um cwd : made c P pid pp st 0 n L S k -> c <> 0 -> (forall d, cwd = Some d -> 0 ∈ d) ->
  wp (fill_rest c e st (sid, tty, um, cwd)) (fun _ k' => exists m S', made c P pid pp st m n L S' k') k.
Proof.
  intros Hm Hc0 Hcwd. unfold fill_rest. eapply wp_step; [eapply made_updp; [exact Hm|mend]|]. cbv beta. clear k Hm. intros _ k (y & Hb & (E1 & E2 & E3 & E4) & En).
  assert (exists m a, (if negb (e =? 0) then on_spaces as_create else ret 0) k = Ok (m, set_kspaces a k) /\
      ((m = 0 /\ sp_rep a S) \/ (m <> 0 /\ m ∉ S /\ sp_rep a ({[m]} ∪ S)))) as (m & a & Ea & Hc).
  { pose proof (ki_spaces _ _ _ _ _ _ _ (bd_inv _ _ _ _ _ _ _ _ _ Hb)) as Hsp. destruct (negb _).
    - destruct (sp_create _ _ Hsp) as (m & a & Ea & Hc). exists m, a. unfold on_spaces, zoom. rewrite Ea. by split.
    - exists 0, (kspaces k). split; [by destruct k|by left]. }
  eapply wp_bind_ok; [exact Ea|]. destruct (bd_space _ _ _ c P y L S k m a Hb E4 Hc) as (S' & Eu & Hb'). eapply wp_bind_ok; [exact Eu|].
  set (k1 := set_procs _ _) in *. assert (made c P pid pp st m n L S' k1) as H1 by (eexists; split; [exact Hb'|by split_and!]). clearbody k1.
  unfold process_init_signals, process_init_priority. rewrite (proj2 (Z.eqb_neq c 0) Hc0).
  eapply wp_step; [eapply made_updp; [exact H1|mend]|]. cbv beta. intros _ k2 H2.
  eapply wp_step; [eapply made_updp; [exact H2|mend]|]. cbv beta. intros _ k3 H3.
  eapply wp_step; [eapply made_updp; [exact H3|mend]|]. cbv beta. intros _ k4 H4.
  destruct (made_getp _ _ _ _ _ _ _ _ _ _ H4) as (z & Ez & [_ _ [Hl _] _ _] & _). eapply wp_bind_ok; [exact Ez|].
  assert (exists w, match cwd with Some d => strncpy_field (p_cwd z) d 256 | None => ret (<[1%nat := 0]> (<[0%nat := 47]> (p_cwd z))) end k4 = Ok (w, k4) /\
    length w = 256%nat /\ 0 ∈ w) as (w & Ew & Lw & Zw).
  { destruct cwd as [d|].
    - destruct (strncpy_ok (p_cwd z) d 256 k4 (Hcwd d eq_refl) ltac:(by rewrite Hl)) as (w & Ew & Lw & Zw & _). exists w. by rewrite Lw.
    - eexists. split; [done|]. split; [by rewrite !length_insert|]. apply list_elem_of_lookup_2 with 1%nat. apply list_lookup_insert_eq.
      rewrite length_insert. lia. }
  eapply wp_bind_ok; [exact Ew|]. eapply wp_mono; [eapply made_updp; [exact H4|]|]; [|cbv beta; eauto].
  intros v. split; [done|]. split; [done|]. split; [done|]. split; [done|]. intros [O1 O2 O3 O4 _]. split; try done. intros q Hq. by apply not_elem_of_nil in Hq.
Qed.

Lemma blind_pid : blind (M := M) (A := A) allocate_next_pid.
Proof. by intros t k. Qed.

Lemma blind_current : blind (M := M) (A := A) (current_process 0).
Proof.
  apply blind_bind; [|intros c; apply blind_ret]. intros t k. unfold getc. rewrite !bind_gets. unfold id. cbn [cpus set_ptable].
  apply (blind_rd (cpus k) 0 t k).
Qed.

(** What [process_create] reads of its caller. *)
Definition inherit_of (parent pid : Z) : ST (kern M A) (Z * (Z * Z * Z * option (list Z))) :=
  if parent =? 0 then ret (0, (pid, -1, 18, None))
  else
    x ← getp parent;
    cwd ← (if nthZ (p_cwd x) 0 =? 0 then ret None
           else d ← strncpy_field (replicate 256 0) (p_cwd x) 256; ret (Some d));
    ret (p_pid x, (p_sid x, p_tty x, p_umask x, cwd)).

Lemma blind_inherit parent pid : blind (inherit_of parent pid).
Proof.
  unfold inherit_of. destruct (parent =? 0); [apply blind_ret|]. apply blind_bind; [apply blind_getp|]. intros x.
  apply blind_bind; [|intros o; apply blind_ret]. destruct (_ =? 0); [apply blind_ret|]. apply blind_bind; [apply blind_strncpy|]. intros d. apply blind_ret.
Qed.

Lemma inherit_ok c P y L S k pid : building c P y L S k -> (forall q z, P !! q = Some z -> p_pid z < pid) -> 0 < pid ->
  wp (inherit_of (c_current C) pid) (fun o k' => k' = k /\ let '(pp, (_, _, _, cwd)) := o in
    pp <> pid /\ forall d, cwd = Some d -> 0 ∈ d) k.
Proof.
  intros Hb Hpids Hpid. unfold inherit_of. destruct (Z.eqb_spec (c_current C) 0) as [E0|E0]; [apply wp_ret; split; [done|split; [lia|done]]|].
  destruct (si_current _ _ _ (ki_sched _ _ _ _ _ _ _ (bd_inv _ _ _ _ _ _ _ _ _ Hb))) as [?|[x Hx]]; [done|].
  destruct (ki_shape _ _ _ _ _ _ _ (bd_inv _ _ _ _ _ _ _ _ _ Hb) _ x Hx) as [_ _ [_ Hw] _ _].
  assert (p_pid x <> pid) as Hne.
  { destruct (bd_out _ _ _ _ _ _ _ _ _ Hb) as (_ & Hcc & _). rewrite (bd_procs _ _ _ _ _ _ _ _ _ Hb), lookup_insert_ne in Hx by done. pose proof (Hpids _ _ Hx). lia. }
  eapply wp_bind_ok; [by apply getp_ok|]. destruct (nthZ (p_cwd x) 0 =? 0); [apply wp_bind, wp_ret, wp_ret; by split_and!|].
  destruct (strncpy_ok (replicate 256 0) (p_cwd x) 256 k Hw ltac:(done)) as (d & E & _ & Zd & _).
  apply wp_bind. eapply wp_bind_ok; [exact E|]. apply wp_ret, wp_ret. split; [done|]. split; [done|]. by intros d' [= <-].
Qed.

Lemma free_ok c P y L S k : building c P y L S k -> p_kernel_stack y = 0 -> p_memory y = 0 ->
  exists k' L' S', free_process c k = Ok (tt, k') /\ kinv ∅ L0 k' C Qs L' S' /\ next_pid k' = next_pid k.
Proof.
  intros Hb Hst Hm. destruct (bd_cleanup _ _ _ _ _ _ _ _ _ Hb) as (k' & L' & S' & E & Hk & _ & En). exists k', L', S'. split; [|done].
  rewrite <- E. unfold fork_cleanup. rewrite (bind_ok _ _ _ _ _ (getp_ok k c y (bd_lookup _ _ _ _ _ _ _ _ _ Hb))), Hst, Hm. done.
Qed.

(** The new process is in the table and in the hash, under the next pid. *)
Definition created (r : Z) k k' : Prop :=
  r = 0 \/ exists x, procs k !! r = None /\ procs k' !! r = Some x /\ p_pid x = next_pid k /\ p_state x <> PROCESS_ZOMBIE /\
    (r ∈ table k') /\ pid_ht k' !! next_pid k = Some r.

Lemma table_undo k (i : nat) c : table k !! i = Some 0 -> <[i := 0]> (<[i := c]> (table k)) = table k.
Proof. intros Hi. rewrite list_insert_insert_eq. by apply list_insert_id. Qed.

Definition create_post k r k' : Prop :=
  created r k k' /\ next_pid k <= next_pid k' /\ exists L' S', kinv ∅ L0 k' C Qs L' S'.

(** From the slot on: [k] is the state without it. *)
Lemma filled_ok c k0 k pid pp n L S st (i : nat) e sid tty um cwd : made c (procs k0) pid pp st 0 n L S k -> table k !! i = Some 0 -> (1 <= i)%nat ->
  pid = next_pid k0 -> n = next_pid k0 + 1 -> 0 < pid -> pp <> pid -> (forall q z, procs k0 !! q = Some z -> p_pid z < pid) ->
  (forall d, cwd = Some d -> 0 ∈ d) ->
  wp (if st =? 0 then put_slot (Z.of_nat i) 0;; free_process c;; ret 0
      else fill_rest c e st (sid, tty, um, cwd);; x ← getp c; ht_insert (p_pid x) c;; ret c)
    (create_post k0) (set_ptable (<[i := c]> (table k)) k).
Proof.
  intros Hm Hi Hi1 Epid En Hpid Hpp Hpids Hcwd. pose proof (lookup_lt_Some _ _ _ Hi) as Hlt. assert (c <> 0) as Hc0 by (destruct Hm as (y & Hb & _); apply Hb).
  destruct (Z.eqb_spec st 0) as [->|Hst].
  - eapply wp_bind_ok; [apply put_slot_ok; cbn; by rewrite length_insert|]. cbn [table set_ptable]. rewrite (table_undo k i c Hi).
    replace (set_ptable (table k) (set_ptable _ k)) with k by (by destruct k). destruct Hm as (y & Hb & (E1 & E2 & E3 & E4) & En').
    destruct (free_ok _ _ _ _ _ _ Hb E3 E4) as (k' & L' & S' & E & Hk & N). eapply wp_bind_ok; [exact E|]. apply wp_ret.
    split; [by left|]. split; [lia|]. by exists L', S'.
  - eapply wp_step; [eapply (blind_wp _ _ _ k); [apply blind_rest|by eapply rest_fields]|]. cbv beta. intros _ ? (k1 & -> & Et & m & S' & y & Hb & (E1 & E2 & E3 & E4) & N).
    pose proof (bd_lookup _ _ _ _ _ _ _ _ _ Hb) as Hy. eapply wp_bind_ok; [by apply (getp_ok (set_ptable _ k1) c y)|].
    assert (forall q z, procs k0 !! q = Some z -> p_pid z <> p_pid y) as Hnew by (intros q z Hz; pose proof (Hpids q z Hz); lia).
    eapply wp_bind_ok; [eapply (ht_insert_new _ _ _ c (procs k0) y L S' k1 _ Hb); [lia|done]|]. apply wp_ret.
    rewrite <- Et in Hi, Hlt |- *. pose proof (kinv_publish _ _ _ _ _ _ _ _ _ i Hb Hi1 Hi ltac:(lia) ltac:(congruence) Hnew) as Hk.
    split; [|split; [change (next_pid k0 <= next_pid k1); lia|by exists L, S']]. right. exists y. split; [apply (bd_new _ _ _ _ _ _ _ _ _ Hb)|].
    split; [done|]. split; [congruence|]. split; [apply (bd_state _ _ _ _ _ _ _ _ _ Hb)|]. split.
    + apply list_elem_of_lookup_2 with i. cbn. by apply list_lookup_insert_eq.
    + cbn. rewrite <- Epid, <- E1. apply lookup_insert_eq.
Qed.

Lemma create_ok k L S name e junk : kinv ∅ L0 k C Qs L S -> next_pid k < 2147483648 -> 0 ∈ name -> length junk = 8192%nat ->
  wp (process_create 0 (Some name) e junk) (create_post k) k.
Proof.
  intros Hk Hn Hname Hj. pose proof (ki_next _ _ _ _ _ _ _ Hk) as Hn1. unfold process_create.
  assert (forall q z, procs k !! q = Some z -> p_pid z < next_pid k) as Hpids.
  { intros q z Hz. by apply (ki_pid _ _ _ _ _ _ _ Hk q z Hz). }
  eapply wp_step; [by eapply start_ok|]. cbv beta. intros c k1 [(-> & Hk1 & Ep & En)|(Hb & N1 & _)].
  { change (0 =? 0) with true. apply wp_ret. split; [by left|]. split; [lia|]. by exists L, S. }
  destruct (bd_addr _ _ _ _ _ _ _ _ _ Hb) as [Hc0 _]. rewrite (proj2 (Z.eqb_neq c 0) Hc0).
  destruct (find_slot_ok L0 C Qs _ _ _ _ (bd_inv _ _ _ _ _ _ _ _ _ Hb)) as (r & E & Hr). eapply wp_bind_ok; [exact E|].
  destruct Hr as [->|(i & -> & Hi1 & Hi)].
  { change (-1 <? 0) with true. destruct (free_ok _ _ _ _ _ _ Hb eq_refl eq_refl) as (k' & L' & S' & E' & Hk' & N). eapply wp_bind_ok; [exact E'|].
    apply wp_ret. split; [by left|]. split; [lia|]. by exists L', S'. }
  rewrite (proj2 (Z.ltb_ge (Z.of_nat i) 0)) by lia. eapply wp_bind_ok; [apply put_slot_ok; by eapply lookup_lt_Some|].
  set (t := <[i := c]> (table k1)). pose proof (bd_next _ _ _ _ _ _ _ _ _ (next_pid k + 1) Hb ltac:(lia)) as Hb2.
  eapply wp_step; [apply (blind_wp _ (fun pid k' => pid = next_pid k /\ made c (procs k) 0 0 0 0 (next_pid k + 1) (<[c := PROCESS_SIZE]> L) S k') t k1); [apply blind_pid|]|].
  { eapply (wp_ok allocate_next_pid); [reflexivity|]. rewrite N1, s32_small, u32_id by (unfold is_u32; lia). split; [done|]. eexists. split; [exact Hb2|done]. }
  cbv beta. intros _ ? (k2 & -> & T2 & -> & H2). clear Hb2.
  eapply wp_step; [apply (blind_wp _ (fun _ k' => made c (procs k) (next_pid k) 0 0 0 (next_pid k + 1) (<[c := PROCESS_SIZE]> L) S k') t k2); [apply blind_updp|]|].
  { destruct H2 as (y & Hb2 & (E1 & E2 & E3 & E4) & En). destruct (bd_updp _ _ _ c (procs k) y _ S k2 (set_pid (next_pid k)) Hb2) as [Eu Hb3]; [by intros ?|by intros []|].
    eapply wp_ok; [exact Eu|]. eexists. split; [exact Hb3|]. by split_and!. }
  cbv beta. intros _ ? (k3 & -> & T3 & H3). pose proof H3 as (y & Hb3 & _).
  eapply wp_bind_ok; [rewrite (blind_current t k3), (calm_current _ _ _ _ _ _ _ _ (calm_start _ _ _ _ _ _ _ (bd_inv _ _ _ _ _ _ _ _ _ Hb3))); reflexivity|].
  fold (inherit_of (c_current C) (next_pid k)).
  eapply wp_step; [eapply (blind_wp _ _ t k3); [apply blind_inherit|eapply (inherit_ok _ _ _ _ _ _ _ Hb3 Hpids); lia]|].
  cbv beta. intros [pp [[[sid tty] um] cwd]] ? (k4 & -> & T4 & -> & Hpp & Hcwd).
  eapply wp_step; [eapply (blind_wp _ _ t k3); [apply blind_start|by eapply start_fields]|]. cbv beta. intros st ? (k5 & -> & T5 & L' & H5).
  unfold t. rewrite <- T2, <- T3, <- T5. eapply filled_ok; [exact H5|by rewrite T5, T3, T2|done|done|done|lia|done|done|done].
Qed.

End Create.
