(* ===== verification/LifeSpec.v ===== *)
(** * The life of processes

    Every state reached by system calls, ticks and the operations of the boot
    on one CPU satisfies the invariant of LifeInv, and every call returns from
    it.  On top of that: what fork makes, and what waitpid takes away. *)

From stdpp Require Import base tactics numbers list gmap.
From S2P Require Import Prelude Kstring Fd Alloc Block Proc Sched SchedFrame SchedProofs SchedSpec SchedSwitch SchedRun.
From S2P Require Import Signal ProcCalls LifeInv LifeSignal LifeEnd LifeBuild LifeFork LifeCreate.

(** The calls of sys_proc.c that change the state, and what else happens to
    processes: a process asleep in [sys_waitpid] that runs again ([Resume]), the
    tick of the clock ([Tick]), a call of the scheduler from elsewhere
    ([Resched]), and what the boot does. *)
Inductive call :=
| Fork (ret_addr lo : Z) (junk : list Z)
| Exit (status : Z)
| Waitpid (pid status_ptr opts : Z)
| Resume (pid status_ptr : Z)
| Kill (pid sig : Z)
| Handler (sig handler : Z)
| Setuid (uid : Z)
| Setgid (gid : Z)
| Seteuid (euid : Z)
| Setegid (egid : Z)
| Setpgid (pid pgid : Z)
| Setsid
| Tcsetpgrp (fd pgrp : Z)
| Nice (increment : Z)
| Tick
| Resched
| Create (name : list Z) (entry_point : Z) (junk : list Z)
| Launch (p : Z)
| Idle (entry_point : Z) (junk : list Z).

Section Calls.
Context {M A : Type} {KM : Kmalloc M} {AS : AddressSpaces A} {UL : Userland A} {SL : SpacesLaws A}.
Implicit Types k : kern M A.

Definition IDLE_NAME : list Z := [105; 100; 108; 101; 45; 99; 112; 117; 48; 0].

(** The idle process of the boot CPU (init/main.c). *)
Definition start_idle (entry_point : Z) (junk : list Z) : ST (kern M A) unit :=
  p ← process_create 0 (Some IDLE_NAME) entry_point junk;
  (if negb (p =? 0) then updp p (set_owner_cpu 0) else ret tt);;
  scheduler_register_idle 0 p.

(** [sys_waitpid] up to where its process sleeps. *)
Definition or_sleep (m : ST (kern M A) (option Z)) : ST (kern M A) Z :=
  o ← m;
  match o with Some r => ret r | None => schedule 0;; ret 0 end.

Definition run_call (c : call) : ST (kern M A) Z :=
  match c with
  | Fork ra lo junk => sys_fork_wrap 0 ra lo junk
  | Exit status => sys_exit 0 status;; ret 0
  | Waitpid pid ptr opts => or_sleep (sys_waitpid 0 pid ptr opts)
  | Resume pid ptr => or_sleep (waitpid_resume 0 pid ptr)
  | Kill pid sig => sys_kill 0 pid sig
  | Handler sig h => sys_signal 0 sig h
  | Setuid i => sys_setuid 0 i
  | Setgid i => sys_setgid 0 i
  | Seteuid i => sys_seteuid 0 i
  | Setegid i => sys_setegid 0 i
  | Setpgid pid pgid => sys_setpgid 0 pid pgid
  | Setsid => sys_setsid 0
  | Tcsetpgrp fd pg => sys_tcsetpgrp fd pg
  | Nice i => sys_nice 0 i
  | Tick => alarm_tick 0;; timer_tick 0;; ret 0
  | Resched => schedule 0;; ret 0
  | Create name e junk => process_create 0 (Some name) e junk
  | Launch p => process_switch 0 p;; ret 0
  | Idle e junk => start_idle e junk;; ret 0
  end.

(** The process that makes a system call is a user process that lives. *)
Definition user (k : kern M A) (C : cpu) (x : process) : Prop :=
  cpus k !! 0%nat = Some C /\ c_current C <> 0 /\ c_current C <> KERNEL_PROC /\ c_current C <> c_idle_proc C /\
  procs k !! c_current C = Some x /\ p_state x <> PROCESS_ZOMBIE.

(** Pids are not reused, so 2^31 of them end the life of the system; saved
    registers lie on the kernel stack; the sum of [nice] fits. *)
Definition call_ok (c : call) (k : kern M A) : Prop :=
  match c with
  | Fork _ _ junk => next_pid k < 2147483648 /\ length junk = 8192%nat /\ exists C x, user k C x /\ regs_fit x (c_syscall_regs C)
  | Nice i => exists C x, user k C x /\ -2147483648 <= s32 (p_priority x) + i < 2147483648
  | Tick | Resched => True
  | Create name _ junk => next_pid k < 2147483648 /\ (0 ∈ name) /\ length junk = 8192%nat
  | Launch p => p ∈ table k
  | Idle _ junk => next_pid k < 2147483648 /\ length junk = 8192%nat
  | _ => exists C x, user k C x
  end.

(** Before [process_init]: [L0] are the blocks of the heap others hold. *)
Definition initial (L0 : gmap Z Z) k : Prop :=
  procs k = ∅ /\ table k = replicate 128 0 /\ next_pid k = 1 /\ cpu_count k = 1 /\
  (exists C, cpus k !! 0%nat = Some C /\ c_id C = 0 /\ c_run_queues C = replicate 4 0 /\ c_idle_proc C = 0) /\
  km_rep (kmem k) L0 /\ sp_rep (kspaces k) ∅.

Inductive reachable (L0 : gmap Z Z) : kern M A -> Prop :=
| reach_boot k0 junk k : initial L0 k0 -> length junk = 8192%nat -> process_init 0 junk k0 = Ok (tt, k) -> reachable L0 k
| reach_call k c r k' : reachable L0 k -> call_ok c k -> run_call c k = Ok (r, k') -> reachable L0 k'.

(** Table, hash, objects, stacks, address spaces, heap and run queues agree. *)
Definition consistent (L0 : gmap Z Z) k : Prop := exists C Qs L S, kinv ∅ L0 k C Qs L S.

End Calls.

Section Safe.
Context {M A : Type} {KM : Kmalloc M} {AS : AddressSpaces A} {UL : Userland A} {SL : SpacesLaws A}.
Variable L0 : gmap Z Z.
Implicit Types k : kern M A.

(** ** The boot *)

Definition KERNEL_NAME : list Z := [107; 101; 114; 110; 101; 108; 0].

Definition boot_proc (st : Z) (nm : list Z) : process :=
  set_context (Context 0 0 0 0 0 0 0 (if st =? 0 then 0 else u32 (st + KERNEL_STACK_SIZE)) 0 0x202 0 0 0 0 0 0)
    (set_kernel_stack st (set_name nm (set_umask 18 (set_tty (-1) (set_priority 1 (set_state PROCESS_RUNNING process_zero)))))).

Lemma boot_proc_ok st nm : length nm = 16%nat -> 0 ∈ nm -> proc_ok KERNEL_PROC (boot_proc st nm).
Proof.
  intros Hl H0. split; try done.
  - split; [done|]. by left.
  - intros e He. by apply not_elem_of_nil in He.
Qed.

(** The state behind [process_init]. *)
Lemma boot_kinv k C L st nm m K : initial L0 k -> cpus k !! 0%nat = Some C -> length nm = 16%nat -> 0 ∈ nm ->
  km_rep m L -> (forall a n, L !! a = Some n <-> L0 !! a = Some n \/ (a = st /\ st <> 0 /\ n = KERNEL_STACK_SIZE)) ->
  (st <> 0 -> L0 !! st = None) -> (st <> 0 -> exists s, K !! st = Some s /\ length s = 8192%nat) ->
  kinv ∅ L0 (set_cpus (<[0%nat := set_current KERNEL_PROC C]> (cpus k)) (set_ht {[0 := KERNEL_PROC]}
    (set_ptable (<[0%nat := KERNEL_PROC]> (table k)) (set_procs {[KERNEL_PROC := boot_proc st nm]} (set_kstacks K (set_kmem m k))))))
    (set_current KERNEL_PROC C) (replicate 4 []) L ∅.
Proof.
  intros (Hp & Ht & Hn & Hcc & (C' & HC & Hid & Hrq & Hidle) & Hr & Hsp) HC' Hl H0 Hm HL Hnew HK. assert (C' = C) as -> by congruence.
  assert (forall p x, ({[KERNEL_PROC := boot_proc st nm]} : gmap Z process) !! p = Some x <-> p = KERNEL_PROC /\ x = boot_proc st nm) as Hl1.
  { intros p x. rewrite lookup_singleton_Some. naive_solver. }
  split; cbn [procs set_cpus set_ht set_ptable set_procs set_kstacks set_kmem table pid_ht next_pid kmem kspaces kstacks]; rewrite ?Ht, ?Hn; try done.
  - split; cbn [procs set_cpus set_ht set_ptable set_procs set_kstacks set_kmem cpus cpu_count]; try done.
    + apply list_lookup_insert_eq. by eapply lookup_lt_Some.
    + split; [done|cbn; by rewrite Hrq|by repeat constructor| |constructor|apply not_elem_of_nil].
      intros q l p Hq. apply lookup_replicate in Hq as [-> _]. by intros ?%not_elem_of_nil.
    + by intros p x [-> ->]%Hl1.
    + right. exists (boot_proc st nm). by apply Hl1.
    + by left.
  - intros i j p Hp0 Hi Hj. assert (forall a, (<[0%nat := KERNEL_PROC]> (replicate 128 0)) !! a = Some p -> a = 0%nat) as Hz.
    { intros a. rewrite list_lookup_insert_Some, lookup_replicate. naive_solver. }
    by rewrite (Hz i Hi), (Hz j Hj).
  - intros p Hp0. rewrite list_elem_of_lookup. split.
    + intros [[x [-> _]%Hl1] _]. by exists 0%nat.
    + intros [a Ha]. rewrite list_lookup_insert_Some, lookup_replicate in Ha. destruct Ha as [(_ & <- & _)|(_ & -> & _)]; [|done].
      split; [|done]. exists (boot_proc st nm). by apply Hl1.
  - by intros p x [-> ->]%Hl1 _.
  - by intros p x [-> ->]%Hl1.
  - by intros x [_ ->]%Hl1.
  - intros pid p. rewrite lookup_singleton_Some. split; [intros [<- <-]; exists (boot_proc st nm); by rewrite Hl1|].
    intros (x & [-> ->]%Hl1 & <- & _). done.
  - intros p x [-> ->]%Hl1. by left.
  - intros p x [-> ->]%Hl1 Hst. split; [apply HL; by right|by apply HK].
  - by intros p q x y [-> _]%Hl1 [-> _]%Hl1.
  - intros a n [?|(-> & Hst & _)]%HL; [by left|]. right. right. exists KERNEL_PROC, (boot_proc st nm). by rewrite Hl1.
  - intros a n Ha. split; [apply HL; by left|]. assert (a <> KERNEL_PROC) as HaK by (intros ->; by pose proof (km_nonnull _ _ _ _ Hr Ha)).
    split; [by rewrite lookup_singleton_None|]. intros p x [-> ->]%Hl1. cbn. intros ->. rewrite Hnew in Ha; [done|].
    intros ->. by rewrite (km_no_null _ _ Hr) in Ha.
  - by intros p x [-> ->]%Hl1.
  - by intros p q x y [-> _]%Hl1 [-> _]%Hl1.
  - by intros p x [-> ->]%Hl1.
  - intros p x [-> ->]%Hl1. by apply boot_proc_ok.
Qed.

Lemma boot_consistent k junk : initial L0 k -> length junk = 8192%nat -> wp (process_init 0 junk) (fun _ k' => consistent L0 k') k.
Proof.
  intros Hi Hj. pose proof Hi as (Hp & Ht & Hn & _ & (C & HC & _) & Hr & _). unfold process_init. apply wp_bind, wp_modify.
  destruct (kmalloc_k_ok (set_ht ∅ k) L0 KERNEL_STACK_SIZE Hr) as (st & m & E & Hc); [done|].
  assert (exists K, new_stack junk (set_ht ∅ k) = Ok (st, set_kstacks K (set_kmem m (set_ht ∅ k))) /\ (st <> 0 -> K !! st = Some junk)) as (K & E1 & HK).
  { unfold new_stack. rewrite (bind_ok _ _ _ _ _ E). destruct (Z.eqb_spec st 0) as [->|H0]; [exists (kstacks k); split; [by destruct k|done]|].
    exists (<[st := junk]> (kstacks k)). split; [done|]. intros _. apply lookup_insert_eq. }
  eapply wp_bind_ok; [exact E1|]. set (k1 := set_kstacks _ _).
  destruct (strncpy_ok (replicate 16 0) KERNEL_NAME 16 k1) as (nm & E2 & Ln & Zn & _); [repeat (try (by left); right)|done|].
  eapply wp_bind_ok; [exact E2|]. cbv zeta. apply wp_bind, wp_modify. fold (boot_proc st nm).
  set (k2 := set_procs _ k1). eapply wp_bind_ok; [apply (put_slot_ok k2 0); change (table k2) with (table k); rewrite Ht, length_replicate; lia|].
  set (k3 := set_ptable _ k2). assert (ht_insert 0 KERNEL_PROC k3 = Ok (tt, set_ht {[0 := KERNEL_PROC]} k3)) as E3.
  { unfold ht_insert, modify. change (pid_ht k3) with (∅ : gmap Z Z). by rewrite decide_True. }
  eapply wp_bind_ok; [exact E3|]. eapply wp_ok; [exact (updc_ok (set_ht {[0 := KERNEL_PROC]} k3) 0 (set_current KERNEL_PROC) C HC)|].
  set (L := if st =? 0 then L0 else <[st := KERNEL_STACK_SIZE]> L0).
  assert (km_rep m L /\ (forall a n, L !! a = Some n <-> L0 !! a = Some n \/ (a = st /\ st <> 0 /\ n = KERNEL_STACK_SIZE)) /\ (st <> 0 -> L0 !! st = None)) as (HmL & HL & Hnew).
  { unfold L. destruct Hc as [[-> Hm]|(H0 & Hnew & Hm)]; [split; [done|]; split; [naive_solver|done]|]. rewrite (proj2 (Z.eqb_neq st 0)) by lia. split; [done|].
    split; [|done]. intros a n. rewrite lookup_insert_Some. split; [naive_solver lia|]. intros [Ha|(-> & _ & ->)]; [|by left]. right. split; [congruence|done]. }
  exists (set_current KERNEL_PROC C), (replicate 4 []), L, ∅. unfold k3, k2. change (procs k1) with (procs k). rewrite Hp, insert_empty.
  eapply (boot_kinv k C L st nm m K); try done. intros H0. exists junk. by split; [apply HK|].
Qed.

(** ** The calls *)

Lemma schedule_kinv k C Qs L S : kinv ∅ L0 k C Qs L S -> wp (schedule 0) (fun _ k' => consistent L0 k') k.
Proof.
  intros Hk. eapply wp_mono; [eapply (pres_wp quiet); [pres|eapply (schedule_ok C Qs), Hk]|]. intros _ k' [(C' & Qs' & Ha) Hqu].
  exists C', Qs', L, S. eapply kinv_quiet; [exact Hk|done|apply Ha|]. intros p x Hx Hz.
  destruct (ki_zombie _ _ _ _ _ _ _ Hk p x Hx Hz) as [Hp Hi]. rewrite (ad_idle _ _ _ _ _ _ Ha). split; [|done].
  destruct (ad_running _ _ _ _ _ _ Ha) as [->|Hr]; [done|]. destruct (ad_grown _ _ _ _ _ _ Ha) as [->|[_ ->]]; [done|].
  apply not_elem_of_cons. split; [|done]. intros ->. rewrite (states_some _ _ _ Hx), Hz in Hr. discriminate.
Qed.

Lemma tick_kinv k C Qs L S : kinv ∅ L0 k C Qs L S -> wp (timer_tick 0) (fun _ k' => consistent L0 k') k.
Proof.
  intros Hk. eapply wp_mono; [eapply (pres_wp quiet); [pres|eapply (timer_tick_ok k C Qs), Hk]|]. intros _ k' [(C' & Hs & Hsame) Hqu].
  exists C', Qs, L, S. eapply kinv_quiet; [exact Hk|done|done|]. intros p x Hx Hz. rewrite (proj2 Hsame). by apply (ki_zombie _ _ _ _ _ _ _ Hk p x).
Qed.

Lemma calm_consistent {B} k C Qs L S (m : ST (kern M A) B) : wp m (fun _ k' => calm ∅ L0 C Qs L S k k') k -> wp m (fun _ k' => consistent L0 k') k.
Proof. intros Hm. eapply wp_mono; [exact Hm|]. intros _ k' [Hk _]. by exists C, Qs, L, S. Qed.

Lemma then_ret {B D} (m : ST (kern M A) B) (d : D) k : wp m (fun _ k' => consistent L0 k') k -> wp (m;; ret d) (fun _ k' => consistent L0 k') k.
Proof. intros Hm. eapply wp_step; [exact Hm|]. cbv beta. intros _ k' Hk'. by apply wp_ret. Qed.

Lemma or_sleep_ok k (m : ST (kern M A) (option Z)) : wp m (fun _ k' => consistent L0 k') k -> wp (or_sleep m) (fun _ k' => consistent L0 k') k.
Proof.
  intros Hm. eapply wp_step; [exact Hm|]. cbv beta. intros [r|] k' Hk'; [by apply wp_ret|]. apply then_ret. destruct Hk' as (C & Qs & L & S & Hk'). by eapply schedule_kinv.
Qed.

(** A new process becomes the idle process. *)
Lemma idle_kinv k C Qs L S p x : kinv ∅ L0 k C Qs L S -> procs k !! p = Some x -> p ∉ mjoin Qs -> p_state x <> PROCESS_ZOMBIE -> p <> 0 ->
  wp (scheduler_register_idle 0 p) (fun _ k' => consistent L0 k') k.
Proof.
  intros Hk Hx Hq Hz Hp0. unfold scheduler_register_idle. rewrite (proj2 (Z.eqb_neq p 0) Hp0). pose proof (ki_sched _ _ _ _ _ _ _ Hk) as Hs.
  eapply wp_ok; [exact (updc_ok k 0 (set_idle p) C (si_cpu _ _ _ Hs))|]. exists (set_idle p C), Qs, L, S.
  assert (sched_inv (set_cpus (<[0%nat := set_idle p C]> (cpus k)) k) (set_idle p C) Qs) as Hs'.
  { destruct Hs as [H1 H2 H3 H4 H5 H6 H7]. split; try done; [apply list_lookup_insert_eq; by eapply lookup_lt_Some|by destruct H4|right]. split; [eauto|done]. }
  eapply kinv_core; [exact Hk|done|exact Hs'|]. intros q y Hy Hzy. destruct (ki_zombie _ _ _ _ _ _ _ Hk q y Hy Hzy). split; [done|]. intros ->. cbn in Hy. congruence.
Qed.

Lemma launch_ok k C Qs L S p : kinv ∅ L0 k C Qs L S -> p ∈ table k -> wp (process_switch 0 p) (fun _ k' => consistent L0 k') k.
Proof.
  intros Hk Hp. unfold process_switch. destruct (Z.eqb_spec p 0) as [|Hp0]; [apply wp_ret; by exists C, Qs, L, S|].
  destruct (proj2 (ki_live _ _ _ _ _ _ _ Hk p Hp0) Hp) as [Hlive _]. pose proof (ki_sched _ _ _ _ _ _ _ Hk) as Hs.
  eapply wp_ok; [exact (updc_ok k 0 (set_current p) C (si_cpu _ _ _ Hs))|]. exists (set_current p C), Qs, L, S.
  eapply kinv_core; [exact Hk|done|eapply inv_cpu; [exact Hs|apply Hs|done|done|by right]|]. apply Hk.
Qed.

Lemma start_idle_ok k C Qs L S e junk : kinv ∅ L0 k C Qs L S -> next_pid k < 2147483648 -> length junk = 8192%nat ->
  start_idle e junk k = Err Panic \/ wp (start_idle e junk) (fun _ k' => consistent L0 k') k.
Proof.
  intros Hk Hn Hj. assert (0 ∈ IDLE_NAME) as Hname by (apply (bool_decide_unpack _); by vm_compute).
  destruct (proj1 (wp_elim _ _ _) (create_ok L0 C Qs k L S IDLE_NAME e junk Hk Hn Hname Hj)) as (p & k1 & E & Hc & _ & L' & S' & Hk1).
  unfold start_idle. destruct Hc as [->|(x & Hnone & Hx & Hpid & Hz & _)]; [left; by rewrite (bind_ok _ _ _ _ _ E)|right].
  eapply wp_bind_ok; [exact E|]. destruct (si_procs _ _ _ (ki_sched _ _ _ _ _ _ _ Hk1) p x Hx) as (Hp0 & _ & Ho). rewrite (proj2 (Z.eqb_neq p 0) Hp0). cbn [negb].
  eapply wp_bind_ok; [by apply updp_ok|]. replace (set_owner_cpu 0 x) with x by (destruct x; cbn in Ho; by subst). rewrite insert_id by done.
  replace (set_procs (procs k1) k1) with k1 by (by destruct k1). eapply idle_kinv; [exact Hk1|exact Hx| |done|done].
  intros (l & Hl & [q Hq]%list_elem_of_lookup)%list_elem_of_join.
  destruct (rq_queue _ _ _ (si_rq _ _ _ (ki_sched _ _ _ _ _ _ _ Hk)) q l p Hq Hl) as (y & Hy & _). congruence.
Qed.

Lemma user_caller k C Qs L S C' x : kinv ∅ L0 k C Qs L S -> user k C' x -> C' = C /\ caller ∅ k C x /\ self C = c_current C /\ c_current C <> c_idle_proc C.
Proof.
  intros Hk (HC & H0 & HK & Hi & Hx & Hz). pose proof (si_cpu _ _ _ (ki_sched _ _ _ _ _ _ _ Hk)) as E. assert (C' = C) as -> by congruence.
  split; [done|]. assert (caller ∅ k C x) as Hc by (by split_and!). split; [done|]. split; [by eapply caller_self|done].
Qed.

Lemma fork_case k C Qs L S ra lo junk : kinv ∅ L0 k C Qs L S -> call_ok (Fork ra lo junk) k ->
  wp (sys_fork_wrap 0 ra lo junk) (fun _ k' => consistent L0 k') k.
Proof.
  intros Hk (Hn & Hj & C' & x & Hu & Hfit). destruct (user_caller _ _ _ _ _ _ _ Hk Hu) as (-> & (_ & _ & _ & Hx & _) & Es & _).
  unfold sys_fork_wrap. eapply wp_bind_ok; [by eapply calm_getc, calm_start|]. rewrite <- Es in Hx.
  eapply wp_mono; [by eapply (fork_ok L0 C Qs k L S x)|]. intros r k' (C' & Qs' & L' & S' & Hk' & _). by exists C', Qs', L', S'.
Qed.

Lemma exit_case k C Qs L S status C' x : kinv ∅ L0 k C Qs L S -> user k C' x -> wp (sys_exit 0 status) (fun _ k' => consistent L0 k') k.
Proof.
  intros Hk Hu. destruct (user_caller _ _ _ _ _ _ _ Hk Hu) as (-> & _ & _ & Hi). unfold sys_exit.
  eapply wp_step; [by eapply exit_ok|]. cbv beta. intros _ k1 (C1 & Qs1 & Hk1 & _). by eapply schedule_kinv.
Qed.

Lemma handler_case k C Qs L S sig h : kinv ∅ L0 k C Qs L S -> wp (sys_signal 0 sig h) (fun _ k' => calm ∅ L0 C Qs L S k k') k.
Proof.
  intros Hk. pose proof (calm_start _ _ _ _ _ _ _ Hk) as Hcalm. unfold sys_signal. destruct (_ || _); [by apply wp_ret|]. destruct (_ && _); [by apply wp_ret|].
  eapply wp_bind_ok; [by eapply calm_self|]. eapply calm_set_handler; [done|by eapply self_exists].
Qed.

Lemma cred_case k C Qs L S i : kinv ∅ L0 k C Qs L S ->
  wp (sys_setuid 0 i) (fun _ k' => calm ∅ L0 C Qs L S k k') k /\ wp (sys_setgid 0 i) (fun _ k' => calm ∅ L0 C Qs L S k k') k /\
  wp (sys_seteuid 0 i) (fun _ k' => calm ∅ L0 C Qs L S k k') k /\ wp (sys_setegid 0 i) (fun _ k' => calm ∅ L0 C Qs L S k k') k.
Proof.
  intros Hk. pose proof (calm_start _ _ _ _ _ _ _ Hk) as Hcalm. pose proof (self_exists _ _ _ _ _ _ _ _ Hcalm) as Hself.
  split_and!; (eapply wp_bind_ok; [by eapply calm_self|]); by apply (calm_creds ∅ L0 C Qs L S k k (self C) i).
Qed.

Lemma nice_case k C Qs L S i : kinv ∅ L0 k C Qs L S -> call_ok (Nice i) k -> wp (sys_nice 0 i) (fun _ k' => calm ∅ L0 C Qs L S k k') k.
Proof.
  intros Hk (C' & x & Hu & Hi). destruct (user_caller _ _ _ _ _ _ _ Hk Hu) as (-> & (_ & _ & _ & Hx & _) & Es & _).
  eapply calm_nice; [by apply calm_start|]. intros y Hy. rewrite Es in Hy. by simplify_eq.
Qed.

(** Every call returns and keeps the state consistent; only the boot can stop
    in a panic, without memory for an idle process. *)
Lemma call_returns k c : consistent L0 k -> call_ok c k ->
  (run_call c k = Err Panic /\ exists e junk, c = Idle e junk) \/ wp (run_call c) (fun _ k' => consistent L0 k') k.
Proof.
  intros (C & Qs & L & S & Hk) Hok. pose proof (calm_start _ _ _ _ _ _ _ Hk) as Hcalm.
  destruct c as [ra lo junk|status|pid ptr opts|pid ptr|pid sig|sig h|i|i|i|i|pid pgid| |fd pg|i| | |name e junk|p|e junk]; cbn [run_call] in *;
    match goal with |- context [start_idle] => idtac | _ => right end.
  - by eapply fork_case.
  - destruct Hok as (C' & x & Hu). apply then_ret. by eapply exit_case.
  - destruct Hok as (C' & x & Hu). destruct (user_caller _ _ _ _ _ _ _ Hk Hu) as (-> & Hc & _). apply or_sleep_ok.
    eapply wp_mono; [by eapply waitpid_ok|]. intros o k' (L' & S' & Hk' & _). by exists C, Qs, L', S'.
  - destruct Hok as (C' & x & Hu). destruct (user_caller _ _ _ _ _ _ _ Hk Hu) as (-> & Hc & _). apply or_sleep_ok.
    eapply wp_mono; [by eapply resume_ok|]. intros o k' (L' & S' & Hk'). by exists C, Qs, L', S'.
  - by eapply calm_consistent, calm_send.
  - by eapply calm_consistent, handler_case.
  - destruct (cred_case k C Qs L S i Hk) as (H & _). by eapply calm_consistent.
  - destruct (cred_case k C Qs L S i Hk) as (_ & H & _). by eapply calm_consistent.
  - destruct (cred_case k C Qs L S i Hk) as (_ & _ & H & _). by eapply calm_consistent.
  - destruct (cred_case k C Qs L S i Hk) as (_ & _ & _ & H). by eapply calm_consistent.
  - by eapply calm_consistent, calm_setpgid.
  - by eapply calm_consistent, calm_setsid.
  - by eapply calm_consistent, calm_tcsetpgrp.
  - by eapply calm_consistent, nice_case.
  - eapply wp_step; [by eapply calm_alarm|]. cbv beta. intros _ k1 [Hk1 _]. apply then_ret. by eapply tick_kinv.
  - apply then_ret. by eapply schedule_kinv.
  - destruct Hok as (Hn & H0 & Hj). eapply wp_mono; [by eapply create_ok|]. intros r k' (_ & _ & L' & S' & Hk'). by exists C, Qs, L', S'.
  - apply then_ret. by eapply launch_ok.
  - destruct Hok as (Hn & Hj). destruct (start_idle_ok k C Qs L S e junk Hk Hn Hj) as [E|Hw]; [left|right; by apply then_ret].
    split; [by rewrite (bind_err _ _ _ _ E)|eauto].
Qed.

Lemma reachable_consistent k : reachable L0 k -> consistent L0 k.
Proof.
  induction 1 as [k0 junk k Hi Hj E|k c r k' _ IH Hok E].
  - destruct (proj1 (wp_elim _ _ _) (boot_consistent k0 junk Hi Hj)) as ([] & k1 & E1 & Hk). congruence.
  - destruct (call_returns k c IH Hok) as [[E' _]|Hw]; [congruence|].
    destruct (proj1 (wp_elim _ _ _) Hw) as (r1 & k1 & E1 & Hk). congruence.
Qed.



Lemma forked_child k Qs ra lo regs p x Qs' r k' : forked (M := M) (A := A) Qs ra lo regs p x Qs' r k k' ->
  exists c y, procs k' !! c = Some y /\ pid_ht k' !! r = Some c /\ p_euid y = 0 /\ p_uid y = p_uid x.
Proof.
  intros (-> & _ & c & nm & cwd & st & m & s & _ & Hlike & _ & _ & _ & Hht & _). exists c. pose proof (Hlike c) as E. rewrite lookup_insert_eq in E. cbn in E.
  apply fmap_Some in E as (y & Hy & Ey). exists y. split; [done|]. split; [done|].
  split; [exact (eq_sym (f_equal p_euid Ey))|exact (eq_sym (f_equal p_uid Ey))].
Qed.

(** C24: Whatever the ids of the parent are, the child of a fork has the
    effective user id 0, and may become any user. *)
Theorem fork_gives_root k C x ra lo junk r k' uid : reachable L0 k -> user k C x -> next_pid k < 2147483648 -> length junk = 8192%nat ->
  regs_fit x (c_syscall_regs C) -> sys_fork_wrap 0 ra lo junk k = Ok (r, k') -> 0 < r ->
  exists c y, pid_ht k' !! r = Some c /\ procs k' !! c = Some y /\ p_uid y = p_uid x /\ p_euid y = 0 /\
    exists k'', cred_set_uid c uid k' = Ok (0, k'').
Proof.
  intros Hr Hu Hn Hj Hfit E Hpos. destruct (reachable_consistent k Hr) as (C0 & Qs & L & S & Hk).
  destruct (user_caller _ _ _ _ _ _ _ Hk Hu) as (<- & (_ & _ & _ & Hx & _) & Es & _). rewrite <- Es in Hx.
  destruct (proj1 (wp_elim _ _ _) (fork_ok L0 C Qs k L S x ra lo junk (c_syscall_regs C) Hk Hx Hn Hfit Hj)) as (r1 & k1 & E1 & C' & Qs' & L' & S' & Hk' & _ & _ & Hc).
  unfold sys_fork_wrap in E. rewrite (bind_ok _ _ _ _ _ (calm_getc _ _ _ _ _ _ _ _ (calm_start _ _ _ _ _ _ _ Hk))), E1 in E. injection E as -> ->.
  destruct Hc as [[? _]|Hf]; [lia|]. destruct (forked_child _ _ _ _ _ _ _ _ _ _ Hf) as (c & y & Hy & Hht & Heu & Huid). exists c, y.
  split; [done|]. split; [done|]. split; [done|]. split; [done|]. destruct (si_procs _ _ _ (ki_sched _ _ _ _ _ _ _ Hk') c y Hy) as (Hc0 & _).
  unfold cred_set_uid. rewrite (proj2 (Z.eqb_neq c 0) Hc0), (bind_ok _ _ _ _ _ (getp_ok k' c y Hy)), Heu.
  change (0 =? 0) with true. cbv iota. rewrite (bind_ok _ _ _ _ _ (updp_ok k' c _ y Hy)). eauto.
Qed.


End Safe.

(** ** Example states *)

(** Address spaces that are numbered and hold nothing. *)
Record spaces := Spaces { sp_next : Z; sp_live : gset Z }.

Definition new_space : ST spaces Z := fun a => Ok (sp_next a, Spaces (sp_next a + 1) ({[sp_next a]} ∪ sp_live a)).

#[local] Instance numbered_spaces : AddressSpaces spaces := {|
  as_dir _ m := m; as_create := new_space; as_clone _ := new_space;
  as_destroy m := modify (fun a => Spaces (sp_next a) (sp_live a ∖ {[m]})) |}.

#[local] Instance numbered_user : Userland spaces := {| copy_to_user_a _ _ := ret 0; open_file_incref_a _ := ret tt |}.

Definition numbered (a : spaces) (S : gset Z) : Prop := sp_live a = S /\ 0 < sp_next a /\ forall m, m ∈ S -> m < sp_next a.

Lemma new_space_ok a S : numbered a S -> exists m a', new_space a = Ok (m, a') /\
  ((m = 0 /\ numbered a' S) \/ (m <> 0 /\ m ∉ S /\ numbered a' ({[m]} ∪ S))).
Proof.
  intros (<- & H0 & HS). do 2 eexists. split; [done|]. right. split; [lia|]. split; [intros ?%HS; lia|]. split; [done|]. split; [cbn; lia|].
  intros m. rewrite elem_of_union, elem_of_singleton. cbn. intros [->|?%HS]; lia.
Qed.

#[local] Instance numbered_laws : SpacesLaws spaces.
Proof.
  refine {| sp_rep := numbered |}.
  - apply new_space_ok.
  - intros a S src Ha _. by apply new_space_ok.
  - intros a S m (<- & H0 & HS) Hm. eexists. split; [done|]. split; [done|]. split; [done|]. intros q [Hq _]%elem_of_difference. by apply HS.
  - intros a S p b Ha. by exists 0, a.
  - intros a S i Ha _. by exists a.
Defined.

Definition example_initial : kern arena spaces :=
  Kern ∅ (replicate 128 0) ∅ 1 [Cpu 0 0 (replicate 4 0) 0 0 0 0 0 0 0 0] 1 0 0 0 arena_init (Spaces 1 ∅) ∅ ∅ [].

Definition example_junk : list Z := replicate (Z.to_nat 8192) 0.

Definition after {B} (m : ST (kern arena spaces) B) (k : kern arena spaces) : kern arena spaces :=
  match m k with Ok (_, k') => k' | Err _ => k end.

(** Process 1 is made and launched; it forks process 2, which exits. *)
Definition example_boot : kern arena spaces := after (process_init 0 example_junk) example_initial.
Definition example_created : kern arena spaces := after (run_call (Create [105; 0] 16 example_junk)) example_boot.
Definition example_running : kern arena spaces := after (run_call (Launch (default 0 (pid_ht example_created !! 1)))) example_created.
Definition example_plain : kern arena spaces := after (run_call (Setuid 1000)) example_running.
Definition example_escaped : kern arena spaces := after (run_call (Fork 64 5 example_junk)) example_plain.
Definition example_forked : kern arena spaces := after (run_call (Fork 64 5 example_junk)) example_running.
Definition example_child : kern arena spaces := after (run_call (Launch (default 0 (pid_ht example_forked !! 2)))) example_forked.
Definition example_exited : kern arena spaces := after (run_call (Exit 3)) example_child.
Definition example_waiting : kern arena spaces := after (run_call (Launch (default 0 (pid_ht example_exited !! 1)))) example_exited.

(** The process on the CPU. *)
Definition the_cpu (k : kern arena spaces) : cpu := default (Cpu 0 0 [] 0 0 0 0 0 0 0 0) (head (cpus k)).
Definition the_user (k : kern arena spaces) : process := default process_zero (procs k !! c_current (the_cpu k)).

Definition userb (k : kern arena spaces) : bool :=
  bool_decide (cpus k <> []) && bool_decide (is_Some (procs k !! c_current (the_cpu k))) && negb (c_current (the_cpu k) =? 0) &&
  negb (c_current (the_cpu k) =? KERNEL_PROC) && negb (c_current (the_cpu k) =? c_idle_proc (the_cpu k)) &&
  negb (p_state (the_user k) =? PROCESS_ZOMBIE).

Lemma userb_ok k : userb k = true -> user k (the_cpu k) (the_user k).
Proof.
  unfold userb. intros Hb. bool_case. repeat match goal with H : bool_decide _ = true |- _ => apply bool_decide_eq_true in H end.
  unfold user, the_user in *. destruct (cpus k) as [|C l] eqn:E; [done|]. split; [unfold the_cpu; by rewrite E|].
  destruct (procs k !! c_current (the_cpu k)) as [y|] eqn:Hy; [done|].
  match goal with H : is_Some None |- _ => by destruct H end.
Qed.

Lemma reach_after k c : reachable ∅ k -> call_ok c k -> (forall e junk, c <> Idle e junk) -> reachable ∅ (after (run_call c) k).
Proof.
  intros Hr Hok Hc. destruct (call_returns ∅ k c (reachable_consistent ∅ k Hr) Hok) as [[_ (e & junk & ->)]|Hw]; [by edestruct Hc|].
  destruct (proj1 (wp_elim _ _ _) Hw) as (r & k' & E & _). eapply reach_call; [exact Hr|exact Hok|]. unfold after. by rewrite E.
Qed.

Lemma example_boot_reachable : reachable ∅ example_boot.
Proof.
  eapply (reach_boot _ example_initial example_junk).
  - split; [done|]. split; [done|]. split; [done|]. split; [done|]. split; [eexists; by split_and!|]. split; [apply arena_init_rep|].
    split; [done|]. split; [done|]. intros m Hm. by apply not_elem_of_empty in Hm.
  - by vm_compute.
  - vm_compute. reflexivity.
Qed.

Lemma example_running_reachable : reachable ∅ example_running.
Proof.
  apply reach_after; [|by vm_compute; right; left|done]. apply reach_after; [apply example_boot_reachable| |done].
  split; [by vm_compute|]. split; [by right; left|by vm_compute].
Qed.

Lemma regs_none x : p_kernel_stack x > 0 -> regs_fit x 0.
Proof. intros H. left. lia. Qed.

Lemma example_fork_ok : call_ok (Fork 64 5 example_junk) example_running.
Proof.
  split; [by vm_compute|]. split; [by vm_compute|]. exists (the_cpu example_running), (the_user example_running).
  split; [apply userb_ok; by vm_compute|]. change (c_syscall_regs (the_cpu example_running)) with 0. apply regs_none. by vm_compute.
Qed.

Lemma example_waiting_reachable : reachable ∅ example_waiting.
Proof.
  apply reach_after; [|by vm_compute; right; left|done].
  apply reach_after; [|exists (the_cpu example_child), (the_user example_child); apply userb_ok; by vm_compute|done].
  apply reach_after; [|by vm_compute; right; right; left|done]. apply reach_after; [apply example_running_reachable|apply example_fork_ok|done].
Qed.



(** The child of user 1000. *)
Lemma fork_gives_root_witness : exists c y, pid_ht example_escaped !! 2 = Some c /\ procs example_escaped !! c = Some y /\
  p_uid y = 1000 /\ p_euid y = 0 /\ exists k'', cred_set_uid c 500 example_escaped = Ok (0, k'').
Proof.
  assert (user example_plain (the_cpu example_plain) (the_user example_plain)) as Hu by (apply userb_ok; by vm_compute).
  assert (p_uid (the_user example_plain) = 1000) as <- by (by vm_compute).
  apply (fork_gives_root ∅ example_plain (the_cpu example_plain) (the_user example_plain) 64 5 example_junk 2 example_escaped 500).
  - apply reach_after; [apply example_running_reachable| |done]. exists (the_cpu example_running), (the_user example_running). apply userb_ok. by vm_compute.
  - exact Hu.
  - by vm_compute.
  - by vm_compute.
  - apply regs_none. by vm_compute.
  - vm_compute. reflexivity.
  - lia.
Defined.

