(* ===== verification/Pipe.v ===== *)
(** * Pipes

    Models ipc/pipe.c.  [pipe->lock] makes the code between acquiring and
    releasing it atomic, so a read or a write is a sequence of passes under
    the lock: the pass that enters the function and the passes that resume
    after [schedule()] inside [wait_event_locked].  A pass either returns a
    result or goes to sleep on the wait queue.  The theorems show, for every
    interleaving of passes of any number of readers and writers, that the pipe
    is a FIFO byte stream and that no wakeup is lost. *)

From stdpp Require Import base tactics numbers list gmap.
From S2P Require Import Prelude Fd.

Definition PIPE_BUF := 4096.
Definition PIPE_MAX_SIZE := 65536.

(** A wait queue: the processes asleep on it, last one first. *)
Record pipe_buffer := PipeBuffer {
  p_data : list Z;
  p_size : Z;
  p_read_pos : Z;
  p_write_pos : Z;
  p_count : Z;
  p_readers : Z;
  p_writers : Z;
  p_flags : Z;
  p_rd_wq : list Z;
  p_wr_wq : list Z
}.

Definition pipe_zero (data : list Z) (size : Z) : pipe_buffer :=
  PipeBuffer data size 0 0 0 0 0 0 [] [].

(** [kmalloc1] and [kmalloc2] are the results of the two allocations: [None]
    for NULL, the contents of the new memory otherwise. *)
Definition pipe_create_buffer (size : Z) (kmalloc1 : bool) (kmalloc2 : Z -> option (list Z))
    : option pipe_buffer :=
  let size := if PIPE_MAX_SIZE <? size then PIPE_MAX_SIZE else size in
  let size := if size <? PIPE_BUF then PIPE_BUF else size in
  if negb kmalloc1 then None
  else match kmalloc2 size with
       | None => None
       | Some data => Some (pipe_zero data size)
       end.

(** What a pass under the lock ends with: a result, the bytes delivered to the
    caller's buffer and whether SIGPIPE was sent; or sleep. *)
Inductive outcome :=
| Return (r : Z) (bytes : list Z) (sigpipe : bool)
| Sleep.

Definition set_read (rp cnt : Z) (p : pipe_buffer) : pipe_buffer :=
  PipeBuffer (p_data p) (p_size p) rp (p_write_pos p) cnt (p_readers p) (p_writers p)
    (p_flags p) (p_rd_wq p) (p_wr_wq p).
Definition set_write (d : list Z) (wp cnt : Z) (p : pipe_buffer) : pipe_buffer :=
  PipeBuffer d (p_size p) (p_read_pos p) wp cnt (p_readers p) (p_writers p)
    (p_flags p) (p_rd_wq p) (p_wr_wq p).
Definition set_wqs (rd wr : list Z) (p : pipe_buffer) : pipe_buffer :=
  PipeBuffer (p_data p) (p_size p) (p_read_pos p) (p_write_pos p) (p_count p) (p_readers p)
    (p_writers p) (p_flags p) rd wr.
Definition set_ends (r w : Z) (p : pipe_buffer) : pipe_buffer :=
  PipeBuffer (p_data p) (p_size p) (p_read_pos p) (p_write_pos p) (p_count p) r w
    (p_flags p) (p_rd_wq p) (p_wr_wq p).

Definition wake_rd : ST pipe_buffer unit := modify (fun p => set_wqs [] (p_wr_wq p) p).
Definition wake_wr : ST pipe_buffer unit := modify (fun p => set_wqs (p_rd_wq p) [] p).

(** The copy at the end of a read, and the wakeup of the writers. *)
Definition pipe_read_copy (count : Z) : ST pipe_buffer outcome :=
  p ← gets id;
  let to_read := if count <? p_count p then count else p_count p in
  let first := p_size p - p_read_pos p in
  let first := if to_read <? first then to_read else first in
  b1 ← copy_out (p_data p) (p_read_pos p) first;
  b2 ← (if first <? to_read then copy_out (p_data p) 0 (to_read - first) else ret []);
  modify (set_read ((p_read_pos p + to_read) mod p_size p) (p_count p - to_read));;
  (if 0 <? to_read then wake_wr else ret tt);;
  ret (Return to_read (b1 ++ b2) false).

(** The loop [while (pipe->count == 0)], for the process [cur] that has a
    signal pending or not. *)
Definition pipe_read_loop (cur count : Z) (pending : bool) : ST pipe_buffer outcome :=
  p ← gets id;
  if p_count p =? 0 then
    if p_writers p =? 0 then ret (Return 0 [] false)
    else if negb (Z.land (p_flags p) O_NONBLOCK =? 0) then ret (Return (- EAGAIN) [] false)
    else if pending then ret (Return (- EINTR) [] false)
    else
      modify (set_wqs (cur :: p_rd_wq p) (p_wr_wq p));;
      ret Sleep
  else pipe_read_copy count.

Definition pipe_read_buffer (cur count : Z) (pending : bool) : ST pipe_buffer outcome :=
  p ← gets id;
  if (p_writers p =? 0) && (p_count p =? 0) then ret (Return 0 [] false)
  else pipe_read_loop cur count pending.

(** A reader that was scheduled again: [wait_queue_finish], then the condition
    of [wait_event_locked], then the loop. *)
Definition pipe_read_resume (cur count : Z) (pending : bool) : ST pipe_buffer outcome :=
  modify (fun p => set_wqs (filter (fun q => q <> cur) (p_rd_wq p)) (p_wr_wq p) p);;
  p ← gets id;
  if (0 <? p_count p) || (p_writers p =? 0) then pipe_read_loop cur count pending
  else modify (set_wqs (cur :: p_rd_wq p) (p_wr_wq p));; ret Sleep.

Definition pipe_write_copy (buf : list Z) : ST pipe_buffer outcome :=
  p ← gets id;
  let count := Z.of_nat (length buf) in
  let available := p_size p - p_count p in
  let to_write := if count <? available then count else available in
  let first := p_size p - p_write_pos p in
  let first := if to_write <? first then to_write else first in
  d ← copy_in (p_data p) (p_write_pos p) (take (Z.to_nat first) buf);
  d ← (if first <? to_write
       then copy_in d 0 (take (Z.to_nat (to_write - first)) (drop (Z.to_nat first) buf))
       else ret d);
  modify (set_write d ((p_write_pos p + to_write) mod p_size p) (p_count p + to_write));;
  (if 0 <? to_write then wake_rd else ret tt);;
  ret (Return to_write [] false).

Definition pipe_write_loop (cur : Z) (buf : list Z) (pending : bool) : ST pipe_buffer outcome :=
  p ← gets id;
  if p_count p =? p_size p then
    if p_readers p =? 0 then ret (Return (- EPIPE) [] true)
    else if negb (Z.land (p_flags p) O_NONBLOCK =? 0) then ret (Return (- EAGAIN) [] false)
    else if pending then ret (Return (- EINTR) [] false)
    else
      modify (set_wqs (p_rd_wq p) (cur :: p_wr_wq p));;
      ret Sleep
  else pipe_write_copy buf.

Definition pipe_write_buffer (cur : Z) (buf : list Z) (pending : bool) : ST pipe_buffer outcome :=
  p ← gets id;
  if p_readers p =? 0 then ret (Return (- EPIPE) [] true)
  else pipe_write_loop cur buf pending.

Definition pipe_write_resume (cur : Z) (buf : list Z) (pending : bool) : ST pipe_buffer outcome :=
  modify (fun p => set_wqs (p_rd_wq p) (filter (fun q => q <> cur) (p_wr_wq p)) p);;
  p ← gets id;
  if (p_count p <? p_size p) || (p_readers p =? 0) then pipe_write_loop cur buf pending
  else modify (set_wqs (p_rd_wq p) (cur :: p_wr_wq p));; ret Sleep.

(** The locked part of a close and the two wakeups; [true] when the last end
    is gone. *)
Definition pipe_close_end (is_write_end : bool) : ST pipe_buffer bool :=
  modify (fun p => if is_write_end then set_ends (p_readers p) (u32 (p_writers p - 1)) p
                   else set_ends (u32 (p_readers p - 1)) (p_writers p) p);;
  p ← gets id;
  wake_rd;; wake_wr;;
  ret ((p_readers p =? 0) && (p_writers p =? 0)).

(** ** The registry and the system calls *)

(** [pipe_table] stands for the hash table of pipes, which refines a finite
    map; [cur_fds] is the fd table of the current process, [None] when there
    is no current process. *)
Record pipe_registry := PipeRegistry {
  pipe_table : gmap Z pipe_buffer;
  next_pipe_id : Z;
  active_pipes : Z;
  cur_fds : option (list proc_fd)
}.

Definition pipe_registry_init (r : pipe_registry) : pipe_registry :=
  PipeRegistry ∅ 1 0 (cur_fds r).

Definition set_table (t : gmap Z pipe_buffer) (r : pipe_registry) : pipe_registry :=
  PipeRegistry t (next_pipe_id r) (active_pipes r) (cur_fds r).
Definition set_fds (t : list proc_fd) (r : pipe_registry) : pipe_registry :=
  PipeRegistry (pipe_table r) (next_pipe_id r) (active_pipes r) (Some t).

Definition pipe_allocate_id (pipe : pipe_buffer) : ST pipe_registry Z :=
  r ← gets id;
  let pipe_id := next_pipe_id r in
  modify (fun r => PipeRegistry (pipe_table r) (u32 (pipe_id + 1)) (active_pipes r) (cur_fds r));;
  match pipe_table r !! pipe_id with
  | Some _ => ret (-1)
  | None =>
      modify (fun r => PipeRegistry (<[pipe_id := pipe]> (pipe_table r)) (next_pipe_id r)
                         (u32 (active_pipes r + 1)) (cur_fds r));;
      ret (s32 pipe_id)
  end.

Definition pipe_registry_remove (pipe_id : Z) : ST pipe_registry unit :=
  modify (fun r => PipeRegistry (delete (u32 pipe_id) (pipe_table r)) (next_pipe_id r)
                     (u32 (active_pipes r - 1)) (cur_fds r)).

Definition pipe_registry_lookup (pipe_id : Z) : ST pipe_registry (option pipe_buffer) :=
  gets (fun r => pipe_table r !! pipe_id).

(** The loop over the descriptors from [i] on, [n] of them left; [found] are
    the slots taken so far. *)
Fixpoint pipe_find_fds (n : nat) (i pipe_id : Z) (found : list Z) (t : list proc_fd)
    : ST pipe_registry (list Z * list proc_fd) :=
  match n with
  | O => ret (found, t)
  | S n' =>
      if (length found <? 2)%nat then
        fd ← rd t i;
        if (of_idx fd =? 0) && (fd_flags fd =? 0) then
          let flags := if (length found =? 0)%nat then O_RDONLY else O_WRONLY in
          t ← wr t i (ProcFd (u32 (PIPE_FD_BASE + pipe_id)) 0 flags 1);
          pipe_find_fds n' (i + 1) pipe_id (found ++ [i]) t
        else pipe_find_fds n' (i + 1) pipe_id found t
      else ret (found, t)
  end.

(** [fd_table[i].of_idx = 0; fd_table[i].flags = 0] for the slots [l]. *)
Fixpoint clear_fds (l : list Z) (t : list proc_fd) : ST pipe_registry (list proc_fd) :=
  match l with
  | [] => ret t
  | i :: l' =>
      fd ← rd t i;
      t ← wr t i (ProcFd 0 (fd_offset fd) 0 (fd_refcount fd));
      clear_fds l' t
  end.

(** Returns the result and the two descriptors stored at [pipefd].  [cret] is
    what [copy_to_user] returns. *)
Definition sys_pipe (pipefd : Z) (kmalloc1 : bool) (kmalloc2 : Z -> option (list Z)) (cret : Z)
    : ST pipe_registry (Z * list Z) :=
  if pipefd =? 0 then ret (- EINVAL, [])
  else
    match pipe_create_buffer PIPE_BUF kmalloc1 kmalloc2 with
    | None => ret (- ENOMEM, [])
    | Some pipe =>
        pipe_id ← pipe_allocate_id pipe;
        if pipe_id <? 0 then ret (- EMFILE, [])
        else
          r ← gets id;
          match cur_fds r with
          | None => pipe_registry_remove pipe_id;; ret (- ESRCH, [])
          | Some t =>
              ft ← pipe_find_fds (Z.to_nat (MAX_OPEN_FILES - 3)) 3 pipe_id [] t;
              let '(fds, t) := ft in
              if (length fds <? 2)%nat then
                t ← clear_fds fds t;
                modify (set_fds t);;
                pipe_registry_remove pipe_id;;
                ret (- EMFILE, [])
              else
                modify (set_fds t);;
                modify (fun r => set_table (alter (set_ends 1 1) pipe_id (pipe_table r)) r);;
                if cret <? 0 then
                  t ← clear_fds fds t;
                  modify (set_fds t);;
                  pipe_registry_remove pipe_id;;
                  ret (cret, [])
                else ret (0, fds)
          end
    end.

(** Result and [*pipe_id]. *)
Definition is_pipe_fd (fd : Z) : ST pipe_registry (Z * option Z) :=
  if MAX_OPEN_FILES <=? fd then ret (0, None)
  else
    r ← gets id;
    match cur_fds r with
    | None => fail Undef
    | Some t =>
        e ← rd t fd;
        let node_idx := of_idx e in
        if (PIPE_FD_BASE <=? node_idx) && negb (node_idx =? CONSOLE_INODE_MAGIC)
        then ret (1, Some (s32 (node_idx - PIPE_FD_BASE))) else ret (0, None)
    end.

(** An operation on the pipe a lookup found. *)
Definition on_pipe {A} (pipe_id : Z) (m : ST pipe_buffer A) : ST pipe_registry A := fun r =>
  match pipe_table r !! pipe_id with
  | None => Err Undef
  | Some p => match m p with
              | Ok (a, p') => Ok (a, set_table (<[pipe_id := p']> (pipe_table r)) r)
              | Err e => Err e
              end
  end.

(** The copy to the user buffer that ends a read. *)
Definition finish_read (cret : Z) (o : outcome) : outcome :=
  match o with
  | Return n bytes s => if (0 <? n) && (cret <? 0) then Return cret [] s else o
  | Sleep => Sleep
  end.

(** [kmalloc_ok] says whether the bounce buffer was allocated. *)
Definition pipe_read_by_id (cur pipe_id count : Z) (pending : bool) (kmalloc_ok : Z -> bool)
    (cret : Z) : ST pipe_registry outcome :=
  p ← pipe_registry_lookup pipe_id;
  match p with
  | None => ret (Return (- EBADF) [] false)
  | Some _ =>
      if negb (kmalloc_ok count) then ret (Return (- ENOMEM) [] false)
      else o ← on_pipe pipe_id (pipe_read_buffer cur count pending); ret (finish_read cret o)
  end.

Definition pipe_write_by_id (cur pipe_id : Z) (buf : list Z) (pending : bool)
    (kmalloc_ok : Z -> bool) (cret : Z) : ST pipe_registry outcome :=
  p ← pipe_registry_lookup pipe_id;
  match p with
  | None => ret (Return (- EBADF) [] false)
  | Some _ =>
      if negb (kmalloc_ok (Z.of_nat (length buf))) then ret (Return (- ENOMEM) [] false)
      else if cret <? 0 then ret (Return cret [] false)
      else on_pipe pipe_id (pipe_write_buffer cur buf pending)
  end.

Definition pipe_close_by_id (pipe_id : Z) (is_write_end : bool) : ST pipe_registry Z :=
  p ← pipe_registry_lookup pipe_id;
  match p with
  | None => ret (- EBADF)
  | Some _ =>
      last ← on_pipe pipe_id (pipe_close_end is_write_end);
      (if (last : bool) then pipe_registry_remove pipe_id else ret tt);;
      ret 0
  end.

(** ** Invariant *)

Record pipe_wf (p : pipe_buffer) : Prop := {
  pw_size : 0 < p_size p;
  pw_data : Z.of_nat (length (p_data p)) = p_size p;
  pw_rpos : 0 <= p_read_pos p < p_size p;
  pw_count : 0 <= p_count p <= p_size p;
  pw_wpos : p_write_pos p = (p_read_pos p + p_count p) mod p_size p
}.

(** The bytes in flight. *)
Definition p_contents (p : pipe_buffer) : list Z :=
  ring_get (p_data p) (p_read_pos p) (p_count p).

(** Whoever sleeps has a reason to: a sleeping reader means an empty pipe that
    still has writers, a sleeping writer a full pipe that still has readers. *)
Definition wq_ok (p : pipe_buffer) : Prop :=
  (p_rd_wq p <> [] -> p_count p = 0 /\ p_writers p <> 0) /\
  (p_wr_wq p <> [] -> p_count p = p_size p /\ p_readers p <> 0).

Lemma min_if a b : (if a <? b then a else b) = Z.min a b.
Proof. destruct (Z.ltb_spec a b); lia. Qed.

Lemma length_p_contents p : pipe_wf p -> Z.of_nat (length (p_contents p)) = p_count p.
Proof. intros []. unfold p_contents. rewrite length_ring_get. lia. Qed.

(** What a pass does: [acc] bytes enter the pipe, [del] bytes leave it. *)
Definition pass_ok (p p' : pipe_buffer) (acc del : list Z) : Prop :=
  pipe_wf p' /\ (wq_ok p -> wq_ok p') /\ p_contents p ++ acc = del ++ p_contents p' /\
  p_size p' = p_size p.

Lemma pass_ok_refl p : pipe_wf p -> pass_ok p p [] [].
Proof. intros. split_and!; try done. by rewrite app_nil_r. Qed.

Lemma read_copy_ok p n :
  pipe_wf p -> 0 <= n ->
  exists p', pipe_read_copy n p =
      Ok (Return (Z.min n (p_count p)) (take (Z.to_nat n) (p_contents p)) false, p') /\
    pass_ok p p' [] (take (Z.to_nat n) (p_contents p)) /\
    p_contents p' = drop (Z.to_nat n) (p_contents p) /\
    p_readers p' = p_readers p /\ p_writers p' = p_writers p.
Proof.
  intros Hwf Hn. pose proof Hwf as [Hs Hd Hr Hc Hw].
  unfold pipe_read_copy. run. unfold id. rewrite !min_if.
  set (k := Z.min n (p_count p)). assert (Hk : k = Z.min n (p_count p)) by done. clearbody k.
  erewrite bind_ok by (apply copy_out_ok; lia).
  set (f := Z.min k (p_size p - p_read_pos p)). assert (Hf : f = Z.min k (p_size p - p_read_pos p)) by done.
  clearbody f.
  assert ((if f <? k then copy_out (p_data p) 0 (k - f) else ret []) p =
    Ok (take (Z.to_nat (k - f)) (p_data p), p)) as E2.
  { destruct (Z.ltb_spec f k); [rewrite copy_out_ok by lia; done|].
    replace (Z.to_nat (k - f)) with 0%nat by lia. done. }
  rewrite (bind_ok _ _ _ _ _ E2). run.
  pose proof (ring_get_two (p_data p) (p_read_pos p) k ltac:(lia) ltac:(lia)) as Hring.
  rewrite Hd in Hring. rewrite <- Hf in Hring.
  assert (ring_get (p_data p) (p_read_pos p) k = take (Z.to_nat n) (p_contents p)) as Htake.
  { unfold p_contents. replace (p_count p) with (k + (p_count p - k)) by lia.
    rewrite ring_get_app by lia. destruct (decide (n <= p_count p)).
    - rewrite take_app_length'; [done|]. rewrite length_ring_get. lia.
    - replace (p_count p - k) with 0 by lia. rewrite app_nil_r, take_ge; [done|].
      rewrite length_ring_get. lia. }
  rewrite Hring, Htake.
  set (p1 := set_read ((p_read_pos p + k) mod p_size p) (p_count p - k) p).
  assert (Hp1 : pipe_wf p1).
  { constructor; simpl; try done; try lia; [apply Z.mod_pos_bound; lia|].
    rewrite Zplus_mod_idemp_l, Hw. f_equal. lia. }
  assert (p_contents p1 = drop (Z.to_nat n) (p_contents p)) as Hdrop.
  { unfold p_contents at 2. replace (p_count p) with (k + (p_count p - k)) by lia.
    rewrite ring_get_app, Hd by lia. destruct (decide (n <= p_count p)).
    - rewrite drop_app_length'; [done|]. rewrite length_ring_get. lia.
    - unfold p_contents; simpl. replace (p_count p - k) with 0 by lia.
      rewrite app_nil_r, drop_ge; [done|]. rewrite length_ring_get. lia. }
  assert (exists p2, (if 0 <? k then wake_wr else ret tt) p1 = Ok (tt, p2) /\
    p_contents p2 = p_contents p1 /\ pipe_wf p2 /\ (wq_ok p -> wq_ok p2) /\ p_size p2 = p_size p /\
    p_readers p2 = p_readers p /\ p_writers p2 = p_writers p)
    as (p2 & E & Hc2 & Hwf2 & Hwq & Hs2 & Hr2 & Hw2).
  { destruct (Z.ltb_spec 0 k).
    - eexists. split; [reflexivity|]. split; [done|]. split; [destruct Hp1; by constructor|].
      split; [|done]. intros [H1 H2]. split; simpl; [intros Hne; destruct (H1 Hne); lia|done].
    - exists p1. split; [done|]. split; [done|]. split; [done|]. split; [|done].
      intros [H1 H2]. split; simpl; intros Hne; [destruct (H1 Hne)|destruct (H2 Hne)]; lia. }
  rewrite (bind_ok _ _ _ _ _ E). exists p2. split; [done|].
  rewrite Hc2, Hdrop. split; [|done]. split; [done|]. split; [done|].
  split; [|done]. by rewrite app_nil_r, Hc2, Hdrop, take_drop.
Qed.

(** Appending [bs] behind the bytes in flight, in two pieces. *)
Lemma ring_append d rp cnt bs :
  0 <= rp < Z.of_nat (length d) -> 0 <= cnt ->
  cnt + Z.of_nat (length bs) <= Z.of_nat (length d) ->
  let wp := (rp + cnt) mod Z.of_nat (length d) in
  let f := Z.min (Z.of_nat (length bs)) (Z.of_nat (length d) - wp) in
  ring_get (splice (splice d wp (take (Z.to_nat f) bs)) 0 (drop (Z.to_nat f) bs)) rp
    (cnt + Z.of_nat (length bs)) = ring_get d rp cnt ++ bs.
Proof.
  intros Hr Hc Hl wp f. assert (0 <= wp < Z.of_nat (length d)) as Hwp by (apply Z.mod_pos_bound; lia).
  assert (f = Z.min (Z.of_nat (length bs)) (Z.of_nat (length d) - wp)) as Hf by done. clearbody f.
  assert (length (splice (splice d wp (take (Z.to_nat f) bs)) 0 (drop (Z.to_nat f) bs)) = length d) as Ld.
  { assert (length (splice d wp (take (Z.to_nat f) bs)) = length d) as L
      by (apply length_splice; rewrite ?length_take; lia).
    rewrite length_splice; rewrite ?L, ?length_drop; lia. }
  apply list_eq_nthZ; rewrite ?length_app, !length_ring_get; [lia|]. intros i Hi.
  rewrite nthZ_ring_get by lia. rewrite Ld, nthZ_app, length_ring_get by lia.
  rewrite Z2Nat.id by lia. set (size := Z.of_nat (length d)) in *.
  assert (forall j, (wp + j) mod size = (rp + (cnt + j)) mod size) as Hpos.
  { intros j. unfold wp. rewrite Zplus_mod_idemp_l. f_equal. lia. }
  destruct (Z.ltb_spec i cnt).
  - rewrite nthZ_ring_get by lia. fold size.
    replace ((rp + i) mod size) with ((wp + (i - cnt + size)) mod size).
    2: { rewrite Hpos. replace (rp + (cnt + (i - cnt + size))) with (rp + i + 1 * size) by lia.
         apply Z.mod_add. lia. }
    pose proof (splice_two d wp bs (i - cnt + size)) as Hst. cbv zeta in Hst. fold size in Hst.
    rewrite <- Hf in Hst. rewrite Hst by lia. rewrite (proj2 (Z.ltb_ge _ _)) by lia. done.
  - replace (rp + i) with (rp + (cnt + (i - cnt))) by lia. rewrite <- Hpos.
    pose proof (splice_two d wp bs (i - cnt)) as Hst. cbv zeta in Hst. fold size in Hst.
    rewrite <- Hf in Hst. rewrite Hst by lia. rewrite (proj2 (Z.ltb_lt _ _)) by lia. done.
Qed.

Lemma write_copy_ok p buf :
  pipe_wf p ->
  let k := Z.min (Z.of_nat (length buf)) (p_size p - p_count p) in
  exists p', pipe_write_copy buf p = Ok (Return k [] false, p') /\
    pass_ok p p' (take (Z.to_nat k) buf) [] /\
    p_contents p' = p_contents p ++ take (Z.to_nat k) buf /\
    p_readers p' = p_readers p /\ p_writers p' = p_writers p.
Proof.
  intros Hwf k. pose proof Hwf as [Hs Hd Hr Hc Hw].
  assert (Hk : k = Z.min (Z.of_nat (length buf)) (p_size p - p_count p)) by done.
  unfold pipe_write_copy. run. unfold id. rewrite !min_if. fold k. clearbody k.
  set (f := Z.min k (p_size p - p_write_pos p)).
  assert (0 <= p_write_pos p < p_size p) as Hwp by (rewrite Hw; apply Z.mod_pos_bound; lia).
  assert (Hf : f = Z.min k (p_size p - p_write_pos p)) by done. clearbody f.
  assert (length (take (Z.to_nat f) buf) = Z.to_nat f) as L1 by (rewrite length_take; lia).
  erewrite bind_ok by (apply copy_in_ok; lia).
  assert (length (splice (p_data p) (p_write_pos p) (take (Z.to_nat f) buf)) = length (p_data p)) as L2
    by (apply length_splice; lia).
  set (bs := take (Z.to_nat k) buf).
  assert (Z.of_nat (length bs) = k) as Lb by (unfold bs; rewrite length_take; lia).
  set (d2 := splice (splice (p_data p) (p_write_pos p) (take (Z.to_nat f) bs)) 0 (drop (Z.to_nat f) bs)).
  assert (take (Z.to_nat f) bs = take (Z.to_nat f) buf) as Et.
  { unfold bs. rewrite take_take. f_equal. lia. }
  erewrite bind_ok with (a := d2).
  2: { unfold d2. rewrite Et. destruct (Z.ltb_spec f k).
       - rewrite copy_in_ok by (rewrite ?length_take, ?length_drop, ?L2; lia). do 3 f_equal.
         unfold bs. rewrite skipn_firstn_comm. f_equal. lia.
       - rewrite drop_ge by lia. by rewrite splice_nil. }
  run. pose proof (ring_append (p_data p) (p_read_pos p) (p_count p) bs ltac:(lia) ltac:(lia) ltac:(lia)) as Hra.
  cbv zeta in Hra. rewrite Hd, <- Hw, Lb, <- Hf in Hra. fold d2 in Hra.
  set (p1 := set_write d2 ((p_write_pos p + k) mod p_size p) (p_count p + k) p).
  assert (Hcont : p_contents p1 = p_contents p ++ bs) by exact Hra.
  assert (length d2 = length (p_data p)) as Ld.
  { unfold d2. rewrite Et. rewrite length_splice; rewrite ?L2, ?length_drop; lia. }
  assert (Hp1 : pipe_wf p1).
  { constructor; simpl; try done; try lia. rewrite Hw, Zplus_mod_idemp_l. f_equal. lia. }
  assert (exists p2, (if 0 <? k then wake_rd else ret tt) p1 = Ok (tt, p2) /\
    p_contents p2 = p_contents p1 /\ pipe_wf p2 /\ (wq_ok p -> wq_ok p2) /\ p_size p2 = p_size p /\
    p_readers p2 = p_readers p /\ p_writers p2 = p_writers p)
    as (p2 & E & Hc2 & Hwf2 & Hwq & Hs2 & Hr2 & Hw2).
  { destruct (Z.ltb_spec 0 k).
    - eexists. split; [reflexivity|]. split; [done|]. split; [destruct Hp1; by constructor|].
      split; [|done]. intros [H1 H2]. split; simpl; [done|intros Hne; destruct (H2 Hne); lia].
    - exists p1. split; [done|]. split; [done|]. split; [done|]. split; [|done].
      intros [H1 H2]. split; simpl; intros Hne; [destruct (H1 Hne)|destruct (H2 Hne)]; lia. }
  rewrite (bind_ok _ _ _ _ _ E). exists p2. split; [done|]. rewrite Hc2.
  split; [|by rewrite Hcont]. split; [done|]. split; [done|]. split; [|done]. by rewrite Hc2, Hcont.
Qed.

(** ** Interleavings of readers, writers and closers *)

Inductive pipe_ev :=
| EvRead (cur count : Z) (pending : bool)
| EvReadResume (cur count : Z) (pending : bool)
| EvWrite (cur : Z) (buf : list Z) (pending : bool)
| EvWriteResume (cur : Z) (buf : list Z) (pending : bool)
| EvClose (is_write_end : bool).

Definition ev_ok (e : pipe_ev) : Prop :=
  match e with
  | EvRead _ n _ | EvReadResume _ n _ => 0 <= n
  | _ => True
  end.

(** The bytes a completed write put into the pipe and a completed read took. *)
Definition written (buf : list Z) (o : outcome) : list Z :=
  match o with Return r _ _ => take (Z.to_nat r) buf | Sleep => [] end.
Definition delivered (o : outcome) : list Z :=
  match o with Return _ bytes _ => bytes | Sleep => [] end.

Definition run_ev (e : pipe_ev) : ST pipe_buffer (list Z * list Z) :=
  match e with
  | EvRead cur n s => o ← pipe_read_buffer cur n s; ret ([], delivered o)
  | EvReadResume cur n s => o ← pipe_read_resume cur n s; ret ([], delivered o)
  | EvWrite cur b s => o ← pipe_write_buffer cur b s; ret (written b o, [])
  | EvWriteResume cur b s => o ← pipe_write_resume cur b s; ret (written b o, [])
  | EvClose w => pipe_close_end w;; ret ([], [])
  end.

Fixpoint run_evs (es : list pipe_ev) : ST pipe_buffer (list Z * list Z) :=
  match es with
  | [] => ret ([], [])
  | e :: es' =>
      a ← run_ev e;
      b ← run_evs es';
      ret (fst a ++ fst b, snd a ++ snd b)
  end.

(** Putting the current process to sleep is sound when its condition fails. *)
Lemma sleep_rd_ok p cur :
  pipe_wf p -> p_count p = 0 -> p_writers p <> 0 ->
  pass_ok p (set_wqs (cur :: p_rd_wq p) (p_wr_wq p) p) [] [].
Proof.
  intros [] Hc Hw. split; [by constructor|]. split; [|split; [apply app_nil_r|done]].
  intros [_ H2]. by split.
Qed.

Lemma sleep_wr_ok p cur :
  pipe_wf p -> p_count p = p_size p -> p_readers p <> 0 ->
  pass_ok p (set_wqs (p_rd_wq p) (cur :: p_wr_wq p) p) [] [].
Proof.
  intros [] Hc Hw. split; [by constructor|]. split; [|split; [apply app_nil_r|done]].
  intros [H1 _]. by split.
Qed.

Lemma read_loop_ok p cur n s :
  pipe_wf p -> 0 <= n ->
  exists o p', pipe_read_loop cur n s p = Ok (o, p') /\ pass_ok p p' [] (delivered o).
Proof.
  intros Hwf Hn. unfold pipe_read_loop. run. unfold id.
  destruct (Z.eqb_spec (p_count p) 0) as [Hc|Hc].
  - destruct (Z.eqb_spec (p_writers p) 0); [eexists _, p; split; [done|]; by apply pass_ok_refl|].
    destruct (negb _); [eexists _, p; split; [done|]; by apply pass_ok_refl|].
    destruct s; [eexists _, p; split; [done|]; by apply pass_ok_refl|].
    eexists _, _. split; [reflexivity|]. by apply sleep_rd_ok.
  - destruct (read_copy_ok p n Hwf Hn) as (p' & -> & Hp & _). eauto.
Qed.

Lemma write_loop_ok p cur buf s :
  pipe_wf p ->
  exists o p', pipe_write_loop cur buf s p = Ok (o, p') /\ pass_ok p p' (written buf o) [].
Proof.
  intros Hwf. unfold pipe_write_loop. run. unfold id.
  destruct (Z.eqb_spec (p_count p) (p_size p)) as [Hc|Hc].
  - destruct (Z.eqb_spec (p_readers p) 0); [eexists _, p; split; [done|]; by apply pass_ok_refl|].
    destruct (negb _); [eexists _, p; split; [done|]; by apply pass_ok_refl|].
    destruct s; [eexists _, p; split; [done|]; by apply pass_ok_refl|].
    eexists _, _. split; [reflexivity|]. by apply sleep_wr_ok.
  - destruct (write_copy_ok p buf Hwf) as (p' & -> & Hp & _). eauto.
Qed.

(** Leaving a wait queue keeps the invariant. *)
Lemma finish_ok p rd wr :
  pipe_wf p -> (p_rd_wq p = [] -> rd = []) -> (p_wr_wq p = [] -> wr = []) ->
  pass_ok p (set_wqs rd wr p) [] [].
Proof.
  intros [] Hrd Hwr. split; [by constructor|]. split; [|split; [apply app_nil_r|done]].
  intros [H1 H2]. split; simpl; intros Hne; [apply H1|apply H2]; intros E; apply Hne; auto.
Qed.

Lemma pass_ok_trans p p1 p2 a d :
  pass_ok p p1 [] [] -> pass_ok p1 p2 a d -> pass_ok p p2 a d.
Proof.
  intros (_ & Hq1 & Hc1 & Hs1) (Hw2 & Hq2 & Hc2 & Hs2). simpl in Hc1. rewrite app_nil_r in Hc1.
  split; [done|]. split; [auto|]. split; [by rewrite Hc1|congruence].
Qed.

Lemma run_ev_ok p e :
  pipe_wf p -> ev_ok e ->
  exists a d p', run_ev e p = Ok ((a, d), p') /\ pass_ok p p' a d.
Proof.
  intros Hwf He. destruct e as [cur n s|cur n s|cur b s|cur b s|w]; simpl in *.
  - unfold pipe_read_buffer. rewrite bind_assoc. run. unfold id.
    destruct (_ && _); [eexists _, _, p; split; [done|]; by apply pass_ok_refl|].
    destruct (read_loop_ok p cur n s Hwf He) as (o & p' & E & Hp).
    rewrite (bind_ok _ _ _ _ _ E). eexists _, _, _. split; [reflexivity|done].
  - unfold pipe_read_resume. rewrite bind_assoc. run. rewrite bind_assoc. run. unfold id.
    assert (pass_ok p (set_wqs (filter (fun q => q <> cur) (p_rd_wq p)) (p_wr_wq p) p) [] []) as Hf.
    { apply finish_ok; [done|by intros ->|done]. }
    set (p1 := set_wqs _ _ p) in *. destruct (_ || _) eqn:Ec.
    + destruct (read_loop_ok p1 cur n s (proj1 Hf) He) as (o & p' & E & Hp).
      rewrite (bind_ok _ _ _ _ _ E). eexists _, _, _. split; [reflexivity|]. by eapply pass_ok_trans.
    + bool_case. eexists _, _, _. split; [reflexivity|]. eapply pass_ok_trans; [exact Hf|].
      apply sleep_rd_ok; try done; [apply Hf|]. destruct Hf as [[] _]. lia.
  - unfold pipe_write_buffer. rewrite bind_assoc. run. unfold id.
    destruct (_ =? _); [eexists _, _, p; split; [done|]; by apply pass_ok_refl|].
    destruct (write_loop_ok p cur b s Hwf) as (o & p' & E & Hp).
    rewrite (bind_ok _ _ _ _ _ E). eexists _, _, _. split; [reflexivity|done].
  - unfold pipe_write_resume. rewrite bind_assoc. run. rewrite bind_assoc. run. unfold id.
    assert (pass_ok p (set_wqs (p_rd_wq p) (filter (fun q => q <> cur) (p_wr_wq p)) p) [] []) as Hf.
    { apply finish_ok; [done|done|by intros ->]. }
    set (p1 := set_wqs _ _ p) in *. destruct (_ || _) eqn:Ec.
    + destruct (write_loop_ok p1 cur b s (proj1 Hf)) as (o & p' & E & Hp).
      rewrite (bind_ok _ _ _ _ _ E). eexists _, _, _. split; [reflexivity|]. by eapply pass_ok_trans.
    + bool_case. eexists _, _, _. split; [reflexivity|]. eapply pass_ok_trans; [exact Hf|].
      apply sleep_wr_ok; try done; [apply Hf|]. destruct Hf as [[] _]. lia.
  - eexists _, _, _. split; [reflexivity|]. destruct w.
    all: (split; [destruct Hwf; by constructor|]; split; [by split|]; split; [|done]; apply app_nil_r).
Qed.

Lemma run_evs_ok es p :
  pipe_wf p -> Forall ev_ok es ->
  exists a d p', run_evs es p = Ok ((a, d), p') /\ pass_ok p p' a d.
Proof.
  intros Hwf Hes. revert p Hwf. induction Hes as [|e es He Hes IH]; intros p Hwf; simpl.
  { eexists _, _, p. split; [done|]. by apply pass_ok_refl. }
  destruct (run_ev_ok p e Hwf He) as (a1 & d1 & p1 & E1 & (Hw1 & Hq1 & Hc1 & Hs1)).
  destruct (IH p1 Hw1) as (a2 & d2 & p2 & E2 & (Hw2 & Hq2 & Hc2 & Hs2)).
  rewrite (bind_ok _ _ _ _ _ E1), (bind_ok _ _ _ _ _ E2). eexists _, _, _. split; [reflexivity|].
  simpl. split; [done|]. split; [auto|]. split; [|congruence].
  by rewrite app_assoc, Hc1, <- !app_assoc, Hc2.
Qed.

Lemma zero_wf data size : 0 < size -> Z.of_nat (length data) = size -> pipe_wf (pipe_zero data size).
Proof. intros. constructor; simpl; try lia. by rewrite Z.mod_0_l by lia. Qed.

(** ** Properties of the byte stream *)

(** C35: A pipe is a FIFO byte stream.  Start from a fresh buffer with any
    number of readers and writers and let their passes, their resumptions
    after sleeping and closes interleave in any order: no access leaves the
    buffer, and the bytes accepted from the writers, in order, are exactly the
    bytes delivered to the readers followed by the bytes still in the pipe:
    none lost, none duplicated, none reordered. *)
Theorem pipe_fifo_stream data size r w es :
  0 < size -> Z.of_nat (length data) = size -> Forall ev_ok es ->
  exists acc del p', run_evs es (set_ends r w (pipe_zero data size)) = Ok ((acc, del), p') /\
    acc = del ++ p_contents p' /\ Z.of_nat (length (p_contents p')) <= size.
Proof.
  intros Hs Hd Hes. set (p := set_ends r w (pipe_zero data size)).
  assert (pipe_wf p) as Hwf by (destruct (zero_wf data size Hs Hd); by constructor).
  destruct (run_evs_ok es p Hwf Hes) as (a & d & p' & E & (Hw & _ & Hc & Hsz)).
  exists a, d, p'. split; [done|]. split; [exact Hc|].
  rewrite length_p_contents by done. destruct Hw. simpl in Hsz. lia.
Qed.

Lemma pipe_fifo_stream_witness :
  exists acc del p', run_evs [EvWrite 1 [10;11;12] false; EvRead 2 2 false; EvWrite 1 [13;14;15] false;
      EvRead 2 9 false; EvRead 2 1 false; EvWrite 1 [16] false; EvReadResume 2 1 false]
    (set_ends 1 1 (pipe_zero [0;0;0;0] 4)) = Ok ((acc, del), p') /\
    acc = del ++ p_contents p' /\ Z.of_nat (length (p_contents p')) <= 4.
Proof.
  apply (pipe_fifo_stream [0;0;0;0] 4 1 1); [lia|reflexivity|repeat constructor; simpl; lia].
Defined.

(** C36: No wakeup is lost.  After any interleaving that starts with empty
    wait queues, a process still asleep on the read queue faces an empty pipe
    that has writers, and one asleep on the write queue a full pipe that has
    readers: nobody sleeps while it could make progress or has to be told that
    the other side is gone. *)
Theorem pipe_no_lost_wakeup data size r w es acc del p' :
  0 < size -> Z.of_nat (length data) = size -> Forall ev_ok es ->
  run_evs es (set_ends r w (pipe_zero data size)) = Ok ((acc, del), p') ->
  (p_rd_wq p' <> [] -> p_contents p' = [] /\ p_writers p' <> 0) /\
  (p_wr_wq p' <> [] -> Z.of_nat (length (p_contents p')) = size /\ p_readers p' <> 0).
Proof.
  intros Hs Hd Hes E. set (p := set_ends r w (pipe_zero data size)) in E.
  assert (pipe_wf p) as Hwf by (destruct (zero_wf data size Hs Hd); by constructor).
  destruct (run_evs_ok es p Hwf Hes) as (a & d & q & E' & (Hw & Hq & _ & Hsz)).
  rewrite E in E'. injection E' as <- <- <-. destruct Hq as [H1 H2]; [done|].
  rewrite length_p_contents by done. simpl in Hsz. split.
  - intros Hne. destruct (H1 Hne) as [Hc ?]. split; [|done]. unfold p_contents. by rewrite Hc.
  - intros Hne. destruct (H2 Hne). split; [congruence|done].
Qed.

Lemma pipe_no_lost_wakeup_witness :
  exists p', run_evs [EvRead 2 1 false; EvRead 3 1 false; EvWrite 1 [7] false]
    (set_ends 2 1 (pipe_zero [0;0;0;0] 4)) = Ok (([7], []), p') /\
    (p_rd_wq p' <> [] -> p_contents p' = [] /\ p_writers p' <> 0).
Proof.
  eexists. split; [reflexivity|].
  apply (pipe_no_lost_wakeup [0;0;0;0] 4 2 1
    [EvRead 2 1 false; EvRead 3 1 false; EvWrite 1 [7] false] [7] []);
    [lia|reflexivity|repeat constructor; simpl; lia|reflexivity].
Defined.

(** End of file, broken pipe and blocking.  A read delivers what is there
    up to the request, returns 0 exactly when the pipe is empty and has no
    writers, and otherwise refuses with -EAGAIN or -EINTR or sleeps; a write
    without readers fails with -EPIPE and raises SIGPIPE, a write into a pipe
    with room accepts what fits, and a write into a full pipe refuses or
    sleeps. *)
Theorem pipe_results p cur n buf pending :
  pipe_wf p -> 0 < n ->
  let nonblock := negb (Z.land (p_flags p) O_NONBLOCK =? 0) in
  (exists p', pipe_read_buffer cur n pending p = Ok (
     if 0 <? p_count p
     then Return (Z.min n (p_count p)) (take (Z.to_nat n) (p_contents p)) false
     else if p_writers p =? 0 then Return 0 [] false
     else if nonblock then Return (- EAGAIN) [] false
     else if pending then Return (- EINTR) [] false else Sleep, p')) /\
  (exists p', pipe_write_buffer cur buf pending p = Ok (
     if p_readers p =? 0 then Return (- EPIPE) [] true
     else if p_count p <? p_size p
     then Return (Z.min (Z.of_nat (length buf)) (p_size p - p_count p)) [] false
     else if nonblock then Return (- EAGAIN) [] false
     else if pending then Return (- EINTR) [] false else Sleep, p')).
Proof.
  intros Hwf Hn nonblock. pose proof Hwf as [Hs Hd Hr Hc Hw]. split.
  - unfold pipe_read_buffer, pipe_read_loop. run. unfold id.
    destruct (Z.ltb_spec 0 (p_count p)), (Z.eqb_spec (p_count p) 0); try lia.
    + rewrite andb_false_r. run. unfold id. rewrite (proj2 (Z.eqb_neq _ _)) by done.
      destruct (read_copy_ok p n Hwf ltac:(lia)) as (p' & -> & _). eauto.
    + rewrite andb_true_r. destruct (p_writers p =? 0) eqn:Ew; [eauto|]. run. unfold id.
      rewrite (proj2 (Z.eqb_eq _ _)) by done. rewrite Ew. fold nonblock.
      destruct nonblock; [eauto|]. destruct pending; eauto.
  - unfold pipe_write_buffer, pipe_write_loop. run. unfold id.
    destruct (p_readers p =? 0) eqn:Er; [eauto|]. run. unfold id.
    destruct (Z.ltb_spec (p_count p) (p_size p)), (Z.eqb_spec (p_count p) (p_size p)); try lia.
    + destruct (write_copy_ok p buf Hwf) as (p' & -> & _). eauto.
    + rewrite Er. fold nonblock. destruct nonblock; [eauto|]. destruct pending; eauto.
Qed.

Lemma pipe_results_witness :
  exists p', pipe_read_buffer 1 2 false (PipeBuffer [5;6;7;8] 4 3 1 2 1 1 0 [] []) =
    Ok (Return 2 [8; 5] false, p').
Proof.
  destruct (pipe_results (PipeBuffer [5;6;7;8] 4 3 1 2 1 1 0 [] []) 1 2 [] false) as [Hr _].
  - constructor; simpl; (lia || reflexivity).
  - lia.
  - exact Hr.
Defined.

(** ** [sys_pipe] *)

Definition fd_free (f : proc_fd) : bool := (of_idx f =? 0) && (fd_flags f =? 0).

(** The descriptors from [i] on, [n] of them, that are free. *)
Fixpoint free_slots (n : nat) (i : Z) (t : list proc_fd) : list Z :=
  match n with
  | O => []
  | S n' => (if default false (fd_free <$> t !! Z.to_nat i) then [i] else []) ++ free_slots n' (i + 1) t
  end.

Definition pipe_end (pipe_id : Z) (flags : Z) : proc_fd :=
  ProcFd (u32 (PIPE_FD_BASE + pipe_id)) 0 flags 1.

Definition take_slots (pipe_id : Z) (fds : list Z) (t : list proc_fd) : list proc_fd :=
  match fds with
  | [] => t
  | [i] => <[Z.to_nat i := pipe_end pipe_id O_RDONLY]> t
  | i :: j :: _ => <[Z.to_nat j := pipe_end pipe_id O_WRONLY]>
                     (<[Z.to_nat i := pipe_end pipe_id O_RDONLY]> t)
  end.

Lemma free_slots_bound n i t x : x ∈ free_slots n i t -> i <= x < i + Z.of_nat n.
Proof.
  revert i. induction n as [|n IH]; intros i Hx; [by apply not_elem_of_nil in Hx|].
  simpl in Hx. apply elem_of_app in Hx as [Hx|Hx].
  - destruct (default _ _); [apply list_elem_of_singleton in Hx; lia|by apply not_elem_of_nil in Hx].
  - apply IH in Hx. lia.
Qed.

Lemma free_slots_insert n i j f t :
  0 <= j < i -> free_slots n i (<[Z.to_nat j := f]> t) = free_slots n i t.
Proof.
  revert i. induction n as [|n IH]; intros i Hj; simpl; [done|].
  rewrite list_lookup_insert_ne by lia. by rewrite IH by lia.
Qed.

(** The search takes the two lowest free descriptors. *)
Lemma find_fds_ok n i id t r found :
  0 <= i -> i + Z.of_nat n <= Z.of_nat (length t) ->
  (found = [] \/ exists k, found = [k] /\ 0 <= k < i) ->
  exists fds t', pipe_find_fds n i id found t r = Ok ((fds, t'), r) /\
    fds = take 2 (found ++ free_slots n i t) /\
    t' = (match found with
          | [] => take_slots id fds t
          | _ => match fds with
                 | _ :: j :: _ => <[Z.to_nat j := pipe_end id O_WRONLY]> t
                 | _ => t end
          end).
Proof.
  revert i t found. induction n as [|n IH]; intros i t found Hi Hl Hf; cbn [pipe_find_fds free_slots].
  { eexists _, _. split; [reflexivity|]. rewrite app_nil_r.
    destruct Hf as [->|(k & -> & _)]; simpl; done. }
  destruct Hf as [->|(k & -> & Hk)]; cbn [length Nat.ltb Nat.leb].
  - destruct (lookup_lt_is_Some_2 t (Z.to_nat i)) as [f Hfd]; [lia|].
    erewrite bind_ok by (apply rd_ok; done). rewrite Hfd. cbn [fmap option_fmap option_map default from_option].
    fold (fd_free f). destruct (fd_free f) eqn:Ef.
    + erewrite bind_ok by (apply wr_ok; lia). cbn [app length Nat.eqb].
      edestruct (IH (i + 1) (<[Z.to_nat i := pipe_end id O_RDONLY]> t) [i]) as (fds & t' & E & -> & ->);
        [lia|rewrite length_insert; lia|right; exists i; split; [done|lia]|].
      eexists _, _. split; [exact E|]. rewrite free_slots_insert by lia. split; [done|].
      simpl. destruct (free_slots n (i + 1) t); done.
    + destruct (IH (i + 1) t []) as (fds & t' & E & -> & ->); [lia|lia|by left|]. eauto.
  - destruct (lookup_lt_is_Some_2 t (Z.to_nat i)) as [f Hfd]; [lia|].
    erewrite bind_ok by (apply rd_ok; done). rewrite Hfd. cbn [fmap option_fmap option_map default from_option].
    fold (fd_free f). destruct (fd_free f) eqn:Ef.
    + erewrite bind_ok by (apply wr_ok; lia). cbn [app length Nat.eqb].
      eexists _, _. split; [|split; [reflexivity|reflexivity]]. destruct n; done.
    + destruct (IH (i + 1) t [k]) as (fds & t' & E & -> & ->); [lia|lia|right; exists k; split; [done|lia]|].
      eauto.
Qed.

Lemma clear_fds_ok l t r :
  Forall (fun i => 0 <= i < Z.of_nat (length t)) l ->
  exists t', clear_fds l t r = Ok (t', r) /\ length t' = length t /\
    forall k, t' !! k = if bool_decide (Z.of_nat k ∈ l)
                       then (fun f => ProcFd 0 (fd_offset f) 0 (fd_refcount f)) <$> t !! k
                       else t !! k.
Proof.
  intros Hl. revert t Hl. induction l as [|i l IH]; intros t Hl; cbn [clear_fds].
  { exists t. split; [done|]. split; [done|]. intros k. rewrite bool_decide_false; [done|]. apply not_elem_of_nil. }
  apply Forall_cons in Hl as [Hi Hl].
  destruct (lookup_lt_is_Some_2 t (Z.to_nat i)) as [f Hfd]; [lia|].
  erewrite bind_ok by (apply rd_ok; [lia|done]). erewrite bind_ok by (apply wr_ok; lia).
  edestruct IH as (t' & E & Hlen & Hk). { rewrite length_insert. exact Hl. }
  exists t'. split; [exact E|]. rewrite length_insert in Hlen. split; [done|]. intros k. rewrite Hk.
  destruct (decide (k = Z.to_nat i)) as [->|Hne].
  - rewrite list_lookup_insert_eq by lia. rewrite (bool_decide_true (_ ∈ i :: l)) by (rewrite Z2Nat.id by lia; left).
    rewrite Hfd. by case_bool_decide.
  - rewrite list_lookup_insert_ne by done. rewrite (bool_decide_ext (Z.of_nat k ∈ i :: l) (Z.of_nat k ∈ l)); [done|].
    rewrite elem_of_cons. split; [|auto]. intros [E'|?]; [lia|done].
Qed.

(** The part of a descriptor that says whether and how it is in use. *)
Definition fd_use (f : proc_fd) : Z * Z := (of_idx f, fd_flags f).

Lemma free_slots_free n i t x :
  0 <= i -> x ∈ free_slots n i t -> exists f, t !! Z.to_nat x = Some f /\ fd_use f = (0, 0).
Proof.
  revert i. induction n as [|n IH]; intros i Hi Hx; [by apply not_elem_of_nil in Hx|].
  simpl in Hx. apply elem_of_app in Hx as [Hx|Hx]; [|apply (IH (i + 1)); [lia|done]].
  destruct (t !! Z.to_nat i) as [f|] eqn:Ef; simpl in Hx; [|by apply not_elem_of_nil in Hx].
  destruct (fd_free f) eqn:Eu; [|by apply not_elem_of_nil in Hx].
  apply list_elem_of_singleton in Hx as ->. exists f. split; [done|].
  unfold fd_free in Eu. bool_case. unfold fd_use. congruence.
Qed.

(** Undoing the search: the slots taken are free again. *)
Lemma take_clear t id fds r :
  fds = take 2 (free_slots 61 3 t) -> length t = 64%nat ->
  exists t', clear_fds fds (take_slots id fds t) r = Ok (t', r) /\ length t' = 64%nat /\
    forall k, fd_use <$> t' !! k = fd_use <$> t !! k.
Proof.
  intros Hfds Hl. assert (forall x, x ∈ fds -> 3 <= x < 64 /\ x ∈ free_slots 61 3 t) as Hin.
  { intros x Hx. rewrite Hfds in Hx. apply elem_of_take in Hx as (m & Hm & _).
    apply list_elem_of_lookup_2 in Hm. split; [|done]. apply free_slots_bound in Hm. lia. }
  assert (length (take_slots id fds t) = 64%nat) as Hlt.
  { destruct fds as [|i [|j fds]]; simpl; by rewrite ?length_insert. }
  destruct (clear_fds_ok fds (take_slots id fds t) r) as (t' & E & Hlen & Hk).
  { apply Forall_forall. intros x Hx. rewrite Hlt. destruct (Hin x Hx). lia. }
  exists t'. split; [done|]. split; [congruence|]. intros k. rewrite Hk. case_bool_decide as Hkin.
  - destruct (Hin _ Hkin) as [Hb Hfree]. apply free_slots_free in Hfree as (f & Hf & Hu); [|lia].
    rewrite Nat2Z.id in Hf. rewrite Hf. destruct (lookup_lt_is_Some_2 (take_slots id fds t) k) as [g Hg]; [lia|].
    rewrite Hg. simpl. by rewrite Hu.
  - destruct fds as [|i [|j fds]]; simpl; [done| |]; rewrite ?list_lookup_insert_ne; try done;
      intros <-; apply Hkin; rewrite Z2Nat.id; repeat (left || right);
      (destruct (Hin i); [left|lia]) || (destruct (Hin j); [right; left|lia]).
Qed.

(** [sys_pipe] hands out the two lowest free descriptors, the read end
    first, both naming the same fresh empty pipe with one reader and one
    writer; when two descriptors are not free or the result cannot be copied
    out, it fails and leaves the registry and the use of every descriptor as
    they were. *)
Theorem sys_pipe_spec r t pipefd data cret :
  let pid := next_pipe_id r in
  cur_fds r = Some t -> length t = 64%nat -> pipefd <> 0 ->
  0 <= pid < 2147483648 -> pipe_table r !! pid = None -> is_u32 (active_pipes r) ->
  exists res fds r', sys_pipe pipefd true (fun _ => Some data) cret r = Ok ((res, fds), r') /\
    match take 2 (free_slots 61 3 t) with
    | [i; j] =>
        if cret <? 0
        then res = cret /\ pipe_table r' = pipe_table r /\ active_pipes r' = active_pipes r /\
          exists t', cur_fds r' = Some t' /\ forall k, fd_use <$> t' !! k = fd_use <$> t !! k
        else res = 0 /\ fds = [i; j] /\ 3 <= i < 64 /\ 3 <= j < 64 /\
          cur_fds r' = Some (take_slots pid [i; j] t) /\
          pipe_table r' = <[pid := set_ends 1 1 (pipe_zero data PIPE_BUF)]> (pipe_table r)
    | _ => res = - EMFILE /\ pipe_table r' = pipe_table r /\ active_pipes r' = active_pipes r /\
          exists t', cur_fds r' = Some t' /\ forall k, fd_use <$> t' !! k = fd_use <$> t !! k
    end.
Proof.
  intros pid Hcur Hl Hp Hid Hnone Hact. unfold sys_pipe. rewrite (proj2 (Z.eqb_neq pipefd 0)) by done.
  change (pipe_create_buffer PIPE_BUF true (fun _ => Some data)) with (Some (pipe_zero data PIPE_BUF)).
  cbv beta iota. set (r1 := PipeRegistry (<[pid := pipe_zero data PIPE_BUF]> (pipe_table r)) (u32 (pid + 1))
               (u32 (active_pipes r + 1)) (cur_fds r)).
  assert (pipe_allocate_id (pipe_zero data PIPE_BUF) r = Ok (pid, r1)) as E1.
  { unfold pipe_allocate_id. run. unfold id. fold pid. rewrite Hnone, s32_small by done. done. }
  rewrite (bind_ok _ _ _ _ _ E1). rewrite (proj2 (Z.ltb_ge pid 0)) by lia. run. unfold id.
  change (cur_fds r1) with (cur_fds r). rewrite Hcur.
  destruct (find_fds_ok 61 3 pid t r1 []) as (fds & t1 & E2 & Hfds & Ht1); [lia|rewrite Hl; lia|by left|].
  change (Z.to_nat (MAX_OPEN_FILES - 3)) with 61%nat. rewrite (bind_ok _ _ _ _ _ E2). cbn [app] in Hfds.
  destruct (take_clear t pid fds r1 Hfds Hl) as (t2 & E3 & _ & Huse). rewrite <- Ht1 in E3.
  assert (active_pipes r = u32 (u32 (active_pipes r + 1) - 1)) as Hact'.
  { unfold is_u32, u32 in *. rewrite Zminus_mod_idemp_l. replace (_ + 1 - 1) with (active_pipes r) by lia.
    symmetry. by apply Z.mod_small. }
  assert (delete pid (<[pid := pipe_zero data PIPE_BUF]> (pipe_table r)) = pipe_table r) as Hdel
    by (by rewrite delete_insert_id).
  assert (Hu : u32 pid = pid) by (apply u32_id; unfold is_u32; lia).
  assert (forall x, x ∈ fds -> 3 <= x < 64) as Hb.
  { intros x Hx. rewrite Hfds in Hx. apply elem_of_take in Hx as (m & Hm & _).
    apply list_elem_of_lookup_2, free_slots_bound in Hm. lia. }
  rewrite <- Hfds. destruct fds as [|i [|j [|k fds]]]; cbn [length Nat.ltb Nat.leb].
  - rewrite (bind_ok _ _ _ _ _ E3). eexists _, _, _. split; [reflexivity|]. simpl. rewrite Hu. eauto 8.
  - rewrite (bind_ok _ _ _ _ _ E3). eexists _, _, _. split; [reflexivity|]. simpl. rewrite Hu. eauto 8.
  - run. destruct (cret <? 0).
    + destruct (take_clear t pid [i; j] (set_table (alter (set_ends 1 1) pid (pipe_table (set_fds t1 r1)))
        (set_fds t1 r1)) Hfds Hl) as (t3 & E4 & _ & Huse'). rewrite <- Ht1 in E4.
      rewrite (bind_ok _ _ _ _ _ E4). eexists _, _, _. split; [reflexivity|]. simpl. rewrite Hu.
      split; [done|]. split; [|split; [done|eauto]].
      by rewrite alter_insert_eq, delete_insert_id.
    + eexists _, _, _. split; [reflexivity|]. simpl. split; [done|]. split; [done|].
      split; [apply Hb; left|]. split; [apply Hb; right; left|]. split; [by rewrite Ht1|].
      by rewrite alter_insert_eq.
  - exfalso. assert (length (take 2 (free_slots 61 3 t)) <= 2)%nat by (rewrite length_take; lia).
    rewrite <- Hfds in *. cbn [length] in *. lia.
Qed.

Lemma sys_pipe_spec_witness :
  exists r', sys_pipe 4096 true (fun _ => Some [0]) 0
      (PipeRegistry ∅ 1 0 (Some (replicate 64 (ProcFd 0 0 0 0)))) = Ok ((0, [3; 4]), r').
Proof.
  destruct (sys_pipe_spec (PipeRegistry ∅ 1 0 (Some (replicate 64 (ProcFd 0 0 0 0))))
    (replicate 64 (ProcFd 0 0 0 0)) 4096 [0] 0) as (res & fds & r' & E & Hr);
    [reflexivity|reflexivity|lia|simpl; lia|reflexivity|vm_compute; split; congruence|].
  destruct Hr as (Hres & Hfds & _). exists r'. rewrite E, Hres, Hfds. reflexivity.
Defined.

(** Descriptors of the pipe whose number makes its index equal to the console
    marker are not recognised as pipe ends: the 48344th pipe of the system is
    unusable. *)
Theorem pipe_48344_is_no_pipe :
  match sys_pipe 4096 true (fun _ => Some [0]) 0
      (PipeRegistry ∅ 48344 0 (Some (replicate 64 (ProcFd 0 0 0 0)))) with
  | Ok ((res, fds), r') =>
      res = 0 /\ fds = [3; 4] /\
      match is_pipe_fd 3 r', is_pipe_fd 4 r' with
      | Ok (a, _), Ok (b, _) => a = (0, None) /\ b = (0, None)
      | _, _ => False
      end
  | Err _ => False
  end.
Proof. vm_compute. split_and!; reflexivity. Qed.

(** A read of zero bytes fails with -ENOMEM, because [kmalloc(0)] is NULL,
    where a POSIX read of zero bytes returns 0. *)
Theorem pipe_read_zero_fails (kmalloc_ok : Z -> bool) cur pid pending cret r p :
  kmalloc_ok 0 = false -> pipe_table r !! pid = Some p ->
  pipe_read_by_id cur pid 0 pending kmalloc_ok cret r = Ok (Return (- ENOMEM) [] false, r).
Proof.
  intros Hk Hp. unfold pipe_read_by_id, pipe_registry_lookup. run. by rewrite Hp, Hk.
Qed.
