(* ===== verification/Paging.v ===== *)
(** * Paging

    Models mm/page_dir.c, mm/cow_temp.c and mm/process_mm.c on the words of
    physical memory.  A C pointer is a virtual address, translated by the page
    directory in CR3 as the processor does for kernel code: an entry that is not
    present faults ([Undef]), write protection does not apply, because CR0.WP is
    never set.  The TLB is not modelled; every change of an entry is followed
    by [invlpg] or a reload of CR3.  [page_directory_t] and [process_memory_t]
    objects live in stores indexed by their address; [cpu] is the processor the
    code runs on.  The other locks make each
    operation atomic. *)

From stdpp Require Import base tactics numbers list gmap.
From S2P Require Import Prelude FrameAlloc Alloc.

Definition PAGE_PRESENT := 1.
Definition PAGE_WRITABLE := 2.
Definition PAGE_USER := 4.
Definition PAGE_COW_BIT := 512.
Definition PAGE_MASK := PAGE_SIZE_CONST - 1.
Definition PAGE_FRAME_MASK := u32 (Z.lnot 4095).
Definition PT_INDEX_MASK := 1023.
Definition NUM_KERNEL_PAGE_TABLES := IDENTITY_MAP_END / (4 * MB).
Definition USER_PDE_FIRST := NUM_KERNEL_PAGE_TABLES.
Definition USER_PDE_LAST := 768.
Definition TEMP_MAP_VADDR := IDENTITY_MAP_END - PAGE_SIZE_CONST.
Definition USER_SPACE_END := 2147483648.
Definition USER_STACK_BASE := 2147483648.
Definition USER_CODE_BASE := 134512640.
Definition USER_HEAP_BASE := 1073741824.
Definition KERNEL_BASE := 3221225472.
Definition MMIO_PT_POOL_SIZE := 4.
Definition MAX_MMAP_REGIONS := 64.
Definition MMAP_FILE_MAX_REGIONS := 128.

(** [sizeof(page_directory_t)] and [sizeof(process_memory_t)]. *)
Definition PAGE_DIRECTORY_SIZE := 4100.
Definition PROCESS_MEMORY_SIZE := 1296.

(** Where the linker put the static tables. *)
Class KernelImage := {
  kernel_page_directory : Z;
  kernel_page_table : Z -> Z;
  mmio_pt : Z -> Z;
  image_dir : 1048576 <= kernel_page_directory < KERNEL_HEAP_START /\ kernel_page_directory mod 4096 = 0;
  image_table t : 0 <= t < NUM_KERNEL_PAGE_TABLES ->
    1048576 <= kernel_page_table t < KERNEL_HEAP_START /\ kernel_page_table t mod 4096 = 0 /\
    kernel_page_table t <> kernel_page_directory;
  image_mmio k : 0 <= k < MMIO_PT_POOL_SIZE ->
    1048576 <= mmio_pt k < KERNEL_HEAP_START /\ mmio_pt k mod 4096 = 0 /\ mmio_pt k <> kernel_page_directory;
  image_apart t k : 0 <= t < NUM_KERNEL_PAGE_TABLES -> 0 <= k < MMIO_PT_POOL_SIZE ->
    kernel_page_table t <> mmio_pt k;
  image_inj t u : 0 <= t < NUM_KERNEL_PAGE_TABLES -> 0 <= u < NUM_KERNEL_PAGE_TABLES ->
    kernel_page_table t = kernel_page_table u -> t = u;
  image_mmio_inj k l : 0 <= k < MMIO_PT_POOL_SIZE -> 0 <= l < MMIO_PT_POOL_SIZE -> mmio_pt k = mmio_pt l -> k = l
}.

Record page_directory := PageDirectory {
  tables_physical : list Z;
  physical_addr : Z
}.

Record mmap_region := MmapRegion {
  r_addr : Z;
  r_len : Z;
  r_prot : Z;
  r_flags : Z;
  r_in_use : bool
}.

Record process_memory := ProcessMemory {
  pm_directory : Z;
  brk : Z;
  stack_base : Z;
  mmap_regions : list mmap_region;
  mmap_next_addr : Z
}.

Record mmap_file_region := MmapFileRegion {
  f_in_use : bool;
  f_pd_phys : Z;
  f_start : Z;
  f_end : Z;
  f_fd : Z;
  f_offset : Z;
  f_prot : Z
}.

Record mm (M : Type) := Mm {
  words : gmap Z Z;
  cr3 : Z;
  fa : frames;
  dirs : gmap Z page_directory;
  mems : gmap Z process_memory;
  mmap_file_table : list mmap_file_region;
  mmio_pt_next : Z;
  temp_map_lock : bool;
  mheap : M
}.
Arguments Mm {M} _ _ _ _ _ _ _ _ _.
Arguments words {M} _.
Arguments cr3 {M} _.
Arguments fa {M} _.
Arguments dirs {M} _.
Arguments mems {M} _.
Arguments mmap_file_table {M} _.
Arguments mmio_pt_next {M} _.
Arguments temp_map_lock {M} _.
Arguments mheap {M} _.

Section Paging.
Context {M : Type} {KM : Kmalloc M} {KI : KernelImage}.
(** The word found at an address nobody has written yet. *)
Variable junk : Z -> Z.
Variable cpu : Z.

Definition mm_eta (s : mm M) : mm M :=
  Mm (words s) (cr3 s) (fa s) (dirs s) (mems s) (mmap_file_table s) (mmio_pt_next s)
    (temp_map_lock s) (mheap s).
Definition set_words : gmap Z Z -> mm M -> mm M := ltac:(mkset mm_eta (@words M)).
Definition set_cr3_reg : Z -> mm M -> mm M := ltac:(mkset mm_eta (@cr3 M)).
Definition set_fa : frames -> mm M -> mm M := ltac:(mkset mm_eta (@fa M)).
Definition set_dirs : gmap Z page_directory -> mm M -> mm M := ltac:(mkset mm_eta (@dirs M)).
Definition set_mems : gmap Z process_memory -> mm M -> mm M := ltac:(mkset mm_eta (@mems M)).
Definition set_mmap_files : list mmap_file_region -> mm M -> mm M := ltac:(mkset mm_eta (@mmap_file_table M)).
Definition set_mmio_next : Z -> mm M -> mm M := ltac:(mkset mm_eta (@mmio_pt_next M)).
Definition set_temp_lock : bool -> mm M -> mm M := ltac:(mkset mm_eta (@temp_map_lock M)).
Definition set_mheap : M -> mm M -> mm M := ltac:(mkset mm_eta (@mheap M)).

Definition frames_do {A} (m : ST frames A) : ST (mm M) A := zoom fa set_fa m.

(** ** Memory accesses *)

Definition word (s : mm M) (a : Z) : Z := default (junk a) (words s !! a).

(** Physical memory, by address of the word. *)
Definition pld (a : Z) : ST (mm M) Z := gets (fun s => word s a).
Definition pst (a x : Z) : ST (mm M) unit := modify (fun s => set_words (<[a := x]> (words s)) s).

(** The entries for a virtual address in the table at [base]. *)
Definition pde_addr (base virt : Z) : Z := base + 4 * Z.shiftr virt 22.
Definition pte_addr (base virt : Z) : Z := base + 4 * Z.land (Z.shiftr virt 12) PT_INDEX_MASK.

(** The physical address a kernel access to [virt] reaches. *)
Definition walk (virt : Z) : ST (mm M) Z :=
  s ← gets id;
  pde ← pld (pde_addr (Z.land (cr3 s) PAGE_FRAME_MASK) virt);
  if Z.land pde PAGE_PRESENT =? 0 then fail Undef
  else
    pte ← pld (pte_addr (Z.land pde PAGE_FRAME_MASK) virt);
    if Z.land pte PAGE_PRESENT =? 0 then fail Undef
    else ret (Z.lor (Z.land pte PAGE_FRAME_MASK) (Z.land virt PAGE_MASK)).

(** Loading and storing the word at [virt]. *)
Definition vld (virt : Z) : ST (mm M) Z := a ← walk virt; pld a.
Definition vst (virt x : Z) : ST (mm M) unit := a ← walk virt; pst a x.

(** The byte at [virt], and storing one. *)
Definition vldb (virt : Z) : ST (mm M) Z :=
  a ← walk virt;
  w ← pld (a - a mod 4);
  ret (Z.land (Z.shiftr w (8 * (a mod 4))) 255).
Definition vstb (virt x : Z) : ST (mm M) unit :=
  a ← walk virt;
  w ← pld (a - a mod 4);
  pst (a - a mod 4) (Z.lor (Z.land w (u32 (Z.lnot (Z.shiftl 255 (8 * (a mod 4)))))) (Z.shiftl x (8 * (a mod 4)))).

(** ** page_dir.c *)

(** [kernel_page_tables[t]], NULL from the ninth on. *)
Definition kernel_page_tables (t : Z) : Z :=
  if (0 <=? t) && (t <? NUM_KERNEL_PAGE_TABLES) then kernel_page_table t else 0.

Definition set_cr3 (pd : Z) : ST (mm M) unit := modify (set_cr3_reg pd).

(** One identity-mapped table. *)
Definition init_table (t : Z) : ST (mm M) unit :=
  for_loop 1024 0 (fun p =>
    pst (kernel_page_tables t + 4 * p)
      (Z.lor (Z.lor (u32 ((t * 1024 + p) * PAGE_SIZE_CONST)) PAGE_PRESENT) PAGE_WRITABLE)).

(** Paging is off until the end, so the accesses are to physical memory. *)
Definition paging_init : ST (mm M) unit :=
  frames_do (frame_alloc_reserve_low KERNEL_HEAP_END);;
  for_loop 1024 0 (fun i => pst (kernel_page_directory + 4 * i) 0);;
  r ← for_until (Z.to_nat NUM_KERNEL_PAGE_TABLES) 0 (fun t =>
        if kernel_page_tables t =? 0 then ret (Some tt)
        else
          init_table t;;
          pst (kernel_page_directory + 4 * t) (Z.lor (Z.lor (kernel_page_tables t) PAGE_PRESENT) PAGE_WRITABLE);;
          frames_do (frame_alloc_mark_used (kernel_page_tables t));;
          ret None);
  match r with
  | Some _ => ret tt
  | None => set_cr3 kernel_page_directory
  end.

Definition map_uncached_mmio (phys : Z) : ST (mm M) Z :=
  let pte_flags := Z.lor (Z.lor PAGE_PRESENT PAGE_WRITABLE) 16 in
  let pde_flags := Z.lor PAGE_PRESENT PAGE_WRITABLE in
  let pdi := Z.shiftr phys 22 in
  let pti := Z.land (Z.shiftr phys 12) 1023 in
  let page_phys := Z.land phys PAGE_FRAME_MASK in
  pde ← vld (kernel_page_directory + 4 * pdi);
  pt ← (if negb (Z.land pde PAGE_PRESENT =? 0) then ret (Some (Z.land pde PAGE_FRAME_MASK))
        else
          s ← gets id;
          if MMIO_PT_POOL_SIZE <=? mmio_pt_next s then ret None
          else
            let pt := mmio_pt (mmio_pt_next s) in
            modify (set_mmio_next (u32 (mmio_pt_next s + 1)));;
            for_loop 1024 0 (fun i => vst (pt + 4 * i) 0);;
            vst (kernel_page_directory + 4 * pdi) (Z.lor pt pde_flags);;
            ret (Some pt));
  match pt with
  | None => ret (-1)
  | Some pt =>
      existing ← vld (pt + 4 * pti);
      if negb (Z.land existing PAGE_PRESENT =? 0) && (Z.land existing PAGE_FRAME_MASK =? page_phys) then ret 0
      else vst (pt + 4 * pti) (Z.lor page_phys pte_flags);; ret 0
  end.

(** Objects of the kernel heap. *)
Definition get_dir (dir : Z) : ST (mm M) page_directory :=
  s ← gets id; match dirs s !! dir with Some d => ret d | None => fail Undef end.

(** [dir->tables_physical[i] = x]. *)
Definition set_table_entry (dir i x : Z) : ST (mm M) unit :=
  d ← get_dir dir;
  t ← wr (tables_physical d) i x;
  modify (fun s => set_dirs (<[dir := PageDirectory t (physical_addr d)]> (dirs s)) s).

Definition kmalloc_do (n : Z) : ST (mm M) Z := zoom mheap set_mheap (kmalloc n).
Definition kfree_do (p : Z) : ST (mm M) unit := zoom mheap set_mheap (kfree p).

(** Result 0 is NULL; the new object starts with whatever the memory held. *)
Definition create_page_directory : ST (mm M) Z :=
  dir ← kmalloc_do PAGE_DIRECTORY_SIZE;
  if dir =? 0 then ret 0
  else
    modify (fun s => set_dirs (<[dir := PageDirectory (junk <$> seqZ dir 1024) (junk (dir + 4096))]> (dirs s)) s);;
    pd_phys ← frames_do (allocate_frame cpu);
    if (pd_phys =? NO_FRAME) || (IDENTITY_MAP_END <=? pd_phys) then
      (if negb (pd_phys =? NO_FRAME) then frames_do (free_frame cpu pd_phys) else ret tt);;
      kfree_do dir;;
      modify (fun s => set_dirs (delete dir (dirs s)) s);;
      ret 0
    else
      d ← get_dir dir;
      modify (fun s => set_dirs (<[dir := PageDirectory (tables_physical d) pd_phys]> (dirs s)) s);;
      for_loop 1024 0 (fun i => set_table_entry dir i 0;; vst (pd_phys + 4 * i) 0);;
      for_loop (Z.to_nat NUM_KERNEL_PAGE_TABLES) 0 (fun i =>
        e ← vld (kernel_page_directory + 4 * i);
        vst (pd_phys + 4 * i) e;;
        e ← vld (kernel_page_directory + 4 * i);
        set_table_entry dir i e);;
      for_loop (Z.to_nat (1024 - NUM_KERNEL_PAGE_TABLES)) NUM_KERNEL_PAGE_TABLES (fun i =>
        e ← vld (kernel_page_directory + 4 * i);
        if negb (Z.land e PAGE_PRESENT =? 0) then
          vst (pd_phys + 4 * i) e;;
          e ← vld (kernel_page_directory + 4 * i);
          set_table_entry dir i e
        else ret tt);;
      ret dir.

(** The pages of one table lose a reference each. *)
Definition drop_table (pt : Z) : ST (mm M) unit :=
  for_loop 1024 0 (fun j =>
    entry ← vld (pt + 4 * j);
    if negb (Z.land entry PAGE_PRESENT =? 0)
    then frames_do (frame_decref cpu (Z.land entry PAGE_FRAME_MASK)) else ret tt).

Definition destroy_page_directory (dir : Z) : ST (mm M) unit :=
  if dir =? 0 then ret tt
  else
    d ← get_dir dir;
    let pd := physical_addr d in
    for_loop (Z.to_nat (768 - 4)) 4 (fun i =>
      e ← vld (pd + 4 * i);
      if Z.land e PAGE_PRESENT =? 0 then ret tt
      else
        let pt_phys := Z.land e PAGE_FRAME_MASK in
        if IDENTITY_MAP_END <=? pt_phys then ret tt
        else drop_table pt_phys;; frames_do (free_frame cpu pt_phys));;
    frames_do (free_frame cpu pd);;
    kfree_do dir;;
    modify (fun s => set_dirs (delete dir (dirs s)) s).

Definition switch_page_directory (dir : Z) : ST (mm M) unit :=
  d ← get_dir dir; set_cr3 (physical_addr d).

(** ** cow_temp.c *)

(** [temp_map_lock] is held from a successful [temp_map_frame] to the
    [temp_unmap_frame]; taking it while it is held spins forever. *)
Definition lock_temp : ST (mm M) unit :=
  s ← gets id; if temp_map_lock s then fail NoFuel else modify (set_temp_lock true).
Definition unlock_temp : ST (mm M) unit := modify (set_temp_lock false).

(** Result 0 is NULL. *)
Definition temp_map_frame (phys_frame : Z) : ST (mm M) Z :=
  lock_temp;;
  if phys_frame <? IDENTITY_MAP_END then ret phys_frame
  else
    let pdi := Z.land (Z.shiftr TEMP_MAP_VADDR 22) 1023 in
    let pti := Z.land (Z.shiftr TEMP_MAP_VADDR 12) PT_INDEX_MASK in
    if (pdi <? NUM_KERNEL_PAGE_TABLES) && negb (kernel_page_tables pdi =? 0) then
      vst (kernel_page_tables pdi + 4 * pti)
        (Z.lor (Z.lor (Z.land phys_frame PAGE_FRAME_MASK) PAGE_PRESENT) PAGE_WRITABLE);;
      ret TEMP_MAP_VADDR
    else unlock_temp;; ret 0.

Definition temp_unmap_frame : ST (mm M) unit :=
  let pdi := Z.land (Z.shiftr TEMP_MAP_VADDR 22) 1023 in
  let pti := Z.land (Z.shiftr TEMP_MAP_VADDR 12) PT_INDEX_MASK in
  (if (pdi <? NUM_KERNEL_PAGE_TABLES) && negb (kernel_page_tables pdi =? 0)
   then vst (kernel_page_tables pdi + 4 * pti) 0 else ret tt);;
  unlock_temp.

(** [for (i = 0; i < 1024; i++) p[i] = 0]. *)
Definition zero_words (p : Z) : ST (mm M) unit := for_loop 1024 0 (fun i => vst (p + 4 * i) 0).

Definition zero_frame (addr : Z) : ST (mm M) unit :=
  if addr <? IDENTITY_MAP_END then zero_words addr
  else
    p ← temp_map_frame addr;
    if p =? 0 then fail Panic
    else zero_words p;; temp_unmap_frame.

(** Stores the bytes of [src] from [dst] on. *)
Fixpoint store_bytes (dst : Z) (src : list Z) : ST (mm M) unit :=
  match src with
  | [] => ret tt
  | b :: src' => vstb dst b;; store_bytes (dst + 1) src'
  end.

Definition copy_to_frame (frame offset : Z) (src : list Z) : ST (mm M) Z :=
  if frame <? IDENTITY_MAP_END then
    let dst := u32 (frame + offset) in
    store_bytes dst src;; ret dst
  else
    mapped ← temp_map_frame frame;
    if mapped =? 0 then fail Panic
    else store_bytes (u32 (mapped + offset)) src;; temp_unmap_frame;; ret 1.

(** The page table for entry [pdi] of the directory; false without memory. *)
Definition map_table (dir pd pdi flags : Z) : ST (mm M) bool :=
  e ← vld (pd + 4 * pdi);
  if Z.land e PAGE_PRESENT =? 0 then
    pt_phys ← frames_do (allocate_frame cpu);
    if pt_phys =? NO_FRAME then ret false
    else
      zero_frame pt_phys;;
      vst (pd + 4 * pdi) (Z.lor (Z.lor (Z.lor pt_phys PAGE_PRESENT) PAGE_WRITABLE) (Z.land flags PAGE_USER));;
      e ← vld (pd + 4 * pdi);
      set_table_entry dir pdi e;;
      ret true
  else ret true.

(** The user bit of a mapping is set in the directory entry as well. *)
Definition promote_user (dir pd pdi flags : Z) : ST (mm M) unit :=
  if negb (Z.land flags PAGE_USER =? 0) then
    e ← vld (pd + 4 * pdi);
    vst (pd + 4 * pdi) (Z.lor e PAGE_USER);;
    e ← vld (pd + 4 * pdi);
    set_table_entry dir pdi e
  else ret tt.

Definition map_page (dir virt phys flags : Z) : ST (mm M) Z :=
  let pdi := Z.shiftr virt 22 in
  let pti := Z.land (Z.shiftr virt 12) PT_INDEX_MASK in
  d ← get_dir dir;
  let pd := physical_addr d in
  ok ← map_table dir pd pdi flags;
  if negb (ok : bool) then ret (-1)
  else
    promote_user dir pd pdi flags;;
    e ← vld (pd + 4 * pdi);
    let pt_phys := Z.land e PAGE_FRAME_MASK in
    vst (pt_phys + 4 * pti) (Z.lor (Z.land phys PAGE_FRAME_MASK) flags);;
    ret 0.

Definition unmap_page (dir virt : Z) : ST (mm M) unit :=
  let pdi := Z.shiftr virt 22 in
  let pti := Z.land (Z.shiftr virt 12) PT_INDEX_MASK in
  d ← get_dir dir;
  let pd := physical_addr d in
  e ← vld (pd + 4 * pdi);
  if Z.land e PAGE_PRESENT =? 0 then ret tt
  else vst (Z.land e PAGE_FRAME_MASK + 4 * pti) 0.

(** The walk through the directory at [pd]. *)
Definition get_physical_from (pd virt : Z) : ST (mm M) Z :=
  let pdi := Z.shiftr virt 22 in
  let pti := Z.land (Z.shiftr virt 12) PT_INDEX_MASK in
  e ← vld (pd + 4 * pdi);
  if Z.land e PAGE_PRESENT =? 0 then ret 0
  else
    let pt := Z.land e PAGE_FRAME_MASK in
    p ← vld (pt + 4 * pti);
    if Z.land p PAGE_PRESENT =? 0 then ret 0
    else ret (Z.lor (Z.land p PAGE_FRAME_MASK) (Z.land virt PAGE_MASK)).

Definition get_physical_addr (dir virt : Z) : ST (mm M) Z :=
  d ← get_dir dir; get_physical_from (physical_addr d) virt.

Definition get_physical_addr_current (virt : Z) : ST (mm M) Z :=
  s ← gets id; get_physical_from (Z.land (cr3 s) PAGE_FRAME_MASK) virt.

(** [for (k = 0; k < 1024; k++) d[k] = s[k]]. *)
Definition copy_words (d s : Z) : ST (mm M) unit :=
  for_loop 1024 0 (fun k => x ← vld (s + 4 * k); vst (d + 4 * k) x).

(** The 1024 words at [s], and storing them at [d]. *)
Fixpoint load_words (n : nat) (s : Z) : ST (mm M) (list Z) :=
  match n with
  | O => ret []
  | S n' => x ← vld s; l ← load_words n' (s + 4); ret (x :: l)
  end.
Fixpoint store_words (d : Z) (l : list Z) : ST (mm M) unit :=
  match l with
  | [] => ret tt
  | x :: l' => vst d x;; store_words (d + 4) l'
  end.

(** Copies [old_frame] to [new_frame]; false when a mapping fails. *)
Definition copy_frame (old_frame new_frame : Z) : ST (mm M) bool :=
  s ← (if old_frame <? IDENTITY_MAP_END then ret old_frame else temp_map_frame old_frame);
  if s =? 0 then ret false
  else
    let s_temp := negb (old_frame <? IDENTITY_MAP_END) in
    if new_frame <? IDENTITY_MAP_END then
      copy_words new_frame s;;
      (if s_temp then temp_unmap_frame else ret tt);;
      ret true
    else
      buf ← load_words 1024 s;
      (if s_temp then temp_unmap_frame else ret tt);;
      d ← temp_map_frame new_frame;
      if d =? 0 then ret false
      else store_words d buf;; temp_unmap_frame;; ret true.

Definition handle_cow_fault (dir fault_addr : Z) : ST (mm M) Z :=
  if dir =? 0 then ret (-1)
  else
    d ← get_dir dir;
    let pd := physical_addr d in
    let pdi := Z.land (Z.shiftr fault_addr 22) 1023 in
    let pti := Z.land (Z.shiftr fault_addr 12) PT_INDEX_MASK in
    e ← vld (pd + 4 * pdi);
    if Z.land e PAGE_PRESENT =? 0 then ret (-1)
    else
      let pt := Z.land e PAGE_FRAME_MASK in
      if IDENTITY_MAP_END <=? pt then ret (-1)
      else
        entry ← vld (pt + 4 * pti);
        if Z.land entry PAGE_PRESENT =? 0 then ret (-1)
        else if Z.land entry PAGE_COW_BIT =? 0 then ret (-1)
        else
          entry ← vld (pt + 4 * pti);
          if (Z.land entry PAGE_PRESENT =? 0) || (Z.land entry PAGE_COW_BIT =? 0) then ret 0
          else
            let old_frame := Z.land entry PAGE_FRAME_MASK in
            let flags := Z.lor (Z.land (Z.land entry PAGE_MASK) (u32 (Z.lnot PAGE_COW_BIT))) PAGE_WRITABLE in
            r ← frames_do (frame_getref old_frame);
            if r <=? 1 then vst (pt + 4 * pti) (Z.lor old_frame flags);; ret 0
            else
              new_frame ← frames_do (allocate_frame cpu);
              if new_frame =? NO_FRAME then ret (-1)
              else
                ok ← copy_frame old_frame new_frame;
                if negb (ok : bool) then frames_do (free_frame cpu new_frame);; ret (-1)
                else
                  vst (pt + 4 * pti) (Z.lor new_frame flags);;
                  frames_do (frame_decref cpu old_frame);;
                  ret 0.

End Paging.
