(* ===== verification/PagingProofs.v ===== *)
(** * Paging: the invariant

    Who owns which frame.  [role] maps every frame in use to its owner: a page
    directory, the page table of one directory entry, or the user pages that
    map it together with the references held outside the page tables.  The
    invariant ties the words of memory, the reference counts and the owners
    together; the identity map of the kernel follows from it, so that kernel
    accesses below 32 MB reach the word at their address. *)

From stdpp Require Import base tactics numbers list gmap.
From S2P Require Import Prelude FrameAlloc Alloc Paging.

(** ** Entries *)

Definition present (e : Z) : bool := Z.testbit e 0.
Definition frame_of (e : Z) : Z := Z.land e PAGE_FRAME_MASK.

Lemma land_present e : (Z.land e PAGE_PRESENT =? 0) = negb (present e).
Proof. exact (land_bit_test e 0 ltac:(lia)). Qed.

Lemma land_user e : (Z.land e PAGE_USER =? 0) = negb (Z.testbit e 2).
Proof. exact (land_bit_test e 2 ltac:(lia)). Qed.

Lemma land_writable e : (Z.land e PAGE_WRITABLE =? 0) = negb (Z.testbit e 1).
Proof. exact (land_bit_test e 1 ltac:(lia)). Qed.

Lemma land_cow e : (Z.land e PAGE_COW_BIT =? 0) = negb (Z.testbit e 9).
Proof. exact (land_bit_test e 9 ltac:(lia)). Qed.

Lemma frame_of_div e : is_u32 e -> frame_of e = addr_of (e / 4096).
Proof. intros He. apply (land_lnot_mask e 12 He). lia. Qed.

Lemma land_offset e : Z.land e PAGE_MASK = e mod 4096.
Proof. exact (land_pow2_mask e 12 ltac:(lia)). Qed.

(** An entry made of a frame and flags. *)
Lemma lor_entry f x : 0 <= x < 4096 -> Z.lor (addr_of f) x = addr_of f + x.
Proof. intros. by apply (lor_low f x 12). Qed.

Lemma entry_u32 f x : 0 <= f < 1048576 -> 0 <= x < 4096 -> is_u32 (Z.lor (addr_of f) x).
Proof. intros. rewrite lor_entry by done. unfold is_u32, addr_of, PAGE_SIZE_CONST. lia. Qed.

Lemma entry_frame f x : 0 <= f < 1048576 -> 0 <= x < 4096 -> frame_of (Z.lor (addr_of f) x) = addr_of f.
Proof.
  intros Hf Hx. rewrite frame_of_div by (by apply entry_u32). f_equal. rewrite lor_entry by done.
  unfold addr_of, PAGE_SIZE_CONST. symmetry. apply (Z.div_unique _ _ _ x); lia.
Qed.

Lemma addr_of_bit f k : 0 <= k < 12 -> Z.testbit (addr_of f) k = false.
Proof.
  intros. unfold addr_of, PAGE_SIZE_CONST. change 4096 with (2 ^ 12).
  apply Z.mul_pow2_bits_low. lia.
Qed.

Lemma entry_bit f x k : 0 <= k < 12 -> Z.testbit (Z.lor (addr_of f) x) k = Z.testbit x k.
Proof. intros. by rewrite Z.lor_spec, addr_of_bit by done. Qed.

Lemma entry_present f x : present (Z.lor (addr_of f) x) = present x.
Proof. by apply entry_bit. Qed.

(** An entry is its frame and its flags. *)
Lemma entry_split e : is_u32 e -> e = Z.lor (frame_of e) (Z.land e PAGE_MASK).
Proof.
  intros He. rewrite frame_of_div, land_offset, lor_entry by (done || by apply Z.mod_pos_bound).
  unfold addr_of, PAGE_SIZE_CONST. pose proof (Z.div_mod e 4096 ltac:(lia)). lia.
Qed.

(** ** Ownership *)

(** A user page: a page directory and a virtual page number. *)
Abbreviation upage := (Z * Z)%type.

Inductive role :=
| RDir (d : Z)
| RTab (d i : Z)
| RPages (held : Z) (ps : gset upage).

Definition role_count (r : role) : Z :=
  match r with
  | RDir _ | RTab _ _ => 1
  | RPages h ps => h + Z.of_nat (size ps)
  end.

Abbreviation roles := (gmap Z role).

(** The entry of the user page [(d, v)] may be [e]. *)
Definition page_ok (R : roles) (d v e : Z) : Prop :=
  present e = true -> exists f h ps, frame_of e = addr_of f /\ R !! f = Some (RPages h ps) /\ (d, v) ∈ ps.

Lemma page_ok_0 R d v : page_ok R d v 0.
Proof. done. Qed.

Lemma page_ok_mono R R' d v e :
  (forall f h ps, R !! f = Some (RPages h ps) -> (d, v) ∈ ps ->
     exists h' ps', R' !! f = Some (RPages h' ps') /\ (d, v) ∈ ps') ->
  page_ok R d v e -> page_ok R' d v e.
Proof.
  intros H Hok Hp. destruct (Hok Hp) as (f & h & ps & E & Hf & Hin).
  destruct (H f h ps Hf Hin) as (h' & ps' & ? & ?). eauto 8.
Qed.

Definition user_pde (i : Z) : Prop := USER_PDE_FIRST <= i < USER_PDE_LAST.

Lemma user_pde_bounds i : user_pde i <-> 8 <= i < 768.
Proof. done. Qed.

Section Invariant.
Context {M : Type} {KI : KernelImage}.
Variable junk : Z -> Z.
Implicit Types s : mm M.
Abbreviation word := (word junk).

(** The directories the processor may run on. *)
Definition base s (b : Z) : Prop :=
  b = kernel_page_directory \/ exists d dd, dirs s !! d = Some dd /\ b = physical_addr dd.

Record mm_core s (R : roles) : Prop := {
  mi_u32 a : is_u32 (word s a);
  mi_fa : fa_inv (fa s) [] (role_count <$> R);
  mi_mags : length (magazines (fa s)) = 8%nat;
  mi_held f h ps : R !! f = Some (RPages h ps) -> 0 <= h;
  mi_cr3 : base s (cr3 s);
  mi_ktab t p : 0 <= t < 8 -> 0 <= p < 1024 ->
    present (word s (kernel_page_table t + 4 * p)) = true /\
    frame_of (word s (kernel_page_table t + 4 * p)) = addr_of (t * 1024 + p);
  mi_kdir b t : base s b -> 0 <= t < 8 ->
    present (word s (b + 4 * t)) = true /\ frame_of (word s (b + 4 * t)) = kernel_page_table t;
  mi_knone i : user_pde i -> present (word s (kernel_page_directory + 4 * i)) = false;
  mi_dir d dd : dirs s !! d = Some dd -> d <> 0 /\ length (tables_physical dd) = 1024%nat /\
    exists f, physical_addr dd = addr_of f /\ R !! f = Some (RDir d);
  mi_tab d dd i : dirs s !! d = Some dd -> user_pde i -> present (word s (physical_addr dd + 4 * i)) = true ->
    exists f, frame_of (word s (physical_addr dd + 4 * i)) = addr_of f /\ R !! f = Some (RTab d i)
}.

Lemma image_frame k : (exists t, 0 <= t < 8 /\ k = kernel_page_table t) \/ k = kernel_page_directory ->
  exists f, k = addr_of f /\ 256 <= f < 768.
Proof.
  intros H. assert (1048576 <= k < KERNEL_HEAP_START /\ k mod 4096 = 0) as [Hk Hm].
  { destruct H as [(t & Ht & ->)| ->]; [|apply image_dir]. by destruct (image_table t Ht) as (? & ? & _). }
  exists (k / 4096). unfold KERNEL_HEAP_START in Hk. pose proof (Z.div_mod k 4096 ltac:(lia)).
  unfold addr_of, PAGE_SIZE_CONST. lia.
Qed.

Lemma role_pool s R f r : mm_core s R -> R !! f = Some r -> 2816 <= f < 8192 /\ 1 <= role_count r <= 65535.
Proof.
  intros Hs Hf. destruct (live_bounds _ _ _ f (role_count r) (mi_fa _ _ Hs)) as (? & _ & ?); [|done].
  by rewrite lookup_fmap, Hf.
Qed.

Lemma base_frame s R b : mm_core s R -> base s b -> exists f, b = addr_of f /\ 256 <= f < 8192.
Proof.
  intros Hs [ -> |(d & dd & Hd & ->)].
  - destruct (image_frame kernel_page_directory) as (f & -> & ?); [by right|]. exists f. split; [done|lia].
  - destruct (mi_dir _ _ Hs d dd Hd) as (_ & _ & f & -> & Hf). exists f. split; [done|].
    destruct (role_pool s R f _ Hs Hf). lia.
Qed.

(** ** Kernel accesses *)

Lemma walk_ident s R a : mm_core s R -> 0 <= a < IDENTITY_MAP_END -> walk junk a s = Ok (a, s).
Proof.
  intros Hs Ha. change IDENTITY_MAP_END with 33554432 in Ha. unfold walk, pld. run. unfold id.
  destruct (base_frame s R _ Hs (mi_cr3 _ _ Hs)) as (b & Hb & Hbb).
  assert (Z.land (cr3 s) PAGE_FRAME_MASK = cr3 s) as ->.
  { change (frame_of (cr3 s) = cr3 s). rewrite Hb, frame_of_div, <- Hb by
      (unfold is_u32, addr_of, PAGE_SIZE_CONST; lia).
    rewrite Hb. unfold addr_of at 2, PAGE_SIZE_CONST. by rewrite Z.div_mul. }
  unfold pde_addr. rewrite Z.shiftr_div_pow2 by lia. change (2 ^ 22) with 4194304.
  assert (0 <= a / 4194304 < 8) as Ht.
  { split; [apply Z.div_pos; lia|apply Z.div_lt_upper_bound; lia]. }
  destruct (mi_kdir _ _ Hs _ _ (mi_cr3 _ _ Hs) Ht) as [Hp Hf].
  rewrite land_present, Hp. cbn [negb]. run. fold (frame_of (word s (cr3 s + 4 * (a / 4194304)))). rewrite Hf.
  unfold pte_addr. change PT_INDEX_MASK with (2 ^ 10 - 1).
  rewrite land_pow2_mask, Z.shiftr_div_pow2 by lia. change (2 ^ 12) with 4096. change (2 ^ 10) with 1024.
  destruct (mi_ktab _ _ Hs _ _ Ht (Z.mod_pos_bound (a / 4096) 1024 ltac:(lia))) as [Hp2 Hf2].
  rewrite land_present, Hp2. cbn [negb]. unfold ret. do 2 f_equal.
  fold (frame_of (word s (kernel_page_table (a / 4194304) + 4 * ((a / 4096) mod 1024)))). rewrite Hf2.
  rewrite land_offset, lor_entry by (by apply Z.mod_pos_bound).
  unfold addr_of, PAGE_SIZE_CONST. change 4194304 with (4096 * 1024). rewrite <- Z.div_div by lia.
  pose proof (Z.div_mod a 4096 ltac:(lia)). pose proof (Z.div_mod (a / 4096) 1024 ltac:(lia)). lia.
Qed.

(** Storing a word of physical memory. *)
Definition put (a x : Z) s : mm M := set_words (<[a := x]> (words s)) s.

Lemma word_put s a x b : word (put a x s) b = if decide (b = a) then x else word s b.
Proof.
  unfold Paging.word, put. cbn [words set_words]. case_decide as H.
  - subst b. by rewrite lookup_insert_eq.
  - by rewrite lookup_insert_ne by congruence.
Qed.

Lemma word_put_ne s a x b : b <> a -> word (put a x s) b = word s b.
Proof. intros. rewrite word_put. by case_decide. Qed.

Lemma word_put_eq s a x : word (put a x s) a = x.
Proof. rewrite word_put. by case_decide. Qed.

(** Words of two frames. *)
Lemma word_addr_eq f g i j :
  0 <= i < 1024 -> 0 <= j < 1024 -> addr_of f + 4 * i = addr_of g + 4 * j -> f = g /\ i = j.
Proof. unfold addr_of, PAGE_SIZE_CONST. lia. Qed.

(** What may be written to a word of an owned frame. *)
Definition write_ok (R : roles) (r : role) (i x : Z) : Prop :=
  match r with
  | RPages _ _ | RTab _ _ => True
  | RDir d => 8 <= i /\
      (user_pde i -> present x = true -> exists f, frame_of x = addr_of f /\ R !! f = Some (RTab d i))
  end.

(** Directories and the kernel's tables occupy different frames. *)
Lemma put_frame_ne s f x k i j :
  0 <= i < 1024 -> 0 <= j < 1024 -> f <> k -> word (put (addr_of f + 4 * i) x s) (addr_of k + 4 * j) = word s (addr_of k + 4 * j).
Proof. intros Hi Hj Hne. apply word_put_ne. intros E. by apply word_addr_eq in E as [? _]. Qed.

Lemma core_put s R f r i x :
  mm_core s R -> R !! f = Some r -> 0 <= i < 1024 -> is_u32 x -> write_ok R r i x ->
  mm_core (put (addr_of f + 4 * i) x s) R.
Proof.
  intros Hs Hf Hi Hx Hok. destruct (role_pool s R f r Hs Hf) as [Hpool _].
  assert (forall k j, (exists t, 0 <= t < 8 /\ k = kernel_page_table t) \/ k = kernel_page_directory ->
    0 <= j < 1024 -> word (put (addr_of f + 4 * i) x s) (k + 4 * j) = word s (k + 4 * j)) as Hk.
  { intros k j Hk Hj. destruct (image_frame k Hk) as (g & -> & ?). apply put_frame_ne; lia. }
  constructor; try apply Hs.
  - intros a. rewrite word_put. case_decide; [done|apply Hs].
  - intros t p Ht Hp. rewrite Hk by (eauto || lia). by apply Hs.
  - intros b t Hb Ht. replace (word (put _ _ _) _) with (word s (b + 4 * t)); [by apply Hs|].
    destruct Hb as [-> |(d & dd & Hd & ->)]; [rewrite Hk by (by right || lia); done|].
    destruct (mi_dir _ _ Hs d dd Hd) as (_ & _ & g & -> & Hg). symmetry. apply word_put_ne.
    intros E. apply word_addr_eq in E as [<- <-]; [|lia..]. rewrite Hf in Hg. injection Hg as ->. destruct Hok. lia.
  - intros k Hu. rewrite Hk by (by right || rewrite user_pde_bounds in Hu; lia). by apply Hs.
  - intros d dd k Hd Hu. cbn [dirs put set_words] in Hd. pose proof Hu as Hub. rewrite user_pde_bounds in Hub.
    destruct (mi_dir _ _ Hs d dd Hd) as (_ & _ & g & Eg & Hg). rewrite Eg. rewrite word_put. case_decide as E.
    + apply word_addr_eq in E as [-> ->]; [|lia..]. rewrite Hf in Hg. injection Hg as ->. by apply Hok.
    + rewrite <- Eg. by apply Hs.
Qed.

(** ** The entries of user pages *)

Definition user_vpn (v : Z) : Prop := 8192 <= v < 786432.

(** The entry of the page [v] in the directory [d], 0 where it has no table. *)
Definition pte s (d v : Z) : Z :=
  match dirs s !! d with
  | Some dd =>
      let e := word s (physical_addr dd + 4 * (v / 1024)) in
      if present e then word s (frame_of e + 4 * (v mod 1024)) else 0
  | None => 0
  end.

(** The page [(d, v)] maps the frame [f]. *)
Definition maps s (d v f : Z) : Prop := present (pte s d v) = true /\ frame_of (pte s d v) = addr_of f.

(** Every user page maps a frame owned by user pages, and the owners of such a
    frame are the pages that map it. *)
Record pages_ok s (R : roles) : Prop := {
  pg_mapped d v : user_vpn v -> page_ok R d v (pte s d v);
  pg_owner f h ps d v : R !! f = Some (RPages h ps) -> (d, v) ∈ ps -> user_vpn v /\ maps s d v f
}.

Record mm_inv s (R : roles) : Prop := {
  mi_core :> mm_core s R;
  mi_pages : pages_ok s R
}.

Lemma vpn_split v : user_vpn v -> user_pde (v / 1024) /\ 0 <= v mod 1024 < 1024 /\ v / 1024 * 1024 + v mod 1024 = v.
Proof.
  unfold user_vpn. intros Hv. rewrite user_pde_bounds. pose proof (Z.div_mod v 1024 ltac:(lia)).
  pose proof (Z.mod_pos_bound v 1024 ltac:(lia)). lia.
Qed.

Lemma vpn_join i j : user_pde i -> 0 <= j < 1024 ->
  user_vpn (i * 1024 + j) /\ (i * 1024 + j) / 1024 = i /\ (i * 1024 + j) mod 1024 = j.
Proof.
  rewrite user_pde_bounds. intros Hi Hj. unfold user_vpn. split; [lia|]. split.
  - symmetry. apply (Z.div_unique _ _ _ j); lia.
  - symmetry. apply (Z.mod_unique _ _ i); lia.
Qed.

Lemma inv_pte s R d v : mm_inv s R -> user_vpn v -> page_ok R d v (pte s d v).
Proof. intros Hs. apply (mi_pages _ _ Hs). Qed.

Lemma vld_ok s R a : mm_inv s R -> 0 <= a < IDENTITY_MAP_END -> vld junk a s = Ok (word s a, s).
Proof. intros Hs Ha. unfold vld. by rewrite (bind_ok _ _ _ _ _ (walk_ident s R a Hs Ha)). Qed.

Lemma vst_ok s R a x : mm_inv s R -> 0 <= a < IDENTITY_MAP_END -> vst junk a x s = Ok (tt, put a x s).
Proof. intros Hs Ha. unfold vst. by rewrite (bind_ok _ _ _ _ _ (walk_ident s R a Hs Ha)). Qed.

(** The owner of a mapped frame. *)
Lemma maps_owner s R d v f : mm_inv s R -> user_vpn v -> maps s d v f ->
  exists h ps, R !! f = Some (RPages h ps) /\ (d, v) ∈ ps.
Proof.
  intros Hs Hv [Hp E]. destruct (inv_pte s R d v Hs Hv Hp) as (g & h & ps & Eg & Hg & Hin).
  rewrite E in Eg. apply addr_of_inj in Eg as <-. eauto.
Qed.

Lemma maps_ext s s' d v f : pte s' d v = pte s d v -> maps s' d v f <-> maps s d v f.
Proof. unfold maps. by intros ->. Qed.

Lemma pages_same s s' R : (forall d v, user_vpn v -> pte s' d v = pte s d v) -> pages_ok s R -> pages_ok s' R.
Proof.
  intros E [Hm Ho]. constructor.
  - intros d v Hv. rewrite E by done. by apply Hm.
  - intros f h ps d v Hf Hin. destruct (Ho f h ps d v Hf Hin) as [Hv ?]. split; [done|]. by rewrite maps_ext by (by apply E).
Qed.

(** ** Steps that keep every user page *)

(** Words of the page directories and tables. *)
Definition same_tables s s' (R : roles) : Prop :=
  forall g r i, R !! g = Some r -> match r with RPages _ _ => False | _ => True end -> 0 <= i < 1024 ->
    word s' (addr_of g + 4 * i) = word s (addr_of g + 4 * i).

(** Words of the frames user pages map. *)
Definition same_data s s' (R : roles) : Prop :=
  forall g h ps i, R !! g = Some (RPages h ps) -> 0 <= i < 1024 ->
    word s' (addr_of g + 4 * i) = word s (addr_of g + 4 * i).

Definition same_spaces s s' : Prop := forall d, physical_addr <$> dirs s' !! d = physical_addr <$> dirs s !! d.

Lemma pte_same s s' R d v :
  mm_inv s R -> same_spaces s s' -> same_tables s s' R -> user_vpn v -> pte s' d v = pte s d v.
Proof.
  intros Hs Hd Ht Hv. unfold pte. specialize (Hd d). destruct (dirs s !! d) as [dd|] eqn:E, (dirs s' !! d) as [dd'|]; try done.
  injection Hd as Hd. rewrite Hd. cbv zeta. destruct (vpn_split v Hv) as (Hi & Hj & _). pose proof Hi as Hi'.
  rewrite user_pde_bounds in Hi'. destruct (mi_dir _ _ Hs d dd E) as (_ & _ & g & Eg & Hg).
  rewrite Eg, (Ht g _ _ Hg) by (done || lia). destruct (present _) eqn:Hp; [|done].
  rewrite <- Eg in Hp |- *. destruct (mi_tab _ _ Hs d dd _ E Hi Hp) as (t & -> & Ht'). by rewrite (Ht t _ _ Ht').
Qed.

(** Writing to a data frame. *)
Lemma inv_put_data s R f h ps i x :
  mm_inv s R -> R !! f = Some (RPages h ps) -> 0 <= i < 1024 -> is_u32 x -> mm_inv (put (addr_of f + 4 * i) x s) R.
Proof.
  intros Hs Hf Hi Hx. split; [by eapply core_put; [apply Hs|..]|]. eapply pages_same; [|apply Hs]. intros d v Hv.
  eapply pte_same; [done|done| |done]. intros g r j Hg Hr Hj. apply put_frame_ne; [done|done|].
  intros <-. rewrite Hf in Hg. by injection Hg as <-.
Qed.

(** ** Changing the owners *)

Lemma set_fa_id s : set_fa (fa s) s = s.
Proof. by destruct s. Qed.

Lemma core_roles s R R' fa' :
  mm_core s R -> fa_inv fa' [] (role_count <$> R') -> length (magazines fa') = 8%nat ->
  (forall f h ps, R' !! f = Some (RPages h ps) -> 0 <= h) ->
  (forall f d, R !! f = Some (RDir d) -> is_Some (dirs s !! d) -> R' !! f = Some (RDir d)) ->
  (forall f d i, R !! f = Some (RTab d i) ->
     (exists dd, dirs s !! d = Some dd /\ present (word s (physical_addr dd + 4 * i)) = true /\
        frame_of (word s (physical_addr dd + 4 * i)) = addr_of f) -> R' !! f = Some (RTab d i)) ->
  mm_core (set_fa fa' s) R'.
Proof.
  intros Hs Hfa Hm Hh Hd Ht. constructor; try done; try apply Hs.
  - intros d dd Hdd. destruct (mi_dir _ _ Hs d dd Hdd) as (? & ? & f & ? & ?). split_and!; try done.
    exists f. split; [done|]. apply Hd; [done|by exists dd].
  - intros d dd i Hdd Hi Hpr. destruct (mi_tab _ _ Hs d dd i Hdd Hi Hpr) as (f & Hf & HR). exists f. split; [done|].
    apply Ht; [done|]. by exists dd.
Qed.

(** Changing the owners of a data frame. *)
Lemma core_data s R f h ps h' ps' fa' :
  mm_core s R -> R !! f = Some (RPages h ps) -> 0 <= h' ->
  fa_inv fa' [] (<[f := h' + Z.of_nat (size ps')]> (role_count <$> R)) -> length (magazines fa') = 8%nat ->
  mm_core (set_fa fa' s) (<[f := RPages h' ps']> R).
Proof.
  intros Hs Hf Hh Hfa Hm. apply (core_roles s R); [done|by rewrite fmap_insert|done|..].
  - intros g k qs. rewrite lookup_insert_Some. intros [[-> [= <- <-]]|[_ Hg]]; [done|by eapply Hs].
  - intros g d Hg _. rewrite lookup_insert_ne by congruence. done.
  - intros g d i Hg _. rewrite lookup_insert_ne by congruence. done.
Qed.

Lemma core_move s R f h ps h' ps' :
  mm_core s R -> R !! f = Some (RPages h ps) -> 0 <= h' -> h' + Z.of_nat (size ps') = h + Z.of_nat (size ps) ->
  mm_core s (<[f := RPages h' ps']> R).
Proof.
  intros Hs Hf Hh Hc. rewrite <- (set_fa_id s). eapply core_data; try done; [|apply Hs].
  rewrite insert_id; [apply Hs|]. by rewrite lookup_fmap, Hf, Hc.
Qed.

(** Changing the number of held references only. *)
Lemma inv_data s R f h ps h' fa' :
  mm_inv s R -> R !! f = Some (RPages h ps) -> 0 <= h' ->
  fa_inv fa' [] (<[f := h' + Z.of_nat (size ps)]> (role_count <$> R)) -> length (magazines fa') = 8%nat ->
  mm_inv (set_fa fa' s) (<[f := RPages h' ps]> R).
Proof.
  intros Hs Hf Hh Hfa Hm. split; [by eapply core_data; [apply Hs|..]|]. constructor.
  - intros d v Hv. eapply page_ok_mono; [|by apply (inv_pte s R)]. intros g k qs Hg Hin.
    destruct (decide (g = f)) as [->|]; [|rewrite lookup_insert_ne by done; eauto].
    rewrite Hf in Hg. injection Hg as -> ->. rewrite lookup_insert_eq. eauto.
  - intros g k qs d v Hg Hin. apply lookup_insert_Some in Hg as [[<- [= <- <-]]|[_ Hg]]; by eapply (pg_owner _ _ (mi_pages _ _ Hs)).
Qed.

(** Nothing refers to the frame [f] of owner [r]. *)
Definition unused s (f : Z) (r : role) : Prop :=
  match r with
  | RDir d => dirs s !! d = None
  | RTab d i => forall dd, dirs s !! d = Some dd -> present (word s (physical_addr dd + 4 * i)) = true ->
      frame_of (word s (physical_addr dd + 4 * i)) <> addr_of f
  | RPages _ ps => ps = ∅
  end.

Lemma inv_drop s R f r fa' :
  mm_inv s R -> R !! f = Some r -> unused s f r ->
  fa_inv fa' [] (delete f (role_count <$> R)) -> length (magazines fa') = 8%nat ->
  mm_inv (set_fa fa' s) (delete f R).
Proof.
  intros Hs Hf Hun Hfa Hm. split.
  - apply (core_roles s R); [apply Hs|by rewrite fmap_delete|done|..].
    + intros g h ps [_ Hg]%lookup_delete_Some. by eapply (mi_held s R Hs).
    + intros g d Hg [dd Hd]. rewrite lookup_delete_ne; [done|]. intros <-. rewrite Hf in Hg.
      injection Hg as ->. cbn in Hun. congruence.
    + intros g d i Hg (dd & Hd & Hp & E). rewrite lookup_delete_ne; [done|]. intros <-. rewrite Hf in Hg.
      injection Hg as ->. by eapply Hun.
  - constructor.
    + intros d v Hv. eapply page_ok_mono; [|by apply (inv_pte s R)]. intros g k qs Hg Hin. exists k, qs.
      split; [|done]. rewrite lookup_delete_ne; [done|]. intros <-. rewrite Hf in Hg. injection Hg as ->.
      cbn in Hun. subst qs. by apply not_elem_of_empty in Hin.
    + intros g k qs d v [_ Hg]%lookup_delete_Some Hin. by eapply (pg_owner _ _ (mi_pages _ _ Hs)).
Qed.

(** A held frame becomes a page table. *)
Lemma inv_take_table s R f d i :
  mm_inv s R -> R !! f = Some (RPages 1 ∅) -> mm_inv s (<[f := RTab d i]> R).
Proof.
  intros Hs Hf. rewrite <- (set_fa_id s). split.
  - apply (core_roles s R); [apply Hs| |apply Hs|..].
    + rewrite fmap_insert, insert_id; [apply Hs|]. by rewrite lookup_fmap, Hf.
    + intros g h ps [[_ ?]|[_ Hg]]%lookup_insert_Some; [done|by eapply (mi_held s R Hs)].
    + intros g d' Hg _. rewrite lookup_insert_ne by congruence. done.
    + intros g d' i' Hg _. rewrite lookup_insert_ne by congruence. done.
  - constructor.
    + intros d' v Hv. eapply page_ok_mono; [|by apply (inv_pte s R)]. intros g h ps Hg Hin. rewrite lookup_insert_ne; [eauto|].
      intros <-. rewrite Hf in Hg. injection Hg as <- <-. by apply not_elem_of_empty in Hin.
    + intros g h ps d' v [[_ ?]|[_ Hg]]%lookup_insert_Some Hin; [done|]. by eapply (pg_owner _ _ (mi_pages _ _ Hs)).
Qed.

(** ** Frames *)

Lemma frames_do_ok {A} (m : ST frames A) s a fa' :
  m (fa s) = Ok (a, fa') -> frames_do m s = Ok (a, set_fa fa' s).
Proof. intros E. unfold frames_do, zoom. by rewrite E. Qed.

Lemma frames_do_inv {A} (m : ST frames A) s a fa' :
  frames_do m s = Ok (a, set_fa fa' s) -> m (fa s) = Ok (a, fa').
Proof.
  unfold frames_do, zoom. destruct (m (fa s)) as [[b fa1]|]; [|done]. intros [= -> E].
  assert (fa (set_fa fa1 s) = fa (set_fa fa' s)) as E' by (by rewrite E). cbn [fa set_fa] in E'. by rewrite E'.
Qed.

(** The frames in use, and when an allocation can fail. *)
Definition owned (R : roles) : Z := Z.of_nat (size R).
Definition exhausted (R : roles) : Prop := 5248 <= owned R.

Lemma owned_insert R f r : owned (<[f := r]> R) <= owned R + 1.
Proof. unfold owned. rewrite map_size_insert. destruct (R !! f); unfold id; lia. Qed.

Lemma owned_subset R R' : (forall f, is_Some (R !! f) -> is_Some (R' !! f)) -> owned R <= owned R'.
Proof.
  intros H. unfold owned. rewrite <- !size_dom. apply inj_le, subseteq_size. intros f. rewrite !elem_of_dom. apply H.
Qed.

Variable cpu : Z.
Hypothesis Hcpu : 0 <= cpu < MAX_CPUS.

Lemma cpu_ok s R : mm_inv s R -> 0 <= cpu < Z.of_nat (length (magazines (fa s))).
Proof. intros Hs. rewrite (mi_mags _ _ Hs). exact Hcpu. Qed.

Lemma inv_alloc s R :
  mm_inv s R -> exists r fa', frames_do (allocate_frame cpu) s = Ok (r, set_fa fa' s) /\
    ((r = NO_FRAME /\ exhausted R /\ mm_inv (set_fa fa' s) R) \/
     exists f, r = addr_of f /\ 2816 <= f < 8192 /\ R !! f = None /\
       mm_inv (set_fa fa' s) (<[f := RPages 1 ∅]> R)).
Proof.
  intros Hs. destruct (allocate_frame_ok _ _ cpu (mi_fa _ _ Hs) (cpu_ok s R Hs)) as (r & fa' & E & Hm & Hr).
  exists r, fa'. split; [by apply frames_do_ok|]. rewrite (mi_mags _ _ Hs) in Hm.
  destruct Hr as [(f & -> & Hf & Hnone & Hfa)|(-> & Hfa & _ & Hex)]; [right|left].
  - exists f. rewrite lookup_fmap, fmap_None in Hnone. split_and!; try done; [by apply pool_bounds..|].
    split.
    + apply (core_roles s R); [apply Hs|by rewrite fmap_insert|done|..].
      * intros g h ps [[_ [= <- <-]]|[_ Hg]]%lookup_insert_Some; [done|by eapply (mi_held s R Hs)].
      * intros g d Hg _. rewrite lookup_insert_ne by congruence. done.
      * intros g d i Hg _. rewrite lookup_insert_ne by congruence. done.
    + constructor.
      * intros d v Hv. eapply page_ok_mono; [|by apply (inv_pte s R)]. intros g h ps Hg Hin. rewrite lookup_insert_ne by congruence. eauto.
      * intros g h ps d v [[_ [= <- <-]]|[_ Hg]]%lookup_insert_Some Hin; [by apply not_elem_of_empty in Hin|].
        by eapply (pg_owner _ _ (mi_pages _ _ Hs)).
  - split; [done|]. split.
    { apply pool_exhausted in Hex. rewrite map_size_fmap in Hex. pose proof (spare_length _ (inv_mags _ _ _ (mi_fa _ _ Hs))) as Hsp.
      rewrite (mi_mags _ _ Hs) in Hsp. unfold exhausted, owned. lia. }
    split; [|apply (pages_same s); [done|apply Hs]]. apply (core_roles s R); try done; apply Hs.
Qed.

Lemma getref_ok s R f r : mm_inv s R -> R !! f = Some r ->
  frames_do (frame_getref (addr_of f)) s = Ok (role_count r, set_fa (fa s) s).
Proof.
  intros Hs Hf. apply frames_do_ok. destruct (live_bounds _ _ _ f (role_count r) (mi_fa _ _ Hs)) as (Hb & <- & _).
  { by rewrite lookup_fmap, Hf. }
  unfold frame_getref, addr_of. rewrite Z.div_mul by done. change FRAME_COUNT with 16384.
  rewrite (proj2 (Z.leb_gt 16384 f)) by lia. apply get_ref_ok; [apply (mi_fa _ _ Hs)|lia].
Qed.

Lemma inv_incref s R f h ps :
  mm_inv s R -> R !! f = Some (RPages h ps) -> h + Z.of_nat (size ps) < 65535 ->
  exists fa', frames_do (frame_incref (addr_of f)) s = Ok (tt, set_fa fa' s) /\
    mm_inv (set_fa fa' s) (<[f := RPages (h + 1) ps]> R).
Proof.
  intros Hs Hf Hlt. destruct (frame_incref_ok _ _ f (h + Z.of_nat (size ps)) (mi_fa _ _ Hs)) as (fa' & E & Hm & Hfa).
  { by rewrite lookup_fmap, Hf. } { done. }
  exists fa'. split; [by apply frames_do_ok|]. pose proof (mi_held _ _ Hs _ _ _ Hf).
  eapply inv_data; [done|done|lia| |by rewrite Hm, (mi_mags _ _ Hs)].
  by replace (h + 1 + Z.of_nat (size ps)) with (h + Z.of_nat (size ps) + 1) by lia.
Qed.

(** A held reference is dropped. *)
Definition drop_held (f h : Z) (ps : gset upage) (R : roles) : roles :=
  if h + Z.of_nat (size ps) =? 1 then delete f R else <[f := RPages (h - 1) ps]> R.

Lemma inv_decref s R f h ps :
  mm_inv s R -> R !! f = Some (RPages h ps) -> 1 <= h ->
  exists fa', frames_do (frame_decref cpu (addr_of f)) s = Ok (tt, set_fa fa' s) /\
    mm_inv (set_fa fa' s) (drop_held f h ps R).
Proof.
  intros Hs Hf Hh.
  destruct (frame_decref_ok _ _ cpu f (h + Z.of_nat (size ps)) (mi_fa _ _ Hs)) as (fa' & E & Hm & Hfa).
  { by rewrite lookup_fmap, Hf. } { by apply (cpu_ok s R). }
  exists fa'. split; [by apply frames_do_ok|]. rewrite (mi_mags _ _ Hs) in Hm.
  unfold drop_ref in Hfa. unfold drop_held. destruct (Z.eqb_spec (h + Z.of_nat (size ps)) 1) as [E1|Hne].
  - eapply inv_drop; [done|done| |done|done]. cbn [unused]. apply leibniz_equiv, size_empty_inv. lia.
  - eapply inv_data; [done|done|lia| |done].
    by replace (h - 1 + Z.of_nat (size ps)) with (h + Z.of_nat (size ps) - 1) by lia.
Qed.

Lemma free_is_decref s R f r : mm_inv s R -> R !! f = Some r ->
  free_frame cpu (addr_of f) (fa s) = frame_decref cpu (addr_of f) (fa s).
Proof. intros Hs Hf. eapply free_frame_live; [apply Hs|]. by rewrite lookup_fmap, Hf. Qed.

(** Freeing a table or a directory nothing refers to any more. *)
Lemma inv_free_owned s R f r :
  mm_inv s R -> R !! f = Some r -> unused s f r -> role_count r = 1 ->
  exists fa', frames_do (free_frame cpu (addr_of f)) s = Ok (tt, set_fa fa' s) /\
    mm_inv (set_fa fa' s) (delete f R).
Proof.
  intros Hs Hf Hun Hr. destruct (frame_decref_ok _ _ cpu f 1 (mi_fa _ _ Hs)) as (fa' & E & Hm & Hfa).
  { by rewrite lookup_fmap, Hf, <- Hr. } { by apply (cpu_ok s R). }
  exists fa'. split; [apply frames_do_ok; by rewrite (free_is_decref s R f r)|].
  rewrite (mi_mags _ _ Hs) in Hm. by eapply inv_drop.
Qed.

(** ** Filling a frame *)

(** From [s] to [s'] the first [n] words of [f] became [g]; nothing else changed. *)
Record filled s s' (f : Z) (g : Z -> Z) (n : Z) : Prop := {
  fl_rest : s' = set_words (words s') s;
  fl_in i : 0 <= i < n -> word s' (addr_of f + 4 * i) = g i;
  fl_out a : (forall i, 0 <= i < n -> a <> addr_of f + 4 * i) -> word s' a = word s a
}.

Lemma filled_nil s f g : filled s s f g 0.
Proof. constructor; [by destruct s|lia|done]. Qed.

Lemma filled_step s s' f g k x :
  0 <= k -> filled s s' f g k -> x = g k -> filled s (put (addr_of f + 4 * k) x s') f g (k + 1).
Proof.
  intros Hk [Hr Hi Ho] ->. constructor.
  - rewrite Hr at 1. by destruct s, s'.
  - intros i Hi'. rewrite word_put. case_decide as E; [f_equal; lia|]. apply Hi.
    assert (i <> k) by (intros ->; done). lia.
  - intros a Ha. rewrite word_put_ne by (apply Ha; lia). apply Ho. intros i Hi'. apply Ha. lia.
Qed.

Lemma filled_u32 s s' f g n a :
  filled s s' f g n -> (forall i, 0 <= i < n -> is_u32 (g i)) -> is_u32 (word s a) -> is_u32 (word s' a).
Proof.
  intros [_ Hi Ho] Hg Ha. set (k := (a - addr_of f) / 4). destruct (decide (a = addr_of f + 4 * k /\ 0 <= k < n)) as [[E Hk]|Hno].
  - rewrite E, Hi by done. by apply Hg.
  - rewrite Ho; [done|]. intros i Hi' E. apply Hno. unfold k. rewrite E. replace (addr_of f + 4 * i - addr_of f) with (i * 4) by lia.
    by rewrite Z.div_mul.
Qed.

Lemma filled_out s s' f g h j : filled s s' f g 1024 -> h <> f -> 0 <= j < 1024 ->
  word s' (addr_of h + 4 * j) = word s (addr_of h + 4 * j).
Proof. intros Hf Hne Hj. apply Hf. intros i Hi E. by apply word_addr_eq in E as [? _]. Qed.

Lemma word_below f i : 0 <= f < 8192 -> 0 <= i < 1024 -> 0 <= addr_of f + 4 * i < IDENTITY_MAP_END.
Proof. intros. unfold addr_of, PAGE_SIZE_CONST. change IDENTITY_MAP_END with 33554432. lia. Qed.

(** A loop that stores [g] into a data frame. *)
Lemma fill_loop s R f h ps (g : Z -> Z) body :
  mm_inv s R -> R !! f = Some (RPages h ps) -> (forall i, is_u32 (g i)) ->
  (forall k s', 0 <= k < 1024 -> mm_inv s' R -> filled s s' f g k -> body k s' = vst junk (addr_of f + 4 * k) (g k) s') ->
  wp (for_loop 1024 0 body) (fun _ s' => mm_inv s' R /\ filled s s' f g 1024) s.
Proof.
  intros Hs Hf Hg Hb. apply (for_loop_wp (fun k s' => mm_inv s' R /\ filled s s' f g k)).
  { split; [done|apply filled_nil]. }
  intros k s' Hk [Hs' Hfl]. destruct (role_pool s R f _ Hs Hf) as [Hp _].
  eapply wp_ok; [rewrite Hb by (done || lia); eapply vst_ok; [done|apply word_below; lia]|].
  split; [|apply filled_step; done || lia]. eapply inv_put_data; [done|done|lia|apply Hg].
Qed.

Lemma below_map f : 0 <= f < 8192 -> (addr_of f <? IDENTITY_MAP_END) = true.
Proof. intros. apply Z.ltb_lt. unfold addr_of, PAGE_SIZE_CONST. change IDENTITY_MAP_END with 33554432. lia. Qed.

Lemma zero_frame_ok s R f h ps :
  mm_inv s R -> R !! f = Some (RPages h ps) ->
  wp (zero_frame junk (addr_of f)) (fun _ s' => mm_inv s' R /\ filled s s' f (fun _ => 0) 1024) s.
Proof.
  intros Hs Hf. destruct (role_pool s R f _ Hs Hf) as [Hp _]. unfold zero_frame. rewrite below_map by lia.
  by eapply fill_loop.
Qed.

Lemma copy_words_ok s R f h ps g :
  mm_inv s R -> R !! f = Some (RPages h ps) -> 0 <= g < 8192 -> g <> f ->
  wp (copy_words junk (addr_of f) (addr_of g))
    (fun _ s' => mm_inv s' R /\ filled s s' f (fun i => word s (addr_of g + 4 * i)) 1024) s.
Proof.
  intros Hs Hf Hg Hne. eapply fill_loop; [done|done|intros; apply Hs|]. intros k s' Hk Hs' Hfl.
  rewrite (bind_ok _ _ _ _ _ (vld_ok s' R _ Hs' (word_below g k Hg Hk))). f_equal. apply Hfl.
  intros i Hi E. apply word_addr_eq in E as [? _]; [done|lia..].
Qed.

Lemma filled_tables s s' R f h ps g :
  R !! f = Some (RPages h ps) -> filled s s' f g 1024 -> same_tables s s' R.
Proof. intros Hf Hfl k r i Hk Hr Hi. eapply filled_out; [done| |done]. intros ->. rewrite Hf in Hk. injection Hk as <-. done. Qed.

Lemma filled_spaces s s' f g n : filled s s' f g n -> same_spaces s s'.
Proof. intros [-> _ _] d. done. Qed.

End Invariant.
