(* ===== verification/PagingOps.v ===== *)
(** * Paging: the operations

    The effect of [map_page], [unmap_page], [get_physical_addr] and
    [handle_cow_fault] on the user pages of every address space. *)

From stdpp Require Import base tactics numbers list gmap.
From S2P Require Import Prelude FrameAlloc Alloc Paging PagingProofs.

Section Ops.
Context {M : Type} {KI : KernelImage}.
Variable junk : Z -> Z.
Implicit Types s : mm M.
Abbreviation word := (word junk).
Abbreviation pte := (pte junk).
Abbreviation mm_inv := (mm_inv junk).

(** ** Writing an entry *)

Lemma pte_put_dir s R d dd i x d' v :
  mm_inv s R -> dirs s !! d = Some dd -> user_pde i -> user_vpn v ->
  pte (put (physical_addr dd + 4 * i) x s) d' v =
    if decide (d' = d /\ v / 1024 = i)
    then if present x then word (put (physical_addr dd + 4 * i) x s) (frame_of x + 4 * (v mod 1024)) else 0
    else pte s d' v.
Proof.
  intros Hs Hd Hi Hv. unfold PagingProofs.pte. change (dirs (put _ _ s)) with (dirs s).
  rewrite user_pde_bounds in Hi. destruct (vpn_split v Hv) as (Hi' & Hj & _). pose proof Hi' as Hib. rewrite user_pde_bounds in Hib.
  destruct (mi_dir _ _ _ Hs d dd Hd) as (_ & _ & g & Eg & Hg). rewrite Eg.
  destruct (dirs s !! d') as [dd'|] eqn:Hd'; [|case_decide as E; [destruct E as [-> _]; congruence|done]].
  cbv zeta. destruct (mi_dir _ _ _ Hs d' dd' Hd') as (_ & _ & g' & Eg' & Hg').
  rewrite Eg', (word_put _ _ _ _ (addr_of g' + _)). case_decide as E; case_decide as E'.
  - done.
  - apply word_addr_eq in E as [-> E]; [|lia..]. rewrite Hg in Hg'. injection Hg' as ->. by destruct E'.
  - destruct E' as [-> <-]. rewrite Hd in Hd'. injection Hd' as <-. congruence.
  - destruct (present _) eqn:Hp; [|done]. rewrite <- Eg' in Hp |- *.
    destruct (mi_tab _ _ _ Hs d' dd' _ Hd' Hi' Hp) as (t & -> & Ht). apply put_frame_ne; [lia|done|congruence].
Qed.

Lemma pte_put_tab s R d dd i j x d' v :
  mm_inv s R -> dirs s !! d = Some dd -> user_pde i -> 0 <= j < 1024 -> user_vpn v ->
  present (word s (physical_addr dd + 4 * i)) = true ->
  pte (put (frame_of (word s (physical_addr dd + 4 * i)) + 4 * j) x s) d' v =
    if decide (d' = d /\ v = i * 1024 + j) then x else pte s d' v.
Proof.
  intros Hs Hd Hi Hj Hv Hp. destruct (mi_tab _ _ _ Hs d dd i Hd Hi Hp) as (t & Et & Ht). rewrite Et.
  unfold PagingProofs.pte. change (dirs (put _ _ s)) with (dirs s). destruct (vpn_split v Hv) as (Hi' & Hj' & Ev).
  pose proof Hi' as Hib. rewrite user_pde_bounds in Hib.
  destruct (dirs s !! d') as [dd'|] eqn:Hd'; [|case_decide as E; [destruct E as [-> _]; congruence|done]].
  cbv zeta. destruct (mi_dir _ _ _ Hs d' dd' Hd') as (_ & _ & g' & Eg' & Hg').
  rewrite Eg', put_frame_ne by (lia || congruence). rewrite <- Eg'.
  destruct (present (word s (physical_addr dd' + 4 * (v / 1024)))) eqn:Hp'.
  - destruct (mi_tab _ _ _ Hs d' dd' _ Hd' Hi' Hp') as (t' & Et' & Ht'). rewrite Et', word_put.
    case_decide as E; case_decide as E'; try done.
    + apply word_addr_eq in E as [-> E]; [|done..]. rewrite Ht in Ht'. injection Ht' as -> ->. destruct E'. split; [done|]. lia.
    + destruct E' as [-> ->]. destruct (vpn_join i j Hi Hj) as (_ & E1 & E2). rewrite E1 in *. rewrite E2 in E.
      rewrite Hd in Hd'. injection Hd' as <-. rewrite Et in Et'. apply addr_of_inj in Et' as <-. done.
  - case_decide as E'; [|done]. destruct E' as [-> ->]. destruct (vpn_join i j Hi Hj) as (_ & E1 & E2).
    rewrite E1 in *. rewrite Hd in Hd'. injection Hd' as <-. congruence.
Qed.

(** ** The tables of a page directory object *)

Lemma get_dir_ok s d dd : dirs s !! d = Some dd -> get_dir d s = Ok (dd, s).
Proof. intros H. unfold get_dir. run. unfold id. by rewrite H. Qed.

(** Only [tables_physical] of the directories changed. *)
Definition tables_only s s' : Prop :=
  exists D, s' = set_dirs D s /\ forall d,
    match D !! d, dirs s !! d with
    | Some dd', Some dd => physical_addr dd' = physical_addr dd /\ length (tables_physical dd') = length (tables_physical dd)
    | None, None => True
    | _, _ => False
    end.

Lemma tables_only_spaces s s' : tables_only s s' -> same_spaces s s'.
Proof.
  intros (D & -> & H) d. specialize (H d). cbn [dirs set_dirs].
  destruct (D !! d), (dirs s !! d); try done. simpl. by destruct H as [-> _].
Qed.

Lemma tables_only_inv s s' R : mm_inv s R -> tables_only s s' -> mm_inv s' R.
Proof.
  intros Hs (D & -> & H).
  assert (forall d dd', D !! d = Some dd' -> exists dd, dirs s !! d = Some dd /\ physical_addr dd' = physical_addr dd /\
    length (tables_physical dd') = length (tables_physical dd)) as HD.
  { intros d dd' Hd. specialize (H d). rewrite Hd in H. destruct (dirs s !! d) as [dd|]; [|done]. by exists dd. }
  assert (forall b, base (set_dirs D s) b -> base s b) as Hb.
  { intros b [-> |(d & dd' & Hd & ->)]; [by left|]. destruct (HD d dd' Hd) as (dd & ? & -> & _). right. eauto. }
  split.
  - constructor; try apply Hs.
    + destruct (mi_cr3 _ _ _ Hs) as [E|(d & dd & Hd & E)]; [by left|right]. cbn [cr3 set_dirs]. rewrite E.
      specialize (H d). rewrite Hd in H. destruct (D !! d) as [dd'|] eqn:E'; [|done]. exists d, dd'. split; [done|]. by destruct H.
    + intros b t Hb'. by apply (mi_kdir _ _ _ Hs), Hb.
    + intros d dd' Hd. destruct (HD d dd' Hd) as (dd & Hdd & -> & ->). by apply (mi_dir _ _ _ Hs).
    + intros d dd' i Hd. destruct (HD d dd' Hd) as (dd & Hdd & -> & _). by apply (mi_tab _ _ _ Hs).
  - eapply pages_same; [|apply Hs]. intros d v Hv. eapply pte_same; [exact Hs| |done|done].
    apply tables_only_spaces. by exists D.
Qed.

Lemma set_table_entry_ok s R d dd i x :
  mm_inv s R -> dirs s !! d = Some dd -> 0 <= i < 1024 ->
  exists s', set_table_entry d i x s = Ok (tt, s') /\ tables_only s s'.
Proof.
  intros Hs Hd Hi. destruct (mi_dir _ _ _ Hs d dd Hd) as (_ & Hl & _). unfold set_table_entry.
  rewrite (bind_ok _ _ _ _ _ (get_dir_ok s d dd Hd)), (bind_ok _ _ _ _ _ (wr_ok _ _ _ _ ltac:(by rewrite Hl))).
  eexists. split; [done|]. eexists. split; [done|]. intros d'. destruct (decide (d' = d)) as [->|].
  - rewrite lookup_insert_eq, Hd. cbn. by rewrite length_insert.
  - rewrite lookup_insert_ne by done. by destruct (dirs s !! d').
Qed.

(** ** Steps *)

(** The user data, the address spaces and everything outside the page tables
    stay as they are; owners are only added. *)
Definition tables_stay s s' : Prop :=
  forall d dd k, dirs s !! d = Some dd -> user_pde k -> present (word s (physical_addr dd + 4 * k)) = true ->
    present (word s' (physical_addr dd + 4 * k)) = true /\
    frame_of (word s' (physical_addr dd + 4 * k)) = frame_of (word s (physical_addr dd + 4 * k)).

Record keeps s (R : roles) s' (R' : roles) : Prop := {
  kp_inv : mm_inv s' R';
  kp_roles : R ⊆ R';
  kp_spaces : same_spaces s s';
  kp_data : same_data junk s s' R;
  kp_mems : mems s' = mems s;
  kp_files : mmap_file_table s' = mmap_file_table s;
  kp_heap : mheap s' = mheap s;
  kp_cr3 : cr3 s' = cr3 s;
  kp_tabs : tables_stay s s'
}.

Lemma keeps_refl s R : mm_inv s R -> keeps s R s R.
Proof. intros. by constructor. Qed.

Lemma tables_stay_trans s1 s2 s3 : same_spaces s1 s2 -> tables_stay s1 s2 -> tables_stay s2 s3 -> tables_stay s1 s3.
Proof.
  intros Hs1 Ht1 Ht2 d dd k Hd Hk Hp. destruct (Ht1 d dd k Hd Hk Hp) as [Hp1 Hf1]. specialize (Hs1 d). rewrite Hd in Hs1.
  apply fmap_Some in Hs1 as (dd2 & Hd2' & E). rewrite E in *. destruct (Ht2 d dd2 k Hd2' Hk Hp1) as [? ->]. done.
Qed.

Lemma keeps_trans s1 R1 s2 R2 s3 R3 : keeps s1 R1 s2 R2 -> keeps s2 R2 s3 R3 -> keeps s1 R1 s3 R3.
Proof.
  intros [_ Hr1 Hs1 Hd1 ? ? ? ? Ht1] [? Hr2 Hs2 Hd2 ? ? ? ? Ht2]. constructor; try congruence.
  - by etrans.
  - intros g h ps i Hg Hi. etrans; [|by eapply Hd1]. eapply Hd2; [|done]. by eapply lookup_weaken.
  - by eapply tables_stay_trans.
Qed.

Lemma keeps_fa s R fa' : mm_inv (set_fa fa' s) R -> keeps s R (set_fa fa' s) R.
Proof. intros. by constructor. Qed.

Lemma keeps_tables s R s' : mm_inv s R -> tables_only s s' -> keeps s R s' R.
Proof.
  intros Hs H. pose proof (tables_only_inv _ _ _ Hs H). pose proof (tables_only_spaces _ _ H).
  destruct H as (D & -> & _). by constructor.
Qed.

Lemma pte_tables s R s' d v : mm_inv s R -> tables_only s s' -> user_vpn v -> pte s' d v = pte s d v.
Proof.
  intros Hs H Hv. eapply pte_same; [done|by apply tables_only_spaces| |done]. destruct H as (D & -> & _). done.
Qed.

(** A write to a directory or a table. *)
Lemma keeps_put s R f r i x :
  mm_inv s R -> R !! f = Some r -> match r with RPages _ _ => False | _ => True end ->
  0 <= i < 1024 -> mm_inv (put (addr_of f + 4 * i) x s) R -> tables_stay s (put (addr_of f + 4 * i) x s) ->
  keeps s R (put (addr_of f + 4 * i) x s) R.
Proof.
  intros Hs Hf Hr Hi H Ht. constructor; try done. intros g h ps j Hg Hj. apply put_frame_ne; try done.
  intros ->. rewrite Hf in Hg. by injection Hg as ->.
Qed.

(** ** map_page *)

Lemma user_flag x : Z.land x PAGE_USER = if Z.testbit x 2 then 4 else 0.
Proof.
  apply Z.bits_inj'. intros n Hn. change PAGE_USER with (2 ^ 2). rewrite Z.land_spec, Z.pow2_bits_eqb by lia.
  destruct (Z.eqb_spec 2 n) as [<-|Hne].
  - destruct (Z.testbit x 2); [done|by rewrite Z.bits_0].
  - rewrite andb_false_r. destruct (Z.testbit x 2); [|by rewrite Z.bits_0].
    change 4 with (2 ^ 2). symmetry. by apply Z.pow2_bits_false.
Qed.

(** The entry [map_table] installs. *)
Lemma table_entry t x : 0 <= t < 8192 ->
  let e := Z.lor (Z.lor (Z.lor (addr_of t) PAGE_PRESENT) PAGE_WRITABLE) (Z.land x PAGE_USER) in
  is_u32 e /\ present e = true /\ frame_of e = addr_of t.
Proof.
  intros Ht. cbv zeta. rewrite <- !Z.lor_assoc, user_flag.
  destruct (Z.testbit x 2); (split; [apply entry_u32; done || lia|]; split; [by rewrite entry_present|apply entry_frame; done || lia]).
Qed.

Lemma dir_word s R d dd i : mm_inv s R -> dirs s !! d = Some dd -> 0 <= i < 1024 -> 0 <= physical_addr dd + 4 * i < IDENTITY_MAP_END.
Proof.
  intros Hs Hd Hi. destruct (base_frame _ s R (physical_addr dd) Hs) as (f & -> & ?); [right; eauto|].
  by apply word_below; [lia|].
Qed.

Lemma new_table_ok s fa' R d dd i t x :
  mm_inv s R -> dirs s !! d = Some dd -> user_pde i -> present (word s (physical_addr dd + 4 * i)) = false ->
  R !! t = None -> mm_inv (set_fa fa' s) (<[t := RPages 1 ∅]> R) ->
  let e := Z.lor (Z.lor (Z.lor (addr_of t) PAGE_PRESENT) PAGE_WRITABLE) (Z.land x PAGE_USER) in
  wp (zero_frame junk (addr_of t);; vst junk (physical_addr dd + 4 * i) e)
    (fun _ s' => dirs s' = dirs s /\ keeps s R s' (<[t := RTab d i]> R) /\
       (forall d' v, user_vpn v -> pte s' d' v = pte s d' v) /\ word s' (physical_addr dd + 4 * i) = e) (set_fa fa' s).
Proof.
  intros Hs Hd Hi Hnp Ht Hs1 e. pose proof Hi as Hi'. rewrite user_pde_bounds in Hi'.
  destruct (role_pool _ _ _ t _ Hs1 (lookup_insert_eq _ _ _)) as [Htb _].
  destruct (table_entry t x ltac:(lia)) as (He1 & He2 & He3). fold e in He1, He2, He3.
  destruct (mi_dir _ _ _ Hs d dd Hd) as (_ & _ & g & Eg & Hg). assert (g <> t) as Hgt by congruence.
  eapply wp_step; [eapply zero_frame_ok; [exact Hs1|apply lookup_insert_eq]|]. intros _ s2 [Hs2 Hfl].
  assert (mm_inv s2 (<[t := RTab d i]> R)) as Hs2'.
  { replace (<[t := RTab d i]> R) with (<[t := RTab d i]> (<[t := RPages 1 ∅]> R)) by apply insert_insert_eq.
    eapply inv_take_table; [done|]. apply lookup_insert_eq. }
  assert (dirs s2 = dirs s) as Ed by (rewrite (fl_rest _ _ _ _ _ _ Hfl); done).
  eapply wp_ok; [eapply vst_ok; [exact Hs2|by eapply dir_word; [exact Hs|done|lia]]|]. cbv beta.
  assert (forall d' v, user_vpn v -> pte s2 d' v = pte s d' v) as Hp2.
  { intros d' v Hv. eapply pte_same; [exact Hs|exact (filled_spaces _ _ _ _ _ _ Hfl)| |done].
    intros k r j Hk _ Hj. eapply (filled_out _ _ _ _ _ _ _ Hfl); [congruence|done]. }
  assert (forall d' v, user_vpn v -> pte (put (physical_addr dd + 4 * i) e s2) d' v = pte s2 d' v) as Hp3.
  { intros d' v Hv. erewrite pte_put_dir by (done || rewrite Ed; done). case_decide as E; [|done].
    rewrite He2, He3, Hp2 by done. destruct (vpn_split v Hv) as (_ & Hj & _).
    rewrite Eg, put_frame_ne by (done || lia). rewrite (fl_in _ _ _ _ _ _ Hfl) by done.
    destruct E as [-> <-]. unfold PagingProofs.pte. rewrite Hd. cbv zeta. by rewrite Hnp. }
  split; [done|]. split; [|split; [|apply word_put_eq]].
  - constructor; try done; try (rewrite (fl_rest _ _ _ _ _ _ Hfl); done).
    + split; [|eapply pages_same; [exact Hp3|apply Hs2']]. rewrite Eg. eapply core_put; [apply Hs2'|rewrite lookup_insert_ne by done; done|lia|done|].
      split; [lia|]. intros _ _. exists t. split; [done|apply lookup_insert_eq].
    + by apply insert_subseteq.
    + intros k h ps j Hk Hj. rewrite Eg, put_frame_ne by (done || lia || congruence).
      eapply (filled_out _ _ _ _ _ _ _ Hfl); [congruence|done].
    + intros d' dd' k Hd' Hk Hpk. destruct (mi_dir _ _ _ Hs d' dd' Hd') as (_ & _ & g' & Eg' & Hg'). rewrite user_pde_bounds in Hk.
      assert (word s2 (physical_addr dd' + 4 * k) = word s (physical_addr dd' + 4 * k)) as E2.
      { rewrite Eg'. eapply (filled_out _ _ _ _ _ _ _ Hfl); [congruence|lia]. }
      rewrite word_put_ne; [by rewrite E2|]. rewrite Eg, Eg'. intros E. apply word_addr_eq in E as [-> ->]; [|lia..].
      rewrite Eg in Hnp. rewrite Eg' in Hpk. congruence.
  - intros d' v Hv. by rewrite Hp3, Hp2.
Qed.


Lemma frame_of_user e : frame_of (Z.lor e PAGE_USER) = frame_of e.
Proof. unfold frame_of. rewrite Z.land_lor_distr_l. by rewrite Z.lor_0_r. Qed.

Lemma lor_u32 a b : is_u32 a -> is_u32 b -> is_u32 (Z.lor a b).
Proof. intros Ha Hb. apply u32_of_bits. intros n Hn. by rewrite Z.lor_spec, !u32_high_bits. Qed.

Lemma promote_ok s R d dd i x :
  mm_inv s R -> dirs s !! d = Some dd -> user_pde i -> present (word s (physical_addr dd + 4 * i)) = true ->
  wp (promote_user junk d (physical_addr dd) i x)
    (fun _ s' => keeps s R s' R /\ (forall d' v, user_vpn v -> pte s' d' v = pte s d' v) /\
       present (word s' (physical_addr dd + 4 * i)) = true) s.
Proof.
  intros Hs Hd Hi Hp. pose proof Hi as Hi'. rewrite user_pde_bounds in Hi'. unfold promote_user. rewrite land_user, negb_involutive.
  destruct (Z.testbit x 2); [|apply wp_ret; split; [by apply keeps_refl|done]].
  pose proof (dir_word s R d dd i Hs Hd ltac:(lia)) as Hb. eapply wp_bind_ok; [by eapply vld_ok|].
  eapply wp_bind_ok; [by eapply vst_ok|]. set (e := Z.lor _ PAGE_USER).
  destruct (mi_dir _ _ _ Hs d dd Hd) as (_ & _ & g & Eg & Hg).
  assert (present e = true) as He by (unfold present, e; by rewrite Z.lor_spec; unfold present in Hp; rewrite Hp).
  assert (frame_of e = frame_of (word s (physical_addr dd + 4 * i))) as Hfe by apply frame_of_user.
  destruct (mi_tab _ _ _ Hs d dd i Hd Hi Hp) as (t & Et & Ht).
  assert (forall d' v, user_vpn v -> pte (put (physical_addr dd + 4 * i) e s) d' v = pte s d' v) as Hp1.
  { intros d' v Hv. erewrite pte_put_dir by done. case_decide as E; [|done].
    destruct E as [-> <-]. destruct (vpn_split v Hv) as (_ & Hj & _). rewrite He, Hfe.
    unfold PagingProofs.pte. rewrite Hd. cbv zeta. rewrite Hp, Et, Eg. apply put_frame_ne; [lia|done|congruence]. }
  assert (mm_inv (put (physical_addr dd + 4 * i) e s) R) as Hs1.
  { split; [|eapply pages_same; [exact Hp1|apply Hs]]. rewrite Eg. eapply core_put; [apply Hs|done|lia|apply lor_u32; [apply Hs|done]|].
    split; [lia|]. intros _ _. exists t. split; [by rewrite Hfe|done]. }
  eapply wp_bind_ok; [eapply vld_ok; [exact Hs1|done]|].
  destruct (set_table_entry_ok _ R d dd i (word (put (physical_addr dd + 4 * i) e s) (physical_addr dd + 4 * i)) Hs1 Hd ltac:(lia)) as (s2 & E2 & Ht2).
  eapply wp_ok; [exact E2|]. split; [|split].
  - eapply keeps_trans; [|by eapply keeps_tables]. rewrite Eg. eapply keeps_put; try done; [lia|by rewrite <- Eg|].
    intros d' dd' k Hd' Hk Hpk. rewrite word_put. case_decide as E; [|done]. split; [done|]. rewrite Hfe, Eg. by rewrite E.
  - intros d' v Hv. erewrite pte_tables by done. by apply Hp1.
  - destruct Ht2 as (D & -> & _). change (word (set_dirs D ?x)) with (word x). by rewrite word_put_eq.
Qed.

Lemma virt_index virt : Z.shiftr virt 22 = virt / 4096 / 1024 /\ Z.land (Z.shiftr virt 12) PT_INDEX_MASK = (virt / 4096) mod 1024.
Proof.
  change PT_INDEX_MASK with (2 ^ 10 - 1). rewrite land_pow2_mask, !Z.shiftr_div_pow2 by lia.
  change (2 ^ 22) with (4096 * 1024). by rewrite <- Z.div_div by lia.
Qed.

(** ** Page table entries *)

(** Where the entry of the page [v] is stored, when it has a table. *)
Definition slot s (dd : page_directory) (v : Z) : Z :=
  frame_of (word s (physical_addr dd + 4 * (v / 1024))) + 4 * (v mod 1024).
Definition has_table s (dd : page_directory) (v : Z) : Prop :=
  present (word s (physical_addr dd + 4 * (v / 1024))) = true.

Lemma slot_ok s R d dd v :
  mm_inv s R -> dirs s !! d = Some dd -> user_vpn v -> has_table s dd v ->
  0 <= slot s dd v < IDENTITY_MAP_END /\ word s (slot s dd v) = pte s d v /\ same_data junk s s R /\
  exists t, slot s dd v = addr_of t + 4 * (v mod 1024) /\ R !! t = Some (RTab d (v / 1024)).
Proof.
  intros Hs Hd Hv Hp. destruct (vpn_split _ Hv) as (Hi & Hj & Ev). unfold slot.
  destruct (mi_tab _ _ _ Hs d dd _ Hd Hi Hp) as (t & Et & Ht). destruct (role_pool _ _ _ t _ Hs Ht) as [Htb _].
  split; [rewrite Et; apply word_below; [lia|done]|]. split; [|split; [done|]].
  - unfold PagingProofs.pte. rewrite Hd. cbv zeta. by rewrite Hp.
  - exists t. by rewrite Et.
Qed.

(** What storing [x] in the slot of [(d, v)] does, whatever [x] is. *)
Lemma slot_put s R d dd v x :
  mm_inv s R -> dirs s !! d = Some dd -> user_vpn v -> has_table s dd v -> is_u32 x ->
  vst junk (slot s dd v) x s = Ok (tt, put (slot s dd v) x s) /\ mm_core junk (put (slot s dd v) x s) R /\
  same_data junk s (put (slot s dd v) x s) R /\
  forall d' v', user_vpn v' -> pte (put (slot s dd v) x s) d' v' = if decide (d' = d /\ v' = v) then x else pte s d' v'.
Proof.
  intros Hs Hd Hv Hp Hx. destruct (slot_ok s R d dd v Hs Hd Hv Hp) as (Hb & _ & _ & t & Et & Ht).
  destruct (vpn_split _ Hv) as (Hi & Hj & Ev). split; [by eapply vst_ok|]. split; [|split].
  - rewrite Et. eapply core_put; [apply Hs|done|done|done|done].
  - rewrite Et. intros g h ps i Hg Hi'. apply put_frame_ne; [done|done|congruence].
  - intros d' v' Hv'. unfold slot. erewrite pte_put_tab by done. by rewrite Ev.
Qed.

Lemma slot_tabs s R d dd v x :
  mm_inv s R -> dirs s !! d = Some dd -> user_vpn v -> has_table s dd v -> tables_stay s (put (slot s dd v) x s).
Proof.
  intros Hs Hd Hv Hp d' dd' k Hd' Hk Hpk. destruct (slot_ok s R d dd v Hs Hd Hv Hp) as (_ & _ & _ & t & Et & Ht).
  destruct (mi_dir _ _ _ Hs d' dd' Hd') as (_ & _ & g & Eg & Hg). rewrite user_pde_bounds in Hk.
  assert (word (put (slot s dd v) x s) (physical_addr dd' + 4 * k) = word s (physical_addr dd' + 4 * k)) as ->; [|done].
  rewrite Et, Eg. apply put_frame_ne; [by apply Z.mod_pos_bound|lia|congruence].
Qed.

(** The slot of a page stays where it is while its table stays. *)
Lemma stay_slot s s1 d dd v :
  same_spaces s s1 -> tables_stay s s1 -> dirs s !! d = Some dd -> user_vpn v -> has_table s dd v ->
  exists dd1, dirs s1 !! d = Some dd1 /\ has_table s1 dd1 v /\ slot s1 dd1 v = slot s dd v.
Proof.
  intros Hsp Ht Hd Hv Hp. destruct (vpn_split _ Hv) as (Hi & _). destruct (Ht d dd _ Hd Hi Hp) as [Hp1 Hf1].
  specialize (Hsp d). rewrite Hd in Hsp. apply fmap_Some in Hsp as (dd1 & Hd1 & E). exists dd1. split; [done|].
  unfold has_table, slot. rewrite <- E. split; [done|]. by rewrite Hf1.
Qed.

(** The new entry maps the same frame, or like the old one none. *)
Lemma keep_pte s R d dd v x :
  mm_inv s R -> dirs s !! d = Some dd -> user_vpn v -> has_table s dd v -> is_u32 x ->
  present x = present (pte s d v) -> (present x = true -> frame_of x = frame_of (pte s d v)) ->
  mm_inv (put (slot s dd v) x s) R.
Proof.
  intros Hs Hd Hv Hp Hx Hpx Hfx. destruct (slot_put s R d dd v x) as (_ & Hc & _ & Hpte); try done. split; [done|]. constructor.
  - intros d' v' Hv' Hp'. rewrite Hpte in * by done. case_decide as E; [|by apply (inv_pte junk s R)].
    destruct E as [-> ->]. rewrite Hfx by done. apply (inv_pte junk s R); [done|done|congruence].
  - intros f h ps d' v' Hf Hin. destruct (pg_owner _ _ _ (mi_pages _ _ _ Hs) f h ps d' v' Hf Hin) as [Hv' [Hm1 Hm2]]. split; [done|].
    unfold maps. rewrite Hpte by done. case_decide as E; [|done]. destruct E as [-> ->].
    rewrite Hpx. split; [done|]. rewrite Hfx by congruence. done.
Qed.

(** The page stops mapping [f]; its reference becomes a held one. *)
Lemma clear_pte s R d dd v x f h ps :
  mm_inv s R -> dirs s !! d = Some dd -> user_vpn v -> has_table s dd v -> is_u32 x -> present x = false ->
  maps junk s d v f -> R !! f = Some (RPages h ps) ->
  mm_inv (put (slot s dd v) x s) (<[f := RPages (h + 1) (ps ∖ {[(d, v)]})]> R).
Proof.
  intros Hs Hd Hv Hp Hx Hnp Hm Hf. destruct (slot_put s R d dd v x) as (_ & Hc & _ & Hpte); try done.
  destruct (maps_owner junk s R d v f Hs Hv Hm) as (h' & ps' & Hf' & Hin). rewrite Hf in Hf'. injection Hf' as <- <-.
  pose proof (mi_held _ _ _ Hs _ _ _ Hf). split.
  - eapply core_move; [done|done|lia|]. rewrite size_difference, size_singleton by set_solver.
    assert (size ps <> 0)%nat by (intros E%size_empty_inv; set_solver). lia.
  - constructor.
    + intros d' v' Hv'. rewrite Hpte by done. case_decide as E; [intros Hpx; congruence|].
      eapply page_ok_mono; [|by apply (inv_pte junk s R)]. intros g k qs Hg Hin'.
      destruct (decide (g = f)) as [->|]; [|rewrite lookup_insert_ne by done; eauto].
      rewrite Hf in Hg. injection Hg as <- <-. rewrite lookup_insert_eq. eexists _, _. split; [done|].
      apply elem_of_difference. split; [done|]. intros [= -> ->]%elem_of_singleton. by apply E.
    + intros g k qs d' v' Hg Hin'. unfold maps.
      assert (exists k' qs', R !! g = Some (RPages k' qs') /\ (d', v') ∈ qs' /\ ~ (d' = d /\ v' = v)) as (k' & qs' & Hg' & Hin'' & Hne).
      { apply lookup_insert_Some in Hg as [[<- [= <- <-]]|[Hne Hg]].
        - exists h, ps. split; [done|]. split; [set_solver|]. intros [-> ->]. set_solver.
        - exists k, qs. split; [done|]. split; [done|]. intros [-> ->].
          destruct (pg_owner _ _ _ (mi_pages _ _ _ Hs) g k qs d v Hg Hin') as [_ [_ E1]]. destruct Hm as [_ E2].
          rewrite E1 in E2. by apply addr_of_inj in E2. }
      destruct (pg_owner _ _ _ (mi_pages _ _ _ Hs) g k' qs' d' v' Hg' Hin'') as [Hv' Hm']. split; [done|].
      rewrite Hpte, decide_False by done. exact Hm'.
Qed.

(** A page without a frame maps [f], with a held reference. *)
Lemma new_pte s R d dd v x f h ps :
  mm_inv s R -> dirs s !! d = Some dd -> user_vpn v -> has_table s dd v -> is_u32 x -> present (pte s d v) = false ->
  present x = true -> frame_of x = addr_of f -> R !! f = Some (RPages h ps) -> 1 <= h ->
  mm_inv (put (slot s dd v) x s) (<[f := RPages (h - 1) ({[(d, v)]} ∪ ps)]> R).
Proof.
  intros Hs Hd Hv Hp Hx Hnp Hpx Hfx Hf Hh. destruct (slot_put s R d dd v x) as (_ & Hc & _ & Hpte); try done.
  assert (forall g k qs, R !! g = Some (RPages k qs) -> (d, v) ∉ qs) as Hnot.
  { intros g k qs Hg Hin. destruct (pg_owner _ _ _ (mi_pages _ _ _ Hs) g k qs d v Hg Hin) as [_ [E _]]. congruence. }
  split.
  - eapply core_move; [done|done|lia|]. rewrite size_union, size_singleton; [lia|].
    pose proof (Hnot f h ps Hf). set_solver.
  - constructor.
    + intros d' v' Hv'. rewrite Hpte by done. case_decide as E.
      * destruct E as [-> ->]. intros _. exists f. eexists _, _. split; [done|]. split; [apply lookup_insert_eq|]. set_solver.
      * eapply page_ok_mono; [|by apply (inv_pte junk s R)]. intros g k qs Hg Hin'.
        destruct (decide (g = f)) as [->|]; [|rewrite lookup_insert_ne by done; eauto].
        rewrite Hf in Hg. injection Hg as <- <-. rewrite lookup_insert_eq. eexists _, _. split; [done|]. set_solver.
    + intros g k qs d' v' Hg Hin'. unfold maps. destruct (decide (d' = d /\ v' = v)) as [[-> ->]|Hne].
      * split; [done|]. rewrite Hpte, decide_True by done. split; [done|]. rewrite Hfx. f_equal.
        apply lookup_insert_Some in Hg as [[<- _]|[_ Hg]]; [done|]. by apply Hnot in Hg.
      * assert (exists k' qs', R !! g = Some (RPages k' qs') /\ (d', v') ∈ qs') as (k' & qs' & Hg' & Hin'').
        { apply lookup_insert_Some in Hg as [[<- [= <- <-]]|[_ Hg]]; [|eauto]. exists h, ps. split; [done|]. set_solver. }
        destruct (pg_owner _ _ _ (mi_pages _ _ _ Hs) g k' qs' d' v' Hg' Hin'') as [Hv' Hm']. split; [done|].
        rewrite Hpte, decide_False by done. exact Hm'.
Qed.

(** ** unmap_page, get_physical_addr *)

(** [unmap_page] stores 0 where there is a table. *)
Lemma unmap_page_raw s R d dd virt :
  mm_inv s R -> dirs s !! d = Some dd -> user_vpn (virt / 4096) ->
  exists s', unmap_page junk d virt s = Ok (tt, s') /\
    ((has_table s dd (virt / 4096) /\ s' = put (slot s dd (virt / 4096)) 0 s) \/
     (present (pte s d (virt / 4096)) = false /\ s' = s)).
Proof.
  intros Hs Hd Hv. destruct (virt_index virt) as [E1 E2]. unfold unmap_page. cbv zeta. rewrite E1, E2.
  destruct (vpn_split _ Hv) as (Hi & Hj & Ev). pose proof Hi as Hi'. rewrite user_pde_bounds in Hi'.
  rewrite (bind_ok _ _ _ _ _ (get_dir_ok s d dd Hd)).
  rewrite (bind_ok _ _ _ _ _ (vld_ok _ s R _ Hs (dir_word s R d dd (virt / 4096 / 1024) Hs Hd ltac:(lia)))), land_present.
  destruct (present (word s (physical_addr dd + 4 * (virt / 4096 / 1024)))) eqn:Hp; cbn [negb].
  - destruct (slot_put s R d dd (virt / 4096) 0 Hs Hd Hv Hp ltac:(done)) as (Est & _).
    eexists. split; [exact Est|]. by left.
  - exists s. split; [done|]. right. split; [|done]. unfold PagingProofs.pte. rewrite Hd. cbv zeta. by rewrite Hp.
Qed.

(** The address the page tables give for [virt] in the directory [d]. *)
Definition translate s (d virt : Z) : Z :=
  let e := pte s d (virt / 4096) in
  if present e then Z.lor (frame_of e) (virt mod 4096) else 0.

Lemma get_physical_from_ok s R d dd virt :
  mm_inv s R -> dirs s !! d = Some dd -> user_vpn (virt / 4096) ->
  get_physical_from junk (physical_addr dd) virt s = Ok (translate s d virt, s).
Proof.
  intros Hs Hd Hv. destruct (virt_index virt) as [E1 E2]. unfold get_physical_from. cbv zeta. rewrite E1, E2.
  destruct (vpn_split _ Hv) as (Hi & Hj & Ev). pose proof Hi as Hi'. rewrite user_pde_bounds in Hi'.
  rewrite (bind_ok _ _ _ _ _ (vld_ok _ s R _ Hs (dir_word s R d dd (virt / 4096 / 1024) Hs Hd ltac:(lia)))), land_present.
  unfold translate, PagingProofs.pte. rewrite Hd. cbv zeta.
  destruct (present (word s (physical_addr dd + 4 * (virt / 4096 / 1024)))) eqn:Hp; cbn [negb]; [|done].
  destruct (mi_tab _ _ _ Hs d dd _ Hd Hi Hp) as (t & Et & Ht). destruct (role_pool _ _ _ t _ Hs Ht) as [Htb _].
  fold (frame_of (word s (physical_addr dd + 4 * (virt / 4096 / 1024)))). rewrite Et.
  rewrite (bind_ok _ _ _ _ _ (vld_ok _ s R _ Hs (word_below t _ ltac:(lia) Hj))), land_present.
  destruct (present (word s (addr_of t + 4 * ((virt / 4096) mod 1024)))); cbn [negb]; [|done].
  unfold ret. do 3 f_equal. apply land_offset.
Qed.

Lemma get_physical_addr_ok s R d dd virt :
  mm_inv s R -> dirs s !! d = Some dd -> user_vpn (virt / 4096) ->
  get_physical_addr junk d virt s = Ok (translate s d virt, s).
Proof.
  intros Hs Hd Hv. unfold get_physical_addr. rewrite (bind_ok _ _ _ _ _ (get_dir_ok s d dd Hd)).
  by eapply get_physical_from_ok.
Qed.

Lemma cr3_frame s R : mm_inv s R -> Z.land (cr3 s) PAGE_FRAME_MASK = cr3 s.
Proof.
  intros Hs. destruct (base_frame _ s R _ Hs (mi_cr3 _ _ _ Hs)) as (b & Hb & ?). change (frame_of (cr3 s) = cr3 s).
  rewrite Hb. rewrite <- (Z.lor_0_r (addr_of b)) at 1. apply entry_frame; lia.
Qed.

Lemma get_physical_current_ok s R d dd virt :
  mm_inv s R -> dirs s !! d = Some dd -> cr3 s = physical_addr dd -> user_vpn (virt / 4096) ->
  get_physical_addr_current junk virt s = Ok (translate s d virt, s).
Proof.
  intros Hs Hd Hc Hv. unfold get_physical_addr_current. run. unfold id. rewrite (cr3_frame s R Hs), Hc.
  by eapply get_physical_from_ok.
Qed.

(** ** handle_cow_fault *)

(** The flags of a page once it may be written again. *)
Definition cow_flags (e : Z) : Z :=
  Z.lor (Z.land (Z.land e PAGE_MASK) (u32 (Z.lnot PAGE_COW_BIT))) PAGE_WRITABLE.

Lemma cow_flags_bits e k : 0 <= k < 12 ->
  Z.testbit (cow_flags e) k = if k =? 1 then true else if k =? 9 then false else Z.testbit e k.
Proof.
  intros Hk. unfold cow_flags. rewrite Z.lor_spec, !Z.land_spec.
  assert (k = 0 \/ k = 1 \/ k = 2 \/ k = 3 \/ k = 4 \/ k = 5 \/ k = 6 \/ k = 7 \/ k = 8 \/ k = 9 \/ k = 10 \/ k = 11) as H by lia.
  repeat destruct H as [-> |H]; try subst k; destruct (Z.testbit e _); reflexivity.
Qed.

Lemma cow_flags_bound e : 0 <= cow_flags e < 4096.
Proof.
  apply (bits_bound _ 12); [lia|]. intros n Hn. unfold cow_flags. rewrite Z.lor_spec, !Z.land_spec.
  change PAGE_MASK with (Z.ones 12). rewrite (Z.ones_spec_high 12) by lia. change PAGE_WRITABLE with (2 ^ 1).
  rewrite Z.pow2_bits_false by lia. by rewrite andb_false_r.
Qed.

(** The entry a resolved fault leaves. *)
Lemma cow_entry f e : 0 <= f < 8192 ->
  let e' := Z.lor (addr_of f) (cow_flags e) in
  frame_of e' = addr_of f /\ present e' = present e /\ Z.testbit e' 1 = true /\ Z.testbit e' 9 = false /\ Z.testbit e' 2 = Z.testbit e 2.
Proof.
  intros Hf. cbv zeta. pose proof (cow_flags_bound e). unfold present.
  rewrite entry_frame, !entry_bit, !cow_flags_bits by lia. done.
Qed.

(** The fault is resolved: the page has its own writable frame with the old contents. *)
Record cow_done s s' (d v : Z) : Prop := {
  cd_frame : exists f, maps junk s' d v f /\
    (forall d' v', user_vpn v' -> maps junk s' d' v' f -> d' = d /\ v' = v) /\
    forall i, 0 <= i < 1024 -> word s' (addr_of f + 4 * i) = word s (frame_of (pte s d v) + 4 * i);
  cd_flags : Z.land (pte s' d v) PAGE_MASK = cow_flags (pte s d v);
  cd_others d' v' : user_vpn v' -> ~ (d' = d /\ v' = v) -> pte s' d' v' = pte s d' v'
}.

(** Everything but the page tables and the frames is as before. *)
Definition same_env s s' : Prop :=
  same_spaces s s' /\ mems s' = mems s /\ mmap_file_table s' = mmap_file_table s /\ mheap s' = mheap s /\ cr3 s' = cr3 s.

Lemma entry_flags f x : 0 <= x < 4096 -> Z.land (Z.lor (addr_of f) x) PAGE_MASK = x.
Proof.
  intros Hx. rewrite land_offset, lor_entry by done. unfold addr_of, PAGE_SIZE_CONST.
  symmetry. apply (Z.mod_unique _ _ f); lia.
Qed.

Lemma fault_index a : user_vpn (a / 4096) ->
  Z.land (Z.shiftr a 22) 1023 = a / 4096 / 1024 /\ Z.land (Z.shiftr a 12) PT_INDEX_MASK = (a / 4096) mod 1024.
Proof.
  intros Hv. destruct (virt_index a) as [-> ->]. split; [|done]. destruct (vpn_split _ Hv) as (Hi & _).
  rewrite user_pde_bounds in Hi. change 1023 with (2 ^ 10 - 1). rewrite land_pow2_mask, Z.mod_small by lia. done.
Qed.

(** A frame with a single reference is mapped by no other page. *)
Lemma sole_owner s R f h ps d v :
  mm_inv s R -> R !! f = Some (RPages h ps) -> (d, v) ∈ ps -> h + Z.of_nat (size ps) <= 1 ->
  forall d' v', user_vpn v' -> maps junk s d' v' f -> d' = d /\ v' = v.
Proof.
  intros Hs Hf Hin Hc d' v' Hv' Hm. destruct (maps_owner junk s R d' v' f Hs Hv' Hm) as (k & qs & Hg & Hin').
  rewrite Hf in Hg. injection Hg as <- <-. pose proof (mi_held _ _ _ Hs _ _ _ Hf). assert (size ps = 1)%nat as E1.
  { assert (size ps <> 0)%nat by (intros E0%size_empty_inv; set_solver). lia. }
  apply size_1_elem_of in E1 as [x Hx]. assert ((d', v') = (d, v)) as [= -> ->] by set_solver. done.
Qed.

Lemma put_put a x y s : put a y (put a x s) = put a y s.
Proof. unfold put. cbn [words set_words]. by rewrite insert_insert_eq. Qed.

(** The page moves from the frame [f] to the held frame [n]. *)
Lemma swap_pte s R d dd v x f h ps n k qs :
  mm_inv s R -> dirs s !! d = Some dd -> user_vpn v -> has_table s dd v -> is_u32 x -> present x = true ->
  maps junk s d v f -> R !! f = Some (RPages h ps) -> n <> f -> frame_of x = addr_of n -> R !! n = Some (RPages k qs) -> 1 <= k ->
  mm_inv (put (slot s dd v) x s)
    (<[n := RPages (k - 1) ({[(d, v)]} ∪ qs)]> (<[f := RPages (h + 1) (ps ∖ {[(d, v)]})]> R)).
Proof.
  intros Hs Hd Hv Hp Hx Hpx Hm Hf Hnf Hfx Hn Hk. assert (mm_inv (put (slot s dd v) 0 s) (<[f := RPages (h + 1) (ps ∖ {[(d, v)]})]> R)) as Hs1.
  { by eapply clear_pte. }
  destruct (slot_put s R d dd v 0 Hs Hd Hv Hp ltac:(done)) as (_ & _ & _ & Hpte).
  destruct (slot_ok s R d dd v Hs Hd Hv Hp) as (_ & _ & _ & t & Et & Ht).
  destruct (mi_dir _ _ _ Hs d dd Hd) as (_ & _ & g & Eg & Hg). destruct (vpn_split _ Hv) as (Hi & Hj & _). rewrite user_pde_bounds in Hi.
  assert (word (put (slot s dd v) 0 s) (physical_addr dd + 4 * (v / 1024)) = word s (physical_addr dd + 4 * (v / 1024))) as Ew.
  { rewrite Et, Eg. apply put_frame_ne; [done|lia|congruence]. }
  assert (slot (put (slot s dd v) 0 s) dd v = slot s dd v) as Es by (unfold slot at 1; by rewrite Ew).
  rewrite <- (put_put _ 0), <- Es at 1. rewrite <- Es at 1. rewrite Es at 1. eapply new_pte; try done.
  - unfold has_table. by rewrite Ew.
  - by rewrite Hpte, decide_True.
  - by rewrite lookup_insert_ne.
Qed.

Lemma copy_frame_ok s R f h ps g :
  mm_inv s R -> R !! f = Some (RPages h ps) -> 0 <= g < 8192 -> 0 < g -> g <> f ->
  wp (copy_frame junk (addr_of g) (addr_of f))
    (fun ok s' => ok = true /\ mm_inv s' R /\ filled junk s s' f (fun i => word s (addr_of g + 4 * i)) 1024) s.
Proof.
  intros Hs Hf Hg Hg0 Hne. destruct (role_pool _ _ _ f _ Hs Hf) as [Hfb _]. unfold copy_frame.
  rewrite !below_map by lia. eapply wp_bind_ok; [reflexivity|]. rewrite (proj2 (Z.eqb_neq _ _)) by (unfold addr_of, PAGE_SIZE_CONST; lia).
  cbv zeta. eapply wp_step; [by eapply copy_words_ok|]. intros u s' [Hs' Hfl]. eapply wp_bind_ok; [reflexivity|]. by apply wp_ret.
Qed.

(** ** The operations that allocate *)

Variable cpu : Z.
Hypothesis Hcpu : 0 <= cpu < MAX_CPUS.

Lemma map_table_ok s R d dd i x :
  mm_inv s R -> dirs s !! d = Some dd -> user_pde i ->
  wp (map_table junk cpu d (physical_addr dd) i x)
    (fun ok s' => exists R', keeps s R s' R' /\ (forall d' v, user_vpn v -> pte s' d' v = pte s d' v) /\
       (ok = true -> present (word s' (physical_addr dd + 4 * i)) = true) /\ (ok = false -> exhausted R /\ R' = R) /\
       owned R' <= owned R + (if present (word s (physical_addr dd + 4 * i)) then 0 else 1)) s.
Proof.
  intros Hs Hd Hi. pose proof Hi as Hi'. rewrite user_pde_bounds in Hi'. unfold map_table.
  eapply wp_bind_ok; [eapply vld_ok; [done|by eapply dir_word; [done|done|lia]]|]. rewrite land_present.
  destruct (present (word s (physical_addr dd + 4 * i))) eqn:Hp; cbn [negb].
  { apply wp_ret. exists R. split; [by apply keeps_refl|]. split_and!; done || lia. }
  destruct (inv_alloc junk cpu Hcpu s R Hs) as (r & fa' & E & Hr). eapply wp_bind_ok; [exact E|].
  destruct Hr as [(-> & Hex & Hs1)|(t & -> & Ht & Hnone & Hs1)].
  { rewrite Z.eqb_refl. apply wp_ret. exists R. split; [by apply keeps_fa|]. split_and!; done || lia. }
  destruct (addr_of_not_none t) as [Hnn _]; [by apply pool_bounds|]. rewrite (proj2 (Z.eqb_neq _ _) Hnn).
  destruct (table_entry t x ltac:(lia)) as (_ & He & _).
  pose proof (new_table_ok s fa' R d dd i t x Hs Hd Hi Hp Hnone Hs1) as Hnew. cbv zeta in Hnew.
  rewrite wp_bind in Hnew. apply wp_bind. eapply wp_mono; [exact Hnew|]. intros u s2 H2. apply wp_bind.
  eapply wp_mono; [exact H2|]. intros u' s3 (Ed & Hk & Hpte & Ew). clear Hnew H2. pose proof (kp_inv _ _ _ _ Hk) as Hs3.
  eapply wp_bind_ok; [eapply vld_ok; [exact Hs3|by eapply dir_word; [exact Hs|done|lia]]|].
  destruct (set_table_entry_ok s3 _ d dd i (word s3 (physical_addr dd + 4 * i)) Hs3) as (s4 & E4 & Ht4); [by rewrite Ed|lia|].
  eapply wp_bind_ok; [exact E4|]. apply wp_ret. exists (<[t := RTab d i]> R). split_and!; [| | |done|apply owned_insert].
  - eapply keeps_trans; [done|by eapply keeps_tables].
  - intros d' v Hv. erewrite pte_tables by done. by apply Hpte.
  - intros _. destruct Ht4 as (D & -> & _). change (word (set_dirs D s3)) with (word s3). by rewrite Ew.
Qed.

(** [map_page] makes sure there is a table, then stores the entry. *)
Definition mapped_raw s (R : roles) (d v x r : Z) s' : Prop :=
  exists s2 R2, keeps s R s2 R2 /\ (forall d' v', user_vpn v' -> pte s2 d' v' = pte s d' v') /\
    (forall dd, dirs s !! d = Some dd -> owned R2 <= owned R + if present (word s (physical_addr dd + 4 * (v / 1024))) then 0 else 1) /\
    ((r = -1 /\ exhausted R /\ R2 = R /\ s' = s2) \/
     (r = 0 /\ exists dd, dirs s2 !! d = Some dd /\ has_table s2 dd v /\ s' = put (slot s2 dd v) x s2)).

Lemma map_page_raw s R d dd virt phys flags :
  mm_inv s R -> dirs s !! d = Some dd -> user_vpn (virt / 4096) -> is_u32 phys -> 0 <= flags < 4096 ->
  is_u32 (Z.lor (frame_of phys) flags) /\
  wp (map_page junk cpu d virt phys flags) (mapped_raw s R d (virt / 4096) (Z.lor (frame_of phys) flags)) s.
Proof.
  intros Hs Hd Hv Hphys Hflags. assert (is_u32 (Z.lor (frame_of phys) flags)) as Hx.
  { apply lor_u32; [rewrite frame_of_div by done; unfold is_u32, addr_of, PAGE_SIZE_CONST in *|unfold is_u32; lia].
    pose proof (Z.div_mod phys 4096 ltac:(lia)). pose proof (Z.mod_pos_bound phys 4096 ltac:(lia)). lia. }
  split; [done|]. destruct (virt_index virt) as [E1 E2]. unfold map_page. cbv zeta. rewrite E1, E2.
  destruct (vpn_split _ Hv) as (Hi & Hj & Ev). eapply wp_bind_ok; [by apply get_dir_ok|].
  eapply wp_step; [by eapply map_table_ok|]. intros ok s1 (R1 & Hk1 & Hp1 & Hok1 & Hex & Ho1). cbv beta in *.
  assert (forall dd0, dirs s !! d = Some dd0 -> owned R1 <= owned R + if present (word s (physical_addr dd0 + 4 * (virt / 4096 / 1024))) then 0 else 1) as Ho.
  { intros dd0 Hd0. rewrite Hd in Hd0. by injection Hd0 as <-. }
  destruct ok; cbn [negb]; [|apply wp_ret; exists s1, R1; split_and!; [done|done|done|left; destruct (Hex eq_refl); auto]]. specialize (Hok1 eq_refl). clear Ho1.
  pose proof (kp_inv _ _ _ _ Hk1) as Hs1. pose proof (kp_spaces _ _ _ _ Hk1 d) as Hd1. rewrite Hd in Hd1.
  apply fmap_Some in Hd1 as (dd1 & Hd1 & Epd). rewrite Epd in *.
  eapply wp_step; [by eapply promote_ok|]. intros u s2 (Hk2 & Hp2 & Hok2). cbv beta in *.
  pose proof (kp_inv _ _ _ _ Hk2) as Hs2. pose proof (kp_spaces _ _ _ _ Hk2 d) as Hd2. rewrite Hd1 in Hd2.
  apply fmap_Some in Hd2 as (dd2 & Hd2 & Epd2). rewrite Epd2 in *. pose proof Hi as Hi'. rewrite user_pde_bounds in Hi'.
  eapply wp_bind_ok; [eapply vld_ok; [done|by eapply dir_word; [done|done|lia]]|].
  destruct (slot_put s2 R1 d dd2 (virt / 4096) (Z.lor (frame_of phys) flags) Hs2 Hd2 Hv Hok2 Hx) as (Est & _).
  eapply wp_bind_ok; [exact Est|]. apply wp_ret. exists s2, R1. split; [by eapply keeps_trans|]. split.
  - intros d' v Hv'. by rewrite Hp2, Hp1.
  - split; [done|]. right. split; [done|]. by exists dd2.
Qed.

(** The shared case: the page gets a fresh copy. *)
Lemma cow_copy s R d dd v f h ps n fa1 :
  mm_inv s R -> dirs s !! d = Some dd -> user_vpn v -> has_table s dd v ->
  maps junk s d v f -> R !! f = Some (RPages h ps) ->
  R !! n = None -> mm_inv (set_fa fa1 s) (<[n := RPages 1 ∅]> R) ->
  wp (ok ← copy_frame junk (addr_of f) (addr_of n);
      if negb (ok : bool) then frames_do (free_frame cpu (addr_of n));; ret (-1)
      else
        vst junk (slot s dd v) (Z.lor (addr_of n) (cow_flags (pte s d v)));;
        frames_do (frame_decref cpu (addr_of f));;
        ret 0)
    (fun r s' => r = 0 /\ exists R', mm_inv s' R' /\ same_env s s' /\ same_data junk s s' R /\ cow_done s s' d v) (set_fa fa1 s).
Proof.
  intros Hs Hd Hv Hp [He Ef] Hf Hn Hs1. assert (n <> f) as Hnf by congruence. destruct (role_pool _ _ _ f _ Hs Hf) as [Hfb _].
  destruct (role_pool _ _ _ n _ Hs1 (lookup_insert_eq _ _ _)) as [Hnb _].
  eapply wp_step; [eapply copy_frame_ok; [exact Hs1|apply lookup_insert_eq|lia|lia|done]|].
  intros ok s2 (-> & Hs2 & Hfl). cbn [negb]. pose proof (fl_rest _ _ _ _ _ _ Hfl) as Er.
  assert (same_tables junk s s2 R) as Ht2 by (intros k r i Hk _ Hi2; eapply (filled_out _ _ _ _ _ _ _ Hfl); [congruence|done]).
  assert (forall d' v', user_vpn v' -> pte s2 d' v' = pte s d' v') as Hp2.
  { intros d' v' Hv'. eapply pte_same; [exact Hs|exact (filled_spaces _ _ _ _ _ _ Hfl)|done|done]. }
  assert (dirs s2 = dirs s) as Ed by (rewrite Er; done).
  assert (word s2 (physical_addr dd + 4 * (v / 1024)) = word s (physical_addr dd + 4 * (v / 1024))) as Ew.
  { destruct (mi_dir _ _ _ Hs d dd Hd) as (_ & _ & g & -> & Hg). destruct (vpn_split _ Hv) as (Hi & _). rewrite user_pde_bounds in Hi.
    eapply Ht2; [exact Hg|done|lia]. }
  assert (slot s2 dd v = slot s dd v) as Es by (unfold slot; by rewrite Ew). rewrite <- Es.
  set (x := Z.lor (addr_of n) (cow_flags (pte s d v))). pose proof (cow_flags_bound (pte s d v)).
  destruct (cow_entry n (pte s d v) ltac:(lia)) as (En & Ep & _). fold x in En, Ep.
  assert (is_u32 x) as Hx by (apply entry_u32; lia). assert (has_table s2 dd v) as Hp' by (unfold has_table; by rewrite Ew).
  destruct (slot_put s2 _ d dd v x Hs2 ltac:(by rewrite Ed) Hv Hp' Hx) as (Est & _ & Hd3 & Hp3). eapply wp_bind_ok; [exact Est|].
  assert (maps junk s2 d v f) as Hm2 by (apply (maps_ext junk s); [by apply Hp2|done]).
  assert (R !! n = None -> (<[n := RPages 1 ∅]> R : roles) !! f = Some (RPages h ps)) as Hf2 by (intros _; by rewrite lookup_insert_ne).
  pose proof (swap_pte s2 _ d dd v x f h ps n 1 ∅ Hs2 ltac:(by rewrite Ed) Hv Hp' Hx ltac:(by rewrite Ep) Hm2 (Hf2 Hn) Hnf En
                (lookup_insert_eq _ _ _) ltac:(lia)) as Hs3.
  set (s3 := put (slot s2 dd v) x s2) in *. pose proof (mi_held _ _ _ Hs _ _ _ Hf).
  destruct (inv_decref _ cpu Hcpu _ _ f (h + 1) (ps ∖ {[(d, v)]}) Hs3) as (fa4 & E4 & Hs4); [by rewrite lookup_insert_ne, lookup_insert_eq|lia|].
  eapply wp_bind_ok; [exact E4|]. apply wp_ret. split; [done|]. eexists. split; [exact Hs4|].
  assert (forall d' v', user_vpn v' -> pte (set_fa fa4 s3) d' v' = if decide (d' = d /\ v' = v) then x else pte s d' v') as Hp4.
  { intros d' v' Hv'. change (pte (set_fa fa4 s3) d' v') with (pte s3 d' v'). rewrite Hp3 by done. case_decide; [done|by apply Hp2]. }
  split; [split; [exact (filled_spaces _ _ _ _ _ _ Hfl)|]; change (mems (set_fa fa4 s3)) with (mems s2); change (cr3 (set_fa fa4 s3)) with (cr3 s2);
    change (mmap_file_table (set_fa fa4 s3)) with (mmap_file_table s2); change (mheap (set_fa fa4 s3)) with (mheap s2); rewrite Er; done|].
  split; [|constructor].
  - intros g k qs i Hg Hi. etrans; [eapply (Hd3 g); [rewrite lookup_insert_ne by congruence; exact Hg|done]|].
    eapply (filled_out _ _ _ _ _ _ _ Hfl); [congruence|done].
  - exists n. split; [|split].
    + unfold maps. rewrite Hp4, decide_True by done. by rewrite Ep, En.
    + apply (sole_owner _ _ n 0 ({[(d, v)]} ∪ ∅)) with (1 := Hs4); [|set_solver|rewrite size_union, size_singleton, size_empty by set_solver; lia].
      unfold drop_held. destruct (_ =? 1); [rewrite lookup_delete_ne by done|rewrite lookup_insert_ne by done]; apply lookup_insert_eq.
    + intros i Hi. etrans; [eapply (Hd3 n); [apply lookup_insert_eq|done]|]. rewrite (fl_in _ _ _ _ _ _ Hfl), Ef by done. done.
  - rewrite Hp4, decide_True by done. by apply entry_flags.
  - intros d' v' Hv' Hne. by rewrite Hp4, decide_False.
Qed.

(** The sole-owner case: the page becomes writable in place. *)
Lemma cow_in_place s R d dd v f h ps :
  mm_inv s R -> dirs s !! d = Some dd -> user_vpn v -> has_table s dd v ->
  maps junk s d v f -> R !! f = Some (RPages h ps) -> (d, v) ∈ ps -> h + Z.of_nat (size ps) <= 1 ->
  exists s', vst junk (slot s dd v) (Z.lor (addr_of f) (cow_flags (pte s d v))) s = Ok (tt, s') /\
    mm_inv s' R /\ same_env s s' /\ same_data junk s s' R /\ cow_done s s' d v.
Proof.
  intros Hs Hd Hv Hp [He Ef] Hf Hin Hc. destruct (role_pool _ _ _ f _ Hs Hf) as [Hfb _]. pose proof (cow_flags_bound (pte s d v)).
  set (x := Z.lor (addr_of f) (cow_flags (pte s d v))).
  destruct (cow_entry f (pte s d v) ltac:(lia)) as (En & Ep & _). fold x in En, Ep. assert (is_u32 x) as Hx by (apply entry_u32; lia).
  destruct (slot_put s R d dd v x Hs Hd Hv Hp Hx) as (Est & _ & Hda & Hpte).
  assert (mm_inv (put (slot s dd v) x s) R) as Hs' by (eapply keep_pte; try done; intros _; congruence).
  eexists. split; [exact Est|]. split; [done|]. split; [done|]. split; [done|]. constructor.
  - exists f. split; [|split].
    + unfold maps. rewrite Hpte, decide_True by done. by rewrite En, Ep.
    + by eapply sole_owner.
    + intros i Hi. rewrite Ef. by eapply Hda.
  - rewrite Hpte, decide_True by done. by apply entry_flags.
  - intros d' v' Hv' Hne. by rewrite Hpte, decide_False.
Qed.

Lemma handle_cow_ok s R d dd a :
  mm_inv s R -> dirs s !! d = Some dd -> user_vpn (a / 4096) ->
  wp (handle_cow_fault junk cpu d a)
    (fun r s' => exists R', mm_inv s' R' /\ same_env s s' /\ same_data junk s s' R /\
       if present (pte s d (a / 4096)) && Z.testbit (pte s d (a / 4096)) 9
       then r = 0 /\ cow_done s s' d (a / 4096) \/
            r = -1 /\ exhausted R /\
              forall d' v', user_vpn v' -> pte s' d' v' = pte s d' v'
       else r = -1 /\ s' = s) s.
Proof.
  intros Hs Hd Hv. set (v := a / 4096) in *. destruct (mi_dir _ _ _ Hs d dd Hd) as (Hd0 & _ & g & Eg & _).
  unfold handle_cow_fault. rewrite (proj2 (Z.eqb_neq _ _) Hd0). destruct (fault_index a Hv) as [E1 E2]. fold v in E1, E2.
  destruct (vpn_split _ Hv) as (Hi & Hj & Ev). pose proof Hi as Hi'. rewrite user_pde_bounds in Hi'.
  eapply wp_bind_ok; [by apply get_dir_ok|]. cbv zeta. rewrite E1, E2.
  eapply wp_bind_ok; [eapply vld_ok; [done|eapply dir_word; [exact Hs|done|lia]]|]. rewrite land_present.
  destruct (present (word s (physical_addr dd + 4 * (v / 1024)))) eqn:Hp; cbn [negb].
  2:{ apply wp_ret. exists R. split; [done|]. split; [done|]. split; [done|]. unfold PagingProofs.pte. rewrite Hd. cbv zeta. by rewrite Hp. }
  destruct (mi_tab _ _ _ Hs d dd _ Hd Hi Hp) as (t & Et & Ht). destruct (role_pool _ _ _ t _ Hs Ht) as [Htb _].
  fold (frame_of (word s (physical_addr dd + 4 * (v / 1024)))). rewrite Et at 1.
  rewrite (proj2 (Z.leb_gt _ _)) by (apply Z.ltb_lt, below_map; lia).
  destruct (slot_ok s R d dd v Hs Hd Hv Hp) as (Hb & Ew & _). pose proof (vld_ok _ s R _ Hs Hb) as Eld. rewrite Ew in Eld.
  fold (slot s dd v). eapply wp_bind_ok; [exact Eld|]. rewrite land_present, land_cow.
  destruct (present (pte s d v)) eqn:He; cbn [negb andb]; [|apply wp_ret; by exists R].
  destruct (Z.testbit (pte s d v) 9) eqn:Hcow; cbn [negb]; [|apply wp_ret; by exists R].
  eapply wp_bind_ok; [exact Eld|]. rewrite land_present, land_cow, He, Hcow. cbn [negb orb].
  fold (frame_of (pte s d v)). fold (cow_flags (pte s d v)).
  destruct (inv_pte _ s R d v Hs Hv He) as (f & h & ps & Ef & Hf & Hin). rewrite Ef.
  eapply wp_bind_ok; [by eapply getref_ok|]. rewrite set_fa_id. cbn [role_count].
  destruct (Z.leb_spec (h + Z.of_nat (size ps)) 1) as [Hc|Hc].
  - destruct (cow_in_place s R d dd v f h ps) as (s' & E & ? & ? & ? & ?); try done.
    eapply wp_bind_ok; [exact E|]. apply wp_ret. exists R. split_and!; try done. by left.
  - destruct (inv_alloc _ cpu Hcpu s R Hs) as (r & fa1 & E & Hr). eapply wp_bind_ok; [exact E|].
    destruct Hr as [(-> & Hex & Hs1)|(n & -> & Hn & Hnone & Hs1)].
    + rewrite Z.eqb_refl. apply wp_ret. exists R. split; [done|]. split; [done|]. split; [done|]. by right.
    + destruct (addr_of_not_none n) as [Hnn _]; [by apply pool_bounds|]. rewrite (proj2 (Z.eqb_neq _ _) Hnn).
      eapply wp_mono; [by eapply cow_copy|]. intros r s' (-> & R' & ? & ? & ? & ?). exists R'. split; [done|]. split; [done|]. split; [done|]. by left.
Qed.

End Ops.
