(* ===== verification/PagingBoot.v ===== *)
(** * Paging: boot and new directories

    [paging_init] establishes the invariant; [create_page_directory] extends it
    with an empty address space. *)

From stdpp Require Import base tactics numbers list gmap.
From S2P Require Import Prelude FrameAlloc Alloc Paging PagingProofs PagingOps.

(** Marking a frame below the pool changes nothing for the pool. *)
Lemma mark_low (s : frames) refs f :
  fa_inv s [] refs -> 0 <= f < 2816 ->
  exists s', frame_alloc_mark_used (addr_of f) s = Ok (tt, s') /\ fa_inv s' [] refs /\ magazines s' = magazines s.
Proof.
  intros [Hsh [Hh1 Hh2] Hm Hsets] Hf. destruct (mark_used_ok s f Hsh ltac:(lia)) as (s' & E & Hsh' & Hn & Hr & Hmag & Hb).
  assert (forall g, pool g -> bit s' g = bit s g) as Hbit.
  { intros g Hg. rewrite pool_bounds in Hg. rewrite Hb, (proj2 (Z.eqb_neq g f)) by lia. done. }
  exists s'. split; [exact E|]. split; [|done]. constructor; [done| |by rewrite Hmag|].
  - split; [by rewrite Hn|]. intros g Hg Hlt. rewrite Hbit by done. apply Hh2; [done|by rewrite <- Hn].
  - unfold spare. rewrite Hmag. eapply fa_sets_ext; [exact Hbit| |exact Hsets]. intros g _ Hg. unfold rc. by rewrite Hr.
Qed.

Section Boot.
Context {M : Type} {KI : KernelImage}.
Variable junk : Z -> Z.
Hypothesis Hjunk : forall a, is_u32 (junk a).
Implicit Types s : mm M.
Abbreviation word := (word junk).
Abbreviation mm_inv := (mm_inv junk).

(** ** paging_init *)

Lemma kernel_table_at t : 0 <= t < 8 -> kernel_page_tables t = kernel_page_table t.
Proof.
  intros Ht. unfold kernel_page_tables. change NUM_KERNEL_PAGE_TABLES with 8.
  by rewrite (proj2 (Z.leb_le 0 t)), (proj2 (Z.ltb_lt t 8)) by lia.
Qed.

(** The frames of the static tables. *)
Lemma image_frames : exists kd kt, kernel_page_directory = addr_of kd /\ 256 <= kd < 768 /\
  (forall t, 0 <= t < 8 -> kernel_page_table t = addr_of (kt t) /\ 256 <= kt t < 768 /\ kt t <> kd) /\
  forall t u, 0 <= t < 8 -> 0 <= u < 8 -> kt t = kt u -> t = u.
Proof.
  destruct (image_frame kernel_page_directory) as (kd & Ekd & Hkd); [by right|].
  exists kd, (fun t => kernel_page_table t / 4096). split; [done|]. split; [done|].
  assert (forall t, 0 <= t < 8 -> kernel_page_table t = addr_of (kernel_page_table t / 4096) /\
    256 <= kernel_page_table t / 4096 < 768) as H.
  { intros t Ht. destruct (image_frame (kernel_page_table t)) as (f & -> & Hf); [left; eauto|].
    unfold addr_of, PAGE_SIZE_CONST. rewrite Z.div_mul by done. done. }
  split.
  - intros t Ht. destruct (H t Ht) as [H1 H2]. split; [done|]. split; [done|]. intros E.
    destruct (image_table t Ht) as (_ & _ & Hne). apply Hne. rewrite H1, Ekd. by f_equal.
  - intros t u Ht Hu E. apply image_inj; [done|done|]. destruct (H t Ht) as [-> _], (H u Hu) as [-> _]. by f_equal.
Qed.

Definition ident_entry (t p : Z) : Z := Z.lor (Z.lor (u32 ((t * 1024 + p) * PAGE_SIZE_CONST)) PAGE_PRESENT) PAGE_WRITABLE.

Lemma ident_entry_ok t p : 0 <= t < 8 -> 0 <= p < 1024 ->
  is_u32 (ident_entry t p) /\ present (ident_entry t p) = true /\ frame_of (ident_entry t p) = addr_of (t * 1024 + p).
Proof.
  intros Ht Hp. unfold ident_entry. rewrite u32_id by (unfold is_u32, PAGE_SIZE_CONST; lia).
  fold (addr_of (t * 1024 + p)). rewrite <- Z.lor_assoc. change (Z.lor PAGE_PRESENT PAGE_WRITABLE) with 3.
  split; [apply entry_u32; lia|]. split; [by rewrite entry_present|]. apply entry_frame; lia.
Qed.

(** A loop of physical stores into one frame. *)
Lemma pst_loop s f (g : Z -> Z) :
  wp (for_loop 1024 0 (fun p => pst (addr_of f + 4 * p) (g p))) (fun _ s' => filled junk s s' f g 1024) s.
Proof.
  apply (for_loop_wp (fun k s' => filled junk s s' f g k)); [apply filled_nil|].
  intros k s' Hk Hfl. eapply wp_ok; [reflexivity|]. apply (filled_step junk s s' f g k); [lia|done|done].
Qed.

(** After [t] tables. *)
Record boot_at s0 (t : Z) s : Prop := {
  ba_rest : s = set_fa (fa s) (set_words (words s) s0);
  ba_u32 a : is_u32 (word s a);
  ba_fa : fa_inv (fa s) [] ∅;
  ba_mags : length (magazines (fa s)) = 8%nat;
  ba_tab u p : 0 <= u < t -> 0 <= p < 1024 -> word s (kernel_page_table u + 4 * p) = ident_entry u p;
  ba_dir u : 0 <= u < t -> word s (kernel_page_directory + 4 * u) = Z.lor (Z.lor (kernel_page_table u) PAGE_PRESENT) PAGE_WRITABLE;
  ba_zero i : t <= i < 1024 -> word s (kernel_page_directory + 4 * i) = 0
}.

Lemma dir_entry f : 0 <= f < 768 ->
  let e := Z.lor (Z.lor (addr_of f) PAGE_PRESENT) PAGE_WRITABLE in is_u32 e /\ present e = true /\ frame_of e = addr_of f.
Proof.
  intros Hf. cbv zeta. rewrite <- Z.lor_assoc. change (Z.lor PAGE_PRESENT PAGE_WRITABLE) with 3.
  split; [apply entry_u32; lia|]. split; [by rewrite entry_present|]. apply entry_frame; lia.
Qed.

Lemma boot_step s0 t s : 0 <= t < 8 -> boot_at s0 t s ->
  wp (init_table t;;
      pst (kernel_page_directory + 4 * t) (Z.lor (Z.lor (kernel_page_tables t) PAGE_PRESENT) PAGE_WRITABLE);;
      frames_do (frame_alloc_mark_used (kernel_page_tables t)))
    (fun _ s' => boot_at s0 (t + 1) s') s.
Proof.
  intros Ht Hb. rewrite kernel_table_at by done. destruct image_frames as (kd & kt & Ekd & Hkd & Hkt & Hinj).
  destruct (Hkt t Ht) as (Et & Htb & Htd). unfold init_table. rewrite kernel_table_at, Et by done.
  eapply wp_step; [apply (pst_loop s (kt t) (ident_entry t))|]. intros u s1 Hfl. cbv beta in Hfl.
  eapply wp_bind_ok; [reflexivity|]. rewrite Ekd.
  set (s2 := set_words _ s1). assert (s2 = put (addr_of kd + 4 * t) (Z.lor (Z.lor (addr_of (kt t)) PAGE_PRESENT) PAGE_WRITABLE) s1) as E2 by done.
  assert (fa s2 = fa s) as Efa by (unfold s2; rewrite (fl_rest _ _ _ _ _ _ Hfl); done).
  destruct (mark_low (fa s2) ∅ (kt t)) as (fa' & E & Hfa & Hm); [rewrite Efa; apply Hb|lia|].
  eapply wp_ok; [apply frames_do_ok; exact E|].
  assert (forall k j, k <> kt t -> 0 <= j < 1024 -> (k = kd -> j <> t) -> word s2 (addr_of k + 4 * j) = word s (addr_of k + 4 * j)) as Hother.
  { intros k j Hk Hj Hkj. rewrite E2, word_put_ne; [by eapply filled_out|]. intros E'. apply word_addr_eq in E' as [-> ->]; [|lia..]. by apply Hkj. }
  constructor; cbn [fa set_fa]; try done.
  - unfold s2. rewrite (fl_rest _ _ _ _ _ _ Hfl), (ba_rest _ _ _ Hb). by destruct s0.
  - intros a. change (word (set_fa fa' s2) a) with (word s2 a). rewrite E2, word_put. case_decide; [apply dir_entry; lia|].
    eapply filled_u32; [exact Hfl| |apply Hb]. intros i Hi. by apply ident_entry_ok.
  - rewrite Hm, Efa. apply Hb.
  - intros u' p Hu Hp. change (word (set_fa fa' s2)) with (word s2). destruct (Hkt u' ltac:(lia)) as (Eu & Hub & Hud). rewrite Eu.
    destruct (decide (u' = t)) as [->|].
    + rewrite E2, put_frame_ne by (lia || done). by rewrite (fl_in _ _ _ _ _ _ Hfl).
    + rewrite Hother; [rewrite <- Eu; apply Hb; lia| |done|done]. intros E'. apply Hinj in E'; lia.
  - intros u' Hu. change (word (set_fa fa' s2)) with (word s2). destruct (Hkt u' ltac:(lia)) as (Eu & _). rewrite Ekd, Eu. destruct (decide (u' = t)) as [->|].
    + by rewrite E2, word_put_eq.
    + rewrite Hother by (done || lia). rewrite <- Ekd, <- Eu. apply Hb. lia.
  - intros i Hi. change (word (set_fa fa' s2)) with (word s2). rewrite Ekd, Hother by (done || lia). rewrite <- Ekd. apply Hb. lia.
Qed.

(** The state before [paging_init]: the zeroed statics, no process yet. *)
Record mm_bss s : Prop := {
  bss_fa : fa s = frames_bss;
  bss_dirs : dirs s = ∅;
  bss_u32 a : is_u32 (word s a)
}.

Lemma boot_inv s0 s : mm_bss s0 -> boot_at s0 8 s -> mm_inv (set_cr3_reg kernel_page_directory s) ∅.
Proof.
  intros Hbss Hb. destruct image_frames as (kd & kt & Ekd & Hkd & Hkt & Hinj).
  assert (dirs s = ∅) as Ed by (rewrite (ba_rest _ _ _ Hb); exact (bss_dirs _ Hbss)).
  split; [|constructor; [intros d v _; unfold PagingProofs.pte; cbn [dirs set_cr3_reg]; by rewrite Ed, lookup_empty|intros *; by rewrite lookup_empty]].
  constructor; change (Paging.word junk (set_cr3_reg kernel_page_directory s)) with (word s);
    cbn [fa dirs set_cr3_reg]; rewrite ?Ed; try (intros *; rewrite lookup_empty; done); try apply Hb.
  - by left.
  - intros t p Ht Hp. rewrite (ba_tab _ _ _ Hb) by done. by apply ident_entry_ok.
  - intros b t [-> |(d & dd & Hd & _)] Ht; [|cbn [dirs set_cr3_reg] in Hd; by rewrite Ed, lookup_empty in Hd].
    rewrite (ba_dir _ _ _ Hb) by done. destruct (Hkt t Ht) as (-> & ? & _). destruct (dir_entry (kt t)) as (_ & ? & ?); [lia|done].
  - intros i Hi. rewrite user_pde_bounds in Hi. by rewrite (ba_zero _ _ _ Hb) by lia.
Qed.

Lemma paging_init_ok s0 :
  mm_bss s0 -> wp paging_init (fun _ s => mm_inv s ∅ /\ dirs s = ∅ /\ mems s = mems s0 /\
    mmap_file_table s = mmap_file_table s0 /\ mheap s = mheap s0 /\ cr3 s = kernel_page_directory) s0.
Proof.
  intros Hbss. destruct image_frames as (kd & kt & Ekd & Hkd & Hkt & _). unfold paging_init.
  destruct boot_ok as (fa1 & Efa & Hm & _ & Hfa). eapply wp_bind_ok; [apply frames_do_ok; rewrite (bss_fa _ Hbss); exact Efa|]. clear Efa.
  eapply wp_step; [rewrite Ekd; apply (pst_loop (set_fa fa1 s0) kd (fun _ => 0))|]. intros u s1 Hfl. cbv beta in Hfl.
  assert (boot_at s0 0 s1) as H0.
  { assert (fa s1 = fa1) as E1 by (rewrite (fl_rest _ _ _ _ _ _ Hfl); reflexivity). constructor; try lia.
    - rewrite E1. rewrite (fl_rest _ _ _ _ _ _ Hfl) at 1. reflexivity.
    - intros a. eapply filled_u32; [exact Hfl|done|apply (bss_u32 _ Hbss)].
    - rewrite E1. exact Hfa.
    - rewrite E1. exact Hm.
    - intros i Hi. rewrite Ekd. by apply Hfl. }
  eapply wp_step with (P := fun r s => r = None /\ boot_at s0 8 s).
  { eapply wp_mono; [apply (for_until_wp (fun t s => boot_at s0 t s) (fun (_ : unit) _ => False)); [exact H0|]|].
    - intros t s Ht Hs. change (0 + Z.of_nat (Z.to_nat NUM_KERNEL_PAGE_TABLES)) with 8 in Ht.
      destruct (Hkt t Ht) as (Et & ? & _). rewrite kernel_table_at, Et, (proj2 (Z.eqb_neq _ _)) by (done || unfold addr_of, PAGE_SIZE_CONST; lia).
      rewrite <- Et, <- (kernel_table_at t) by done. pose proof (boot_step s0 t s Ht Hs) as Hst.
      rewrite wp_bind in Hst. apply wp_bind. eapply wp_mono; [exact Hst|]. clear Hst. intros a s2 Hst. cbv beta in Hst.
      rewrite wp_bind in Hst. apply wp_bind. eapply wp_mono; [exact Hst|]. clear Hst. intros a' s3 Hst. cbv beta in Hst.
      apply wp_bind. eapply wp_mono; [exact Hst|]. intros a'' s4 H4. by apply wp_ret.
    - intros [x|] s Hs; [done|]. split; [done|]. exact Hs. }
  intros r s [-> Hs]. eapply wp_ok; [reflexivity|]. split; [by eapply boot_inv|].
  rewrite (ba_rest _ _ _ Hs). split_and!; try reflexivity. exact (bss_dirs _ Hbss).
Qed.

(** ** A directory under construction

    Between its allocation and the last store the new directory [d] is not part
    of the invariant; its frame [f] is a held one. *)

Abbreviation pte := (pte junk).

Definition hide (d : Z) s : mm M := set_dirs (delete d (dirs s)) s.

Lemma walk_same s s' a b : words s' = words s -> cr3 s' = cr3 s -> walk junk a s = Ok (b, s) -> walk junk a s' = Ok (b, s').
Proof.
  intros Hw Hc. unfold walk, pld, bind, gets, ret, fail, id, Paging.word. rewrite Hw, Hc.
  destruct (_ =? 0); [done|]. cbv beta iota. rewrite Hw. destruct (_ =? 0); [done|]. intros E. congruence.
Qed.

Lemma hide_walk d s R a : mm_inv (hide d s) R -> 0 <= a < IDENTITY_MAP_END -> walk junk a s = Ok (a, s).
Proof. intros Hs Ha. eapply (walk_same (hide d s)); [done|done|]. exact (walk_ident _ _ R a Hs Ha). Qed.

Lemma hide_vld d s R a : mm_inv (hide d s) R -> 0 <= a < IDENTITY_MAP_END -> vld junk a s = Ok (word s a, s).
Proof. intros Hs Ha. unfold vld. by rewrite (bind_ok _ _ _ _ _ (hide_walk d s R a Hs Ha)). Qed.

Lemma hide_vst d s R a x : mm_inv (hide d s) R -> 0 <= a < IDENTITY_MAP_END -> vst junk a x s = Ok (tt, put a x s).
Proof. intros Hs Ha. unfold vst. by rewrite (bind_ok _ _ _ _ _ (hide_walk d s R a Hs Ha)). Qed.

Record building s (R : roles) (d f : Z) (spec : Z -> Z) s' : Prop := {
  bd_inv : mm_inv (hide d s') R;
  bd_rest : hide d s' = set_words (words s') (hide d s);
  bd_dir : exists T, dirs s' !! d = Some (PageDirectory T (addr_of f)) /\ length T = 1024%nat;
  bd_in i : 0 <= i < 1024 -> word s' (addr_of f + 4 * i) = spec i;
  bd_out g i : g <> f -> 0 <= i < 1024 -> word s' (addr_of g + 4 * i) = word s (addr_of g + 4 * i)
}.

Lemma building_store s R d f h ps spec s' k x :
  R !! f = Some (RPages h ps) -> building s R d f spec s' -> 0 <= k < 1024 -> is_u32 x ->
  vst junk (addr_of f + 4 * k) x s' = Ok (tt, put (addr_of f + 4 * k) x s') /\
  building s R d f (fun i => if decide (i = k) then x else spec i) (put (addr_of f + 4 * k) x s').
Proof.
  intros Hf [Hs Hr Hd Hi Ho] Hk Hx. destruct (role_pool _ _ _ f _ Hs Hf) as [Hfb _].
  split; [eapply hide_vst; [done|apply word_below; lia]|]. constructor.
  - change (mm_inv (put (addr_of f + 4 * k) x (hide d s')) R). by eapply inv_put_data.
  - change (put (addr_of f + 4 * k) x (hide d s') = set_words (<[addr_of f + 4 * k := x]> (words s')) (hide d s)).
    rewrite Hr. done.
  - exact Hd.
  - intros i Hi'. rewrite word_put. destruct (decide (i = k)) as [->|]; case_decide; try done; [lia|]. by apply Hi.
  - intros g i Hg Hi'. rewrite put_frame_ne by done. by apply Ho.
Qed.

Lemma building_entry s R d f spec s' k x :
  building s R d f spec s' -> 0 <= k < 1024 ->
  exists s'', set_table_entry d k x s' = Ok (tt, s'') /\ building s R d f spec s''.
Proof.
  intros [Hs Hr (T & Hd & HT) Hi Ho] Hk. unfold set_table_entry.
  rewrite (bind_ok _ _ _ _ _ (get_dir_ok s' d _ Hd)). cbn [tables_physical physical_addr].
  rewrite (bind_ok _ _ _ _ _ (wr_ok _ _ _ _ ltac:(by rewrite HT))). eexists. split; [done|].
  set (s'' := set_dirs _ s'). assert (hide d s'' = hide d s') as Eh.
  { unfold hide, s''. cbn [dirs set_dirs]. by rewrite delete_insert_eq. }
  constructor; rewrite ?Eh; try done. eexists. split; [apply lookup_insert_eq|]. by rewrite length_insert.
Qed.

Lemma building_ext s R d f spec spec' s' :
  (forall i, 0 <= i < 1024 -> spec i = spec' i) -> building s R d f spec s' -> building s R d f spec' s'.
Proof. intros E [? ? ? Hi ?]. constructor; try done. intros i Hi'. rewrite Hi by done. by apply E. Qed.

(** The words of a new directory: the kernel's present entries. *)
Definition kernel_entry s (i : Z) : Z := word s (kernel_page_directory + 4 * i).
Definition new_entry s (i : Z) : Z :=
  if decide (i < 8) then kernel_entry s i else if present (kernel_entry s i) then kernel_entry s i else 0.

Lemma building_kernel s R d f spec s' h ps i : R !! f = Some (RPages h ps) -> building s R d f spec s' -> 0 <= i < 1024 ->
  vld junk (kernel_page_directory + 4 * i) s' = Ok (kernel_entry s i, s') /\ is_u32 (kernel_entry s i).
Proof.
  intros Hf Hb Hi. destruct image_frames as (kd & _ & Ekd & Hkd & _). destruct (role_pool _ _ _ f _ (bd_inv _ _ _ _ _ _ Hb) Hf) as [Hfb _].
  assert (word s' (kernel_page_directory + 4 * i) = kernel_entry s i) as E.
  { unfold kernel_entry. rewrite Ekd. apply (bd_out _ _ _ _ _ _ Hb); lia. }
  rewrite (hide_vld d s' R _ (bd_inv _ _ _ _ _ _ Hb)) by (rewrite Ekd; apply word_below; lia). rewrite E. split; [done|].
  rewrite <- E. apply (mi_u32 _ _ _ (bd_inv _ _ _ _ _ _ Hb)).
Qed.

(** The three loops of [create_page_directory]. *)
Lemma build_clear s R d f h ps spec s1 :
  R !! f = Some (RPages h ps) -> building s R d f spec s1 ->
  wp (for_loop 1024 0 (fun i => set_table_entry d i 0;; vst junk (addr_of f + 4 * i) 0))
    (fun _ s' => building s R d f (fun _ => 0) s') s1.
Proof.
  intros Hf Hb. eapply wp_mono; [apply (for_loop_wp (fun k s' => building s R d f (fun i => if decide (i < k) then 0 else spec i) s'))|].
  - eapply building_ext; [|exact Hb]. intros i Hi. by case_decide; [lia|].
  - intros k s' Hk Hb'. destruct (building_entry _ _ _ _ _ _ k 0 Hb' ltac:(lia)) as (s2 & E2 & Hb2). eapply wp_bind_ok; [exact E2|].
    destruct (building_store _ _ _ _ _ _ _ _ k 0 Hf Hb2 ltac:(lia) ltac:(done)) as [E3 Hb3]. eapply wp_ok; [exact E3|].
    eapply building_ext; [|exact Hb3]. intros i Hi. cbv beta. repeat case_decide; try done; lia.
  - intros u s' Hb'. eapply building_ext; [|exact Hb']. intros i Hi. cbv beta. by case_decide; [|lia].
Qed.

(** Copying the kernel's entry [i] into both places. *)
Lemma build_copy s R d f h ps spec s1 i :
  R !! f = Some (RPages h ps) -> building s R d f spec s1 -> 0 <= i < 1024 ->
  wp (vst junk (addr_of f + 4 * i) (kernel_entry s i);; e ← vld junk (kernel_page_directory + 4 * i); set_table_entry d i e)
    (fun _ s' => building s R d f (fun j => if decide (j = i) then kernel_entry s i else spec j) s') s1.
Proof.
  intros Hf Hb Hi. destruct (building_kernel _ _ _ _ _ _ _ _ i Hf Hb Hi) as [_ Hu].
  destruct (building_store _ _ _ _ _ _ _ _ i _ Hf Hb Hi Hu) as [E2 Hb2]. eapply wp_bind_ok; [exact E2|].
  destruct (building_kernel _ _ _ _ _ _ _ _ i Hf Hb2 Hi) as [E3 _]. eapply wp_bind_ok; [exact E3|].
  destruct (building_entry _ _ _ _ _ _ i (kernel_entry s i) Hb2 Hi) as (s3 & E4 & Hb3). by eapply wp_ok.
Qed.

Lemma build_kernel s R d f h ps s1 :
  R !! f = Some (RPages h ps) -> building s R d f (fun _ => 0) s1 ->
  wp (for_loop (Z.to_nat NUM_KERNEL_PAGE_TABLES) 0 (fun i =>
        e ← vld junk (kernel_page_directory + 4 * i);
        vst junk (addr_of f + 4 * i) e;;
        e ← vld junk (kernel_page_directory + 4 * i);
        set_table_entry d i e);;
      for_loop (Z.to_nat (1024 - NUM_KERNEL_PAGE_TABLES)) NUM_KERNEL_PAGE_TABLES (fun i =>
        e ← vld junk (kernel_page_directory + 4 * i);
        if negb (Z.land e PAGE_PRESENT =? 0) then
          vst junk (addr_of f + 4 * i) e;;
          e ← vld junk (kernel_page_directory + 4 * i);
          set_table_entry d i e
        else ret tt))
    (fun _ s' => building s R d f (new_entry s) s') s1.
Proof.
  intros Hf Hb. eapply wp_step; [apply (for_loop_wp (fun k s' => building s R d f (fun i => if decide (i < k) then new_entry s i else 0) s'))|].
  - eapply building_ext; [|exact Hb]. intros i Hi. by case_decide; [lia|].
  - intros k s' Hk Hb'. change (0 + Z.of_nat (Z.to_nat NUM_KERNEL_PAGE_TABLES)) with 8 in Hk.
    destruct (building_kernel _ _ _ _ _ _ _ _ k Hf Hb' ltac:(lia)) as [E _]. eapply wp_bind_ok; [exact E|].
    eapply wp_mono; [eapply (build_copy _ _ _ _ _ _ _ _ k Hf Hb'); lia|]. intros u s2 Hb2. cbv beta in Hb2. eapply building_ext; [|exact Hb2].
    intros i Hi. cbv beta. unfold new_entry. repeat case_decide; try done; subst; try done; lia.
  - intros u s2 Hb2. cbv beta in Hb2. change (0 + Z.of_nat (Z.to_nat NUM_KERNEL_PAGE_TABLES)) with 8 in Hb2.
    eapply wp_mono; [apply (for_loop_wp (fun k s' => building s R d f (fun i => if decide (i < k) then new_entry s i else 0) s')); [exact Hb2|]|].
    + intros k s' Hk Hb'. change NUM_KERNEL_PAGE_TABLES with 8 in Hk. change (8 + Z.of_nat (Z.to_nat (1024 - 8))) with 1024 in Hk.
      destruct (building_kernel _ _ _ _ _ _ _ _ k Hf Hb' ltac:(lia)) as [E _]. eapply wp_bind_ok; [exact E|].
      rewrite land_present, negb_involutive. destruct (present (kernel_entry s k)) eqn:Hp.
      * eapply wp_mono; [eapply (build_copy _ _ _ _ _ _ _ _ k Hf Hb'); lia|]. intros u' s3 Hb3. cbv beta in Hb3. eapply building_ext; [|exact Hb3].
        intros i Hi. cbv beta. unfold new_entry. repeat case_decide; try done; subst; try (by rewrite Hp); lia.
      * apply wp_ret. eapply building_ext; [|exact Hb']. intros i Hi. cbv beta. unfold new_entry.
        destruct (decide (i = k)) as [->|]; repeat case_decide; try done; try lia; by rewrite Hp.
    + intros u' s' Hb'. change (NUM_KERNEL_PAGE_TABLES + _) with 1024 in Hb'. eapply building_ext; [|exact Hb'].
      intros i Hi. cbv beta. by case_decide; [|lia].
Qed.

Lemma hide_dir d s d' dd : d' <> d -> dirs s !! d' = Some dd -> dirs (hide d s) !! d' = Some dd.
Proof. intros Hne Hd. unfold hide. cbn [dirs set_dirs]. by rewrite lookup_delete_ne by congruence. Qed.

(** The finished directory joins the invariant, with no user page. *)
Lemma inv_new_dir s R d f s' :
  building s (<[f := RPages 1 ∅]> R) d f (new_entry s) s' -> d <> 0 ->
  mm_inv s' (<[f := RDir d]> R) /\ forall v, user_vpn v -> pte s' d v = 0.
Proof.
  intros Hb Hd0. pose proof (bd_inv _ _ _ _ _ _ Hb) as Hs. destruct (bd_dir _ _ _ _ _ _ Hb) as (T & Hd & HT).
  destruct image_frames as (kd & _ & Ekd & Hkd & _). destruct (role_pool _ _ _ f _ Hs (lookup_insert_eq _ _ _)) as [Hfb _].
  assert (forall i, 0 <= i < 1024 -> word s' (kernel_page_directory + 4 * i) = kernel_entry s i) as Hk.
  { intros i Hi. unfold kernel_entry. rewrite Ekd. apply (bd_out _ _ _ _ _ _ Hb); lia. }
  assert (forall i, user_pde i -> present (word s' (addr_of f + 4 * i)) = false) as Hnone.
  { intros i Hi. pose proof (mi_knone _ _ _ Hs i Hi) as Hn. rewrite user_pde_bounds in Hi.
    change (word (hide d s')) with (word s') in Hn. rewrite Hk in Hn by lia.
    rewrite (bd_in _ _ _ _ _ _ Hb) by lia. unfold new_entry. rewrite decide_False, Hn by lia. done. }
  assert (forall g r, (<[f := RPages 1 ∅]> R : roles) !! g = Some r ->
    match r with RPages _ ps => ps <> ∅ | _ => True end -> (<[f := RDir d]> R : roles) !! g = Some r) as HR.
  { intros g r [[<- <-]|[Hne Hg]]%lookup_insert_Some; [done|]. by rewrite lookup_insert_ne. }
  assert (forall v, user_vpn v -> pte s' d v = 0) as Hp0.
  { intros v Hv. unfold PagingProofs.pte. rewrite Hd. cbn [physical_addr]. cbv zeta. rewrite Hnone; [done|]. by apply vpn_split. }
  split; [split|exact Hp0].
  - constructor; try apply Hs.
    + replace (role_count <$> <[f := RDir d]> R) with (role_count <$> <[f := RPages 1 ∅]> R) by (by rewrite !fmap_insert). apply Hs.
    + intros g h ps [[_ ?]|[Hne Hg]]%lookup_insert_Some; [done|]. apply (mi_held _ _ _ Hs g h ps). by rewrite lookup_insert_ne.
    + destruct (mi_cr3 _ _ _ Hs) as [E|(d' & dd' & Hd' & E)]; [by left|right]. exists d', dd'. split; [|done].
      unfold hide in Hd'. cbn [dirs set_dirs] in Hd'. by apply lookup_delete_Some in Hd' as [_ ?].
    + intros b t [-> |(d' & dd' & Hd' & ->)] Ht; [apply (mi_kdir _ _ _ Hs); [by left|done]|].
      destruct (decide (d' = d)) as [->|Hne].
      * rewrite Hd in Hd'. injection Hd' as <-. cbn [physical_addr]. rewrite (bd_in _ _ _ _ _ _ Hb) by lia.
        unfold new_entry. rewrite decide_True by lia. rewrite <- Hk by lia. apply (mi_kdir _ _ _ Hs); [by left|done].
      * apply (mi_kdir _ _ _ Hs); [right; exists d', dd'; by split; [apply hide_dir|]|done].
    + intros d' dd' Hd'. destruct (decide (d' = d)) as [->|Hne].
      * rewrite Hd in Hd'. injection Hd' as <-. split; [done|]. split; [done|]. exists f. split; [done|]. apply lookup_insert_eq.
      * destruct (mi_dir _ _ _ Hs d' dd' (hide_dir _ _ _ _ Hne Hd')) as (? & ? & g & ? & Hg). split; [done|]. split; [done|].
        exists g. split; [done|]. by apply HR.
    + intros d' dd' i Hd' Hi Hp. destruct (decide (d' = d)) as [->|Hne].
      * rewrite Hd in Hd'. injection Hd' as <-. cbn [physical_addr] in Hp. by rewrite Hnone in Hp.
      * destruct (mi_tab _ _ _ Hs d' dd' i (hide_dir _ _ _ _ Hne Hd') Hi Hp) as (g & ? & Hg). exists g. split; [done|]. by apply HR.
  - assert (forall d' v, d' <> d -> pte (hide d s') d' v = pte s' d' v) as Hph.
    { intros d' v Hne. unfold PagingProofs.pte, hide. cbn [dirs set_dirs]. by rewrite lookup_delete_ne by congruence. }
    constructor.
    + intros d' v Hv. destruct (decide (d' = d)) as [->|Hne]; [by rewrite Hp0|]. rewrite <- Hph by done.
      eapply page_ok_mono; [|by apply (inv_pte junk _ _ d' v Hs)]. intros g h ps Hg Hin. exists h, ps. split; [|done]. apply HR; [done|].
      intros ->. by apply not_elem_of_empty in Hin.
    + intros g h ps d' v [[_ ?]|[Hne Hg]]%lookup_insert_Some Hin; [done|].
      destruct (pg_owner _ _ _ (mi_pages _ _ _ Hs) g h ps d' v) as [Hv Hm]; [by rewrite lookup_insert_ne|done|]. split; [done|].
      destruct (decide (d' = d)) as [->|Hne']; [|by apply (maps_ext junk (hide d s')); [symmetry; apply Hph|]].
      destruct Hm as [Hm _]. unfold PagingProofs.pte, hide in Hm. cbn [dirs set_dirs] in Hm. by rewrite lookup_delete_eq in Hm.
Qed.

(** ** create_page_directory *)

Context {KM : Kmalloc M}.
Variable cpu : Z.
Hypothesis Hcpu : 0 <= cpu < MAX_CPUS.

(** The directory and process-memory objects are live blocks of the heap. *)
Record heap_inv s (L : gmap Z Z) : Prop := {
  hi_rep : km_rep (mheap s) L;
  hi_dirs d : is_Some (dirs s !! d) -> L !! d = Some PAGE_DIRECTORY_SIZE;
  hi_mems p : is_Some (mems s !! p) -> L !! p = Some PROCESS_MEMORY_SIZE
}.

Lemma kmalloc_do_ok s L n : heap_inv s L -> 0 < n < 4294967296 ->
  exists p m', kmalloc n (mheap s) = Ok (p, m') /\ kmalloc_do n s = Ok (p, set_mheap m' s) /\
    ((p = 0 /\ km_rep m' L) \/ (p <> 0 /\ L !! p = None /\ km_rep m' (<[p := n]> L))).
Proof.
  intros Hh Hn. destruct (kmalloc_spec _ _ n (hi_rep _ _ Hh) Hn) as (p & m' & E & Hp). exists p, m'.
  split; [done|]. split; [unfold kmalloc_do, zoom; by rewrite E|]. destruct Hp as [[-> ?]|(? & _ & ? & _ & ?)]; [by left|right].
  split; [lia|done].
Qed.

(** A request of [n] bytes fails. *)
Definition heap_full (m : M) (n : Z) : Prop := exists m', kmalloc n m = Ok (0, m').

(** Creating an address space leaves the others alone. *)
Record adds_dir s (R : roles) (r : Z) s' (R' : roles) : Prop := {
  ad_inv : mm_inv s' R';
  ad_roles : R ⊆ R';
  ad_data : same_data junk s s' R;
  ad_pte d v : user_vpn v -> pte s' d v = pte s d v;
  ad_dirs : (r = 0 /\ dirs s' = dirs s /\ (heap_full (mheap s) PAGE_DIRECTORY_SIZE \/ exhausted R)) \/ (r <> 0 /\ dirs s !! r = None /\ exists dd, dirs s' = <[r := dd]> (dirs s));
  ad_owned : owned R' <= owned R + 1;
  ad_env : mems s' = mems s /\ mmap_file_table s' = mmap_file_table s /\ cr3 s' = cr3 s
}.

Lemma inv_heap s R m : mm_inv s R -> mm_inv (set_mheap m s) R.
Proof. intros Hs. split; [constructor; apply Hs|]. by apply (pages_same junk s); [|apply Hs]. Qed.

Lemma hide_fresh d s : dirs s !! d = None -> hide d s = s.
Proof. intros Hd. unfold hide. rewrite delete_id by done. by destruct s. Qed.

Lemma adds_dir_done s R d f s3 s' :
  mm_inv s R -> dirs s !! d = None -> R !! f = None -> d <> 0 -> words s3 = words s -> cr3 s3 = cr3 s -> mems s3 = mems s ->
  mmap_file_table s3 = mmap_file_table s -> dirs (hide d s3) = dirs s ->
  building s3 (<[f := RPages 1 ∅]> R) d f (new_entry s3) s' -> adds_dir s R d s' (<[f := RDir d]> R).
Proof.
  intros Hs Hd Hf Hd0 Hw Hc Hm Hfi Hds Hb. destruct (inv_new_dir s3 R d f s' Hb Hd0) as [Hs' Hp'].
  pose proof (bd_rest _ _ _ _ _ _ Hb) as Hr. destruct (bd_dir _ _ _ _ _ _ Hb) as (T & Hd' & _).
  assert (forall a, word s3 a = word s a) as Hws by (intros a; unfold Paging.word; by rewrite Hw).
  assert (delete d (dirs s') = dirs s) as Ed by (change (dirs (hide d s') = dirs s); rewrite Hr; done).
  constructor; [done|by apply insert_subseteq| | | |apply owned_insert|].
  - intros g h ps i Hg Hi. rewrite (bd_out _ _ _ _ _ _ Hb) by (congruence || done). apply Hws.
  - intros d' v Hv. destruct (decide (d' = d)) as [->|Hne].
    + rewrite Hp' by done. unfold PagingProofs.pte. by rewrite Hd.
    + assert (pte s' d' v = pte (hide d s') d' v) as ->.
      { unfold PagingProofs.pte, hide. cbn [dirs set_dirs]. by rewrite lookup_delete_ne by congruence. }
      eapply pte_same; [exact Hs| | |done].
      * intros k. change (dirs (hide d s')) with (delete d (dirs s')). by rewrite Ed.
      * intros g r i Hg _ Hi. change (word (hide d s')) with (word s'). rewrite (bd_out _ _ _ _ _ _ Hb) by (congruence || done). apply Hws.
  - right. split; [done|]. split; [done|]. eexists. rewrite <- Ed. symmetry. by apply insert_delete_id.
  - change (mems s') with (mems (hide d s')). change (mmap_file_table s') with (mmap_file_table (hide d s')).
    change (cr3 s') with (cr3 (hide d s')). rewrite Hr. done.
Qed.

Lemma create_page_directory_ok s R L :
  mm_inv s R -> heap_inv s L ->
  wp (create_page_directory junk cpu) (fun r s' => exists R' L', adds_dir s R r s' R' /\ heap_inv s' L' /\ L ⊆ L') s.
Proof.
  intros Hs Hh. unfold create_page_directory.
  destruct (kmalloc_do_ok s L PAGE_DIRECTORY_SIZE Hh ltac:(done)) as (d & m' & Ek & E & Hd). eapply wp_bind_ok; [exact E|].
  destruct Hd as [[-> Hrep]|(Hd0 & Hfresh & Hrep)].
  { apply wp_ret. exists R, L. split; [|split; [|done]].
    - constructor; try done; [by apply inv_heap|left|lia]. split; [done|]. split; [done|]. left. by exists m'.
    - constructor; try done; apply Hh. }
  rewrite (proj2 (Z.eqb_neq _ _) Hd0). eapply wp_bind_ok; [reflexivity|]. set (s2 := set_dirs _ _).
  assert (dirs s !! d = None) as Hd.
  { destruct (dirs s !! d) as [dd|] eqn:Ed; [|done]. rewrite (hi_dirs _ _ Hh) in Hfresh by eauto. done. }
  destruct (inv_alloc junk cpu Hcpu s R Hs) as (r & fa' & Ea & Hr). apply frames_do_inv in Ea.
  eapply wp_bind_ok; [apply frames_do_ok; exact Ea|].
  destruct Hr as [(-> & Hex & Hs1)|(f & -> & Hf & Hnone & Hs1)].
  - rewrite Z.eqb_refl. cbn [orb negb]. eapply wp_bind_ok; [reflexivity|].
    destruct (kfree_spec _ _ d PAGE_DIRECTORY_SIZE Hrep) as (m'' & Ef & Hrep'); [apply lookup_insert_eq|].
    eapply wp_bind_ok; [unfold kfree_do, zoom; cbn [mheap set_fa set_dirs set_mheap s2]; rewrite Ef; reflexivity|].
    eapply wp_bind_ok; [reflexivity|]. apply wp_ret. rewrite delete_insert_id in Hrep' by done.
    set (s3 := set_dirs (delete d _) _). assert (s3 = set_mheap m'' (set_fa fa' s)) as ->.
    { unfold s3, s2. cbn [dirs set_fa set_dirs set_mheap]. rewrite delete_insert_id by done. by destruct s. }
    exists R, L. split; [|split; [|done]].
    + constructor; try done; [by apply inv_heap|left; auto|lia].
    + constructor; try done; apply Hh.
  - destruct (addr_of_not_none f) as [Hnn _]; [by apply pool_bounds|]. rewrite (proj2 (Z.eqb_neq _ _) Hnn).
    rewrite (proj2 (Z.leb_gt _ _)) by (apply Z.ltb_lt, below_map; lia). cbn [orb].
    eapply wp_bind_ok; [apply get_dir_ok, lookup_insert_eq|]. eapply wp_bind_ok; [reflexivity|]. set (s3 := set_dirs _ (set_fa fa' s2)).
    assert (hide d s3 = set_mheap m' (set_fa fa' s)) as Eh.
    { unfold s3, s2, hide. cbn [dirs set_fa set_dirs set_mheap]. rewrite !delete_insert_eq, delete_id by done. by destruct s. }
    assert (building s3 (<[f := RPages 1 ∅]> R) d f (fun i => word s3 (addr_of f + 4 * i)) s3) as Hb.
    { constructor; try done; [rewrite Eh; by apply inv_heap|]. eexists. split; [apply lookup_insert_eq|].
      cbn [tables_physical]. by rewrite length_fmap, length_seqZ. }
    eapply wp_step; [eapply build_clear; [apply lookup_insert_eq|exact Hb]|]. intros u s4 Hb4. cbv beta in Hb4.
    pose proof (build_kernel s3 (<[f := RPages 1 ∅]> R) d f 1 ∅ s4 (lookup_insert_eq _ _ _) Hb4) as Hk. rewrite wp_bind in Hk.
    apply wp_bind. eapply wp_mono; [exact Hk|]. clear Hk. intros u' s5 Hk. cbv beta in Hk. apply wp_bind.
    eapply wp_mono; [exact Hk|]. clear Hk. intros u'' s' Hb'. apply wp_ret.
    assert (adds_dir s R d s' (<[f := RDir d]> R)) as Had by (eapply (adds_dir_done s R d f s3); try done; by rewrite Eh).
    exists (<[f := RDir d]> R), (<[d := PAGE_DIRECTORY_SIZE]> L). split; [done|]. split; [|by apply insert_subseteq].
    destruct Had as [_ _ _ _ Hds _ (Hm & _)]. destruct Hds as [[? _]|(_ & _ & dd & Hds)]; [done|]. constructor.
    + change (mheap s') with (mheap (hide d s')). rewrite (bd_rest _ _ _ _ _ _ Hb'), Eh. exact Hrep.
    + intros k [x Hx]. rewrite Hds in Hx. apply lookup_insert_Some in Hx as [[<- _]|[Hne Hx]]; [apply lookup_insert_eq|].
      rewrite lookup_insert_ne by done. apply (hi_dirs _ _ Hh). eauto.
    + intros p [x Hx]. rewrite Hm in Hx. rewrite lookup_insert_ne; [apply (hi_mems _ _ Hh); eauto|].
      intros <-. rewrite (hi_mems _ _ Hh) in Hfresh by eauto. done.
Qed.

End Boot.
