(* ===== verification/PagingDestroy.v ===== *)
(** * Paging: tearing a directory down

    [destroy_page_directory] starts at entry 4 although the kernel's identity
    map occupies the entries 0 to 7.  It returns, but it also drops a reference
    of every frame between 16 and 32 MB, whoever holds it. *)

From stdpp Require Import base tactics numbers list gmap.
From S2P Require Import Prelude FrameAlloc FrameDecref Alloc Paging PagingProofs PagingOps PagingBoot.

Section Destroy.
Context {M : Type} {KM : Kmalloc M} {KI : KernelImage}.
Variable junk : Z -> Z.
Variable cpu : Z.
Hypothesis Hcpu : 0 <= cpu < MAX_CPUS.
Implicit Types s : mm M.
Abbreviation word := (word junk).
Abbreviation mm_inv := (mm_inv junk).

(** Only the frame allocator moved on, and no reference count grew. *)
Record fewer_refs s s' : Prop := {
  fr_rest : s' = set_fa (fa s') s;
  fr_weak : fa_weak (fa s');
  fr_rc g : 0 <= g < 16384 -> rc (fa s') g <= rc (fa s) g
}.

Lemma fewer_vld s R s' a : mm_inv s R -> fewer_refs s s' -> 0 <= a < IDENTITY_MAP_END -> vld junk a s' = Ok (word s a, s').
Proof.
  intros Hs Hf Ha. unfold vld. erewrite bind_ok by (eapply (walk_same junk s); [by rewrite (fr_rest _ _ Hf)..|exact (walk_ident _ _ R a Hs Ha)]).
  unfold pld, gets, Paging.word. by rewrite (fr_rest _ _ Hf).
Qed.

(** Dropping one reference of the frame at [a]. *)
Lemma fewer_drop s s' a : fewer_refs s s' -> 0 <= a ->
  wp (frames_do (frame_decref cpu a)) (fun _ s'' => fewer_refs s s'' /\ rc_drop (fa s') (fa s'') a) s'.
Proof.
  intros [Hr Hw Hrc] Ha. apply wp_zoom. eapply wp_mono; [by apply frame_decref_weak|]. intros u q [Hq Hd].
  split; [|exact Hd]. constructor; [by rewrite Hr|done|]. intros g Hg. cbn [fa set_fa]. rewrite Hd by done.
  specialize (Hrc g Hg). pose proof (shape_rc_pos (fa s') g (fw_shape _ Hw)). destruct (_ && _); lia.
Qed.

Lemma fewer_free s s' a : fewer_refs s s' -> 0 <= a ->
  wp (frames_do (free_frame cpu a)) (fun _ s'' => fewer_refs s s'' /\ forall g, 0 <= g < 16384 -> rc (fa s'') g <= rc (fa s') g) s'.
Proof.
  intros [Hr Hw Hrc] Ha. apply wp_zoom. eapply wp_mono; [by apply free_frame_weak|]. intros u q [Hq Hd].
  assert (forall g, 0 <= g < 16384 -> rc q g <= rc (fa s') g) as Hle.
  { intros g Hg. destruct Hd as [Hd | ->]; [|done]. rewrite Hd by done. pose proof (shape_rc_pos (fa s') g (fw_shape _ Hw)). destruct (_ && _); lia. }
  split; [|exact Hle]. constructor; [by rewrite Hr|done|]. intros g Hg. cbn [fa set_fa]. etrans; [by apply Hle|by apply Hrc].
Qed.

(** The pages of one table; those it maps lose a reference. *)
Lemma drop_table_ok s R s' t : mm_inv s R -> fewer_refs s s' -> 0 <= t < 8192 ->
  wp (drop_table junk cpu (addr_of t)) (fun _ s'' => fewer_refs s s'' /\
    (forall g, 0 <= g < 16384 -> rc (fa s'') g <= rc (fa s') g) /\
    forall j g, 0 <= j < 1024 -> 2816 <= g < 8192 -> present (word s (addr_of t + 4 * j)) = true ->
      frame_of (word s (addr_of t + 4 * j)) = addr_of g -> rc (fa s'') g <= Z.max 0 (rc (fa s') g - 1)) s'.
Proof.
  intros Hs Hf Ht. unfold drop_table.
  apply (for_loop_wp (fun k s'' => fewer_refs s s'' /\ (forall g, 0 <= g < 16384 -> rc (fa s'') g <= rc (fa s') g) /\
    forall j g, 0 <= j < k -> 2816 <= g < 8192 -> present (word s (addr_of t + 4 * j)) = true ->
      frame_of (word s (addr_of t + 4 * j)) = addr_of g -> rc (fa s'') g <= Z.max 0 (rc (fa s') g - 1))).
  { split; [done|]. split; [done|]. lia. }
  intros k s1 Hk (Hf1 & Hle & Hd). eapply wp_bind_ok; [eapply fewer_vld; [exact Hs|done|by apply word_below; [|lia]]|].
  rewrite land_present, negb_involutive. set (e := word s (addr_of t + 4 * k)). destruct (present e) eqn:Hp.
  - pose proof (mi_u32 _ _ _ Hs (addr_of t + 4 * k)) as Hu. fold e in Hu. fold (frame_of e).
    assert (0 <= frame_of e) as He0.
    { rewrite frame_of_div by done. unfold addr_of, PAGE_SIZE_CONST. pose proof (Z.div_pos e 4096). unfold is_u32 in Hu. lia. }
    eapply wp_mono; [by eapply fewer_drop|]. intros u s2 [Hf2 Hrc]. split; [done|].
    assert (forall g, 0 <= g < 16384 -> rc (fa s2) g <= rc (fa s1) g) as Hle2.
    { intros g Hg. rewrite Hrc by done. pose proof (shape_rc_pos (fa s1) g (fw_shape _ (fr_weak _ _ Hf1))). destruct (_ && _); lia. }
    split; [intros g Hg; specialize (Hle g Hg); specialize (Hle2 g Hg); lia|]. intros j g Hj Hg Hpj Efj.
    destruct (decide (j = k)) as [->|]; [|specialize (Hle2 g ltac:(lia)); specialize (Hd j g ltac:(lia) Hg Hpj Efj); lia].
    fold e in Efj. rewrite Hrc, Efj by lia. unfold addr_of, PAGE_SIZE_CONST. rewrite Z.div_mul, Z.eqb_refl by done.
    rewrite (proj2 (Z.leb_le _ _)) by (change KERNEL_RESERVED_END with 11534336; lia). cbn [andb]. specialize (Hle g ltac:(lia)). lia.
  - apply wp_ret. split; [done|]. split; [done|]. intros j g Hj Hg Hpj. destruct (decide (j = k)) as [->|]; [fold e in Hpj; congruence|]. apply Hd; [lia|done|done].
Qed.

(** What tearing the directory [d] down does. *)
Record destroyed s (L : gmap Z Z) (d : Z) s' : Prop := {
  ds_rest : exists q m, s' = set_dirs (delete d (dirs s)) (set_mheap m (set_fa q s)) /\ fa_weak q /\ km_rep m (delete d L);
  ds_rc g : 0 <= g < 16384 -> rc (fa s') g <= rc (fa s) g;
  ds_foreign g : 4096 <= g < 8192 -> rc (fa s') g <= Z.max 0 (rc (fa s) g - 1)
}.

Lemma destroy_loop s R d dd :
  mm_inv s R -> dirs s !! d = Some dd ->
  wp (for_loop (Z.to_nat (768 - 4)) 4 (fun i =>
        e ← vld junk (physical_addr dd + 4 * i);
        if Z.land e PAGE_PRESENT =? 0 then ret tt
        else
          let pt_phys := Z.land e PAGE_FRAME_MASK in
          if IDENTITY_MAP_END <=? pt_phys then ret tt
          else drop_table junk cpu pt_phys;; frames_do (free_frame cpu pt_phys)))
    (fun _ s' => fewer_refs s s' /\ forall g, 4096 <= g < 8192 -> rc (fa s') g <= Z.max 0 (rc (fa s) g - 1)) s.
Proof.
  intros Hs Hd. eapply wp_mono; [apply (for_loop_wp (fun i s' => fewer_refs s s' /\
    forall g, 4096 <= g < 8192 -> g < 1024 * i -> rc (fa s') g <= Z.max 0 (rc (fa s) g - 1)))|].
  - split; [|lia]. constructor; [by rewrite set_fa_id|by eapply fa_inv_weak; [apply Hs|apply Hs]|done].
  - intros i s1 Hi [Hf Hg]. change (4 + Z.of_nat (Z.to_nat (768 - 4))) with 768 in Hi.
    eapply wp_bind_ok; [eapply fewer_vld; [exact Hs|done|eapply dir_word; [exact Hs|done|lia]]|].
    assert (8 <= i -> forall s2, fewer_refs s s2 -> (forall g, 0 <= g < 16384 -> rc (fa s2) g <= rc (fa s1) g) ->
      fewer_refs s s2 /\ forall g, 4096 <= g < 8192 -> g < 1024 * (i + 1) -> rc (fa s2) g <= Z.max 0 (rc (fa s) g - 1)) as Huser.
    { intros Hi8 s2 Hf2 Hle. split; [done|]. intros g Hgb _. specialize (Hle g ltac:(lia)). specialize (Hg g Hgb ltac:(lia)). lia. }
    rewrite land_present. set (e := word s (physical_addr dd + 4 * i)).
    assert (i < 8 -> present e = true /\ frame_of e = kernel_page_table i) as Hkern.
    { intros Hi8. apply (mi_kdir _ _ _ Hs); [right; eauto|lia]. }
    destruct (present e) eqn:Hp; cbn [negb].
    2:{ apply wp_ret. apply Huser; [|done|done]. destruct (decide (8 <= i)); [done|]. by destruct Hkern; [lia|]. }
    cbv zeta. fold (frame_of e). pose proof (mi_u32 _ _ _ Hs (physical_addr dd + 4 * i)) as Hu. fold e in Hu.
    destruct (Z.leb_spec IDENTITY_MAP_END (frame_of e)) as [Hge|Hlt].
    { apply wp_ret. apply Huser; [|done|done]. destruct (decide (8 <= i)); [done|]. destruct Hkern as [_ E]; [lia|].
      destruct (image_frame (kernel_page_table i)) as (f & Ef & ?); [left; exists i; split; [lia|done]|]. rewrite E, Ef in Hge.
      change IDENTITY_MAP_END with 33554432 in Hge. unfold addr_of, PAGE_SIZE_CONST in Hge. lia. }
    rewrite frame_of_div in Hlt by done. assert (0 <= e / 4096 < 8192) as Ht.
    { unfold is_u32 in Hu. change IDENTITY_MAP_END with 33554432 in Hlt. unfold addr_of, PAGE_SIZE_CONST in Hlt. pose proof (Z.div_pos e 4096). lia. }
    eapply wp_step; [rewrite frame_of_div by done; eapply drop_table_ok; [exact Hs|done|done]|]. intros u s2 (Hf2 & Hle2 & Hd2).
    eapply wp_mono; [apply (fewer_free s s2); [done|]|].
    { rewrite frame_of_div by done. unfold addr_of, PAGE_SIZE_CONST. lia. }
    intros u' s3 [Hf3 Hle3]. destruct (decide (8 <= i)) as [Hi8|Hi8].
    { apply Huser; [done|done|]. intros g Hg'. specialize (Hle2 g Hg'). specialize (Hle3 g Hg'). lia. }
    split; [done|]. intros g Hgb Hgi. specialize (Hle2 g ltac:(lia)). specialize (Hle3 g ltac:(lia)).
    destruct (decide (g < 1024 * i)); [specialize (Hg g Hgb ltac:(lia)); lia|].
    destruct Hkern as [_ E]; [lia|]. rewrite frame_of_div in E by done.
    destruct (mi_ktab _ _ _ Hs i (g - 1024 * i) ltac:(lia) ltac:(lia)) as [Hp2 E2]. rewrite <- E in Hp2, E2.
    specialize (Hd2 (g - 1024 * i) g ltac:(lia) ltac:(lia) Hp2). pose proof (fr_rc _ _ Hf g ltac:(lia)).
    assert (rc (fa s2) g <= Z.max 0 (rc (fa s1) g - 1)) by (apply Hd2; rewrite E2; f_equal; lia). lia.
  - intros u s' [Hf Hg]. split; [done|]. intros g Hgb. apply Hg; [done|]. change (4 + Z.of_nat (Z.to_nat (768 - 4))) with 768. lia.
Qed.

Lemma destroy_page_directory_ok s R L d dd :
  mm_inv s R -> heap_inv s L -> dirs s !! d = Some dd ->
  wp (destroy_page_directory junk cpu d) (fun _ s' => destroyed s L d s') s.
Proof.
  intros Hs Hh Hd. destruct (mi_dir _ _ _ Hs d dd Hd) as (Hd0 & _ & f & Ef & Hf). unfold destroy_page_directory.
  rewrite (proj2 (Z.eqb_neq _ _) Hd0). eapply wp_bind_ok; [by apply get_dir_ok|]. cbv zeta.
  eapply wp_step; [by eapply destroy_loop|]. intros u s1 [Hf1 Hg1]. destruct (role_pool _ _ _ f _ Hs Hf) as [Hfb _].
  eapply wp_step; [apply (fewer_free s s1); [done|rewrite Ef; unfold addr_of, PAGE_SIZE_CONST; lia]|]. intros u' s2 [Hf2 Hle2].
  destruct (kfree_spec _ _ d PAGE_DIRECTORY_SIZE (hi_rep _ _ Hh)) as (m' & E & Hrep); [apply (hi_dirs _ _ Hh); eauto|].
  pose proof (fr_rest _ _ Hf2) as Er. assert (kfree_do d s2 = Ok (tt, set_mheap m' (set_fa (fa s2) s))) as Ek.
  { unfold kfree_do, zoom. rewrite Er. cbn [mheap set_fa]. by rewrite E. }
  eapply wp_bind_ok; [exact Ek|].
  apply wp_modify. constructor.
  - exists (fa s2), m'. split; [|split; [apply Hf2|done]]. done.
  - intros g Hg. cbn [fa set_dirs set_mheap set_fa]. by apply Hf2.
  - intros g Hg. cbn [fa set_dirs set_mheap set_fa]. specialize (Hg1 g Hg). specialize (Hle2 g ltac:(lia)). lia.
Qed.

End Destroy.
