(* ===== verification/ProcessMm.v ===== *)
(** * Process address spaces

    Models mm/process_mm.c and the registry of mm/mmap_file.c.  A
    [process_memory_t *] is an address, 0 for NULL; [current_pd_phys] takes the
    [memory] pointer of the current process. *)

From stdpp Require Import base tactics numbers list gmap.
From S2P Require Import Prelude FrameAlloc Alloc Paging.

Definition mmap_file_region_zero : mmap_file_region := MmapFileRegion false 0 0 0 0 0 0.

Section ProcessMm.
Context {M : Type} {KM : Kmalloc M} {KI : KernelImage}.
Variable junk : Z -> Z.
Variable cpu : Z.

Definition get_mem (mem : Z) : ST (mm M) process_memory :=
  s ← gets id; match mems s !! mem with Some m => ret m | None => fail Undef end.
Definition put_mem (mem : Z) (m : process_memory) : ST (mm M) unit :=
  modify (fun s => set_mems (<[mem := m]> (mems s)) s).

(** ** mmap_file.c *)

Definition current_pd_phys (memory : Z) : ST (mm M) Z :=
  if memory =? 0 then ret 0
  else
    m ← get_mem memory;
    if pm_directory m =? 0 then ret 0
    else d ← get_dir (pm_directory m); ret (physical_addr d).

Definition file_at (i : Z) : ST (mm M) mmap_file_region := s ← gets id; rd (mmap_file_table s) i.
Definition put_file (i : Z) (r : mmap_file_region) : ST (mm M) unit :=
  s ← gets id; t ← wr (mmap_file_table s) i r; modify (set_mmap_files t).

Definition mmap_file_register (memory start end_ fd offset prot : Z) : ST (mm M) Z :=
  if (end_ <=? start) || (fd <? 0) then ret (-1)
  else if negb (Z.land start PAGE_MASK =? 0) || negb (Z.land end_ PAGE_MASK =? 0) then ret (-1)
  else
    pd_phys ← current_pd_phys memory;
    if pd_phys =? 0 then ret (-1)
    else
      r ← for_until (Z.to_nat MMAP_FILE_MAX_REGIONS) 0 (fun i =>
            e ← file_at i;
            if negb (f_in_use e) then
              put_file i (MmapFileRegion true pd_phys start end_ fd offset prot);; ret (Some 0)
            else ret None);
      ret (default (-1) r).

(** [mmap_file_table[i].in_use = 0]. *)
Definition clear_file (i : Z) : ST (mm M) unit :=
  e ← file_at i;
  put_file i (MmapFileRegion false (f_pd_phys e) (f_start e) (f_end e) (f_fd e) (f_offset e) (f_prot e)).

Definition mmap_file_unregister (memory start end_ : Z) : ST (mm M) unit :=
  pd_phys ← current_pd_phys memory;
  if pd_phys =? 0 then ret tt
  else
    for_until (Z.to_nat MMAP_FILE_MAX_REGIONS) 0 (fun i =>
      e ← file_at i;
      if f_in_use e && (f_pd_phys e =? pd_phys) && (f_start e =? start) && (f_end e =? end_)
      then clear_file i;; ret (Some tt) else ret None);;
    ret tt.

Definition mmap_file_clear_pd (pd_phys : Z) : ST (mm M) unit :=
  for_loop (Z.to_nat MMAP_FILE_MAX_REGIONS) 0 (fun i =>
    e ← file_at i;
    if f_in_use e && (f_pd_phys e =? pd_phys) then clear_file i else ret tt).

(** The region found, [None] for NULL. *)
Definition mmap_file_lookup (pd_phys addr : Z) : ST (mm M) (option mmap_file_region) :=
  for_until (Z.to_nat MMAP_FILE_MAX_REGIONS) 0 (fun i =>
    e ← file_at i;
    if f_in_use e && (f_pd_phys e =? pd_phys) && (f_start e <=? addr) && (addr <? f_end e)
    then ret (Some e) else ret None).

(** ** process_mm.c *)

Definition map_user_pages (mem base size flags : Z) : ST (mm M) Z :=
  if mem =? 0 then ret (-1)
  else
    let start := Z.land base PAGE_FRAME_MASK in
    let end_ := Z.land (u32 (base + size + PAGE_SIZE_CONST - 1)) PAGE_FRAME_MASK in
    r ← range_loop (range_fuel start end_ PAGE_SIZE_CONST) start end_ PAGE_SIZE_CONST (fun addr =>
          frame ← frames_do (allocate_frame cpu);
          if frame =? NO_FRAME then ret (Some (-1))
          else
            zero_frame junk frame;;
            m ← get_mem mem;
            r ← map_page junk cpu (pm_directory m) addr frame flags;
            if r <? 0 then frames_do (free_frame cpu frame);; ret (Some (-1)) else ret None);
    ret (default 0 r).

(** The bytes a fresh [process_memory_t] holds. *)
Definition junk_region (a : Z) : mmap_region :=
  MmapRegion (junk a) (junk (a + 4)) (junk (a + 8)) (junk (a + 12)) (negb (junk (a + 16) =? 0)).
Definition junk_memory (p : Z) : process_memory :=
  ProcessMemory (junk p) (junk (p + 4)) (junk (p + 8))
    ((fun i => junk_region (p + 12 + 20 * i)) <$> seqZ 0 MAX_MMAP_REGIONS) (junk (p + 1292)).

(** [r.in_use = b]. *)
Definition set_in_use (b : bool) (r : mmap_region) : mmap_region :=
  MmapRegion (r_addr r) (r_len r) (r_prot r) (r_flags r) b.

(** [kfree(mem)]. *)
Definition free_mem (mem : Z) : ST (mm M) unit :=
  kfree_do mem;; modify (fun s => set_mems (delete mem (mems s)) s).

Definition create_process_memory : ST (mm M) Z :=
  mem ← kmalloc_do PROCESS_MEMORY_SIZE;
  if mem =? 0 then ret 0
  else
    put_mem mem (junk_memory mem);;
    dir ← create_page_directory junk cpu;
    m ← get_mem mem;
    put_mem mem (ProcessMemory dir (brk m) (stack_base m) (mmap_regions m) (mmap_next_addr m));;
    if dir =? 0 then free_mem mem;; ret 0
    else
      m ← get_mem mem;
      put_mem mem (ProcessMemory (pm_directory m) USER_CODE_BASE USER_STACK_BASE
                     (set_in_use false <$> mmap_regions m) USER_HEAP_BASE);;
      let stack_size := 32 * PAGE_SIZE_CONST in
      let stack_bottom := USER_STACK_BASE - stack_size in
      r ← map_user_pages mem stack_bottom stack_size (Z.lor (Z.lor PAGE_PRESENT PAGE_WRITABLE) PAGE_USER);
      if r <? 0 then
        m ← get_mem mem;
        destroy_page_directory junk cpu (pm_directory m);;
        free_mem mem;;
        ret 0
      else ret mem.

Definition purge_table (pt : Z) : ST (mm M) unit :=
  for_loop 1024 0 (fun j =>
    e ← vld junk (pt + 4 * j);
    if negb (Z.land e PAGE_PRESENT =? 0) then
      frames_do (frame_decref cpu (Z.land e PAGE_FRAME_MASK));;
      vst junk (pt + 4 * j) 0
    else ret tt).

Definition purge_dst_user_pages (dst : Z) : ST (mm M) unit :=
  m ← get_mem dst;
  d ← get_dir (pm_directory m);
  let dst_pd := physical_addr d in
  for_loop (Z.to_nat (USER_PDE_LAST - USER_PDE_FIRST)) USER_PDE_FIRST (fun i =>
    e ← vld junk (dst_pd + 4 * i);
    if Z.land e PAGE_PRESENT =? 0 then ret tt
    else
      let pt_phys := Z.land e PAGE_FRAME_MASK in
      if IDENTITY_MAP_END <=? pt_phys then ret tt
      else
        purge_table pt_phys;;
        frames_do (free_frame cpu pt_phys);;
        vst junk (dst_pd + 4 * i) 0;;
        m ← get_mem dst;
        set_table_entry (pm_directory m) i 0).

(** The page [j] of one table of the parent. *)
Definition cow_share_page (src_pt i dst j : Z) : ST (mm M) (option Z) :=
  e ← vld junk (src_pt + 4 * j);
  if Z.land e PAGE_PRESENT =? 0 then ret None
  else
    entry ← vld junk (src_pt + 4 * j);
    let frame := Z.land entry PAGE_FRAME_MASK in
    let flags0 := Z.land entry PAGE_MASK in
    let virt := Z.lor (Z.shiftl i 22) (Z.shiftl j 12) in
    flags ← (if negb (Z.land flags0 PAGE_WRITABLE =? 0) then
               let flags := Z.lor (Z.land flags0 (u32 (Z.lnot PAGE_WRITABLE))) PAGE_COW_BIT in
               vst junk (src_pt + 4 * j) (Z.lor frame flags);; ret flags
             else ret flags0);
    m ← get_mem dst;
    r ← map_page junk cpu (pm_directory m) virt frame flags;
    if r <? 0 then ret (Some (-1))
    else frames_do (frame_incref frame);; ret None.

Definition cow_share_table (src_pt i dst : Z) : ST (mm M) (option Z) :=
  for_until 1024 0 (cow_share_page src_pt i dst).

Definition cow_share_user_pages (src dst : Z) : ST (mm M) Z :=
  m ← get_mem src;
  d ← get_dir (pm_directory m);
  let src_pd := physical_addr d in
  r ← for_until (Z.to_nat (USER_PDE_LAST - USER_PDE_FIRST)) USER_PDE_FIRST (fun i =>
        e ← vld junk (src_pd + 4 * i);
        if Z.land e PAGE_PRESENT =? 0 then ret None
        else
          let src_pt_phys := Z.land e PAGE_FRAME_MASK in
          if IDENTITY_MAP_END <=? src_pt_phys then ret None
          else cow_share_table src_pt_phys i dst);
  ret (default 0 r).

Definition destroy_process_memory (mem : Z) : ST (mm M) unit :=
  if mem =? 0 then ret tt
  else
    m ← get_mem mem;
    (if negb (pm_directory m =? 0) then
       d ← get_dir (pm_directory m);
       mmap_file_clear_pd (physical_addr d);;
       destroy_page_directory junk cpu (pm_directory m)
     else ret tt);;
    free_mem mem.

Definition clone_process_memory (src : Z) : ST (mm M) Z :=
  if src =? 0 then ret 0
  else
    ms ← get_mem src;
    if pm_directory ms =? 0 then ret 0
    else
      dst ← create_process_memory;
      if dst =? 0 then ret 0
      else
        ms ← get_mem src;
        md ← get_mem dst;
        put_mem dst (ProcessMemory (pm_directory md) (brk ms) (stack_base ms) (mmap_regions ms) (mmap_next_addr ms));;
        purge_dst_user_pages dst;;
        r ← cow_share_user_pages src dst;
        if r <? 0 then destroy_process_memory dst;; ret 0 else ret dst.

End ProcessMm.
