(* ===== verification/ProcessMmProofs.v ===== *)
(** * Address spaces: creation and sharing

    What [create_process_memory] and [clone_process_memory] do to the user
    pages of every address space. *)

From stdpp Require Import base tactics numbers list gmap.
From S2P Require Import Prelude FrameAlloc FrameDecref Alloc Paging PagingProofs PagingOps PagingBoot PagingDestroy ProcessMm.

Section Spaces.
Context {M : Type} {KM : Kmalloc M} {KI : KernelImage}.
Variable junk : Z -> Z.
Variable cpu : Z.
Hypothesis Hcpu : 0 <= cpu < MAX_CPUS.
Implicit Types s : mm M.
Abbreviation word := (word junk).
Abbreviation pte := (pte junk).
Abbreviation mm_inv := (mm_inv junk).
Abbreviation slot := (slot junk).
Abbreviation has_table := (has_table junk).

(** ** Mapping a fresh frame *)

Lemma keeps_env s R s' R' : keeps junk s R s' R' -> same_env s s'.
Proof. intros []. by split_and!. Qed.

Lemma same_env_trans s1 s2 s3 : same_env s1 s2 -> same_env s2 s3 -> same_env s1 s3.
Proof.
  intros (Hs1 & ? & ? & ? & ?) (Hs2 & ? & ? & ? & ?). split; [|split_and!; congruence]. intros d. by rewrite (Hs2 d).
Qed.

Lemma same_data_trans s1 s2 s3 (R1 R2 : roles) :
  same_data junk s1 s2 R1 -> same_data junk s2 s3 R2 ->
  (forall f h ps, R1 !! f = Some (RPages h ps) -> exists h' ps', R2 !! f = Some (RPages h' ps')) -> same_data junk s1 s3 R1.
Proof.
  intros H1 H2 HR g h ps i Hg Hi. destruct (HR g h ps Hg) as (h' & ps' & Hg'). etrans; [by eapply H2|by eapply H1].
Qed.

Lemma frame_of_addr f : 0 <= f < 1048576 -> is_u32 (addr_of f) /\ frame_of (addr_of f) = addr_of f.
Proof.
  intros Hf. split; [unfold is_u32, addr_of, PAGE_SIZE_CONST; lia|].
  rewrite <- (Z.lor_0_r (addr_of f)) at 1. apply entry_frame; lia.
Qed.

Lemma map_held_ok s R f d dd virt flags :
  mm_inv s R -> R !! f = Some (RPages 1 ∅) -> dirs s !! d = Some dd -> user_vpn (virt / 4096) -> 0 <= flags < 4096 ->
  present flags = true -> present (pte s d (virt / 4096)) = false ->
  wp (map_page junk cpu d virt (addr_of f) flags)
    (fun r s' => exists R', mm_inv s' R' /\ same_env s s' /\ same_data junk s s' R /\ owned R' <= owned R + 1 /\
       ((r = -1 /\ exhausted R /\ R' = R /\ forall d' v, user_vpn v -> pte s' d' v = pte s d' v) \/
        (r = 0 /\ delete f R ⊆ R' /\ R' !! f = Some (RPages 0 {[(d, virt / 4096)]}) /\
         forall d' v, user_vpn v -> pte s' d' v =
           if decide (d' = d /\ v = virt / 4096) then Z.lor (addr_of f) flags else pte s d' v))) s.
Proof.
  intros Hs Hf Hd Hv Hfl Hpf Hnp. destruct (role_pool _ _ _ f _ Hs Hf) as [Hfb _].
  destruct (frame_of_addr f ltac:(lia)) as [Hu Ef].
  destruct (map_page_raw junk cpu Hcpu s R d dd virt (addr_of f) flags Hs Hd Hv Hu Hfl) as [Hx Hwp]. rewrite Ef in Hx, Hwp.
  eapply wp_mono; [exact Hwp|]. intros r s' (s2 & R2 & Hk & Hp2 & Ho & Hr). pose proof (kp_inv _ _ _ _ _ Hk) as Hs2.
  assert (owned R2 <= owned R + 1) as Ho2 by (specialize (Ho dd Hd); case_match; lia). clear Ho.
  destruct Hr as [(-> & Hex & -> & ->)|(-> & dd2 & Hd2 & Ht2 & ->)].
  - exists R. split; [done|]. split; [by eapply keeps_env|]. split; [apply Hk|]. split; [done|]. by left.
  - pose proof (lookup_weaken _ _ _ _ Hf (kp_roles _ _ _ _ _ Hk)) as Hf2.
    destruct (slot_put junk s2 R2 d dd2 _ _ Hs2 Hd2 Hv Ht2 Hx) as (_ & _ & Hda & Hpte).
    assert (mm_inv (put (slot s2 dd2 (virt / 4096)) (Z.lor (addr_of f) flags) s2) (<[f := RPages (1 - 1) ({[(d, virt / 4096)]} ∪ ∅)]> R2)) as Hs3.
    { eapply (new_pte junk); try done; [by rewrite Hp2|by rewrite entry_present|by apply entry_frame; [lia|]]. }
    rewrite (right_id_L ∅ (∪)) in Hs3. exists (<[f := RPages 0 {[(d, virt / 4096)]}]> R2).
    split; [done|]. split; [eapply same_env_trans; [by eapply keeps_env|]; done|]. split.
    + eapply same_data_trans; [apply Hk|exact Hda|]. intros g h ps Hg. exists h, ps. by eapply lookup_weaken; [|apply Hk].
    + split; [etrans; [apply Z.eq_le_incl|exact Ho2]; unfold owned; by rewrite map_size_insert, Hf2|].
      right. split; [done|]. split; [|split; [apply lookup_insert_eq|]].
      * apply map_subseteq_spec. intros g r [Hne Hg]%lookup_delete_Some. rewrite lookup_insert_ne by done.
        by eapply lookup_weaken; [|apply Hk].
      * intros d' v Hv'. rewrite Hpte by done. case_decide; [done|]. by apply Hp2.
Qed.

(** ** map_user_pages *)

Lemma get_mem_ok s mem m : mems s !! mem = Some m -> get_mem mem s = Ok (m, s).
Proof. intros H. unfold get_mem. run. unfold id. by rewrite H. Qed.

(** The first [n] pages from [v0] on map fresh zeroed frames; no other page changed. *)
Record pages_added s (R : roles) (d v0 n flags : Z) s' (R' : roles) : Prop := {
  pa_inv : mm_inv s' R';
  pa_env : same_env s s';
  pa_data : same_data junk s s' R;
  pa_roles : R ⊆ R';
  pa_owned : owned R' <= owned R + 2 * n;
  pa_others d' v : user_vpn v -> ~ (d' = d /\ v0 <= v < v0 + n) -> pte s' d' v = pte s d' v;
  pa_new v : v0 <= v < v0 + n -> exists f, R' !! f = Some (RPages 0 {[(d, v)]}) /\
    pte s' d v = Z.lor (addr_of f) flags /\ forall i, 0 <= i < 1024 -> word s' (addr_of f + 4 * i) = 0
}.

Lemma pages_added_nil s R d v0 flags : mm_inv s R -> pages_added s R d v0 0 flags s R.
Proof. intros Hs. constructor; try done; [lia|]. intros v Hv. lia. Qed.

(** Allocating and clearing a frame. *)
Lemma alloc_zero_ok s R :
  mm_inv s R ->
  exists r fa', frames_do (allocate_frame cpu) s = Ok (r, set_fa fa' s) /\
    ((r = NO_FRAME /\ exhausted R /\ mm_inv (set_fa fa' s) R) \/
     exists f, r = addr_of f /\ R !! f = None /\ (addr_of f =? NO_FRAME) = false /\
       wp (zero_frame junk (addr_of f)) (fun _ s2 => mm_inv s2 (<[f := RPages 1 ∅]> R) /\ same_env s s2 /\ same_data junk s s2 R /\
         (forall d v, user_vpn v -> pte s2 d v = pte s d v) /\ forall i, 0 <= i < 1024 -> word s2 (addr_of f + 4 * i) = 0) (set_fa fa' s)).
Proof.
  intros Hs. destruct (inv_alloc junk cpu Hcpu s R Hs) as (r & fa' & E & Hr). exists r, fa'. split; [done|].
  destruct Hr as [?|(f & -> & Hf & Hnone & Hs1)]; [by left|right]. exists f. split; [done|]. split; [done|].
  destruct (addr_of_not_none f) as [Hnn _]; [by apply pool_bounds|]. split; [by apply Z.eqb_neq|].
  eapply wp_mono; [eapply zero_frame_ok; [exact Hs1|apply lookup_insert_eq]|]. intros u s2 [Hs2 Hfl]. split; [done|].
  assert (forall g j, g <> f -> 0 <= j < 1024 -> word s2 (addr_of g + 4 * j) = word s (addr_of g + 4 * j)) as Hw.
  { intros g j Hg Hj. by eapply (filled_out _ _ _ _ _ _ _ Hfl). }
  split; [rewrite (fl_rest _ _ _ _ _ _ Hfl); done|]. split; [|split].
  - intros g h ps i Hg Hi. apply Hw; [congruence|done].
  - intros d v Hv. eapply (pte_same junk s); [done|exact (filled_spaces _ _ _ _ _ _ Hfl)| |done].
    intros g r i Hg _ Hi. apply Hw; [congruence|done].
  - intros i Hi. by apply (fl_in _ _ _ _ _ _ Hfl).
Qed.

(** One more page. *)
Lemma add_page_step s R mem m d v0 k flags s1 R1 :
  mems s !! mem = Some m -> pm_directory m = d -> pages_added s R d v0 k flags s1 R1 -> 0 <= k -> user_vpn v0 -> user_vpn (v0 + k) -> present (pte s d (v0 + k)) = false ->
  is_Some (dirs s !! d) -> 0 <= flags < 4096 -> present flags = true ->
  wp (frame ← frames_do (allocate_frame cpu);
      if frame =? NO_FRAME then ret (Some (-1))
      else
        zero_frame junk frame;;
        m ← get_mem mem;
        r ← map_page junk cpu (pm_directory m) (addr_of (v0 + k)) frame flags;
        if r <? 0 then frames_do (free_frame cpu frame);; ret (Some (-1)) else ret None)
    (fun r s' => match r with
       | Some x => x = -1 /\ 5248 <= owned R + 2 * k + 1 /\ exists R', pages_added s R d v0 k flags s' R'
       | None => exists R', pages_added s R d v0 (k + 1) flags s' R'
       end) s1.
Proof.
  intros Hm Em [Hs1 He1 Hd1 HR1 Hw1 Ho1 Hn1] Hk Hv0 Hv Hnp [dd0 Hd0] Hfl Hpf.
  destruct (alloc_zero_ok s1 R1 Hs1) as (r & fa' & E & Hr). eapply wp_bind_ok; [exact E|].
  destruct Hr as [(-> & Hex & Hs2)|(f & -> & Hnone & Hnf & Hz)].
  { rewrite Z.eqb_refl. apply wp_ret. split; [done|]. split; [unfold exhausted in Hex; lia|]. exists R1. constructor; try done. }
  rewrite Hnf. eapply wp_step; [exact Hz|]. clear Hz E. intros u s2 (Hs2 & He2 & Hd2 & Hp2 & Hz).
  pose proof (proj1 (same_env_trans _ _ _ He1 He2) d) as Hdd. rewrite Hd0 in Hdd. apply fmap_Some in Hdd as (dd2 & Hdd2 & _).
  assert (addr_of (v0 + k) / 4096 = v0 + k) as Ev by (unfold addr_of, PAGE_SIZE_CONST; by rewrite Z.div_mul).
  assert (present (pte s2 d (v0 + k)) = false) as Hnp2.
  { rewrite Hp2 by done. rewrite Ho1; [done|done|]. intros [_ ?]. lia. }
  eapply wp_bind_ok; [apply get_mem_ok; destruct He1 as (_ & He1 & _), He2 as (_ & He2 & _); rewrite He2, He1; exact Hm|]. rewrite Em.
  eapply wp_step; [eapply (map_held_ok s2 _ f d dd2); try done; rewrite ?Ev; try done; apply lookup_insert_eq|].
  intros r s3 (R3 & Hs3 & He3 & Hd3 & Hw3 & Hr3). rewrite Ev in Hr3. pose proof (owned_insert R1 f (RPages 1 ∅)) as Hwf.
  assert (same_env s s3) as He by (eapply same_env_trans; [done|]; by eapply same_env_trans).
  assert (same_data junk s1 s3 R1) as Hd13.
  { eapply same_data_trans; [exact Hd2|exact Hd3|]. intros g h ps Hg. exists h, ps. rewrite lookup_insert_ne by congruence. done. }
  assert (same_data junk s s3 R) as Hd.
  { eapply same_data_trans; [exact Hd1|exact Hd13|]. intros g h ps Hg. exists h, ps. by eapply lookup_weaken. }
  destruct Hr3 as [(-> & Hex & -> & Hp3)|(-> & HR3 & Hf3 & Hp3)]; cbn [Z.ltb Z.compare].
  - destruct (inv_free_owned junk cpu Hcpu s3 _ f _ Hs3 (lookup_insert_eq _ _ _)) as (fa4 & E4 & Hs4); [done|done|].
    rewrite delete_insert_id in Hs4 by done.
    eapply wp_bind_ok; [exact E4|]. apply wp_ret. split; [done|]. split; [unfold exhausted in Hex; lia|]. exists R1. constructor; try done.
    + intros d' v Hv' Hne. change (pte (set_fa fa4 s3) d' v) with (pte s3 d' v). rewrite Hp3, Hp2 by done. by apply Ho1.
    + intros v Hv'. destruct (Hn1 v Hv') as (g & Hg & Hgp & Hgz). exists g. split; [done|].
      change (pte (set_fa fa4 s3) d v) with (pte s3 d v). unfold user_vpn in Hv, Hv0. split.
      * rewrite Hp3, Hp2 by (unfold user_vpn; lia). done.
      * intros i Hi. rewrite <- (Hgz i Hi). by eapply (Hd13 g).
  - apply wp_ret. exists R3. assert (R1 ⊆ R3) as HR13.
    { etrans; [|exact HR3]. apply map_subseteq_spec. intros g x Hg. rewrite lookup_delete_ne, lookup_insert_ne by congruence. done. }
    constructor; try done.
    + by etrans.
    + lia.
    + intros d' v Hv' Hne. rewrite Hp3, decide_False, Hp2 by (done || intros [-> ->]; apply Hne; lia).
      apply Ho1; [done|]. intros [-> ?]. apply Hne. lia.
    + intros v Hv'. destruct (decide (v = v0 + k)) as [->|Hvk].
      * exists f. split; [done|]. rewrite Hp3, decide_True by done. split; [done|]. intros i Hi. rewrite <- (Hz i Hi).
        eapply (Hd3 f); [apply lookup_insert_eq|done].
      * destruct (Hn1 v ltac:(lia)) as (g & Hg & Hgp & Hgz). exists g. split; [by eapply lookup_weaken|]. unfold user_vpn in Hv, Hv0. split.
        -- rewrite Hp3 by (unfold user_vpn; lia). rewrite decide_False by lia. rewrite Hp2 by (unfold user_vpn; lia). done.
        -- intros i Hi. rewrite <- (Hgz i Hi). by eapply (Hd13 g).
Qed.

Lemma map_user_pages_ok s R mem m v0 n flags :
  mm_inv s R -> mem <> 0 -> mems s !! mem = Some m -> is_Some (dirs s !! pm_directory m) ->
  user_vpn v0 -> 0 <= n -> v0 + n <= 786432 -> 0 <= flags < 4096 -> present flags = true ->
  (forall v, v0 <= v < v0 + n -> present (pte s (pm_directory m) v) = false) ->
  wp (map_user_pages junk cpu mem (addr_of v0) (n * PAGE_SIZE_CONST) flags)
    (fun r s' => (r = 0 /\ exists R', pages_added s R (pm_directory m) v0 n flags s' R') \/
       (r = -1 /\ 5248 <= owned R + 2 * n /\ exists k R', 0 <= k <= n /\ pages_added s R (pm_directory m) v0 k flags s' R')) s.
Proof.
  intros Hs Hmem Hm Hd Hv0 Hn Hvn Hfl Hpf Hnp. unfold map_user_pages. rewrite (proj2 (Z.eqb_neq _ _) Hmem). unfold user_vpn in Hv0.
  destruct (frame_of_addr v0 ltac:(lia)) as [_ E0]. change (Z.land (addr_of v0) PAGE_FRAME_MASK) with (frame_of (addr_of v0)). rewrite E0.
  assert (Z.land (u32 (addr_of v0 + n * PAGE_SIZE_CONST + PAGE_SIZE_CONST - 1)) PAGE_FRAME_MASK = addr_of v0 + n * PAGE_SIZE_CONST) as ->.
  { assert (is_u32 (addr_of v0 + n * PAGE_SIZE_CONST + PAGE_SIZE_CONST - 1)) as Hu by (unfold is_u32, addr_of, PAGE_SIZE_CONST; lia).
    rewrite u32_id by done. change (frame_of (addr_of v0 + n * PAGE_SIZE_CONST + PAGE_SIZE_CONST - 1) = addr_of v0 + n * PAGE_SIZE_CONST).
    rewrite frame_of_div by done. transitivity (addr_of (v0 + n)); [|unfold addr_of; lia]. f_equal. symmetry.
    apply (Z.div_unique _ _ _ 4095); unfold addr_of, PAGE_SIZE_CONST; lia. }
  cbv zeta. eapply wp_step; [apply (range_loop_wp (fun k s' => exists R', pages_added s R (pm_directory m) v0 k flags s' R')
    (fun x s' => x = -1 /\ 5248 <= owned R + 2 * n /\ exists k R', 0 <= k <= n /\ pages_added s R (pm_directory m) v0 k flags s' R')); try done|].
  - unfold addr_of, PAGE_SIZE_CONST. lia.
  - unfold addr_of, PAGE_SIZE_CONST. lia.
  - exists R. by apply pages_added_nil.
  - intros k s1 Hk (R1 & H1). replace (addr_of v0 + k * PAGE_SIZE_CONST) with (addr_of (v0 + k)) by (unfold addr_of; lia).
    eapply wp_mono; [eapply (add_page_step s R mem m); try done; [lia|unfold user_vpn; lia|apply Hnp; lia]|].
    intros [x|] s2; [|done]. intros (-> & Hw & R2 & H2). split; [done|]. split; [lia|]. exists k, R2. split; [lia|done].
  - intros [x|] s2 H2; cbv beta iota in H2; apply wp_ret; [right|left]; [|done]. by destruct H2 as [-> ?].
Qed.

(** ** create_process_memory *)

Definition STACK_VPN := 524256.

(** The two allocations of [create_process_memory] cannot both succeed. *)
Definition no_heap (m : M) : Prop :=
  heap_full m PROCESS_MEMORY_SIZE \/
  exists p m', kmalloc PROCESS_MEMORY_SIZE m = Ok (p, m') /\ heap_full m' PAGE_DIRECTORY_SIZE.

(** The address space [d] of the new object [mem] has a zeroed stack and no other page. *)
Record new_space s (R : roles) (mem d : Z) s' (R' : roles) (L' : gmap Z Z) : Prop := {
  ns_inv : mm_inv s' R';
  ns_heap : heap_inv s' L';
  ns_roles : R ⊆ R';
  ns_owned : owned R' <= owned R + 65;
  ns_data : same_data junk s s' R;
  ns_mem : mem <> 0 /\ mems s !! mem = None;
  ns_mems : exists rs, length rs = 64%nat /\ Forall (fun r => r_in_use r = false) rs /\
    mems s' = <[mem := ProcessMemory d USER_CODE_BASE USER_STACK_BASE rs USER_HEAP_BASE]> (mems s);
  ns_dir : d <> 0 /\ dirs s !! d = None /\ is_Some (dirs s' !! d);
  ns_dirs d' : d' <> d -> physical_addr <$> dirs s' !! d' = physical_addr <$> dirs s !! d';
  ns_others d' v : d' <> d -> user_vpn v -> pte s' d' v = pte s d' v;
  ns_empty v : user_vpn v -> ~ (STACK_VPN <= v < STACK_VPN + 32) -> pte s' d v = 0;
  ns_stack v : STACK_VPN <= v < STACK_VPN + 32 -> exists f, R' !! f = Some (RPages 0 {[(d, v)]}) /\
    pte s' d v = Z.lor (addr_of f) 7 /\ forall i, 0 <= i < 1024 -> word s' (addr_of f + 4 * i) = 0;
  ns_rest : mmap_file_table s' = mmap_file_table s /\ cr3 s' = cr3 s
}.

Lemma heap_env s s' L : heap_inv s L -> same_env s s' -> heap_inv s' L.
Proof.
  intros [Hr Hd Hm] (Hsp & Em & _ & Eh & _). constructor; [by rewrite Eh| |intros q; rewrite Em; apply Hm].
  intros q Hq. apply Hd. specialize (Hsp q). destruct (dirs s' !! q); [|by destruct Hq]. destruct (dirs s !! q); [by eexists|done].
Qed.

Lemma inv_mems s R m : mm_inv s R -> mm_inv (set_mems m s) R.
Proof. intros Hs. split; [constructor; apply Hs|]. by apply (pages_same junk s); [|apply Hs]. Qed.

Lemma free_mem_total s L mem n : km_rep (mheap s) L -> L !! mem = Some n -> exists s', free_mem mem s = Ok (tt, s').
Proof.
  intros Hr Hm. destruct (kfree_spec _ _ mem n Hr Hm) as (m' & E & _). unfold free_mem, kfree_do, zoom, bind. rewrite E. by eexists.
Qed.

Lemma put_mem_ok s mem m : put_mem mem m s = Ok (tt, set_mems (<[mem := m]> (mems s)) s).
Proof. done. Qed.

(** The heap invariant after the object [mem] was stored in a block of its size. *)
Lemma heap_put_mem s L mem m :
  heap_inv s L -> L !! mem = Some PROCESS_MEMORY_SIZE -> heap_inv (set_mems (<[mem := m]> (mems s)) s) L.
Proof.
  intros [Hr Hd Hm] HL. constructor; [done|done|]. intros p. cbn [mems set_mems]. intros [x Hx].
  apply lookup_insert_Some in Hx as [[<- _]|[_ Hx]]; [done|]. apply Hm. eauto.
Qed.

Lemma create_process_memory_ok s R L :
  mm_inv s R -> heap_inv s L ->
  wp (create_process_memory junk cpu) (fun mem s' => (mem = 0 /\ (no_heap (mheap s) \/ 5248 <= owned R + 65)) \/ exists d R' L', new_space s R mem d s' R' L') s.
Proof.
  intros Hs Hh. unfold create_process_memory.
  destruct (kmalloc_do_ok s L PROCESS_MEMORY_SIZE Hh ltac:(done)) as (mem & m1 & Ek & E & Hmem). eapply wp_bind_ok; [exact E|].
  destruct Hmem as [[-> _]|(Hm0 & Hfresh & Hrep)]; [apply wp_ret; left; split; [done|]; do 2 left; by exists m1|]. rewrite (proj2 (Z.eqb_neq _ _) Hm0).
  assert (mems s !! mem = None) as Hmn.
  { destruct (mems s !! mem) eqn:Em; [|done]. rewrite (hi_mems _ _ Hh) in Hfresh by eauto. done. }
  assert (dirs s !! mem = None) as Hdn.
  { destruct (dirs s !! mem) eqn:Em; [|done]. rewrite (hi_dirs _ _ Hh) in Hfresh by eauto. done. }
  eapply wp_bind_ok; [apply put_mem_ok|]. set (s1 := set_mems _ _). set (L1 := <[mem := PROCESS_MEMORY_SIZE]> L) in *.
  assert (mm_inv s1 R) as Hs1 by (apply inv_mems; by apply inv_heap).
  assert (heap_inv s1 L1) as Hh1.
  { apply heap_put_mem; [|apply lookup_insert_eq]. constructor; [done|..]; intros k Hk; unfold L1; rewrite lookup_insert_ne.
    - by apply (hi_dirs _ _ Hh). - intros <-. cbn [dirs set_mheap] in Hk. rewrite Hdn in Hk. by destruct Hk.
    - by apply (hi_mems _ _ Hh). - intros <-. cbn [mems set_mheap] in Hk. rewrite Hmn in Hk. by destruct Hk. }
  eapply wp_step; [by eapply create_page_directory_ok|]. intros d s2 (R2 & L2 & Had & Hh2 & HL2).
  destruct Had as [Hs2 HR2 Hd2 Hp2 Hds Hw2 (Hm2 & Hf2 & Hc2)].
  assert (mems s2 !! mem = Some (junk_memory junk mem)) as Hmm by (rewrite Hm2; apply lookup_insert_eq).
  assert (L2 !! mem = Some PROCESS_MEMORY_SIZE) as HLm by (eapply lookup_weaken; [apply lookup_insert_eq|exact HL2]).
  eapply wp_bind_ok; [by apply get_mem_ok|]. eapply wp_bind_ok; [apply put_mem_ok|].
  destruct Hds as [(-> & _ & Hroom)|(Hd0 & Hdnew & dd & Hds)].
  { rewrite Z.eqb_refl. destruct (free_mem_total (set_mems (<[mem := ProcessMemory 0 (brk (junk_memory junk mem)) (stack_base (junk_memory junk mem))
      (mmap_regions (junk_memory junk mem)) (mmap_next_addr (junk_memory junk mem))]> (mems s2)) s2) L2 mem _ (hi_rep _ _ Hh2) HLm) as (s3 & E3).
    eapply wp_bind_ok; [exact E3|]. apply wp_ret. left. split; [done|]. destruct Hroom as [?|Hex]; [left; right|right; unfold exhausted in Hex; lia].
    by exists mem, m1. }
  rewrite (proj2 (Z.eqb_neq _ _) Hd0). eapply wp_bind_ok; [apply get_mem_ok, lookup_insert_eq|]. cbn [pm_directory brk mmap_regions].
  eapply wp_bind_ok; [apply put_mem_ok|]. set (s3 := set_mems _ _). set (rs := set_in_use false <$> _) in s3.
  set (pm := ProcessMemory d USER_CODE_BASE USER_STACK_BASE rs USER_HEAP_BASE) in s3.
  assert (mems s3 = <[mem := pm]> (mems s)) as Hm3.
  { unfold s3. cbn [mems set_mems]. rewrite insert_insert_eq, Hm2. unfold s1. cbn [mems set_mems set_mheap]. by rewrite insert_insert_eq. }
  assert (mm_inv s3 R2) as Hs3 by (apply inv_mems; by apply inv_mems).
  assert (heap_inv s3 L2) as Hh3 by (apply heap_put_mem; [by apply heap_put_mem|done]).
  assert (mems s3 !! mem = Some pm) as Hpm by (rewrite Hm3; apply lookup_insert_eq).
  assert (dirs s3 !! d = Some dd) as Hdd by (unfold s3; cbn [dirs set_mems]; rewrite Hds; apply lookup_insert_eq).
  assert (forall v, user_vpn v -> pte s3 d v = 0) as Hp0.
  { intros v Hv. change (pte s3 d v) with (pte s2 d v). rewrite Hp2 by done. unfold PagingProofs.pte. by rewrite Hdnew. }
  change (Z.lor (Z.lor PAGE_PRESENT PAGE_WRITABLE) PAGE_USER) with 7. change (USER_STACK_BASE - 32 * PAGE_SIZE_CONST) with (addr_of STACK_VPN).
  eapply wp_step; [eapply (map_user_pages_ok s3 R2 mem pm STACK_VPN 32 7); try done|].
  { intros v Hv. rewrite Hp0; [done|]. unfold STACK_VPN in Hv. unfold user_vpn. lia. }
  intros r s4 [(-> & R4 & H4)|(-> & Hwx & k & R4 & Hk & H4)]; cbn [Z.ltb Z.compare].
  - apply wp_ret. right. destruct H4 as [Hs4 He4 Hd4 HR4 Hw4 Ho4 Hn4]. pose proof He4 as (Hsp4 & Hm4 & Hf4 & Hh4 & Hc4).
    assert (same_data junk s s4 R) as Hdata.
    { eapply same_data_trans; [exact Hd2|exact Hd4|]. intros g h ps Hg. exists h, ps. by eapply lookup_weaken. }
    exists d, R4, L2. constructor; try done.
    + by eapply heap_env.
    + by etrans.
    + lia.
    + exists rs. split; [unfold rs; rewrite length_fmap; unfold junk_memory; cbn [mmap_regions]; by rewrite length_fmap, length_seqZ|]. split; [|by rewrite Hm4, Hm3].
      unfold rs. apply Forall_fmap, Forall_true. done.
    + split; [done|]. split; [done|]. specialize (Hsp4 d). rewrite Hdd in Hsp4. destruct (dirs s4 !! d); [by eexists|done].
    + intros d' Hne. rewrite (Hsp4 d'). unfold s3. cbn [dirs set_mems]. by rewrite Hds, lookup_insert_ne.
    + intros d' v Hne Hv. rewrite Ho4 by (done || intros [? _]; done). change (pte s3 d' v) with (pte s2 d' v). by apply Hp2.
    + intros v Hv Hn. rewrite Ho4; [by apply Hp0|done|]. intros [_ ?]. by apply Hn.
    + split; [by rewrite Hf4|by rewrite Hc4].
  - pose proof H4 as [Hs4 (Hsp4 & Hm4 & _ & Hh4 & _) _ _ _ _ _]. eapply wp_bind_ok; [apply get_mem_ok; rewrite Hm4; exact Hpm|]. cbn [pm_directory pm].
    pose proof (Hsp4 d) as Hd4. rewrite Hdd in Hd4. apply fmap_Some in Hd4 as (dd4 & Hd4 & _).
    eapply wp_step; [eapply (destroy_page_directory_ok junk cpu Hcpu s4 R4 L2); [done|by eapply heap_env; [|apply H4]|done]|].
    intros u s5 [(q & m' & -> & _ & Hr5) _ _]. destruct (free_mem_total (set_dirs (delete d (dirs s4)) (set_mheap m' (set_fa q s4))) (delete d L2) mem PROCESS_MEMORY_SIZE) as (s6 & E6); [done| |].
    { rewrite lookup_delete_ne; [done|]. intros ->. rewrite (hi_dirs _ _ Hh3) in HLm by eauto. done. }
    eapply wp_bind_ok; [exact E6|]. apply wp_ret. left. split; [done|]. right. lia.
Qed.

End Spaces.
