(* ===== verification/ProcessMmPurge.v ===== *)
(** * Emptying an address space

    [purge_dst_user_pages] removes every user page and page table of an address
    space, drops their references and touches no other page. *)

From stdpp Require Import base tactics numbers list gmap.
From S2P Require Import Prelude FrameAlloc Alloc Paging PagingProofs PagingOps PagingBoot ProcessMm ProcessMmProofs.

Section Purge.
Context {M : Type} {KI : KernelImage}.
Variable junk : Z -> Z.
Variable cpu : Z.
Hypothesis Hcpu : 0 <= cpu < MAX_CPUS.
Implicit Types s : mm M.
Abbreviation word := (word junk).
Abbreviation pte := (pte junk).
Abbreviation mm_inv := (mm_inv junk).
Abbreviation slot := (slot junk).
Abbreviation has_table := (has_table junk).

(** Owners only lose references, and tables only disappear. *)
Definition roles_shrink (R R' : roles) : Prop :=
  forall g r', R' !! g = Some r' -> exists r, R !! g = Some r /\ role_count r' <= role_count r /\
    match r', r with
    | RPages _ ps', RPages _ ps => ps' ⊆ ps
    | RPages _ _, _ | _, RPages _ _ => False
    | _, _ => r' = r
    end.

Lemma roles_shrink_refl R : roles_shrink R R.
Proof. intros g r Hg. exists r. split; [done|]. split; [done|]. by destruct r. Qed.

Lemma roles_shrink_trans R1 R2 R3 : roles_shrink R1 R2 -> roles_shrink R2 R3 -> roles_shrink R1 R3.
Proof.
  intros H12 H23 g r3 Hg3. destruct (H23 g r3 Hg3) as (r2 & Hg2 & Hc2 & Hm2). destruct (H12 g r2 Hg2) as (r1 & Hg1 & Hc1 & Hm1).
  exists r1. split; [done|]. split; [lia|]. destruct r3, r2, r1; try done; try (by rewrite Hm2); set_solver.
Qed.

(** No word outside the page tables and directories changed. *)
Definition same_rest s s' (R : roles) : Prop :=
  forall g i, 0 <= i < 1024 -> (forall r, R !! g = Some r -> exists h ps, r = RPages h ps) ->
    word s' (addr_of g + 4 * i) = word s (addr_of g + 4 * i).

Lemma same_rest_data s s' R : same_rest s s' R -> same_data junk s s' R.
Proof. intros H g h ps i Hg Hi. apply H; [done|]. intros r Hr. rewrite Hg in Hr. injection Hr as <-. eauto. Qed.

Lemma same_rest_trans s1 s2 s3 (R1 R2 : roles) :
  same_rest s1 s2 R1 -> roles_shrink R1 R2 -> same_rest s2 s3 R2 -> same_rest s1 s3 R1.
Proof.
  intros H1 HR H2 g i Hi Hg. rewrite H2; [by apply H1|done|]. intros r Hr. destruct (HR g r Hr) as (r1 & Hg1 & _ & Hm).
  destruct (Hg _ Hg1) as (h & ps & ->). destruct r; try done. eauto.
Qed.

Record purged s (R : roles) s' (R' : roles) : Prop := {
  pu_inv : mm_inv s' R';
  pu_env : same_env s s';
  pu_data : same_rest s s' R;
  pu_roles : roles_shrink R R'
}.

Lemma purged_refl s R : mm_inv s R -> purged s R s R.
Proof. intros Hs. constructor; try done. apply roles_shrink_refl. Qed.

(** ** One page *)

Lemma drop_page_ok s R d dd v :
  mm_inv s R -> dirs s !! d = Some dd -> user_vpn v -> has_table s dd v -> present (pte s d v) = true ->
  wp (frames_do (frame_decref cpu (frame_of (pte s d v)));; vst junk (slot s dd v) 0)
    (fun _ s' => exists R', mm_inv s' R' /\ roles_shrink R R' /\ (exists q, s' = set_fa q (put (slot s dd v) 0 s)) /\
       forall d' v', user_vpn v' -> pte s' d' v' = if decide (d' = d /\ v' = v) then 0 else pte s d' v') s.
Proof.
  intros Hs Hd Hv Ht Hp. destruct (inv_pte junk s R d v Hs Hv Hp) as (f & h & ps & Ef & Hf & Hin). rewrite Ef.
  destruct (slot_put junk s R d dd v 0 Hs Hd Hv Ht ltac:(done)) as (Est & _ & _ & Hpte).
  pose proof (clear_pte junk s R d dd v 0 f h ps Hs Hd Hv Ht ltac:(done) ltac:(done) (conj Hp Ef) Hf) as Hs1.
  pose proof (mi_held _ _ _ Hs _ _ _ Hf).
  destruct (inv_decref junk cpu Hcpu _ _ f (h + 1) (ps ∖ {[(d, v)]}) Hs1 (lookup_insert_eq _ _ _) ltac:(lia)) as (q & Eq & Hs2).
  apply frames_do_inv in Eq. eapply wp_bind_ok; [apply frames_do_ok; exact Eq|].
  destruct (slot_ok junk s R d dd v Hs Hd Hv Ht) as (Hb & _).
  assert (vst junk (slot s dd v) 0 (set_fa q s) = Ok (tt, put (slot s dd v) 0 (set_fa q s))) as Est'.
  { unfold vst. by rewrite (bind_ok _ _ _ _ _ (walk_same junk s (set_fa q s) _ _ eq_refl eq_refl (walk_ident junk s R _ Hs Hb))). }
  eapply wp_ok; [exact Est'|]. eexists. split; [exact Hs2|]. split; [|split; [by exists q|exact Hpte]].
  assert (size (ps ∖ {[(d, v)]}) = size ps - 1)%nat as Esz by (rewrite size_difference, size_singleton by set_solver; done).
  assert (size ps <> 0)%nat by (intros E%size_empty_inv; set_solver).
  intros g r' Hg. unfold drop_held in Hg. destruct (decide (g = f)) as [->|Hne].
  - destruct (_ =? 1); [by rewrite lookup_delete_eq in Hg|]. rewrite lookup_insert_eq in Hg. injection Hg as <-.
    exists (RPages h ps). split; [done|]. cbn [role_count]. split; [lia|set_solver].
  - exists r'. destruct (_ =? 1); [rewrite lookup_delete_ne in Hg by done|rewrite lookup_insert_ne in Hg by done];
      rewrite lookup_insert_ne in Hg by done; (split; [done|]); (split; [done|]); by destruct r'.
Qed.

(** The first [n] pages from [v0] on are gone from [d]; no other page changed. *)
Record pages_removed s (R : roles) (d v0 n : Z) s' (R' : roles) : Prop := {
  pr_purged : purged s R s' R';
  pr_others d' v : user_vpn v -> ~ (d' = d /\ v0 <= v < v0 + n) -> pte s' d' v = pte s d' v;
  pr_gone v : v0 <= v < v0 + n -> present (pte s' d v) = false
}.

(** ** One table *)

Lemma purge_table_ok s R d dd i :
  mm_inv s R -> dirs s !! d = Some dd -> user_pde i -> present (word s (physical_addr dd + 4 * i)) = true ->
  wp (purge_table junk cpu (frame_of (word s (physical_addr dd + 4 * i))))
    (fun _ s' => exists R', pages_removed s R d (i * 1024) 1024 s' R' /\ dirs s' = dirs s /\
       word s' (physical_addr dd + 4 * i) = word s (physical_addr dd + 4 * i)) s.
Proof.
  intros Hs Hd Hi Hp. pose proof Hi as Hib. rewrite user_pde_bounds in Hib. unfold purge_table.
  apply (for_loop_wp (fun j s' => exists R', pages_removed s R d (i * 1024) j s' R' /\ dirs s' = dirs s /\
    word s' (physical_addr dd + 4 * i) = word s (physical_addr dd + 4 * i))).
  { exists R. split; [|done]. constructor; [by apply purged_refl|done|lia]. }
  intros j s1 Hj (R1 & [[Hs1 He1 Hd1 HR1] Ho1 Hg1] & Ed & Ew). change (0 + Z.of_nat 1024) with 1024 in Hj.
  destruct (vpn_join i j Hi Hj) as (Hv & E1 & E2). rewrite <- Ew. rewrite <- Ed in Hd.
  assert (has_table s1 dd (i * 1024 + j)) as Ht by (unfold PagingOps.has_table; by rewrite E1, Ew).
  assert (frame_of (word s1 (physical_addr dd + 4 * i)) + 4 * j = slot s1 dd (i * 1024 + j)) as Es by (unfold PagingOps.slot; by rewrite E1, E2).
  destruct (slot_ok junk s1 R1 d dd _ Hs1 Hd Hv Ht) as (Hb & Ewd & _ & t & Et & HRt). rewrite Es.
  eapply wp_bind_ok; [by eapply vld_ok|]. rewrite Ewd, land_present, negb_involutive. fold (frame_of (pte s1 d (i * 1024 + j))).
  destruct (present (pte s1 d (i * 1024 + j))) eqn:Hpe.
  - eapply wp_mono; [by eapply drop_page_ok|]. intros u s2 (R2 & Hs2 & HR2 & (q & ->) & Hp2). exists R2.
    assert (same_rest s1 (put (slot s1 dd (i * 1024 + j)) 0 s1) R1) as Hw.
    { intros g k Hk Hg. rewrite Et. apply put_frame_ne; [by apply Z.mod_pos_bound|done|]. intros <-.
      destruct (Hg _ HRt) as (? & ? & ?). done. }
    split; [constructor; [constructor; [done| | |]| |]|split].
    + exact He1.
    + eapply same_rest_trans; [exact Hd1|exact HR1|exact Hw].
    + by eapply roles_shrink_trans.
    + intros d' v' Hv' Hne. rewrite Hp2, decide_False by (done || intros [-> ->]; apply Hne; lia). apply Ho1; [done|]. intros [-> ?]. apply Hne. lia.
    + intros v' Hv'. destruct (decide (v' = i * 1024 + j)) as [->|Hne]; [by rewrite Hp2, decide_True|].
      rewrite Hp2 by (unfold user_vpn; lia). rewrite decide_False by (intros [_ ?]; done). apply Hg1. lia.
    + done.
    + change (word (set_fa q ?x)) with (word x). destruct (mi_dir _ _ _ Hs1 d dd Hd) as (_ & _ & g & Eg & HRg).
      rewrite Eg, Et. apply put_frame_ne; [by apply Z.mod_pos_bound|lia|congruence].
  - apply wp_ret. exists R1. split; [constructor; [done| |]|done].
    + intros d' v' Hv' Hne. apply Ho1; [done|]. intros [-> ?]. apply Hne. lia.
    + intros v' Hv'. destruct (decide (v' = i * 1024 + j)) as [->|Hne]; [done|]. apply Hg1. lia.
Qed.

(** Removing an empty table from its directory, and freeing it. *)
Lemma drop_empty_table s R d dd i t :
  mm_inv s R -> dirs s !! d = Some dd -> user_pde i -> present (word s (physical_addr dd + 4 * i)) = true ->
  frame_of (word s (physical_addr dd + 4 * i)) = addr_of t ->
  (forall v, i * 1024 <= v < i * 1024 + 1024 -> present (pte s d v) = false) ->
  wp (frames_do (free_frame cpu (addr_of t));; vst junk (physical_addr dd + 4 * i) 0)
    (fun _ s' => exists q, s' = set_fa q (put (physical_addr dd + 4 * i) 0 s) /\ mm_inv s' (delete t R) /\
       forall d' v, user_vpn v -> pte s' d' v = if decide (d' = d /\ i * 1024 <= v < i * 1024 + 1024) then 0 else pte s d' v) s.
Proof.
  intros Hs Hd Hi Hp Et Hempty. pose proof Hi as Hib. rewrite user_pde_bounds in Hib.
  destruct (mi_dir _ _ _ Hs d dd Hd) as (_ & _ & g & Eg & HRg). set (s1 := put (physical_addr dd + 4 * i) 0 s).
  assert (forall d' v, user_vpn v -> pte s1 d' v = if decide (d' = d /\ i * 1024 <= v < i * 1024 + 1024) then 0 else pte s d' v) as Hp1.
  { intros d' v Hv. unfold s1. rewrite (pte_put_dir junk s R d dd i 0 d' v Hs Hd Hi Hv). change (present 0) with false.
    destruct (vpn_split v Hv) as (_ & Hj & Ev). repeat case_decide; try done; [destruct H as [-> ?]; exfalso; apply H0; lia|].
    destruct H0 as [-> ?]. exfalso. apply H. split; [done|]. lia. }
  assert (mm_inv s1 R) as Hs1.
  { split; [unfold s1; rewrite Eg; eapply core_put; [apply Hs|done|lia|done|]; split; [lia|done]|]. constructor.
    - intros d' v Hv. rewrite Hp1 by done. case_decide; [apply page_ok_0|by apply (inv_pte junk s R)].
    - intros f h ps d' v Hf Hin. destruct (pg_owner _ _ _ (mi_pages _ _ _ Hs) f h ps d' v Hf Hin) as [Hv [Hm1 Hm2]]. split; [done|].
      unfold maps. rewrite Hp1 by done. case_decide as E; [|done]. destruct E as [-> Hvr]. rewrite Hempty in Hm1 by lia. done. }
  destruct (mi_tab _ _ _ Hs d dd i Hd Hi Hp) as (t' & Et' & HRt). rewrite Et in Et'. apply addr_of_inj in Et' as <-.
  destruct (inv_free_owned junk cpu Hcpu s1 R t (RTab d i) Hs1 HRt) as (q & Eq & Hs2).
  { intros dd' Hd'. change (dirs s1) with (dirs s) in Hd'. rewrite Hd in Hd'. injection Hd' as <-. unfold s1. by rewrite word_put_eq. }
  { done. }
  apply frames_do_inv in Eq. eapply wp_bind_ok; [apply frames_do_ok; exact Eq|]. eapply wp_ok.
  { unfold vst. rewrite (bind_ok _ _ _ _ _ (walk_same junk s (set_fa q s) _ _ eq_refl eq_refl
      (walk_ident junk s R _ Hs (dir_word junk s R d dd i Hs Hd ltac:(lia))))). reflexivity. }
  exists q. split; [done|]. split; [exact Hs2|exact Hp1].
Qed.

(** ** The address space *)

Lemma tables_env s s' : tables_only s s' -> same_env s s'.
Proof. intros H. pose proof (tables_only_spaces s s' H). destruct H as (D & -> & _). by split_and!. Qed.

Lemma roles_shrink_delete R t : roles_shrink R (delete t R).
Proof. intros g r [_ Hg]%lookup_delete_Some. by apply roles_shrink_refl. Qed.

(** One entry of the directory. *)
Lemma purge_entry_ok s R dst m dd i :
  mm_inv s R -> mems s !! dst = Some m -> dirs s !! pm_directory m = Some dd -> user_pde i ->
  present (word s (physical_addr dd + 4 * i)) = true ->
  let pt := frame_of (word s (physical_addr dd + 4 * i)) in
  wp (purge_table junk cpu pt;;
      frames_do (free_frame cpu pt);;
      vst junk (physical_addr dd + 4 * i) 0;;
      m ← get_mem dst;
      set_table_entry (pm_directory m) i 0)
    (fun _ s' => exists R', pages_removed s R (pm_directory m) (i * 1024) 1024 s' R') s.
Proof.
  intros Hs Hm Hd Hi Hp pt. pose proof Hi as Hib. rewrite user_pde_bounds in Hib.
  eapply wp_step; [by eapply purge_table_ok|]. intros u s1 (R1 & [[Hs1 He1 Hd1 HR1] Ho1 Hg1] & Ed & Ew). rewrite <- Ed in Hd.
  destruct (mi_tab _ _ _ Hs1 _ dd i Hd Hi) as (t & Et & HRt); [by rewrite Ew|]. unfold pt. rewrite <- Ew, Et.
  pose proof (drop_empty_table s1 R1 (pm_directory m) dd i t Hs1 Hd Hi ltac:(by rewrite Ew) Et Hg1) as Hdrop. rewrite wp_bind in Hdrop.
  apply wp_bind. eapply wp_mono; [exact Hdrop|]. clear Hdrop. intros u1 s1' Hdrop. cbv beta in Hdrop. apply wp_bind.
  eapply wp_mono; [exact Hdrop|]. clear Hdrop. intros u2 s2 (q & E2 & Hs2 & Hp2).
  assert (mems s2 !! dst = Some m) as Hm2 by (rewrite E2; destruct He1 as (_ & He1 & _); cbn [mems set_fa put set_words]; by rewrite He1).
  eapply wp_bind_ok; [by apply get_mem_ok|]. assert (dirs s2 !! pm_directory m = Some dd) as Hd2 by (by rewrite E2).
  destruct (set_table_entry_ok junk s2 _ (pm_directory m) dd i 0 Hs2 Hd2 ltac:(lia)) as (s3 & E3 & Ht3).
  eapply wp_ok; [exact E3|]. exists (delete t R1). destruct (mi_dir _ _ _ Hs1 _ dd Hd) as (_ & _ & g & Eg & HRg).
  constructor; [constructor| |].
  - by eapply tables_only_inv.
  - eapply same_env_trans; [exact He1|]. eapply same_env_trans; [|by apply tables_env]. rewrite E2. done.
  - eapply same_rest_trans; [exact Hd1|exact HR1|]. intros k j Hj Hk. destruct Ht3 as (D & -> & _).
    change (word (set_dirs D s2)) with (word s2). rewrite E2. change (word (set_fa q ?x)) with (word x). rewrite Eg.
    apply put_frame_ne; [lia|done|]. intros <-. destruct (Hk _ HRg) as (? & ? & ?). done.
  - eapply roles_shrink_trans; [exact HR1|apply roles_shrink_delete].
  - intros d' v Hv Hne. rewrite (pte_tables junk s2 _ s3 d' v Hs2 Ht3 Hv), Hp2, decide_False by done. by apply Ho1.
  - intros v Hv. destruct (vpn_split v) as (_ & _ & Ev); [unfold user_vpn; lia|].
    rewrite (pte_tables junk s2 _ s3 _ v Hs2 Ht3) by (unfold user_vpn; lia). rewrite Hp2 by (unfold user_vpn; lia). by rewrite decide_True.
Qed.

Lemma purge_ok s R dst m dd :
  mm_inv s R -> mems s !! dst = Some m -> dirs s !! pm_directory m = Some dd ->
  wp (purge_dst_user_pages junk cpu dst)
    (fun _ s' => exists R', purged s R s' R' /\
       (forall d' v, user_vpn v -> d' <> pm_directory m -> pte s' d' v = pte s d' v) /\
       forall v, user_vpn v -> present (pte s' (pm_directory m) v) = false) s.
Proof.
  intros Hs Hm Hd. unfold purge_dst_user_pages. eapply wp_bind_ok; [by apply get_mem_ok|]. eapply wp_bind_ok; [by apply get_dir_ok|].
  cbv zeta. eapply wp_mono; [apply (for_loop_wp (fun i s' => exists R', pages_removed s R (pm_directory m) 8192 ((i - 8) * 1024) s' R'))|].
  - exists R. change USER_PDE_FIRST with 8. constructor; [by apply purged_refl|done|lia].
  - intros i s1 Hi (R1 & [[Hs1 He1 Hd1 HR1] Ho1 Hg1]). change (USER_PDE_FIRST + Z.of_nat (Z.to_nat (USER_PDE_LAST - USER_PDE_FIRST))) with 768 in Hi.
    change USER_PDE_FIRST with 8 in Hi. assert (user_pde i) as Hu by (rewrite user_pde_bounds; lia).
    pose proof He1 as (Hsp1 & Hm1 & _). pose proof (Hsp1 (pm_directory m)) as Hdd. rewrite Hd in Hdd.
    apply fmap_Some in Hdd as (dd1 & Hdd1 & Epd). rewrite Epd.
    eapply wp_bind_ok; [eapply vld_ok; [exact Hs1|eapply dir_word; [exact Hs1|exact Hdd1|lia]]|]. rewrite land_present.
    fold (frame_of (word s1 (physical_addr dd1 + 4 * i))). destruct (present (word s1 (physical_addr dd1 + 4 * i))) eqn:Hp; cbn [negb].
    + destruct (mi_tab _ _ _ Hs1 _ dd1 i Hdd1 Hu Hp) as (t & Et & HRt). destruct (role_pool _ _ _ t _ Hs1 HRt) as [Htb _].
      rewrite (proj2 (Z.leb_gt _ _)) by (rewrite Et; apply Z.ltb_lt, below_map; lia).
      eapply wp_mono; [eapply (purge_entry_ok s1 R1 dst m dd1 i); try done; by rewrite Hm1|].
      intros u s2 (R2 & [[Hs2 He2 Hd2 HR2] Ho2 Hg2]). exists R2. constructor; [constructor; [done| | |]| |].
      * by eapply same_env_trans.
      * by eapply same_rest_trans.
      * by eapply roles_shrink_trans.
      * intros d' v Hv Hne. rewrite Ho2 by (done || intros [-> ?]; apply Hne; lia). apply Ho1; [done|]. intros [-> ?]. apply Hne. lia.
      * intros v Hv. destruct (decide (v < i * 1024)).
        -- rewrite Ho2; [apply Hg1; lia|unfold user_vpn; lia|]. intros [_ ?]. lia.
        -- apply Hg2. lia.
    + apply wp_ret. exists R1. constructor; [by constructor| |].
      * intros d' v Hv Hne. apply Ho1; [done|]. intros [-> ?]. apply Hne. lia.
      * intros v Hv. destruct (decide (v < i * 1024)); [apply Hg1; lia|]. unfold PagingProofs.pte. rewrite Hdd1. cbv zeta.
        replace (v / 1024) with i; [by rewrite Hp|]. apply (Z.div_unique _ _ _ (v - i * 1024)); lia.
  - intros u s' (R' & [Hpu Ho Hg]). change (USER_PDE_FIRST + Z.of_nat (Z.to_nat (USER_PDE_LAST - USER_PDE_FIRST))) with 768 in *.
    exists R'. split; [done|]. split.
    + intros d' v Hv Hne. apply Ho; [done|]. by intros [-> _].
    + intros v Hv. apply Hg. unfold user_vpn in Hv. lia.
Qed.

End Purge.
