(* ===== verification/ProcessMmShare.v ===== *)
(** * Sharing the pages of a parent

    [cow_share_user_pages] gives the child the frames of the parent, read-only
    and copy-on-write in both where the parent could write. *)

From stdpp Require Import base tactics numbers list gmap.
From S2P Require Import Prelude FrameAlloc Alloc Paging PagingProofs PagingOps PagingBoot ProcessMm ProcessMmProofs.

(** The flags of a shared page. *)
Definition ro_flags (x : Z) : Z :=
  if Z.testbit x 1 then Z.lor (Z.land x (u32 (Z.lnot PAGE_WRITABLE))) PAGE_COW_BIT else x.

(** The entry of a shared page. *)
Definition cow_ro (e : Z) : Z := Z.lor (frame_of e) (ro_flags (Z.land e PAGE_MASK)).

Lemma ro_flags_bits x k : 0 <= k < 12 ->
  Z.testbit (ro_flags x) k = if k =? 1 then false else Z.testbit x k || ((k =? 9) && Z.testbit x 1).
Proof.
  intros Hk. unfold ro_flags. destruct (Z.testbit x 1) eqn:E.
  - rewrite Z.lor_spec, Z.land_spec.
    assert (k = 0 \/ k = 1 \/ k = 2 \/ k = 3 \/ k = 4 \/ k = 5 \/ k = 6 \/ k = 7 \/ k = 8 \/ k = 9 \/ k = 10 \/ k = 11) as H by lia.
    repeat destruct H as [-> |H]; try subst k; rewrite ?E; clear E; vm_compute; by repeat case_match.
  - rewrite andb_false_r, orb_false_r. by destruct (Z.eqb_spec k 1) as [->|].
Qed.

Lemma ro_flags_bound x : 0 <= x < 4096 -> 0 <= ro_flags x < 4096.
Proof.
  intros Hx. unfold ro_flags. destruct (Z.testbit x 1); [|done]. apply (bits_bound _ 12); [lia|]. intros n Hn.
  rewrite Z.lor_spec, Z.land_spec. rewrite <- (Z.mod_small x (2 ^ 12)) by done. rewrite Z.mod_pow2_bits_high by lia.
  change PAGE_COW_BIT with (2 ^ 9). by rewrite Z.pow2_bits_false by lia.
Qed.

Lemma frame_of_bound e : is_u32 e -> exists f, frame_of e = addr_of f /\ 0 <= f < 1048576.
Proof.
  intros He. exists (e / 4096). split; [by apply frame_of_div|]. unfold is_u32 in He.
  split; [apply Z.div_pos; lia|apply Z.div_lt_upper_bound; lia].
Qed.

Lemma offset_bound e : 0 <= Z.land e PAGE_MASK < 4096.
Proof. rewrite land_offset. by apply Z.mod_pos_bound. Qed.

Lemma offset_bit e k : 0 <= k < 12 -> Z.testbit (Z.land e PAGE_MASK) k = Z.testbit e k.
Proof. intros. rewrite Z.land_spec. change PAGE_MASK with (Z.ones 12). by rewrite Z.ones_spec_low, andb_true_r. Qed.

(** A shared entry maps the same frame, present as before, and not writable. *)
Lemma cow_ro_ok e : is_u32 e ->
  is_u32 (cow_ro e) /\ frame_of (cow_ro e) = frame_of e /\ present (cow_ro e) = present e /\ Z.testbit (cow_ro e) 1 = false /\
  Z.testbit (cow_ro e) 2 = Z.testbit e 2 /\ Z.testbit (cow_ro e) 9 = Z.testbit e 9 || Z.testbit e 1.
Proof.
  intros He. unfold cow_ro, present. destruct (frame_of_bound e He) as (f & -> & Hf). pose proof (offset_bound e) as Ho.
  pose proof (ro_flags_bound _ Ho). rewrite entry_frame, !entry_bit, !ro_flags_bits, !offset_bit by lia.
  cbn [Z.eqb Pos.eqb andb]. rewrite !orb_false_r. split; [by apply entry_u32|done].
Qed.

(** A page that is not writable keeps its entry. *)
Lemma cow_ro_id e : is_u32 e -> Z.testbit e 1 = false -> cow_ro e = e.
Proof.
  intros He H1. unfold cow_ro, ro_flags. rewrite offset_bit, H1 by lia. symmetry. by apply entry_split.
Qed.

Section Share.
Context {M : Type} {KI : KernelImage}.
Variable junk : Z -> Z.
Implicit Types s : mm M.
Abbreviation word := (word junk).
Abbreviation pte := (pte junk).
Abbreviation mm_inv := (mm_inv junk).
Abbreviation slot := (slot junk).
Abbreviation has_table := (has_table junk).

(** ** One page *)

(** The virtual address of a page. *)
Lemma share_virt i j : 0 <= i < 1024 -> 0 <= j < 1024 -> Z.lor (Z.shiftl i 22) (Z.shiftl j 12) = addr_of (i * 1024 + j).
Proof.
  intros Hi Hj. rewrite !Z.shiftl_mul_pow2 by lia. rewrite lor_low by lia.
  unfold addr_of, PAGE_SIZE_CONST. change (2 ^ 22) with 4194304. change (2 ^ 12) with 4096. lia.
Qed.

Lemma pte_u32 s R d v : mm_inv s R -> is_u32 (pte s d v).
Proof.
  intros Hs. unfold PagingProofs.pte. destruct (dirs s !! d); [|done]. cbv zeta. destruct (present _); [apply Hs|done].
Qed.

(** The parent's entry becomes the shared one. *)
Lemma downgrade_ok s R d dd v :
  mm_inv s R -> dirs s !! d = Some dd -> user_vpn v -> has_table s dd v ->
  wp (flags ← (if negb (Z.land (Z.land (pte s d v) PAGE_MASK) PAGE_WRITABLE =? 0) then
                 let flags := Z.lor (Z.land (Z.land (pte s d v) PAGE_MASK) (u32 (Z.lnot PAGE_WRITABLE))) PAGE_COW_BIT in
                 vst junk (slot s dd v) (Z.lor (frame_of (pte s d v)) flags);; ret flags
               else ret (Z.land (pte s d v) PAGE_MASK)); ret flags)
    (fun flags s' => flags = ro_flags (Z.land (pte s d v) PAGE_MASK) /\ mm_inv s' R /\ s' = set_words (words s') s /\
       same_data junk s s' R /\ tables_stay junk s s' /\
       forall d' v', user_vpn v' -> pte s' d' v' = if decide (d' = d /\ v' = v) then cow_ro (pte s d v) else pte s d' v') s.
Proof.
  intros Hs Hd Hv Ht. pose proof (pte_u32 s R d v Hs) as Hu. destruct (cow_ro_ok _ Hu) as (Hx & Hf & Hp & _).
  rewrite land_writable, negb_involutive, offset_bit by lia. destruct (Z.testbit (pte s d v) 1) eqn:Hw.
  - cbv zeta. assert (Z.lor (frame_of (pte s d v)) (Z.lor (Z.land (Z.land (pte s d v) PAGE_MASK) (u32 (Z.lnot PAGE_WRITABLE))) PAGE_COW_BIT) =
      cow_ro (pte s d v)) as -> by (unfold cow_ro, ro_flags; by rewrite offset_bit, Hw by lia).
    destruct (slot_put junk s R d dd v _ Hs Hd Hv Ht Hx) as (Est & _ & Hda & Hpte). apply wp_bind.
    eapply wp_bind_ok; [exact Est|]. apply wp_ret. apply wp_ret. split; [unfold ro_flags; by rewrite offset_bit, Hw by lia|].
    split; [by eapply keep_pte|]. split; [done|]. split; [done|]. split; [by eapply slot_tabs|done].
  - eapply wp_bind_ok; [reflexivity|]. apply wp_ret. split; [unfold ro_flags; by rewrite offset_bit, Hw by lia|]. split; [done|].
    split; [by destruct s|]. split; [done|]. split; [done|]. intros d' v' Hv'. case_decide as E; [|done]. destruct E as [-> ->].
    by rewrite cow_ro_id.
Qed.


(** The child maps the shared entry; the frame gains the reference of its page. *)
Lemma share_entry_ok s R d dd v x f h ps :
  mm_inv s R -> dirs s !! d = Some dd -> user_vpn v -> has_table s dd v -> is_u32 x -> present (pte s d v) = false ->
  present x = true -> frame_of x = addr_of f -> R !! f = Some (RPages h ps) -> h + Z.of_nat (size ps) < 65535 ->
  wp (frames_do (frame_incref (addr_of f)))
    (fun _ s' => mm_inv s' (<[f := RPages h ({[(d, v)]} ∪ ps)]> R) /\ exists q, s' = set_fa q (put (slot s dd v) x s)) (put (slot s dd v) x s).
Proof.
  intros Hs Hd Hv Ht Hx Hnp Hpx Hfx Hf Hc. destruct (inv_incref junk s R f h ps Hs Hf Hc) as (q & E & Hs1).
  assert (frames_do (frame_incref (addr_of f)) (put (slot s dd v) x s) = Ok (tt, set_fa q (put (slot s dd v) x s))) as E'.
  { apply frames_do_ok. by apply frames_do_inv in E. }
  eapply wp_ok; [exact E'|]. split; [|by exists q].
  change (set_fa q (put (slot s dd v) x s)) with (put (slot (set_fa q s) dd v) x (set_fa q s)).
  replace (<[f := RPages h ({[(d, v)]} ∪ ps)]> R) with (<[f := RPages (h + 1 - 1) ({[(d, v)]} ∪ ps)]> (<[f := RPages (h + 1) ps]> R))
    by (rewrite insert_insert_eq; do 2 f_equal; lia).
  pose proof (mi_held _ _ _ Hs _ _ _ Hf). eapply new_pte; try done; [apply lookup_insert_eq|lia].
Qed.


(** The directory [d] has a table for its entry [i]. *)
Definition tabled s (d i : Z) : bool :=
  match dirs s !! d with Some dd => present (word s (physical_addr dd + 4 * i)) | None => false end.

Lemma tabled_stay s s' d i : same_spaces s s' -> tables_stay junk s s' -> user_pde i -> tabled s d i = true -> tabled s' d i = true.
Proof.
  intros Hsp Ht Hi. unfold tabled. specialize (Hsp d). destruct (dirs s !! d) as [dd|] eqn:Hd; [|done]. cbn in Hsp.
  apply fmap_Some in Hsp as (dd' & -> & <-). intros Hp. by destruct (Ht d dd i Hd Hi Hp).
Qed.

(** The pages below [b] of the parent [ds] are shared with the child [dc]. *)
Record shared s (R : roles) (ds dc b : Z) s' (R' : roles) : Prop := {
  sh_inv : mm_inv s' R';
  sh_env : same_env s s';
  sh_data : same_data junk s s' R;
  sh_tabs : tables_stay junk s s';
  sh_roles f h ps : R !! f = Some (RPages h ps) ->
    exists ps', R' !! f = Some (RPages h ps') /\ ps' ⊆ ps ∪ set_map (fun p => (dc, p.2)) ps;
  sh_owned : owned R' <= owned R + (b / 1024 - 8) + (if tabled s' dc (b / 1024) then 1 else 0);
  sh_pages d v : user_vpn v -> pte s' d v =
    if decide ((d = ds \/ d = dc) /\ v < b /\ present (pte s ds v) = true) then cow_ro (pte s ds v) else pte s d v
}.

Lemma shared_refl s R ds dc : mm_inv s R -> shared s R ds dc 8192 s R.
Proof.
  intros Hs. constructor; try done.
  - intros f h ps Hf. exists ps. split; [done|set_solver].
  - change (8192 / 1024) with 8. case_match; lia.
  - intros d v Hv. rewrite decide_False; [done|]. unfold user_vpn in Hv. lia.
Qed.

(** A page of the parent that is not mapped is skipped. *)
Lemma shared_skip s R ds dc b n s' R' : shared s R ds dc b s' R' -> 0 <= n ->
  (forall v, user_vpn v -> b <= v < b + n -> present (pte s ds v) = false) -> shared s R ds dc (b + n) s' R'.
Proof.
  intros [] Hn Hnp. constructor; try done.
  { destruct (decide ((b + n) / 1024 = b / 1024)) as [->|]; [done|]. pose proof (Z.div_le_mono b (b + n) 1024 ltac:(lia) ltac:(lia)).
    repeat case_match; lia. }
  intros d v Hv. rewrite sh_pages0 by done. apply decide_ext.
  split; intros (Hd & Hb & Hp); (split; [done|split; [|done]]); [lia|].
  destruct (decide (v < b)); [done|]. rewrite Hnp in Hp by (done || lia). done.
Qed.

Lemma size_set_map (f : Z * Z -> Z * Z) (X : gset (Z * Z)) : (size (set_map f X : gset (Z * Z)) <= size X)%nat.
Proof.
  induction X as [|x X Hx IH] using set_ind_L; [done|].
  assert (size ({[x]} ∪ X) = S (size X)) as -> by (rewrite size_union by set_solver; by rewrite size_singleton).
  rewrite set_map_union_L, set_map_singleton_L.
  assert (size ({[f x]} ∪ (set_map f X : gset (Z * Z))) <= 1 + size (set_map f X : gset (Z * Z)))%nat; [|lia].
  rewrite size_union_alt, size_singleton. apply le_n_S, subseteq_size. set_solver.
Qed.

(** The frame of a page not shared yet has room for one more reference. *)
Lemma share_room (ps ps' : gset (Z * Z)) ds dc v :
  ps' ⊆ ps ∪ set_map (fun p => (dc, p.2)) ps -> (ds, v) ∈ ps -> (dc, v) ∉ ps' -> (size ps' < 2 * size ps)%nat.
Proof.
  intros Hsub Hin Hnot. pose proof (size_set_map (fun p => (dc, p.2)) ps) as Hm.
  assert (size ({[(dc, v)]} ∪ ps') <= size (ps ∪ set_map (fun p => (dc, p.2)) ps))%nat as H1.
  { apply subseteq_size. intros p [Hp|Hp]%elem_of_union; [|by apply Hsub]. apply elem_of_singleton in Hp as ->.
    apply elem_of_union_r, elem_of_map. by exists (ds, v). }
  rewrite size_union, size_singleton, size_union_alt in H1 by set_solver.
  assert (size (set_map (fun p => (dc, p.2)) ps ∖ ps : gset (Z * Z)) <= size (set_map (fun p : (Z * Z) => (dc, p.2)) ps : gset (Z * Z)))%nat; [|lia].
  apply subseteq_size. set_solver.
Qed.

Variable cpu : Z.
Hypothesis Hcpu : 0 <= cpu < MAX_CPUS.

(** No frame of the space has so many references that its count could saturate. *)
Definition counts_low (R : roles) (d : Z) : Prop :=
  forall f h ps v, R !! f = Some (RPages h ps) -> (d, v) ∈ ps -> h + 2 * Z.of_nat (size ps) <= 65535.

Lemma frame_of_frame e : is_u32 e -> is_u32 (frame_of e) /\ frame_of (frame_of e) = frame_of e.
Proof. intros He. destruct (frame_of_bound e He) as (f & -> & Hf). by apply frame_of_addr. Qed.

(** The child's side of one page. *)
Lemma share_child_ok s R dst m v e f h ps :
  mm_inv s R -> mems s !! dst = Some m -> is_Some (dirs s !! pm_directory m) -> user_vpn v ->
  present (pte s (pm_directory m) v) = false -> is_u32 e -> present e = true -> frame_of e = addr_of f ->
  R !! f = Some (RPages h ps) -> h + Z.of_nat (size ps) < 65535 ->
  wp (m ← get_mem dst;
      r ← map_page junk cpu (pm_directory m) (addr_of v) (frame_of e) (ro_flags (Z.land e PAGE_MASK));
      if r <? 0 then ret (Some (-1)) else frames_do (frame_incref (frame_of e));; ret None)
    (fun r s' => same_env s s' /\ same_data junk s s' R /\ tables_stay junk s s' /\
       match r with
       | Some x => x = -1 /\ exhausted R /\ exists R', mm_inv s' R'
       | None => tabled s' (pm_directory m) (v / 1024) = true /\
           exists R', mm_inv s' (<[f := RPages h ({[(pm_directory m, v)]} ∪ ps)]> R') /\ R ⊆ R' /\
           owned R' <= owned R + (if tabled s (pm_directory m) (v / 1024) then 0 else 1) /\
           forall d' v', user_vpn v' -> pte s' d' v' = if decide (d' = pm_directory m /\ v' = v) then cow_ro e else pte s d' v'
       end) s.
Proof.
  intros Hs Hm [dd Hd] Hv Hnp He Hpe Hfe Hf Hc. eapply wp_bind_ok; [by apply get_mem_ok|].
  destruct (cow_ro_ok e He) as (_ & Hfx & Hpx & _). destruct (frame_of_frame e He) as [Hu Hff].
  assert (addr_of v / 4096 = v) as Ev by (unfold addr_of, PAGE_SIZE_CONST; by rewrite Z.div_mul).
  destruct (map_page_raw junk cpu Hcpu s R (pm_directory m) dd (addr_of v) (frame_of e) (ro_flags (Z.land e PAGE_MASK))) as [Hx Hwp];
    [done|done|by rewrite Ev|done|apply ro_flags_bound, offset_bound|]. rewrite Ev, Hff in *. fold (cow_ro e) in *.
  eapply wp_step; [exact Hwp|]. intros r s' (s2 & R2 & Hk & Hp2 & Ho & Hr). pose proof (kp_inv _ _ _ _ _ Hk) as Hs2.
  destruct Hr as [(-> & Hex & -> & ->)|(-> & dd2 & Hd2 & Ht2 & ->)]; cbn [Z.ltb Z.compare].
  - apply wp_ret. split; [by eapply keeps_env|]. split; [apply Hk|]. split; [apply Hk|]. split; [done|]. split; [done|by exists R].
  - pose proof (lookup_weaken _ _ _ _ Hf (kp_roles _ _ _ _ _ Hk)) as Hf2.
    destruct (slot_put junk s2 R2 _ dd2 _ _ Hs2 Hd2 Hv Ht2 Hx) as (_ & _ & Hda & Hpte). rewrite Hfe.
    eapply wp_step; [eapply (share_entry_ok s2 R2 _ dd2 v (cow_ro e) f h ps); try done; [by rewrite Hp2|congruence|congruence]|].
    intros u s4 (Hs4 & q & E4). apply wp_ret. split; [eapply same_env_trans; [by eapply keeps_env|]; by rewrite E4|]. split; [|split].
    + eapply same_data_trans; [apply Hk|rewrite E4; exact Hda|]. intros g h' ps' Hg. exists h', ps'. by eapply lookup_weaken; [|apply Hk].
    + eapply tables_stay_trans; [apply Hk|apply Hk|]. rewrite E4. by eapply slot_tabs.
    + split.
      { destruct (vpn_split v Hv) as (Hi & _). rewrite E4. apply (tabled_stay s2); [done|by eapply slot_tabs|done|]. unfold tabled. by rewrite Hd2. }
      exists R2. split; [done|]. split; [apply Hk|]. split; [unfold tabled; rewrite Hd; by apply Ho|]. intros d' v' Hv'. rewrite E4.
      change (pte (set_fa q ?t) d' v') with (pte t d' v'). rewrite Hpte by done. case_decide; [done|]. by apply Hp2.
Qed.

Lemma shared_next s R ds dc v s1 R1 s2 s3 R' f h ps ps1 :
  shared s R ds dc v s1 R1 -> R !! f = Some (RPages h ps) -> (ds, v) ∈ ps -> ps1 ⊆ ps ∪ set_map (fun p => (dc, p.2)) ps ->
  present (pte s ds v) = true -> same_env s s2 -> tables_stay junk s s2 ->
  (forall d' v', user_vpn v' -> pte s2 d' v' = if decide (d' = ds /\ v' = v) then cow_ro (pte s ds v) else pte s1 d' v') ->
  user_vpn v -> R1 !! f = Some (RPages h ps1) -> tables_stay junk s1 s2 -> tabled s3 dc (v / 1024) = true ->
  owned R' <= owned R1 + (if tabled s2 dc (v / 1024) then 0 else 1) ->
  mm_inv s3 (<[f := RPages h ({[(dc, v)]} ∪ ps1)]> R') -> R1 ⊆ R' -> same_env s s3 -> same_data junk s s3 R -> tables_stay junk s2 s3 ->
  (forall d' v', user_vpn v' -> pte s3 d' v' = if decide (d' = dc /\ v' = v) then cow_ro (pte s ds v) else pte s2 d' v') ->
  shared s R ds dc (v + 1) s3 (<[f := RPages h ({[(dc, v)]} ∪ ps1)]> R').
Proof.
  intros [Hs1 He1 Hd1 Ht1 HR1 Hw1 Hp1] HRf Hin Hsub Hp He2 Ht2 Hp2 Hv Hf1 Ht12 Hth Hw3 Hs3 HRs He3 Hd3 Ht3 Hp3. constructor; try done.
  - eapply tables_stay_trans; [exact (proj1 He2)|done|exact Ht3].
  - intros g k qs Hg. destruct (decide (g = f)) as [->|Hgf].
    + rewrite HRf in Hg. injection Hg as <- <-. exists ({[(dc, v)]} ∪ ps1). split; [apply lookup_insert_eq|].
      intros p [Hp'|Hp']%elem_of_union; [|by apply Hsub]. apply elem_of_singleton in Hp' as ->.
      apply elem_of_union_r, elem_of_map. by exists (ds, v).
    + destruct (HR1 g k qs Hg) as (qs' & Hg' & Hqs). exists qs'. rewrite lookup_insert_ne by done. split; [by eapply lookup_weaken|done].
  - assert (owned (<[f := RPages h ({[(dc, v)]} ∪ ps1)]> R') = owned R') as ->.
    { unfold owned. by rewrite map_size_insert, (lookup_weaken _ _ _ _ Hf1 HRs). }
    assert (owned R' <= owned R + (v / 1024 - 8) + 1) as Hw.
    { destruct (vpn_split v Hv) as (Hi & _). destruct (tabled s1 dc (v / 1024)) eqn:E1; [|destruct (tabled s2 dc (v / 1024)); lia].
      rewrite (tabled_stay s1 s2 dc _) in Hw3; [lia| |done|done|done]. intros d. by rewrite (proj1 He2 d), (proj1 He1 d). }
    destruct (decide ((v + 1) / 1024 = v / 1024)) as [->|]; [by rewrite Hth|].
    pose proof (Z.div_le_mono v (v + 1) 1024 ltac:(lia) ltac:(lia)). destruct (tabled s3 dc ((v + 1) / 1024)); lia.
  - intros d' v' Hv'. rewrite Hp3 by done. case_decide as E.
    { destruct E as [-> ->]. rewrite decide_True; [done|]. split; [by right|]. split; [lia|done]. }
    rewrite Hp2 by done. case_decide as E'.
    { destruct E' as [-> ->]. rewrite decide_True; [done|]. split; [by left|]. split; [lia|done]. }
    rewrite Hp1 by done. apply decide_ext. split; intros (Hd' & Hb' & Hq); (split; [done|split; [|done]]); [lia|].
    destruct (decide (v' = v)) as [->|]; [|lia]. destruct Hd' as [-> | ->]; [by destruct E'|by destruct E].
Qed.

(** One page more is shared. *)
Lemma share_page_ok s R ds dds dst m v s1 R1 :
  mm_inv s R -> counts_low R ds -> dirs s !! ds = Some dds -> mems s !! dst = Some m -> is_Some (dirs s !! pm_directory m) ->
  ds <> pm_directory m -> (forall v, user_vpn v -> present (pte s (pm_directory m) v) = false) ->
  user_vpn v -> has_table s dds v -> shared s R ds (pm_directory m) v s1 R1 ->
  wp (cow_share_page junk cpu (frame_of (word s (physical_addr dds + 4 * (v / 1024)))) (v / 1024) dst (v mod 1024))
    (fun r s' => match r with
       | Some x => x = -1 /\ 5248 <= owned R + 760 /\ exists R', mm_inv s' R' /\ same_env s s' /\ same_data junk s s' R
       | None => exists R', shared s R ds (pm_directory m) (v + 1) s' R'
       end) s1.
Proof.
  intros Hs Hlow Hds Hm [ddc Hdc] Hne Hempty Hv Ht Hsh. pose proof Hsh as [Hs1 He1 Hd1 Ht1 HR1 Hw1 Hp1].
  pose proof He1 as (Hsp1 & Hm1 & _). destruct (stay_slot junk s s1 ds dds v Hsp1 Ht1 Hds Hv Ht) as (dd1 & Hdd1 & Htt1 & Esl).
  assert (pte s1 ds v = pte s ds v) as Ep by (rewrite Hp1 by done; rewrite decide_False; [done|lia]).
  destruct (slot_ok junk s1 R1 ds dd1 v Hs1 Hdd1 Hv Htt1) as (Hb & Ew & _). rewrite Esl in Hb, Ew. unfold cow_share_page.
  change (frame_of _ + _) with (slot s dds v). eapply wp_bind_ok; [by eapply vld_ok|]. rewrite Ew, land_present.
  destruct (present (pte s1 ds v)) eqn:Hp; cbn [negb].
  2:{ apply wp_ret. exists R1. apply shared_skip; [done|lia|]. intros v' Hv' Hb'. replace v' with v by lia. congruence. }
  eapply wp_bind_ok; [by eapply vld_ok|]. rewrite Ew. cbv zeta. fold (frame_of (pte s1 ds v)).
  pose proof (downgrade_ok s1 R1 ds dd1 v Hs1 Hdd1 Hv Htt1) as Hdg. rewrite Esl, wp_bind in Hdg. apply wp_bind.
  eapply wp_mono; [exact Hdg|]. clear Hdg. intros fl s2 Hdg. apply wp_ret in Hdg. destruct Hdg as (-> & Hs2 & E2 & Hd2 & Ht2 & Hp2).
  destruct (inv_pte junk s R ds v Hs Hv) as (f & h & ps & Hf & HRf & Hin); [congruence|].
  destruct (HR1 f h ps HRf) as (ps1 & HRf1 & Hsub). destruct (vpn_split v Hv) as (Hi & Hj & Ev).
  rewrite user_pde_bounds in Hi. rewrite share_virt by lia. rewrite Ev. assert (present (pte s1 (pm_directory m) v) = false) as Hnp1.
  { rewrite Hp1 by done. rewrite decide_False by lia. by apply Hempty. }
  assert ((pm_directory m, v) ∉ ps1) as Hnot.
  { intros Hin1. destruct (pg_owner _ _ _ (mi_pages _ _ _ Hs1) f h ps1 _ v HRf1 Hin1) as [_ [Hq _]]. congruence. }
  pose proof (share_room ps ps1 ds (pm_directory m) v Hsub Hin Hnot) as Hroom. pose proof (Hlow f h ps v HRf Hin).
  assert (same_env s s2) as He2 by (rewrite E2; exact He1). rewrite Ep in *.
  eapply wp_mono; [eapply (share_child_ok s2 R1 dst m v (pte s ds v) f h ps1); try done|].
  { by destruct He2 as (_ & -> & _). } { rewrite E2. specialize (Hsp1 (pm_directory m)). rewrite Hdc in Hsp1. apply fmap_Some in Hsp1 as (ddx & Hx & _). by exists ddx. }
  { rewrite Hp2 by done. rewrite decide_False; [done|]. intros [E _]. by destruct Hne. }
  { by eapply pte_u32. } { lia. }
  intros r s3 (He3 & Hd3 & Ht3 & Hr).
  assert (same_data junk s1 s3 R1) as Hd13 by (eapply same_data_trans; [exact Hd2|exact Hd3|eauto]).
  assert (same_data junk s s3 R) as Hd03.
  { eapply same_data_trans; [exact Hd1|exact Hd13|]. intros g k qs Hg. destruct (HR1 g k qs Hg) as (? & ? & _). eauto. }
  assert (same_env s s3) as He03 by (by eapply same_env_trans).
  destruct r as [x|].
  { destruct Hr as (-> & Hex & R' & HR'). split; [done|]. split; [unfold exhausted in Hex; destruct (tabled s1 _ _); lia|]. by exists R'. }
  destruct Hr as (Hth & R' & Hs3 & HRs & Hw3 & Hp3).
  exists (<[f := RPages h ({[(pm_directory m, v)]} ∪ ps1)]> R'). eapply (shared_next s R ds _ v s1 R1 s2 s3 R'); try done.
  eapply tables_stay_trans; [exact Hsp1|done|done].
Qed.

(** ** cow_share_user_pages *)

Lemma share_table_ok s R ds dds dst m i s1 R1 :
  mm_inv s R -> counts_low R ds -> dirs s !! ds = Some dds -> mems s !! dst = Some m -> is_Some (dirs s !! pm_directory m) ->
  ds <> pm_directory m -> (forall v, user_vpn v -> present (pte s (pm_directory m) v) = false) ->
  user_pde i -> present (word s (physical_addr dds + 4 * i)) = true -> shared s R ds (pm_directory m) (i * 1024) s1 R1 ->
  wp (cow_share_table junk cpu (frame_of (word s (physical_addr dds + 4 * i))) i dst)
    (fun r s' => match r with
       | Some x => x = -1 /\ 5248 <= owned R + 760 /\ exists R', mm_inv s' R' /\ same_env s s' /\ same_data junk s s' R
       | None => exists R', shared s R ds (pm_directory m) ((i + 1) * 1024) s' R'
       end) s1.
Proof.
  intros Hs Hlow Hds Hm Hdc Hne Hempty Hi Hp H1. unfold cow_share_table. replace ((i + 1) * 1024) with (i * 1024 + (0 + Z.of_nat 1024)) by lia.
  apply (for_until_wp (fun j s' => exists R', shared s R ds (pm_directory m) (i * 1024 + j) s' R')
    (fun x s' => x = -1 /\ 5248 <= owned R + 760 /\ exists R', mm_inv s' R' /\ same_env s s' /\ same_data junk s s' R)).
  - exists R1. by rewrite Z.add_0_r.
  - intros j s2 Hj (R2 & H2). destruct (vpn_join i j Hi ltac:(lia)) as (Hv & E1 & E2).
    assert (has_table s dds (i * 1024 + j)) as Ht by (unfold PagingOps.has_table; by rewrite E1).
    pose proof (share_page_ok s R ds dds dst m _ s2 R2 Hs Hlow Hds Hm Hdc Hne Hempty Hv Ht H2) as H.
    rewrite E1, E2, <- Z.add_assoc in H. exact H.
Qed.

Lemma no_table s d dd i v :
  dirs s !! d = Some dd -> v / 1024 = i -> present (word s (physical_addr dd + 4 * i)) = false -> present (pte s d v) = false.
Proof. intros Hd <- Hp. unfold PagingProofs.pte. rewrite Hd. cbv zeta. by rewrite Hp. Qed.

Lemma share_absent_ok s R ds dd i dst :
  mm_inv s R -> dirs s !! ds = Some dd -> user_pde i -> present (word s (physical_addr dd + 4 * i)) = true ->
  (forall v, user_vpn v -> v / 1024 = i -> present (pte s ds v) = false) ->
  wp (cow_share_table junk cpu (frame_of (word s (physical_addr dd + 4 * i))) i dst) (fun r s' => r = None /\ s' = s) s.
Proof.
  intros Hs Hd Hi Hp Hnp. unfold cow_share_table.
  eapply wp_mono; [apply (for_until_wp (fun _ s' => s' = s) (fun (_ : Z) _ => False)); [done|]|by intros [x|] s'].
  intros j s1 Hj ->. destruct (vpn_join i j Hi ltac:(lia)) as (Hv & E1 & E2).
  assert (has_table s dd (i * 1024 + j)) as Ht by (unfold PagingOps.has_table; by rewrite E1).
  destruct (slot_ok junk s R ds dd _ Hs Hd Hv Ht) as (Hb & Ew & _). unfold PagingOps.slot in Hb, Ew. rewrite E1, E2 in Hb, Ew.
  unfold cow_share_page. eapply wp_bind_ok; [by eapply vld_ok|]. rewrite Ew, land_present, Hnp by done. by apply wp_ret.
Qed.

Lemma cow_share_ok s R src dst ms m :
  mm_inv s R -> mems s !! src = Some ms -> counts_low R (pm_directory ms) -> is_Some (dirs s !! pm_directory ms) ->
  mems s !! dst = Some m -> is_Some (dirs s !! pm_directory m) -> pm_directory ms <> pm_directory m ->
  (forall v, user_vpn v -> present (pte s (pm_directory m) v) = false) ->
  wp (cow_share_user_pages junk cpu src dst)
    (fun r s' => (r = 0 /\ exists R', shared s R (pm_directory ms) (pm_directory m) 786432 s' R') \/
       (r = -1 /\ 5248 <= owned R + 760 /\ exists R', mm_inv s' R' /\ same_env s s' /\ same_data junk s s' R)) s.
Proof.
  intros Hs Hms Hlow [dds Hds] Hm Hdc Hne Hempty. unfold cow_share_user_pages.
  eapply wp_bind_ok; [by apply get_mem_ok|]. eapply wp_bind_ok; [by apply get_dir_ok|]. cbv zeta.
  eapply wp_step; [apply (for_until_wp (fun i s' => exists R', shared s R (pm_directory ms) (pm_directory m) (i * 1024) s' R')
    (fun x s' => x = -1 /\ 5248 <= owned R + 760 /\ exists R', mm_inv s' R' /\ same_env s s' /\ same_data junk s s' R))|].
  - exists R. by apply shared_refl.
  - intros i s1 Hi (R1 & H1). change (USER_PDE_FIRST + Z.of_nat (Z.to_nat (USER_PDE_LAST - USER_PDE_FIRST))) with 768 in Hi.
    change USER_PDE_FIRST with 8 in Hi. assert (user_pde i) as Hu by (rewrite user_pde_bounds; lia).
    pose proof H1 as [Hs1 [Hsp1 _] _ Ht1 _ _ _]. pose proof (Hsp1 (pm_directory ms)) as Hdd. rewrite Hds in Hdd.
    apply fmap_Some in Hdd as (dd1 & Hdd1 & Epd). 
    eapply wp_bind_ok; [eapply vld_ok; [exact Hs1|rewrite Epd; eapply dir_word; [exact Hs1|exact Hdd1|lia]]|]. rewrite land_present, Epd.
    destruct (present (word s1 (physical_addr dd1 + 4 * i))) eqn:Hp1; cbn [negb].
    2:{ apply wp_ret. exists R1. replace ((i + 1) * 1024) with (i * 1024 + 1024) by lia. apply shared_skip; [done|lia|].
        intros v Hv Hvi. apply (no_table _ _ dds i); [done|symmetry; apply Z.div_unique with (v - i * 1024); lia|].
        destruct (present (word s (physical_addr dds + 4 * i))) eqn:Hp; [|done]. destruct (Ht1 _ dds i Hds Hu Hp) as [Hq _]. congruence. }
    destruct (mi_tab _ _ _ Hs1 _ dd1 i Hdd1 Hu Hp1) as (t & Et & HRt). destruct (role_pool _ _ _ t _ Hs1 HRt) as [Htb _].
    fold (frame_of (word s1 (physical_addr dd1 + 4 * i))).
    rewrite (proj2 (Z.leb_gt _ _)) by (rewrite Et; apply Z.ltb_lt, below_map; lia).
    destruct (present (word s (physical_addr dds + 4 * i))) eqn:Hp.
    + destruct (Ht1 _ dds i Hds Hu Hp) as [_ Ef]. rewrite Epd in Ef at 1. rewrite Ef. by eapply share_table_ok.
    + assert (forall v, user_vpn v -> v / 1024 = i -> present (pte s (pm_directory ms) v) = false) as Hnp by (intros; by apply (no_table _ _ dds i)).
      eapply wp_mono; [eapply (share_absent_ok s1 R1); try done|].
      { intros v Hv Ev. rewrite (sh_pages _ _ _ _ _ _ _ H1) by done. rewrite decide_False by (intros (_ & _ & Hq); by rewrite Hnp in Hq). by apply Hnp. }
      intros r s2 [-> ->]. exists R1. replace ((i + 1) * 1024) with (i * 1024 + 1024) by lia. apply shared_skip; [done|lia|].
      intros v Hv Hvi. apply Hnp; [done|]. symmetry. apply Z.div_unique with (v - i * 1024); lia.
  - intros [x|] s2 H2; cbv beta iota in H2; apply wp_ret; [right|left]; [|done]. by destruct H2 as [-> ?].
Qed.

End Share.
