(* ===== verification/ProcessMmClone.v ===== *)
(** * Cloning an address space

    [clone_process_memory] gives the child every page of the parent without
    copying it; [destroy_process_memory] always completes. *)

From stdpp Require Import base tactics numbers list gmap.
From S2P Require Import Prelude FrameAlloc Alloc Paging PagingProofs PagingOps PagingBoot PagingDestroy ProcessMm.
From S2P Require Import ProcessMmProofs ProcessMmPurge ProcessMmShare.

Section Clone.
Context {M : Type} {KM : Kmalloc M} {KI : KernelImage}.
Variable junk : Z -> Z.
Implicit Types s : mm M.
Abbreviation word := (word junk).
Abbreviation pte := (pte junk).
Abbreviation mm_inv := (mm_inv junk).

(** ** The table of file mappings *)

Definition files_ok s : Prop := length (mmap_file_table s) = 128%nat.

Lemma file_at_ok s i e : 0 <= i -> mmap_file_table s !! Z.to_nat i = Some e -> file_at i s = Ok (e, s).
Proof. intros Hi He. unfold file_at. run. by apply rd_ok. Qed.

Lemma put_file_ok s i r : 0 <= i < Z.of_nat (length (mmap_file_table s)) ->
  put_file i r s = Ok (tt, set_mmap_files (<[Z.to_nat i := r]> (mmap_file_table s)) s).
Proof. intros Hi. unfold put_file. run. unfold id. by rewrite (bind_ok _ _ _ _ _ (wr_ok _ _ _ _ Hi)). Qed.

(** The entry after [mmap_file_clear_pd]. *)
Definition without_pd (pd : Z) (e : mmap_file_region) : mmap_file_region :=
  if f_in_use e && (f_pd_phys e =? pd)
  then MmapFileRegion false (f_pd_phys e) (f_start e) (f_end e) (f_fd e) (f_offset e) (f_prot e) else e.

Lemma set_mmap_files_id s : set_mmap_files (mmap_file_table s) s = s.
Proof. by destruct s. Qed.

Lemma clear_pd_ok s pd :
  files_ok s -> mmap_file_clear_pd pd s = Ok (tt, set_mmap_files (without_pd pd <$> mmap_file_table s) s).
Proof.
  intros Hf. set (l := mmap_file_table s). cut (wp (mmap_file_clear_pd pd) (fun _ s' => s' = set_mmap_files (without_pd pd <$> l) s) s).
  { intros ([] & s' & E & ->)%wp_elim. done. }
  unfold mmap_file_clear_pd.
  eapply wp_mono; [apply (for_loop_wp (fun i s' => s' = set_mmap_files ((without_pd pd <$> take (Z.to_nat i) l) ++ drop (Z.to_nat i) l) s))|].
  - symmetry. apply set_mmap_files_id.
  - intros i s1 Hi ->. change (0 + Z.of_nat (Z.to_nat MMAP_FILE_MAX_REGIONS)) with 128 in Hi.
    destruct (lookup_lt_is_Some_2 l (Z.to_nat i)) as [e He]; [unfold l; rewrite Hf; lia|].
    rewrite (drop_S l e (Z.to_nat i) He). replace (Z.to_nat (i + 1)) with (S (Z.to_nat i)) by lia. rewrite (take_S_r l (Z.to_nat i) e He).
    assert (length (without_pd pd <$> take (Z.to_nat i) l) = Z.to_nat i) as Hlen.
    { rewrite length_fmap, length_take. pose proof (lookup_lt_Some _ _ _ He). lia. }
    eapply wp_bind_ok; [apply file_at_ok; [lia|]; cbn [mmap_file_table set_mmap_files]; by rewrite list_lookup_middle|].
    rewrite fmap_app, <- app_assoc. cbn [fmap list_fmap app].
    destruct (f_in_use e && (f_pd_phys e =? pd)) eqn:E; [|apply wp_ret; assert (without_pd pd e = e) as -> by (unfold without_pd; by rewrite E); done].
    unfold clear_file. eapply wp_bind_ok; [apply file_at_ok; [lia|]; cbn [mmap_file_table set_mmap_files]; by rewrite list_lookup_middle|].
    eapply wp_ok; [apply put_file_ok; cbn [mmap_file_table set_mmap_files]; rewrite length_app, Hlen; simpl; lia|].
    cbn [mmap_file_table set_mmap_files]. rewrite insert_app_r_alt, Hlen, Nat.sub_diag by lia. cbn [insert list_insert].
    assert (without_pd pd e = MmapFileRegion false (f_pd_phys e) (f_start e) (f_end e) (f_fd e) (f_offset e) (f_prot e)) as ->;
      [unfold without_pd; by rewrite E|done].
  - intros [] s' ->. change (Z.to_nat (0 + Z.of_nat (Z.to_nat MMAP_FILE_MAX_REGIONS))) with 128%nat.
    rewrite take_ge, drop_ge by (unfold l; rewrite Hf; lia). by rewrite app_nil_r.
Qed.


(** ** destroy_process_memory *)

Variable cpu : Z.
Hypothesis Hcpu : 0 <= cpu < MAX_CPUS.

Lemma inv_files s R t : mm_inv s R -> mm_inv (set_mmap_files t s) R.
Proof. intros Hs. split; [constructor; apply Hs|]. by apply (pages_same junk s); [|apply Hs]. Qed.

Lemma destroy_process_memory_ok s R L mem m dd :
  mm_inv s R -> heap_inv s L -> files_ok s -> mems s !! mem = Some m -> dirs s !! pm_directory m = Some dd -> mem <> 0 ->
  exists s', destroy_process_memory junk cpu mem s = Ok (tt, s') /\
    words s' = words s /\ dirs s' = delete (pm_directory m) (dirs s) /\ mems s' = delete mem (mems s) /\
    mmap_file_table s' = without_pd (physical_addr dd) <$> mmap_file_table s /\
    forall g, 4096 <= g < 8192 -> rc (fa s') g <= Z.max 0 (rc (fa s) g - 1).
Proof.
  intros Hs Hh Hf Hm Hd Hmem. destruct (mi_dir _ _ _ Hs _ _ Hd) as (Hd0 & _). unfold destroy_process_memory.
  rewrite (proj2 (Z.eqb_neq _ _) Hmem), (bind_ok _ _ _ _ _ (get_mem_ok s mem m Hm)), (proj2 (Z.eqb_neq _ _) Hd0). cbn [negb].
  set (s1 := set_mmap_files (without_pd (physical_addr dd) <$> mmap_file_table s) s).
  assert (wp (destroy_page_directory junk cpu (pm_directory m)) (fun _ s' => destroyed s1 L (pm_directory m) s') s1) as Hw.
  { eapply destroy_page_directory_ok; [done|by apply inv_files|destruct Hh; by constructor|exact Hd]. }
  apply wp_elim in Hw as ([] & s2 & E & [(q & m' & E2 & _ & Hr2) _ Hg]).
  assert ((d ← get_dir (pm_directory m); mmap_file_clear_pd (physical_addr d);; destroy_page_directory junk cpu (pm_directory m)) s = Ok (tt, s2)) as Ed.
  { rewrite (bind_ok _ _ _ _ _ (get_dir_ok s _ dd Hd)), (bind_ok _ _ _ _ _ (clear_pd_ok s _ Hf)). exact E. }
  rewrite (bind_ok _ _ _ _ _ Ed).
  assert (pm_directory m <> mem) as Hne.
  { intros Ee. pose proof (hi_mems _ _ Hh mem ltac:(eauto)) as E1. rewrite Ee in Hd. rewrite (hi_dirs _ _ Hh mem ltac:(eauto)) in E1. done. }
  destruct (kfree_spec _ _ mem PROCESS_MEMORY_SIZE Hr2) as (m3 & E3 & _).
  { rewrite lookup_delete_ne by done. by apply (hi_mems _ _ Hh); eauto. }
  eexists. split; [unfold free_mem, kfree_do, zoom, bind; rewrite E2; cbn [mheap set_dirs set_mheap]; rewrite E3; reflexivity|].
  rewrite E2 in Hg. done.
Qed.


(** ** clone_process_memory *)

(** The entry of a page after sharing. *)
Definition shared_entry (e : Z) : Z := if present e then cow_ro e else e.

(** The space [d] of the new object [mem] has the pages of the space of [ms]. *)
Record cloned s (ms : process_memory) (mem d : Z) s' (R' : roles) : Prop := {
  cl_inv : mm_inv s' R';
  cl_heap : exists L', heap_inv s' L';
  cl_mem : mem <> 0 /\ mems s !! mem = None;
  cl_mems : mems s' = <[mem := ProcessMemory d (brk ms) (stack_base ms) (mmap_regions ms) (mmap_next_addr ms)]> (mems s);
  cl_dir : d <> 0 /\ dirs s !! d = None /\ is_Some (dirs s' !! d);
  cl_dirs d' : d' <> d -> physical_addr <$> dirs s' !! d' = physical_addr <$> dirs s !! d';
  cl_parent v : user_vpn v -> pte s' (pm_directory ms) v = shared_entry (pte s (pm_directory ms) v);
  cl_child v : user_vpn v ->
    if present (pte s (pm_directory ms) v) then pte s' d v = cow_ro (pte s (pm_directory ms) v) else present (pte s' d v) = false;
  cl_others d' v : user_vpn v -> d' <> pm_directory ms -> d' <> d -> pte s' d' v = pte s d' v;
  cl_data d' v f i : user_vpn v -> maps junk s d' v f -> 0 <= i < 1024 -> word s' (addr_of f + 4 * i) = word s (addr_of f + 4 * i);
  cl_rest : mmap_file_table s' = mmap_file_table s /\ cr3 s' = cr3 s
}.

(** The child before sharing: an object like the parent's, with no page. *)
Record blank s (R : roles) (ms : process_memory) (mem d : Z) s' (R' : roles) (L' : gmap Z Z) : Prop := {
  bl_inv : mm_inv s' R';
  bl_heap : heap_inv s' L';
  bl_mem : mem <> 0 /\ mems s !! mem = None;
  bl_mems : mems s' = <[mem := ProcessMemory d (brk ms) (stack_base ms) (mmap_regions ms) (mmap_next_addr ms)]> (mems s);
  bl_owned : owned R' <= owned R + 65;
  bl_dir : d <> 0 /\ dirs s !! d = None /\ is_Some (dirs s' !! d);
  bl_dirs d' : d' <> d -> physical_addr <$> dirs s' !! d' = physical_addr <$> dirs s !! d';
  bl_empty v : user_vpn v -> present (pte s' d v) = false;
  bl_others d' v : user_vpn v -> d' <> d -> pte s' d' v = pte s d' v;
  bl_data f h ps i : R !! f = Some (RPages h ps) -> 0 <= i < 1024 -> word s' (addr_of f + 4 * i) = word s (addr_of f + 4 * i);
  bl_roles d' f h' ps' v : d' <> d -> R' !! f = Some (RPages h' ps') -> (d', v) ∈ ps' ->
    exists h ps, R !! f = Some (RPages h ps) /\ h' + Z.of_nat (size ps') <= h + Z.of_nat (size ps) /\ ps' ⊆ ps;
  bl_rest : mmap_file_table s' = mmap_file_table s /\ cr3 s' = cr3 s
}.

Lemma blank_ok s R L src ms :
  mm_inv s R -> heap_inv s L -> mems s !! src = Some ms ->
  wp (dst ← create_process_memory junk cpu;
      if dst =? 0 then ret 0
      else
        ms ← get_mem src;
        md ← get_mem dst;
        put_mem dst (ProcessMemory (pm_directory md) (brk ms) (stack_base ms) (mmap_regions ms) (mmap_next_addr ms));;
        purge_dst_user_pages junk cpu dst;;
        ret dst)
    (fun mem s' => (mem = 0 /\ (no_heap (mheap s) \/ 5248 <= owned R + 65)) \/ exists d R' L', blank s R ms mem d s' R' L') s.
Proof.
  intros Hs Hh Hms. eapply wp_step; [by eapply create_process_memory_ok|]. intros mem s1 [[-> Hoom]|(d & R1 & L1 & Hns)].
  { rewrite Z.eqb_refl. apply wp_ret. by left. }
  destruct Hns as [Hs1 Hh1 HR1 Hw1 Hd1 [Hm0 Hmn] (rs & _ & _ & Em) (Hd0 & Hdn & [dd Hdd]) Hds Ho _ _ [Ef Ec]].
  rewrite (proj2 (Z.eqb_neq _ _) Hm0). assert (src <> mem) as Hsm by congruence.
  eapply wp_bind_ok; [apply get_mem_ok; rewrite Em, lookup_insert_ne by done; exact Hms|].
  eapply wp_bind_ok; [apply get_mem_ok; rewrite Em; apply lookup_insert_eq|]. cbn [pm_directory].
  eapply wp_bind_ok; [apply put_mem_ok|]. set (pm := ProcessMemory d _ _ _ _). set (s2 := set_mems _ _).
  assert (mems s2 = <[mem := pm]> (mems s)) as Em2 by (unfold s2; cbn [mems set_mems]; by rewrite Em, insert_insert_eq).
  assert (heap_inv s2 L1) as Hh2 by (apply heap_put_mem; [done|]; apply (hi_mems _ _ Hh1); rewrite Em, lookup_insert_eq; eauto).
  eapply wp_step; [eapply (purge_ok junk cpu Hcpu s2 R1 mem pm dd); [by apply inv_mems|rewrite Em2; apply lookup_insert_eq|exact Hdd]|].
  intros u s3 (R3 & [Hs3 He3 Hd3 HR3] & Ho3 & Hempty). cbn [pm_directory pm] in Ho3, Hempty. pose proof He3 as (Hsp3 & Em3 & Ef3 & _ & Ec3).
  apply wp_ret. right. exists d, R3, L1. constructor; try done.
  - by eapply heap_env.
  - by rewrite Em3.
  - etrans; [|exact Hw1]. apply owned_subset. intros g [r Hg]. destruct (HR3 g r Hg) as (r1 & ? & _). eauto.
  - split; [done|]. split; [done|]. specialize (Hsp3 d). change (dirs s2) with (dirs s1) in Hsp3. rewrite Hdd in Hsp3.
    apply fmap_Some in Hsp3 as (dd3 & ? & _). by exists dd3.
  - intros d' Hne. rewrite (Hsp3 d'). by apply Hds.
  - intros d' v Hv Hne. rewrite Ho3 by done. by apply Ho.
  - intros f h ps i Hf Hi. etrans; [eapply (same_rest_data junk _ _ _ Hd3); [by eapply lookup_weaken|done]|]. by eapply Hd1.
  - intros d' f h' ps' v Hne Hf Hin. destruct (HR3 f _ Hf) as (r & Hr & Hc & Hsub). destruct r as [| |h ps]; try done.
    destruct (pg_owner _ _ _ (mi_pages _ _ _ Hs1) f h ps d' v Hr) as [Hv Hmp]; [by apply Hsub|].
    assert (maps junk s d' v f) as Hmp' by (unfold maps in *; by rewrite <- Ho).
    destruct (maps_owner junk s R d' v f Hs Hv Hmp') as (k & qs & Hk & _). pose proof (lookup_weaken _ _ _ _ Hk HR1) as Hk1.
    rewrite Hr in Hk1. injection Hk1 as <- <-. by exists h, ps.
  - by rewrite Ef3, Ec3.
Qed.


Lemma blank_low s R ms mem d s' R' L' :
  blank s R ms mem d s' R' L' -> pm_directory ms <> d -> counts_low R (pm_directory ms) -> counts_low R' (pm_directory ms).
Proof.
  intros Hb Hne Hlow f h' ps' v Hf Hin. destruct (bl_roles _ _ _ _ _ _ _ _ Hb _ f h' ps' v Hne Hf Hin) as (h & ps & HR & Hc & Hsub).
  pose proof (Hlow f h ps v HR ltac:(set_solver)). apply subseteq_size in Hsub. lia.
Qed.

Lemma blank_maps s R ms mem d s' R' L' d' v f :
  blank s R ms mem d s' R' L' -> user_vpn v -> maps junk s d' v f -> maps junk s' d' v f.
Proof.
  intros Hb Hv Hm. unfold maps. rewrite (bl_others _ _ _ _ _ _ _ _ Hb); [done|done|]. intros ->. destruct Hm as [Hp _].
  unfold PagingProofs.pte in Hp. by rewrite (proj1 (proj2 (bl_dir _ _ _ _ _ _ _ _ Hb))) in Hp.
Qed.

Lemma shared_cloned s R ms mem d s1 R1 L1 s2 R2 :
  mm_inv s R -> blank s R ms mem d s1 R1 L1 -> pm_directory ms <> d ->
  shared junk s1 R1 (pm_directory ms) d 786432 s2 R2 -> cloned s ms mem d s2 R2.
Proof.
  intros Hs Hb Hne [Hs2 He2 Hd2 _ _ _ Hp2]. pose proof Hb as [Hs1 Hh1 Hm1 Em1 Hw1 (Hd0 & Hdn & [dd Hdd]) Hds He Ho Hd1 HR1 [Ef1 Ec1]].
  pose proof He2 as (Hsp2 & Em2 & Ef2 & _ & Ec2).
  assert (forall v, user_vpn v -> pte s1 (pm_directory ms) v = pte s (pm_directory ms) v) as Hpp by (intros; by apply Ho).
  constructor; try done.
  - exists L1. by eapply heap_env.
  - by rewrite Em2.
  - split; [done|]. split; [done|]. specialize (Hsp2 d). rewrite Hdd in Hsp2. apply fmap_Some in Hsp2 as (dd2 & ? & _). by exists dd2.
  - intros d' Hd'. rewrite (Hsp2 d'). by apply Hds.
  - intros v Hv. rewrite Hp2, Hpp by done. unfold shared_entry, user_vpn in *. destruct (present _) eqn:Hp.
    + rewrite decide_True; [done|]. split; [by left|]. split; [lia|done].
    + by rewrite decide_False by (intros (_ & _ & ?); done).
  - intros v Hv. rewrite Hp2, Hpp by done. unfold user_vpn in *. destruct (present (pte s _ v)) eqn:Hp.
    + rewrite decide_True; [done|]. split; [by right|]. split; [lia|done].
    + rewrite decide_False by (intros (_ & _ & ?); done). by apply He.
  - intros d' v Hv Hn1 Hn2. rewrite Hp2, decide_False by (done || intros ([? | ?] & _); done). by apply Ho.
  - intros d' v f i Hv Hmp Hi. destruct (maps_owner junk s R d' v f Hs Hv Hmp) as (h & ps & Hf & _).
    destruct (maps_owner junk s1 R1 d' v f Hs1 Hv) as (h1 & ps1 & Hf1 & _); [by eapply blank_maps|].
    etrans; [by eapply Hd2|by eapply Hd1].
  - by rewrite Ef2, Ec2.
Qed.

Lemma clone_ok s R L src ms :
  mm_inv s R -> heap_inv s L -> files_ok s -> src <> 0 -> mems s !! src = Some ms -> is_Some (dirs s !! pm_directory ms) ->
  counts_low R (pm_directory ms) ->
  wp (clone_process_memory junk cpu src) (fun mem s' => (mem = 0 /\ (no_heap (mheap s) \/ 5248 <= owned R + 825)) \/ exists d R', cloned s ms mem d s' R') s.
Proof.
  intros Hs Hh Hf Hsrc Hms [dds Hds] Hlow. unfold clone_process_memory. rewrite (proj2 (Z.eqb_neq _ _) Hsrc).
  eapply wp_bind_ok; [by apply get_mem_ok|]. destruct (mi_dir _ _ _ Hs _ _ Hds) as (Hd0 & _). rewrite (proj2 (Z.eqb_neq _ _) Hd0).
  pose proof (blank_ok s R L src ms Hs Hh Hms) as Hb. rewrite wp_bind in Hb. apply wp_bind. eapply wp_mono; [exact Hb|].
  clear Hb. intros dst s0 Hb. cbv beta in Hb. destruct (Z.eqb_spec dst 0) as [->|Hdst].
  { apply wp_ret in Hb. apply wp_ret. destruct Hb as [[_ Hb]|(d & R1 & L1 & Hb)]; [|by destruct (bl_mem _ _ _ _ _ _ _ _ Hb)].
    left. split; [done|]. destruct Hb as [?|?]; [by left|right; lia]. }
  do 4 (rewrite wp_bind in Hb; apply wp_bind; eapply wp_mono; [exact Hb|]; clear Hb; intros ? s1 Hb; cbv beta in Hb; try clear s0; try rename s1 into s0).
  rename s0 into s4. apply wp_ret in Hb. destruct Hb as [[? _]|(d & R1 & L1 & Hb)]; [done|].
  pose proof Hb as [Hs1 Hh1 [Hm0 Hmn] Em1 Hw1 (Hdd0 & Hdn & Hdd) Hds1 He Ho Hd1 HR1 [Ef1 Ec1]].
  assert (pm_directory ms <> d) as Hne by congruence.
  assert (is_Some (dirs s4 !! pm_directory ms)) as Hsd.
  { specialize (Hds1 _ Hne). rewrite Hds in Hds1. apply fmap_Some in Hds1 as (dd4 & ? & _). by exists dd4. }
  assert (src <> dst) as Hsm by congruence. set (pm := ProcessMemory d _ _ _ _) in Em1.
  assert (mems s4 !! dst = Some pm) as Hpm by (rewrite Em1; apply lookup_insert_eq).
  eapply wp_step; [eapply (cow_share_ok junk cpu Hcpu s4 R1 src dst ms pm); try done; [by rewrite Em1, lookup_insert_ne|by eapply blank_low]|].
  intros r s5 [(-> & R5 & H5)|(-> & Hex & R5 & Hs5 & He5 & _)]; cbn [Z.ltb Z.compare].
  - apply wp_ret. right. exists d, R5. by eapply shared_cloned.
  - pose proof He5 as (Hsp5 & Em5 & Ef5 & _). destruct Hdd as [dd Hdd]. specialize (Hsp5 d). rewrite Hdd in Hsp5.
    apply fmap_Some in Hsp5 as (dd5 & Hdd5 & _).
    destruct (destroy_process_memory_ok s5 R5 L1 dst pm dd5) as (s6 & E6 & _); try done.
    { by eapply heap_env. } { unfold files_ok. by rewrite Ef5, Ef1. } { by rewrite Em5. }
    eapply wp_bind_ok; [exact E6|]. apply wp_ret. left. split; [done|]. right. lia.
Qed.

End Clone.
