(* ===== verification/MmSpec.v ===== *)
(** * What the memory manager promises

    The states the kernel's memory reaches from boot through the operations on
    address spaces, and what holds in each of them; copy-on-write sharing and
    its resolution; translation of addresses. *)

From stdpp Require Import base tactics numbers list gmap.
From S2P Require Import Prelude FrameAlloc Alloc Paging PagingProofs PagingOps PagingBoot PagingDestroy ProcessMm.
From S2P Require Import ProcessMmProofs ProcessMmPurge ProcessMmShare ProcessMmClone.

(** The word [i] of the user page [v] of the space [d]. *)
Definition page_word {M} (junk : Z -> Z) (s : mm M) (d v i : Z) : Z := word junk s (frame_of (pte junk s d v) + 4 * i).

Section Reach.
Context {M : Type} {KM : Kmalloc M} {KI : KernelImage}.
Variable junk : Z -> Z.
Variable cpu : Z.
Hypothesis Hcpu : 0 <= cpu < MAX_CPUS.
Implicit Types s : mm M.
Abbreviation word := (word junk).
Abbreviation pte := (pte junk).
Abbreviation mm_inv := (mm_inv junk).

(** ** Reachable states *)

(** No frame of the space [d] has a reference count near the limit. *)
Definition rc_low s (d : Z) : Prop := forall v f, user_vpn v -> maps junk s d v f -> rc (fa s) f <= 32767.

Inductive mm_reach : mm M -> Prop :=
| reach_boot s0 s L :
    mm_bss junk s0 -> mems s0 = ∅ -> files_ok s0 -> km_rep (mheap s0) L -> paging_init s0 = Ok (tt, s) -> mm_reach s
| reach_create s mem s' :
    mm_reach s -> create_process_memory junk cpu s = Ok (mem, s') -> mem <> 0 -> mm_reach s'
| reach_clone s src ms mem s' :
    mm_reach s -> mems s !! src = Some ms -> rc_low s (pm_directory ms) -> clone_process_memory junk cpu src s = Ok (mem, s') -> mem <> 0 -> mm_reach s'
| reach_fault s d a r s' :
    mm_reach s -> is_Some (dirs s !! d) -> user_vpn (a / 4096) -> handle_cow_fault junk cpu d a s = Ok (r, s') -> mm_reach s'
| reach_switch s d s' :
    mm_reach s -> switch_page_directory d s = Ok (tt, s') -> mm_reach s'
| reach_store s d v i x :
    mm_reach s -> user_vpn v -> present (pte s d v) = true -> 0 <= i < 1024 -> is_u32 x ->
    mm_reach (put (frame_of (pte s d v) + 4 * i) x s).

(** What holds in all of them. *)
Record mm_ok s (R : roles) (L : gmap Z Z) : Prop := {
  ok_inv : mm_inv s R;
  ok_heap : heap_inv s L;
  ok_files : files_ok s;
  ok_mems p m : mems s !! p = Some m -> p <> 0 /\ is_Some (dirs s !! pm_directory m)
}.

Lemma ok_env s R L s' R' : mm_ok s R L -> mm_inv s' R' -> same_env s s' -> mm_ok s' R' L.
Proof.
  intros [_ Hh Hf Hm] Hs' He. pose proof He as (Hsp & Em & Ef & _). constructor; [done|by eapply heap_env|unfold files_ok; by rewrite Ef|].
  intros p m. rewrite Em. intros Hp. destruct (Hm p m Hp) as [? [dd Hd]]. split; [done|]. specialize (Hsp (pm_directory m)).
  rewrite Hd in Hsp. apply fmap_Some in Hsp as (dd' & ? & _). by exists dd'.
Qed.

Lemma low_counts s R d : mm_inv s R -> rc_low s d -> counts_low R d.
Proof.
  intros Hs Hlow f h ps v Hf Hin. destruct (pg_owner _ _ _ (mi_pages _ _ _ Hs) f h ps d v Hf Hin) as [Hv Hmp]. destruct (live_bounds _ _ _ f (h + Z.of_nat (size ps)) (mi_fa _ _ _ Hs)) as (Hb & Erc & _).
  { by rewrite lookup_fmap, Hf. }
  specialize (Hlow v f Hv Hmp). pose proof (mi_held _ _ _ Hs _ _ _ Hf). lia.
Qed.

Lemma live_space s s' (d d' : Z) :
  (forall k, k <> d -> physical_addr <$> dirs s' !! k = physical_addr <$> dirs s !! k) -> is_Some (dirs s' !! d) ->
  is_Some (dirs s !! d') -> is_Some (dirs s' !! d').
Proof.
  intros H Hd [dd Hdd]. destruct (decide (d' = d)) as [->|Hne]; [done|]. specialize (H d' Hne). rewrite Hdd in H.
  apply fmap_Some in H as (dd' & ? & _). by exists dd'.
Qed.

Lemma ok_new s R L s' R' L' mem d pm :
  mm_ok s R L -> mm_inv s' R' -> heap_inv s' L' -> mmap_file_table s' = mmap_file_table s -> mem <> 0 ->
  mems s' = <[mem := pm]> (mems s) -> pm_directory pm = d -> is_Some (dirs s' !! d) ->
  (forall k, k <> d -> physical_addr <$> dirs s' !! k = physical_addr <$> dirs s !! k) -> mm_ok s' R' L'.
Proof.
  intros [_ _ Hf Hm] Hs' Hh' Ef Hmem Em Epm Hd Hds. constructor; [done|done|unfold files_ok; by rewrite Ef|].
  intros p m. rewrite Em. intros [[<- <-]|[_ Hp]]%lookup_insert_Some; [by rewrite Epm|].
  destruct (Hm p m Hp). split; [done|]. by eapply live_space.
Qed.

Lemma ok_create s R L mem s' :
  mm_ok s R L -> create_process_memory junk cpu s = Ok (mem, s') -> mem <> 0 -> exists R' L', mm_ok s' R' L'.
Proof.
  intros Hok E Hmem. pose proof (create_process_memory_ok junk cpu Hcpu s R L (ok_inv _ _ _ Hok) (ok_heap _ _ _ Hok)) as Hw.
  unfold wp in Hw. rewrite E in Hw. destruct Hw as [[? _]|(d & R' & L' & [])]; [done|]. exists R', L'.
  destruct ns_mems as (rs & _ & _ & Em). eapply (ok_new s R L); [done|done|done|apply ns_rest|exact Hmem|exact Em|done|apply ns_dir|done].
Qed.

Lemma ok_clone s R L src ms mem s' :
  mm_ok s R L -> mems s !! src = Some ms -> rc_low s (pm_directory ms) -> clone_process_memory junk cpu src s = Ok (mem, s') -> mem <> 0 ->
  exists R' L', mm_ok s' R' L'.
Proof.
  intros Hok Hms Hlow E Hmem. destruct (ok_mems _ _ _ Hok src ms Hms) as [Hsrc Hd]. pose proof (ok_inv _ _ _ Hok) as Hs.
  pose proof (clone_ok junk cpu Hcpu s R L src ms Hs (ok_heap _ _ _ Hok) (ok_files _ _ _ Hok) Hsrc Hms Hd (low_counts s R _ Hs Hlow)) as Hw.
  unfold wp in Hw. rewrite E in Hw. destruct Hw as [[? _]|(d & R' & [])]; [done|]. destruct cl_heap as [L' HL']. exists R', L'.
  eapply (ok_new s R L); [done|done|done|apply cl_rest|exact Hmem|exact cl_mems|done|apply cl_dir|done].
Qed.

Lemma ok_boot s0 s L :
  mm_bss junk s0 -> mems s0 = ∅ -> files_ok s0 -> km_rep (mheap s0) L -> paging_init s0 = Ok (tt, s) -> mm_ok s ∅ L.
Proof.
  intros Hb Hm Hf HL E. pose proof (paging_init_ok junk s0 Hb) as Hw. unfold wp in Hw. rewrite E in Hw.
  destruct Hw as (Hs & Ed & Em & Ef & Eh & _). constructor; [done| |unfold files_ok; by rewrite Ef|intros p m; by rewrite Em, Hm].
  constructor; [by rewrite Eh|intros d [x Hx]; by rewrite Ed in Hx|intros p [x Hx]; by rewrite Em, Hm in Hx].
Qed.

Lemma ok_switch s R L d s' : mm_ok s R L -> switch_page_directory d s = Ok (tt, s') -> mm_ok s' R L.
Proof.
  intros [Hs Hh Hf Hm] E. unfold switch_page_directory, get_dir, bind, gets, id in E.
  destruct (dirs s !! d) as [dd|] eqn:Hd; [|done]. cbn in E. unfold set_cr3, modify in E. injection E as <-.
  constructor; [|destruct Hh; by constructor|done|done]. split; [|by apply (pages_same junk s); [|apply Hs]].
  constructor; try apply Hs. right. by exists d, dd.
Qed.

Lemma mm_reach_ok s : mm_reach s -> exists R L, mm_ok s R L.
Proof.
  induction 1 as [s0 s L Hb Hm Hf HL E|s mem s' _ (R & L & IH) E Hmem|s src ms mem s' _ (R & L & IH) Hms Hlow E Hmem
    |s d a r s' _ (R & L & IH) [dd Hd] Hv E|s d s' _ (R & L & IH) E|s d v i x _ (R & L & IH) Hv Hp Hi Hx].
  - exists ∅, L. by eapply ok_boot.
  - by eapply ok_create.
  - by eapply ok_clone.
  - pose proof (handle_cow_ok junk cpu Hcpu s R d dd a (ok_inv _ _ _ IH) Hd Hv) as Hw. unfold wp in Hw. rewrite E in Hw.
    destruct Hw as (R' & Hs' & He & _). exists R', L. by eapply ok_env.
  - exists R, L. by eapply ok_switch.
  - exists R, L. destruct (inv_pte junk s R d v (ok_inv _ _ _ IH) Hv Hp) as (f & h & ps & -> & Hf & _).
    eapply ok_env; [done| |done]. eapply inv_put_data; [apply IH|done|done|done].
Qed.



(** ** Free frames *)

(** The frames of the pool with a reference. *)
Definition used_frames s : Z := Z.of_nat (length (filter (fun f => 0 < rc (fa s) f) (seqZ 2816 5376))).

Lemma owned_used s R : mm_inv s R -> owned R <= used_frames s.
Proof.
  intros Hs. unfold owned, used_frames. rewrite <- size_dom. apply inj_le. change (size (dom R)) with (length (elements (dom R))).
  apply submseteq_length, NoDup_submseteq; [apply NoDup_elements|]. intros f [r Hf]%elem_of_elements%elem_of_dom.
  destruct (live_bounds _ _ _ f (role_count r) (mi_fa _ _ _ Hs)) as (Hb & Erc & Hn); [by rewrite lookup_fmap, Hf|].
  apply list_elem_of_filter. rewrite Erc. split; [lia|]. apply elem_of_seqZ. lia.
Qed.


(** ** Cloning *)

(** What the child's page and the parent's become. *)
Lemma cloned_page s ms mem d s' R R' v :
  mm_inv s R -> cloned junk s ms mem d s' R' -> user_vpn v -> present (pte s (pm_directory ms) v) = true ->
  pte s' d v = cow_ro (pte s (pm_directory ms) v) /\ pte s' (pm_directory ms) v = cow_ro (pte s (pm_directory ms) v) /\
  frame_of (cow_ro (pte s (pm_directory ms) v)) = frame_of (pte s (pm_directory ms) v) /\
  Z.testbit (cow_ro (pte s (pm_directory ms) v)) 1 = false /\
  Z.testbit (cow_ro (pte s (pm_directory ms) v)) 9 = Z.testbit (pte s (pm_directory ms) v) 9 || Z.testbit (pte s (pm_directory ms) v) 1.
Proof.
  intros Hs Hc Hv Hp. destruct (cow_ro_ok _ (pte_u32 junk s R (pm_directory ms) v Hs)) as (_ & Hf & _ & H1 & _ & H9).
  pose proof (cl_child _ _ _ _ _ _ _ Hc v Hv) as Hch. rewrite Hp in Hch. rewrite (cl_parent _ _ _ _ _ _ _ Hc v Hv).
  unfold shared_entry. rewrite Hp. split_and!; done.
Qed.

Lemma cloned_word s ms mem d s' R R' d' v i :
  mm_inv s R -> cloned junk s ms mem d s' R' -> user_vpn v -> 0 <= i < 1024 -> present (pte s d' v) = true ->
  page_word junk s' d' v i = page_word junk s d' v i.
Proof.
  intros Hs Hc Hv Hi Hp. destruct (inv_pte junk s R d' v Hs Hv Hp) as (f & h & ps & Ef & _).
  assert (frame_of (pte s' d' v) = frame_of (pte s d' v)) as E.
  { destruct (decide (d' = pm_directory ms)) as [->|Hne].
    - destruct (cloned_page s ms mem d s' R R' v Hs Hc Hv Hp) as (_ & -> & -> & _). done.
    - f_equal. apply (cl_others _ _ _ _ _ _ _ Hc); [done|done|]. intros ->. unfold PagingProofs.pte in Hp.
      by rewrite (proj1 (proj2 (cl_dir _ _ _ _ _ _ _ Hc))) in Hp. }
  unfold page_word. rewrite E, Ef. by apply (cl_data _ _ _ _ _ _ _ Hc d' v).
Qed.



(** ** Resolving a copy-on-write fault *)

Lemma store_pte s R f h ps i x d v :
  mm_inv s R -> R !! f = Some (RPages h ps) -> 0 <= i < 1024 -> user_vpn v -> pte (put (addr_of f + 4 * i) x s) d v = pte s d v.
Proof.
  intros Hs Hf Hi Hv. eapply (pte_same junk s); [done|done| |done]. intros g r j Hg Hr Hj. apply put_frame_ne; [done|done|].
  intros ->. rewrite Hf in Hg. by injection Hg as <-.
Qed.

(** A store to the frame [f] changes the pages that map [f] only. *)
Lemma store_word s R f h ps i x d v j :
  mm_inv s R -> R !! f = Some (RPages h ps) -> 0 <= i < 1024 -> 0 <= j < 1024 -> user_vpn v -> present (pte s d v) = true ->
  page_word junk (put (addr_of f + 4 * i) x s) d v j =
    if decide (frame_of (pte s d v) = addr_of f /\ j = i) then x else page_word junk s d v j.
Proof.
  intros Hs Hf Hi Hj Hv Hp. unfold page_word. erewrite store_pte by done.
  destruct (inv_pte junk s R d v Hs Hv Hp) as (g & ? & ? & -> & _). rewrite word_put. case_decide as E; case_decide as E'; try done.
  - apply word_addr_eq in E as [-> ->]; [|done..]. by destruct E'.
  - destruct E' as [E1%addr_of_inj ->]. by rewrite E1 in E.
Qed.


(** ** Creating an address space *)

(** [create_process_memory] fails only when the kernel heap cannot hold the two
    objects or almost all frames are in use.  Otherwise it returns a new object
    whose address space has 32 stack pages below the stack top, present,
    writable, accessible from user mode and filled with zeros, and no other page,
    while every page of every other space is as before. *)
Theorem create_space_has_zeroed_stack s :
  mm_reach s ->
  exists mem s', create_process_memory junk cpu s = Ok (mem, s') /\
    ((mem = 0 /\ (no_heap (mheap s) \/ 5183 <= used_frames s)) \/
     exists m, mems s !! mem = None /\ mems s' = <[mem := m]> (mems s) /\ mm_reach s' /\
       stack_base m = USER_STACK_BASE /\ Forall (fun r => r_in_use r = false) (mmap_regions m) /\
       (forall v, user_vpn v ->
          if bool_decide (USER_STACK_BASE - 32 * 4096 <= v * 4096 < USER_STACK_BASE)
          then Z.land (pte s' (pm_directory m) v) PAGE_MASK = 7 /\ forall i, 0 <= i < 1024 -> page_word junk s' (pm_directory m) v i = 0
          else pte s' (pm_directory m) v = 0) /\
       forall d' v i, user_vpn v -> 0 <= i < 1024 -> is_Some (dirs s !! d') ->
         pte s' d' v = pte s d' v /\ (present (pte s d' v) = true -> page_word junk s' d' v i = page_word junk s d' v i)).
Proof.
  intros Hr. destruct (mm_reach_ok s Hr) as (R & L & [Hs Hh _ _]).
  destruct (proj1 (wp_elim _ _ _) (create_process_memory_ok junk cpu Hcpu s R L Hs Hh)) as (mem & s' & E & Hc). exists mem, s'. split; [done|].
  destruct Hc as [[-> Hoom]|(d & R' & L' & Hn)]; [left|right].
  { split; [done|]. destruct Hoom as [?|?]; [by left|right]. pose proof (owned_used s R Hs). lia. }
  destruct Hn as [Hs' Hh' HR' _ Hda [Hm0 Hmn] (rs & Hrl & Hrs & Em) (Hd0 & Hdn & Hdd) Hds Ho He Hst _].
  eexists. split; [done|]. split; [exact Em|]. split; [by eapply reach_create|]. cbn [stack_base mmap_regions pm_directory]. split; [done|]. split; [done|]. split.
  - intros v Hv. change (USER_STACK_BASE - 32 * 4096) with (524256 * 4096). change USER_STACK_BASE with (524288 * 4096).
    case_bool_decide as Hb; [|apply He; [done|unfold STACK_VPN; lia]].
    destruct (Hst v) as (f & Hf & Ep & Hz); [unfold STACK_VPN; lia|]. destruct (role_pool _ _ _ f _ Hs' Hf) as [Hfb _].
    unfold page_word. rewrite Ep, entry_flags, entry_frame by lia. done.
  - intros d' v i Hv Hi [dd' Hd']. assert (d' <> d) as Hne by congruence. rewrite Ho by done. split; [done|]. intros Hp.
    destruct (inv_pte junk s R d' v Hs Hv Hp) as (g & k & qs & Eg & Hg & _). unfold page_word. rewrite Ho, Eg by done. by eapply Hda.
Qed.


(** ** Mapping, translating and unmapping *)

Lemma translate_pte s s' d d' a a' : pte s' d' (a' / 4096) = pte s d (a / 4096) -> a' mod 4096 = a mod 4096 -> translate junk s' d' a' = translate junk s d a.
Proof. intros H1 H2. unfold translate. by rewrite H1, H2. Qed.

(** The translations of [s'] are those of [s]. *)
Definition translates_as s s' (d a : Z) : Prop :=
  exists p, get_physical_addr junk d a s = Ok (p, s) /\ get_physical_addr junk d a s' = Ok (p, s').

Lemma translates_same s R s' R' d a :
  mm_inv s R -> mm_inv s' R' -> same_spaces s s' -> is_Some (dirs s !! d) -> user_vpn (a / 4096) ->
  pte s' d (a / 4096) = pte s d (a / 4096) -> translates_as s s' d a.
Proof.
  intros Hs Hs' Hsp [dd Hd] Hv Hp. pose proof (Hsp d) as Hd'. rewrite Hd in Hd'. apply fmap_Some in Hd' as (dd' & Hd' & _).
  exists (translate junk s d a). split; [by eapply get_physical_addr_ok|]. rewrite (get_physical_addr_ok junk s' R' d dd' a) by done.
  do 2 f_equal. by apply translate_pte.
Qed.

(** C19: Mapping a newly allocated frame at a free user page makes every address of
    that page translate to the frame's address at the same offset, and unmapping
    it restores every translation; all other addresses of all spaces translate as
    before throughout.  It fails only when almost all frames are in use. *)
Theorem map_translate_unmap s d virt flags :
  mm_reach s -> is_Some (dirs s !! d) -> user_vpn (virt / 4096) -> present (pte s d (virt / 4096)) = false ->
  0 <= flags < 4096 -> present flags = true ->
  exists frame s1, frames_do (allocate_frame cpu) s = Ok (frame, s1) /\
    ((frame = NO_FRAME /\ 5248 <= used_frames s) \/
     exists r s2, map_page junk cpu d virt frame flags s1 = Ok (r, s2) /\
       ((r = -1 /\ 5247 <= used_frames s) \/
        (r = 0 /\ (forall a, a / 4096 = virt / 4096 -> get_physical_addr junk d a s2 = Ok (frame + a mod 4096, s2)) /\
         (forall d' a, is_Some (dirs s !! d') -> user_vpn (a / 4096) -> ~ (d' = d /\ a / 4096 = virt / 4096) -> translates_as s s2 d' a) /\
         exists s3, unmap_page junk d virt s2 = Ok (tt, s3) /\
           forall d' a, is_Some (dirs s !! d') -> user_vpn (a / 4096) -> translates_as s s3 d' a))).
Proof.
  intros Hr [dd Hd] Hv Hnp Hfl Hpf. destruct (mm_reach_ok s Hr) as (R & L & [Hs _ _ _]). pose proof (owned_used s R Hs) as Hu.
  destruct (inv_alloc junk cpu Hcpu s R Hs) as (frame & q & E1 & Hal). exists frame, (set_fa q s). split; [done|]. clear E1.
  destruct Hal as [(-> & Hex & _)|(f & -> & Hfb & Hnone & Hs1)]; [left; split; [done|unfold exhausted in Hex; lia]|right].
  destruct (proj1 (wp_elim _ _ _) (map_held_ok junk cpu Hcpu (set_fa q s) _ f d dd virt flags Hs1 (lookup_insert_eq _ _ _) Hd Hv Hfl Hpf Hnp))
    as (r & s2 & E2 & R2 & Hs2 & He2 & _ & _ & Hres).
  exists r, s2. split; [done|]. pose proof (owned_insert R f (RPages 1 ∅)).
  destruct Hres as [(-> & Hex & _)|(-> & _ & Hf2 & Hp2)]; [left; split; [done|unfold exhausted in Hex; lia]|right]. split; [done|].
  change (pte (set_fa q s)) with (pte s) in Hp2. assert (same_spaces s s2) as Hsp by apply He2.
  pose proof (Hsp d) as Hd2. rewrite Hd in Hd2. apply fmap_Some in Hd2 as (dd2 & Hd2 & _). split_and!.
  - intros a Ea. rewrite (get_physical_addr_ok junk s2 R2 d dd2 a Hs2 Hd2) by (by rewrite Ea). unfold translate.
    rewrite Ea, Hp2, decide_True by done. rewrite entry_present, Hpf, entry_frame by (done || lia). do 2 f_equal. apply lor_entry. by apply Z.mod_pos_bound.
  - intros d' a Hd' Hva Hne. eapply translates_same; try done. by rewrite Hp2, decide_False.
  - destruct (unmap_page_raw junk s2 R2 d dd2 virt Hs2 Hd2 Hv) as (s3 & E3 & [[Ht ->]|[Hnp2 _]]).
    2:{ rewrite Hp2, decide_True, entry_present in Hnp2 by done. congruence. }
    eexists. split; [exact E3|]. intros d' a Hd' Hva.
    destruct (slot_put junk s2 R2 d dd2 (virt / 4096) 0 Hs2 Hd2 Hv Ht ltac:(done)) as (_ & _ & _ & Hp3).
    assert (maps junk s2 d (virt / 4096) f) as Hm2 by (unfold maps; rewrite Hp2, decide_True by done; by rewrite entry_present, entry_frame by lia).
    pose proof (clear_pte junk s2 R2 d dd2 (virt / 4096) 0 f 0 _ Hs2 Hd2 Hv Ht ltac:(done) ltac:(done) Hm2 Hf2) as Hs3.
    destruct Hd' as [dd' Hdd']. pose proof (Hsp d') as Hd3. rewrite Hdd' in Hd3. apply fmap_Some in Hd3 as (dd3 & Hd3 & _).
    exists (translate junk s d' a). split; [by eapply get_physical_addr_ok|].
    rewrite (get_physical_addr_ok junk _ _ d' dd3 a Hs3 Hd3 Hva). do 2 f_equal. unfold translate. rewrite Hp3 by done.
    case_decide as E; [destruct E as [-> ->]; by rewrite Hnp|]. by rewrite Hp2, decide_False.
Qed.

(** ** Destroying an address space *)

(** C20: [destroy_process_memory] drops a reference of every frame from 16 MB to 32 MB,
    whether or not the destroyed space maps it: its loop over the directory also
    walks the kernel's identity tables.  A page of another space that owns such a
    frame alone still maps it afterwards, with its reference count at zero, so
    the frame can be handed out again. *)
Theorem destroy_drops_foreign_counts s mem m :
  mm_reach s -> mems s !! mem = Some m ->
  exists s', destroy_process_memory junk cpu mem s = Ok (tt, s') /\
    (forall f, 4096 <= f < 8192 -> rc (fa s') f <= Z.max 0 (rc (fa s) f - 1)) /\
    forall d v f, d <> pm_directory m -> maps junk s d v f -> 4096 <= f < 8192 -> rc (fa s) f = 1 ->
      maps junk s' d v f /\ rc (fa s') f <= 0.
Proof.
  intros Hr Hmem. destruct (mm_reach_ok s Hr) as (R & L & [Hs Hh Hf Hm]). destruct (Hm mem m Hmem) as [Hn [dd Hd]].
  destruct (destroy_process_memory_ok junk cpu Hcpu s R L mem m dd Hs Hh Hf Hmem Hd Hn) as (s' & E & Ew & Ed & _ & _ & Hrc).
  exists s'. split; [done|]. split; [done|]. intros d v f Hne Hmp Hb H1. split; [|specialize (Hrc f Hb); lia].
  assert (pte s' d v = pte s d v) as Ep; [|unfold maps in *; by rewrite Ep]. unfold PagingProofs.pte, Paging.word.
  by rewrite Ed, Ew, lookup_delete_ne.
Qed.

End Reach.

(** ** An example *)

(** A kernel image with its tables from 1 MB on, a heap and memory full of zeros. *)
Definition example_image : KernelImage.
Proof.
  refine {| kernel_page_directory := 1048576; kernel_page_table := fun t => 1052672 + 4096 * t; mmio_pt := fun k => 1085440 + 4096 * k |};
    change NUM_KERNEL_PAGE_TABLES with 8; change MMIO_PT_POOL_SIZE with 4; change KERNEL_HEAP_START with 3145728; intros;
    split_and?; try lia; Z.div_mod_to_equations; lia.
Defined.

Definition example_bss : mm arena :=
  Mm ∅ 0 frames_bss ∅ ∅ (replicate 128 (MmapFileRegion false 0 0 0 0 0 0)) 0 false arena_init.

Abbreviation example_reach := (mm_reach (KI := example_image) (fun _ => 0) 0).

Lemma cpu0 : 0 <= 0 < MAX_CPUS.
Proof. done. Qed.

Lemma example_heap : ~ no_heap arena_init.
Proof.
  intros [[m' Hm]|(p & m' & Hm & m'' & Hm')]; [vm_compute in Hm; discriminate|]. unfold kmalloc, arena_kmalloc, arena_alloc in *.
  destruct (_ || _) eqn:E; [vm_compute in E; discriminate|]. injection Hm as <- <-. destruct (_ || _) eqn:E' in Hm'; [vm_compute in E'; discriminate|].
  vm_compute in Hm'. discriminate.
Qed.

(** A reachable state with one address space. *)
Lemma example_space : exists s mem m, example_reach s /\ mems s !! mem = Some m /\ is_Some (dirs s !! pm_directory m) /\
  rc_low (fun _ => 0) s (pm_directory m) /\ present (pte (fun _ => 0) s (pm_directory m) STACK_VPN) = true /\
  pte (fun _ => 0) s (pm_directory m) 8192 = 0.
Proof.
  assert (mm_bss (fun _ => 0) example_bss) as Hb by (constructor; [done|done|]; intros a; unfold Paging.word; cbn [words example_bss]; by rewrite lookup_empty).
  destruct (proj1 (wp_elim _ _ _) (paging_init_ok (KI := example_image) (fun _ => 0) example_bss Hb)) as ([] & s1 & E1 & Hs1 & Ed & Em & Ef & Eh & _).
  assert (example_reach s1) as Hr1 by (eapply (reach_boot _ _ example_bss _ ∅); [done|done|done|apply arena_init_rep|exact E1]). clear E1 Hb.
  destruct (mm_reach_ok (KI := example_image) (fun _ => 0) 0 cpu0 s1 Hr1) as (R0 & L & [_ Hh _ _]).
  destruct (proj1 (wp_elim _ _ _) (create_process_memory_ok (KI := example_image) (fun _ => 0) 0 cpu0 s1 ∅ L Hs1 Hh)) as (mem & s2 & E2 & Hc).
  destruct Hc as [[_ [Hno|Hex]]|(d & R & L' & Hn)].
  - rewrite Eh in Hno. by destruct (example_heap Hno).
  - exfalso. by apply Hex.
  - pose proof Hn as [Hs2 _ _ _ _ [Hm0 _] (rs & _ & _ & Em2) (_ & _ & Hd) _ _ He Hst _].
    exists s2, mem. eexists. split; [by eapply reach_create|]. split; [rewrite Em2; apply lookup_insert_eq|]. cbn [pm_directory]. split; [done|]. split_and!.
    + intros v f Hv Hmp. destruct (decide (STACK_VPN <= v < STACK_VPN + 32)) as [Hb'|Hb']; [|destruct Hmp as [Hp _]; by rewrite (He v Hv Hb') in Hp].
      destruct (Hst v Hb') as (g & Hg & Ep & _). destruct (role_pool _ _ _ g _ Hs2 Hg) as [Hgb _]. destruct Hmp as [_ Hfr]. rewrite Ep, entry_frame in Hfr by lia.
      apply addr_of_inj in Hfr as ->. destruct (live_bounds _ _ _ f 1 (mi_fa _ _ _ Hs2)) as (_ & -> & _); [|lia]. by rewrite lookup_fmap, Hg; cbn [fmap option_fmap option_map role_count]; rewrite size_singleton.
    + destruct (Hst STACK_VPN) as (g & Hg & Ep & _); [unfold STACK_VPN; lia|]. destruct (role_pool _ _ _ g _ Hs2 Hg) as [Hgb _]. by rewrite Ep, entry_present.
    + apply He; [done|]. unfold STACK_VPN. lia.
Qed.





Lemma create_space_has_zeroed_stack_witness :
  exists s, example_reach s /\ exists mem s', create_process_memory (KI := example_image) (fun _ => 0) 0 s = Ok (mem, s').
Proof.
  destruct example_space as (s & _ & _ & Hr & _). exists s. split; [exact Hr|].
  destruct (create_space_has_zeroed_stack (KI := example_image) (fun _ => 0) 0 cpu0 s Hr) as (mem & s' & E & _). by exists mem, s'.
Defined.

Lemma map_translate_unmap_witness :
  exists s d, example_reach s /\ is_Some (dirs s !! d) /\ present (pte (fun _ => 0) s d 8192) = false /\
    exists frame s1, frames_do (allocate_frame 0) s = Ok (frame, s1).
Proof.
  destruct example_space as (s & mem & m & Hr & _ & Hd & _ & _ & H0). exists s, (pm_directory m). split; [exact Hr|]. split; [exact Hd|].
  assert (present (pte (fun _ => 0) s (pm_directory m) (33554432 / 4096)) = false) as Hp by (change (33554432 / 4096) with 8192; rewrite H0; reflexivity).
  split; [exact Hp|].
  destruct (map_translate_unmap (KI := example_image) (fun _ => 0) 0 cpu0 s (pm_directory m) 33554432 7 Hr Hd ltac:(done) Hp ltac:(lia) ltac:(done)) as (frame & s1 & E & _).
  by exists frame, s1.
Defined.

Lemma destroy_drops_foreign_counts_witness :
  exists s mem m, example_reach s /\ mems s !! mem = Some m /\
    exists s', destroy_process_memory (fun _ => 0) 0 mem s = Ok (tt, s') /\
      forall f, 4096 <= f < 8192 -> rc (fa s') f <= Z.max 0 (rc (fa s) f - 1).
Proof.
  destruct example_space as (s & mem & m & Hr & Hm & _). exists s, mem, m. split; [exact Hr|]. split; [exact Hm|].
  destruct (destroy_drops_foreign_counts (KI := example_image) (fun _ => 0) 0 cpu0 s mem m Hr Hm) as (s' & E & H & _). by exists s'.
Defined.
