(* ===== verification/Uaccess.v ===== *)
(** * Copies across the user/kernel boundary

    Models mm/uaccess.c.  A user pointer is an address, 0 for NULL; a kernel
    buffer is the list of its bytes, [None] for NULL. *)

From stdpp Require Import base tactics numbers list gmap.
From S2P Require Import Prelude Fd FrameAlloc Paging.

Definition USER_MIN_VA := PAGE_SIZE_CONST.

Definition access_ok (addr size : Z) : bool :=
  if addr =? 0 then false
  else if KERNEL_BASE <=? addr then false
  else if u32 (addr + size) <? addr then false
  else if KERNEL_BASE <? u32 (addr + size) then false
  else if addr <? USER_MIN_VA then false
  else true.

Section Uaccess.
Context {M : Type}.
Variable junk : Z -> Z.

(** [for (page = start;; page += PAGE_SIZE_CONST)], left at [end]. *)
Fixpoint resident_loop (fuel : nat) (page end_ : Z) : ST (mm M) bool :=
  match fuel with
  | O => fail NoFuel
  | S fuel' =>
      p ← get_physical_addr_current junk page;
      if p =? 0 then ret false
      else if page =? end_ then ret true
      else resident_loop fuel' (u32 (page + PAGE_SIZE_CONST)) end_
  end.

Definition user_range_resident (addr size : Z) : ST (mm M) bool :=
  if size =? 0 then ret true
  else
    let start := Z.land addr (u32 (Z.lnot PAGE_MASK)) in
    let end_ := Z.land (u32 (addr + size - 1)) (u32 (Z.lnot PAGE_MASK)) in
    resident_loop (S (Z.to_nat (u32 (end_ - start) / PAGE_SIZE_CONST))) start end_.

Definition user_addr_resident (addr : Z) : ST (mm M) bool :=
  p ← get_physical_addr_current junk (Z.land addr (u32 (Z.lnot PAGE_MASK)));
  ret (negb (p =? 0)).

(** The byte copies of [kmemcpy], with one side in user memory. *)
Fixpoint copy_in_loop (n : nat) (i : Z) (dst : list Z) (src : Z) : ST (mm M) (list Z) :=
  match n with
  | O => ret dst
  | S n' =>
      b ← vldb junk (u32 (src + i));
      dst' ← wr dst i b;
      copy_in_loop n' (i + 1) dst' src
  end.

Fixpoint copy_out_loop (n : nat) (i dst : Z) (src : list Z) : ST (mm M) unit :=
  match n with
  | O => ret tt
  | S n' =>
      b ← rd src i;
      vstb junk (u32 (dst + i)) b;;
      copy_out_loop n' (i + 1) dst src
  end.

(** Returns the status and the buffer. *)
Definition copy_from_user (dst : option (list Z)) (src n : Z) : ST (mm M) (Z * list Z) :=
  match dst with
  | None => ret (- EINVAL, [])
  | Some d =>
      if src =? 0 then ret (- EINVAL, d)
      else if n =? 0 then ret (0, d)
      else if negb (access_ok src n) then ret (- EFAULT, d)
      else
        r ← user_range_resident src n;
        if negb (r : bool) then ret (- EFAULT, d)
        else d' ← copy_in_loop (Z.to_nat n) 0 d src; ret (0, d')
  end.

Definition copy_to_user (dst : Z) (src : option (list Z)) (n : Z) : ST (mm M) Z :=
  match src with
  | None => ret (- EINVAL)
  | Some b =>
      if dst =? 0 then ret (- EINVAL)
      else if n =? 0 then ret 0
      else if negb (access_ok dst n) then ret (- EFAULT)
      else
        r ← user_range_resident dst n;
        if negb (r : bool) then ret (- EFAULT)
        else copy_out_loop (Z.to_nat n) 0 dst b;; ret 0
  end.

(** The loop over the first [n] bytes from [i] on: the status and the buffer. *)
Fixpoint str_loop (n : nat) (i cur_page base max : Z) (dst : list Z) : ST (mm M) (Z * list Z) :=
  match n with
  | O => dst' ← wr dst (max - 1) 0; ret (- EOVERFLOW, dst')
  | S n' =>
      let addr := u32 (base + i) in
      let page := Z.land addr (u32 (Z.lnot PAGE_MASK)) in
      ok ← (if negb (page =? cur_page) then user_addr_resident addr else ret true);
      if negb (ok : bool) then ret (- EFAULT, dst)
      else
        c ← vldb junk addr;
        dst' ← wr dst i c;
        if c =? 0 then ret (s32 i, dst')
        else str_loop n' (i + 1) page base max dst'
  end.

Definition copy_str_from_user (dst : option (list Z)) (src max : Z) : ST (mm M) (Z * list Z) :=
  match dst with
  | None => ret (- EINVAL, [])
  | Some d =>
      if (src =? 0) || (max =? 0) then ret (- EINVAL, d)
      else if negb (access_ok src max) then ret (- EFAULT, d)
      else
        ok ← user_addr_resident src;
        if negb (ok : bool) then ret (- EFAULT, d)
        else str_loop (Z.to_nat (max - 1)) 0 (Z.land src (u32 (Z.lnot PAGE_MASK))) src max d
  end.

Fixpoint find_nul (n : nat) (i : Z) (str : list Z) : ST (mm M) Z :=
  match n with
  | O => ret (- EOVERFLOW)
  | S n' => c ← rd str i; if c =? 0 then ret 0 else find_nul n' (i + 1) str
  end.

Definition validate_kernel_string (str : option (list Z)) (max_len : Z) : ST (mm M) Z :=
  match str with
  | None => ret (- EINVAL)
  | Some s => find_nul (Z.to_nat max_len) 0 s
  end.

End Uaccess.
