(* ===== verification/UaccessProofs.v ===== *)
(** * Copies to and from user memory

    What the residency check decides and which bytes the copies move, in the
    address space that is loaded. *)

From stdpp Require Import base tactics numbers list gmap.
From S2P Require Import Prelude Fd FrameAlloc Alloc Paging PagingProofs PagingOps PagingBoot ProcessMmProofs ProcessMmShare MmSpec Uaccess.

Section Proofs.
Context {M : Type} {KM : Kmalloc M} {KI : KernelImage}.
Variable junk : Z -> Z.
Variable cpu : Z.
Implicit Types s : mm M.
Abbreviation word := (word junk).
Abbreviation pte := (pte junk).
Abbreviation mm_inv := (mm_inv junk).

(** The address space [d] is loaded. *)
Definition loaded s (d : Z) : Prop := exists dd, dirs s !! d = Some dd /\ cr3 s = physical_addr dd.

(** The physical address of a user address that is mapped. *)
Definition phys s (d a : Z) : Z := frame_of (pte s d (a / 4096)) + a mod 4096.

Lemma frame_lor s R d v o : mm_inv s R -> user_vpn v -> present (pte s d v) = true -> 0 <= o < 4096 ->
  Z.lor (frame_of (pte s d v)) o = frame_of (pte s d v) + o.
Proof. intros Hs Hv Hp Ho. destruct (inv_pte junk s R d v Hs Hv Hp) as (f & ? & ? & -> & _). by apply lor_entry. Qed.

Lemma walk_user s R d a :
  mm_inv s R -> loaded s d -> user_vpn (a / 4096) -> present (pte s d (a / 4096)) = true -> walk junk a s = Ok (phys s d a, s).
Proof.
  intros Hs (dd & Hd & Hc) Hv Hp. unfold walk, pld. run. unfold id. rewrite (cr3_frame junk s R Hs), Hc. unfold pde_addr, pte_addr.
  destruct (virt_index a) as [-> ->]. destruct (vpn_split _ Hv) as (Hi & Hj & _).
  assert (present (word s (physical_addr dd + 4 * (a / 4096 / 1024))) = true) as Ht.
  { unfold PagingProofs.pte in Hp. rewrite Hd in Hp. cbv zeta in Hp. by destruct (present (word s _)). }
  assert (pte s d (a / 4096) = word s (frame_of (word s (physical_addr dd + 4 * (a / 4096 / 1024))) + 4 * ((a / 4096) mod 1024))) as Ep.
  { unfold PagingProofs.pte. rewrite Hd. cbv zeta. by rewrite Ht. }
  rewrite land_present, Ht. cbn [negb]. run. fold (frame_of (word s (physical_addr dd + 4 * (a / 4096 / 1024)))).
  rewrite <- Ep, land_present, Hp. cbn [negb]. unfold ret. do 2 f_equal. rewrite land_offset.
  apply (frame_lor s R); [done|done|done|by apply Z.mod_pos_bound].
Qed.

(** ** Bytes *)

Definition byte_at s (p : Z) : Z := Z.land (Z.shiftr (word s (p - p mod 4)) (8 * (p mod 4))) 255.

Definition put_byte (p x : Z) s : mm M :=
  put (p - p mod 4) (Z.lor (Z.land (word s (p - p mod 4)) (u32 (Z.lnot (Z.shiftl 255 (8 * (p mod 4)))))) (Z.shiftl x (8 * (p mod 4)))) s.

Lemma vldb_user s R d a :
  mm_inv s R -> loaded s d -> user_vpn (a / 4096) -> present (pte s d (a / 4096)) = true -> vldb junk a s = Ok (byte_at s (phys s d a), s).
Proof. intros. unfold vldb. by erewrite bind_ok by (by eapply walk_user). Qed.

Lemma vstb_user s R d a x :
  mm_inv s R -> loaded s d -> user_vpn (a / 4096) -> present (pte s d (a / 4096)) = true -> vstb junk a x s = Ok (tt, put_byte (phys s d a) x s).
Proof. intros. unfold vstb. by erewrite bind_ok by (by eapply walk_user). Qed.

Lemma byte_bit s p n : 0 <= n -> Z.testbit (byte_at s p) n = Z.testbit (word s (p - p mod 4)) (n + 8 * (p mod 4)) && (n <? 8).
Proof.
  intros Hn. unfold byte_at. pose proof (Z.mod_pos_bound p 4 ltac:(lia)). rewrite Z.land_spec, Z.shiftr_spec by lia. f_equal.
  change 255 with (Z.ones 8). destruct (Z.ltb_spec n 8); [by rewrite Z.ones_spec_low|by rewrite Z.ones_spec_high].
Qed.

Lemma mask_bit k m : 0 <= k < 4 -> 0 <= m < 32 -> Z.testbit (u32 (Z.lnot (Z.shiftl 255 (8 * k)))) m = negb ((8 * k <=? m) && (m <? 8 * k + 8)).
Proof.
  intros Hk Hm. unfold u32. change 4294967296 with (2 ^ 32). rewrite Z.mod_pow2_bits_low, Z.lnot_spec, Z.shiftl_spec by lia. f_equal.
  change 255 with (Z.ones 8). destruct (Z.leb_spec (8 * k) m); cbn [andb]; [|by rewrite Z.testbit_neg_r by lia].
  destruct (Z.ltb_spec m (8 * k + 8)); [by rewrite Z.ones_spec_low by lia|by rewrite Z.ones_spec_high by lia].
Qed.

Lemma byte_high x m : 0 <= x < 256 -> 8 <= m -> Z.testbit x m = false.
Proof. intros Hx Hm. rewrite <- (Z.mod_small x (2 ^ 8)) by done. by rewrite Z.mod_pow2_bits_high by lia. Qed.

Lemma byte_put_byte s p x q : 0 <= x < 256 -> byte_at (put_byte p x s) q = if decide (q = p) then x else byte_at s q.
Proof.
  intros Hx. pose proof (Z.mod_pos_bound p 4 ltac:(lia)). pose proof (Z.mod_pos_bound q 4 ltac:(lia)).
  apply Z.bits_inj'. intros n Hn. rewrite byte_bit by done. unfold put_byte. rewrite word_put.
  destruct (decide (q - q mod 4 = p - p mod 4)) as [E|E].
  - rewrite Z.lor_spec, Z.land_spec, Z.shiftl_spec by lia. destruct (Z.ltb_spec n 8) as [Hn8|Hn8].
    + rewrite mask_bit, andb_true_r by lia. destruct (decide (q = p)) as [->|Hne].
      * rewrite (proj2 (Z.leb_le _ _)), (proj2 (Z.ltb_lt _ _)) by lia. cbn [andb negb]. rewrite andb_false_r. cbn [orb]. f_equal. lia.
      * rewrite byte_bit, (proj2 (Z.ltb_lt n 8)), andb_true_r, E by lia.
        assert ((8 * (p mod 4) <=? n + 8 * (q mod 4)) && (n + 8 * (q mod 4) <? 8 * (p mod 4) + 8) = false) as -> by (apply andb_false_iff; rewrite Z.leb_gt, Z.ltb_ge; lia).
        cbn [negb]. rewrite andb_true_r. destruct (Z_le_gt_dec (p mod 4) (q mod 4)).
        -- rewrite (byte_high x) by lia. apply orb_false_r.
        -- rewrite (Z.testbit_neg_r x) by lia. apply orb_false_r.
    + rewrite andb_false_r. case_decide; [by rewrite byte_high|]. by rewrite byte_bit, (proj2 (Z.ltb_ge n 8)), andb_false_r.
  - rewrite decide_False by congruence. by rewrite byte_bit.
Qed.

(** ** Stores to user memory *)

Lemma phys_split s R d a :
  mm_inv s R -> user_vpn (a / 4096) -> present (pte s d (a / 4096)) = true ->
  exists f h ps, R !! f = Some (RPages h ps) /\ phys s d a = addr_of f + a mod 4096 /\
    phys s d a - phys s d a mod 4 = addr_of f + 4 * (a mod 4096 / 4) /\ 0 <= a mod 4096 / 4 < 1024.
Proof.
  intros Hs Hv Hp. destruct (inv_pte junk s R d _ Hs Hv Hp) as (f & h & ps & Ef & Hf & _). exists f, h, ps. split; [done|].
  unfold phys. rewrite Ef. split; [done|]. pose proof (Z.mod_pos_bound a 4096 ltac:(lia)). unfold addr_of, PAGE_SIZE_CONST.
  Z.div_mod_to_equations. lia.
Qed.

(** A byte of a word, and with it the word, keeps its width. *)
Lemma put_byte_u32 s p x : 0 <= x < 256 -> is_u32 (word s (p - p mod 4)) ->
  is_u32 (Z.lor (Z.land (word s (p - p mod 4)) (u32 (Z.lnot (Z.shiftl 255 (8 * (p mod 4)))))) (Z.shiftl x (8 * (p mod 4)))).
Proof.
  intros Hx Hw. pose proof (Z.mod_pos_bound p 4 ltac:(lia)). apply lor_u32.
  - apply (u32_of_bits _). intros n Hn. rewrite Z.land_spec. unfold is_u32 in Hw. rewrite <- (Z.mod_small _ (2 ^ 32) Hw).
    by rewrite Z.mod_pow2_bits_high by lia.
  - unfold is_u32. rewrite Z.shiftl_mul_pow2 by lia. assert (2 ^ (8 * (p mod 4)) <= 2 ^ 24) by (apply Z.pow_le_mono_r; lia).
    change (2 ^ 24) with 16777216 in *. pose proof (Z.pow_pos_nonneg 2 (8 * (p mod 4)) ltac:(lia) ltac:(lia)). nia.
Qed.

(** One byte stored at the user address [a]. *)
Lemma put_byte_ok s R d a x :
  mm_inv s R -> user_vpn (a / 4096) -> present (pte s d (a / 4096)) = true -> 0 <= x < 256 ->
  mm_inv (put_byte (phys s d a) x s) R /\
  (forall d' v, user_vpn v -> pte (put_byte (phys s d a) x s) d' v = pte s d' v) /\
  (mm_reach junk cpu s -> mm_reach junk cpu (put_byte (phys s d a) x s)).
Proof.
  intros Hs Hv Hp Hx. destruct (phys_split s R d a Hs Hv Hp) as (f & h & ps & Hf & Ef & Ew & Hi).
  pose proof (put_byte_u32 s (phys s d a) x Hx (mi_u32 _ _ _ Hs _)) as Hu. unfold put_byte. set (w := Z.lor _ _) in *. clearbody w.
  rewrite Ew. split_and!.
  - by eapply inv_put_data.
  - intros d' v Hv'. by eapply store_pte.
  - intros Hr. assert (frame_of (pte s d (a / 4096)) = addr_of f) as <- by (unfold phys in Ef; lia). by apply reach_store.
Qed.

(** The bytes [bs] stand at the user addresses from [a] on, every other byte is as before. *)
Record wrote s (R : roles) (d a : Z) (bs : list Z) s' : Prop := {
  wr_inv : mm_inv s' R;
  wr_words : s' = set_words (words s') s;
  wr_pte d' v : user_vpn v -> pte s' d' v = pte s d' v;
  wr_in j b : bs !! j = Some b -> byte_at s' (phys s d (a + Z.of_nat j)) = b;
  wr_out p : (forall j, 0 <= j < Z.of_nat (length bs) -> p <> phys s d (a + j)) -> byte_at s' p = byte_at s p;
  wr_reach : mm_reach junk cpu s -> mm_reach junk cpu s'
}.

(** The user addresses [a .. a + n - 1] are mapped, to different bytes. *)
Record mapped_range s (d a n : Z) : Prop := {
  mr_page i : 0 <= i < n -> user_vpn ((a + i) / 4096) /\ present (pte s d ((a + i) / 4096)) = true;
  mr_inj i j : 0 <= i < n -> 0 <= j < n -> phys s d (a + i) = phys s d (a + j) -> i = j
}.

Lemma wrote_nil s R d a : mm_inv s R -> wrote s R d a [] s.
Proof. intros Hs. constructor; [done|by destruct s|done|by intros j b Hj|done|done]. Qed.

Lemma wrote_phys s R d a bs s' b : wrote s R d a bs s' -> user_vpn (b / 4096) -> phys s' d b = phys s d b.
Proof. intros H Hv. unfold phys. by rewrite (wr_pte _ _ _ _ _ _ H). Qed.

Lemma wrote_loaded s R d a bs s' d' : wrote s R d a bs s' -> loaded s d' -> loaded s' d'.
Proof. intros H (dd & Hd & Hc). exists dd. by rewrite (wr_words _ _ _ _ _ _ H). Qed.

Lemma wrote_snoc s R d a n bs s' x :
  wrote s R d a bs s' -> mapped_range s d a n -> Z.of_nat (length bs) < n -> 0 <= x < 256 ->
  wrote s R d a (bs ++ [x]) (put_byte (phys s d (a + Z.of_nat (length bs))) x s').
Proof.
  intros Hw Hm Hl Hx. destruct (mr_page _ _ _ _ Hm (Z.of_nat (length bs)) ltac:(lia)) as [Hv Hp].
  pose proof Hw as [Hs' Ew Hpte Hin Hout Hreach].
  destruct (put_byte_ok s' R d (a + Z.of_nat (length bs)) x Hs' Hv) as (H1 & H2 & H3); [by rewrite Hpte|done|].
  rewrite (wrote_phys s R d a bs s' _ Hw Hv) in H1, H2, H3. constructor; [done|unfold put_byte; rewrite Ew; reflexivity| | | |auto].
  - intros d' v Hv'. rewrite H2 by done. by apply Hpte.
  - intros j b. rewrite lookup_app, list_lookup_singleton. intros Hj. rewrite byte_put_byte by done.
    destruct (bs !! j) as [b'|] eqn:Ej.
    + injection Hj as ->. pose proof (lookup_lt_Some _ _ _ Ej). rewrite decide_False; [by apply Hin|]. intros E. apply (mr_inj _ _ _ _ Hm) in E; lia.
    + apply lookup_ge_None in Ej. destruct (j - length bs)%nat eqn:Ed; [|done]. injection Hj as ->. assert (j = length bs) as -> by lia. by rewrite decide_True.
  - intros p Hp'. rewrite length_app in Hp'. cbn [length] in Hp'. rewrite byte_put_byte by done.
    rewrite decide_False by (apply Hp'; lia). apply Hout. intros j Hj. apply Hp'. lia.
Qed.

Lemma copyout_ok s R d a src c m s' :
  loaded s d -> mapped_range s d a (Z.of_nat c) -> Forall (fun b => 0 <= b < 256) src -> (m <= c <= length src)%nat ->
  0 <= a -> a + Z.of_nat c <= 4294967296 -> wrote s R d a (take (c - m) src) s' ->
  wp (copy_out_loop junk m (Z.of_nat (c - m)) a src) (fun _ s'' => wrote s R d a (take c src) s'') s'.
Proof.
  intros Hl Hm Hsrc [Hle Hc] Ha Hb. revert s' Hle. induction m as [|m IH]; intros s' Hle Hw; cbn [copy_out_loop].
  { apply wp_ret. by rewrite Nat.sub_0_r in Hw. }
  set (k := (c - S m)%nat) in *. destruct (lookup_lt_is_Some_2 src k ltac:(lia)) as [x Hx].
  assert (length (take k src) = k) as Hk by (rewrite length_take; lia).
  eapply wp_bind_ok; [apply rd_ok; [lia|by rewrite Nat2Z.id]|]. rewrite u32_id by (unfold is_u32; lia).
  destruct (mr_page _ _ _ _ Hm (Z.of_nat k) ltac:(lia)) as [Hv Hp]. pose proof (Forall_lookup_1 _ _ _ _ Hsrc Hx) as Hx8. cbv beta in Hx8.
  eapply wp_bind_ok; [eapply vstb_user; [apply Hw|by eapply wrote_loaded|done|by rewrite (wr_pte _ _ _ _ _ _ Hw)]|].
  rewrite (wrote_phys s R d a _ s' _ Hw Hv). pose proof (wrote_snoc s R d a _ _ s' x Hw Hm ltac:(lia) Hx8) as Hw'. rewrite Hk in Hw'.
  rewrite <- (take_S_r src k x Hx) in Hw'. replace (S k) with (c - m)%nat in Hw' by lia. replace (Z.of_nat k + 1) with (Z.of_nat (c - m)) by lia.
  apply IH; [lia|done].
Qed.

(** The bytes a copy from user memory delivers. *)
Definition user_bytes s (d a : Z) (n : nat) : list Z := (fun j => byte_at s (phys s d (a + Z.of_nat j))) <$> seq 0 n.

Lemma copyin_ok s R d a dst c m buf :
  mm_inv s R -> loaded s d -> (forall i, 0 <= i < Z.of_nat c -> user_vpn ((a + i) / 4096) /\ present (pte s d ((a + i) / 4096)) = true) ->
  (m <= c <= length dst)%nat -> 0 <= a -> a + Z.of_nat c <= 4294967296 -> buf = user_bytes s d a (c - m) ++ drop (c - m) dst ->
  copy_in_loop junk m (Z.of_nat (c - m)) buf a s = Ok (user_bytes s d a c ++ drop c dst, s).
Proof.
  intros Hs Hl Hm [Hle Hc] Ha Hb. revert buf Hle. induction m as [|m IH]; intros buf Hle ->; cbn [copy_in_loop].
  { by rewrite Nat.sub_0_r. }
  set (k := (c - S m)%nat) in *. destruct (Hm (Z.of_nat k) ltac:(lia)) as [Hv Hp]. rewrite u32_id by (unfold is_u32; lia).
  rewrite (bind_ok _ _ _ _ _ (vldb_user s R d _ Hs Hl Hv Hp)). destruct (lookup_lt_is_Some_2 dst k ltac:(lia)) as [y Hy].
  assert (length (user_bytes s d a k) = k) as Hk by (unfold user_bytes; by rewrite length_fmap, length_seq).
  rewrite (drop_S dst y k Hy). erewrite bind_ok by (apply wr_ok; rewrite length_app; simpl; lia).
  rewrite Nat2Z.id, insert_app_r_alt, Hk, Nat.sub_diag by lia. cbn [insert list_insert].
  replace (Z.of_nat k + 1) with (Z.of_nat (c - m)) by lia. apply IH; [lia|]. replace (c - m)%nat with (S k) by lia.
  unfold user_bytes. rewrite seq_S, fmap_app, <- app_assoc. done.
Qed.

(** ** Residency *)

(** The user pages from [v] on are all mapped. *)
Fixpoint all_mapped s (d v : Z) (n : nat) : bool :=
  match n with O => true | S n' => present (pte s d v) && all_mapped s d (v + 1) n' end.

Lemma all_mapped_spec s d v n : all_mapped s d v n = true <-> forall k, v <= k < v + Z.of_nat n -> present (pte s d k) = true.
Proof.
  revert v. induction n as [|n IH]; intros v; cbn [all_mapped]; [split; [lia|done]|]. rewrite andb_true_iff, IH. split.
  - intros [H1 H2] k Hk. destruct (decide (k = v)) as [->|]; [done|]. apply H2. lia.
  - intros H. split; [apply H; lia|]. intros k Hk. apply H. lia.
Qed.

Lemma addr_page v : addr_of v / 4096 = v /\ addr_of v mod 4096 = 0.
Proof. unfold addr_of, PAGE_SIZE_CONST. split; [by apply Z.div_mul|by apply Z.mod_mul]. Qed.

Lemma current_page s R d v :
  mm_inv s R -> loaded s d -> user_vpn v -> get_physical_addr_current junk (addr_of v) s = Ok (translate junk s d (addr_of v), s).
Proof. intros Hs (dd & Hd & Hc) Hv. eapply get_physical_current_ok; [done|done|done|]. by rewrite (proj1 (addr_page v)). Qed.

Lemma page_zero s R d v : mm_inv s R -> user_vpn v -> (translate junk s d (addr_of v) =? 0) = negb (present (pte s d v)).
Proof.
  intros Hs Hv. unfold translate. destruct (addr_page v) as [-> ->]. cbv zeta. destruct (present (pte s d v)) eqn:Hp; [|done].
  destruct (inv_pte junk s R d v Hs Hv Hp) as (f & ? & ? & -> & Hf & _). destruct (role_pool _ _ _ f _ Hs Hf) as [Hb _].
  rewrite Z.lor_0_r. apply Z.eqb_neq. unfold addr_of, PAGE_SIZE_CONST. lia.
Qed.

Lemma resident_ok s R d v n :
  mm_inv s R -> loaded s d -> user_vpn v -> v + Z.of_nat n < 786432 ->
  resident_loop junk (S n) (addr_of v) (addr_of (v + Z.of_nat n)) s = Ok (all_mapped s d v (S n), s).
Proof.
  intros Hs Hl. revert v. induction n as [|n IH]; intros v Hv Hn.
  - cbn [resident_loop]. rewrite (bind_ok _ _ _ _ _ (current_page s R d v Hs Hl Hv)). cbn [all_mapped].
    rewrite !Z.add_0_r, Z.eqb_refl, andb_true_r. rewrite page_zero with (1 := Hs) by done. by destruct (present (pte s d v)).
  - change (resident_loop junk (S (S n))) with (fun page end_ => p ← get_physical_addr_current junk page;
      if p =? 0 then ret false else if page =? end_ then ret true else resident_loop (M := M) junk (S n) (u32 (page + PAGE_SIZE_CONST)) end_).
    cbv beta. rewrite (bind_ok _ _ _ _ _ (current_page s R d v Hs Hl Hv)), page_zero with (1 := Hs) by done.
    change (all_mapped s d v (S (S n))) with (present (pte s d v) && all_mapped s d (v + 1) (S n)). destruct (present (pte s d v)) eqn:Hp; cbn [negb andb]; [|done].
    unfold user_vpn in Hv. rewrite (proj2 (Z.eqb_neq _ _)) by (unfold addr_of, PAGE_SIZE_CONST; lia).
    rewrite u32_id by (unfold is_u32, addr_of, PAGE_SIZE_CONST; lia).
    replace (addr_of v + PAGE_SIZE_CONST) with (addr_of (v + 1)) by (unfold addr_of; lia).
    replace (v + Z.of_nat (S n)) with (v + 1 + Z.of_nat n) by lia. apply IH; [unfold user_vpn; lia|lia].
Qed.

Lemma page_range a : is_u32 a -> Z.land a (u32 (Z.lnot PAGE_MASK)) = addr_of (a / 4096).
Proof. intros Ha. change (u32 (Z.lnot PAGE_MASK)) with PAGE_FRAME_MASK. by apply frame_of_div. Qed.

Lemma user_range_resident_ok s R d a n :
  mm_inv s R -> loaded s d -> 33554432 <= a -> 0 < n -> a + n <= KERNEL_BASE ->
  user_range_resident junk a n s = Ok (all_mapped s d (a / 4096) (Z.to_nat ((a + n - 1) / 4096 - a / 4096 + 1)), s).
Proof.
  intros Hs Hl Ha Hn Hb. change KERNEL_BASE with 3221225472 in Hb. unfold user_range_resident. rewrite (proj2 (Z.eqb_neq _ _)) by lia. cbv zeta.
  rewrite (u32_id (a + n - 1)) by (unfold is_u32; lia). rewrite !page_range by (unfold is_u32; lia).
  assert (a / 4096 <= (a + n - 1) / 4096) as Hle by (apply Z.div_le_mono; lia).
  assert (8192 <= a / 4096) by (apply Z.div_le_lower_bound; lia). assert ((a + n - 1) / 4096 < 786432) by (apply Z.div_lt_upper_bound; lia).
  set (v := a / 4096) in *. set (w := (a + n - 1) / 4096) in *.
  assert (u32 (addr_of w - addr_of v) / PAGE_SIZE_CONST = w - v) as ->.
  { rewrite u32_id by (unfold is_u32, addr_of, PAGE_SIZE_CONST; lia). replace (addr_of w - addr_of v) with ((w - v) * PAGE_SIZE_CONST) by (unfold addr_of; lia).
    by rewrite Z.div_mul. }
  replace (Z.to_nat (w - v + 1)) with (S (Z.to_nat (w - v))) by lia. replace w with (v + Z.of_nat (Z.to_nat (w - v))) at 2 by lia.
  by apply (resident_ok s R); [..|unfold user_vpn; lia|lia].
Qed.

Lemma all_mapped_range s d a n : 0 < n -> 0 <= a ->
  all_mapped s d (a / 4096) (Z.to_nat ((a + n - 1) / 4096 - a / 4096 + 1)) = true <->
  forall i, 0 <= i < n -> present (pte s d ((a + i) / 4096)) = true.
Proof.
  intros Hn Ha. rewrite all_mapped_spec. split.
  - intros H i Hi. apply H. assert (a / 4096 <= (a + i) / 4096 <= (a + n - 1) / 4096) as Hb by (split; apply Z.div_le_mono; lia). lia.
  - intros H v Hv. assert (exists i, 0 <= i < n /\ (a + i) / 4096 = v) as (i & Hi & <-); [|by apply H]. exists (Z.max 0 (v * 4096 - a)).
    pose proof (Z.div_mod a 4096 ltac:(lia)). pose proof (Z.mod_pos_bound a 4096 ltac:(lia)).
    pose proof (Z.div_mod (a + n - 1) 4096 ltac:(lia)). pose proof (Z.mod_pos_bound (a + n - 1) 4096 ltac:(lia)). split; [lia|].
    destruct (Z.max_spec 0 (v * 4096 - a)) as [[_ ->]|[? ->]].
    + replace (a + (v * 4096 - a)) with (v * 4096) by lia. by rewrite Z.div_mul.
    + rewrite Z.add_0_r. lia.
Qed.


(** ** copy_to_user and copy_from_user *)

Lemma access_user a n : 33554432 <= a -> 0 < n -> a + n <= KERNEL_BASE -> access_ok a n = true.
Proof.
  intros Ha Hn Hb. change KERNEL_BASE with 3221225472 in *. unfold access_ok. change KERNEL_BASE with 3221225472. change USER_MIN_VA with 4096.
  rewrite u32_id by (unfold is_u32; lia). rewrite (proj2 (Z.eqb_neq _ _)), (proj2 (Z.leb_gt _ _)), (proj2 (Z.ltb_ge _ a)), !(proj2 (Z.ltb_ge _ _)) by lia. done.
Qed.

Lemma user_page_range a i n : 33554432 <= a -> 0 <= i < n -> a + n <= KERNEL_BASE -> user_vpn ((a + i) / 4096).
Proof.
  intros Ha Hi Hb. change KERNEL_BASE with 3221225472 in *. split; [apply Z.div_le_lower_bound|apply Z.div_lt_upper_bound]; lia.
Qed.

(** The pages that hold [a .. a + n - 1] map different frames. *)
Definition distinct_frames s (d a n : Z) : Prop :=
  forall i j, 0 <= i < n -> 0 <= j < n -> frame_of (pte s d ((a + i) / 4096)) = frame_of (pte s d ((a + j) / 4096)) -> (a + i) / 4096 = (a + j) / 4096.

Lemma range_mapped s R d a n :
  mm_inv s R -> 33554432 <= a -> a + n <= KERNEL_BASE -> distinct_frames s d a n ->
  (forall i, 0 <= i < n -> present (pte s d ((a + i) / 4096)) = true) -> mapped_range s d a n.
Proof.
  intros Hs Ha Hb Hd Hp. constructor; [intros i Hi; split; [by eapply user_page_range|by apply Hp]|]. intros i j Hi Hj. unfold phys.
  destruct (inv_pte junk s R d _ Hs (user_page_range a i n Ha Hi Hb) (Hp i Hi)) as (f & ? & ? & Ef & _).
  destruct (inv_pte junk s R d _ Hs (user_page_range a j n Ha Hj Hb) (Hp j Hj)) as (g & ? & ? & Eg & _).
  pose proof (Z.mod_pos_bound (a + i) 4096 ltac:(lia)). pose proof (Z.mod_pos_bound (a + j) 4096 ltac:(lia)).
  intros E. assert (f = g) as -> by (rewrite Ef, Eg in E; unfold addr_of, PAGE_SIZE_CONST in E; lia).
  assert ((a + i) / 4096 = (a + j) / 4096) as Ep by (apply Hd; congruence). rewrite Ef, Eg in E.
  pose proof (Z.div_mod (a + i) 4096 ltac:(lia)). pose proof (Z.div_mod (a + j) 4096 ltac:(lia)). lia.
Qed.

Lemma copy_from_ok s R d a n buf :
  mm_inv s R -> loaded s d -> 33554432 <= a -> 0 < n -> a + n <= KERNEL_BASE -> n <= Z.of_nat (length buf) ->
  copy_from_user junk (Some buf) a n s =
    Ok (if all_mapped s d (a / 4096) (Z.to_nat ((a + n - 1) / 4096 - a / 4096 + 1))
        then (0, user_bytes s d a (Z.to_nat n) ++ drop (Z.to_nat n) buf) else (- EFAULT, buf), s).
Proof.
  intros Hs Hl Ha Hn Hb Hlb. unfold copy_from_user. rewrite (proj2 (Z.eqb_neq a 0)), (proj2 (Z.eqb_neq n 0)), access_user by lia. cbn [negb].
  rewrite (bind_ok _ _ _ _ _ (user_range_resident_ok s R d a n Hs Hl Ha Hn Hb)). destruct (all_mapped s d _ _) eqn:Hall; [|done]. cbn [negb].
  rewrite all_mapped_range in Hall by lia.
  pose proof (copyin_ok s R d a buf (Z.to_nat n) (Z.to_nat n) buf Hs Hl) as Hc. rewrite Nat.sub_diag, Z2Nat.id in Hc by lia.
  change KERNEL_BASE with 3221225472 in *. erewrite bind_ok; [reflexivity|]. apply Hc; [|lia|lia|lia|done].
  intros i Hi. split; [by eapply user_page_range|by apply Hall].
Qed.

Lemma wrote_mapped s R d a bs s' b n :
  wrote s R d a bs s' -> 33554432 <= b -> 0 < n -> b + n <= KERNEL_BASE ->
  all_mapped s' d (b / 4096) (Z.to_nat ((b + n - 1) / 4096 - b / 4096 + 1)) = all_mapped s d (b / 4096) (Z.to_nat ((b + n - 1) / 4096 - b / 4096 + 1)).
Proof.
  intros Hw Hb Hn Hk. apply eq_bool_prop_intro. rewrite !Is_true_true, !all_mapped_range by lia.
  split; intros H i Hi; specialize (H i Hi); rewrite (wr_pte _ _ _ _ _ _ Hw) in *; try done; by eapply user_page_range.
Qed.

Lemma wrote_bytes s R d a n src s' :
  wrote s R d a (take (Z.to_nat n) src) s' -> 33554432 <= a -> a + n <= KERNEL_BASE -> 0 < n <= Z.of_nat (length src) ->
  user_bytes s' d a (Z.to_nat n) = take (Z.to_nat n) src.
Proof.
  intros Hw Ha Hb Hn. apply list_eq. intros j. unfold user_bytes. rewrite list_lookup_fmap. destruct (decide (j < Z.to_nat n)%nat) as [Hj|Hj].
  - rewrite lookup_seq_lt by done. cbn [fmap option_fmap option_map]. destruct (lookup_lt_is_Some_2 (take (Z.to_nat n) src) j) as [b Eb]; [rewrite length_take; lia|].
    rewrite Eb. f_equal. rewrite (wrote_phys s R d a _ s' _ Hw) by (eapply user_page_range; [done| |done]; lia). by apply (wr_in _ _ _ _ _ _ Hw).
  - rewrite lookup_seq_ge, lookup_take_ge by lia. done.
Qed.

Hypothesis Hcpu : 0 <= cpu < MAX_CPUS.

(** C21: [copy_to_user] and [copy_from_user] on a range of user addresses of the loaded
    space.  When all pages of the range are mapped, [copy_to_user] stores exactly
    the bytes of the buffer, changes no other byte of physical memory and so
    neither the kernel nor a page table, and a [copy_from_user] of the range then
    delivers the same bytes; when a page is missing both report -EFAULT and change
    nothing. *)
Theorem user_copy_roundtrip s d a n src buf :
  mm_reach junk cpu s -> loaded s d -> 33554432 <= a -> 0 < n -> a + n <= KERNEL_BASE -> distinct_frames s d a n ->
  Forall (fun b => 0 <= b < 256) src -> n <= Z.of_nat (length src) -> n <= Z.of_nat (length buf) ->
  if all_mapped s d (a / 4096) (Z.to_nat ((a + n - 1) / 4096 - a / 4096 + 1)) then
    exists s', copy_to_user junk a (Some src) n s = Ok (0, s') /\ mm_reach junk cpu s' /\
      (forall p, (forall i, 0 <= i < n -> p <> phys s d (a + i)) -> byte_at s' p = byte_at s p) /\
      copy_from_user junk (Some buf) a n s' = Ok ((0, take (Z.to_nat n) src ++ drop (Z.to_nat n) buf), s')
  else copy_to_user junk a (Some src) n s = Ok (- EFAULT, s) /\ copy_from_user junk (Some buf) a n s = Ok ((- EFAULT, buf), s).
Proof.
  intros Hr Hl Ha Hn Hb Hdis Hsrc Hls Hlb. destruct (mm_reach_ok junk cpu Hcpu s Hr) as (R & L & [Hs _ _ _]).
  rewrite (copy_from_ok s R d a n buf Hs Hl Ha Hn Hb Hlb).
  unfold copy_to_user. rewrite (proj2 (Z.eqb_neq a 0)), (proj2 (Z.eqb_neq n 0)), access_user by lia. cbn [negb].
  rewrite (bind_ok _ _ _ _ _ (user_range_resident_ok s R d a n Hs Hl Ha Hn Hb)).
  destruct (all_mapped s d _ _) eqn:Hall; [|done]. cbn [negb]. pose proof Hall as Hall'. rewrite all_mapped_range in Hall by lia.
  pose proof (range_mapped s R d a n Hs Ha Hb Hdis Hall) as Hm. change KERNEL_BASE with 3221225472 in *.
  pose proof (copyout_ok s R d a src (Z.to_nat n) (Z.to_nat n) s Hl) as Hc. rewrite Nat.sub_diag, Z2Nat.id in Hc by lia.
  apply wp_elim in Hc as ([] & s' & E & Hw); [|done|done|lia|lia|lia|by apply wrote_nil].
  exists s'. rewrite (bind_ok _ _ _ _ _ E). split; [done|]. split; [by apply Hw|]. split.
  - intros p Hp. apply (wr_out _ _ _ _ _ _ Hw). rewrite length_take. intros j Hj. apply Hp. lia.
  - rewrite (copy_from_ok s' R d a n buf (wr_inv _ _ _ _ _ _ Hw) (wrote_loaded _ _ _ _ _ _ _ Hw Hl) Ha Hn Hb Hlb).
    rewrite (wrote_mapped s R d a _ s' a n Hw Ha Hn Hb), Hall'. do 4 f_equal. by eapply wrote_bytes.
Qed.

(** ** The identity map *)

Lemma current_ident s R v : mm_inv s R -> 0 <= v < 8192 -> get_physical_addr_current junk (addr_of v) s = Ok (addr_of v, s).
Proof.
  intros Hs Hv. unfold get_physical_addr_current. run. unfold id. rewrite (cr3_frame junk s R Hs). unfold get_physical_from. cbv zeta.
  destruct (virt_index (addr_of v)) as [-> ->]. destruct (addr_page v) as [-> Hz].
  destruct (base_frame junk s R _ Hs (mi_cr3 _ _ _ Hs)) as (b & Eb & Hb).
  assert (0 <= v / 1024 < 8) as Ht by (split; [apply Z.div_pos|apply Z.div_lt_upper_bound]; lia).
  assert (0 <= cr3 s + 4 * (v / 1024) < IDENTITY_MAP_END) as H1 by (rewrite Eb; apply word_below; lia).
  rewrite (bind_ok _ _ _ _ _ (vld_ok junk s R _ Hs H1)), land_present.
  destruct (mi_kdir _ _ _ Hs _ _ (mi_cr3 _ _ _ Hs) Ht) as [Hp Hf]. rewrite Hp. cbn [negb]. fold (frame_of (word s (cr3 s + 4 * (v / 1024)))). rewrite Hf.
  pose proof (Z.mod_pos_bound v 1024 ltac:(lia)) as Hj. destruct (image_frame (kernel_page_table (v / 1024))) as (g & Eg & Hg); [left; by exists (v / 1024)|].
  assert (0 <= kernel_page_table (v / 1024) + 4 * (v mod 1024) < IDENTITY_MAP_END) as H2 by (rewrite Eg; apply word_below; lia).
  rewrite (bind_ok _ _ _ _ _ (vld_ok junk s R _ Hs H2)), land_present.
  destruct (mi_ktab _ _ _ Hs _ _ Ht Hj) as [Hp2 Hf2]. rewrite Hp2. cbn [negb].
  fold (frame_of (word s (kernel_page_table (v / 1024) + 4 * (v mod 1024)))). rewrite Hf2, land_offset, Hz, Z.lor_0_r.
  unfold ret. do 3 f_equal. pose proof (Z.div_mod v 1024 ltac:(lia)). lia.
Qed.

(** C22: [copy_to_user] overwrites kernel memory when the caller names a kernel address.
    In every reachable state and for every address from 4 KB to 32 MB, which the
    identity map of every address space covers, storing one byte succeeds and that
    byte of kernel memory, be it code, data or a page table, has the new value. *)
Theorem copy_to_user_writes_kernel s a b :
  mm_reach junk cpu s -> 4096 <= a < IDENTITY_MAP_END -> 0 <= b < 256 ->
  exists s', copy_to_user junk a (Some [b]) 1 s = Ok (0, s') /\ byte_at s' a = b /\ forall p, p <> a -> byte_at s' p = byte_at s p.
Proof.
  intros Hr Ha Hb. destruct (mm_reach_ok junk cpu Hcpu s Hr) as (R & L & [Hs _ _ _]). change IDENTITY_MAP_END with 33554432 in Ha.
  exists (put_byte a b s). split; [|split; [by rewrite byte_put_byte, decide_True|intros p Hp; by rewrite byte_put_byte, decide_False]].
  assert (0 <= a / 4096 < 8192 /\ 1 <= a / 4096) as [Hv H1] by (split; [split; [apply Z.div_pos|apply Z.div_lt_upper_bound]|apply Z.div_le_lower_bound]; lia).
  unfold copy_to_user. rewrite (proj2 (Z.eqb_neq a 0)) by lia. cbn [Z.eqb].
  assert (access_ok a 1 = true) as ->.
  { unfold access_ok. change KERNEL_BASE with 3221225472. change USER_MIN_VA with 4096. rewrite u32_id by (unfold is_u32; lia).
    rewrite (proj2 (Z.eqb_neq _ _)), (proj2 (Z.leb_gt _ _)), (proj2 (Z.ltb_ge _ a)), !(proj2 (Z.ltb_ge _ _)) by lia. done. }
  cbn [negb]. assert (user_range_resident junk a 1 s = Ok (true, s)) as Er.
  { unfold user_range_resident. cbn [Z.eqb]. cbv zeta. replace (a + 1 - 1) with a by lia. rewrite (u32_id a), page_range, Z.sub_diag by (unfold is_u32; lia).
    change (Z.to_nat (u32 0 / PAGE_SIZE_CONST)) with 0%nat. cbn [resident_loop]. rewrite (bind_ok _ _ _ _ _ (current_ident s R _ Hs Hv)).
    rewrite (proj2 (Z.eqb_neq _ _)), Z.eqb_refl by (unfold addr_of, PAGE_SIZE_CONST; lia). done. }
  assert (vstb junk a b s = Ok (tt, put_byte a b s)) as Ev.
  { unfold vstb. by rewrite (bind_ok _ _ _ _ _ (walk_ident junk s R a Hs ltac:(change IDENTITY_MAP_END with 33554432; lia))). }
  assert (copy_out_loop junk 1 0 a [b] s = Ok (tt, put_byte a b s)) as Ec.
  { cbn [copy_out_loop]. erewrite bind_ok by (by apply rd_ok). rewrite Z.add_0_r, (u32_id a) by (unfold is_u32; lia). by rewrite (bind_ok _ _ _ _ _ Ev). }
  rewrite (bind_ok _ _ _ _ _ Er). cbn [negb]. change (Z.to_nat 1) with 1%nat. by rewrite (bind_ok _ _ _ _ _ Ec).
Qed.

End Proofs.

(** ** Examples *)

(** A reachable state in which the only address space is loaded. *)
Lemma example_loaded : exists s d, example_reach s /\ loaded s d /\ present (pte (fun _ => 0) s d STACK_VPN) = true.
Proof.
  destruct example_space as (s & mem & m & Hr & _ & [dd Hd] & _ & Hp & _).
  assert (switch_page_directory (pm_directory m) s = Ok (tt, set_cr3_reg (physical_addr dd) s)) as E.
  { unfold switch_page_directory. by rewrite (bind_ok _ _ _ _ _ (get_dir_ok s _ dd Hd)). }
  exists (set_cr3_reg (physical_addr dd) s), (pm_directory m). split; [by eapply reach_switch|]. split; [by exists dd|done].
Qed.

Lemma user_copy_roundtrip_witness :
  exists s d, example_reach s /\ loaded s d /\ distinct_frames (fun _ => 0) s d (addr_of STACK_VPN) 1 /\
    exists s', copy_to_user (fun _ => 0) (addr_of STACK_VPN) (Some [7]) 1 s = Ok (0, s') /\
      copy_from_user (fun _ => 0) (Some [0; 0]) (addr_of STACK_VPN) 1 s' = Ok ((0, [7; 0]), s').
Proof.
  destruct example_loaded as (s & d & Hr & Hl & Hp). exists s, d. split; [exact Hr|]. split; [exact Hl|].
  assert (distinct_frames (fun _ => 0) s d (addr_of STACK_VPN) 1) as Hd by (intros i j Hi Hj _; replace i with j by lia; reflexivity).
  split; [exact Hd|].
  pose proof (user_copy_roundtrip (KI := example_image) (fun _ => 0) 0 cpu0 s d (addr_of STACK_VPN) 1 [7] [0; 0] Hr Hl
    ltac:(discriminate) ltac:(lia) ltac:(discriminate) Hd ltac:(repeat constructor; lia) ltac:(simpl; lia) ltac:(simpl; lia)) as H.
  assert (all_mapped (fun _ => 0) s d (addr_of STACK_VPN / 4096) (Z.to_nat ((addr_of STACK_VPN + 1 - 1) / 4096 - addr_of STACK_VPN / 4096 + 1)) = true) as E
    by (change (present (pte (fun _ => 0) s d STACK_VPN) && true = true); rewrite Hp; reflexivity).
  rewrite E in H. destruct H as (s' & E1 & _ & _ & E2). exists s'. split; [exact E1|exact E2].
Defined.

Lemma copy_to_user_writes_kernel_witness :
  exists s, example_reach s /\ exists s', copy_to_user (fun _ => 0) 1048576 (Some [3]) 1 s = Ok (0, s') /\ byte_at (fun _ => 0) s' 1048576 = 3.
Proof.
  destruct example_loaded as (s & d & Hr & _). exists s. split; [exact Hr|].
  destruct (copy_to_user_writes_kernel (KI := example_image) (fun _ => 0) 0 cpu0 s 1048576 3 Hr ltac:(split; [lia|reflexivity]) ltac:(lia)) as (s' & E & Hb & _).
  exists s'. split; [exact E|exact Hb].
Defined.
