(* ===== verification/SysMem.v ===== *)
(** * Memory system calls

    Models syscalls/sys_mem.c and the demand-paging fault handler of
    mm/mmap_file.c.  [memory] is the [memory] pointer of the current process;
    the virtual file system is the part of the state the descriptors of
    [sys_mmap] and the fault handler reach. *)

From stdpp Require Import base tactics numbers list gmap.
From S2P Require Import Prelude Kstring Fd FrameAlloc Alloc FsOps Ramfs Vfs VfsFd VfsRamfs Paging ProcessMm.

Definition PAGE_ADDR_MASK := u32 (Z.lnot (PAGE_SIZE_CONST - 1)).
Definition HEAP_START := USER_CODE_BASE.
Definition MAX_HEAP_SIZE := 268435456.
Definition MMAP_BASE := USER_HEAP_BASE.
Definition VGA_FRAMEBUFFER_ADDR := 655360.
Definition VGA_FRAMEBUFFER_SIZE := 65536.
Definition PROT_NONE := 0.
Definition PROT_READ := 1.
Definition PROT_WRITE := 2.
Definition PROT_EXEC := 4.
Definition MAP_FIXED := 16.
Definition MAP_ANON := 32.
Definition MMAP_FILE_PROT_WRITE := 2.

Section SysMem.
Context {M : Type} {KM : Kmalloc M} {KI : KernelImage}.
Variable junk : Z -> Z.
Variable cpu : Z.
Abbreviation kmm := (mm (vfs (ramfs M))).

(** A call into the VFS. *)
Definition vfs_do {A} (m : ST (vfs (ramfs M)) A) : ST kmm A := zoom mheap set_mheap m.

Definition unmap_range (mem a b : Z) : ST kmm unit :=
  range_loop (A := unit) (range_fuel a b PAGE_SIZE_CONST) a b PAGE_SIZE_CONST (fun p =>
    m ← get_mem mem;
    phys ← get_physical_addr junk (pm_directory m) p;
    (if negb (phys =? 0) then
       m ← get_mem mem;
       unmap_page junk (pm_directory m) p;;
       frames_do (free_frame cpu phys)
     else ret tt);;
    ret None);;
  ret tt.

Definition set_brk (b : Z) (m : process_memory) : process_memory :=
  ProcessMemory (pm_directory m) b (stack_base m) (mmap_regions m) (mmap_next_addr m).
Definition set_regions (l : list mmap_region) (m : process_memory) : process_memory :=
  ProcessMemory (pm_directory m) (brk m) (stack_base m) l (mmap_next_addr m).
Definition set_next_addr (a : Z) (m : process_memory) : process_memory :=
  ProcessMemory (pm_directory m) (brk m) (stack_base m) (mmap_regions m) a.

Definition sys_brk (memory addr : Z) : ST kmm Z :=
  if memory =? 0 then ret (- ENOMEM)
  else
    m ← get_mem memory;
    if addr =? 0 then ret (s32 (brk m))
    else if addr <? HEAP_START then ret (- EINVAL)
    else if HEAP_START + MAX_HEAP_SIZE <? addr then ret (- ENOMEM)
    else
      let old_brk := brk m in
      let new_brk := addr in
      r ← (if old_brk <? new_brk then
             let start_page := Z.land (u32 (old_brk + PAGE_SIZE_CONST - 1)) PAGE_ADDR_MASK in
             let end_page := Z.land (u32 (new_brk + PAGE_SIZE_CONST - 1)) PAGE_ADDR_MASK in
             failed ← range_loop (range_fuel start_page end_page PAGE_SIZE_CONST)
                        start_page end_page PAGE_SIZE_CONST (fun page =>
               frame ← frames_do (allocate_frame cpu);
               if frame =? NO_FRAME then ret (Some page)
               else
                 let flags := Z.lor (Z.lor PAGE_PRESENT PAGE_WRITABLE) PAGE_USER in
                 m ← get_mem memory;
                 r ← map_page junk cpu (pm_directory m) page frame flags;
                 if r <? 0 then frames_do (free_frame cpu frame);; ret (Some page) else ret None);
             match failed with
             | Some page => unmap_range memory start_page page;; ret false
             | None => ret true
             end
           else if new_brk <? old_brk then
             let start_page := Z.land (u32 (new_brk + PAGE_SIZE_CONST - 1)) PAGE_ADDR_MASK in
             let end_page := Z.land (u32 (old_brk + PAGE_SIZE_CONST - 1)) PAGE_ADDR_MASK in
             unmap_range memory start_page end_page;; ret true
           else ret true);
      if negb (r : bool) then ret (- ENOMEM)
      else
        m ← get_mem memory;
        put_mem memory (set_brk new_brk m);;
        ret (s32 new_brk).

(** "/dev/fb". *)
Definition DEV_FB : list Z := [47; 100; 101; 118; 47; 102; 98; 0].

Definition is_fb_device (fd : Z) : ST kmm bool :=
  p ← (if fd <? 0 then ret None else vfs_do (vfs_get_path_by_fd fd));
  match p with
  | None => ret false
  | Some p =>
      c ← kstrncmp (Some p) (Some DEV_FB) 7;
      if negb (c =? 0) then ret false
      else
        c ← rd p 7;
        if c =? 0 then ret true
        else if c =? 48 then c ← rd p 8; ret (c =? 0)
        else ret false
  end.

(** The first free slot, -1 when there is none. *)
Definition region_slot (memory : Z) : ST kmm Z :=
  r ← for_until (Z.to_nat MAX_MMAP_REGIONS) 0 (fun i =>
        m ← get_mem memory;
        r ← rd (mmap_regions m) i;
        if negb (r_in_use r) then ret (Some i) else ret None);
  ret (default (-1) r).

Definition put_region (memory slot : Z) (r : mmap_region) : ST kmm unit :=
  m ← get_mem memory;
  l ← wr (mmap_regions m) slot r;
  put_mem memory (set_regions l m).

(** [map_addr] is a place for [len] bytes. *)
Definition place_ok (map_addr len : Z) : bool :=
  negb ((map_addr <? USER_CODE_BASE) || (USER_SPACE_END <=? map_addr) || (USER_SPACE_END - map_addr <? len)).

(** The framebuffer pages. *)
Definition map_fb (memory len : Z) : ST kmm unit :=
  range_loop (A := unit) (range_fuel 0 VGA_FRAMEBUFFER_SIZE PAGE_SIZE_CONST) 0 (Z.min len VGA_FRAMEBUFFER_SIZE)
    PAGE_SIZE_CONST (fun off =>
    m ← get_mem memory;
    map_page junk cpu (pm_directory m) (VGA_FRAMEBUFFER_ADDR + off) (VGA_FRAMEBUFFER_ADDR + off)
      (Z.lor (Z.lor PAGE_PRESENT PAGE_WRITABLE) PAGE_USER);;
    ret None);;
  ret tt.

(** The address a mapping goes to, or the error. *)
Definition choose_addr (memory addr len flags : Z) : ST kmm (Z + Z) :=
  if negb (Z.land flags MAP_FIXED =? 0) && negb (addr =? 0) then
    let map_addr := Z.land addr PAGE_ADDR_MASK in
    if negb (place_ok map_addr len) then ret (inl (- EINVAL)) else ret (inr map_addr)
  else
    m ← get_mem memory;
    (if mmap_next_addr m =? 0 then put_mem memory (set_next_addr MMAP_BASE m) else ret tt);;
    m ← get_mem memory;
    let map_addr := mmap_next_addr m in
    if negb (place_ok map_addr len) then ret (inl (- ENOMEM))
    else put_mem memory (set_next_addr (u32 (mmap_next_addr m + len)) m);; ret (inr map_addr).

(** The anonymous pages of a mapping; 0, or the error after undoing them. *)
Definition map_anon (memory map_addr len prot : Z) : ST kmm Z :=
  let pflags := Z.lor (Z.lor PAGE_PRESENT PAGE_USER) (if negb (Z.land prot PROT_WRITE =? 0) then PAGE_WRITABLE else 0) in
  r ← range_loop (range_fuel 0 len PAGE_SIZE_CONST) 0 len PAGE_SIZE_CONST (fun off =>
        f ← frames_do (allocate_frame cpu);
        ok ← (if f =? NO_FRAME then ret false
              else m ← get_mem memory;
                   r ← map_page junk cpu (pm_directory m) (u32 (map_addr + off)) f pflags;
                   ret (negb (r <? 0)));
        if negb (ok : bool) then
          (if negb (f =? NO_FRAME) then frames_do (free_frame cpu f) else ret tt);;
          unmap_range memory map_addr (u32 (map_addr + off));;
          ret (Some (- ENOMEM))
        else zero_frame junk f;; ret None);
  ret (default 0 r).

Definition sys_mmap (memory addr len prot flags fd : Z) : ST kmm Z :=
  if len =? 0 then ret (- EINVAL)
  else if 268435456 <? len then ret (- ENOMEM)
  else if memory =? 0 then ret (- ENOMEM)
  else
    let len := Z.land (u32 (len + PAGE_SIZE_CONST - 1)) PAGE_ADDR_MASK in
    fb ← (if negb (Z.land flags MAP_FIXED =? 0) && (addr =? VGA_FRAMEBUFFER_ADDR) then ret true
          else if 0 <=? s32 fd then is_fb_device (s32 fd) else ret false);
    if (fb : bool) then map_fb memory len;; ret (s32 VGA_FRAMEBUFFER_ADDR)
    else
      slot ← region_slot memory;
      if slot <? 0 then ret (- ENOMEM)
      else
        a ← choose_addr memory addr len flags;
        match a with
        | inl err => ret err
        | inr map_addr =>
            if (Z.land flags MAP_ANON =? 0) && (0 <=? s32 fd) then
              r ← mmap_file_register memory map_addr (u32 (map_addr + len)) (s32 fd) 0 prot;
              if r <? 0 then ret (- ENOMEM)
              else put_region memory slot (MmapRegion map_addr len prot flags true);; ret (s32 map_addr)
            else
              r ← map_anon memory map_addr len prot;
              if r <? 0 then ret r
              else put_region memory slot (MmapRegion map_addr len prot flags true);; ret (s32 map_addr)
        end.

Definition sys_munmap (memory addr len : Z) : ST kmm Z :=
  if (addr =? 0) || (len =? 0) then ret (- EINVAL)
  else if memory =? 0 then ret (- ESRCH)
  else
    r ← for_until (Z.to_nat MAX_MMAP_REGIONS) 0 (fun i =>
          m ← get_mem memory;
          r ← rd (mmap_regions m) i;
          if r_in_use r && (r_addr r =? addr) then
            mmap_file_unregister memory (r_addr r) (u32 (r_addr r + r_len r));;
            unmap_range memory (r_addr r) (u32 (r_addr r + r_len r));;
            m ← get_mem memory;
            r ← rd (mmap_regions m) i;
            put_region memory i (set_in_use false r);;
            ret (Some 0)
          else ret None);
    ret (default (- EINVAL) r).

Definition sys_mprotect (memory addr len prot : Z) : ST kmm Z :=
  if (addr =? 0) || (len =? 0) then ret (- EINVAL)
  else if negb (Z.land addr (u32 (Z.lnot PAGE_ADDR_MASK)) =? 0) then ret (- EINVAL)
  else if negb (Z.land prot (u32 (Z.lnot (Z.lor (Z.lor PROT_READ PROT_WRITE) PROT_EXEC))) =? 0) then ret (- EINVAL)
  else if memory =? 0 then ret (- ESRCH)
  else
    let len := Z.land (u32 (len + PAGE_SIZE_CONST - 1)) PAGE_ADDR_MASK in
    if addr <? USER_CODE_BASE then ret (- EINVAL)
    else if u32 (USER_SPACE_END - addr) <? len then ret (- EINVAL)
    else
      range_loop (A := unit) (range_fuel 0 len PAGE_SIZE_CONST) 0 len PAGE_SIZE_CONST (fun offset =>
        m ← get_mem memory;
        phys ← get_physical_addr junk (pm_directory m) (u32 (addr + offset));
        (if negb (phys =? 0) then
           let flags := Z.lor (Z.lor PAGE_USER (if negb (prot =? PROT_NONE) then PAGE_PRESENT else 0))
                          (if negb (Z.land prot PROT_WRITE =? 0) then PAGE_WRITABLE else 0) in
           m ← get_mem memory;
           map_page junk cpu (pm_directory m) (u32 (addr + offset)) phys flags;;
           ret tt
         else ret tt);;
        ret None);;
      ret 0.

(** ** handle_demand_fault *)

Definition handle_demand_fault (memory fault_addr : Z) : ST kmm Z :=
  if memory =? 0 then ret (-1)
  else
    m ← get_mem memory;
    let pd := pm_directory m in
    if pd =? 0 then ret (-1)
    else
      d ← get_dir pd;
      r ← mmap_file_lookup (physical_addr d) fault_addr;
      match r with
      | None => ret (-1)
      | Some r =>
          let page_va := Z.land fault_addr PAGE_FRAME_MASK in
          let file_off := u32 (f_offset r + u32 (page_va - f_start r)) in
          p ← get_physical_addr junk pd page_va;
          if negb (p =? 0) then ret 0
          else
            frame ← frames_do (allocate_frame cpu);
            if frame =? NO_FRAME then ret (-1)
            else
              zero_frame junk frame;;
              let high := IDENTITY_MAP_END <=? frame in
              dst ← (if high then temp_map_frame junk frame else ret frame);
              if high && (dst =? 0) then frames_do (free_frame cpu frame);; ret (-1)
              else
                n ← vfs_do (vfs_pread (vtables junk) (f_fd r) (negb (dst =? 0)) PAGE_SIZE_CONST file_off);
                store_bytes junk dst (snd n);;
                (if high then temp_unmap_frame junk else ret tt);;
                let flags := Z.lor (Z.lor PAGE_PRESENT PAGE_USER)
                               (if negb (Z.land (f_prot r) MMAP_FILE_PROT_WRITE =? 0) then PAGE_WRITABLE else 0) in
                p ← get_physical_addr junk pd page_va;
                if negb (p =? 0) then frames_do (free_frame cpu frame);; ret 0
                else
                  r ← map_page junk cpu pd page_va frame flags;
                  if r <? 0 then frames_do (free_frame cpu frame);; ret (-1) else ret 0
      end.

End SysMem.
